(* ===== verification/_CoqProject ===== *)
-Q . S2P
Prelude.v
Math.v
Machine.v
Mem.v
CString.v
State.v
Spinlock.v
Printf.v
User.v
Locks.v
Dll.v
PageAlloc.v
Kalloc.v
Buddy.v
BuddyProps.v
Vm.v
PageTable.v
VmMap.v
VmFree.v
AddressSpace.v
Sv39.v
VmProps.v
Devices.v
KernelVm.v
VmCopy.v
VmWitness.v
Sleep.v
Critical.v
Bio.v
BlockCache.v
Bytes.v
Log.v
LogProps.v
Commit.v
LogWitness.v
Fs.v
Path.v
Txn.v
EndOp.v
Bitmap.v
Inode.v
Dinode.v
InodeIO.v
Content.v
FsProps.v
Directory.v
Namei.v
Fsinit.v
Mkfs.v
MkfsProps.v
MkfsImage.v
Mount.v
File.v
FileProps.v
Proc.v
Schedule.v
ProcAlloc.v
Exec.v
Syscall.v
SyscallProps.v
Programs.v
ProgramProps.v
Virtio.v
VirtioProps.v
Trap.v
TrapProps.v
Asm.v
TrapAsm.v
Main.v
Boot.v
