(* ===== verification/Prelude.v ===== *)
(** * xv6-zwhu: a verification development of the teaching kernel under src/riscv-os

    ** The program and its parts

    The program is a RISC-V kernel in C, after xv6. start (kernel/boot/start.c) leaves
    machine mode; main (kernel/boot/main.c) on hart 0 initialises the console, the page
    allocator, paging, the process table, traps, the interrupt controller, the buffer cache,
    the inode table and the disk, makes the first process and enters the scheduler. A process
    enters the kernel through usertrap (kernel/trap/trap.c), which dispatches system calls
    (kernel/lib/syscall.c) to kernel/proc/sysproc.c and kernel/disk/sysfile.c. Those use the
    process table (kernel/proc/proc.c), virtual memory (kernel/mm/vm.c over
    kernel/mm/kalloc.c), exec (kernel/lib/exec.c) and open files (kernel/disk/file.c); files
    are inodes (kernel/disk/fs.c), whose blocks go through the write-ahead log
    (kernel/disk/log.c), the buffer cache (kernel/disk/bio.c) and the driver
    (kernel/driver/virtio_disk.c). Spin locks (kernel/lib/spinlock.c) and sleep locks
    (kernel/lib/sleeplock.c) protect the shared data. kernel/mm/buddy.c is a second allocator
    over kernel/lib/list.c and kernel/lib/math.c. mkfs/mkfs.c makes the disk image on the host;
    user/ulib.c and user/printf.c are linked to the programs that run on the kernel,
    user/waiter.c (the first process), usertest.c, filetest.c and test.c. Registers are saved
    and stacks switched by assembly: entry.S, swtch.S, trampoline.S, kernelVec.S and the system
    call stubs of user/usys.S.

    ** The state and how code becomes definitions

    [State.kernel] is one record: the registers of the hart that runs and its struct cpu
    ([k_hart], [k_csr]), the lock words ([k_locks], one entry for each lock variable of the
    kernel), physical memory as a map from addresses to bytes ([k_mem], module [Mem]), and one
    field for each table or variable of the C code ([k_procs] for proc[NPROC], [k_bcache],
    [k_log], [k_itable], [k_ftable], [k_vdisk], [k_kmem], [k_buddy], ...), the blocks of the
    disk ([k_disk]), the bytes sent to the console ([k_uart]) and the device registers the
    kernel wrote ([k_mmio]). An index into a table stands for a pointer to its entry, and
    [option nat] for one that may be null; pages, page tables, trap frames, user memory, the
    lists of list.c and the data of the buddy allocator are addresses in [k_mem]. A C integer
    is a [Z], with the wrap-around of its type written out (u8, u16, u32, u64, s16, s32, s64).

    A C function is a definition of the same name in the monad [KM A = kernel -> res kernel A].
    [Ok] is a return; [Stop] is a panic with its message, undefined behaviour of C, a loop that
    waits for ever ([Spin]), a context switch ([Switch]) or spent fuel. A function that calls
    swtch stops at it in the state in which the other side goes on; what it does after it is
    chosen again is a definition of its own, [sched_resume], [sleep_resume], [yield_resume],
    [kernelTrap_resume], [usertrap_resume]. The module [Schedule] puts these together: a machine
    of many harts over the shared state, whose step relation [turn] interleaves the turns of
    scheduler, yield, sleep, wakeup, exit and kill; [Locks.Interleaving] does the same at the
    grain of single memory accesses for acquire and release. Assembly is a list of instructions
    over [Asm.machine], the registers of the hart with its memory as the MMU shows it. A user
    program is the tree of its system calls ([Programs.prog]).

    ** Files

    - [Prelude]: integers, tactics, the monad and its notation. [Mem], [CString]
      (kernel/lib/string.c), [State] (the headers), [Bytes] (integers in the bytes of a block).
    - [Math] (math.c), [Dll] (list.c), [Buddy] and [BuddyProps] (buddy.c).
    - [Machine] (start.c and the registers of riscv.h), [Devices] (plic.c, uartinit, consoleinit,
      kVmInitHart, printPgtbl), [Main] and [Boot] (main.c).
    - [Spinlock], [Locks], [Critical] (spinlock.c), [Printf] (printf.c, uart.c, console.c).
    - [PageAlloc]: the class [PageAllocator], what the page tables and the processes rely on;
      [Kalloc] (kalloc.c) is its instance.
    - [Vm] (vm.c and the copies of proc.c) over any page allocator; [PageTable], [VmMap],
      [VmFree], [AddressSpace]: a page table as a tree and the routines on it; [Sv39]: the
      walk of the MMU; [VmProps], [VmCopy], [VmWitness]: the theorems; [KernelVm]: kVmMake.
    - [Sleep] (sched, sleep, wakeup, sleeplock.c), [Proc], [Schedule], [ProcAlloc] (proc.c).
    - [Bio] (bio.c), with [BlockCache]: the class [BlockDevice], the contract of the disk the
      cache relies on, and what the cache promises over it; [Virtio] (virtio_disk.c) and
      [VirtioProps], where the driver and a device that keeps the class [VirtioDevice] give it.
    - [Log] (log.c), [LogProps], [Commit], [LogWitness], [Txn], [EndOp].
    - [Fs] (fs.c), [Path], [Bitmap], [Inode], [Dinode], [InodeIO], [Content], [FsProps],
      [Directory], [Namei], [Fsinit]; [Mkfs] (mkfs.c), [MkfsProps], [MkfsImage]; [Mount], the kernel on
      the image of mkfs.
    - [File] (file.c, consolewrite), [FileProps]; [Exec] (exec.c); [Syscall] (syscall.c,
      sysproc.c, sysfile.c), [SyscallProps]; [Trap] (trap.c, forkret), [TrapProps].
    - [Asm] (swtch.S, trampoline.S, kernelVec.S, entry.S), [TrapAsm]: the assembly with the C
      code on both sides of it, and usys.S.
    - [User] (user/ulib.c, user/printf.c): the library of the user programs; [Programs] and
      [ProgramProps]: the programs, over a specification of the system calls.

    ** What the theorems show

    - Locks: one hart at a time in a critical section, for any interleaving of the accesses.
    - Memory: kinit, kalloc and kfree keep the free list and the bitmap in step and refine a set
      of free pages; bd_malloc refines a set of free blocks for each size; the lists of list.c
      refine sequences.
    - Paging: mapPages, uvmcopy, uVA2PA, freeing and copying agree with what the MMU does with
      the tables in memory, and lose or share no page; the kernel's own address space is what
      kVmMake means to build, with guard pages and nothing both writable and executable.
    - Processes: one hart runs a process at a time and a runnable process can always run next;
      allocation, exit and wait give pages back; sleep loses no wake-up.
    - Storage: reading back what was written, through the cache, the log and the file system;
      commit and recovery; the log never overflows; blocks and inodes are not shared;
      references to inodes and files are counted; namei goes where the directories on the disk
      lead and drops every reference but one. mkfs makes an image on which the kernel finds a
      well-formed file system with the files it was given; fsinit mounts it without a repair,
      and the bytes of the files are read back.
    - Traps and boot: preemption by the clock, system calls and faults; start and main reach the
      scheduler with the invariant of every component established, and the first process runs.
    - Assembly: swtch saves and restores what its callers rely on; between two traps a process
      goes from usertrap through userret to user mode and through uservec back to usertrap, with
      the registers of its trapframe and on its kernel stack; kernelVec restores every register.
    - User programs: printf writes the text its format and arguments denote, numbers read back;
      the first process waits for orphans for ever; the test programs succeed on a kernel that
      keeps its promises.
    - Some theorems state what the code does where that is not what it means to do; the
      findings of the manifest list them.

    ** Bounds and fuel

    Loops over a table or a list run structurally. A loop that is not structural has fuel
    computed from the data it runs over: one turn for each page or block of a copy, each entry
    of a directory, each element of a path, each buffer of the ring, 64 bits of a word, 52
    doublings of a page for firstk. [OutOfFuel] is a [Stop], so that every theorem that gives an
    [Ok] or another result also shows that the fuel was enough. Theorems about sizes carry the
    bound they need: file contents stay in the blocks bmap reaches, reference counts below
    2^31, nesting of push_off below 2^30, and a count of buffers for the blocks that an
    operation reads, of which the cache has 90. The endless loop of waiter.c is cut off after
    any number of turns.

    ** Assumptions

    The class [Layout] holds the link-time addresses (end, etext, trampoline) with what
    scripts/kernel.ld says of them; buf_addr, stack, elf, ph, ustack, path_buf, uarg are the
    addresses of C objects whose address the code takes; forkret_addr, kernelVec, uservec,
    userret, usertrap_addr are the addresses of code. The disk is a parameter: [VirtioDevice]
    and [disk_present] state what the virtio specification says of it, and a concrete device
    instantiates them in the witnesses. The claim register of the PLIC is a parameter. Memory is
    sequentially consistent and there is no TLB.

    ** Not modelled

    The prototypes of include/defs.h and the macros of the headers that no code uses; what mkfs
    prints; the instructions between _entry and the end of entry.S that are reached only if
    start returns. The specification of the system calls that the user programs run on
    ([ProgramProps.post]) is stated for one process at a time and is not derived from the
    definitions of [Syscall]; the theorems about the file system are for files of at most 12
    blocks, since bmap does not reach an indirect block as it is meant to. *)

From stdpp Require Export base tactics numbers option list gmap strings.
From Stdlib Require Export ZArith Lia.

#[global] Set Default Goal Selector "!".
#[export] Set Warnings "-clear-no-such-hyp".

Open Scope Z_scope.

(** ** Machine integers

    A [w]-bit C integer is a [Z]; the conversions below write out the
    wrap-around of each C type used by the kernel (include/types.h). *)

Definition u8 (x : Z) : Z := x mod 2 ^ 8.
Definition u16 (x : Z) : Z := x mod 2 ^ 16.
Definition u32 (x : Z) : Z := x mod 2 ^ 32.
Definition u64 (x : Z) : Z := x mod 2 ^ 64.
Definition s16 (x : Z) : Z := (x + 2 ^ 15) mod 2 ^ 16 - 2 ^ 15.
Definition s32 (x : Z) : Z := (x + 2 ^ 31) mod 2 ^ 32 - 2 ^ 31.
Definition s64 (x : Z) : Z := (x + 2 ^ 63) mod 2 ^ 64 - 2 ^ 63.

#[global] Arguments u8 : simpl never.
#[global] Arguments u16 : simpl never.
#[global] Arguments u32 : simpl never.
#[global] Arguments u64 : simpl never.
#[global] Arguments s16 : simpl never.
#[global] Arguments s32 : simpl never.
#[global] Arguments s64 : simpl never.
#[global] Arguments Z.land : simpl never.
#[global] Arguments Z.lor : simpl never.
#[global] Arguments Z.lnot : simpl never.
#[global] Arguments Z.add : simpl never.
#[global] Arguments Z.sub : simpl never.
#[global] Arguments Z.mul : simpl never.

(** C truth values. *)
Definition b2z (b : bool) : Z := if b then 1 else 0.
Definition truthy (x : Z) : bool := negb (x =? 0).

(** ** Tactics *)

(** [lia] with the Euclidean equations of every quotient in sight. *)
Ltac zdm := Z.to_euclidean_division_equations; lia.

(** Unfold the integer conversions and let the constants compute. *)
Ltac unfold_ints :=
  unfold u8, u16, u32, u64, s16, s32, s64 in *;
  change (2 ^ 8) with 256 in *; change (2 ^ 15) with 32768 in *;
  change (2 ^ 16) with 65536 in *; change (2 ^ 31) with 2147483648 in *;
  change (2 ^ 32) with 4294967296 in *;
  change (2 ^ 63) with 9223372036854775808 in *;
  change (2 ^ 64) with 18446744073709551616 in *.

Ltac ints := unfold_ints; zdm.

(** Split the conjunctions and existentials of the context. *)
Ltac deex :=
  repeat match goal with
         | H : exists x, _ |- _ => let y := fresh x in destruct H as [y H]
         | H : _ /\ _ |- _ => destruct H
         end.

(** Turn boolean comparisons of the context and the goal into [Prop]. *)
Ltac zbool :=
  repeat match goal with
         | H : (_ <? _) = true |- _ => apply Z.ltb_lt in H
         | H : (_ <? _) = false |- _ => apply Z.ltb_ge in H
         | H : (_ <=? _) = true |- _ => apply Z.leb_le in H
         | H : (_ <=? _) = false |- _ => apply Z.leb_gt in H
         | H : (_ =? _) = true |- _ => apply Z.eqb_eq in H
         | H : (_ =? _) = false |- _ => apply Z.eqb_neq in H
         | H : (_ && _)%bool = true |- _ => apply andb_true_iff in H as [? ?]
         | H : (_ || _)%bool = false |- _ => apply orb_false_iff in H as [? ?]
         | H : negb _ = true |- _ => apply negb_true_iff in H
         | H : negb _ = false |- _ => apply negb_false_iff in H
         end.

(** Replace a decided comparison by its value. *)
Ltac zif :=
  repeat match goal with
         | |- context [?a <? ?b] =>
             first [ rewrite (proj2 (Z.ltb_lt a b)) by lia
                   | rewrite (proj2 (Z.ltb_ge a b)) by lia ]
         | |- context [?a <=? ?b] =>
             first [ rewrite (proj2 (Z.leb_le a b)) by lia
                   | rewrite (proj2 (Z.leb_gt a b)) by lia ]
         | |- context [?a =? ?b] =>
             first [ rewrite (proj2 (Z.eqb_eq a b)) by lia
                   | rewrite (proj2 (Z.eqb_neq a b)) by lia ]
         end; cbn [andb orb negb].

(** Case analysis on every comparison of the goal. *)
Ltac zcases :=
  repeat match goal with
         | |- context [?a <? ?b] => destruct (Z.ltb_spec a b)
         | |- context [?a <=? ?b] => destruct (Z.leb_spec a b)
         | |- context [?a =? ?b] => destruct (Z.eqb_spec a b)
         end; cbn [andb orb negb]; try done; try lia.

Create HintDb ints.
Create Rewrite HintDb ints.

Lemma u8_small x : 0 <= x < 256 -> u8 x = x.
Proof. intros. ints. Qed.
Lemma u16_small x : 0 <= x < 2 ^ 16 -> u16 x = x.
Proof. intros. ints. Qed.
Lemma u32_small x : 0 <= x < 2 ^ 32 -> u32 x = x.
Proof. intros. ints. Qed.
Lemma u64_small x : 0 <= x < 2 ^ 64 -> u64 x = x.
Proof. intros. ints. Qed.
Lemma s32_small x : - 2 ^ 31 <= x < 2 ^ 31 -> s32 x = x.
Proof. intros. ints. Qed.
Lemma s64_small x : - 2 ^ 63 <= x < 2 ^ 63 -> s64 x = x.
Proof. intros. ints. Qed.
Lemma u32_below x : 0 <= x < 2 ^ 31 -> u32 x < 2 ^ 31.
Proof. intros. ints. Qed.
Lemma u8_range x : 0 <= u8 x < 256.
Proof. ints. Qed.
Lemma u16_range x : 0 <= u16 x < 2 ^ 16.
Proof. ints. Qed.
Lemma u32_range x : 0 <= u32 x < 2 ^ 32.
Proof. ints. Qed.
Lemma u64_range x : 0 <= u64 x < 2 ^ 64.
Proof. ints. Qed.
Lemma s32_range x : - 2 ^ 31 <= s32 x < 2 ^ 31.
Proof. ints. Qed.
Lemma u8_idem x : u8 (u8 x) = u8 x.
Proof. ints. Qed.
Lemma u8_testbit x k : 0 <= k < 8 -> Z.testbit (u8 x) k = Z.testbit x k.
Proof. intros H. unfold u8. apply Z.mod_pow2_bits_low. lia. Qed.
Lemma u64_idem x : u64 (u64 x) = u64 x.
Proof. ints. Qed.
Lemma u64_add_l a b : u64 (u64 a + b) = u64 (a + b).
Proof. unfold u64. by rewrite Z.add_mod_idemp_l. Qed.

#[export] Hint Resolve u8_range u16_range u32_range u64_range s32_range : ints.
#[export] Hint Rewrite u8_idem u64_idem u64_add_l : ints.

(** ** The state-and-error monad

    A kernel routine is a function from the machine state to a result: it
    returns a value with the new state, or stops. A routine stops when it
    calls [panic] (the hart then spins for ever), when it reaches behaviour
    the C standard leaves undefined, when it spins on a lock nobody on this
    hart can release, when it switches to the scheduler (the process then goes
    on when it is chosen again), or when the fuel of a loop is spent. *)

(** A sleep channel is the address of the object slept on. *)
Inductive chan : Type :=
| Ch_log | Ch_ticks | Ch_disk_free
| Ch_buf (i : nat) | Ch_buflock (i : nat) | Ch_inodelock (i : nat) | Ch_proc (i : nat).

#[export] Instance chan_eq_dec : EqDecision chan.
Proof. solve_decision. Defined.

Inductive stop : Type :=
| Panic (msg : string)
| Undefined (what : string)
| Spin (what : string)
| Switch
| OutOfFuel.

Inductive res (S A : Type) : Type :=
| Ok (a : A) (s : S)
| Stop (e : stop) (s : S).
Arguments Ok {S A} a s.
Arguments Stop {S A} e s.

Definition is_ok {S A} (r : res S A) : bool :=
  match r with Ok _ _ => true | Stop _ _ => false end.
Definition res_state {S A} (r : res S A) : S :=
  match r with Ok _ s => s | Stop _ s => s end.

Definition M (S A : Type) : Type := S -> res S A.

Section Monad.
Context {S : Type}.
Definition ret {A} (a : A) : M S A := fun s => Ok a s.
Definition bind {A B} (m : M S A) (f : A -> M S B) : M S B :=
  fun s => match m s with Ok a s' => f a s' | Stop e s' => Stop e s' end.
Definition get {A} (f : S -> A) : M S A := fun s => Ok (f s) s.
Definition modify (f : S -> S) : M S unit := fun s => Ok tt (f s).
Definition halt {A} (e : stop) : M S A := fun s => Stop e s.
End Monad.

Declare Scope kernel_scope.
Delimit Scope kernel_scope with kernel.
Notation "'let!' x ':=' c1 'in' c2" := (bind c1 (fun x => c2))
  (at level 10, x name, c1 at level 200, c2 at level 200,
   format "'[v' 'let!'  x  ':='  c1  'in' '//' c2 ']'") : kernel_scope.
Notation "'let!' ' x ':=' c1 'in' c2" := (bind c1 (fun x => c2))
  (at level 10, x strict pattern, c1 at level 200, c2 at level 200) : kernel_scope.
Notation "'do!' c1 ';' c2" := (bind c1 (fun _ => c2))
  (at level 10, c1 at level 200, c2 at level 200,
   format "'[v' 'do!'  c1 ';' '//' c2 ']'") : kernel_scope.
Notation "'when!' b 'then' c" := (if b then c else ret tt)
  (at level 10, b at level 200, c at level 200) : kernel_scope.
Open Scope kernel_scope.

(** A loop over a list of indices. *)
Fixpoint foreach {S A} (l : list A) (body : A -> M S unit) : M S unit :=
  match l with
  | [] => ret tt
  | x :: l' => do! body x; foreach l' body
  end.

Lemma bind_ok {S A B} (m : M S A) (f : A -> M S B) s a s' :
  m s = Ok a s' -> bind m f s = f a s'.
Proof. intros H. unfold bind. by rewrite H. Qed.

Lemma bind_stop {S A B} (m : M S A) (f : A -> M S B) s e s' :
  m s = Stop e s' -> bind m f s = Stop e s'.
Proof. intros H. unfold bind. by rewrite H. Qed.

Lemma bind_inv {S A B} (m : M S A) (f : A -> M S B) s b s'' :
  bind m f s = Ok b s'' -> exists a s', m s = Ok a s' /\ f a s' = Ok b s''.
Proof. unfold bind. destruct (m s); naive_solver. Qed.

Lemma bind_assoc {S A B C} (m : M S A) (f : A -> M S B) (g : B -> M S C) s :
  bind (bind m f) g s = bind m (fun x => bind (f x) g) s.
Proof. unfold bind. by destruct (m s). Qed.

(** [mstep H] runs the first statement of the routine with the equation [H]. *)
Ltac mstep H := rewrite (bind_ok _ _ _ _ _ H); cbn beta.
