(* ===== verification/Math.v ===== *)
(** * kernel/lib/math.c: the integer logarithm and powers

    An int operation that leaves the range of int wraps around, which is what the
    RISC-V instructions do. The loop of [power] never ends on a negative exponent:
    the shift of a negative int keeps its sign. *)

From S2P Require Import Prelude.

(** ** The routines *)

(** [while(x > 1){ k++; x >>= 1; }] *)
Fixpoint log2_loop (fuel : nat) (x k : Z) : option Z :=
  match fuel with
  | O => None
  | S f => if 1 <? x then log2_loop f (Z.shiftr x 1) (s32 (k + 1)) else Some k
  end.

(** A uint64 is at most 1 after 63 rounds. *)
Definition log2 (x : Z) : option Z := log2_loop 64 x 0.

(** [while(n){ if(n & 1) sum *= base; base *= base; n >>= 1; }] *)
Fixpoint power_loop (fuel : nat) (base sum n : Z) : option Z :=
  match fuel with
  | O => None
  | S f =>
      if truthy n then
        let sum := if truthy (Z.land n 1) then s32 (sum * base) else sum in
        power_loop f (s32 (base * base)) sum (Z.shiftr n 1)
      else Some sum
  end.

(** A non-negative int is 0 after 31 rounds. *)
Definition power (a n : Z) : option Z := power_loop 32 a 1 n.

(** ** log2 *)

Lemma log2_loop_ok f : forall x k,
  1 <= x < 2 ^ Z.of_nat f -> 0 <= k -> k + Z.of_nat f < 2 ^ 31 -> log2_loop f x k = Some (k + Z.log2 x).
Proof.
  induction f as [|f IH]; intros x k Hx Hk Hb; [change (Z.of_nat 0) with 0 in Hx; rewrite Z.pow_0_r in Hx; lia|].
  rewrite Nat2Z.inj_succ in Hx, Hb. rewrite Z.pow_succ_r in Hx by lia. cbn [log2_loop].
  destruct (Z.ltb_spec 1 x) as [H1|H1].
  - rewrite s32_small by lia. rewrite Z.shiftr_div_pow2 by lia. change (2 ^ 1) with 2.
    rewrite IH; [|zdm|lia|lia]. f_equal.
    assert (Z.log2 (x / 2) = Z.log2 x - 1) as ->; [|lia].
    replace (x / 2) with (Z.shiftr x 1) by (by rewrite Z.shiftr_div_pow2 by lia).
    rewrite Z.log2_shiftr by lia. pose proof (Z.log2_pos x). lia.
  - replace x with 1 by lia. change (Z.log2 1) with 0. f_equal. lia.
Qed.

(** Log2 of a uint64 other than 0 is the number of its highest bit: 2^k <= x < 2^(k+1).
    Of 0 it is 0. *)
Theorem log2_correct x :
  0 <= x < 2 ^ 64 -> exists k, log2 x = Some k /\ 0 <= k < 64 /\ (0 < x -> 2 ^ k <= x < 2 ^ (k + 1)).
Proof.
  intros Hx. destruct (decide (x = 0)) as [->|Hne]; [exists 0; split; [reflexivity|lia]|].
  exists (Z.log2 x). unfold log2. rewrite log2_loop_ok; [|change (2 ^ Z.of_nat 64) with (2 ^ 64); lia|lia|lia].
  split; [done|]. split; [|intros; by apply Z.log2_spec].
  split; [apply Z.log2_nonneg|]. apply Z.log2_lt_pow2; lia.
Qed.

Lemma log2_correct_witness : exists k, log2 5 = Some k /\ 2 ^ k <= 5 < 2 ^ (k + 1).
Proof. destruct (log2_correct 5) as (k & E & _ & H); [lia|]. exists k. split; [exact E|apply H; lia]. Defined.

(** ** power *)

(** Wrapping is compatible with products. *)
Lemma s32_mul_l a b : s32 (s32 a * b) = s32 (a * b).
Proof.
  unfold s32. f_equal. rewrite <- (Z.add_mod_idemp_l (_ * b)), <- (Z.add_mod_idemp_l (a * b)) by lia.
  do 2 f_equal. rewrite <- Z.mul_mod_idemp_l by lia. rewrite <- (Z.mul_mod_idemp_l a) by lia. do 2 f_equal.
  rewrite Zminus_mod_idemp_l. f_equal. lia.
Qed.

Lemma s32_mul a b : s32 (s32 a * s32 b) = s32 (a * b).
Proof. rewrite s32_mul_l, Z.mul_comm, s32_mul_l. f_equal. lia. Qed.

Lemma s32_idem a : s32 (s32 a) = s32 a.
Proof. apply s32_small. pose proof (s32_range a). lia. Qed.

Lemma s32_pow a n : 0 <= n -> s32 (s32 a ^ n) = s32 (a ^ n).
Proof.
  intros Hn. pattern n. apply natlike_ind; [reflexivity| |done]. clear. intros n Hn IH.
  rewrite !Z.pow_succ_r by done. rewrite <- (s32_mul _ (s32 a ^ n)), IH, <- (s32_mul a). by rewrite s32_idem.
Qed.

Lemma half_split n : n = 2 * Z.shiftr n 1 + Z.land n 1.
Proof.
  rewrite Z.shiftr_div_pow2 by lia. change 1 with (Z.ones 1) at 2. rewrite Z.land_ones by lia. change (2 ^ 1) with 2. zdm.
Qed.

(** The product [sum * base^n] stays what it is, up to wrapping. *)
Lemma power_loop_ok f : forall base sum n,
  0 <= n < 2 ^ Z.of_nat f -> s32 sum = sum -> power_loop (S f) base sum n = Some (s32 (sum * base ^ n)).
Proof.
  induction f as [|f IH]; intros base sum n Hn Hs; change (power_loop (S ?g) base sum n) with
    (if truthy n then power_loop g (s32 (base * base)) (if truthy (Z.land n 1) then s32 (sum * base) else sum) (Z.shiftr n 1) else Some sum).
  - assert (n = 0) as -> by (change (2 ^ Z.of_nat 0) with 1 in Hn; lia). cbn. f_equal. rewrite Z.mul_1_r. by rewrite Hs.
  - unfold truthy at 1. destruct (Z.eqb_spec n 0) as [->|Hne]; [cbn; f_equal; rewrite Z.mul_1_r; by rewrite Hs|]. cbn [negb].
    pose proof (half_split n) as Hh. rewrite Nat2Z.inj_succ, Z.pow_succ_r in Hn by lia.
    assert (0 <= Z.shiftr n 1) as H0 by (apply Z.shiftr_nonneg; lia).
    assert (Z.land n 1 = 0 \/ Z.land n 1 = 1) as Hb.
    { change 1 with (Z.ones 1). rewrite Z.land_ones by (vm_compute; done). change (2 ^ 1) with 2. change (Z.ones 1) with 1. zdm. }
    set (h := Z.shiftr n 1) in *.
    rewrite IH; [|lia|destruct Hb as [-> | ->]; cbn; [done|apply s32_idem]]. f_equal.
    assert (base ^ n = (base * base) ^ h * base ^ Z.land n 1) as ->.
    { rewrite Hh at 1. rewrite Z.pow_add_r by lia. rewrite Z.pow_mul_r by lia. by rewrite Z.pow_2_r. }
    rewrite <- (s32_mul _ (s32 (base * base) ^ h)), s32_pow by done.
    destruct Hb as [-> | ->]; cbn; [rewrite Z.mul_1_r|rewrite s32_idem, Z.pow_1_r]; rewrite s32_mul; f_equal; ring.
Qed.

Lemma power_loop_negative f : forall base sum n, n < 0 -> power_loop f base sum n = None.
Proof.
  induction f as [|f IH]; intros base sum n Hn; [done|]. cbn [power_loop]. unfold truthy at 1.
  rewrite (proj2 (Z.eqb_neq n 0)) by lia. apply IH. apply Z.shiftr_neg. done.
Qed.

(** C39: power a n is a^n, wrapped to an int, for every n that is not negative; for a
    negative n no number of rounds ends the loop. *)
Theorem power_correct a n :
  - 2 ^ 31 <= n < 2 ^ 31 ->
  (0 <= n -> power a n = Some (s32 (a ^ n))) /\ (n < 0 -> forall fuel, power_loop fuel a 1 n = None).
Proof.
  intros Hn. split; intros H.
  - unfold power. rewrite power_loop_ok; [by rewrite Z.mul_1_l|change (Z.of_nat 31) with 31; lia|reflexivity].
  - intros fuel. by apply power_loop_negative.
Qed.

Lemma power_correct_witness : power 3 19 = Some 1162261467 /\ power_loop 1000 2 1 (-1) = None.
Proof.
  split.
  - destruct (power_correct 3 19) as [H _]; [lia|]. rewrite H by lia. reflexivity.
  - destruct (power_correct 2 (-1)) as [_ H]; [lia|]. apply H. lia.
Defined.
