(* ===== verification/Machine.v ===== *)
(** * The control registers and kernel/boot/start.c

    start runs in machine mode on every hart, before paging and before main. Its state is
    the hart's registers, each a 64-bit word that holds what was written to it; the
    accessors are those of include/riscv.h. mret ends it: the hart goes on in the mode
    that mstatus names, at the address in mepc. *)

From S2P Require Import Prelude.

Module Start.

(** ** The registers and their accessors (include/riscv.h) *)

Inductive csr :=
| c_mhartid | c_mstatus | c_mepc | c_medeleg | c_mideleg | c_mie | c_menvcfg | c_mcounteren
| c_pmpaddr0 | c_pmpcfg0 | c_satp | c_sie | c_sip | c_stimecmp | c_time | c_tp.

(** Equality of registers, by case analysis. *)
Definition csr_eqb (a b : csr) : bool :=
  match a, b with
  | c_mhartid, c_mhartid | c_mstatus, c_mstatus | c_mepc, c_mepc | c_medeleg, c_medeleg | c_mideleg, c_mideleg
  | c_mie, c_mie | c_menvcfg, c_menvcfg | c_mcounteren, c_mcounteren | c_pmpaddr0, c_pmpaddr0 | c_pmpcfg0, c_pmpcfg0
  | c_satp, c_satp | c_sie, c_sie | c_sip, c_sip | c_stimecmp, c_stimecmp | c_time, c_time | c_tp, c_tp => true
  | _, _ => false
  end.

Definition regs : Type := csr -> Z.

Definition csrr (r : csr) : M regs Z := get (fun f => f r).
Definition csrw (r : csr) (v : Z) : M regs unit :=
  modify (fun f q => if csr_eqb q r then u64 v else f q).

Definition r_mhartid := csrr c_mhartid.
Definition r_mstatus := csrr c_mstatus.
Definition w_mstatus := csrw c_mstatus.
Definition w_mepc := csrw c_mepc.
Definition r_sip := csrr c_sip.
Definition w_sip := csrw c_sip.
Definition r_sie := csrr c_sie.
Definition w_sie := csrw c_sie.
Definition r_mie := csrr c_mie.
Definition w_mie := csrw c_mie.
Definition r_medeleg := csrr c_medeleg.
Definition w_medeleg := csrw c_medeleg.
Definition r_mideleg := csrr c_mideleg.
Definition w_mideleg := csrw c_mideleg.
Definition r_stimecmp := csrr c_stimecmp.
Definition w_stimecmp := csrw c_stimecmp.
Definition r_menvcfg := csrr c_menvcfg.
Definition w_menvcfg := csrw c_menvcfg.
Definition w_pmpcfg0 := csrw c_pmpcfg0.
Definition w_pmpaddr0 := csrw c_pmpaddr0.
Definition r_satp := csrr c_satp.
Definition w_satp := csrw c_satp.
Definition w_mcounteren := csrw c_mcounteren.
Definition r_mcounteren := csrr c_mcounteren.
Definition r_time := csrr c_time.
Definition r_tp := csrr c_tp.
Definition w_tp := csrw c_tp.

Definition MSTATUS_MPP_MASK : Z := Z.shiftl 3 11.
Definition MSTATUS_MPP_M : Z := Z.shiftl 3 11.
Definition MSTATUS_MPP_S : Z := Z.shiftl 1 11.
Definition MSTATUS_MPP_U : Z := Z.shiftl 0 11.
Definition SIE_SEIE : Z := Z.shiftl 1 9.
Definition SIE_STIE : Z := Z.shiftl 1 5.
Definition MIE_STIE : Z := Z.shiftl 1 5.

(** ** start *)

Definition timerinit : M regs unit :=
  let! mie := r_mie in
  do! w_mie (Z.lor mie MIE_STIE);
  let! cfg := r_menvcfg in
  do! w_menvcfg (Z.lor cfg (Z.shiftl 1 63));
  let! en := r_mcounteren in
  do! w_mcounteren (Z.lor en 2);
  let! t := r_time in
  w_stimecmp (t + 1000000).

(** The mode and the address at which the hart goes on. *)
Definition mret : M regs (Z * Z) :=
  let! st := r_mstatus in
  let! pc := csrr c_mepc in
  ret (Z.land st MSTATUS_MPP_MASK, pc).

Definition start (main : Z) : M regs (Z * Z) :=
  let! x := r_mstatus in
  let x := Z.land x (Z.lnot MSTATUS_MPP_MASK) in
  let x := Z.lor x MSTATUS_MPP_S in
  do! w_mstatus x;
  do! w_mepc main;
  do! w_satp 0;
  do! w_medeleg 0xffff;
  do! w_mideleg 0xffff;
  let! sie := r_sie in
  do! w_sie (Z.lor sie SIE_SEIE);
  do! w_pmpaddr0 0x3fffffffffffff;
  do! w_pmpcfg0 0xf;
  do! timerinit;
  let! id := r_mhartid in
  do! w_tp (s32 id);
  mret.

(** ** What start leaves *)

Lemma u64_ones x : u64 x = Z.land x (Z.ones 64).
Proof. by rewrite Z.land_ones by lia. Qed.

Lemma word_lor a b : 0 <= a < 2 ^ 64 -> 0 <= b < 2 ^ 64 -> u64 (Z.lor a b) = Z.lor a b.
Proof. intros Ha Hb. rewrite u64_ones, Z.land_lor_distr_l, <- !u64_ones. by rewrite !u64_small. Qed.

Lemma word_land a b : 0 <= a < 2 ^ 64 -> 0 <= Z.land a b < 2 ^ 64.
Proof.
  intros Ha. replace (Z.land a b) with (u64 (Z.land a b)); [apply u64_range|].
  rewrite u64_ones, <- Z.land_assoc, (Z.land_comm b), Z.land_assoc, <- u64_ones. by rewrite u64_small.
Qed.

(** Bits of the field MPP. *)
Lemma mpp_supervisor x :
  Z.land (Z.lor (Z.land x (Z.lnot MSTATUS_MPP_MASK)) MSTATUS_MPP_S) MSTATUS_MPP_MASK = MSTATUS_MPP_S.
Proof.
  rewrite Z.land_lor_distr_l, <- Z.land_assoc, (Z.land_comm (Z.lnot _)), Z.land_lnot_diag, Z.land_0_r. reflexivity.
Qed.

(** A hart leaves start in supervisor mode at main, with its number in tp, paging off, the
    traps delegated to the supervisor, external interrupts and the supervisor's timer
    enabled, and the first timer interrupt due a million cycles from now. Of mstatus only
    the field MPP changes. *)
Theorem start_hands_over main f :
  (forall r, 0 <= f r < 2 ^ 64) -> 0 <= main < 2 ^ 64 -> f c_time + 1000000 < 2 ^ 64 -> f c_mhartid < 2 ^ 31 ->
  exists f', start main f = Ok (MSTATUS_MPP_S, main) f' /\
    f' c_tp = f c_mhartid /\ f' c_satp = 0 /\ f' c_medeleg = 0xffff /\ f' c_mideleg = 0xffff /\
    f' c_sie = Z.lor (f c_sie) SIE_SEIE /\ f' c_mie = Z.lor (f c_mie) MIE_STIE /\
    Z.testbit (f' c_menvcfg) 63 = true /\ Z.testbit (f' c_mcounteren) 1 = true /\
    f' c_stimecmp = f c_time + 1000000 /\
    forall i, 0 <= i -> i <> 11 -> i <> 12 -> Z.testbit (f' c_mstatus) i = Z.testbit (f c_mstatus) i.
Proof.
  intros Hf Hm Ht Hid. pose proof (Hf c_time). pose proof (Hf c_mhartid).
  assert (Z.shiftl 1 63 = 2 ^ 63) as E63 by reflexivity.
  eexists. split.
  - unfold start, mret, ret, bind, csrr, csrw, get, modify.
    cbn -[MSTATUS_MPP_MASK MSTATUS_MPP_S]. unfold bind, csrr, get, ret. cbn -[MSTATUS_MPP_MASK MSTATUS_MPP_S].
    rewrite word_lor by (try apply word_land; try apply Hf; vm_compute; split; congruence).
    rewrite mpp_supervisor, u64_small by lia. reflexivity.
  - cbn -[MSTATUS_MPP_MASK MSTATUS_MPP_S SIE_SEIE MIE_STIE Z.shiftl Z.testbit]. rewrite !word_lor by (try apply word_land; try apply Hf; vm_compute; split; congruence).
    rewrite s32_small, !u64_small by lia. repeat (split; [done|]).
    split; [rewrite E63, Z.lor_spec, Z.pow2_bits_true by lia; apply orb_true_r|].
    split; [rewrite Z.lor_spec; apply orb_true_r|]. split; [done|].
    intros i Hi H11 H12. rewrite Z.lor_spec, Z.land_spec, Z.lnot_spec by done.
    assert (Z.testbit MSTATUS_MPP_MASK i = false) as ->.
    { unfold MSTATUS_MPP_MASK. destruct (decide (i < 11)); [apply Z.shiftl_spec_low; lia|].
      rewrite Z.shiftl_spec by lia. apply Z.bits_above_log2; [lia|]. change (Z.log2 3) with 1. lia. }
    assert (Z.testbit MSTATUS_MPP_S i = false) as ->.
    { unfold MSTATUS_MPP_S. rewrite Z.shiftl_1_l. apply Z.pow2_bits_false. lia. }
    by rewrite orb_false_r, andb_true_r.
Qed.

Lemma start_hands_over_witness :
  exists f', start 0x80000a00 (fun r => if csr_eqb r c_mhartid then 3 else 0) = Ok (MSTATUS_MPP_S, 0x80000a00) f' /\ f' c_tp = 3.
Proof.
  destruct (start_hands_over 0x80000a00 (fun r => if csr_eqb r c_mhartid then 3 else 0)) as (f' & E & Ht & _).
  - intros r. destruct (csr_eqb r c_mhartid); lia.
  - lia.
  - cbn. lia.
  - cbn. lia.
  - exists f'. split; [exact E|exact Ht].
Defined.
End Start.
