(* ===== verification/Mem.v ===== *)
(** * Physical memory

    RAM is a finite map from byte addresses to bytes. A byte that was never
    written reads as 0. 32- and 64-bit words are little-endian, as on RISC-V.
    Two memories that read the same everywhere are equivalent ([mem_eq]); the
    accessors respect the equivalence. *)

From S2P Require Import Prelude.

Abbreviation mem := (gmap Z Z).

Definition rd8 (m : mem) (a : Z) : Z := u8 (default 0 (m !! a)).
Definition wr8 (m : mem) (a v : Z) : mem := <[a := u8 v]> m.

Fixpoint le_load (n : nat) (m : mem) (a : Z) : Z :=
  match n with
  | O => 0
  | S n' => rd8 m a + 256 * le_load n' m (a + 1)
  end.

Fixpoint le_store (n : nat) (m : mem) (a v : Z) : mem :=
  match n with
  | O => m
  | S n' => le_store n' (wr8 m a v) (a + 1) (v / 256)
  end.

Definition load32 (m : mem) (a : Z) : Z := le_load 4 m a.
Definition store32 (m : mem) (a v : Z) : mem := le_store 4 m a v.
Definition load64 (m : mem) (a : Z) : Z := le_load 8 m a.
Definition store64 (m : mem) (a v : Z) : mem := le_store 8 m a v.

(** The bytes of [n] consecutive addresses. *)
Definition rd_bytes (m : mem) (a : Z) (n : nat) : list Z :=
  (fun i => rd8 m (a + Z.of_nat i)) <$> seq 0 n.

(** Writing a string of bytes. *)
Fixpoint wr_bytes (m : mem) (a : Z) (bs : list Z) : mem :=
  match bs with
  | [] => m
  | b :: bs' => wr_bytes (wr8 m a b) (a + 1) bs'
  end.

(** ** Equivalence of memories *)

Definition mem_eq (m1 m2 : mem) : Prop := forall a, rd8 m1 a = rd8 m2 a.

#[export] Instance mem_eq_equiv : Equivalence mem_eq.
Proof.
  split.
  - by intros ??.
  - intros ?? H a. symmetry. apply H.
  - intros ??? H1 H2 a. by rewrite (H1 a).
Qed.

#[export] Instance rd8_proper : Proper (mem_eq ==> eq ==> eq) rd8.
Proof. intros m1 m2 H a ? <-. apply H. Qed.

Lemma rd8_range m a : 0 <= rd8 m a < 256.
Proof. apply u8_range. Qed.
#[export] Hint Resolve rd8_range : ints.

Lemma rd8_wr8 m a v b : rd8 (wr8 m a v) b = if a =? b then u8 v else rd8 m b.
Proof.
  unfold rd8, wr8. destruct (Z.eqb_spec a b) as [->|Hne].
  - rewrite lookup_insert_eq. simpl. apply u8_idem.
  - by rewrite lookup_insert_ne.
Qed.

#[export] Instance wr8_proper : Proper (mem_eq ==> eq ==> eq ==> mem_eq) wr8.
Proof. intros m1 m2 H a ? <- v ? <- b. rewrite !rd8_wr8. by destruct (a =? b). Qed.

(** ** Words *)

Lemma le_load_ext n m1 m2 a :
  (forall i, 0 <= i < Z.of_nat n -> rd8 m1 (a + i) = rd8 m2 (a + i)) ->
  le_load n m1 a = le_load n m2 a.
Proof.
  revert a. induction n as [|n IH]; intros a H; [done|]. simpl.
  rewrite <- (Z.add_0_r a) at 1 3. rewrite H by lia. do 2 f_equal.
  apply IH. intros i Hi. replace (a + 1 + i) with (a + (1 + i)) by lia.
  apply H. lia.
Qed.

#[export] Instance le_load_proper n : Proper (mem_eq ==> eq ==> eq) (le_load n).
Proof. intros m1 m2 H a ? <-. apply le_load_ext. intros. apply H. Qed.

Lemma le_load_range n m a : 0 <= le_load n m a < 256 ^ Z.of_nat n.
Proof.
  revert a. induction n as [|n IH]; intros a; [simpl; lia|].
  rewrite Nat2Z.inj_succ, Z.pow_succ_r by lia. simpl.
  specialize (IH (a + 1)). pose proof (rd8_range m a). lia.
Qed.

Lemma rd8_le_store n m a v b :
  rd8 (le_store n m a v) b =
  if (a <=? b) && (b <? a + Z.of_nat n) then u8 (v / 256 ^ (b - a)) else rd8 m b.
Proof.
  revert m a v. induction n as [|n IH]; intros m a v.
  - simpl. destruct (a <=? b) eqn:?, (b <? a + Z.of_nat 0) eqn:?; zbool; simpl; done || lia.
  - cbn [le_store]. rewrite IH, rd8_wr8, Nat2Z.inj_succ.
    destruct (Z.eqb_spec a b) as [->|Hne].
    + zif. by rewrite Z.sub_diag, Z.div_1_r.
    + destruct (Z_le_gt_dec (a + 1) b); [|zif; done].
      destruct (Z_lt_ge_dec b (a + 1 + Z.of_nat n)); [|zif; done]. zif.
      rewrite Z.div_div by lia. do 2 f_equal.
      rewrite <- Z.pow_succ_r by lia. f_equal. lia.
Qed.

Lemma le_load_store n m a v : le_load n (le_store n m a v) a = v mod 256 ^ Z.of_nat n.
Proof.
  revert m a v. induction n as [|n IH]; intros m a v.
  - simpl. by rewrite Z.mod_1_r.
  - cbn [le_load]. rewrite rd8_le_store. zif. cbn [le_store]. rewrite IH.
    rewrite Z.sub_diag, Z.div_1_r, Nat2Z.inj_succ, Z.pow_succ_r by lia.
    unfold u8. change (2 ^ 8) with 256.
    rewrite Z.rem_mul_r by lia. done.
Qed.

Lemma le_load_store_ne n k m a v b :
  b + Z.of_nat n <= a \/ a + Z.of_nat k <= b ->
  le_load n (le_store k m a v) b = le_load n m b.
Proof. intros H. apply le_load_ext. intros i Hi. rewrite rd8_le_store. zcases. Qed.

Lemma load64_store64 m a v : load64 (store64 m a v) a = u64 v.
Proof. unfold load64, load32, store64, store32. by rewrite le_load_store. Qed.
Lemma load64_store64_ne m a v b :
  b + 8 <= a \/ a + 8 <= b -> load64 (store64 m a v) b = load64 m b.
Proof. apply (le_load_store_ne 8 8). Qed.
Lemma load64_range m a : 0 <= load64 m a < 2 ^ 64.
Proof. apply (le_load_range 8). Qed.
Lemma load32_store32 m a v : load32 (store32 m a v) a = u32 v.
Proof. unfold load64, load32, store64, store32. by rewrite le_load_store. Qed.
Lemma load32_range m a : 0 <= load32 m a < 2 ^ 32.
Proof. apply (le_load_range 4). Qed.
Lemma rd8_store64_ne m a v b : b < a \/ a + 8 <= b -> rd8 (store64 m a v) b = rd8 m b.
Proof. intros. unfold store64. rewrite rd8_le_store. zcases. Qed.
Lemma load64_ext m1 m2 a :
  (forall i, a <= i < a + 8 -> rd8 m1 i = rd8 m2 i) -> load64 m1 a = load64 m2 a.
Proof. intros H. apply le_load_ext. intros. apply H. lia. Qed.
Lemma load64_wr8_ne m a v b : a < b \/ b + 8 <= a -> load64 (wr8 m a v) b = load64 m b.
Proof. intros H. apply load64_ext. intros. rewrite rd8_wr8. zcases. Qed.
Lemma load64_zero m a : (forall i, a <= i < a + 8 -> rd8 m i = 0) -> load64 m a = 0.
Proof. intros H. unfold load64, le_load. rewrite !H by lia. done. Qed.
#[export] Hint Resolve load64_range load32_range : ints.

#[export] Instance load64_proper : Proper (mem_eq ==> eq ==> eq) load64.
Proof. apply le_load_proper. Qed.
#[export] Instance store64_proper : Proper (mem_eq ==> eq ==> eq ==> mem_eq) store64.
Proof.
  intros m1 m2 H a ? <- v ? <- b. unfold store64. rewrite !rd8_le_store.
  by destruct (_ && _)%bool.
Qed.

(** ** Strings of bytes *)

Lemma rd8_wr_bytes m a bs b :
  rd8 (wr_bytes m a bs) b =
  if (a <=? b) && (b <? a + Z.of_nat (length bs))
  then u8 (bs !!! Z.to_nat (b - a)) else rd8 m b.
Proof.
  revert m a. induction bs as [|x bs IH]; intros m a; cbn [wr_bytes length].
  - destruct (a <=? b) eqn:?, (b <? a + Z.of_nat 0) eqn:?; zbool; simpl; done || lia.
  - rewrite IH, rd8_wr8, Nat2Z.inj_succ.
    destruct (Z.eqb_spec a b) as [->|Hne].
    + zif. by rewrite Z.sub_diag.
    + destruct (Z_le_gt_dec (a + 1) b); [|zif; done].
      destruct (Z_lt_ge_dec b (a + 1 + Z.of_nat (length bs))); [|zif; done]. zif.
      replace (Z.to_nat (b - a)) with (S (Z.to_nat (b - (a + 1)))) by lia. done.
Qed.

Lemma length_rd_bytes m a n : length (rd_bytes m a n) = n.
Proof. unfold rd_bytes. by rewrite length_fmap, length_seq. Qed.

Lemma lookup_rd_bytes m a n i :
  (i < n)%nat -> rd_bytes m a n !! i = Some (rd8 m (a + Z.of_nat i)).
Proof.
  intros H. unfold rd_bytes. rewrite list_lookup_fmap, lookup_seq_lt by done. done.
Qed.

Lemma rd_bytes_S m a n : rd_bytes m a (S n) = rd8 m a :: rd_bytes m (a + 1) n.
Proof.
  apply list_eq. intros [|i]; [simpl; by rewrite Z.add_0_r|]. simpl.
  destruct (decide (i < n)%nat).
  - rewrite lookup_rd_bytes by done. unfold rd_bytes.
    rewrite list_lookup_fmap, lookup_seq_lt by done. simpl. do 2 f_equal. lia.
  - rewrite !lookup_ge_None_2; rewrite ?length_rd_bytes; try done; try lia.
    rewrite length_fmap, length_seq. lia.
Qed.

Lemma rd_bytes_ext m1 m2 a1 a2 n :
  (forall i, 0 <= i < Z.of_nat n -> rd8 m1 (a1 + i) = rd8 m2 (a2 + i)) ->
  rd_bytes m1 a1 n = rd_bytes m2 a2 n.
Proof.
  intros H. apply list_fmap_ext. intros i x [-> ?]%lookup_seq. apply H. lia.
Qed.

Lemma rd_wr_bytes m a bs :
  Forall (fun b => 0 <= b < 256) bs -> rd_bytes (wr_bytes m a bs) a (length bs) = bs.
Proof.
  intros Hbs. apply list_eq. intros i. destruct (decide (i < length bs)%nat) as [Hi|Hi].
  - rewrite lookup_rd_bytes by done. rewrite rd8_wr_bytes. zif.
    replace (Z.to_nat (a + Z.of_nat i - a)) with i by lia.
    destruct (lookup_lt_is_Some_2 bs i Hi) as [x Hx]. rewrite Hx. f_equal.
    rewrite (list_lookup_total_correct _ _ _ Hx). apply u8_small.
    by eapply Forall_lookup_1 in Hbs.
  - rewrite !lookup_ge_None_2; rewrite ?length_rd_bytes; done || lia.
Qed.
