(* ===== verification/CString.v ===== *)
(** * kernel/lib/string.c

    The byte-string routines of the kernel, over physical memory. The
    routines that return their destination pointer return the new memory
    here; the pointer is their first argument. *)

From S2P Require Import Prelude Mem.

(** ** The routines *)

Fixpoint memset_loop (k : nat) (m : mem) (p c : Z) : mem :=
  match k with
  | O => m
  | S k' => memset_loop k' (wr8 m p c) (p + 1) c
  end.

(** memset(dst, c, n): [n] is a [uint]. *)
Definition memset (m : mem) (dst c n : Z) : mem :=
  memset_loop (Z.to_nat (u32 n)) m dst c.

Fixpoint memcmp_loop (k : nat) (m : mem) (s1 s2 : Z) : Z :=
  match k with
  | O => 0
  | S k' =>
      if negb (rd8 m s1 =? rd8 m s2) then rd8 m s1 - rd8 m s2
      else memcmp_loop k' m (s1 + 1) (s2 + 1)
  end.

Definition memcmp (m : mem) (v1 v2 n : Z) : Z :=
  memcmp_loop (Z.to_nat (u32 n)) m v1 v2.

(** The ascending copy loop. *)
Fixpoint memmove_up (k : nat) (m : mem) (d s : Z) : mem :=
  match k with
  | O => m
  | S k' => memmove_up k' (wr8 m d (rd8 m s)) (d + 1) (s + 1)
  end.

(** The descending copy loop; [d] and [s] point one past the bytes to copy. *)
Fixpoint memmove_down (k : nat) (m : mem) (d s : Z) : mem :=
  match k with
  | O => m
  | S k' => memmove_down k' (wr8 m (d - 1) (rd8 m (s - 1))) (d - 1) (s - 1)
  end.

Definition memmove (m : mem) (dst src n : Z) : mem :=
  let n := u32 n in
  if n =? 0 then m
  else if (src <? dst) && (dst <? src + n)
       then memmove_down (Z.to_nat n) m (dst + n) (src + n)
       else memmove_up (Z.to_nat n) m dst src.

Definition memcpy (m : mem) (dst src n : Z) : mem := memmove m dst src n.

Fixpoint strncmp_loop (k : nat) (m : mem) (p q : Z) : Z :=
  match k with
  | O => 0
  | S k' =>
      if truthy (rd8 m p) && (rd8 m p =? rd8 m q)
      then strncmp_loop k' m (p + 1) (q + 1)
      else rd8 m p - rd8 m q
  end.

Definition strncmp (m : mem) (p q n : Z) : Z :=
  strncmp_loop (Z.to_nat (u32 n)) m p q.

(** [for(n = 0; s[n]; n++);] with [fuel] bytes to look at. *)
Fixpoint strlen_loop (fuel : nat) (m : mem) (s n : Z) : option Z :=
  match fuel with
  | O => None
  | S f => if truthy (rd8 m (s + n)) then strlen_loop f m s (n + 1) else Some n
  end.

Definition strlen (fuel : nat) (m : mem) (s : Z) : option Z := strlen_loop fuel m s 0.

(** The copying loop of safestrcpy, entered with [k = n - 1] copies to go; the
    terminator is written after it, at the advanced [s]. *)
Fixpoint safestrcpy_loop (k : nat) (m : mem) (s t : Z) : mem :=
  match k with
  | O => wr8 m s 0
  | S k' =>
      let c := rd8 m t in
      let m' := wr8 m s c in
      if truthy c then safestrcpy_loop k' m' (s + 1) (t + 1) else wr8 m' (s + 1) 0
  end.

Definition safestrcpy (m : mem) (s t n : Z) : mem :=
  if n <=? 0 then m else safestrcpy_loop (Z.to_nat (n - 1)) m s t.

(** ** memset and memmove *)

Lemma rd8_memset_loop k m p c a :
  rd8 (memset_loop k m p c) a =
  if (p <=? a) && (a <? p + Z.of_nat k) then u8 c else rd8 m a.
Proof.
  revert m p. induction k as [|k IH]; intros m p; cbn [memset_loop].
  - zcases.
  - rewrite IH, rd8_wr8. zcases.
Qed.

Lemma rd8_memset m dst c n a :
  0 <= n < 2 ^ 32 ->
  rd8 (memset m dst c n) a = if (dst <=? a) && (a <? dst + n) then u8 c else rd8 m a.
Proof.
  intros Hn. unfold memset. rewrite u32_small by done.
  rewrite rd8_memset_loop, Z2Nat.id by lia. done.
Qed.

Lemma rd8_memmove_up k m d s a :
  d <= s \/ s + Z.of_nat k <= d ->
  rd8 (memmove_up k m d s) a =
  if (d <=? a) && (a <? d + Z.of_nat k) then rd8 m (s + (a - d)) else rd8 m a.
Proof.
  revert m d s. induction k as [|k IH]; intros m d s H; cbn [memmove_up].
  - zcases.
  - rewrite IH by lia. rewrite !rd8_wr8.
    pose proof (u8_small _ (rd8_range m s)) as Hs.
    zcases; subst; rewrite ?Hs; f_equal; lia.
Qed.

Lemma rd8_memmove_down k m d s a :
  s <= d ->
  rd8 (memmove_down k m d s) a =
  if (d - Z.of_nat k <=? a) && (a <? d) then rd8 m (s - (d - a)) else rd8 m a.
Proof.
  revert m d s. induction k as [|k IH]; intros m d s H; cbn [memmove_down].
  - zcases.
  - rewrite IH by lia. rewrite !rd8_wr8.
    pose proof (u8_small _ (rd8_range m (s - 1))) as Hs.
    zcases; subst; rewrite ?Hs; f_equal; lia.
Qed.

Lemma rd8_memmove m dst src n a :
  0 <= n < 2 ^ 32 ->
  rd8 (memmove m dst src n) a =
  if (dst <=? a) && (a <? dst + n) then rd8 m (src + (a - dst)) else rd8 m a.
Proof.
  intros Hn. unfold memmove. rewrite u32_small by done.
  destruct (Z.eqb_spec n 0) as [->|]; [zcases|].
  destruct ((src <? dst) && (dst <? src + n)) eqn:E.
  - zbool. rewrite rd8_memmove_down by lia. rewrite Z2Nat.id by lia.
    zcases; f_equal; lia.
  - rewrite rd8_memmove_up, Z2Nat.id by (apply andb_false_iff in E as [E|E]; zbool; lia).
    done.
Qed.

(** ** C strings in memory *)

(** The NUL-terminated string [bs] is stored at [a]. *)
Definition cstr (m : mem) (a : Z) (bs : list Z) : Prop :=
  rd_bytes m a (length bs) = bs /\ Forall (fun b => b <> 0) bs /\
  rd8 m (a + Z.of_nat (length bs)) = 0.

Lemma cstr_cons m a b bs :
  cstr m a (b :: bs) <-> rd8 m a = b /\ b <> 0 /\ cstr m (a + 1) bs.
Proof.
  unfold cstr. cbn [length]. rewrite Forall_cons, rd_bytes_S.
  replace (a + Z.of_nat (S (length bs))) with (a + 1 + Z.of_nat (length bs)) by lia.
  naive_solver congruence.
Qed.

Lemma cstr_nil m a : cstr m a [] <-> rd8 m a = 0.
Proof. unfold cstr. simpl. rewrite Z.add_0_r. naive_solver. Qed.

Lemma cstr_ext m1 m2 a bs :
  (forall b, a <= b <= a + Z.of_nat (length bs) -> rd8 m1 b = rd8 m2 b) ->
  cstr m1 a bs -> cstr m2 a bs.
Proof.
  intros H (H1 & H2 & H3). split_and!; [|done|].
  - rewrite <- H1 at 2. apply rd_bytes_ext. intros. symmetry. apply H. lia.
  - rewrite <- H3. symmetry. apply H. lia.
Qed.

(** ** Properties *)

(** Memmove copies as if through a temporary buffer, whatever the overlap
    of the two regions: afterwards the destination holds the bytes the source
    held before the call, and no other byte changed. *)
Theorem memmove_correct m dst src n :
  0 <= n < 2 ^ 32 ->
  rd_bytes (memmove m dst src n) dst (Z.to_nat n) = rd_bytes m src (Z.to_nat n) /\
  (forall a, a < dst \/ dst + n <= a -> rd8 (memmove m dst src n) a = rd8 m a).
Proof.
  intros Hn. split.
  - apply rd_bytes_ext. intros i Hi. rewrite rd8_memmove by done. zcases.
    f_equal. lia.
  - intros a Ha. rewrite rd8_memmove by done. zcases.
Qed.

(** The bytes 1..5 at address 0. *)
Definition demo_mem : mem := wr_bytes ∅ 0 [1; 2; 3; 4; 5].

Lemma memmove_correct_witness :
  rd_bytes (memmove demo_mem 2 0 5) 2 5 = [1; 2; 3; 4; 5] /\
  rd8 (memmove demo_mem 2 0 5) 1 = 2.
Proof.
  destruct (memmove_correct demo_mem 2 0 5) as [H1 H2]; [lia|].
  split.
  - etrans; [exact H1|]. reflexivity.
  - etrans; [apply H2; lia|]. reflexivity.
Defined.

Lemma memcmp_loop_zero k m a b :
  memcmp_loop k m a b = 0 <-> rd_bytes m a k = rd_bytes m b k.
Proof.
  revert a b. induction k as [|k IH]; intros a b; [done|]. cbn [memcmp_loop].
  rewrite !rd_bytes_S. destruct (Z.eqb_spec (rd8 m a) (rd8 m b)) as [E|E]; cbn [negb].
  - rewrite IH, E. split; [by intros ->|by intros [=]].
  - split; [lia|]. by intros [=].
Qed.

Lemma memcmp_loop_sign k m a b i :
  (i < k)%nat -> rd_bytes m a i = rd_bytes m b i ->
  rd8 m (a + Z.of_nat i) <> rd8 m (b + Z.of_nat i) ->
  memcmp_loop k m a b = rd8 m (a + Z.of_nat i) - rd8 m (b + Z.of_nat i).
Proof.
  revert k a b. induction i as [|i IH]; intros [|k] a b Hi; try lia; cbn [memcmp_loop].
  - rewrite !Z.add_0_r. intros _ H. by zif.
  - rewrite !rd_bytes_S. intros [= E1 E2] H. rewrite E1, Z.eqb_refl. cbn [negb].
    rewrite IH; [| lia | done |].
    + f_equal; f_equal; lia.
    + replace (a + 1 + Z.of_nat i) with (a + Z.of_nat (S i)) by lia.
      by replace (b + 1 + Z.of_nat i) with (b + Z.of_nat (S i)) by lia.
Qed.

(** Memcmp is the lexicographic comparison of two byte regions: it is 0
    exactly when they agree, and otherwise the difference of the first pair of
    bytes that differ. *)
Theorem memcmp_correct m a b n :
  0 <= n < 2 ^ 32 ->
  (memcmp m a b n = 0 <-> rd_bytes m a (Z.to_nat n) = rd_bytes m b (Z.to_nat n)) /\
  (forall i, (i < Z.to_nat n)%nat -> rd_bytes m a i = rd_bytes m b i ->
     rd8 m (a + Z.of_nat i) <> rd8 m (b + Z.of_nat i) ->
     memcmp m a b n = rd8 m (a + Z.of_nat i) - rd8 m (b + Z.of_nat i)).
Proof.
  intros Hn. unfold memcmp. rewrite u32_small by done. split.
  - apply memcmp_loop_zero.
  - apply memcmp_loop_sign.
Qed.

Lemma memcmp_correct_witness :
  memcmp demo_mem 0 1 4 = -1 /\ memcmp demo_mem 0 0 5 = 0.
Proof.
  split.
  - destruct (memcmp_correct demo_mem 0 1 4) as [_ H]; [lia|].
    etrans; [apply (H 0%nat); [simpl; lia|done|vm_compute; done]|]. reflexivity.
  - destruct (memcmp_correct demo_mem 0 0 5) as [H _]; [lia|]. by apply H.
Defined.

Lemma strncmp_loop_cstr k m p q bp bq :
  cstr m p bp -> cstr m q bq ->
  strncmp_loop k m p q = 0 <-> take k bp = take k bq.
Proof.
  revert p q bp bq. induction k as [|k IH]; intros p q bp bq Hp Hq; [done|].
  cbn [strncmp_loop]. unfold truthy.
  destruct bp as [|x bp], bq as [|y bq].
  - apply cstr_nil in Hp, Hq. by rewrite Hp, Hq.
  - apply cstr_nil in Hp. apply cstr_cons in Hq as (Hq & ? & _). rewrite Hp, Hq. zif.
    split; [lia|done].
  - apply cstr_cons in Hp as (Hp & ? & _). apply cstr_nil in Hq. rewrite Hp, Hq. zif.
    split; [lia|done].
  - apply cstr_cons in Hp as (-> & ? & Hp), Hq as (-> & ? & Hq). zif.
    destruct (Z.eqb_spec x y); cbn.
    + subst. rewrite (IH (p + 1) (q + 1) bp bq) by done. split; [by intros ->|by intros [=]].
    + split; [lia|congruence].
Qed.

(** On NUL-terminated strings strncmp is 0 exactly when the strings agree
    on their first [n] characters (the test dirlookup uses, with n = DIRSIZ). *)
Theorem strncmp_correct m p q bp bq n :
  cstr m p bp -> cstr m q bq -> 0 <= n < 2 ^ 32 ->
  strncmp m p q n = 0 <-> take (Z.to_nat n) bp = take (Z.to_nat n) bq.
Proof.
  intros. unfold strncmp. rewrite u32_small by done. by apply strncmp_loop_cstr.
Qed.

(** "ab" at 0 and "abc" at 8. *)
Definition demo_strs : mem := wr_bytes (wr_bytes ∅ 0 [97; 98; 0]) 8 [97; 98; 99; 0].

Lemma strncmp_correct_witness : strncmp demo_strs 0 8 2 = 0.
Proof.
  apply (strncmp_correct demo_strs 0 8 [97; 98] [97; 98; 99] 2).
  - split_and!; [reflexivity|repeat constructor; lia|reflexivity].
  - split_and!; [reflexivity|repeat constructor; lia|reflexivity].
  - lia.
  - reflexivity.
Defined.

Lemma strlen_loop_cstr fuel m s n bs :
  (length bs < fuel)%nat -> cstr m (s + n) bs ->
  strlen_loop fuel m s n = Some (n + Z.of_nat (length bs)).
Proof.
  revert n bs. induction fuel as [|f IH]; intros n bs Hf Hc; [lia|].
  cbn [strlen_loop]. unfold truthy. destruct bs as [|b bs].
  - rewrite cstr_nil in Hc. rewrite Hc. zif. cbn. f_equal. lia.
  - apply cstr_cons in Hc as (H1 & H2 & H3). rewrite H1. zif.
    rewrite (IH (n + 1) bs); cbn [length] in *; [f_equal; lia|lia|].
    by replace (s + (n + 1)) with (s + n + 1) by lia.
Qed.

(** strlen terminates on a NUL-terminated string with its length. *)
Lemma strlen_cstr fuel m s bs :
  (length bs < fuel)%nat -> cstr m s bs -> strlen fuel m s = Some (Z.of_nat (length bs)).
Proof.
  intros Hf Hc. unfold strlen. rewrite (strlen_loop_cstr _ _ _ _ bs); [done..|].
  by rewrite Z.add_0_r.
Qed.

Lemma safestrcpy_loop_frame k m s t a :
  a < s \/ s + Z.of_nat k + 1 <= a -> rd8 (safestrcpy_loop k m s t) a = rd8 m a.
Proof.
  revert m s t. induction k as [|k IH]; intros m s t Ha; cbn [safestrcpy_loop].
  - rewrite rd8_wr8. zcases.
  - destruct (truthy _).
    + rewrite IH by lia. rewrite rd8_wr8. zcases.
    + rewrite !rd8_wr8. zcases.
Qed.

Lemma safestrcpy_loop_cstr k m s t bs :
  cstr m t bs ->
  s + Z.of_nat k + 1 <= t \/ t + Z.of_nat (length bs) < s ->
  cstr (safestrcpy_loop k m s t) s (take k bs).
Proof.
  revert m s t bs. induction k as [|k IH]; intros m s t bs Hc Hd; cbn [safestrcpy_loop].
  - rewrite take_0, cstr_nil, rd8_wr8. by zif.
  - destruct bs as [|b bs].
    + rewrite cstr_nil in Hc. rewrite take_nil, Hc, cstr_nil. unfold truthy. zif.
      rewrite !rd8_wr8. zcases.
    + apply cstr_cons in Hc as (Hb & Hnz & Hc). unfold truthy. rewrite Hb. zif.
      cbn [firstn length] in *. apply cstr_cons. split_and!; [|done|].
      * rewrite safestrcpy_loop_frame, rd8_wr8 by lia. zif. subst b.
        apply u8_small, rd8_range.
      * apply IH; [|lia]. eapply cstr_ext; [|done].
        intros c Hc'. rewrite rd8_wr8. zcases.
Qed.

(** Safestrcpy always leaves a NUL-terminated string of at most [n - 1]
    characters, the prefix of the source that fits, and writes nothing outside
    the [n] bytes of the destination. *)
Theorem safestrcpy_correct m s t bs n :
  0 < n -> cstr m t bs -> s + n <= t \/ t + Z.of_nat (length bs) < s ->
  cstr (safestrcpy m s t n) s (take (Z.to_nat (n - 1)) bs) /\
  (forall a, a < s \/ s + n <= a -> rd8 (safestrcpy m s t n) a = rd8 m a).
Proof.
  intros Hn Hc Hd. unfold safestrcpy. zif. split.
  - apply safestrcpy_loop_cstr; [done|lia].
  - intros a Ha. apply safestrcpy_loop_frame. lia.
Qed.

Lemma safestrcpy_correct_witness :
  cstr (safestrcpy demo_strs 20 8 3) 20 [97; 98] /\
  rd8 (safestrcpy demo_strs 20 8 3) 23 = 0.
Proof.
  destruct (safestrcpy_correct demo_strs 20 8 [97; 98; 99] 3) as [H1 H2].
  - lia.
  - split_and!; [reflexivity|repeat constructor; lia|reflexivity].
  - simpl. lia.
  - split; [exact H1|]. etrans; [apply H2; lia|]. reflexivity.
Defined.

(** Clients use the lemmas above, never the loops. *)
#[global] Opaque memset memmove.
