(* ===== verification/State.v ===== *)
(** * The kernel's data

    The structures of include/*.h and the global variables of the kernel,
    gathered in one record, the state every routine transforms. A pointer to
    an entry of a static table (struct buf, inode, file, PCB) is the entry's
    index; a pointer into physical memory is its address. *)

From S2P Require Import Prelude Mem CString.

(** ** include/param.h, riscv.h, memlayout.h, fs.h *)

Definition NPROC : Z := 64.
Definition NCPU : Z := 8.
Definition NOFILE : Z := 16.
Definition NFILE : Z := 100.
Definition NINODE : Z := 50.
Definition NDEV : Z := 10.
Definition ROOTDEV : Z := 1.
Definition MAXARG : Z := 32.
Definition MAXOPBLOCKS : Z := 30.
Definition LOGBLOCKS : Z := MAXOPBLOCKS * 3.
Definition NBUF : Z := MAXOPBLOCKS * 3.
Definition FSSIZE : Z := 2000.
Definition MAXPATH : Z := 128.
Definition USERSTACK : Z := 3.

Definition PGSIZE : Z := 4096.
Definition PGSHIFT : Z := 12.
Definition PGROUNDUP (sz : Z) : Z := Z.land (u64 (sz + PGSIZE - 1)) (Z.lnot (PGSIZE - 1)).
Definition PGROUNDDOWN (a : Z) : Z := Z.land a (Z.lnot (PGSIZE - 1)).

Definition SSTATUS_SPP : Z := Z.shiftl 1 8.
Definition SSTATUS_SPIE : Z := Z.shiftl 1 5.
Definition SSTATUS_SIE : Z := Z.shiftl 1 1.

Definition PTE_V : Z := Z.shiftl 1 0.
Definition PTE_R : Z := Z.shiftl 1 1.
Definition PTE_W : Z := Z.shiftl 1 2.
Definition PTE_X : Z := Z.shiftl 1 3.
Definition PTE_U : Z := Z.shiftl 1 4.

Definition PA2PTE (pa : Z) : Z := u64 (Z.shiftl (Z.shiftr pa 12) 10).
Definition PTE2PA (pte : Z) : Z := u64 (Z.shiftl (Z.shiftr pte 10) 12).
Definition PTE_FLAGS (pte : Z) : Z := Z.land pte 0x3FF.

Definition PXMASK : Z := 0x1FF.
Definition PXSHIFT (level : Z) : Z := PGSHIFT + 9 * level.
Definition PX (level va : Z) : Z := Z.land (Z.shiftr va (PXSHIFT level)) PXMASK.
Definition MAXVA : Z := Z.shiftl 1 (9 + 9 + 9 + 12 - 1).

Definition UART0 : Z := 0x10000000.
Definition VIRTIO0 : Z := 0x10001000.
Definition PLIC : Z := 0x0c000000.
Definition KERNBASE : Z := 0x80000000.
Definition PHYSTOP : Z := KERNBASE + 128 * 1024 * 1024.
Definition TRAMPOLINE : Z := MAXVA - PGSIZE.
Definition KSTACK (p : Z) : Z := TRAMPOLINE - (p + 1) * 2 * PGSIZE.
Definition TRAPFRAME : Z := TRAMPOLINE - PGSIZE.

Definition BSIZE : Z := 1024.
Definition NDIRECT : Z := 12.
Definition NINDIRECT : Z := BSIZE / 4.
Definition MAXFILE : Z := NDIRECT + NINDIRECT.

(** ** The link map (scripts/kernel.ld)

    The addresses the linker gives to the symbols the C code refers to: [etext]
    ends the text section, whose last page is the trampoline, and [end] ends the
    kernel image, which leaves room for the bitmap page and a page to allocate. *)
Class Layout := {
  end_ : Z;
  etext : Z;
  trampoline : Z;
  etext_aligned : etext mod PGSIZE = 0;
  trampoline_etext : trampoline = etext - PGSIZE;
  trampoline_low : KERNBASE <= trampoline;
  etext_end : etext <= end_;
  end_phystop : end_ + 2 * PGSIZE <= PHYSTOP
}.

(** ** Locks *)

(** The spinlocks of the kernel, each named after the variable that holds it. *)
Inductive lockid : Type :=
| L_kmem | L_pr | L_cons | L_buddy | L_pid | L_wait | L_ticks | L_bcache
| L_log | L_itable | L_ftable | L_vdisk
| L_proc (i : nat) | L_buf (i : nat) | L_inode (i : nat).

#[export] Instance lockid_eq_dec : EqDecision lockid.
Proof. solve_decision. Defined.

Definition lockid_code (l : lockid) : nat * nat :=
  match l with
  | L_kmem => (0, 0) | L_pr => (0, 1) | L_cons => (0, 2) | L_buddy => (0, 3)
  | L_pid => (0, 4) | L_wait => (0, 5) | L_ticks => (0, 6) | L_bcache => (0, 7)
  | L_log => (0, 8) | L_itable => (0, 9) | L_ftable => (0, 10) | L_vdisk => (0, 11)
  | L_proc i => (1, i) | L_buf i => (2, i) | L_inode i => (3, i)
  end%nat.

Definition lockid_decode (c : nat * nat) : option lockid :=
  match c with
  | (0, 0) => Some L_kmem | (0, 1) => Some L_pr | (0, 2) => Some L_cons
  | (0, 3) => Some L_buddy | (0, 4) => Some L_pid | (0, 5) => Some L_wait
  | (0, 6) => Some L_ticks | (0, 7) => Some L_bcache | (0, 8) => Some L_log
  | (0, 9) => Some L_itable | (0, 10) => Some L_ftable | (0, 11) => Some L_vdisk
  | (1, i) => Some (L_proc i) | (2, i) => Some (L_buf i) | (3, i) => Some (L_inode i)
  | _ => None
  end%nat.

#[export] Instance lockid_countable : Countable lockid.
Proof. apply (inj_countable lockid_code lockid_decode). by intros []. Defined.

(** struct spinlock: [lk_cpu] is the hart holding the lock, if any. *)
Record spinlock := { lk_locked : Z; lk_name : string; lk_cpu : option Z }.

(** struct sleeplock; its inner spinlock is the [lockid] of the object. *)
Record sleeplock := { sl_locked : Z; sl_pid : Z }.

(** ** Processors and processes (include/proc.h) *)

(** struct cpu. *)
Record cpu := { c_proc : option nat; c_noff : Z; c_intena : Z }.

(** The hart running the code: its number (the tp register), its struct cpu
    and its sstatus register. No code touches another hart's struct cpu. *)
Record hart := { h_tp : Z; h_cpu : cpu; h_sstatus : Z }.

Inductive procstate := UNUSED | USED | SLEEPING | RUNNABLE | RUNNING | ZOMBIE.

#[export] Instance procstate_eq_dec : EqDecision procstate.
Proof. solve_decision. Defined.

(** struct context: ra, sp and the callee-saved registers s0..s11. *)
Record context := { ctx_ra : Z; ctx_sp : Z; ctx_s : list Z }.

(** struct PCB. [p_pagetable] and [p_trapframe] are physical addresses. *)
Record PCB := {
  p_state : procstate;
  p_pid : Z;
  p_pagetable : Z;
  p_context : context;
  p_kstack : Z;
  p_trapframe : Z;
  p_name : list Z;
  p_killed : Z;
  p_parent : option nat;
  p_chan : option chan;
  p_xstate : Z;
  p_sz : Z;
  p_ofile : list (option nat);
  p_cwd : option nat
}.

(** ** The block cache and the log (include/buf.h, kernel/disk) *)

(** A link of the buffer list: the list head or a buffer. *)
Inductive bref := Head | Buf (i : nat).

#[export] Instance bref_eq_dec : EqDecision bref.
Proof. solve_decision. Defined.

(** struct buf. *)
Record buf := {
  b_valid : Z;
  b_disk : Z;
  b_dev : Z;
  b_blockno : Z;
  b_lock : sleeplock;
  b_refcnt : Z;
  b_prev : bref;
  b_next : bref;
  b_data : list Z
}.

(** bcache: the buffers and the links of the list head. *)
Record bcache_t := { bc_buf : list buf; bc_prev : bref; bc_next : bref }.

(** struct log with its struct logheader. *)
Record log_t := {
  log_start : Z;
  log_outstanding : Z;
  log_committing : Z;
  log_dev : Z;
  lh_n : Z;
  lh_block : list Z
}.

(** kmem and addr_base of kernel/mm/kalloc.c. *)
Record kmem_t := { km_freelist : Z; km_bitmap : Z; km_addr_base : Z }.

(** ** Files and inodes (include/file.h, fs.h) *)

(** struct superblock. *)
Record superblock := {
  sb_magic : Z; sb_size : Z; sb_nblocks : Z; sb_ninodes : Z;
  sb_nlog : Z; sb_logstart : Z; sb_inodestart : Z; sb_bmapstart : Z
}.

(** The fields of struct dinode, which struct inode repeats: NDIRECT+1 addresses. *)
Record dinode := {
  di_type : Z; di_major : Z; di_minor : Z; di_nlink : Z; di_size : Z; di_addrs : list Z
}.

(** struct inode. *)
Record inode := {
  i_dev : Z; i_inum : Z; i_ref : Z; i_lock : sleeplock; i_valid : Z; i_di : dinode
}.

Inductive fdtype := FD_NONE | FD_PIPE | FD_INODE | FD_DEVICE.

#[export] Instance fdtype_eq_dec : EqDecision fdtype.
Proof. solve_decision. Defined.

(** struct file. *)
Record file := {
  f_type : fdtype; f_ref : Z; f_readable : Z; f_writable : Z;
  f_ip : option nat; f_off : Z; f_major : Z
}.

(** ** The disk driver (kernel/driver/virtio_disk.c, include/virtio.h) *)

(** What a descriptor points to. *)
Inductive dma := D_null | D_op (i : nat) | D_data (b : nat) | D_status (i : nat).

(** struct virtq_desc. *)
Record virtq_desc := { d_addr : dma; d_len : Z; d_flags : Z; d_next : Z }.

(** struct virtio_blk_req. *)
Record blk_req := { rq_type : Z; rq_reserved : Z; rq_sector : Z }.

(** struct disk with the three pages it shares with the device. *)
Record vdisk_t := {
  v_desc : list virtq_desc;
  v_avail : list Z;            (* avail->ring *)
  v_avail_idx : Z;             (* avail->idx *)
  v_used : list Z;             (* used->ring[].id *)
  v_used_idx : Z;              (* used->idx *)
  v_free : list Z;
  v_seen : Z;                  (* used_idx *)
  v_info : list (option nat * Z);   (* b and status *)
  v_ops : list blk_req
}.

(** The buddy allocator's variables (kernel/mm/buddy.c). *)
Record buddy_t := { bd_nsizes : Z; bd_base : Z; bd_sizes : Z }.

(** The supervisor registers of the hart. *)
Record csrs := {
  r_stvec : Z; r_sepc : Z; r_scause : Z; r_stval : Z; r_satp : Z; r_stimecmp : Z; r_time : Z
}.

(** ** The kernel state *)

Record kernel := mkKernel {
  k_hart : hart;
  k_locks : gmap lockid spinlock;
  k_mem : mem;
  k_uart : list Z;             (* bytes written to THR, in order *)
  k_panicking : Z;
  k_panicked : Z;
  k_kmem : kmem_t;
  k_kpgtbl : Z;                (* kernel_pagetable *)
  k_procs : list PCB;
  k_initproc : option nat;
  k_nextpid : Z;
  k_ticks : Z;
  k_bcache : bcache_t;
  k_log : log_t;
  k_disk : gmap Z (list Z);    (* the blocks of the disk *)
  k_sb : superblock;
  k_itable : list inode;
  k_ftable : list file;
  k_vdisk : vdisk_t;
  k_buddy : buddy_t;
  k_first : Z;                 (* forkret's static variable *)
  k_csr : csrs;
  k_mmio : gmap Z Z            (* device registers the kernel wrote *)
}.

Definition set_hart (v : hart) (s : kernel) : kernel :=
  mkKernel v (k_locks s) (k_mem s) (k_uart s) (k_panicking s) (k_panicked s) (k_kmem s) (k_kpgtbl s)
    (k_procs s) (k_initproc s) (k_nextpid s) (k_ticks s) (k_bcache s) (k_log s) (k_disk s) (k_sb s)
    (k_itable s) (k_ftable s) (k_vdisk s) (k_buddy s) (k_first s) (k_csr s) (k_mmio s).
Definition set_locks (v : gmap lockid spinlock) (s : kernel) : kernel :=
  mkKernel (k_hart s) v (k_mem s) (k_uart s) (k_panicking s) (k_panicked s) (k_kmem s) (k_kpgtbl s)
    (k_procs s) (k_initproc s) (k_nextpid s) (k_ticks s) (k_bcache s) (k_log s) (k_disk s) (k_sb s)
    (k_itable s) (k_ftable s) (k_vdisk s) (k_buddy s) (k_first s) (k_csr s) (k_mmio s).
Definition set_mem (v : mem) (s : kernel) : kernel :=
  mkKernel (k_hart s) (k_locks s) v (k_uart s) (k_panicking s) (k_panicked s) (k_kmem s)
    (k_kpgtbl s) (k_procs s) (k_initproc s) (k_nextpid s) (k_ticks s) (k_bcache s) (k_log s)
    (k_disk s) (k_sb s) (k_itable s) (k_ftable s) (k_vdisk s) (k_buddy s) (k_first s) (k_csr s)
    (k_mmio s).
Definition set_uart (v : list Z) (s : kernel) : kernel :=
  mkKernel (k_hart s) (k_locks s) (k_mem s) v (k_panicking s) (k_panicked s) (k_kmem s) (k_kpgtbl s)
    (k_procs s) (k_initproc s) (k_nextpid s) (k_ticks s) (k_bcache s) (k_log s) (k_disk s) (k_sb s)
    (k_itable s) (k_ftable s) (k_vdisk s) (k_buddy s) (k_first s) (k_csr s) (k_mmio s).
Definition set_panicking (v : Z) (s : kernel) : kernel :=
  mkKernel (k_hart s) (k_locks s) (k_mem s) (k_uart s) v (k_panicked s) (k_kmem s) (k_kpgtbl s)
    (k_procs s) (k_initproc s) (k_nextpid s) (k_ticks s) (k_bcache s) (k_log s) (k_disk s) (k_sb s)
    (k_itable s) (k_ftable s) (k_vdisk s) (k_buddy s) (k_first s) (k_csr s) (k_mmio s).
Definition set_panicked (v : Z) (s : kernel) : kernel :=
  mkKernel (k_hart s) (k_locks s) (k_mem s) (k_uart s) (k_panicking s) v (k_kmem s) (k_kpgtbl s)
    (k_procs s) (k_initproc s) (k_nextpid s) (k_ticks s) (k_bcache s) (k_log s) (k_disk s) (k_sb s)
    (k_itable s) (k_ftable s) (k_vdisk s) (k_buddy s) (k_first s) (k_csr s) (k_mmio s).
Definition set_kmem (v : kmem_t) (s : kernel) : kernel :=
  mkKernel (k_hart s) (k_locks s) (k_mem s) (k_uart s) (k_panicking s) (k_panicked s) v (k_kpgtbl s)
    (k_procs s) (k_initproc s) (k_nextpid s) (k_ticks s) (k_bcache s) (k_log s) (k_disk s) (k_sb s)
    (k_itable s) (k_ftable s) (k_vdisk s) (k_buddy s) (k_first s) (k_csr s) (k_mmio s).
Definition set_kpgtbl (v : Z) (s : kernel) : kernel :=
  mkKernel (k_hart s) (k_locks s) (k_mem s) (k_uart s) (k_panicking s) (k_panicked s) (k_kmem s) v
    (k_procs s) (k_initproc s) (k_nextpid s) (k_ticks s) (k_bcache s) (k_log s) (k_disk s) (k_sb s)
    (k_itable s) (k_ftable s) (k_vdisk s) (k_buddy s) (k_first s) (k_csr s) (k_mmio s).
Definition set_procs (v : list PCB) (s : kernel) : kernel :=
  mkKernel (k_hart s) (k_locks s) (k_mem s) (k_uart s) (k_panicking s) (k_panicked s) (k_kmem s)
    (k_kpgtbl s) v (k_initproc s) (k_nextpid s) (k_ticks s) (k_bcache s) (k_log s) (k_disk s)
    (k_sb s) (k_itable s) (k_ftable s) (k_vdisk s) (k_buddy s) (k_first s) (k_csr s) (k_mmio s).
Definition set_initproc (v : option nat) (s : kernel) : kernel :=
  mkKernel (k_hart s) (k_locks s) (k_mem s) (k_uart s) (k_panicking s) (k_panicked s) (k_kmem s)
    (k_kpgtbl s) (k_procs s) v (k_nextpid s) (k_ticks s) (k_bcache s) (k_log s) (k_disk s) (k_sb s)
    (k_itable s) (k_ftable s) (k_vdisk s) (k_buddy s) (k_first s) (k_csr s) (k_mmio s).
Definition set_nextpid (v : Z) (s : kernel) : kernel :=
  mkKernel (k_hart s) (k_locks s) (k_mem s) (k_uart s) (k_panicking s) (k_panicked s) (k_kmem s)
    (k_kpgtbl s) (k_procs s) (k_initproc s) v (k_ticks s) (k_bcache s) (k_log s) (k_disk s) (k_sb s)
    (k_itable s) (k_ftable s) (k_vdisk s) (k_buddy s) (k_first s) (k_csr s) (k_mmio s).
Definition set_ticks (v : Z) (s : kernel) : kernel :=
  mkKernel (k_hart s) (k_locks s) (k_mem s) (k_uart s) (k_panicking s) (k_panicked s) (k_kmem s)
    (k_kpgtbl s) (k_procs s) (k_initproc s) (k_nextpid s) v (k_bcache s) (k_log s) (k_disk s)
    (k_sb s) (k_itable s) (k_ftable s) (k_vdisk s) (k_buddy s) (k_first s) (k_csr s) (k_mmio s).
Definition set_bcache (v : bcache_t) (s : kernel) : kernel :=
  mkKernel (k_hart s) (k_locks s) (k_mem s) (k_uart s) (k_panicking s) (k_panicked s) (k_kmem s)
    (k_kpgtbl s) (k_procs s) (k_initproc s) (k_nextpid s) (k_ticks s) v (k_log s) (k_disk s)
    (k_sb s) (k_itable s) (k_ftable s) (k_vdisk s) (k_buddy s) (k_first s) (k_csr s) (k_mmio s).
Definition set_log (v : log_t) (s : kernel) : kernel :=
  mkKernel (k_hart s) (k_locks s) (k_mem s) (k_uart s) (k_panicking s) (k_panicked s) (k_kmem s)
    (k_kpgtbl s) (k_procs s) (k_initproc s) (k_nextpid s) (k_ticks s) (k_bcache s) v (k_disk s)
    (k_sb s) (k_itable s) (k_ftable s) (k_vdisk s) (k_buddy s) (k_first s) (k_csr s) (k_mmio s).
Definition set_disk (v : gmap Z (list Z)) (s : kernel) : kernel :=
  mkKernel (k_hart s) (k_locks s) (k_mem s) (k_uart s) (k_panicking s) (k_panicked s) (k_kmem s)
    (k_kpgtbl s) (k_procs s) (k_initproc s) (k_nextpid s) (k_ticks s) (k_bcache s) (k_log s) v
    (k_sb s) (k_itable s) (k_ftable s) (k_vdisk s) (k_buddy s) (k_first s) (k_csr s) (k_mmio s).
Definition set_sb (v : superblock) (s : kernel) : kernel :=
  mkKernel (k_hart s) (k_locks s) (k_mem s) (k_uart s) (k_panicking s) (k_panicked s) (k_kmem s)
    (k_kpgtbl s) (k_procs s) (k_initproc s) (k_nextpid s) (k_ticks s) (k_bcache s) (k_log s)
    (k_disk s) v (k_itable s) (k_ftable s) (k_vdisk s) (k_buddy s) (k_first s) (k_csr s) (k_mmio s).
Definition set_itable (v : list inode) (s : kernel) : kernel :=
  mkKernel (k_hart s) (k_locks s) (k_mem s) (k_uart s) (k_panicking s) (k_panicked s) (k_kmem s)
    (k_kpgtbl s) (k_procs s) (k_initproc s) (k_nextpid s) (k_ticks s) (k_bcache s) (k_log s)
    (k_disk s) (k_sb s) v (k_ftable s) (k_vdisk s) (k_buddy s) (k_first s) (k_csr s) (k_mmio s).
Definition set_ftable (v : list file) (s : kernel) : kernel :=
  mkKernel (k_hart s) (k_locks s) (k_mem s) (k_uart s) (k_panicking s) (k_panicked s) (k_kmem s)
    (k_kpgtbl s) (k_procs s) (k_initproc s) (k_nextpid s) (k_ticks s) (k_bcache s) (k_log s)
    (k_disk s) (k_sb s) (k_itable s) v (k_vdisk s) (k_buddy s) (k_first s) (k_csr s) (k_mmio s).
Definition set_vdisk (v : vdisk_t) (s : kernel) : kernel :=
  mkKernel (k_hart s) (k_locks s) (k_mem s) (k_uart s) (k_panicking s) (k_panicked s) (k_kmem s)
    (k_kpgtbl s) (k_procs s) (k_initproc s) (k_nextpid s) (k_ticks s) (k_bcache s) (k_log s)
    (k_disk s) (k_sb s) (k_itable s) (k_ftable s) v (k_buddy s) (k_first s) (k_csr s) (k_mmio s).
Definition set_buddy (v : buddy_t) (s : kernel) : kernel :=
  mkKernel (k_hart s) (k_locks s) (k_mem s) (k_uart s) (k_panicking s) (k_panicked s) (k_kmem s)
    (k_kpgtbl s) (k_procs s) (k_initproc s) (k_nextpid s) (k_ticks s) (k_bcache s) (k_log s)
    (k_disk s) (k_sb s) (k_itable s) (k_ftable s) (k_vdisk s) v (k_first s) (k_csr s) (k_mmio s).
Definition set_first (v : Z) (s : kernel) : kernel :=
  mkKernel (k_hart s) (k_locks s) (k_mem s) (k_uart s) (k_panicking s) (k_panicked s) (k_kmem s)
    (k_kpgtbl s) (k_procs s) (k_initproc s) (k_nextpid s) (k_ticks s) (k_bcache s) (k_log s)
    (k_disk s) (k_sb s) (k_itable s) (k_ftable s) (k_vdisk s) (k_buddy s) v (k_csr s) (k_mmio s).
Definition set_csr (v : csrs) (s : kernel) : kernel :=
  mkKernel (k_hart s) (k_locks s) (k_mem s) (k_uart s) (k_panicking s) (k_panicked s) (k_kmem s)
    (k_kpgtbl s) (k_procs s) (k_initproc s) (k_nextpid s) (k_ticks s) (k_bcache s) (k_log s)
    (k_disk s) (k_sb s) (k_itable s) (k_ftable s) (k_vdisk s) (k_buddy s) (k_first s) v (k_mmio s).
Definition set_mmio (v : gmap Z Z) (s : kernel) : kernel :=
  mkKernel (k_hart s) (k_locks s) (k_mem s) (k_uart s) (k_panicking s) (k_panicked s) (k_kmem s)
    (k_kpgtbl s) (k_procs s) (k_initproc s) (k_nextpid s) (k_ticks s) (k_bcache s) (k_log s)
    (k_disk s) (k_sb s) (k_itable s) (k_ftable s) (k_vdisk s) (k_buddy s) (k_first s) (k_csr s) v.

(** A kernel routine. *)
Abbreviation KM A := (M kernel A).

(** Accesses to memory through a pointer, and the routines of string.c. *)
Definition ld64 (a : Z) : KM Z := get (fun s => load64 (k_mem s) a).
Definition st64 (a v : Z) : KM unit := modify (fun s => set_mem (store64 (k_mem s) a v) s).
Definition ld8 (a : Z) : KM Z := get (fun s => rd8 (k_mem s) a).
Definition st8 (a v : Z) : KM unit := modify (fun s => set_mem (wr8 (k_mem s) a v) s).
Definition kmemset (dst c n : Z) : KM unit :=
  modify (fun s => set_mem (memset (k_mem s) dst c n) s).
Definition kmemmove (dst src n : Z) : KM unit :=
  modify (fun s => set_mem (memmove (k_mem s) dst src n) s).

(** Writing a field back. *)
Lemma set_hart_id s : set_hart (k_hart s) s = s.
Proof. by destruct s. Qed.
Lemma set_locks_id s : set_locks (k_locks s) s = s.
Proof. by destruct s. Qed.
Lemma set_mem_id s : set_mem (k_mem s) s = s.
Proof. by destruct s. Qed.
Lemma set_uart_id s : set_uart (k_uart s) s = s.
Proof. by destruct s. Qed.
Lemma set_kmem_id s : set_kmem (k_kmem s) s = s.
Proof. by destruct s. Qed.
Lemma set_bcache_id s : set_bcache (k_bcache s) s = s.
Proof. by destruct s. Qed.
Lemma set_log_id s : set_log (k_log s) s = s.
Proof. by destruct s. Qed.

Create Rewrite HintDb kernel.
#[export] Hint Rewrite set_hart_id set_locks_id set_mem_id set_uart_id set_kmem_id
  set_bcache_id set_log_id : kernel.

(** ** The state at boot, with every lock initialised *)

Definition PCB_zero : PCB :=
  {| p_state := UNUSED; p_pid := 0; p_pagetable := 0;
     p_context := {| ctx_ra := 0; ctx_sp := 0; ctx_s := replicate 12 0 |};
     p_kstack := 0; p_trapframe := 0; p_name := replicate 16 0; p_killed := 0;
     p_parent := None; p_chan := None; p_xstate := 0; p_sz := 0;
     p_ofile := replicate 16 None; p_cwd := None |}.

Definition buf_zero : buf :=
  {| b_valid := 0; b_disk := 0; b_dev := 0; b_blockno := 0;
     b_lock := {| sl_locked := 0; sl_pid := 0 |}; b_refcnt := 0;
     b_prev := Head; b_next := Head; b_data := replicate 1024 0 |}.

Definition sb_zero : superblock :=
  {| sb_magic := 0; sb_size := 0; sb_nblocks := 0; sb_ninodes := 0; sb_nlog := 0; sb_logstart := 0;
     sb_inodestart := 0; sb_bmapstart := 0 |}.

Definition dinode_zero : dinode :=
  {| di_type := 0; di_major := 0; di_minor := 0; di_nlink := 0; di_size := 0; di_addrs := replicate 13 0 |}.

Definition inode_zero : inode :=
  {| i_dev := 0; i_inum := 0; i_ref := 0; i_lock := {| sl_locked := 0; sl_pid := 0 |}; i_valid := 0;
     i_di := dinode_zero |}.

Definition file_zero : file :=
  {| f_type := FD_NONE; f_ref := 0; f_readable := 0; f_writable := 0; f_ip := None; f_off := 0; f_major := 0 |}.

Definition desc_zero : virtq_desc := {| d_addr := D_null; d_len := 0; d_flags := 0; d_next := 0 |}.

Definition vdisk_zero : vdisk_t :=
  {| v_desc := replicate 8 desc_zero; v_avail := replicate 8 0; v_avail_idx := 0; v_used := replicate 8 0;
     v_used_idx := 0; v_free := replicate 8 0; v_seen := 0; v_info := replicate 8 (None, 0);
     v_ops := replicate 8 {| rq_type := 0; rq_reserved := 0; rq_sector := 0 |} |}.

Definition unlocked (nm : string) : spinlock :=
  {| lk_locked := 0; lk_name := nm; lk_cpu := None |}.

Definition boot_locks : gmap lockid spinlock :=
  list_to_map (
    [(L_kmem, unlocked "kmem"); (L_pr, unlocked "pr"); (L_cons, unlocked "cons");
     (L_buddy, unlocked "buddy"); (L_pid, unlocked "nextpid"); (L_wait, unlocked "wait_lock");
     (L_ticks, unlocked "time"); (L_bcache, unlocked "bcache"); (L_log, unlocked "log");
     (L_itable, unlocked "itable"); (L_ftable, unlocked "ftable");
     (L_vdisk, unlocked "virtio_disk")] ++
    ((fun i => (L_proc i, unlocked "proc")) <$> seq 0 64) ++
    ((fun i => (L_buf i, unlocked "sleep lock")) <$> seq 0 90) ++
    ((fun i => (L_inode i, unlocked "sleep lock")) <$> seq 0 90)).

Definition boot_kernel : kernel :=
  {| k_hart := {| h_tp := 0; h_cpu := {| c_proc := None; c_noff := 0; c_intena := 0 |};
                  h_sstatus := 0 |};
     k_locks := boot_locks; k_mem := ∅; k_uart := []; k_panicking := 0; k_panicked := 0;
     k_kmem := {| km_freelist := 0; km_bitmap := 0; km_addr_base := 0 |};
     k_kpgtbl := 0; k_procs := replicate 64 PCB_zero; k_initproc := None; k_nextpid := 1;
     k_ticks := 0;
     k_bcache := {| bc_buf := replicate 90 buf_zero; bc_prev := Head; bc_next := Head |};
     k_log := {| log_start := 0; log_outstanding := 0; log_committing := 0; log_dev := 0;
                 lh_n := 0; lh_block := replicate 90 0 |};
     k_disk := ∅; k_sb := sb_zero; k_itable := replicate 90 inode_zero;
     k_ftable := replicate 100 file_zero; k_vdisk := vdisk_zero;
     k_buddy := {| bd_nsizes := 0; bd_base := 0; bd_sizes := 0 |}; k_first := 1;
     k_csr := {| r_stvec := 0; r_sepc := 0; r_scause := 0; r_stval := 0; r_satp := 0;
                 r_stimecmp := 0; r_time := 0 |};
     k_mmio := ∅ |}.
