(* ===== verification/Spinlock.v ===== *)
(** * kernel/lib/spinlock.c, with uart.c, console.c and the panic routine

    Interrupt nesting and spinlocks of one hart, and the output routines the
    lock code reports its errors with. A lock held by another hart is never
    released while this hart spins on it, so an acquire that would wait stops
    with [Spin]. *)

From S2P Require Import Prelude Mem State.

(** ** The UART (kernel/driver/uart.c) *)

Definition bytes_of (s : string) : list Z :=
  (fun c => Z.of_N (Ascii.N_of_ascii c)) <$> String.list_ascii_of_string s.

Definition nl : string := String (Ascii.ascii_of_nat 10) EmptyString.

(** uart_putc: the polling loop waits for the transmitter and changes nothing;
    then the byte goes to THR. *)
Definition uart_putc (c : Z) : KM unit :=
  modify (fun s => set_uart (k_uart s ++ [u8 c]) s).

Fixpoint uart_puts (bs : list Z) : KM unit :=
  match bs with
  | [] => ret tt
  | c :: bs' =>
      do! (when! c =? 10 then uart_putc 13);
      do! uart_putc c;
      uart_puts bs'
  end.

(** ** panic (kernel/lib/printf.c)

    panic sets [panicking], so that printf takes no lock, prints the message,
    sets [panicked] and spins for ever. On a machine that panicked before, the
    first character of the message already spins. [Printf.panic_by_printf]
    shows that this is what the calls of printf in its body do. *)
Definition panic_text (msg : string) : list Z :=
  bytes_of (nl ++ "!!!" ++ nl ++ "panic:" ++ nl) ++ bytes_of msg ++
  bytes_of (nl ++ "!!!" ++ nl).

Definition panic {A} (msg : string) : KM A :=
  fun s =>
    let s1 := set_panicking 1 s in
    if truthy (k_panicked s) then Stop (Spin "panicked") s1
    else Stop (Panic msg) (set_panicked 1 (set_uart (k_uart s ++ panic_text msg) s1)).

(** ** Interrupts (include/riscv.h) *)

Definition hart_intr_get (h : hart) : Z :=
  b2z (negb (Z.land (h_sstatus h) SSTATUS_SIE =? 0)).
Definition hart_intr_on (h : hart) : hart :=
  {| h_tp := h_tp h; h_cpu := h_cpu h; h_sstatus := Z.lor (h_sstatus h) SSTATUS_SIE |}.
Definition hart_intr_off (h : hart) : hart :=
  {| h_tp := h_tp h; h_cpu := h_cpu h;
     h_sstatus := Z.land (h_sstatus h) (Z.lnot SSTATUS_SIE) |}.

Definition intr_get : KM Z := get (fun s => hart_intr_get (k_hart s)).
Definition intr_on : KM unit := modify (fun s => set_hart (hart_intr_on (k_hart s)) s).
Definition intr_off : KM unit := modify (fun s => set_hart (hart_intr_off (k_hart s)) s).

(** mycpu() and the fields of struct cpu. *)
Definition mycpu : KM cpu := get (fun s => h_cpu (k_hart s)).
Definition set_cpu (c : cpu) (s : kernel) : kernel :=
  set_hart {| h_tp := h_tp (k_hart s); h_cpu := c; h_sstatus := h_sstatus (k_hart s) |} s.
Definition set_noff (n : Z) (s : kernel) : kernel :=
  let c := h_cpu (k_hart s) in
  set_cpu {| c_proc := c_proc c; c_noff := n; c_intena := c_intena c |} s.
Definition set_intena (v : Z) (s : kernel) : kernel :=
  let c := h_cpu (k_hart s) in
  set_cpu {| c_proc := c_proc c; c_noff := c_noff c; c_intena := v |} s.

Definition push_off : KM unit :=
  let! old := intr_get in
  do! intr_off;
  let! c := mycpu in
  do! (when! c_noff c =? 0 then modify (set_intena old));
  modify (set_noff (s32 (c_noff c + 1))).

Definition pop_off : KM unit :=
  let! i := intr_get in
  if truthy i then panic "pop_off - interruptible"
  else
    let! c := mycpu in
    if c_noff c <? 1 then panic "pop_off"
    else
      do! modify (set_noff (s32 (c_noff c - 1)));
      let! c := mycpu in
      when! (c_noff c =? 0) && truthy (c_intena c) then intr_on.

(** myproc (kernel/proc/proc.c): the process running on this hart, if any. *)
Definition myproc : KM (option nat) :=
  do! push_off;
  let! c := mycpu in
  do! pop_off;
  ret (c_proc c).

(** A field of the process [p] points to; a null pointer is not dereferenced. *)
Definition proc_get {A} (p : option nat) (f : PCB -> A) : KM A :=
  let! pcbs := get k_procs in
  match p with
  | None => halt (Undefined "null process")
  | Some i =>
      match pcbs !! i with
      | None => halt (Undefined "process out of range")
      | Some pcb => ret (f pcb)
      end
  end.

(** ** Spinlocks *)

(** The lock variables start out zeroed. *)
Definition lock_zero : spinlock := {| lk_locked := 0; lk_name := ""; lk_cpu := None |}.
Definition lock_of (s : kernel) (l : lockid) : spinlock := default lock_zero (k_locks s !! l).
Definition set_lock (l : lockid) (lk : spinlock) (s : kernel) : kernel :=
  set_locks (<[l := lk]> (k_locks s)) s.

#[local] Arguments lock_of : simpl never.
#[local] Arguments set_lock : simpl never.

(** [lk->locked && lk->cpu == mycpu()] *)
Definition is_held (tp : Z) (lk : spinlock) : bool :=
  truthy (lk_locked lk) && bool_decide (lk_cpu lk = Some tp).

Definition holding (l : lockid) : KM bool :=
  get (fun s => is_held (h_tp (k_hart s)) (lock_of s l)).

Definition initlock (l : lockid) (name : string) : KM unit :=
  modify (set_lock l {| lk_locked := 0; lk_name := name; lk_cpu := None |}).

(** __sync_lock_test_and_set of [locked]: the old value, and 1 is stored. *)
Definition test_and_set (l : lockid) : KM Z :=
  let! lk := get (fun s => lock_of s l) in
  do! modify (set_lock l {| lk_locked := 1; lk_name := lk_name lk; lk_cpu := lk_cpu lk |});
  ret (lk_locked lk).

Definition acquire (l : lockid) : KM unit :=
  do! push_off;
  let! h := holding l in
  if h : bool then
    let! lk := get (fun s => lock_of s l) in
    do! uart_puts (bytes_of (lk_name lk));
    panic "acquire"
  else
    let! old := test_and_set l in
    if truthy old then halt (Spin "acquire")
    else
      modify (fun s =>
        let lk := lock_of s l in
        set_lock l {| lk_locked := lk_locked lk; lk_name := lk_name lk;
                      lk_cpu := Some (h_tp (k_hart s)) |} s).

(** release, with what it prints about a lock that is not held left open:
    printf, which prints it, itself releases a lock. [Printf.release] closes
    the knot. *)
Definition release_core (complain : KM unit) (l : lockid) : KM unit :=
  let! h := holding l in
  if negb h then do! complain; panic "release"
  else
    do! modify (fun s =>
      let lk := lock_of s l in
      set_lock l {| lk_locked := lk_locked lk; lk_name := lk_name lk; lk_cpu := None |} s);
    do! modify (fun s =>
      let lk := lock_of s l in
      set_lock l {| lk_locked := 0; lk_name := lk_name lk; lk_cpu := lk_cpu lk |} s);
    pop_off.

#[global] Arguments push_off : simpl never.
#[global] Arguments pop_off : simpl never.
#[global] Arguments acquire : simpl never.
#[global] Arguments release_core : simpl never.
#[global] Arguments panic : simpl never.

(** ** Balanced sections *)

(** Interrupts are off while the nesting depth is positive. *)
Definition hart_ok (h : hart) : Prop :=
  0 <= c_noff (h_cpu h) < 2 ^ 30 /\ (0 < c_noff (h_cpu h) -> hart_intr_get h = 0).

(** What push_off does to the hart. *)
Definition hart_push (h : hart) : hart :=
  let c := h_cpu h in
  {| h_tp := h_tp h;
     h_cpu := {| c_proc := c_proc c; c_noff := c_noff c + 1;
                 c_intena := if c_noff c =? 0 then hart_intr_get h else c_intena c |};
     h_sstatus := Z.land (h_sstatus h) (Z.lnot SSTATUS_SIE) |}.

(** A balanced section leaves the hart as it was, except that at depth 0 the
    scratch field [intena] holds the current interrupt flag. *)
Definition hart_settle (h : hart) : hart :=
  let c := h_cpu h in
  if c_noff c =? 0
  then {| h_tp := h_tp h;
          h_cpu := {| c_proc := c_proc c; c_noff := 0; c_intena := hart_intr_get h |};
          h_sstatus := h_sstatus h |}
  else h.

Definition settle (s : kernel) : kernel := set_hart (hart_settle (k_hart s)) s.

Lemma sie_clear_id x : Z.land x SSTATUS_SIE = 0 -> Z.land x (Z.lnot SSTATUS_SIE) = x.
Proof.
  intros H. apply Z.bits_inj'. intros n Hn.
  apply (f_equal (fun z => Z.testbit z n)) in H.
  rewrite Z.land_spec, Z.testbit_0_l in H. rewrite Z.land_spec, Z.lnot_spec by done.
  by destruct (Z.testbit x n), (Z.testbit SSTATUS_SIE n).
Qed.

Lemma testbit_sie n : 0 <= n -> Z.testbit SSTATUS_SIE n = (n =? 1).
Proof. intros Hn. change SSTATUS_SIE with (2 ^ 1). rewrite Z.pow2_bits_eqb by lia. zcases. Qed.

Lemma sie_restore x :
  Z.land x SSTATUS_SIE <> 0 -> Z.lor (Z.land x (Z.lnot SSTATUS_SIE)) SSTATUS_SIE = x.
Proof.
  intros H. assert (Z.testbit x 1 = true) as Hx.
  { apply not_false_is_true. intros E. apply H. apply Z.bits_inj'. intros n Hn.
    rewrite Z.land_spec, testbit_sie, Z.testbit_0_l by done.
    destruct (Z.eqb_spec n 1) as [->|]; [by rewrite E|by rewrite andb_false_r]. }
  apply Z.bits_inj'. intros n Hn.
  rewrite Z.lor_spec, Z.land_spec, Z.lnot_spec, testbit_sie by done.
  destruct (Z.eqb_spec n 1) as [->|]; [by rewrite Hx|].
  by rewrite andb_true_r, orb_false_r.
Qed.

Lemma sie_cleared x : Z.land (Z.land x (Z.lnot SSTATUS_SIE)) SSTATUS_SIE = 0.
Proof. rewrite <- Z.land_assoc, (Z.land_comm (Z.lnot _)), Z.land_lnot_diag. apply Z.land_0_r. Qed.

Lemma hart_push_intr h : hart_intr_get (hart_push h) = 0.
Proof. unfold hart_intr_get. simpl. by rewrite sie_cleared. Qed.

Lemma hart_push_ok h : hart_ok h -> c_noff (h_cpu h) < 2 ^ 30 - 1 -> hart_ok (hart_push h).
Proof. intros [H1 H2] H3. split; [simpl; lia|]. intros _. apply hart_push_intr. Qed.

Lemma hart_settle_ok h : hart_ok h -> hart_ok (hart_settle h).
Proof. unfold hart_settle. intros [H1 H2]. destruct (_ =? _) eqn:E; split; simpl; try done; lia. Qed.

Lemma hart_settle_idem h : hart_settle (hart_settle h) = hart_settle h.
Proof.
  unfold hart_settle. destruct (c_noff (h_cpu h) =? 0) eqn:E; simpl; [done|]. by rewrite E.
Qed.

Lemma push_off_ok s : hart_ok (k_hart s) -> push_off s = Ok tt (set_hart (hart_push (k_hart s)) s).
Proof.
  intros [H1 _]. unfold push_off, hart_push, bind, intr_get, intr_off, mycpu, get, modify.
  simpl. destruct (_ =? 0); unfold ret; cbn; rewrite s32_small by lia; done.
Qed.

Lemma pop_off_ok s h :
  hart_ok h -> k_hart s = hart_push h -> pop_off s = Ok tt (set_hart (hart_settle h) s).
Proof.
  intros [H1 H2] Hs. destruct s. cbn in Hs. subst.
  unfold pop_off, bind, intr_get, mycpu, get, modify. cbn. rewrite hart_push_intr. cbn.
  unfold hart_settle. zif. rewrite Z.add_simpl_r, s32_small by lia.
  destruct (Z.eqb_spec (c_noff (h_cpu h)) 0) as [E|E]; cbn.
  - destruct (Z.eqb_spec (Z.land (h_sstatus h) SSTATUS_SIE) 0) as [Hi|Hi].
    + assert (hart_intr_get h = 0) as Hg by (unfold hart_intr_get; by zif).
      rewrite Hg. unfold ret, set_noff, set_cpu, set_hart. cbn. rewrite Hg, E. cbn.
      by rewrite (sie_clear_id _ Hi).
    + assert (hart_intr_get h = 1) as Hg by (unfold hart_intr_get; by zif).
      rewrite Hg. unfold intr_on, modify, hart_intr_on, set_noff, set_cpu, set_hart. cbn.
      rewrite Hg, E. cbn. by rewrite (sie_restore _ Hi).
  - unfold ret, set_noff, set_cpu, set_hart. cbn. zif. rewrite sie_clear_id.
    + by destruct h as [tp [pr no ie] ss].
    + assert (hart_intr_get h = 0) as Hi by (apply H2; lia). unfold hart_intr_get, b2z in Hi.
      by destruct (Z.eqb_spec (Z.land (h_sstatus h) SSTATUS_SIE) 0).
Qed.

Lemma myproc_ok s : hart_ok (k_hart s) -> myproc s = Ok (c_proc (h_cpu (k_hart s))) (settle s).
Proof.
  intros Hh. unfold myproc. mstep (push_off_ok s Hh). unfold bind at 1, mycpu, get.
  erewrite bind_ok by (by apply (pop_off_ok _ (k_hart s))). by destruct s.
Qed.

(** The lock is free, and the state with the lock taken by this hart. *)
Definition lock_free (l : lockid) (s : kernel) : Prop :=
  exists nm, k_locks s !! l = Some {| lk_locked := 0; lk_name := nm; lk_cpu := None |}.

Definition locked (l : lockid) (s : kernel) : kernel :=
  set_lock l {| lk_locked := 1; lk_name := lk_name (lock_of s l);
                lk_cpu := Some (h_tp (k_hart s)) |} (set_hart (hart_push (k_hart s)) s).

Lemma lock_of_set_lock l lk s : lock_of (set_lock l lk s) l = lk.
Proof. unfold lock_of, set_lock. cbn. by rewrite lookup_insert_eq. Qed.

Lemma set_lock_set_lock l a b s : set_lock l a (set_lock l b s) = set_lock l a s.
Proof. unfold set_lock, set_locks. cbn. by rewrite insert_insert_eq. Qed.

Lemma acquire_ok l s : lock_free l s -> hart_ok (k_hart s) -> acquire l s = Ok tt (locked l s).
Proof.
  intros [nm Hl] Hh. unfold acquire. mstep (push_off_ok s Hh).
  assert (lock_of s l = {| lk_locked := 0; lk_name := nm; lk_cpu := None |}) as Hs
    by (unfold lock_of; by rewrite Hl).
  assert (lock_of (set_hart (hart_push (k_hart s)) s) l = lock_of s l) as Hlk by done.
  rewrite Hs in Hlk.
  unfold bind, holding, get, is_held, test_and_set, modify, locked.
  rewrite Hlk, Hs. cbn. rewrite Hlk. cbn. by rewrite lock_of_set_lock, set_lock_set_lock.
Qed.

Lemma release_core_ok complain l s s1 :
  lock_free l s -> hart_ok (k_hart s) ->
  k_hart s1 = k_hart (locked l s) -> k_locks s1 = k_locks (locked l s) ->
  release_core complain l s1 = Ok tt (set_locks (k_locks s) (set_hart (hart_settle (k_hart s)) s1)).
Proof.
  intros [nm Hl] Hh E1 E2.
  assert (lock_of s l = {| lk_locked := 0; lk_name := nm; lk_cpu := None |}) as Hs
    by (unfold lock_of; by rewrite Hl).
  assert (lock_of s1 l = {| lk_locked := 1; lk_name := nm; lk_cpu := Some (h_tp (k_hart s)) |})
    as H1 by (unfold lock_of; rewrite E2; unfold locked, set_lock; rewrite Hs; cbn; by rewrite lookup_insert_eq).
  unfold release_core, bind, holding, get, is_held, modify. rewrite H1, E1. cbn.
  rewrite bool_decide_true by done. cbn.
  rewrite lock_of_set_lock, set_lock_set_lock, H1. cbn.
  erewrite pop_off_ok; [|exact Hh|exact E1].
  f_equal. unfold set_lock, set_locks, set_hart. cbn. f_equal.
  rewrite E2. unfold locked, set_lock. cbn. rewrite insert_insert_eq. by apply insert_id.
Qed.

(** A lock the hart holds, and one another hart holds. *)
Definition held_by (tp : Z) (l : lockid) (s : kernel) : Prop :=
  exists nm, k_locks s !! l = Some {| lk_locked := 1; lk_name := nm; lk_cpu := Some tp |}.
