(* ===== verification/Printf.v ===== *)
(** * kernel/lib/printf.c and kernel/driver/console.c

    Formatted output. printf serialises its output with pr.lock unless the
    machine is panicking; every character goes through consputc and
    uartputc_sync to the UART. The arguments of a call are a list of
    [varg]s; fetching one of the wrong kind, or past the end, is undefined. *)

From S2P Require Import Prelude Mem State Spinlock.

(** ** Characters *)

Definition uartputc_sync (c : Z) : KM unit :=
  let! panicking := get k_panicking in
  do! (when! panicking =? 0 then push_off);
  let! panicked := get k_panicked in
  if truthy panicked then halt (Spin "panicked")
  else
    (* the loop on LSR waits for the transmitter to be idle *)
    do! modify (fun s => set_uart (k_uart s ++ [u8 c]) s);
    let! panicking := get k_panicking in
    when! panicking =? 0 then pop_off.

Definition BACKSPACE : Z := 0x100.

Definition consputc (c : Z) : KM unit :=
  if c =? BACKSPACE then
    do! uartputc_sync 8; do! uartputc_sync 32; uartputc_sync 8
  else uartputc_sync c.

Fixpoint consputs (cs : list Z) : KM unit :=
  match cs with
  | [] => ret tt
  | c :: cs' => do! consputc c; consputs cs'
  end.

(** ** Numbers *)

(** [char digits[] = "0123456789abcdef"] *)
Definition digits : list Z := bytes_of "0123456789abcdef".
Definition digit (d : Z) : Z := nth (Z.to_nat d) digits 0.

(** The do-while loop of printint: the digits of [x], least significant first. *)
Fixpoint digit_loop (fuel : nat) (base x : Z) : option (list Z) :=
  match fuel with
  | O => None
  | S f =>
      let d := digit (x mod base) in
      let x' := x / base in
      if truthy x' then (fun ds => d :: ds) <$> digit_loop f base x' else Some [d]
  end.

(** The number of rounds is at most the number of bits of [x]. *)
Definition digit_list (base x : Z) : option (list Z) := digit_loop 65 base x.

(** [char buf[32]]: writing past its end is undefined. *)
Definition printint (xx base sign : Z) : KM unit :=
  let neg := truthy sign && (xx <? 0) in
  let x := if neg then u64 (- xx) else u64 xx in
  do! (when! neg then consputc 45);
  match digit_list base x with
  | None => halt OutOfFuel
  | Some ds =>
      if 32 <? Z.of_nat (length ds) then halt (Undefined "printint: buf")
      else consputs (rev ds)
  end.

(** The loop of printptr: [x >> 60], then [x <<= 4]. *)
Fixpoint ptr_digits (k : nat) (x : Z) : list Z :=
  match k with
  | O => []
  | S k' => digit (Z.shiftr x 60) :: ptr_digits k' (u64 (Z.shiftl x 4))
  end.

Definition printptr (x : Z) : KM unit :=
  do! consputc 48;
  do! consputc 120;
  consputs (ptr_digits 16 x).

(** ** printf *)

Inductive varg := VNum (x : Z) | VStr (s : option (list Z)).

Definition va_num (ap : list varg) : KM (Z * list varg) :=
  match ap with
  | VNum x :: ap' => ret (x, ap')
  | _ => halt (Undefined "va_arg")
  end.

Definition va_str (ap : list varg) : KM (option (list Z) * list varg) :=
  match ap with
  | VStr x :: ap' => ret (x, ap')
  | _ => halt (Undefined "va_arg")
  end.

(** The body of the loop of printf after a percent sign at [i - 1]: the
    conversion starting at [i], the arguments left and the index of its last
    character; [None] when the format string ends ([c0 == 0], break). *)
Definition conversion (fmt : list Z) (i : nat) (ap : list varg) : KM (option (nat * list varg)) :=
  let ch k := nth k fmt 0 in
  let c0 := ch i in
  let c1 := if truthy c0 then ch (i + 1)%nat else 0 in
  let c2 := if truthy c1 then ch (i + 2)%nat else 0 in
  let num conv base sign k :=
    let! ' (x, ap') := va_num ap in
    do! printint (conv x) base sign;
    ret (Some ((i + k)%nat, ap')) in
  let ll x := s64 (u64 x) in
  if c0 =? 100 then num s32 10 1 0%nat                                          (* d *)
  else if (c0 =? 108) && (c1 =? 100) then num ll 10 1 1%nat                     (* ld *)
  else if (c0 =? 108) && (c1 =? 108) && (c2 =? 100) then num ll 10 1 2%nat      (* lld *)
  else if c0 =? 117 then num u32 10 0 0%nat                                     (* u *)
  else if (c0 =? 108) && (c1 =? 117) then num ll 10 0 1%nat                     (* lu *)
  else if (c0 =? 108) && (c1 =? 108) && (c2 =? 117) then num ll 10 0 2%nat      (* llu *)
  else if c0 =? 120 then num u32 16 0 0%nat                                     (* x *)
  else if (c0 =? 108) && (c1 =? 120) then num ll 16 0 1%nat                     (* lx *)
  else if (c0 =? 108) && (c1 =? 108) && (c2 =? 120) then num ll 16 0 2%nat      (* llx *)
  else if c0 =? 112 then                                                        (* p *)
    let! ' (x, ap') := va_num ap in
    do! printptr (u64 x);
    ret (Some (i, ap'))
  else if c0 =? 99 then                                                         (* c *)
    let! ' (x, ap') := va_num ap in
    do! consputc (s32 (u32 x));
    ret (Some (i, ap'))
  else if c0 =? 115 then                                                        (* s *)
    let! ' (s, ap') := va_str ap in
    do! consputs (match s with None => bytes_of "(null)" | Some s => s end);
    ret (Some (i, ap'))
  else if c0 =? 37 then                                                         (* percent *)
    do! consputc 37;
    ret (Some (i, ap))
  else if c0 =? 0 then ret None
  else
    do! consputc 37;
    do! consputc c0;
    ret (Some (i, ap)).

(** The loop over the format string; each round advances [i]. *)
Fixpoint format_loop (fuel : nat) (fmt : list Z) (i : nat) (ap : list varg) : KM unit :=
  match fuel with
  | O => halt OutOfFuel
  | S f =>
      let cx := nth i fmt 0 in
      if cx =? 0 then ret tt
      else if negb (cx =? 37) then
        do! consputc cx;
        format_loop f fmt (S i) ap
      else
        let! r := conversion fmt (S i) ap in
        match r with
        | None => ret tt
        | Some (j, ap') => format_loop f fmt (S j) ap'
        end
  end.

Definition format (fmt : list Z) (ap : list varg) : KM unit :=
  format_loop (S (length fmt)) fmt 0 ap.

Definition printf (fmt : string) (ap : list varg) : KM unit :=
  let! panicking := get k_panicking in
  do! (when! panicking =? 0 then acquire L_pr);
  do! format (bytes_of fmt) ap;
  let! panicking := get k_panicking in
  when! panicking =? 0 then release_core (ret tt) L_pr.

Definition esc : string := String (Ascii.ascii_of_nat 27) EmptyString.

Definition clear_screen : KM unit :=
  do! printf (esc ++ "[2J") [];
  printf (esc ++ "[H") [].

Definition goto_xy (x y : Z) : KM unit :=
  if (x <? 0) || (79 <? x) || (y <? 0) || (24 <? y) then ret tt
  else printf (esc ++ "[%d;%dH") [VNum (y + 1); VNum (x + 1)].

Definition printf_color (color : Z) (fmt : string) (ap : list varg) : KM unit :=
  do! printf (esc ++ "[%dm") [VNum color];
  let! panicking := get k_panicking in
  do! (when! panicking =? 0 then acquire L_pr);
  do! format (bytes_of fmt) ap;
  let! panicking := get k_panicking in
  do! (when! panicking =? 0 then release_core (ret tt) L_pr);
  printf (esc ++ "[%dm") [VNum 0].

Definition printfinit : KM unit := initlock L_pr "pr".

(** panic as its body is written, by calls of printf. *)
Definition panic_body {A} (msg : string) : KM A :=
  do! modify (set_panicking 1);
  do! printf (nl ++ "!!!" ++ nl ++ "panic:" ++ nl) [];
  do! printf ("%s" ++ nl ++ "!!!" ++ nl) [VStr (Some (bytes_of msg))];
  do! modify (set_panicked 1);
  halt (Panic msg).

(** release: [mycpu()->proc->pid] and the name of the lock are reported before
    the panic. *)
Definition release (l : lockid) : KM unit :=
  release_core
    (let! c := mycpu in
     let! pcbs := get k_procs in
     match c_proc c with
     | None => halt (Undefined "release: mycpu()->proc")
     | Some i =>
         match pcbs !! i with
         | None => halt (Undefined "release: mycpu()->proc")
         | Some p =>
             do! printf ("进程号 : %d" ++ nl) [VNum (p_pid p)];
             let! lk := get (fun s => lock_of s l) in
             printf ("%s" ++ nl) [VStr (Some (bytes_of (lk_name lk)))]
         end
     end) l.

#[global] Arguments uartputc_sync : simpl never.
#[global] Arguments consputc : simpl never.
#[global] Arguments consputs : simpl never.
#[global] Arguments printint : simpl never.
#[global] Arguments printptr : simpl never.
#[global] Arguments printf : simpl never.
#[global] Arguments release : simpl never.
#[global] Arguments digit : simpl never.

(** ** Output is a function of the arguments *)

(** The machine has not panicked, and either it is panicking or the hart runs
    with interrupts pushed off: the state in which the body of printf runs. *)
Definition steady (s : kernel) : Prop :=
  k_panicked s = 0 /\
  (k_panicking s <> 0 \/ (hart_ok (k_hart s) /\ 0 < c_noff (h_cpu (k_hart s)))).

(** Appending to the output. *)
Definition emit (out : list Z) (s : kernel) : kernel := set_uart (k_uart s ++ out) s.

(** [m] does nothing but append text, and the text and the outcome do not
    depend on the state. *)
Definition writes {A} (m : KM A) (r : A + stop) (out : list Z) : Prop :=
  forall s, steady s ->
    m s = match r with inl a => Ok a (emit out s) | inr e => Stop e (emit out s) end.
Definition writer {A} (m : KM A) : Prop := exists r out, writes m r out.

Lemma emit_nil s : emit [] s = s.
Proof. unfold emit. by rewrite app_nil_r, set_uart_id. Qed.

Lemma emit_emit o1 o2 s : emit o2 (emit o1 s) = emit (o1 ++ o2) s.
Proof. unfold emit, set_uart. cbn. by rewrite app_assoc. Qed.

Lemma hart_settle_deep h : 0 < c_noff (h_cpu h) -> hart_settle h = h.
Proof. intros H. unfold hart_settle. by zif. Qed.

Lemma writes_ret {A} (a : A) : writes (ret a) (inl a) [].
Proof. intros s _. by rewrite emit_nil. Qed.

Lemma writes_halt {A} e : writes (@halt _ A e) (inr e) [].
Proof. intros s _. by rewrite emit_nil. Qed.

Lemma writes_bind {A B} (m : KM A) (f : A -> KM B) a o1 r o2 :
  writes m (inl a) o1 -> writes (f a) r o2 -> writes (bind m f) r (o1 ++ o2).
Proof.
  intros H1 H2 s Hs. unfold bind. rewrite (H1 s Hs), H2 by exact Hs.
  by rewrite emit_emit.
Qed.

Lemma writer_bind {A B} (m : KM A) (f : A -> KM B) :
  writer m -> (forall a, writer (f a)) -> writer (bind m f).
Proof.
  intros ([a|e] & o1 & H1) H2.
  - destruct (H2 a) as (r & o2 & H3). exists r, (o1 ++ o2). by eapply writes_bind.
  - exists (inr e), o1. intros s Hs. unfold bind. by rewrite (H1 s Hs).
Qed.

Lemma writes_uartputc_sync c : writes (uartputc_sync c) (inl tt) [u8 c].
Proof.
  intros s [Hp Hs]. unfold uartputc_sync, bind, get, modify.
  destruct (Z.eqb_spec (k_panicking s) 0) as [E|E].
  - destruct Hs as [?|[Hh Hn]]; [done|].
    rewrite push_off_ok by done. cbn. rewrite Hp. cbn. rewrite E. cbn.
    erewrite (pop_off_ok _ (k_hart s)); [|done|done].
    by rewrite hart_settle_deep by done.
  - unfold ret. rewrite Hp. cbn. by zif.
Qed.

(** What consputc sends for a character. *)
Definition cons_text (c : Z) : list Z := if c =? BACKSPACE then [8; 32; 8] else [u8 c].

Lemma writes_consputc c : writes (consputc c) (inl tt) (cons_text c).
Proof.
  unfold consputc, cons_text. destruct (c =? BACKSPACE).
  - change [8; 32; 8] with ([u8 8] ++ [u8 32] ++ [u8 8]).
    repeat (eapply writes_bind; [apply writes_uartputc_sync|]). apply writes_uartputc_sync.
  - apply writes_uartputc_sync.
Qed.

Lemma writes_consputs cs : writes (consputs cs) (inl tt) (flat_map cons_text cs).
Proof.
  induction cs as [|c cs IH]; [apply writes_ret|].
  eapply writes_bind; [apply writes_consputc|done].
Qed.

Lemma flat_map_cons_text cs :
  Forall (fun c => 0 <= c < 256) cs -> flat_map cons_text cs = cs.
Proof.
  induction 1 as [|c cs Hc _ IH]; [done|]. cbn. rewrite IH. unfold cons_text, BACKSPACE.
  zif. by rewrite u8_small.
Qed.

Lemma writer_consputc c : writer (consputc c).
Proof. eexists _, _. apply writes_consputc. Qed.
Lemma writer_consputs cs : writer (consputs cs).
Proof. eexists _, _. apply writes_consputs. Qed.
Lemma writer_ret {A} (a : A) : writer (ret a).
Proof. eexists _, _. apply writes_ret. Qed.
Lemma writer_halt {A} e : writer (@halt kernel A e).
Proof. eexists _, _. apply writes_halt. Qed.

Create HintDb writer.
#[export] Hint Resolve writer_consputc writer_consputs writer_ret writer_halt : writer.

(** Follow the structure of a routine that only writes. *)
Ltac writer :=
  repeat first
    [ solve [auto with writer]
    | apply writer_bind; [|intros ?]
    | match goal with
      | |- writer (if ?b then _ else _) => destruct b
      | |- writer (match ?x with _ => _ end) => destruct x
      end ].

Lemma writer_printint xx base sign : writer (printint xx base sign).
Proof. unfold printint. writer. Qed.
Lemma writer_printptr x : writer (printptr x).
Proof. unfold printptr. writer. Qed.
Lemma writer_va_num ap : writer (va_num ap).
Proof. unfold va_num. writer. Qed.
Lemma writer_va_str ap : writer (va_str ap).
Proof. unfold va_str. writer. Qed.
#[export] Hint Resolve writer_printint writer_printptr writer_va_num writer_va_str : writer.

Lemma writer_conversion fmt i ap : writer (conversion fmt i ap).
Proof. unfold conversion. writer. Qed.
#[export] Hint Resolve writer_conversion : writer.

Lemma writer_format_loop fuel fmt i ap : writer (format_loop fuel fmt i ap).
Proof.
  revert i ap. induction fuel as [|f IH]; intros i ap; cbn [format_loop]; writer.
Qed.

Lemma writer_format fmt ap : writer (format fmt ap).
Proof. apply writer_format_loop. Qed.

(** ** Locking discipline of printf *)

(** The state in which kernel code may print: not panicked, not panicking,
    pr.lock free. *)
Definition can_print (s : kernel) : Prop :=
  k_panicked s = 0 /\ k_panicking s = 0 /\ lock_free L_pr s /\ hart_ok (k_hart s) /\
  c_noff (h_cpu (k_hart s)) < 2 ^ 30 - 1.

Lemma locked_steady l s :
  k_panicked s = 0 -> hart_ok (k_hart s) -> c_noff (h_cpu (k_hart s)) < 2 ^ 30 - 1 ->
  steady (locked l s).
Proof.
  intros Hp Hh Hn. split; [done|]. right. split.
  - by apply hart_push_ok.
  - destruct Hh. cbn. lia.
Qed.

Lemma printf_writes fmt ap out s :
  writes (format (bytes_of fmt) ap) (inl tt) out -> can_print s ->
  printf fmt ap s = Ok tt (emit out (settle s)).
Proof.
  intros Hw (Hp & Hk & Hl & Hh & Hn). unfold printf.
  unfold bind at 1, get at 1. rewrite Hk. cbn [Z.eqb].
  mstep (acquire_ok L_pr s Hl Hh). mstep (Hw _ (locked_steady L_pr s Hp Hh Hn)).
  unfold bind, get. cbn. rewrite Hk. cbn.
  erewrite (release_core_ok _ L_pr s) by done. done.
Qed.

Lemma printf_stops fmt ap e out s :
  writes (format (bytes_of fmt) ap) (inr e) out -> can_print s ->
  printf fmt ap s = Stop e (emit out (locked L_pr s)).
Proof.
  intros Hw (Hp & Hk & Hl & Hh & Hn). unfold printf.
  unfold bind at 1, get at 1. rewrite Hk. cbn [Z.eqb].
  mstep (acquire_ok L_pr s Hl Hh). unfold bind. by rewrite (Hw _ (locked_steady L_pr s Hp Hh Hn)).
Qed.

(** For every format string and argument list, what printf prints and how
    it ends depends on nothing but them. On a machine that is not panicking it
    takes pr.lock, appends its text to the output, gives the lock back with the
    interrupt nesting as it was, and changes nothing else; and it returns
    unless the arguments do not fit the format. *)
Theorem printf_pure fmt ap :
  exists (r : unit + stop) out, forall s, can_print s ->
    printf fmt ap s =
      match r with
      | inl _ => Ok tt (emit out (settle s))
      | inr e => Stop e (emit out (locked L_pr s))
      end.
Proof.
  destruct (writer_format (bytes_of fmt) ap) as ([[]|e] & out & Hw).
  - exists (inl tt), out. intros s Hs. by apply printf_writes.
  - exists (inr e), out. intros s Hs. by apply printf_stops.
Qed.

(** ** Numbers are printed so that they can be read back *)

Definition digit_val (c : Z) : Z := if c <? 58 then c - 48 else c - 87.

(** Reading a numeral back, most significant digit first. *)
Definition parse_nat (base : Z) (cs : list Z) : Z :=
  fold_left (fun acc c => acc * base + digit_val c) cs 0.
Definition parse_int (base : Z) (cs : list Z) : Z :=
  match cs with
  | 45 :: cs' => - parse_nat base cs'
  | _ => parse_nat base cs
  end.

Lemma digit_spec d : 0 <= d < 16 -> digit_val (digit d) = d /\ 48 <= digit d < 103.
Proof.
  intros Hd. assert (d ∈ seqZ 0 16) as Hin by (apply elem_of_seqZ; lia). clear Hd.
  assert (Forall (fun d => digit_val (digit d) = d /\ 48 <= digit d < 103) (seqZ 0 16)) as HF
    by (repeat constructor; vm_compute; done).
  rewrite Forall_forall in HF. by apply HF.
Qed.

Lemma digit_loop_spec f base x :
  2 <= base <= 16 -> 0 <= x < 2 ^ Z.of_nat f ->
  exists ds, digit_loop (S f) base x = Some ds /\
    fold_right (fun c acc => acc * base + digit_val c) 0 ds = x /\
    Forall (fun c => 48 <= c < 103) ds /\ ds <> [] /\
    (length ds = 1%nat \/ base ^ (Z.of_nat (length ds) - 1) <= x).
Proof.
  intros Hb. revert x. induction f as [|f IH]; intros x Hx;
    cbn [digit_loop]; unfold truthy;
    destruct (digit_spec (x mod base)) as [Hd1 Hd2]; [zdm| |zdm|];
    destruct (Z.eqb_spec (x / base) 0) as [E|E].
  - exists [digit (x mod base)]. split_and!; try done; [|by apply Forall_singleton|by left].
    cbn. rewrite Hd1. zdm.
  - simpl in Hx. rewrite Z.div_small in E; lia.
  - exists [digit (x mod base)]. split_and!; try done; [|by apply Forall_singleton|by left].
    cbn. rewrite Hd1. zdm.
  - destruct (IH (x / base)) as (ds & H1 & H2 & H3 & H4 & H5).
    { rewrite Nat2Z.inj_succ, Z.pow_succ_r in Hx by lia. split; [apply Z.div_pos; lia|].
      apply Z.div_lt_upper_bound; nia. }
    cbn [digit_loop] in H1. unfold truthy in H1. cbn [negb]. rewrite H1.
    exists (digit (x mod base) :: ds). split_and!; try done.
    + cbn. rewrite H2, Hd1. pose proof (Z_div_mod_eq_full x base). lia.
    + by constructor.
    + right. cbn [length].
      assert (Z.of_nat (S (length ds)) - 1 = Z.succ (Z.of_nat (length ds) - 1)) as -> by lia.
      destruct ds as [|d ds]; [done|]. cbn [length] in *.
      rewrite Z.pow_succ_r by lia. destruct H5 as [H5|H5].
      * rewrite H5. cbn. pose proof (Z_div_mod_eq_full x base).
        pose proof (Z.div_pos x base). pose proof (Z.mod_pos_bound x base). nia.
      * assert (base * (x / base) <= x) by (apply Z.mul_div_le; lia). nia.
Qed.

Lemma digit_list_spec base x :
  2 <= base <= 16 -> 0 <= x < 2 ^ 64 ->
  exists ds, digit_list base x = Some ds /\ parse_nat base (rev ds) = x /\
    Forall (fun c => 48 <= c < 103) ds /\ ds <> [] /\
    (10 <= base -> (length ds <= 20)%nat).
Proof.
  intros Hb Hx. destruct (digit_loop_spec 64 base x Hb Hx) as (ds & H1 & H2 & H3 & H4 & H5).
  exists ds. split_and!; try done.
  - unfold parse_nat. rewrite <- fold_left_rev_right, rev_involutive. exact H2.
  - intros Hb10. destruct H5 as [->|H5]; [lia|].
    destruct (decide (length ds <= 20)%nat) as [|Hl]; [done|]. exfalso.
    assert (10 ^ 20 <= base ^ (Z.of_nat (length ds) - 1)) as Hp.
    { etrans; [apply (Z.pow_le_mono_l 10 base); lia|]. apply Z.pow_le_mono_r; lia. }
    lia.
Qed.

Lemma parse_int_digits base cs :
  Forall (fun c => 48 <= c < 103) cs -> parse_int base cs = parse_nat base cs.
Proof.
  intros H. destruct cs as [|c cs]; [done|]. inversion H; subst. unfold parse_int.
  repeat (case_match; try lia).
Qed.

(** Printint prints the number: for a base of at least 10 the text it sends
    to the console (a minus sign, when the number is printed as signed and is
    negative, then at most 20 digits, so that [buf] is never overrun) reads
    back as the number, for every 64-bit value, the least one included. *)
Theorem printint_roundtrip s xx base sign :
  steady s -> - 2 ^ 63 <= xx < 2 ^ 63 -> 10 <= base <= 16 ->
  exists text, printint xx base sign s = Ok tt (emit text s) /\
    parse_int base text = (if truthy sign then xx else u64 xx) /\
    (length text <= 21)%nat.
Proof.
  intros Hs Hx Hb. unfold printint.
  set (neg := truthy sign && (xx <? 0)). set (x := if neg then u64 (- xx) else u64 xx).
  destruct (digit_list_spec base x) as (ds & H1 & H2 & H3 & H4 & H5).
  { lia. } { unfold x. destruct neg; apply u64_range. }
  specialize (H5 ltac:(lia)).
  assert (Forall (fun c => 48 <= c < 103) (rev ds)) as H3'.
  { apply Forall_rev. done. }
  assert (flat_map cons_text (rev ds) = rev ds) as Hf.
  { apply flat_map_cons_text. eapply Forall_impl; [done|]. simpl. intros. lia. }
  assert (writes (consputs (rev ds)) (inl tt) (rev ds)) as Hw by (rewrite <- Hf at 2; apply writes_consputs).
  rewrite H1. zif.
  destruct neg eqn:En; unfold neg in En.
  - exists (45 :: rev ds). split_and!.
    + by apply (writes_bind _ (fun _ => consputs (rev ds)) tt [45] (inl tt) _ (writes_consputc 45) Hw).
    + zbool. cbn. rewrite H2. unfold x. rewrite H. ints.
    + cbn. rewrite length_rev. lia.
  - exists (rev ds). split_and!.
    + exact (Hw s Hs).
    + rewrite parse_int_digits, H2 by done. unfold x.
      destruct (truthy sign); [|done]. cbn in En. zbool. apply u64_small. lia.
    + rewrite length_rev. lia.
Qed.

Lemma boot_can_print : can_print boot_kernel.
Proof. split_and!; try done. by exists "pr"%string. Qed.

Lemma printint_roundtrip_witness :
  exists text, printint (- 2 ^ 63) 10 1 (locked L_pr boot_kernel) =
               Ok tt (emit text (locked L_pr boot_kernel)) /\
    parse_int 10 text = - 2 ^ 63 /\ (length text <= 21)%nat.
Proof.
  apply (printint_roundtrip (locked L_pr boot_kernel) (- 2 ^ 63) 10 1).
  - apply locked_steady; [done| |done]. by apply boot_can_print.
  - lia.
  - lia.
Defined.

Lemma printf_pure_witness :
  exists out, printf "%d-%s" [VNum 7; VStr None] boot_kernel =
              Ok tt (emit out (settle boot_kernel)).
Proof.
  destruct (printf_pure "%d-%s" [VNum 7; VStr None]) as ([[]|e] & out & H).
  - exists out. apply H, boot_can_print.
  - specialize (H boot_kernel boot_can_print). apply (f_equal is_ok) in H. vm_compute in H. discriminate.
Defined.

(** ** panic *)

Lemma writes_plain fmt :
  Forall (fun c => c <> 0 /\ c <> 37 /\ 0 <= c < 256) fmt ->
  forall pre fuel ap, (length fmt < fuel)%nat ->
  writes (format_loop fuel (pre ++ fmt) (length pre) ap) (inl tt) fmt.
Proof.
  induction 1 as [|c fmt (H0 & H37 & Hr) _ IH]; intros pre [|f] ap Hf; cbn [length] in Hf; try lia.
  - cbn [format_loop]. rewrite app_nil_r, nth_overflow by lia. apply writes_ret.
  - cbn [format_loop]. rewrite nth_middle. zif.
    change (c :: fmt) with ([c] ++ fmt) at 2.
    assert ([c] = cons_text c) as -> by (unfold cons_text, BACKSPACE; zif; by rewrite u8_small).
    eapply writes_bind; [apply writes_consputc|].
    assert (pre ++ c :: fmt = (pre ++ [c]) ++ fmt) as -> by by rewrite <- app_assoc.
    replace (S (length pre)) with (length (pre ++ [c])) by (rewrite length_app; cbn; lia).
    apply IH. lia.
Qed.

Lemma bytes_of_range s : Forall (fun c => 0 <= c < 256) (bytes_of s).
Proof.
  unfold bytes_of. apply Forall_fmap, Forall_forall. intros c _. simpl.
  pose proof (Ascii.N_ascii_bounded c). lia.
Qed.

Lemma printf_panicking fmt ap out s :
  writes (format (bytes_of fmt) ap) (inl tt) out ->
  k_panicking s <> 0 -> k_panicked s = 0 -> printf fmt ap s = Ok tt (emit out s).
Proof.
  intros Hw Hk Hp. unfold printf, bind, get. rewrite (proj2 (Z.eqb_neq _ _) Hk). cbn.
  rewrite Hw by (split; [done|by left]). cbn. by rewrite (proj2 (Z.eqb_neq _ _) Hk).
Qed.

(** The calls of printf in the body of panic do what [Spinlock.panic] says:
    without touching any lock they print the message between two banners, after
    which the machine is marked as panicked and spins. *)
Theorem panic_by_printf A msg s :
  k_panicked s = 0 -> panic_body (A := A) msg s = panic msg s.
Proof.
  intros Hp. unfold panic_body, panic. rewrite Hp. cbn [truthy negb Z.eqb].
  unfold bind at 1, modify at 1.
  assert (writes (format (bytes_of (nl ++ "!!!" ++ nl ++ "panic:" ++ nl)) []) (inl tt)
            (bytes_of (nl ++ "!!!" ++ nl ++ "panic:" ++ nl))) as H1.
  { apply (writes_plain (bytes_of (nl ++ "!!!" ++ nl ++ "panic:" ++ nl))) with (pre := []);
      [by apply (bool_decide_unpack _)|apply Nat.lt_succ_diag_r]. }
  erewrite bind_ok by (apply (printf_panicking _ _ _ _ H1); done).
  assert (writes (format (bytes_of ("%s" ++ nl ++ "!!!" ++ nl)) [VStr (Some (bytes_of msg))]) (inl tt)
            (bytes_of msg ++ bytes_of (nl ++ "!!!" ++ nl))) as H2.
  { unfold format. cbn [length bytes_of]. 
    assert (writes (format_loop 7 (bytes_of "%s" ++ bytes_of (nl ++ "!!!" ++ nl)) 2 []) (inl tt)
              (bytes_of (nl ++ "!!!" ++ nl))) as Hrest.
    { apply (writes_plain (bytes_of (nl ++ "!!!" ++ nl))) with (pre := bytes_of "%s");
        [by apply (bool_decide_unpack _)|vm_compute; lia]. }
    intros st Hst.
    change (format_loop _ _ 0 _ st) with
      ((let! r := (let! _ := consputs (bytes_of msg) in ret (Some (1%nat, []))) in
        match r with
        | None => ret tt
        | Some (j, ap') => format_loop 7 (bytes_of "%s" ++ bytes_of (nl ++ "!!!" ++ nl)) (S j) ap'
        end) st).
    assert (writes (consputs (bytes_of msg)) (inl tt) (bytes_of msg)) as Hm.
    { rewrite <- (flat_map_cons_text (bytes_of msg)) at 2 by apply bytes_of_range.
      apply writes_consputs. }
    rewrite bind_assoc. by apply (writes_bind _ _ tt _ _ _ Hm Hrest). }
  erewrite bind_ok by (apply (printf_panicking _ _ _ _ H2); done).
  unfold bind, modify, halt, emit, panic_text. cbn -[bytes_of].
  unfold set_panicked, set_uart, set_panicking. cbn -[bytes_of].
  by rewrite <- app_assoc.
Qed.

Lemma panic_by_printf_witness :
  panic_body (A := unit) "demo" boot_kernel = panic "demo" boot_kernel.
Proof. apply (panic_by_printf unit "demo" boot_kernel). reflexivity. Defined.

(** ** Format strings that fit their arguments *)

(** The argument a known conversion fetches ([true] for a number, [false] for
    a string) and the index of its last character. *)
Definition conv_kind (fmt : list Z) (i : nat) : option (option bool * nat) :=
  let ch k := nth k fmt 0 in
  let c0 := ch i in
  let c1 := if truthy c0 then ch (i + 1)%nat else 0 in
  let c2 := if truthy c1 then ch (i + 2)%nat else 0 in
  let is_int c := (c =? 100) || (c =? 117) || (c =? 120) in
  if is_int c0 then Some (Some true, i)
  else if (c0 =? 108) && is_int c1 then Some (Some true, (i + 1)%nat)
  else if (c0 =? 108) && (c1 =? 108) && is_int c2 then Some (Some true, (i + 2)%nat)
  else if (c0 =? 112) || (c0 =? 99) then Some (Some true, i)
  else if c0 =? 115 then Some (Some false, i)
  else if c0 =? 37 then Some (None, i)
  else None.

Fixpoint fmt_check (fuel : nat) (fmt : list Z) (i : nat) (ap : list varg) : bool :=
  match fuel with
  | O => false
  | S f =>
      let cx := nth i fmt 0 in
      if cx =? 0 then true
      else if negb (cx =? 37) then fmt_check f fmt (S i) ap
      else
        match conv_kind fmt (S i), ap with
        | None, _ => false
        | Some (None, j), _ => fmt_check f fmt (S j) ap
        | Some (Some true, j), VNum _ :: ap' => fmt_check f fmt (S j) ap'
        | Some (Some false, j), VStr _ :: ap' => fmt_check f fmt (S j) ap'
        | _, _ => false
        end
  end.

(** The arguments of a call fit its format string. *)
Definition fmt_ok (fmt : string) (ap : list varg) : bool :=
  fmt_check (S (length (bytes_of fmt))) (bytes_of fmt) 0 ap.

Lemma printint_writes xx base sign :
  10 <= base <= 16 -> exists out, writes (printint xx base sign) (inl tt) out.
Proof.
  intros Hb. unfold printint. set (neg := truthy sign && (xx <? 0)).
  set (x := if neg then u64 (- xx) else u64 xx).
  destruct (digit_list_spec base x) as (ds & -> & _ & _ & _ & H5).
  { lia. } { unfold x. destruct neg; apply u64_range. }
  specialize (H5 ltac:(lia)). zif. destruct neg.
  - eexists. eapply writes_bind; [apply writes_consputc|apply writes_consputs].
  - eexists. eapply writes_bind; [apply writes_ret|apply writes_consputs].
Qed.

Lemma num_writes (conv : Z -> Z) base sign (j : nat) x ap :
  10 <= base <= 16 ->
  exists out, writes
    (let! ' (x, ap') := va_num (VNum x :: ap) in
     do! printint (conv x) base sign; ret (Some (j, ap')))
    (inl (Some (j, ap))) out.
Proof.
  intros Hb. destruct (printint_writes (conv x) base sign Hb) as [out Hout].
  exists (out ++ []). apply (writes_bind _ _ tt _ _ _ Hout). apply writes_ret.
Qed.

(** Reduce comparisons with character codes, known and excluded. *)
Ltac ceq := cbn [Z.eqb Pos.eqb andb orb negb] in *; zif.

(** The case of an integer conversion selected by the character [v = c]. *)
Ltac int_case v c :=
  destruct (decide (v = c)) as [->|];
  [ceq; rewrite ?Nat.add_0_r; simplify_eq; apply num_writes; lia|].

Lemma conversion_num fmt i j x ap :
  conv_kind fmt i = Some (Some true, j) ->
  exists out, writes (conversion fmt i (VNum x :: ap)) (inl (Some (j, ap))) out.
Proof.
  unfold conv_kind, conversion. generalize (nth i fmt 0) as c0. intros c0.
  generalize (if truthy c0 then nth (i + 1) fmt 0 else 0) as c1. intros c1.
  generalize (if truthy c1 then nth (i + 2) fmt 0 else 0) as c2. intros c2 H.
  int_case c0 100. int_case c0 117. int_case c0 120.
  destruct (decide (c0 = 112)) as [->|].
  { ceq. simplify_eq. eexists. eapply writes_bind; [apply writes_ret|]. cbn beta iota.
    eapply writes_bind; [|apply writes_ret]. unfold printptr.
    do 2 (eapply writes_bind; [apply writes_consputc|]). apply writes_consputs. }
  destruct (decide (c0 = 99)) as [->|].
  { ceq. simplify_eq. eexists. eapply writes_bind; [apply writes_ret|]. cbn beta iota.
    eapply writes_bind; [apply writes_consputc|apply writes_ret]. }
  destruct (decide (c0 = 108)) as [->|].
  2: { revert H. zif. zcases; naive_solver. }
  int_case c1 100. int_case c1 117. int_case c1 120.
  destruct (decide (c1 = 108)) as [->|].
  2: { revert H. ceq. zcases; naive_solver. }
  int_case c2 100. int_case c2 117. int_case c2 120.
  revert H. ceq. naive_solver.
Qed.

Lemma conversion_str fmt i j str ap :
  conv_kind fmt i = Some (Some false, j) ->
  exists out, writes (conversion fmt i (VStr str :: ap)) (inl (Some (j, ap))) out.
Proof.
  unfold conv_kind, conversion. generalize (nth i fmt 0) as c0. intros c0 H.
  destruct (decide (c0 = 115)) as [->|]; [|revert H; zif; repeat (case_match; try congruence)].
  ceq. simplify_eq. eexists. eapply writes_bind; [apply writes_ret|]. cbn beta iota.
  eapply writes_bind; [apply writes_consputs|apply writes_ret].
Qed.

Lemma conversion_none fmt i j ap :
  conv_kind fmt i = Some (None, j) ->
  exists out, writes (conversion fmt i ap) (inl (Some (j, ap))) out.
Proof.
  unfold conv_kind, conversion. generalize (nth i fmt 0) as c0. intros c0 H.
  destruct (decide (c0 = 37)) as [->|]; [|revert H; zif; repeat (case_match; try congruence)].
  ceq. simplify_eq. eexists. eapply writes_bind; [apply writes_consputc|apply writes_ret].
Qed.

Lemma fmt_check_writes fuel fmt i ap :
  fmt_check fuel fmt i ap = true -> exists out, writes (format_loop fuel fmt i ap) (inl tt) out.
Proof.
  revert i ap. induction fuel as [|f IH]; intros i ap H; [done|]. cbn [fmt_check format_loop] in *.
  destruct (_ =? 0); [eexists; apply writes_ret|]. destruct (_ =? 37); cbn [negb] in *.
  - destruct (conv_kind fmt (S i)) as [[k j]|] eqn:E; [|done].
    assert (exists ap' out, writes (conversion fmt (S i) ap) (inl (Some (j, ap'))) out /\
              fmt_check f fmt (S j) ap' = true) as (ap' & o1 & H1 & H2).
    { destruct k as [[]|].
      - destruct ap as [|[x|x] ap']; try done. destruct (conversion_num _ _ _ x ap' E). eauto.
      - destruct ap as [|[x|x] ap']; try done. destruct (conversion_str _ _ _ x ap' E). eauto.
      - destruct (conversion_none _ _ _ ap E). eauto. }
    destruct (IH _ _ H2) as [o2 H3]. eexists. by eapply writes_bind.
  - destruct (IH _ _ H) as [o2 H3]. eexists. eapply writes_bind; [apply writes_consputc|done].
Qed.

Lemma printf_ok fmt ap s :
  fmt_ok fmt ap = true -> can_print s ->
  exists out, printf fmt ap s = Ok tt (emit out (settle s)).
Proof.
  intros Hf Hs. destruct (fmt_check_writes _ _ _ _ Hf) as [out Hw].
  exists out. by apply printf_writes.
Qed.

(** A call of printf whose arguments fit its format string returns, with
    pr.lock free again and the interrupt nesting as before; only the output has
    grown. *)
Theorem printf_returns fmt ap s :
  fmt_ok fmt ap = true -> can_print s ->
  exists out, printf fmt ap s = Ok tt (emit out (settle s)).
Proof. apply printf_ok. Qed.

Lemma printf_returns_witness :
  exists out, printf "%s: %d pages at 0x%lx" [VStr (Some [107]); VNum 5; VNum (2 ^ 63)] boot_kernel
              = Ok tt (emit out (settle boot_kernel)).
Proof.
  apply (printf_returns "%s: %d pages at 0x%lx").
  - reflexivity.
  - apply boot_can_print.
Defined.

(** ** release *)

Lemma release_ok l s s1 :
  lock_free l s -> hart_ok (k_hart s) ->
  k_hart s1 = k_hart (locked l s) -> k_locks s1 = k_locks (locked l s) ->
  release l s1 = Ok tt (set_locks (k_locks s) (set_hart (hart_settle (k_hart s)) s1)).
Proof. apply release_core_ok. Qed.
