(* ===== verification/User.v ===== *)
(** * user/ulib.c and user/printf.c: the library of the user programs

    The string routines work on the memory of the process. The routines of printf.c send one
    character per write system call; what they are asked to write is recorded, with the file
    descriptor. Arguments are lists of [varg] as in [Printf]. *)

From S2P Require Import Prelude Mem CString State Spinlock Printf.

Module Ulib.

(** start of ulib.c: main is the program, exit the system call. *)
Definition ustart {S} (main : Z -> list Z -> M S Z) (exit : Z -> M S unit) (argc : Z) (argv : list Z) : M S unit :=
  let! r := main argc argv in exit r.

(** [while(n > 0){ temp[i++] = (n % 10) + '0'; n /= 10; }] *)
Fixpoint itoa_loop (fuel : nat) (n : Z) : option (list Z) :=
  match fuel with
  | O => None
  | S f => if 0 <? n then (fun ds => (n mod 10 + 48) :: ds) <$> itoa_loop f (n / 10) else Some []
  end.

(** [None] when the local array of 16 characters would be overrun. An int is positive for at
    most 10 divisions by 10. *)
Definition itoa (m : mem) (n buf : Z) : option mem :=
  if n =? 0 then Some (wr8 (wr8 m buf 48) (buf + 1) 0)
  else
    match itoa_loop 32 n with
    | None => None
    | Some temp =>
        let i := length temp in
        if (16 <=? i)%nat then None
        else
          let m := foldl (fun m j => wr8 m (buf + Z.of_nat j) (nth (i - 1 - j) temp 0)) m (seq 0 i) in
          Some (wr8 m (buf + Z.of_nat i) 0)
    end.

Fixpoint strcpy (fuel : nat) (m : mem) (dst src : Z) : option mem :=
  match fuel with
  | O => None
  | S f =>
      let c := rd8 m src in
      let m' := wr8 m dst c in
      if truthy c then strcpy f m' (dst + 1) (src + 1) else Some m'
  end.

Fixpoint ustrlen_loop (fuel : nat) (m : mem) (s n : Z) : option Z :=
  match fuel with
  | O => None
  | S f => if truthy (rd8 m (s + n)) then ustrlen_loop f m s (n + 1) else Some n
  end.
Definition ustrlen (fuel : nat) (m : mem) (s : Z) : option Z := u32 <$> ustrlen_loop fuel m s 0.

(** The difference is returned as a uint. *)
Fixpoint strcmp (fuel : nat) (m : mem) (p q : Z) : option Z :=
  match fuel with
  | O => None
  | S f =>
      if truthy (rd8 m p) && (rd8 m p =? rd8 m q) then strcmp f m (p + 1) (q + 1)
      else Some (u32 (rd8 m p - rd8 m q))
  end.

(** *** Numbers *)

Lemma digit_10 d : 0 <= d < 10 -> digit d = d + 48.
Proof.
  intros Hd. assert (d ∈ seqZ 0 10) as Hin by (apply elem_of_seqZ; lia). clear Hd.
  assert (Forall (fun d => digit d = d + 48) (seqZ 0 10)) as HF by (repeat constructor; by vm_compute).
  rewrite Forall_forall in HF. by apply HF.
Qed.

(** The loop finds the digits printint finds. *)
Lemma itoa_loop_digits f : forall n, 0 < n < 2 ^ Z.of_nat f -> itoa_loop (S f) n = digit_loop (S f) 10 n.
Proof.
  induction f as [|f IH]; intros n Hn; [cbn in Hn; lia|].
  rewrite Nat2Z.inj_succ, Z.pow_succ_r in Hn by lia. remember (S f) as g. cbn [itoa_loop digit_loop]. zif. rewrite digit_10 by zdm. unfold truthy. destruct (Z.eqb_spec (n / 10) 0) as [E|E]; cbn [negb].
  - subst g. rewrite E. cbn. by zif.
  - rewrite <- (IH (n / 10)) by zdm. done.
Qed.

(** [ds] is the decimal numeral of [n], without leading zeros. *)
Definition numeral (n : Z) (ds : list Z) : Prop :=
  parse_nat 10 ds = n /\ Forall (fun c => 48 <= c < 58) ds /\ ds <> [] /\ (length ds = 1%nat \/ 10 ^ (Z.of_nat (length ds) - 1) <= n).

Lemma itoa_loop_range f : forall n ds, itoa_loop f n = Some ds -> Forall (fun c => 48 <= c < 58) ds.
Proof.
  induction f as [|f IH]; intros n ds E; [done|]. cbn [itoa_loop] in E. destruct (Z.ltb_spec 0 n); [|injection E as <-; constructor].
  destruct (itoa_loop f (n / 10)) as [ds'|] eqn:E'; [|done]. injection E as <-. constructor; [zdm|by eapply IH].
Qed.

Lemma itoa_loop_ok n : 0 < n < 2 ^ 31 -> exists ds, itoa_loop 32 n = Some ds /\ numeral n (rev ds) /\ (0 < length ds <= 10)%nat.
Proof.
  intros Hn. pose proof (itoa_loop_digits 31 n ltac:(cbn; lia)) as E.
  destruct (digit_loop_spec 31 10 n ltac:(lia) ltac:(cbn; lia)) as (ds & H1 & H2 & _ & H4 & H5). rewrite H1 in E.
  exists ds. split; [done|]. assert (0 < length ds)%nat by (destruct ds; [done|cbn; lia]). split.
  - split; [unfold parse_nat; by rewrite <- fold_left_rev_right, rev_involutive|]. rewrite length_rev.
    split; [apply Forall_rev; by eapply itoa_loop_range|]. split; [|done]. intros H0%(f_equal (@length Z)). rewrite length_rev in H0. cbn in H0. lia.
  - destruct H5 as [->|H5]; [lia|]. split; [done|]. destruct (decide (length ds <= 10)%nat); [done|].
    pose proof (Z.pow_le_mono_r 10 10 (Z.of_nat (length ds) - 1) ltac:(lia) ltac:(lia)). lia.
Qed.

(** The characters stored one by one. *)
Lemma rd8_store (ds : list Z) buf a : forall k m, (k <= length ds)%nat ->
  rd8 (foldl (fun m j => wr8 m (buf + Z.of_nat j) (nth (length ds - 1 - j) ds 0)) m (seq 0 k)) a =
  if (buf <=? a) && (a <? buf + Z.of_nat k) then u8 (nth (Z.to_nat (a - buf)) (rev ds) 0) else rd8 m a.
Proof.
  induction k as [|k IH]; intros m Hk; [cbn; zcases|]. rewrite seq_S, foldl_app. cbn [foldl Nat.add]. rewrite rd8_wr8, IH by lia.
  zcases. subst a. replace (Z.to_nat (buf + Z.of_nat k - buf)) with k by lia. rewrite rev_nth by lia. do 2 f_equal. lia.
Qed.

Lemma cstr_read m a bs :
  Forall (fun c => 0 < c < 256) bs ->
  (forall j, (j < length bs)%nat -> rd8 m (a + Z.of_nat j) = nth j bs 0) -> rd8 m (a + Z.of_nat (length bs)) = 0 -> cstr m a bs.
Proof.
  intros H. revert a. induction H as [|b bs Hb H IH]; intros a Hj H0.
  - apply cstr_nil. by rewrite Z.add_0_r in H0.
  - apply cstr_cons. split; [specialize (Hj 0%nat ltac:(cbn; lia)); by rewrite Z.add_0_r in Hj|]. split; [lia|]. apply IH.
    + intros j Hl. specialize (Hj (S j) ltac:(cbn; lia)). cbn [nth] in Hj. rewrite <- Hj. f_equal. lia.
    + rewrite <- H0. cbn [length]. f_equal. lia.
Qed.

(** itoa stores the decimal numeral of any non-negative int, and writes no more than its bytes
    and the terminator, 11 at most. *)
Theorem itoa_correct m n buf :
  0 <= n < 2 ^ 31 ->
  exists m' ds, itoa m n buf = Some m' /\ cstr m' buf ds /\ numeral n ds /\ (length ds <= 10)%nat /\
    forall a, a < buf \/ buf + Z.of_nat (length ds) < a -> rd8 m' a = rd8 m a.
Proof.
  intros Hn. unfold itoa. destruct (Z.eqb_spec n 0) as [-> |Hz].
  - exists (wr8 (wr8 m buf 48) (buf + 1) 0), [48]. split; [done|]. split; [|split; [|split; [cbn; lia|]]].
    + apply cstr_read; [repeat constructor; lia| |cbn; rewrite rd8_wr8; zcases]. intros j Hj. cbn in Hj. assert (j = 0%nat) as -> by lia.
      cbn. rewrite !rd8_wr8. zcases.
    + split; [done|]. split; [repeat constructor; lia|]. split; [done|by left].
    + intros a Ha. cbn in Ha. rewrite !rd8_wr8. zcases.
  - destruct (itoa_loop_ok n ltac:(lia)) as (ds & E & (N1 & N2 & N3 & N4) & Hl). rewrite E. cbn zeta.
    rewrite (proj2 (Nat.leb_gt 16 (length ds))) by lia. eexists _, (rev ds). split; [reflexivity|]. rewrite length_rev in *. split; [|split; [|split; [lia|]]].
    + apply cstr_read.
      * eapply Forall_impl; [exact N2|]. cbn. lia.
      * intros j Hj. rewrite length_rev in Hj. rewrite rd8_wr8. zif. rewrite rd8_store by lia. zif.
        replace (Z.to_nat (buf + Z.of_nat j - buf)) with j by lia. apply u8_small.
        assert (nth j (rev ds) 0 ∈ rev ds) as Hin by (apply list_elem_of_In, nth_In; rewrite length_rev; lia).
        rewrite Forall_forall in N2. specialize (N2 _ Hin). cbn in N2. lia.
      * rewrite length_rev, rd8_wr8. zcases.
    + split; [done|]. rewrite length_rev. done.
    + intros a Ha. rewrite rd8_wr8. zif. rewrite rd8_store by lia. zcases.
Qed.

(** Of a negative number itoa stores the empty string. *)
Lemma itoa_negative m n buf : n < 0 -> exists m', itoa m n buf = Some m' /\ cstr m' buf [].
Proof.
  intros Hn. unfold itoa. zif. cbn [itoa_loop]. zif. eexists. split; [reflexivity|]. apply cstr_nil. cbn. rewrite rd8_wr8. zcases.
Qed.

(** *** Strings *)

Lemma strcpy_ok bs : forall fuel m dst src,
  cstr m src bs -> dst + Z.of_nat (length bs) < src \/ src + Z.of_nat (length bs) < dst -> (length bs < fuel)%nat ->
  exists m', strcpy fuel m dst src = Some m' /\ cstr m' dst bs /\
    forall a, a < dst \/ dst + Z.of_nat (length bs) < a -> rd8 m' a = rd8 m a.
Proof.
  induction bs as [|b bs IH]; intros [|f] m dst src Hc Hd Hf; cbn [length] in *; try lia; cbn [strcpy].
  - apply cstr_nil in Hc. rewrite Hc. exists (wr8 m dst 0). split; [done|]. split; [apply cstr_nil; rewrite rd8_wr8; zcases|].
    intros a Ha. rewrite rd8_wr8. zcases.
  - apply cstr_cons in Hc as (Hb & Hnz & Hc). rewrite Hb. unfold truthy. zif.
    assert (u8 b = b) as Hu by (rewrite <- Hb; apply u8_small, rd8_range).
    destruct (IH f (wr8 m dst b) (dst + 1) (src + 1)) as (m' & E & Hc' & Hfr); [|lia|lia|].
    { eapply cstr_ext; [|exact Hc]. intros a Ha. rewrite rd8_wr8. zcases. }
    exists m'. split; [exact E|]. split.
    + apply cstr_cons. split; [|done]. rewrite Hfr by lia. rewrite rd8_wr8. zif. done.
    + intros a Ha. rewrite Hfr by lia. rewrite rd8_wr8. zcases.
Qed.

Lemma ustrlen_ok fuel m s bs : (length bs < fuel)%nat -> cstr m s bs -> Z.of_nat (length bs) < 2 ^ 32 -> ustrlen fuel m s = Some (Z.of_nat (length bs)).
Proof.
  intros Hf Hc Hb. pose proof (strlen_cstr fuel m s bs Hf Hc) as E. unfold ustrlen.
  assert (forall f n, ustrlen_loop f m s n = CString.strlen_loop f m s n) as -> by (intros f; induction f as [|f IH]; intros n; cbn; [done|by rewrite IH]).
  unfold CString.strlen in E. rewrite E. cbn. by rewrite u32_small by lia.
Qed.

(** strcmp tells equal strings from different ones. *)
Lemma strcmp_ok bp : forall fuel m p q bq,
  cstr m p bp -> cstr m q bq -> (length bp < fuel)%nat -> exists r, strcmp fuel m p q = Some r /\ (r = 0 <-> bp = bq).
Proof.
  induction bp as [|b bp IH]; intros [|f] m p q bq Hp Hq Hf; cbn [length] in *; try lia; cbn [strcmp]; unfold truthy.
  - apply cstr_nil in Hp. rewrite Hp. cbn. eexists. split; [reflexivity|]. pose proof (rd8_range m q).
    destruct bq as [|c bq]; [apply cstr_nil in Hq; by rewrite Hq|]. apply cstr_cons in Hq as (Hq & Hz & _). split; [|done]. rewrite Hq in *. ints.
  - apply cstr_cons in Hp as (Hp & Hz & Hp'). rewrite Hp. zif. cbn [negb andb]. pose proof (rd8_range m p). pose proof (rd8_range m q).
    destruct (Z.eqb_spec b (rd8 m q)) as [E|E].
    + destruct bq as [|c bq]; [apply cstr_nil in Hq; congruence|]. apply cstr_cons in Hq as (Hq & Hz' & Hq'). assert (c = b) as -> by congruence.
      destruct (IH f m (p + 1) (q + 1) bq Hp' Hq' ltac:(lia)) as (r & Er & Hr). exists r. split; [done|]. rewrite Hr. naive_solver.
    + eexists. split; [reflexivity|]. rewrite Hp in *. split; [intros Hr; ints|]. intros <-. apply cstr_cons in Hq as (Hq & _). congruence.
Qed.

(** The names of the small files of filetest: strcpy, strlen and itoa. *)
Definition small_name (fuel : nat) (m : mem) (filename lit i : Z) : option mem :=
  match strcpy fuel m filename lit with
  | None => None
  | Some m => match ustrlen fuel m filename with None => None | Some n => itoa m i (filename + n) end
  end.

Lemma cstr_app m a bs cs : Forall (fun c => c <> 0) bs -> rd_bytes m a (length bs) = bs -> cstr m (a + Z.of_nat (length bs)) cs -> cstr m a (bs ++ cs).
Proof.
  intros H. revert a. induction H as [|b bs Hb H IH]; intros a Hr Hc; [by rewrite Z.add_0_r in Hc|].
  cbn [length] in *. rewrite rd_bytes_S in Hr. injection Hr as H1 H2. cbn [app]. apply cstr_cons. split; [done|]. split; [done|].
  apply IH; [done|]. by replace (a + 1 + Z.of_nat (length bs)) with (a + Z.of_nat (S (length bs))) by lia.
Qed.

(** The name is "small_" followed by the number, and fits the array of 32 characters. *)
Theorem small_name_correct m filename lit i :
  0 <= i < 50 -> cstr m lit (bytes_of "small_") -> filename + 32 <= lit \/ lit + 7 <= filename ->
  exists m' ds, small_name 32 m filename lit i = Some m' /\ cstr m' filename (bytes_of "small_" ++ ds) /\ numeral i ds /\
    forall a, a < filename \/ filename + 32 <= a -> rd8 m' a = rd8 m a.
Proof.
  intros Hi Hl Hd. destruct (strcpy_ok (bytes_of "small_") 32 m filename lit Hl) as (m1 & E1 & C1 & F1); [cbn; lia|cbn; lia|].
  unfold small_name. rewrite E1, (ustrlen_ok 32 m1 filename (bytes_of "small_")) by (done || cbn; lia).
  change (Z.of_nat (length (bytes_of "small_"))) with 6 in *.
  destruct (itoa_correct m1 i (filename + 6) ltac:(lia)) as (m2 & ds & E2 & C2 & N2 & L2 & F2). exists m2, ds.
  split; [exact E2|]. split; [|split; [done|]].
  - destruct C1 as (R1 & R2 & _). apply cstr_app; [done| |exact C2].
    rewrite <- R1 at 2. apply rd_bytes_ext. intros a Ha. change (Z.of_nat (length (bytes_of "small_"))) with 6 in Ha. apply F2. lia.
  - intros a Ha. rewrite F2 by lia. apply F1. lia.
Qed.

Lemma small_name_correct_witness :
  exists m' ds, small_name 32 (wr_bytes (∅ : mem) 100 (bytes_of "small_")) 0 100 49 = Some m' /\ cstr m' 0 (bytes_of "small_" ++ ds) /\ numeral 49 ds /\
    forall a, a < 0 \/ 32 <= a -> rd8 m' a = rd8 (wr_bytes (∅ : mem) 100 (bytes_of "small_")) a.
Proof. apply (small_name_correct _ 0 100 49); [lia| |lia]. split; [by vm_compute|]. split; [by repeat constructor|by vm_compute]. Defined.

End Ulib.

Module Uprintf.

(** The characters written, with their file descriptors. *)
Abbreviation UM := (M (list (Z * Z))).

(** [char digits[] = "0123456789ABCDEF"] *)
Definition udigits : list Z := bytes_of "0123456789ABCDEF".
Definition udigit (d : Z) : Z := nth (Z.to_nat d) udigits 0.

(** [write(fd, &c, 1)]; the result is not looked at. *)
Definition putc (fd c : Z) : UM unit := modify (fun out => out ++ [(fd, u8 c)]).

Fixpoint puts (fd : Z) (cs : list Z) : UM unit :=
  match cs with [] => ret tt | c :: cs' => do! putc fd c; puts fd cs' end.

(** The do-while loop of printint. *)
Fixpoint udigit_loop (fuel : nat) (base x : Z) : option (list Z) :=
  match fuel with
  | O => None
  | S f =>
      let d := udigit (x mod base) in
      let x' := x / base in
      if truthy x' then (fun ds => d :: ds) <$> udigit_loop f base x' else Some [d]
  end.

(** [char buf[20]]: writing past its end is undefined. The negation of the least long long is
    taken to wrap around. *)
Definition uprintint (fd xx base sgn : Z) : UM unit :=
  let neg := truthy sgn && (xx <? 0) in
  let x := if neg then u64 (- xx) else u64 xx in
  match udigit_loop 65 base x with
  | None => halt OutOfFuel
  | Some ds =>
      let buf := ds ++ (if neg then [45] else []) in
      if 20 <? Z.of_nat (length buf) then halt (Undefined "printint: buf") else puts fd (rev buf)
  end.

Fixpoint uptr_digits (k : nat) (x : Z) : list Z :=
  match k with
  | O => []
  | S k' => udigit (Z.shiftr x 60) :: uptr_digits k' (u64 (Z.shiftl x 4))
  end.

Definition uprintptr (fd x : Z) : UM unit :=
  do! putc fd 48;
  do! putc fd 120;
  puts fd (uptr_digits 16 x).

Definition uva_num (ap : list varg) : UM (Z * list varg) :=
  match ap with VNum x :: ap' => ret (x, ap') | _ => halt (Undefined "va_arg") end.

Definition uva_str (ap : list varg) : UM (option (list Z) * list varg) :=
  match ap with VStr x :: ap' => ret (x, ap') | _ => halt (Undefined "va_arg") end.

(** The branch of the loop for [state == '%']: what is added to [i], and the arguments left. *)
Definition uconversion (fd : Z) (fmt : list Z) (i : nat) (ap : list varg) : UM (nat * list varg) :=
  let c0 := nth i fmt 0 in
  let c1 := if truthy c0 then nth (i + 1) fmt 0 else 0 in
  let c2 := if truthy c1 then nth (i + 2) fmt 0 else 0 in
  let num conv base sgn k :=
    let! ' (x, ap') := uva_num ap in
    do! uprintint fd (conv x) base sgn;
    ret (k, ap') in
  let ll x := s64 (u64 x) in
  if c0 =? 100 then num s32 10 1 0%nat                                          (* d *)
  else if (c0 =? 108) && (c1 =? 100) then num ll 10 1 1%nat                     (* ld *)
  else if (c0 =? 108) && (c1 =? 108) && (c2 =? 100) then num ll 10 1 2%nat      (* lld *)
  else if c0 =? 117 then num u32 10 0 0%nat                                     (* u *)
  else if (c0 =? 108) && (c1 =? 117) then num ll 10 0 1%nat                     (* lu *)
  else if (c0 =? 108) && (c1 =? 108) && (c2 =? 117) then num ll 10 0 2%nat      (* llu *)
  else if c0 =? 120 then num u32 16 0 0%nat                                     (* x *)
  else if (c0 =? 108) && (c1 =? 120) then num ll 16 0 1%nat                     (* lx *)
  else if (c0 =? 108) && (c1 =? 108) && (c2 =? 120) then num ll 16 0 2%nat      (* llx *)
  else if c0 =? 112 then                                                        (* p *)
    let! ' (x, ap') := uva_num ap in
    do! uprintptr fd (u64 x);
    ret (0%nat, ap')
  else if c0 =? 99 then                                                         (* c *)
    let! ' (x, ap') := uva_num ap in
    do! putc fd x;
    ret (0%nat, ap')
  else if c0 =? 115 then                                                        (* s *)
    let! ' (s, ap') := uva_str ap in
    do! puts fd (match s with None => bytes_of "(null)" | Some s => s end);
    ret (0%nat, ap')
  else if c0 =? 37 then                                                         (* percent *)
    do! putc fd 37;
    ret (0%nat, ap)
  else
    do! putc fd 37;
    do! putc fd c0;
    ret (0%nat, ap).

(** The loop over the format string. *)
Fixpoint vprintf_loop (fuel : nat) (fd : Z) (fmt : list Z) (i : nat) (state : Z) (ap : list varg) : UM unit :=
  match fuel with
  | O => halt OutOfFuel
  | S f =>
      let c0 := nth i fmt 0 in
      if c0 =? 0 then ret tt
      else if state =? 0 then
        if c0 =? 37 then vprintf_loop f fd fmt (S i) 37 ap
        else
          do! putc fd c0;
          vprintf_loop f fd fmt (S i) state ap
      else if state =? 37 then
        let! ' (k, ap') := uconversion fd fmt i ap in
        vprintf_loop f fd fmt (S (i + k)) 0 ap'
      else vprintf_loop f fd fmt (S i) state ap
  end.

Definition vprintf (fd : Z) (fmt : list Z) (ap : list varg) : UM unit := vprintf_loop (S (length fmt)) fd fmt 0 0 ap.
Definition fprintf (fd : Z) (fmt : list Z) (ap : list varg) : UM unit := vprintf fd fmt ap.
Definition uprintf (fmt : list Z) (ap : list varg) : UM unit := vprintf 1 fmt ap.

(** *** Numbers *)

(** [m] writes [text] to [fd] and returns [a]. *)
Definition prints {A} (fd : Z) (m : UM A) (a : A) (text : list Z) : Prop := forall out, m out = Ok a (out ++ (pair fd <$> text)).

Lemma prints_ret {A} fd (a : A) : prints fd (ret a) a [].
Proof. intros out. by rewrite app_nil_r. Qed.

Lemma prints_bind {A B} fd (m : UM A) (f : A -> UM B) a b t1 t2 :
  prints fd m a t1 -> prints fd (f a) b t2 -> prints fd (bind m f) b (t1 ++ t2).
Proof. intros H1 H2 out. unfold bind. by rewrite H1, H2, fmap_app, app_assoc. Qed.

Lemma prints_putc fd c : 0 <= c < 256 -> prints fd (putc fd c) tt [c].
Proof. intros Hc out. unfold putc, modify. by rewrite u8_small. Qed.

Lemma prints_puts fd cs : Forall (fun c => 0 <= c < 256) cs -> prints fd (puts fd cs) tt cs.
Proof. induction 1 as [|c cs Hc _ IH]; [apply prints_ret|]. apply (prints_bind _ _ _ tt tt [c]); [by apply prints_putc|done]. Qed.

(** The capital letters are the only difference from the digits of the kernel. *)
Definition lower (c : Z) : Z := if c <? 65 then c else c + 32.

Lemma digit_upper d : 0 <= d < 16 -> lower (udigit d) = Printf.digit d /\ 48 <= udigit d < 71.
Proof.
  intros Hd. assert (d ∈ seqZ 0 16) as Hin by (apply elem_of_seqZ; lia). clear Hd.
  assert (Forall (fun d => lower (udigit d) = Printf.digit d /\ 48 <= udigit d < 71) (seqZ 0 16)) as HF by (repeat constructor; by vm_compute).
  rewrite Forall_forall in HF. by apply HF.
Qed.

Lemma digit_loop_upper base : 2 <= base <= 16 -> forall f x ds, Printf.digit_loop f base x = Some ds ->
  exists us, udigit_loop f base x = Some us /\ lower <$> us = ds /\ Forall (fun c => 48 <= c < 71) us.
Proof.
  intros Hb f. induction f as [|f IH]; intros x ds E; [done|]. cbn [Printf.digit_loop udigit_loop] in *.
  destruct (digit_upper (x mod base)) as [D1 D2]; [pose proof (Z.mod_pos_bound x base); lia|]. destruct (truthy (x / base)).
  - destruct (Printf.digit_loop f base (x / base)) as [ds'|] eqn:E'; [|done]. injection E as <-. destruct (IH _ _ E') as (us & -> & H1 & H2).
    exists (udigit (x mod base) :: us). split; [done|]. split; [cbn [fmap list_fmap]; by rewrite D1, H1|by constructor].
  - injection E as <-. eexists. split; [reflexivity|]. split; [cbn [fmap list_fmap]; by rewrite D1|by apply Forall_singleton].
Qed.

(** The text of a number. *)
Definition int_text (xx base sgn : Z) : list Z :=
  let neg := truthy sgn && (xx <? 0) in
  rev (default [] (udigit_loop 65 base (if neg then u64 (- xx) else u64 xx)) ++ (if neg then [45] else [])).

Lemma printint_ok fd xx base sgn :
  - 2 ^ 63 <= xx < 2 ^ 63 -> 10 <= base <= 16 ->
  prints fd (uprintint fd xx base sgn) tt (int_text xx base sgn) /\ (length (int_text xx base sgn) <= 20)%nat /\
  parse_int base (lower <$> int_text xx base sgn) = (if truthy sgn then xx else u64 xx).
Proof.
  intros Hx Hb. unfold uprintint, int_text. set (neg := truthy sgn && (xx <? 0)). set (x := if neg then u64 (- xx) else u64 xx).
  assert (0 <= x < 2 ^ 64) as Rx by (unfold x; destruct neg; apply u64_range).
  destruct (digit_loop_spec 64 base x ltac:(lia) Rx) as (ds & E1 & E2 & E3 & E4 & E5). destruct (digit_loop_upper base ltac:(lia) 65 x ds E1) as (us & U1 & U2 & U3).
  rewrite U1. cbn [default]. assert (length ds = length us) as Hl by (by rewrite <- U2, length_fmap).
  assert (parse_nat base (rev ds) = x) as Hp by (unfold parse_nat; by rewrite <- fold_left_rev_right, rev_involutive).
  assert (forall k : nat, (0 < k)%nat -> x < 10 ^ Z.of_nat k -> (length us <= k)%nat) as Hlen.
  { intros k Hk0 Hk. destruct (decide (length us <= k)%nat); [done|]. destruct E5 as [E5|E5]; [lia|]. rewrite Hl in E5.
    pose proof (Z.pow_le_mono_l 10 base (Z.of_nat (length us) - 1) ltac:(lia)). pose proof (Z.pow_le_mono_r 10 (Z.of_nat k) (Z.of_nat (length us) - 1) ltac:(lia) ltac:(lia)). lia. }
  assert (Nat.le (length (us ++ (if neg then [45] else []))) 20) as Hbuf.
  { rewrite length_app. destruct neg eqn:En; cbn [length]; [|specialize (Hlen 20%nat ltac:(lia) ltac:(cbn; lia)); lia].
    assert (x <= 2 ^ 63) by (unfold x; unfold neg in En; zbool; ints). specialize (Hlen 19%nat ltac:(lia) ltac:(cbn; lia)). lia. }
  rewrite (proj2 (Z.ltb_ge 20 _)) by lia. split; [|split; [by rewrite length_rev|]].
  - apply prints_puts, Forall_rev, Forall_app. split; [eapply Forall_impl; [exact U3|]; cbn; lia|]. destruct neg; repeat constructor; lia.
  - rewrite rev_app_distr, fmap_app. replace (lower <$> rev us) with (rev ds) by (rewrite <- U2; symmetry; exact (map_rev lower us)).
    destruct neg eqn:En; unfold neg in En; cbn [rev app fmap list_fmap].
    + change (lower 45) with 45. cbn [parse_int]. rewrite Hp. unfold x. zbool. rewrite H. ints.
    + rewrite parse_int_digits, Hp by (by apply Forall_rev). unfold x. destruct (truthy sgn); [|done]. cbn in En. zbool. apply u64_small. lia.
Qed.

(** printint of the library writes the numeral of the number, whatever the 64 bits: it never
    overruns its buffer of 20 characters, and the text reads back as the number. *)
Theorem user_printint_correct fd xx base sgn out :
  - 2 ^ 63 <= xx < 2 ^ 63 -> 10 <= base <= 16 ->
  exists text, uprintint fd xx base sgn out = Ok tt (out ++ (pair fd <$> text)) /\ (length text <= 20)%nat /\
    parse_int base (lower <$> text) = (if truthy sgn then xx else u64 xx).
Proof. intros Hx Hb. destruct (printint_ok fd xx base sgn Hx Hb) as (H1 & H2 & H3). exists (int_text xx base sgn). by rewrite H1. Qed.

Lemma user_printint_correct_witness :
  exists text, uprintint 1 (- 2 ^ 63) 10 1 [] = Ok tt ([] ++ (pair 1 <$> text)) /\ (length text <= 20)%nat /\ parse_int 10 (lower <$> text) = - 2 ^ 63.
Proof. apply (user_printint_correct 1 (- 2 ^ 63) 10 1 []); lia. Defined.

(** *** Formats *)

Inductive size := Plain | Long | LongLong.
Inductive item :=
  | Lit (c : Z)
  | Dec (sz : size) (x : Z)
  | Uns (sz : size) (x : Z)
  | Hex (sz : size) (x : Z)
  | Ptr (x : Z)
  | Chr (x : Z)
  | Str (s : option (list Z))
  | Percent.

Definition size_chars (sz : size) : list Z := match sz with Plain => [] | Long => [108] | LongLong => [108; 108] end.

(** What the programmer writes for an item, what is passed for it, and what appears. *)
Definition item_format (it : item) : list Z :=
  match it with
  | Lit c => [c]
  | Dec sz _ => 37 :: size_chars sz ++ [100]
  | Uns sz _ => 37 :: size_chars sz ++ [117]
  | Hex sz _ => 37 :: size_chars sz ++ [120]
  | Ptr _ => [37; 112]
  | Chr _ => [37; 99]
  | Str _ => [37; 115]
  | Percent => [37; 37]
  end.

Definition item_args (it : item) : list varg :=
  match it with
  | Dec _ x | Uns _ x | Hex _ x | Ptr x | Chr x => [VNum x]
  | Str s => [VStr s]
  | _ => []
  end.

(** The bits of the argument a conversion takes: an int, or 64 bits. *)
Definition signed_arg (sz : size) (x : Z) : Z := match sz with Plain => s32 x | _ => s64 (u64 x) end.
Definition unsigned_arg (sz : size) (x : Z) : Z := match sz with Plain => u32 x | _ => s64 (u64 x) end.

Definition item_text (it : item) : list Z :=
  match it with
  | Lit c => [c]
  | Dec sz x => int_text (signed_arg sz x) 10 1
  | Uns sz x => int_text (unsigned_arg sz x) 10 0
  | Hex sz x => int_text (unsigned_arg sz x) 16 0
  | Ptr x => [48; 120] ++ uptr_digits 16 (u64 x)
  | Chr x => [u8 x]
  | Str None => bytes_of "(null)"
  | Str (Some s) => s
  | Percent => [37]
  end.

Definition item_ok (it : item) : Prop :=
  match it with
  | Lit c => 0 < c < 256 /\ c <> 37
  | Str (Some s) => Forall (fun c => 0 < c < 256) s
  | _ => True
  end.

Lemma ptr_digits_range k : forall x, 0 <= x < 2 ^ 64 -> Forall (fun c => 0 <= c < 256) (uptr_digits k x).
Proof.
  induction k as [|k IH]; intros x Hx; cbn [uptr_digits]; constructor.
  - rewrite Z.shiftr_div_pow2 by lia. destruct (digit_upper (x / 2 ^ 60)) as [_ D]; [|lia].
    split; [apply Z.div_pos; lia|apply Z.div_lt_upper_bound; lia].
  - apply IH, u64_range.
Qed.

(** The characters of a conversion after the percent sign. *)
Definition conv_chars (it : item) : list Z := tail (item_format it).

Lemma nth_suffix (pre suf : list Z) k : nth (length pre + k) (pre ++ suf) 0 = nth k suf 0.
Proof. rewrite app_nth2 by lia. f_equal. lia. Qed.

Lemma num_prints fd (conv : Z -> Z) base sgn (k : nat) x ap :
  - 2 ^ 63 <= conv x < 2 ^ 63 -> 10 <= base <= 16 ->
  prints fd (let! ' (x, ap') := uva_num (VNum x :: ap) in do! uprintint fd (conv x) base sgn; ret (k, ap')) (k, ap) (int_text (conv x) base sgn).
Proof.
  intros Hx Hb. rewrite <- (app_nil_r (int_text _ _ _)). apply (prints_bind fd _ _ tt (k, ap) _ []); [by apply printint_ok|apply prints_ret].
Qed.

Lemma conversion_prints fd pre it rest ap :
  item_ok it -> (forall c, it <> Lit c) ->
  prints fd (uconversion fd (pre ++ conv_chars it ++ rest) (length pre) (item_args it ++ ap)) ((length (conv_chars it) - 1)%nat, ap) (item_text it).
Proof.
  intros Hok Hlit. unfold uconversion. pose proof (nth_suffix pre (conv_chars it ++ rest) 0) as N0. rewrite Nat.add_0_r in N0.
  rewrite N0, !nth_suffix. clear N0.
  destruct it as [c|sz x|sz x|sz x|x|x|s|]; [by destruct (Hlit c)|..].
  1-3: destruct sz; (apply num_prints; [ints|lia]).
  - change (prints fd (do! uprintptr fd (u64 x); ret (0%nat, ap)) (0%nat, ap) (item_text (Ptr x))). rewrite <- (app_nil_r (item_text _)).
    apply (prints_bind fd _ _ tt); [|apply prints_ret]. apply (prints_bind fd _ _ tt tt [48]); [by apply prints_putc|].
    apply (prints_bind fd _ _ tt tt [120]); [by apply prints_putc|]. apply prints_puts, ptr_digits_range, u64_range.
  - change (prints fd (do! putc fd x; ret (0%nat, ap)) (0%nat, ap) [u8 x]). rewrite <- (app_nil_r [u8 x]).
    apply (prints_bind fd _ _ tt); [by intros out|apply prints_ret].
  - change (prints fd (do! puts fd (match s with None => bytes_of "(null)" | Some s => s end); ret (0%nat, ap)) (0%nat, ap) (item_text (Str s))).
    rewrite <- (app_nil_r (item_text _)). apply (prints_bind fd _ _ tt); [|apply prints_ret].
    destruct s as [s|]; apply prints_puts; [eapply Forall_impl; [exact Hok|]; cbn; lia|apply bytes_of_range].
  - change (prints fd (do! putc fd 37; ret (0%nat, ap)) (0%nat, ap) ([37] ++ [])). apply (prints_bind fd _ _ tt); [by apply prints_putc|apply prints_ret].
Qed.

Lemma item_format_conv it : (forall c, it <> Lit c) -> item_format it = 37 :: conv_chars it /\ (0 < length (conv_chars it))%nat /\ nth 0 (conv_chars it) 0 <> 0.
Proof. intros H. destruct it as [c|sz x|sz x|sz x|x|x|s|]; [by destruct (H c)|destruct sz..| | | |]; cbn; (split; [done|split; [lia|done]]). Qed.

(** One item of the format: the loop takes its characters, and the index moves past them. *)
Lemma lit_step fd f pre c rest ap text :
  0 < c < 256 -> c <> 37 ->
  prints fd (vprintf_loop f fd ((pre ++ [c]) ++ rest) (length (pre ++ [c])) 0 ap) tt text ->
  prints fd (vprintf_loop (S f) fd (pre ++ c :: rest) (length pre) 0 ap) tt (c :: text).
Proof.
  intros Hc H37 H. cbn [vprintf_loop]. rewrite nth_middle. zif. apply (prints_bind fd _ _ tt tt [c]); [apply prints_putc; lia|].
  rewrite <- app_assoc, length_app, Nat.add_1_r in H. exact H.
Qed.

Lemma conv_step fd f pre it rest ap text :
  item_ok it -> (forall c, it <> Lit c) ->
  prints fd (vprintf_loop f fd ((pre ++ item_format it) ++ rest) (length (pre ++ item_format it)) 0 ap) tt text ->
  prints fd (vprintf_loop (S (S f)) fd (pre ++ item_format it ++ rest) (length pre) 0 (item_args it ++ ap)) tt (item_text it ++ text).
Proof.
  intros Hok Hn H. destruct (item_format_conv it Hn) as (E & Hl & Hz). rewrite E in *. cbn [app]. remember (S f) as g. cbn [vprintf_loop].
  rewrite nth_middle. cbn [Z.eqb Pos.eqb]. subst g. cbn [vprintf_loop].
  assert (pre ++ 37 :: conv_chars it ++ rest = (pre ++ [37]) ++ conv_chars it ++ rest) as -> by (by rewrite <- app_assoc).
  replace (S (length pre)) with (length (pre ++ [37])) by (rewrite length_app; cbn; lia).
  pose proof (nth_suffix (pre ++ [37]) (conv_chars it ++ rest) 0) as N0. rewrite Nat.add_0_r in N0. rewrite N0, app_nth1 by done.
  rewrite (proj2 (Z.eqb_neq _ 0)) by done. change (37 =? 0) with false. change (37 =? 37) with true. cbn match.
  eapply prints_bind; [by apply conversion_prints|]. cbn beta iota. rewrite !length_app in *. cbn [length] in *.
  replace (S (length pre + 1 + (length (conv_chars it) - 1)))%nat with (length pre + S (length (conv_chars it)))%nat by lia.
  rewrite <- app_assoc in H |- *. exact H.
Qed.

Lemma vprintf_loop_prints fd its : Forall item_ok its -> forall fuel pre,
  (length (flat_map item_format its) < fuel)%nat ->
  prints fd (vprintf_loop fuel fd (pre ++ flat_map item_format its) (length pre) 0 (flat_map item_args its)) tt (flat_map item_text its).
Proof.
  induction 1 as [|it its Hok _ IH]; intros fuel pre Hf; cbn [flat_map] in *.
  - destruct fuel as [|f]; [cbn in Hf; lia|]. cbn [vprintf_loop]. rewrite app_nil_r, nth_overflow by lia. apply prints_ret.
  - rewrite length_app in Hf. assert ((exists c, it = Lit c) \/ forall c, it <> Lit c) as [[c ->]|Hn] by (destruct it; [left; eauto|right; done..]).
    + destruct Hok as [Hc H37]. destruct fuel as [|f]; [lia|]. apply lit_step; [done|done|]. apply IH. cbn in Hf. lia.
    + destruct (item_format_conv it Hn) as (E & Hl & _). rewrite E in Hf. cbn [length] in Hf. destruct fuel as [|[|f]]; [lia|lia|].
      apply conv_step; [done|done|]. apply IH. lia.
Qed.



End Uprintf.
