(* ===== verification/Locks.v ===== *)
(** * Properties of kernel/lib/spinlock.c

    One hart: critical sections are balanced, the interrupt flag survives any
    nesting, misuse panics. Several harts: the memory accesses of acquire and
    release interleaved in any order keep mutual exclusion. *)

From S2P Require Import Prelude Mem State Spinlock Printf.

(** ** One hart *)

Fixpoint times (n : nat) (c : KM unit) : KM unit :=
  match n with
  | O => ret tt
  | S n' => do! c; times n' c
  end.

Lemma iter_push_ok n h :
  hart_ok h -> c_noff (h_cpu h) + Z.of_nat n < 2 ^ 30 ->
  hart_ok (Nat.iter n hart_push h) /\
  c_noff (h_cpu (Nat.iter n hart_push h)) = c_noff (h_cpu h) + Z.of_nat n.
Proof.
  intros Hh. induction n as [|n IH]; intros Hn; [cbn; split; [done|lia]|].
  destruct IH as [H1 H2]; [lia|].
  change (Nat.iter (S n) hart_push h) with (hart_push (Nat.iter n hart_push h)).
  split; [apply hart_push_ok; [done|rewrite H2; lia]|]. cbn [hart_push h_cpu c_noff]. rewrite H2. lia.
Qed.

Lemma times_push_off n s :
  hart_ok (k_hart s) -> c_noff (h_cpu (k_hart s)) + Z.of_nat n < 2 ^ 30 ->
  times n push_off s = Ok tt (set_hart (Nat.iter n hart_push (k_hart s)) s).
Proof.
  revert s. induction n as [|n IH]; intros s Hh Hn; [cbn; by rewrite set_hart_id|].
  cbn [times]. mstep (push_off_ok s Hh). rewrite IH; cbn [k_hart set_hart].
  - rewrite Nat.iter_succ_r. by destruct s.
  - apply hart_push_ok; [done|lia].
  - cbn. lia.
Qed.

Lemma times_pop_off n s h :
  hart_ok h -> c_noff (h_cpu h) + Z.of_nat (S n) < 2 ^ 30 ->
  k_hart s = Nat.iter (S n) hart_push h ->
  times (S n) pop_off s = Ok tt (set_hart (hart_settle h) s).
Proof.
  revert s. induction n as [|n IH]; intros s Hh Hn Hs.
  - cbn [times]. by mstep (pop_off_ok s h Hh Hs).
  - destruct (iter_push_ok (S n) h Hh) as [H1 H2]; [lia|].
    change (times (S (S n)) pop_off) with (do! pop_off; times (S n) pop_off).
    mstep (pop_off_ok s _ H1 Hs). rewrite hart_settle_deep by (destruct Hh; lia).
    rewrite IH; [by destruct s|done|lia|done].
Qed.

(** [n+1] nested push_off leave interrupts disabled at depth [n+1] deeper,
    and as many pop_off restore the depth and the interrupt enable bit of
    sstatus that the outermost push_off found, whatever the code in between did
    to the rest of the kernel. *)
Theorem push_pop_nested n s :
  hart_ok (k_hart s) -> c_noff (h_cpu (k_hart s)) + Z.of_nat (S n) < 2 ^ 30 ->
  exists s1, times (S n) push_off s = Ok tt s1 /\ hart_intr_get (k_hart s1) = 0 /\
    c_noff (h_cpu (k_hart s1)) = c_noff (h_cpu (k_hart s)) + Z.of_nat (S n) /\
    forall s2, k_hart s2 = k_hart s1 ->
      exists s3, times (S n) pop_off s2 = Ok tt s3 /\
        h_sstatus (k_hart s3) = h_sstatus (k_hart s) /\
        c_noff (h_cpu (k_hart s3)) = c_noff (h_cpu (k_hart s)).
Proof.
  intros Hh Hn. eexists. split; [by apply times_push_off|]. cbn [k_hart set_hart].
  split; [apply hart_push_intr|]. split; [by apply iter_push_ok|].
  intros s2 Hs2. eexists. split; [by apply times_pop_off|]. cbn [k_hart set_hart].
  unfold hart_settle. by destruct (Z.eqb_spec (c_noff (h_cpu (k_hart s))) 0).
Qed.

Lemma push_pop_nested_witness :
  exists s1, times 3 push_off boot_kernel = Ok tt s1 /\ c_noff (h_cpu (k_hart s1)) = 3.
Proof.
  destruct (push_pop_nested 2 boot_kernel) as (s1 & H1 & _ & H2 & _).
  - by vm_compute.
  - by vm_compute.
  - exists s1. by rewrite H2.
Defined.

(** Acquire of a free lock returns with interrupts off and the lock marked
    as held by this hart; after any code that leaves the hart and the locks as
    they are, release gives the lock back, free, with every other lock, the
    nesting depth and the interrupt flag as before the acquire. *)
Theorem acquire_release l s :
  lock_free l s -> hart_ok (k_hart s) ->
  exists s1, acquire l s = Ok tt s1 /\ held_by (h_tp (k_hart s)) l s1 /\
    holding l s1 = Ok true s1 /\ hart_intr_get (k_hart s1) = 0 /\
    (forall l', l' <> l -> k_locks s1 !! l' = k_locks s !! l') /\
    forall s2, k_hart s2 = k_hart s1 -> k_locks s2 = k_locks s1 ->
      exists s3, release l s2 = Ok tt s3 /\ k_locks s3 = k_locks s /\
        k_hart s3 = hart_settle (k_hart s) /\ k_mem s3 = k_mem s2.
Proof.
  intros Hl Hh. exists (locked l s). split; [by apply acquire_ok|]. split.
  { exists (lk_name (lock_of s l)). unfold locked, set_lock. cbn. by rewrite lookup_insert_eq. }
  split.
  { unfold holding, get. f_equal. unfold locked. rewrite lock_of_set_lock. unfold is_held. cbn.
    by apply bool_decide_true. }
  split; [apply hart_push_intr|]. split.
  { intros l' Hne. unfold locked, set_lock. cbn. by rewrite lookup_insert_ne. }
  intros s2 H1 H2. eexists. split; [by apply (release_ok l s)|]. done.
Qed.

Lemma acquire_release_witness :
  exists s1, acquire L_kmem boot_kernel = Ok tt s1 /\ held_by 0 L_kmem s1.
Proof.
  destruct (acquire_release L_kmem boot_kernel) as (s1 & H1 & H2 & _).
  - by exists "kmem".
  - by vm_compute.
  - exists s1. split; [exact H1|exact H2].
Defined.

Lemma uart_puts_ok bs s : exists out, uart_puts bs s = Ok tt (emit out s).
Proof.
  revert s. induction bs as [|c bs IH]; intros s; [exists []; cbn; by rewrite emit_nil|].
  destruct (IH (emit (if c =? 10 then [u8 13; u8 c] else [u8 c]) s)) as [o E].
  exists ((if c =? 10 then [u8 13; u8 c] else [u8 c]) ++ o). rewrite <- emit_emit.
  rewrite <- E. cbn [uart_puts]. unfold bind, uart_putc, modify, emit.
  destruct (c =? 10); unfold ret; cbn; by rewrite <- ?app_assoc.
Qed.

Lemma can_print_emit out s : can_print s -> can_print (emit out (settle s)).
Proof.
  intros (H1 & H2 & H3 & H4 & H5). do 3 (split; [done|]). split; [by apply hart_settle_ok|].
  unfold emit, settle, hart_settle. cbn. by destruct (_ =? 0).
Qed.

Lemma settle_emit out s : settle (emit out s) = emit out (settle s).
Proof. done. Qed.

(** A printf in front of the rest of a routine. *)
Lemma printf_then {A} fmt ap (k : unit -> KM A) s :
  fmt_ok fmt ap = true -> can_print s ->
  exists out, bind (printf fmt ap) k s = k tt (emit out (settle s)) /\
              can_print (emit out (settle s)).
Proof.
  intros Hf Hs. destruct (printf_ok fmt ap s Hf Hs) as [out E]. exists out.
  split; [by mstep E|by apply can_print_emit].
Qed.

(** Run the printf in front; [H] shows that the state can print. *)
Ltac print_step H o H' :=
  match goal with
  | |- context [bind (printf ?fmt ?ap) ?k ?s] =>
      destruct (printf_then fmt ap k s) as (o & -> & H'); [reflexivity|exact H|]
  end.

Lemma acquire_held l s nm :
  hart_ok (k_hart s) -> k_panicked s = 0 ->
  k_locks s !! l = Some {| lk_locked := 1; lk_name := nm; lk_cpu := Some (h_tp (k_hart s)) |} ->
  exists s', acquire l s = Stop (Panic "acquire") s'.
Proof.
  intros Hh Hp Hl. unfold acquire. mstep (push_off_ok s Hh).
  unfold bind at 1, holding, get, is_held. cbn. unfold lock_of. cbn. rewrite Hl. cbn.
  rewrite bool_decide_true by done. unfold bind at 1.
  destruct (uart_puts_ok (bytes_of nm) (set_hart (hart_push (k_hart s)) s)) as [out E].
  cbn [k_locks set_hart]. rewrite Hl. cbn [lk_name default]. mstep E. unfold panic. cbn. rewrite Hp. by eexists.
Qed.

Lemma acquire_other l s nm tp :
  hart_ok (k_hart s) -> tp <> h_tp (k_hart s) ->
  k_locks s !! l = Some {| lk_locked := 1; lk_name := nm; lk_cpu := Some tp |} ->
  exists s', acquire l s = Stop (Spin "acquire") s' /\ hart_intr_get (k_hart s') = 0.
Proof.
  intros Hh Hne Hl. unfold acquire. mstep (push_off_ok s Hh).
  unfold bind, holding, get, is_held, test_and_set, modify, lock_of. cbn. rewrite Hl. cbn.
  rewrite bool_decide_false by naive_solver. cbn. rewrite Hl. cbn. eexists. split; [done|].
  apply hart_push_intr.
Qed.

Lemma release_not_held l s nm tp i p :
  can_print s -> c_proc (h_cpu (k_hart s)) = Some i -> k_procs s !! i = Some p ->
  tp <> h_tp (k_hart s) ->
  k_locks s !! l = Some {| lk_locked := 1; lk_name := nm; lk_cpu := Some tp |} ->
  exists s', release l s = Stop (Panic "release") s' /\ k_locks s' = k_locks s.
Proof.
  intros Hs Hi Hp Hne Hl. unfold release, release_core.
  unfold bind at 1, holding, get at 1, is_held, lock_of. rewrite Hl. cbn [lk_locked lk_cpu default].
  rewrite bool_decide_false by naive_solver. rewrite andb_false_r. cbn [negb].
  rewrite bind_assoc. unfold mycpu. unfold bind at 1, get at 1. rewrite bind_assoc.
  unfold bind at 1, get at 1. rewrite Hi, Hp. rewrite bind_assoc.
  print_step Hs o H1. rewrite bind_assoc. unfold bind at 1, get at 1.
  print_step H1 o2 H2. unfold panic. destruct Hs as (Hk & _). cbn. rewrite Hk. by eexists.
Qed.

(** Misuse of a lock is caught. An acquire of a lock this hart already holds
    panics; of a lock another hart holds, it spins with interrupts disabled. A
    release by a hart that does not hold the lock reports the process and the
    lock and panics, and no lock changes. *)
Theorem lock_misuse l s tp nm i p :
  can_print s -> c_proc (h_cpu (k_hart s)) = Some i -> k_procs s !! i = Some p ->
  k_locks s !! l = Some {| lk_locked := 1; lk_name := nm; lk_cpu := Some tp |} ->
  (tp = h_tp (k_hart s) -> exists s', acquire l s = Stop (Panic "acquire") s') /\
  (tp <> h_tp (k_hart s) ->
     (exists s', acquire l s = Stop (Spin "acquire") s' /\ hart_intr_get (k_hart s') = 0) /\
     (exists s', release l s = Stop (Panic "release") s' /\ k_locks s' = k_locks s)).
Proof.
  intros Hs Hi Hp Hl. pose proof Hs as (Hk & _ & _ & Hh & _). split.
  - intros ->. by eapply acquire_held.
  - intros Hne. split; [by eapply acquire_other|by eapply release_not_held].
Qed.

(** Process 0 runs on hart 0 while hart 1 holds the allocator's lock. *)
Definition contended : kernel :=
  set_lock L_kmem {| lk_locked := 1; lk_name := "kmem"; lk_cpu := Some 1 |}
    (set_cpu {| c_proc := Some 0%nat; c_noff := 0; c_intena := 0 |} boot_kernel).

Lemma lock_misuse_witness :
  exists s1 s2, acquire L_kmem contended = Stop (Spin "acquire") s1 /\
    release L_kmem contended = Stop (Panic "release") s2.
Proof.
  destruct (lock_misuse L_kmem contended 1 "kmem" 0 PCB_zero) as [_ H].
  - split; [done|split; [done|split; [by exists "pr"|by vm_compute]]].
  - reflexivity.
  - reflexivity.
  - reflexivity.
  - destruct H as ((s1 & H1 & _) & (s2 & H2 & _)); [done|]. exists s1, s2. split; [exact H1|exact H2].
Defined.

(** ** Critical sections around an update of the kernel's data *)

(** The update touches neither the hart nor a lock, and does not depend on them. *)
Record private (f : kernel -> kernel) : Prop := {
  pv_hart : forall h s, f (set_hart h s) = set_hart h (f s);
  pv_locks : forall l s, f (set_locks l s) = set_locks l (f s);
  pv_k_hart : forall s, k_hart (f s) = k_hart s;
  pv_k_locks : forall s, k_locks (f s) = k_locks s
}.

Lemma unlock_private l f s :
  private f ->
  set_locks (k_locks s) (set_hart (hart_settle (k_hart s)) (f (locked l s))) = f (settle s).
Proof.
  intros [H1 H2 _ _]. rewrite <- H1, <- H2. f_equal.
Qed.

Lemma settle_private f s : private f -> settle (f s) = f (settle s).
Proof. intros [H1 _ H3 _]. unfold settle. by rewrite H3, H1. Qed.

Lemma release_private l f s :
  private f -> lock_free l s -> hart_ok (k_hart s) -> release l (f (locked l s)) = Ok tt (f (settle s)).
Proof.
  intros Hf Hl Hh. pose proof Hf as [_ _ H3 H4].
  rewrite (release_ok l s) by (rewrite ?H3, ?H4; done). by rewrite unlock_private.
Qed.

Lemma section_ok l f s :
  private f -> lock_free l s -> hart_ok (k_hart s) ->
  (do! acquire l; do! modify f; release l) s = Ok tt (f (settle s)).
Proof.
  intros Hf Hl Hh. mstep (acquire_ok l s Hl Hh). unfold bind, modify. by apply release_private.
Qed.

(** ** Several harts

    The shared accesses of acquire and release on one lock, one per step, for
    harts that acquire and release it over and over. [holding] reads
    [lk->locked] and then, if it is not 0, [lk->cpu]; the other accesses are the
    atomic exchange, the two stores to [lk->cpu] and the releasing store. *)
Module Interleaving.

Inductive pc :=
| Outside
| Acq_locked    (* acquire, holding: about to read lk->locked *)
| Acq_cpu       (* acquire, holding: about to read lk->cpu *)
| Acq_swap      (* about to exchange lk->locked with 1 *)
| Acq_own       (* about to store mycpu() into lk->cpu *)
| Critical
| Rel_locked    (* release, holding: about to read lk->locked *)
| Rel_cpu       (* release, holding: about to read lk->cpu *)
| Rel_disown    (* about to store 0 into lk->cpu *)
| Rel_unlock    (* about to store 0 into lk->locked *)
| Panicked.

Record machine := { locked : Z; cpu_of : option nat; pcs : nat -> pc }.

Definition upd (f : nat -> pc) (h : nat) (p : pc) (h' : nat) : pc :=
  if decide (h' = h) then p else f h'.

Definition goto (h : nat) (p : pc) (m : machine) : machine :=
  {| locked := locked m; cpu_of := cpu_of m; pcs := upd (pcs m) h p |}.

(** The next shared access of hart [h]. *)
Definition hstep (m : machine) (h : nat) : machine :=
  match pcs m h with
  | Outside => goto h Acq_locked m
  | Acq_locked => goto h (if locked m =? 0 then Acq_swap else Acq_cpu) m
  | Acq_cpu => goto h (if decide (cpu_of m = Some h) then Panicked else Acq_swap) m
  | Acq_swap =>
      if locked m =? 0
      then goto h Acq_own {| locked := 1; cpu_of := cpu_of m; pcs := pcs m |}
      else {| locked := 1; cpu_of := cpu_of m; pcs := pcs m |}
  | Acq_own => goto h Critical {| locked := locked m; cpu_of := Some h; pcs := pcs m |}
  | Critical => goto h Rel_locked m
  | Rel_locked => goto h (if locked m =? 0 then Panicked else Rel_cpu) m
  | Rel_cpu => goto h (if decide (cpu_of m = Some h) then Rel_disown else Panicked) m
  | Rel_disown => goto h Rel_unlock {| locked := locked m; cpu_of := None; pcs := pcs m |}
  | Rel_unlock => goto h Outside {| locked := 0; cpu_of := cpu_of m; pcs := pcs m |}
  | Panicked => m
  end.

(** The lock initialised, every hart outside. *)
Definition start : machine := {| locked := 0; cpu_of := None; pcs := fun _ => Outside |}.

(** A run: the harts take their steps in the order of the schedule. *)
Definition run (schedule : list nat) : machine := fold_left hstep schedule start.

(** Between winning the exchange and giving the lock back. *)
Definition owns (p : pc) : bool :=
  match p with
  | Acq_own | Critical | Rel_locked | Rel_cpu | Rel_disown | Rel_unlock => true
  | _ => false
  end.

(** [lk->cpu] names the hart. *)
Definition named (p : pc) : bool :=
  match p with Critical | Rel_locked | Rel_cpu | Rel_disown => true | _ => false end.

Record inv (m : machine) : Prop := {
  inv_free : locked m = 0 -> forall h, owns (pcs m h) = false;
  inv_one : forall h h', owns (pcs m h) = true -> owns (pcs m h') = true -> h = h';
  inv_held : locked m <> 0 -> exists h, owns (pcs m h) = true;
  inv_named : forall h, named (pcs m h) = true <-> cpu_of m = Some h;
  inv_calm : forall h, pcs m h <> Panicked
}.

Lemma inv_start : inv start.
Proof. split; cbn; try done. Qed.

(** Moving one hart to [p], with the variables set to [l] and [c]. *)
Lemma inv_goto m h p l c :
  inv m ->
  (l = 0 -> owns p = false /\ forall h', h' <> h -> owns (pcs m h') = false) ->
  (owns p = true -> forall h', h' <> h -> owns (pcs m h') = false) ->
  (l <> 0 -> owns p = true \/ exists h', h' <> h /\ owns (pcs m h') = true) ->
  (named p = true <-> c = Some h) ->
  (forall h', h' <> h -> (named (pcs m h') = true <-> c = Some h')) ->
  p <> Panicked ->
  inv {| locked := l; cpu_of := c; pcs := upd (pcs m) h p |}.
Proof.
  intros [I1 I2 I3 I4 I5] H1 H2 H3 H4 H5 H6.
  split; cbn; unfold upd; intros.
  - case_decide; [by apply H1|by apply H1].
  - repeat case_decide; subst; [done|exfalso|exfalso|by apply I2].
    all: match goal with Hne : ?x <> _, Ho : owns (pcs _ ?x) = true |- _ => specialize (H2 ltac:(done) x Hne) end; congruence.
  - destruct H3 as [Hp|(h' & Hne & Ho)]; [done| |].
    + exists h. by rewrite decide_True.
    + exists h'. by rewrite decide_False.
  - case_decide; [by subst|by apply H5].
  - case_decide; [done|apply I5].
Qed.

Lemma others m h : inv m -> owns (pcs m h) = true -> forall h', h' <> h -> owns (pcs m h') = false.
Proof.
  intros I Ho h' Hne. destruct (owns (pcs m h')) eqn:E; [|done].
  exfalso. apply Hne. by apply (inv_one m I).
Qed.

Lemma named_owns p : named p = true -> owns p = true.
Proof. by destruct p. Qed.

(** A step that leaves the variables as they are and the hart where it was, in
    or out. *)
Lemma inv_move m h p :
  inv m -> owns p = owns (pcs m h) -> named p = named (pcs m h) -> p <> Panicked ->
  inv (goto h p m).
Proof.
  intros I Ho Hn Hp. apply (inv_goto m); try done.
  - intros Hz. split; [rewrite Ho|intros h' _]; by apply (inv_free m I).
  - rewrite Ho. apply (others m h I).
  - intros Hl. destruct (inv_held m I Hl) as [h' Hh']. rewrite Ho.
    destruct (decide (h' = h)) as [->|]; [by left|right; by exists h'].
  - rewrite Hn. apply (inv_named m I).
  - intros h' _. apply (inv_named m I).
Qed.

Lemma inv_step m h : inv m -> inv (hstep m h).
Proof.
  intros I. pose proof (others m h I) as Ho. pose proof (inv_named m I) as Hn.
  assert (owns (pcs m h) = true -> locked m <> 0) as Hlk.
  { intros Hx Hz. by rewrite (inv_free m I Hz h) in Hx. }
  assert (named (pcs m h) = false -> cpu_of m <> Some h) as Hnn.
  { intros Hx Hc. by rewrite (proj2 (Hn h) Hc) in Hx. }
  assert (owns (pcs m h) = true -> forall h', h' <> h -> named (pcs m h') <> true) as Hon.
  { intros Hx h' Hne Hy%named_owns. by rewrite (Ho Hx h' Hne) in Hy. }
  unfold hstep. destruct (pcs m h) eqn:E.
  - apply inv_move; by rewrite ?E.
  - apply inv_move; rewrite ?E; by destruct (Z.eqb (locked m) 0).
  - rewrite decide_False by (by apply Hnn). apply inv_move; by rewrite ?E.
  - destruct (Z.eqb_spec (locked m) 0) as [Hz|Hz].
    + apply (inv_goto m); try done.
      * intros _ h' _. by apply (inv_free m I).
      * by left.
      * split; [done|]. intros Hc. exfalso. by apply Hnn.
    + destruct I as [I1 I2 I3 I4 I5]. split; cbn; try done. intros _. by apply I3.
  - apply (inv_goto m); try done; [intros Hz; exfalso; by apply Hlk|by left|].
    intros h' Hne. split; [intros Hx; by apply Hon in Hx|intros [= ->]; done].
  - apply inv_move; by rewrite ?E.
  - apply inv_move; rewrite ?E; destruct (Z.eqb_spec (locked m) 0); try done; exfalso; by apply Hlk.
  - rewrite decide_True by (apply Hn; by rewrite E). apply inv_move; by rewrite ?E.
  - apply (inv_goto m); try done; [intros Hz; exfalso; by apply Hlk|by left|].
    intros h' Hne. split; [intros Hx; by apply Hon in Hx|done].
  - apply (inv_goto m); try done.
    + intros _. split; [done|by apply Ho].
    + split; [done|]. intros Hc. exfalso. by apply Hnn.
  - exfalso. by apply (inv_calm m I h).
Qed.

Lemma inv_run schedule : inv (run schedule).
Proof.
  unfold run. generalize inv_start. generalize start as m.
  induction schedule as [|h l IH]; intros m Hm; [done|]. apply IH. by apply inv_step.
Qed.

(** C23: whatever the interleaving of the harts' memory accesses, at most one
    hart is between winning the exchange of acquire and the last store of
    release, the checks of acquire and release never panic, and the lock word is
    0 exactly when no hart has the lock, so that the next exchange succeeds. *)
Theorem mutual_exclusion schedule :
  let m := run schedule in
  (forall h h', owns (pcs m h) = true -> owns (pcs m h') = true -> h = h') /\
  (forall h, pcs m h <> Panicked) /\
  (locked m = 0 <-> forall h, owns (pcs m h) = false) /\
  (forall h, pcs m h = Critical -> cpu_of m = Some h) /\
  (forall h, (forall h', owns (pcs m h') = false) -> pcs m h = Acq_swap ->
     pcs (hstep m h) h = Acq_own).
Proof.
  intros m. destruct (inv_run schedule) as [I1 I2 I3 I4 I5]. fold m in I1, I2, I3, I4, I5.
  assert (locked m = 0 <-> forall h, owns (pcs m h) = false) as Hz.
  { split; [apply I1|]. intros Hall. destruct (decide (locked m = 0)) as [|Hne]; [done|].
    destruct (I3 Hne) as [h Hh]. by rewrite Hall in Hh. }
  split; [done|split; [done|split; [done|split]]].
  - intros h Hc. apply I4. by rewrite Hc.
  - intros h Hall Hs. unfold hstep. rewrite Hs, (proj2 Hz Hall). cbn. unfold upd. by rewrite decide_True.
Qed.

End Interleaving.
