(* ===== verification/Dll.v ===== *)
(** * kernel/lib/list.c: circular doubly linked lists

    A list is a struct list in memory, whose nodes are the first 16 bytes of the
    objects in it. The abstract state of a list is the sequence of its nodes: pushing
    is cons, popping takes the head, removing takes any node out. *)

From S2P Require Import Prelude Mem CString State Spinlock Printf Locks.

(** ** The routines *)

(** struct list: [next] at offset 0, [prev] at 8. *)
Definition lst_next (e : Z) : Z := e.
Definition lst_prev (e : Z) : Z := e + 8.

Definition lst_init (lst : Z) : KM unit :=
  do! st64 (lst_next lst) lst;
  st64 (lst_prev lst) lst.

Definition lst_empty (lst : Z) : KM Z :=
  let! n := ld64 (lst_next lst) in
  ret (b2z (n =? lst)).

Definition lst_remove (e : Z) : KM unit :=
  let! n := ld64 (lst_next e) in
  let! p := ld64 (lst_prev e) in
  do! st64 (lst_next p) n;
  let! p := ld64 (lst_prev e) in
  let! n := ld64 (lst_next e) in
  st64 (lst_prev n) p.

Definition lst_pop (lst : Z) : KM Z :=
  let! n := ld64 (lst_next lst) in
  if n =? lst then panic "lst_pop"
  else
    let! p := ld64 (lst_next lst) in
    do! lst_remove p;
    ret p.

Definition lst_push (lst p : Z) : KM unit :=
  let! n := ld64 (lst_next lst) in
  do! st64 (lst_next p) n;
  do! st64 (lst_prev p) lst;
  let! n := ld64 (lst_next lst) in
  do! st64 (lst_prev n) p;
  st64 (lst_next lst) p.

(** [for(p = lst->next; p != lst; p = p->next) printf(" %p", p);] *)
Fixpoint lst_print_loop (fuel : nat) (lst p : Z) : KM unit :=
  match fuel with
  | O => halt OutOfFuel
  | S f =>
      if p =? lst then ret tt
      else
        do! printf " %p" [VNum p];
        let! n := ld64 (lst_next p) in
        lst_print_loop f lst n
  end.

Definition lst_print (fuel : nat) (lst : Z) : KM unit :=
  let! p := ld64 (lst_next lst) in
  do! lst_print_loop fuel lst p;
  printf nl [].

(** ** The list in memory *)

Definition next (m : mem) (e : Z) : Z := load64 m (lst_next e).
Definition prev (m : mem) (e : Z) : Z := load64 m (lst_prev e).

(** Neighbours point to each other. *)
Fixpoint links (m : mem) (l : list Z) : Prop :=
  match l with
  | a :: (b :: _) as l' => next m a = b /\ prev m b = a /\ links m l'
  | _ => True
  end.

Definition node_ok (a : Z) : Prop := 0 <= a /\ a + 16 <= 2 ^ 64.

(** Two nodes do not overlap. *)
Definition far (a b : Z) : Prop := a + 16 <= b \/ b + 16 <= a.

Record dll (m : mem) (lst : Z) (xs : list Z) : Prop := {
  dl_links : links m (lst :: xs ++ [lst]);
  dl_nodup : NoDup (lst :: xs);
  dl_far : forall a b, a ∈ lst :: xs -> b ∈ lst :: xs -> a <> b -> far a b;
  dl_node : forall a, a ∈ lst :: xs -> node_ok a
}.

Lemma dlinks_app m l1 a l2 : links m (l1 ++ a :: l2) <-> links m (l1 ++ [a]) /\ links m (a :: l2).
Proof.
  induction l1 as [|b l1 IH]; [cbn; destruct l2; tauto|].
  destruct l1 as [|c l1]; cbn -[links] in IH |- *; cbn; [destruct l2; cbn; tauto|]. cbn in IH. tauto.
Qed.

(** The links of [l] are the next words of all nodes but the last and the prev words
    of all but the first. *)
Lemma dlinks_ext m m' l :
  (forall a, a ∈ removelast l -> next m' a = next m a) -> (forall b, b ∈ tail l -> prev m' b = prev m b) ->
  links m l -> links m' l.
Proof.
  induction l as [|a [|b l] IH]; [done..|]. intros Hn Hp (H1 & H2 & H3). split; [|split].
  - rewrite Hn; [done|]. cbn. set_solver.
  - rewrite Hp; [done|]. cbn. set_solver.
  - apply IH; [| |done]; [intros c Hc; apply Hn; cbn; cbn in Hc; set_solver|intros c Hc; apply Hp; cbn; cbn in Hc; set_solver].
Qed.

(** ** Words of nodes *)

Lemma next_store_next m a v b : far a b -> next (store64 m (lst_next a) v) b = next m b.
Proof. unfold far, next, lst_next. intros. apply load64_store64_ne. lia. Qed.
Lemma next_store_prev m a v b : a = b \/ far a b -> next (store64 m (lst_prev a) v) b = next m b.
Proof. unfold far, next, lst_next, lst_prev. intros. apply load64_store64_ne. lia. Qed.
Lemma prev_store_next m a v b : a = b \/ far a b -> prev (store64 m (lst_next a) v) b = prev m b.
Proof. unfold far, prev, lst_next, lst_prev. intros. apply load64_store64_ne. lia. Qed.
Lemma prev_store_prev m a v b : far a b -> prev (store64 m (lst_prev a) v) b = prev m b.
Proof. unfold far, prev, lst_prev. intros. apply load64_store64_ne. lia. Qed.
Lemma next_set m a v : node_ok v -> next (store64 m (lst_next a) v) a = v.
Proof. unfold next, node_ok. intros. rewrite load64_store64. apply u64_small. lia. Qed.
Lemma prev_set m a v : node_ok v -> prev (store64 m (lst_prev a) v) a = v.
Proof. unfold prev, node_ok. intros. rewrite load64_store64. apply u64_small. lia. Qed.

(** Linking [q] before [r]. *)
Definition join (m : mem) (q r : Z) : mem := store64 (store64 m (lst_next q) r) (lst_prev r) q.

Lemma join_links m q r : node_ok q -> node_ok r -> q = r \/ far q r -> next (join m q r) q = r /\ prev (join m q r) r = q.
Proof.
  intros Hq Hr Hd. unfold join. split; [|by apply prev_set].
  rewrite next_store_prev by (unfold far in *; intuition). by apply next_set.
Qed.

Lemma next_join m q r a : a = r \/ far r a -> far q a -> next (join m q r) a = next m a.
Proof. intros Hr Hq. unfold join. rewrite next_store_prev by intuition. by apply next_store_next. Qed.
Lemma prev_join m q r a : a = q \/ far q a -> far r a -> prev (join m q r) a = prev m a.
Proof. intros Hq Hr. unfold join. rewrite prev_store_prev by done. apply prev_store_next. intuition. Qed.

(** ** Refinement *)

(** Nothing changed but memory, and memory only in the nodes [l]. *)
Definition node_step (l : list Z) (s s' : kernel) : Prop :=
  s' = set_mem (k_mem s') s /\
  forall a, (forall x, x ∈ l -> a < x \/ x + 16 <= a) -> rd8 (k_mem s') a = rd8 (k_mem s) a.

Lemma rd8_join m q r a : (a < q \/ q + 16 <= a) -> (a < r \/ r + 16 <= a) -> rd8 (join m q r) a = rd8 m a.
Proof. intros Hq Hr. unfold join, lst_next, lst_prev. rewrite !rd8_store64_ne; [done|lia..]. Qed.

Lemma init_ok lst s :
  node_ok lst -> exists s', lst_init lst s = Ok tt s' /\ dll (k_mem s') lst [] /\ node_step [lst] s s'.
Proof.
  intros Hn. eexists. split; [reflexivity|]. change (dll (join (k_mem s) lst lst) lst [] /\ node_step [lst] s (set_mem (join (k_mem s) lst lst) s)).
  split; [split|split].
  - destruct (join_links (k_mem s) lst lst Hn Hn) as [H1 H2]; [by left|]. cbn. tauto.
  - apply NoDup_singleton.
  - intros a b Ha Hb. set_solver.
  - intros a Ha. by replace a with lst by set_solver.
  - done.
  - intros a Ha. apply rd8_join; apply Ha; set_solver.
Qed.

Lemma dll_next m lst xs : dll m lst xs -> next m lst = hd lst xs.
Proof. intros D. pose proof (dl_links _ _ _ D) as H. by destruct xs as [|x xs]; destruct H as (H & _). Qed.

Lemma empty_ok lst xs s :
  dll (k_mem s) lst xs -> lst_empty lst s = Ok (b2z (bool_decide (xs = []))) s.
Proof.
  intros D. unfold lst_empty, ld64, bind, get, ret. fold (next (k_mem s) lst). rewrite (dll_next _ _ _ D). do 2 f_equal.
  pose proof (dl_nodup _ _ _ D) as Hd. destruct xs as [|x xs]; cbn; [apply Z.eqb_refl|].
  apply Z.eqb_neq. intros ->. apply NoDup_cons in Hd. set_solver.
Qed.

(** Linking [q] before [r] leaves the links of [l] alone, if [q] is none of its nodes but
    perhaps the last one and [r] none but perhaps the first one. *)
Lemma links_join m q r l D :
  (forall a b, a ∈ D -> b ∈ D -> a <> b -> far a b) -> q ∈ D -> r ∈ D -> l ⊆ D ->
  q ∉ removelast l -> r ∉ tail l -> links m l -> links (join m q r) l.
Proof.
  intros HD Hq Hr Hl Nq Nr. apply dlinks_ext.
  - intros a Ha. assert (a ∈ D) as HaD by (apply Hl; rewrite (app_removelast_last 0 (l := l)); [apply elem_of_app; by left|intros ->; by apply elem_of_nil in Ha]).
    apply next_join; [destruct (decide (a = r)); [by left|right; by apply HD]|apply HD; congruence].
  - intros b Hb. assert (b ∈ D) as HbD by (apply Hl; destruct l; [by apply elem_of_nil in Hb|apply elem_of_cons; by right]).
    apply prev_join; [destruct (decide (b = q)); [by left|right; by apply HD]|apply HD; congruence].
Qed.

(** Unlinking the node between [l1] and [l2]. *)
Lemma unlink_dll m lst l1 e l2 l1' q r l2' :
  dll m lst (l1 ++ e :: l2) -> lst :: l1 = l1' ++ [q] -> l2 ++ [lst] = r :: l2' ->
  (prev m e = q /\ next m e = r) /\ (q ∈ lst :: l1) /\ (r ∈ lst :: l2) /\ dll (join m q r) lst (l1 ++ l2).
Proof.
  intros [Hl Hd Hf Hn] E1 E2.
  assert (lst :: l1 ++ l2 ⊆ lst :: l1 ++ e :: l2) as Hsub by (intros a; rewrite !elem_of_cons, !elem_of_app, elem_of_cons; tauto).
  assert (NoDup (lst :: l1 ++ l2)) as Hd'.
  { apply (sublist_NoDup _ (lst :: l1 ++ e :: l2)); [done|]. by apply sublist_skip, sublist_app, sublist_cons. }
  assert (lst :: l1 ++ l2 ≡ₚ l1' ++ [q] ++ l2) as P1 by (rewrite app_assoc, <- E1; done).
  assert (lst :: l1 ++ l2 ≡ₚ l1 ++ r :: l2') as P2 by (rewrite <- E2, app_assoc; apply Permutation_cons_append).
  assert (q ∈ lst :: l1 ++ l2) as Hq by (rewrite P1, !elem_of_app, list_elem_of_singleton; tauto).
  assert (r ∈ lst :: l1 ++ l2) as Hr by (rewrite P2, !elem_of_app, elem_of_cons; tauto).
  pose proof Hd' as Hd1. rewrite P1 in Hd1. apply NoDup_app in Hd1 as (_ & N1 & Hd1). apply NoDup_app in Hd1 as (_ & N2 & _).
  pose proof Hd' as Hd2. rewrite P2 in Hd2. apply NoDup_app in Hd2 as (_ & N3 & Hd2). apply NoDup_cons in Hd2 as [N4 _].
  replace (lst :: (l1 ++ e :: l2) ++ [lst]) with ((lst :: l1) ++ e :: (l2 ++ [lst])) in Hl by (cbn; by rewrite <- app_assoc).
  rewrite E2, E1, <- app_assoc in Hl. cbn [app] in Hl.
  apply dlinks_app in Hl as [HA (H1 & H2 & H3 & H4 & HB)].
  assert (forall a b, a ∈ lst :: l1 ++ l2 -> b ∈ lst :: l1 ++ l2 -> a <> b -> far a b) as Hf' by auto.
  split; [done|]. split; [rewrite E1, elem_of_app, list_elem_of_singleton; tauto|].
  split; [rewrite (Permutation_cons_append l2 lst), E2, elem_of_cons; tauto|]. split; [|done|done|auto].
  replace (lst :: (l1 ++ l2) ++ [lst]) with ((lst :: l1) ++ (l2 ++ [lst])) by (cbn; by rewrite <- app_assoc).
  rewrite E2, E1, <- app_assoc. cbn [app]. apply dlinks_app. split; [|split; [|split]].
  - apply (links_join m q r _ (lst :: l1 ++ l2)); try done.
    + intros a Ha. rewrite P1, app_assoc, elem_of_app. by left.
    + rewrite removelast_last. intros Hx. apply (N1 q Hx). apply elem_of_app. left. by apply list_elem_of_singleton.
    + rewrite <- E1. intros Hx. apply (N3 r Hx), list_elem_of_here.
  - apply join_links; [apply Hn; auto..|destruct (decide (q = r)); auto].
  - apply join_links; [apply Hn; auto..|destruct (decide (q = r)); auto].
  - apply (links_join m q r _ (lst :: l1 ++ l2)); try done.
    + intros a Ha. rewrite P2, elem_of_app. by right.
    + rewrite <- E2, removelast_last. intros Hx. apply (N2 q); [by apply list_elem_of_singleton|done].
Qed.

Lemma remove_ok lst l1 e l2 s :
  dll (k_mem s) lst (l1 ++ e :: l2) ->
  exists s', lst_remove e s = Ok tt s' /\ dll (k_mem s') lst (l1 ++ l2) /\ node_step (lst :: l1 ++ l2) s s'.
Proof.
  intros D. destruct (exists_last (l := lst :: l1)) as (l1' & q & E1); [done|].
  destruct (l2 ++ [lst]) as [|r l2'] eqn:E2; [by apply app_eq_nil in E2 as [_ ?]|].
  destruct (unlink_dll _ _ _ _ _ _ _ _ _ D E1 E2) as ((Hp & Hx) & Hq & Hr & D').
  exists (set_mem (join (k_mem s) q r) s). split; [|split; [done|split; [done|]]].
  - unfold lst_remove, ld64, st64, bind, get, modify. fold (next (k_mem s) e) (prev (k_mem s) e). rewrite Hp, Hx. cbn [k_mem set_mem].
    fold (next (store64 (k_mem s) (lst_next q) r) e) (prev (store64 (k_mem s) (lst_next q) r) e).
    assert (far q e) as Hfar.
    { apply (dl_far _ _ _ D); [revert Hq; rewrite !elem_of_cons, elem_of_app; tauto|rewrite !elem_of_cons, elem_of_app, elem_of_cons; tauto|].
      intros ->. pose proof (dl_nodup _ _ _ D) as Hd. rewrite app_comm_cons in Hd. apply NoDup_app in Hd as (_ & Hd & _).
      apply (Hd e Hq), list_elem_of_here. }
    rewrite prev_store_next, next_store_next by auto. by rewrite Hp, Hx.
  - intros a Ha. apply rd8_join; apply Ha; rewrite !elem_of_cons, elem_of_app in *; tauto.
Qed.

Lemma pop_ok lst x xs s :
  dll (k_mem s) lst (x :: xs) ->
  exists s', lst_pop lst s = Ok x s' /\ dll (k_mem s') lst xs /\ node_step (lst :: xs) s s'.
Proof.
  intros D. destruct (remove_ok lst [] x xs s D) as (s' & E & D' & N). exists s'. split; [|done].
  unfold lst_pop, ld64, bind, get. cbn beta. fold (next (k_mem s) lst). rewrite (dll_next _ _ _ D). cbn [hd].
  rewrite (proj2 (Z.eqb_neq x lst)); [fold (next (k_mem s) lst); rewrite (dll_next _ _ _ D); cbn [hd]; by rewrite E|].
  intros ->. pose proof (dl_nodup _ _ _ D) as Hd. apply NoDup_cons in Hd as [Hd _]. apply Hd, list_elem_of_here.
Qed.

Lemma pop_empty lst s : dll (k_mem s) lst [] -> lst_pop lst s = panic "lst_pop" s.
Proof.
  intros D. unfold lst_pop, ld64. unfold bind at 1, get at 1. fold (next (k_mem s) lst). rewrite (dll_next _ _ _ D). cbn [hd].
  by rewrite Z.eqb_refl.
Qed.

(** The memory after a push. *)
Definition push_mem (m : mem) (lst p n : Z) : mem :=
  store64 (store64 (store64 (store64 m (lst_next p) n) (lst_prev p) lst) (lst_prev n) p) (lst_next lst) p.

Lemma push_dll m lst xs p :
  dll m lst xs -> node_ok p -> (forall a, a ∈ lst :: xs -> far p a) -> dll (push_mem m lst p (next m lst)) lst (p :: xs).
Proof.
  intros D Hp Hfar. pose proof (dll_next _ _ _ D) as Hnext. destruct D as [Hl Hd Hf Hn]. rewrite Hnext.
  set (n := hd lst xs) in *. destruct (xs ++ [lst]) as [|n' ys] eqn:E; [by apply app_eq_nil in E as [_ ?]|].
  assert (n' = n) as -> by (destruct xs; injection E as <- _; done).
  assert (lst :: xs ≡ₚ n :: ys) as P by (rewrite <- E; apply Permutation_cons_append).
  assert (n ∈ lst :: xs) as Hin by (rewrite P; apply list_elem_of_here).
  assert (NoDup (n :: ys)) as Hd' by (by rewrite <- P). apply NoDup_cons in Hd' as [Nn _].
  pose proof (Hfar lst (list_elem_of_here _ _)) as Fl. pose proof (Hfar n Hin) as Fn.
  assert (far lst p) as Fl' by (unfold far in *; lia). assert (far n p) as Fn' by (unfold far in *; lia).
  assert (n = lst \/ far n lst) as Fnl by (destruct (decide (n = lst)); [by left|right; apply Hf; [done|apply list_elem_of_here|done]]).
  assert (node_ok n) as On by (by apply Hn). assert (node_ok lst) as Ol by (apply Hn, list_elem_of_here).
  assert (far p n) as Fn2 by done. unfold push_mem. destruct Hl as (_ & _ & Hl). split.
  - change (links (push_mem m lst p n) (lst :: p :: xs ++ [lst])). rewrite E. unfold push_mem.
    assert (lst = n \/ far lst n) as Fnl' by (destruct Fnl as [-> |Fx]; [by left|right; unfold far in *; lia]).
    split; [by apply next_set|]. split; [rewrite prev_store_next, prev_store_prev by auto; by apply prev_set|].
    split; [rewrite next_store_next, next_store_prev, next_store_prev by auto; by apply next_set|].
    split; [rewrite prev_store_next by auto; by apply prev_set|].
    eapply dlinks_ext; [| |exact Hl].
    + rewrite <- E, removelast_last. intros a Ha. assert (a ∈ lst :: xs) as Ha' by (apply elem_of_cons; by right).
      assert (a <> lst) as Hal by (intros ->; apply NoDup_cons in Hd as [Hd _]; done).
      assert (far lst a) as F1 by (apply Hf; [apply list_elem_of_here|done|done]). assert (far p a) as F2 by auto.
      assert (n = a \/ far n a) as F3 by (destruct (decide (n = a)); [by left|right; apply Hf; done]).
      by rewrite next_store_next, !next_store_prev, next_store_next by auto.
    + intros b Hb. cbn in Hb. assert (b ∈ lst :: xs) as Hb' by (rewrite P; apply elem_of_cons; by right).
      assert (b <> n) as Hbn by congruence. assert (far p b) as F2 by auto. assert (far n b) as F3 by (apply Hf; done).
      assert (lst = b \/ far lst b) as F1 by (destruct (decide (lst = b)); [by left|right; apply Hf; [apply list_elem_of_here|done|done]]).
      by rewrite prev_store_next, !prev_store_prev, prev_store_next by auto.
  - rewrite (Permutation_swap p lst). apply NoDup_cons. split; [|done]. intros Hin2. pose proof (Hfar p Hin2). unfold far in *. lia.
  - intros a b. rewrite (Permutation_swap p lst), (elem_of_cons _ a p), (elem_of_cons _ b p). intros [-> |Ha] [-> |Hb] Hne; [done|by apply Hfar| |by apply Hf].
    pose proof (Hfar a Ha). unfold far in *. lia.
  - intros a. rewrite (Permutation_swap p lst), elem_of_cons. intros [-> |Ha]; auto.
Qed.

Lemma push_ok lst xs p s :
  dll (k_mem s) lst xs -> node_ok p -> (forall a, a ∈ lst :: xs -> far p a) ->
  exists s', lst_push lst p s = Ok tt s' /\ dll (k_mem s') lst (p :: xs) /\ node_step (p :: lst :: xs) s s'.
Proof.
  intros D Hp Hfar. exists (set_mem (push_mem (k_mem s) lst p (next (k_mem s) lst)) s).
  pose proof (Hfar lst (list_elem_of_here _ _)) as Fl.
  split; [|split; [by apply push_dll|split; [done|]]].
  - unfold lst_push, ld64, st64, bind, get, modify. cbn [k_mem set_mem]. unfold push_mem.
    rewrite !(load64_store64_ne _ _ _ (lst_next lst)) by (unfold far, lst_next, lst_prev in *; lia). done.
  - intros a Ha. cbn [k_mem set_mem]. unfold push_mem. rewrite (dll_next _ _ _ D).
    pose proof (Ha p (list_elem_of_here _ _)). pose proof (Ha lst ltac:(rewrite !elem_of_cons; tauto)).
    assert (hd lst xs ∈ lst :: xs) as Hh by (destruct xs; rewrite !elem_of_cons; cbn; tauto).
    pose proof (Ha _ ltac:(apply elem_of_cons; by right)). unfold lst_next, lst_prev. rewrite !rd8_store64_ne; [done|lia..].
Qed.

(** C32: the routines of list.c implement a sequence of nodes: lst_init makes it empty,
    lst_empty tests it, lst_push adds a node in front, lst_pop takes the front node out
    and returns it, or panics when there is none, and lst_remove takes out a node at any
    place. They touch the link words of the nodes of the list and of the new node only. *)
Theorem lst_refines lst s :
  (node_ok lst -> exists s', lst_init lst s = Ok tt s' /\ dll (k_mem s') lst [] /\ node_step [lst] s s') /\
  forall xs, dll (k_mem s) lst xs ->
  lst_empty lst s = Ok (b2z (bool_decide (xs = []))) s /\
  (forall p, node_ok p -> (forall a, a ∈ lst :: xs -> far p a) ->
     exists s', lst_push lst p s = Ok tt s' /\ dll (k_mem s') lst (p :: xs) /\ node_step (p :: lst :: xs) s s') /\
  match xs with
  | [] => lst_pop lst s = panic "lst_pop" s
  | x :: xs' => exists s', lst_pop lst s = Ok x s' /\ dll (k_mem s') lst xs' /\ node_step (lst :: xs') s s'
  end /\
  (forall l1 e l2, xs = l1 ++ e :: l2 ->
     exists s', lst_remove e s = Ok tt s' /\ dll (k_mem s') lst (l1 ++ l2) /\ node_step (lst :: l1 ++ l2) s s').
Proof.
  split; [apply init_ok|]. intros xs D. split; [by apply empty_ok|]. split; [by intros; apply push_ok|]. split.
  - destruct xs; [by apply pop_empty|by apply pop_ok].
  - intros l1 e l2 ->. by apply remove_ok.
Qed.

Lemma lst_refines_witness :
  exists s1 s2 s3, lst_init 4096 boot_kernel = Ok tt s1 /\ lst_push 4096 8192 s1 = Ok tt s2 /\ lst_pop 4096 s2 = Ok 8192 s3 /\ dll (k_mem s3) 4096 [].
Proof.
  destruct (lst_refines 4096 boot_kernel) as [H _]. destruct H as (s1 & E1 & D1 & _); [unfold node_ok; lia|].
  destruct (lst_refines 4096 s1) as [_ H]. destruct (H [] D1) as (_ & Hp & _).
  destruct (Hp 8192) as (s2 & E2 & D2 & _); [unfold node_ok; lia|intros a ->%list_elem_of_singleton; unfold far; lia|].
  destruct (lst_refines 4096 s2) as [_ H2]. destruct (H2 [8192] D2) as (_ & _ & (s3 & E3 & D3 & _) & _).
  exists s1, s2, s3. done.
Defined.
