(* ===== verification/PageAlloc.v ===== *)
(** * What a page allocator promises

    The interface between the page allocator (kernel/mm/kalloc.c) and the code
    that builds page tables and address spaces on it. The allocator owns a set
    [F] of free pages of a pool; a client owns the other pages of the pool, and
    the allocator never touches them. *)

From S2P Require Import Prelude Mem State Spinlock.

(** A page of the pool: page-aligned, above the allocator's own page at [base],
    below PHYSTOP. *)
Definition pool_page (base p : Z) : Prop :=
  p mod PGSIZE = 0 /\ base + PGSIZE <= p /\ p + PGSIZE <= PHYSTOP.

(** The addresses of a page. *)
Definition in_page (p a : Z) : Prop := p <= a < p + PGSIZE.

Lemma pool_pages_disjoint base p q a :
  pool_page base p -> pool_page base q -> p <> q -> in_page p a -> a < q \/ q + PGSIZE <= a.
Proof. unfold pool_page, in_page, PGSIZE. intros (?&?&?) (?&?&?) ? ?. zdm. Qed.

Lemma pool_not_in base q p a :
  pool_page base q -> pool_page base p -> q <> p -> in_page q a -> ~ in_page p a.
Proof. intros Hq Hp Hne Ha. pose proof (pool_pages_disjoint base q p a Hq Hp Hne Ha). unfold in_page. lia. Qed.

Lemma pool_not_base base q a : pool_page base q -> in_page q a -> ~ in_page base a.
Proof. unfold pool_page, in_page. lia. Qed.

(** Nothing changed but memory, the allocator's variables and, up to the
    scratch field of the interrupt nesting, the hart. *)
Definition mem_step (s s' : kernel) : Prop :=
  settle s' = set_mem (k_mem s') (set_kmem (k_kmem s') (settle s)).

Lemma settle_idem s : settle (settle s) = settle s.
Proof. unfold settle. cbn. by rewrite hart_settle_idem. Qed.

Lemma mem_step_refl s : mem_step s s.
Proof. unfold mem_step. by destruct s. Qed.

Lemma mem_step_trans s1 s2 s3 : mem_step s1 s2 -> mem_step s2 s3 -> mem_step s1 s3.
Proof. unfold mem_step. intros H1 H2. rewrite H2, H1. done. Qed.

Lemma mem_step_set_mem m s : mem_step s (set_mem m s).
Proof. by destruct s. Qed.

Lemma mem_step_settle m k s : mem_step s (set_mem m (set_kmem k (settle s))).
Proof. unfold mem_step, settle. cbn. by rewrite hart_settle_idem. Qed.

(** The bytes that belong to the allocator while [F] is free: its own page and
    the free pages. *)
Definition allocator_byte (base : Z) (F : gset Z) (a : Z) : Prop :=
  in_page base a \/ exists p, p ∈ F /\ in_page p a.

Class PageAllocator (alloc : KM Z) (free : Z -> KM unit) := {
  (** The allocator over the pool above [base] owns the free pages [F]. *)
  pa_inv : Z -> gset Z -> kernel -> Prop;
  pa_pool : forall base F s p, pa_inv base F s -> p ∈ F -> pool_page base p;
  pa_base : forall base F s, pa_inv base F s -> KERNBASE <= base;
  (** A free page is handed out; memory changes in that page and in the
      allocator's own page only. *)
  pa_alloc : forall base F s, pa_inv base F s -> F <> ∅ ->
    exists p s', alloc s = Ok p s' /\ p ∈ F /\ pa_inv base (F ∖ {[p]}) s' /\ mem_step s s' /\
      forall a, ~ in_page base a -> ~ in_page p a -> rd8 (k_mem s') a = rd8 (k_mem s) a;
  (** A page that is not free is taken back. *)
  pa_free : forall base F s p, pa_inv base F s -> pool_page base p -> p ∉ F ->
    exists s', free p s = Ok tt s' /\ pa_inv base ({[p]} ∪ F) s' /\ mem_step s s' /\
      forall a, ~ in_page base a -> ~ in_page p a -> rd8 (k_mem s') a = rd8 (k_mem s) a;
  (** The client may write every byte that is not the allocator's. *)
  pa_write : forall base F s m, pa_inv base F s ->
    (forall a, allocator_byte base F a -> rd8 m a = rd8 (k_mem s) a) ->
    pa_inv base F (set_mem m s);
  (** The allocator depends on memory, its variables, its lock and the interrupt
      nesting only. *)
  pa_hart : forall base F s, pa_inv base F s -> hart_ok (k_hart s);
  pa_frame : forall base F s s', pa_inv base F s -> k_mem s' = k_mem s -> k_kmem s' = k_kmem s ->
    k_locks s' !! L_kmem = k_locks s !! L_kmem -> hart_ok (k_hart s') -> pa_inv base F s'
}.
