(* ===== verification/Kalloc.v ===== *)
(** * kernel/mm/kalloc.c: the page allocator

    The free pages form a linked list threaded through their first words; a
    bitmap, one bit per page from [addr_base] on, marks the pages in use and
    catches double frees. The abstract state is the set of free pages. *)

From S2P Require Import Prelude Mem CString State Spinlock Printf Locks PageAlloc.

(** ** The routines *)

Section Kalloc.
Context {L : Layout}.

(** [(uint64)addr - (uint64)addr_base) / PGSIZE], converted to the [int]
    parameter of the bitmap routines. *)
Definition PAGE_INDEX (addr_base addr : Z) : Z := s32 (u64 (addr - addr_base) / PGSIZE).

(** The byte [kmem.bitmap[c]] of the bitmap bit [index] and the number of the
    bit in it, with C's division. A shift by a negative amount is undefined. *)
Definition list_bit (index : Z) : KM (Z * Z) :=
  let c := Z.quot index 8 in
  let b := Z.rem index 8 in
  let! km := get k_kmem in
  if b <? 0 then halt (Undefined "shift by a negative amount")
  else ret (u64 (km_bitmap km + c), b).

Definition list_bit_set (index : Z) : KM unit :=
  let! ' (a, b) := list_bit index in
  modify (fun s => set_mem (wr8 (k_mem s) a (Z.lor (rd8 (k_mem s) a) (Z.shiftl 1 b))) s).

Definition list_bit_clear (index : Z) : KM unit :=
  let! ' (a, b) := list_bit index in
  modify (fun s =>
    set_mem (wr8 (k_mem s) a (Z.land (rd8 (k_mem s) a) (Z.lnot (Z.shiftl 1 b)))) s).

Definition list_bit_isset (index : Z) : KM Z :=
  let! ' (a, b) := list_bit index in
  get (fun s => Z.land (Z.shiftr (rd8 (k_mem s) a) b) 1).

Definition set_freelist (v : Z) (s : kernel) : kernel :=
  let km := k_kmem s in
  set_kmem {| km_freelist := v; km_bitmap := km_bitmap km;
              km_addr_base := km_addr_base km |} s.

Definition kfree (pa : Z) : KM unit :=
  if negb (pa mod PGSIZE =? 0) || (pa <? end_) || (PHYSTOP <=? pa) then panic "kfree"
  else
    do! kmemset pa 1 PGSIZE;
    let! km := get k_kmem in
    let! used := list_bit_isset (PAGE_INDEX (km_addr_base km) pa) in
    if negb (truthy used) then panic "kfree: 重复释放内存"
    else
      do! list_bit_clear (PAGE_INDEX (km_addr_base km) pa);
      do! acquire L_kmem;
      do! modify (fun s => set_mem (store64 (k_mem s) pa (km_freelist (k_kmem s))) s);
      do! modify (set_freelist pa);
      release L_kmem.

Definition kalloc : KM Z :=
  do! acquire L_kmem;
  let! r := get (fun s => km_freelist (k_kmem s)) in
  do! (when! truthy r then modify (fun s => set_freelist (load64 (k_mem s) r) s));
  do! release L_kmem;
  let! km := get k_kmem in
  do! list_bit_set (PAGE_INDEX (km_addr_base km) r);
  do! (when! truthy r then kmemset r 5 PGSIZE);
  ret r.

(** [for(; p + PGSIZE <= (char* )pa_end; p += PGSIZE) kfree(p);] *)
Fixpoint freerange_loop (fuel : nat) (p pa_end : Z) : KM unit :=
  match fuel with
  | O => halt OutOfFuel
  | S f =>
      if p + PGSIZE <=? pa_end
      then do! kfree p; freerange_loop f (p + PGSIZE) pa_end
      else ret tt
  end.

(** The number of pages from [p] to [pa_end] and of pages of bitmap for them. *)
Definition page_count (p pa_end : Z) : Z := s32 (Z.quot (pa_end - p + PGSIZE - 1) PGSIZE).
Definition meta_pages (cnt : Z) : Z := Z.quot (cnt + 8 * PGSIZE - 1) (8 * PGSIZE).

Definition freerange (pa_start pa_end : Z) : KM unit :=
  let p := PGROUNDUP pa_start in
  do! modify (fun s => let km := k_kmem s in
    set_kmem {| km_freelist := km_freelist km; km_bitmap := km_bitmap km;
                km_addr_base := p |} s);
  let cnt := page_count p pa_end in
  do! printf ("内存中一共包含%d个页" ++ nl) [VNum cnt];
  do! printf ("from 0x%x to 0x%x" ++ nl) [VNum p; VNum pa_end];
  let meta_sz := meta_pages cnt in
  do! printf ("%d页的位图空间被分配用于内存管理" ++ nl) [VNum meta_sz];
  do! printf ("from 0x%x to 0x%x" ++ nl) [VNum p; VNum (p + meta_sz * PGSIZE)];
  do! kmemset p 0 (meta_sz * PGSIZE);
  do! modify (fun s => let km := k_kmem s in
    set_kmem {| km_freelist := km_freelist km; km_bitmap := km_addr_base km;
                km_addr_base := km_addr_base km |} s);
  do! modify (fun s => set_mem (memset (k_mem s) (km_bitmap (k_kmem s)) 0xff
                                  (meta_sz * PGSIZE)) s);
  freerange_loop (S (Z.to_nat ((pa_end - p) / PGSIZE))) (p + meta_sz * PGSIZE) pa_end.

Definition kinit : KM unit :=
  do! initlock L_kmem "kmem";
  freerange end_ PHYSTOP.

(** ** The invariant *)

(** The free list in memory. *)
Fixpoint chain (m : mem) (h : Z) (fl : list Z) : Prop :=
  match fl with
  | [] => h = 0
  | p :: fl' => h = p /\ chain m (load64 m p) fl'
  end.

(** The bitmap bit of page number [i]. *)
Definition page_bit (m : mem) (bitmap i : Z) : bool :=
  Z.testbit (rd8 m (bitmap + i / 8)) (i mod 8).

(** The allocator owns the free pages [F]: they are exactly the pages of the
    free list, and of the pages with a clear bit. *)
Record kmem_inv (F : gset Z) (s : kernel) : Prop := {
  ki_bitmap : km_bitmap (k_kmem s) = km_addr_base (k_kmem s);
  ki_base_aligned : km_addr_base (k_kmem s) mod PGSIZE = 0;
  ki_base_low : end_ <= km_addr_base (k_kmem s);
  ki_base_high : km_addr_base (k_kmem s) + PGSIZE <= PHYSTOP;
  ki_chain : exists fl, chain (k_mem s) (km_freelist (k_kmem s)) fl /\ NoDup fl /\
                        list_to_set fl = F;
  ki_pages : forall p, p ∈ F -> pool_page (km_addr_base (k_kmem s)) p;
  ki_bits : forall p, pool_page (km_addr_base (k_kmem s)) p ->
    page_bit (k_mem s) (km_bitmap (k_kmem s)) ((p - km_addr_base (k_kmem s)) / PGSIZE)
    = bool_decide (p ∉ F)
}.

(** ** Bits of the bitmap *)

(** Setting and clearing the bit of page number [i]. *)
Definition bit_on (m : mem) (bm i : Z) : mem :=
  wr8 m (bm + i / 8) (Z.lor (rd8 m (bm + i / 8)) (Z.shiftl 1 (i mod 8))).
Definition bit_off (m : mem) (bm i : Z) : mem :=
  wr8 m (bm + i / 8) (Z.land (rd8 m (bm + i / 8)) (Z.lnot (Z.shiftl 1 (i mod 8)))).

Lemma page_bit_set m bm i j :
  0 <= i -> 0 <= j ->
  page_bit (bit_on m bm i) bm j = (j =? i) || page_bit m bm j.
Proof.
  intros Hi Hj. unfold page_bit, bit_on, bit_off. rewrite rd8_wr8.
  destruct (Z.eqb_spec (bm + i / 8) (bm + j / 8)) as [E|E].
  - assert (i / 8 = j / 8) as Ed by lia. rewrite Ed.
    rewrite u8_testbit, Z.lor_spec, Z.shiftl_1_l, Z.pow2_bits_eqb by zdm.
    rewrite orb_comm. f_equal.
    destruct (Z.eqb_spec (i mod 8) (j mod 8)), (Z.eqb_spec j i); try done; exfalso; zdm.
  - destruct (Z.eqb_spec j i); [subst; done|done].
Qed.

Lemma page_bit_clear m bm i j :
  0 <= i -> 0 <= j ->
  page_bit (bit_off m bm i) bm j = negb (j =? i) && page_bit m bm j.
Proof.
  intros Hi Hj. unfold page_bit, bit_on, bit_off. rewrite rd8_wr8.
  destruct (Z.eqb_spec (bm + i / 8) (bm + j / 8)) as [E|E].
  - assert (i / 8 = j / 8) as Ed by lia. rewrite Ed.
    rewrite u8_testbit, Z.land_spec, Z.lnot_spec, Z.shiftl_1_l, Z.pow2_bits_eqb by zdm.
    rewrite andb_comm. do 2 f_equal.
    destruct (Z.eqb_spec (i mod 8) (j mod 8)), (Z.eqb_spec j i); try done; exfalso; zdm.
  - destruct (Z.eqb_spec j i); [subst; done|done].
Qed.

Lemma page_bit_ext m1 m2 bm i :
  rd8 m1 (bm + i / 8) = rd8 m2 (bm + i / 8) -> page_bit m1 bm i = page_bit m2 bm i.
Proof. unfold page_bit. by intros ->. Qed.

Lemma list_bit_ok index s :
  0 <= index < 2 ^ 31 -> 0 <= km_bitmap (k_kmem s) < 2 ^ 63 ->
  list_bit index s = Ok (km_bitmap (k_kmem s) + index / 8, index mod 8) s.
Proof.
  intros Hi Hb. unfold list_bit, bind, get.
  rewrite Z.rem_mod_nonneg, Z.quot_div_nonneg by lia.
  rewrite (proj2 (Z.ltb_ge _ _)) by zdm. unfold ret. by rewrite u64_small by zdm.
Qed.

(** ** Addresses and page numbers *)

Definition page_no (base p : Z) : Z := (p - base) / PGSIZE.

Lemma pool_page_range base p :
  KERNBASE <= base -> base mod PGSIZE = 0 -> pool_page base p ->
  1 <= page_no base p < 32768 /\ p = base + page_no base p * PGSIZE.
Proof.
  unfold pool_page, page_no, PHYSTOP, KERNBASE, PGSIZE. intros Hb Ha (H1 & H2 & H3). zdm.
Qed.

Lemma PAGE_INDEX_pool base p :
  KERNBASE <= base -> base mod PGSIZE = 0 -> pool_page base p ->
  PAGE_INDEX base p = page_no base p.
Proof.
  intros Hb Ha Hp. pose proof (pool_page_range base p Hb Ha Hp) as [H1 H2].
  unfold PAGE_INDEX. rewrite u64_small.
  - fold (page_no base p). apply s32_small. lia.
  - destruct Hp as (_ & ? & ?). unfold PHYSTOP, KERNBASE, PGSIZE in *. lia.
Qed.

Lemma page_no_inj base p q :
  KERNBASE <= base -> base mod PGSIZE = 0 -> pool_page base p -> pool_page base q ->
  page_no base p = page_no base q -> p = q.
Proof.
  intros Hb Ha Hp Hq E. pose proof (pool_page_range base p Hb Ha Hp).
  pose proof (pool_page_range base q Hb Ha Hq). unfold PGSIZE in *. lia.
Qed.

Lemma layout_base (base : Z) : end_ <= base -> KERNBASE <= base.
Proof.
  intros H. pose proof etext_end. pose proof trampoline_low. pose proof trampoline_etext.
  unfold PGSIZE in *. lia.
Qed.

(** ** The allocator's steps *)

(** The state in which the allocator may be called. *)
Definition kmem_ready (base : Z) (F : gset Z) (s : kernel) : Prop :=
  km_addr_base (k_kmem s) = base /\ kmem_inv F s /\ lock_free L_kmem s /\ hart_ok (k_hart s).

Lemma list_bit_pool base p s :
  km_bitmap (k_kmem s) = base -> KERNBASE <= base -> base mod PGSIZE = 0 -> pool_page base p ->
  list_bit (PAGE_INDEX base p) s = Ok (base + page_no base p / 8, page_no base p mod 8) s.
Proof.
  intros <- Hb Ha Hp. rewrite (PAGE_INDEX_pool _ _ Hb Ha Hp).
  pose proof (pool_page_range _ _ Hb Ha Hp) as [H1 _]. destruct Hp as (_ & Hlo & Hhi).
  apply list_bit_ok; [lia|]. unfold PHYSTOP, KERNBASE, PGSIZE in *. lia.
Qed.

Lemma kalloc_step s r base :
  lock_free L_kmem s -> hart_ok (k_hart s) ->
  km_addr_base (k_kmem s) = base -> km_bitmap (k_kmem s) = base ->
  KERNBASE <= base -> base mod PGSIZE = 0 -> pool_page base r ->
  km_freelist (k_kmem s) = r ->
  kalloc s =
    Ok r (set_mem (memset (bit_on (k_mem s) base (page_no base r)) r 5 PGSIZE)
            (set_freelist (load64 (k_mem s) r) (settle s))).
Proof.
  intros Hl Hh Hab Hbm Hb Ha Hp Hr. unfold kalloc.
  mstep (acquire_ok L_kmem s Hl Hh). unfold bind at 1, get at 1. cbn [k_kmem locked].
  change (km_freelist (k_kmem (locked L_kmem s))) with (km_freelist (k_kmem s)). rewrite Hr.
  assert (truthy r = true) as Ht.
  { destruct Hp as (_ & Hlo & _). unfold truthy, KERNBASE, PGSIZE in *. by zif. }
  rewrite Ht. unfold bind at 1, modify at 1.
  erewrite bind_ok by (apply (release_ok L_kmem s); done).
  unfold bind at 1, get at 1. cbn [k_kmem set_locks set_hart set_freelist set_kmem km_addr_base].
  change (km_addr_base (k_kmem (locked L_kmem s))) with (km_addr_base (k_kmem s)). rewrite Hab.
  unfold list_bit_set. rewrite bind_assoc.
  erewrite bind_ok by (by apply list_bit_pool). cbn beta iota.
  unfold bind, kmemset, modify, ret. rewrite ?Ht. by destruct s.
Qed.

Lemma land_1_bit x b : 0 <= b -> Z.land (Z.shiftr x b) 1 = b2z (Z.testbit x b).
Proof.
  intros Hb. change 1 with (Z.ones 1). rewrite Z.land_ones by lia. change (2 ^ 1) with 2.
  rewrite <- Z.bit0_mod, Z.shiftr_spec by lia. rewrite Z.add_0_l. by destruct (Z.testbit x b).
Qed.

Lemma kfree_guard base p :
  end_ <= base -> pool_page base p ->
  negb (p mod PGSIZE =? 0) || (p <? end_) || (PHYSTOP <=? p) = false.
Proof.
  intros Hb (H1 & H2 & H3). rewrite H1. cbn. unfold PHYSTOP, KERNBASE, PGSIZE in *. by zif.
Qed.

(** The state after the junk fill of kfree, when the bitmap bit is looked at. *)
Lemma kfree_isset s base p :
  km_addr_base (k_kmem s) = base -> km_bitmap (k_kmem s) = base -> end_ <= base ->
  base mod PGSIZE = 0 -> pool_page base p ->
  list_bit_isset (PAGE_INDEX base p) (set_mem (memset (k_mem s) p 1 PGSIZE) s) =
    Ok (b2z (page_bit (k_mem s) base (page_no base p))) (set_mem (memset (k_mem s) p 1 PGSIZE) s).
Proof.
  intros Hab Hbm Hb Ha Hp. pose proof (layout_base _ Hb) as Hk.
  unfold list_bit_isset. erewrite bind_ok by (apply (list_bit_pool base); done).
  cbn beta iota. unfold get. cbn [k_mem set_mem].
  pose proof (pool_page_range _ _ Hk Ha Hp) as [H1 _].
  rewrite land_1_bit by zdm. unfold page_bit. rewrite rd8_memset by done.
  assert (0 <= page_no base p / 8 < 4096) by zdm.
  destruct Hp as (_ & Hlo & _). unfold PGSIZE in *. by zif.
Qed.

Lemma kfree_clear s base p :
  km_bitmap (k_kmem s) = base -> end_ <= base -> base mod PGSIZE = 0 -> pool_page base p ->
  list_bit_clear (PAGE_INDEX base p) (set_mem (memset (k_mem s) p 1 PGSIZE) s) =
    Ok tt (set_mem (bit_off (memset (k_mem s) p 1 PGSIZE) base (page_no base p)) s).
Proof.
  intros Hbm Hb Ha Hp. pose proof (layout_base _ Hb) as Hk. unfold list_bit_clear.
  erewrite bind_ok by (by apply (list_bit_pool base)). done.
Qed.

(** The critical section of kfree. *)
Lemma kfree_push s m p :
  lock_free L_kmem s -> hart_ok (k_hart s) ->
  (do! acquire L_kmem;
   do! modify (fun s => set_mem (store64 (k_mem s) p (km_freelist (k_kmem s))) s);
   do! modify (set_freelist p);
   release L_kmem) (set_mem m s) =
  Ok tt (set_mem (store64 m p (km_freelist (k_kmem s))) (set_freelist p (settle s))).
Proof.
  intros Hl Hh. erewrite bind_ok by (apply acquire_ok; done).
  unfold bind at 1, modify at 1. unfold bind at 1, modify at 1.
  by erewrite (release_ok L_kmem (set_mem m s)) by done.
Qed.

Lemma kfree_step s base p :
  lock_free L_kmem s -> hart_ok (k_hart s) ->
  km_addr_base (k_kmem s) = base -> km_bitmap (k_kmem s) = base -> end_ <= base ->
  base mod PGSIZE = 0 -> pool_page base p ->
  page_bit (k_mem s) base (page_no base p) = true ->
  kfree p s =
    Ok tt (set_mem (store64 (bit_off (memset (k_mem s) p 1 PGSIZE) base (page_no base p)) p
                      (km_freelist (k_kmem s)))
             (set_freelist p (settle s))).
Proof.
  intros Hl Hh Hab Hbm Hb Ha Hp Hbit. unfold kfree. rewrite (kfree_guard base) by done.
  unfold kmemset. unfold bind at 1, modify at 1. unfold bind at 1, get at 1. cbn [k_kmem set_mem]. rewrite Hab.
  mstep (kfree_isset s base p Hab Hbm Hb Ha Hp). rewrite Hbit. cbn [b2z truthy negb Z.eqb].
  mstep (kfree_clear s base p Hbm Hb Ha Hp). by apply kfree_push.
Qed.

(** ** The invariant is kept *)

Lemma chain_ext m m' h fl :
  (forall p, p ∈ fl -> load64 m p = load64 m' p) -> chain m h fl -> chain m' h fl.
Proof.
  revert h. induction fl as [|p fl IH]; intros h H Hc; [done|]. destruct Hc as [-> Hc].
  split; [done|]. rewrite <- H by constructor. apply IH; [|done].
  intros q Hq. apply H. by constructor.
Qed.

Lemma bitmap_frame base p m m' a :
  KERNBASE <= base -> base mod PGSIZE = 0 -> pool_page base p ->
  m' = bit_on m base (page_no base p) \/ m' = bit_off m base (page_no base p) ->
  ~ in_page base a -> rd8 m' a = rd8 m a.
Proof.
  intros Hb Ha Hp Hm Hd. unfold in_page in Hd. pose proof (pool_page_range _ _ Hb Ha Hp) as [H1 _].
  assert (0 <= page_no base p / 8 < 4096) by zdm. unfold PGSIZE in *.
  destruct Hm as [-> | ->]; unfold bit_on, bit_off; rewrite rd8_wr8; by zif.
Qed.

Lemma not_in_page p a : ~ in_page p a -> ((p <=? a) && (a <? p + PGSIZE)) = false.
Proof. unfold in_page. intros H. zcases. Qed.

Lemma in_page_word q i : q mod PGSIZE = 0 -> q <= i < q + 8 -> in_page q i.
Proof. unfold in_page, PGSIZE. lia. Qed.

Lemma kalloc_inv base F s :
  kmem_ready base F s -> F <> ∅ ->
  exists p s', kalloc s = Ok p s' /\ p ∈ F /\ kmem_ready base (F ∖ {[p]}) s' /\ mem_step s s' /\
    (forall a, ~ in_page base a -> ~ in_page p a -> rd8 (k_mem s') a = rd8 (k_mem s) a) /\
    p = km_freelist (k_kmem s) /\ (forall a, in_page p a -> rd8 (k_mem s') a = 5).
Proof.
  intros (Hab & [Hbm Ha Hlo Hhi (fl & Hc & Hnd & HF) Hpg Hbits] & Hl & Hh) HF0.
  rewrite Hab in *. pose proof (layout_base _ Hlo) as Hk.
  destruct fl as [|r fl]; [exfalso; apply HF0; by rewrite <- HF|].
  destruct Hc as [Hr Hc]. apply NoDup_cons in Hnd as [Hr' Hnd].
  assert (r ∈ F) as HrF by set_solver. pose proof (Hpg _ HrF) as Hrp.
  eexists r, _. split; [by apply (kalloc_step _ _ base)|]. split; [done|].
  assert (forall a, ~ in_page base a -> ~ in_page r a ->
    rd8 (memset (bit_on (k_mem s) base (page_no base r)) r 5 PGSIZE) a = rd8 (k_mem s) a) as Hfr.
  { intros a H1 H2. rewrite rd8_memset, (not_in_page r a H2) by done.
    by apply (bitmap_frame base r); auto. }
  split; [|split; [by apply mem_step_settle|split; [done|split; [done|]]]].
  2: { intros a Hin. cbn. rewrite rd8_memset by done. unfold in_page in Hin. by zif. }
  split; [done|split; [|split; [done|by apply hart_settle_ok]]].
  split; cbn; rewrite ?Hab, ?Hbm; try done.
  - exists fl. split_and!; [|done|set_solver].
    eapply chain_ext; [|exact Hc]. intros q Hq. symmetry. apply load64_ext. intros i Hi.
    assert (pool_page base q) as Hqp by (apply Hpg; set_solver).
    assert (in_page q i) as Hin by (apply in_page_word; [by destruct Hqp|done]).
    apply Hfr; [by eapply pool_not_base|]. apply (pool_not_in base q); [done..|by intros ->|done].
  - intros p Hp. apply Hpg. set_solver.
  - intros p Hp. rewrite (page_bit_ext _ (bit_on (k_mem s) base (page_no base r))).
    + pose proof (pool_page_range _ _ Hk Ha Hp) as [H1 _].
      pose proof (pool_page_range _ _ Hk Ha Hrp) as [H2 _]. fold (page_no base p).
      rewrite page_bit_set by lia. pose proof (Hbits p Hp) as Hbp.
      rewrite Hbm in Hbp. fold (page_no base p) in Hbp. rewrite Hbp. destruct (Z.eqb_spec (page_no base p) (page_no base r)) as [E|E].
      * apply (page_no_inj base) in E as ->; [|done..]. cbn. symmetry. apply bool_decide_true. set_solver.
      * cbn. apply bool_decide_ext. assert (p <> r) by (by intros ->). set_solver.
    + rewrite rd8_memset by done. pose proof (pool_page_range _ _ Hk Ha Hp) as [H1 _].
      fold (page_no base p). assert (0 <= page_no base p / 8 < 4096) by zdm.
      destruct Hrp as (_ & Hr1 & _). unfold PGSIZE in *. by zif.
Qed.

Lemma chain_head_range base m h fl :
  KERNBASE <= base -> (forall p, p ∈ fl -> pool_page base p) -> chain m h fl -> 0 <= h < 2 ^ 64.
Proof.
  intros Hb Hp Hc. destruct fl as [|q fl]; [cbn in Hc; lia|]. destruct Hc as [-> _].
  destruct (Hp q) as (_ & ? & ?); [set_solver|]. unfold PHYSTOP, KERNBASE, PGSIZE in *. lia.
Qed.

Lemma kfree_inv base F s p :
  kmem_ready base F s -> pool_page base p -> p ∉ F ->
  exists s', kfree p s = Ok tt s' /\ kmem_ready base ({[p]} ∪ F) s' /\ mem_step s s' /\
    (forall a, ~ in_page base a -> ~ in_page p a -> rd8 (k_mem s') a = rd8 (k_mem s) a) /\
    km_freelist (k_kmem s') = p.
Proof.
  intros (Hab & [Hbm Ha Hlo Hhi (fl & Hc & Hnd & HF) Hpg Hbits] & Hl & Hh) Hp HpF.
  rewrite Hab in *. rewrite Hbm in *. pose proof (layout_base _ Hlo) as Hk.
  pose proof (pool_page_range _ _ Hk Ha Hp) as [Hi _].
  eexists. split.
  { apply (kfree_step _ base); try done. unfold page_no. rewrite (Hbits p Hp).
    by apply bool_decide_true. }
  set (m1 := memset (k_mem s) p 1 PGSIZE). set (m2 := bit_off m1 base (page_no base p)).
  set (m3 := store64 m2 p (km_freelist (k_kmem s))).
  assert (forall a, ~ in_page base a -> ~ in_page p a -> rd8 m3 a = rd8 (k_mem s) a) as Hfr.
  { intros a H1 H2. unfold m3. rewrite rd8_store64_ne by (unfold in_page, PGSIZE in H2; lia).
    unfold m2. rewrite (bitmap_frame base p m1) by auto. unfold m1.
    by rewrite rd8_memset, (not_in_page p a H2). }
  assert (forall a, base <= a < base + PGSIZE -> rd8 m3 a = rd8 (bit_off (k_mem s) base (page_no base p)) a) as Hbm3.
  { intros a Hba. destruct Hp as (_ & Hp1 & _). unfold m3. rewrite rd8_store64_ne by lia.
    unfold m2, bit_off, m1. rewrite !rd8_wr8, !rd8_memset by done.
    assert (0 <= page_no base p / 8 < 4096) by zdm. unfold PGSIZE in *. by zif. }
  assert (load64 m3 p = km_freelist (k_kmem s)) as Hld.
  { unfold m3. rewrite load64_store64. apply u64_small.
    eapply (chain_head_range base); [done| |done]. intros q Hq. apply Hpg. set_solver. }
  clearbody m3. clear m1 m2. split; [|split; [apply mem_step_settle|done]].
  split; [done|split; [|split; [done|by apply hart_settle_ok]]].
  assert (forall q, q ∈ fl -> pool_page base q /\ q <> p) as Hfl.
  { intros q Hq. assert (q ∈ F) by set_solver. split; [by apply Hpg|by intros ->]. }
  split; cbn; rewrite ?Hab, ?Hbm; try done.
  - exists (p :: fl). split_and!; [|constructor; set_solver|set_solver].
    split; [done|]. rewrite Hld. eapply chain_ext; [|exact Hc]. intros q Hq. destruct (Hfl q Hq) as [Hqp Hne].
    symmetry. apply load64_ext. intros i Hiq.
    assert (in_page q i) as Hin by (apply in_page_word; [by destruct Hqp|done]).
    apply Hfr; [by eapply pool_not_base|]. by apply (pool_not_in base q).
  - intros q Hq. destruct (decide (q = p)) as [->|]; [done|]. apply Hpg. set_solver.
  - intros q Hq. pose proof (pool_page_range _ _ Hk Ha Hq) as [Hiq _]. fold (page_no base q).
    rewrite (page_bit_ext _ (bit_off (k_mem s) base (page_no base p)))
      by (apply Hbm3; unfold PGSIZE; zdm).
    rewrite page_bit_clear by lia. pose proof (Hbits q Hq) as Hbq. fold (page_no base q) in Hbq.
    rewrite Hbq. destruct (Z.eqb_spec (page_no base q) (page_no base p)) as [E|E].
    + apply (page_no_inj base) in E as ->; [|done..]. cbn. symmetry. apply bool_decide_false. set_solver.
    + cbn. apply bool_decide_ext. assert (q <> p) by (by intros ->). set_solver.
Qed.

(** A client write outside the free pages and the allocator's page. *)
Lemma kmem_write base F s m :
  kmem_ready base F s ->
  (forall a, allocator_byte base F a -> rd8 m a = rd8 (k_mem s) a) ->
  kmem_ready base F (set_mem m s).
Proof.
  intros (Hab & [Hbm Ha Hlo Hhi (fl & Hc & Hnd & HF) Hpg Hbits] & Hl & Hh) Hm.
  rewrite Hab in *. rewrite Hbm in *. pose proof (layout_base _ Hlo) as Hk.
  split; [done|split; [|done]]. split; cbn; rewrite ?Hab, ?Hbm; try done.
  - exists fl. split_and!; [|done..]. eapply chain_ext; [|exact Hc]. intros q Hq.
    symmetry. apply load64_ext. intros i Hi. apply Hm. right. exists q.
    assert (q ∈ F) as HqF by set_solver. split; [done|].
    apply in_page_word; [by destruct (Hpg q HqF)|done].
  - intros q Hq. rewrite <- (Hbits q Hq). apply page_bit_ext. apply Hm. left.
    pose proof (pool_page_range _ _ Hk Ha Hq) as [Hiq _]. unfold page_no in Hiq.
    unfold in_page, PGSIZE in *. zdm.
Qed.

#[export] Instance kalloc_allocator : PageAllocator kalloc kfree.
Proof.
  refine {| pa_inv := kmem_ready |}.
  - intros base F s p (Hab & Hi & _) Hp. rewrite <- Hab. by apply (ki_pages F s Hi).
  - intros base F s (Hab & Hi & _). rewrite <- Hab. apply layout_base. apply (ki_base_low F s Hi).
  - intros base F s Hr HF. destruct (kalloc_inv base F s Hr HF) as (p & s' & ?). exists p, s'. tauto.
  - intros base F s p Hr Hp HF. destruct (kfree_inv base F s p Hr Hp HF) as (s' & ?). exists s'. tauto.
  - apply kmem_write.
  - by intros base F s (_ & _ & _ & ?).
  - intros base F s s' (Hab & [H1 H2 H3 H4 H5 H6 H7] & [nm Hl] & _) Em Ek El Hh.
    split; [by rewrite Ek|split; [|split; [|done]]].
    + split; rewrite ?Ek, ?Em; done.
    + exists nm. by rewrite El.
Defined.

(** ** Initialisation *)

Lemma land_lnot_page x : Z.land x (Z.lnot (PGSIZE - 1)) = x / PGSIZE * PGSIZE.
Proof.
  change (PGSIZE - 1) with (Z.ones 12). rewrite <- Z.ldiff_land, Z.ldiff_ones_r by lia.
  rewrite Z.shiftl_mul_pow2, Z.shiftr_div_pow2 by lia. done.
Qed.

Lemma PGROUNDUP_spec x :
  0 <= x < 2 ^ 63 -> PGROUNDUP x mod PGSIZE = 0 /\ x <= PGROUNDUP x < x + PGSIZE.
Proof.
  intros Hx. unfold PGROUNDUP. rewrite u64_small by (unfold PGSIZE; lia).
  rewrite land_lnot_page. unfold PGSIZE. zdm.
Qed.

Lemma base_spec :
  PGROUNDUP end_ mod PGSIZE = 0 /\ end_ <= PGROUNDUP end_ /\ KERNBASE <= PGROUNDUP end_ /\
  PGROUNDUP end_ + PGSIZE <= PHYSTOP.
Proof.
  pose proof (layout_base end_ (Z.le_refl _)) as H. pose proof end_phystop as H2.
  destruct (PGROUNDUP_spec end_) as [H3 H4]; unfold PHYSTOP, KERNBASE, PGSIZE in *; lia.
Qed.

Lemma cnt_range : 1 <= page_count (PGROUNDUP end_) PHYSTOP <= 32768.
Proof.
  destruct base_spec as (H1 & H2 & H3 & H4). unfold page_count.
  unfold PHYSTOP, KERNBASE, PGSIZE in *. rewrite Z.quot_div_nonneg by lia.
  rewrite s32_small by zdm. zdm.
Qed.

Lemma meta_one : meta_pages (page_count (PGROUNDUP end_) PHYSTOP) = 1.
Proof.
  pose proof cnt_range. unfold meta_pages, PGSIZE. rewrite Z.quot_div_nonneg by lia. zdm.
Qed.

Lemma freerange_loop_ok base fuel p F s :
  kmem_ready base F s -> (forall q, q ∈ F <-> pool_page base q /\ q < p) ->
  p mod PGSIZE = 0 -> base + PGSIZE <= p <= PHYSTOP -> PHYSTOP - p < Z.of_nat fuel * PGSIZE ->
  exists F' s', freerange_loop fuel p PHYSTOP s = Ok tt s' /\ kmem_ready base F' s' /\
    mem_step s s' /\ (forall q, q ∈ F' <-> pool_page base q).
Proof.
  revert p F s. induction fuel as [|f IH]; intros p F s Hr HF Ha Hp Hf; [unfold PGSIZE in *; lia|].
  cbn [freerange_loop]. destruct (Z.leb_spec (p + PGSIZE) PHYSTOP) as [Hle|Hgt].
  - assert (pool_page base p) as Hpp by (repeat split; [done|lia|done]).
    assert (p ∉ F) as HpF by (rewrite HF; lia).
    destruct (kfree_inv base F s p Hr Hpp HpF) as (s1 & E1 & Hr1 & Hs1 & _). mstep E1.
    destruct (IH (p + PGSIZE) ({[p]} ∪ F) s1) as (F' & s2 & E2 & Hr2 & Hs2 & HF2); try done.
    + intros q. rewrite elem_of_union, elem_of_singleton, HF. split.
      * intros [->|[? ?]]; (split; [done|]); unfold PGSIZE; lia.
      * intros [H1 H2]. destruct (decide (q = p)); [by left|right]. split; [done|].
        destruct H1 as [H1 _]. unfold PGSIZE in *. zdm.
    + unfold PGSIZE in *. zdm.
    + unfold PGSIZE in *. lia.
    + unfold PGSIZE in *. lia.
    + exists F', s2. split; [done|split; [done|split; [by eapply mem_step_trans|done]]].
  - exists F, s. split; [done|split; [done|split; [apply mem_step_refl|]]].
    intros q. rewrite HF. unfold pool_page. split; [by intros []|]. intros Hq. split; [done|]. lia.
Qed.

Lemma kmem_fresh base s :
  km_addr_base (k_kmem s) = base -> km_bitmap (k_kmem s) = base -> km_freelist (k_kmem s) = 0 ->
  base mod PGSIZE = 0 -> end_ <= base -> base + PGSIZE <= PHYSTOP ->
  (forall a, base <= a < base + PGSIZE -> rd8 (k_mem s) a = 255) ->
  lock_free L_kmem s -> hart_ok (k_hart s) -> kmem_ready base ∅ s.
Proof.
  intros Hab Hbm Hfl Ha Hlo Hhi Hm Hl Hh. pose proof (layout_base _ Hlo) as Hk.
  split; [done|split; [|done]]. split; rewrite ?Hab, ?Hbm; try done.
  - exists []. rewrite Hfl. by split_and!; [|constructor|].
  - intros p Hp. pose proof (pool_page_range _ _ Hk Ha Hp) as [Hi _]. fold (page_no base p).
    unfold page_bit. rewrite Hm by (unfold PGSIZE; zdm). rewrite bool_decide_true by set_solver.
    change 255 with (Z.ones 8). apply Z.ones_spec_low. zdm.
Qed.

(** The variables kinit has set when the page list is about to be built. *)
Lemma kinit_prefix s :
  can_print s ->
  exists out, kinit s =
    freerange_loop (S (Z.to_nat ((PHYSTOP - PGROUNDUP end_) / PGSIZE)))
      (PGROUNDUP end_ + PGSIZE) PHYSTOP
      (set_mem (memset (memset (k_mem s) (PGROUNDUP end_) 0 PGSIZE) (PGROUNDUP end_) 0xff PGSIZE)
        (set_kmem {| km_freelist := km_freelist (k_kmem s); km_bitmap := PGROUNDUP end_;
                     km_addr_base := PGROUNDUP end_ |}
          (emit out (settle (set_lock L_kmem (unlocked "kmem") s))))).
Proof.
  intros Hs. unfold kinit, initlock. unfold bind at 1, modify at 1.
  unfold freerange. unfold bind at 1, modify at 1. rewrite meta_one.
  change (1 * PGSIZE) with PGSIZE.
  set (s1 := set_kmem _ (set_lock L_kmem _ s)).
  assert (can_print s1) as Hs1.
  { destruct Hs as (H1 & H2 & [nm H3] & H4). split; [done|split; [done|split; [|done]]].
    exists nm. unfold s1, set_lock. cbn. by rewrite lookup_insert_ne. }
  print_step Hs1 o1 H1. print_step H1 o2 H2. print_step H2 o3 H3. print_step H3 o4 H4.
  exists (o1 ++ o2 ++ o3 ++ o4). unfold bind, kmemset, modify. f_equal.
  rewrite !settle_emit, !settle_idem, !emit_emit. done.
Qed.

Lemma kinit_step s :
  can_print s -> km_freelist (k_kmem s) = 0 ->
  exists F s' out, kinit s = Ok tt s' /\ kmem_ready (PGROUNDUP end_) F s' /\
    (forall p, p ∈ F <-> pool_page (PGROUNDUP end_) p) /\
    mem_step (emit out (settle (set_lock L_kmem (unlocked "kmem") s))) s'.
Proof.
  intros Hs Hf. destruct (kinit_prefix s Hs) as [out ->].
  destruct base_spec as (H1 & H2 & H3 & H4). set (base := PGROUNDUP end_) in *.
  set (s1 := set_mem _ _). set (fuel := S _).
  assert (kmem_ready base ∅ s1) as Hr0; [apply (kmem_fresh base); try done|].
  - intros a Ha. cbn. rewrite rd8_memset by done. by zif.
  - exists "kmem". unfold settle, set_lock. cbn. by rewrite lookup_insert_eq.
  - cbn. apply hart_settle_ok. by destruct Hs as (_ & _ & _ & ? & _).
  - destruct (freerange_loop_ok base fuel (base + PGSIZE) ∅ s1 Hr0) as (F' & s' & E & Hr & Hms & HF).
    + intros q. split; [intros Hq; by apply not_elem_of_empty in Hq|]. unfold pool_page. lia.
    + unfold PGSIZE in *. zdm.
    + lia.
    + unfold fuel, PGSIZE in *. rewrite Nat2Z.inj_succ, Z2Nat.id by zdm. zdm.
    + exists F', s', out. do 3 (split; [done|]). exact Hms.
Qed.

Lemma kinit_inv s :
  can_print s -> km_freelist (k_kmem s) = 0 ->
  exists F s', kinit s = Ok tt s' /\ kmem_ready (PGROUNDUP end_) F s' /\
    (forall p, p ∈ F <-> pool_page (PGROUNDUP end_) p) /\ k_panicked s' = 0.
Proof.
  intros Hs Hf. destruct (kinit_step s Hs Hf) as (F & s' & out & E & Hr & HF & Hms). exists F, s'. do 3 (split; [done|]).
  apply (f_equal k_panicked) in Hms. cbn in Hms. rewrite Hms. by destruct Hs.
Qed.

(** ** An empty free list

    kalloc then looks up the bitmap bit of address 0, a negative page number. *)

Lemma PAGE_INDEX_null base :
  KERNBASE <= base -> base + PGSIZE <= PHYSTOP -> PAGE_INDEX base 0 = - ((base + PGSIZE - 1) / PGSIZE).
Proof. unfold PAGE_INDEX, PHYSTOP, KERNBASE, PGSIZE. intros. ints. Qed.

Lemma neg_quot_rem n : 0 <= n -> Z.quot (- n) 8 = - (n / 8) /\ Z.rem (- n) 8 = - (n mod 8).
Proof.
  intros. rewrite Z.quot_opp_l, Z.rem_opp_l by lia.
  by rewrite Z.quot_div_nonneg, Z.rem_mod_nonneg by lia.
Qed.

Lemma kalloc_empty base s :
  kmem_ready base ∅ s ->
  kalloc s =
    let n := base / PGSIZE in
    let a := base - n / 8 in
    if n mod 8 =? 0 then Ok 0 (set_mem (wr8 (k_mem s) a (Z.lor (rd8 (k_mem s) a) 1)) (settle s))
    else Stop (Undefined "shift by a negative amount") (settle s).
Proof.
  intros (Hab & [Hbm Ha Hlo Hhi (fl & Hc & Hnd & HF) _ _] & Hl & Hh). cbn zeta.
  rewrite Hab in *. pose proof (layout_base _ Hlo) as Hk.
  destruct fl as [|q fl]; [cbn in Hc|exfalso; set_solver].
  unfold kalloc. mstep (acquire_ok L_kmem s Hl Hh). unfold bind at 1, get at 1.
  change (km_freelist (k_kmem (locked L_kmem s))) with (km_freelist (k_kmem s)). rewrite Hc.
  cbn [truthy Z.eqb negb]. unfold bind at 1, ret at 1.
  erewrite bind_ok by (apply (release_ok L_kmem s); done).
  unfold bind at 1, get at 1.
  change (km_addr_base (k_kmem _)) with (km_addr_base (k_kmem s)). rewrite Hab.
  rewrite PAGE_INDEX_null by done.
  replace ((base + PGSIZE - 1) / PGSIZE) with (base / PGSIZE) by (unfold PGSIZE in *; zdm).
  assert (0 <= base / PGSIZE < base) as Hn by (unfold PHYSTOP, KERNBASE, PGSIZE in *; zdm).
  unfold list_bit_set, list_bit. destruct (neg_quot_rem (base / PGSIZE) (proj1 Hn)) as [-> ->].
  set (n := base / PGSIZE) in *. unfold bind, get.
  destruct (Z.eqb_spec (n mod 8) 0) as [E|E].
  - rewrite E. cbn -[u64]. unfold ret, modify. cbn -[u64].
    change (km_bitmap (k_kmem (locked L_kmem s))) with (km_bitmap (k_kmem s)).
    rewrite Hbm, u64_small; [by destruct s|].
    unfold PHYSTOP, KERNBASE, PGSIZE in *. zdm.
  - rewrite (proj2 (Z.ltb_lt _ _)) by zdm. unfold halt. by destruct s.
Qed.

(** ** Claims *)

(** Kinit (freerange and all its kfree calls included) returns, and then
    every page between the bitmap page and PHYSTOP is free, each exactly once on
    the free list and with a clear bit in the bitmap. *)
Theorem kinit_correct s :
  can_print s -> km_freelist (k_kmem s) = 0 ->
  exists F s', kinit s = Ok tt s' /\ kmem_ready (PGROUNDUP end_) F s' /\
    (forall p, p ∈ F <-> pool_page (PGROUNDUP end_) p).
Proof.
  intros Hs Hf. destruct (kinit_inv s Hs Hf) as (F & s' & E & Hr & HF & _). by exists F, s'.
Qed.

(** C33: while a page is free, kalloc returns a free page filled with the junk
    byte 5, takes it out of the set of free pages, keeps the allocator's
    invariant (free list and bitmap agree, no page twice), and changes no byte
    of another page, no lock and no other variable. *)
Theorem kalloc_correct base F s :
  kmem_ready base F s -> F <> ∅ ->
  exists p s', kalloc s = Ok p s' /\ p ∈ F /\ pool_page base p /\
    kmem_ready base (F ∖ {[p]}) s' /\ mem_step s s' /\
    (forall a, in_page p a -> rd8 (k_mem s') a = 5) /\
    (forall a, ~ in_page base a -> ~ in_page p a -> rd8 (k_mem s') a = rd8 (k_mem s) a).
Proof.
  intros Hr HF. destruct (kalloc_inv base F s Hr HF) as (p & s' & E & Hp & Hr' & Hs & Hfr & _ & H5).
  exists p, s'. destruct Hr as (Hab & Hi & _). pose proof (ki_pages F s Hi p Hp) as Hpp.
  rewrite Hab in Hpp. do 3 (split; [done|]). split; [exact Hr'|]. by split_and!.
Qed.

(** Freeing an allocated page makes it free again, keeps the invariant and
    every other page, and the next kalloc returns that very page. *)
Theorem kfree_correct base F s p :
  kmem_ready base F s -> pool_page base p -> p ∉ F ->
  exists s', kfree p s = Ok tt s' /\ kmem_ready base ({[p]} ∪ F) s' /\ mem_step s s' /\
    (forall a, ~ in_page base a -> ~ in_page p a -> rd8 (k_mem s') a = rd8 (k_mem s) a) /\
    exists s'', kalloc s' = Ok p s'' /\ kmem_ready base F s''.
Proof.
  intros Hr Hp HF.
  destruct (kfree_inv base F s p Hr Hp HF) as (s' & E & Hr' & Hs & Hfr & Hfl).
  destruct (kalloc_inv base ({[p]} ∪ F) s' Hr') as (q & s'' & E2 & _ & Hr2 & _ & _ & Hq & _); [set_solver|].
  rewrite Hfl in Hq. subst q. replace (({[p]} ∪ F) ∖ {[p]}) with F in Hr2 by set_solver.
  exists s'. do 4 (split; [done|]). exists s''. by split.
Qed.

(** Kfree panics on an address that is not a page of the managed memory
    (misaligned, below the end of the kernel or at or above PHYSTOP) before
    changing anything, and on a page that is already free before it touches the
    free list. *)
Theorem kfree_rejects base F s p :
  kmem_ready base F s -> k_panicked s = 0 ->
  (p mod PGSIZE <> 0 \/ p < end_ \/ PHYSTOP <= p -> kfree p s = panic "kfree" s) /\
  (p ∈ F -> exists s', kfree p s = Stop (Panic "kfree: 重复释放内存") s' /\ k_kmem s' = k_kmem s).
Proof.
  intros (Hab & Hi & _) Hpk. split.
  - intros Hbad. unfold kfree. rewrite (proj2 (orb_true_iff _ _)); [done|].
    rewrite orb_true_iff. destruct Hbad as [H|[H|H]]; [do 2 left|left; right|right]; by zif.
  - intros Hp. destruct Hi as [Hbm Ha Hlo Hhi _ Hpg Hbits]. rewrite Hbm, Hab in *.
    pose proof (Hpg p Hp) as Hpp. unfold kfree. rewrite (kfree_guard base) by done.
    unfold kmemset. unfold bind at 1, modify at 1. unfold bind at 1, get at 1. cbn [k_kmem set_mem]. rewrite Hab.
    mstep (kfree_isset s base p Hab Hbm Hlo Ha Hpp). pose proof (Hbits p Hpp) as Hb.
    fold (page_no base p) in Hb. rewrite Hb, bool_decide_false by tauto.
    cbn [b2z truthy negb Z.eqb]. unfold panic. cbn [k_panicked set_mem]. rewrite Hpk. by eexists.
Qed.

(** On an empty free list kalloc does not just return 0. It sets the bitmap
    bit of page number [PAGE_INDEX(0)], which is negative: when the bitmap's own
    page number is a multiple of 8 this overwrites a byte far below the managed
    memory (outside every page of the pool), otherwise it shifts by a negative
    amount, which C leaves undefined. *)
Theorem kalloc_exhausted base s :
  kmem_ready base ∅ s ->
  let n := base / PGSIZE in
  let a := base - n / 8 in
  a < base /\
  kalloc s =
    if n mod 8 =? 0 then Ok 0 (set_mem (wr8 (k_mem s) a (Z.lor (rd8 (k_mem s) a) 1)) (settle s))
    else Stop (Undefined "shift by a negative amount") (settle s).
Proof.
  intros Hr n a. split; [|by apply kalloc_empty]. destruct Hr as (Hab & [_ _ Hlo _ _ _ _] & _).
  rewrite Hab in Hlo. pose proof (layout_base _ Hlo). unfold a, n, KERNBASE, PGSIZE in *. zdm.
Qed.

End Kalloc.

(** ** Witnesses: a machine with 64 pages to allocate *)

Definition demo_layout : Layout.
Proof.
  refine {| end_ := PHYSTOP - 65 * PGSIZE; etext := KERNBASE + PGSIZE; trampoline := KERNBASE |};
    by vm_compute.
Defined.

Definition demo_base : Z := PHYSTOP - 65 * PGSIZE.
Definition demo_page : Z := PHYSTOP - PGSIZE.

Lemma kinit_correct_witness :
  exists F s', @kinit demo_layout boot_kernel = Ok tt s' /\ @kmem_ready demo_layout demo_base F s' /\
    (forall p, p ∈ F <-> pool_page demo_base p).
Proof.
  apply (@kinit_correct demo_layout boot_kernel); [apply boot_can_print|reflexivity].
Defined.

(** The state after kinit. *)
Lemma demo_ready :
  exists F s, @kmem_ready demo_layout demo_base F s /\ k_panicked s = 0 /\ demo_page ∈ F /\
    (forall p, p ∈ F <-> pool_page demo_base p).
Proof.
  destruct (@kinit_inv demo_layout boot_kernel boot_can_print eq_refl) as (F & s & _ & Hr & HF & Hp).
  exists F, s. split; [exact Hr|split; [exact Hp|split; [|exact HF]]]. apply HF. by vm_compute.
Qed.

(** An allocator whose free list is empty. *)
Definition demo_empty : kernel :=
  set_mem (memset ∅ demo_base 0xff PGSIZE)
    (set_kmem {| km_freelist := 0; km_bitmap := demo_base; km_addr_base := demo_base |} boot_kernel).

Lemma demo_empty_ready : @kmem_ready demo_layout demo_base ∅ demo_empty.
Proof.
  apply kmem_fresh; [reflexivity..|by vm_compute|by vm_compute|by vm_compute| | |by vm_compute].
  - intros a Ha. unfold demo_empty. cbn. rewrite rd8_memset by done. by zif.
  - by exists "kmem".
Qed.

Lemma kalloc_correct_witness :
  exists F s p s', @kmem_ready demo_layout demo_base F s /\ kalloc s = Ok p s' /\ p ∈ F.
Proof.
  destruct demo_ready as (F & s & Hr & _ & Hp & _).
  destruct (kalloc_correct demo_base F s Hr) as (p & s' & E & HpF & _); [set_solver|].
  by exists F, s, p, s'.
Defined.

Lemma kfree_correct_witness :
  exists s', @kfree demo_layout demo_page demo_empty = Ok tt s'.
Proof.
  destruct (kfree_correct demo_base ∅ demo_empty demo_page demo_empty_ready) as (s' & E & _).
  - by vm_compute.
  - apply not_elem_of_empty.
  - by exists s'.
Defined.

Lemma kfree_rejects_witness :
  exists F s s', @kmem_ready demo_layout demo_base F s /\
    @kfree demo_layout demo_page s = Stop (Panic "kfree: 重复释放内存") s'.
Proof.
  destruct demo_ready as (F & s & Hr & Hk & Hp & _).
  destruct (proj2 (kfree_rejects demo_base F s demo_page Hr Hk) Hp) as (s' & E & _).
  by exists F, s, s'.
Defined.

Lemma kalloc_exhausted_witness :
  exists s', kalloc demo_empty = Stop (Undefined "shift by a negative amount") s'.
Proof.
  destruct (@kalloc_exhausted demo_layout demo_base demo_empty demo_empty_ready) as [_ ->].
  by eexists.
Defined.

(** The free pages after kinit are plenty. *)
Definition demo_pages : list Z := (fun i => demo_page - PGSIZE * Z.of_nat i) <$> seq 0 64.

Lemma demo_plenty :
  exists F s, @kmem_ready demo_layout demo_base F s /\ k_panicked s = 0 /\ (64 <= size F)%nat.
Proof.
  destruct demo_ready as (F & s & Hr & Hp & _ & HF). exists F, s. split; [exact Hr|split; [exact Hp|]].
  replace 64%nat with (size (list_to_set demo_pages : gset Z)) by (by vm_compute).
  apply subseteq_size. intros p. rewrite elem_of_list_to_set. intros (i & -> & Hi)%list_elem_of_fmap.
  apply HF. apply elem_of_seq in Hi.
  unfold pool_page, demo_page, demo_base, PHYSTOP, KERNBASE, PGSIZE. zdm.
Qed.
