(* ===== verification/Buddy.v ===== *)
(** * kernel/mm/buddy.c: the buddy allocator

    The heap is a run of pages, rounded up to a power of two of them; a block of level
    [k] is 2^k pages. bd_sizes[k] holds the list of the free blocks of level k, whose
    nodes are in the blocks themselves, and two bitmaps: [alloc] for the blocks handed
    out and [split] for those cut in two. The code has no routine that frees a block. *)

From S2P Require Import Prelude Mem CString State Spinlock Printf Locks Math Dll.

(** ** Sizes, addresses and numbers of blocks *)

Definition LEAF_SIZE : Z := PGSIZE.
(** [(1L << k) * LEAF_SIZE], a long. *)
Definition BLK_SIZE (k : Z) : Z := s64 (s64 (Z.shiftl 1 k) * LEAF_SIZE).
Definition ROUNDUP (n sz : Z) : Z := (Z.quot (n - 1) sz + 1) * sz.

(** struct sz_info: the list at offset 0, [alloc] at 16 and [split] at 24. *)
Definition sizeof_sz_info : Z := 32.
Definition sz_free (sizes k : Z) : Z := sizes + sizeof_sz_info * k.
Definition sz_alloc (sizes k : Z) : Z := sizes + sizeof_sz_info * k + 16.
Definition sz_split (sizes k : Z) : Z := sizes + sizeof_sz_info * k + 24.

Definition bd (f : buddy_t -> Z) : KM Z := get (fun s => f (k_buddy s)).

Definition MAXSIZE : KM Z := let! n := bd bd_nsizes in ret (s32 (n - 1)).
Definition HEAP_SIZE : KM Z := let! k := MAXSIZE in ret (BLK_SIZE k).
Definition NBLK (k : Z) : KM Z := let! h := HEAP_SIZE in ret (Z.quot h (BLK_SIZE k)).

Definition addr (k bi : Z) : KM Z :=
  let n := s32 (bi * BLK_SIZE k) in
  let! base := bd bd_base in
  ret (u64 (base + n)).

Definition blk_index (k a : Z) : KM Z :=
  let! base := bd bd_base in
  ret (s32 (u64 (a - base) / u64 (BLK_SIZE k))).

Definition blk_index_next (k a : Z) : KM Z :=
  let! n := blk_index k a in
  let! base := bd bd_base in
  ret (if negb (u64 (a - base) mod u64 (BLK_SIZE k) =? 0) then s32 (n + 1) else n).

(** ** Bitmaps *)

(** The byte of the bit and its mask; a shift by a negative amount is undefined. *)
Definition bit_at (bitmap index : Z) : KM (Z * Z) :=
  let b := Z.rem index 8 in
  if b <? 0 then halt (Undefined "shift by a negative amount")
  else ret (u64 (bitmap + Z.quot index 8), Z.shiftl 1 b).

Definition bit_isset (bitmap index : Z) : KM Z :=
  let! ' (a, m) := bit_at bitmap index in
  let! b := ld8 a in
  ret (b2z (Z.land b m =? m)).

Definition bit_set (bitmap index : Z) : KM unit :=
  let! ' (a, m) := bit_at bitmap index in
  let! b := ld8 a in
  st8 a (Z.lor b m).

Definition bit_clear (bitmap index : Z) : KM unit :=
  let! ' (a, m) := bit_at bitmap index in
  let! b := ld8 a in
  st8 a (Z.land b (Z.lnot m)).

(** The bitmaps of level [k]. *)
Definition alloc_map (k : Z) : KM Z := let! sizes := bd bd_sizes in ld64 (sz_alloc sizes k).
Definition split_map (k : Z) : KM Z := let! sizes := bd bd_sizes in ld64 (sz_split sizes k).

(** ** Initialisation *)

Definition bd_initfree_pair (k bi : Z) : KM Z :=
  let buddy := if Z.rem bi 2 =? 0 then s32 (bi + 1) else s32 (bi - 1) in
  let! al := alloc_map k in
  let! x := bit_isset al bi in
  let! y := bit_isset al buddy in
  if negb (x =? y) then
    let! sizes := bd bd_sizes in
    let! x := bit_isset al bi in
    let! p := addr k (if truthy x then buddy else bi) in
    do! lst_push (sz_free sizes k) p;
    ret (s32 (BLK_SIZE k))
  else ret 0.

(** The rounds of the loop over the levels in [ks]. *)
Fixpoint initfree_levels (ks : list Z) (bd_left bd_right free : Z) : KM Z :=
  match ks with
  | [] => ret free
  | k :: ks' =>
      let! left := blk_index_next k bd_left in
      let! right := blk_index k bd_right in
      let! f := bd_initfree_pair k left in
      let free := s32 (free + f) in
      if right <=? left then initfree_levels ks' bd_left bd_right free
      else
        let! f := bd_initfree_pair k right in
        initfree_levels ks' bd_left bd_right (s32 (free + f))
  end.

Definition bd_initfree (bd_left bd_right : Z) : KM Z :=
  let! max := MAXSIZE in
  initfree_levels (seqZ 0 max) bd_left bd_right 0.

Definition bd_mark (start stop : Z) : KM unit :=
  if negb (start mod LEAF_SIZE =? 0) || negb (stop mod LEAF_SIZE =? 0) then panic "bd_mark"
  else
    let! nsizes := bd bd_nsizes in
    foreach (seqZ 0 nsizes) (fun k =>
      let! bi := blk_index k start in
      let! bj := blk_index_next k stop in
      foreach (seqZ bi (bj - bi)) (fun bi =>
        do! (when! 0 <? k then let! sp := split_map k in bit_set sp bi);
        let! al := alloc_map k in
        bit_set al bi)).

Definition bd_mark_data_structures (p : Z) : KM Z :=
  let! base := bd bd_base in
  let meta := s32 (p - base) in
  let! heap := HEAP_SIZE in
  do! printf ("伙伴系统的从%p开始的%d字节为,总大小为%d字节的内存的元数据" ++ nl) [VNum base; VNum meta; VNum heap];
  do! bd_mark base p;
  ret meta.

Definition bd_mark_unavailable (end' left : Z) : KM Z :=
  let! base := bd bd_base in
  let! heap := HEAP_SIZE in
  let unavailable := s32 (heap - (end' - base)) in
  let unavailable := if 0 <? unavailable then s32 (ROUNDUP unavailable LEAF_SIZE) else unavailable in
  do! printf ("bd: 0x%x bytes unavailable" ++ nl) [VNum unavailable];
  let bd_end := u64 (base + heap - unavailable) in
  do! printf ("%p" ++ nl) [VNum bd_end];
  do! bd_mark bd_end (u64 (base + heap));
  ret unavailable.

(** [sizeof(char) * (ROUNDUP(NBLK(k), 8)) / 8] *)
Definition map_bytes (k : Z) : KM Z :=
  let! n := NBLK k in
  ret (s32 (u64 (ROUNDUP n 8) / 8)).

(** The loops that lay out the bitmaps from [p] on. *)
Fixpoint layout_alloc (ks : list Z) (p : Z) : KM Z :=
  match ks with
  | [] => ret p
  | k :: ks' =>
      let! sizes := bd bd_sizes in
      do! lst_init (sz_free sizes k);
      let! sz := map_bytes k in
      do! st64 (sz_alloc sizes k) p;
      do! kmemset p 0 sz;
      layout_alloc ks' (p + sz)
  end.

Fixpoint layout_split (ks : list Z) (p : Z) : KM Z :=
  match ks with
  | [] => ret p
  | k :: ks' =>
      let! sizes := bd bd_sizes in
      let! sz := map_bytes k in
      do! st64 (sz_split sizes k) p;
      do! kmemset p 0 sz;
      layout_split ks' (p + sz)
  end.

Definition set_nsizes (n : Z) (s : kernel) : kernel :=
  let b := k_buddy s in set_buddy {| bd_nsizes := n; bd_base := bd_base b; bd_sizes := bd_sizes b |} s.

Definition bd_init (start end' : Z) : KM unit :=
  let p := PGROUNDUP start in
  do! initlock L_buddy "buddy";
  match log2 (u64 (Z.quot (end' - p) LEAF_SIZE)) with
  | None => halt OutOfFuel
  | Some l =>
      do! modify (set_nsizes (s32 (l + 1)));
      let! heap := HEAP_SIZE in
      do! (when! heap <? end' - p then modify (fun s => set_nsizes (s32 (bd_nsizes (k_buddy s) + 1)) s));
      let! nsizes := bd bd_nsizes in
      do! printf ("伙伴系统初始化，包含%d个级别,最小的单位为%d" ++ nl) [VNum nsizes; VNum LEAF_SIZE];
      do! printf ("from %p to %p" ++ nl) [VNum p; VNum end'];
      do! modify (set_buddy {| bd_nsizes := nsizes; bd_base := p; bd_sizes := p |});
      let sizes := p in
      let p := p + sizeof_sz_info * nsizes in
      do! kmemset sizes 0 (sizeof_sz_info * nsizes);
      let! p := layout_alloc (seqZ 0 nsizes) p in
      let! p := layout_split (seqZ 1 (nsizes - 1)) p in
      let p := u64 (ROUNDUP p LEAF_SIZE) in
      let! meta := bd_mark_data_structures p in
      let! unavailable := bd_mark_unavailable end' p in
      let! base := bd bd_base in
      let! heap := HEAP_SIZE in
      let bd_end := u64 (base + heap - unavailable) in
      let! free := bd_initfree p bd_end in
      if negb (free =? heap - meta - unavailable) then
        do! printf ("free %d %d" ++ nl) [VNum free; VNum (heap - meta - unavailable)];
        panic "bd_init: free mem"
      else printf ("伙伴系统可用空间从%p到%p" ++ nl) [VNum p; VNum bd_end]
  end.

(** ** Allocation *)

(** [while(size < n){ k++; size *= 2; }] *)
Fixpoint firstk_loop (fuel : nat) (n k size : Z) : option Z :=
  match fuel with
  | O => None
  | S f => if size <? n then firstk_loop f n (s32 (k + 1)) (u64 (size * 2)) else Some k
  end.

(** [size] is 2^63 after 51 rounds. *)
Definition firstk (n : Z) : option Z := firstk_loop 52 n 0 LEAF_SIZE.

(** [for(k = fk; k < nsizes; k++) if(!lst_empty(&bd_sizes[k].free)) break;] *)
Fixpoint find_level (fuel : nat) (k nsizes : Z) : KM Z :=
  match fuel with
  | O => ret k
  | S f =>
      if k <? nsizes then
        let! sizes := bd bd_sizes in
        let! e := lst_empty (sz_free sizes k) in
        if truthy e then find_level f (s32 (k + 1)) nsizes else ret k
      else ret k
  end.

(** [n] rounds of [for(; k > fk; k--)], which cut the block [p] of level [k]. *)
Fixpoint split_loop (n : nat) (k p : Z) : KM unit :=
  match n with
  | O => ret tt
  | S n' =>
      let q := p + BLK_SIZE (k - 1) in
      let! sizes := bd bd_sizes in
      let! sp := split_map k in
      let! i := blk_index k p in
      do! bit_set sp i;
      let! al := alloc_map (k - 1) in
      let! j := blk_index (k - 1) p in
      do! bit_set al j;
      do! lst_push (sz_free sizes (k - 1)) q;
      split_loop n' (k - 1) p
  end.

Definition bd_malloc (nbytes : Z) : KM Z :=
  do! acquire L_buddy;
  match firstk nbytes with
  | None => halt OutOfFuel
  | Some fk =>
      let! nsizes := bd bd_nsizes in
      let! k := find_level (Z.to_nat (nsizes - fk)) fk nsizes in
      if nsizes <=? k then
        do! release L_buddy;
        ret 0
      else
        let! sizes := bd bd_sizes in
        let! p := lst_pop (sz_free sizes k) in
        let! al := alloc_map k in
        let! i := blk_index k p in
        do! bit_set al i;
        do! split_loop (Z.to_nat (k - fk)) k p;
        do! release L_buddy;
        ret p
  end.
