(* ===== verification/BuddyProps.v ===== *)
(** * What the buddy allocator promises

    The blocks that are free and those that were handed out never overlap and never
    reach into the allocator's own data. *)

From S2P Require Import Prelude Mem CString State Spinlock Printf Locks PageAlloc Kalloc Math Dll Buddy.

(** ** Blocks *)

(** The size of a block of level [k], and a block: its address and level. *)
Definition bsz (k : nat) : Z := 4096 * 2 ^ Z.of_nat k.
Abbreviation block := (Z * nat)%type.

Definition disjoint_blocks (b c : block) : Prop :=
  fst b + bsz (snd b) <= fst c \/ fst c + bsz (snd c) <= fst b.

(** Where the parts of a heap are: its base, the number of levels, the size of the
    allocator's own data, and the bitmaps of each level. *)
Record heap := { hp_base : Z; hp_n : nat; hp_meta : Z; hp_al : nat -> Z; hp_sp : nat -> Z }.

Lemma bsz_pos k : 4096 <= bsz k.
Proof. unfold bsz. pose proof (Z.pow_pos_nonneg 2 (Z.of_nat k)). lia. Qed.

Lemma bsz_S k : bsz (S k) = 2 * bsz k.
Proof. unfold bsz. rewrite Nat2Z.inj_succ, Z.pow_succ_r by lia. lia. Qed.

Lemma bsz_split n k : (k <= n)%nat -> bsz n = 2 ^ Z.of_nat (n - k) * bsz k.
Proof. intros H. unfold bsz. replace (Z.of_nat n) with (Z.of_nat (n - k) + Z.of_nat k) by lia. rewrite Z.pow_add_r by lia. lia. Qed.

Lemma BLK_SIZE_bsz k : (k <= 40)%nat -> BLK_SIZE (Z.of_nat k) = bsz k.
Proof.
  intros H. unfold BLK_SIZE, LEAF_SIZE, PGSIZE, bsz. rewrite Z.shiftl_1_l.
  assert (1 <= 2 ^ Z.of_nat k <= 2 ^ 40) by (split; [pose proof (Z.pow_pos_nonneg 2 (Z.of_nat k)); lia|apply Z.pow_le_mono_r; lia]).
  rewrite (s64_small (2 ^ Z.of_nat k)), s64_small by lia. lia.
Qed.

Section Heap.
Context (H : heap).
Abbreviation base := (hp_base H).
Abbreviation n := (hp_n H).

(** The number of a block among those of its level. *)
Definition number (b : block) : Z := (fst b - base) / bsz (snd b).

(** A place for a block of its level in the heap. *)
Definition placed (b : block) : Prop :=
  (snd b < n)%nat /\ exists i, 0 <= i < 2 ^ Z.of_nat (n - 1 - snd b) /\ fst b = base + i * bsz (snd b).

(** [c] is a smaller block that is part of [b]. *)
Definition part_of (c b : block) : Prop :=
  placed c /\ (snd c < snd b)%nat /\ fst b <= fst c /\ fst c + bsz (snd c) <= fst b + bsz (snd b).

Lemma number_range b : placed b -> 0 <= number b < 2 ^ Z.of_nat (n - 1 - snd b) /\ fst b = base + number b * bsz (snd b).
Proof.
  intros (Hk & i & Hi & E). unfold number. rewrite E. replace (base + i * bsz (snd b) - base) with (i * bsz (snd b)) by lia.
  rewrite Z.div_mul by (pose proof (bsz_pos (snd b)); lia). done.
Qed.

Lemma placed_end b : placed b -> base <= fst b /\ fst b + bsz (snd b) <= base + bsz (n - 1).
Proof.
  intros Hp. destruct (number_range b Hp) as [Hr E]. destruct Hp as [Hk _]. rewrite (bsz_split (n - 1) (snd b)) by lia.
  rewrite E. pose proof (bsz_pos (snd b)). nia.
Qed.

Lemma number_inj b c : placed b -> placed c -> snd b = snd c -> number b = number c -> b = c.
Proof.
  intros Hb Hc E1 E2. destruct (number_range b Hb) as [_ Eb], (number_range c Hc) as [_ Ec].
  destruct b as [p k], c as [q j]. cbn [fst snd] in *. subst j. f_equal. rewrite Eb, Ec, E2. done.
Qed.

(** ** Memory *)

(** The bytes of the bitmap of level [k]. *)
Definition map_size (k : nat) : Z := (2 ^ Z.of_nat (n - 1 - k) + 7) / 8.

(** The layout of the allocator's data, fixed by bd_init: first the array bd_sizes, then
    the bitmaps, then the blocks. *)
Record heap_ok : Prop := {
  ho_n : (1 <= n <= 32)%nat;
  ho_base : 0 <= base /\ base + bsz (n - 1) < 2 ^ 63;
  ho_meta : 32 * Z.of_nat n <= hp_meta H;
  ho_al : forall k, (k < n)%nat -> base + 32 * Z.of_nat n <= hp_al H k /\ hp_al H k + map_size k <= base + hp_meta H;
  ho_sp : forall k, (k < n)%nat -> base + 32 * Z.of_nat n <= hp_sp H k /\ hp_sp H k + map_size k <= base + hp_meta H;
  ho_al_al : forall j k, (j < n)%nat -> (k < n)%nat -> j <> k ->
    hp_al H j + map_size j <= hp_al H k \/ hp_al H k + map_size k <= hp_al H j;
  ho_al_sp : forall j k, (j < n)%nat -> (1 <= k < n)%nat ->
    hp_al H j + map_size j <= hp_sp H k \/ hp_sp H k + map_size k <= hp_al H j
}.

Definition list_of (k : nat) : Z := sz_free base (Z.of_nat k).

(** The lists and bitmaps of bd_sizes; [F k] are the free blocks of level [k]. *)
Record lists (F : nat -> list Z) (m : mem) : Prop := {
  li_list : forall k, (k < n)%nat -> dll m (list_of k) (F k);
  li_al : forall k, (k < n)%nat -> load64 m (sz_alloc base (Z.of_nat k)) = hp_al H k;
  li_sp : forall k, (1 <= k < n)%nat -> load64 m (sz_split base (Z.of_nat k)) = hp_sp H k
}.

Definition free_block (F : nat -> list Z) (b : block) : Prop := fst b ∈ F (snd b).
Definition held (F : nat -> list Z) (A : gset block) (b : block) : Prop := free_block F b \/ b ∈ A.

(** The blocks do not overlap each other or the allocator's data. *)
Record blocks (F : nat -> list Z) (A : gset block) : Prop := {
  bl_placed : forall b, held F A b -> placed b;
  bl_meta : forall b, held F A b -> base + hp_meta H <= fst b;
  bl_apart : forall b c, held F A b -> held F A c -> b <> c -> disjoint_blocks b c;
  bl_own : forall b, free_block F b -> b ∉ A
}.

Definition alloc_bit (m : mem) (b : block) : bool := page_bit m (hp_al H (snd b)) (number b).

(** The bit of a block is set when it was handed out; those of the parts of a block that
    is free or handed out are clear. *)
Record bits (F : nat -> list Z) (A : gset block) (m : mem) : Prop := {
  bt_free : forall b, free_block F b -> alloc_bit m b = false;
  bt_used : forall b, b ∈ A -> alloc_bit m b = true;
  bt_part : forall b c, held F A b -> part_of c b -> alloc_bit m c = false
}.

(** The blocks [F] are free and the blocks [A] are handed out. *)
Record buddy_inv (F : nat -> list Z) (A : gset block) (s : kernel) : Prop := {
  bv_heap : heap_ok;
  bv_vars : k_buddy s = {| bd_nsizes := Z.of_nat n; bd_base := base; bd_sizes := base |};
  bv_lists : lists F (k_mem s);
  bv_blocks : blocks F A;
  bv_bits : bits F A (k_mem s)
}.

(** *** Bits *)

Context (OK : heap_ok).

Lemma map_byte k i : 0 <= i < 2 ^ Z.of_nat (n - 1 - k) -> 0 <= i / 8 < map_size k.
Proof. intros Hi. unfold map_size. zdm. Qed.

(** Setting the bit of [b] changes that bit alone. *)
Lemma alloc_bit_set m b c :
  placed b -> placed c ->
  alloc_bit (bit_on m (hp_al H (snd b)) (number b)) c = bool_decide (c = b) || alloc_bit m c.
Proof.
  intros Hb Hc. destruct (number_range b Hb) as [Rb _], (number_range c Hc) as [Rc _]. unfold alloc_bit.
  destruct (decide (snd c = snd b)) as [E|E].
  - rewrite E, page_bit_set by lia. f_equal. destruct (Z.eqb_spec (number c) (number b)) as [En|En].
    + rewrite bool_decide_eq_true_2; [done|]. by apply number_inj.
    + rewrite bool_decide_eq_false_2; [done|]. congruence.
  - rewrite bool_decide_eq_false_2 by congruence. cbn [orb]. apply page_bit_ext. unfold bit_on. rewrite rd8_wr8.
    pose proof (map_byte _ _ Rb). pose proof (map_byte _ _ Rc). destruct Hb as [Kb _], Hc as [Kc _].
    pose proof (ho_al_al OK _ _ Kc Kb E). rewrite (proj2 (Z.eqb_neq _ _)); [done|lia].
Qed.

(** The bits are those of the bitmaps. *)
Lemma alloc_bit_ext m m' b :
  placed b -> (forall a, hp_al H (snd b) <= a < hp_al H (snd b) + map_size (snd b) -> rd8 m' a = rd8 m a) -> alloc_bit m' b = alloc_bit m b.
Proof.
  intros Hb Hext. destruct (number_range b Hb) as [Rb _]. apply page_bit_ext, Hext. pose proof (map_byte _ _ Rb). lia.
Qed.

Lemma bits_ext F A m m' :
  (forall b, held F A b -> placed b) -> (forall b, placed b -> alloc_bit m' b = alloc_bit m b) -> bits F A m -> bits F A m'.
Proof.
  intros Hp Hext [B1 B2 B3]. split.
  - intros b Hb. rewrite Hext by (apply Hp; by left). by apply B1.
  - intros b Hb. rewrite Hext by (apply Hp; by right). by apply B2.
  - intros b c Hb Hc. rewrite Hext by apply Hc. by eapply B3.
Qed.

(** *** Lists *)

Lemma dll_ext m m' lst xs :
  (forall x a, x ∈ lst :: xs -> x <= a < x + 16 -> rd8 m' a = rd8 m a) -> dll m lst xs -> dll m' lst xs.
Proof.
  intros Hext [D1 D2 D3 D4]. split; try done.
  assert (lst :: xs ++ [lst] ⊆ lst :: xs) as Hsub by (intros a; rewrite !elem_of_cons, elem_of_app, list_elem_of_singleton; tauto).
  revert D1. apply dlinks_ext; intros a Ha; apply load64_ext; unfold lst_next, lst_prev; intros i Hi; apply (Hext a); try lia; apply Hsub.
  - rewrite (app_removelast_last 0 (l := lst :: xs ++ [lst])) by done. apply elem_of_app. by left.
  - cbn in Ha. apply elem_of_cons. by right.
Qed.

(** The words of bd_sizes and the first words of the free blocks. *)
Lemma lists_ext F m m' :
  (forall a, base <= a < base + 32 * Z.of_nat n -> rd8 m' a = rd8 m a) ->
  (forall b a, (snd b < n)%nat -> free_block F b -> fst b <= a < fst b + 16 -> rd8 m' a = rd8 m a) -> lists F m -> lists F m'.
Proof.
  intros H1 H2 [L1 L2 L3]. split; intros k Hk.
  - apply (dll_ext m); [|by apply L1]. intros x a [-> |Hx]%elem_of_cons Ha.
    + apply H1. unfold list_of, sz_free, sizeof_sz_info in Ha. lia.
    + by apply (H2 (x, k)).
  - rewrite <- L2 by done. apply load64_ext. unfold sz_alloc, sizeof_sz_info. intros a Ha. apply H1. lia.
  - rewrite <- L3 by done. apply load64_ext. unfold sz_split, sizeof_sz_info. intros a Ha. apply H1. lia.
Qed.

(** ** Taking a block off its list and cutting it *)

Definition upd (F : nat -> list Z) (k : nat) (l : list Z) (j : nat) : list Z := if decide (j = k) then l else F j.

Lemma upd_eq F k l : upd F k l k = l.
Proof. unfold upd. by rewrite decide_True. Qed.
Lemma upd_ne F k l j : j <> k -> upd F k l j = F j.
Proof. intros. unfold upd. by rewrite decide_False. Qed.

Lemma free_upd F k l b : free_block (upd F k l) b <-> (snd b = k /\ fst b ∈ l) \/ (snd b <> k /\ free_block F b).
Proof.
  unfold free_block. destruct (decide (snd b = k)) as [-> |Hne]; [rewrite upd_eq|rewrite upd_ne by done]; tauto.
Qed.

Lemma held_take F A k p xs b :
  F k = p :: xs -> held (upd F k xs) ({[(p, k)]} ∪ A) b <-> held F A b.
Proof.
  intros E. unfold held. rewrite free_upd, elem_of_union, elem_of_singleton. unfold free_block.
  destruct b as [r j]. cbn [fst snd]. destruct (decide (j = k)) as [-> |Hne].
  - rewrite E, elem_of_cons. split; [intros [[[_ ?]|[? _]]|[?|?]]; [tauto..|simplify_eq; tauto|tauto]|].
    intros [[-> |?]|?]; [by right; left|by left; left|by right; right].
  - split; [intros [[[? _]|[_ ?]]|[?|?]]; [done|tauto|by simplify_eq|tauto]|intros [?|?]; [by left; right|by right; right]].
Qed.

Lemma blocks_take F A k p xs :
  blocks F A -> F k = p :: xs -> NoDup (p :: xs) -> blocks (upd F k xs) ({[(p, k)]} ∪ A).
Proof.
  intros [P1 P2 P3 P4] E Hd. split.
  - intros b Hb%(held_take F A k p xs b E). auto.
  - intros b Hb%(held_take F A k p xs b E). auto.
  - intros b c Hb%(held_take F A k p xs b E) Hc%(held_take F A k p xs c E). auto.
  - intros b Hb. rewrite free_upd in Hb. rewrite not_elem_of_union, not_elem_of_singleton. apply NoDup_cons in Hd as [Hd _].
    destruct Hb as [[Hk Hx]|[Hk Hx]].
    + split; [intros ->; done|]. apply P4. unfold free_block. rewrite Hk, E. apply elem_of_cons. by right.
    + split; [intros ->; done|auto].
Qed.

(** Two blocks that do not overlap have no part in common, and neither is a part of the
    other. *)
Lemma part_disjoint b c d : disjoint_blocks b c -> part_of d b -> disjoint_blocks d c.
Proof. unfold disjoint_blocks. intros Hd (_ & _ & H1 & H2). lia. Qed.

Lemma part_apart b c : disjoint_blocks b c -> ~ part_of b c.
Proof. unfold disjoint_blocks. intros Hd (_ & _ & H1 & H2). pose proof (bsz_pos (snd b)). pose proof (bsz_pos (snd c)). lia. Qed.

Lemma disjoint_sym b c : disjoint_blocks b c -> disjoint_blocks c b.
Proof. unfold disjoint_blocks. tauto. Qed.

Lemma bits_take F A k p xs m :
  blocks F A -> F k = p :: xs -> NoDup (p :: xs) -> bits F A m ->
  bits (upd F k xs) ({[(p, k)]} ∪ A) (bit_on m (hp_al H k) (number (p, k))).
Proof.
  intros [P1 P2 P3 P4] E Hd [B1 B2 B3]. pose proof (blocks_take F A k p xs (Build_blocks F A P1 P2 P3 P4) E Hd) as [_ _ _ Own].
  assert (free_block F (p, k)) as Hf by (unfold free_block; cbn; rewrite E; apply list_elem_of_here).
  assert (placed (p, k)) as Hp by (apply P1; by left).
  pose proof (fun c (Hc : placed c) => alloc_bit_set m (p, k) c Hp Hc) as Hset. cbn [snd] in Hset.
  split.
  - intros b Hb. pose proof (Own b Hb) as Hn. rewrite not_elem_of_union, not_elem_of_singleton in Hn.
    assert (held F A b) as Hh by (apply (held_take F A k p xs b E); by left).
    rewrite Hset by auto. rewrite bool_decide_eq_false_2 by tauto. apply B1. destruct Hh; tauto.
  - intros b Hb. rewrite Hset by (apply P1, (held_take F A k p xs b E); by right).
    rewrite elem_of_union, elem_of_singleton in Hb. destruct Hb as [-> |Hb]; [by rewrite bool_decide_eq_true_2|].
    rewrite (B2 b Hb). apply orb_true_r.
  - intros b c Hb%(held_take F A k p xs b E) Hc. rewrite Hset by apply Hc. rewrite (B3 b c Hb Hc), bool_decide_eq_false_2; [done|].
    intros ->. destruct (decide (b = (p, k))) as [-> |Hne]; [destruct Hc as (_ & Hc & _); cbn in Hc; lia|].
    apply (part_apart (p, k) b); [|done]. apply P3; [by left|done|congruence].
Qed.

(** *** Cutting *)

Section Cut.
Context (F : nat -> list Z) (A : gset block) (k : nat) (p : Z).
Context (P : blocks F ({[(p, S k)]} ∪ A)) (Hnew : (p, S k) ∉ A).
Let q : Z := p + bsz k.
Let F' := upd F k (q :: F k).
Let A' : gset block := {[(p, k)]} ∪ A.

Lemma whole_held : held F ({[(p, S k)]} ∪ A) (p, S k).
Proof. right. apply elem_of_union_l, elem_of_singleton. done. Qed.

Lemma halves : part_of (p, k) (p, S k) /\ part_of (q, k) (p, S k).
Proof.
  pose proof (bl_placed _ _ P _ whole_held) as (Hk & i & Hi & E). cbn [fst snd] in *.
  pose proof (bsz_S k). pose proof (bsz_pos k).
  assert (2 ^ Z.of_nat (n - 1 - k) = 2 * 2 ^ Z.of_nat (n - 1 - S k)) as E2.
  { replace (Z.of_nat (n - 1 - k)) with (Z.succ (Z.of_nat (n - 1 - S k))) by lia. by rewrite Z.pow_succ_r by lia. }
  split; (split; [|cbn [fst snd]; unfold q; lia]); (split; [cbn; lia|]); cbn [fst snd].
  - exists (2 * i). split; [lia|]. rewrite E. nia.
  - exists (2 * i + 1). split; [lia|]. unfold q. rewrite E. nia.
Qed.

Lemma held_cut b : held F' A' b -> (b = (p, k) \/ b = (q, k)) \/ (held F ({[(p, S k)]} ∪ A) b /\ b <> (p, S k)).
Proof.
  unfold held, F', A'. rewrite free_upd, !elem_of_union, !elem_of_singleton.
  assert (free_block F b -> b <> (p, S k)) as Hne.
  { intros Hb ->. apply (bl_own _ _ P _ Hb). apply elem_of_union_l, elem_of_singleton. done. }
  intros [[[Hk Hx]|[Hk Hx]]|[-> |Hb]]; [| |tauto|].
  - apply elem_of_cons in Hx as [Hx|Hx]; [left; right; destruct b; cbn in *; congruence|].
    right. assert (free_block F b) as Hf by (unfold free_block; by rewrite Hk). split; [by left|auto].
  - right. split; [by left|auto].
  - right. split; [tauto|]. intros ->. done.
Qed.

Lemma blocks_cut : blocks F' A'.
Proof.
  destruct halves as [Hp Hq]. pose proof P as [P1 P2 P3 P4].
  pose proof (P2 _ whole_held) as Hm. pose proof (bsz_pos k) as Hpos.
  assert (forall b, held F ({[(p, S k)]} ∪ A) b -> b <> (p, S k) -> disjoint_blocks (p, k) b /\ disjoint_blocks (q, k) b) as Hd.
  { intros b Hb Hne. split; eapply part_disjoint; [|exact Hp| |exact Hq]; (apply P3; [apply whole_held|done|congruence]). }
  assert (disjoint_blocks (p, k) (q, k)) as Hpq by (left; cbn; unfold q; lia).
  split.
  - intros b [[-> | ->]|[Hb _]]%held_cut; [apply Hp|apply Hq|auto].
  - intros b [[-> | ->]|[Hb _]]%held_cut; [done|cbn in *; unfold q; lia|auto].
  - intros b c [Hb|[Hb Nb]]%held_cut [Hc|[Hc Nc]]%held_cut Hne.
    + destruct Hb as [-> | ->], Hc as [-> | ->]; done || by apply disjoint_sym.
    + destruct (Hd c Hc Nc). by destruct Hb as [-> | ->].
    + destruct (Hd b Hb Nb). apply disjoint_sym. by destruct Hc as [-> | ->].
    + auto.
  - intros b Hb Hin. assert (held F' A' b) as Hh by (by left). apply held_cut in Hh as Hv.
    unfold F' in Hb. rewrite free_upd in Hb. unfold A' in Hin. rewrite elem_of_union, elem_of_singleton in Hin.
    destruct Hin as [-> |Hin].
    + destruct Hb as [[_ Hb]|[Hb _]]; [|done]. cbn in Hb. apply elem_of_cons in Hb as [Hb|Hb]; [unfold q in Hb; lia|].
      assert (held F ({[(p, S k)]} ∪ A) (p, k)) as Hx by (by left).
      destruct (Hd (p, k) Hx) as [Hz _]; [intros [=]; lia|]. unfold disjoint_blocks in Hz. cbn in Hz. lia.
    + assert (held F ({[(p, S k)]} ∪ A) b) as Hx by (right; by apply elem_of_union_r).
      destruct Hb as [[Hk Hb]|[Hk Hb]].
      * apply elem_of_cons in Hb as [Hb|Hb].
        -- assert (b <> (p, S k)) as Hne by (intros ->; cbn in Hk; lia).
           destruct (Hd b Hx Hne) as [_ Hz]. destruct b as [r j]. cbn in *. subst r j. unfold disjoint_blocks in Hz. cbn in Hz. lia.
        -- apply (P4 b); [unfold free_block; by rewrite Hk|by apply elem_of_union_r].
      * apply (P4 b); [done|by apply elem_of_union_r].
Qed.

Lemma part_of_trans b c d : part_of b c -> part_of c d -> part_of b d.
Proof. intros (H1 & H2 & H3 & H4) (G1 & G2 & G3 & G4). split; [done|lia]. Qed.

Lemma bits_cut m : bits F ({[(p, S k)]} ∪ A) m -> bits F' A' (bit_on m (hp_al H k) (number (p, k))).
Proof.
  intros [B1 B2 B3]. destruct halves as [Hp Hq]. pose proof P as [P1 P2 P3 P4]. pose proof (bsz_pos k) as Hpos.
  pose proof blocks_cut as [Q1 Q2 Q3 Q4].
  pose proof (fun c (Hc : placed c) => alloc_bit_set m (p, k) c (proj1 Hp) Hc) as Hset. cbn [snd] in Hset.
  assert (forall b, held F ({[(p, S k)]} ∪ A) b -> b <> (p, S k) -> b <> (p, k)) as Hneq.
  { intros b Hb Hne ->. apply (part_apart (p, k) (p, S k)); [|done]. apply P3; [done|apply whole_held|done]. }
  split.
  - intros b Hb. assert (held F' A' b) as Hh by (by left). rewrite Hset by auto.
    assert (b <> (p, k)) as Hne by (intros ->; apply (Q4 _ Hb); apply elem_of_union_l, elem_of_singleton; done).
    rewrite bool_decide_eq_false_2 by done. cbn [orb]. apply held_cut in Hh as [[-> | ->]|[Hx Hy]]; [done|by apply (B3 (p, S k)); [apply whole_held|]|].
    destruct Hx as [Hx|Hx]; [by apply B1|]. exfalso. apply (Q4 _ Hb). apply elem_of_union_r.
    rewrite elem_of_union, elem_of_singleton in Hx. tauto.
  - intros b Hb. rewrite Hset by (apply Q1; by right). unfold A' in Hb. rewrite elem_of_union, elem_of_singleton in Hb.
    destruct Hb as [-> |Hb]; [by rewrite bool_decide_eq_true_2|]. rewrite (B2 b) by (by apply elem_of_union_r). apply orb_true_r.
  - intros b c Hb Hc. rewrite Hset by apply Hc.
    assert (c <> (p, k)) as Hne.
    { intros ->. apply held_cut in Hb as [[-> | ->]|[Hx Hy]]; [destruct Hc as (_ & Hc & _); cbn in Hc; lia..|].
      apply (part_apart (p, k) b); [|done]. eapply part_disjoint; [|exact Hp]. apply P3; [apply whole_held|done|congruence]. }
    rewrite bool_decide_eq_false_2 by done. cbn [orb].
    apply held_cut in Hb as [[-> | ->]|[Hx Hy]]; [| |by eapply B3].
    + apply (B3 (p, S k)); [apply whole_held|by eapply part_of_trans].
    + apply (B3 (p, S k)); [apply whole_held|by eapply part_of_trans].
Qed.
End Cut.

(** ** The routines on such a heap *)

(** Steps on the nodes of level [k] keep the other levels and all bitmaps. *)
Definition nodes_of (F : nat -> list Z) (A : gset block) (k : nat) (D : list Z) : Prop :=
  forall y, y ∈ D -> y = list_of k \/ held F A (y, k).

Lemma node_far F A k D y :
  blocks F A -> (k < n)%nat -> nodes_of F A k D -> y ∈ D ->
  (base <= y /\ y = list_of k) \/ (base + hp_meta H <= y /\ held F A (y, k)).
Proof.
  intros P Hk HD Hy. destruct (HD y Hy) as [-> |Hh].
  - left. split; [|done]. unfold list_of, sz_free, sizeof_sz_info. lia.
  - right. split; [|done]. exact (bl_meta _ _ P _ Hh).
Qed.

Lemma alloc_bit_step F A k D s s' b :
  blocks F A -> (k < n)%nat -> nodes_of F A k D -> node_step D s s' -> placed b -> alloc_bit (k_mem s') b = alloc_bit (k_mem s) b.
Proof.
  intros P Hk HD [_ Hs] Hb. apply alloc_bit_ext; [done|]. intros a Ha. apply Hs. intros y Hy.
  destruct Hb as [Kb _]. pose proof (ho_al OK _ Kb). destruct (node_far F A k D y P Hk HD Hy) as [[_ ->]|[Hm _]]; [|lia].
  unfold list_of, sz_free, sizeof_sz_info. lia.
Qed.

Lemma lists_step F0 A0 F F' k D s s' :
  blocks F0 A0 -> (k < n)%nat -> (forall j, j <> k -> F j = F0 j) -> (forall j, j <> k -> F' j = F0 j) ->
  nodes_of F0 A0 k D -> node_step D s s' -> lists F (k_mem s) -> dll (k_mem s') (list_of k) (F' k) -> lists F' (k_mem s').
Proof.
  intros P Hk E E' HD [_ Hs] [L1 L2 L3] Hd. pose proof (ho_meta OK) as Hmeta. split; intros j Hj.
  - destruct (decide (j = k)) as [-> |Hne]; [done|]. rewrite E' by done. rewrite <- E by done.
    apply (dll_ext (k_mem s)); [|by apply L1]. intros x a Hx Ha. apply Hs. intros y Hy.
    destruct (node_far F0 A0 k D y P Hk HD Hy) as [[_ ->]|[Hm Hh]]; apply elem_of_cons in Hx as [-> |Hx].
    + unfold list_of, sz_free, sizeof_sz_info in *. lia.
    + rewrite E in Hx by done. assert (held F0 A0 (x, j)) as Hx' by (by left). pose proof (bl_meta _ _ P _ Hx') as Hxm. cbn in Hxm.
      unfold list_of, sz_free, sizeof_sz_info in *. lia.
    + unfold list_of, sz_free, sizeof_sz_info in *. lia.
    + rewrite E in Hx by done. assert (held F0 A0 (x, j)) as Hx' by (by left).
      assert ((x, j) <> (y, k)) as Hxy by congruence. pose proof (bl_apart _ _ P _ _ Hx' Hh Hxy) as Hap.
      unfold disjoint_blocks in Hap. cbn [fst snd] in Hap. pose proof (bsz_pos j). pose proof (bsz_pos k). lia.
  - rewrite <- L2 by done. apply load64_ext. intros a Ha. apply Hs. intros y Hy. unfold sz_alloc, sizeof_sz_info in Ha.
    destruct (node_far F0 A0 k D y P Hk HD Hy) as [[_ ->]|[Hm Hh]]; unfold list_of, sz_free, sizeof_sz_info in *; lia.
  - rewrite <- L3 by done. apply load64_ext. intros a Ha. apply Hs. intros y Hy. unfold sz_split, sizeof_sz_info in Ha.
    destruct (node_far F0 A0 k D y P Hk HD Hy) as [[_ ->]|[Hm Hh]]; unfold list_of, sz_free, sizeof_sz_info in *; lia.
Qed.

(** A write to a bitmap keeps the lists. *)
Lemma lists_map F A m a v :
  blocks F A -> base + 32 * Z.of_nat n <= a < base + hp_meta H -> lists F m -> lists F (wr8 m a v).
Proof.
  intros P Ha. apply lists_ext.
  - intros x Hx. rewrite rd8_wr8. zcases.
  - intros b x Hb Hf Hx. rewrite rd8_wr8. pose proof (bl_meta _ _ P b (or_introl Hf)). zcases.
Qed.

Abbreviation vars := {| bd_nsizes := Z.of_nat n; bd_base := base; bd_sizes := base |}.

Lemma blk_index_ok b s : k_buddy s = vars -> placed b -> blk_index (Z.of_nat (snd b)) (fst b) s = Ok (number b) s.
Proof.
  intros Ev Hb. destruct (number_range b Hb) as [Hr E]. pose proof (ho_n OK) as Hn. pose proof (ho_base OK) as Hbase.
  pose proof (placed_end b Hb) as Hend. pose proof (bsz_pos (snd b)). destruct Hb as [Hk _].
  unfold blk_index, bd, bind, get, ret. rewrite Ev. cbn [bd_base]. rewrite BLK_SIZE_bsz by lia.
  rewrite (u64_small (fst b - _)) by lia. rewrite (u64_small (bsz _)) by lia. fold (number b). rewrite s32_small; [done|].
  assert (2 ^ Z.of_nat (n - 1 - snd b) <= 2 ^ 31) by (apply Z.pow_le_mono_r; lia). lia.
Qed.

Lemma bit_set_ok bm i s : 0 <= bm < 2 ^ 63 -> 0 <= i < 2 ^ 31 -> bit_set bm i s = Ok tt (set_mem (bit_on (k_mem s) bm i) s).
Proof.
  intros Hb Hi. unfold bit_set, bit_at. rewrite Z.rem_mod_nonneg, Z.quot_div_nonneg by lia.
  rewrite (proj2 (Z.ltb_ge _ _)) by zdm. unfold ld8, st8, bind, get, modify, ret. rewrite u64_small by zdm. done.
Qed.

Lemma number_small b : placed b -> 0 <= number b < 2 ^ 31.
Proof.
  intros Hb. destruct (number_range b Hb) as [Hr _]. pose proof (ho_n OK).
  assert (2 ^ Z.of_nat (n - 1 - snd b) <= 2 ^ 31) by (apply Z.pow_le_mono_r; lia). lia.
Qed.

Lemma meta_below F A b : blocks F A -> held F A b -> base + hp_meta H < 2 ^ 63.
Proof.
  intros P Hb. pose proof (bl_meta _ _ P b Hb). pose proof (placed_end b (bl_placed _ _ P b Hb)). pose proof (bsz_pos (snd b)).
  pose proof (ho_base OK). lia.
Qed.

Lemma al_small F A k b : blocks F A -> held F A b -> (k < n)%nat -> 0 <= hp_al H k < 2 ^ 63.
Proof.
  intros P Hb Hk. pose proof (meta_below F A b P Hb). pose proof (ho_al OK k Hk). pose proof (ho_base OK).
  assert (0 <= map_size k) by (unfold map_size; pose proof (Z.pow_pos_nonneg 2 (Z.of_nat (n - 1 - k))); zdm). lia.
Qed.

Lemma sp_small F A k b : blocks F A -> held F A b -> (k < n)%nat -> 0 <= hp_sp H k < 2 ^ 63.
Proof.
  intros P Hb Hk. pose proof (meta_below F A b P Hb). pose proof (ho_sp OK k Hk). pose proof (ho_base OK).
  assert (0 <= map_size k) by (unfold map_size; pose proof (Z.pow_pos_nonneg 2 (Z.of_nat (n - 1 - k))); zdm). lia.
Qed.

(** The state but for memory. *)
Definition only_mem (s s' : kernel) : Prop := s' = set_mem (k_mem s') s.

Lemma only_mem_refl s : only_mem s s.
Proof. by destruct s. Qed.

Lemma only_mem_trans s1 s2 s3 : only_mem s1 s2 -> only_mem s2 s3 -> only_mem s1 s3.
Proof. unfold only_mem. intros -> ->. done. Qed.

Lemma only_mem_set m s1 s2 : only_mem s1 s2 -> only_mem s1 (set_mem m s2).
Proof. unfold only_mem. intros ->. done. Qed.

(** Setting the allocation bit of a placed block, by way of bd_sizes. *)
Lemma set_alloc_ok {X} F A F0 A0 b0 b s (cont : KM X) :
  k_buddy s = vars -> lists F (k_mem s) -> blocks F A -> blocks F0 A0 -> held F0 A0 b0 -> placed b ->
  let s' := set_mem (bit_on (k_mem s) (hp_al H (snd b)) (number b)) s in
  (let! al := alloc_map (Z.of_nat (snd b)) in let! i := blk_index (Z.of_nat (snd b)) (fst b) in do! bit_set al i; cont) s = cont s' /\
  lists F (k_mem s').
Proof.
  intros Ev L P P0 H0 Hb s'. pose proof (number_range b Hb) as [Hr _]. pose proof (proj1 Hb) as Hk.
  assert (alloc_map (Z.of_nat (snd b)) s = Ok (hp_al H (snd b)) s) as E1.
  { unfold alloc_map, bd, ld64, bind, get. rewrite Ev. cbn [bd_sizes]. by rewrite (li_al _ _ L). }
  split.
  - mstep E1. mstep (blk_index_ok b s Ev Hb).
    by mstep (bit_set_ok (hp_al H (snd b)) (number b) s (al_small F0 A0 (snd b) b0 P0 H0 Hk) (number_small b Hb)).
  - apply (lists_map F A); [done| |done]. pose proof (map_byte _ _ Hr). pose proof (ho_al OK _ Hk). lia.
Qed.

Lemma take_ok {X} F A k p xs s (cont : Z -> KM X) :
  buddy_inv F A s -> (k < n)%nat -> F k = p :: xs ->
  exists s', (let! p := lst_pop (sz_free base (Z.of_nat k)) in
              let! al := alloc_map (Z.of_nat k) in
              let! i := blk_index (Z.of_nat k) p in
              do! bit_set al i; cont p) s = cont p s' /\
    buddy_inv (upd F k xs) ({[(p, k)]} ∪ A) s' /\ only_mem s s'.
Proof.
  intros [_ Ev L P B] Hk E. pose proof (li_list _ _ L k Hk) as D. rewrite E in D.
  pose proof (dl_nodup _ _ _ D) as Hd. apply NoDup_cons in Hd as [_ Hd].
  destruct (pop_ok _ _ _ _ D) as (s1 & E1 & D1 & N1). pose proof N1 as [O1 _].
  assert (held F A (p, k)) as Hh by (left; unfold free_block; cbn; rewrite E; apply list_elem_of_here).
  assert (nodes_of F A k (list_of k :: xs)) as HD.
  { intros y [-> |Hy]%elem_of_cons; [by left|right; left]. unfold free_block. cbn. rewrite E. apply elem_of_cons. by right. }
  assert (lists (upd F k xs) (k_mem s1)) as L1.
  { apply (lists_step F A F (upd F k xs) k (list_of k :: xs) s s1 P Hk); try done; [by intros; apply upd_ne|by rewrite upd_eq]. }
  pose proof (blocks_take F A k p xs P E Hd) as P'.
  assert (k_buddy s1 = vars) as Ev1 by (by rewrite O1).
  destruct (set_alloc_ok (upd F k xs) _ F A (p, k) (p, k) s1 (cont p) Ev1 L1 P' P Hh (bl_placed _ _ P _ Hh)) as [E2 L2].
  eexists. split; [mstep E1; exact E2|]. split; [|by apply only_mem_set].
  split; [exact OK|exact Ev1|exact L2|exact P'|]. cbn [k_mem set_mem snd]. apply bits_take; [done..|].
  apply (bits_ext F A (k_mem s)); [apply (bl_placed _ _ P)| |done]. intros b Hb. exact (alloc_bit_step F A k _ s s1 b P Hk HD N1 Hb).
Qed.

(** The second half of a block and the nodes of the list it goes to do not overlap. *)
Lemma cut_far F A k p a :
  blocks F ({[(p, S k)]} ∪ A) -> (p, S k) ∉ A -> a ∈ list_of k :: F k -> far (p + bsz k) a.
Proof.
  intros P Hnew Ha. pose proof (blocks_cut F A k p P Hnew) as P'. pose proof (halves F A k p P) as [_ Hq].
  pose proof (proj1 (bl_placed _ _ P _ (whole_held F A k p))) as Hk. cbn in Hk.
  assert (held (upd F k ((p + bsz k) :: F k)) ({[(p, k)]} ∪ A) (p + bsz k, k)) as Hqh.
  { left. unfold free_block. cbn. rewrite upd_eq. apply list_elem_of_here. }
  pose proof (bl_meta _ _ P' _ Hqh) as Hm. cbn [fst] in Hm. pose proof (ho_meta OK) as Hmeta. apply elem_of_cons in Ha as [-> |Ha].
  - right. unfold list_of, sz_free, sizeof_sz_info. lia.
  - assert (held (upd F k ((p + bsz k) :: F k)) ({[(p, k)]} ∪ A) (a, k)) as Hah.
    { left. unfold free_block. cbn. rewrite upd_eq. apply elem_of_cons. by right. }
    assert (a <> p + bsz k) as Hne.
    { intros ->. pose proof (part_apart (p + bsz k, k) (p, S k)) as Hx. apply Hx; [|done].
      apply (bl_apart _ _ P); [by left|apply whole_held|]. intros [=]. lia. }
    pose proof (bl_apart _ _ P' _ _ Hqh Hah ltac:(congruence)) as Hap. unfold disjoint_blocks in Hap. cbn [fst snd] in Hap.
    pose proof (bsz_pos k). unfold far. lia.
Qed.

(** A round of the loop of bd_malloc. *)
Lemma cut_ok F A k p d s :
  buddy_inv F ({[(p, S k)]} ∪ A) s -> (p, S k) ∉ A ->
  exists s', split_loop (S d) (Z.of_nat (S k)) p s = split_loop d (Z.of_nat k) p s' /\
    buddy_inv (upd F k ((p + bsz k) :: F k)) ({[(p, k)]} ∪ A) s' /\ only_mem s s'.
Proof.
  intros [_ Ev L P B] Hnew. pose proof (whole_held F A k p) as Hh. pose proof (bl_placed _ _ P _ Hh) as Hpl.
  pose proof (proj1 Hpl) as HSk. cbn in HSk. pose proof (ho_n OK) as Hn. pose proof (halves F A k p P) as [Hp Hq].
  pose proof (blocks_cut F A k p P Hnew) as P'. pose proof (number_range _ Hpl) as [Hr _]. cbn [snd] in Hr.
  cbn [split_loop]. replace (Z.of_nat (S k) - 1) with (Z.of_nat k) by lia.
  assert (bd bd_sizes s = Ok base s) as E0 by (unfold bd, get; by rewrite Ev). mstep E0.
  assert (split_map (Z.of_nat (S k)) s = Ok (hp_sp H (S k)) s) as E1.
  { unfold split_map, bd, ld64, bind, get. rewrite Ev. cbn [bd_sizes]. by rewrite (li_sp _ _ L) by lia. }
  mstep E1. pose proof (blk_index_ok (p, S k) s Ev Hpl) as E2. cbn [fst snd] in E2. mstep E2.
  mstep (bit_set_ok (hp_sp H (S k)) (number (p, S k)) s (sp_small _ _ _ _ P Hh HSk) (number_small _ Hpl)).
  set (s1 := set_mem _ s). pose proof (map_byte _ _ Hr) as Hbyte. pose proof (ho_sp OK _ HSk) as Hsp.
  assert (lists F (k_mem s1)) as L1 by (apply (lists_map F _ _ _ _ P); [lia|done]).
  assert (bits F ({[(p, S k)]} ∪ A) (k_mem s1)) as B1.
  { apply (bits_ext F _ (k_mem s)); [apply (bl_placed _ _ P)| |done]. intros b Hb. apply alloc_bit_ext; [done|].
    intros a Ha. cbn. unfold bit_on. rewrite rd8_wr8. pose proof (ho_al_sp OK (snd b) (S k) (proj1 Hb) ltac:(lia)).
    rewrite (proj2 (Z.eqb_neq _ _)); [done|lia]. }
  destruct (set_alloc_ok F _ _ _ _ (p, k) s1 (let! _ := lst_push (sz_free base (Z.of_nat k)) (p + BLK_SIZE (Z.of_nat k)) in
    split_loop d (Z.of_nat k) p) Ev L1 P P Hh (proj1 Hp)) as [E3 L3].
  set (s2 := set_mem _ s1) in *. cbn [fst snd] in E3. rewrite BLK_SIZE_bsz in * by lia.
  pose proof (bits_cut F A k p P Hnew _ B1) as B2.
  assert (held (upd F k ((p + bsz k) :: F k)) ({[(p, k)]} ∪ A) (p + bsz k, k)) as Hqh.
  { left. unfold free_block. cbn. rewrite upd_eq. apply list_elem_of_here. }
  pose proof (li_list _ _ L3 k ltac:(lia)) as D2.
  assert (nodes_of (upd F k ((p + bsz k) :: F k)) ({[(p, k)]} ∪ A) k ((p + bsz k) :: list_of k :: F k)) as HD.
  { intros y. rewrite !elem_of_cons. intros [-> |[-> |Hy]]; [by right|by left|]. right. left. unfold free_block. cbn. rewrite upd_eq.
    apply elem_of_cons. by right. }
  destruct (push_ok (list_of k) (F k) (p + bsz k) s2 D2) as (s3 & E4 & D3 & N3).
  { pose proof (placed_end _ (proj1 Hq)). cbn [fst snd] in *. pose proof (bsz_pos k). pose proof (ho_base OK). unfold node_ok. lia. }
  { intros a Ha. by eapply cut_far. }
  pose proof N3 as [O3 _]. exists s3. split; [|split; [|apply (only_mem_trans s s2); [do 2 apply only_mem_set; apply only_mem_refl|done]]].
  - rewrite E3. by mstep E4.
  - split; [exact OK|by rewrite O3| |exact P'|].
    + apply (lists_step _ _ F _ k ((p + bsz k) :: list_of k :: F k) s2 s3 P'); try done; [lia|by intros; rewrite upd_ne|by rewrite upd_eq].
    + apply (bits_ext _ _ (k_mem s2)); [apply (bl_placed _ _ P')| |exact B2].
      intros b Hb. eapply (alloc_bit_step _ _ k); [exact P'|lia|exact HD|exact N3|done].
Qed.

(** The free blocks after cutting the block [p] of level [fk + d] down to level [fk]. *)
Definition cut_free (F : nat -> list Z) (p : Z) (fk d : nat) (j : nat) : list Z :=
  if decide (fk <= j < fk + d)%nat then (p + bsz j) :: F j else F j.

Lemma split_loop_ok fk p d : forall F A s,
  buddy_inv F ({[(p, fk + d)%nat]} ∪ A) s -> (p, fk + d)%nat ∉ A ->
  exists F' s', split_loop d (Z.of_nat (fk + d)) p s = Ok tt s' /\
    buddy_inv F' ({[(p, fk)]} ∪ A) s' /\ (forall j, F' j = cut_free F p fk d j) /\ only_mem s s'.
Proof.
  induction d as [|d IH]; intros F A s Inv Hnew.
  - rewrite Nat.add_0_r in *. exists F, s. split; [done|]. split; [done|]. split; [|apply only_mem_refl].
    intros j. unfold cut_free. rewrite decide_False; [done|lia].
  - rewrite <- plus_n_Sm in *. destruct (cut_ok F A (fk + d) p d s Inv Hnew) as (s1 & E1 & Inv1 & O1).
    assert ((p, fk + d)%nat ∉ A) as Hnew1.
    { intros Hin. pose proof (bv_blocks _ _ _ Inv) as P. pose proof (halves F A (fk + d) p P) as [Hp _].
      apply (part_apart (p, (fk + d)%nat) (p, S (fk + d))); [|done].
      apply (bl_apart _ _ P); [right; by apply elem_of_union_r|apply whole_held|]. intros [=]. lia. }
    destruct (IH _ _ _ Inv1 Hnew1) as (F' & s2 & E2 & Inv2 & HF & O2). exists F', s2.
    split; [by rewrite E1|]. split; [done|]. split; [|by eapply only_mem_trans].
    intros j. rewrite HF. unfold cut_free. destruct (decide (j = (fk + d)%nat)) as [-> |Hne].
    + rewrite decide_False, upd_eq, decide_True by lia. done.
    + rewrite upd_ne by done. destruct (decide (fk <= j < fk + d)%nat); [by rewrite decide_True by lia|by rewrite decide_False by lia].
Qed.

(** The search for a level with a free block. *)
Lemma find_level_ok F A s : forall fuel k,
  buddy_inv F A s -> (k + fuel = n)%nat ->
  exists j, find_level fuel (Z.of_nat k) (Z.of_nat n) s = Ok (Z.of_nat j) s /\ (k <= j <= n)%nat /\
    (forall i, (k <= i < j)%nat -> F i = []) /\ ((j < n)%nat -> F j <> []).
Proof.
  induction fuel as [|fuel IH]; intros k Inv Hn; cbn [find_level].
  - exists k. split; [done|]. split; [lia|]. split; lia.
  - rewrite (proj2 (Z.ltb_lt _ _)) by lia. pose proof Inv as [_ Ev L _ _]. pose proof (ho_n OK).
    assert (bd bd_sizes s = Ok base s) as E0 by (unfold bd, get; by rewrite Ev). mstep E0.
    mstep (empty_ok _ _ _ (li_list _ _ L k ltac:(lia))). destruct (decide (F k = [])) as [Hk|Hk].
    + rewrite bool_decide_eq_true_2 by done. cbn [truthy b2z Z.eqb negb]. rewrite s32_small by lia.
      replace (Z.of_nat k + 1) with (Z.of_nat (S k)) by lia. destruct (IH (S k) Inv ltac:(lia)) as (j & E & Hj & H1 & H2).
      exists j. split; [done|]. split; [lia|]. split; [|done]. intros i Hi. destruct (decide (i = k)) as [-> |]; [done|apply H1; lia].
    + rewrite bool_decide_eq_false_2 by done. cbn [truthy b2z Z.eqb negb]. exists k. split; [done|]. split; [lia|]. split; [lia|done].
Qed.
End Heap.

(** ** The level for a size *)

Lemma bsz_51 : bsz 51 = 2 ^ 63.
Proof. reflexivity. Qed.

Lemma firstk_loop_ok N f : forall k,
  (k + f = 51)%nat -> N <= 2 ^ 63 -> (k = 0%nat \/ bsz (k - 1) < N) ->
  exists j, firstk_loop (S f) N (Z.of_nat k) (bsz k) = Some (Z.of_nat j) /\ (k <= j <= 51)%nat /\ N <= bsz j /\ (j = 0%nat \/ bsz (j - 1) < N).
Proof.
  induction f as [|f IH]; intros k Hk HN Hlow; change (firstk_loop (S ?g) N (Z.of_nat k) (bsz k)) with
    (if bsz k <? N then firstk_loop g N (s32 (Z.of_nat k + 1)) (u64 (bsz k * 2)) else Some (Z.of_nat k)).
  - assert (k = 51%nat) as -> by lia. rewrite (proj2 (Z.ltb_ge _ _)) by (rewrite bsz_51; lia). exists 51%nat.
    split; [done|]. split; [lia|]. split; [by rewrite bsz_51|done].
  - destruct (Z.ltb_spec (bsz k) N) as [Hlt|Hge]; [|exists k; split; [done|]; split; [lia|]; done].
    rewrite s32_small by lia. replace (Z.of_nat k + 1) with (Z.of_nat (S k)) by lia.
    rewrite Z.mul_comm, <- bsz_S. rewrite u64_small by (rewrite bsz_S; pose proof (bsz_pos k); lia).
    destruct (IH (S k)) as (j & E & Hj & H1 & H2); [lia|done|right; by rewrite Nat.sub_1_r|]. exists j. split; [done|]. split; [lia|done].
Qed.

(** No level is large enough for more than 2^63 bytes, and the loop does not end. *)
Lemma firstk_loop_diverges N f : 2 ^ 63 < N -> forall k size,
  size = 0 \/ (exists i, (i <= 51)%nat /\ size = bsz i) -> firstk_loop f N k size = None.
Proof.
  intros HN. induction f as [|f IH]; intros k size Hs; [done|]. cbn [firstk_loop].
  destruct Hs as [-> |(i & Hi & ->)]; [rewrite (proj2 (Z.ltb_lt _ _)) by lia; apply IH; by left|].
  assert (bsz i <= 2 ^ 63) as Hb.
  { unfold bsz. replace (2 ^ 63) with (4096 * 2 ^ 51) by reflexivity. apply Z.mul_le_mono_nonneg_l; [lia|]. apply Z.pow_le_mono_r; lia. }
  rewrite (proj2 (Z.ltb_lt _ _)) by lia. apply IH. rewrite Z.mul_comm, <- bsz_S.
  destruct (decide (i = 51%nat)) as [-> |Hne]; [left; reflexivity|]. right. exists (S i). split; [lia|].
  apply u64_small. rewrite bsz_S. pose proof (bsz_pos i).
  assert (bsz i <= 2 ^ 62); [|lia].
  unfold bsz. replace (2 ^ 62) with (4096 * 2 ^ 50) by reflexivity. apply Z.mul_le_mono_nonneg_l; [lia|]. apply Z.pow_le_mono_r; lia.
Qed.

Lemma firstk_ok N :
  N <= 2 ^ 63 -> exists j, firstk N = Some (Z.of_nat j) /\ (j <= 51)%nat /\ N <= bsz j /\ (j = 0%nat \/ bsz (j - 1) < N).
Proof.
  intros HN. destruct (firstk_loop_ok N 51 0) as (j & E & Hj & H1 & H2); [done|done|by left|].
  exists j. split; [exact E|]. split; [lia|done].
Qed.

(** ** bd_malloc *)

(** What the heap becomes when a block of [N] bytes is asked for: the least level [fk] whose
    blocks are large enough, and the least level [k] from there on with a free block. *)
Definition fits (N : Z) (fk : nat) : Prop := N <= bsz fk /\ (fk = 0%nat \/ bsz (fk - 1) < N).


(** Whatever is written to the blocks handed out, the allocator does not depend on it. *)
Lemma buddy_client H F A s m :
  buddy_inv H F A s -> (forall a, (forall b, b ∈ A -> a < fst b \/ fst b + bsz (snd b) <= a) -> rd8 m a = rd8 (k_mem s) a) ->
  buddy_inv H F A (set_mem m s).
Proof.
  intros [OK Ev L P B] Hm. pose proof (ho_meta _ OK) as Hmeta.
  assert (forall a, a < hp_base H + hp_meta H -> rd8 m a = rd8 (k_mem s) a) as Hlow.
  { intros a Ha. apply Hm. intros b Hb. pose proof (bl_meta _ _ _ P b (or_intror Hb)). lia. }
  split; [done|done| |done|].
  - apply (lists_ext H F (k_mem s)); [intros a Ha; apply Hlow; lia| |done].
    intros b a _ Hb Ha. apply Hm. intros c Hc. assert (b <> c) as Hne by (intros ->; by apply (bl_own _ _ _ P c)).
    pose proof (bl_apart _ _ _ P b c (or_introl Hb) (or_intror Hc) Hne) as Hd. unfold disjoint_blocks in Hd.
    pose proof (bsz_pos (snd b)). lia.
  - apply (bits_ext H F A (k_mem s)); [apply (bl_placed _ _ _ P)| |done]. intros b Hb. apply alloc_bit_ext; [done|].
    intros a Ha. apply Hlow. pose proof (ho_al _ OK _ (proj1 Hb)). lia.
Qed.

(** ** A heap made by bd_init *)

(** Six pages and a bit: eight blocks of level 0, of which the last two do not exist and the
    first holds the allocator's data. *)
Definition small_heap : heap :=
  {| hp_base := 0x80101000; hp_n := 4; hp_meta := 4096;
     hp_al := fun k => 0x80101080 + Z.of_nat k; hp_sp := fun k => 0x80101083 + Z.of_nat k |}.
Definition small_init : res kernel unit := bd_init 0x80100010 0x80107010 boot_kernel.
Definition small_free (k : nat) : list Z :=
  match k with 0%nat => [0x80102000] | 1%nat => [0x80105000; 0x80103000] | _ => [] end.

#[local] Opaque boot_kernel.

Lemma small_heap_ok : heap_ok small_heap.
Proof.
  split; cbn [hp_n hp_base hp_meta hp_al hp_sp small_heap].
  - lia.
  - vm_compute. split; congruence.
  - lia.
  - intros [|[|[|[|k]]]] Hk; try lia; vm_compute; split; congruence.
  - intros [|[|[|[|k]]]] Hk; try lia; vm_compute; split; congruence.
  - intros [|[|[|[|j]]]] [|[|[|[|k]]]] Hj Hk Hne; try lia; vm_compute; (left; congruence) || (right; congruence).
  - intros [|[|[|[|j]]]] [|[|[|[|k]]]] Hj Hk; try lia; vm_compute; (left; congruence) || (right; congruence).
Qed.

Lemma small_held b :
  held small_free ∅ b -> b = (0x80102000, 0%nat) \/ b = (0x80105000, 1%nat) \/ b = (0x80103000, 1%nat).
Proof.
  intros [Hb|Hb]; [|by apply elem_of_empty in Hb]. destruct b as [p [|[|k]]]; unfold free_block in Hb; cbn in Hb.
  - apply list_elem_of_singleton in Hb as ->. tauto.
  - rewrite elem_of_cons, list_elem_of_singleton in Hb. destruct Hb as [-> | ->]; tauto.
  - by apply elem_of_nil in Hb.
Qed.

Lemma small_blocks : blocks small_heap small_free ∅.
Proof.
  split.
  - intros b [-> |[-> | ->]]%small_held; (split; [cbn; lia|]); [exists 1|exists 2|exists 1]; vm_compute; (split; [split; congruence|done]).
  - intros b [-> |[-> | ->]]%small_held; vm_compute; congruence.
  - intros b c [-> |[-> | ->]]%small_held [-> |[-> | ->]]%small_held Hne; try done; vm_compute; (left; congruence) || (right; congruence).
  - intros b _. apply not_elem_of_empty.
Qed.

(** The memory bd_init leaves. *)
Lemma small_lists : lists small_heap small_free (k_mem (res_state small_init)).
Proof.
  split.
  - intros k Hk. cbn in Hk. split.
    + destruct k as [|[|[|[|k]]]]; [vm_compute; tauto..|lia].
    + destruct k as [|[|[|[|k]]]]; [apply (bool_decide_unpack _); vm_compute; exact I..|lia].
    + intros a b Ha Hb Hne. destruct k as [|[|[|[|k]]]]; [..|lia]; cbn in Ha, Hb; rewrite ?elem_of_cons, ?elem_of_nil in Ha, Hb;
        unfold list_of, sz_free, sizeof_sz_info, far in *; cbn in *; lia.
    + intros a Ha. destruct k as [|[|[|[|k]]]]; [..|lia]; cbn in Ha; rewrite ?elem_of_cons, ?elem_of_nil in Ha;
        unfold list_of, sz_free, sizeof_sz_info, node_ok in *; cbn in *; lia.
  - intros k Hk. cbn in Hk. destruct k as [|[|[|[|k]]]]; [vm_compute; reflexivity..|lia].
  - intros k Hk. cbn in Hk. destruct k as [|[|[|[|k]]]]; [lia|vm_compute; reflexivity..|lia].
Qed.

Lemma small_bits : bits small_heap small_free ∅ (k_mem (res_state small_init)).
Proof.
  split.
  - intros b Hb. assert (held small_free ∅ b) as Hh by (by left). apply small_held in Hh as [-> |[-> | ->]]; vm_compute; reflexivity.
  - intros b Hb. by apply elem_of_empty in Hb.
  - intros b [p j] Hb ((Hj & i & Hi & E) & Hlt & H1 & H2). cbn [fst snd] in *.
    apply small_held in Hb as [-> |[-> | ->]]; cbn [fst snd] in *; [lia| |]; (destruct j as [|j]; [|lia]);
      change (bsz 0) with 4096 in *; change (bsz 1) with 8192 in *; cbn [hp_base small_heap] in E.
    + assert (i = 4 \/ i = 5) as [-> | ->] by lia; subst p; vm_compute; reflexivity.
    + assert (i = 2 \/ i = 3) as [-> | ->] by lia; subst p; vm_compute; reflexivity.
Qed.

Lemma small_inv : buddy_inv small_heap small_free ∅ (res_state small_init).
Proof. split; [apply small_heap_ok|vm_compute; reflexivity|apply small_lists|apply small_blocks|apply small_bits]. Qed.


(** A heap of exactly a power of two of pages has no unavailable tail: bd_initfree then looks
    at the bits of a pair of blocks past the end of the heap, which belong to other bitmaps,
    and bd_init stops with a panic. *)
Theorem bd_init_power_of_two :
  match bd_init 0x80100000 0x80108000 boot_kernel with Stop (Panic msg) _ => msg = "bd_init: free mem"%string | _ => False end.
Proof. vm_compute. reflexivity. Qed.
