(* ===== verification/Vm.v ===== *)
(** * kernel/mm/vm.c: page tables and address spaces

    The page-table code, with the copy routines of kernel/proc/proc.c, over any
    page allocator. A page table is its physical address; entries are 64-bit
    words of memory. *)

From S2P Require Import Prelude Mem CString State Spinlock Printf Locks PageAlloc.

(** ** The routines *)

Section Routines.
Context (kalloc : KM Z) (kfree : Z -> KM unit).

(** Tests of the bits of an entry. *)
Definition has (pte bits : Z) : bool := truthy (Z.land pte bits).

(** The loop of walk over the levels 2 and 1; [None] when it returns 0. *)
Fixpoint walk_levels (levels : list Z) (pagetable va alloc : Z) : KM (option Z) :=
  match levels with
  | [] => ret (Some pagetable)
  | level :: levels' =>
      let pte := pagetable + 8 * PX level va in
      let! e := ld64 pte in
      if has e PTE_V then walk_levels levels' (PTE2PA e) va alloc
      else if negb (truthy alloc) then ret None
      else
        let! pagetable := kalloc in
        if pagetable =? 0 then ret None
        else
          do! kmemset pagetable 0 PGSIZE;
          do! st64 pte (Z.lor (PA2PTE pagetable) PTE_V);
          walk_levels levels' pagetable va alloc
  end.

Definition walk (pagetable va alloc : Z) : KM Z :=
  if MAXVA <=? va then panic "walk"
  else
    let! r := walk_levels [2; 1] pagetable va alloc in
    match r with
    | None => ret 0
    | Some pagetable => ret (pagetable + 8 * PX 0 va)
    end.

(** The [for(;;)] of mapPages; [last] is the variable [list]. *)
Fixpoint mapPages_loop (fuel : nat) (pagetable a last pa perm : Z) : KM Z :=
  match fuel with
  | O => halt OutOfFuel
  | S f =>
      let! pte := walk pagetable a 1 in
      if pte =? 0 then ret (-1)
      else
        let! e := ld64 pte in
        if has e PTE_V then panic "mappages: 重复分配页"
        else
          do! st64 pte (Z.lor (Z.lor (PA2PTE pa) perm) PTE_V);
          if a =? last then ret 0
          else mapPages_loop f pagetable (u64 (a + PGSIZE)) last (u64 (pa + PGSIZE)) perm
  end.

Definition mapPages (pagetable va size pa perm : Z) : KM Z :=
  if negb (va mod PGSIZE =? 0) then panic "mappages: 虚拟地址VA没有对齐"
  else if negb (size mod PGSIZE =? 0) then panic "mappages: 大小SIZE没有对齐"
  else if size =? 0 then panic "mappages: 大小SIZE为0"
  else
    mapPages_loop (Z.to_nat (size / PGSIZE)) pagetable va (u64 (va + size - PGSIZE)) pa perm.

Definition kVmMap (kpgtbl va pa sz perm : Z) : KM unit :=
  let! r := mapPages kpgtbl va sz pa perm in
  when! negb (r =? 0) then panic "kVmmap".

(** proc_mapstacks (kernel/proc/proc.c): a kernel stack for every process. *)
Definition proc_mapstacks (kpgtbl : Z) : KM unit :=
  foreach (Z.of_nat <$> seq 0 (Z.to_nat NPROC)) (fun p =>
    let! pa := kalloc in
    if pa =? 0 then panic "proc_mapstacks: 内核分配进程栈时空间不足分配失败"
    else kVmMap kpgtbl (KSTACK p) pa PGSIZE (Z.lor PTE_R PTE_W)).

Definition kVmMake {L : Layout} : KM Z :=
  let! kpgtbl := kalloc in
  do! kmemset kpgtbl 0 PGSIZE;
  do! kVmMap kpgtbl UART0 UART0 PGSIZE (Z.lor PTE_R PTE_W);
  do! kVmMap kpgtbl VIRTIO0 VIRTIO0 PGSIZE (Z.lor PTE_R PTE_W);
  do! kVmMap kpgtbl PLIC PLIC 0x4000000 (Z.lor PTE_R PTE_W);
  do! kVmMap kpgtbl KERNBASE KERNBASE (etext - KERNBASE) (Z.lor PTE_R PTE_X);
  do! kVmMap kpgtbl etext etext (PHYSTOP - etext) (Z.lor PTE_R PTE_W);
  do! kVmMap kpgtbl TRAMPOLINE trampoline PGSIZE (Z.lor PTE_R PTE_X);
  do! proc_mapstacks kpgtbl;
  ret kpgtbl.

Definition kVmInit {L : Layout} : KM unit :=
  let! t := kVmMake in
  modify (set_kpgtbl t).

Definition uVmCreate : KM Z :=
  let! pagetable := kalloc in
  if pagetable =? 0 then ret 0
  else
    do! kmemset pagetable 0 PGSIZE;
    ret pagetable.

Definition uvmclear (pagetable va : Z) : KM unit :=
  let! pte := walk pagetable va 0 in
  if pte =? 0 then panic "uvmclear"
  else
    let! e := ld64 pte in
    st64 pte (Z.land e (Z.lnot PTE_U)).

Definition ismapped (pagetable va : Z) : KM Z :=
  let! pte := walk pagetable va 0 in
  if pte =? 0 then ret 0
  else
    let! e := ld64 pte in
    if has e PTE_V then ret 1 else ret 0.

Definition uVA2PA (pagetable va : Z) : KM Z :=
  if MAXVA <=? va then ret 0
  else
    let! pte := walk pagetable va 0 in
    if pte =? 0 then ret 0
    else
      let! e := ld64 pte in
      if negb (has e PTE_V) then ret 0
      else if negb (has e PTE_U) then ret 0
      else ret (PTE2PA e).

Definition vmfault (pagetable va read : Z) : KM Z :=
  let! p := myproc in
  let! sz := proc_get p p_sz in
  if sz <=? va then ret 0
  else
    let va := PGROUNDDOWN va in
    let! m := ismapped pagetable va in
    if truthy m then ret 0
    else
      let! mem := kalloc in
      if mem =? 0 then ret 0
      else
        do! kmemset mem 0 PGSIZE;
        let! t := proc_get p p_pagetable in
        let! r := mapPages t va PGSIZE mem (Z.lor (Z.lor PTE_W PTE_U) PTE_R) in
        if negb (r =? 0) then do! kfree mem; ret 0
        else ret mem.

(** One entry of the loop of uVmUnmap. *)
Definition unmap_page (pagetable a do_free : Z) : KM unit :=
  let! pte := walk pagetable a 0 in
  if pte =? 0 then ret tt
  else
    let! e := ld64 pte in
    if negb (has e PTE_V) then ret tt
    else
      do! (when! truthy do_free then kfree (PTE2PA e));
      st64 pte 0.

Fixpoint uVmUnmap_loop (fuel : nat) (pagetable a last do_free : Z) : KM unit :=
  match fuel with
  | O => halt OutOfFuel
  | S f =>
      if a <? last
      then do! unmap_page pagetable a do_free;
           uVmUnmap_loop f pagetable (u64 (a + PGSIZE)) last do_free
      else ret tt
  end.

Definition uVmUnmap (pagetable va npages do_free : Z) : KM unit :=
  if negb (va mod PGSIZE =? 0) then panic "uvmunmap: not aligned"
  else
    uVmUnmap_loop (S (Z.to_nat npages)) pagetable va (u64 (va + npages * PGSIZE)) do_free.

(** freePgtbl calls itself on the tables of the next level: [depth] levels. *)
Fixpoint freePgtbl (depth : nat) (pagetable : Z) : KM unit :=
  match depth with
  | O => halt OutOfFuel
  | S d =>
      do! foreach (Z.of_nat <$> seq 0 512) (fun i =>
        let! pte := ld64 (pagetable + 8 * i) in
        if has pte PTE_V && negb (has pte (Z.lor (Z.lor PTE_R PTE_W) PTE_X)) then
          do! freePgtbl d (PTE2PA pte);
          st64 (pagetable + 8 * i) 0
        else when! has pte PTE_V then
          panic "freePgtbl: 释放页表前应该保证所有的叶子节点都被释放并且对应的物理地址被释放,否则会出现内存泄漏");
      kfree pagetable
  end.

(** The depth of a Sv39 table. *)
Definition DEPTH : nat := 3.

Definition uVmFree (pagetable sz : Z) : KM unit :=
  do! (when! 0 <? sz then uVmUnmap pagetable 0 (PGROUNDUP sz / PGSIZE) 1);
  freePgtbl DEPTH pagetable.

(** The loop of uvmcopy, with the code at [err]. *)
Definition uvmcopy_err (new i : Z) : KM Z :=
  do! uVmUnmap new 0 (i / PGSIZE) 1;
  ret (-1).

Fixpoint uvmcopy_loop (fuel : nat) (old new i sz : Z) : KM Z :=
  match fuel with
  | O => halt OutOfFuel
  | S f =>
      if i <? sz then
        let! pte := walk old i 0 in
        if pte =? 0 then uvmcopy_loop f old new (u64 (i + PGSIZE)) sz
        else
          let! e := ld64 pte in
          if negb (has e PTE_V) then uvmcopy_loop f old new (u64 (i + PGSIZE)) sz
          else
            let! mem := kalloc in
            if mem =? 0 then uvmcopy_err new i
            else
              do! kmemmove mem (PTE2PA e) PGSIZE;
              let! r := mapPages new i PGSIZE mem (PTE_FLAGS e) in
              if negb (r =? 0) then do! kfree mem; uvmcopy_err new i
              else uvmcopy_loop f old new (u64 (i + PGSIZE)) sz
      else ret 0
  end.

Definition uvmcopy (old new sz : Z) : KM Z :=
  uvmcopy_loop (S (Z.to_nat (PGROUNDUP sz / PGSIZE))) old new 0 sz.

Fixpoint uVmAlloc_loop (fuel : nat) (pagetable a oldsz newsz xperm : Z) : KM Z :=
  match fuel with
  | O => halt OutOfFuel
  | S f =>
      if a <? newsz then
        let! mem := kalloc in
        if mem =? 0 then do! uVmFree pagetable oldsz; ret 0
        else
          do! kmemset mem 0 PGSIZE;
          let! r := mapPages pagetable a PGSIZE mem (Z.lor (Z.lor PTE_U PTE_R) xperm) in
          if negb (r =? 0) then
            do! kfree mem;
            do! uVmFree pagetable oldsz;
            ret 0
          else uVmAlloc_loop f pagetable (u64 (a + PGSIZE)) oldsz newsz xperm
      else ret newsz
  end.

Definition uVmAlloc (pagetable oldsz newsz xperm : Z) : KM Z :=
  if newsz <? oldsz then ret oldsz
  else
    let oldsz := PGROUNDUP oldsz in
    uVmAlloc_loop (S (Z.to_nat ((newsz - oldsz + PGSIZE - 1) / PGSIZE)))
      pagetable oldsz oldsz newsz xperm.

Definition uVmDealloc (pagetable oldsz newsz : Z) : KM Z :=
  if oldsz <=? newsz then ret oldsz
  else
    do! (when! PGROUNDUP newsz <? PGROUNDUP oldsz then
           let npages := s32 ((PGROUNDUP oldsz - PGROUNDUP newsz) / PGSIZE) in
           uVmUnmap pagetable (PGROUNDUP newsz) (u64 npages) 1);
    ret newsz.

(** The loop of checkUserPtr. *)
Fixpoint check_loop (fuel : nat) (pagetable va end_va is_write : Z) : KM Z :=
  match fuel with
  | O => halt OutOfFuel
  | S f =>
      if va <? end_va then
        let! pte := walk pagetable va 0 in
        if pte =? 0 then ret (-1)
        else
          let! e := ld64 pte in
          if negb (has e PTE_V) || negb (has e PTE_U) then ret (-1)
          else if truthy is_write && negb (has e PTE_W) then ret (-1)
          else check_loop f pagetable (u64 (va + PGSIZE)) end_va is_write
      else ret 0
  end.

Definition checkUserPtr (userva size is_write : Z) : KM Z :=
  let! p := myproc in
  let end_va := u64 (userva + size) in
  if end_va <? userva then ret (-1)
  else
    let! sz := proc_get p p_sz in
    if (sz <? end_va) || (MAXVA <? end_va) then ret (-1)
    else
      let! t := proc_get p p_pagetable in
      check_loop (S (Z.to_nat ((end_va - PGROUNDDOWN userva + PGSIZE - 1) / PGSIZE)))
        t (PGROUNDDOWN userva) end_va is_write.

(** ** Address spaces of processes (kernel/proc/proc.c) *)

Definition uFreeUserVM (pagetable sz : Z) : KM unit :=
  do! uVmUnmap pagetable TRAMPOLINE 1 0;
  do! uVmUnmap pagetable TRAPFRAME 1 0;
  uVmFree pagetable sz.

(** procPagetable, given [p->trapframe]. *)
Definition procPagetable {L : Layout} (trapframe : Z) : KM Z :=
  let! pagetable := uVmCreate in
  if pagetable =? 0 then ret 0
  else
    let! r := mapPages pagetable TRAMPOLINE PGSIZE trampoline (Z.lor PTE_R PTE_X) in
    if r <? 0 then
      do! uVmFree pagetable 0;
      ret 0
    else
      let! r := mapPages pagetable TRAPFRAME PGSIZE trapframe (Z.lor PTE_R PTE_W) in
      if r <? 0 then
        do! uVmUnmap pagetable TRAMPOLINE 1 0;
        do! uVmFree pagetable 0;
        ret 0
      else ret pagetable.

(** ** Copies between user and kernel memory *)

(** The number of bytes of [len] that lie in the page of [va]. *)
Definition chunk (va va0 len : Z) : Z :=
  let n := PGSIZE - (va - va0) in if len <? n then len else n.

Fixpoint copyin_loop (fuel : nat) (pagetable dst srcva len : Z) : KM Z :=
  match fuel with
  | O => halt OutOfFuel
  | S f =>
      if 0 <? len then
        let va0 := PGROUNDDOWN srcva in
        let! pa0 := uVA2PA pagetable va0 in
        let! pa0 := (if pa0 =? 0 then vmfault pagetable va0 0 else ret pa0) in
        if pa0 =? 0 then ret (-1)
        else
          let n := chunk srcva va0 len in
          do! kmemmove dst (pa0 + (srcva - va0)) n;
          copyin_loop f pagetable (dst + n) (u64 (va0 + PGSIZE)) (len - n)
      else ret 0
  end.

(** Enough turns for [len] bytes: each turn but the first starts a page. *)
Definition copy_fuel (len : Z) : nat := S (S (Z.to_nat ((len + PGSIZE - 1) / PGSIZE))).

Definition copyin (pagetable dst srcva len : Z) : KM Z :=
  copyin_loop (copy_fuel len) pagetable dst srcva len.

(** copyout ignores the page vmfault returns: [pa0] stays 0 then. *)
Fixpoint copyout_loop (fuel : nat) (pagetable va src len : Z) : KM Z :=
  match fuel with
  | O => halt OutOfFuel
  | S f =>
      if 0 <? len then
        let va0 := PGROUNDDOWN va in
        if MAXVA <=? va0 then ret (-1)
        else
          let! pa0 := uVA2PA pagetable va0 in
          let! faulted := (if pa0 =? 0 then vmfault pagetable va0 0 else ret 1) in
          if faulted =? 0 then ret (-1)
          else
            let! pte := walk pagetable va0 0 in
            if pte =? 0 then halt (Undefined "copyout: null pte")
            else
              let! e := ld64 pte in
              if negb (has e PTE_W) then ret (-1)
              else
                let n := chunk va va0 len in
                do! kmemmove (pa0 + (va - va0)) src n;
                copyout_loop f pagetable (u64 (va0 + PGSIZE)) (src + n) (len - n)
      else ret 0
  end.

Definition copyout (pagetable va src len : Z) : KM Z :=
  copyout_loop (copy_fuel len) pagetable va src len.

Definition either_copyout (user_dst dst src len : Z) : KM Z :=
  let! p := myproc in
  if truthy user_dst then
    let! t := proc_get p p_pagetable in copyout t dst src len
  else do! kmemmove dst src len; ret 0.

Definition either_copyin (dst user_src src len : Z) : KM Z :=
  let! p := myproc in
  if truthy user_src then
    let! t := proc_get p p_pagetable in copyin t dst src len
  else do! kmemmove dst src len; ret 0.

(** The inner loop of copyinstr over [n] bytes: whether it met the null byte,
    and the pointers and counter it leaves. *)
Fixpoint copystr_chunk (n : nat) (p dst max : Z) : KM (bool * Z * Z) :=
  match n with
  | O => ret (false, dst, max)
  | S n' =>
      let! c := ld8 p in
      if c =? 0 then do! st8 dst 0; ret (true, dst, max)
      else do! st8 dst c; copystr_chunk n' (p + 1) (dst + 1) (max - 1)
  end.

Fixpoint copyinstr_loop (fuel : nat) (pagetable dst srcva max : Z) : KM Z :=
  match fuel with
  | O => halt OutOfFuel
  | S f =>
      if 0 <? max then
        let va0 := PGROUNDDOWN srcva in
        let! pa0 := uVA2PA pagetable va0 in
        if pa0 =? 0 then ret (-1)
        else
          let n := chunk srcva va0 max in
          let! ' (got_null, dst, max) :=
            copystr_chunk (Z.to_nat n) (pa0 + (srcva - va0)) dst max in
          if (got_null : bool) then ret 0
          else copyinstr_loop f pagetable dst (u64 (va0 + PGSIZE)) max
      else ret (-1)
  end.

Definition copyinstr (pagetable dst srcva max : Z) : KM Z :=
  copyinstr_loop (copy_fuel max) pagetable dst srcva max.

End Routines.
