(* ===== verification/PageTable.v ===== *)
(** * Page tables as trees

    The abstract view of a Sv39 page table: the tables of its tree, named by the
    path of indices that leads to them, and its leaf entries, named by the path
    of three indices of the virtual address. [pt_wf] says that memory holds such
    a table. *)

From S2P Require Import Prelude Mem CString State Spinlock Printf Locks PageAlloc Vm.

#[global] Arguments load64 : simpl never.
#[global] Arguments store64 : simpl never.
#[global] Arguments rd8 : simpl never.
#[global] Arguments wr8 : simpl never.
#[global] Arguments has : simpl never.

(** ** Entries and indices *)

Lemma PX_spec level va : 0 <= level -> PX level va = (va / 2 ^ (12 + 9 * level)) mod 512.
Proof.
  intros H. unfold PX, PXSHIFT, PGSHIFT, PXMASK. change 0x1FF with (Z.ones 9).
  rewrite Z.land_ones, Z.shiftr_div_pow2 by lia. done.
Qed.

Lemma PX_range level va : 0 <= level -> 0 <= PX level va < 512.
Proof. intros H. rewrite PX_spec by done. apply Z.mod_pos_bound. lia. Qed.

(** The path of a virtual address. *)
Definition path (va : Z) : list Z := [PX 2 va; PX 1 va; PX 0 va].

Lemma path_inj va va' :
  0 <= va < MAXVA -> 0 <= va' < MAXVA -> va mod PGSIZE = 0 -> va' mod PGSIZE = 0 ->
  path va = path va' -> va = va'.
Proof.
  unfold path. intros H1 H2 H3 H4 [= E2 E1 E0].
  rewrite !PX_spec in * by lia. cbn in E2, E1, E0.
  change MAXVA with 274877906944 in *. unfold PGSIZE in *.
  change (Z.pow_pos 2 30) with 1073741824 in *. change (Z.pow_pos 2 21) with 2097152 in *.
  change (Z.pow_pos 2 12) with 4096 in *. zdm.
Qed.

(** A physical page address that fits the 44-bit page number of an entry. *)
Definition page_addr (p : Z) : Prop := p mod PGSIZE = 0 /\ 0 < p < 2 ^ 56.

Lemma pool_page_addr base p : KERNBASE <= base -> pool_page base p -> page_addr p.
Proof. unfold pool_page, page_addr, PHYSTOP, KERNBASE, PGSIZE. lia. Qed.

Lemma PA2PTE_spec p : page_addr p -> PA2PTE p = p / 4096 * 1024.
Proof.
  intros [H1 H2]. unfold PA2PTE, PGSIZE in *. rewrite Z.shiftr_div_pow2, Z.shiftl_mul_pow2 by lia.
  apply u64_small. change (2 ^ 12) with 4096. change (2 ^ 10) with 1024.
  change (2 ^ 56) with 72057594037927936 in *. change (2 ^ 64) with 18446744073709551616. zdm.
Qed.

(** An entry as mapPages and walk build it. *)
Definition mk_pte (p perm : Z) : Z := Z.lor (Z.lor (PA2PTE p) perm) PTE_V.

#[global] Arguments mk_pte : simpl never.

Lemma mk_pte_range p perm : page_addr p -> 0 <= perm < 1024 -> 0 <= mk_pte p perm < 2 ^ 64.
Proof.
  intros Hp Hq. pose proof Hp as [H1 H2]. unfold mk_pte. rewrite PA2PTE_spec by done.
  assert (0 <= p / 4096 * 1024 < 2 ^ 54) as H.
  { unfold PGSIZE in *. change (2 ^ 54) with 18014398509481984.
    change (2 ^ 56) with 72057594037927936 in *. zdm. }
  assert (forall x, 0 <= x < 2 ^ 54 -> x = 0 \/ Z.log2 x < 54) as Hlog.
  { intros x Hx. destruct (decide (x = 0)); [by left|right]. apply Z.log2_lt_pow2; lia. }
  assert (0 <= PTE_V) as HV by done. split; [rewrite !Z.lor_nonneg; lia|].
  destruct (Z.eq_dec (Z.lor (Z.lor (p / 4096 * 1024) perm) PTE_V) 0) as [->|Hne]; [done|].
  apply Z.log2_lt_pow2; [cut (0 <= Z.lor (Z.lor (p / 4096 * 1024) perm) PTE_V); [lia|rewrite !Z.lor_nonneg; lia]|].
  rewrite !Z.log2_lor by (rewrite ?Z.lor_nonneg; lia).
  apply Z.max_lub_lt; [apply Z.max_lub_lt|by vm_compute].
  - destruct (Hlog _ H) as [->|]; [by vm_compute|lia].
  - destruct (Hlog perm) as [->|]; [|by vm_compute|lia].
    change (2 ^ 54) with 18014398509481984. lia.
Qed.

Lemma PTE2PA_mk_pte p perm : page_addr p -> 0 <= perm < 1024 -> PTE2PA (mk_pte p perm) = p.
Proof.
  intros Hp Hq. pose proof Hp as [H1 H2]. unfold PTE2PA, mk_pte. rewrite PA2PTE_spec by done.
  rewrite !Z.shiftr_lor. rewrite (Z.shiftr_div_pow2 perm), (Z.div_small perm) by lia.
  rewrite (Z.shiftr_div_pow2 (p / 4096 * 1024)) by lia. change (2 ^ 10) with 1024.
  rewrite Z.div_mul by lia. change (Z.shiftr PTE_V 10) with 0. rewrite !Z.lor_0_r.
  rewrite Z.shiftl_mul_pow2 by lia. change (2 ^ 12) with 4096. unfold PGSIZE in *.
  rewrite u64_small; [zdm|]. change (2 ^ 56) with 72057594037927936 in *.
  change (2 ^ 64) with 18446744073709551616. zdm.
Qed.

Lemma has_testbit e k : 0 <= k -> has e (2 ^ k) = Z.testbit e k.
Proof.
  intros Hk. unfold has, truthy. destruct (Z.testbit e k) eqn:E.
  - apply negb_true_iff, Z.eqb_neq. intros H.
    apply (f_equal (fun z => Z.testbit z k)) in H.
    by rewrite Z.land_spec, E, Z.pow2_bits_true, Z.testbit_0_l in H.
  - apply negb_false_iff, Z.eqb_eq. apply Z.bits_inj'. intros n Hn.
    rewrite Z.land_spec, Z.testbit_0_l, Z.pow2_bits_eqb by done.
    destruct (Z.eqb_spec k n) as [<-|]; [by rewrite E|apply andb_false_r].
Qed.

Lemma has_V_mk_pte p perm : has (mk_pte p perm) PTE_V = true.
Proof.
  change PTE_V with (2 ^ 0). rewrite has_testbit by lia. unfold mk_pte.
  rewrite Z.lor_spec. by rewrite orb_true_r.
Qed.

(** The flag bits of an entry are those of [perm]. *)
Lemma has_mk_pte p perm k :
  page_addr p -> 0 < k < 10 -> has (mk_pte p perm) (2 ^ k) = Z.testbit perm k.
Proof.
  intros Hp Hk. rewrite has_testbit by lia. unfold mk_pte. rewrite !Z.lor_spec, PA2PTE_spec by done.
  rewrite <- (Z.shiftl_mul_pow2 _ 10) by lia. rewrite Z.shiftl_spec_low by lia.
  change PTE_V with (2 ^ 0). rewrite Z.pow2_bits_false by lia. by rewrite orb_false_r.
Qed.

Lemma mk_pte_table p : Z.lor (PA2PTE p) PTE_V = mk_pte p 0.
Proof. unfold mk_pte. by rewrite Z.lor_0_r. Qed.

Lemma has_0 bits : has 0 bits = false.
Proof. done. Qed.

(** ** The tree *)

Record pt := { nodes : gmap (list Z) Z; leaves : gmap (list Z) Z }.

(** The entry [i] of the table at path [π]. *)
Definition entry (T : pt) (π : list Z) (i : Z) : Z :=
  if decide (length π = 2%nat) then default 0 (leaves T !! (π ++ [i]))
  else match nodes T !! (π ++ [i]) with Some q => mk_pte q 0 | None => 0 end.

(** The pages of the tables. *)
Definition tables (T : pt) : gset Z := map_img (nodes T).

Record pt_wf (base root : Z) (T : pt) (m : mem) : Prop := {
  pt_root : nodes T !! [] = Some root;
  pt_page : forall π p, nodes T !! π = Some p -> pool_page base p;
  pt_len : forall π p, nodes T !! π = Some p -> (length π <= 2)%nat;
  pt_inj : forall π π' p, nodes T !! π = Some p -> nodes T !! π' = Some p -> π = π';
  pt_parent : forall π i p, nodes T !! (π ++ [i]) = Some p -> is_Some (nodes T !! π) /\ 0 <= i < 512;
  pt_leaf : forall π e, leaves T !! π = Some e ->
    exists π' i, π = π' ++ [i] /\ length π' = 2%nat /\ is_Some (nodes T !! π') /\ 0 <= i < 512 /\
      0 <= e < 2 ^ 64 /\ has e PTE_V = true;
  pt_mem : forall π p i, nodes T !! π = Some p -> 0 <= i < 512 ->
    load64 m (p + 8 * i) = entry T π i
}.

Lemma elem_of_tables T p : p ∈ tables T <-> exists π, nodes T !! π = Some p.
Proof. apply elem_of_map_img. Qed.

Lemma in_page_entry p i k : 0 <= i < 512 -> p + 8 * i <= k < p + 8 * i + 8 -> in_page p k.
Proof. unfold in_page, PGSIZE. lia. Qed.

Lemma pt_wf_mem base root T m m' :
  pt_wf base root T m ->
  (forall p a, p ∈ tables T -> in_page p a -> rd8 m' a = rd8 m a) -> pt_wf base root T m'.
Proof.
  intros [H1 H2 H3 H4 H5 H6 H7] Hm. split; try done. intros π p i Hp Hi.
  rewrite <- (H7 π p i Hp Hi). apply load64_ext. intros k Hk. apply (Hm p).
  - apply elem_of_tables. by exists π.
  - by eapply in_page_entry.
Qed.

(** The word of another entry of the tree does not move when one is stored. *)
Lemma pt_store_other base root T m π p i v π' p' i' :
  pt_wf base root T m -> nodes T !! π = Some p -> nodes T !! π' = Some p' ->
  0 <= i < 512 -> 0 <= i' < 512 -> (π, i) <> (π', i') ->
  load64 (store64 m (p + 8 * i) v) (p' + 8 * i') = load64 m (p' + 8 * i').
Proof.
  intros Hw Hp Hp' Hi Hi' Hne. apply load64_store64_ne.
  destruct (decide (p = p')) as [<-|Hpp].
  - pose proof (pt_inj _ _ _ _ Hw _ _ _ Hp Hp') as <-.
    assert (i <> i') by (intros ->; done). lia.
  - pose proof (pt_page _ _ _ _ Hw _ _ Hp) as P1. pose proof (pt_page _ _ _ _ Hw _ _ Hp') as P2.
    destruct (pool_pages_disjoint base p p' (p + 8 * i)); [done..| | |];
      unfold in_page, pool_page, PGSIZE in *; zdm.
Qed.

Definition set_leaf (π : list Z) (e : Z) (T : pt) : pt :=
  {| nodes := nodes T; leaves := <[π := e]> (leaves T) |}.
Definition del_leaf (π : list Z) (T : pt) : pt :=
  {| nodes := nodes T; leaves := delete π (leaves T) |}.
Definition add_node (π : list Z) (q : Z) (T : pt) : pt :=
  {| nodes := <[π := q]> (nodes T); leaves := leaves T |}.

Lemma snoc_inj {A} (π π' : list A) i i' : π ++ [i] = π' ++ [i'] -> π = π' /\ i = i'.
Proof. intros H. apply app_inj_2 in H as [? [=]]; done. Qed.

Lemma pt_set_leaf base root T m π p i e :
  pt_wf base root T m -> nodes T !! π = Some p -> length π = 2%nat -> 0 <= i < 512 ->
  0 <= e < 2 ^ 64 -> has e PTE_V = true ->
  pt_wf base root (set_leaf (π ++ [i]) e T) (store64 m (p + 8 * i) e).
Proof.
  intros Hw Hp Hl Hi He HV. pose proof Hw as [H1 H2 H3 H4 H5 H6 H7]. split; try done.
  - intros π' e'. cbn. rewrite lookup_insert_Some. intros [[<- <-]|[_ H]]; [|by apply H6].
    exists π, i. split_and!; done || lia.
  - intros π' p' i' Hp' Hi'. cbn in Hp'. unfold entry. cbn.
    destruct (decide ((π, i) = (π', i'))) as [[= <- <-]|Hne].
    + rewrite Hp in Hp'. injection Hp' as <-. rewrite decide_True by done.
      rewrite load64_store64, lookup_insert_eq. by rewrite u64_small.
    + rewrite (pt_store_other base root T m π p i e π' p' i'), (H7 _ _ _ Hp' Hi') by done.
      unfold entry. case_decide; [|done]. rewrite lookup_insert_ne; [done|].
      intros Hc%snoc_inj. naive_solver.
Qed.

Lemma pt_del_leaf base root T m π p i :
  pt_wf base root T m -> nodes T !! π = Some p -> length π = 2%nat -> 0 <= i < 512 ->
  pt_wf base root (del_leaf (π ++ [i]) T) (store64 m (p + 8 * i) 0).
Proof.
  intros Hw Hp Hl Hi. pose proof Hw as [H1 H2 H3 H4 H5 H6 H7]. split; try done.
  - intros π' e'. cbn. rewrite lookup_delete_Some. intros [_ H]. by apply H6.
  - intros π' p' i' Hp' Hi'. cbn in Hp'. unfold entry. cbn.
    destruct (decide ((π, i) = (π', i'))) as [[= <- <-]|Hne].
    + rewrite Hp in Hp'. injection Hp' as <-. rewrite decide_True by done.
      by rewrite load64_store64, lookup_delete_eq.
    + rewrite (pt_store_other base root T m π p i 0 π' p' i'), (H7 _ _ _ Hp' Hi') by done.
      unfold entry. case_decide; [|done]. rewrite lookup_delete_ne; [done|].
      intros Hc%snoc_inj. naive_solver.
Qed.

(** A zeroed page hung into the tree. *)
Lemma pt_add_node base root T m π p i q :
  KERNBASE <= base ->
  pt_wf base root T m -> nodes T !! π = Some p -> (length π < 2)%nat -> 0 <= i < 512 ->
  nodes T !! (π ++ [i]) = None -> pool_page base q -> q ∉ tables T ->
  (forall a, in_page q a -> rd8 m a = 0) ->
  pt_wf base root (add_node (π ++ [i]) q T) (store64 m (p + 8 * i) (mk_pte q 0)).
Proof.
  intros Hb Hw Hp Hl Hi Hnone Hq Hqt Hz. pose proof Hw as [H1 H2 H3 H4 H5 H6 H7].
  assert (forall π', nodes T !! π' <> Some q) as Hq'.
  { intros π' Hc. apply Hqt. apply elem_of_tables. by exists π'. }
  assert (forall i', nodes T !! ((π ++ [i]) ++ [i']) = None) as Hsub.
  { intros i'. destruct (nodes T !! ((π ++ [i]) ++ [i'])) as [x|] eqn:E; [|done].
    apply H5 in E as [[y E] _]. congruence. }
  split; cbn.
  - rewrite lookup_insert_ne; [done|]. by destruct π.
  - intros π' p'. rewrite lookup_insert_Some. intros [[_ <-]|[_ ?]]; [done|eauto].
  - intros π' p'. rewrite lookup_insert_Some. intros [[<- _]|[_ ?]]; [|eauto].
    rewrite length_app. cbn. lia.
  - intros π1 π2 p'. rewrite !lookup_insert_Some.
    intros [[<- <-]|[_ ?]] [[<- ?]|[_ ?]]; subst; try done; [by exfalso; eapply Hq'..|eauto].
  - intros π' i' p'. rewrite lookup_insert_Some. intros [[E _]|[Hne E]].
    + apply snoc_inj in E as [<- <-]. split; [|done]. rewrite lookup_insert_ne; [by exists p|].
      intros Hc. apply (f_equal length) in Hc. rewrite length_app in Hc. cbn in Hc. lia.
    + apply H5 in E as [Hs ?]. split; [|done]. destruct (decide (π ++ [i] = π')) as [<-|].
      * rewrite lookup_insert_eq. by eexists.
      * by rewrite lookup_insert_ne.
  - intros π' e E. destruct (H6 _ _ E) as (π1 & i1 & -> & Hl1 & Hs & ?). exists π1, i1.
    do 2 (split; [done|]). split; [|done]. destruct (decide (π ++ [i] = π1)) as [<-|].
    + rewrite lookup_insert_eq. by eexists.
    + by rewrite lookup_insert_ne.
  - intros π' p' i' Hp' Hi'. unfold entry. cbn. apply lookup_insert_Some in Hp' as [[<- <-]|[Hne Hp']].
    + assert (load64 (store64 m (p + 8 * i) (mk_pte q 0)) (q + 8 * i') = 0) as ->.
      { assert (p <> q) as Hpq by (intros ->; by eapply Hq').
        rewrite load64_store64_ne.
        - apply load64_zero. intros k Hk. apply Hz. by eapply in_page_entry.
        - pose proof (H2 _ _ Hp) as P1. destruct (pool_pages_disjoint base p q (p + 8 * i)); [done..| | |];
            unfold in_page, pool_page, PGSIZE in *; zdm. }
      case_decide as Hd.
      * destruct (leaves T !! ((π ++ [i]) ++ [i'])) as [e|] eqn:E; [|done].
        destruct (H6 _ _ E) as (π1 & i1 & Epi & _ & [y Hy] & _). apply snoc_inj in Epi as [<- <-].
        congruence.
      * rewrite lookup_insert_ne.
        -- by rewrite Hsub.
        -- intros Hc. apply (f_equal length) in Hc. rewrite !length_app in Hc. cbn in Hc. lia.
    + destruct (decide ((π, i) = (π', i'))) as [[= <- <-]|Hne'].
      * rewrite Hp in Hp'. injection Hp' as <-. rewrite decide_False by lia.
        rewrite load64_store64, lookup_insert_eq. apply u64_small. apply mk_pte_range; [|lia].
        by eapply pool_page_addr.
      * rewrite (pt_store_other base root T m π p i _ π' p' i'), (H7 _ _ _ Hp' Hi') by done.
        unfold entry. case_decide; [done|]. rewrite lookup_insert_ne; [done|].
        intros Hc%snoc_inj. naive_solver.
Qed.
