(* ===== verification/VmMap.v ===== *)
(** * Walking, mapping and unmapping

    The page-table routines of kernel/mm/vm.c act on the tree of [PageTable] the
    way their names say. Everything is proved over the interface
    [PageAllocator]. *)

From S2P Require Import Prelude Mem CString State Spinlock Printf Locks PageAlloc Vm PageTable.

#[global] Arguments set_mem : simpl never.

Lemma k_mem_set_mem m s : k_mem (set_mem m s) = m.
Proof. done. Qed.

(** Memory changes only in the allocator's page and in pages of [P]. *)
Definition frame (base : Z) (P : gset Z) (m m' : mem) : Prop :=
  forall a, ~ in_page base a -> (forall p, p ∈ P -> ~ in_page p a) -> rd8 m' a = rd8 m a.

Lemma frame_refl base P m : frame base P m m.
Proof. by intros a. Qed.

Lemma frame_trans base P m1 m2 m3 : frame base P m1 m2 -> frame base P m2 m3 -> frame base P m1 m3.
Proof. intros H1 H2 a Hb HP. rewrite H2, H1; done. Qed.

Lemma frame_mono base P P' m m' : P ⊆ P' -> frame base P m m' -> frame base P' m m'.
Proof. intros Hs H a Hb HP. apply H; [done|]. intros p Hp. apply HP. set_solver. Qed.

Lemma frame_store64 base P m p i v :
  p ∈ P -> 0 <= i < 512 -> frame base P m (store64 m (p + 8 * i) v).
Proof.
  intros Hp Hi a _ HP. apply rd8_store64_ne. specialize (HP p Hp). unfold in_page, PGSIZE in HP. lia.
Qed.

Lemma frame_memset base P m p c : p ∈ P -> frame base P m (memset m p c PGSIZE).
Proof.
  intros Hp a _ HP. rewrite rd8_memset by done. specialize (HP p Hp). unfold in_page in HP. zcases.
Qed.

Definition vm_step (base : Z) (P : gset Z) (s s' : kernel) : Prop :=
  mem_step s s' /\ frame base P (k_mem s) (k_mem s').

Lemma vm_step_refl base P s : vm_step base P s s.
Proof. split; [apply mem_step_refl|apply frame_refl]. Qed.

Lemma vm_step_trans base P s1 s2 s3 :
  vm_step base P s1 s2 -> vm_step base P s2 s3 -> vm_step base P s1 s3.
Proof. intros [? ?] [? ?]. split; [by eapply mem_step_trans|by eapply frame_trans]. Qed.

Lemma vm_step_mono base P P' s s' : P ⊆ P' -> vm_step base P s s' -> vm_step base P' s s'.
Proof. intros ? [? ?]. split; [done|by eapply frame_mono]. Qed.

Lemma vm_step_mem base P m s : frame base P (k_mem s) m -> vm_step base P s (set_mem m s).
Proof. intros H. split; [apply mem_step_set_mem|done]. Qed.

(** The prefixes of the path of [va]: the tables walk visits below the root. *)
Definition prefixes (va : Z) : gset (list Z) := {[ [PX 2 va]; [PX 2 va; PX 1 va] ]}.

Section VmMap.
Context {kalloc : KM Z} {kfree : Z -> KM unit} {PA : PageAllocator kalloc kfree}.

#[local] Abbreviation walk_levels := (walk_levels kalloc).
#[local] Abbreviation walk := (walk kalloc).

(** The kernel owns a table: the allocator is ready, memory holds the tree, and
    no table of the tree is free. *)
Record vm_ok (base : Z) (F : gset Z) (root : Z) (T : pt) (s : kernel) : Prop := {
  vm_alloc : pa_inv base F s;
  vm_wf : pt_wf base root T (k_mem s);
  vm_own : F ## tables T
}.

(** The tables and the free pages: what mapping may touch. *)
Definition foot (F : gset Z) (T : pt) : gset Z := F ∪ tables T.

(** ** Writing where the client may write *)

Lemma pool_no_alloc base F s p a :
  pa_inv base F s -> pool_page base p -> p ∉ F -> in_page p a -> ~ allocator_byte base F a.
Proof.
  intros Hpa Hp HF Ha [Hb|(q & Hq & Hin)].
  - by eapply pool_not_base.
  - pose proof (pa_pool base F s q Hpa Hq). eapply (pool_not_in base p q); try done. by intros ->.
Qed.

Lemma pa_write_page base F s p m :
  pa_inv base F s -> pool_page base p -> p ∉ F ->
  (forall a, ~ in_page p a -> rd8 m a = rd8 (k_mem s) a) -> pa_inv base F (set_mem m s).
Proof.
  intros Hpa Hp HF Hm. apply pa_write; [done|]. intros a Ha. apply Hm. intros Hin.
  by eapply (pool_no_alloc base F s p a).
Qed.

Lemma pa_store64 base F s p i v :
  pa_inv base F s -> pool_page base p -> p ∉ F -> 0 <= i < 512 ->
  pa_inv base F (set_mem (store64 (k_mem s) (p + 8 * i) v) s).
Proof.
  intros Hpa Hp HF Hi. apply (pa_write_page base F s p); [done..|]. intros a Ha.
  apply rd8_store64_ne. unfold in_page, PGSIZE in Ha. lia.
Qed.

Lemma pa_memset base F s p c :
  pa_inv base F s -> pool_page base p -> p ∉ F ->
  pa_inv base F (set_mem (memset (k_mem s) p c PGSIZE) s).
Proof.
  intros Hpa Hp HF. apply (pa_write_page base F s p); [done..|]. intros a Ha.
  rewrite rd8_memset by done. unfold in_page in Ha. zcases.
Qed.

Lemma vm_table_pool base F root T s p : vm_ok base F root T s -> p ∈ tables T -> pool_page base p /\ p ∉ F.
Proof.
  intros [Hpa Hw Ho] Hp. split; [|set_solver]. apply elem_of_tables in Hp as [π Hπ].
  by eapply pt_page.
Qed.

(** ** walk that does not allocate *)

Lemma has_leafless p : has (mk_pte p 0) PTE_V = true.
Proof. apply has_V_mk_pte. Qed.

Lemma walk_levels_ro base root T s va :
  pt_wf base root T (k_mem s) -> KERNBASE <= base ->
  walk_levels [2; 1] root va 0 s = Ok (nodes T !! [PX 2 va; PX 1 va]) s.
Proof.
  intros Hw Hb. pose proof (PX_range 2 va ltac:(lia)) as R2. pose proof (PX_range 1 va ltac:(lia)) as R1.
  cbn [Vm.walk_levels]. unfold bind, ld64, get. rewrite (pt_mem _ _ _ _ Hw [] root _ (pt_root _ _ _ _ Hw) R2).
  unfold entry. rewrite decide_False by done. cbn [app].
  destruct (nodes T !! [PX 2 va]) as [p1|] eqn:E1.
  - rewrite has_V_mk_pte. pose proof (pt_page _ _ _ _ Hw _ _ E1) as P1.
    rewrite PTE2PA_mk_pte by (by eapply pool_page_addr || lia).
    rewrite (pt_mem _ _ _ _ Hw [PX 2 va] p1 _ E1 R1). unfold entry. rewrite decide_False by done.
    cbn [app]. destruct (nodes T !! [PX 2 va; PX 1 va]) as [p0|] eqn:E0; [|done].
    rewrite has_V_mk_pte. pose proof (pt_page _ _ _ _ Hw _ _ E0) as P0.
    by rewrite PTE2PA_mk_pte by (by eapply pool_page_addr || lia).
  - rewrite has_0. cbn. destruct (nodes T !! [PX 2 va; PX 1 va]) as [p0|] eqn:E0; [|done].
    destruct (pt_parent _ _ _ _ Hw [PX 2 va] _ _ E0) as [[y Hy] _]. congruence.
Qed.

(** The address of the leaf entry of [va], if its table exists. *)
Definition pte_addr (T : pt) (va : Z) : option Z :=
  (fun p => p + 8 * PX 0 va) <$> nodes T !! [PX 2 va; PX 1 va].

Lemma walk_ro base root T s va :
  pt_wf base root T (k_mem s) -> KERNBASE <= base -> 0 <= va < MAXVA ->
  walk root va 0 s = Ok (default 0 (pte_addr T va)) s.
Proof.
  intros Hw Hb Hva. unfold Vm.walk. zif. mstep (walk_levels_ro base root T s va Hw Hb).
  unfold pte_addr. by destruct (nodes T !! _).
Qed.

Lemma pte_addr_entry base root T m va a :
  pt_wf base root T m -> pte_addr T va = Some a ->
  load64 m a = default 0 (leaves T !! path va).
Proof.
  intros Hw. unfold pte_addr. rewrite fmap_Some. intros (p & E & ->).
  by rewrite (pt_mem _ _ _ _ Hw _ _ _ E (PX_range 0 va ltac:(lia))).
Qed.

Lemma pte_addr_nonzero base root T m va a :
  pt_wf base root T m -> KERNBASE <= base -> pte_addr T va = Some a -> (a =? 0) = false.
Proof.
  intros Hw Hb. unfold pte_addr. rewrite fmap_Some. intros (p & E & ->).
  pose proof (PX_range 0 va ltac:(lia)). pose proof (pt_page _ _ _ _ Hw _ _ E) as (_ & ? & _).
  unfold KERNBASE, PGSIZE in *. apply Z.eqb_neq. lia.
Qed.

Lemma pte_addr_none base root T m va :
  pt_wf base root T m -> pte_addr T va = None -> leaves T !! path va = None.
Proof.
  intros Hw. unfold pte_addr. rewrite fmap_None. intros E.
  destruct (leaves T !! path va) as [e|] eqn:El; [|done].
  destruct (pt_leaf _ _ _ _ Hw _ _ El) as (π & i & Hpi & _ & [y Hy] & _).
  change (path va) with ([PX 2 va; PX 1 va] ++ [PX 0 va]) in Hpi.
  apply snoc_inj in Hpi as [<- _]. congruence.
Qed.

(** ** walk that allocates *)

(** The tree has grown by the tables at the paths [X], taken from the free
    pages; its leaves are now [Lv], and everything outside the tables is as
    before. *)
Record grows (base : Z) (root : Z) (X : gset (list Z)) (Lv : gmap (list Z) Z) (F : gset Z) (T : pt) (s : kernel)
    (F' : gset Z) (T' : pt) (s' : kernel) : Prop := {
  gr_ok : vm_ok base F' root T' s';
  gr_leaves : leaves T' = Lv;
  gr_nodes : nodes T ⊆ nodes T';
  gr_dom : dom (nodes T') = dom (nodes T) ∪ X;
  gr_foot : foot F' T' = foot F T;
  gr_size : size F = (size F' + size (X ∖ dom (nodes T)))%nat;
  gr_step : vm_step base (foot F T) s s'
}.

Lemma grows_refl base root X F T s :
  vm_ok base F root T s -> X ⊆ dom (nodes T) -> grows base root X (leaves T) F T s F T s.
Proof.
  intros Hok HX. split; [done|done|done|set_solver|done| |apply vm_step_refl].
  replace (X ∖ dom (nodes T)) with (∅ : gset (list Z)) by set_solver. rewrite size_empty. lia.
Qed.

Lemma size_diff_split (A B D : gset (list Z)) :
  size ((A ∪ B) ∖ D) = (size (A ∖ D) + size (B ∖ (D ∪ A)))%nat.
Proof.
  rewrite <- size_union by set_solver. f_equal. apply set_eq. intros x.
  destruct (decide (x ∈ A)); set_solver.
Qed.

Lemma grows_trans base root X Y L1 L2 F T s F1 T1 s1 F2 T2 s2 :
  grows base root X L1 F T s F1 T1 s1 -> grows base root Y L2 F1 T1 s1 F2 T2 s2 ->
  grows base root (X ∪ Y) L2 F T s F2 T2 s2.
Proof.
  intros [A1 A2 A3 A4 A5 A6 A7] [B1 B2 B3 B4 B5 B6 B7]. split; try done.
  - by etrans.
  - rewrite B4, A4. set_solver.
  - congruence.
  - rewrite size_diff_split, A6, B6, A4. lia.
  - rewrite A5 in B7. by eapply vm_step_trans.
Qed.

(** Allocation seen by the client. *)
Lemma alloc_page base F root T s :
  vm_ok base F root T s -> F <> ∅ ->
  exists q s', kalloc s = Ok q s' /\ q ∈ F /\ pool_page base q /\ (q =? 0) = false /\
    vm_ok base (F ∖ {[q]}) root T s' /\ vm_step base F s s'.
Proof.
  intros [Hpa Hw Ho] HF. destruct (pa_alloc base F s Hpa HF) as (q & s' & E & Hq & Hpa' & Hms & Hfr).
  pose proof (pa_pool base F s q Hpa Hq) as Hqp. pose proof (pa_base base F s Hpa) as Hb.
  exists q, s'. split; [done|split; [done|split; [done|split]]].
  { destruct Hqp as (_ & ? & _). unfold KERNBASE, PGSIZE in *. apply Z.eqb_neq. lia. }
  split.
  - split; [done| |set_solver]. apply (pt_wf_mem _ _ _ (k_mem s)); [done|].
    intros p a Hp Ha. apply elem_of_tables in Hp as Hp'. destruct Hp' as [π Hπ].
    pose proof (pt_page _ _ _ _ Hw _ _ Hπ) as Hpp.
    apply Hfr; [by eapply pool_not_base|]. apply (pool_not_in base p); try done. set_solver.
  - split; [done|]. intros a Hb' HP. apply Hfr; [done|]. by apply HP.
Qed.

(** One level of walk: the table at [π] with page [p], index [i]. *)
Lemma grow_node base F root T s π p i :
  vm_ok base F root T s -> nodes T !! π = Some p -> (length π < 2)%nat -> 0 <= i < 512 ->
  nodes T !! (π ++ [i]) = None -> F <> ∅ ->
  exists q s1, kalloc s = Ok q s1 /\ (q =? 0) = false /\
    nodes (add_node (π ++ [i]) q T) !! (π ++ [i]) = Some q /\
    grows base root {[π ++ [i]]} (leaves T) F T s (F ∖ {[q]}) (add_node (π ++ [i]) q T)
      (set_mem (store64 (memset (k_mem s1) q 0 PGSIZE) (p + 8 * i) (mk_pte q 0)) s1).
Proof.
  intros Hok Hp Hl Hi Hn HF.
  destruct (alloc_page base F root T s Hok HF) as (q & s1 & E & Hq & Hqp & Hq0 & Hok1 & Hst).
  assert (p ∈ tables T) as HpT by (apply elem_of_tables; by exists π).
  destruct (vm_table_pool base F root T s p Hok HpT) as [Hpp HpF].
  destruct Hok as [Hpa Hw Ho]. destruct Hok1 as [Hpa1 Hw1 Ho1].
  pose proof (pa_base base F s Hpa) as Hb.
  exists q, s1. split; [done|split; [done|split]]. { cbn. by rewrite lookup_insert_eq. }
  assert (q ∉ tables T) as HqT by set_solver.
  assert (tables (add_node (π ++ [i]) q T) = {[q]} ∪ tables T) as Htab.
  { unfold tables, add_node. cbn. by rewrite map_img_insert_notin_L. }
  set (m1 := memset (k_mem s1) q 0 PGSIZE).
  assert (pt_wf base root T m1) as Hwm.
  { apply (pt_wf_mem _ _ _ (k_mem s1)); [done|]. intros p' a Hp' Ha. unfold m1.
    rewrite rd8_memset by done. apply elem_of_tables in Hp' as Hx. destruct Hx as [π' Hπ'].
    pose proof (pt_page _ _ _ _ Hw _ _ Hπ') as Hpp'.
    assert (~ in_page q a) as Hnq by (apply (pool_not_in base p'); try done; set_solver).
    unfold in_page in Hnq. zcases. }
  split.
  - split; cbn [k_mem].
    + apply (pa_write base _ s1); [done|]. intros a Ha. unfold m1.
      assert (forall x, pool_page base x -> x ∉ F ∖ {[q]} -> ~ in_page x a) as Hno.
      { intros x Hx HxF Hin. by eapply (pool_no_alloc base (F ∖ {[q]}) s1 x a). }
      assert (~ in_page p a) as Hnp by (apply Hno; [done|set_solver]).
      assert (~ in_page q a) as Hnq by (apply Hno; [done|set_solver]).
      unfold in_page in Hnp, Hnq. rewrite rd8_store64_ne by (unfold PGSIZE in Hnp; lia).
      rewrite rd8_memset by done. zcases.
    + apply pt_add_node; try done. intros a Ha. unfold m1. rewrite rd8_memset by done.
      unfold in_page in Ha. by zif.
    + rewrite Htab. set_solver.
  - done.
  - cbn. by apply insert_subseteq.
  - cbn. rewrite dom_insert_L. set_solver.
  - unfold foot. rewrite Htab. apply set_eq. intros x. destruct (decide (x = q)); set_solver.
  - rewrite size_difference by set_solver. rewrite size_singleton.
    replace ({[π ++ [i]]} ∖ dom (nodes T)) with ({[π ++ [i]]} : gset (list Z)).
    2: { apply not_elem_of_dom in Hn. set_solver. }
    rewrite size_singleton. assert (size F <> 0%nat); [|lia].
    intros Hz. apply size_empty_inv in Hz. set_solver.
  - eapply vm_step_trans; [eapply vm_step_mono; [|exact Hst]; unfold foot; set_solver|].
    apply vm_step_mem. eapply frame_trans.
    + apply (frame_memset _ _ _ q). unfold foot. set_solver.
    + apply (frame_store64 _ _ _ p); [unfold foot; set_solver|done].
Qed.

Lemma walk_level_alloc base F root T s π p i level levels va :
  vm_ok base F root T s -> nodes T !! π = Some p -> (length π < 2)%nat -> 0 <= level ->
  i = PX level va -> (size ({[π ++ [i]]} ∖ dom (nodes T)) <= size F)%nat ->
  exists q F' T' s', walk_levels (level :: levels) p va 1 s = walk_levels levels q va 1 s' /\
    nodes T' !! (π ++ [i]) = Some q /\ grows base root {[π ++ [i]]} (leaves T) F T s F' T' s'.
Proof.
  intros Hok Hp Hl Hlv -> Hsz. pose proof (PX_range level va Hlv) as Hi.
  pose proof (pa_base base F s (vm_alloc _ _ _ _ _ Hok)) as Hb. pose proof (vm_wf _ _ _ _ _ Hok) as Hw.
  cbn [Vm.walk_levels]. unfold bind at 1, ld64, get. rewrite (pt_mem _ _ _ _ Hw π p _ Hp Hi).
  unfold entry. rewrite decide_False by lia.
  destruct (nodes T !! (π ++ [PX level va])) as [q|] eqn:E.
  - pose proof (pt_page _ _ _ _ Hw _ _ E) as Hq. rewrite has_V_mk_pte.
    rewrite PTE2PA_mk_pte by (by eapply pool_page_addr || lia).
    exists q, F, T, s. split; [done|split; [done|]]. apply grows_refl; [done|].
    apply singleton_subseteq_l. by eapply elem_of_dom_2.
  - rewrite has_0. cbn [negb truthy Z.eqb].
    replace ({[π ++ [PX level va]]} ∖ dom (nodes T)) with ({[π ++ [PX level va]]} : gset (list Z)) in Hsz
      by (apply not_elem_of_dom in E; set_solver).
    rewrite size_singleton in Hsz.
    destruct (grow_node base F root T s π p (PX level va) Hok Hp Hl Hi E) as (q & s1 & Ek & Hq0 & Hq & Hg).
    { intros ->. rewrite size_empty in Hsz. lia. }
    mstep Ek. rewrite Hq0. unfold bind, kmemset, st64, modify. cbn [k_mem set_mem].
    rewrite mk_pte_table. eexists q, _, _, _. split; [|split; [exact Hq|exact Hg]]. by destruct s1.
Qed.

Lemma walk_alloc base F root T s va :
  vm_ok base F root T s -> 0 <= va < MAXVA ->
  (size (prefixes va ∖ dom (nodes T)) <= size F)%nat ->
  exists a F' T' s', walk root va 1 s = Ok a s' /\ pte_addr T' va = Some a /\
    grows base root (prefixes va) (leaves T) F T s F' T' s'.
Proof.
  intros Hok Hva Hsz. unfold Vm.walk. zif. unfold prefixes in *.
  rewrite size_diff_split in Hsz.
  destruct (walk_level_alloc base F root T s [] root (PX 2 va) 2 [1] va) as (p1 & F1 & T1 & s1 & E1 & N1 & G1);
    try done; [by eapply pt_root, vm_wf|cbn; lia|cbn [app]; lia|].
  cbn [app] in *. pose proof G1 as [G11 _ _ G14 _ G16 _].
  destruct (walk_level_alloc base F1 root T1 s1 [PX 2 va] p1 (PX 1 va) 1 [] va)
    as (p0 & F2 & T2 & s2 & E2 & N2 & G2); try done; [cbn; lia|cbn [app]; rewrite G14; lia|].
  cbn [app] in *. eexists _, F2, T2, s2. split.
  - unfold bind. rewrite E1, E2. cbn. done.
  - split; [unfold pte_addr; by rewrite N2|]. rewrite <- (gr_leaves _ _ _ _ _ _ _ _ _ _ G1). by eapply grows_trans.
Qed.

(** ** Storing an entry *)

Lemma pte_addr_inv base root T m va a :
  pt_wf base root T m -> pte_addr T va = Some a ->
  exists p, nodes T !! [PX 2 va; PX 1 va] = Some p /\ a = p + 8 * PX 0 va /\ p ∈ tables T.
Proof.
  intros Hw. unfold pte_addr. rewrite fmap_Some. intros (p & E & ->). exists p. split_and!; try done.
  apply elem_of_tables. by eexists.
Qed.

Lemma store_leaf base F root T s va a e :
  vm_ok base F root T s -> pte_addr T va = Some a -> 0 <= e < 2 ^ 64 -> has e PTE_V = true ->
  grows base root ∅ (<[path va := e]> (leaves T)) F T s F (set_leaf (path va) e T)
    (set_mem (store64 (k_mem s) a e) s).
Proof.
  intros Hok Ha He HV. pose proof Hok as [Hpa Hw Ho].
  destruct (pte_addr_inv _ _ _ _ _ _ Hw Ha) as (p & Hp & -> & HpT).
  destruct (vm_table_pool _ _ _ _ _ _ Hok HpT) as [Hpp HpF].
  pose proof (PX_range 0 va ltac:(lia)) as Hi. split; try done.
  - split; [by apply pa_store64| |done].
    by apply (pt_set_leaf base root T (k_mem s) [PX 2 va; PX 1 va] p (PX 0 va) e).
  - set_solver.
  - replace (∅ ∖ dom (nodes T)) with (∅ : gset (list Z)) by set_solver. rewrite size_empty. lia.
  - apply vm_step_mem, frame_store64; [unfold foot; set_solver|done].
Qed.

Lemma clear_leaf base F root T s va a :
  vm_ok base F root T s -> pte_addr T va = Some a ->
  grows base root ∅ (delete (path va) (leaves T)) F T s F (del_leaf (path va) T)
    (set_mem (store64 (k_mem s) a 0) s).
Proof.
  intros Hok Ha. pose proof Hok as [Hpa Hw Ho].
  destruct (pte_addr_inv _ _ _ _ _ _ Hw Ha) as (p & Hp & -> & HpT).
  destruct (vm_table_pool _ _ _ _ _ _ Hok HpT) as [Hpp HpF].
  pose proof (PX_range 0 va ltac:(lia)) as Hi. split; try done.
  - split; [by apply pa_store64| |done].
    by apply (pt_del_leaf base root T (k_mem s) [PX 2 va; PX 1 va] p (PX 0 va)).
  - set_solver.
  - replace (∅ ∖ dom (nodes T)) with (∅ : gset (list Z)) by set_solver. rewrite size_empty. lia.
  - apply vm_step_mem, frame_store64; [unfold foot; set_solver|done].
Qed.

(** ** mapPages *)

(** The tables for [n] pages from [va] on, and their leaves. *)
Fixpoint range_tables (n : nat) (va : Z) : gset (list Z) :=
  match n with
  | O => ∅
  | S n' => prefixes va ∪ range_tables n' (va + PGSIZE)
  end.

Fixpoint map_range (n : nat) (va pa perm : Z) (Lv : gmap (list Z) Z) : gmap (list Z) Z :=
  match n with
  | O => Lv
  | S n' => map_range n' (va + PGSIZE) (pa + PGSIZE) perm (<[path va := mk_pte pa perm]> Lv)
  end.

(** No page of the range is mapped. *)
Definition unmapped (n : nat) (va : Z) (Lv : gmap (list Z) Z) : Prop :=
  forall i, 0 <= i < Z.of_nat n -> Lv !! path (va + i * PGSIZE) = None.

(** A range of [n] pages of virtual and of physical memory. *)
Definition good_range (n : nat) (va : Z) : Prop :=
  va mod PGSIZE = 0 /\ 0 <= va /\ va + Z.of_nat n * PGSIZE <= MAXVA.
Definition good_frames (n : nat) (pa : Z) : Prop :=
  pa mod PGSIZE = 0 /\ 0 < pa /\ pa + Z.of_nat n * PGSIZE <= 2 ^ 56.

Lemma good_range_S n va : good_range (S n) va -> good_range n (va + PGSIZE) /\ 0 <= va < MAXVA.
Proof. unfold good_range, PGSIZE. intros (H1 & H2 & H3). split; [split_and!|]; zdm. Qed.

Lemma good_frames_S n pa : good_frames (S n) pa -> page_addr pa /\ (n <> 0%nat -> good_frames n (pa + PGSIZE)).
Proof. unfold good_frames, page_addr, PGSIZE. intros (H1 & H2 & H3). split; [|intros _]; split_and!; zdm. Qed.

Lemma mapPages_loop_ok n base F root T s va pa perm :
  vm_ok base F root T s -> good_range (S n) va -> good_frames (S n) pa -> 0 <= perm < 1024 ->
  unmapped (S n) va (leaves T) ->
  (size (range_tables (S n) va ∖ dom (nodes T)) <= size F)%nat ->
  exists F' T' s',
    mapPages_loop kalloc (S n) root va (va + Z.of_nat n * PGSIZE) pa perm s = Ok 0 s' /\
    grows base root (range_tables (S n) va) (map_range (S n) va pa perm (leaves T)) F T s F' T' s'.
Proof.
  revert F T s va pa. induction n as [|n IH]; intros F T s va pa Hok Hva Hpa Hperm Hun Hsz.
  all: cbn [range_tables map_range] in *; rewrite size_diff_split in Hsz.
  all: destruct (good_range_S _ _ Hva) as [Hva' Hv]; destruct (good_frames_S _ _ Hpa) as [Hp Hpa'].
  all: destruct (walk_alloc base F root T s va Hok Hv ltac:(lia)) as (a & F1 & T1 & s1 & E1 & A1 & G1).
  all: pose proof G1 as [Hok1 HL1 _ HD1 _ HS1 _].
  all: pose proof (pa_base _ _ _ (vm_alloc _ _ _ _ _ Hok)) as Hb.
  all: assert (leaves T1 !! path va = None) as Hnone
         by (rewrite HL1; specialize (Hun 0 ltac:(lia)); by rewrite Z.add_0_r in Hun).
  all: pose proof (store_leaf base F1 root T1 s1 va a (mk_pte pa perm) Hok1 A1
         (mk_pte_range pa perm Hp Hperm) (has_V_mk_pte _ _)) as G2.
  all: pose proof (grows_trans _ _ _ _ _ _ _ _ _ _ _ _ _ _ _ G1 G2) as G3; rewrite HL1 in G3.
  all: rewrite (right_id_L ∅ (∪)) in G3.
  all: set (s2 := set_mem (store64 (k_mem s1) a (mk_pte pa perm)) s1) in *.
  all: set (T2 := set_leaf (path va) (mk_pte pa perm) T1) in *.
  all: cbn [mapPages_loop]; mstep E1.
  all: rewrite (pte_addr_nonzero _ _ _ _ _ _ (vm_wf _ _ _ _ _ Hok1) Hb A1).
  all: unfold bind at 1, ld64, get;
       rewrite (pte_addr_entry _ _ _ _ _ _ (vm_wf _ _ _ _ _ Hok1) A1), Hnone; cbn [from_option id].
  all: rewrite has_0; unfold bind at 1, st64, modify; fold (mk_pte pa perm); fold s2.
  - rewrite Z.add_0_r, Z.eqb_refl. exists F1, T2, s2. split; [done|]. by rewrite (right_id_L ∅ (∪)).
  - replace (va =? va + Z.of_nat (S n) * PGSIZE) with false by (symmetry; apply Z.eqb_neq; unfold PGSIZE; lia).
    assert (MAXVA < 2 ^ 64) as HM by done. assert (2 ^ 56 + PGSIZE < 2 ^ 64) as HM' by done.
    rewrite (u64_small (va + PGSIZE)) by (destruct Hva as (_ & ? & ?); unfold PGSIZE in *; lia).
    rewrite (u64_small (pa + PGSIZE)) by (destruct Hpa as (_ & ? & ?); unfold PGSIZE in *; lia).
    replace (va + Z.of_nat (S n) * PGSIZE) with (va + PGSIZE + Z.of_nat n * PGSIZE) by lia.
    destruct (IH F1 T2 s2 (va + PGSIZE) (pa + PGSIZE)) as (F' & T' & s' & E' & G'); try done.
    + apply (gr_ok _ _ _ _ _ _ _ _ _ _ G3).
    + by apply Hpa'.
    + intros i Hi. unfold T2. cbn. rewrite HL1, lookup_insert_ne.
      * replace (va + PGSIZE + i * PGSIZE) with (va + (i + 1) * PGSIZE) by lia. apply Hun. lia.
      * intros Hc. apply path_inj in Hc; destruct Hva as (? & ? & ?); unfold PGSIZE in *; zdm.
    + cbn. rewrite HD1. lia.
    + exists F', T', s'. split; [done|]. unfold T2 in G'. cbn in G'. rewrite HL1 in G'.
      by eapply grows_trans.
Qed.

Lemma mapPages_ok n base F root T s va pa perm :
  n <> 0%nat -> vm_ok base F root T s -> good_range n va -> good_frames n pa -> 0 <= perm < 1024 ->
  unmapped n va (leaves T) -> (size (range_tables n va ∖ dom (nodes T)) <= size F)%nat ->
  exists F' T' s',
    mapPages kalloc root va (Z.of_nat n * PGSIZE) pa perm s = Ok 0 s' /\
    grows base root (range_tables n va) (map_range n va pa perm (leaves T)) F T s F' T' s'.
Proof.
  intros Hn Hok Hva Hpa Hperm Hun Hsz. destruct n as [|n]; [done|]. unfold mapPages.
  pose proof Hva as (H1 & H2 & H3). assert (MAXVA < 2 ^ 64) as HM by done.
  rewrite H1, Z.mod_mul, Z.div_mul, Nat2Z.id by done. cbn [Z.eqb negb].
  replace (Z.of_nat (S n) * PGSIZE =? 0) with false
    by (symmetry; apply Z.eqb_neq; unfold PGSIZE; lia).
  replace (va + Z.of_nat (S n) * PGSIZE - PGSIZE) with (va + Z.of_nat n * PGSIZE) by (unfold PGSIZE; lia).
  rewrite u64_small by (unfold PGSIZE in *; lia). by apply mapPages_loop_ok.
Qed.

Lemma map_range_lookup n va pa perm Lv va' :
  good_range n va -> va' mod PGSIZE = 0 -> 0 <= va' < MAXVA ->
  map_range n va pa perm Lv !! path va' =
    if (va <=? va') && (va' <? va + Z.of_nat n * PGSIZE) then Some (mk_pte (pa + (va' - va)) perm)
    else Lv !! path va'.
Proof.
  revert va pa Lv. induction n as [|n IH]; intros va pa Lv Hva Ha' Hva'.
  { cbn. destruct (Z.leb_spec va va'), (Z.ltb_spec va' (va + Z.of_nat 0 * PGSIZE)); done || lia. }
  destruct (good_range_S _ _ Hva) as [Hva1 Hv]. cbn [map_range]. rewrite IH by done.
  destruct (decide (va = va')) as [<-|Hne].
  - rewrite lookup_insert_eq. unfold PGSIZE. zif. by rewrite Z.sub_diag, Z.add_0_r.
  - destruct Hva as (H1 & H2 & H3). rewrite lookup_insert_ne.
    2: { intros Hc. apply Hne. apply path_inj in Hc; done. }
    replace (pa + PGSIZE + (va' - (va + PGSIZE))) with (pa + (va' - va)) by lia.
    destruct (Z.leb_spec (va + PGSIZE) va'), (Z.leb_spec va va'); cbn [andb]; try done;
      try (unfold PGSIZE in *; zdm).
    by replace (va + PGSIZE + Z.of_nat n * PGSIZE) with (va + Z.of_nat (S n) * PGSIZE) by lia.
Qed.

(** ** uVmUnmap *)

Fixpoint unmap_range (n : nat) (va : Z) (Lv : gmap (list Z) Z) : gmap (list Z) Z :=
  match n with
  | O => Lv
  | S n' => unmap_range n' (va + PGSIZE) (delete (path va) Lv)
  end.

(** The physical pages of the leaves of the range. *)
Fixpoint range_pages (n : nat) (va : Z) (Lv : gmap (list Z) Z) : gset Z :=
  match n with
  | O => ∅
  | S n' =>
      (match Lv !! path va with Some e => {[PTE2PA e]} | None => ∅ end) ∪
      range_pages n' (va + PGSIZE) Lv
  end.

(** Every leaf of the range has a page of its own, neither free nor a table. *)
Definition range_owned (base : Z) (F : gset Z) (T : pt) (n : nat) (va : Z) : Prop :=
  (forall i e, 0 <= i < Z.of_nat n -> leaves T !! path (va + i * PGSIZE) = Some e ->
     pool_page base (PTE2PA e) /\ (PTE2PA e ∉ F) /\ PTE2PA e ∉ tables T) /\
  (forall i j e e', 0 <= i < j -> j < Z.of_nat n ->
     leaves T !! path (va + i * PGSIZE) = Some e -> leaves T !! path (va + j * PGSIZE) = Some e' ->
     PTE2PA e <> PTE2PA e').

Lemma free_page base F root T s p :
  vm_ok base F root T s -> pool_page base p -> p ∉ F -> p ∉ tables T ->
  exists s', kfree p s = Ok tt s' /\ vm_ok base ({[p]} ∪ F) root T s' /\ vm_step base {[p]} s s'.
Proof.
  intros [Hpa Hw Ho] Hp HF HT. destruct (pa_free base F s p Hpa Hp HF) as (s' & E & Hpa' & Hms & Hfr).
  exists s'. split; [done|split].
  - split; [done| |set_solver]. apply (pt_wf_mem _ _ _ (k_mem s)); [done|].
    intros q a Hq Ha. apply elem_of_tables in Hq as Hq'. destruct Hq' as [π Hπ].
    pose proof (pt_page _ _ _ _ Hw _ _ Hπ) as Hqp.
    apply Hfr; [by eapply pool_not_base|]. apply (pool_not_in base q); try done. set_solver.
  - split; [done|]. intros a Hb HP. apply Hfr; [done|]. apply HP. set_solver.
Qed.

(** What one turn of the loop does. *)
Lemma unmap_page_ok base F root T s va do_free :
  vm_ok base F root T s -> 0 <= va < MAXVA ->
  (truthy do_free = true -> forall e, leaves T !! path va = Some e ->
     pool_page base (PTE2PA e) /\ (PTE2PA e ∉ F) /\ PTE2PA e ∉ tables T) ->
  let P := match leaves T !! path va with
           | Some e => if truthy do_free then {[PTE2PA e]} else ∅
           | None => ∅
           end in
  exists s', unmap_page kalloc kfree root va do_free s = Ok tt s' /\
    vm_ok base (P ∪ F) root (del_leaf (path va) T) s' /\
    vm_step base (P ∪ foot F T) s s'.
Proof.
  intros Hok Hva Hown P. pose proof Hok as [Hpa Hw Ho]. pose proof (pa_base _ _ _ Hpa) as Hb.
  assert (leaves T !! path va = None -> vm_ok base F root (del_leaf (path va) T) s) as Hsame.
  { intros Hn. unfold del_leaf. rewrite delete_id by done. by destruct T. }
  unfold unmap_page. mstep (walk_ro base root T s va Hw Hb Hva).
  destruct (pte_addr T va) as [a|] eqn:Ea; cbn [from_option id].
  2: { pose proof (pte_addr_none _ _ _ _ _ Hw Ea) as Hn. unfold P. rewrite Hn, !(left_id_L ∅ (∪)).
       exists s. split; [done|]. split; [auto|apply vm_step_refl]. }
  rewrite (pte_addr_nonzero _ _ _ _ _ _ Hw Hb Ea). unfold bind at 1, ld64, get.
  rewrite (pte_addr_entry _ _ _ _ _ _ Hw Ea).
  destruct (leaves T !! path va) as [e|] eqn:El; cbn [from_option id].
  2: { rewrite has_0. cbn [negb]. unfold P. rewrite !(left_id_L ∅ (∪)).
       exists s. split; [done|]. split; [auto|apply vm_step_refl]. }
  destruct (pt_leaf _ _ _ _ Hw _ _ El) as (_ & _ & _ & _ & _ & _ & _ & HV). rewrite HV. cbn [negb].
  destruct (truthy do_free) eqn:Hd.
  - destruct (Hown eq_refl e eq_refl) as (H1 & H2 & H3).
    destruct (free_page base F root T s (PTE2PA e) Hok H1 H2 H3) as (s1 & E1 & Hok1 & St1).
    pose proof (clear_leaf base _ root T s1 va a Hok1 Ea) as G. mstep E1.
    eexists. split; [reflexivity|]. split; [apply (gr_ok _ _ _ _ _ _ _ _ _ _ G)|].
    eapply vm_step_trans; [eapply vm_step_mono; [|exact St1]; unfold P; set_solver|].
    eapply vm_step_mono; [|exact (gr_step _ _ _ _ _ _ _ _ _ _ G)]. unfold P, foot. set_solver.
  - pose proof (clear_leaf base _ root T s va a Hok Ea) as G. unfold P. rewrite !(left_id_L ∅ (∪)).
    unfold bind, ret. eexists. split; [reflexivity|].
    split; [apply (gr_ok _ _ _ _ _ _ _ _ _ _ G)|apply (gr_step _ _ _ _ _ _ _ _ _ _ G)].
Qed.

Lemma range_pages_delete n va va0 Lv :
  good_range n va -> va0 mod PGSIZE = 0 -> 0 <= va0 < va -> 
  range_pages n va (delete (path va0) Lv) = range_pages n va Lv.
Proof.
  revert va. induction n as [|n IH]; intros va Hva Ha Hlt; [done|].
  destruct (good_range_S _ _ Hva) as [Hva1 Hv]. cbn [range_pages].
  rewrite IH by (unfold PGSIZE in *; done || lia). rewrite lookup_delete_ne; [done|].
  intros Hc. destruct Hva as (? & ? & ?). apply path_inj in Hc; lia.
Qed.

Lemma uVmUnmap_loop_ok n base F root T s va do_free :
  vm_ok base F root T s -> good_range n va ->
  (truthy do_free = true -> range_owned base F T n va) ->
  let P := if truthy do_free then range_pages n va (leaves T) else ∅ in
  exists s',
    uVmUnmap_loop kalloc kfree (S n) root va (va + Z.of_nat n * PGSIZE) do_free s = Ok tt s' /\
    vm_ok base (P ∪ F) root {| nodes := nodes T; leaves := unmap_range n va (leaves T) |} s' /\
    vm_step base (P ∪ foot F T) s s'.
Proof.
  revert F T s va. induction n as [|n IH]; intros F T s va Hok Hva Hown P.
  - cbn [uVmUnmap_loop]. rewrite Z.add_0_r, Z.ltb_irrefl. exists s.
    assert (P = ∅) as -> by (unfold P; by destruct (truthy do_free)).
    rewrite !(left_id_L ∅ (∪)). split; [done|]. split; [by destruct T|apply vm_step_refl].
  - destruct (good_range_S _ _ Hva) as [Hva1 Hv]. pose proof Hva as (A1 & A2 & A3).
    assert (MAXVA < 2 ^ 64) as HM by done.
    destruct (unmap_page_ok base F root T s va do_free Hok Hv) as (s1 & E1 & Hok1 & St1).
    { intros Ht e He. specialize (Hown Ht) as [Ho _]. apply (Ho 0); [lia|]. by rewrite Z.add_0_r. }
    set (P1 := match leaves T !! path va with
               | Some e => if truthy do_free then {[PTE2PA e]} else ∅ | None => ∅ end) in *.
    destruct (IH (P1 ∪ F) (del_leaf (path va) T) s1 (va + PGSIZE)) as (s2 & E2 & Hok2 & St2).
    { done. } { done. }
    { intros Ht. specialize (Hown Ht) as [Ho Hd].
      assert (forall i e, 0 <= i < Z.of_nat n ->
        leaves (del_leaf (path va) T) !! path (va + PGSIZE + i * PGSIZE) = Some e ->
        leaves T !! path (va + (i + 1) * PGSIZE) = Some e) as Hsh.
      { intros i e Hi. cbn. rewrite lookup_delete_Some. intros [_ He].
        replace (va + (i + 1) * PGSIZE) with (va + PGSIZE + i * PGSIZE) by lia. done. }
      split.
      - intros i e Hi He%Hsh; [|done]. destruct (Ho (i + 1) e ltac:(lia) He) as (B1 & B2 & B3).
        split; [done|split; [|done]]. unfold P1. rewrite Ht. destruct (leaves T !! path va) as [e0|] eqn:E0.
        + apply not_elem_of_union. split; [|done]. rewrite elem_of_singleton. intros Hc.
          apply (Hd 0 (i + 1) e0 e); [lia|lia|by rewrite Z.add_0_r|done|done].
        + set_solver.
      - intros i j e e' Hij Hj He%Hsh He'%Hsh; [|lia..]. apply (Hd (i + 1) (j + 1)); done || lia. }
    cbn [nodes leaves del_leaf] in *. rewrite range_pages_delete in Hok2, St2
      by (unfold PGSIZE in *; done || lia).
    set (P2 := if truthy do_free then range_pages n (va + PGSIZE) (leaves T) else ∅) in *.
    assert (P = P1 ∪ P2) as ->.
    { unfold P, P1, P2. cbn [range_pages].
      destruct (truthy do_free), (leaves T !! path va); cbn; set_solver. }
    exists s2. split; [|split].
    + change (uVmUnmap_loop kalloc kfree (S (S n)) root va (va + Z.of_nat (S n) * PGSIZE) do_free)
        with (if va <? va + Z.of_nat (S n) * PGSIZE
              then do! unmap_page kalloc kfree root va do_free;
                   uVmUnmap_loop kalloc kfree (S n) root (u64 (va + PGSIZE))
                     (va + Z.of_nat (S n) * PGSIZE) do_free
              else ret tt).
      rewrite (proj2 (Z.ltb_lt _ _)) by (unfold PGSIZE; lia). mstep E1.
      rewrite u64_small by (unfold PGSIZE in *; lia).
      by replace (va + Z.of_nat (S n) * PGSIZE) with (va + PGSIZE + Z.of_nat n * PGSIZE) by lia.
    + cbn [unmap_range]. replace (P1 ∪ P2 ∪ F) with (P2 ∪ (P1 ∪ F)) by set_solver. done.
    + eapply vm_step_trans; [eapply vm_step_mono; [|exact St1]; set_solver|].
      eapply vm_step_mono; [|exact St2]. unfold foot, tables. cbn. set_solver.
Qed.

Lemma uVmUnmap_ok n base F root T s va do_free :
  vm_ok base F root T s -> good_range n va ->
  (truthy do_free = true -> range_owned base F T n va) ->
  let P := if truthy do_free then range_pages n va (leaves T) else ∅ in
  exists s',
    uVmUnmap kalloc kfree root va (Z.of_nat n) do_free s = Ok tt s' /\
    vm_ok base (P ∪ F) root {| nodes := nodes T; leaves := unmap_range n va (leaves T) |} s' /\
    vm_step base (P ∪ foot F T) s s'.
Proof.
  intros Hok Hva Hown. pose proof Hva as (H1 & H2 & H3). assert (MAXVA < 2 ^ 64) as HM by done.
  unfold uVmUnmap. rewrite H1. cbn [Z.eqb negb]. rewrite Nat2Z.id.
  rewrite u64_small by (unfold PGSIZE in *; lia). by apply uVmUnmap_loop_ok.
Qed.

Lemma unmap_range_lookup n va Lv va' :
  good_range n va -> va' mod PGSIZE = 0 -> 0 <= va' < MAXVA ->
  unmap_range n va Lv !! path va' =
    if (va <=? va') && (va' <? va + Z.of_nat n * PGSIZE) then None else Lv !! path va'.
Proof.
  revert va Lv. induction n as [|n IH]; intros va Lv Hva Ha' Hva'.
  { cbn. destruct (Z.leb_spec va va'), (Z.ltb_spec va' (va + Z.of_nat 0 * PGSIZE)); done || lia. }
  destruct (good_range_S _ _ Hva) as [Hva1 Hv]. cbn [unmap_range]. rewrite IH by done.
  destruct (decide (va = va')) as [<-|Hne].
  - rewrite lookup_delete_eq. unfold PGSIZE. by zif.
  - destruct Hva as (H1 & H2 & H3). rewrite lookup_delete_ne.
    2: { intros Hc. apply Hne. apply path_inj in Hc; done. }
    destruct (Z.leb_spec (va + PGSIZE) va'), (Z.leb_spec va va'); cbn [andb]; try done;
      try (unfold PGSIZE in *; zdm).
    by replace (va + PGSIZE + Z.of_nat n * PGSIZE) with (va + Z.of_nat (S n) * PGSIZE) by lia.
Qed.

End VmMap.
