(* ===== verification/VmFree.v ===== *)
(** * Freeing page tables: freePgtbl, uVmFree and uFreeUserVM

    freePgtbl destroys the tree bottom up; every table goes back to the
    allocator. *)

From S2P Require Import Prelude Mem CString State Spinlock Printf Locks PageAlloc Vm PageTable VmMap.

Lemma has_RWX_table q : page_addr q -> has (mk_pte q 0) (Z.lor (Z.lor PTE_R PTE_W) PTE_X) = false.
Proof.
  intros Hq. change (Z.lor (Z.lor PTE_R PTE_W) PTE_X) with 14. unfold has, truthy, mk_pte.
  rewrite PA2PTE_spec, Z.lor_0_r by done. rewrite Z.land_lor_distr_l.
  change (Z.land PTE_V 14) with 0. rewrite Z.lor_0_r.
  replace (Z.land (q / 4096 * 1024) 14) with 0; [done|].
  change 14 with (Z.land (Z.ones 4) 14). rewrite Z.land_assoc, Z.land_ones by lia.
  replace ((q / 4096 * 1024) mod 2 ^ 4) with 0; [done|]. change (2 ^ 4) with 16. zdm.
Qed.

(** ** Subtrees *)

(** The tables of the subtree at [π]. *)
Definition sub (T : pt) (π : list Z) : gset Z :=
  map_img (filter (fun kv => π `prefix_of` fst kv) (nodes T)).

Lemma elem_of_sub T π q : q ∈ sub T π <-> exists π', π `prefix_of` π' /\ nodes T !! π' = Some q.
Proof.
  unfold sub. rewrite elem_of_map_img. split.
  - intros (π' & H). apply map_lookup_filter_Some in H as [H1 H2]. by exists π'.
  - intros (π' & H1 & H2). exists π'. by apply map_lookup_filter_Some.
Qed.

(** The subtrees at the children [k], [k+1], ... of [π]. *)
Fixpoint subs (T : pt) (π : list Z) (k : Z) (n : nat) : gset Z :=
  match n with
  | O => ∅
  | S n' => sub T (π ++ [k]) ∪ subs T π (k + 1) n'
  end.

Lemma elem_of_subs T π k n q :
  q ∈ subs T π k n <-> exists i, k <= i < k + Z.of_nat n /\ q ∈ sub T (π ++ [i]).
Proof.
  revert k. induction n as [|n IH]; intros k; cbn [subs].
  - split; [set_solver|]. intros (i & Hi & _). lia.
  - rewrite elem_of_union, IH. split.
    + intros [H|(i & Hi & H)]; [exists k|exists i]; (split; [lia|done]).
    + intros (i & Hi & H). destruct (decide (i = k)) as [->|]; [by left|right].
      exists i. split; [lia|done].
Qed.

Section VmFree.
Context {kalloc : KM Z} {kfree : Z -> KM unit} {PA : PageAllocator kalloc kfree}.
Context (base root : Z) (T : pt) (m0 : mem) (Hw : pt_wf base root T m0) (Hleaf : leaves T = ∅).

Lemma prefix_closed π κ q : nodes T !! (π ++ κ) = Some q -> is_Some (nodes T !! π).
Proof.
  revert q. induction κ as [|i κ IH] using rev_ind; intros q H.
  - rewrite app_nil_r in H. by exists q.
  - rewrite app_assoc in H. apply (pt_parent _ _ _ _ Hw) in H as [[q' H] _]. by apply (IH q').
Qed.

Lemma sub_split π p : nodes T !! π = Some p -> sub T π = {[p]} ∪ subs T π 0 512.
Proof.
  intros Hp. apply set_eq. intros q. rewrite elem_of_union, elem_of_singleton, elem_of_subs, elem_of_sub.
  split.
  - intros (π' & [κ ->] & H). destruct κ as [|i κ].
    + rewrite app_nil_r in H. left. congruence.
    + right. exists i. change (π ++ i :: κ) with (π ++ [i] ++ κ) in H. rewrite app_assoc in H.
      destruct (prefix_closed _ _ _ H) as [q' Hq']. destruct (pt_parent _ _ _ _ Hw _ _ _ Hq') as [_ Hi].
      split; [lia|]. apply elem_of_sub. exists ((π ++ [i]) ++ κ). split; [by eexists|done].
  - intros [->|(i & _ & Hs)].
    + exists π. by split.
    + apply elem_of_sub in Hs as (π' & [κ ->] & H). exists ((π ++ [i]) ++ κ). split; [|done].
      exists ([i] ++ κ). by rewrite app_assoc.
Qed.

Lemma sub_disjoint π i j q : q ∈ sub T (π ++ [i]) -> q ∈ sub T (π ++ [j]) -> i = j.
Proof.
  rewrite !elem_of_sub. intros (π1 & [κ1 ->] & H1) (π2 & [κ2 ->] & H2).
  pose proof (pt_inj _ _ _ _ Hw _ _ _ H1 H2) as E. rewrite <- !app_assoc in E.
  apply app_inv_head in E. by injection E.
Qed.

Lemma sub_no_root π i p : nodes T !! π = Some p -> p ∉ sub T (π ++ [i]).
Proof.
  intros Hp. rewrite elem_of_sub. intros (π' & [κ ->] & H).
  pose proof (pt_inj _ _ _ _ Hw _ _ _ Hp H) as E. apply (f_equal length) in E.
  rewrite !length_app in E. cbn in E. lia.
Qed.

Lemma sub_empty π : nodes T !! π = None -> sub T π = ∅.
Proof.
  intros Hn. apply set_eq. intros q. split; [|set_solver]. rewrite elem_of_sub.
  intros (π' & [κ ->] & H). apply prefix_closed in H as [? ?]. congruence.
Qed.

Lemma sub_pool π q : q ∈ sub T π -> pool_page base q.
Proof. rewrite elem_of_sub. intros (π' & _ & H). by eapply pt_page. Qed.

(** Memory holds the table at [π'], which the allocator does not own. *)
Definition table_ok (F : gset Z) (s : kernel) (π' : list Z) (p' : Z) : Prop :=
  (p' ∉ F) /\ forall i, 0 <= i < 512 -> load64 (k_mem s) (p' + 8 * i) = entry T π' i.

(** Freeing subtree [X] disturbs no table outside it. *)
Lemma table_ok_step F X s s' π' p' :
  vm_step base X s s' -> nodes T !! π' = Some p' -> (forall q, q ∈ X -> pool_page base q) -> p' ∉ X ->
  table_ok F s π' p' -> table_ok (X ∪ F) s' π' p'.
Proof.
  intros [_ Hfr] Hp HX Hn [H1 H2]. split; [set_solver|]. intros i Hi. rewrite <- (H2 i Hi).
  pose proof (pt_page _ _ _ _ Hw _ _ Hp) as Hpp. apply load64_ext. intros k Hk.
  pose proof (in_page_entry p' i k Hi Hk) as Hin. apply Hfr; [by eapply pool_not_base|].
  intros q Hq. apply (pool_not_in base p'); auto. by intros ->.
Qed.

(** The loop body of freePgtbl. *)
Definition free_entry (d : nat) (p i : Z) : KM unit :=
  let! pte := ld64 (p + 8 * i) in
  if has pte PTE_V && negb (has pte (Z.lor (Z.lor PTE_R PTE_W) PTE_X)) then
    do! freePgtbl kfree d (PTE2PA pte);
    st64 (p + 8 * i) 0
  else when! has pte PTE_V then
    panic "freePgtbl: 释放页表前应该保证所有的叶子节点都被释放并且对应的物理地址被释放,否则会出现内存泄漏".

Definition sub_spec (d : nat) : Prop :=
  forall π p F s, (length π + d = 3)%nat -> nodes T !! π = Some p -> pa_inv base F s ->
    (forall π' p', π `prefix_of` π' -> nodes T !! π' = Some p' -> table_ok F s π' p') ->
    exists s', freePgtbl kfree d p s = Ok tt s' /\ pa_inv base (sub T π ∪ F) s' /\
      vm_step base (sub T π) s s'.

(** One turn of the loop. *)
Lemma free_entry_ok d π p i F s :
  sub_spec d -> (length π + S d = 3)%nat -> nodes T !! π = Some p -> 0 <= i < 512 ->
  pa_inv base F s -> p ∉ F -> load64 (k_mem s) (p + 8 * i) = entry T π i ->
  (forall π' p', π ++ [i] `prefix_of` π' -> nodes T !! π' = Some p' -> table_ok F s π' p') ->
  exists s', free_entry d p i s = Ok tt s' /\ pa_inv base (sub T (π ++ [i]) ∪ F) s' /\
    vm_step base ({[p]} ∪ sub T (π ++ [i])) s s' /\
    (forall j, 0 <= j < 512 -> j <> i ->
       load64 (k_mem s') (p + 8 * j) = load64 (k_mem s) (p + 8 * j)).
Proof.
  intros IH Hlen Hp Hi Hpa HpF Hld Hsub. pose proof (pa_base _ _ _ Hpa) as Hb.
  unfold free_entry. unfold bind at 1, ld64, get. rewrite Hld. unfold entry.
  destruct (nodes T !! (π ++ [i])) as [q|] eqn:E.
  - assert (length π <> 2%nat) as Hl2.
    { intros Hl. apply (pt_len _ _ _ _ Hw) in E. rewrite length_app in E. cbn in E. lia. }
    rewrite decide_False by done. pose proof (pt_page _ _ _ _ Hw _ _ E) as Hq.
    pose proof (pool_page_addr base q Hb Hq) as Hqa.
    rewrite has_V_mk_pte, has_RWX_table, PTE2PA_mk_pte by (done || lia). cbn [andb negb].
    destruct (IH (π ++ [i]) q F s) as (s1 & E1 & Hpa1 & St1); try done.
    { rewrite length_app. cbn. lia. }
    pose proof (pt_page _ _ _ _ Hw _ _ Hp) as Hpp. pose proof (sub_no_root π i p Hp) as Hnr.
    mstep E1. unfold st64, modify. eexists. split; [reflexivity|]. split; [|split].
    + apply pa_store64; try done. set_solver.
    + eapply vm_step_trans; [eapply vm_step_mono; [|exact St1]; set_solver|].
      apply vm_step_mem, frame_store64; [set_solver|done].
    + intros j Hj Hne. rewrite k_mem_set_mem, load64_store64_ne by lia. apply load64_ext. intros k Hk.
      pose proof (in_page_entry p j k Hj Hk) as Hin. apply (proj2 St1); [by eapply pool_not_base|].
      intros x Hx. apply (pool_not_in base p); try done; [by eapply sub_pool|by intros ->].
  - assert ((if decide (length π = 2%nat) then default 0 (leaves T !! (π ++ [i])) else 0) = 0) as ->.
    { case_decide; [|done]. by rewrite Hleaf, lookup_empty. }
    rewrite has_0, (sub_empty _ E), (left_id_L ∅ (∪)). exists s. split; [done|].
    split; [done|]. split; [apply vm_step_refl|done].
Qed.

Lemma free_loop_ok d π p n k F s :
  sub_spec d -> (length π + S d = 3)%nat -> nodes T !! π = Some p -> 0 <= k ->
  k + Z.of_nat n <= 512 -> pa_inv base F s -> p ∉ F ->
  (forall i, k <= i < k + Z.of_nat n -> load64 (k_mem s) (p + 8 * i) = entry T π i) ->
  (forall i π' p', k <= i < k + Z.of_nat n -> π ++ [i] `prefix_of` π' -> nodes T !! π' = Some p' ->
     table_ok F s π' p') ->
  exists s', foreach (Z.of_nat <$> seq (Z.to_nat k) n) (free_entry d p) s = Ok tt s' /\
    pa_inv base (subs T π k n ∪ F) s' /\ vm_step base ({[p]} ∪ subs T π k n) s s'.
Proof.
  intros IH Hlen Hp. revert k F s. induction n as [|n IHn]; intros k F s Hk Hkn Hpa HpF Hld Hsub.
  { exists s. cbn [seq fmap list_fmap foreach subs]. rewrite (left_id_L ∅ (∪)).
    split; [done|split; [done|apply vm_step_refl]]. }
  destruct (free_entry_ok d π p k F s) as (s1 & E1 & Hpa1 & St1 & Hoth); try done; try lia.
  { apply Hld. lia. } { intros π' p'. apply Hsub. lia. }
  pose proof (sub_no_root π k p Hp) as Hnr.
  assert (forall i π' p', k < i -> π ++ [i] `prefix_of` π' -> nodes T !! π' = Some p' ->
            p' ∉ {[p]} ∪ sub T (π ++ [k])) as Hout.
  { intros i π' p' Hi Hpre Hp'. rewrite elem_of_union, elem_of_singleton. intros [->|Hs].
    - apply (sub_no_root π i p Hp). apply elem_of_sub. by exists π'.
    - assert (k = i); [|lia]. apply (sub_disjoint π k i p'); [done|]. apply elem_of_sub. by exists π'. }
  destruct (IHn (k + 1) (sub T (π ++ [k]) ∪ F) s1) as (s2 & E2 & Hpa2 & St2).
  { lia. } { lia. } { done. } { set_solver. }
  { intros i Hi. rewrite Hoth by lia. apply Hld. lia. }
  { intros i π' p' Hi Hpre Hp'. destruct (table_ok_step F ({[p]} ∪ sub T (π ++ [k])) s s1 π' p') as [T1 T2].
    - done. - done.
    - intros q. rewrite elem_of_union, elem_of_singleton. intros [->|Hq]; [by eapply pt_page|by eapply sub_pool].
    - by apply (Hout i π'); [lia|..].
    - apply (Hsub i); [lia|done..].
    - split; [|done]. set_solver. }
  exists s2. replace (Z.to_nat (k + 1)) with (S (Z.to_nat k)) in E2 by lia. split; [|split].
  - cbn [seq fmap list_fmap foreach]. rewrite Z2Nat.id by done. mstep E1. exact E2.
  - cbn [subs]. by replace (sub T (π ++ [k]) ∪ subs T π (k + 1) n ∪ F)
      with (subs T π (k + 1) n ∪ (sub T (π ++ [k]) ∪ F)) by set_solver.
  - cbn [subs]. eapply vm_step_trans; eapply vm_step_mono; [|exact St1| |exact St2]; set_solver.
Qed.

Lemma sub_spec_all d : sub_spec d.
Proof.
  induction d as [|d IH]; intros π p F s Hlen Hp Hpa Hsub.
  { apply (pt_len _ _ _ _ Hw) in Hp. lia. }
  pose proof (pt_page _ _ _ _ Hw _ _ Hp) as Hpp. destruct (Hsub π p ltac:(done) Hp) as [HpF Hld].
  destruct (free_loop_ok d π p 512 0 F s) as (s1 & E1 & Hpa1 & St1); try done.
  { intros i π' p' _ [κ ->] Hp'. apply Hsub; [|done]. exists ([i] ++ κ). by rewrite app_assoc. }
  assert (p ∉ subs T π 0 512 ∪ F) as HpS.
  { rewrite elem_of_union, elem_of_subs. intros [(i & _ & Hi)|?]; [|done]. by apply (sub_no_root π i p Hp). }
  destruct (pa_free base _ s1 p Hpa1 Hpp HpS) as (s2 & E2 & Hpa2 & Hms & Hfr).
  exists s2. rewrite (sub_split π p Hp). split; [|split].
  - cbn [freePgtbl]. change (foreach _ _) with (foreach (Z.of_nat <$> seq (Z.to_nat 0) 512) (free_entry d p)).
    mstep E1. exact E2.
  - by rewrite <- (assoc_L (∪)).
  - eapply vm_step_trans; [exact St1|]. split; [done|]. intros a Ha HP. apply Hfr; [done|].
    apply HP. apply elem_of_union. left. by apply elem_of_singleton.
Qed.

End VmFree.

Section Spaces.
Context {kalloc : KM Z} {kfree : Z -> KM unit} {PA : PageAllocator kalloc kfree}.

Lemma sub_root T : sub T [] = tables T.
Proof.
  apply set_eq. intros q. rewrite elem_of_sub, elem_of_tables. split.
  - intros (π & _ & H). by exists π.
  - intros (π & H). exists π. split; [by exists π|done].
Qed.

Lemma freePgtbl_ok base F root T s :
  vm_ok base F root T s -> leaves T = ∅ ->
  exists s', freePgtbl kfree DEPTH root s = Ok tt s' /\ pa_inv base (tables T ∪ F) s' /\
    vm_step base (tables T) s s'.
Proof.
  intros [Hpa Hw Ho] Hl. rewrite <- (sub_root T).
  apply (sub_spec_all base root T (k_mem s) Hw Hl 3); try done; [by eapply pt_root|].
  intros π p _ Hp. split.
  - intros Hc. apply (Ho p Hc). apply elem_of_tables. by exists π.
  - intros i Hi. by apply (pt_mem _ _ _ _ Hw).
Qed.

(** A page-aligned address below [lim], and the leaves of the table that are
    the addresses of a predicate. *)
Definition page_below (lim va : Z) : Prop := va mod PGSIZE = 0 /\ 0 <= va < lim.
Definition leaves_in (P : Z -> Prop) (T : pt) : Prop :=
  forall π e, leaves T !! π = Some e -> exists va, π = path va /\ page_below MAXVA va /\ P va.

Lemma PGROUNDUP_pages sz :
  0 <= sz < MAXVA -> exists n, PGROUNDUP sz / PGSIZE = Z.of_nat n /\
    sz <= Z.of_nat n * PGSIZE < sz + PGSIZE.
Proof.
  intros Hs. unfold PGROUNDUP. change MAXVA with 274877906944 in Hs.
  rewrite u64_small by (unfold PGSIZE; lia).
  change (PGSIZE - 1) with (Z.ones 12). rewrite <- Z.ldiff_land, Z.ldiff_ones_r by lia.
  rewrite Z.shiftl_mul_pow2, Z.shiftr_div_pow2 by lia. change (2 ^ 12) with PGSIZE.
  rewrite Z.div_mul by done. exists (Z.to_nat ((sz + PGSIZE - 1) / PGSIZE)).
  rewrite Z2Nat.id by (unfold PGSIZE; zdm). split; [done|]. unfold PGSIZE. zdm.
Qed.

Lemma unmap_all n va T :
  good_range n va -> leaves_in (fun a => va <= a < va + Z.of_nat n * PGSIZE) T ->
  unmap_range n va (leaves T) = ∅.
Proof.
  intros Hr Hin. apply map_eq. intros π. rewrite lookup_empty.
  destruct (unmap_range n va (leaves T) !! π) as [e|] eqn:E; [|done]. exfalso.
  assert (forall k a Lv, unmap_range k a Lv ⊆ Lv) as Hsub.
  { clear. induction k as [|k IH]; intros a Lv; [done|]. cbn [unmap_range].
    etrans; [apply IH|apply delete_subseteq]. }
  pose proof (lookup_weaken _ _ _ _ E (Hsub n va (leaves T))) as El.
  destruct (Hin _ _ El) as (a & -> & [Ha Hb] & Hc). rewrite unmap_range_lookup in E by done.
  rewrite (proj2 (Z.leb_le _ _)), (proj2 (Z.ltb_lt _ _)) in E by lia. done.
Qed.

Lemma uVmFree_ok n base F root T s sz :
  vm_ok base F root T s -> 0 <= sz -> PGROUNDUP sz / PGSIZE = Z.of_nat n ->
  Z.of_nat n * PGSIZE <= MAXVA -> (sz = 0 -> n = 0%nat) ->
  leaves_in (fun a => a < Z.of_nat n * PGSIZE) T -> range_owned base F T n 0 ->
  exists s', uVmFree kalloc kfree root sz s = Ok tt s' /\
    pa_inv base (tables T ∪ (range_pages n 0 (leaves T) ∪ F)) s' /\
    vm_step base (range_pages n 0 (leaves T) ∪ foot F T) s s'.
Proof.
  intros Hok Hsz Hn Hmax Hz Hin Hown. unfold uVmFree.
  assert (good_range n 0) as Hr by (split; [done|split; [lia|]]; rewrite Z.add_0_l; done).
  assert (unmap_range n 0 (leaves T) = ∅) as Hun.
  { apply unmap_all; [done|]. intros π e He. destruct (Hin _ _ He) as (a & -> & Hb & Ha).
    exists a. split; [done|split; [done|]]. destruct Hb. lia. }
  destruct (uVmUnmap_ok n base F root T s 0 1 Hok Hr) as (s1 & E1 & Hok1 & St1); [done|].
  cbn [truthy Z.eqb negb] in *. rewrite Hun in Hok1.
  destruct (freePgtbl_ok _ _ _ _ _ Hok1) as (s2 & E2 & Hpa2 & St2); [done|].
  exists s2. unfold tables in *. cbn [nodes] in *. split; [|split; [done|]].
  - destruct (Z.ltb_spec 0 sz) as [Hlt|Hge].
    + rewrite Hn. by mstep E1.
    + assert (n = 0%nat) as -> by (apply Hz; lia). unfold uVmUnmap in E1. cbn in E1.
      injection E1 as ->. unfold bind, ret. done.
  - eapply vm_step_trans; [exact St1|]. eapply vm_step_mono; [|exact St2].
    unfold foot. intros x Hx. rewrite !elem_of_union. by right; right.
Qed.

End Spaces.
