(* ===== verification/AddressSpace.v ===== *)
(** * Building address spaces: uVmCreate, uVmAlloc, uvmcopy, procPagetable

    Pages are allocated, filled and mapped one by one; [extends] collects what
    such a sequence has done. *)

From S2P Require Import Prelude Mem CString State Spinlock Printf Locks PageAlloc Vm PageTable VmMap VmFree.

(** ** Mapping freshly allocated pages *)

(** A page mapped by a routine: virtual address, physical page, permissions. *)
Record mapping := { mp_va : Z; mp_page : Z; mp_perm : Z }.

Definition map_one (Lv : gmap (list Z) Z) (x : mapping) : gmap (list Z) Z :=
  <[path (mp_va x) := mk_pte (mp_page x) (mp_perm x)]> Lv.
Definition map_all (ms : list mapping) (Lv : gmap (list Z) Z) : gmap (list Z) Z :=
  foldl map_one Lv ms.
Definition all_prefixes (vas : list Z) : gset (list Z) := ⋃ (prefixes <$> vas).
Definition pages_of (ms : list mapping) : gset Z := list_to_set (mp_page <$> ms).

Section AddressSpace.
Context {kalloc : KM Z} {kfree : Z -> KM unit} {PA : PageAllocator kalloc kfree}.

(** The pages of [ms] were taken from the free pages, filled with [src] and
    mapped; the tables needed were allocated, and nothing else changed. *)
Record extends (base root : Z) (src : Z -> Z -> Z) (ms : list mapping)
    (F : gset Z) (T : pt) (s : kernel) (F' : gset Z) (T' : pt) (s' : kernel) : Prop := {
  ex_ok : vm_ok base F' root T' s';
  ex_leaves : leaves T' = map_all ms (leaves T);
  ex_nodes : nodes T ⊆ nodes T';
  ex_dom : dom (nodes T') = dom (nodes T) ∪ all_prefixes (mp_va <$> ms);
  ex_foot : foot F' T' ∪ pages_of ms = foot F T;
  ex_size : size F = (size F' + length ms + size (all_prefixes (mp_va <$> ms) ∖ dom (nodes T)))%nat;
  ex_pages : pages_of ms ⊆ F;
  ex_pool : forall p, p ∈ pages_of ms -> pool_page base p;
  ex_fresh : pages_of ms ## foot F' T';
  ex_nodup : NoDup (mp_page <$> ms);
  ex_content : forall x off, x ∈ ms -> 0 <= off < PGSIZE ->
    rd8 (k_mem s') (mp_page x + off) = src (mp_va x) off;
  ex_step : vm_step base (foot F T) s s'
}.

Lemma foot_pool base F root T s p : vm_ok base F root T s -> p ∈ foot F T -> pool_page base p.
Proof.
  intros Hok. unfold foot. rewrite elem_of_union. intros [Hp|Hp].
  - by eapply pa_pool, Hp; apply Hok.
  - by eapply vm_table_pool.
Qed.

(** A page outside the tables and the free pages keeps its contents. *)
Lemma step_outside base F root T s s' p a :
  vm_ok base F root T s -> vm_step base (foot F T) s s' -> pool_page base p -> p ∉ foot F T ->
  in_page p a -> rd8 (k_mem s') a = rd8 (k_mem s) a.
Proof.
  intros Hok [_ Hfr] Hp Hn Ha. apply Hfr; [by eapply pool_not_base|]. intros q Hq.
  apply (pool_not_in base p); [done|by eapply foot_pool|by intros ->|done].
Qed.

Lemma extends_refl base root src F T s :
  vm_ok base F root T s -> extends base root src [] F T s F T s.
Proof.
  intros Hok. unfold all_prefixes, pages_of. split; cbn; try done; try set_solver.
  - replace (∅ ∖ dom (nodes T)) with (∅ : gset (list Z)) by set_solver. rewrite size_empty. lia.
  - constructor.
Qed.

Lemma all_prefixes_app l1 l2 : all_prefixes (l1 ++ l2) = all_prefixes l1 ∪ all_prefixes l2.
Proof. unfold all_prefixes. rewrite fmap_app. apply union_list_app_L. Qed.

Lemma all_prefixes_cons va l : all_prefixes (va :: l) = prefixes va ∪ all_prefixes l.
Proof. done. Qed.

Lemma pages_of_app l1 l2 : pages_of (l1 ++ l2) = pages_of l1 ∪ pages_of l2.
Proof. unfold pages_of. by rewrite fmap_app, list_to_set_app_L. Qed.

Lemma elem_of_pages_of ms p : p ∈ pages_of ms <-> exists x, x ∈ ms /\ mp_page x = p.
Proof. unfold pages_of. rewrite elem_of_list_to_set, list_elem_of_fmap. naive_solver. Qed.

Lemma extends_trans base root src ms1 ms2 F T s F1 T1 s1 F2 T2 s2 :
  extends base root src ms1 F T s F1 T1 s1 -> extends base root src ms2 F1 T1 s1 F2 T2 s2 ->
  extends base root src (ms1 ++ ms2) F T s F2 T2 s2.
Proof.
  intros [A1 A2 A3 A4 A5 A6 A7 Ap A8 A9 A10 A11] [B1 B2 B3 B4 B5 B6 B7 Bp B8 B9 B10 B11].
  assert (F1 ⊆ F) as HF1.
  { intros x Hx. assert (x ∈ foot F T) as Hf by (rewrite <- A5; unfold foot; set_solver).
    unfold foot in Hf. apply elem_of_union in Hf as [|Ht]; [done|].
    exfalso. apply (vm_own _ _ _ _ _ A1 x Hx). apply elem_of_tables in Ht as [π Hπ].
    apply elem_of_tables. exists π. by eapply lookup_weaken. }
  assert (foot F2 T2 ⊆ foot F1 T1) as Hf2 by set_solver.
  split; rewrite ?fmap_app, ?all_prefixes_app, ?pages_of_app.
  - done.
  - rewrite B2, A2. unfold map_all. by rewrite foldl_app.
  - by etrans.
  - rewrite B4, A4. set_solver.
  - rewrite <- A5, <- B5. set_solver.
  - rewrite size_diff_split, length_app, A6, B6, A4. lia.
  - set_solver.
  - intros p [Hp|Hp]%elem_of_union; auto.
  - set_solver.
  - apply NoDup_app. split_and!; [done| |done]. intros x Hx Hx2.
    assert (x ∈ pages_of ms1) as H1 by (unfold pages_of; by apply elem_of_list_to_set).
    assert (x ∈ pages_of ms2) as H2 by (unfold pages_of; by apply elem_of_list_to_set).
    apply B7 in H2. apply (A8 x H1). unfold foot. set_solver.
  - intros x off [Hx|Hx]%elem_of_app Ho; [|by apply B10]. rewrite <- (A10 x off Hx Ho).
    assert (mp_page x ∈ pages_of ms1) as Hpx by (apply elem_of_pages_of; by exists x).
    apply (step_outside base F1 root T1 s1 s2 (mp_page x)); [done|done|by apply Ap|set_solver|].
    unfold in_page. lia.
  - eapply vm_step_trans; [exact A11|]. eapply vm_step_mono; [|exact B11]. rewrite <- A5. set_solver.
Qed.

(** mapPages of the page [q] that was just allocated and filled: [s1] is the
    state after the allocation and [m] memory after the filling. *)
Lemma extend_one base root src F T s q s1 m va perm :
  vm_ok base F root T s -> q ∈ F -> pool_page base q ->
  vm_ok base (F ∖ {[q]}) root T s1 -> vm_step base F s s1 ->
  (forall a, ~ in_page q a -> rd8 m a = rd8 (k_mem s1) a) ->
  (forall off, 0 <= off < PGSIZE -> rd8 m (q + off) = src va off) ->
  page_below MAXVA va -> 0 <= perm < 1024 -> leaves T !! path va = None ->
  (1 + size (prefixes va ∖ dom (nodes T)) <= size F)%nat ->
  exists F' T' s', mapPages kalloc root va PGSIZE q perm (set_mem m s1) = Ok 0 s' /\
    extends base root src [{| mp_va := va; mp_page := q; mp_perm := perm |}] F T s F' T' s'.
Proof.
  intros Hok Hq Hqp Hok1 Hst Hm Hsrc [Ha Hva] Hperm Hun Hsz.
  pose proof (pa_base _ _ _ (vm_alloc _ _ _ _ _ Hok)) as Hb.
  assert (q ∉ tables T) as HqT by (intros Hc; by apply (vm_own _ _ _ _ _ Hok q Hq)).
  assert (size F = S (size (F ∖ {[q]}))) as HsF.
  { rewrite size_difference, size_singleton by set_solver.
    assert (size F <> 0%nat); [|lia]. intros Hz. apply size_empty_inv in Hz. set_solver. }
  assert (vm_ok base (F ∖ {[q]}) root T (set_mem m s1)) as Hok2.
  { destruct Hok1 as [P1 W1 O1]. split; [|cbn|done].
    - apply (pa_write_page base _ s1 q); [done|done|set_solver|done].
    - apply (pt_wf_mem _ _ _ (k_mem s1)); [done|]. intros p a Hp Hin. apply Hm.
      apply (pool_not_in base p q); try done; [|by intros ->].
      apply elem_of_tables in Hp as [π Hπ]. by eapply pt_page. }
  destruct (mapPages_ok 1 base (F ∖ {[q]}) root T (set_mem m s1) va q perm) as (F' & T' & s' & E & G);
    try done.
  - split; [done|split; [lia|]]. pose proof Ha as Ha'. change MAXVA with 274877906944 in *.
    unfold PGSIZE in *. zdm.
  - destruct Hqp as (? & ? & ?). unfold good_frames, PHYSTOP, KERNBASE, PGSIZE in *. lia.
  - intros i Hi. replace (va + i * PGSIZE) with va by (unfold PGSIZE; lia). done.
  - cbn [range_tables]. rewrite (right_id_L ∅ (∪)). lia.
  - exists F', T', s'. split; [exact E|].
    destruct G as [G1 G2 G3 G4 G5 G6 G7]. cbn [range_tables] in *. rewrite (right_id_L ∅ (∪)) in *.
    assert (foot (F ∖ {[q]}) T ∪ {[q]} = foot F T) as Hfoot.
    { unfold foot. apply set_eq. intros x. destruct (decide (x = q)); set_solver. }
    assert (q ∉ foot (F ∖ {[q]}) T) as Hqf by (unfold foot; set_solver).
    assert (pages_of [{| mp_va := va; mp_page := q; mp_perm := perm |}] = {[q]}) as Hpg
      by (unfold pages_of; cbn; set_solver).
    assert (all_prefixes [va] = prefixes va) as Hap by (unfold all_prefixes; cbn; set_solver).
    split; cbn [fmap list_fmap mp_va mp_page mp_perm]; rewrite ?Hpg, ?Hap; try done.
    + by rewrite G5.
    + cbn [length]. lia.
    + set_solver.
    + intros p ->%elem_of_singleton. done.
    + rewrite G5. set_solver.
    + apply NoDup_singleton.
    + intros x off ->%list_elem_of_singleton Ho. cbn. rewrite <- (Hsrc off Ho).
      apply (step_outside base (F ∖ {[q]}) root T (set_mem m s1) s' q); try done.
      unfold in_page. lia.
    + eapply vm_step_trans; [eapply vm_step_mono; [|exact Hst]; unfold foot; set_solver|].
      eapply vm_step_trans.
      * apply vm_step_mem. intros a _ HP. apply Hm. apply HP. rewrite <- Hfoot. set_solver.
      * eapply vm_step_mono; [|exact G7]. rewrite <- Hfoot. set_solver.
Qed.

(** ** uVmCreate *)

Definition empty_pt (root : Z) : pt := {| nodes := {[ [] := root ]}; leaves := ∅ |}.

Lemma empty_pt_wf base root m :
  pool_page base root -> (forall a, in_page root a -> rd8 m a = 0) -> pt_wf base root (empty_pt root) m.
Proof.
  intros Hp Hz. split; cbn.
  - by rewrite lookup_singleton_eq.
  - intros π p [<- <-]%lookup_singleton_Some. done.
  - intros π p [<- <-]%lookup_singleton_Some. cbn. lia.
  - intros π π' p [<- _]%lookup_singleton_Some [<- _]%lookup_singleton_Some. done.
  - intros π i p [Hc _]%lookup_singleton_Some. by destruct π.
  - intros π e. by rewrite lookup_empty.
  - intros π p i [<- <-]%lookup_singleton_Some Hi. unfold entry. cbn.
    rewrite lookup_singleton_ne by done. apply load64_zero. intros k Hk. apply Hz. by eapply in_page_entry.
Qed.

Lemma tables_empty root : tables (empty_pt root) = {[root]}.
Proof. unfold tables, empty_pt. cbn. apply map_img_singleton_L. Qed.

Lemma uVmCreate_ok base F s :
  pa_inv base F s -> F <> ∅ ->
  exists root s', uVmCreate kalloc s = Ok root s' /\ root ∈ F /\
    vm_ok base (F ∖ {[root]}) root (empty_pt root) s' /\ vm_step base F s s'.
Proof.
  intros Hpa HF. destruct (pa_alloc base F s Hpa HF) as (q & s1 & E & Hq & Hpa1 & Hms & Hfr).
  pose proof (pa_pool base F s q Hpa Hq) as Hqp. pose proof (pa_base base F s Hpa) as Hb.
  unfold uVmCreate. mstep E. assert ((q =? 0) = false) as ->.
  { destruct Hqp as (_ & ? & _). unfold KERNBASE, PGSIZE in *. apply Z.eqb_neq. lia. }
  unfold bind, kmemset, modify, ret. eexists q, _. split; [reflexivity|]. split; [done|]. split.
  - split.
    + apply pa_memset; try done. set_solver.
    + apply empty_pt_wf; [done|]. intros a Ha. rewrite k_mem_set_mem, rd8_memset by done.
      unfold in_page in Ha. by zif.
    + rewrite tables_empty. set_solver.
  - eapply vm_step_trans; [split; [exact Hms|]|apply vm_step_mem, (frame_memset _ _ _ q); done].
    intros a Ha HP. apply Hfr; [done|]. by apply HP.
Qed.

(** ** uVmAlloc *)

Fixpoint vas (n : nat) (va : Z) : list Z :=
  match n with
  | O => []
  | S n' => va :: vas n' (va + PGSIZE)
  end.

Lemma all_prefixes_vas n va : all_prefixes (vas n va) = range_tables n va.
Proof.
  revert va. induction n as [|n IH]; intros va; [done|]. cbn [vas range_tables]. rewrite <- IH.
  unfold all_prefixes. done.
Qed.

Lemma lor_bound a b k : 0 <= k -> 0 <= a < 2 ^ k -> 0 <= b < 2 ^ k -> 0 <= Z.lor a b < 2 ^ k.
Proof.
  intros Hk Ha Hb. assert (0 <= Z.lor a b) as Hn by (rewrite Z.lor_nonneg; lia). split; [done|].
  destruct (decide (Z.lor a b = 0)) as [->|Hne]; [lia|].
  apply Z.log2_lt_pow2; [lia|]. rewrite Z.log2_lor by lia.
  assert (forall x, 0 <= x < 2 ^ k -> x = 0 \/ Z.log2 x < k) as Hl.
  { intros x Hx. destruct (decide (x = 0)); [by left|right]. apply Z.log2_lt_pow2; lia. }
  assert (0 < k).
  { destruct (decide (k = 0)) as [->|]; [|lia]. exfalso. apply Hne.
    assert (a = 0) as -> by lia. assert (b = 0) as -> by lia. done. }
  apply Z.max_lub_lt; [destruct (Hl a Ha) as [->|]|destruct (Hl b Hb) as [->|]]; cbn; lia.
Qed.

Definition zeros : Z -> Z -> Z := fun _ _ => 0.

Lemma uVmAlloc_loop_ok n base root F T s va oldsz newsz xperm :
  vm_ok base F root T s -> good_range n va -> va + Z.of_nat n * PGSIZE - PGSIZE < newsz ->
  newsz <= va + Z.of_nat n * PGSIZE -> 0 <= xperm < 1024 -> unmapped n va (leaves T) ->
  (n + size (range_tables n va ∖ dom (nodes T)) <= size F)%nat ->
  exists ms F' T' s',
    uVmAlloc_loop kalloc kfree (S n) root va oldsz newsz xperm s = Ok newsz s' /\
    mp_va <$> ms = vas n va /\
    Forall (fun x => mp_perm x = Z.lor (Z.lor PTE_U PTE_R) xperm) ms /\
    extends base root zeros ms F T s F' T' s'.
Proof.
  revert F T s va. induction n as [|n IH]; intros F T s va Hok Hr Hlo Hhi Hx Hun Hsz.
  - exists [], F, T, s. cbn [uVmAlloc_loop]. rewrite (proj2 (Z.ltb_ge _ _)) by lia.
    split; [done|split; [done|split; [constructor|by apply extends_refl]]].
  - cbn [range_tables] in Hsz. rewrite size_diff_split in Hsz.
    destruct (good_range_S _ _ Hr) as [Hr1 Hv]. pose proof Hr as (R1 & R2 & R3).
    destruct (alloc_page base F root T s Hok) as (q & s1 & E1 & Hq & Hqp & Hq0 & Hok1 & St1).
    { intros ->. rewrite size_empty in Hsz. lia. }
    set (perm := Z.lor (Z.lor PTE_U PTE_R) xperm).
    assert (0 <= perm < 1024) as Hperm by (apply (lor_bound _ _ 10); [lia|by vm_compute|done]).
    destruct (extend_one base root zeros F T s q s1 (memset (k_mem s1) q 0 PGSIZE) va perm)
      as (F1 & T1 & s2 & E2 & X1); try done.
    { intros a Ha. rewrite rd8_memset by done. unfold in_page in Ha. zcases. }
    { intros off Ho. rewrite rd8_memset by done. by zif. }
    { specialize (Hun 0 ltac:(lia)). by rewrite Z.add_0_r in Hun. }
    { lia. }
    pose proof X1 as [Y1 Y2 Y3 Y4 Y5 Y6 Y7 Yp Y8 Y9 Y10 Y11]. unfold all_prefixes in Y4, Y6. cbn in Y2, Y4, Y6.
    rewrite (right_id_L ∅ (∪)) in Y4, Y6.
    destruct (IH F1 T1 s2 (va + PGSIZE)) as (ms & F' & T' & s' & E3 & V3 & P3 & X3); try done.
    { unfold PGSIZE in *. lia. } { unfold PGSIZE in *. lia. }
    { intros i Hi. rewrite Y2. unfold map_one. cbn. rewrite lookup_insert_ne.
      - replace (va + PGSIZE + i * PGSIZE) with (va + (i + 1) * PGSIZE) by lia. apply Hun. lia.
      - intros Hc. apply path_inj in Hc; unfold PGSIZE in *; zdm. }
    { rewrite Y4. lia. }
    exists ({| mp_va := va; mp_page := q; mp_perm := perm |} :: ms), F', T', s'.
    split; [|split; [|split]].
    2: { cbn [fmap list_fmap vas]. by rewrite <- V3. }
    2: { constructor; [|exact P3]. reflexivity. }
    2: { exact (extends_trans _ _ _ _ _ _ _ _ _ _ _ _ _ _ X1 X3). }
    assert (MAXVA < 2 ^ 64) as HM by done.
    remember (S n) as n' eqn:Hn'. cbn [uVmAlloc_loop].
    rewrite (proj2 (Z.ltb_lt _ _)) by (subst n'; unfold PGSIZE in *; lia).
    mstep E1. rewrite Hq0. unfold bind at 1, kmemset, modify. mstep E2. cbn [Z.eqb negb].
    rewrite u64_small by (subst n'; unfold PGSIZE in *; lia). exact E3.
Qed.

(** ** uvmcopy *)

(** What uvmcopy reads: the contents of the page the old table maps. *)
Definition contents (m : mem) (Lv : gmap (list Z) Z) (va off : Z) : Z :=
  rd8 m (PTE2PA (default 0 (Lv !! path va)) + off).

(** The mapped pages of the range. *)
Fixpoint mapped_vas (n : nat) (va : Z) (Lv : gmap (list Z) Z) : list Z :=
  match n with
  | O => []
  | S n' => (match Lv !! path va with Some _ => [va] | None => [] end) ++ mapped_vas n' (va + PGSIZE) Lv
  end.

(** Every leaf of the range maps a page of the pool outside [P]. *)
Definition range_outside (base : Z) (P : gset Z) (Lv : gmap (list Z) Z) (n : nat) (va : Z) : Prop :=
  forall i e, 0 <= i < Z.of_nat n -> Lv !! path (va + i * PGSIZE) = Some e ->
    pool_page base (PTE2PA e) /\ PTE2PA e ∉ P.

Lemma range_outside_S base P Lv n va : range_outside base P Lv (S n) va -> range_outside base P Lv n (va + PGSIZE).
Proof.
  intros H i e Hi He. apply (H (i + 1)); [lia|]. by replace (va + (i + 1) * PGSIZE) with (va + PGSIZE + i * PGSIZE) by lia.
Qed.

Lemma pt_flags_range e : 0 <= PTE_FLAGS e < 1024.
Proof.
  unfold PTE_FLAGS. change 0x3FF with (Z.ones 10). rewrite Z.land_ones by lia.
  apply Z.mod_pos_bound. lia.
Qed.

(** The routine works on the tree [Tn] of the new table while the tree [To] of
    the old one and the pages it maps stay as they are. *)
Lemma uvmcopy_loop_ok n base old To new F Tn s0 s va sz :
  vm_ok base F new Tn s -> pt_wf base old To (k_mem s) -> tables To ## foot F Tn ->
  range_outside base (foot F Tn) (leaves To) n va ->
  (forall i e off, 0 <= i < Z.of_nat n -> leaves To !! path (va + i * PGSIZE) = Some e ->
     0 <= off < PGSIZE -> rd8 (k_mem s) (PTE2PA e + off) = rd8 (k_mem s0) (PTE2PA e + off)) ->
  good_range n va -> va + Z.of_nat n * PGSIZE - PGSIZE < sz -> sz <= va + Z.of_nat n * PGSIZE ->
  unmapped n va (leaves Tn) ->
  (length (mapped_vas n va (leaves To)) +
   size (all_prefixes (mapped_vas n va (leaves To)) ∖ dom (nodes Tn)) <= size F)%nat ->
  exists ms F' T' s',
    uvmcopy_loop kalloc kfree (S n) old new va sz s = Ok 0 s' /\
    mp_va <$> ms = mapped_vas n va (leaves To) /\
    Forall (fun x => exists e, leaves To !! path (mp_va x) = Some e /\ mp_perm x = PTE_FLAGS e) ms /\
    extends base new (contents (k_mem s0) (leaves To)) ms F Tn s F' T' s'.
Proof.
  revert F Tn s va. induction n as [|n IH]; intros F Tn s va Hok Hwo Hdis Hout Hcont Hr Hlo Hhi Hun Hsz.
  { exists [], F, Tn, s. cbn [uvmcopy_loop]. rewrite (proj2 (Z.ltb_ge _ _)) by lia.
    split; [done|split; [done|split; [constructor|by apply extends_refl]]]. }
  pose proof (pa_base _ _ _ (vm_alloc _ _ _ _ _ Hok)) as Hb.
  destruct (good_range_S _ _ Hr) as [Hr1 Hv]. pose proof Hr as (R1 & R2 & R3).
  assert (MAXVA < 2 ^ 64) as HM by done.
  assert (unmapped n (va + PGSIZE) (leaves Tn)) as Hun1.
  { intros i Hi. replace (va + PGSIZE + i * PGSIZE) with (va + (i + 1) * PGSIZE) by lia. apply Hun. lia. }
  assert (forall i e off, 0 <= i < Z.of_nat n -> leaves To !! path (va + PGSIZE + i * PGSIZE) = Some e ->
     0 <= off < PGSIZE -> rd8 (k_mem s) (PTE2PA e + off) = rd8 (k_mem s0) (PTE2PA e + off)) as Hcont1.
  { intros i e off Hi He. apply (Hcont (i + 1)); [lia|].
    by replace (va + (i + 1) * PGSIZE) with (va + PGSIZE + i * PGSIZE) by lia. }
  assert (forall s1 r, uvmcopy_loop kalloc kfree (S n) old new (va + PGSIZE) sz s1 = r ->
    uvmcopy_loop kalloc kfree (S n) old new (u64 (va + PGSIZE)) sz s1 = r) as Hnext.
  { intros s1 r <-. rewrite u64_small by (unfold PGSIZE in *; lia). done. }
  remember (S n) as n' eqn:Hn'. cbn [uvmcopy_loop]. rewrite Hn' in Hlo, Hhi, Hout, Hcont, Hun, Hsz, R3.
  rewrite (proj2 (Z.ltb_lt _ _)) by (unfold PGSIZE in *; lia).
  mstep (walk_ro (kalloc:=kalloc) base old To s va Hwo Hb Hv).
  destruct (leaves To !! path va) as [e|] eqn:El.
  - (* mapped *)
    destruct (pte_addr To va) as [a|] eqn:Ea; cbn [from_option id].
    2: { rewrite (pte_addr_none _ _ _ _ _ Hwo Ea) in El. done. }
    rewrite (pte_addr_nonzero _ _ _ _ _ _ Hwo Hb Ea). unfold bind at 1, ld64, get.
    rewrite (pte_addr_entry _ _ _ _ _ _ Hwo Ea), El. cbn [from_option id].
    destruct (pt_leaf _ _ _ _ Hwo _ _ El) as (_ & _ & _ & _ & _ & _ & _ & HV). rewrite HV. cbn [negb].
    cbn [mapped_vas] in Hsz. rewrite El in Hsz. cbn [app length] in Hsz.
    rewrite all_prefixes_cons, size_diff_split in Hsz.
    assert (all_prefixes [va] = prefixes va) as Hap by (unfold all_prefixes; cbn; set_solver).
    destruct (Hout 0 e) as [Hep HeF]; [lia|by rewrite Z.add_0_r|].
    destruct (alloc_page base F new Tn s Hok) as (q & s1 & E1 & Hq & Hqp & Hq0 & Hok1 & St1).
    { intros ->. rewrite size_empty in Hsz. lia. }
    mstep E1. rewrite Hq0. unfold bind at 1, kmemmove, modify.
    destruct (extend_one base new (contents (k_mem s0) (leaves To)) F Tn s q s1
                (memmove (k_mem s1) q (PTE2PA e) PGSIZE) va (PTE_FLAGS e))
      as (F1 & T1 & s2 & E2 & X1); try done.
    { intros a0 Ha0. rewrite rd8_memmove by done. unfold in_page in Ha0. zcases. }
    { intros off Ho. rewrite rd8_memmove by done. rewrite (proj2 (Z.leb_le _ _)), (proj2 (Z.ltb_lt _ _)) by lia.
      cbn [andb]. replace (PTE2PA e + (q + off - q)) with (PTE2PA e + off) by lia.
      unfold contents. rewrite El. cbn [from_option id]. rewrite <- (Hcont 0 e off); [|lia|by rewrite Z.add_0_r|done].
      apply (step_outside base F new Tn s s1 (PTE2PA e)); try done.
      - eapply vm_step_mono; [|exact St1]. unfold foot. set_solver.
      - unfold in_page. lia. }
    { apply pt_flags_range. }
    { specialize (Hun 0 ltac:(lia)). by rewrite Z.add_0_r in Hun. }
    { lia. }
    mstep E2. cbn [Z.eqb negb].
    pose proof X1 as [Y1 Y2 Y3 Y4 Y5 Y6 Y7 Yp Y8 Y9 Y10 Y11]. cbn in Y2. cbn [fmap list_fmap mp_va length] in Y4, Y6. rewrite Hap in Y4, Y6.
    assert (foot F1 T1 ⊆ foot F Tn) as Hsub by (rewrite <- Y5; set_solver).
    destruct (IH F1 T1 s2 (va + PGSIZE)) as (ms & F' & T' & s' & E3 & V3 & P3 & X3); try done.
    { apply (pt_wf_mem _ _ _ (k_mem s)); [done|]. intros p a0 Hp Hin.
      apply (step_outside base F new Tn s s2 p); try done; [|set_solver].
      apply elem_of_tables in Hp as [π Hπ]. by eapply pt_page. }
    { set_solver. }
    { intros i e' Hi He'. destruct (range_outside_S _ _ _ _ _ Hout i e' Hi He'). split; [done|set_solver]. }
    { intros i e' off Hi He' Ho. rewrite <- (Hcont1 i e' off Hi He' Ho).
      destruct (range_outside_S _ _ _ _ _ Hout i e' Hi He').
      apply (step_outside base F new Tn s s2 (PTE2PA e')); try done. unfold in_page. lia. }
    { unfold PGSIZE in *. lia. } { unfold PGSIZE in *. lia. }
    { intros i Hi. rewrite Y2. unfold map_one. cbn. rewrite lookup_insert_ne; [by apply Hun1|].
      intros Hc. apply path_inj in Hc; unfold PGSIZE in *; zdm. }
    { rewrite Y4. lia. }
    exists ({| mp_va := va; mp_page := q; mp_perm := PTE_FLAGS e |} :: ms), F', T', s'.
    split; [by apply Hnext, E3|]. split; [|split].
    + cbn [fmap list_fmap mapped_vas]. rewrite V3, Hn'. cbn [mapped_vas]. by rewrite El.
    + constructor; [|done]. exists e. done.
    + exact (extends_trans _ _ _ _ _ _ _ _ _ _ _ _ _ _ X1 X3).
  - (* not mapped *)
    assert (mapped_vas (S n) va (leaves To) = mapped_vas n (va + PGSIZE) (leaves To)) as Hmv
      by (cbn [mapped_vas]; by rewrite El).
    rewrite Hmv in *.
    destruct (IH F Tn s (va + PGSIZE)) as (ms & F' & T' & s' & E3 & V3 & P3 & X3); try done.
    { by apply range_outside_S. } { unfold PGSIZE in *. lia. } { unfold PGSIZE in *. lia. }
    exists ms, F', T', s'. split; [|by rewrite Hn', Hmv].
    destruct (pte_addr To va) as [a|] eqn:Ea; cbn [from_option id]; [|by apply Hnext].
    rewrite (pte_addr_nonzero _ _ _ _ _ _ Hwo Hb Ea). unfold bind at 1, ld64, get.
    rewrite (pte_addr_entry _ _ _ _ _ _ Hwo Ea), El. cbn [from_option id]. rewrite has_0. by apply Hnext.
Qed.

End AddressSpace.
