(* ===== verification/Sv39.v ===== *)
(** * The MMU's view of a page table

    The address translation of the RISC-V Sv39 scheme, as the hardware does it:
    it is what a page table is for. On the trees of [PageTable] it is a function
    of the leaf entry of the address. *)

From S2P Require Import Prelude Mem CString State Spinlock Printf Locks PageAlloc Vm PageTable.

(** The page number of an entry: bits 53 to 10. *)
Definition pte_ppn (e : Z) : Z := (e / 2 ^ 10) mod 2 ^ 44.
Definition bitV (e : Z) : bool := Z.testbit e 0.
Definition bitR (e : Z) : bool := Z.testbit e 1.
Definition bitW (e : Z) : bool := Z.testbit e 2.
Definition bitX (e : Z) : bool := Z.testbit e 3.
Definition bitU (e : Z) : bool := Z.testbit e 4.

(** The table walk: the level and the value of the leaf entry, or a fault. *)
Fixpoint sv39_walk (levels : list Z) (m : mem) (a va : Z) : option (Z * Z) :=
  match levels with
  | [] => None
  | l :: levels' =>
      let e := load64 m (a + 8 * ((va / 2 ^ (12 + 9 * l)) mod 2 ^ 9)) in
      if negb (bitV e) || (negb (bitR e) && bitW e) then None
      else if bitR e || bitX e then Some (l, e)
      else sv39_walk levels' m (pte_ppn e * 2 ^ 12) va
  end.

Inductive access := Fetch | Load | Store.

Definition allows (e : Z) (acc : access) : bool :=
  match acc with Fetch => bitX e | Load => bitR e | Store => bitW e end.

(** The physical address of [va] for an access in user or supervisor mode (with
    sstatus.SUM clear), or a page fault. A superpage must be aligned. *)
Definition sv39_translate (m : mem) (root va : Z) (user : bool) (acc : access) : option Z :=
  match sv39_walk [2; 1; 0] m root va with
  | None => None
  | Some (l, e) =>
      if negb (allows e acc) || negb (Bool.eqb (bitU e) user) then None
      else
        let span := 2 ^ (12 + 9 * l) in
        let pa := pte_ppn e * 2 ^ 12 in
        if pa mod span =? 0 then Some (pa + va mod span) else None
  end.

(** ** On a well-formed table *)

(** What the leaf entry [e] of the page of [va] means. *)
Definition leaf_translate (e : option Z) (va : Z) (user : bool) (acc : access) : option Z :=
  match e with
  | None => None
  | Some e =>
      if negb (bitV e) || (negb (bitR e) && bitW e) then None
      else if negb (bitR e || bitX e) then None
      else if negb (allows e acc) || negb (Bool.eqb (bitU e) user) then None
      else Some (pte_ppn e * 2 ^ 12 + va mod PGSIZE)
  end.

Lemma mk_pte_bit p perm k :
  page_addr p -> 0 <= k < 10 -> Z.testbit (mk_pte p perm) k = (k =? 0) || Z.testbit perm k.
Proof.
  intros Hp Hk. destruct (Z.eqb_spec k 0) as [->|Hne].
  - rewrite <- has_testbit by lia. apply has_V_mk_pte.
  - rewrite <- has_testbit by lia. rewrite has_mk_pte by (done || lia). done.
Qed.

Lemma mk_pte_ppn p perm : page_addr p -> 0 <= perm < 1024 -> pte_ppn (mk_pte p perm) * 2 ^ 12 = p.
Proof.
  intros Hp Hq. pose proof Hp as [H1 H2]. unfold pte_ppn, mk_pte. rewrite PA2PTE_spec by done.
  rewrite <- Z.shiftr_div_pow2 by lia. rewrite !Z.shiftr_lor.
  rewrite (Z.shiftr_div_pow2 perm), (Z.div_small perm) by lia.
  rewrite (Z.shiftr_div_pow2 (p / 4096 * 1024)) by lia. change (2 ^ 10) with 1024.
  rewrite Z.div_mul by lia. change (Z.shiftr PTE_V 10) with 0. rewrite !Z.lor_0_r.
  change (2 ^ 12) with 4096. unfold PGSIZE in *. change (2 ^ 44) with 17592186044416.
  change (2 ^ 56) with 72057594037927936 in *. zdm.
Qed.

Lemma sv39_index l va : 0 <= l -> (va / 2 ^ (12 + 9 * l)) mod 2 ^ 9 = PX l va.
Proof. intros. by rewrite PX_spec. Qed.

Lemma pte_bits_table q :
  page_addr q -> bitV (mk_pte q 0) = true /\ bitR (mk_pte q 0) = false /\
  bitW (mk_pte q 0) = false /\ bitX (mk_pte q 0) = false.
Proof. intros Hq. unfold bitV, bitR, bitW, bitX. by rewrite !mk_pte_bit by (done || lia). Qed.

(** One level of the walk through a table. *)
Lemma sv39_walk_node base root T m π p l levels va :
  KERNBASE <= base -> pt_wf base root T m -> nodes T !! π = Some p -> (length π < 2)%nat -> 0 <= l ->
  sv39_walk (l :: levels) m p va =
    match nodes T !! (π ++ [PX l va]) with
    | Some q => sv39_walk levels m q va
    | None => None
    end.
Proof.
  intros Hb Hw Hp Hl Hlv. cbn [sv39_walk]. rewrite sv39_index by done.
  rewrite (pt_mem _ _ _ _ Hw π p _ Hp (PX_range l va Hlv)). unfold entry. rewrite decide_False by lia.
  destruct (nodes T !! (π ++ [PX l va])) as [q|] eqn:E; [|done].
  pose proof (pool_page_addr base q Hb (pt_page _ _ _ _ Hw _ _ E)) as Hq.
  destruct (pte_bits_table q Hq) as (-> & -> & -> & ->). cbn. rewrite mk_pte_ppn by (done || lia). done.
Qed.

Lemma sv39_tree base root T m va user acc :
  KERNBASE <= base -> pt_wf base root T m ->
  sv39_translate m root va user acc = leaf_translate (leaves T !! path va) va user acc.
Proof.
  intros Hb Hw. unfold sv39_translate.
  rewrite (sv39_walk_node base root T m [] root 2) by (first [done | lia | cbn; lia | by eapply pt_root]).
  cbn [app]. destruct (nodes T !! [PX 2 va]) as [p1|] eqn:E1.
  - rewrite (sv39_walk_node base root T m [PX 2 va] p1 1) by (first [done | lia | cbn; lia]).
    cbn [app]. destruct (nodes T !! [PX 2 va; PX 1 va]) as [p0|] eqn:E0.
    + cbn [sv39_walk]. rewrite sv39_index by lia.
      rewrite (pt_mem _ _ _ _ Hw _ p0 _ E0 (PX_range 0 va ltac:(lia))).
      unfold entry. rewrite decide_True by done.
      change ([PX 2 va; PX 1 va] ++ [PX 0 va]) with (path va).
      destruct (leaves T !! path va) as [e|]; [|done]. cbn [from_option id leaf_translate].
      destruct (negb (bitV e) || negb (bitR e) && bitW e); [done|].
      destruct (bitR e || bitX e); [|done]. cbn [negb].
      destruct (negb (allows e acc) || negb (Bool.eqb (bitU e) user)); [done|].
      change (2 ^ (12 + 9 * 0)) with PGSIZE. change (2 ^ 12) with PGSIZE. by rewrite Z.mod_mul by done.
    + destruct (leaves T !! path va) as [e|] eqn:El; [|done].
      destruct (pt_leaf _ _ _ _ Hw _ _ El) as (π & i & Hpi & _ & [y Hy] & _).
      change (path va) with ([PX 2 va; PX 1 va] ++ [PX 0 va]) in Hpi.
      apply snoc_inj in Hpi as [<- _]. congruence.
  - destruct (leaves T !! path va) as [e|] eqn:El; [|done].
    destruct (pt_leaf _ _ _ _ Hw _ _ El) as (π & i & Hpi & _ & [y Hy] & _).
    change (path va) with ([PX 2 va; PX 1 va] ++ [PX 0 va]) in Hpi.
    apply snoc_inj in Hpi as [<- _]. apply (pt_parent _ _ _ _ Hw [PX 2 va]) in Hy as [[z Hz] _]. congruence.
Qed.

(** The page of an address. *)
Lemma path_page va : path (va - va mod PGSIZE) = path va.
Proof.
  assert (forall k, 12 <= k -> (va - va mod PGSIZE) / 2 ^ k = va / 2 ^ k) as H.
  { intros k Hk. change PGSIZE with (2 ^ 12).
    replace (va - va mod 2 ^ 12) with (va / 2 ^ 12 * 2 ^ 12)
      by (rewrite (Z.div_mod va (2 ^ 12)) at 2 by done; lia).
    replace k with (12 + (k - 12)) by lia. rewrite Z.pow_add_r by lia.
    rewrite <- !Z.div_div by (done || apply Z.pow_pos_nonneg; lia). by rewrite Z.div_mul by done. }
  unfold path. rewrite !PX_spec by lia. by rewrite !H by lia.
Qed.
