(* ===== verification/VmProps.v ===== *)
(** * What the virtual-memory routines promise

    The routines of kernel/mm/vm.c against the MMU of [Sv39]: what they map is
    what the hardware translates, and no page is lost. *)

From S2P Require Import Prelude Mem CString State Spinlock Printf Locks PageAlloc Kalloc Vm PageTable VmMap VmFree AddressSpace Sv39.

(** The permission bits make a leaf the hardware accepts. *)
Definition grants (perm : Z) (user : bool) (acc : access) : bool :=
  negb (negb (bitR perm) && bitW perm) && (bitR perm || bitX perm) && allows perm acc &&
  Bool.eqb (bitU perm) user.

Section VmProps.
Context {kalloc : KM Z} {kfree : Z -> KM unit} {PA : PageAllocator kalloc kfree}.

Lemma leaf_translate_mk p perm va user acc :
  page_addr p -> 0 <= perm < 1024 ->
  leaf_translate (Some (mk_pte p perm)) va user acc =
    if grants perm user acc then Some (p + va mod PGSIZE) else None.
Proof.
  intros Hp Hperm. unfold leaf_translate, grants, allows, bitV, bitR, bitW, bitX, bitU.
  rewrite mk_pte_ppn by done. rewrite !mk_pte_bit by (done || lia). cbn [Z.eqb orb negb].
  destruct (Z.testbit perm 1), (Z.testbit perm 2), (Z.testbit perm 3), (Z.testbit perm 4), user, acc;
    done.
Qed.

Lemma vm_kern base F root T s : vm_ok base F root T s -> KERNBASE <= base.
Proof. intros H. by eapply pa_base, vm_alloc. Qed.

(** The page of an address lies where the address lies. *)
Lemma page_of a va n :
  good_range n va -> va <= a < va + Z.of_nat n * PGSIZE ->
  va <= a - a mod PGSIZE < va + Z.of_nat n * PGSIZE.
Proof. intros (H1 & _ & _) H. unfold PGSIZE in *. zdm. Qed.

Lemma page_of_not a va n :
  good_range n va -> ~ (va <= a < va + Z.of_nat n * PGSIZE) ->
  ~ (va <= a - a mod PGSIZE < va + Z.of_nat n * PGSIZE).
Proof. intros (H1 & _ & _) H. unfold PGSIZE in *. zdm. Qed.

Lemma page_of_below a : 0 <= a < MAXVA -> (a - a mod PGSIZE) mod PGSIZE = 0 /\ 0 <= a - a mod PGSIZE < MAXVA.
Proof. change MAXVA with 274877906944. unfold PGSIZE. intros. split; zdm. Qed.

(** MapPages on [n] unmapped pages, with free pages for the missing tables,
    returns 0, and then the hardware translates every address of the range to
    the corresponding physical address with exactly the permissions asked for
    (in user mode only with PTE_U), while every other address translates as
    before. The tables are taken from the free pages and nothing else of the
    kernel changes. *)
Theorem mapPages_correct n base F root T s va pa perm :
  n <> 0%nat -> vm_ok base F root T s -> good_range n va -> good_frames n pa -> 0 <= perm < 1024 ->
  unmapped n va (leaves T) -> (size (range_tables n va ∖ dom (nodes T)) <= size F)%nat ->
  exists F' T' s', mapPages kalloc root va (Z.of_nat n * PGSIZE) pa perm s = Ok 0 s' /\
    vm_ok base F' root T' s' /\ foot F' T' = foot F T /\ vm_step base (foot F T) s s' /\
    (forall a user acc, va <= a < va + Z.of_nat n * PGSIZE ->
       sv39_translate (k_mem s') root a user acc =
         if grants perm user acc then Some (pa + (a - va)) else None) /\
    (forall a user acc, 0 <= a < MAXVA -> ~ (va <= a < va + Z.of_nat n * PGSIZE) ->
       sv39_translate (k_mem s') root a user acc = sv39_translate (k_mem s) root a user acc).
Proof.
  intros Hn Hok Hr Hf Hperm Hun Hsz. pose proof (vm_kern _ _ _ _ _ Hok) as Hb.
  destruct (mapPages_ok n base F root T s va pa perm) as (F' & T' & s' & E & G); try done.
  destruct G as [G1 G2 G3 G4 G5 G6 G7]. exists F', T', s'. do 4 (split; [done|]). split.
  - intros a user acc Ha. pose proof Hr as (R1 & R2 & R3). pose proof (page_of a va n Hr Ha) as Hpg.
    destruct (page_of_below a) as [P1 P2]; [lia|].
    rewrite (sv39_tree base root T') by (done || apply G1).
    rewrite G2, <- path_page, map_range_lookup by done.
    rewrite (proj2 (Z.leb_le _ _)), (proj2 (Z.ltb_lt _ _)) by lia. cbn [andb].
    rewrite leaf_translate_mk by (try done; destruct Hf as (F1 & F2 & F3); split; unfold PGSIZE in *; zdm).
    destruct (grants perm user acc); [|done]. f_equal. lia.
  - intros a user acc Ha Hout. pose proof (page_of_not a va n Hr Hout) as Hpg.
    destruct (page_of_below a Ha) as [P1 P2].
    rewrite (sv39_tree base root T'), (sv39_tree base root T) by (done || apply G1 || apply Hok).
    rewrite G2, <- path_page, map_range_lookup by done.
    destruct (Z.leb_spec va (a - a mod PGSIZE)), (Z.ltb_spec (a - a mod PGSIZE) (va + Z.of_nat n * PGSIZE));
      cbn [andb]; try done. lia.
Qed.

(** UVmUnmap on [n] pages returns; then every address of the range faults,
    every other address translates as before, and, when asked to free, exactly
    the pages that were mapped in the range have become free. Pages of the range
    that are not mapped are skipped. *)
Theorem uVmUnmap_correct n base F root T s va do_free :
  vm_ok base F root T s -> good_range n va ->
  (truthy do_free = true -> range_owned base F T n va) ->
  let P := if truthy do_free then range_pages n va (leaves T) else ∅ in
  exists T' s', uVmUnmap kalloc kfree root va (Z.of_nat n) do_free s = Ok tt s' /\
    vm_ok base (P ∪ F) root T' s' /\ nodes T' = nodes T /\ vm_step base (P ∪ foot F T) s s' /\
    (forall a user acc, va <= a < va + Z.of_nat n * PGSIZE ->
       sv39_translate (k_mem s') root a user acc = None) /\
    (forall a user acc, 0 <= a < MAXVA -> ~ (va <= a < va + Z.of_nat n * PGSIZE) ->
       sv39_translate (k_mem s') root a user acc = sv39_translate (k_mem s) root a user acc).
Proof.
  intros Hok Hr Hown P. pose proof (vm_kern _ _ _ _ _ Hok) as Hb.
  destruct (uVmUnmap_ok n base F root T s va do_free Hok Hr Hown) as (s' & E & Hok' & St).
  eexists _, s'. split; [exact E|]. split; [exact Hok'|]. split; [done|]. split; [exact St|].
  set (T' := {| nodes := nodes T; leaves := unmap_range n va (leaves T) |}) in *. split.
  - intros a user acc Ha. pose proof Hr as (R1 & R2 & R3). pose proof (page_of a va n Hr Ha) as Hpg.
    destruct (page_of_below a) as [P1 P2]; [lia|].
    rewrite (sv39_tree base root T') by (done || apply Hok'). unfold T'. cbn [leaves].
    rewrite <- path_page, unmap_range_lookup by done.
    by rewrite (proj2 (Z.leb_le _ _)), (proj2 (Z.ltb_lt _ _)) by lia.
  - intros a user acc Ha Hout. pose proof (page_of_not a va n Hr Hout) as Hpg.
    destruct (page_of_below a Ha) as [P1 P2].
    rewrite (sv39_tree base root T'), (sv39_tree base root T) by (done || apply Hok' || apply Hok).
    unfold T'. cbn [leaves]. rewrite <- path_page, unmap_range_lookup by done.
    destruct (Z.leb_spec va (a - a mod PGSIZE)), (Z.ltb_spec (a - a mod PGSIZE) (va + Z.of_nat n * PGSIZE));
      cbn [andb]; try done. lia.
Qed.

Lemma has_bit e k : 0 <= k -> has e (Z.shiftl 1 k) = Z.testbit e k.
Proof. intros. rewrite Z.shiftl_1_l. by apply has_testbit. Qed.

Lemma PTE2PA_ppn e : 0 <= e < 2 ^ 54 -> PTE2PA e = pte_ppn e * 2 ^ 12.
Proof.
  intros He. unfold PTE2PA, pte_ppn. rewrite Z.shiftr_div_pow2, Z.shiftl_mul_pow2 by lia.
  change (2 ^ 10) with 1024. change (2 ^ 12) with 4096. change (2 ^ 44) with 17592186044416.
  change (2 ^ 54) with 18014398509481984 in He. rewrite u64_small; [zdm|].
  change (2 ^ 64) with 18446744073709551616. zdm.
Qed.

Lemma uVA2PA_ok base F root T s va :
  vm_ok base F root T s -> 0 <= va < MAXVA ->
  uVA2PA kalloc root va s =
    Ok (match leaves T !! path va with
        | Some e => if has e PTE_U then PTE2PA e else 0
        | None => 0
        end) s.
Proof.
  intros Hok Hva. pose proof (vm_kern _ _ _ _ _ Hok) as Hb. pose proof (vm_wf _ _ _ _ _ Hok) as Hw.
  unfold uVA2PA. rewrite (proj2 (Z.leb_gt _ _)) by lia. mstep (walk_ro (kalloc:=kalloc) base root T s va Hw Hb Hva).
  destruct (pte_addr T va) as [a|] eqn:Ea; cbn [from_option id].
  - rewrite (pte_addr_nonzero _ _ _ _ _ _ Hw Hb Ea). unfold bind, ld64, get.
    rewrite (pte_addr_entry _ _ _ _ _ _ Hw Ea). destruct (leaves T !! path va) as [e|] eqn:El; cbn [from_option id].
    + destruct (pt_leaf _ _ _ _ Hw _ _ El) as (_ & _ & _ & _ & _ & _ & _ & HV). rewrite HV. cbn [negb].
      by destruct (has e PTE_U).
    + by rewrite has_0.
  - by rewrite (pte_addr_none _ _ _ _ _ Hw Ea).
Qed.

(** C24: uVA2PA, the kernel's own translation of user addresses, returns the page
    the MMU would use for a user-mode load of the address, and 0 exactly when
    that load would fault, on tables whose user leaves are readable. It changes
    nothing and never panics below MAXVA; above it returns 0. *)
Theorem uVA2PA_mmu base F root T s va :
  vm_ok base F root T s -> 0 <= va ->
  (forall e, leaves T !! path va = Some e -> 0 <= e < 2 ^ 54 /\ (bitU e = true -> bitR e = true)) ->
  uVA2PA kalloc root va s =
    Ok (if MAXVA <=? va then 0
        else match sv39_translate (k_mem s) root va true Load with
             | Some pa => pa - va mod PGSIZE
             | None => 0
             end) s.
Proof.
  intros Hok Hva Hleaf. pose proof (vm_kern _ _ _ _ _ Hok) as Hb.
  destruct (Z.leb_spec MAXVA va) as [Hge|Hlt].
  { unfold uVA2PA. by rewrite (proj2 (Z.leb_le _ _)) by lia. }
  rewrite (uVA2PA_ok base F root T) by done. f_equal.
  rewrite (sv39_tree base root T) by (done || apply Hok).
  destruct (leaves T !! path va) as [e|] eqn:El; [|done]. destruct (Hleaf e eq_refl) as [He HR].
  destruct (pt_leaf _ _ _ _ (vm_wf _ _ _ _ _ Hok) _ _ El) as (_ & _ & _ & _ & _ & _ & _ & HV).
  unfold PTE_V in HV. rewrite has_bit in HV by lia. unfold PTE_U. rewrite has_bit by lia.
  unfold leaf_translate, allows, bitV, bitR, bitU in *. rewrite HV. cbn [negb orb].
  destruct (Z.testbit e 4) eqn:EU.
  - rewrite (HR eq_refl). cbn. rewrite PTE2PA_ppn by done. lia.
  - destruct (Z.testbit e 1), (bitW e), (bitX e); done.
Qed.

(** ** Spaces built page by page *)

Lemma map_all_notin ms Lv va :
  page_below MAXVA va -> Forall (fun x => page_below MAXVA (mp_va x)) ms -> va ∉ (mp_va <$> ms) ->
  map_all ms Lv !! path va = Lv !! path va.
Proof.
  intros [Ha Hva]. revert Lv. induction ms as [|x ms IH]; intros Lv Hms Hn; [done|].
  apply Forall_cons in Hms as [[Hx1 Hx2] Hms]. cbn in Hn. apply not_elem_of_cons in Hn as [Hne Hn].
  unfold map_all in *. cbn [foldl]. rewrite IH by done. unfold map_one. rewrite lookup_insert_ne; [done|].
  intros Hc. apply Hne. symmetry. by apply path_inj.
Qed.

Lemma map_all_in ms Lv x :
  Forall (fun x => page_below MAXVA (mp_va x)) ms -> NoDup (mp_va <$> ms) -> x ∈ ms ->
  map_all ms Lv !! path (mp_va x) = Some (mk_pte (mp_page x) (mp_perm x)).
Proof.
  revert Lv. induction ms as [|y ms IH]; intros Lv Hms Hnd Hx; [by apply elem_of_nil in Hx|].
  apply Forall_cons in Hms as [Hy Hms]. cbn in Hnd. apply NoDup_cons in Hnd as [Hn Hnd].
  unfold map_all in *. cbn [foldl]. apply elem_of_cons in Hx as [<-|Hx]; [|by apply IH].
  pose proof (map_all_notin ms (map_one Lv x) (mp_va x) Hy Hms Hn) as E. unfold map_all in E.
  rewrite E. unfold map_one. by rewrite lookup_insert_eq.
Qed.

(** The hardware sees the new pages, and the others as before. *)
Lemma extends_translate base root src ms F T s F' T' s' :
  KERNBASE <= base -> pt_wf base root T (k_mem s) -> extends base root src ms F T s F' T' s' ->
  NoDup (mp_va <$> ms) -> Forall (fun x => page_below MAXVA (mp_va x) /\ 0 <= mp_perm x < 1024) ms ->
  (forall x a user acc, x ∈ ms -> mp_va x <= a < mp_va x + PGSIZE ->
     sv39_translate (k_mem s') root a user acc =
       if grants (mp_perm x) user acc then Some (mp_page x + (a - mp_va x)) else None) /\
  (forall a user acc, 0 <= a < MAXVA -> (a - a mod PGSIZE) ∉ (mp_va <$> ms) ->
     sv39_translate (k_mem s') root a user acc = sv39_translate (k_mem s) root a user acc).
Proof.
  intros Hb Hw X Hnd Hms. pose proof X as [Y1 Y2 Y3 Y4 Y5 Y6 Y7 Yp Y8 Y9 Y10 Y11].
  assert (Forall (fun x => page_below MAXVA (mp_va x)) ms) as Hms1.
  { eapply Forall_impl; [exact Hms|]. by intros x []. }
  split.
  - intros x a user acc Hx Ha. rewrite Forall_forall in Hms. destruct (Hms x Hx) as [[Hx1 Hx2] Hp].
    rewrite (sv39_tree base root T') by (done || apply Y1). rewrite <- path_page, Y2.
    replace (a - a mod PGSIZE) with (mp_va x) by (unfold PGSIZE in *; zdm).
    rewrite map_all_in by done. rewrite leaf_translate_mk; [|eapply pool_page_addr, Yp; [done|]|done].
    + destruct (grants (mp_perm x) user acc); [|done]. f_equal. unfold PGSIZE in *. zdm.
    + apply elem_of_pages_of. by exists x.
  - intros a user acc Ha Hn. destruct (page_of_below a Ha) as [P1 P2].
    rewrite (sv39_tree base root T'), (sv39_tree base root T) by (done || apply Y1).
    rewrite Y2. rewrite <- (path_page a) at 1. rewrite map_all_notin by done. by rewrite path_page.
Qed.

Lemma vas_lookup n va x : x ∈ vas n va <-> exists i, 0 <= i < Z.of_nat n /\ x = va + i * PGSIZE.
Proof.
  revert va. induction n as [|n IH]; intros va; cbn [vas].
  - split; [by intros H%elem_of_nil|]. intros (i & Hi & _). lia.
  - rewrite elem_of_cons, IH. split.
    + intros [->|(i & Hi & ->)]; [exists 0|exists (i + 1)]; (split; [lia|lia]).
    + intros (i & Hi & ->). destruct (decide (i = 0)) as [->|]; [left; lia|right].
      exists (i - 1). split; [lia|]. lia.
Qed.

Lemma NoDup_vas n va : NoDup (vas n va).
Proof.
  revert va. induction n as [|n IH]; intros va; cbn [vas]; constructor; [|apply IH].
  rewrite vas_lookup. intros (i & Hi & E). unfold PGSIZE in E. lia.
Qed.

Lemma mapped_vas_sub n va Lv : mapped_vas n va Lv `sublist_of` vas n va.
Proof.
  revert va. induction n as [|n IH]; intros va; [constructor|]. cbn [vas mapped_vas].
  destruct (Lv !! path va); cbn [app]; [by constructor|by constructor].
Qed.

Lemma vas_below n va x : good_range n va -> x ∈ vas n va -> page_below MAXVA x.
Proof.
  intros (R1 & R2 & R3). rewrite vas_lookup. intros (i & Hi & ->). unfold page_below, PGSIZE in *.
  split; [zdm|]. nia.
Qed.

(** Growing an address space. uVmAlloc returns the new size and backs every
    page from the old size (rounded up) to the new one with its own page, taken
    from the free pages and filled with zeros; the hardware translates user
    accesses to them with read and the extra permissions, every other address as
    before, and no other page, table or variable of the kernel changes. *)
Theorem uVmAlloc_correct n base root F T s oldsz newsz xperm :
  vm_ok base F root T s -> 0 <= oldsz <= newsz -> newsz <= MAXVA ->
  n = Z.to_nat ((newsz - PGROUNDUP oldsz + PGSIZE - 1) / PGSIZE) ->
  good_range n (PGROUNDUP oldsz) -> 0 <= xperm < 1024 -> unmapped n (PGROUNDUP oldsz) (leaves T) ->
  (n + size (range_tables n (PGROUNDUP oldsz) ∖ dom (nodes T)) <= size F)%nat ->
  exists ms F' T' s', uVmAlloc kalloc kfree root oldsz newsz xperm s = Ok newsz s' /\
    mp_va <$> ms = vas n (PGROUNDUP oldsz) /\ vm_ok base F' root T' s' /\
    pages_of ms ⊆ F /\ pages_of ms ## foot F' T' /\ NoDup (mp_page <$> ms) /\
    vm_step base (foot F T) s s' /\
    (forall x off, x ∈ ms -> 0 <= off < PGSIZE -> rd8 (k_mem s') (mp_page x + off) = 0) /\
    (forall x a user acc, x ∈ ms -> mp_va x <= a < mp_va x + PGSIZE ->
       sv39_translate (k_mem s') root a user acc =
         if grants (Z.lor (Z.lor PTE_U PTE_R) xperm) user acc
         then Some (mp_page x + (a - mp_va x)) else None) /\
    (forall a user acc, 0 <= a < MAXVA -> (a - a mod PGSIZE) ∉ vas n (PGROUNDUP oldsz) ->
       sv39_translate (k_mem s') root a user acc = sv39_translate (k_mem s) root a user acc).
Proof.
  intros Hok Hsz Hmax Hn Hr Hx Hun Hfree. pose proof (vm_kern _ _ _ _ _ Hok) as Hb.
  destruct (PGROUNDUP_spec oldsz) as [U1 U2]; [change MAXVA with 274877906944 in Hmax; lia|].
  destruct (uVmAlloc_loop_ok n base root F T s (PGROUNDUP oldsz) (PGROUNDUP oldsz) newsz xperm)
    as (ms & F' & T' & s' & E & V & P & X); try done.
  { rewrite Hn. unfold PGSIZE in *. rewrite Z2Nat.id; zdm. }
  { rewrite Hn. unfold PGSIZE in *. rewrite Z2Nat.id; zdm. }
  assert (0 <= Z.lor (Z.lor PTE_U PTE_R) xperm < 1024) as Hperm
    by (apply (lor_bound _ _ 10); [lia|by vm_compute|done]).
  destruct (extends_translate base root zeros ms F T s F' T' s' Hb (vm_wf _ _ _ _ _ Hok) X) as [X1 X2].
  { rewrite V. apply NoDup_vas. }
  { rewrite Forall_forall in P |- *. intros x Hxm. split; [|by rewrite P].
    apply (vas_below n (PGROUNDUP oldsz)); [done|]. rewrite <- V. by apply list_elem_of_fmap_2. }
  exists ms, F', T', s'. split.
  { unfold uVmAlloc. rewrite (proj2 (Z.ltb_ge _ _)) by lia. by rewrite <- Hn. }
  pose proof X as [Y1 Y2 Y3 Y4 Y5 Y6 Y7 Yp Y8 Y9 Y10 Y11]. rewrite <- V in *.
  do 7 (split; [done|]). split; [|done].
  intros x a user acc Hxm Ha. rewrite Forall_forall in P. rewrite <- (P x Hxm). by apply X1.
Qed.

(** Copying an address space, as fork does. For every page the old table
    maps below [sz], uvmcopy gives the new table a page of its own with the same
    contents and the same flags; pages that are not mapped stay unmapped, and
    neither the old table nor the pages it maps change. *)
Theorem uvmcopy_correct n base old To new F Tn s sz :
  vm_ok base F new Tn s -> pt_wf base old To (k_mem s) -> tables To ## foot F Tn ->
  0 <= sz <= MAXVA -> PGROUNDUP sz / PGSIZE = Z.of_nat n -> good_range n 0 ->
  range_outside base (foot F Tn) (leaves To) n 0 -> unmapped n 0 (leaves Tn) ->
  (length (mapped_vas n 0 (leaves To)) +
   size (all_prefixes (mapped_vas n 0 (leaves To)) ∖ dom (nodes Tn)) <= size F)%nat ->
  exists ms F' T' s', uvmcopy kalloc kfree old new sz s = Ok 0 s' /\
    mp_va <$> ms = mapped_vas n 0 (leaves To) /\ vm_ok base F' new T' s' /\
    pt_wf base old To (k_mem s') /\ pages_of ms ⊆ F /\ pages_of ms ## foot F' T' /\
    NoDup (mp_page <$> ms) /\ vm_step base (foot F Tn) s s' /\
    (forall x off, x ∈ ms -> 0 <= off < PGSIZE ->
       exists e, leaves To !! path (mp_va x) = Some e /\ mp_perm x = PTE_FLAGS e /\
         rd8 (k_mem s') (mp_page x + off) = rd8 (k_mem s) (PTE2PA e + off)) /\
    (forall x a user acc, x ∈ ms -> mp_va x <= a < mp_va x + PGSIZE ->
       sv39_translate (k_mem s') new a user acc =
         if grants (mp_perm x) user acc then Some (mp_page x + (a - mp_va x)) else None).
Proof.
  intros Hok Hwo Hdis Hsz Hn Hr Hout Hun Hfree. pose proof (vm_kern _ _ _ _ _ Hok) as Hb.
  destruct (PGROUNDUP_spec sz) as [U1 U2]; [change MAXVA with 274877906944 in Hsz; lia|].
  destruct (uvmcopy_loop_ok n base old To new F Tn s s 0 sz)
    as (ms & F' & T' & s' & E & V & P & X); try done.
  { rewrite <- Hn. unfold PGSIZE in *. zdm. }
  { rewrite <- Hn. unfold PGSIZE in *. zdm. }
  pose proof X as [Y1 Y2 Y3 Y4 Y5 Y6 Y7 Yp Y8 Y9 Y10 Y11]. rewrite Forall_forall in P.
  destruct (extends_translate base new _ ms F Tn s F' T' s' Hb (vm_wf _ _ _ _ _ Hok) X) as [X1 _].
  { rewrite V. eapply sublist_NoDup; [apply (NoDup_vas n 0)|apply mapped_vas_sub]. }
  { rewrite Forall_forall. intros x Hxm. split.
    - apply (vas_below n 0); [done|]. eapply elem_of_sublist; [|apply (mapped_vas_sub n 0 (leaves To))].
      rewrite <- V. by apply list_elem_of_fmap_2.
    - destruct (P x Hxm) as (e & _ & ->). apply pt_flags_range. }
  exists ms, F', T', s'. split.
  { unfold uvmcopy. by rewrite Hn, Nat2Z.id. }
  split; [done|split; [done|split]].
  { apply (pt_wf_mem _ _ _ (k_mem s)); [done|]. intros p a Hp Hin.
    apply (step_outside base F new Tn s s' p); try done; [|set_solver].
    apply elem_of_tables in Hp as [π Hπ]. by eapply pt_page. }
  do 4 (split; [done|]). split; [|done].
  intros x off Hxm Ho. destruct (P x Hxm) as (e & He & Hp). exists e. split; [done|split; [done|]].
  rewrite (Y10 x off Hxm Ho). unfold contents. by rewrite He.
Qed.

Lemma mem_step_panicked s s' : mem_step s s' -> k_panicked s' = k_panicked s.
Proof. intros H. apply (f_equal k_panicked) in H. exact H. Qed.

(** MapPages refuses what it must not map: a misaligned address or size, a
    size of 0 and a page that is already mapped each panic with their message,
    the first three before anything changes, and no translation is replaced. *)
Theorem mapPages_rejects base F root T s va size pa perm :
  vm_ok base F root T s -> k_panicked s = 0 -> 0 <= va < MAXVA -> 0 <= size ->
  (va mod PGSIZE <> 0 ->
     mapPages kalloc root va size pa perm s = panic "mappages: 虚拟地址VA没有对齐" s) /\
  (va mod PGSIZE = 0 -> size mod PGSIZE <> 0 ->
     mapPages kalloc root va size pa perm s = panic "mappages: 大小SIZE没有对齐" s) /\
  (va mod PGSIZE = 0 -> size = 0 ->
     mapPages kalloc root va size pa perm s = panic "mappages: 大小SIZE为0" s) /\
  (va mod PGSIZE = 0 -> size mod PGSIZE = 0 -> 0 < size -> is_Some (leaves T !! path va) ->
     exists s', mapPages kalloc root va size pa perm s = Stop (Panic "mappages: 重复分配页") s' /\
       forall a user acc, sv39_translate (k_mem s') root a user acc = sv39_translate (k_mem s) root a user acc).
Proof.
  intros Hok Hpk Hva Hsz. pose proof (vm_kern _ _ _ _ _ Hok) as Hb. unfold mapPages.
  split; [|split; [|split]].
  - intros H. by rewrite (proj2 (Z.eqb_neq _ _) H).
  - intros -> H. by rewrite (proj2 (Z.eqb_neq _ _) H).
  - intros -> ->. done.
  - intros -> H1 H2 [e He]. rewrite H1. cbn [Z.eqb negb]. rewrite (proj2 (Z.eqb_neq _ _)) by lia.
    destruct (Z.to_nat (size / PGSIZE)) as [|k] eqn:Ek; [unfold PGSIZE in *; exfalso; zdm|].
    destruct (walk_alloc base F root T s va Hok Hva) as (a & F1 & T1 & s1 & E1 & A1 & G1).
    { replace (prefixes va ∖ dom (nodes T)) with (∅ : gset (list Z)); [rewrite size_empty; lia|].
      destruct (pt_leaf _ _ _ _ (vm_wf _ _ _ _ _ Hok) _ _ He) as (π & i & Hpi & _ & [y Hy] & _).
      change (path va) with ([PX 2 va; PX 1 va] ++ [PX 0 va]) in Hpi. apply snoc_inj in Hpi as [<- _].
      apply elem_of_dom_2 in Hy as Hd.
      apply (pt_parent _ _ _ _ (vm_wf _ _ _ _ _ Hok) [PX 2 va]) in Hy as [[z Hz] _].
      apply elem_of_dom_2 in Hz. unfold prefixes. set_solver. }
    destruct G1 as [G1 G2 _ _ _ _ G7]. cbn [mapPages_loop]. mstep E1.
    rewrite (pte_addr_nonzero _ _ _ _ _ _ (vm_wf _ _ _ _ _ G1) Hb A1). unfold bind, ld64, get.
    rewrite (pte_addr_entry _ _ _ _ _ _ (vm_wf _ _ _ _ _ G1) A1), G2, He. cbn [from_option id].
    destruct (pt_leaf _ _ _ _ (vm_wf _ _ _ _ _ Hok) _ _ He) as (_ & _ & _ & _ & _ & _ & _ & HV).
    rewrite HV. unfold panic. rewrite (mem_step_panicked s s1 (proj1 G7)), Hpk. eexists. split; [reflexivity|].
    intros a0 user acc. cbn [k_mem set_panicked set_uart set_panicking].
    rewrite (sv39_tree base root T1), (sv39_tree base root T), G2 by (done || apply G1 || apply Hok). done.
Qed.

(** ** A process's page table *)

Lemma trampoline_frame {L : Layout} : good_frames 1 trampoline.
Proof.
  pose proof etext_aligned. pose proof trampoline_etext. pose proof trampoline_low.
  pose proof etext_end. pose proof end_phystop.
  unfold good_frames, PHYSTOP, KERNBASE, PGSIZE in *. zdm.
Qed.

(** The two fixed pages of a process, and the tables they need. *)
Definition tf_tables : gset (list Z) := {[ [255]; [255; 511] ]}.

Lemma range_tables_fixed : range_tables 1 TRAMPOLINE = tf_tables /\ range_tables 1 TRAPFRAME = tf_tables.
Proof. split; apply set_eq; by vm_compute. Qed.

Lemma procPagetable_ok {L : Layout} base F s tf :
  pa_inv base F s -> (3 <= size F)%nat -> good_frames 1 tf ->
  exists root F' T' s', procPagetable kalloc kfree tf s = Ok root s' /\ vm_ok base F' root T' s' /\
    foot F' T' = F /\ vm_step base F s s' /\
    leaves T' = <[path TRAPFRAME := mk_pte tf (Z.lor PTE_R PTE_W)]>
                 {[path TRAMPOLINE := mk_pte trampoline (Z.lor PTE_R PTE_X)]}.
Proof.
  intros Hpa Hsz Htf. destruct range_tables_fixed as [RT1 RT2].
  destruct (uVmCreate_ok base F s Hpa) as (root & s1 & E1 & Hroot & Hok1 & St1).
  { intros ->. rewrite size_empty in Hsz. lia. }
  assert (size F = S (size (F ∖ {[root]}))) as HsF.
  { rewrite size_difference, size_singleton by set_solver. lia. }
  assert (foot (F ∖ {[root]}) (empty_pt root) = F) as Hf0.
  { unfold foot. rewrite tables_empty. apply set_eq. intros x. destruct (decide (x = root)); set_solver. }
  assert (dom (nodes (empty_pt root)) = {[ [] ]}) as Hd0 by (cbn; by rewrite dom_singleton_L).
  pose proof (vm_kern _ _ _ _ _ Hok1) as Hb.
  destruct (mapPages_ok 1 base (F ∖ {[root]}) root (empty_pt root) s1 TRAMPOLINE trampoline (Z.lor PTE_R PTE_X))
    as (F2 & T2 & s2 & E2 & G2); try done.
  { apply trampoline_frame. }
  { rewrite RT1, Hd0. replace (size (tf_tables ∖ {[ [] ]})) with 2%nat by (by vm_compute). lia. }
  rewrite RT1 in G2. pose proof G2 as [G21 G22 _ G24 G25 G26 G27]. rewrite Hd0 in G24, G26.
  destruct (mapPages_ok 1 base F2 root T2 s2 TRAPFRAME tf (Z.lor PTE_R PTE_W))
    as (F3 & T3 & s3 & E3 & G3); try done.
  { intros i Hi. rewrite G22. cbn [map_range empty_pt leaves]. rewrite lookup_insert_ne; [apply lookup_empty|].
    replace i with 0 by lia. by vm_compute. }
  { rewrite RT2, G24. replace (size (tf_tables ∖ ({[ [] ]} ∪ tf_tables))) with 0%nat by (by vm_compute). lia. }
  pose proof G3 as [G31 G32 _ _ G35 _ G37].
  exists root, F3, T3, s3. split; [|split; [done|split; [congruence|split]]].
  - unfold procPagetable. mstep E1. destruct (root =? 0) eqn:Er.
    { apply Z.eqb_eq in Er. pose proof (pa_pool _ _ _ _ Hpa Hroot) as (_ & ? & _).
      unfold KERNBASE, PGSIZE in *. lia. }
    change PGSIZE with (Z.of_nat 1 * PGSIZE). mstep E2. cbn [Z.ltb Z.compare].
    change PGSIZE with (Z.of_nat 1 * PGSIZE) in E3. by mstep E3.
  - rewrite Hf0 in G25, G27. rewrite G25 in G37. eapply vm_step_trans; [exact St1|by eapply vm_step_trans].
  - rewrite G32, G22. done.
Qed.

Lemma range_pages_del n lim va0 Lv :
  good_range n 0 -> Z.of_nat n * PGSIZE <= lim -> page_below MAXVA va0 -> lim <= va0 ->
  range_pages n 0 (delete (path va0) Lv) = range_pages n 0 Lv.
Proof.
  intros Hr Hn [Ha Hb] Hl. assert (forall k va, va mod PGSIZE = 0 -> 0 <= va ->
    va + Z.of_nat k * PGSIZE <= lim -> range_pages k va (delete (path va0) Lv) = range_pages k va Lv) as H.
  { induction k as [|k IH]; intros va H1 H2 H3; [done|]. cbn [range_pages].
    rewrite IH by (unfold PGSIZE in *; zdm). rewrite lookup_delete_ne; [done|].
    intros Hc. apply path_inj in Hc; unfold PGSIZE in *; zdm. }
  apply H; [done|lia|lia].
Qed.

Definition del_page (va : Z) (T : pt) : pt := {| nodes := nodes T; leaves := delete (path va) (leaves T) |}.

Lemma range_owned_del base F T n va0 : range_owned base F T n 0 -> range_owned base F (del_page va0 T) n 0.
Proof.
  intros [H1 H2]. split.
  - intros i e Hi. cbn. rewrite lookup_delete_Some. intros [_ He]. by apply (H1 i).
  - intros i j e e' Hi Hj. cbn. rewrite !lookup_delete_Some. intros [_ He] [_ He']. by apply (H2 i j).
Qed.

Lemma unmap_fixed base F root T s va :
  vm_ok base F root T s -> good_range 1 va ->
  exists s', uVmUnmap kalloc kfree root va 1 0 s = Ok tt s' /\
    vm_ok base F root (del_page va T) s' /\ vm_step base (foot F T) s s'.
Proof.
  intros Hok Hr. destruct (uVmUnmap_ok 1 base F root T s va 0 Hok Hr) as (s' & E & Hok' & St); [done|].
  exists s'. cbn [truthy Z.eqb negb] in *. rewrite !(left_id_L ∅ (∪)) in *. done.
Qed.

(** The leaves of a process: its memory below [lim] and its two fixed pages. *)
Definition user_leaves (lim : Z) (T : pt) : Prop :=
  leaves_in (fun a => a < lim \/ a = TRAPFRAME \/ a = TRAMPOLINE) T.

Lemma uFreeUserVM_ok n base F root T s sz :
  vm_ok base F root T s -> 0 <= sz -> PGROUNDUP sz / PGSIZE = Z.of_nat n ->
  Z.of_nat n * PGSIZE <= TRAPFRAME -> (sz = 0 -> n = 0%nat) ->
  user_leaves (Z.of_nat n * PGSIZE) T -> range_owned base F T n 0 ->
  exists s', uFreeUserVM kalloc kfree root sz s = Ok tt s' /\
    pa_inv base (tables T ∪ (range_pages n 0 (leaves T) ∪ F)) s' /\
    vm_step base (range_pages n 0 (leaves T) ∪ foot F T) s s'.
Proof.
  intros Hok Hsz Hn Hlim Hz Hin Hown. assert (TRAPFRAME <= MAXVA) as HM by done.
  assert (good_range n 0) as Hr by (split; [done|split; [lia|rewrite Z.add_0_l; lia]]).
  destruct (unmap_fixed base F root T s TRAMPOLINE Hok) as (s1 & E1 & Hok1 & St1); [done|].
  destruct (unmap_fixed base F root _ s1 TRAPFRAME Hok1) as (s2 & E2 & Hok2 & St2); [done|].
  set (T2 := del_page TRAPFRAME (del_page TRAMPOLINE T)) in *.
  assert (range_pages n 0 (leaves T2) = range_pages n 0 (leaves T)) as HP.
  { unfold T2. cbn [leaves del_page]. by rewrite !(range_pages_del n TRAPFRAME). }
  destruct (uVmFree_ok n base F root T2 s2 sz Hok2 Hsz Hn) as (s3 & E3 & Hpa3 & St3); try done.
  - lia.
  - intros π e. unfold T2. cbn. rewrite !lookup_delete_Some. intros (H1 & H2 & He).
    destruct (Hin _ _ He) as (a & -> & Hb & [Ha|[->| ->]]); [by exists a|done|done].
  - by apply range_owned_del, range_owned_del.
  - rewrite HP in *. exists s3. split; [|split; [done|]].
    + unfold uFreeUserVM. mstep E1. mstep E2. exact E3.
    + eapply vm_step_trans; [eapply vm_step_mono; [|exact St1]|].
      { intros x Hx. apply elem_of_union. by right. }
      eapply vm_step_trans; [eapply vm_step_mono; [|exact St2]|exact St3].
      intros x Hx. apply elem_of_union. by right.
Qed.

(** C28: uFreeUserVM gives back everything an address space was made of: after
    it, the free pages are those from before, the process's pages below [sz] and
    all the tables; nothing is leaked and nothing is freed twice. The trampoline
    and the trap frame are unmapped but not freed. *)
Theorem uFreeUserVM_no_leak n base F root T s sz :
  vm_ok base F root T s -> 0 <= sz -> PGROUNDUP sz / PGSIZE = Z.of_nat n ->
  Z.of_nat n * PGSIZE <= TRAPFRAME -> (sz = 0 -> n = 0%nat) ->
  user_leaves (Z.of_nat n * PGSIZE) T -> range_owned base F T n 0 ->
  exists s', uFreeUserVM kalloc kfree root sz s = Ok tt s' /\
    pa_inv base (tables T ∪ (range_pages n 0 (leaves T) ∪ F)) s' /\
    vm_step base (range_pages n 0 (leaves T) ∪ foot F T) s s'.
Proof. apply uFreeUserVM_ok. Qed.

(** The translations of a table with the trampoline and a trap frame only. *)
Lemma fixed_translate {L : Layout} base root T m tf :
  KERNBASE <= base -> pt_wf base root T m -> good_frames 1 tf ->
  leaves T = <[path TRAPFRAME := mk_pte tf (Z.lor PTE_R PTE_W)]>
              {[path TRAMPOLINE := mk_pte trampoline (Z.lor PTE_R PTE_X)]} ->
  forall a user acc, 0 <= a < MAXVA ->
    sv39_translate m root a user acc =
      if (TRAMPOLINE <=? a) && grants (Z.lor PTE_R PTE_X) user acc
      then Some (trampoline + (a - TRAMPOLINE))
      else if (TRAPFRAME <=? a) && (a <? TRAMPOLINE) && grants (Z.lor PTE_R PTE_W) user acc
      then Some (tf + (a - TRAPFRAME)) else None.
Proof.
  intros Hb Hwf Htf HL a user acc Ha. destruct (page_of_below a Ha) as [P1 P2].
  rewrite (sv39_tree base root T) by done. rewrite HL, <- path_page.
  assert (forall v, page_below MAXVA v -> path v = path (a - a mod PGSIZE) <-> v <= a < v + PGSIZE) as Hpath.
  { intros v [V1 V2]. split.
    - intros Hc. apply path_inj in Hc; try done. subst v. unfold PGSIZE. zdm.
    - intros Hv. f_equal. unfold PGSIZE in *. zdm. }
  assert (forall p, good_frames 1 p -> page_addr p) as Hpad.
  { intros p (F1 & F2 & F3). split; [done|]. unfold PGSIZE in *. lia. }
  pose proof (Hpad _ trampoline_frame) as Hp1. pose proof (Hpad _ Htf) as Hp2.
  pose proof (Hpath TRAMPOLINE ltac:(done)) as Q1. pose proof (Hpath TRAPFRAME ltac:(done)) as Q2.
  assert (TRAMPOLINE + PGSIZE = MAXVA /\ TRAPFRAME + PGSIZE = TRAMPOLINE) as [M1 M2] by done.
  rewrite lookup_insert, lookup_singleton.
  destruct (Z.leb_spec TRAMPOLINE a) as [H1|H1], (Z.leb_spec TRAPFRAME a) as [H2|H2];
    destruct (Z.ltb_spec a TRAMPOLINE) as [H3|H3]; cbn [andb]; try lia.
  - rewrite decide_False by (rewrite Q2; lia). rewrite decide_True by (rewrite Q1; lia).
    rewrite leaf_translate_mk by done. destruct (grants (Z.lor PTE_R PTE_X) user acc); [|done].
    f_equal. unfold TRAMPOLINE, PGSIZE in *. change MAXVA with 274877906944 in *. zdm.
  - rewrite decide_True by (rewrite Q2; lia). rewrite leaf_translate_mk by done.
    destruct (grants (Z.lor PTE_R PTE_W) user acc); [|done].
    f_equal. unfold TRAPFRAME, TRAMPOLINE, PGSIZE in *. change MAXVA with 274877906944 in *. zdm.
  - rewrite decide_False by (rewrite Q2; lia). by rewrite decide_False by (rewrite Q1; lia).
Qed.

(** ProcPagetable builds a table in which the hardware finds the trampoline
    (executable) and the trap frame (read-write), in supervisor mode only, and
    nothing else; and uFreeUserVM of it restores exactly the set of free pages
    there was before. *)
Theorem procPagetable_roundtrip {L : Layout} base F s tf :
  pa_inv base F s -> (3 <= size F)%nat -> good_frames 1 tf ->
  exists root s1 s2, procPagetable kalloc kfree tf s = Ok root s1 /\
    (forall a user acc, 0 <= a < MAXVA ->
       sv39_translate (k_mem s1) root a user acc =
         if (TRAMPOLINE <=? a) && grants (Z.lor PTE_R PTE_X) user acc
         then Some (trampoline + (a - TRAMPOLINE))
         else if (TRAPFRAME <=? a) && (a <? TRAMPOLINE) && grants (Z.lor PTE_R PTE_W) user acc
         then Some (tf + (a - TRAPFRAME)) else None) /\
    uFreeUserVM kalloc kfree root 0 s1 = Ok tt s2 /\ pa_inv base F s2 /\ vm_step base F s s2.
Proof.
  intros Hpa Hsz Htf. pose proof (pa_base _ _ _ Hpa) as Hb.
  destruct (procPagetable_ok base F s tf Hpa Hsz Htf) as (root & F' & T' & s1 & E1 & Hok & Hf & St & HL).
  destruct (uFreeUserVM_ok 0 base F' root T' s1 0 Hok) as (s2 & E2 & Hpa2 & St2); try done.
  { intros π e. rewrite HL, lookup_insert_Some, lookup_singleton_Some. intros [[<- _]|[_ [<- _]]].
    - exists TRAPFRAME. split; [done|split; [done|by right; left]].
    - exists TRAMPOLINE. split; [done|split; [done|by right; right]]. }
  { split; intros; exfalso; lia. }
  exists root, s1, s2. split; [done|split; [|split; [done|]]].
  - apply (fixed_translate base root T'); try done. apply (vm_wf _ _ _ _ _ Hok).
  - cbn [range_pages] in Hpa2, St2. rewrite (left_id_L ∅ (∪)) in Hpa2, St2.
    assert (tables T' ∪ F' = F) as HF by (rewrite <- Hf; unfold foot; set_solver).
    rewrite HF in Hpa2. rewrite Hf in St2. split; [done|]. by eapply vm_step_trans.
Qed.

End VmProps.
