(* ===== verification/Devices.v ===== *)
(** * Device registers: kernel/driver/plic.c, the set-up of kernel/driver/uart.c and
    console.c, and the page-table dump of kernel/mm/vm.c

    A register of a device is a cell of [k_mmio], at its address. The enable and priority
    registers of the interrupt controller read back what was written; what its claim
    register reads as is up to the controller, a parameter. *)

From S2P Require Import Prelude Mem CString State Spinlock Printf Vm.

(** ** Registers *)

Definition mmio_wr (a v : Z) : KM unit := modify (fun s => set_mmio (<[a := v]> (k_mmio s)) s).
Definition mmio_rd (a : Z) : KM Z := get (fun s => default 0 (k_mmio s !! a)).

(** The number of the hart: tp, as an int. *)
Definition cpuid : KM Z := get (fun s => s32 (h_tp (k_hart s))).

(** ** The interrupt controller *)

Definition UART0_IRQ : Z := 10.
Definition VIRTIO0_IRQ : Z := 1.
Definition PLIC_SENABLE (hart : Z) : Z := PLIC + 0x2080 + hart * 0x100.
Definition PLIC_SPRIORITY (hart : Z) : Z := PLIC + 0x201000 + hart * 0x2000.
Definition PLIC_SCLAIM (hart : Z) : Z := PLIC + 0x201004 + hart * 0x2000.

Definition registerDev (irq priority : Z) : KM unit := mmio_wr (PLIC + irq * 4) (u32 priority).
Definition unregisterDev (irq : Z) : KM unit := mmio_wr (PLIC + irq * 4) 0.

Definition plicInit : KM unit := registerDev VIRTIO0_IRQ 1.

Definition enableDev (irq : Z) : KM unit :=
  let! hart := cpuid in
  let! v := mmio_rd (PLIC_SENABLE hart) in
  mmio_wr (PLIC_SENABLE hart) (u32 (Z.lor v (Z.shiftl 1 irq))).

Definition disableDev (irq : Z) : KM unit :=
  let! hart := cpuid in
  let! v := mmio_rd (PLIC_SENABLE hart) in
  mmio_wr (PLIC_SENABLE hart) (u32 (Z.land v (Z.lnot (Z.shiftl 1 irq)))).

Definition plicInitHart : KM unit :=
  let! hart := cpuid in
  do! enableDev VIRTIO0_IRQ;
  mmio_wr (PLIC_SPRIORITY hart) 0.

Section Claim.
(** What the claim register of the hart reads as. *)
Context (claim_reg : Z -> kernel -> Z).

Definition plicClaim : KM Z :=
  let! hart := cpuid in
  let! v := get (claim_reg (PLIC_SCLAIM hart)) in
  ret (s32 (u32 v)).
End Claim.

Definition plicComplete (irq : Z) : KM unit :=
  let! hart := cpuid in
  mmio_wr (PLIC_SCLAIM hart) (u32 irq).

(** ** The UART and the console *)

Definition IER : Z := 1.
Definition FCR : Z := 2.
Definition LCR : Z := 3.
Definition FCR_FIFO_ENABLE : Z := Z.shiftl 1 0.
Definition FCR_FIFO_CLEAR : Z := Z.shiftl 3 1.
Definition LCR_EIGHT_BITS : Z := Z.shiftl 3 0.
Definition LCR_BAUD_LATCH : Z := Z.shiftl 1 7.

Definition WriteReg (reg v : Z) : KM unit := mmio_wr (UART0 + reg) (u8 v).

Definition uartinit : KM unit :=
  do! WriteReg IER 0x00;
  do! WriteReg LCR LCR_BAUD_LATCH;
  do! WriteReg 0 0x03;
  do! WriteReg 1 0x00;
  do! WriteReg LCR LCR_EIGHT_BITS;
  WriteReg FCR (Z.lor FCR_FIFO_ENABLE FCR_FIFO_CLEAR).

(** The entry of devsw that consoleinit fills in is [File.devsw_write]. *)
Definition consoleinit : KM unit :=
  do! initlock L_cons "cons";
  uartinit.

(** ** Paging *)

Definition SATP_SV39 : Z := Z.shiftl 8 60.
Definition MAKE_SATP (pagetable : Z) : Z := Z.lor SATP_SV39 (Z.shiftr pagetable 12).

Definition upd_csr (f : csrs -> csrs) : KM unit := modify (fun s => set_csr (f (k_csr s)) s).
Definition rcsr (f : csrs -> Z) : KM Z := get (fun s => f (k_csr s)).

Definition w_satp (v : Z) : KM unit :=
  upd_csr (fun c => {| r_stvec := r_stvec c; r_sepc := r_sepc c; r_scause := r_scause c; r_stval := r_stval c;
                       r_satp := v; r_stimecmp := r_stimecmp c; r_time := r_time c |}).

(** sfence.vma empties the TLB, which is not part of the state: translation always follows
    the page table. *)
Definition sfence_vma : KM unit := ret tt.

Definition kVmInitHart : KM unit :=
  do! sfence_vma;
  let! pt := get k_kpgtbl in
  do! w_satp (MAKE_SATP pt);
  sfence_vma.

(** ** The dump of a page table *)

(** [static const char padding[][10] = {"        ", "    ", ""}] *)
Definition padding (level : nat) : list Z :=
  bytes_of (match level with 0%nat => "        " | 1%nat => "    " | _ => "" end).

Definition print_flag (pte flag : Z) (c : string) : KM unit :=
  if truthy (Z.land pte flag) then printf c [] else printf "-" [].

(** The call for the levels 0 to 2. *)
Fixpoint printPgtbl_at (level : nat) (pagetable to_level : Z) : KM unit :=
  do! printf ("%s%d级页表地址 %p" ++ nl) [VStr (Some (padding level)); VNum (Z.of_nat level); VNum pagetable];
  if Z.of_nat level <=? to_level then ret tt
  else
    foreach (seqZ 0 512) (fun i =>
      let begin := pagetable + 8 * i in
      let! pte := ld64 begin in
      if truthy (Z.land pte PTE_V) then
        match level with
        | S level' =>
            do! printf ("%s0x%x表项有效,指向0x%x地址" ++ nl) [VStr (Some (padding level)); VNum begin; VNum (PTE2PA pte)];
            printPgtbl_at level' (PTE2PA pte) to_level
        | O =>
            do! printf "%s0x%x表项指向0x%x地址,权限为" [VStr (Some (padding level)); VNum begin; VNum (PTE2PA pte)];
            do! print_flag pte PTE_R "R";
            do! print_flag pte PTE_W "W";
            do! print_flag pte PTE_X "X";
            printf nl []
        end
      else ret tt).

Definition printPgtbl (pagetable level to_level : Z) : KM unit :=
  if (2 <? level) || (level <? 0) then ret tt
  else printPgtbl_at (Z.to_nat level) pagetable to_level.

(** ** The controller delivers the disk's interrupts *)

(** The bit of [irq] in the hart's enable word and the priority of [irq]. *)
Definition enabled (s : kernel) (hart irq : Z) : bool :=
  Z.testbit (default 0 (k_mmio s !! PLIC_SENABLE hart)) irq.
Definition priority (s : kernel) (irq : Z) : Z := default 0 (k_mmio s !! (PLIC + irq * 4)).

(** The enable words, thresholds and priorities are different registers. *)
Definition plic_hart (h : Z) : Prop := 0 <= h < NCPU.

Lemma enableDev_ok irq s :
  plic_hart (h_tp (k_hart s)) -> 0 <= irq < 32 ->
  exists s', enableDev irq s = Ok tt s' /\
    (forall h i, plic_hart h -> 0 <= i < 32 -> enabled s' h i = enabled s h i || (h =? h_tp (k_hart s)) && (i =? irq)) /\
    s' = set_mmio (k_mmio s') s /\ forall a, a <> PLIC_SENABLE (h_tp (k_hart s)) -> k_mmio s' !! a = k_mmio s !! a.
Proof.
  unfold plic_hart, NCPU. intros Hh Hi. unfold enableDev, cpuid, mmio_rd, mmio_wr, bind, get, modify.
  rewrite s32_small by lia. eexists. split; [reflexivity|]. split; [|split; [done|]].
  - intros h i Hhh Hir. unfold enabled. cbn [k_mmio set_mmio]. destruct (Z.eqb_spec h (h_tp (k_hart s))) as [-> |Hne].
    + rewrite lookup_insert_eq. cbn [default from_option id]. unfold u32. rewrite Z.mod_pow2_bits_low by lia.
      rewrite Z.lor_spec, Z.shiftl_1_l, Z.pow2_bits_eqb by lia. cbn. by rewrite (Z.eqb_sym irq i).
    + rewrite lookup_insert_ne by (unfold PLIC_SENABLE; lia). cbn. by rewrite orb_false_r.
  - intros a Ha. cbn. by rewrite lookup_insert_ne.
Qed.

(** After plicInit and plicInitHart the controller passes the interrupts of the disk, and of
    no device that was not enabled before, to the hart: the disk has a priority above 0 and
    the threshold of the hart is 0. *)
Theorem plic_ready s :
  plic_hart (h_tp (k_hart s)) ->
  exists s', bind plicInit (fun _ => plicInitHart) s = Ok tt s' /\
    priority s' VIRTIO0_IRQ = 1 /\ k_mmio s' !! PLIC_SPRIORITY (h_tp (k_hart s)) = Some 0 /\
    (forall h i, plic_hart h -> 0 <= i < 32 ->
       enabled s' h i = enabled s h i || (h =? h_tp (k_hart s)) && (i =? VIRTIO0_IRQ)) /\
    s' = set_mmio (k_mmio s') s.
Proof.
  intros Hh. unfold plicInit, registerDev. unfold bind at 1, mmio_wr at 1, modify at 1. set (s1 := set_mmio _ s).
  unfold plicInitHart, cpuid. unfold bind at 1, get at 1. change (h_tp (k_hart s1)) with (h_tp (k_hart s)).
  rewrite s32_small by (unfold plic_hart, NCPU in Hh; lia).
  destruct (enableDev_ok VIRTIO0_IRQ s1 Hh ltac:(unfold VIRTIO0_IRQ; lia)) as (s2 & E & He & Es & Ho).
  change (h_tp (k_hart s1)) with (h_tp (k_hart s)) in *. unfold plic_hart, NCPU in *.
  rewrite (bind_ok _ _ _ _ _ E). eexists. split; [reflexivity|]. cbn [k_mmio set_mmio]. split; [|split; [by rewrite lookup_insert_eq|split]].
  - unfold priority. cbn [k_mmio set_mmio]. unfold VIRTIO0_IRQ, PLIC, PLIC_SPRIORITY, PLIC_SENABLE in *.
    rewrite lookup_insert_ne by (unfold PLIC; lia). rewrite Ho by (unfold PLIC; lia). unfold s1. cbn. by rewrite lookup_insert_eq.
  - intros h i Hhh Hi. unfold enabled at 1. cbn [k_mmio set_mmio]. unfold PLIC_SPRIORITY.
    rewrite lookup_insert_ne by (unfold PLIC_SENABLE; lia). fold (enabled s2 h i). rewrite He by done. f_equal.
    unfold enabled. do 2 f_equal. unfold s1. cbn. apply lookup_insert_ne. unfold PLIC_SENABLE, PLIC, VIRTIO0_IRQ. lia.
  - by rewrite Es.
Qed.

Lemma plic_ready_witness : exists s', bind plicInit (fun _ => plicInitHart) boot_kernel = Ok tt s' /\ enabled s' 0 1 = true.
Proof.
  destruct (plic_ready boot_kernel) as (s' & E & _ & _ & H & _); [unfold plic_hart; vm_compute; split; congruence|].
  exists s'. split; [exact E|]. rewrite H by (unfold plic_hart, NCPU; lia). reflexivity.
Defined.
