(* ===== verification/KernelVm.v ===== *)
(** * The kernel's own address space

    kVmMake and proc_mapstacks of kernel/mm/vm.c and kernel/proc/proc.c build the page
    table that every hart runs the kernel on. *)

From S2P Require Import Prelude Mem CString State Spinlock Printf Locks PageAlloc Kalloc Vm PageTable VmMap VmFree AddressSpace Sv39 VmProps Devices.

(** ** Segments *)

(** [n] pages from [va] on, mapped to the pages from [pa] on. *)
Record segment := { sg_va : Z; sg_n : nat; sg_pa : Z; sg_perm : Z }.

Definition covers (g : segment) (a : Z) : bool := (sg_va g <=? a) && (a <? sg_va g + Z.of_nat (sg_n g) * PGSIZE).

(** The physical address and the permissions of [a]. *)
Fixpoint seg_find (gs : list segment) (a : Z) : option (Z * Z) :=
  match gs with
  | [] => None
  | g :: gs' => if covers g a then Some (sg_pa g + (a - sg_va g), sg_perm g) else seg_find gs' a
  end.

(** The translation of an address by the segments. *)
Definition seg_translate (gs : list segment) (a : Z) (user : bool) (acc : access) : option Z :=
  match seg_find gs a with
  | Some (pa, perm) => if grants perm user acc then Some pa else None
  | None => None
  end.

Definition seg_ok (g : segment) : Prop :=
  good_range (sg_n g) (sg_va g) /\ good_frames (sg_n g) (sg_pa g) /\ 0 <= sg_perm g < 1024.

(** The leaves of a tree are those of the segments. *)
Definition seg_leaves (gs : list segment) (T : pt) : Prop :=
  forall va, va mod PGSIZE = 0 -> 0 <= va < MAXVA ->
    leaves T !! path va = (fun x => mk_pte x.1 x.2) <$> seg_find gs va.

Lemma covers_page g a : good_range (sg_n g) (sg_va g) -> covers g (a - a mod PGSIZE) = covers g a.
Proof.
  intros (H & _ & _). unfold covers, PGSIZE in *.
  destruct (Z.leb_spec (sg_va g) (a - a mod 4096)), (Z.leb_spec (sg_va g) a),
    (Z.ltb_spec (a - a mod 4096) (sg_va g + Z.of_nat (sg_n g) * 4096)), (Z.ltb_spec a (sg_va g + Z.of_nat (sg_n g) * 4096)); try done; zdm.
Qed.

Lemma seg_find_page gs a :
  Forall seg_ok gs ->
  match seg_find gs (a - a mod PGSIZE) with
  | Some (pa, perm) => seg_find gs a = Some (pa + a mod PGSIZE, perm) /\ page_addr pa /\ 0 <= perm < 1024
  | None => seg_find gs a = None
  end.
Proof.
  induction 1 as [|g gs Hg Hgs IH]; [done|]. cbn [seg_find]. destruct Hg as (G1 & G2 & G3). rewrite (covers_page g a G1).
  destruct (covers g a) eqn:E; [|done]. split; [do 2 f_equal; lia|]. split; [|done].
  unfold covers in E. apply andb_true_iff in E as [E1%Z.leb_le E2%Z.ltb_lt]. destruct G1 as (R1 & R2 & R3), G2 as (F1 & F2 & F3).
  unfold page_addr, PGSIZE in *. zdm.
Qed.

(** The hardware translates as the segments say. *)
Lemma seg_sv39 base root T m gs a user acc :
  KERNBASE <= base -> pt_wf base root T m -> seg_leaves gs T -> Forall seg_ok gs -> 0 <= a < MAXVA ->
  sv39_translate m root a user acc = seg_translate gs a user acc.
Proof.
  intros Hb Hw HL Hok Ha. destruct (page_of_below a Ha) as [P1 P2]. rewrite (sv39_tree base root T) by done.
  rewrite <- path_page, (HL _ P1 P2). unfold seg_translate. pose proof (seg_find_page gs a Hok) as Hf.
  destruct (seg_find gs (a - a mod PGSIZE)) as [[pa perm]|]; [|by rewrite Hf]. destruct Hf as (-> & Hp & Hq).
  cbn [fmap option_fmap option_map fst snd]. by rewrite leaf_translate_mk.
Qed.

(** ** Room for the tables *)

(** The tables below the root that the kernel's mappings need. *)
Definition kernel_tables : gset (list Z) :=
  list_to_set ([[0]; [2]; [255]; [255; 511]] ++ ((fun j => [0; j]) <$> seqZ 96 33) ++ ((fun j => [2; j]) <$> seqZ 0 64)).

Lemma kernel_tables_size : size kernel_tables = 101%nat.
Proof. vm_compute. reflexivity. Qed.

(** The addresses the kernel maps. *)
Definition kernel_va (va : Z) : Prop :=
  PLIC <= va < VIRTIO0 + PGSIZE \/ KERNBASE <= va < PHYSTOP \/ MAXVA - 512 * PGSIZE <= va < MAXVA.

Lemma kernel_prefixes va : kernel_va va -> prefixes va ⊆ kernel_tables.
Proof.
  intros Hva. unfold prefixes, kernel_tables.
  assert (PX 2 va = va / 1073741824 mod 512 /\ PX 1 va = va / 2097152 mod 512) as [E2 E1] by (rewrite !PX_spec by lia; done).
  assert ((PX 2 va = 0 /\ 96 <= PX 1 va < 129) \/ (PX 2 va = 2 /\ 0 <= PX 1 va < 64) \/ (PX 2 va = 255 /\ PX 1 va = 511)) as Hc.
  { rewrite E1, E2. unfold kernel_va, PLIC, VIRTIO0, PHYSTOP, KERNBASE, PGSIZE in Hva. change MAXVA with 274877906944 in Hva.
    destruct Hva as [Hva|[Hva|Hva]]; [left|right; left|right; right]; zdm. }
  intros x. rewrite elem_of_union, !elem_of_singleton, elem_of_list_to_set, !elem_of_app, !list_elem_of_fmap.
  destruct Hc as [[-> Hj]|[[-> Hj]|[-> ->]]]; intros [-> | ->].
  - left. rewrite !elem_of_cons. tauto.
  - right. left. exists (PX 1 va). split; [done|]. apply elem_of_seqZ. lia.
  - left. rewrite !elem_of_cons. tauto.
  - right. right. exists (PX 1 va). split; [done|]. apply elem_of_seqZ. lia.
  - left. rewrite !elem_of_cons. tauto.
  - left. rewrite !elem_of_cons. tauto.
Qed.

#[local] Opaque kernel_tables.

Lemma kernel_range n : forall va, (forall i, 0 <= i < Z.of_nat n -> kernel_va (va + i * PGSIZE)) -> range_tables n va ⊆ kernel_tables.
Proof.
  induction n as [|n IH]; intros va Hva; cbn [range_tables]; [apply empty_subseteq|]. apply union_subseteq. split.
  - apply kernel_prefixes. specialize (Hva 0 ltac:(lia)). by rewrite Z.add_0_r in Hva.
  - apply IH. intros i Hi. replace (va + PGSIZE + i * PGSIZE) with (va + (i + 1) * PGSIZE) by lia. apply Hva. lia.
Qed.

(** Enough free pages for the tables that are missing and [j] more. *)
Definition room (j : nat) (F : gset Z) (T : pt) : Prop := (size (kernel_tables ∖ dom (nodes T)) + j <= size F)%nat.

Lemma room_grows j X F T F' T' :
  room j F T -> X ⊆ kernel_tables -> dom (nodes T') = dom (nodes T) ∪ X -> size F = (size F' + size (X ∖ dom (nodes T)))%nat ->
  (size (X ∖ dom (nodes T)) <= size F)%nat /\ room j F' T'.
Proof.
  unfold room. intros Hr HX Hd Hs. split; [lia|]. rewrite Hd.
  pose proof (size_diff_split X kernel_tables (dom (nodes T))) as E. rewrite (subseteq_union_1_L X kernel_tables HX) in E. lia.
Qed.

(** ** The kernel's segments *)

Definition RW : Z := Z.lor PTE_R PTE_W.
Definition RX : Z := Z.lor PTE_R PTE_X.

Definition stack_seg (p : nat) (q : Z) : segment := {| sg_va := KSTACK (Z.of_nat p); sg_n := 1; sg_pa := q; sg_perm := RW |}.

(** The stacks of the processes from [p] on. *)
Fixpoint add_stacks (p : nat) (qs : list Z) (gs : list segment) : list segment :=
  match qs with [] => gs | q :: qs' => add_stacks (S p) qs' (stack_seg p q :: gs) end.

Section Fixed.
Context `{L : Layout}.

Definition uart_seg : segment := {| sg_va := UART0; sg_n := 1; sg_pa := UART0; sg_perm := RW |}.
Definition virtio_seg : segment := {| sg_va := VIRTIO0; sg_n := 1; sg_pa := VIRTIO0; sg_perm := RW |}.
Definition plic_seg : segment := {| sg_va := PLIC; sg_n := Z.to_nat (0x4000000 / PGSIZE); sg_pa := PLIC; sg_perm := RW |}.
Definition text_seg : segment :=
  {| sg_va := KERNBASE; sg_n := Z.to_nat ((etext - KERNBASE) / PGSIZE); sg_pa := KERNBASE; sg_perm := RX |}.
Definition data_seg : segment :=
  {| sg_va := etext; sg_n := Z.to_nat ((PHYSTOP - etext) / PGSIZE); sg_pa := etext; sg_perm := RW |}.
Definition tramp_seg : segment := {| sg_va := TRAMPOLINE; sg_n := 1; sg_pa := trampoline; sg_perm := RX |}.

Definition fixed_segs : list segment := [tramp_seg; data_seg; text_seg; plic_seg; virtio_seg; uart_seg].

Lemma layout_bounds : etext mod 4096 = 0 /\ 0x80001000 <= etext /\ etext + 8192 <= 0x88000000 /\ trampoline = etext - 4096.
Proof.
  pose proof etext_aligned as H1. pose proof trampoline_etext as H2. pose proof trampoline_low as H3. pose proof etext_end as H4. pose proof end_phystop as H5.
  unfold PHYSTOP, KERNBASE, PGSIZE in *. lia.
Qed.

Lemma fixed_sizes :
  Z.of_nat (sg_n plic_seg) * PGSIZE = 0x4000000 /\ Z.of_nat (sg_n text_seg) * PGSIZE = etext - KERNBASE /\
  Z.of_nat (sg_n data_seg) * PGSIZE = PHYSTOP - etext.
Proof.
  destruct layout_bounds as (H1 & H2 & H3 & H4). unfold PHYSTOP, KERNBASE, PGSIZE in *. cbn [sg_n plic_seg text_seg data_seg].
  unfold PHYSTOP, KERNBASE, PGSIZE. rewrite !Z2Nat.id by zdm. zdm.
Qed.
End Fixed.

(** ** Mapping segments *)

Section KernelVm.
Context {kalloc : KM Z} {kfree : Z -> KM unit} {PA : PageAllocator kalloc kfree}.

(** A page table of the kernel under construction: its segments, the pages set apart for
    stacks, and room for the rest. *)
Record building (base : Z) (F0 : gset Z) (root : Z) (gs : list segment) (stacks : list Z) (j : nat) (F : gset Z) (T : pt) (s0 s : kernel) : Prop := {
  bg_ok : vm_ok base F root T s;
  bg_leaves : seg_leaves gs T;
  bg_segs : Forall seg_ok gs;
  bg_room : room j F T;
  bg_foot : foot F T ∪ list_to_set stacks = F0;
  bg_stacks : NoDup stacks /\ forall p, p ∈ stacks -> p ∉ foot F T;
  bg_step : vm_step base F0 s0 s
}.

(** The segment [g] lies in the addresses of the kernel, away from the segments [gs]. *)
Definition fits_in (gs : list segment) (g : segment) : Prop :=
  seg_ok g /\ sg_n g <> 0%nat /\
  forall i, 0 <= i < Z.of_nat (sg_n g) -> kernel_va (sg_va g + i * PGSIZE) /\ seg_find gs (sg_va g + i * PGSIZE) = None.

Lemma kVmMap_ok base F0 root gs stacks j F T s0 s g :
  building base F0 root gs stacks j F T s0 s -> fits_in gs g ->
  exists F' T' s', kVmMap kalloc root (sg_va g) (sg_pa g) (Z.of_nat (sg_n g) * PGSIZE) (sg_perm g) s = Ok tt s' /\
    building base F0 root (g :: gs) stacks j F' T' s0 s'.
Proof.
  intros [B1 B2 B3 B4 B5 B6 B7] (Hg & Hn & Hin). pose proof Hg as (G1 & G2 & G3).
  assert (range_tables (sg_n g) (sg_va g) ⊆ kernel_tables) as HX by (apply kernel_range; intros i Hi; apply Hin, Hi).
  destruct (mapPages_ok (sg_n g) base F root T s (sg_va g) (sg_pa g) (sg_perm g)) as (F' & T' & s' & E & G); try done.
  { intros i Hi. rewrite B2; [|destruct G1 as (R1 & R2 & R3); unfold PGSIZE in *; zdm|destruct G1 as (R1 & R2 & R3); unfold PGSIZE in *; lia].
    by rewrite (proj2 (Hin i Hi)). }
  { unfold room in B4. assert (size (range_tables (sg_n g) (sg_va g) ∖ dom (nodes T)) <= size (kernel_tables ∖ dom (nodes T)))%nat; [|lia].
    apply subseteq_size. by apply difference_mono_r. }
  exists F', T', s'. split; [unfold kVmMap; by mstep E|]. destruct G as [C1 C2 C3 C4 C5 C6 C7].
  destruct (room_grows j _ _ _ _ _ B4 HX C4 C6) as [_ Hroom]. split; try done.
  - intros va Hva Hr. rewrite C2, map_range_lookup by done. cbn [seg_find]. unfold covers.
    destruct (_ && _); [done|]. by apply B2.
  - by constructor.
  - by rewrite C5.
  - by rewrite C5.
  - eapply vm_step_trans; [exact B7|]. eapply vm_step_mono; [|exact C7]. rewrite <- B5. apply union_subseteq_l.
Qed.

(** A page for a stack. *)
Lemma stack_page base F0 root gs stacks j F T s0 s :
  building base F0 root gs stacks (S j) F T s0 s ->
  exists q s', kalloc s = Ok q s' /\ (q =? 0) = false /\ page_addr q /\
    building base F0 root gs (q :: stacks) j (F ∖ {[q]}) T s0 s'.
Proof.
  intros [B1 B2 B3 B4 B5 [B6 B6'] B7]. unfold room in B4.
  destruct (alloc_page base F root T s B1) as (q & s' & E & Hq & Hp & Hz & Hok & St).
  { intros ->. rewrite size_empty in B4. lia. }
  assert (q ∉ tables T) as Hqt by (intros Hc; exact (vm_own _ _ _ _ _ B1 q Hq Hc)).
  exists q, s'. split; [done|]. split; [done|].
  split; [apply (pool_page_addr base); [by eapply pa_base, vm_alloc|done]|]. split; try done.
  - unfold room. rewrite (size_difference F {[q]}), size_singleton by (intros x ->%elem_of_singleton; done). lia.
  - rewrite <- B5. unfold foot. cbn [list_to_set]. apply set_eq. intros x. rewrite !elem_of_union, elem_of_difference, elem_of_singleton.
    destruct (decide (x = q)) as [-> |]; tauto.
  - unfold foot in *. split.
    + apply NoDup_cons. split; [|done]. intros Hin. apply (B6' q Hin). apply elem_of_union. by left.
    + intros p [-> |Hp']%elem_of_cons; [rewrite elem_of_union, elem_of_difference, elem_of_singleton; tauto|].
      specialize (B6' p Hp'). rewrite elem_of_union in *. rewrite elem_of_difference. tauto.
  - eapply vm_step_trans; [exact B7|]. eapply vm_step_mono; [|exact St]. rewrite <- B5. unfold foot. intros x Hx. rewrite !elem_of_union. tauto.
Qed.

(** proc_mapstacks from process [p] on. *)
Lemma stacks_ok base F0 root e n : forall p gs stacks F T s0 s,
  building base F0 root gs stacks (n + e) F T s0 s -> (p + n = 64)%nat ->
  (forall p', (p <= p' < 64)%nat -> seg_find gs (KSTACK (Z.of_nat p')) = None) ->
  exists qs F' T' s', length qs = n /\
    foreach (Z.of_nat <$> seq p n) (fun p =>
      let! pa := kalloc in
      if pa =? 0 then panic "proc_mapstacks: 内核分配进程栈时空间不足分配失败"
      else kVmMap kalloc root (KSTACK p) pa PGSIZE (Z.lor PTE_R PTE_W)) s = Ok tt s' /\
    building base F0 root (add_stacks p qs gs) (rev qs ++ stacks) e F' T' s0 s'.
Proof.
  induction n as [|n IH]; intros p gs stacks F T s0 s B Hp Hnone.
  - exists [], F, T, s. done.
  - destruct (stack_page _ _ _ _ _ _ _ _ _ _ B) as (q & s1 & E1 & Hz & Hq & B1).
    assert (KSTACK (Z.of_nat p) = 274877906944 - 4096 - (Z.of_nat p + 1) * 8192) as Ek by (unfold KSTACK, TRAMPOLINE, PGSIZE; change MAXVA with 274877906944; lia).
    destruct (kVmMap_ok _ _ _ _ _ _ _ _ _ _ (stack_seg p q) B1) as (F2 & T2 & s2 & E2 & B2).
    { split; [split; [|split]|split; [done|]]; cbn [stack_seg sg_va sg_n sg_pa sg_perm].
      - unfold good_range. change MAXVA with 274877906944. unfold PGSIZE. rewrite Ek. zdm.
      - destruct Hq as [Q1 Q2]. unfold good_frames, PGSIZE in *. change (2 ^ 56) with 72057594037927936 in *. zdm.
      - done.
      - intros i Hi. replace i with 0 by lia. rewrite Z.add_0_r. split; [|apply Hnone; lia].
        right. right. change MAXVA with 274877906944. unfold PGSIZE. rewrite Ek. lia. }
    destruct (IH (S p) _ _ _ _ _ _ B2 ltac:(lia)) as (qs & F' & T' & s' & Hlen & E & B3).
    { intros p' Hp'. cbn [seg_find]. replace (covers (stack_seg p q) (KSTACK (Z.of_nat p'))) with false; [apply Hnone; lia|].
      symmetry. unfold covers. cbn [stack_seg sg_va sg_n]. rewrite Ek. unfold KSTACK, TRAMPOLINE, PGSIZE. change MAXVA with 274877906944.
      apply andb_false_iff. left. apply Z.leb_gt. lia. }
    exists (q :: qs), F', T', s'. split; [cbn; by rewrite Hlen|]. split; [|cbn [rev add_stacks]; by rewrite <- app_assoc].
    cbn [seq fmap list_fmap foreach]. rewrite bind_assoc. mstep E1. rewrite Hz.
    change PGSIZE with (Z.of_nat 1 * PGSIZE) at 1. change (Z.lor PTE_R PTE_W) with RW at 1. cbn [stack_seg sg_va sg_n sg_pa sg_perm] in E2. mstep E2. exact E.
Qed.

Lemma create_root {X} base e F s (cont : Z -> KM X) :
  pa_inv base F s -> (166 + e <= size F)%nat ->
  exists root s1, (let! t := kalloc in do! kmemset t 0 PGSIZE; cont t) s = cont root s1 /\
    building base F root [] [] (64 + e) (F ∖ {[root]}) (empty_pt root) s s1.
Proof.
  intros Hpa Hsz. destruct (uVmCreate_ok base F s Hpa) as (root & s1 & E & Hr & Hok & St).
  { intros ->. rewrite size_empty in Hsz. lia. }
  exists root, s1. split.
  - unfold uVmCreate in E. apply bind_inv in E as (q & s' & E1 & E2). rewrite (bind_ok _ _ _ _ _ E1).
    destruct (q =? 0) eqn:Eq.
    { unfold ret in E2. injection E2 as <- <-. pose proof (pa_pool _ _ _ _ Hpa Hr) as (_ & H1 & _). pose proof (pa_base _ _ _ Hpa).
      apply Z.eqb_eq in Eq. unfold KERNBASE, PGSIZE in *. lia. }
    unfold bind, kmemset, modify, ret in E2 |- *. injection E2 as <- <-. done.
  - assert ({[root]} ⊆ F) as Hsub by (intros x ->%elem_of_singleton; done).
    split; try done.
    + unfold room. cbn [empty_pt nodes]. rewrite (size_difference F), size_singleton by done.
      assert (size (kernel_tables ∖ dom ({[ [] := root ]} : gmap (list Z) Z)) <= size kernel_tables)%nat as Hle
        by (apply subseteq_size; intros x [Hx _]%elem_of_difference; done).
      rewrite kernel_tables_size in Hle. lia.
    + unfold foot. rewrite tables_empty. cbn [list_to_set]. rewrite (right_id_L ∅ (∪)). symmetry. rewrite (union_comm_L _ {[root]}). by apply union_difference_L.
    + split; [apply NoDup_nil_2|]. intros p Hp. by apply elem_of_nil in Hp.
Qed.

Context `{L : Layout}.

(** The segments of the kernel with the stacks [qs]. *)
Definition kernel_segments (qs : list Z) : list segment := add_stacks 0 qs fixed_segs.

Definition bytes (g : segment) : Z := Z.of_nat (sg_n g) * PGSIZE.

Lemma seg_find_apart g gs a :
  Forall (fun g' => sg_va g + bytes g <= sg_va g' \/ sg_va g' + bytes g' <= sg_va g) gs ->
  sg_va g <= a < sg_va g + bytes g -> seg_find gs a = None.
Proof.
  intros Hg Ha. induction Hg as [|g' gs Hg' Hgs IH]; [done|]. cbn [seg_find]. unfold covers, bytes in *.
  destruct (Z.leb_spec (sg_va g') a), (Z.ltb_spec a (sg_va g' + Z.of_nat (sg_n g') * PGSIZE)); cbn [andb]; try done; lia.
Qed.

Lemma fit g gs :
  sg_va g mod PGSIZE = 0 -> sg_pa g mod PGSIZE = 0 -> 0 < sg_pa g < 2 ^ 40 -> 0 <= sg_perm g < 1024 -> 0 < bytes g ->
  (PLIC <= sg_va g /\ sg_va g + bytes g <= VIRTIO0 + PGSIZE \/ KERNBASE <= sg_va g /\ sg_va g + bytes g <= PHYSTOP \/
   MAXVA - 512 * PGSIZE <= sg_va g /\ sg_va g + bytes g <= MAXVA) ->
  Forall (fun g' => sg_va g + bytes g <= sg_va g' \/ sg_va g' + bytes g' <= sg_va g) gs -> fits_in gs g.
Proof.
  intros H1 H2 H3 H4 H5 H6 H7. unfold kernel_va, bytes, VIRTIO0, PHYSTOP, KERNBASE, PLIC, PGSIZE in *. change MAXVA with 274877906944 in *.
  change (2 ^ 40) with 1099511627776 in *. change (2 ^ 56) with 72057594037927936.
  split; [split; [|split; [|done]]|split; [lia|]].
  - unfold good_range, PGSIZE. change MAXVA with 274877906944. split; [done|]. lia.
  - unfold good_frames, PGSIZE. change (2 ^ 56) with 72057594037927936. split; [done|]. lia.
  - intros i Hi. split.
    + unfold kernel_va, VIRTIO0, PHYSTOP, KERNBASE, PLIC, PGSIZE. change MAXVA with 274877906944. nia.
    + apply (seg_find_apart g); [done|]. unfold bytes, PGSIZE. nia.
Qed.

(** Each fixed segment is apart from those mapped before it. *)
Lemma fixed_fit :
  fits_in [] uart_seg /\ fits_in [uart_seg] virtio_seg /\ fits_in [virtio_seg; uart_seg] plic_seg /\
  fits_in [plic_seg; virtio_seg; uart_seg] text_seg /\ fits_in [text_seg; plic_seg; virtio_seg; uart_seg] data_seg /\
  fits_in [data_seg; text_seg; plic_seg; virtio_seg; uart_seg] tramp_seg.
Proof.
  destruct layout_bounds as (H1 & H2 & H3 & H4). destruct fixed_sizes as (S1 & S2 & S3).
  assert (TRAMPOLINE = 274877902848) as Ht by done. unfold plic_seg, text_seg, data_seg in *. cbn [sg_n] in *.
  remember (Z.to_nat (0x4000000 / PGSIZE)) as np eqn:Enp. clear Enp. remember (Z.to_nat ((etext - KERNBASE) / PGSIZE)) as nt eqn:Ent. clear Ent.
  remember (Z.to_nat ((PHYSTOP - etext) / PGSIZE)) as nd eqn:End. clear End.
  unfold PHYSTOP, KERNBASE, PGSIZE in S1, S2, S3.
  assert (0 <= RW < 1024 /\ 0 <= RX < 1024) as [Hw Hx] by (vm_compute; split; split; congruence).
  split_and!; apply fit; rewrite ?Forall_cons, ?Forall_nil; unfold bytes, uart_seg, virtio_seg, tramp_seg; cbn [sg_va sg_pa sg_perm sg_n];
    rewrite ?Ht, ?H4; try assumption; try reflexivity; unfold UART0, VIRTIO0, PHYSTOP, KERNBASE, PLIC, PGSIZE;
    change (2 ^ 40) with 1099511627776; change MAXVA with 274877906944; repeat split; try exact I; try assumption; try lia.
  zdm.
Qed.

Lemma kstack_eq p : KSTACK p = 274877906944 - 4096 - (p + 1) * 8192.
Proof. unfold KSTACK, TRAMPOLINE, PGSIZE. change MAXVA with 274877906944. lia. Qed.

(** No fixed segment holds an address between the stacks and the trampoline, or below them. *)
Lemma fixed_high a : PHYSTOP <= a < TRAMPOLINE -> seg_find fixed_segs a = None.
Proof.
  intros Ha. destruct layout_bounds as (H1 & H2 & H3 & H4). destruct fixed_sizes as (S1 & S2 & S3).
  unfold fixed_segs. cbn [seg_find]. unfold covers, PHYSTOP, KERNBASE, PGSIZE in *. change TRAMPOLINE with 274877902848 in *.
  cbn [tramp_seg virtio_seg uart_seg sg_va sg_n sg_pa]. change TRAMPOLINE with 274877902848.
  unfold UART0, VIRTIO0.
  replace (sg_va data_seg) with etext by done. replace (sg_va text_seg) with 0x80000000 by done. replace (sg_va plic_seg) with 0xc000000 by done.
  rewrite S1, S2, S3. unfold PHYSTOP, KERNBASE in *.
  repeat (case_match; [exfalso; match goal with H : _ && _ = true |- _ => apply andb_true_iff in H as [?%Z.leb_le ?%Z.ltb_lt] end; lia|]). done.
Qed.

(** kVmMake builds the kernel's segments. *)
Lemma kVmMake_ok base e F s :
  pa_inv base F s -> (166 + e <= size F)%nat ->
  exists root qs F' T s', kVmMake kalloc s = Ok root s' /\ length qs = 64%nat /\
    building base F root (kernel_segments qs) (rev qs ++ []) e F' T s s'.
Proof.
  intros Hpa Hsz. unfold kVmMake. destruct (create_root base e F s (fun kpgtbl =>
    do! kVmMap kalloc kpgtbl UART0 UART0 PGSIZE (Z.lor PTE_R PTE_W);
    do! kVmMap kalloc kpgtbl VIRTIO0 VIRTIO0 PGSIZE (Z.lor PTE_R PTE_W);
    do! kVmMap kalloc kpgtbl PLIC PLIC 0x4000000 (Z.lor PTE_R PTE_W);
    do! kVmMap kalloc kpgtbl KERNBASE KERNBASE (etext - KERNBASE) (Z.lor PTE_R PTE_X);
    do! kVmMap kalloc kpgtbl etext etext (PHYSTOP - etext) (Z.lor PTE_R PTE_W);
    do! kVmMap kalloc kpgtbl TRAMPOLINE trampoline PGSIZE (Z.lor PTE_R PTE_X);
    do! proc_mapstacks kalloc kpgtbl;
    ret kpgtbl) Hpa Hsz) as (root & s0 & -> & B0).
  destruct fixed_fit as (X1 & X2 & X3 & X4 & X5 & X6). destruct fixed_sizes as (S1 & S2 & S3).
  destruct (kVmMap_ok _ _ _ _ _ _ _ _ _ _ _ B0 X1) as (F1 & T1 & s1 & E1 & B1).
  destruct (kVmMap_ok _ _ _ _ _ _ _ _ _ _ _ B1 X2) as (F2 & T2 & s2 & E2 & B2).
  destruct (kVmMap_ok _ _ _ _ _ _ _ _ _ _ _ B2 X3) as (F3 & T3 & s3 & E3 & B3).
  destruct (kVmMap_ok _ _ _ _ _ _ _ _ _ _ _ B3 X4) as (F4 & T4 & s4 & E4 & B4).
  destruct (kVmMap_ok _ _ _ _ _ _ _ _ _ _ _ B4 X5) as (F5 & T5 & s5 & E5 & B5).
  destruct (kVmMap_ok _ _ _ _ _ _ _ _ _ _ _ B5 X6) as (F6 & T6 & s6 & E6 & B6).
  destruct (stacks_ok base F root e 64 0 _ _ _ _ _ _ B6 eq_refl) as (qs & F7 & T7 & s7 & Hlen & E7 & B7).
  { intros p Hp. apply fixed_high. rewrite kstack_eq. unfold PHYSTOP, KERNBASE. change TRAMPOLINE with 274877902848. lia. }
  exists root, qs, F7, T7, s7. split; [|split; [exact Hlen|exact B7]]. rewrite S1 in E3. rewrite S2 in E4. rewrite S3 in E5.
  etransitivity; [exact (bind_ok _ _ _ _ _ E1)|]. etransitivity; [exact (bind_ok _ _ _ _ _ E2)|].
  etransitivity; [exact (bind_ok _ _ _ _ _ E3)|]. etransitivity; [exact (bind_ok _ _ _ _ _ E4)|].
  etransitivity; [exact (bind_ok _ _ _ _ _ E5)|]. etransitivity; [exact (bind_ok _ _ _ _ _ E6)|].
  etransitivity; [exact (bind_ok _ _ _ _ _ E7)|]. done.
Qed.

(** ** Reading the segments *)

Lemma add_stacks_other qs : forall p gs a,
  (forall i q, qs !! i = Some q -> covers (stack_seg (p + i) q) a = false) -> seg_find (add_stacks p qs gs) a = seg_find gs a.
Proof.
  induction qs as [|q qs IH]; intros p gs a H; cbn [add_stacks]; [done|]. rewrite IH.
  - cbn [seg_find]. specialize (H 0%nat q eq_refl). rewrite Nat.add_0_r in H. by rewrite H.
  - intros i q' Hi. specialize (H (S i) q' Hi). by rewrite Nat.add_succ_r in H.
Qed.

Lemma stack_covers p q a : covers (stack_seg p q) a = (KSTACK (Z.of_nat p) <=? a) && (a <? KSTACK (Z.of_nat p) + PGSIZE).
Proof. unfold covers. cbn [stack_seg sg_va sg_n]. by do 2 f_equal. Qed.

Lemma add_stacks_at qs : forall p gs a i q,
  qs !! i = Some q -> covers (stack_seg (p + i) q) a = true ->
  seg_find (add_stacks p qs gs) a = Some (q + (a - KSTACK (Z.of_nat (p + i))), RW).
Proof.
  induction qs as [|q' qs IH]; intros p gs a i q Hi Hc; [done|]. cbn [add_stacks]. destruct i as [|i].
  - injection Hi as ->. rewrite Nat.add_0_r in *. rewrite add_stacks_other; [cbn [seg_find]; by rewrite Hc|].
    intros j q' Hj. rewrite stack_covers, kstack_eq in *. apply andb_true_iff in Hc as [H1%Z.leb_le H2%Z.ltb_lt].
    apply andb_false_iff. right. apply Z.ltb_ge. unfold PGSIZE in *. lia.
  - rewrite Nat.add_succ_r in *. exact (IH (S p) _ _ i _ Hi Hc).
Qed.

(** Segments are for the kernel only, and none is both writable and executable. *)
Lemma kernel_perms qs a pa perm : seg_find (kernel_segments qs) a = Some (pa, perm) -> perm = RW \/ perm = RX.
Proof.
  unfold kernel_segments. assert (forall l p gs, Forall (fun g => sg_perm g = RW \/ sg_perm g = RX) gs ->
    Forall (fun g => sg_perm g = RW \/ sg_perm g = RX) (add_stacks p l gs)) as H.
  { induction l as [|q l IH]; intros p gs Hg; cbn [add_stacks]; [done|]. apply IH. constructor; [by left|done]. }
  assert (Forall (fun g => sg_perm g = RW \/ sg_perm g = RX) fixed_segs) as Hf.
  { unfold fixed_segs. repeat constructor; cbn [sg_perm tramp_seg data_seg text_seg plic_seg virtio_seg uart_seg]; tauto. }
  generalize (H qs 0%nat _ Hf). generalize (add_stacks 0 qs fixed_segs). intros gs. clear. induction 1 as [|g gs Hg _ IH]; [done|].
  cbn [seg_find]. destruct (covers g a); [|done]. intros [= _ <-]. done.
Qed.

(** ** The MMU *)

(** Translation by the register satp: by the page table it points to, or none at all. *)
Definition satp_translate (satp : Z) (m : mem) (a : Z) (user : bool) (acc : access) : option Z :=
  if Z.shiftr satp 60 =? 8 then sv39_translate m (Z.shiftl (Z.land satp (Z.ones 44)) 12) a user acc else Some a.

Lemma satp_make root m a user acc :
  root mod PGSIZE = 0 -> 0 <= root < 2 ^ 56 -> satp_translate (MAKE_SATP root) m a user acc = sv39_translate m root a user acc.
Proof.
  intros Hm Hr. unfold satp_translate, MAKE_SATP, SATP_SV39, PGSIZE in *.
  set (r := Z.shiftr root 12). assert (0 <= r < 2 ^ 44) as Hb by (unfold r; rewrite Z.shiftr_div_pow2 by lia; change (2 ^ 56) with 72057594037927936 in Hr; change (2 ^ 12) with 4096; change (2 ^ 44) with 17592186044416; zdm).
  rewrite Z.shiftr_lor, Z.land_lor_distr_l, (Z.land_ones r) by lia. rewrite (Z.mod_small r) by done.
  rewrite (Z.shiftr_div_pow2 r), Z.div_small by (change (2 ^ 44) with 17592186044416 in Hb; change (2 ^ 60) with 1152921504606846976; lia).
  change (Z.shiftr (Z.shiftl 8 60) 60) with 8. change (Z.land (Z.shiftl 8 60) (Z.ones 44)) with 0. rewrite Z.lor_0_l, Z.lor_0_r, Z.eqb_refl.
  f_equal. unfold r. rewrite Z.shiftr_div_pow2, Z.shiftl_mul_pow2 by lia. change (2 ^ 12) with 4096. zdm.
Qed.
(** The hart that runs on the table translates by the segments. *)
Lemma building_mmu base F0 root gs stacks j F T s0 s :
  building base F0 root gs stacks j F T s0 s ->
  forall a user acc, 0 <= a < MAXVA -> satp_translate (MAKE_SATP root) (k_mem s) a user acc = seg_translate gs a user acc.
Proof.
  intros [B1 B2 B3 _ _ _ _] a user acc Ha. pose proof (pa_base _ _ _ (vm_alloc _ _ _ _ _ B1)) as Hb. pose proof (vm_wf _ _ _ _ _ B1) as Hw.
  destruct (pool_page_addr base root Hb (pt_page _ _ _ _ Hw _ _ (pt_root _ _ _ _ Hw))) as [P1 P2].
  rewrite satp_make; [|done|destruct P2; split; [by apply Z.lt_le_incl|done]]. by apply (seg_sv39 base root T).
Qed.

Lemma stack_translate qs p q a :
  qs !! p = Some q -> KSTACK (Z.of_nat p) <= a < KSTACK (Z.of_nat p) + PGSIZE ->
  seg_translate (kernel_segments qs) a false Store = Some (q + (a - KSTACK (Z.of_nat p))).
Proof.
  intros Hq Ha. unfold seg_translate, kernel_segments.
  rewrite (add_stacks_at qs 0 _ a p q Hq); [done|]. rewrite stack_covers. cbn [Nat.add]. destruct Ha. apply andb_true_iff. split; [by apply Z.leb_le|by apply Z.ltb_lt].
Qed.

Lemma guard_translate qs p a user acc :
  length qs = 64%nat -> 0 <= p < NPROC -> KSTACK p - PGSIZE <= a < KSTACK p -> seg_translate (kernel_segments qs) a user acc = None.
Proof.
  intros Hlen Hp Ha. unfold seg_translate, kernel_segments. rewrite kstack_eq in Ha. unfold NPROC, PGSIZE in *.
  rewrite add_stacks_other.
  - rewrite fixed_high; [done|]. unfold PHYSTOP, KERNBASE. change TRAMPOLINE with 274877902848. lia.
  - intros i q Hi%lookup_lt_Some. rewrite stack_covers, kstack_eq. unfold PGSIZE.
    destruct (Z.leb_spec (274877906944 - 4096 - (Z.of_nat (0 + i) + 1) * 8192) a), (Z.ltb_spec a (274877906944 - 4096 - (Z.of_nat (0 + i) + 1) * 8192 + 4096)); try done. lia.
Qed.

Lemma user_translate qs a acc : seg_translate (kernel_segments qs) a true acc = None.
Proof.
  unfold seg_translate. destruct (seg_find _ a) as [[pa perm]|] eqn:E; [|done].
  destruct (kernel_perms _ _ _ _ E) as [-> | ->]; by destruct acc.
Qed.

Lemma wxorx_translate qs a : seg_translate (kernel_segments qs) a false Store <> None -> seg_translate (kernel_segments qs) a false Fetch = None.
Proof.
  unfold seg_translate. destruct (seg_find _ a) as [[pa perm]|] eqn:E; [|done].
  by destruct (kernel_perms _ _ _ _ E) as [-> | ->].
Qed.

End KernelVm.

(** ** Claim and witness *)

Section Claim.
Context `{L : Layout}.

(** C12: with 166 free pages (the root table, 101 tables below it and 64 stacks), kVmInit and
    kVmInitHart succeed and leave the hart translating by the new page table: every
    virtual address goes where the segments of the kernel say (the devices, the kernel's text
    and the memory above it mapped to themselves, the trampoline at the top, a stack page for
    each of the 64 processes) and every other address faults. The 64 stack pages are distinct,
    come from the free pages and are no longer free; each stack is writable by the kernel, with
    an unmapped guard page below it; no address is accessible in user mode; and none is both
    writable and executable. The allocator's invariant holds for the pages left. *)
Theorem kernel_address_space base F s :
  kmem_ready base F s -> (166 <= size F)%nat ->
  exists qs F' s', (do! kVmInit kalloc; kVmInitHart) s = Ok tt s' /\ kmem_ready base F' s' /\
    length qs = 64%nat /\ NoDup qs /\ (forall q, q ∈ qs -> q ∈ F /\ q ∉ F') /\
    let mmu := satp_translate (r_satp (k_csr s')) (k_mem s') in
    (forall a user acc, 0 <= a < MAXVA -> mmu a user acc = seg_translate (kernel_segments qs) a user acc) /\
    (forall p q a, qs !! p = Some q -> KSTACK (Z.of_nat p) <= a < KSTACK (Z.of_nat p) + PGSIZE ->
       mmu a false Store = Some (q + (a - KSTACK (Z.of_nat p)))) /\
    (forall p a acc, 0 <= p < NPROC -> KSTACK p - PGSIZE <= a < KSTACK p -> mmu a false acc = None) /\
    (forall a acc, 0 <= a < MAXVA -> mmu a true acc = None) /\
    (forall a, 0 <= a < MAXVA -> mmu a false Store <> None -> mmu a false Fetch = None).
Proof.
  intros Hr Hsz. destruct (kVmMake_ok (PA := kalloc_allocator) base 0 F s Hr Hsz) as (root & qs & F' & T & s1 & E & Hlen & B).
  pose proof (building_mmu _ _ _ _ _ _ _ _ _ _ B) as Hmmu. destruct B as [B1 _ _ _ B5 [B6 B6'] _]. rewrite app_nil_r in *.
  set (s2 := set_kpgtbl root s1). exists qs, F'. eexists. split.
  { assert (kVmInit kalloc s = Ok tt s2) as E2 by exact (bind_ok _ _ _ root s1 E). etransitivity; [exact (bind_ok _ _ _ tt s2 E2)|]. reflexivity. }
  split.
  { pose proof (vm_alloc _ _ _ _ _ B1) as Hpa. apply (pa_frame (PageAllocator := kalloc_allocator) base F' s1); [exact Hpa|reflexivity..|exact (pa_hart _ _ _ Hpa)]. }
  split; [exact Hlen|]. split; [by rewrite (Permutation_rev qs)|]. split.
  { intros q Hq. rewrite (Permutation_rev qs) in Hq. specialize (B6' q Hq). split; [|intros Hc; apply B6'; unfold foot; apply elem_of_union; by left].
    rewrite <- B5. apply elem_of_union. right. by apply elem_of_list_to_set. }
  cbn zeta. change (r_satp (k_csr _)) with (MAKE_SATP root). change (k_mem _) with (k_mem s1).
  split; [exact Hmmu|]. split; [intros p q a Hq Ha; rewrite Hmmu; [by apply stack_translate|]|].
  { apply lookup_lt_Some in Hq. rewrite kstack_eq in Ha. change MAXVA with 274877906944. unfold PGSIZE in Ha. lia. }
  split; [intros p a acc Hp Ha; rewrite Hmmu; [by apply (guard_translate qs p)|]|].
  { rewrite kstack_eq in Ha. change MAXVA with 274877906944. unfold PGSIZE, NPROC in *. lia. }
  split; [intros a acc Ha; rewrite Hmmu by done; apply user_translate|].
  intros a Ha. rewrite !Hmmu by done. apply wxorx_translate.
Qed.
End Claim.

(** A machine with 200 pages to allocate. *)
Definition wide_layout : Layout.
Proof.
  refine {| end_ := PHYSTOP - 201 * PGSIZE; etext := KERNBASE + PGSIZE; trampoline := KERNBASE |};
    by vm_compute.
Defined.

Definition wide_base : Z := PHYSTOP - 201 * PGSIZE.
Definition wide_pages : list Z := (fun i => PHYSTOP - PGSIZE * (1 + Z.of_nat i)) <$> seq 0 200.

Lemma wide_plenty : exists F s, @kmem_ready wide_layout wide_base F s /\ (166 <= size F)%nat.
Proof.
  destruct (@kinit_inv wide_layout boot_kernel boot_can_print eq_refl) as (F & s & _ & Hr & HF & _).
  exists F, s. split; [exact Hr|]. transitivity 200%nat; [lia|].
  replace 200%nat with (size (list_to_set wide_pages : gset Z)) by (by vm_compute).
  apply subseteq_size. intros p. rewrite elem_of_list_to_set. intros (i & -> & Hi)%list_elem_of_fmap.
  apply HF. apply elem_of_seq in Hi. change (PGROUNDUP (@end_ wide_layout)) with wide_base.
  unfold pool_page, wide_base, PHYSTOP, KERNBASE, PGSIZE. zdm.
Qed.

Lemma kernel_address_space_witness :
  exists F s qs s', @kmem_ready wide_layout wide_base F s /\ (166 <= size F)%nat /\
    (do! @kVmInit kalloc wide_layout; kVmInitHart) s = Ok tt s' /\
    forall a, UART0 <= a < UART0 + PGSIZE ->
      satp_translate (r_satp (k_csr s')) (k_mem s') a false Store = @seg_translate (@kernel_segments wide_layout qs) a false Store.
Proof.
  destruct wide_plenty as (F & s & Hr & Hsz).
  destruct (@kernel_address_space wide_layout wide_base F s Hr Hsz) as (qs & F' & s' & E & _ & _ & _ & _ & Hmmu & _).
  exists F, s, qs, s'. split; [exact Hr|split; [exact Hsz|split; [exact E|]]].
  intros a Ha. apply Hmmu. change MAXVA with 274877906944. unfold UART0, PGSIZE in Ha. lia.
Defined.
