(* ===== verification/VmCopy.v ===== *)
(** * Copies between kernel and user memory: copyin, copyout, copyinstr

    User memory is what the page table maps with PTE_U; a copy moves exactly the
    bytes of the range, page by page. *)

From S2P Require Import Prelude Mem CString State Spinlock Printf Locks PageAlloc Kalloc Vm PageTable VmMap VmFree AddressSpace Sv39 VmProps.

(** The physical address of a byte of user memory. *)
Definition user_pa (T : pt) (va : Z) : Z :=
  PTE2PA (default 0 (leaves T !! path va)) + va mod PGSIZE.

(** [n] bytes from [va] on are resident user memory. *)
Definition user_range (T : pt) (va n : Z) : Prop :=
  0 <= va /\ va + n <= MAXVA /\
  forall k, 0 <= k < n -> exists e, leaves T !! path (va + k) = Some e /\ has e PTE_U = true /\
    0 < PTE2PA e < 2 ^ 56.

Definition writable (T : pt) (va n : Z) : Prop :=
  forall k e, 0 <= k < n -> leaves T !! path (va + k) = Some e -> has e PTE_W = true.

(** The byte [a] belongs to no table of [T]. *)
Definition no_table (T : pt) (a : Z) : Prop := forall p, p ∈ tables T -> ~ in_page p a.

Lemma PGROUNDDOWN_spec a : PGROUNDDOWN a = a - a mod PGSIZE.
Proof.
  unfold PGROUNDDOWN. rewrite land_lnot_page. unfold PGSIZE. zdm.
Qed.

Lemma path_down a : path (PGROUNDDOWN a) = path a.
Proof. rewrite PGROUNDDOWN_spec. apply path_page. Qed.

Lemma path_same_page a b : a - a mod PGSIZE = b - b mod PGSIZE -> path a = path b.
Proof. intros H. rewrite <- (path_page a), <- (path_page b). by rewrite H. Qed.

(** The part of a range that lies in the first page. *)
Lemma chunk_spec va len :
  0 < len -> chunk va (PGROUNDDOWN va) len = Z.min len (PGSIZE - va mod PGSIZE).
Proof.
  intros H. unfold chunk. rewrite PGROUNDDOWN_spec.
  replace (va - (va - va mod PGSIZE)) with (va mod PGSIZE) by lia. zcases.
Qed.

Lemma chunk_path va k :
  0 <= k -> va mod PGSIZE + k < PGSIZE -> path (va + k) = path va /\ (va + k) mod PGSIZE = va mod PGSIZE + k.
Proof.
  intros Hk Hlt. unfold PGSIZE in *. assert ((va + k) mod 4096 = va mod 4096 + k) as E by zdm.
  split; [|done]. apply path_same_page. unfold PGSIZE. lia.
Qed.

Lemma user_pa_chunk T va k :
  0 <= k -> va mod PGSIZE + k < PGSIZE -> user_pa T (va + k) = user_pa T va + k.
Proof. intros Hk Hlt. destruct (chunk_path va k Hk Hlt) as [E1 E2]. unfold user_pa. rewrite E1, E2. lia. Qed.

(** Where the copy goes on after the first page. *)
Lemma next_page va len n :
  0 <= va -> n = Z.min len (PGSIZE - va mod PGSIZE) -> n < len -> va + len <= MAXVA ->
  u64 (PGROUNDDOWN va + PGSIZE) = va + n /\ (va + n) mod PGSIZE = 0.
Proof.
  intros H1 -> H2 H3. rewrite PGROUNDDOWN_spec. change MAXVA with 274877906944 in H3.
  rewrite u64_small by (change (2 ^ 64) with 18446744073709551616; unfold PGSIZE in *; zdm).
  unfold PGSIZE in *. zdm.
Qed.

Lemma user_range_tail T va len n :
  user_range T va len -> 0 <= n <= len -> user_range T (va + n) (len - n).
Proof.
  intros (H1 & H2 & H3) Hn. split; [lia|split; [lia|]]. intros k Hk.
  replace (va + n + k) with (va + (n + k)) by lia. apply H3. lia.
Qed.

Lemma copy_fuel_enough va len :
  0 <= va -> 0 <= len -> va mod PGSIZE + len <= (Z.of_nat (copy_fuel len) - 1) * PGSIZE.
Proof. intros H1 H2. unfold copy_fuel. rewrite !Nat2Z.inj_succ, Z2Nat.id by (unfold PGSIZE; zdm). unfold PGSIZE. zdm. Qed.

Section VmCopy.
Context {kalloc : KM Z} {kfree : Z -> KM unit}.

Lemma uVA2PA_user base root T s va :
  KERNBASE <= base -> pt_wf base root T (k_mem s) -> user_range T va 1 ->
  exists e, leaves T !! path va = Some e /\
    uVA2PA kalloc root (PGROUNDDOWN va) s = Ok (PTE2PA e) s /\ (PTE2PA e =? 0) = false.
Proof.
  intros Hb Hw (H1 & H2 & H3). destruct (H3 0) as (e & He & HU & Hp); [lia|]. rewrite Z.add_0_r in He.
  exists e. split; [done|]. split; [|apply Z.eqb_neq; lia].
  assert (0 <= PGROUNDDOWN va < MAXVA) as Hr.
  { rewrite PGROUNDDOWN_spec. change MAXVA with 274877906944 in *. unfold PGSIZE. zdm. }
  unfold uVA2PA. rewrite (proj2 (Z.leb_gt _ _)) by lia.
  mstep (walk_ro (kalloc:=kalloc) base root T s _ Hw Hb Hr).
  destruct (pte_addr T (PGROUNDDOWN va)) as [a|] eqn:Ea; cbn [from_option id].
  2: { pose proof (pte_addr_none _ _ _ _ _ Hw Ea) as Hn. rewrite path_down in Hn. congruence. }
  rewrite (pte_addr_nonzero _ _ _ _ _ _ Hw Hb Ea). unfold bind, ld64, get.
  rewrite (pte_addr_entry _ _ _ _ _ _ Hw Ea), path_down, He. cbn [from_option id].
  destruct (pt_leaf _ _ _ _ Hw _ _ He) as (_ & _ & _ & _ & _ & _ & _ & HV). by rewrite HV, HU.
Qed.

(** ** copyin *)

Lemma copyin_loop_ok base root T fuel s dst va len :
  KERNBASE <= base -> pt_wf base root T (k_mem s) -> user_range T va len -> 0 <= len < 2 ^ 32 ->
  va mod PGSIZE + len <= (Z.of_nat fuel - 1) * PGSIZE -> 1 <= Z.of_nat fuel ->
  (forall k, 0 <= k < len -> no_table T (dst + k)) ->
  (forall j k, 0 <= j < len -> 0 <= k < len -> dst + j <> user_pa T (va + k)) ->
  exists m', copyin_loop kalloc kfree fuel root dst va len s = Ok 0 (set_mem m' s) /\
    forall a, rd8 m' a = if (dst <=? a) && (a <? dst + len) then rd8 (k_mem s) (user_pa T (va + (a - dst)))
                         else rd8 (k_mem s) a.
Proof.
  intros Hb. revert s dst va len. induction fuel as [|f IH]; intros s dst va len Hw Hu Hlen Hfuel Hf1 Hnt Hdis; [lia|].
  cbn [copyin_loop]. destruct (Z.ltb_spec 0 len) as [Hpos|Hneg].
  2: { exists (k_mem s). rewrite set_mem_id. split; [done|]. intros a. zcases. }
  destruct (uVA2PA_user base root T s va Hb Hw) as (e & He & E1 & Hnz).
  { destruct Hu as (U1 & U2 & U3). split; [lia|split; [lia|]]. intros k Hk. apply U3. lia. }
  mstep E1. rewrite Hnz. unfold bind at 1, ret at 1. rewrite Hnz.
  rewrite chunk_spec by done. set (n := Z.min len (PGSIZE - va mod PGSIZE)).
  assert (0 < n <= len /\ va mod PGSIZE + n <= PGSIZE) as [Hn Hn2] by (unfold n, PGSIZE; zdm).
  assert (PTE2PA e + (va - PGROUNDDOWN va) = user_pa T va) as ->.
  { unfold user_pa. rewrite He, PGROUNDDOWN_spec. cbn. lia. }
  unfold bind, kmemmove, modify. set (m1 := memmove (k_mem s) dst (user_pa T va) n).
  assert (forall a, rd8 m1 a = if (dst <=? a) && (a <? dst + n)
            then rd8 (k_mem s) (user_pa T (va + (a - dst))) else rd8 (k_mem s) a) as Hm1.
  { intros a. unfold m1. rewrite rd8_memmove by lia.
    destruct ((dst <=? a) && (a <? dst + n)) eqn:Ea; [|done]. zbool.
    by rewrite user_pa_chunk by (unfold PGSIZE in *; lia). }
  assert (pt_wf base root T m1) as Hw1.
  { apply (pt_wf_mem _ _ _ (k_mem s)); [done|]. intros p a Hp Hin. rewrite Hm1.
    destruct ((dst <=? a) && (a <? dst + n)) eqn:Ea; [|done]. zbool. exfalso.
    apply (Hnt (a - dst) ltac:(lia) p Hp). by replace (dst + (a - dst)) with a by lia. }
  destruct (decide (n = len)) as [Hall|Hne].
  - (* the last page *)
    rewrite Hall, Z.sub_diag. assert (0 <= va mod PGSIZE) by (apply Z.mod_pos_bound; done).
    destruct f as [|f]; [lia|]. cbn [copyin_loop].
    exists m1. split; [done|]. rewrite <- Hall. done.
  - destruct (next_page va len n) as [Enp Emod]; [by destruct Hu|done|lia|by destruct Hu as (_ & ? & _)|].
    rewrite Enp. edestruct (IH (set_mem m1 s) (dst + n) (va + n) (len - n)) as (m' & E' & Hm').
    + done.
    + apply user_range_tail; [done|lia].
    + lia.
    + rewrite Emod. unfold n, PGSIZE in *. lia.
    + unfold PGSIZE in *. lia.
    + intros k Hk. replace (dst + n + k) with (dst + (n + k)) by lia. apply Hnt. lia.
    + intros j k Hj Hk. replace (dst + n + j) with (dst + (n + j)) by lia.
      replace (va + n + k) with (va + (n + k)) by lia. apply Hdis; lia.
    + exists m'. split; [by rewrite E'|]. intros a. rewrite Hm', k_mem_set_mem.
      assert (forall k, 0 <= k < len -> rd8 m1 (user_pa T (va + k)) = rd8 (k_mem s) (user_pa T (va + k))) as Hsrc.
      { intros k Hk. rewrite Hm1. destruct ((dst <=? user_pa T (va + k)) && (user_pa T (va + k) <? dst + n)) eqn:Ea; [|done].
        zbool. exfalso. apply (Hdis (user_pa T (va + k) - dst) k); lia. }
      destruct (Z.leb_spec (dst + n) a), (Z.ltb_spec a (dst + n + (len - n))); cbn [andb].
      * replace (va + n + (a - (dst + n))) with (va + (a - dst)) by lia. rewrite Hsrc by lia.
        by rewrite (proj2 (Z.leb_le _ _)), (proj2 (Z.ltb_lt _ _)) by lia.
      * rewrite Hm1. rewrite (proj2 (Z.ltb_ge a (dst + n))), (proj2 (Z.ltb_ge a (dst + len))) by lia.
        by rewrite !andb_false_r.
      * rewrite Hm1. destruct (Z.leb_spec dst a); cbn [andb]; [|done].
        by rewrite (proj2 (Z.ltb_lt _ _)), (proj2 (Z.ltb_lt _ _)) by lia.
      * lia.
Qed.

Lemma copyin_ok base root T s dst va len :
  KERNBASE <= base -> pt_wf base root T (k_mem s) -> user_range T va len -> 0 <= len < 2 ^ 32 ->
  (forall k, 0 <= k < len -> no_table T (dst + k)) ->
  (forall j k, 0 <= j < len -> 0 <= k < len -> dst + j <> user_pa T (va + k)) ->
  exists m', copyin kalloc kfree root dst va len s = Ok 0 (set_mem m' s) /\
    forall a, rd8 m' a = if (dst <=? a) && (a <? dst + len) then rd8 (k_mem s) (user_pa T (va + (a - dst)))
                         else rd8 (k_mem s) a.
Proof.
  intros Hb Hw Hu Hlen Hnt Hdis. unfold copyin. apply (copyin_loop_ok base); try done.
  - apply copy_fuel_enough; [by destruct Hu|lia].
  - unfold copy_fuel. lia.
Qed.

(** ** copyout *)

(** The pages of a user range are distinct pages of the pool, none of them a
    table. *)
Definition user_own (base : Z) (T : pt) (va n : Z) : Prop :=
  (forall k, 0 <= k < n -> no_table T (user_pa T (va + k))) /\
  (forall j k, 0 <= j < n -> 0 <= k < n -> j <> k -> user_pa T (va + j) <> user_pa T (va + k)).

Lemma user_own_tail base T va len n :
  user_own base T va len -> 0 <= n <= len -> user_own base T (va + n) (len - n).
Proof.
  intros [H1 H2] Hn. split.
  - intros k Hk. replace (va + n + k) with (va + (n + k)) by lia. apply H1. lia.
  - intros j k Hj Hk Hne. replace (va + n + k) with (va + (n + k)) by lia.
    replace (va + n + j) with (va + (n + j)) by lia. apply H2; lia.
Qed.

Lemma copyout_loop_ok base root T fuel s va src len :
  KERNBASE <= base -> pt_wf base root T (k_mem s) -> user_range T va len -> writable T va len ->
  user_own base T va len -> 0 <= len < 2 ^ 32 ->
  va mod PGSIZE + len <= (Z.of_nat fuel - 1) * PGSIZE -> 1 <= Z.of_nat fuel ->
  (forall j k, 0 <= j < len -> 0 <= k < len -> src + j <> user_pa T (va + k)) ->
  exists m', copyout_loop kalloc kfree fuel root va src len s = Ok 0 (set_mem m' s) /\
    (forall k, 0 <= k < len -> rd8 m' (user_pa T (va + k)) = rd8 (k_mem s) (src + k)) /\
    (forall a, (forall k, 0 <= k < len -> a <> user_pa T (va + k)) -> rd8 m' a = rd8 (k_mem s) a).
Proof.
  intros Hb. revert s va src len.
  induction fuel as [|f IH]; intros s va src len Hw Hu Hwr Hown Hlen Hfuel Hf1 Hdis; [lia|].
  cbn [copyout_loop]. destruct (Z.ltb_spec 0 len) as [Hpos|Hneg].
  2: { exists (k_mem s). rewrite set_mem_id. split; [done|]. split; [intros; lia|done]. }
  destruct (uVA2PA_user base root T s va Hb Hw) as (e & He & E1 & Hnz).
  { destruct Hu as (U1 & U2 & U3). split; [lia|split; [lia|]]. intros k Hk. apply U3. lia. }
  assert (0 <= va mod PGSIZE) as Hmod by (apply Z.mod_pos_bound; done).
  assert (0 <= PGROUNDDOWN va < MAXVA) as Hr0.
  { rewrite PGROUNDDOWN_spec. destruct Hu as (? & ? & _). change MAXVA with 274877906944 in *. unfold PGSIZE. zdm. }
  rewrite (proj2 (Z.leb_gt _ _)) by lia. mstep E1. rewrite Hnz. unfold bind at 1, ret at 1. cbn [Z.eqb].
  mstep (walk_ro (kalloc:=kalloc) base root T s _ Hw Hb Hr0).
  destruct (pte_addr T (PGROUNDDOWN va)) as [pte|] eqn:Ea; cbn [from_option id].
  2: { pose proof (pte_addr_none _ _ _ _ _ Hw Ea) as Hn. rewrite path_down in Hn. congruence. }
  rewrite (pte_addr_nonzero _ _ _ _ _ _ Hw Hb Ea). unfold bind at 1, ld64, get.
  rewrite (pte_addr_entry _ _ _ _ _ _ Hw Ea), path_down, He. cbn [from_option id].
  rewrite (Hwr 0 e) by (rewrite ?Z.add_0_r; done || lia). cbn [negb].
  rewrite chunk_spec by done. set (n := Z.min len (PGSIZE - va mod PGSIZE)).
  assert (0 < n <= len /\ va mod PGSIZE + n <= PGSIZE) as [Hn Hn2] by (unfold n, PGSIZE; zdm).
  assert (PTE2PA e + (va - PGROUNDDOWN va) = user_pa T va) as ->.
  { unfold user_pa. rewrite He, PGROUNDDOWN_spec. cbn. lia. }
  unfold bind, kmemmove, modify. set (m1 := memmove (k_mem s) (user_pa T va) src n).
  assert (forall k, 0 <= k < n -> user_pa T (va + k) = user_pa T va + k) as Hup.
  { intros k Hk. apply user_pa_chunk; lia. }
  assert (forall k, 0 <= k < n -> rd8 m1 (user_pa T (va + k)) = rd8 (k_mem s) (src + k)) as Hin1.
  { intros k Hk. unfold m1. rewrite rd8_memmove, Hup by lia.
    rewrite (proj2 (Z.leb_le _ _)), (proj2 (Z.ltb_lt _ _)) by lia. cbn [andb]. f_equal. lia. }
  assert (forall a, (forall k, 0 <= k < n -> a <> user_pa T (va + k)) -> rd8 m1 a = rd8 (k_mem s) a) as Hout1.
  { intros a Ha. unfold m1. rewrite rd8_memmove by lia.
    destruct ((user_pa T va <=? a) && (a <? user_pa T va + n)) eqn:Eb; [|done]. zbool. exfalso.
    apply (Ha (a - user_pa T va)); [lia|]. rewrite Hup by lia. lia. }
  destruct Hown as [Own1 Own2].
  assert (pt_wf base root T m1) as Hw1.
  { apply (pt_wf_mem _ _ _ (k_mem s)); [done|]. intros p a Hp Hin. apply Hout1. intros k Hk ->.
    by apply (Own1 k ltac:(lia) p Hp). }
  destruct (decide (n = len)) as [Hall|Hne].
  - rewrite Hall, Z.sub_diag. destruct f as [|f]; [lia|]. cbn [copyout_loop].
    exists m1. split; [done|]. split.
    + intros k Hk. apply Hin1. lia.
    + intros a Ha. apply Hout1. intros k Hk. apply Ha. lia.
  - destruct (next_page va len n) as [Enp Emod]; [by destruct Hu|done|lia|by destruct Hu as (_ & ? & _)|].
    rewrite Enp. edestruct (IH (set_mem m1 s) (va + n) (src + n) (len - n)) as (m' & E' & Hin' & Hout').
    + done.
    + apply user_range_tail; [done|lia].
    + intros k e' Hk. replace (va + n + k) with (va + (n + k)) by lia. apply Hwr. lia.
    + apply (user_own_tail base); [done|lia].
    + lia.
    + rewrite Emod. unfold n, PGSIZE in *. lia.
    + unfold PGSIZE in *. lia.
    + intros j k Hj Hk. replace (src + n + j) with (src + (n + j)) by lia.
      replace (va + n + k) with (va + (n + k)) by lia. apply Hdis; lia.
    + exists m'. split; [by rewrite E'|]. rewrite k_mem_set_mem in *. split.
      * intros k Hk. destruct (decide (k < n)) as [Hlt|Hge].
        -- rewrite Hout'; [apply Hin1; lia|]. intros k' Hk'.
           replace (va + n + k') with (va + (n + k')) by lia. apply Own2; lia.
        -- replace (va + k) with (va + n + (k - n)) by lia. rewrite Hin' by lia.
           replace (src + n + (k - n)) with (src + k) by lia. apply Hout1. intros k' Hk'. apply Hdis; lia.
      * intros a Ha. rewrite Hout'; [apply Hout1; intros k Hk; apply Ha; lia|].
        intros k Hk. replace (va + n + k) with (va + (n + k)) by lia. apply Ha. lia.
Qed.

Lemma copyout_ok base root T s va src len :
  KERNBASE <= base -> pt_wf base root T (k_mem s) -> user_range T va len -> writable T va len ->
  user_own base T va len -> 0 <= len < 2 ^ 32 ->
  (forall j k, 0 <= j < len -> 0 <= k < len -> src + j <> user_pa T (va + k)) ->
  exists m', copyout kalloc kfree root va src len s = Ok 0 (set_mem m' s) /\
    (forall k, 0 <= k < len -> rd8 m' (user_pa T (va + k)) = rd8 (k_mem s) (src + k)) /\
    (forall a, (forall k, 0 <= k < len -> a <> user_pa T (va + k)) -> rd8 m' a = rd8 (k_mem s) a).
Proof.
  intros Hb Hw Hu Hwr Hown Hlen Hdis. unfold copyout. apply (copyout_loop_ok base); try done.
  - apply copy_fuel_enough; [by destruct Hu|lia].
  - unfold copy_fuel. lia.
Qed.

(** ** copyinstr *)

(** The user string at [va]: [bs] without zero bytes, then a zero byte. *)
Definition user_cstr (m : mem) (T : pt) (va : Z) (bs : list Z) : Prop :=
  (forall k b, bs !! k = Some b -> rd8 m (user_pa T (va + Z.of_nat k)) = b /\ b <> 0) /\
  rd8 m (user_pa T (va + Z.of_nat (length bs))) = 0.

Lemma cstr_intro m a bs :
  (forall k b, bs !! k = Some b -> rd8 m (a + Z.of_nat k) = b /\ b <> 0) ->
  rd8 m (a + Z.of_nat (length bs)) = 0 -> cstr m a bs.
Proof.
  intros H Hz. split; [|split; [|done]].
  - apply list_eq. intros k. destruct (decide (k < length bs)%nat) as [Hk|Hk].
    + destruct (lookup_lt_is_Some_2 bs k Hk) as [b Hb]. rewrite Hb, lookup_rd_bytes by done.
      f_equal. by apply H.
    + rewrite !lookup_ge_None_2; [done|lia|rewrite length_rd_bytes; lia].
  - apply Forall_lookup. intros k b Hb. by apply (H k b).
Qed.

(** The inner loop copies bytes up to the null byte or the end of the chunk. *)
Lemma copystr_chunk_ok n s p dst max :
  (forall i j, 0 <= i < Z.of_nat n -> 0 <= j < Z.of_nat n -> p + i <> dst + j) ->
  (exists k, 0 <= k < Z.of_nat n /\ rd8 (k_mem s) (p + k) = 0 /\
     (forall i, 0 <= i < k -> rd8 (k_mem s) (p + i) <> 0) /\
     exists m', copystr_chunk n p dst max s = Ok (true, dst + k, max - k) (set_mem m' s) /\
       forall a, rd8 m' a = if (dst <=? a) && (a <=? dst + k) then rd8 (k_mem s) (p + (a - dst))
                            else rd8 (k_mem s) a) \/
  ((forall i, 0 <= i < Z.of_nat n -> rd8 (k_mem s) (p + i) <> 0) /\
   exists m', copystr_chunk n p dst max s = Ok (false, dst + Z.of_nat n, max - Z.of_nat n) (set_mem m' s) /\
     forall a, rd8 m' a = if (dst <=? a) && (a <? dst + Z.of_nat n) then rd8 (k_mem s) (p + (a - dst))
                          else rd8 (k_mem s) a).
Proof.
  revert s p dst max. induction n as [|n IH]; intros s p dst max Hdis.
  { right. split; [intros; lia|]. exists (k_mem s). rewrite set_mem_id, Z.add_0_r, Z.sub_0_r.
    split; [done|]. intros a. zcases. }
  destruct (Z.eqb_spec (rd8 (k_mem s) p) 0) as [H0|H0].
  - assert (copystr_chunk (S n) p dst max s = Ok (true, dst, max) (set_mem (wr8 (k_mem s) dst 0) s)) as Eq.
    { cbn [copystr_chunk]. unfold bind, ld8, get. by rewrite H0. }
    rewrite Eq. left. exists 0. split; [lia|]. rewrite Z.add_0_r. split; [done|]. split; [intros; lia|].
    exists (wr8 (k_mem s) dst 0). rewrite Z.add_0_r, Z.sub_0_r. split; [done|].
    intros a. rewrite rd8_wr8. destruct (Z.eqb_spec dst a) as [<-|].
    + rewrite Z.leb_refl. cbn. by rewrite Z.sub_diag, Z.add_0_r, H0.
    + zcases.
  - set (m1 := wr8 (k_mem s) dst (rd8 (k_mem s) p)).
    assert (forall a, rd8 m1 a = if dst =? a then rd8 (k_mem s) p else rd8 (k_mem s) a) as Hm1.
    { intros a. unfold m1. rewrite rd8_wr8. destruct (dst =? a); [|done]. by rewrite (u8_small _ (rd8_range _ _)). }
    assert (forall i, 0 <= i < Z.of_nat n -> rd8 m1 (p + 1 + i) = rd8 (k_mem s) (p + (1 + i))) as Hp1.
    { intros i Hi. rewrite Hm1. replace (p + 1 + i) with (p + (1 + i)) by lia.
      rewrite (proj2 (Z.eqb_neq _ _)); [done|]. intros Hc. apply (Hdis (1 + i) 0); lia. }
    assert (forall a, dst < a -> dst + 1 <= a) as Hstep by lia.
    assert (copystr_chunk (S n) p dst max s = copystr_chunk n (p + 1) (dst + 1) (max - 1) (set_mem m1 s)) as Eq.
    { cbn [copystr_chunk]. unfold bind, ld8, get. by rewrite (proj2 (Z.eqb_neq _ _) H0). }
    rewrite Eq.
    destruct (IH (set_mem m1 s) (p + 1) (dst + 1) (max - 1)) as [(k & Hk & Hz & Hnz & m' & E & Hm')|[Hnz (m' & E & Hm')]].
    { intros i j Hi Hj. specialize (Hdis (1 + i) (1 + j)). lia. }
    + rewrite k_mem_set_mem in *. left. exists (1 + k). split; [lia|]. split; [by rewrite <- Hp1|]. split.
      * intros i Hi. destruct (decide (i = 0)) as [->|]; [by rewrite Z.add_0_r|].
        specialize (Hnz (i - 1) ltac:(lia)). rewrite Hp1 in Hnz by lia. by replace (1 + (i - 1)) with i in Hnz by lia.
      * exists m'. split; [rewrite E; f_equal; f_equal; [f_equal; lia|lia]|]. intros a. rewrite Hm', !Hm1.
        destruct (Z.leb_spec (dst + 1) a), (Z.leb_spec a (dst + 1 + k)); cbn [andb].
        -- rewrite (proj2 (Z.leb_le dst a)), (proj2 (Z.leb_le a (dst + (1 + k)))) by lia. cbn [andb].
           replace (p + 1 + (a - (dst + 1))) with (p + (a - dst)) by lia.
           rewrite (proj2 (Z.eqb_neq _ _)); [done|]. intros Hc. apply (Hdis (a - dst) 0); lia.
        -- rewrite (proj2 (Z.leb_gt a (dst + (1 + k)))), andb_false_r by lia. by rewrite (proj2 (Z.eqb_neq _ _)) by lia.
        -- destruct (Z.eqb_spec dst a) as [<-|].
           ++ rewrite Z.leb_refl, (proj2 (Z.leb_le _ _)) by lia. cbn. by rewrite Z.sub_diag, Z.add_0_r.
           ++ by rewrite (proj2 (Z.leb_gt dst a)) by lia.
        -- lia.
    + rewrite k_mem_set_mem in *. right. split.
      * intros i Hi. destruct (decide (i = 0)) as [->|]; [by rewrite Z.add_0_r|].
        specialize (Hnz (i - 1) ltac:(lia)). rewrite Hp1 in Hnz by lia. by replace (1 + (i - 1)) with i in Hnz by lia.
      * exists m'. split; [rewrite E; f_equal; f_equal; [f_equal; lia|lia]|]. intros a. rewrite Hm', !Hm1.
        destruct (Z.leb_spec (dst + 1) a), (Z.ltb_spec a (dst + 1 + Z.of_nat n)); cbn [andb].
        -- rewrite (proj2 (Z.leb_le dst a)), (proj2 (Z.ltb_lt a (dst + Z.of_nat (S n)))) by lia. cbn [andb].
           replace (p + 1 + (a - (dst + 1))) with (p + (a - dst)) by lia.
           rewrite (proj2 (Z.eqb_neq _ _)); [done|]. intros Hc. apply (Hdis (a - dst) 0); lia.
        -- rewrite (proj2 (Z.ltb_ge a (dst + Z.of_nat (S n)))), andb_false_r by lia. by rewrite (proj2 (Z.eqb_neq _ _)) by lia.
        -- destruct (Z.eqb_spec dst a) as [<-|].
           ++ rewrite Z.leb_refl, (proj2 (Z.ltb_lt _ _)) by lia. cbn. by rewrite Z.sub_diag, Z.add_0_r.
           ++ by rewrite (proj2 (Z.leb_gt dst a)) by lia.
        -- lia.
Qed.

(** The kernel buffer of [n] bytes at [dst] lies outside the page of [va]. *)
Definition page_apart (T : pt) (va dst n : Z) : Prop :=
  forall j, 0 <= j < n -> ~ in_page (user_pa T va - va mod PGSIZE) (dst + j).

Lemma copyinstr_loop_ok base root T fuel s dst va L max :
  KERNBASE <= base -> pt_wf base root T (k_mem s) -> user_range T va (L + 1) -> 0 <= L < max ->
  max < 2 ^ 32 -> va mod PGSIZE + L + 1 <= Z.of_nat fuel * PGSIZE ->
  (forall k, 0 <= k < L -> rd8 (k_mem s) (user_pa T (va + k)) <> 0) ->
  rd8 (k_mem s) (user_pa T (va + L)) = 0 ->
  (forall k, 0 <= k < max -> no_table T (dst + k)) ->
  (forall k, 0 <= k <= L -> page_apart T (va + k) dst max) ->
  exists m', copyinstr_loop kalloc fuel root dst va max s = Ok 0 (set_mem m' s) /\
    forall a, rd8 m' a = if (dst <=? a) && (a <=? dst + L) then rd8 (k_mem s) (user_pa T (va + (a - dst)))
                         else rd8 (k_mem s) a.
Proof.
  intros Hb. revert s dst va L max.
  induction fuel as [|f IH]; intros s dst va L max Hw Hu HL Hmax Hfuel Hnz Hz Hnt Hap.
  { pose proof (Z.mod_pos_bound va PGSIZE ltac:(done)). lia. }
  pose proof (Z.mod_pos_bound va PGSIZE ltac:(done)) as Hmod.
  cbn [copyinstr_loop]. rewrite (proj2 (Z.ltb_lt _ _)) by lia.
  destruct (uVA2PA_user base root T s va Hb Hw) as (e & He & E1 & Hnz0).
  { destruct Hu as (U1 & U2 & U3). split; [lia|split; [lia|]]. intros k Hk. apply U3. lia. }
  mstep E1. rewrite Hnz0. rewrite chunk_spec by lia. set (n := Z.min max (PGSIZE - va mod PGSIZE)).
  assert (0 < n <= max /\ va mod PGSIZE + n <= PGSIZE) as [Hn Hn2] by (unfold n, PGSIZE in *; zdm).
  assert (PTE2PA e + (va - PGROUNDDOWN va) = user_pa T va) as ->.
  { unfold user_pa. rewrite He, PGROUNDDOWN_spec. cbn. lia. }
  assert (forall k, 0 <= k < n -> user_pa T (va + k) = user_pa T va + k) as Hup.
  { intros k Hk. apply user_pa_chunk; lia. }
  destruct (copystr_chunk_ok (Z.to_nat n) s (user_pa T va) dst max)
    as [(k & Hk & Hk0 & Hknz & m' & E & Hm')|[Hknz (m' & E & Hm')]].
  - intros i j Hi Hj Hc. rewrite Z2Nat.id in * by lia.
    apply (Hap 0 ltac:(lia) j ltac:(lia)). rewrite Z.add_0_r. unfold in_page. lia.
  - (* the null byte is in this page *)
    rewrite Z2Nat.id in Hk by lia. mstep E. cbn iota beta. assert (k = L) as ->.
    { destruct (Z.lt_total k L) as [Hlt|[->|Hgt]]; [|done|].
      - exfalso. apply (Hnz k ltac:(lia)). by rewrite Hup by lia.
      - exfalso. apply (Hknz L ltac:(lia)). by rewrite <- Hup by lia. }
    exists m'. split; [done|]. intros a. rewrite Hm'.
    destruct ((dst <=? a) && (a <=? dst + L)) eqn:Ea; [|done]. zbool. by rewrite Hup by lia.
  - rewrite Z2Nat.id in * by lia. mstep E. cbn iota beta.
    assert (n <= L) as HnL.
    { destruct (decide (n <= L)) as [|Hlt]; [done|]. exfalso. apply (Hknz L ltac:(lia)).
      by rewrite <- Hup by lia. }
    assert (n = PGSIZE - va mod PGSIZE) as Hn3 by (unfold n in *; lia).
    assert (forall a, rd8 m' a = if (dst <=? a) && (a <? dst + n)
              then rd8 (k_mem s) (user_pa T (va + (a - dst))) else rd8 (k_mem s) a) as Hm1.
    { intros a. rewrite Hm'. destruct ((dst <=? a) && (a <? dst + n)) eqn:Ea; [|done]. zbool. by rewrite Hup by lia. }
    destruct (next_page va (L + 1) n) as [Enp Emod]; [by destruct Hu|lia|lia|by destruct Hu as (_ & ? & _)|].
    rewrite Enp. assert (forall k, 0 <= k <= L -> rd8 m' (user_pa T (va + k)) = rd8 (k_mem s) (user_pa T (va + k))) as Hsrc.
    { intros k Hk. rewrite Hm1. destruct ((dst <=? user_pa T (va + k)) && (user_pa T (va + k) <? dst + n)) eqn:Ea; [|done].
      zbool. exfalso. apply (Hap k Hk (user_pa T (va + k) - dst) ltac:(lia)).
      unfold in_page. pose proof (Z.mod_pos_bound (va + k) PGSIZE ltac:(done)). lia. }
    edestruct (IH (set_mem m' s) (dst + n) (va + n) (L - n) (max - n)) as (m2 & E2 & Hm2).
    + apply (pt_wf_mem _ _ _ (k_mem s)); [done|]. intros p a Hp Hin. rewrite k_mem_set_mem, Hm1.
      destruct ((dst <=? a) && (a <? dst + n)) eqn:Ea; [|done]. zbool. exfalso.
      apply (Hnt (a - dst) ltac:(lia) p Hp). by replace (dst + (a - dst)) with a by lia.
    + replace (L - n + 1) with (L + 1 - n) by lia. apply user_range_tail; [done|lia].
    + lia.
    + lia.
    + rewrite Emod. rewrite Nat2Z.inj_succ in Hfuel. unfold PGSIZE in *. lia.
    + intros k Hk. rewrite k_mem_set_mem. replace (va + n + k) with (va + (n + k)) by lia.
      rewrite Hsrc by lia. apply Hnz. lia.
    + rewrite k_mem_set_mem. replace (va + n + (L - n)) with (va + L) by lia. by rewrite Hsrc by lia.
    + intros k Hk. replace (dst + n + k) with (dst + (n + k)) by lia. apply Hnt. lia.
    + intros k Hk j Hj. replace (dst + n + j) with (dst + (n + j)) by lia.
      replace (va + n + k) with (va + (n + k)) by lia. apply Hap; lia.
    + exists m2. split; [by rewrite E2|]. intros a. rewrite Hm2, k_mem_set_mem.
      destruct (Z.leb_spec (dst + n) a), (Z.leb_spec a (dst + n + (L - n))); cbn [andb].
      * replace (va + n + (a - (dst + n))) with (va + (a - dst)) by lia. rewrite Hsrc by lia.
        by rewrite (proj2 (Z.leb_le dst a)), (proj2 (Z.leb_le a (dst + L))) by lia.
      * rewrite Hm1. rewrite (proj2 (Z.ltb_ge a (dst + n))), (proj2 (Z.leb_gt a (dst + L))) by lia.
        by rewrite !andb_false_r.
      * rewrite Hm1. destruct (Z.leb_spec dst a); cbn [andb]; [|done].
        by rewrite (proj2 (Z.ltb_lt _ _)), (proj2 (Z.leb_le _ _)) by lia.
      * lia.
Qed.

End VmCopy.

(** ** vmfault: pages on demand *)

Section Fault.
Context {kalloc : KM Z} {kfree : Z -> KM unit} {PA : PageAllocator kalloc kfree}.

(** The process running on the hart, and its table. *)
Definition running (i : nat) (pcb : PCB) (s : kernel) : Prop :=
  c_proc (h_cpu (k_hart s)) = Some i /\ k_procs s !! i = Some pcb.

Definition fault_perm : Z := Z.lor (Z.lor PTE_W PTE_U) PTE_R.

Lemma fault_perm_range : 0 <= fault_perm < 1024.
Proof. by vm_compute. Qed.

Lemma vm_ok_settle base F root T s : vm_ok base F root T s -> vm_ok base F root T (settle s).
Proof.
  intros [H1 H2 H3]. split; try done. eapply pa_frame; try done. cbn. apply hart_settle_ok.
  by eapply pa_hart.
Qed.

Lemma settle_running i pcb s : running i pcb s -> running i pcb (settle s).
Proof. intros [H1 H2]. split; [|done]. unfold settle, hart_settle. cbn. by destruct (_ =? 0). Qed.

Lemma proc_get_running {A} i pcb s (f : PCB -> A) :
  running i pcb s -> proc_get (Some i) f s = Ok (f pcb) s.
Proof. intros [_ H]. unfold proc_get, bind, get. by rewrite H. Qed.

Lemma mem_step_running i pcb s s' :
  mem_step s s' -> running i pcb (settle s) -> running i pcb (settle s').
Proof.
  intros Hm [H1 H2]. rewrite Hm. split; done.
Qed.

Lemma running_settle_inv i pcb s : running i pcb (settle s) -> running i pcb s.
Proof.
  intros [H1 H2]. split; [|done]. unfold settle, hart_settle in H1. cbn in H1. by destruct (_ =? 0).
Qed.

Lemma running_step i pcb s s' : mem_step s s' -> running i pcb s -> running i pcb s'.
Proof.
  intros Hm Hr. apply running_settle_inv. eapply mem_step_running; [done|]. by apply settle_running.
Qed.

Lemma ismapped_ok base F root T s va :
  vm_ok base F root T s -> 0 <= va < MAXVA ->
  ismapped kalloc root va s = Ok (match leaves T !! path va with Some _ => 1 | None => 0 end) s.
Proof.
  intros Hok Hva. pose proof (vm_kern _ _ _ _ _ Hok) as Hb. pose proof (vm_wf _ _ _ _ _ Hok) as Hw.
  unfold ismapped. mstep (walk_ro (kalloc:=kalloc) base root T s va Hw Hb Hva).
  destruct (pte_addr T va) as [a|] eqn:Ea; cbn [from_option id].
  - rewrite (pte_addr_nonzero _ _ _ _ _ _ Hw Hb Ea). unfold bind, ld64, get.
    rewrite (pte_addr_entry _ _ _ _ _ _ Hw Ea). destruct (leaves T !! path va) as [e|] eqn:El; cbn [from_option id].
    + destruct (pt_leaf _ _ _ _ Hw _ _ El) as (_ & _ & _ & _ & _ & _ & _ & HV). by rewrite HV.
    + by rewrite has_0.
  - by rewrite (pte_addr_none _ _ _ _ _ Hw Ea).
Qed.

Lemma vmfault_skip base F root T s va rd i pcb :
  vm_ok base F root T s -> running i pcb s -> 0 <= va -> p_sz pcb <= MAXVA ->
  p_sz pcb <= va \/ is_Some (leaves T !! path va) ->
  vmfault kalloc kfree root va rd s = Ok 0 (settle s).
Proof.
  intros Hok Hrun Hva Hsz Hc. pose proof (vm_ok_settle _ _ _ _ _ Hok) as Hok'.
  unfold vmfault. mstep (myproc_ok s (pa_hart _ _ _ (vm_alloc _ _ _ _ _ Hok))).
  rewrite (proj1 Hrun). mstep (proc_get_running i pcb (settle s) p_sz (settle_running _ _ _ Hrun)).
  destruct (Z.leb_spec (p_sz pcb) va) as [|Hlt]; [done|].
  destruct Hc as [|[e He]]; [lia|].
  assert (0 <= PGROUNDDOWN va < MAXVA) as Hr0.
  { rewrite PGROUNDDOWN_spec. change MAXVA with 274877906944 in *. unfold PGSIZE. zdm. }
  mstep (ismapped_ok base F root T _ _ Hok' Hr0). by rewrite path_down, He.
Qed.

Lemma vmfault_alloc base F root T s va rd i pcb :
  vm_ok base F root T s -> running i pcb s -> p_pagetable pcb = root ->
  0 <= va < p_sz pcb -> p_sz pcb <= MAXVA -> leaves T !! path va = None ->
  (1 + size (prefixes (PGROUNDDOWN va) ∖ dom (nodes T)) <= size F)%nat ->
  exists q F' T' s', vmfault kalloc kfree root va rd s = Ok q s' /\ (q =? 0) = false /\
    extends base root zeros [{| mp_va := PGROUNDDOWN va; mp_page := q; mp_perm := fault_perm |}]
      F T (settle s) F' T' s'.
Proof.
  intros Hok Hrun Hroot Hva Hsz Hun Hfree. pose proof (vm_ok_settle _ _ _ _ _ Hok) as Hok'.
  pose proof (settle_running _ _ _ Hrun) as Hrun'.
  unfold vmfault. mstep (myproc_ok s (pa_hart _ _ _ (vm_alloc _ _ _ _ _ Hok))).
  rewrite (proj1 Hrun). mstep (proc_get_running i pcb (settle s) p_sz Hrun').
  rewrite (proj2 (Z.leb_gt _ _)) by lia.
  assert (page_below MAXVA (PGROUNDDOWN va)) as [Hr1 Hr0].
  { unfold page_below. rewrite PGROUNDDOWN_spec. change MAXVA with 274877906944 in *. unfold PGSIZE. zdm. }
  mstep (ismapped_ok base F root T _ _ Hok' Hr0). rewrite path_down, Hun. cbn [truthy Z.eqb negb].
  destruct (alloc_page base F root T (settle s) Hok') as (q & s1 & E1 & Hq & Hqp & Hq0 & Hok1 & St1).
  { intros ->. rewrite size_empty in Hfree. lia. }
  mstep E1. rewrite Hq0.
  assert (exists m1, kmemset q 0 PGSIZE s1 = Ok tt (set_mem m1 s1) /\
    (forall a, ~ in_page q a -> rd8 m1 a = rd8 (k_mem s1) a) /\
    (forall off, 0 <= off < PGSIZE -> rd8 m1 (q + off) = 0)) as (m1 & Em & Hm1 & Hm2).
  { eexists. split; [reflexivity|]. split.
    - intros a Ha. rewrite rd8_memset by done. unfold in_page in Ha. zcases.
    - intros off Ho. rewrite rd8_memset by done. by zif. }
  mstep Em.
  pose proof (running_step i pcb _ _ (proj1 St1) Hrun') as Hrun1.
  assert (running i pcb (set_mem m1 s1)) as Hrun2 by done.
  mstep (proc_get_running i pcb _ p_pagetable Hrun2). rewrite Hroot.
  destruct (extend_one base root zeros F T (settle s) q s1 m1 (PGROUNDDOWN va) fault_perm)
    as (F1 & T1 & s2 & E2 & X1);
    [exact Hok'|exact Hq|exact Hqp|exact Hok1|exact St1|exact Hm1|exact Hm2|by split|exact fault_perm_range|by rewrite path_down|exact Hfree|].
  exists q, F1, T1, s2. mstep E2. split; [reflexivity|split; [exact Hq0|exact X1]].
Qed.

(** Vmfault gives the running process a zeroed, writable user page at a fault
    below its size where nothing is mapped, and returns the page; beyond the size
    or on a page already mapped it returns 0 and changes nothing. *)
Theorem vmfault_correct base F root T s va rd i pcb :
  vm_ok base F root T s -> running i pcb s -> p_pagetable pcb = root -> 0 <= va ->
  p_sz pcb <= MAXVA -> (1 + size (prefixes (PGROUNDDOWN va) ∖ dom (nodes T)) <= size F)%nat ->
  if (p_sz pcb <=? va) || bool_decide (is_Some (leaves T !! path va))
  then vmfault kalloc kfree root va rd s = Ok 0 (settle s)
  else exists q F' T' s', vmfault kalloc kfree root va rd s = Ok q s' /\ q ∈ F /\
    vm_ok base F' root T' s' /\ (q ∉ foot F' T') /\ vm_step base (foot F T) (settle s) s' /\
    (forall off, 0 <= off < PGSIZE -> rd8 (k_mem s') (q + off) = 0) /\
    (forall a user acc, PGROUNDDOWN va <= a < PGROUNDDOWN va + PGSIZE ->
       sv39_translate (k_mem s') root a user acc =
         if grants fault_perm user acc then Some (q + (a - PGROUNDDOWN va)) else None).
Proof.
  intros Hok Hrun Hroot Hva Hsz Hfree. pose proof (vm_kern _ _ _ _ _ Hok) as Hb.
  destruct (Z.leb_spec (p_sz pcb) va) as [Hge|Hlt]; cbn [orb].
  { by apply (vmfault_skip base F root T s va rd i pcb); auto. }
  case_bool_decide as Hm.
  { by apply (vmfault_skip base F root T s va rd i pcb); auto. }
  destruct (vmfault_alloc base F root T s va rd i pcb) as (q & F' & T' & s' & E & Hq0 & X); try done.
  { by apply eq_None_not_Some. }
  pose proof X as [Y1 Y2 Y3 Y4 Y5 Y6 Y7 Yp Y8 Y9 Y10 Y11].
  assert (q ∈ pages_of [{| mp_va := PGROUNDDOWN va; mp_page := q; mp_perm := fault_perm |}]) as Hqp.
  { apply elem_of_pages_of. eexists. split; [by apply list_elem_of_singleton|done]. }
  assert (page_below MAXVA (PGROUNDDOWN va)) as Hpb.
  { unfold page_below. rewrite PGROUNDDOWN_spec. change MAXVA with 274877906944 in *. unfold PGSIZE. zdm. }
  pose proof (vm_wf _ _ _ _ _ (vm_ok_settle _ _ _ _ _ Hok)) as Hws.
  destruct (extends_translate base root zeros _ F T (settle s) F' T' s' Hb Hws X) as [X1 _].
  { apply NoDup_singleton. } { by constructor. }
  exists q, F', T', s'. split; [done|]. split; [by apply Y7|]. split; [done|]. split; [intros Hc; by apply (Y8 q)|].
  split; [done|]. split.
  - intros off Ho. by apply (Y10 {| mp_va := PGROUNDDOWN va; mp_page := q; mp_perm := fault_perm |}); [apply list_elem_of_singleton|].
  - intros a user acc Ha. by apply (X1 {| mp_va := PGROUNDDOWN va; mp_page := q; mp_perm := fault_perm |}); [apply list_elem_of_singleton|].
Qed.

(** ** Claims *)

(** Copyin of a resident user range returns 0 and copies exactly its bytes,
    in order, across page boundaries, to the kernel buffer; no other byte and no
    other variable changes. *)
Theorem copyin_correct base F root T s dst va len :
  vm_ok base F root T s -> user_range T va len -> 0 <= len < 2 ^ 32 ->
  (forall k, 0 <= k < len -> no_table T (dst + k)) ->
  (forall j k, 0 <= j < len -> 0 <= k < len -> dst + j <> user_pa T (va + k)) ->
  exists m', copyin kalloc kfree root dst va len s = Ok 0 (set_mem m' s) /\
    forall a, rd8 m' a = if (dst <=? a) && (a <? dst + len) then rd8 (k_mem s) (user_pa T (va + (a - dst)))
                         else rd8 (k_mem s) a.
Proof. intros Hok. apply (copyin_ok base); [by eapply vm_kern|apply Hok]. Qed.

(** C34: what copyout writes to resident, writable user memory, copyin reads back:
    both return 0 and the destination buffer holds the bytes of the source
    buffer; copyout touches only the bytes of the user range. *)
Theorem copyout_copyin base F root T s src dst va len :
  vm_ok base F root T s -> user_range T va len -> writable T va len -> user_own base T va len ->
  0 <= len < 2 ^ 32 -> (forall k, 0 <= k < len -> no_table T (dst + k)) ->
  (forall j k, 0 <= j < len -> 0 <= k < len -> src + j <> user_pa T (va + k)) ->
  (forall j k, 0 <= j < len -> 0 <= k < len -> dst + j <> user_pa T (va + k)) ->
  exists m1 m2, copyout kalloc kfree root va src len s = Ok 0 (set_mem m1 s) /\
    (forall a, (forall k, 0 <= k < len -> a <> user_pa T (va + k)) -> rd8 m1 a = rd8 (k_mem s) a) /\
    copyin kalloc kfree root dst va len (set_mem m1 s) = Ok 0 (set_mem m2 s) /\
    forall k, 0 <= k < len -> rd8 m2 (dst + k) = rd8 (k_mem s) (src + k).
Proof.
  intros Hok Hu Hwr Hown Hlen Hnt Hs Hd. pose proof (vm_kern _ _ _ _ _ Hok) as Hb.
  destruct (copyout_ok (kalloc:=kalloc) (kfree:=kfree) base root T s va src len) as (m1 & E1 & Hin & Hout);
    try done; [apply Hok|].
  destruct (copyin_ok (kalloc:=kalloc) (kfree:=kfree) base root T (set_mem m1 s) dst va len) as (m2 & E2 & H2); try done.
  { apply (pt_wf_mem _ _ _ (k_mem s)); [apply Hok|]. intros p a Hp Ha. apply Hout. intros k Hk ->.
    by apply (proj1 Hown k Hk p Hp). }
  exists m1, m2. split; [done|]. split; [done|]. split; [exact E2|]. intros k Hk. rewrite H2, k_mem_set_mem.
  rewrite (proj2 (Z.leb_le _ _)), (proj2 (Z.ltb_lt _ _)) by lia. cbn [andb].
  replace (dst + k - dst) with k by lia. by apply Hin.
Qed.

(** Copyinstr of a user string that ends within [max] bytes returns 0 and
    copies the string with its null byte, and not a byte more. *)
Theorem copyinstr_correct base F root T s dst va bs max :
  vm_ok base F root T s -> user_cstr (k_mem s) T va bs -> user_range T va (Z.of_nat (length bs) + 1) ->
  Z.of_nat (length bs) < max -> max < 2 ^ 32 ->
  (forall k, 0 <= k < max -> no_table T (dst + k)) ->
  (forall k, 0 <= k <= Z.of_nat (length bs) -> page_apart T (va + k) dst max) ->
  exists m', copyinstr kalloc root dst va max s = Ok 0 (set_mem m' s) /\ cstr m' dst bs /\
    forall a, a < dst \/ dst + Z.of_nat (length bs) < a -> rd8 m' a = rd8 (k_mem s) a.
Proof.
  intros Hok [Hc Hz] Hu HL Hmax Hnt Hap. pose proof (vm_kern _ _ _ _ _ Hok) as Hb.
  destruct (copyinstr_loop_ok (kalloc:=kalloc) (kfree:=kfree) base root T (copy_fuel max) s dst va (Z.of_nat (length bs)) max)
    as (m' & E & Hm'); try done; try lia.
  - apply Hok.
  - pose proof (copy_fuel_enough va max ltac:(by destruct Hu) ltac:(lia)).
    unfold PGSIZE in *. lia.
  - intros k Hk. destruct (lookup_lt_is_Some_2 bs (Z.to_nat k)) as [b Hb']; [lia|].
    destruct (Hc _ _ Hb') as [H1 H2]. rewrite Z2Nat.id in H1 by lia. congruence.
  - exists m'. split; [done|]. split.
    + apply cstr_intro.
      * intros k b Hk. destruct (Hc _ _ Hk) as [H1 H2]. apply lookup_lt_Some in Hk.
        rewrite Hm', (proj2 (Z.leb_le _ _)), (proj2 (Z.leb_le _ _)) by lia. cbn [andb].
        split; [|done]. rewrite <- H1. do 2 f_equal. lia.
      * rewrite Hm', (proj2 (Z.leb_le _ _)), (proj2 (Z.leb_le _ _)) by lia. cbn [andb].
        rewrite <- Hz. do 2 f_equal. lia.
    + intros a Ha. rewrite Hm'. destruct (Z.leb_spec dst a), (Z.leb_spec a (dst + Z.of_nat (length bs)));
        cbn [andb]; done || lia.
Qed.

(** The byte [a] belongs neither to the allocator nor to a page of [P]. *)
Definition apart (base : Z) (P : gset Z) (a : Z) : Prop :=
  ~ in_page base a /\ forall p, p ∈ P -> ~ in_page p a.

(** Copyout to a page of the process that is not resident yet drops the
    data. It returns 0, and the page vmfault has mapped stays zero; the bytes go
    to physical addresses below the page size instead, because the result of
    vmfault is not stored in [pa0]. *)
Theorem copyout_not_resident base F root T s va src len i pcb :
  vm_ok base F root T s -> running i pcb s -> p_pagetable pcb = root ->
  0 <= va -> 0 < len -> va mod PGSIZE + len <= PGSIZE -> PGROUNDDOWN va < p_sz pcb ->
  p_sz pcb <= MAXVA -> leaves T !! path va = None ->
  (1 + size (prefixes (PGROUNDDOWN va) ∖ dom (nodes T)) <= size F)%nat ->
  (forall k, 0 <= k < len -> apart base (foot F T) (src + k)) ->
  exists q F' T' s', copyout kalloc kfree root va src len s = Ok 0 s' /\
    leaves T' !! path va = Some (mk_pte q fault_perm) /\ vm_ok base F' root T' s' /\
    (forall off, 0 <= off < PGSIZE -> rd8 (k_mem s') (q + off) = 0) /\
    (forall k, 0 <= k < len -> rd8 (k_mem s') (va mod PGSIZE + k) = rd8 (k_mem s) (src + k)).
Proof.
  intros Hok Hrun Hroot Hva Hlen Hone Hsz Hmax Hun Hfree Hsrc.
  pose proof (vm_kern _ _ _ _ _ Hok) as Hb.
  pose proof (Z.mod_pos_bound va PGSIZE ltac:(done)) as Hmod.
  assert (page_below MAXVA (PGROUNDDOWN va)) as [Hr1 Hr0].
  { unfold page_below. rewrite PGROUNDDOWN_spec in *. change MAXVA with 274877906944 in *. unfold PGSIZE in *. zdm. }
  assert (PGROUNDDOWN (PGROUNDDOWN va) = PGROUNDDOWN va) as Hidem.
  { rewrite (PGROUNDDOWN_spec (PGROUNDDOWN va)), Hr1. lia. }
  unfold copyout, copy_fuel. cbn [copyout_loop]. rewrite (proj2 (Z.ltb_lt 0 len)), (proj2 (Z.leb_gt MAXVA _)) by lia.
  mstep (uVA2PA_ok base F root T s _ Hok Hr0). rewrite path_down, Hun. cbn [Z.eqb].
  destruct (vmfault_alloc base F root T s (PGROUNDDOWN va) 0 i pcb) as (q & F1 & T1 & s1 & E1 & Hq0 & X);
    [done..|lia|done|by rewrite path_down|by rewrite Hidem|].
  rewrite Hidem in X. pose proof X as [Y1 Y2 Y3 Y4 Y5 Y6 Y7 Yp Y8 Y9 Y10 Y11].
  assert (leaves T1 !! path va = Some (mk_pte q fault_perm)) as Hleaf.
  { rewrite Y2. unfold map_all, map_one. cbn [foldl mp_va mp_page mp_perm]. rewrite path_down. apply lookup_insert_eq. }
  assert (pool_page base q) as Hqp.
  { apply Yp. apply elem_of_pages_of. eexists. split; [by apply list_elem_of_singleton|done]. }
  mstep E1. rewrite Hq0. mstep (walk_ro (kalloc:=kalloc) base root T1 s1 _ (vm_wf _ _ _ _ _ Y1) Hb Hr0).
  destruct (pte_addr T1 (PGROUNDDOWN va)) as [pte|] eqn:Ea; cbn [from_option id].
  2: { pose proof (pte_addr_none _ _ _ _ _ (vm_wf _ _ _ _ _ Y1) Ea) as Hn. rewrite path_down in Hn. congruence. }
  rewrite (pte_addr_nonzero _ _ _ _ _ _ (vm_wf _ _ _ _ _ Y1) Hb Ea). unfold bind at 1, ld64, get.
  rewrite (pte_addr_entry _ _ _ _ _ _ (vm_wf _ _ _ _ _ Y1) Ea), path_down, Hleaf. cbn [from_option id].
  change PTE_W with (2 ^ 2). rewrite has_mk_pte by (lia || by eapply pool_page_addr).
  change (Z.testbit fault_perm 2) with true. cbn [negb].
  rewrite chunk_spec by done. replace (Z.min len (PGSIZE - va mod PGSIZE)) with len by lia.
  replace (0 + (va - PGROUNDDOWN va)) with (va mod PGSIZE) by (rewrite PGROUNDDOWN_spec; lia).
  unfold bind, kmemmove, modify. rewrite Z.sub_diag. cbn [Z.ltb Z.compare].
  set (m' := memmove (k_mem s1) (va mod PGSIZE) src len).
  assert (forall a, PGSIZE <= a -> rd8 m' a = rd8 (k_mem s1) a) as Hhigh.
  { intros a Ha. unfold m'. rewrite rd8_memmove by (unfold PGSIZE in *; lia).
    by rewrite (proj2 (Z.ltb_ge _ _)), andb_false_r by lia. }
  assert (forall p a, pool_page base p \/ p = base -> in_page p a -> PGSIZE <= a) as Hpg.
  { intros p a Hp Ha. unfold pool_page, in_page, KERNBASE, PGSIZE in *. lia. }
  exists q, F1, T1, (set_mem m' s1). split; [reflexivity|]. split; [done|]. split; [split|split].
  - apply pa_write; [apply Y1|]. intros a [Ha|(p & Hp & Ha)]; apply Hhigh.
    + by apply (Hpg base a); [right|].
    + apply (Hpg p a); [left|done]. by eapply pa_pool; [apply Y1|].
  - apply (pt_wf_mem _ _ _ (k_mem s1)); [apply Y1|]. intros p a Hp Ha. apply Hhigh.
    apply (Hpg p a); [left|done]. by eapply vm_table_pool.
  - apply Y1.
  - intros off Ho. rewrite k_mem_set_mem, Hhigh.
    + by apply (Y10 {| mp_va := PGROUNDDOWN va; mp_page := q; mp_perm := fault_perm |}); [apply list_elem_of_singleton|].
    + apply (Hpg q); [by left|]. unfold in_page. lia.
  - intros k Hk. rewrite k_mem_set_mem. unfold m'. rewrite rd8_memmove by (unfold PGSIZE in *; lia).
    rewrite (proj2 (Z.leb_le _ _)), (proj2 (Z.ltb_lt _ _)) by lia. cbn [andb].
    replace (src + (va mod PGSIZE + k - va mod PGSIZE)) with (src + k) by lia.
    destruct (Hsrc k Hk) as [H1 H2]. by apply (proj2 Y11).
Qed.

End Fault.
