(* ===== verification/VmWitness.v ===== *)
(** * The virtual-memory theorems on a concrete machine

    The machine of [Kalloc.demo_layout] after kinit, with one address space. *)

From S2P Require Import Prelude Mem CString State Spinlock Printf Locks PageAlloc Kalloc Vm PageTable VmMap VmFree AddressSpace Sv39 VmProps VmCopy.

#[local] Existing Instance demo_layout.

(** An empty table. *)
Lemma demo_space :
  exists F root s, vm_ok demo_base F root (empty_pt root) s /\ (60 <= size F)%nat /\ k_panicked s = 0.
Proof.
  destruct demo_plenty as (F & s & Hr & Hp & Hsz).
  destruct (uVmCreate_ok (PA := kalloc_allocator) demo_base F s Hr) as (root & s' & E & HrF & Hok & St).
  { intros ->. rewrite size_empty in Hsz. lia. }
  exists (F ∖ {[root]}), root, s'. split; [exact Hok|]. split.
  - rewrite size_difference, size_singleton by set_solver. lia.
  - by rewrite (mem_step_panicked s s' (proj1 St)).
Qed.

(** The read-write user page at address 0. *)
Definition rw_perm : Z := Z.lor (Z.lor PTE_U PTE_R) PTE_W.

Record demo_user_space (F : gset Z) (root p : Z) (T : pt) (s : kernel) : Prop := {
  du_ok : vm_ok demo_base F root T s;
  du_leaves : leaves T = {[path 0 := mk_pte p rw_perm]};
  du_page : pool_page demo_base p;
  du_out : p ∉ foot F T;
  du_size : (50 <= size F)%nat;
  du_zero : forall off, 0 <= off < PGSIZE -> rd8 (k_mem s) (p + off) = 0
}.

Lemma demo_user : exists F root p T s, demo_user_space F root p T s.
Proof.
  destruct demo_space as (F & root & s & Hok & Hsz & _).
  destruct (uVmAlloc_loop_ok 1 demo_base root F (empty_pt root) s 0 0 PGSIZE PTE_W)
    as (ms & F' & T' & s' & _ & V & P & X); [exact Hok|by vm_compute..|intros i Hi; apply lookup_empty| |].
  { cbn [empty_pt nodes]. rewrite dom_singleton_L.
    replace (size (range_tables 1 0 ∖ {[ [] ]})) with 2%nat by (by vm_compute). lia. }
  destruct ms as [|x [|y ms]]; [done| |done]. cbn in V. injection V as V.
  apply Forall_cons in P as [P _]. pose proof X as [Y1 Y2 Y3 Y4 Y5 Y6 Y7 Yp Y8 Y9 Y10 Y11].
  assert (mp_page x ∈ pages_of [x]) as Hx by (apply elem_of_pages_of; exists x; split; [by apply list_elem_of_singleton|done]).
  exists F', root, (mp_page x), T', s'. split.
  - exact Y1.
  - rewrite Y2. unfold map_all, map_one. cbn [foldl empty_pt leaves]. by rewrite V, P.
  - by apply Yp.
  - intros Hc. by apply (Y8 (mp_page x)).
  - cbn [empty_pt nodes fmap list_fmap length] in Y6. rewrite V, dom_singleton_L in Y6.
    replace (size (all_prefixes [0] ∖ {[ [] ]})) with 2%nat in Y6 by (by vm_compute). lia.
  - intros off Ho. by apply (Y10 x); [apply list_elem_of_singleton|].
Qed.

Lemma demo_pte : forall p, pool_page demo_base p -> PTE2PA (mk_pte p rw_perm) = p /\ page_addr p.
Proof.
  intros p Hp. assert (page_addr p) as Ha by (apply (pool_page_addr demo_base); [by vm_compute|done]).
  split; [|done]. apply PTE2PA_mk_pte; [done|by vm_compute].
Qed.

Lemma demo_path k : 0 <= k < PGSIZE -> path k = path 0.
Proof. intros Hk. apply path_same_page. unfold PGSIZE in *. zdm. Qed.

Section OnDemoUser.
Context (F : gset Z) (root p : Z) (T : pt) (s : kernel) (D : demo_user_space F root p T s).

Lemma demo_user_pa k : 0 <= k < PGSIZE -> user_pa T k = p + k.
Proof.
  intros Hk. unfold user_pa. rewrite (du_leaves _ _ _ _ _ D), demo_path, lookup_singleton_eq by done.
  cbn [from_option id]. destruct (demo_pte p (du_page _ _ _ _ _ D)) as [-> _].
  by rewrite Z.mod_small.
Qed.

Lemma demo_user_range n : 0 <= n <= PGSIZE -> user_range T 0 n.
Proof.
  intros Hn. split; [done|split; [unfold PGSIZE in *; change MAXVA with 274877906944; lia|]].
  intros k Hk. rewrite Z.add_0_l, demo_path by lia. exists (mk_pte p rw_perm).
  destruct (demo_pte p (du_page _ _ _ _ _ D)) as [E [H1 H2]]. rewrite E, (du_leaves _ _ _ _ _ D), lookup_singleton_eq.
  split; [done|]. split; [|done]. change PTE_U with (2 ^ 4). rewrite has_mk_pte; [done|by split|lia].
Qed.

Lemma demo_writable n : 0 <= n <= PGSIZE -> writable T 0 n.
Proof.
  intros Hn k e Hk. rewrite Z.add_0_l, demo_path, (du_leaves _ _ _ _ _ D), lookup_singleton_eq by lia.
  intros [= <-]. destruct (demo_pte p (du_page _ _ _ _ _ D)) as [_ Ha].
  change PTE_W with (2 ^ 2). by rewrite has_mk_pte by (done || lia).
Qed.

Lemma demo_no_table a : ~ in_page p a -> a < KERNBASE \/ in_page p a -> no_table T a.
Proof.
  intros Hn [Ha|Ha] q Hq; [|done].
  destruct (vm_table_pool _ _ _ _ _ _ (du_ok _ _ _ _ _ D) Hq) as [(_ & H & _) _].
  unfold in_page, demo_base, PHYSTOP, KERNBASE, PGSIZE in *. lia.
Qed.

Lemma demo_low a : a < KERNBASE -> no_table T a.
Proof.
  intros Ha q Hq. destruct (vm_table_pool _ _ _ _ _ _ (du_ok _ _ _ _ _ D) Hq) as [(_ & H & _) _].
  unfold in_page, demo_base, PHYSTOP, KERNBASE, PGSIZE in *. lia.
Qed.

Lemma demo_user_high k : 0 <= k < PGSIZE -> KERNBASE <= user_pa T k.
Proof.
  intros Hk. rewrite demo_user_pa by done. destruct (du_page _ _ _ _ _ D) as (_ & H & _).
  unfold demo_base, PHYSTOP, KERNBASE, PGSIZE in *. lia.
Qed.

Lemma demo_user_own n : 0 <= n <= PGSIZE -> user_own demo_base T 0 n.
Proof.
  intros Hn. split.
  - intros k Hk q Hq. rewrite Z.add_0_l, demo_user_pa by lia.
    destruct (vm_table_pool _ _ _ _ _ _ (du_ok _ _ _ _ _ D) Hq) as [Hqp _].
    apply (pool_not_in demo_base p q); [apply (du_page _ _ _ _ _ D)|done| |unfold in_page; lia].
    intros ->. apply (du_out _ _ _ _ _ D). unfold foot. apply elem_of_union. by right.
  - intros j k Hj Hk Hne. rewrite !Z.add_0_l, !demo_user_pa by lia. lia.
Qed.

Lemma demo_range_owned : range_owned demo_base F T 1 0.
Proof.
  split; [|intros; lia]. intros i e Hi. assert (i = 0) as -> by lia.
  rewrite (du_leaves _ _ _ _ _ D). change (path (0 + 0 * PGSIZE)) with (path 0). rewrite lookup_singleton_eq.
  intros [= <-]. destruct (demo_pte p (du_page _ _ _ _ _ D)) as [-> _].
  pose proof (du_out _ _ _ _ _ D) as Ho. unfold foot in Ho. apply not_elem_of_union in Ho as [H1 H2].
  split; [apply (du_page _ _ _ _ _ D)|done].
Qed.

Lemma demo_user_leaves lim : 0 < lim -> user_leaves lim T.
Proof.
  intros Hl π e. rewrite (du_leaves _ _ _ _ _ D). intros [<- _]%lookup_singleton_Some.
  exists 0. split; [done|split; [by vm_compute|left; lia]].
Qed.

End OnDemoUser.

(** ** Witnesses *)

Lemma mapPages_correct_witness :
  exists root s s', mapPages kalloc root 0x40000000 PGSIZE KERNBASE (Z.lor PTE_R PTE_X) s = Ok 0 s' /\
    sv39_translate (k_mem s') root 0x40000123 false Fetch = Some (KERNBASE + 0x123).
Proof.
  destruct demo_space as (F & root & s & Hok & Hsz & _).
  destruct (mapPages_correct 1 demo_base F root (empty_pt root) s 0x40000000 KERNBASE (Z.lor PTE_R PTE_X))
    as (F' & T' & s' & E & _ & _ & _ & H & _).
  - done.
  - exact Hok.
  - by vm_compute.
  - by vm_compute.
  - by vm_compute.
  - intros i Hi. apply lookup_empty.
  - cbn [empty_pt nodes]. rewrite dom_singleton_L.
    replace (size (range_tables 1 0x40000000 ∖ {[ [] ]})) with 2%nat by (by vm_compute). lia.
  - exists root, s, s'. split; [exact E|]. rewrite H by (unfold PGSIZE; lia). reflexivity.
Defined.

Lemma mapPages_rejects_witness :
  exists root p s s', mapPages kalloc root 0 PGSIZE p PTE_R s = Stop (Panic "mappages: 重复分配页") s'.
Proof.
  destruct demo_space as (F & root & s & Hok & Hsz & Hp).
  destruct (mapPages_ok 1 demo_base F root (empty_pt root) s 0 KERNBASE PTE_R) as (F' & T' & s1 & E & G);
    [done|exact Hok|by vm_compute..|intros i Hi; apply lookup_empty| |].
  { cbn [empty_pt nodes]. rewrite dom_singleton_L.
    replace (size (range_tables 1 0 ∖ {[ [] ]})) with 2%nat by (by vm_compute). lia. }
  destruct (mapPages_rejects demo_base F' root T' s1 0 PGSIZE KERNBASE PTE_R) as (_ & _ & _ & H).
  - apply (gr_ok _ _ _ _ _ _ _ _ _ _ G).
  - by rewrite (mem_step_panicked s s1 (proj1 (gr_step _ _ _ _ _ _ _ _ _ _ G))).
  - by vm_compute.
  - by vm_compute.
  - destruct H as (s' & H & _); [reflexivity|reflexivity|by vm_compute| |exists root, KERNBASE, s1, s'; exact H].
    rewrite (gr_leaves _ _ _ _ _ _ _ _ _ _ G). cbn [map_range]. rewrite lookup_insert_eq. by eexists.
Defined.

Lemma uVmUnmap_correct_witness :
  exists root s s', uVmUnmap kalloc kfree root 0 1 1 s = Ok tt s' /\
    sv39_translate (k_mem s') root 5 true Load = None.
Proof.
  destruct demo_user as (F & root & p & T & s & D).
  destruct (uVmUnmap_correct 1 demo_base F root T s 0 1) as (T' & s' & E & _ & _ & _ & H & _).
  - apply (du_ok _ _ _ _ _ D).
  - by vm_compute.
  - intros _. apply (demo_range_owned F root p T s D).
  - exists root, s, s'. split; [exact E|]. apply H. unfold PGSIZE. lia.
Defined.

Lemma uVA2PA_mmu_witness :
  exists root p s, uVA2PA kalloc root 7 s = Ok p s /\ pool_page demo_base p.
Proof.
  destruct demo_user as (F & root & p & T & s & D). pose proof (du_page _ _ _ _ _ D) as Hp.
  destruct (demo_pte p Hp) as [E Ha]. exists root, p, s. split; [|exact Hp].
  rewrite (uVA2PA_mmu demo_base F root T s 7).
  - cbn [Z.leb Z.compare]. f_equal.
    rewrite (sv39_tree demo_base root T) by (first [apply (vm_wf _ _ _ _ _ (du_ok _ _ _ _ _ D)) | by vm_compute]).
    rewrite (du_leaves _ _ _ _ _ D), demo_path, lookup_singleton_eq by (unfold PGSIZE; lia).
    rewrite leaf_translate_mk by (first [done | by vm_compute]). change (grants rw_perm true Load) with true.
    change (MAXVA <=? 7) with false. cbn iota. lia.
  - apply (du_ok _ _ _ _ _ D).
  - lia.
  - intros e. rewrite (du_leaves _ _ _ _ _ D), demo_path, lookup_singleton_eq by (unfold PGSIZE; lia).
    intros [= <-]. destruct Ha as [Ha1 Ha2]. split.
    + unfold mk_pte. rewrite PA2PTE_spec by (by split).
      apply (lor_bound _ _ 54); [lia| |by vm_compute]. apply (lor_bound _ _ 54); [lia| |by vm_compute].
      change (2 ^ 54) with 18014398509481984. change (2 ^ 56) with 72057594037927936 in *. zdm.
    + intros _. unfold bitR. rewrite mk_pte_bit by (first [by split | lia]). done.
Defined.

Lemma uVmAlloc_correct_witness :
  exists root s s', uVmAlloc kalloc kfree root 0 5000 PTE_W s = Ok 5000 s'.
Proof.
  destruct demo_space as (F & root & s & Hok & Hsz & _).
  destruct (uVmAlloc_correct 2 demo_base root F (empty_pt root) s 0 5000 PTE_W)
    as (ms & F' & T' & s' & E & _).
  - exact Hok.
  - lia.
  - by vm_compute.
  - by vm_compute.
  - by vm_compute.
  - by vm_compute.
  - intros i Hi. apply lookup_empty.
  - cbn [empty_pt nodes]. rewrite dom_singleton_L.
    replace (size (range_tables 2 (PGROUNDUP 0) ∖ {[ [] ]})) with 2%nat by (by vm_compute). lia.
  - exists root, s, s'. exact E.
Defined.

Lemma uFreeUserVM_no_leak_witness :
  exists root s s', uFreeUserVM kalloc kfree root 100 s = Ok tt s'.
Proof.
  destruct demo_user as (F & root & p & T & s & D).
  destruct (uFreeUserVM_no_leak 1 demo_base F root T s 100) as (s' & E & _).
  - apply (du_ok _ _ _ _ _ D).
  - lia.
  - by vm_compute.
  - by vm_compute.
  - lia.
  - apply (demo_user_leaves F root p T s D). by vm_compute.
  - apply (demo_range_owned F root p T s D).
  - exists root, s, s'. exact E.
Defined.

Lemma procPagetable_roundtrip_witness :
  exists s root s1 s2, procPagetable kalloc kfree KERNBASE s = Ok root s1 /\
    uFreeUserVM kalloc kfree root 0 s1 = Ok tt s2.
Proof.
  destruct demo_plenty as (F & s & Hr & _ & Hsz).
  destruct (procPagetable_roundtrip (PA := kalloc_allocator) demo_base F s KERNBASE)
    as (root & s1 & s2 & E1 & _ & E2 & _).
  - exact Hr.
  - lia.
  - by vm_compute.
  - exists s, root, s1, s2. split; [exact E1|exact E2].
Defined.

Lemma uvmcopy_correct_witness :
  exists old new s s', uvmcopy kalloc kfree old new PGSIZE s = Ok 0 s'.
Proof.
  destruct demo_user as (F & old & p & T & s & D). pose proof (du_ok _ _ _ _ _ D) as Hok.
  destruct (uVmCreate_ok demo_base F s (vm_alloc _ _ _ _ _ Hok)) as (new & s1 & E1 & HnF & Hok1 & St1).
  { intros ->. pose proof (du_size _ _ _ _ _ D) as Hs. rewrite size_empty in Hs. lia. }
  assert (foot (F ∖ {[new]}) (empty_pt new) = F) as Hf.
  { unfold foot. rewrite tables_empty. apply set_eq. intros x. destruct (decide (x = new)); set_solver. }
  assert (mapped_vas 1 0 (leaves T) = [0]) as Hmv.
  { cbn [mapped_vas]. by rewrite (du_leaves _ _ _ _ _ D), lookup_singleton_eq. }
  destruct (uvmcopy_correct 1 demo_base old T new (F ∖ {[new]}) (empty_pt new) s1 PGSIZE)
    as (ms & F' & T' & s' & E & _).
  - exact Hok1.
  - apply (pt_wf_mem _ _ _ (k_mem s)); [apply Hok|]. intros q a Hq Ha.
    destruct (vm_table_pool _ _ _ _ _ _ Hok Hq) as [Hqp HqF].
    apply (proj2 St1); [by apply (pool_not_base demo_base q)|]. intros x Hx.
    apply (pool_not_in demo_base q x); [done|by eapply pa_pool; [apply Hok|]|by intros ->|done].
  - rewrite Hf. intros x Hx Hx'. by apply (vm_own _ _ _ _ _ Hok x).
  - by vm_compute.
  - by vm_compute.
  - by vm_compute.
  - intros i e Hi He. destruct (proj1 (demo_range_owned F old p T s D) i e Hi He) as (H1 & H2 & H3).
    split; [done|]. by rewrite Hf.
  - intros i Hi. apply lookup_empty.
  - rewrite Hmv. cbn [empty_pt nodes]. rewrite dom_singleton_L.
    replace (size (all_prefixes [0] ∖ {[ [] ]})) with 2%nat by (by vm_compute).
    rewrite size_difference, size_singleton by set_solver. pose proof (du_size _ _ _ _ _ D). cbn. lia.
  - exists old, new, s1, s'. exact E.
Defined.

Lemma copyin_correct_witness :
  exists root s m', copyin kalloc kfree root 0x1000 10 16 s = Ok 0 (set_mem m' s) /\
    rd8 m' 0x1003 = 0.
Proof.
  destruct demo_user as (F & root & p & T & s & D).
  assert (user_range T 10 16) as Hu.
  { apply (user_range_tail T 0 26 10); [|lia]. apply (demo_user_range F root p T s D). unfold PGSIZE. lia. }
  destruct (copyin_correct demo_base F root T s 0x1000 10 16) as (m' & E & H).
  - apply (du_ok _ _ _ _ _ D).
  - exact Hu.
  - lia.
  - intros k Hk. apply (demo_low F root p T s D). unfold KERNBASE. lia.
  - intros j k Hj Hk Hc. pose proof (demo_user_high F root p T s D (10 + k) ltac:(unfold PGSIZE; lia)).
    unfold KERNBASE in *. lia.
  - exists root, s, m'. split; [exact E|]. rewrite H. cbn [Z.leb Z.ltb Z.compare andb].
    rewrite (demo_user_pa F root p T s D) by (unfold PGSIZE; lia).
    apply (du_zero _ _ _ _ _ D). unfold PGSIZE. lia.
Defined.

Lemma copyout_copyin_witness :
  exists root s m1 m2, copyout kalloc kfree root 0 0x1000 16 s = Ok 0 (set_mem m1 s) /\
    copyin kalloc kfree root 0x2000 0 16 (set_mem m1 s) = Ok 0 (set_mem m2 s).
Proof.
  destruct demo_user as (F & root & p & T & s & D).
  assert (forall x j k, x < 0x3000 -> 0 <= j < 16 -> 0 <= k < 16 -> x + j <> user_pa T (0 + k)) as Hd.
  { intros x j k Hx Hj Hk Hc. pose proof (demo_user_high F root p T s D (0 + k) ltac:(unfold PGSIZE; lia)).
    unfold KERNBASE in *. lia. }
  destruct (copyout_copyin demo_base F root T s 0x1000 0x2000 0 16) as (m1 & m2 & E1 & _ & E2 & _).
  - apply (du_ok _ _ _ _ _ D).
  - apply (demo_user_range F root p T s D). unfold PGSIZE. lia.
  - apply (demo_writable F root p T s D). unfold PGSIZE. lia.
  - apply (demo_user_own F root p T s D). unfold PGSIZE. lia.
  - lia.
  - intros k Hk. apply (demo_low F root p T s D). unfold KERNBASE. lia.
  - intros j k Hj Hk. by apply Hd.
  - intros j k Hj Hk. by apply Hd.
  - exists root, s, m1, m2. split; [exact E1|exact E2].
Defined.

Lemma copyinstr_correct_witness :
  exists root s m', copyinstr kalloc root 0x1000 0 16 s = Ok 0 (set_mem m' s) /\ cstr m' 0x1000 [].
Proof.
  destruct demo_user as (F & root & p & T & s & D).
  destruct (copyinstr_correct demo_base F root T s 0x1000 0 [] 16) as (m' & E & H & _).
  - apply (du_ok _ _ _ _ _ D).
  - split; [by intros k b|]. cbn [length Z.of_nat]. rewrite (demo_user_pa F root p T s D) by (unfold PGSIZE; lia).
    apply (du_zero _ _ _ _ _ D). unfold PGSIZE. lia.
  - apply (demo_user_range F root p T s D). unfold PGSIZE. cbn. lia.
  - cbn. lia.
  - lia.
  - intros k Hk. apply (demo_low F root p T s D). unfold KERNBASE. lia.
  - intros k Hk j Hj. cbn [length Z.of_nat] in Hk. assert (k = 0) as -> by lia.
    pose proof (demo_user_high F root p T s D 0 ltac:(unfold PGSIZE; lia)).
    change (0 + 0) with 0. change (0 mod PGSIZE) with 0. unfold in_page, KERNBASE in *. lia.
  - exists root, s, m'. split; [exact E|exact H].
Defined.

(** Process 0 of size two pages runs in the address space. *)
Definition demo_pcb (root : Z) : PCB :=
  {| p_state := RUNNING; p_pid := 1; p_pagetable := root;
     p_context := {| ctx_ra := 0; ctx_sp := 0; ctx_s := [] |};
     p_kstack := 0; p_trapframe := 0; p_name := []; p_killed := 0;
     p_parent := None; p_chan := None; p_xstate := 0; p_sz := 2 * PGSIZE;
     p_ofile := []; p_cwd := None |}.

Definition demo_run (root : Z) (s : kernel) : kernel :=
  set_procs [demo_pcb root]
    (set_cpu {| c_proc := Some 0%nat; c_noff := c_noff (h_cpu (k_hart s));
                c_intena := c_intena (h_cpu (k_hart s)) |} s).

Lemma demo_run_ok F root T s : vm_ok demo_base F root T s -> vm_ok demo_base F root T (demo_run root s).
Proof.
  intros [H1 H2 H3]. split; [|exact H2|exact H3]. apply (pa_frame demo_base F s); try done.
  pose proof (pa_hart _ _ _ H1) as Hh. exact Hh.
Qed.

Lemma demo_fault_free F root T s p :
  demo_user_space F root p T s -> (1 + size (prefixes (PGROUNDDOWN PGSIZE) ∖ dom (nodes T)) <= size F)%nat.
Proof.
  intros D. pose proof (du_size _ _ _ _ _ D).
  assert (size (prefixes (PGROUNDDOWN PGSIZE) ∖ dom (nodes T)) <= size (prefixes (PGROUNDDOWN PGSIZE)))%nat
    by (apply subseteq_size; set_solver).
  replace (size (prefixes (PGROUNDDOWN PGSIZE))) with 2%nat in * by (by vm_compute). lia.
Qed.

Lemma demo_unmapped F root T s p : demo_user_space F root p T s -> leaves T !! path PGSIZE = None.
Proof. intros D. rewrite (du_leaves _ _ _ _ _ D). apply lookup_singleton_ne. by vm_compute. Qed.

Lemma vmfault_correct_witness :
  exists root s q s', vmfault kalloc kfree root PGSIZE 0 (demo_run root s) = Ok q s' /\
    sv39_translate (k_mem s') root PGSIZE true Store = Some q.
Proof.
  destruct demo_user as (F & root & p & T & s & D).
  pose proof (vmfault_correct demo_base F root T (demo_run root s) PGSIZE 0 0%nat (demo_pcb root)) as H.
  rewrite (demo_unmapped _ _ _ _ _ D) in H. rewrite bool_decide_false in H by (by intros [? ?]).
  change ((p_sz (demo_pcb root) <=? PGSIZE) || false) with false in H.
  destruct H as (q & F' & T' & s' & E & _ & _ & _ & _ & _ & Ht).
  - apply demo_run_ok, (du_ok _ _ _ _ _ D).
  - done.
  - done.
  - by vm_compute.
  - by vm_compute.
  - apply (demo_fault_free F root T s p D).
  - exists root, s, q, s'. split; [exact E|].
    change (PGROUNDDOWN PGSIZE) with PGSIZE in Ht. rewrite Ht by (unfold PGSIZE; lia).
    change (grants fault_perm true Store) with true. cbn iota. by rewrite Z.sub_diag, Z.add_0_r.
Defined.

Lemma copyout_not_resident_witness :
  exists root s s', copyout kalloc kfree root PGSIZE 0x100 8 (demo_run root s) = Ok 0 s' /\
    forall k, 0 <= k < 8 -> rd8 (k_mem s') k = rd8 (k_mem s) (0x100 + k).
Proof.
  destruct demo_user as (F & root & p & T & s & D).
  destruct (copyout_not_resident demo_base F root T (demo_run root s) PGSIZE 0x100 8 0%nat (demo_pcb root))
    as (q & F' & T' & s' & E & _ & _ & _ & H).
  - apply demo_run_ok, (du_ok _ _ _ _ _ D).
  - done.
  - done.
  - by vm_compute.
  - lia.
  - by vm_compute.
  - by vm_compute.
  - by vm_compute.
  - apply (demo_unmapped F root T s p D).
  - apply (demo_fault_free F root T s p D).
  - intros k Hk. split.
    + unfold in_page, demo_base, PHYSTOP, KERNBASE, PGSIZE. lia.
    + intros x Hx. destruct (foot_pool _ _ _ _ _ _ (du_ok _ _ _ _ _ D) Hx) as (_ & Hlo & _).
      unfold in_page, demo_base, PHYSTOP, KERNBASE, PGSIZE in *. lia.
  - exists root, s, s'. split; [exact E|]. intros k Hk. specialize (H k Hk).
    change (PGSIZE mod PGSIZE) with 0 in H. rewrite Z.add_0_l in H. exact H.
Defined.
