(* ===== verification/Sleep.v ===== *)
(** * Sleeping and waking: sched, sleep and wakeup of kernel/proc/proc.c, and
    kernel/lib/sleeplock.c

    A process that sleeps stops with [Switch]: the scheduler takes over in the
    state reached. *)

From S2P Require Import Prelude Mem CString State Spinlock Printf Locks.

(** ** Processes in the table *)

Definition upd_proc (i : nat) (f : PCB -> PCB) (s : kernel) : kernel :=
  set_procs (alter f i (k_procs s)) s.

Definition with_state (st : procstate) (p : PCB) : PCB :=
  {| p_state := st; p_pid := p_pid p; p_pagetable := p_pagetable p; p_context := p_context p;
     p_kstack := p_kstack p; p_trapframe := p_trapframe p; p_name := p_name p;
     p_killed := p_killed p; p_parent := p_parent p; p_chan := p_chan p; p_xstate := p_xstate p;
     p_sz := p_sz p; p_ofile := p_ofile p; p_cwd := p_cwd p |}.
Definition with_chan (ch : option chan) (p : PCB) : PCB :=
  {| p_state := p_state p; p_pid := p_pid p; p_pagetable := p_pagetable p; p_context := p_context p;
     p_kstack := p_kstack p; p_trapframe := p_trapframe p; p_name := p_name p;
     p_killed := p_killed p; p_parent := p_parent p; p_chan := ch; p_xstate := p_xstate p;
     p_sz := p_sz p; p_ofile := p_ofile p; p_cwd := p_cwd p |}.

(** The pointer of a process that is used by the code; null is not used. *)
Definition the_proc (p : option nat) : KM nat :=
  match p with Some i => ret i | None => halt (Undefined "null process") end.

(** ** sched *)

(** The checks of sched; then swtch saves the context and the hart runs the
    scheduler. *)
Definition sched : KM unit :=
  let! c := mycpu in
  let! i := the_proc (c_proc c) in
  let! h := holding (L_proc i) in
  if negb h then panic "sched p->lock"
  else if negb (c_noff c =? 1) then
    do! printf ("%d" ++ nl) [VNum (c_noff c)];
    panic "sched locks"
  else
    let! st := proc_get (Some i) p_state in
    if decide (st = RUNNING) then panic "sched RUNNING"
    else
      let! ie := intr_get in
      if truthy ie then panic "sched interruptible"
      else halt Switch.

(** What sched does when the scheduler comes back: [mycpu()->intena = intena]. *)
Definition sched_resume (intena : Z) : KM unit := modify (set_intena intena).

Definition sleep (ch : chan) (lk : lockid) : KM unit :=
  let! p := myproc in
  let! i := the_proc p in
  do! acquire (L_proc i);
  do! release lk;
  do! modify (upd_proc i (with_chan (Some ch)));
  do! modify (upd_proc i (with_state SLEEPING));
  sched.

(** The rest of sleep, when the process runs again. *)
Definition sleep_resume (i : nat) (intena : Z) (lk : lockid) : KM unit :=
  do! sched_resume intena;
  do! modify (upd_proc i (with_chan None));
  do! release (L_proc i);
  acquire lk.

Definition yield : KM unit :=
  let! c := mycpu in
  let! i := the_proc (c_proc c) in
  do! acquire (L_proc i);
  do! modify (upd_proc i (with_state RUNNABLE));
  sched.

(** ** wakeup *)

Definition wakes (ch : chan) (p : PCB) : bool :=
  bool_decide (p_state p = SLEEPING) && bool_decide (p_chan p = Some ch).

Definition wakeup (ch : chan) : KM unit :=
  foreach (seq 0 (Z.to_nat NPROC)) (fun i =>
    let! me := myproc in
    if decide (me = Some i) then ret tt
    else
      do! acquire (L_proc i);
      let! st := proc_get (Some i) p_state in
      let! c := proc_get (Some i) p_chan in
      do! (when! bool_decide (st = SLEEPING) && bool_decide (c = Some ch) then
             modify (upd_proc i (with_state RUNNABLE)));
      release (L_proc i)).

(** ** Sleep locks *)

(** Where a struct sleeplock lives: its fields, its spinlock and its address. *)
Record slref := {
  sl_of : kernel -> sleeplock;
  sl_put : sleeplock -> kernel -> kernel;
  sl_lk : lockid;
  sl_chan : chan
}.

Definition initsleeplock (r : slref) : KM unit :=
  do! initlock (sl_lk r) "sleep lock";
  modify (sl_put r {| sl_locked := 0; sl_pid := 0 |}).

(** The while loop runs sleep at most once here: sleep does not return. *)
Definition acquiresleep (r : slref) : KM unit :=
  do! acquire (sl_lk r);
  let! lk := get (sl_of r) in
  if truthy (sl_locked lk) then sleep (sl_chan r) (sl_lk r)
  else
    let! p := myproc in
    let! pid := proc_get p p_pid in
    do! modify (sl_put r {| sl_locked := 1; sl_pid := pid |});
    release (sl_lk r).

Definition releasesleep (r : slref) : KM unit :=
  do! acquire (sl_lk r);
  do! modify (sl_put r {| sl_locked := 0; sl_pid := 0 |});
  do! wakeup (sl_chan r);
  release (sl_lk r).

Definition holdingsleep (r : slref) : KM Z :=
  do! acquire (sl_lk r);
  let! lk := get (sl_of r) in
  let! h := (if truthy (sl_locked lk) then
               let! p := myproc in
               let! pid := proc_get p p_pid in
               ret (b2z (sl_pid lk =? pid))
             else ret 0) in
  do! release (sl_lk r);
  ret h.

(** ** wakeup wakes exactly the sleepers *)

(** The hart has room for a few more nested locks. *)
Definition roomy (h : hart) : Prop := hart_ok h /\ c_noff (h_cpu h) < 2 ^ 30 - 16.

Definition procs_ready (s : kernel) : Prop :=
  length (k_procs s) = 64%nat /\ forall i, (i < 64)%nat -> lock_free (L_proc i) s.

Definition wake1 (ch : chan) (me : option nat) (i : nat) (p : PCB) : PCB :=
  if decide (me = Some i) then p else if wakes ch p then with_state RUNNABLE p else p.

Definition me_of (s : kernel) : option nat := c_proc (h_cpu (k_hart s)).

Lemma hart_settle_proc h : c_proc (h_cpu (hart_settle h)) = c_proc (h_cpu h).
Proof. unfold hart_settle. by destruct (_ =? 0). Qed.

Lemma hart_settle_noff h : c_noff (h_cpu (hart_settle h)) = c_noff (h_cpu h).
Proof. unfold hart_settle. by destruct (Z.eqb_spec (c_noff (h_cpu h)) 0). Qed.

Lemma settle_roomy s : roomy (k_hart s) -> roomy (k_hart (settle s)).
Proof.
  intros [H1 H2]. split; [by apply hart_settle_ok|]. cbn. by rewrite hart_settle_noff.
Qed.

Lemma settle_me s : me_of (settle s) = me_of s.
Proof. apply hart_settle_proc. Qed.

Lemma alter_id_strong {A} (f : A -> A) (l : list A) i x : l !! i = Some x -> f x = x -> alter f i l = l.
Proof.
  intros H1 H2. apply list_eq. intros j. destruct (decide (i = j)) as [<-|Hne].
  - rewrite list_lookup_alter_eq, H1. cbn. by rewrite H2.
  - by rewrite list_lookup_alter_ne.
Qed.

(** A critical section on process [i]'s lock that applies [f] to the process. *)
Lemma proc_section i f s p :
  hart_ok (k_hart s) -> lock_free (L_proc i) s -> k_procs s !! i = Some p ->
  (do! acquire (L_proc i);
   do! modify (upd_proc i f);
   release (L_proc i)) s = Ok tt (upd_proc i f (settle s)).
Proof.
  intros Hh Hl Hp. mstep (acquire_ok (L_proc i) s Hl Hh). unfold bind at 1, modify.
  rewrite (release_ok (L_proc i) s) by done. by destruct s.
Qed.

Definition wake_body (ch : chan) (i : nat) : KM unit :=
  let! me := myproc in
  if decide (me = Some i) then ret tt
  else
    do! acquire (L_proc i);
    let! st := proc_get (Some i) p_state in
    let! c := proc_get (Some i) p_chan in
    do! (when! bool_decide (st = SLEEPING) && bool_decide (c = Some ch) then
           modify (upd_proc i (with_state RUNNABLE)));
    release (L_proc i).

Lemma settle_eq s : settle (settle s) = settle s.
Proof. unfold settle. cbn. by rewrite hart_settle_idem. Qed.

(** Giving the lock back after the process was updated, or nothing was. *)
Lemma unlock_locked l s :
  set_locks (k_locks s) (set_hart (hart_settle (k_hart s)) (locked l s)) = settle s.
Proof. by destruct s. Qed.

Lemma unlock_upd l s i f :
  set_locks (k_locks s) (set_hart (hart_settle (k_hart s)) (upd_proc i f (locked l s))) =
  upd_proc i f (settle s).
Proof. by destruct s. Qed.

Lemma upd_proc_ext i f g s p :
  k_procs s !! i = Some p -> f p = g p -> upd_proc i f s = upd_proc i g s.
Proof.
  intros Hp E. unfold upd_proc. f_equal. apply list_eq. intros j. destruct (decide (i = j)) as [<-|Hne].
  - rewrite !list_lookup_alter_eq, Hp. cbn. by rewrite E.
  - by rewrite !list_lookup_alter_ne.
Qed.

Lemma upd_proc_id i f s p : k_procs s !! i = Some p -> f p = p -> upd_proc i f s = s.
Proof.
  intros Hp E. unfold upd_proc. rewrite (alter_id_strong f _ i p) by done. by destruct s.
Qed.

Lemma wake_body_ok ch i s p :
  hart_ok (k_hart s) -> lock_free (L_proc i) s -> k_procs s !! i = Some p ->
  wake_body ch i s = Ok tt (upd_proc i (wake1 ch (me_of s) i) (settle s)).
Proof.
  intros Hh Hl Hp. unfold wake_body. mstep (myproc_ok s Hh). fold (me_of s).
  generalize (me_of s) as me. intros me. assert (k_procs (settle s) !! i = Some p) as Hp' by done.
  destruct (decide (me = Some i)) as [E|E].
  { rewrite (upd_proc_id i _ _ p Hp'); [done|]. unfold wake1. by rewrite decide_True. }
  assert (lock_free (L_proc i) (settle s)) as Hl' by done.
  assert (hart_ok (k_hart (settle s))) as Hh' by (by apply hart_settle_ok).
  assert (wake1 ch me i p = if wakes ch p then with_state RUNNABLE p else p) as Hw
    by (unfold wake1; by rewrite decide_False).
  rewrite <- (settle_eq s) at 2. generalize dependent (settle s). clear s Hh Hl Hp.
  intros s Hp Hl Hh. mstep (acquire_ok (L_proc i) s Hl Hh).
  assert (forall A (g : PCB -> A), proc_get (Some i) g (locked (L_proc i) s) = Ok (g p) (locked (L_proc i) s)) as Hget.
  { intros A g. unfold proc_get, bind, get. change (k_procs (locked (L_proc i) s)) with (k_procs s). by rewrite Hp. }
  mstep (Hget _ p_state). mstep (Hget _ p_chan). fold (wakes ch p).
  destruct (wakes ch p) eqn:Ew; unfold bind, modify, ret; rewrite (release_ok (L_proc i) s) by done; f_equal.
  - rewrite unlock_upd. by apply (upd_proc_ext i _ _ _ p).
  - rewrite unlock_locked. symmetry. by apply (upd_proc_id i _ _ p).
Qed.

Fixpoint wake_range (ch : chan) (me : option nat) (k n : nat) (ps : list PCB) : list PCB :=
  match n with
  | O => ps
  | S n' => wake_range ch me (S k) n' (alter (wake1 ch me k) k ps)
  end.

Lemma length_wake_range ch me k n ps : length (wake_range ch me k n ps) = length ps.
Proof. revert k ps. induction n as [|n IH]; intros k ps; [done|]. cbn. by rewrite IH, length_alter. Qed.

Lemma lookup_wake_range ch me k n ps j :
  wake_range ch me k n ps !! j =
    if decide (k <= j < k + n)%nat then wake1 ch me j <$> ps !! j else ps !! j.
Proof.
  revert k ps. induction n as [|n IH]; intros k ps; cbn [wake_range].
  { by rewrite decide_False by lia. }
  rewrite IH. destruct (decide (k = j)) as [<-|Hne].
  - rewrite decide_False, decide_True by lia. by rewrite list_lookup_alter_eq.
  - rewrite list_lookup_alter_ne by done. repeat case_decide; done || lia.
Qed.

Lemma wake_loop_ok ch n k s :
  hart_ok (k_hart s) -> (k + S n <= length (k_procs s))%nat ->
  (forall i, (k <= i < k + S n)%nat -> lock_free (L_proc i) s) ->
  foreach (seq k (S n)) (wake_body ch) s =
    Ok tt (set_procs (wake_range ch (me_of s) k (S n) (k_procs s)) (settle s)).
Proof.
  revert k s. induction n as [|n IH]; intros k s Hh Hlen Hl.
  all: destruct (lookup_lt_is_Some_2 (k_procs s) k) as [p Hp]; [lia|].
  all: change (foreach (seq k (S ?x)) (wake_body ch)) with
         (do! wake_body ch k; foreach (seq (S k) x) (wake_body ch)).
  all: mstep (wake_body_ok ch k s p Hh (Hl k ltac:(lia)) Hp).
  - done.
  - rewrite IH.
    + f_equal. unfold me_of. cbn [upd_proc set_procs k_hart settle set_hart]. rewrite hart_settle_proc.
      unfold upd_proc, settle, set_procs, set_hart. cbn. by rewrite hart_settle_idem.
    + by apply hart_settle_ok.
    + unfold upd_proc. cbn [set_procs k_procs]. rewrite length_alter. cbn. lia.
    + intros i Hi. apply (Hl i). lia.
Qed.

Lemma wakeup_ok ch s :
  hart_ok (k_hart s) -> procs_ready s ->
  wakeup ch s = Ok tt (set_procs (wake_range ch (me_of s) 0 64 (k_procs s)) (settle s)).
Proof.
  intros Hh [Hlen Hl]. unfold wakeup. change (foreach _ _) with (foreach (seq 0 64) (wake_body ch)).
  apply wake_loop_ok; [done|lia|]. intros i Hi. apply Hl. lia.
Qed.

(** Wakeup makes runnable exactly the processes that sleep on the channel,
    except the caller; no other process, field, lock or variable changes, and
    every process lock is free again. *)
Theorem wakeup_correct ch s :
  hart_ok (k_hart s) -> procs_ready s ->
  exists s', wakeup ch s = Ok tt s' /\ k_locks s' = k_locks s /\ procs_ready s' /\
    s' = set_procs (k_procs s') (settle s) /\
    forall i p, k_procs s !! i = Some p ->
      k_procs s' !! i = Some (if decide (me_of s = Some i) then p
                              else if wakes ch p then with_state RUNNABLE p else p).
Proof.
  intros Hh Hr. pose proof Hr as [Hlen Hl]. eexists. split; [by apply wakeup_ok|]. split; [done|]. split.
  - split; [|exact Hl]. cbn [k_procs set_procs]. by rewrite length_wake_range.
  - split; [done|]. intros i p Hp. cbn [k_procs set_procs]. rewrite lookup_wake_range, decide_True, Hp; [done|].
    apply lookup_lt_Some in Hp. lia.
Qed.

(** A process asleep on the log, woken by process 0. *)
Definition sleeper : kernel :=
  set_procs (alter (fun p => with_chan (Some Ch_log) (with_state SLEEPING p)) 5%nat (k_procs boot_kernel))
    (set_cpu {| c_proc := Some 0%nat; c_noff := 0; c_intena := 0 |} boot_kernel).

Lemma boot_proc_locks i : (i < 64)%nat -> lock_free (L_proc i) boot_kernel.
Proof.
  intros Hi. exists "proc". do 64 (destruct i as [|i]; [vm_compute; reflexivity|]). lia.
Qed.

Lemma wakeup_correct_witness :
  exists s' p, wakeup Ch_log sleeper = Ok tt s' /\ k_procs s' !! 5%nat = Some p /\ p_state p = RUNNABLE.
Proof.
  destruct (wakeup_correct Ch_log sleeper) as (s' & E & _ & _ & _ & H).
  - by vm_compute.
  - split; [by vm_compute|]. intros i Hi. apply (boot_proc_locks i Hi).
  - eexists s', _. split; [exact E|]. split; [apply H; reflexivity|]. reflexivity.
Defined.

(** ** Sleep locks keep their promise *)

(** The fields of a sleep lock are apart from the hart, the spinlocks and the
    process table. *)
Class SleepLockRef (r : slref) := {
  sl_put_hart : forall v h s, sl_put r v (set_hart h s) = set_hart h (sl_put r v s);
  sl_put_locks : forall v l s, sl_put r v (set_locks l s) = set_locks l (sl_put r v s);
  sl_hart_put : forall v s, k_hart (sl_put r v s) = k_hart s;
  sl_locks_put : forall v s, k_locks (sl_put r v s) = k_locks s;
  sl_procs_put : forall v s, k_procs (sl_put r v s) = k_procs s;
  sl_of_hart : forall h s, sl_of r (set_hart h s) = sl_of r s;
  sl_of_locks : forall l s, sl_of r (set_locks l s) = sl_of r s
}.

(** What locked code may rely on: the process running and the lock it takes. *)
Record caller (i : nat) (p : PCB) (s : kernel) : Prop := {
  ca_hart : roomy (k_hart s);
  ca_me : me_of s = Some i;
  ca_proc : k_procs s !! i = Some p;
  ca_procs : procs_ready s
}.

Lemma settle_locked l s : hart_ok (k_hart s) -> settle (locked l s) = locked l s.
Proof.
  intros [H1 _]. unfold settle. rewrite hart_settle_deep; [apply set_hart_id|]. cbn. lia.
Qed.

Lemma myproc_locked l s :
  roomy (k_hart s) -> myproc (locked l s) = Ok (me_of s) (locked l s).
Proof.
  intros [H1 H2]. rewrite myproc_ok; [|apply hart_push_ok; [done|lia]].
  by rewrite settle_locked.
Qed.

Lemma proc_get_locked {A} l s i p (f : PCB -> A) :
  k_procs s !! i = Some p -> proc_get (Some i) f (locked l s) = Ok (f p) (locked l s).
Proof.
  intros Hp. unfold proc_get, bind, get. change (k_procs (locked l s)) with (k_procs s). by rewrite Hp.
Qed.

Section SleepLocks.
Context (r : slref) `{!SleepLockRef r}.

Lemma sl_of_locked l s : sl_of r (locked l s) = sl_of r s.
Proof. unfold locked, set_lock. by rewrite sl_of_locks, sl_of_hart. Qed.

Lemma unlock_put l v s :
  set_locks (k_locks s) (set_hart (hart_settle (k_hart s)) (sl_put r v (locked l s))) =
  sl_put r v (settle s).
Proof.
  rewrite <- (unlock_locked l s). by rewrite sl_put_locks, sl_put_hart.
Qed.

Lemma acquiresleep_ok i p s :
  caller i p s -> lock_free (sl_lk r) s -> sl_locked (sl_of r s) = 0 ->
  acquiresleep r s = Ok tt (sl_put r {| sl_locked := 1; sl_pid := p_pid p |} (settle s)).
Proof.
  intros [Hr Hme Hp _] Hl Hz. pose proof Hr as [Hh _]. unfold acquiresleep.
  mstep (acquire_ok _ s Hl Hh). unfold bind at 1, get at 1. rewrite sl_of_locked, Hz. cbn [truthy Z.eqb negb].
  mstep (myproc_locked (sl_lk r) s Hr). rewrite Hme. mstep (proc_get_locked (sl_lk r) s i p p_pid Hp).
  unfold bind at 1, modify. rewrite (release_ok (sl_lk r) s) by (rewrite ?sl_hart_put, ?sl_locks_put; done).
  by rewrite unlock_put.
Qed.

Lemma holdingsleep_ok i p s :
  caller i p s -> lock_free (sl_lk r) s ->
  holdingsleep r s =
    Ok (b2z (truthy (sl_locked (sl_of r s)) && (sl_pid (sl_of r s) =? p_pid p))) (settle s).
Proof.
  intros [Hr Hme Hp _] Hl. pose proof Hr as [Hh _]. unfold holdingsleep.
  mstep (acquire_ok _ s Hl Hh). unfold bind at 1, get at 1. rewrite sl_of_locked.
  assert ((if truthy (sl_locked (sl_of r s))
           then let! p0 := myproc in let! pid := proc_get p0 p_pid in ret (b2z (sl_pid (sl_of r s) =? pid))
           else ret 0) (locked (sl_lk r) s) =
          Ok (b2z (truthy (sl_locked (sl_of r s)) && (sl_pid (sl_of r s) =? p_pid p))) (locked (sl_lk r) s)) as E.
  { destruct (truthy (sl_locked (sl_of r s))); [|done].
    mstep (myproc_locked (sl_lk r) s Hr). rewrite Hme. by mstep (proc_get_locked (sl_lk r) s i p p_pid Hp). }
  mstep E. unfold bind. rewrite (release_ok (sl_lk r) s) by done. by rewrite unlock_locked.
Qed.

Lemma releasesleep_ok i p s :
  caller i p s -> lock_free (sl_lk r) s -> (forall j, sl_lk r <> L_proc j) ->
  releasesleep r s =
    Ok tt (set_procs (wake_range (sl_chan r) (Some i) 0 64 (k_procs s))
             (sl_put r {| sl_locked := 0; sl_pid := 0 |} (settle s))).
Proof.
  intros [Hr Hme Hp [Hlen Hpl]] Hl Hnp. pose proof Hr as [Hh Hn]. unfold releasesleep.
  mstep (acquire_ok _ s Hl Hh). unfold bind at 1, modify.
  set (v := {| sl_locked := 0; sl_pid := 0 |}). set (s1 := sl_put r v (locked (sl_lk r) s)).
  assert (hart_ok (k_hart s1)) as Hh1.
  { unfold s1. rewrite sl_hart_put. apply hart_push_ok; [done|lia]. }
  assert (procs_ready s1) as Hpr1.
  { unfold s1. split; [by rewrite sl_procs_put|]. intros j Hj. destruct (Hpl j Hj) as [nm E]. exists nm.
    rewrite sl_locks_put. unfold locked, set_lock. cbn. by rewrite lookup_insert_ne. }
  assert (me_of s1 = Some i) as Hme1 by (unfold s1, me_of; by rewrite sl_hart_put).
  mstep (wakeup_ok (sl_chan r) s1 Hh1 Hpr1). rewrite Hme1.
  assert (settle s1 = s1) as Hs1.
  { unfold settle. rewrite hart_settle_deep; [apply set_hart_id|]. unfold s1. rewrite sl_hart_put.
    destruct Hh. cbn. lia. }
  rewrite Hs1. assert (k_procs s1 = k_procs s) as Hps by (unfold s1; by rewrite sl_procs_put). rewrite Hps.
  rewrite (release_ok (sl_lk r) s); [| done | done | unfold s1 | unfold s1]; cbn [k_hart k_locks set_procs];
    rewrite ?sl_hart_put, ?sl_locks_put; try done.
  rewrite <- unlock_put with (l := sl_lk r). unfold s1. done.
Qed.

End SleepLocks.

(** ** sleep hands the hart to the scheduler *)

Lemma locked_comm l l' s : l <> l' -> locked l (locked l' s) = locked l' (locked l s).
Proof.
  intros Hne. unfold locked, set_lock, lock_of. cbn. rewrite !lookup_insert_ne by done.
  by rewrite insert_insert_ne.
Qed.

Definition asleep (ch : chan) (p : PCB) : PCB := with_state SLEEPING (with_chan (Some ch) p).

(** With only [lk] held, sleep gives it up and stops holding the process's lock. *)
(** sched with its conditions met switches to the scheduler. *)
Lemma sched_switches i p s :
  me_of s = Some i -> held_by (h_tp (k_hart s)) (L_proc i) s -> c_noff (h_cpu (k_hart s)) = 1 ->
  hart_intr_get (k_hart s) = 0 -> k_procs s !! i = Some p -> p_state p <> RUNNING -> sched s = Stop Switch s.
Proof.
  intros Hme [nm Hl] Hn Hi Hp Hs. unfold sched, mycpu. unfold bind at 1, get at 1.
  replace (c_proc (h_cpu (k_hart s))) with (Some i) by (symmetry; exact Hme). unfold the_proc. unfold bind at 1, ret at 1.
  assert (holding (L_proc i) s = Ok true s) as Ehold.
  { unfold holding, get. f_equal. unfold is_held, lock_of. rewrite Hl. cbn. by rewrite bool_decide_true. }
  mstep Ehold. cbn [negb]. rewrite Hn. cbn [Z.eqb Pos.eqb negb].
  unfold bind at 1, proc_get, bind at 1, get at 1. rewrite Hp. unfold ret at 1.
  rewrite decide_False by done. unfold bind, intr_get, get. by rewrite Hi.
Qed.

Lemma held_locked l s : held_by (h_tp (k_hart s)) l (locked l s).
Proof. exists (lk_name (lock_of s l)). unfold locked, set_lock. cbn. by rewrite lookup_insert_eq. Qed.

Lemma free_locked l l' s : l <> l' -> lock_free l s -> lock_free l (locked l' s).
Proof. intros Hne [nm E]. exists nm. unfold locked, set_lock. cbn. by rewrite lookup_insert_ne. Qed.

Lemma sleep_switches ch lk i p s :
  roomy (k_hart s) -> me_of s = Some i -> k_procs s !! i = Some p -> lock_free (L_proc i) s ->
  c_noff (h_cpu (k_hart s)) = 0 -> lock_free lk s -> lk <> L_proc i ->
  sleep ch lk (locked lk s) = Stop Switch (upd_proc i (asleep ch) (locked (L_proc i) s)).
Proof.
  intros Hr Hme Hp Hpl Hz Hl Hne. pose proof Hr as [Hh _]. unfold sleep.
  mstep (myproc_locked lk s Hr). rewrite Hme. unfold the_proc. unfold bind at 1, ret at 1.
  assert (hart_ok (k_hart (locked (L_proc i) s))) as Hh1 by (apply hart_push_ok; [done|lia]).
  assert (hart_ok (k_hart (locked lk s))) as Hh2 by (apply hart_push_ok; [done|lia]).
  mstep (acquire_ok (L_proc i) (locked lk s) (free_locked _ _ _ (not_eq_sym Hne) Hpl) Hh2). rewrite locked_comm by done.
  rewrite (bind_ok _ _ _ _ _ (release_ok lk (locked (L_proc i) s) _ (free_locked _ _ _ Hne Hl) Hh1 eq_refl eq_refl)).
  rewrite unlock_locked, settle_locked by done. unfold bind at 1 2, modify.
  set (s1 := upd_proc i (with_state SLEEPING) _).
  assert (s1 = upd_proc i (asleep ch) (locked (L_proc i) s)) as Es.
  { unfold s1, upd_proc. cbn. by rewrite list_alter_alter_eq. }
  rewrite Es. apply (sched_switches i (asleep ch p)); [done| | | | |done].
  - destruct (held_locked (L_proc i) s) as [nm E]. by exists nm.
  - cbn. by rewrite Hz.
  - apply hart_push_intr.
  - cbn. by rewrite list_lookup_alter_eq, Hp.
Qed.

Lemma sleep_ok ch lk i p s :
  caller i p s -> c_noff (h_cpu (k_hart s)) = 0 -> lock_free lk s -> lk <> L_proc i ->
  sleep ch lk (locked lk s) = Stop Switch (upd_proc i (asleep ch) (locked (L_proc i) s)).
Proof.
  intros [Hr Hme Hp [Hlen Hpl]] Hz Hl Hne. apply (sleep_switches ch lk i p); try done.
  apply Hpl. rewrite <- Hlen. by eapply lookup_lt_Some.
Qed.

(** A process that holds just the lock [lk] and calls sleep ends up in the
    scheduler marked SLEEPING on the channel, with [lk] free for the process
    that will wake it and with its own lock held, so that no wakeup can look at
    it before the switch is complete; a wakeup on the channel that runs later,
    once the scheduler has dropped the lock, makes it runnable. *)
Theorem sleep_correct ch lk i p s :
  caller i p s -> c_noff (h_cpu (k_hart s)) = 0 -> lock_free lk s -> lk <> L_proc i ->
  exists s', sleep ch lk (locked lk s) = Stop Switch s' /\ lock_free lk s' /\
    held_by (h_tp (k_hart s)) (L_proc i) s' /\ k_procs s' !! i = Some (asleep ch p) /\
    (forall j, j <> i -> k_procs s' !! j = k_procs s !! j) /\
    forall w, hart_ok (k_hart w) -> procs_ready w -> k_procs w = k_procs s' -> me_of w <> Some i ->
      exists w', wakeup ch w = Ok tt w' /\ k_procs w' !! i = Some (with_state RUNNABLE (asleep ch p)).
Proof.
  intros Hc Hz Hl Hne. eexists. split; [by apply (sleep_ok ch lk i p)|]. destruct Hc as [Hr Hme Hp Hpr].
  assert (k_procs (upd_proc i (asleep ch) (locked (L_proc i) s)) !! i = Some (asleep ch p)) as Hp'.
  { cbn. by rewrite list_lookup_alter_eq, Hp. }
  split; [|split; [|split; [done|split]]].
  - destruct Hl as [nm E]. exists nm. unfold locked, set_lock. cbn. by rewrite lookup_insert_ne.
  - exists (lk_name (lock_of s (L_proc i))). unfold locked, set_lock. cbn. by rewrite lookup_insert_eq.
  - intros j Hj. cbn. by rewrite list_lookup_alter_ne.
  - intros w Hh Hrw Ew Hmw. eexists. split; [by apply wakeup_ok|]. cbn [k_procs set_procs].
    rewrite lookup_wake_range, decide_True, Ew, Hp'.
    + cbn [fmap option_fmap option_map]. unfold wake1. rewrite decide_False by done.
      assert (wakes ch (asleep ch p) = true) as ->; [|done].
      unfold wakes. apply andb_true_iff. split; by apply bool_decide_eq_true.
    + pose proof (lookup_lt_Some _ _ _ Hp) as Hlt. destruct Hpr as [Hlen _]. lia.
Qed.

(** Process 0 on hart 0, running with no lock held. *)
Definition alone : kernel := set_cpu {| c_proc := Some 0%nat; c_noff := 0; c_intena := 0 |} boot_kernel.

Lemma alone_caller : caller 0 PCB_zero alone.
Proof.
  split; [by vm_compute|reflexivity|reflexivity|]. split; [reflexivity|].
  intros i Hi. apply (boot_proc_locks i Hi).
Qed.

Lemma sleep_correct_witness :
  exists s', sleep Ch_log L_log (locked L_log alone) = Stop Switch s' /\ lock_free L_log s'.
Proof.
  destruct (sleep_correct Ch_log L_log 0 PCB_zero alone) as (s' & E & H & _).
  - apply alone_caller.
  - reflexivity.
  - by exists "log".
  - discriminate.
  - exists s'. split; [exact E|exact H].
Defined.
