(* ===== verification/Critical.v ===== *)
(** * Steps inside a critical section

    A change to the data a lock protects, a wakeup and the release of the lock,
    in terms of the state outside the critical section. *)

From S2P Require Import Prelude Mem CString State Spinlock Printf Locks Sleep.

(** wakeup inside a critical section. *)
Definition wake_all (ch : chan) (me : nat) (s : kernel) : kernel :=
  set_procs (wake_range ch (Some me) 0 64 (k_procs s)) s.

Lemma wake_all_private ch me : private (wake_all ch me).
Proof. by split. Qed.
#[export] Hint Resolve wake_all_private : core.

Lemma private_locked F l s : private F -> F (locked l s) = locked l (F s).
Proof.
  intros [F1 F2 F3 F4]. unfold locked, set_lock, lock_of. cbn. rewrite F2, F1. by rewrite F3, F4.
Qed.

Lemma wakeup_locked ch l me p s :
  caller me p s -> (forall j, l <> L_proc j) -> wakeup ch (locked l s) = Ok tt (wake_all ch me (locked l s)).
Proof.
  intros [[Hh Hn] Hme _ [Hlen Hpl]] Hne. rewrite wakeup_ok.
  - unfold wake_all. rewrite settle_locked by done. change (me_of (locked l s)) with (me_of s). by rewrite Hme.
  - apply hart_push_ok; [done|lia].
  - split; [exact Hlen|]. intros j Hj. destruct (Hpl j Hj) as [nm E]. exists nm. unfold locked, set_lock. cbn.
    by rewrite lookup_insert_ne.
Qed.

Lemma caller_wake ch me p s : caller me p s -> caller me p (wake_all ch me s).
Proof.
  intros [H1 H2 H3 [H4 H5]]. split; [done|done| |split; [|done]]; cbn [wake_all k_procs set_procs].
  - rewrite lookup_wake_range, H3. apply lookup_lt_Some in H3. rewrite decide_True by lia.
    cbn. unfold wake1. by rewrite decide_True.
  - by rewrite length_wake_range.
Qed.

Lemma modify_locked l f s : private f -> modify f (locked l s) = Ok tt (locked l (f s)).
Proof. intros Hf. unfold modify. by rewrite private_locked. Qed.

Lemma release_locked l s : lock_free l s -> hart_ok (k_hart s) -> release l (locked l s) = Ok tt (settle s).
Proof. intros Hl Hh. by apply (release_private l (fun s => s)). Qed.
