(* ===== verification/Bio.v ===== *)
(** * kernel/disk/bio.c: the buffer cache

    A fixed table of buffers on a doubly linked list in order of last use. A
    buffer of the table is its index; a link is [Head] or a buffer. The disk
    driver (virtio_disk_rw) is what the cache is built on, and a parameter. *)

From S2P Require Import Prelude Mem CString State Spinlock Printf Locks Sleep.

(** ** Fields of the cache *)

Definition upd_buf (i : nat) (f : buf -> buf) (s : kernel) : kernel :=
  let c := k_bcache s in
  set_bcache {| bc_buf := alter f i (bc_buf c); bc_prev := bc_prev c; bc_next := bc_next c |} s.

Definition buf_id (v : Z) (dev blockno refcnt : Z) (b : buf) : buf :=
  {| b_valid := v; b_disk := b_disk b; b_dev := dev; b_blockno := blockno; b_lock := b_lock b;
     b_refcnt := refcnt; b_prev := b_prev b; b_next := b_next b; b_data := b_data b |}.
Definition buf_valid (v : Z) (b : buf) : buf :=
  {| b_valid := v; b_disk := b_disk b; b_dev := b_dev b; b_blockno := b_blockno b; b_lock := b_lock b;
     b_refcnt := b_refcnt b; b_prev := b_prev b; b_next := b_next b; b_data := b_data b |}.
Definition buf_refcnt (n : Z) (b : buf) : buf :=
  {| b_valid := b_valid b; b_disk := b_disk b; b_dev := b_dev b; b_blockno := b_blockno b; b_lock := b_lock b;
     b_refcnt := n; b_prev := b_prev b; b_next := b_next b; b_data := b_data b |}.
Definition buf_lock (l : sleeplock) (b : buf) : buf :=
  {| b_valid := b_valid b; b_disk := b_disk b; b_dev := b_dev b; b_blockno := b_blockno b; b_lock := l;
     b_refcnt := b_refcnt b; b_prev := b_prev b; b_next := b_next b; b_data := b_data b |}.
Definition buf_data (d : list Z) (b : buf) : buf :=
  {| b_valid := b_valid b; b_disk := b_disk b; b_dev := b_dev b; b_blockno := b_blockno b; b_lock := b_lock b;
     b_refcnt := b_refcnt b; b_prev := b_prev b; b_next := b_next b; b_data := d |}.
Definition buf_prev (r : bref) (b : buf) : buf :=
  {| b_valid := b_valid b; b_disk := b_disk b; b_dev := b_dev b; b_blockno := b_blockno b; b_lock := b_lock b;
     b_refcnt := b_refcnt b; b_prev := r; b_next := b_next b; b_data := b_data b |}.
Definition buf_next (r : bref) (b : buf) : buf :=
  {| b_valid := b_valid b; b_disk := b_disk b; b_dev := b_dev b; b_blockno := b_blockno b; b_lock := b_lock b;
     b_refcnt := b_refcnt b; b_prev := b_prev b; b_next := r; b_data := b_data b |}.

(** The sleep lock of buffer [i]. *)
Definition buf_sl (i : nat) : slref :=
  {| sl_of := fun s => b_lock (default buf_zero (bc_buf (k_bcache s) !! i));
     sl_put := fun v => upd_buf i (buf_lock v);
     sl_lk := L_buf i;
     sl_chan := Ch_buflock i |}.

#[export] Instance buf_sl_laws i : SleepLockRef (buf_sl i).
Proof. by split. Qed.

(** [x->next], [x->prev] and their assignment, for the head and the buffers. *)
Definition next_of (c : bcache_t) (x : bref) : bref :=
  match x with Head => bc_next c | Buf i => b_next (default buf_zero (bc_buf c !! i)) end.
Definition prev_of (c : bcache_t) (x : bref) : bref :=
  match x with Head => bc_prev c | Buf i => b_prev (default buf_zero (bc_buf c !! i)) end.
Definition set_next (x y : bref) (c : bcache_t) : bcache_t :=
  match x with
  | Head => {| bc_buf := bc_buf c; bc_prev := bc_prev c; bc_next := y |}
  | Buf i => {| bc_buf := alter (buf_next y) i (bc_buf c); bc_prev := bc_prev c; bc_next := bc_next c |}
  end.
Definition set_prev (x y : bref) (c : bcache_t) : bcache_t :=
  match x with
  | Head => {| bc_buf := bc_buf c; bc_prev := y; bc_next := bc_next c |}
  | Buf i => {| bc_buf := alter (buf_prev y) i (bc_buf c); bc_prev := bc_prev c; bc_next := bc_next c |}
  end.

Definition mod_bcache (f : bcache_t -> bcache_t) : KM unit :=
  modify (fun s => set_bcache (f (k_bcache s)) s).
Definition buf_get {A} (i : nat) (f : buf -> A) : KM A :=
  get (fun s => f (default buf_zero (bc_buf (k_bcache s) !! i))).

(** The insertion after the head that binit and brelse share. *)
Definition insert_front (i : nat) (c : bcache_t) : bcache_t :=
  let c := set_next (Buf i) (next_of c Head) c in
  let c := set_prev (Buf i) Head c in
  let c := set_prev (next_of c Head) (Buf i) c in
  set_next Head (Buf i) c.

Definition unlink (i : nat) (c : bcache_t) : bcache_t :=
  let c := set_prev (next_of c (Buf i)) (prev_of c (Buf i)) c in
  set_next (prev_of c (Buf i)) (next_of c (Buf i)) c.

(** ** The routines *)

Definition binit : KM unit :=
  do! mod_bcache (fun c => set_prev Head Head (set_next Head Head c));
  do! initlock L_bcache "bcache";
  foreach (seq 0 (Z.to_nat NBUF)) (fun i =>
    do! initsleeplock (buf_sl i);
    mod_bcache (insert_front i)).

Section Routines.
Context (virtio_disk_rw : nat -> Z -> KM unit).

(** [for(b = bcache.head.next; b != &bcache.head; b = b->next)]: the first buffer
    that passes the test. *)
Fixpoint scan (fuel : nat) (test : buf -> bool) (c : bcache_t) (x : bref) : option (option nat) :=
  match x with
  | Head => Some None
  | Buf i =>
      match fuel with
      | O => None
      | S f =>
          if test (default buf_zero (bc_buf c !! i)) then Some (Some i)
          else scan f test c (next_of c (Buf i))
      end
  end.

Definition scan_cache (test : buf -> bool) : KM (option nat) :=
  let! c := get k_bcache in
  match scan (Z.to_nat NBUF) test c (bc_next c) with
  | None => halt OutOfFuel
  | Some r => ret r
  end.

Definition is_block (dev bnum : Z) (b : buf) : bool := (b_dev b =? u32 dev) && (b_blockno b =? u32 bnum).
Definition is_free (b : buf) : bool := b_refcnt b =? 0.

Definition bget (dev bnum : Z) : KM nat :=
  do! acquire L_bcache;
  let! hit := scan_cache (is_block dev bnum) in
  match hit with
  | Some i =>
      do! modify (upd_buf i (fun b => buf_refcnt (u32 (b_refcnt b + 1)) b));
      do! release L_bcache;
      do! acquiresleep (buf_sl i);
      do! modify (upd_buf i (fun b => buf_refcnt (u32 (b_refcnt b + 1)) b));
      ret i
  | None =>
      let! free := scan_cache is_free in
      match free with
      | Some i =>
          do! modify (upd_buf i (buf_id 0 (u32 dev) (u32 bnum) 1));
          do! release L_bcache;
          do! acquiresleep (buf_sl i);
          ret i
      | None => panic "bget: 没有空闲内存块了捏(悲)"
      end
  end.

Definition brelse (i : nat) : KM unit :=
  let! h := holdingsleep (buf_sl i) in
  if negb (truthy h) then panic "brelse"
  else
    do! releasesleep (buf_sl i);
    do! acquire L_bcache;
    do! modify (upd_buf i (fun b => buf_refcnt (u32 (b_refcnt b - 1)) b));
    let! n := buf_get i b_refcnt in
    do! (when! n =? 0 then mod_bcache (fun c => insert_front i (unlink i c)));
    release L_bcache.

Definition bread (dev bnum : Z) : KM nat :=
  let! i := bget dev bnum in
  let! v := buf_get i b_valid in
  do! (when! negb (truthy v) then
         do! virtio_disk_rw i 0;
         modify (upd_buf i (buf_valid 1)));
  ret i.

Definition bwrite (i : nat) : KM unit :=
  let! h := holdingsleep (buf_sl i) in
  if negb (truthy h) then panic "bwrite"
  else virtio_disk_rw i 1.

Definition bpin (i : nat) : KM unit :=
  do! acquire L_bcache;
  do! modify (upd_buf i (fun b => buf_refcnt (u32 (b_refcnt b + 1)) b));
  release L_bcache.

Definition bunpin (i : nat) : KM unit :=
  do! acquire L_bcache;
  do! modify (upd_buf i (fun b => buf_refcnt (u32 (b_refcnt b - 1)) b));
  release L_bcache.

End Routines.

(** ** The list of buffers *)

(** From [x] the links lead through the buffers [l] to [y], and back. *)
Fixpoint links (c : bcache_t) (x : bref) (l : list nat) (y : bref) : Prop :=
  match l with
  | [] => next_of c x = y /\ prev_of c y = x
  | i :: l' => next_of c x = Buf i /\ prev_of c (Buf i) = x /\ links c (Buf i) l' y
  end.

Record ring (c : bcache_t) (l : list nat) : Prop := {
  ring_links : links c Head l Head;
  ring_nodup : NoDup l;
  ring_bound : forall i, i ∈ l -> (i < length (bc_buf c))%nat
}.

Definition valid_ref (c : bcache_t) (x : bref) : Prop :=
  match x with Head => True | Buf i => (i < length (bc_buf c))%nat end.

Lemma next_set_next c x y z :
  valid_ref c x -> next_of (set_next x y c) z = if decide (z = x) then y else next_of c z.
Proof.
  intros Hx. destruct x as [|i], z as [|j]; cbn; try done.
  - destruct (decide (Buf j = Buf i)) as [[= ->]|Hne].
    + destruct (lookup_lt_is_Some_2 (bc_buf c) i Hx) as [b Hb].
      by rewrite list_lookup_alter_eq, Hb.
    + by rewrite list_lookup_alter_ne by congruence.
Qed.

Lemma prev_set_prev c x y z :
  valid_ref c x -> prev_of (set_prev x y c) z = if decide (z = x) then y else prev_of c z.
Proof.
  intros Hx. destruct x as [|i], z as [|j]; cbn; try done.
  - destruct (decide (Buf j = Buf i)) as [[= ->]|Hne].
    + destruct (lookup_lt_is_Some_2 (bc_buf c) i Hx) as [b Hb].
      by rewrite list_lookup_alter_eq, Hb.
    + by rewrite list_lookup_alter_ne by congruence.
Qed.

Lemma prev_set_next c x y z : prev_of (set_next x y c) z = prev_of c z.
Proof.
  destruct x as [|i], z as [|j]; cbn; try done. destruct (decide (i = j)) as [<-|Hne].
  - rewrite list_lookup_alter_eq. by destruct (bc_buf c !! i).
  - by rewrite list_lookup_alter_ne.
Qed.

Lemma next_set_prev c x y z : next_of (set_prev x y c) z = next_of c z.
Proof.
  destruct x as [|i], z as [|j]; cbn; try done. destruct (decide (i = j)) as [<-|Hne].
  - rewrite list_lookup_alter_eq. by destruct (bc_buf c !! i).
  - by rewrite list_lookup_alter_ne.
Qed.

Lemma valid_set_next c x y z : valid_ref (set_next x y c) z <-> valid_ref c z.
Proof. destruct x, z; cbn; by rewrite ?length_alter. Qed.
Lemma valid_set_prev c x y z : valid_ref (set_prev x y c) z <-> valid_ref c z.
Proof. destruct x, z; cbn; by rewrite ?length_alter. Qed.

#[local] Arguments next_of : simpl never.
#[local] Arguments prev_of : simpl never.

(** The path only looks at its own links. *)
Lemma links_ext c c' x l y :
  links c x l y -> (forall z, z = x \/ z ∈ (Buf <$> l) -> next_of c' z = next_of c z) ->
  (forall z, z = y \/ z ∈ (Buf <$> l) -> prev_of c' z = prev_of c z) -> links c' x l y.
Proof.
  revert x. induction l as [|i l IH]; intros x H Hn Hp; cbn in *.
  - destruct H as [H1 H2]. rewrite Hn, Hp by auto. done.
  - destruct H as (H1 & H2 & H3). rewrite Hn by auto. rewrite Hp by (right; set_solver).
    split; [done|split; [done|]]. apply IH; [done| |].
    + intros z Hz. apply Hn. set_solver.
    + intros z Hz. apply Hp. set_solver.
Qed.

Lemma links_app c x l1 i l2 y :
  links c x (l1 ++ i :: l2) y <-> links c x l1 (Buf i) /\ links c (Buf i) l2 y.
Proof.
  revert x. induction l1 as [|j l1 IH]; intros x; cbn.
  - split; [intros (?&?&?); done|intros [[? ?] ?]; done].
  - rewrite IH. naive_solver.
Qed.

(** The end of a path turned to [y']. *)
Lemma links_turn c c' x l y y' :
  links c x l y -> x ∉ (Buf <$> l) -> NoDup l ->
  next_of c' (prev_of c y) = y' -> prev_of c' y' = prev_of c y ->
  (forall z, z = x \/ z ∈ (Buf <$> l) -> z <> prev_of c y -> next_of c' z = next_of c z) ->
  (forall z, z ∈ (Buf <$> l) -> prev_of c' z = prev_of c z) -> links c' x l y'.
Proof.
  revert x. induction l as [|i l IH]; intros x H Hx Hnd Hy1 Hy2 Hn Hp; cbn in H.
  - destruct H as [H1 H2]. cbn. rewrite H2 in *. done.
  - destruct H as (H1 & H2 & H3). apply NoDup_cons in Hnd as [Hi Hnd]. cbn [links fmap list_fmap] in *.
    assert (prev_of c y ∈ Buf i :: (Buf <$> l)) as Hpy.
    { clear -H3. revert i H3. induction l as [|j l IHl]; intros i H3; cbn in *.
      - destruct H3 as [_ ->]. set_solver.
      - destruct H3 as (_ & _ & H3). apply IHl in H3. set_solver. }
    split; [rewrite Hn; [done|by left|intros ->; set_solver]|].
    split; [rewrite Hp; [done|set_solver]|]. apply IH; try done.
    + set_solver.
    + intros z Hz. apply Hn. set_solver.
    + intros z Hz. apply Hp. set_solver.
Qed.

Lemma links_last c x l y : links c x l y -> valid_ref c x -> (forall i, i ∈ l -> valid_ref c (Buf i)) ->
  valid_ref c (prev_of c y) /\ (prev_of c y = x \/ prev_of c y ∈ (Buf <$> l)).
Proof.
  revert x. induction l as [|i l IH]; intros x H Hx Hv; cbn in *.
  - destruct H as [_ ->]. auto.
  - destruct H as (_ & _ & H). destruct (IH (Buf i) H) as [H1 H2]; [apply Hv; set_solver|set_solver|].
    split; [done|]. right. set_solver.
Qed.

Lemma links_first c x l y : links c x l y -> next_of c x = match l with [] => y | i :: _ => Buf i end.
Proof. destruct l; cbn; [by intros [? _]|by intros (? & _)]. Qed.

Lemma ring_unlink c l1 i l2 :
  ring c (l1 ++ i :: l2) ->
  links (unlink i c) Head (l1 ++ l2) Head /\ length (bc_buf (unlink i c)) = length (bc_buf c).
Proof.
  intros [Hl Hnd Hb]. apply links_app in Hl as [La Lb].
  apply NoDup_app in Hnd as (Hnd1 & Hdis & Hnd2). apply NoDup_cons in Hnd2 as [Hi2 Hnd2].
  assert (i ∉ l1) as Hi1 by (intros Hc; apply (Hdis i Hc); set_solver).
  pose proof (links_first _ _ _ _ Lb) as Hfirst.
  destruct (links_last c Head l1 (Buf i) La) as [Hvp Hp]; [done|intros j Hj; apply Hb; set_solver|].
  set (p := prev_of c (Buf i)) in *. set (n := next_of c (Buf i)) in *.
  assert (n <> Buf i) as Hni by (rewrite Hfirst; destruct l2; [done|set_solver]).
  assert (valid_ref c n) as Hvn.
  { rewrite Hfirst. destruct l2 as [|j l2]; [done|]. apply Hb. set_solver. }
  assert (unlink i c = set_next p n (set_prev n p c)) as ->.
  { unfold unlink. fold p. fold n. f_equal; [|by rewrite next_set_prev].
    rewrite prev_set_prev by done. by rewrite decide_False. }
  set (c' := set_next p n (set_prev n p c)).
  assert (forall z, next_of c' z = if decide (z = p) then n else next_of c z) as Hnx.
  { intros z. unfold c'. rewrite next_set_next by (by rewrite valid_set_prev). by rewrite next_set_prev. }
  assert (forall z, prev_of c' z = if decide (z = n) then p else prev_of c z) as Hpv.
  { intros z. unfold c'. by rewrite prev_set_next, prev_set_prev. }
  split; [|unfold c'; destruct p, n; cbn; by rewrite ?length_alter].
  assert (links c' Head l1 n) as L1.
  { apply (links_turn c c' Head l1 (Buf i)); try done.
    - set_solver.
    - rewrite Hnx. by rewrite decide_True.
    - rewrite Hpv. by rewrite decide_True.
    - intros z _ Hz. rewrite Hnx. by rewrite decide_False.
    - intros z Hz. rewrite Hpv. rewrite decide_False; [done|]. rewrite Hfirst. intros ->.
      destruct l2 as [|j l2]; [set_solver|]. apply list_elem_of_fmap in Hz as (j' & [= ->] & Hj).
      apply (Hdis j'); set_solver. }
  destruct l2 as [|j l2]; [by rewrite app_nil_r; rewrite Hfirst in L1|].
  apply links_app. rewrite Hfirst in L1. split; [done|]. cbn in Lb. destruct Lb as (_ & _ & Lb).
  apply (links_ext c); [done| |].
  - intros z Hz. rewrite Hnx, decide_False; [done|]. intros ->.
    destruct Hp as [Hp|Hp]; rewrite Hp in Hz || idtac.
    + set_solver.
    + apply list_elem_of_fmap in Hp as (k & Hk & Hk1). rewrite Hk in Hz.
      apply (Hdis k); set_solver.
  - intros z Hz. rewrite Hpv, decide_False; [done|]. rewrite Hfirst. intros ->.
    destruct Hz as [Hz|Hz]; [done|]. apply NoDup_cons in Hnd2 as [Hj _]. set_solver.
Qed.

Lemma links_insert_front c i l :
  links c Head l Head -> i ∉ l -> NoDup l -> (forall j, j ∈ l -> (j < length (bc_buf c))%nat) ->
  (i < length (bc_buf c))%nat ->
  links (insert_front i c) Head (i :: l) Head /\
  length (bc_buf (insert_front i c)) = length (bc_buf c).
Proof.
  intros Hl Hi Hnd Hb Hib. pose proof (links_first _ _ _ _ Hl) as Hfirst.
  set (n := next_of c Head) in *.
  assert (n <> Buf i) as Hni by (rewrite Hfirst; destruct l; [done|set_solver]).
  assert (valid_ref c n) as Hvn.
  { rewrite Hfirst. destruct l as [|j l]; [done|]. apply Hb. set_solver. }
  assert (insert_front i c = set_next Head (Buf i) (set_prev n (Buf i) (set_prev (Buf i) Head (set_next (Buf i) n c)))) as ->.
  { unfold insert_front. fold n. done. }
  set (c' := set_next Head (Buf i) _).
  assert (forall z, next_of c' z = if decide (z = Head) then Buf i else if decide (z = Buf i) then n else next_of c z) as Hnx.
  { intros z. unfold c'. rewrite next_set_next by done. rewrite !next_set_prev. by rewrite next_set_next. }
  assert (forall z, prev_of c' z = if decide (z = n) then Buf i else if decide (z = Buf i) then Head else prev_of c z) as Hpv.
  { intros z. unfold c'. rewrite prev_set_next.
    rewrite prev_set_prev by (rewrite valid_set_prev, valid_set_next; done).
    rewrite prev_set_prev by (rewrite valid_set_next; done). by rewrite prev_set_next. }
  split; [|unfold c'; destruct n; cbn; by rewrite ?length_alter].
  cbn [links]. split; [by rewrite Hnx, decide_True|].
  split; [rewrite Hpv, decide_False, decide_True by done; done|].
  destruct l as [|j l].
  - cbn [links]. split; [rewrite Hnx, decide_False, decide_True by done; done|].
    rewrite Hpv, decide_True by done. done.
  - cbn in Hl |- *. destruct Hl as (H1 & H2 & H3). apply NoDup_cons in Hnd as [Hj Hnd].
    split; [rewrite Hnx, decide_False, decide_True by done; done|].
    split; [rewrite Hpv, decide_True by done; done|]. apply (links_ext c); [done| |].
    + intros z Hz. rewrite Hnx, !decide_False; [done|set_solver|].
      destruct Hz as [->|Hz]; [done|]. set_solver.
    + intros z Hz. rewrite Hpv, !decide_False; [done| |].
      * intros ->. destruct Hz as [Hz|Hz]; [done|]. set_solver.
      * rewrite Hfirst. intros ->. destruct Hz as [Hz|Hz]; [done|]. set_solver.
Qed.

(** brelse moves the buffer to the front. *)
Lemma ring_to_front c l1 i l2 :
  ring c (l1 ++ i :: l2) -> ring (insert_front i (unlink i c)) (i :: l1 ++ l2).
Proof.
  intros Hr. destruct (ring_unlink _ _ _ _ Hr) as [Hl Hlen]. destruct Hr as [_ Hnd Hb].
  apply NoDup_app in Hnd as (Hnd1 & Hdis & Hnd2). apply NoDup_cons in Hnd2 as [Hi2 Hnd2].
  assert (i ∉ l1 ++ l2) as Hi.
  { rewrite elem_of_app. intros [Hc|Hc]; [|done]. apply (Hdis i Hc). set_solver. }
  assert (NoDup (l1 ++ l2)) as Hnd.
  { apply NoDup_app. split; [done|split; [|done]]. intros x Hx Hx2. apply (Hdis x Hx). set_solver. }
  destruct (links_insert_front (unlink i c) i (l1 ++ l2)) as [L Hlen']; try done.
  - intros j Hj. rewrite Hlen. apply Hb. set_solver.
  - rewrite Hlen. apply Hb. set_solver.
  - split; [done|by constructor|]. intros j Hj. rewrite Hlen', Hlen. apply Hb. set_solver.
Qed.

(** A change of a buffer that leaves its links alone. *)
Lemma ring_upd c i f l :
  (forall b, b_next (f b) = b_next b /\ b_prev (f b) = b_prev b) -> ring c l ->
  ring {| bc_buf := alter f i (bc_buf c); bc_prev := bc_prev c; bc_next := bc_next c |} l.
Proof.
  intros Hf [Hl Hnd Hb]. set (c' := {| bc_buf := _ |}).
  assert (forall z, next_of c' z = next_of c z /\ prev_of c' z = prev_of c z) as Hz.
  { intros [|j]; [done|]. unfold next_of, prev_of. cbn. destruct (decide (i = j)) as [<-|Hne].
    - rewrite list_lookup_alter_eq. destruct (bc_buf c !! i) as [b|]; [|done]. cbn. apply Hf.
    - by rewrite list_lookup_alter_ne. }
  split; [|done|by intros j Hj; cbn; rewrite length_alter; apply Hb].
  apply (links_ext c); [done|intros z _; by apply Hz..].
Qed.

(** The first buffer of the list that passes the test. *)
Definition first_such (test : buf -> bool) (c : bcache_t) (l : list nat) : option nat :=
  snd <$> list_find (fun i => test (default buf_zero (bc_buf c !! i)) = true) l.

Lemma scan_ok fuel test c x l :
  links c x l Head -> (length l <= fuel)%nat ->
  scan fuel test c (next_of c x) = Some (first_such test c l).
Proof.
  revert fuel x. induction l as [|i l IH]; intros fuel x Hl Hf; cbn in Hl.
  - destruct Hl as [-> _]. by destruct fuel.
  - destruct Hl as (-> & _ & Hl). destruct fuel as [|fuel]; [cbn in Hf; lia|]. cbn [scan].
    unfold first_such. cbn [list_find].
    destruct (test (default buf_zero (bc_buf c !! i))) eqn:E; [by rewrite decide_True|].
    rewrite decide_False by done. rewrite (IH fuel (Buf i) Hl) by (cbn in Hf; lia).
    unfold first_such. by destruct (list_find _ l) as [[]|].
Qed.

Lemma scan_cache_ok test s l :
  ring (k_bcache s) l -> (length l <= 90)%nat ->
  scan_cache test s = Ok (first_such test (k_bcache s) l) s.
Proof.
  intros [Hl _ _] Hlen. unfold scan_cache, bind, get.
  change (bc_next (k_bcache s)) with (next_of (k_bcache s) Head).
  rewrite (scan_ok _ test _ Head l Hl) by done. done.
Qed.

(** ** binit *)

Lemma ring_insert c i l :
  ring c l -> i ∉ l -> (i < length (bc_buf c))%nat ->
  ring (insert_front i c) (i :: l) /\ length (bc_buf (insert_front i c)) = length (bc_buf c).
Proof.
  intros [Hl Hnd Hb] Hi Hib. destruct (links_insert_front c i l) as [L Hlen]; try done.
  split; [|done]. split; [done|by constructor|]. intros j Hj. rewrite Hlen. set_solver.
Qed.

(** The list after [k] turns of binit's loop. *)
Fixpoint initial_lru (k : nat) : list nat :=
  match k with O => [] | S k' => k' :: initial_lru k' end.

Lemma elem_of_initial_lru k i : i ∈ initial_lru k <-> (i < k)%nat.
Proof.
  induction k as [|k IH]; cbn; [split; [by intros H%elem_of_nil|lia]|].
  rewrite elem_of_cons, IH. lia.
Qed.

Lemma binit_loop n k s :
  ring (k_bcache s) (initial_lru k) -> length (bc_buf (k_bcache s)) = (k + n)%nat ->
  exists s', foreach (seq k n) (fun i => do! initsleeplock (buf_sl i); mod_bcache (insert_front i)) s = Ok tt s' /\
    ring (k_bcache s') (initial_lru (k + n)) /\ length (bc_buf (k_bcache s')) = (k + n)%nat.
Proof.
  revert k s. induction n as [|n IH]; intros k s Hr Hlen.
  { exists s. rewrite Nat.add_0_r in *. done. }
  set (c1 := {| bc_buf := alter (buf_lock {| sl_locked := 0; sl_pid := 0 |}) k (bc_buf (k_bcache s));
                bc_prev := bc_prev (k_bcache s); bc_next := bc_next (k_bcache s) |}).
  assert (ring c1 (initial_lru k)) as Hr1 by (by apply ring_upd).
  assert (length (bc_buf c1) = (k + S n)%nat) as Hlen1 by (cbn; by rewrite length_alter).
  destruct (ring_insert c1 k (initial_lru k) Hr1) as [Hr2 Hlen2].
  { rewrite elem_of_initial_lru. lia. } { lia. }
  destruct (IH (S k) (set_bcache (insert_front k c1) (set_lock (L_buf k) (unlocked "sleep lock") s)))
    as (s' & E & Hr' & Hlen').
  { exact Hr2. } { cbn [k_bcache set_bcache]. lia. }
  exists s'. replace (k + S n)%nat with (S k + n)%nat by lia. split; [|done].
  cbn [seq foreach]. exact E.
Qed.

Lemma binit_ring s :
  length (bc_buf (k_bcache s)) = 90%nat ->
  exists s', binit s = Ok tt s' /\ ring (k_bcache s') (initial_lru 90) /\
    length (bc_buf (k_bcache s')) = 90%nat.
Proof.
  intros Hlen. unfold binit. change (Z.to_nat NBUF) with 90%nat.
  apply (binit_loop 90 0); [|done]. split; [done|constructor|]. by intros i Hi%elem_of_nil.
Qed.

(** Binit links all the buffers into the list, each once, the last one
    initialised first, with forward and backward links that agree. *)
Theorem binit_correct s :
  length (bc_buf (k_bcache s)) = 90%nat ->
  exists s', binit s = Ok tt s' /\ ring (k_bcache s') (initial_lru 90) /\
    length (bc_buf (k_bcache s')) = 90%nat.
Proof. apply binit_ring. Qed.

Lemma binit_correct_witness :
  exists s', binit boot_kernel = Ok tt s' /\ ring (k_bcache s') (initial_lru 90).
Proof.
  destruct (binit_correct boot_kernel) as (s' & E & H & _); [reflexivity|]. exists s'. by split.
Defined.

(** ** The routines on a well-formed cache *)

Lemma upd_buf_private i f : private (upd_buf i f).
Proof. by split. Qed.
#[export] Hint Resolve upd_buf_private : core.

Record bio_ok (l : list nat) (s : kernel) : Prop := {
  bio_ring : ring (k_bcache s) l;
  bio_len : length (bc_buf (k_bcache s)) = 90%nat;
  bio_perm : l ≡ₚ seq 0 90;
  bio_lock : lock_free L_bcache s;
  bio_locks : forall i, (i < 90)%nat -> lock_free (L_buf i) s
}.

Lemma bio_index l s i : bio_ok l s -> i ∈ l <-> (i < 90)%nat.
Proof. intros H. rewrite (bio_perm _ _ H), elem_of_seq. lia. Qed.

Lemma bio_length l s : bio_ok l s -> length l = 90%nat.
Proof. intros H. rewrite (bio_perm _ _ H). apply length_seq. Qed.

Lemma first_such_in test c l i :
  first_such test c l = Some i -> i ∈ l /\ test (default buf_zero (bc_buf c !! i)) = true.
Proof.
  unfold first_such. rewrite fmap_Some. intros ([k j] & H & ->). cbn.
  apply list_find_Some in H as (H1 & H2 & _). split; [by eapply list_elem_of_lookup_2|done].
Qed.

Lemma caller_private f i p s :
  private f -> k_procs (f s) = k_procs s -> caller i p s -> caller i p (f s).
Proof.
  intros Hf Hp [H1 H2 H3 [H4 H5]]. pose proof Hf as [_ _ F3 F4]. split.
  - by rewrite F3.
  - unfold me_of. by rewrite F3.
  - by rewrite Hp.
  - split; [by rewrite Hp|]. intros j Hj. destruct (H5 j Hj) as [nm E]. exists nm. by rewrite F4.
Qed.

Lemma caller_settle i p s : caller i p s -> caller i p (settle s).
Proof.
  intros [H1 H2 H3 [H4 H5]]. split; [by apply settle_roomy|by rewrite settle_me|done|done].
Qed.

Lemma lock_free_private f l s : private f -> lock_free l s -> lock_free l (f s).
Proof. intros [_ _ _ H] [nm E]. exists nm. by rewrite H. Qed.

(** The locked buffer the caller gets. *)
Definition mine (p : PCB) : sleeplock := {| sl_locked := 1; sl_pid := p_pid p |}.

Lemma upd_buf_upd_buf i f g s : upd_buf i f (upd_buf i g s) = upd_buf i (fun b => f (g b)) s.
Proof. unfold upd_buf. cbn. by rewrite list_alter_alter_eq. Qed.

Lemma buf_lookup_upd i f s b :
  bc_buf (k_bcache s) !! i = Some b -> bc_buf (k_bcache (upd_buf i f s)) !! i = Some (f b).
Proof. intros H. cbn. by rewrite list_lookup_alter_eq, H. Qed.

(** A hit, on a buffer nobody has locked: two references are counted. *)
Definition hit_by (p : PCB) (b : buf) : buf :=
  buf_refcnt (u32 (u32 (b_refcnt b + 1) + 1)) (buf_lock (mine p) b).

Lemma bget_hit l s me p dev bn i b :
  caller me p s -> bio_ok l s -> first_such (is_block dev bn) (k_bcache s) l = Some i ->
  bc_buf (k_bcache s) !! i = Some b -> sl_locked (b_lock b) = 0 ->
  bget dev bn s = Ok i (upd_buf i (hit_by p) (settle s)).
Proof.
  intros Hc Hb Hf Hi Hz. pose proof (ca_hart _ _ _ Hc) as [Hh _]. unfold bget.
  mstep (acquire_ok L_bcache s (bio_lock _ _ Hb) Hh).
  assert (ring (k_bcache (locked L_bcache s)) l) as Hr by apply (bio_ring _ _ Hb).
  mstep (scan_cache_ok (is_block dev bn) (locked L_bcache s) l Hr ltac:(rewrite (bio_length _ _ Hb); lia)).
  change (k_bcache (locked L_bcache s)) with (k_bcache s). rewrite Hf.
  unfold bind at 1, modify at 1. rewrite (bind_ok _ _ _ _ _ (release_private L_bcache _ s (upd_buf_private i _) (bio_lock _ _ Hb) Hh)).
  set (s1 := upd_buf i _ (settle s)).
  assert (i < 90)%nat as Hi90 by (rewrite <- (bio_len _ _ Hb); by eapply lookup_lt_Some).
  assert (caller me p s1) as Hc1 by (apply caller_private; [done|done|by apply caller_settle]).
  assert (lock_free (L_buf i) s1) as Hl1 by (apply lock_free_private; [done|by apply (bio_locks _ _ Hb)]).
  assert (sl_locked (sl_of (buf_sl i) s1) = 0) as Hz1.
  { cbn. rewrite list_lookup_alter_eq, Hi. done. }
  rewrite (bind_ok _ _ _ _ _ (acquiresleep_ok (buf_sl i) me p s1 Hc1 Hl1 Hz1)).
  unfold bind, modify, ret. f_equal. unfold s1. rewrite settle_private, settle_eq by done.
  cbn [buf_sl sl_put]. by rewrite !upd_buf_upd_buf.
Qed.

(** A miss: the first buffer of the list with no references is taken over. *)
Definition miss_by (p : PCB) (dev bn : Z) (b : buf) : buf :=
  buf_lock (mine p) (buf_id 0 (u32 dev) (u32 bn) 1 b).

Lemma bget_miss l s me p dev bn i b :
  caller me p s -> bio_ok l s -> first_such (is_block dev bn) (k_bcache s) l = None ->
  first_such is_free (k_bcache s) l = Some i ->
  bc_buf (k_bcache s) !! i = Some b -> sl_locked (b_lock b) = 0 ->
  bget dev bn s = Ok i (upd_buf i (miss_by p dev bn) (settle s)).
Proof.
  intros Hc Hb Hf Hf2 Hi Hz. pose proof (ca_hart _ _ _ Hc) as [Hh _]. unfold bget.
  mstep (acquire_ok L_bcache s (bio_lock _ _ Hb) Hh).
  assert (ring (k_bcache (locked L_bcache s)) l) as Hr by apply (bio_ring _ _ Hb).
  pose proof (fun t => scan_cache_ok t (locked L_bcache s) l Hr ltac:(rewrite (bio_length _ _ Hb); lia)) as Hscan.
  change (k_bcache (locked L_bcache s)) with (k_bcache s) in Hscan.
  mstep (Hscan (is_block dev bn)). rewrite Hf. mstep (Hscan is_free). rewrite Hf2.
  unfold bind at 1, modify at 1. rewrite (bind_ok _ _ _ _ _ (release_private L_bcache _ s (upd_buf_private i _) (bio_lock _ _ Hb) Hh)).
  set (s1 := upd_buf i _ (settle s)).
  assert (i < 90)%nat as Hi90 by (rewrite <- (bio_len _ _ Hb); by eapply lookup_lt_Some).
  assert (caller me p s1) as Hc1 by (apply caller_private; [done|done|by apply caller_settle]).
  assert (lock_free (L_buf i) s1) as Hl1 by (apply lock_free_private; [done|by apply (bio_locks _ _ Hb)]).
  assert (sl_locked (sl_of (buf_sl i) s1) = 0) as Hz1.
  { cbn. rewrite list_lookup_alter_eq, Hi. done. }
  rewrite (bind_ok _ _ _ _ _ (acquiresleep_ok (buf_sl i) me p s1 Hc1 Hl1 Hz1)).
  unfold ret. f_equal. unfold s1. rewrite settle_private, settle_eq by done.
  cbn [buf_sl sl_put]. by rewrite !upd_buf_upd_buf.
Qed.

(** No free buffer: bget panics, holding the cache's lock. *)
Lemma bget_none l s dev bn :
  hart_ok (k_hart s) -> bio_ok l s -> first_such (is_block dev bn) (k_bcache s) l = None ->
  first_such is_free (k_bcache s) l = None -> k_panicked s = 0 ->
  exists s', bget dev bn s = Stop (Panic "bget: 没有空闲内存块了捏(悲)") s'.
Proof.
  intros Hh Hb Hf Hf2 Hp. unfold bget. mstep (acquire_ok L_bcache s (bio_lock _ _ Hb) Hh).
  assert (ring (k_bcache (locked L_bcache s)) l) as Hr by apply (bio_ring _ _ Hb).
  pose proof (fun t => scan_cache_ok t (locked L_bcache s) l Hr ltac:(rewrite (bio_length _ _ Hb); lia)) as Hscan.
  change (k_bcache (locked L_bcache s)) with (k_bcache s) in Hscan.
  mstep (Hscan (is_block dev bn)). rewrite Hf. mstep (Hscan is_free). rewrite Hf2.
  unfold panic. cbn. rewrite Hp. by eexists.
Qed.
