(* ===== verification/BlockCache.v ===== *)
(** * What the buffer cache promises

    kernel/disk/bio.c over a disk driver that keeps the contract [BlockDevice]:
    the buffers without their list links ([cores]) change one at a time, and in
    terms of the contents of blocks ([view]) and their reference counts
    ([refs]) bread, bwrite and brelse do what the log and the file system rely
    on. The routines run without another process in between. *)

From S2P Require Import Prelude Mem CString State Spinlock Printf Locks Sleep Bio.

(** ** The driver's contract *)

(** A block of the disk; a block never written reads as zeroes. *)
Definition dblock (d : gmap Z (list Z)) (bn : Z) : list Z := default (replicate 1024 0) (d !! bn).
Definition disk_block (s : kernel) (bn : Z) : list Z := dblock (k_disk s) bn.

(** The buffer after its request was served: [b->disk] is 0 again. *)
Definition served (d : list Z) (b : buf) : buf :=
  {| b_valid := b_valid b; b_disk := 0; b_dev := b_dev b; b_blockno := b_blockno b; b_lock := b_lock b;
     b_refcnt := b_refcnt b; b_prev := b_prev b; b_next := b_next b; b_data := d |}.

(** What the cache and the driver never touch; interrupts are as before once the
    critical sections are left. *)
Definition rest (s : kernel) :=
  (hart_settle (k_hart s), k_mem s, k_sb s, k_itable s, k_ftable s, k_kmem s, k_kpgtbl s, k_nextpid s,
   k_initproc s).

Record transfer (i : nat) (f : buf -> buf) (d : gmap Z (list Z)) (s s' : kernel) : Prop := {
  tr_bcache : k_bcache s' = k_bcache (upd_buf i f s);
  tr_disk : k_disk s' = d;
  tr_locks : k_locks s' = k_locks s;
  tr_hart : k_hart s' = hart_settle (k_hart s);
  tr_procs : length (k_procs s') = length (k_procs s) /\
    forall me, me_of s = Some me -> k_procs s' !! me = k_procs s !! me;
  tr_log : k_log s' = k_log s;
  tr_panic : k_panicked s' = k_panicked s /\ k_panicking s' = k_panicking s;
  tr_rest : rest s' = rest s
}.

Class BlockDevice (virtio_disk_rw : nat -> Z -> KM unit) := {
  bd_ready : kernel -> Prop;
  bd_stable : forall s s', k_locks s' !! L_vdisk = k_locks s !! L_vdisk -> k_vdisk s' = k_vdisk s ->
    bd_ready s -> bd_ready s';
  bd_read : forall me p i b s,
    caller me p s -> bd_ready s -> bc_buf (k_bcache s) !! i = Some b -> 0 <= b_blockno b < 2 ^ 31 ->
    exists s', virtio_disk_rw i 0 s = Ok tt s' /\ bd_ready s' /\
      transfer i (served (disk_block s (b_blockno b))) (k_disk s) s s';
  bd_write : forall me p i b s,
    caller me p s -> bd_ready s -> bc_buf (k_bcache s) !! i = Some b -> 0 <= b_blockno b < 2 ^ 31 ->
    exists s', virtio_disk_rw i 1 s = Ok tt s' /\ bd_ready s' /\
      transfer i (served (b_data b)) (<[b_blockno b := b_data b]> (k_disk s)) s s'
}.

(** ** The buffers without their links *)

Definition strip (b : buf) : buf := buf_prev Head (buf_next Head b).
Definition cores_of (c : bcache_t) : list buf := strip <$> bc_buf c.
Abbreviation cores s := (cores_of (k_bcache s)).

Lemma cores_upd i f s :
  (forall b, strip (f b) = f (strip b)) -> cores (upd_buf i f s) = alter f i (cores s).
Proof. intros Hf. cbn. apply list_fmap_alter. apply Forall_forall. intros b _. apply Hf. Qed.

Lemma cores_set_next x y c : cores_of (set_next x y c) = cores_of c.
Proof.
  destruct x as [|i]; [done|]. unfold cores_of. cbn. rewrite (list_fmap_alter _ _ id) by (by apply Forall_forall).
  by apply list_alter_id.
Qed.
Lemma cores_set_prev x y c : cores_of (set_prev x y c) = cores_of c.
Proof.
  destruct x as [|i]; [done|]. unfold cores_of. cbn. rewrite (list_fmap_alter _ _ id) by (by apply Forall_forall).
  by apply list_alter_id.
Qed.

Lemma cores_to_front i c : cores_of (insert_front i (unlink i c)) = cores_of c.
Proof. unfold insert_front, unlink. by rewrite !cores_set_next, !cores_set_prev, !cores_set_next, !cores_set_prev. Qed.

Lemma cores_lookup s i b : cores s !! i = Some b -> exists b0, bc_buf (k_bcache s) !! i = Some b0 /\ b = strip b0.
Proof. unfold cores_of. rewrite list_lookup_fmap, fmap_Some. naive_solver. Qed.

Lemma lookup_cores s i b : bc_buf (k_bcache s) !! i = Some b -> cores s !! i = Some (strip b).
Proof. unfold cores_of. rewrite list_lookup_fmap. by intros ->. Qed.

(** The scans only look at what is left. *)
Lemma first_such_some test s l i :
  (forall b, test (strip b) = test b) -> bio_ok l s -> first_such test (k_bcache s) l = Some i ->
  exists b, cores s !! i = Some b /\ test b = true.
Proof.
  intros Ht Hb H. apply first_such_in in H as [H1 H2]. rewrite (bio_index _ _ _ Hb) in H1.
  rewrite <- (bio_len _ _ Hb) in H1. destruct (lookup_lt_is_Some_2 _ _ H1) as [b E]. rewrite E in H2.
  exists (strip b). split; [by apply lookup_cores|]. by rewrite Ht.
Qed.

Lemma first_such_none test s l :
  (forall b, test (strip b) = test b) -> bio_ok l s -> first_such test (k_bcache s) l = None ->
  forall i b, cores s !! i = Some b -> test b = false.
Proof.
  intros Ht Hb H i b Hi. apply cores_lookup in Hi as (b0 & Hi & ->). rewrite Ht.
  unfold first_such in H. apply fmap_None in H. apply list_find_None in H. rewrite Forall_forall in H.
  destruct (test b0) eqn:E; [|done]. exfalso. apply (H i).
  - rewrite (bio_index _ _ _ Hb), <- (bio_len _ _ Hb). by eapply lookup_lt_Some.
  - by rewrite Hi.
Qed.

(** ** One step of a process on the cache *)

Section Cache.
Context {virtio_disk_rw : nat -> Z -> KM unit} {dev_ok : BlockDevice virtio_disk_rw}.
Abbreviation bread := (bread virtio_disk_rw).
Abbreviation bwrite := (bwrite virtio_disk_rw).

Context (me : nat) (p : PCB).

Record cenv (s : kernel) : Prop := {
  ce_caller : caller me p s;
  ce_bio : exists l, bio_ok l s;
  ce_dev : bd_ready s
}.

(** The cache and the disk become [cs'] and [d']; the process, the log and the
    locks are as before. *)
Record step (cs' : list buf) (d' : gmap Z (list Z)) (s s' : kernel) : Prop := {
  st_env : cenv s';
  st_cores : cores s' = cs';
  st_disk : k_disk s' = d';
  st_log : k_log s' = k_log s;
  st_locks : k_locks s' = k_locks s;
  st_panic : k_panicked s' = k_panicked s /\ k_panicking s' = k_panicking s;
  st_rest : rest s' = rest s
}.

Lemma step_trans cs1 d1 cs2 d2 s s1 s2 :
  step cs1 d1 s s1 -> step cs2 d2 s1 s2 -> step cs2 d2 s s2.
Proof.
  intros [_ _ _ H1 H2 [H3 H4] HR1] [H5 H6 H7 H8 H9 [H10 H11] HR2].
  split; try done; [by rewrite H8|by rewrite H9|split; congruence|congruence].
Qed.

Lemma rest_settle s : rest (settle s) = rest s.
Proof. unfold rest, settle. cbn. by rewrite hart_settle_idem. Qed.

Lemma bio_ok_same l s s' :
  bio_ok l s -> ring (k_bcache s') l -> length (bc_buf (k_bcache s')) = 90%nat -> k_locks s' = k_locks s ->
  bio_ok l s'.
Proof.
  intros [H1 H2 H3 H4 H5] Hr Hl E. split; try done.
  - destruct H4 as [nm H4]. exists nm. by rewrite E.
  - intros i Hi. destruct (H5 i Hi) as [nm H]. exists nm. by rewrite E.
Qed.

Lemma bio_ok_upd l i f s :
  (forall b, b_next (f b) = b_next b /\ b_prev (f b) = b_prev b) -> bio_ok l s -> bio_ok l (upd_buf i f s).
Proof.
  intros Hf Hb. apply (bio_ok_same l s); [done| | |done].
  - by apply ring_upd, bio_ring.
  - cbn. by rewrite length_alter, (bio_len _ _ Hb).
Qed.

Lemma cenv_settle s : cenv s -> cenv (settle s).
Proof.
  intros [H1 [l H2] H3]. split; [by apply caller_settle| |by apply (bd_stable s)].
  exists l. apply (bio_ok_same l s); [done|apply (bio_ring _ _ H2)|apply (bio_len _ _ H2)|done].
Qed.

Lemma cenv_upd i f s :
  (forall b, b_next (f b) = b_next b /\ b_prev (f b) = b_prev b) -> cenv s -> cenv (upd_buf i f s).
Proof.
  intros Hf [H1 [l H2] H3]. split; [by apply caller_private| |by apply (bd_stable s)].
  exists l. by apply bio_ok_upd.
Qed.

(** Changing a buffer's own fields. *)
Lemma upd_step i f s :
  (forall b, strip (f b) = f (strip b)) -> (forall b, b_next (f b) = b_next b /\ b_prev (f b) = b_prev b) ->
  cenv s -> step (alter f i (cores s)) (k_disk s) s (upd_buf i f s).
Proof. intros H1 H2 Hs. split; [by apply cenv_upd|by apply cores_upd|done..]. Qed.

Lemma settled_step i f s :
  (forall b, strip (f b) = f (strip b)) -> (forall b, b_next (f b) = b_next b /\ b_prev (f b) = b_prev b) ->
  cenv s -> step (alter f i (cores s)) (k_disk s) s (upd_buf i f (settle s)).
Proof. intros H1 H2 Hs. split; [by apply cenv_upd, cenv_settle|exact (cores_upd i f (settle s) H1)|done..|exact (rest_settle s)]. Qed.

Lemma transfer_step i d dsk s s' :
  cenv s -> bd_ready s' -> transfer i (served d) dsk s s' -> step (alter (served d) i (cores s)) dsk s s'.
Proof.
  intros Hs Hr [H1 H2 H3 H4 [H5 H5'] H6 H7 H8].
  destruct (cenv_upd i (served d) _ ltac:(done) (cenv_settle _ Hs)) as [C [l B] R].
  assert (cores s' = alter (served d) i (cores s)) as Hcs by (rewrite H1; by apply cores_upd).
  destruct (ce_caller _ Hs) as [_ Hme Hmine _].
  split; try done. split; [| |done].
  - destruct C as [C1 C2 C3 [C4 C5]]. split; rewrite ?H4; try done.
    + unfold me_of. rewrite H4. exact C2.
    + by rewrite (H5' me Hme).
    + split; [by rewrite H5|]. intros j Hj. destruct (C5 j Hj) as [nm E]. exists nm. by rewrite H3.
  - exists l. apply (bio_ok_same l (upd_buf i (served d) (settle s))); [done| | |done].
    + rewrite H1. apply (bio_ring _ _ B).
    + rewrite H1. apply (bio_len _ _ B).
Qed.

(** *** bpin, bunpin *)

Lemma ref_step i g s :
  cenv s ->
  step (alter (fun b => buf_refcnt (u32 (g (b_refcnt b))) b) i (cores s)) (k_disk s) s
    (upd_buf i (fun b => buf_refcnt (u32 (g (b_refcnt b))) b) (settle s)).
Proof. intros Hs. by apply settled_step. Qed.

Lemma bpin_step i s :
  cenv s -> exists s', bpin i s = Ok tt s' /\
    step (alter (fun b => buf_refcnt (u32 (b_refcnt b + 1)) b) i (cores s)) (k_disk s) s s'.
Proof.
  intros Hs. eexists. split; [|by apply (ref_step i (fun n => n + 1))].
  destruct Hs as [C [l B] _]. apply section_ok; [done|apply (bio_lock _ _ B)|apply (ca_hart _ _ _ C)].
Qed.

Lemma bunpin_step i s :
  cenv s -> exists s', bunpin i s = Ok tt s' /\
    step (alter (fun b => buf_refcnt (u32 (b_refcnt b - 1)) b) i (cores s)) (k_disk s) s s'.
Proof.
  intros Hs. eexists. split; [|by apply (ref_step i (fun n => n - 1))].
  destruct Hs as [C [l B] _]. apply section_ok; [done|apply (bio_lock _ _ B)|apply (ca_hart _ _ _ C)].
Qed.

(** *** bread *)

(** The buffer bread returns: refilled from the disk unless it was valid. *)
Definition filled (blk : list Z) (b : buf) : buf :=
  if truthy (b_valid b) then b else buf_valid 1 (served blk b).
Definition got (dev bn : Z) (b : buf) : buf :=
  if is_block dev bn b then hit_by p b else miss_by p dev bn b.

Lemma fill_step i b s :
  cenv s -> cores s !! i = Some b -> 0 <= b_blockno b < 2 ^ 31 ->
  exists s', (let! v := buf_get i b_valid in
              do! (when! negb (truthy v) then do! virtio_disk_rw i 0; modify (upd_buf i (buf_valid 1)));
              ret i) s = Ok i s' /\
    step (alter (filled (disk_block s (b_blockno b))) i (cores s)) (k_disk s) s s'.
Proof.
  intros Hs Hi Hbn. pose proof Hi as (b0 & Hi0 & ->)%cores_lookup.
  unfold bind at 1, buf_get, get. rewrite Hi0. cbn [from_option id].
  destruct (truthy (b_valid b0)) eqn:Ev; cbn [negb].
  - exists s. split; [done|]. rewrite (alter_id_strong _ _ i (strip b0)); [by split|done|].
    unfold filled. change (b_valid (strip b0)) with (b_valid b0). by rewrite Ev.
  - destruct (bd_read me p i b0 s (ce_caller _ Hs) (ce_dev _ Hs) Hi0 Hbn) as (s1 & E & R1 & T).
    apply transfer_step in T; [|done..]. exists (upd_buf i (buf_valid 1) s1).
    rewrite bind_assoc. mstep E. split; [done|]. eapply step_trans; [exact T|].
    pose proof (upd_step i (buf_valid 1) s1 ltac:(done) ltac:(done) (st_env _ _ _ _ T)) as T2.
    rewrite (st_cores _ _ _ _ T), (st_disk _ _ _ _ T) in T2. rewrite list_alter_alter_eq in T2.
    erewrite list_alter_ext; [exact T2| |done]. intros x Hx. rewrite Hi in Hx. injection Hx as <-.
    unfold filled. change (b_valid (strip b0)) with (b_valid b0). by rewrite Ev.
Qed.

Lemma filled_got_blockno dev bn b : b_blockno (got dev bn b) = u32 bn.
Proof.
  unfold got, is_block. destruct (b_dev b =? u32 dev), (Z.eqb_spec (b_blockno b) (u32 bn)); done.
Qed.

Lemma bread_step dev bn s :
  cenv s -> u32 bn < 2 ^ 31 ->
  (forall i b, cores s !! i = Some b -> is_block dev bn b = true \/ b_refcnt b = 0 -> sl_locked (b_lock b) = 0) ->
  (exists i b, cores s !! i = Some b /\ b_refcnt b = 0) ->
  exists i b s', cores s !! i = Some b /\
    (is_block dev bn b = true \/
     (b_refcnt b = 0 /\ forall j b', cores s !! j = Some b' -> is_block dev bn b' = false)) /\
    bread dev bn s = Ok i s' /\
    step (alter (fun b => filled (disk_block s (u32 bn)) (got dev bn b)) i (cores s)) (k_disk s) s s'.
Proof.
  intros Hs Hbn Hidle (fi & fb & Hf & Hfree). pose proof Hs as [C [l B] _].
  assert (exists i b s1, cores s !! i = Some b /\
    (is_block dev bn b = true \/
     (b_refcnt b = 0 /\ forall j b', cores s !! j = Some b' -> is_block dev bn b' = false)) /\
    bget dev bn s = Ok i s1 /\ step (alter (got dev bn) i (cores s)) (k_disk s) s s1) as
    (i & b & s1 & Hi & Hcase & E & T).
  { destruct (first_such (is_block dev bn) (k_bcache s) l) as [i|] eqn:Eh.
    - destruct (first_such_some (is_block dev bn) s l i (fun _ => eq_refl) B Eh) as (b & Hi & Hb).
      pose proof Hi as (b0 & Hi0 & ->)%cores_lookup. eexists i, _, _. split; [exact Hi|]. split; [by left|].
      split; [apply (bget_hit l s me p dev bn i b0); [done..|apply (Hidle i _ Hi); by left]|].
      erewrite list_alter_ext; [by apply settled_step| |done]. intros x Hx. rewrite Hi in Hx. injection Hx as <-.
      unfold got. by rewrite Hb.
    - pose proof (first_such_none (is_block dev bn) s l (fun _ => eq_refl) B Eh) as Hno.
      destruct (first_such is_free (k_bcache s) l) as [i|] eqn:Ef.
      2:{ pose proof (first_such_none is_free s l (fun _ => eq_refl) B Ef fi fb Hf) as Hz. unfold is_free in Hz. zbool. done. }
      destruct (first_such_some is_free s l i (fun _ => eq_refl) B Ef) as (b & Hi & Hb). unfold is_free in Hb. zbool.
      pose proof Hi as (b0 & Hi0 & ->)%cores_lookup. eexists i, _, _. split; [exact Hi|]. split; [by right|].
      split; [apply (bget_miss l s me p dev bn i b0); [done..|apply (Hidle i _ Hi); by right]|].
      erewrite list_alter_ext; [by apply settled_step| |done]. intros x Hx. rewrite Hi in Hx. injection Hx as <-.
      unfold got. by rewrite (Hno i _ Hi). }
  exists i, b. destruct (fill_step i (got dev bn b) s1 (st_env _ _ _ _ T)) as (s2 & E2 & T2).
  { rewrite (st_cores _ _ _ _ T), list_lookup_alter_eq, Hi. done. }
  { rewrite filled_got_blockno. pose proof (u32_range bn). lia. }
  exists s2. split; [done|]. split; [done|]. unfold Bio.bread. mstep E. split; [done|].
  eapply step_trans; [exact T|]. rewrite filled_got_blockno in T2. unfold disk_block in T2.
  rewrite (st_cores _ _ _ _ T), (st_disk _ _ _ _ T), list_alter_alter_eq in T2. exact T2.
Qed.

(** *** bwrite *)

Lemma holding_mine i b s :
  cenv s -> cores s !! i = Some b -> b_lock b = mine p ->
  holdingsleep (buf_sl i) s = Ok 1 (settle s).
Proof.
  intros [C [l B] _] Hi Hm. pose proof Hi as (b0 & Hi0 & ->)%cores_lookup.
  assert (i < 90)%nat as Hlt by (rewrite <- (bio_len _ _ B); by eapply lookup_lt_Some).
  rewrite (holdingsleep_ok (buf_sl i) me p s C (bio_locks _ _ B i Hlt)). cbn [buf_sl sl_of]. rewrite Hi0.
  cbn [from_option id]. change (b_lock (strip b0)) with (b_lock b0) in Hm. rewrite Hm. cbn. by rewrite Z.eqb_refl.
Qed.

Lemma bwrite_step i b s :
  cenv s -> cores s !! i = Some b -> b_lock b = mine p -> 0 <= b_blockno b < 2 ^ 31 ->
  exists s', bwrite i s = Ok tt s' /\
    step (alter (served (b_data b)) i (cores s)) (<[b_blockno b := b_data b]> (k_disk s)) s s'.
Proof.
  intros Hs Hi Hm Hbn. unfold Bio.bwrite. mstep (holding_mine i b s Hs Hi Hm).
  pose proof Hi as (b0 & Hi0 & ->)%cores_lookup. pose proof (cenv_settle _ Hs) as Hs'.
  destruct (bd_write me p i b0 (settle s) (ce_caller _ Hs') (ce_dev _ Hs') Hi0 Hbn) as (s1 & E & R1 & T).
  exists s1. split; [exact E|]. apply transfer_step in T; [|done..]. destruct T. split; try done. by rewrite st_rest0, rest_settle.
Qed.

(** *** brelse *)

Definition dropped (b : buf) : buf :=
  buf_refcnt (u32 (b_refcnt b - 1)) (buf_lock {| sl_locked := 0; sl_pid := 0 |} b).

Lemma cenv_wake ch s : cenv s -> cenv (set_procs (wake_range ch (Some me) 0 64 (k_procs s)) s).
Proof.
  intros [[C1 C2 C3 [C4 C5]] [l B] R]. split.
  - split; [exact C1|exact C2| |split; [|exact C5]]; cbn [k_procs set_procs].
    + rewrite lookup_wake_range, C3. apply lookup_lt_Some in C3. rewrite decide_True by lia.
      cbn. unfold wake1. by rewrite decide_True.
    + by rewrite length_wake_range.
  - exists l. apply (bio_ok_same l s); [done|apply (bio_ring _ _ B)|apply (bio_len _ _ B)|done].
  - by apply (bd_stable s).
Qed.

Lemma releasesleep_step i b s :
  cenv s -> cores s !! i = Some b ->
  exists s', releasesleep (buf_sl i) s = Ok tt s' /\
    step (alter (buf_lock {| sl_locked := 0; sl_pid := 0 |}) i (cores s)) (k_disk s) s s'.
Proof.
  intros Hs Hi. pose proof Hs as [C [l B] _]. pose proof Hi as (b0 & Hi0 & _)%cores_lookup.
  assert (i < 90)%nat as Hlt by (rewrite <- (bio_len _ _ B); by eapply lookup_lt_Some).
  eexists. split; [by apply (releasesleep_ok (buf_sl i) me p s C (bio_locks _ _ B i Hlt))|].
  pose proof (settled_step i (buf_lock {| sl_locked := 0; sl_pid := 0 |}) s ltac:(done) ltac:(done) Hs) as T.
  destruct T as [T1 T2 T3 T4 T5 T6 T7]. split; try done. exact (cenv_wake (Ch_buflock i) _ T1).
Qed.

Definition to_front (i : nat) (s : kernel) : kernel :=
  set_bcache (insert_front i (unlink i (k_bcache s))) s.

Lemma to_front_step i b s :
  cenv s -> cores s !! i = Some b -> step (cores s) (k_disk s) s (to_front i s).
Proof.
  intros [C [l B] R] Hi. pose proof Hi as (b0 & Hi0 & _)%cores_lookup.
  assert (i ∈ l) as Hin by (rewrite (bio_index _ _ _ B), <- (bio_len _ _ B); by eapply lookup_lt_Some).
  apply list_elem_of_split in Hin as (l1 & l2 & ->).
  assert (cores (to_front i s) = cores s) as Hcs by apply cores_to_front.
  split; try done. split; [by apply caller_private| |by apply (bd_stable s)].
  exists (i :: l1 ++ l2). destruct B as [B1 B2 B3 B4 B5]. split; try done.
  - by apply ring_to_front.
  - pose proof (f_equal length Hcs) as E. unfold cores_of in E. rewrite !length_fmap in E. by rewrite E.
  - rewrite <- B3. by rewrite Permutation_middle.
Qed.

Lemma brelse_step i b s :
  cenv s -> cores s !! i = Some b -> b_lock b = mine p ->
  exists s', brelse i s = Ok tt s' /\ step (alter dropped i (cores s)) (k_disk s) s s'.
Proof.
  intros Hs Hi Hm. unfold brelse. mstep (holding_mine i b s Hs Hi Hm). cbn [truthy Z.eqb negb].
  pose proof (cenv_settle _ Hs) as Hs'.
  destruct (releasesleep_step i b (settle s) Hs' Hi) as (s2 & E & T). mstep E.
  pose proof (st_env _ _ _ _ T) as H2. pose proof H2 as [C2 [l B2] _].
  set (dec := fun b => buf_refcnt (u32 (b_refcnt b - 1)) b).
  assert (step (alter dropped i (cores s)) (k_disk s) s (upd_buf i dec (settle s2))) as T3.
  { eapply step_trans; [split; [exact Hs'|done..|apply rest_settle]|]. eapply step_trans; [exact T|].
    pose proof (settled_step i dec s2 ltac:(done) ltac:(done) H2) as T3.
    rewrite (st_cores _ _ _ _ T), (st_disk _ _ _ _ T), list_alter_alter_eq in T3. exact T3. }
  mstep (acquire_ok L_bcache s2 (bio_lock _ _ B2) (proj1 (ca_hart _ _ _ C2))).
  unfold bind at 1, modify at 1. unfold bind at 1, buf_get, get.
  destruct (_ =? 0).
  - exists (to_front i (upd_buf i dec (settle s2))). split.
    + unfold mod_bcache. unfold bind, modify.
      apply (release_private L_bcache (fun s => to_front i (upd_buf i dec s)) s2);
        [by split|apply (bio_lock _ _ B2)|apply (ca_hart _ _ _ C2)].
    + eapply step_trans; [exact T3|]. rewrite <- (st_cores _ _ _ _ T3) at 1.
      rewrite <- (st_disk _ _ _ _ T3). eapply to_front_step; [apply T3|].
      rewrite (st_cores _ _ _ _ T3), list_lookup_alter_eq, Hi. done.
  - exists (upd_buf i dec (settle s2)). split; [|exact T3].
    apply (release_private L_bcache (upd_buf i dec) s2); [done|apply (bio_lock _ _ B2)|apply (ca_hart _ _ _ C2)].
Qed.

(** ** Blocks: contents and references *)

Context (dev : Z).

(** The buffer holds block [m] of the device. *)
Definition owns (m : Z) (b : buf) : bool := (b_dev b =? u32 dev) && (b_blockno b =? m).

Definition owner (cs : list buf) (m : Z) : option buf := snd <$> list_find (fun b => owns m b = true) cs.

(** What a process that reads block [m] through the cache gets. *)
Definition view_of (cs : list buf) (d : gmap Z (list Z)) (m : Z) : list Z :=
  match owner cs m with
  | Some b => if truthy (b_valid b) then b_data b else dblock d m
  | None => dblock d m
  end.
Definition refs_of (cs : list buf) (m : Z) : Z :=
  match owner cs m with Some b => b_refcnt b | None => 0 end.

Definition unreferenced (b : buf) : Prop := b_refcnt b = 0.
#[export] Instance unreferenced_dec b : Decision (unreferenced b).
Proof. unfold unreferenced. apply _. Defined.

Definition unique (cs : list buf) : Prop :=
  forall i j bi bj m, cs !! i = Some bi -> cs !! j = Some bj -> owns m bi = true -> owns m bj = true -> i = j.

(** The cache while the process holds the buffers [H], each with its block:
    [n] more calls of bread are safe. An unreferenced buffer agrees with the
    disk, so that it may be recycled. *)
Record cache (n : nat) (H : gmap nat Z) (cs : list buf) (d : gmap Z (list Z)) : Prop := {
  ca_unique : unique cs;
  ca_held : forall i m, H !! i = Some m -> exists b, cs !! i = Some b /\ owns m b = true /\
    b_lock b = mine p /\ truthy (b_valid b) = true /\ 1 <= b_refcnt b;
  ca_idle : forall i b, cs !! i = Some b -> H !! i = None -> sl_locked (b_lock b) = 0;
  ca_clean : forall i b m, cs !! i = Some b -> owns m b = true -> b_refcnt b = 0 ->
    truthy (b_valid b) = true -> b_data b = dblock d m;
  ca_range : forall i b, cs !! i = Some b -> 0 <= b_refcnt b /\ b_refcnt b + 2 * Z.of_nat n < 2 ^ 32;
  ca_room : (n <= length (filter unreferenced cs))%nat;
  ca_data : forall i b, cs !! i = Some b -> length (b_data b) = 1024%nat;
  ca_disk : forall m, length (dblock d m) = 1024%nat
}.

Lemma owns_inj m m' b : owns m b = true -> owns m' b = true -> m = m'.
Proof. unfold owns. intros. zbool. lia. Qed.

Lemma owner_some cs i b m : unique cs -> cs !! i = Some b -> owns m b = true -> owner cs m = Some b.
Proof.
  intros Hu Hi Ho. unfold owner. destruct (list_find _ cs) as [[j bj]|] eqn:E.
  - apply list_find_Some in E as (Hj & Hoj & _). cbn. pose proof (Hu i j _ _ _ Hi Hj Ho Hoj) as <-. by simplify_eq.
  - apply list_find_None in E. rewrite Forall_forall in E. exfalso. apply (E b); [|done].
    by eapply list_elem_of_lookup_2.
Qed.

Lemma owner_none cs m : (forall i b, cs !! i = Some b -> owns m b = false) -> owner cs m = None.
Proof.
  intros Hn. unfold owner. destruct (list_find _ cs) as [[j bj]|] eqn:E; [|done].
  apply list_find_Some in E as (Hj & Hoj & _). by rewrite (Hn _ _ Hj) in Hoj.
Qed.

Lemma owner_inv cs m b : owner cs m = Some b -> exists i, cs !! i = Some b /\ owns m b = true.
Proof.
  unfold owner. intros ([j bj] & E & ->)%fmap_Some. apply list_find_Some in E as (Hj & Hoj & _). by exists j.
Qed.

Lemma owner_alter cs i b f m :
  unique cs -> unique (alter f i cs) -> cs !! i = Some b ->
  owner (alter f i cs) m =
    if owns m (f b) then Some (f b) else if owns m b then None else owner cs m.
Proof.
  intros Hu Hu' Hi.
  assert (alter f i cs !! i = Some (f b)) as Hi' by (by rewrite list_lookup_alter_eq, Hi).
  destruct (owns m (f b)) eqn:E1; [by eapply owner_some|]. destruct (owns m b) eqn:E2.
  - apply owner_none. intros j bj Hj. destruct (decide (i = j)) as [<-|Hne]; [congruence|].
    rewrite list_lookup_alter_ne in Hj by done. destruct (owns m bj) eqn:E3; [|done].
    by destruct (Hne (Hu i j _ _ _ Hi Hj E2 E3)).
  - destruct (owner cs m) as [bo|] eqn:E3.
    + apply owner_inv in E3 as (j & Hj & Ho). eapply (owner_some _ j); [done| |done].
      rewrite list_lookup_alter_ne; [done|]. intros <-. congruence.
    + apply owner_none. intros j bj Hj. destruct (decide (i = j)) as [<-|Hne]; [congruence|].
      rewrite list_lookup_alter_ne in Hj by done. destruct (owns m bj) eqn:E4; [|done].
      by rewrite (owner_some cs j bj m Hu Hj E4) in E3.
Qed.

Lemma filter_alter cs i b f :
  cs !! i = Some b ->
  (length (filter unreferenced cs) <=
   length (filter unreferenced (alter f i cs)) + (if decide (unreferenced b /\ ~ unreferenced (f b)) then 1 else 0))%nat.
Proof.
  revert i. induction cs as [|c cs IH]; intros i Hi; [done|]. destruct i as [|i].
  - injection Hi as ->. change (alter f 0%nat (b :: cs)) with (f b :: cs). rewrite !filter_cons.
    repeat case_decide; cbn [length]; try lia; tauto.
  - specialize (IH i Hi). change (alter f (S i) (c :: cs)) with (c :: alter f i cs). rewrite !filter_cons.
    destruct (decide (unreferenced c)); cbn [length]; lia.
Qed.

(** A change of one buffer, with the conditions on its new value. *)
Lemma cache_alter n n' H H' cs d d' i b f :
  cache n H cs d -> cs !! i = Some b ->
  (forall j bj m, j <> i -> cs !! j = Some bj -> owns m bj = true -> owns m (f b) = true -> False) ->
  (forall j, j <> i -> H' !! j = H !! j) ->
  (forall m, H' !! i = Some m -> owns m (f b) = true /\ b_lock (f b) = mine p /\
     truthy (b_valid (f b)) = true /\ 1 <= b_refcnt (f b)) ->
  (H' !! i = None -> sl_locked (b_lock (f b)) = 0) ->
  (forall m, owns m (f b) = true -> b_refcnt (f b) = 0 -> truthy (b_valid (f b)) = true ->
     b_data (f b) = dblock d' m) ->
  (forall j bj m, j <> i -> cs !! j = Some bj -> owns m bj = true -> dblock d' m = dblock d m) ->
  (0 <= b_refcnt (f b) /\ b_refcnt (f b) + 2 * Z.of_nat n' < 2 ^ 32) ->
  (n' + (if decide (unreferenced b /\ ~ unreferenced (f b)) then 1 else 0) <= n)%nat ->
  length (b_data (f b)) = 1024%nat -> (forall m, length (dblock d' m) = 1024%nat) ->
  cache n' H' (alter f i cs) d'.
Proof.
  intros [U He Id Cl Ra Ro Da Di] Hi Hu HH Hm Hl Hc Hd Hr Hn Hda Hdi.
  assert (alter f i cs !! i = Some (f b)) as Hi' by (by rewrite list_lookup_alter_eq, Hi).
  assert (forall j bj, alter f i cs !! j = Some bj -> j = i /\ bj = f b \/ j <> i /\ cs !! j = Some bj) as Hj.
  { intros j bj Hj. destruct (decide (j = i)) as [->|Hne]; [left; by simplify_eq|].
    rewrite list_lookup_alter_ne in Hj by done. by right. }
  split.
  - intros j k bj bk m Hj1 Hk1 Oj Ok. destruct (Hj _ _ Hj1) as [[-> ->]|[N1 E1]], (Hj _ _ Hk1) as [[-> ->]|[N2 E2]].
    + done.
    + by destruct (Hu k bk m).
    + by destruct (Hu j bj m).
    + by apply (U j k bj bk m).
  - intros j m Hjm. destruct (decide (j = i)) as [->|Hne].
    + exists (f b). split; [done|]. by apply Hm.
    + rewrite HH in Hjm by done. destruct (He j m Hjm) as (bj & E & Hrest). exists bj.
      by rewrite list_lookup_alter_ne.
  - intros j bj Hj1 Hno. destruct (Hj _ _ Hj1) as [[-> ->]|[N1 E1]]; [by apply Hl|].
    rewrite HH in Hno by done. by apply (Id j).
  - intros j bj m Hj1 Ho. destruct (Hj _ _ Hj1) as [[-> ->]|[N1 E1]]; [by apply Hc|].
    rewrite (Hd j bj m) by done. by apply (Cl j).
  - intros j bj Hj1. destruct (Hj _ _ Hj1) as [[-> ->]|[N1 E1]]; [done|]. destruct (Ra j bj E1). lia.
  - pose proof (filter_alter cs i b f Hi). lia.
  - intros j bj Hj1. destruct (Hj _ _ Hj1) as [[-> ->]|[N1 E1]]; [done|]. by apply (Da j).
  - done.
Qed.

Lemma view_alter cs (d d' : gmap Z (list Z)) i b f m :
  unique cs -> unique (alter f i cs) -> cs !! i = Some b ->
  view_of (alter f i cs) d' m =
    if owns m (f b) then (if truthy (b_valid (f b)) then b_data (f b) else dblock d' m)
    else if owns m b then dblock d' m
    else match owner cs m with
         | Some bo => if truthy (b_valid bo) then b_data bo else dblock d' m
         | None => dblock d' m
         end.
Proof.
  intros H1 H2 H3. unfold view_of. rewrite (owner_alter cs i b f m H1 H2 H3).
  by destruct (owns m (f b)), (owns m b).
Qed.

Lemma refs_alter cs i b f m :
  unique cs -> unique (alter f i cs) -> cs !! i = Some b ->
  refs_of (alter f i cs) m =
    if owns m (f b) then b_refcnt (f b) else if owns m b then 0 else refs_of cs m.
Proof.
  intros H1 H2 H3. unfold refs_of. rewrite (owner_alter cs i b f m H1 H2 H3).
  by destruct (owns m (f b)), (owns m b).
Qed.

(** A change that leaves the block of the buffer alone. *)
Lemma view_keep cs (d : gmap Z (list Z)) i b f m :
  unique cs -> unique (alter f i cs) -> cs !! i = Some b -> (forall m, owns m (f b) = owns m b) ->
  view_of (alter f i cs) d m =
    if owns m b then (if truthy (b_valid (f b)) then b_data (f b) else dblock d m) else view_of cs d m.
Proof.
  intros H1 H2 H3 H4. rewrite (view_alter cs d d i b f m H1 H2 H3), H4. by destruct (owns m b).
Qed.

Lemma refs_keep cs i b f m :
  unique cs -> unique (alter f i cs) -> cs !! i = Some b -> (forall m, owns m (f b) = owns m b) ->
  refs_of (alter f i cs) m = if owns m b then b_refcnt (f b) else refs_of cs m.
Proof.
  intros H1 H2 H3 H4. rewrite (refs_alter cs i b f m H1 H2 H3), H4. by destruct (owns m b).
Qed.

Lemma view_at cs (d : gmap Z (list Z)) i b m :
  unique cs -> cs !! i = Some b -> owns m b = true ->
  view_of cs d m = if truthy (b_valid b) then b_data b else dblock d m.
Proof. intros Hu Hi Ho. unfold view_of. by rewrite (owner_some cs i b m). Qed.

Lemma refs_at cs i b m : unique cs -> cs !! i = Some b -> owns m b = true -> refs_of cs m = b_refcnt b.
Proof. intros Hu Hi Ho. unfold refs_of. by rewrite (owner_some cs i b m). Qed.

Lemma hit_filled blk m bn b :
  owns m b = true -> m = u32 bn -> 0 <= b_refcnt b -> b_refcnt b + 2 < 2 ^ 32 ->
  let b' := filled blk (got dev bn b) in
  b_lock b' = mine p /\ truthy (b_valid b') = true /\ b_refcnt b' = b_refcnt b + 2 /\
  (forall m, owns m b' = owns m b) /\ b_data b' = (if truthy (b_valid b) then b_data b else blk).
Proof.
  intros Ho -> H1 H2. unfold filled, got. change (is_block dev bn b) with (owns (u32 bn) b). rewrite Ho.
  change (b_valid (hit_by p b)) with (b_valid b).
  assert (u32 (u32 (b_refcnt b + 1) + 1) = b_refcnt b + 2) as E.
  { rewrite (u32_small (b_refcnt b + 1)) by lia. rewrite u32_small by lia. lia. }
  destruct (truthy (b_valid b)) eqn:Ev; cbn; rewrite E; done.
Qed.

(** A buffer that has the block already. Only the first reference to it takes a free buffer. *)
Lemma cache_again n n' H cs d i b bn :
  cache n H cs d -> cs !! i = Some b -> owns (u32 bn) b = true -> H !! i = None ->
  (n' <= n)%nat -> (b_refcnt b = 0 -> (n' < n)%nat) -> b_refcnt b + 2 + 2 * Z.of_nat n' < 2 ^ 32 ->
  let cs' := alter (fun b => filled (dblock d (u32 bn)) (got dev bn b)) i cs in
  cache n' (<[i := u32 bn]> H) cs' d /\ (forall m, view_of cs' d m = view_of cs d m) /\
  refs_of cs' (u32 bn) = refs_of cs (u32 bn) + 2 /\
  (forall m, m <> u32 bn -> refs_of cs' m = refs_of cs m).
Proof.
  intros Hc Hi Ho Hn Hle Hlt Hmax. set (m0 := u32 bn) in *. set (f := fun b => _). cbn zeta.
  pose proof (ca_range _ _ _ _ Hc i b Hi) as [R1 R2].
  destruct (hit_filled (dblock d m0) m0 bn b Ho eq_refl R1 ltac:(lia)) as (F1 & F2 & F3 & F4 & F5).
  fold (f b) in F1, F2, F3, F4, F5. cbn zeta in *.
  assert (cache n' (<[i := m0]> H) (alter f i cs) d) as Hc'.
  { apply (cache_alter n n' H _ cs d d i b f); try done.
    - intros j bj m Hj E1 E2 E3. rewrite F4 in E3. by destruct (Hj (ca_unique _ _ _ _ Hc j i bj b m E1 Hi E2 E3)).
    - intros j Hj. by rewrite lookup_insert_ne.
    - intros m. rewrite lookup_insert_eq. intros [= <-]. rewrite F4, F3. split; [done|split; [done|split; [done|lia]]].
    - by rewrite lookup_insert_eq.
    - intros m _ Hz. rewrite F3 in Hz. lia.
    - rewrite F3. lia.
    - case_decide as Hd; [|lia]. destruct Hd as [Hz _]. specialize (Hlt Hz). lia.
    - rewrite F5. destruct (truthy (b_valid b)); [by eapply (ca_data _ _ _ _ Hc)|by eapply (ca_disk _ _ _ _ Hc)].
    - apply (ca_disk _ _ _ _ Hc). }
  pose proof (ca_unique _ _ _ _ Hc) as U. pose proof (ca_unique _ _ _ _ Hc') as U'. split; [done|]. split; [|split].
  - intros m. rewrite (view_keep cs d i b f m) by done. destruct (owns m b) eqn:E; [|done].
    rewrite F2, F5, (view_at cs d i b m) by done. by rewrite (owns_inj m m0 b).
  - rewrite (refs_keep cs i b f m0), Ho by done. by rewrite F3, (refs_at cs i b m0).
  - intros m Hm. rewrite (refs_keep cs i b f m) by done. destruct (owns m b) eqn:E; [|done].
    by destruct (Hm (owns_inj m m0 b E Ho)).
Qed.

Lemma cache_miss n H cs d i b bn :
  cache (S n) H cs d -> cs !! i = Some b -> b_refcnt b = 0 ->
  (forall j bj, cs !! j = Some bj -> owns (u32 bn) bj = false) ->
  let cs' := alter (fun b => filled (dblock d (u32 bn)) (got dev bn b)) i cs in
  cache n (<[i := u32 bn]> H) cs' d /\ (forall m, view_of cs' d m = view_of cs d m) /\
  refs_of cs (u32 bn) = 0 /\ refs_of cs' (u32 bn) = 1 /\
  (forall m, m <> u32 bn -> refs_of cs' m = refs_of cs m).
Proof.
  intros Hc Hi Hz Hno. set (m0 := u32 bn) in *. set (f := fun b => _). cbn zeta.
  assert (f b = buf_valid 1 (served (dblock d m0) (miss_by p dev bn b))) as Ef.
  { unfold f, filled, got. change (is_block dev bn b) with (owns m0 b). by rewrite (Hno i b Hi). }
  assert (forall m, owns m (f b) = (m =? m0)) as Fo.
  { intros m. rewrite Ef. unfold owns. cbn. rewrite Z.eqb_refl. cbn. fold m0. apply Z.eqb_sym. }
  pose proof (ca_range _ _ _ _ Hc i b Hi) as [R1 R2].
  assert (cache n (<[i := m0]> H) (alter f i cs) d) as Hc'.
  { apply (cache_alter (S n) n H _ cs d d i b f); try done.
    - intros j bj m Hj E1 E2 E3. rewrite Fo in E3. zbool. subst m. by rewrite (Hno j bj E1) in E2.
    - intros j Hj. by rewrite lookup_insert_ne.
    - intros m. rewrite lookup_insert_eq. intros [= <-]. rewrite Fo, Z.eqb_refl. by rewrite Ef.
    - by rewrite lookup_insert_eq.
    - intros m _ Hz'. by rewrite Ef in Hz'.
    - rewrite Ef. cbn. lia.
    - case_decide; lia.
    - rewrite Ef. cbn. apply (ca_disk _ _ _ _ Hc).
    - apply (ca_disk _ _ _ _ Hc). }
  pose proof (ca_unique _ _ _ _ Hc) as U. pose proof (ca_unique _ _ _ _ Hc') as U'.
  assert (owner cs m0 = None) as Hown by (by apply owner_none).
  split; [done|]. split; [|split; [|split]].
  - intros m. rewrite (view_alter cs d d i b f m) by done. rewrite Fo. destruct (Z.eqb_spec m m0) as [->|Hm].
    + rewrite Ef. cbn. unfold view_of. by rewrite Hown.
    + destruct (owns m b) eqn:E; [|done]. rewrite (view_at cs d i b m) by done.
      destruct (truthy (b_valid b)) eqn:Ev; [|done]. symmetry. by apply (ca_clean _ _ _ _ Hc i).
  - unfold refs_of. by rewrite Hown.
  - rewrite (refs_alter cs i b f m0), Fo, Z.eqb_refl by done. by rewrite Ef.
  - intros m Hm. rewrite (refs_alter cs i b f m), Fo, (proj2 (Z.eqb_neq m m0) Hm) by done.
    destruct (owns m b) eqn:E; [|done]. by rewrite (refs_at cs i b m).
Qed.

(** ** The promises *)

Definition view (s : kernel) : Z -> list Z := view_of (cores s) (k_disk s).
Definition refs (s : kernel) : Z -> Z := refs_of (cores s).
Definition cached (s : kernel) (m : Z) : Prop := is_Some (owner (cores s) m).

Lemma refs_cached s m : 0 < refs s m -> cached s m.
Proof. unfold refs, refs_of, cached. destruct (owner (cores s) m); [by eexists|lia]. Qed.

Record inv (n : nat) (H : gmap nat Z) (s : kernel) : Prop := {
  inv_env : cenv s;
  inv_cache : cache n H (cores s) (k_disk s)
}.

Record calm (s s' : kernel) : Prop := {
  cm_log : k_log s' = k_log s;
  cm_locks : k_locks s' = k_locks s;
  cm_panic : k_panicked s' = k_panicked s /\ k_panicking s' = k_panicking s;
  cm_rest : rest s' = rest s
}.

Lemma calm_refl s : calm s s.
Proof. by split. Qed.

Lemma calm_trans s1 s2 s3 : calm s1 s2 -> calm s2 s3 -> calm s1 s3.
Proof. intros [H1 H2 [H3 H4] HR1] [H5 H6 [H7 H8] HR2]. split; [congruence..|split; congruence|congruence]. Qed.

Lemma step_calm cs d s s' : step cs d s s' -> calm s s'.
Proof. by intros []. Qed.

Lemma cache_step n H cs d s s' : step cs d s s' -> cache n H cs d -> inv n H s'.
Proof. intros T Hc. split; [apply T|]. by rewrite (st_cores _ _ _ _ T), (st_disk _ _ _ _ T). Qed.

Lemma view_step cs d s s' m : step cs d s s' -> view s' m = view_of cs d m.
Proof. intros T. unfold view. by rewrite (st_cores _ _ _ _ T), (st_disk _ _ _ _ T). Qed.
Lemma refs_step cs d s s' m : step cs d s s' -> refs s' m = refs_of cs m.
Proof. intros T. unfold refs. by rewrite (st_cores _ _ _ _ T). Qed.

(** bread finds a buffer with the block or takes a free one. *)
Lemma bread_case n H bn s :
  inv (S n) H s -> (forall i m, H !! i = Some m -> m <> u32 bn) -> u32 bn < 2 ^ 31 ->
  exists i b s', bread dev bn s = Ok i s' /\ H !! i = None /\ cores s !! i = Some b /\
    step (alter (fun b => filled (dblock (k_disk s) (u32 bn)) (got dev bn b)) i (cores s)) (k_disk s) s s' /\
    (owns (u32 bn) b = true \/ b_refcnt b = 0 /\ forall j b', cores s !! j = Some b' -> owns (u32 bn) b' = false).
Proof.
  intros [He Hc] Hne Hbn.
  assert (forall i b, cores s !! i = Some b -> owns (u32 bn) b = true \/ b_refcnt b = 0 -> H !! i = None) as Hfree.
  { intros i b Hi Hor. destruct (H !! i) as [m|] eqn:E; [|done]. exfalso.
    destruct (ca_held _ _ _ _ Hc i m E) as (b' & Hi' & Ho & _ & _ & Hr). simplify_eq.
    destruct Hor as [Ho'|Hz]; [|lia]. apply (Hne i m E). by eapply owns_inj. }
  destruct (bread_step dev bn s He Hbn) as (i & b & s' & Hi & Hcase & E & T).
  - intros i b Hi Hor. apply (ca_idle _ _ _ _ Hc i b Hi). by eapply Hfree.
  - pose proof (ca_room _ _ _ _ Hc) as Hro. destruct (filter unreferenced (cores s)) as [|b l] eqn:Ef.
    { cbn in Hro. lia. }
    assert (b ∈ filter unreferenced (cores s)) as Hin by (rewrite Ef; set_solver).
    apply list_elem_of_filter in Hin as [Hz Hin]. apply list_elem_of_lookup_1 in Hin as [i Hi]. by exists i, b.
  - exists i, b, s'. split; [done|]. unfold disk_block in T. change (is_block dev bn) with (owns (u32 bn)) in Hcase.
    split; [apply (Hfree i b Hi); destruct Hcase as [|[]]; [by left|by right]|]. done.
Qed.

(** The block is in the cache, with references or without. *)
Lemma bread_hit n n' H bn i b s s' :
  inv n H s -> cores s !! i = Some b -> owns (u32 bn) b = true -> H !! i = None ->
  (n' <= n)%nat -> (b_refcnt b = 0 -> (n' < n)%nat) -> b_refcnt b + 2 + 2 * Z.of_nat n' < 2 ^ 32 ->
  step (alter (fun b => filled (dblock (k_disk s) (u32 bn)) (got dev bn b)) i (cores s)) (k_disk s) s s' ->
  inv n' (<[i := u32 bn]> H) s' /\ (forall m, view s' m = view s m) /\ 2 <= refs s' (u32 bn) /\
    refs s' (u32 bn) = refs s (u32 bn) + 2 /\ (forall m, m <> u32 bn -> refs s' m = refs s m).
Proof.
  intros [He Hc] Hi Ho Hn Hle Hlt Hmax T.
  destruct (cache_again n n' H _ _ i b bn Hc Hi Ho Hn Hle Hlt Hmax) as (Hc' & Hv & Hr & Hr').
  split; [by eapply cache_step|]. split; [intros m; rewrite (view_step _ _ _ _ _ T); apply Hv|].
  rewrite (refs_step _ _ _ _ _ T). change (refs_of (cores s)) with (refs s) in Hr, Hr'.
  assert (0 <= refs s (u32 bn)).
  { unfold refs. rewrite (refs_at _ i b) by (done || apply Hc). by eapply (ca_range _ _ _ _ Hc). }
  split; [lia|]. split; [done|]. intros m Hm. rewrite (refs_step _ _ _ _ _ T). by apply Hr'.
Qed.

(** bread with the number of references. *)
Lemma bread_bound n H bn s :
  inv (S n) H s -> (forall i m, H !! i = Some m -> m <> u32 bn) -> u32 bn < 2 ^ 31 ->
  exists i s', bread dev bn s = Ok i s' /\ H !! i = None /\ inv n (<[i := u32 bn]> H) s' /\ calm s s' /\
    k_disk s' = k_disk s /\ (forall m, view s' m = view s m) /\
    1 <= refs s' (u32 bn) <= refs s (u32 bn) + 2 /\ (cached s (u32 bn) -> refs s' (u32 bn) = refs s (u32 bn) + 2) /\
    (forall m, m <> u32 bn -> refs s' m = refs s m).
Proof.
  intros Hs Hne Hbn. destruct (bread_case n H bn s Hs Hne Hbn) as (i & b & s' & E & Hn & Hi & T & Hcase).
  exists i, s'. pose proof (step_calm _ _ _ _ T) as Hcalm. pose proof (st_disk _ _ _ _ T) as Hd.
  split; [done|]. split; [done|]. destruct Hcase as [Ho|[Hz Hno]].
  - pose proof (ca_range _ _ _ _ (inv_cache _ _ _ Hs) i b Hi) as Hra.
    destruct (bread_hit (S n) n H bn i b s s' Hs Hi Ho Hn) as (I & V & R1 & R2 & R3); try done; try lia.
    do 4 (split; [done|]). split; [lia|]. done.
  - destruct Hs as [He Hc]. destruct (cache_miss n H _ _ i b bn Hc Hi Hz Hno) as (Hc' & Hv & Hr0 & Hr & Hr').
    split; [by eapply cache_step|]. split; [done|]. split; [done|].
    split; [intros m; rewrite (view_step _ _ _ _ _ T); apply Hv|].
    rewrite (refs_step _ _ _ _ _ T). change (refs_of (cores s)) with (refs s) in Hr0, Hr'.
    split; [lia|]. split; [|intros m Hm; rewrite (refs_step _ _ _ _ _ T); by apply Hr'].
    intros [bo Hbo]. rewrite (owner_none (cores s) (u32 bn)) in Hbo by (exact Hno). done.
Qed.

(** bread: the block's contents, in a buffer of the caller's own. *)
Lemma bread_ok n H bn s :
  inv (S n) H s -> (forall i m, H !! i = Some m -> m <> u32 bn) -> u32 bn < 2 ^ 31 ->
  exists i s', bread dev bn s = Ok i s' /\ H !! i = None /\ inv n (<[i := u32 bn]> H) s' /\ calm s s' /\
    k_disk s' = k_disk s /\ (forall m, view s' m = view s m) /\
    1 <= refs s' (u32 bn) /\ (cached s (u32 bn) -> refs s' (u32 bn) = refs s (u32 bn) + 2) /\
    (forall m, m <> u32 bn -> refs s' m = refs s m).
Proof.
  intros Hs Hne Hbn. destruct (bread_bound n H bn s Hs Hne Hbn) as (i & s' & E & H1 & H2 & H3 & H4 & H5 & [H6 _] & H7). by exists i, s'.
Qed.

(** A block that is referenced already: no free buffer is used up. *)
Lemma bread_again n H bn s :
  inv (S n) H s -> (forall i m, H !! i = Some m -> m <> u32 bn) -> u32 bn < 2 ^ 31 ->
  1 <= refs s (u32 bn) -> refs s (u32 bn) + 2 + 2 * Z.of_nat (S n) < 2 ^ 32 ->
  exists i s', bread dev bn s = Ok i s' /\ H !! i = None /\ inv (S n) (<[i := u32 bn]> H) s' /\ calm s s' /\
    k_disk s' = k_disk s /\ (forall m, view s' m = view s m) /\ refs s' (u32 bn) = refs s (u32 bn) + 2 /\
    (forall m, m <> u32 bn -> refs s' m = refs s m).
Proof.
  intros Hs Hne Hbn Hr Hmax. destruct (bread_case n H bn s Hs Hne Hbn) as (i & b & s' & E & Hn & Hi & T & Hcase).
  exists i, s'. pose proof (step_calm _ _ _ _ T) as Hcalm. pose proof (st_disk _ _ _ _ T) as Hd.
  split; [done|]. split; [done|]. destruct Hcase as [Ho|[Hz Hno]].
  - assert (refs s (u32 bn) = b_refcnt b) as Er by (unfold refs; apply (refs_at _ i b); (done || apply Hs)).
    destruct (bread_hit (S n) (S n) H bn i b s s' Hs Hi Ho Hn) as (I & V & _ & R2 & R3); try done; try lia.
  - exfalso. assert (refs s (u32 bn) = 0) as E0; [|lia]. unfold refs, refs_of. by rewrite (owner_none (cores s) (u32 bn)).
Qed.

(** The data of a held buffer is the block's contents. *)
Lemma held_view n H i m s :
  inv n H s -> H !! i = Some m ->
  exists b, bc_buf (k_bcache s) !! i = Some b /\ b_data b = view s m /\ b_blockno b = m /\
    length (view s m) = 1024%nat.
Proof.
  intros [_ Hc] Hi. destruct (ca_held _ _ _ _ Hc i m Hi) as (b & E & Ho & _ & Hv & _).
  pose proof (view_at _ (k_disk s) i b m (ca_unique _ _ _ _ Hc) E Ho) as Hview. rewrite Hv in Hview.
  pose proof (ca_data _ _ _ _ Hc i b E) as Hlen.
  apply cores_lookup in E as (b0 & E & ->). exists b0. unfold view. rewrite Hview.
  unfold owns in Ho. zbool. done.
Qed.

(** Writing into the data of a held, referenced buffer. *)
Lemma bset_ok n H i m d s :
  inv n H s -> H !! i = Some m -> length d = 1024%nat ->
  let s' := upd_buf i (buf_data d) s in
  inv n H s' /\ calm s s' /\ k_disk s' = k_disk s /\
  (forall m', view s' m' = if m' =? m then d else view s m') /\ (forall m', refs s' m' = refs s m').
Proof.
  intros [He Hc] Hi Hd s'. pose proof (upd_step i (buf_data d) s ltac:(done) ltac:(done) He) as T. fold s' in T.
  destruct (ca_held _ _ _ _ Hc i m Hi) as (b & E & Ho & Hl & Hv & Hr).
  pose proof (ca_range _ _ _ _ Hc i b E) as Hra. pose proof (ca_unique _ _ _ _ Hc) as U.
  assert (cache n H (alter (buf_data d) i (cores s)) (k_disk s)) as Hc'.
  { apply (cache_alter n n H H _ (k_disk s) _ i b (buf_data d)); try done.
    - intros j bj m' Hj E1 E2 E3. by destruct (Hj (U j i bj b m' E1 E E2 E3)).
    - intros m' Hm'. rewrite Hi in Hm'. by injection Hm' as <-.
    - by rewrite Hi.
    - intros m' _ Hz. cbn in Hz. lia.
    - rewrite decide_False; [lia|]. intros [H1 H2]. by apply H2.
    - apply (ca_disk _ _ _ _ Hc). }
  pose proof (ca_unique _ _ _ _ Hc') as U'.
  split; [by eapply cache_step|]. split; [by eapply step_calm|]. split; [done|]. split.
  - intros m'. rewrite (view_step _ _ _ _ _ T), (view_keep _ _ i b) by done. cbn [b_valid b_data buf_data]. rewrite Hv.
    destruct (owns m' b) eqn:Eo.
    + rewrite (owns_inj m' m b Eo Ho). by rewrite Z.eqb_refl.
    + destruct (Z.eqb_spec m' m) as [->|]; [congruence|done].
  - intros m'. rewrite (refs_step _ _ _ _ _ T), (refs_keep _ i b) by done. destruct (owns m' b) eqn:Eo; [|done].
    symmetry. exact (refs_at _ i b m' U E Eo).
Qed.

(** bwrite: the block on the disk becomes what the cache holds. *)
Lemma bwrite_ok n H i m s :
  inv n H s -> H !! i = Some m -> 0 <= m < 2 ^ 31 ->
  exists s', bwrite i s = Ok tt s' /\ inv n H s' /\ calm s s' /\
    k_disk s' = <[m := view s m]> (k_disk s) /\
    (forall m', view s' m' = view s m') /\ (forall m', refs s' m' = refs s m').
Proof.
  intros Hs Hi Hrange. destruct (held_view _ _ _ _ _ Hs Hi) as (b0 & Hb0 & Hd & Hm & Hlen). destruct Hs as [He Hc].
  destruct (ca_held _ _ _ _ Hc i m Hi) as (b & E & Ho & Hl & Hv & Hr).
  pose proof (lookup_cores _ _ _ Hb0) as E0. rewrite E in E0. injection E0 as ->.
  change (b_data (strip b0)) with (b_data b0) in *. 
  destruct (bwrite_step i _ s He E Hl) as (s' & Ew & T); [cbn; lia|]. exists s'.
  change (b_data (strip b0)) with (b_data b0) in T. change (b_blockno (strip b0)) with (b_blockno b0) in T.
  rewrite Hd, Hm in T. pose proof (ca_range _ _ _ _ Hc i _ E) as Hra. pose proof (ca_unique _ _ _ _ Hc) as U.
  set (d' := <[m := view s m]> (k_disk s)) in *. set (f := served (view s m)) in *.
  assert (forall m', m' <> m -> dblock d' m' = dblock (k_disk s) m') as Hne.
  { intros m' Hm'. unfold dblock, d'. by rewrite lookup_insert_ne. }
  assert (dblock d' m = view s m) as Heq by (unfold dblock, d'; by rewrite lookup_insert_eq).
  assert (forall j bj m', j <> i -> cores s !! j = Some bj -> owns m' bj = true -> m' <> m) as Hoth.
  { intros j bj m' Hj E1 E2 ->. by destruct (Hj (U j i bj _ m E1 E E2 Ho)). }
  assert (cache n H (alter f i (cores s)) d') as Hc'.
  { apply (cache_alter n n H H _ (k_disk s) _ i (strip b0) f); try done.
    - intros j bj m' Hj E1 E2 E3. by destruct (Hj (U j i bj _ m' E1 E E2 E3)).
    - intros m' Hm'. rewrite Hi in Hm'. by injection Hm' as <-.
    - by rewrite Hi.
    - intros m' _ Hz. cbn in Hz. change (b_refcnt (strip b0)) with (b_refcnt b0) in Hr. lia.
    - intros j bj m' Hj E1 E2. apply Hne. by eapply Hoth.
    - rewrite decide_False; [lia|]. intros [H1 H2]. by apply H2.
    - intros m'. destruct (decide (m' = m)) as [->|Hm']; [by rewrite Heq|]. rewrite Hne by done.
      apply (ca_disk _ _ _ _ Hc). }
  pose proof (ca_unique _ _ _ _ Hc') as U'.
  split; [done|]. split; [by eapply cache_step|]. split; [by eapply step_calm|]. split; [apply T|]. split.
  - intros m'. rewrite (view_step _ _ _ _ _ T), (view_alter _ (k_disk s) d' i (strip b0) f m') by done.
    change (owns m' (f (strip b0))) with (owns m' (strip b0)). change (b_valid (f (strip b0))) with (b_valid (strip b0)).
    rewrite Hv. destruct (owns m' (strip b0)) eqn:Eo; [by rewrite (owns_inj m' m _ Eo Ho)|].
    rewrite Hne; [done|]. intros ->. congruence.
  - intros m'. rewrite (refs_step _ _ _ _ _ T), (refs_keep _ i (strip b0)) by done.
    destruct (owns m' (strip b0)) eqn:Eo; [|done]. symmetry. exact (refs_at _ i _ m' U E Eo).
Qed.

(** Dropping a reference of a held buffer, which may be unlocked at the same
    time: the block must be on the disk unless another reference remains. *)
Lemma cache_drop n H cs d i m b f (keep : bool) :
  cache n H cs d -> H !! i = Some m -> cs !! i = Some b ->
  (forall m, owns m (f b) = owns m b) -> b_valid (f b) = b_valid b -> b_data (f b) = b_data b ->
  b_refcnt (f b) = b_refcnt b - 1 -> (2 <= refs_of cs m \/ keep = false /\ view_of cs d m = dblock d m) ->
  (if keep then b_lock (f b) = b_lock b else sl_locked (b_lock (f b)) = 0) ->
  cache n (if keep then H else delete i H) (alter f i cs) d /\
  (forall m', view_of (alter f i cs) d m' = view_of cs d m') /\
  refs_of (alter f i cs) m = refs_of cs m - 1 /\
  (forall m', m' <> m -> refs_of (alter f i cs) m' = refs_of cs m') /\ is_Some (owner (alter f i cs) m).
Proof.
  intros Hc Hi E F1 F2 F3 F4 Hor Hk. pose proof (ca_unique _ _ _ _ Hc) as U.
  destruct (ca_held _ _ _ _ Hc i m Hi) as (b' & E' & Ho & Hl & Hv & Hr). simplify_eq.
  pose proof (ca_range _ _ _ _ Hc i b E) as Hra.
  pose proof (view_at cs d i b m U E Ho) as Hview. rewrite Hv in Hview.
  pose proof (refs_at cs i b m U E Ho) as Hrefs. rewrite Hrefs, Hview in Hor.
  assert (cache n (if keep then H else delete i H) (alter f i cs) d) as Hc'.
  { apply (cache_alter n n H _ cs d d i b f); try done.
    - intros j bj m' Hj E1 E2 E3. rewrite F1 in E3. by destruct (Hj (U j i bj b m' E1 E E2 E3)).
    - intros j Hj. destruct keep; [done|]. by rewrite lookup_delete_ne.
    - intros m' Hm'. destruct keep; [|by rewrite lookup_delete_eq in Hm'].
      rewrite Hi in Hm'. injection Hm' as <-. rewrite F1, F2, F4, Hk.
      split; [done|split; [done|split; [done|]]]. destruct Hor as [?|[? _]]; [lia|done].
    - intros Hn. destruct keep; [congruence|done].
    - intros m' Ho' Hz Hv'. rewrite F1 in Ho'. rewrite F3, (owns_inj m' m b) by done.
      destruct Hor as [?|[_ ?]]; [lia|done].
    - lia.
    - rewrite decide_False; [lia|]. intros [H1 H2]. unfold unreferenced in *. lia.
    - rewrite F3. by eapply (ca_data _ _ _ _ Hc).
    - apply (ca_disk _ _ _ _ Hc). }
  pose proof (ca_unique _ _ _ _ Hc') as U'. split; [done|]. split; [|split; [|split]].
  - intros m'. rewrite (view_keep cs d i b f m') by done. destruct (owns m' b) eqn:Eo; [|done].
    rewrite F2, F3. symmetry. by apply view_at with (i := i).
  - rewrite (refs_keep cs i b f m), Ho by done. lia.
  - intros m' Hm'. rewrite (refs_keep cs i b f m') by done. destruct (owns m' b) eqn:Eo; [|done].
    by destruct (Hm' (owns_inj m' m b Eo Ho)).
  - rewrite (owner_alter cs i b f m), F1, Ho by done. by eexists.
Qed.

Lemma held_core n H i m s :
  inv n H s -> H !! i = Some m ->
  exists b, cores s !! i = Some b /\ b_lock b = mine p /\ 1 <= b_refcnt b < 2 ^ 32.
Proof.
  intros [_ Hc] Hi. destruct (ca_held _ _ _ _ Hc i m Hi) as (b & E & _ & Hl & _ & Hr).
  destruct (ca_range _ _ _ _ Hc i b E). exists b. split; [done|split; [done|lia]].
Qed.

Lemma brelse_ok n H i m s :
  inv n H s -> H !! i = Some m -> (2 <= refs s m \/ view s m = disk_block s m) ->
  exists s', brelse i s = Ok tt s' /\ inv n (delete i H) s' /\ calm s s' /\ k_disk s' = k_disk s /\
    (forall m', view s' m' = view s m') /\ refs s' m = refs s m - 1 /\
    (forall m', m' <> m -> refs s' m' = refs s m') /\ cached s' m.
Proof.
  intros Hs Hi Hor. destruct (held_core _ _ _ _ _ Hs Hi) as (b & E & Hl & Hr). destruct Hs as [He Hc].
  destruct (brelse_step i b s He E Hl) as (s' & Eb & T). exists s'. split; [done|].
  destruct (cache_drop n H (cores s) (k_disk s) i m b dropped false Hc Hi E) as (Hc' & Hv & Hr1 & Hr2 & Hca);
    try done; [cbn; rewrite u32_small by lia; done|destruct Hor; auto|].
  split; [by eapply cache_step|]. split; [by eapply step_calm|]. split; [apply T|].
  split; [intros m'; rewrite (view_step _ _ _ _ _ T); apply Hv|].
  split; [by rewrite (refs_step _ _ _ _ _ T)|].
  split; [|unfold cached; by rewrite (st_cores _ _ _ _ T)].
  intros m' Hm'. rewrite (refs_step _ _ _ _ _ T). by apply Hr2.
Qed.

Lemma bunpin_ok n H i m s :
  inv n H s -> H !! i = Some m -> 2 <= refs s m ->
  exists s', bunpin i s = Ok tt s' /\ inv n H s' /\ calm s s' /\ k_disk s' = k_disk s /\
    (forall m', view s' m' = view s m') /\ refs s' m = refs s m - 1 /\
    (forall m', m' <> m -> refs s' m' = refs s m').
Proof.
  intros Hs Hi Hor. destruct (held_core _ _ _ _ _ Hs Hi) as (b & E & Hl & Hr). destruct Hs as [He Hc].
  destruct (bunpin_step i s He) as (s' & Eb & T). exists s'. split; [done|].
  destruct (cache_drop n H (cores s) (k_disk s) i m b (fun b => buf_refcnt (u32 (b_refcnt b - 1)) b) true Hc Hi E)
    as (Hc' & Hv & Hr1 & Hr2 & Hca); try done; [cbn; rewrite u32_small by lia; done|auto|].
  split; [by eapply cache_step|]. split; [by eapply step_calm|]. split; [apply T|].
  split; [intros m'; rewrite (view_step _ _ _ _ _ T); apply Hv|].
  split; [by rewrite (refs_step _ _ _ _ _ T)|]. intros m' Hm'. rewrite (refs_step _ _ _ _ _ T). by apply Hr2.
Qed.

Lemma bpin_ok n H i m s :
  inv (S n) H s -> H !! i = Some m ->
  exists s', bpin i s = Ok tt s' /\ inv n H s' /\ calm s s' /\ k_disk s' = k_disk s /\
    (forall m', view s' m' = view s m') /\ refs s' m = refs s m + 1 /\
    (forall m', m' <> m -> refs s' m' = refs s m').
Proof.
  intros Hs Hi. destruct Hs as [He Hc]. destruct (ca_held _ _ _ _ Hc i m Hi) as (b & E & Ho & Hl & Hv & Hr).
  destruct (bpin_step i s He) as (s' & Eb & T). exists s'. split; [done|].
  pose proof (ca_range _ _ _ _ Hc i b E) as Hra. pose proof (ca_unique _ _ _ _ Hc) as U.
  set (f := fun b => buf_refcnt (u32 (b_refcnt b + 1)) b) in *.
  assert (b_refcnt (f b) = b_refcnt b + 1) as Hf by (cbn; rewrite u32_small by lia; done).
  assert (cache n H (alter f i (cores s)) (k_disk s)) as Hc'.
  { apply (cache_alter (S n) n H H _ (k_disk s) _ i b f); try done.
    - intros j bj m' Hj E1 E2 E3. by destruct (Hj (U j i bj b m' E1 E E2 E3)).
    - intros m' Hm'. rewrite Hi in Hm'. injection Hm' as <-. rewrite Hf. split; [done|split; [done|split; [done|lia]]].
    - by rewrite Hi.
    - intros m' _ Hz. rewrite Hf in Hz. lia.
    - rewrite Hf. lia.
    - case_decide; lia.
    - exact (ca_data _ _ _ _ Hc i b E).
    - apply (ca_disk _ _ _ _ Hc). }
  pose proof (ca_unique _ _ _ _ Hc') as U'.
  split; [by eapply cache_step|]. split; [by eapply step_calm|]. split; [apply T|]. split; [|split].
  - intros m'. rewrite (view_step _ _ _ _ _ T), (view_keep _ _ i b) by done. cbn [f b_valid b_data buf_refcnt].
    destruct (owns m' b) eqn:Eo; [|done]. symmetry. exact (view_at _ _ i b m' U E Eo).
  - rewrite (refs_step _ _ _ _ _ T), (refs_keep _ i b), Ho, Hf by done. f_equal. symmetry. exact (refs_at _ i b m U E Ho).
  - intros m' Hm'. rewrite (refs_step _ _ _ _ _ T), (refs_keep _ i b) by done. destruct (owns m' b) eqn:Eo; [|done].
    by destruct (Hm' (owns_inj m' m b Eo Ho)).
Qed.

(** Both calls on one block, in a row. *)
Definition read_release (bn : Z) : KM unit := let! i := bread dev bn in brelse i.

Lemma no_held (bn : Z) : forall i m, (∅ : gmap nat Z) !! i = Some m -> m <> bn.
Proof. intros i m H. by rewrite lookup_empty in H. Qed.

Lemma read_release_ok n bn s :
  inv (S n) ∅ s -> u32 bn < 2 ^ 31 -> (cached s (u32 bn) \/ view s (u32 bn) = disk_block s (u32 bn)) -> 0 <= refs s (u32 bn) ->
  exists s', read_release bn s = Ok tt s' /\ inv n ∅ s' /\ (forall m, view s' m = view s m) /\
    k_disk s' = k_disk s /\ cached s' (u32 bn) /\ 0 <= refs s' (u32 bn) /\
    (cached s (u32 bn) -> refs s' (u32 bn) = refs s (u32 bn) + 1).
Proof.
  intros Hs Hbn Hor Hr0. destruct (bread_ok n ∅ bn s Hs (no_held _) Hbn) as (i & s1 & E1 & _ & Hs1 & C1 & D1 & V1 & R1 & R1' & _).
  unfold read_release. mstep E1.
  destruct (brelse_ok n _ i (u32 bn) s1 Hs1 (lookup_insert_eq _ _ _)) as (s2 & E2 & Hs2 & _ & D2 & V2 & R2 & _ & Ca2).
  { destruct Hor as [Hc|Hv]; [left; rewrite (R1' Hc); lia|right].
    rewrite V1, Hv. unfold disk_block. by rewrite D1. }
  exists s2. rewrite E2. rewrite delete_insert_id in Hs2 by done. split; [done|]. split; [done|].
  split; [intros m; by rewrite V2|]. split; [congruence|]. split; [done|]. split; [lia|].
  intros Hc. rewrite R2, (R1' Hc). lia.
Qed.

End Cache.

(** ** Properties of the cache over any disk that keeps its contract *)

Section Claims.
Context {virtio_disk_rw : nat -> Z -> KM unit} {dev_ok : BlockDevice virtio_disk_rw}.

(** C17: a block written through the cache is read back: after bread, a change of
    the buffer's data to [d], bwrite and brelse, the disk holds [d] in that
    block, a second bread returns a buffer with [d], and the contents of every
    other block, seen through the cache or on the disk, are as before. *)
Theorem block_write_read me p dev n bn d s :
  inv me p dev (S (S n)) ∅ s -> u32 bn < 2 ^ 31 -> length d = 1024%nat ->
  exists j s', (let! i := bread virtio_disk_rw dev bn in
                do! modify (upd_buf i (buf_data d));
                do! bwrite virtio_disk_rw i;
                do! brelse i;
                bread virtio_disk_rw dev bn) s = Ok j s' /\
    (exists b, bc_buf (k_bcache s') !! j = Some b /\ b_data b = d /\ b_blockno b = u32 bn) /\
    inv me p dev n {[j := u32 bn]} s' /\ disk_block s' (u32 bn) = d /\
    forall m, m <> u32 bn -> view dev s' m = view dev s m /\ disk_block s' m = disk_block s m.
Proof.
  intros Hs Hbn31 Hd. pose proof (u32_range bn) as Hbn0.
  destruct (bread_ok me p dev (S n) ∅ bn s Hs (no_held _) Hbn31) as (i & s1 & E1 & _ & Hs1 & _ & D1 & V1 & _). mstep E1.
  pose proof (lookup_insert_eq (M := gmap nat) ∅ i (u32 bn)) as Hi.
  destruct (bset_ok me p dev (S n) _ i _ d s1 Hs1 Hi Hd) as (Hs2 & _ & D2 & V2 & _).
  unfold bind at 1, modify. set (s2 := upd_buf i (buf_data d) s1) in *.
  destruct (bwrite_ok me p dev (S n) _ i _ s2 Hs2 Hi (conj (proj1 Hbn0) Hbn31)) as (s3 & E3 & Hs3 & _ & D3 & V3 & _). mstep E3.
  rewrite V2, Z.eqb_refl in D3.
  assert (disk_block s3 (u32 bn) = d) as Hdisk by (unfold disk_block, dblock; rewrite D3, lookup_insert_eq; done).
  assert (view dev s3 (u32 bn) = d) as Hv3 by (by rewrite V3, V2, Z.eqb_refl).
  destruct (brelse_ok me p dev (S n) _ i _ s3 Hs3 Hi) as (s4 & E4 & Hs4 & _ & D4 & V4 & _).
  { right. by rewrite Hv3. }
  mstep E4. rewrite delete_insert_id in Hs4 by done.
  destruct (bread_ok me p dev n ∅ bn s4 Hs4 (no_held _) Hbn31) as (j & s5 & E5 & _ & Hs5 & _ & D5 & V5 & _).
  exists j, s5. split; [done|].
  assert (forall m, view dev s5 m = view dev s3 m) as V53 by (intros m; by rewrite V5, V4).
  assert (forall m, disk_block s5 m = disk_block s3 m) as D53 by (intros m; unfold disk_block; congruence).
  split; [|split; [done|split; [by rewrite D53|]]].
  - destruct (held_view me p dev n _ j (u32 bn) s5 Hs5 (lookup_insert_eq _ _ _)) as (b & Hb & Hbd & Hbn & _).
    exists b. by rewrite Hbd, V53, Hv3.
  - intros m Hm. rewrite V53, D53, V3, V2, (proj2 (Z.eqb_neq m (u32 bn)) Hm), V1. split; [done|].
    unfold disk_block, dblock. rewrite D3, lookup_insert_ne, D2, D1 by done. done.
Qed.

(** Bget counts a hit twice, so a block that is read and released a second
    time keeps a reference for ever: after two balanced bread/brelse pairs on a
    block of the disk no process holds the buffer, its contents are unchanged,
    and its reference count is at least 1, so bget can never recycle it. *)
Theorem reread_keeps_reference me p dev n bn s :
  inv me p dev (S (S n)) ∅ s -> u32 bn < 2 ^ 31 -> view dev s (u32 bn) = disk_block s (u32 bn) -> 0 <= refs dev s (u32 bn) ->
  exists s', (do! read_release (virtio_disk_rw := virtio_disk_rw) dev bn;
              read_release (virtio_disk_rw := virtio_disk_rw) dev bn) s = Ok tt s' /\
    inv me p dev n ∅ s' /\ (forall m, view dev s' m = view dev s m) /\ k_disk s' = k_disk s /\
    1 <= refs dev s' (u32 bn).
Proof.
  intros Hs Hbn Hv Hr.
  destruct (read_release_ok me p dev (S n) bn s Hs Hbn (or_intror Hv) Hr) as (s1 & E1 & Hs1 & V1 & D1 & Ca1 & R1 & _).
  destruct (read_release_ok me p dev n bn s1 Hs1 Hbn (or_introl Ca1) R1) as (s2 & E2 & Hs2 & V2 & D2 & _ & _ & R2).
  exists s2. mstep E1. rewrite E2. split; [done|]. split; [done|]. split; [intros m; by rewrite V2|].
  split; [congruence|]. rewrite (R2 Ca1). lia.
Qed.

(** When the block is not cached and every buffer is referenced, bget does
    not return a buffer: the kernel panics. *)
Theorem bget_exhausted me p dev bn s :
  cenv me p s -> k_panicked s = 0 ->
  (forall i b, cores s !! i = Some b -> is_block dev bn b = false /\ b_refcnt b <> 0) ->
  exists s', bread virtio_disk_rw dev bn s = Stop (Panic "bget: 没有空闲内存块了捏(悲)") s'.
Proof.
  intros [C [l B] _] Hp Hall.
  assert (first_such (is_block dev bn) (k_bcache s) l = None) as H1.
  { destruct (first_such _ _ _) as [i|] eqn:E; [|done].
    destruct (first_such_some (is_block dev bn) s l i (fun _ => eq_refl) B E) as (b & Hi & Hb). by rewrite (proj1 (Hall i b Hi)) in Hb. }
  assert (first_such is_free (k_bcache s) l = None) as H2.
  { destruct (first_such is_free _ _) as [i|] eqn:E; [|done].
    destruct (first_such_some is_free s l i (fun _ => eq_refl) B E) as (b & Hi & Hb). unfold is_free in Hb. zbool.
    by destruct (proj2 (Hall i b Hi)). }
  destruct (bget_none l s dev bn (proj1 (ca_hart _ _ _ C)) B H1 H2 Hp) as [s' E]. exists s'.
  unfold bread. unfold bind. by rewrite E.
Qed.

End Claims.

(** ** A disk that serves each request at once *)

Definition serve (i : nat) (write : Z) (s : kernel) : kernel :=
  let b := default buf_zero (bc_buf (k_bcache s) !! i) in
  if write =? 0 then upd_buf i (served (disk_block s (b_blockno b))) s
  else set_disk (<[b_blockno b := b_data b]> (k_disk s)) (upd_buf i (served (b_data b)) s).

Definition ideal_rw (i : nat) (write : Z) : KM unit :=
  do! acquire L_vdisk; do! modify (serve i write); release L_vdisk.

Lemma serve_private i w : private (serve i w).
Proof. unfold serve. by destruct (w =? 0). Qed.
Lemma serve_rest i w s : rest (serve i w s) = rest s.
Proof. unfold serve. by destruct (w =? 0). Qed.

#[export] Instance ideal_device : BlockDevice ideal_rw.
Proof.
  refine {| bd_ready := lock_free L_vdisk |}.
  - intros s s' E _ [nm H]. exists nm. by rewrite E.
  - intros me p i b s C R Hi _. eexists. split; [apply section_ok; [apply serve_private|done|apply (ca_hart _ _ _ C)]|].
    split; [done|]. split; try done; try (by rewrite serve_rest, rest_settle);
      unfold serve; cbn [Z.eqb]; change (k_bcache (settle s)) with (k_bcache s); by rewrite Hi.
  - intros me p i b s C R Hi _. eexists. split; [apply section_ok; [apply serve_private|done|apply (ca_hart _ _ _ C)]|].
    split; [done|]. split; try done; try (by rewrite serve_rest, rest_settle);
      unfold serve; cbn [Z.eqb]; change (k_bcache (settle s)) with (k_bcache s); by rewrite Hi.
Defined.

(** ** The cache after binit, in a process *)

Definition first_process : PCB :=
  {| p_state := RUNNING; p_pid := 1; p_pagetable := 0; p_context := p_context PCB_zero; p_kstack := 0;
     p_trapframe := 0; p_name := replicate 16 0; p_killed := 0; p_parent := None; p_chan := None;
     p_xstate := 0; p_sz := 0; p_ofile := replicate 16 None; p_cwd := None |}.

Definition in_process (s : kernel) : kernel :=
  set_procs (<[0%nat := first_process]> (k_procs s))
    (set_cpu {| c_proc := Some 0%nat; c_noff := 0; c_intena := 0 |} s).

Definition fresh_cache : kernel :=
  match binit (in_process boot_kernel) with Ok _ s => s | Stop _ s => s end.

Lemma locks_free_b (ls : list lockid) (s : kernel) :
  forallb (fun l => match k_locks s !! l with
                    | Some {| lk_locked := 0; lk_cpu := None |} => true
                    | _ => false
                    end) ls = true ->
  forall l, l ∈ ls -> lock_free l s.
Proof.
  intros H l Hl. rewrite forallb_forall in H. apply list_elem_of_In in Hl. specialize (H l Hl).
  unfold lock_free. destruct (k_locks s !! l) as [[[] nm []]|]; try done. by exists nm.
Qed.

Lemma fresh_locks :
  forall l, l ∈ L_bcache :: L_vdisk :: L_log :: L_pr :: (L_proc <$> seq 0 64) ++ (L_buf <$> seq 0 90) ->
  lock_free l fresh_cache.
Proof. apply locks_free_b. vm_compute. reflexivity. Qed.

Lemma fresh_cenv : cenv 0 first_process fresh_cache.
Proof.
  split.
  - split; [vm_compute; done|vm_compute; reflexivity|vm_compute; reflexivity|].
    split; [vm_compute; reflexivity|]. intros i Hi. apply fresh_locks. do 4 right.
    apply elem_of_app. left. apply list_elem_of_fmap_2, elem_of_seq. lia.
  - exists (initial_lru 90). destruct (binit_ring (in_process boot_kernel)) as (s' & E & R & L); [reflexivity|].
    assert (s' = fresh_cache) as Es by (unfold fresh_cache; by rewrite E). rewrite Es in R, L.
    split; [done|done| | |].
    + apply NoDup_Permutation; [apply R|apply NoDup_seq|]. intros i. rewrite elem_of_initial_lru, elem_of_seq. lia.
    + apply fresh_locks. left.
    + intros i Hi. apply fresh_locks. do 4 right. apply elem_of_app. right. apply list_elem_of_fmap_2, elem_of_seq. lia.
  - apply fresh_locks. right. left.
Qed.

Lemma fresh_cores : cores fresh_cache = replicate 90 buf_zero.
Proof. vm_compute. reflexivity. Qed.

Lemma fresh_inv n : (n <= 90)%nat -> inv 0 first_process 1 n ∅ fresh_cache.
Proof.
  intros Hn. split; [apply fresh_cenv|]. rewrite fresh_cores. change (k_disk fresh_cache) with (∅ : gmap Z (list Z)).
  assert (forall i b, replicate 90 buf_zero !! i = Some b -> b = buf_zero) as Hz.
  { intros i b H. by apply lookup_replicate in H as [-> _]. }
  split.
  - intros i j bi bj m H1 H2 H3. apply Hz in H1 as ->. unfold owns in H3. done.
  - intros i m H. by rewrite lookup_empty in H.
  - intros i b H _. by apply Hz in H as ->.
  - intros i b m H Ho. apply Hz in H as ->. unfold owns in Ho. done.
  - intros i b H. apply Hz in H as ->. cbn [b_refcnt buf_zero]. lia.
  - vm_compute. lia.
  - intros i b H. apply Hz in H as ->. vm_compute. reflexivity.
  - intros m. vm_compute. reflexivity.
Qed.

Lemma block_write_read_witness :
  exists j s', (let! i := bread ideal_rw 1 33 in
                do! modify (upd_buf i (buf_data (replicate 1024 7)));
                do! bwrite ideal_rw i;
                do! brelse i;
                bread ideal_rw 1 33) fresh_cache = Ok j s' /\ disk_block s' 33 = replicate 1024 7.
Proof.
  destruct (block_write_read 0 first_process 1 0 33 (replicate 1024 7) fresh_cache) as (j & s' & E & _ & _ & Hd & _).
  - apply fresh_inv. lia.
  - reflexivity.
  - apply length_replicate.
  - exists j, s'. split; [exact E|exact Hd].
Defined.

Lemma fresh_view m : view 1 fresh_cache m = disk_block fresh_cache m.
Proof.
  unfold view, view_of. rewrite fresh_cores. rewrite owner_none; [done|].
  intros i b H. by apply lookup_replicate in H as [-> _].
Qed.

Lemma reread_keeps_reference_witness :
  exists s', (do! read_release (virtio_disk_rw := ideal_rw) 1 33;
              read_release (virtio_disk_rw := ideal_rw) 1 33) fresh_cache = Ok tt s' /\ 1 <= refs 1 s' 33.
Proof.
  destruct (reread_keeps_reference 0 first_process 1 0 33 fresh_cache) as (s' & E & _ & _ & _ & H).
  - apply fresh_inv. lia.
  - reflexivity.
  - apply fresh_view.
  - vm_compute. congruence.
  - exists s'. split; [exact E|exact H].
Defined.

(** Every buffer referenced. *)
Definition busy_cache : kernel := foldr (fun i s => upd_buf i (buf_refcnt 1) s) fresh_cache (seq 0 90).

Lemma busy_cenv : cenv 0 first_process busy_cache.
Proof.
  unfold busy_cache. induction (seq 0 90) as [|i l IH]; [apply fresh_cenv|]. cbn [foldr]. by apply cenv_upd.
Qed.

Lemma busy_cores : cores busy_cache = replicate 90 (buf_refcnt 1 buf_zero).
Proof. vm_compute. reflexivity. Qed.

Lemma bget_exhausted_witness :
  exists s', bread ideal_rw 1 33 busy_cache = Stop (Panic "bget: 没有空闲内存块了捏(悲)") s'.
Proof.
  apply (bget_exhausted 0 first_process 1 33 busy_cache).
  - apply busy_cenv.
  - vm_compute. reflexivity.
  - intros i b H. rewrite busy_cores in H. apply lookup_replicate in H as [-> _]. split; [reflexivity|discriminate].
Defined.
