(* ===== verification/Bytes.v ===== *)
(** * Integers in a block's bytes

    The data of a buffer is a [uchar] array of BSIZE bytes; the file system
    reads and writes it through pointers to structures of little-endian 32- and
    16-bit fields. *)

From S2P Require Import Prelude.

Definition byte_at (d : list Z) (off : Z) : Z := default 0 (d !! Z.to_nat off).

Definition get16 (d : list Z) (off : Z) : Z := byte_at d off + 256 * byte_at d (off + 1).
Definition get32 (d : list Z) (off : Z) : Z :=
  byte_at d off + 256 * (byte_at d (off + 1) + 256 * (byte_at d (off + 2) + 256 * byte_at d (off + 3))).

Definition put8 (d : list Z) (off v : Z) : list Z := <[Z.to_nat off := u8 v]> d.
Definition put16 (d : list Z) (off v : Z) : list Z := put8 (put8 d off v) (off + 1) (v / 256).
Definition put32 (d : list Z) (off v : Z) : list Z := put16 (put16 d off v) (off + 2) (v / 65536).

(** memmove between the data of two different buffers. *)
Definition copy_bytes (dst src : list Z) (n : nat) : list Z := take n src ++ drop n dst.

Lemma length_put8 d off v : length (put8 d off v) = length d.
Proof. apply length_insert. Qed.
Lemma length_put16 d off v : length (put16 d off v) = length d.
Proof. unfold put16. by rewrite !length_put8. Qed.
Lemma length_put32 d off v : length (put32 d off v) = length d.
Proof. unfold put32. by rewrite !length_put16. Qed.

Lemma copy_bytes_all dst src : length dst = length src -> copy_bytes dst src (length src) = src.
Proof.
  intros H. unfold copy_bytes. rewrite take_ge by lia. rewrite drop_ge by lia. apply app_nil_r.
Qed.

Lemma byte_at_put8 d off v o :
  0 <= off < Z.of_nat (length d) -> 0 <= o ->
  byte_at (put8 d off v) o = if o =? off then u8 v else byte_at d o.
Proof.
  intros H Ho. unfold byte_at, put8. destruct (Z.eqb_spec o off) as [->|Hne].
  - by rewrite list_lookup_insert_eq by lia.
  - by rewrite list_lookup_insert_ne by lia.
Qed.

Lemma byte_at_put32 d off v o :
  0 <= off -> off + 4 <= Z.of_nat (length d) -> 0 <= o ->
  byte_at (put32 d off v) o =
    if o =? off then u8 v else if o =? off + 1 then u8 (v / 256)
    else if o =? off + 2 then u8 (v / 65536) else if o =? off + 3 then u8 (v / 65536 / 256)
    else byte_at d o.
Proof.
  intros H1 H2 Ho. unfold put32, put16.
  rewrite !byte_at_put8 by (rewrite ?length_put8; lia).
  repeat match goal with |- context [?a =? ?b] => destruct (Z.eqb_spec a b) end; try done; lia.
Qed.

Lemma get32_put32 d off v :
  0 <= off -> off + 4 <= Z.of_nat (length d) -> get32 (put32 d off v) off = u32 v.
Proof.
  intros H1 H2. unfold get32. rewrite !byte_at_put32 by lia.
  rewrite !Z.eqb_refl. repeat match goal with |- context [?a =? ?b] => destruct (Z.eqb_spec a b); try lia end.
  unfold u8, u32. change (2 ^ 8) with 256. change (2 ^ 32) with 4294967296. rewrite Z.div_div by lia. zdm.
Qed.

Lemma get32_put32_other d off v o :
  0 <= off -> off + 4 <= Z.of_nat (length d) -> 0 <= o -> o + 4 <= off \/ off + 4 <= o ->
  get32 (put32 d off v) o = get32 d o.
Proof.
  intros H1 H2 H3 H4. unfold get32. rewrite !byte_at_put32 by lia.
  repeat match goal with |- context [?a =? ?b] => destruct (Z.eqb_spec a b); try lia end.
Qed.

Lemma get32_range d off :
  Forall (fun b => 0 <= b < 256) d -> 0 <= get32 d off < 2 ^ 32.
Proof.
  intros H. assert (forall o, 0 <= byte_at d o < 256) as Hb.
  { intros o. unfold byte_at. destruct (d !! Z.to_nat o) as [b|] eqn:E; [|cbn; lia].
    rewrite Forall_forall in H. apply H. by eapply list_elem_of_lookup_2. }
  unfold get32. pose proof (Hb off). pose proof (Hb (off + 1)). pose proof (Hb (off + 2)).
  pose proof (Hb (off + 3)). change (2 ^ 32) with 4294967296. lia.
Qed.

Lemma byte_at_put16 d off v o :
  0 <= off -> off + 2 <= Z.of_nat (length d) -> 0 <= o ->
  byte_at (put16 d off v) o = if o =? off then u8 v else if o =? off + 1 then u8 (v / 256) else byte_at d o.
Proof.
  intros H1 H2 Ho. unfold put16. rewrite !byte_at_put8 by (rewrite ?length_put8; lia). zcases.
Qed.

Lemma get16_put16 d off v :
  0 <= off -> off + 2 <= Z.of_nat (length d) -> get16 (put16 d off v) off = u16 v.
Proof.
  intros H1 H2. unfold get16. rewrite !byte_at_put16 by lia. zif. unfold u8, u16. change (2 ^ 8) with 256.
  change (2 ^ 16) with 65536. zdm.
Qed.

Lemma get16_ext d d' o : byte_at d o = byte_at d' o -> byte_at d (o + 1) = byte_at d' (o + 1) -> get16 d o = get16 d' o.
Proof. unfold get16. by intros -> ->. Qed.

Lemma get32_ext d d' o : (forall x, o <= x < o + 4 -> byte_at d x = byte_at d' x) -> get32 d o = get32 d' o.
Proof. intros H. unfold get32. by rewrite !H by lia. Qed.
