(* ===== verification/Log.v ===== *)
(** * kernel/disk/log.c: the write-ahead log

    A transaction collects the numbers of the blocks it changes in the header in
    memory ([log_write]); when the last system call of the group ends, [commit]
    copies the blocks to the log, writes the header, and installs the blocks. *)

From S2P Require Import Prelude Mem CString State Spinlock Printf Locks Sleep Bio Bytes.

(** ** Fields of struct log *)

Definition upd_log (f : log_t -> log_t) (s : kernel) : kernel := set_log (f (k_log s)) s.

Definition with_n (n : Z) (l : log_t) : log_t :=
  {| log_start := log_start l; log_outstanding := log_outstanding l; log_committing := log_committing l;
     log_dev := log_dev l; lh_n := n; lh_block := lh_block l |}.
Definition with_block (i : nat) (v : Z) (l : log_t) : log_t :=
  {| log_start := log_start l; log_outstanding := log_outstanding l; log_committing := log_committing l;
     log_dev := log_dev l; lh_n := lh_n l; lh_block := <[i := v]> (lh_block l) |}.
Definition with_outstanding (n : Z) (l : log_t) : log_t :=
  {| log_start := log_start l; log_outstanding := n; log_committing := log_committing l;
     log_dev := log_dev l; lh_n := lh_n l; lh_block := lh_block l |}.
Definition with_committing (c : Z) (l : log_t) : log_t :=
  {| log_start := log_start l; log_outstanding := log_outstanding l; log_committing := c;
     log_dev := log_dev l; lh_n := lh_n l; lh_block := lh_block l |}.
Definition with_place (start dev : Z) (l : log_t) : log_t :=
  {| log_start := start; log_outstanding := log_outstanding l; log_committing := log_committing l;
     log_dev := dev; lh_n := lh_n l; lh_block := lh_block l |}.

(** [log.lh.block[i]], an array of LOGBLOCKS entries. *)
Definition block_get (i : nat) : KM Z :=
  let! l := get k_log in
  match lh_block l !! i with
  | Some b => ret b
  | None => halt (Undefined "log.lh.block")
  end.
Definition block_set (i : nat) (v : Z) : KM unit :=
  let! l := get k_log in
  if (i <? length (lh_block l))%nat then modify (upd_log (with_block i v))
  else halt (Undefined "log.lh.block").

(** struct logheader in the header block: [n] and then [block]. *)
Definition hd_n (d : list Z) : Z := s32 (get32 d 0).
Definition hd_block (d : list Z) (i : nat) : Z := s32 (get32 d (4 + 4 * Z.of_nat i)).
Definition hd_set_block (i : nat) (v : Z) (d : list Z) : list Z := put32 d (4 + 4 * Z.of_nat i) v.

(** ** log_write *)

(** [for (i = 0; i < log.lh.n; i++) if (log.lh.block[i] == b->blockno) break;] *)
Fixpoint absorb (fuel : nat) (n : Z) (bs : list Z) (blockno : Z) (i : nat) : nat :=
  match fuel with
  | O => i
  | S f =>
      if Z.of_nat i <? n then
        if u32 (default 0 (bs !! i)) =? blockno then i else absorb f n bs blockno (S i)
      else i
  end.

Definition log_write (b : nat) : KM unit :=
  do! acquire L_log;
  let! l := get k_log in
  if LOGBLOCKS <=? lh_n l then panic "too big a transaction"
  else if log_outstanding l <? 1 then panic "log_write outside of trans"
  else
    let! blockno := buf_get b b_blockno in
    let i := absorb (Z.to_nat LOGBLOCKS) (lh_n l) (lh_block l) blockno 0 in
    do! block_set i (s32 blockno);
    do! (when! Z.of_nat i =? lh_n l then
           do! bpin b;
           modify (upd_log (with_n (s32 (lh_n l + 1)))));
    release L_log.

Section Routines.
Context (virtio_disk_rw : nat -> Z -> KM unit).
Abbreviation bread := (bread virtio_disk_rw).
Abbreviation bwrite := (bwrite virtio_disk_rw).

(** ** The header *)

Definition read_head : KM unit :=
  let! l := get k_log in
  let! b := bread (log_dev l) (log_start l) in
  let! d := buf_get b b_data in
  do! modify (upd_log (with_n (hd_n d)));
  do! foreach (seq 0 (Z.to_nat (hd_n d))) (fun i => block_set i (hd_block d i));
  brelse b.

Definition write_head : KM unit :=
  let! l := get k_log in
  let! b := bread (log_dev l) (log_start l) in
  do! foreach (seq 0 (Z.to_nat (lh_n l))) (fun i =>
        let! v := block_get i in
        modify (upd_buf b (fun x => buf_data (hd_set_block i v (b_data x)) x)));
  do! bwrite b;
  brelse b.

(** ** Copying the blocks *)

(** [memmove(dst->data, src->data, BSIZE)] *)
Definition copy_data (dst src : nat) : KM unit :=
  let! d := buf_get src b_data in
  modify (upd_buf dst (fun x => buf_data (copy_bytes (b_data x) d (Z.to_nat BSIZE)) x)).

Definition install_one (recovering : Z) (tail : nat) : KM unit :=
  do! (when! truthy recovering then
         let! dst := block_get tail in
         printf ("recovering tail %d dst %d" ++ nl) [VNum (Z.of_nat tail); VNum dst]);
  let! l := get k_log in
  let! lbuf := bread (log_dev l) (s32 (log_start l + Z.of_nat tail + 1)) in
  let! dst := block_get tail in
  let! dbuf := bread (log_dev l) dst in
  do! copy_data dbuf lbuf;
  do! bwrite dbuf;
  do! (when! recovering =? 0 then bunpin dbuf);
  do! brelse lbuf;
  brelse dbuf.

Definition install_trans (recovering : Z) : KM unit :=
  let! l := get k_log in
  foreach (seq 0 (Z.to_nat (lh_n l))) (install_one recovering).

Definition recover_from_log : KM unit :=
  do! read_head;
  do! install_trans 1;
  do! modify (upd_log (with_n 0));
  write_head.

Definition write_one (tail : nat) : KM unit :=
  let! l := get k_log in
  let! to := bread (log_dev l) (s32 (log_start l + Z.of_nat tail + 1)) in
  let! src := block_get tail in
  let! from := bread (log_dev l) src in
  do! copy_data to from;
  do! bwrite to;
  do! brelse from;
  brelse to.

Definition write_log : KM unit :=
  let! l := get k_log in
  foreach (seq 0 (Z.to_nat (lh_n l))) write_one.

Definition commit : KM unit :=
  let! l := get k_log in
  when! 0 <? lh_n l then
    do! write_log;
    do! write_head;
    do! install_trans 0;
    do! modify (upd_log (with_n 0));
    write_head.

Definition sizeof_logheader : Z := 4 + 4 * LOGBLOCKS.

Definition initlog (dev logstart : Z) : KM unit :=
  if BSIZE <=? sizeof_logheader then panic "initlog: 日志头不能太大"
  else
    do! initlock L_log "log";
    do! modify (upd_log (with_place (s32 logstart) dev));
    recover_from_log.

(** ** Transactions *)

(** One turn of begin_op's loop, with the lock held; a process that sleeps takes
    the turn again when it wakes up. *)
Definition log_full (l : log_t) : bool :=
  LOGBLOCKS <? s32 (lh_n l + s32 (s32 (log_outstanding l + 1) * MAXOPBLOCKS)).

Definition begin_turn : KM unit :=
  let! l := get k_log in
  if truthy (log_committing l) then sleep Ch_log L_log
  else if log_full l then sleep Ch_log L_log
  else
    do! modify (upd_log (with_outstanding (s32 (log_outstanding l + 1))));
    release L_log.

Definition begin_op : KM unit :=
  do! acquire L_log;
  begin_turn.

Definition end_op : KM unit :=
  do! acquire L_log;
  do! modify (upd_log (fun l => with_outstanding (s32 (log_outstanding l - 1)) l));
  let! l := get k_log in
  if truthy (log_committing l) then panic "log.committing"
  else
    let do_commit := log_outstanding l =? 0 in
    do! (if do_commit then modify (upd_log (with_committing 1)) else wakeup Ch_log);
    do! release L_log;
    when! do_commit then
      do! commit;
      do! acquire L_log;
      do! modify (upd_log (with_committing 0));
      do! wakeup Ch_log;
      release L_log.

End Routines.
