(* ===== verification/LogProps.v ===== *)
(** * Properties of kernel/disk/log.c *)

From S2P Require Import Prelude Mem CString State Spinlock Printf Locks Sleep Bio Bytes BlockCache Log.

(** ** log_write *)

(** The block numbers of the transaction, the first [n] of the header. *)
Definition logged (l : log_t) : list Z := take (Z.to_nat (lh_n l)) (lh_block l).

Record log_wf (l : log_t) : Prop := {
  lw_n : 0 <= lh_n l <= 90;
  lw_len : length (lh_block l) = 90%nat;
  lw_range : Forall (fun m => 0 <= m < 2 ^ 31) (lh_block l)
}.

Lemma absorb_spec fuel n bs bno i :
  Z.of_nat i <= n -> n - Z.of_nat i <= Z.of_nat fuel ->
  let k := absorb fuel n bs bno i in
  (i <= k)%nat /\ Z.of_nat k <= n /\ (Z.of_nat k < n -> u32 (default 0 (bs !! k)) = bno) /\
  (forall j, (i <= j < k)%nat -> u32 (default 0 (bs !! j)) <> bno).
Proof.
  revert i. induction fuel as [|fuel IH]; intros i Hi Hf; cbn [absorb].
  { split; [lia|]. split; [lia|]. split; lia. }
  destruct (Z.ltb_spec (Z.of_nat i) n) as [Hlt|Hge]; [|split; [lia|split; [lia|split; lia]]].
  destruct (Z.eqb_spec (u32 (default 0 (bs !! i))) bno) as [He|Hne].
  { split; [lia|]. split; [lia|]. split; [done|lia]. }
  destruct (IH (S i)) as (H1 & H2 & H3 & H4); [lia|lia|]. split; [lia|]. split; [lia|]. split; [done|].
  intros j Hj. destruct (decide (j = i)) as [->|]; [done|]. apply H4. lia.
Qed.

Lemma log_range l k : log_wf l -> (k < 90)%nat ->
  exists m, lh_block l !! k = Some m /\ 0 <= m < 2 ^ 31 /\ u32 (default 0 (lh_block l !! k)) = m.
Proof.
  intros [_ H1 H2] Hk. destruct (lookup_lt_is_Some_2 (lh_block l) k) as [m Hm]; [lia|]. exists m.
  rewrite Forall_lookup in H2. pose proof (H2 k m Hm). rewrite Hm. cbn. split; [done|]. split; [done|].
  apply u32_small. lia.
Qed.

Lemma elem_of_logged l m : log_wf l ->
  m ∈ logged l <-> exists k, Z.of_nat k < lh_n l /\ lh_block l !! k = Some m.
Proof.
  intros Hw. destruct (lw_n _ Hw). unfold logged. rewrite list_elem_of_lookup. split.
  - intros [k Hk]. apply lookup_take_Some in Hk as [Hk H2]. exists k. split; [lia|done].
  - intros (k & Hk & E). exists k. apply lookup_take_Some. split; [done|lia].
Qed.

(** Where log_write puts the block: at its old place, or at the end. *)
Lemma absorb_logged l m :
  log_wf l -> 0 <= m < 2 ^ 31 ->
  let k := absorb 90 (lh_n l) (lh_block l) m 0 in
  (m ∈ logged l -> Z.of_nat k < lh_n l /\ lh_block l !! k = Some m) /\
  (m ∉ logged l -> Z.of_nat k = lh_n l).
Proof.
  intros Hw Hm. destruct (lw_n _ Hw).
  destruct (absorb_spec 90 (lh_n l) (lh_block l) m 0) as (H1 & H2 & H3 & H4); [lia|lia|].
  cbn zeta. set (k := absorb _ _ _ _ _) in *. split.
  - intros Hin. rewrite elem_of_logged in Hin by done. destruct Hin as (j & Hj & E).
    assert (~ (j < k)%nat) as Hjk.
    { intros Hc. apply (H4 j); [lia|]. rewrite E. cbn. apply u32_small. lia. }
    assert (Z.of_nat k < lh_n l) as Hk by lia. split; [done|].
    destruct (log_range l k Hw) as (m' & E' & _ & Hu); [lia|]. rewrite H3 in Hu by done. by subst.
  - intros Hni. destruct (decide (Z.of_nat k < lh_n l)) as [Hk|]; [|lia]. exfalso. apply Hni.
    rewrite elem_of_logged by done. exists k. split; [done|].
    destruct (log_range l k Hw) as (m' & E' & _ & Hu); [lia|]. rewrite H3 in Hu by done. by subst.
Qed.

Lemma upd_log_private f : private (upd_log f).
Proof. by split. Qed.
#[export] Hint Resolve upd_log_private : core.

Definition pin (b : buf) : buf := buf_refcnt (u32 (b_refcnt b + 1)) b.

(** bpin inside a critical section on another lock. *)
Lemma bpin_locked l b s :
  roomy (k_hart s) -> lock_free L_bcache s -> l <> L_bcache -> forall f, private f ->
  bpin b (f (locked l s)) = Ok tt (upd_buf b pin (f (locked l s))).
Proof.
  intros [Hh Hn] Hl Hne f Hf. unfold bpin.
  assert (hart_ok (k_hart (locked l s))) as Hh' by (apply hart_push_ok; [done|lia]).
  rewrite (section_ok L_bcache (upd_buf b _) (f (locked l s))).
  - rewrite settle_private by done. by rewrite settle_locked.
  - done.
  - apply lock_free_private; [done|]. destruct Hl as [nm Hl]. exists nm. unfold locked, set_lock. cbn.
    by rewrite lookup_insert_ne.
  - by rewrite (pv_k_hart _ Hf).
Qed.

(** The transaction with block [m] added. *)
Definition log_added (m : Z) (l : log_t) : log_t :=
  if decide (m ∈ logged l) then l
  else with_n (lh_n l + 1) (with_block (Z.to_nat (lh_n l)) m l).

Lemma with_block_same k m l : lh_block l !! k = Some m -> with_block k m l = l.
Proof. intros H. destruct l. unfold with_block. cbn in *. by rewrite list_insert_id. Qed.

Lemma log_write_ok b x s :
  roomy (k_hart s) -> lock_free L_log s -> lock_free L_bcache s ->
  bc_buf (k_bcache s) !! b = Some x -> 0 <= b_blockno x < 2 ^ 31 ->
  log_wf (k_log s) -> lh_n (k_log s) < 90 -> 1 <= log_outstanding (k_log s) ->
  log_write b s =
    Ok tt (upd_log (log_added (b_blockno x))
             (if decide (b_blockno x ∈ logged (k_log s)) then settle s else upd_buf b pin (settle s))).
Proof.
  intros Hr Hl Hbl Hb Hx Hw Hn Ho. pose proof Hr as [Hh _]. pose proof (lw_n _ Hw) as Hn0.
  unfold log_write. mstep (acquire_ok L_log s Hl Hh). unfold bind at 1, get at 1.
  change (k_log (locked L_log s)) with (k_log s). set (l := k_log s) in *. set (m := b_blockno x) in *.
  change LOGBLOCKS with 90. rewrite (proj2 (Z.leb_gt 90 (lh_n l)) Hn).
  rewrite (proj2 (Z.ltb_ge (log_outstanding l) 1)) by lia.
  unfold bind at 1, buf_get, get at 1. change (k_bcache (locked L_log s)) with (k_bcache s). rewrite Hb.
  cbn [from_option id]. fold m. change (Z.to_nat 90) with 90%nat.
  destruct (absorb_logged l m Hw Hx) as [Hin Hout]. generalize dependent (absorb 90 (lh_n l) (lh_block l) m 0). intros k Hin Hout.
  assert (k < 90)%nat as Hk.
  { destruct (decide (m ∈ logged l)) as [Hd|Hd]; [destruct (Hin Hd); lia|rewrite <- (Hout Hd) in Hn; lia]. }
  assert (block_set k (s32 m) (locked L_log s) = Ok tt (upd_log (with_block k m) (locked L_log s))) as Eset.
  { unfold block_set, bind, get, modify. change (k_log (locked L_log s)) with l. rewrite (lw_len _ Hw).
    rewrite (proj2 (Nat.ltb_lt k 90) Hk). by rewrite s32_small by lia. }
  mstep Eset. unfold log_added. fold l. destruct (decide (m ∈ logged l)) as [Hd|Hd].
  - destruct (Hin Hd) as [H1 H2]. rewrite (proj2 (Z.eqb_neq (Z.of_nat k) (lh_n l))) by lia.
    unfold bind, ret. rewrite (release_private L_log (upd_log (with_block k m)) s) by done. f_equal.
    unfold upd_log. change (k_log (settle s)) with l. by rewrite with_block_same, decide_True.
  - rewrite (Hout Hd), Z.eqb_refl. rewrite bind_assoc.
    mstep (bpin_locked L_log b s Hr Hbl ltac:(done) (upd_log (with_block k m)) (upd_log_private _)).
    unfold bind, modify. rewrite (release_private L_log
      (fun s => upd_log (with_n (s32 (lh_n l + 1))) (upd_buf b pin (upd_log (with_block k m) s))) s);
      [|by split|done|done]. f_equal. rewrite s32_small by lia.
    replace k with (Z.to_nat (lh_n l)) by (rewrite <- (Hout Hd); lia).
    unfold upd_log, upd_buf. cbn. fold l. by rewrite decide_False.
Qed.

Lemma logged_added l m :
  log_wf l -> lh_n l < 90 -> m ∉ logged l -> logged (log_added m l) = logged l ++ [m].
Proof.
  intros [[H1 _] H2 _] Hn Hm. unfold log_added. rewrite decide_False by done. unfold logged. cbn.
  replace (Z.to_nat (lh_n l + 1)) with (S (Z.to_nat (lh_n l))) by lia.
  rewrite (take_S_r _ _ m) by (apply list_lookup_insert_eq; lia). f_equal.
  apply take_insert_ge. lia.
Qed.

Lemma log_added_wf l m : log_wf l -> lh_n l < 90 -> 0 <= m < 2 ^ 31 -> log_wf (log_added m l).
Proof.
  intros Hw Hn Hm. pose proof Hw as [H1 H2 H3]. unfold log_added. case_decide; [done|]. split; cbn.
  - lia.
  - by rewrite length_insert.
  - by apply Forall_insert.
Qed.

(** Log_write of a buffer in a transaction that is not full. A block that is
    in the transaction already is absorbed: the header and the cache stay as
    they are. Any other block is appended to the transaction and its buffer
    pinned by one more reference. The transaction never names a block twice. *)
Theorem log_write_correct b x s :
  roomy (k_hart s) -> lock_free L_log s -> lock_free L_bcache s ->
  bc_buf (k_bcache s) !! b = Some x -> 0 <= b_blockno x < 2 ^ 31 ->
  log_wf (k_log s) -> lh_n (k_log s) < LOGBLOCKS -> 1 <= log_outstanding (k_log s) ->
  exists s', log_write b s = Ok tt s' /\ k_locks s' = k_locks s /\ k_disk s' = k_disk s /\
    log_wf (k_log s') /\ log_outstanding (k_log s') = log_outstanding (k_log s) /\
    (NoDup (logged (k_log s)) -> NoDup (logged (k_log s'))) /\
    (b_blockno x ∈ logged (k_log s) ->
       logged (k_log s') = logged (k_log s) /\ k_bcache s' = k_bcache s) /\
    (b_blockno x ∉ logged (k_log s) ->
       logged (k_log s') = logged (k_log s) ++ [b_blockno x] /\
       k_bcache s' = k_bcache (upd_buf b (fun b => buf_refcnt (u32 (b_refcnt b + 1)) b) s)).
Proof.
  intros Hr Hl Hbl Hb Hx Hw Hn Ho. change LOGBLOCKS with 90 in Hn. eexists.
  split; [by eapply log_write_ok|]. set (m := b_blockno x) in *.
  assert (k_log (upd_log (log_added m) (if decide (m ∈ logged (k_log s)) then settle s else upd_buf b pin (settle s)))
          = log_added m (k_log s)) as E by (by case_decide).
  rewrite E. split; [by case_decide|]. split; [by case_decide|]. split; [by apply log_added_wf|].
  split; [unfold log_added; by case_decide|].
  split; [|split].
  - intros Hnd. destruct (decide (m ∈ logged (k_log s))) as [Hd|Hd].
    + unfold log_added. by rewrite decide_True.
    + rewrite logged_added by done. apply NoDup_app. split; [done|]. split; [set_solver|apply NoDup_singleton].
  - intros Hd. unfold log_added. by rewrite !decide_True.
  - intros Hd. rewrite logged_added by done. split; [done|]. by rewrite decide_False.
Qed.

(** Log_write refuses a full transaction, and refuses to run outside of one. *)
Theorem log_write_refused b s :
  lock_free L_log s -> hart_ok (k_hart s) -> k_panicked s = 0 ->
  (LOGBLOCKS <= lh_n (k_log s) -> exists s', log_write b s = Stop (Panic "too big a transaction") s') /\
  (lh_n (k_log s) < LOGBLOCKS -> log_outstanding (k_log s) < 1 ->
     exists s', log_write b s = Stop (Panic "log_write outside of trans") s').
Proof.
  intros Hl Hh Hp. unfold log_write. rewrite !(bind_ok _ _ _ _ _ (acquire_ok L_log s Hl Hh)).
  unfold bind, get. change (k_log (locked L_log s)) with (k_log s). split.
  - intros Hn. rewrite (proj2 (Z.leb_le _ _) Hn). unfold panic. cbn. rewrite Hp. by eexists.
  - intros Hn Ho. rewrite (proj2 (Z.leb_gt _ _) Hn), (proj2 (Z.ltb_lt _ _) Ho).
    unfold panic. cbn. rewrite Hp. by eexists.
Qed.

(** ** begin_op *)

Lemma log_full_spec l :
  0 <= lh_n l <= 90 -> 0 <= log_outstanding l <= 90 ->
  log_full l = (90 <? lh_n l + (log_outstanding l + 1) * 30).
Proof.
  intros H1 H2. unfold log_full. change LOGBLOCKS with 90. change MAXOPBLOCKS with 30.
  rewrite (s32_small (log_outstanding l + 1)) by lia. rewrite (s32_small ((log_outstanding l + 1) * 30)) by lia.
  by rewrite s32_small by lia.
Qed.

(** Begin_op admits the system call exactly when no commit is running and the
    log can still take MAXOPBLOCKS blocks for it and for every system call
    already admitted; otherwise the process sleeps on the log with the log's
    lock free, and nothing of the log changes. *)
Theorem begin_op_correct i p s :
  caller i p s -> c_noff (h_cpu (k_hart s)) = 0 -> lock_free L_log s ->
  0 <= lh_n (k_log s) <= LOGBLOCKS -> 0 <= log_outstanding (k_log s) <= 90 ->
  if bool_decide (log_committing (k_log s) = 0 /\
                  lh_n (k_log s) + (log_outstanding (k_log s) + 1) * MAXOPBLOCKS <= LOGBLOCKS)
  then begin_op s = Ok tt (upd_log (with_outstanding (log_outstanding (k_log s) + 1)) (settle s))
  else exists s', begin_op s = Stop Switch s' /\ k_log s' = k_log s /\ lock_free L_log s' /\
         k_procs s' !! i = Some (asleep Ch_log p).
Proof.
  intros Hc Hz Hl Hn Ho. pose proof (ca_hart _ _ _ Hc) as [Hh _]. change LOGBLOCKS with 90 in *. change MAXOPBLOCKS with 30.
  unfold begin_op. rewrite !(bind_ok _ _ _ _ _ (acquire_ok L_log s Hl Hh)). unfold begin_turn.
  unfold bind at 1 3, get at 1 2. change (k_log (locked L_log s)) with (k_log s).
  rewrite (log_full_spec (k_log s)) by done.
  assert (exists s', sleep Ch_log L_log (locked L_log s) = Stop Switch s' /\ k_log s' = k_log s /\
            lock_free L_log s' /\ k_procs s' !! i = Some (asleep Ch_log p)) as Hsleep.
  { eexists. split; [by apply (sleep_ok Ch_log L_log i p)|]. split; [done|]. split.
    - destruct Hl as [nm E]. exists nm. unfold locked, set_lock. cbn. by rewrite lookup_insert_ne.
    - cbn. by rewrite list_lookup_alter_eq, (ca_proc _ _ _ Hc). }
  case_bool_decide as Hd.
  - destruct Hd as [-> Hd]. cbn [truthy Z.eqb negb].
    rewrite (proj2 (Z.ltb_ge 90 (lh_n (k_log s) + (log_outstanding (k_log s) + 1) * 30)) Hd).
    unfold bind, modify. rewrite s32_small by lia. by apply release_private.
  - destruct (truthy (log_committing (k_log s))) eqn:Et; [done|].
    destruct (Z.ltb_spec 90 (lh_n (k_log s) + (log_outstanding (k_log s) + 1) * 30)) as [Hlt|Hge]; [done|].
    exfalso. apply Hd. split; [|done]. unfold truthy in Et. zbool. done.
Qed.

(** ** The log's space

    The log together with the system calls admitted to the transaction, each
    with the number of blocks it has added so far. A step is what begin_op,
    log_write or end_op does to them; the last end_op commits, which empties the
    header. *)
Inductive log_step : log_t * list nat -> log_t * list nat -> Prop :=
| Step_begin l ops :
    log_committing l = 0 -> log_full l = false ->
    log_step (l, ops) (with_outstanding (s32 (log_outstanding l + 1)) l, O :: ops)
| Step_write l ops1 k ops2 m :
    (k < 30)%nat -> 0 <= m < 2 ^ 31 -> lh_n l < LOGBLOCKS ->
    log_step (l, ops1 ++ k :: ops2)
      (log_added m l, ops1 ++ (if decide (m ∈ logged l) then k else S k) :: ops2)
| Step_end l ops1 k ops2 :
    ops1 ++ ops2 <> [] ->
    log_step (l, ops1 ++ k :: ops2) (with_outstanding (s32 (log_outstanding l - 1)) l, ops1 ++ ops2)
| Step_commit l k :
    log_step (l, [k]) (with_n 0 (with_outstanding (s32 (log_outstanding l - 1)) l), []).

(** The blocks still promised to the admitted system calls. *)
Definition promised (ops : list nat) : Z := foldr (fun k z => z + (30 - Z.of_nat k)) 0 ops.

Lemma promised_cons k ops : promised (k :: ops) = promised ops + (30 - Z.of_nat k).
Proof. done. Qed.

Lemma promised_app ops1 ops2 : promised (ops1 ++ ops2) = promised ops1 + promised ops2.
Proof. induction ops1 as [|k ops1 IH]; [done|]. cbn [app]. rewrite !promised_cons. lia. Qed.

Lemma promised_range ops :
  Forall (fun k => (k <= 30)%nat) ops -> 0 <= promised ops <= 30 * Z.of_nat (length ops).
Proof. induction 1 as [|k ops Hk _ IH]; [done|]. rewrite promised_cons. cbn [length]. lia. Qed.

Record log_inv (st : log_t * list nat) : Prop := {
  li_wf : log_wf (fst st);
  li_out : log_outstanding (fst st) = Z.of_nat (length (snd st));
  li_ops : Forall (fun k => (k <= 30)%nat) (snd st);
  li_len : (length (snd st) <= 3)%nat;
  li_space : lh_n (fst st) + promised (snd st) <= 90
}.

Lemma log_added_n m l : lh_n (log_added m l) = if decide (m ∈ logged l) then lh_n l else lh_n l + 1.
Proof. unfold log_added. by case_decide. Qed.
Lemma log_added_out m l : log_outstanding (log_added m l) = log_outstanding l.
Proof. unfold log_added. by case_decide. Qed.

Lemma log_inv_step st st' : log_inv st -> log_step st st' -> log_inv st'.
Proof.
  intros [Hw Ho Hf Hl Hs] Hstep. destruct Hstep as [l ops Hc Hfull|l ops1 k ops2 m Hk Hm Hn|l ops1 k ops2 Hne|l k];
    cbn [fst snd] in *; pose proof (lw_n _ Hw) as Hn0.
  - rewrite log_full_spec in Hfull by lia. zbool. pose proof (promised_range ops Hf).
    split; cbn [fst snd]; [by destruct Hw|cbn; rewrite s32_small by lia; lia|by constructor; [lia|]|cbn [length]; lia|].
    rewrite promised_cons. cbn. lia.
  - rewrite promised_app, promised_cons in Hs. apply Forall_app in Hf as [Hf1 Hf2].
    apply Forall_cons in Hf2 as [_ Hf2]. rewrite length_app in *. cbn [length] in *.
    split; cbn [fst snd]; rewrite ?log_added_n, ?log_added_out, ?length_app; cbn [length].
    + by apply log_added_wf.
    + lia.
    + apply Forall_app. split; [done|]. constructor; [case_decide; lia|done].
    + lia.
    + rewrite promised_app, promised_cons. case_decide; lia.
  - rewrite promised_app, promised_cons in Hs. apply Forall_app in Hf as [Hf1 Hf2].
    apply Forall_cons in Hf2 as [Hk Hf2]. rewrite length_app in *. cbn [length] in *.
    split; cbn [fst snd]; rewrite ?length_app.
    + by destruct Hw.
    + cbn. rewrite s32_small by lia. lia.
    + by apply Forall_app.
    + lia.
    + rewrite promised_app. cbn. lia.
  - split; cbn [fst snd length]; cbn; try done; [split; cbn; [lia|apply Hw..]|rewrite s32_small; cbn in Ho; lia|lia].
Qed.

Lemma log_inv_steps st st' : rtc log_step st st' -> log_inv st -> log_inv st'.
Proof. induction 1; eauto using log_inv_step. Qed.

