(* ===== verification/Commit.v ===== *)
(** * The commit of a transaction (kernel/disk/log.c over kernel/disk/bio.c)

    commit copies the blocks of the transaction from the cache to the log area
    and from there to their home blocks. The header on the disk never gets the
    number of blocks, so that recovery has nothing to replay. *)

From S2P Require Import Prelude Mem CString State Spinlock Printf Locks Sleep Bio Bytes BlockCache Log LogProps.

Section Commit.
Context {virtio_disk_rw : nat -> Z -> KM unit} {dev_ok : BlockDevice virtio_disk_rw}.
Context (me : nat) (p : PCB) (dev : Z).
Abbreviation inv := (inv me p dev).
Abbreviation view := (view dev).
Abbreviation refs := (refs dev).

(** Writing a buffer in terms of its old data. *)
Lemma upd_data_ext n H i m d f s :
  inv n H s -> H !! i = Some m -> (forall b, b_data b = view s m -> f b = buf_data d b) ->
  upd_buf i f s = upd_buf i (buf_data d) s.
Proof.
  intros Hs Hi Hf. destruct (held_view _ _ _ _ _ _ _ _ Hs Hi) as (b & Hb & Hd & _). unfold upd_buf. f_equal. f_equal.
  apply list_alter_ext; [|done]. intros x Hx. rewrite Hb in Hx. injection Hx as <-. by apply Hf.
Qed.

Lemma copy_data_ok n H i j mi mj s :
  inv n H s -> H !! i = Some mi -> H !! j = Some mj ->
  copy_data i j s = Ok tt (upd_buf i (buf_data (view s mj)) s).
Proof.
  intros Hs Hi Hj. destruct (held_view _ _ _ _ _ _ _ _ Hs Hj) as (b & Hb & Hd & _ & Hlen).
  destruct (held_view _ _ _ _ _ _ _ _ Hs Hi) as (_ & _ & _ & _ & Hlen').
  unfold copy_data, bind, buf_get, get, modify. rewrite Hb. cbn [from_option id]. rewrite Hd. f_equal.
  apply (upd_data_ext n H i mi); [done|done|]. intros x Hx. rewrite Hx. f_equal.
  change (Z.to_nat BSIZE) with 1024%nat. rewrite <- Hlen. apply copy_bytes_all. lia.
Qed.

Lemma read_data n H i m s : inv n H s -> H !! i = Some m -> buf_get i b_data s = Ok (view s m) s.
Proof.
  intros Hs Hi. destruct (held_view _ _ _ _ _ _ _ _ Hs Hi) as (b & Hb & Hd & _).
  unfold buf_get, get. rewrite Hb. cbn. by rewrite Hd.
Qed.

Definition set_view (v : Z -> list Z) (m : Z) (d : list Z) : Z -> list Z := fun m' => if m' =? m then d else v m'.

(** Two buffers in hand. *)
Lemma bread_two n bn1 bn2 s :
  inv (S (S n)) ∅ s -> 0 <= bn1 < 2 ^ 31 -> 0 <= bn2 < 2 ^ 31 -> bn1 <> bn2 ->
  exists i s1, bread virtio_disk_rw dev bn1 s = Ok i s1 /\ calm s s1 /\
  exists j s', bread virtio_disk_rw dev bn2 s1 = Ok j s' /\ i <> j /\ inv n (<[j := bn2]> {[i := bn1]}) s' /\ calm s s' /\
    k_disk s' = k_disk s /\ (forall m, view s' m = view s m) /\
    (forall m, refs s m <= refs s' m) /\ 1 <= refs s' bn1 /\ 1 <= refs s' bn2 /\
    (1 <= refs s bn1 -> refs s' bn1 = refs s bn1 + 2) /\ (1 <= refs s bn2 -> refs s' bn2 = refs s bn2 + 2) /\
    (forall m, m <> bn1 -> m <> bn2 -> refs s' m = refs s m).
Proof.
  intros Hs H1 H2 Hne.
  destruct (bread_ok me p dev (S n) ∅ bn1 s Hs (no_held _) (u32_below _ H1)) as (i & s1 & E1 & _ & Hs1 & C1 & D1 & V1 & P1 & R1 & F1).
  rewrite (u32_small bn1) in * by lia. exists i, s1. split; [done|]. split; [done|].
  destruct (bread_ok me p dev n {[i := bn1]} bn2 s1 Hs1) as (j & s2 & E2 & Hj & Hs2 & C2 & D2 & V2 & P2 & R2 & F2).
  { rewrite (u32_small bn2) by lia. intros k m Hk. apply lookup_singleton_Some in Hk as [_ <-]. done. } { by apply u32_below. }
  rewrite (u32_small bn2) in * by lia. exists j, s2.
  assert (i <> j) as Hij by (intros <-; by rewrite lookup_singleton_eq in Hj).
  assert (1 <= refs s bn1 -> refs s1 bn1 = refs s bn1 + 2) as G1 by (intros ?; apply R1, refs_cached; lia).
  assert (1 <= refs s bn2 -> refs s2 bn2 = refs s bn2 + 2) as G2.
  { intros ?. rewrite R2; [rewrite F1 by done; done|]. apply refs_cached. rewrite F1 by done. lia. }
  split; [done|]. split; [done|]. split; [done|]. split; [by eapply calm_trans|]. split; [congruence|].
  split; [intros m; by rewrite V2|].
  split.
  { intros m. destruct (decide (m = bn2)) as [->|N2].
    - destruct (decide (1 <= refs s bn2)) as [?|?]; [rewrite G2 by done|]; lia.
    - rewrite F2 by done. destruct (decide (m = bn1)) as [->|N1]; [|by rewrite F1].
      destruct (decide (1 <= refs s bn1)) as [?|?]; [rewrite G1 by done|]; lia. }
  split; [rewrite F2 by done; done|]. split; [done|]. split; [by rewrite F2|]. split; [done|].
  intros m N1 N2. by rewrite F2, F1.
Qed.

(** *** One block to the log *)

Lemma write_one_ok n t s st blk :
  inv (S (S n)) ∅ s -> log_dev (k_log s) = dev -> log_start (k_log s) = st -> 0 <= st -> st + Z.of_nat t + 1 < 2 ^ 31 ->
  lh_block (k_log s) !! t = Some blk -> 0 <= blk < 2 ^ 31 -> blk <> st + Z.of_nat t + 1 -> 1 <= refs s blk ->
  let lb := st + Z.of_nat t + 1 in
  exists s', write_one virtio_disk_rw t s = Ok tt s' /\ inv n ∅ s' /\ calm s s' /\
    k_disk s' = <[lb := view s blk]> (k_disk s) /\ (forall m, view s' m = set_view (view s) lb (view s blk) m) /\
    (forall m, m <> lb -> refs s m <= refs s' m).
Proof.
  intros Hs Hdev Hst H0 H1 Hblk Hb Hne Hr lb.
  destruct (bread_two n lb blk s Hs) as (i & s1 & E1 & C1 & j & s2 & E2 & Hij & Hs2 & C2 & D2 & V2 & M2 & _ & _ & _ & R2 & _).
  { lia. } { lia. } { lia. }
  unfold write_one. unfold bind at 1, get at 1. rewrite Hdev, Hst. rewrite s32_small by lia. fold lb. mstep E1.
  assert (block_get t s1 = Ok blk s1) as Eb.
  { unfold block_get, bind, get. rewrite (cm_log _ _ C1), Hblk. done. }
  mstep Eb. mstep E2.
  assert ((<[j := blk]> {[i := lb]} : gmap nat Z) !! i = Some lb) as Hi.
  { rewrite lookup_insert_ne by done. apply lookup_singleton_eq. }
  assert ((<[j := blk]> {[i := lb]} : gmap nat Z) !! j = Some blk) as Hj by apply lookup_insert_eq.
  mstep (copy_data_ok n _ i j lb blk s2 Hs2 Hi Hj).
  destruct (held_view _ _ _ _ _ _ _ _ Hs2 Hj) as (_ & _ & _ & _ & Hlen).
  destruct (bset_ok me p dev n _ i lb (view s2 blk) s2 Hs2 Hi Hlen) as (Hs3 & C3 & D3 & V3 & R3).
  set (s3 := upd_buf i (buf_data (view s2 blk)) s2) in *.
  destruct (bwrite_ok me p dev n _ i lb s3 Hs3 Hi ltac:(lia)) as (s4 & E4 & Hs4 & C4 & D4 & V4 & R4). mstep E4.
  rewrite V3, Z.eqb_refl, V2 in D4. 
  destruct (brelse_ok me p dev n _ j blk s4 Hs4 Hj) as (s5 & E5 & Hs5 & C5 & D5 & V5 & R5 & F5 & _).
  { left. rewrite R4, R3, R2 by done. lia. }
  mstep E5. rewrite delete_insert_id in Hs5 by (rewrite lookup_singleton_ne; done).
  assert (forall m, view s5 m = set_view (view s) lb (view s blk) m) as V52.
  { intros m. unfold set_view. rewrite V5, V4, V3, !V2. done. }
  destruct (brelse_ok me p dev n _ i lb s5 Hs5 (lookup_singleton_eq _ _)) as (s6 & E6 & Hs6 & C6 & D6 & V6 & R6 & F6 & _).
  { right. rewrite V52. unfold set_view. rewrite Z.eqb_refl. unfold disk_block, dblock. rewrite D5, D4, lookup_insert_eq. done. }
  rewrite delete_singleton_eq in Hs6. exists s6. split; [done|]. split; [done|].
  split; [repeat (eapply calm_trans; [eassumption|]); apply calm_refl|].
  split; [rewrite D6, D5, D4, D3, D2; done|]. split; [intros m; by rewrite V6|].
  intros m Hm. rewrite F6 by done. destruct (decide (m = blk)) as [->|Hmb].
  - rewrite R5, R4, R3, R2 by done. lia.
  - rewrite F5, R4, R3 by done. apply M2.
Qed.
(** *** The whole transaction to the log *)

(** The transaction's blocks lie outside the log area, whose header is block
    [log_start] and which has a block for each of them. *)
Record txn_ok (l : log_t) (bs : list Z) : Prop := {
  tx_dev : log_dev l = dev;
  tx_n : lh_n l = Z.of_nat (length bs);
  tx_blocks : forall t m, bs !! t = Some m -> lh_block l !! t = Some m;
  tx_start : 0 <= log_start l /\ log_start l + Z.of_nat (length bs) + 1 < 2 ^ 31;
  tx_apart : forall m, m ∈ bs -> 0 <= m < 2 ^ 31 /\ (m < log_start l \/ log_start l + Z.of_nat (length bs) < m)
}.

Lemma write_loop_ok l bs k t r s :
  txn_ok l bs -> (t + k = length bs)%nat -> inv (2 * k + r) ∅ s -> k_log s = l ->
  (forall m, m ∈ bs -> 1 <= refs s m) ->
  exists s', foreach (seq t k) (write_one virtio_disk_rw) s = Ok tt s' /\ inv r ∅ s' /\ calm s s' /\
    (forall m, m ∈ bs -> 1 <= refs s' m) /\
    (forall m, m <= log_start l + Z.of_nat t \/ log_start l + Z.of_nat (length bs) < m ->
       view s' m = view s m /\ disk_block s' m = disk_block s m) /\
    (forall u m, (t <= u)%nat -> bs !! u = Some m ->
       view s' (log_start l + Z.of_nat u + 1) = view s m /\
       disk_block s' (log_start l + Z.of_nat u + 1) = view s m).
Proof.
  intros [T1 T2 T3 T4 T5]. revert t s. induction k as [|k IH]; intros t s Hk Hs Hl Hr.
  { exists s. split; [done|]. split; [exact Hs|]. split; [apply calm_refl|]. split; [done|]. split; [done|].
    intros u m Hu Hm. apply lookup_lt_Some in Hm. lia. }
  destruct (lookup_lt_is_Some_2 bs t) as [blk Hblk]; [lia|].
  assert (blk ∈ bs) as Hin by (by eapply list_elem_of_lookup_2). destruct (T5 blk Hin) as [Hb Hap].
  replace (2 * S k + r)%nat with (S (S (2 * k + r))) in Hs by lia.
  destruct (write_one_ok (2 * k + r) t s (log_start l) blk Hs) as (s1 & E1 & Hs1 & C1 & D1 & V1 & R1);
    rewrite ?Hl; try done; try lia; [by apply T3|by apply Hr|].
  set (lb := log_start l + Z.of_nat t + 1) in *.
  assert (forall m, m <> lb -> disk_block s1 m = disk_block s m) as D1'.
  { intros m Hm. unfold disk_block, dblock. by rewrite D1, lookup_insert_ne. }
  assert (forall m, m <> lb -> view s1 m = view s m) as V1'.
  { intros m Hm. rewrite V1. unfold set_view. by rewrite (proj2 (Z.eqb_neq m lb) Hm). }
  destruct (IH (S t) s1) as (s' & E & Hs' & C & R & F & G); [lia|done|by rewrite (cm_log _ _ C1)| |].
  { intros m Hm. destruct (T5 m Hm) as [_ ?]. transitivity (refs s m); [by apply Hr|]. apply R1. lia. }
  exists s'. split; [cbn [seq foreach]; by mstep E1|]. split; [done|]. split; [by eapply calm_trans|].
  split; [done|]. split.
  - intros m Hm. destruct (F m) as [F1 F2]; [lia|]. rewrite F1, F2. split; [apply V1'|apply D1']; lia.
  - intros u m Hu Hm. destruct (decide (u = t)) as [->|Hne].
    + rewrite Hblk in Hm. injection Hm as <-. fold lb. destruct (F lb) as [F1 F2]; [lia|]. rewrite F1, F2, V1.
      unfold set_view. rewrite Z.eqb_refl. split; [done|]. unfold disk_block, dblock. by rewrite D1, lookup_insert_eq.
    + destruct (G u m) as [G1 G2]; [lia|done|]. rewrite G1, G2.
      destruct (T5 m) as [_ ?]; [by eapply list_elem_of_lookup_2|]. rewrite V1' by lia. done.
Qed.

(** *** One block from the log *)

Definition may_install (r : Z) (m : Z) (s : kernel) : Prop :=
  r = 0 /\ 1 <= refs s m \/ r = 1 /\ k_panicked s = 0 /\ k_panicking s = 0 /\ lock_free L_pr s.

Lemma inv_emit n H out s : inv n H s -> inv n H (emit out (settle s)).
Proof.
  intros [[C [l B] R] Hc]. split; [|exact Hc]. split.
  - destruct (caller_settle _ _ _ C) as [C1 C2 C3 C4]. by split.
  - exists l. by apply (bio_ok_same l s); [|apply (bio_ring _ _ B)|apply (bio_len _ _ B)|].
  - by apply (bd_stable s).
Qed.

Lemma install_one_ok n r t s st blk :
  inv (S (S n)) ∅ s -> log_dev (k_log s) = dev -> log_start (k_log s) = st -> 0 <= st -> st + Z.of_nat t + 1 < 2 ^ 31 ->
  lh_block (k_log s) !! t = Some blk -> 0 <= blk < 2 ^ 31 -> blk <> st + Z.of_nat t + 1 -> may_install r blk s ->
  let lb := st + Z.of_nat t + 1 in
  view s lb = disk_block s lb ->
  exists s', install_one virtio_disk_rw r t s = Ok tt s' /\ inv n ∅ s' /\ calm s s' /\
    k_disk s' = <[blk := view s lb]> (k_disk s) /\ (forall m, view s' m = set_view (view s) blk (view s lb) m) /\
    (r = 0 -> forall m, m <> lb -> refs s' m = refs s m).
Proof.
  intros Hs Hdev Hst H0 H1 Hblk Hb Hne Hmay lb Hclean.
  assert (exists s0, (when! truthy r then
         let! dst := block_get t in
         printf ("recovering tail %d dst %d" ++ nl) [VNum (Z.of_nat t); VNum dst]) s = Ok tt s0 /\
         inv (S (S n)) ∅ s0 /\ k_log s0 = k_log s /\ k_locks s0 = k_locks s /\
         (k_panicked s0 = k_panicked s /\ k_panicking s0 = k_panicking s) /\
         k_disk s0 = k_disk s /\ k_bcache s0 = k_bcache s /\ rest s0 = rest s)
    as (s0 & E0 & Hs0 & L0 & K0 & P0 & D0 & B0 & R0).
  { destruct Hmay as [[-> _]|(-> & Hp1 & Hp2 & Hp3)]; [by exists s|]. cbn [truthy Z.eqb negb].
    unfold bind, block_get, bind, get. rewrite Hblk. unfold ret.
    destruct (printf_ok ("recovering tail %d dst %d" ++ nl) [VNum (Z.of_nat t); VNum blk] s) as [out E].
    - reflexivity.
    - destruct (ca_hart _ _ _ (ce_caller _ _ _ (inv_env _ _ _ _ _ _ Hs))) as [Hh Hn].
      split; [done|split; [done|split; [done|split; [done|lia]]]].
    - exists (emit out (settle s)). split; [exact E|]. split; [by apply inv_emit|].
      do 5 (split; [done|]). exact (rest_settle s). }
  assert (calm s s0) as C0 by (by split).
  assert (forall m, view s0 m = view s m) as V0 by (intros m; unfold BlockCache.view; by rewrite B0, D0).
  assert (forall m, refs s0 m = refs s m) as Q0 by (intros m; unfold BlockCache.refs; by rewrite B0).
  unfold install_one. mstep E0. unfold bind at 1, get at 1. rewrite L0, Hdev, Hst. rewrite s32_small by lia. fold lb.
  destruct (bread_two n lb blk s0 Hs0) as (i & s1 & E1 & C1 & j & s2 & E2 & Hij & Hs2 & C2 & D2 & V2 & M2 & _ & P2 & _ & R2 & F2).
  { lia. } { lia. } { lia. }
  mstep E1.
  assert (block_get t s1 = Ok blk s1) as Eb.
  { unfold block_get, bind, get. rewrite (cm_log _ _ C1), L0, Hblk. done. }
  mstep Eb. mstep E2.
  assert ((<[j := blk]> {[i := lb]} : gmap nat Z) !! i = Some lb) as Hi.
  { rewrite lookup_insert_ne by done. apply lookup_singleton_eq. }
  assert ((<[j := blk]> {[i := lb]} : gmap nat Z) !! j = Some blk) as Hj by apply lookup_insert_eq.
  mstep (copy_data_ok n _ j i blk lb s2 Hs2 Hj Hi).
  destruct (held_view _ _ _ _ _ _ _ _ Hs2 Hi) as (_ & _ & _ & _ & Hlen).
  destruct (bset_ok me p dev n _ j blk (view s2 lb) s2 Hs2 Hj Hlen) as (Hs3 & C3 & D3 & V3 & R3).
  set (s3 := upd_buf j (buf_data (view s2 lb)) s2) in *.
  destruct (bwrite_ok me p dev n _ j blk s3 Hs3 Hj Hb) as (s4 & E4 & Hs4 & C4 & D4 & V4 & R4). mstep E4.
  rewrite V3, Z.eqb_refl, V2, V0, D3, D2, D0 in D4.
  assert (forall m, view s4 m = set_view (view s) blk (view s lb) m) as V40.
  { intros m. unfold set_view. by rewrite V4, V3, !V2, !V0. }
  (* bunpin, in a commit *)
  assert (exists s5, (when! r =? 0 then bunpin j) s4 = Ok tt s5 /\ inv n (<[j := blk]> {[i := lb]}) s5 /\ calm s4 s5 /\
     k_disk s5 = k_disk s4 /\ (forall m, view s5 m = view s4 m) /\
     (r = 0 -> refs s5 blk = refs s blk + 1 /\ forall m, m <> lb -> m <> blk -> refs s5 m = refs s m)) as
    (s5 & E5 & Hs5 & C5 & D5 & V5 & R5).
  { destruct Hmay as [[-> Hr]|(-> & _)]; [|exists s4; split; [done|split; [done|split; [apply calm_refl|done]]]].
    assert (refs s4 blk = refs s blk + 2) as Hr4 by (rewrite R4, R3, R2, Q0; [done|rewrite Q0; lia]).
    destruct (bunpin_ok me p dev n _ j blk s4 Hs4 Hj) as (s5 & E5 & Hs5 & C5 & D5 & V5 & R5 & F5); [lia|].
    exists s5. split; [done|]. split; [done|]. split; [done|]. split; [done|]. split; [done|]. intros _.
    split; [lia|]. intros m Hm1 Hm2. by rewrite F5, R4, R3, F2, Q0. }
  mstep E5.
  assert (disk_block s5 lb = disk_block s lb) as Dlb.
  { unfold disk_block, dblock. rewrite D5, D4, lookup_insert_ne by done. done. }
  destruct (brelse_ok me p dev n _ i lb s5 Hs5 Hi) as (s6 & E6 & Hs6 & C6 & D6 & V6 & R6 & F6 & _).
  { right. rewrite Dlb, V5, V40. unfold set_view. rewrite (proj2 (Z.eqb_neq lb blk)) by lia. done. }
  mstep E6. rewrite delete_insert_ne, delete_singleton_eq in Hs6 by done.
  destruct (brelse_ok me p dev n _ j blk s6 Hs6 (lookup_insert_eq _ _ _)) as (s7 & E7 & Hs7 & C7 & D7 & V7 & R7 & F7 & _).
  { right. rewrite V6, V5, V40. unfold set_view. rewrite Z.eqb_refl. unfold disk_block, dblock.
    by rewrite D6, D5, D4, lookup_insert_eq. }
  rewrite delete_insert_id in Hs7 by done. exists s7. split; [done|]. split; [done|].
  split; [repeat (eapply calm_trans; [eassumption|]); apply calm_refl|].
  split; [by rewrite D7, D6, D5|]. split; [intros m; by rewrite V7, V6, V5|].
  intros Hr0 m Hm. destruct (R5 Hr0) as [R5a R5b]. destruct (decide (m = blk)) as [->|Hmb].
  - rewrite R7, F6 by lia. lia.
  - rewrite F7, F6 by done. by apply R5b.
Qed.

(** *** The whole transaction from the log *)

Lemma later_dec (bs : list Z) (t : nat) (m : Z) :
  (exists v, (t <= v)%nat /\ bs !! v = Some m) \/ ~ (exists v, (t <= v)%nat /\ bs !! v = Some m).
Proof.
  destruct (decide (m ∈ drop t bs)) as [Hin|Hni].
  - left. apply list_elem_of_lookup in Hin as [u Hu]. rewrite lookup_drop in Hu. exists (t + u)%nat. split; [lia|done].
  - right. intros (v & Hv & Hvm). apply Hni, list_elem_of_lookup. exists (v - t)%nat.
    rewrite lookup_drop. by replace (t + (v - t))%nat with v by lia.
Qed.

Lemma install_loop_ok l bs r k t n s :
  txn_ok l bs -> (t + k = length bs)%nat -> inv (2 * k + n) ∅ s -> k_log s = l -> r = 0 \/ r = 1 ->
  (forall m, m ∈ bs -> may_install r m s) ->
  (forall u, (u < length bs)%nat ->
     view s (log_start l + Z.of_nat u + 1) = disk_block s (log_start l + Z.of_nat u + 1)) ->
  (forall u v m, bs !! u = Some m -> bs !! v = Some m ->
     view s (log_start l + Z.of_nat u + 1) = view s (log_start l + Z.of_nat v + 1)) ->
  exists s', foreach (seq t k) (install_one virtio_disk_rw r) s = Ok tt s' /\ inv n ∅ s' /\ calm s s' /\
    (forall m, (forall u, (t <= u)%nat -> bs !! u <> Some m) ->
       view s' m = view s m /\ disk_block s' m = disk_block s m) /\
    (forall u m, (t <= u)%nat -> bs !! u = Some m ->
       view s' m = view s (log_start l + Z.of_nat u + 1) /\
       disk_block s' m = view s (log_start l + Z.of_nat u + 1)).
Proof.
  intros [T1 T2 T3 T4 T5]. revert t s. induction k as [|k IH]; intros t s Hk Hs Hl Hr01 Hmay Hcl Hsame.
  { exists s. split; [done|]. split; [exact Hs|]. split; [apply calm_refl|]. split; [done|].
    intros u m Hu Hm. apply lookup_lt_Some in Hm. lia. }
  destruct (lookup_lt_is_Some_2 bs t) as [blk Hblk]; [lia|].
  assert (blk ∈ bs) as Hin by (by eapply list_elem_of_lookup_2). destruct (T5 blk Hin) as [Hb Hap].
  replace (2 * S k + n)%nat with (S (S (2 * k + n))) in Hs by lia.
  destruct (install_one_ok (2 * k + n) r t s (log_start l) blk Hs) as (s1 & E1 & Hs1 & C1 & D1 & V1 & R1);
    rewrite ?Hl; try done; try lia; [by apply T3|by apply Hmay|apply Hcl; lia|].
  set (lb := log_start l + Z.of_nat t + 1) in *.
  assert (forall m, m <> blk -> disk_block s1 m = disk_block s m) as D1'.
  { intros m Hm. unfold disk_block, dblock. by rewrite D1, lookup_insert_ne. }
  assert (forall m, m <> blk -> view s1 m = view s m) as V1'.
  { intros m Hm. rewrite V1. unfold set_view. by rewrite (proj2 (Z.eqb_neq m blk) Hm). }
  assert (view s1 blk = view s lb /\ disk_block s1 blk = view s lb) as [Vb Db].
  { rewrite V1. unfold set_view. rewrite Z.eqb_refl. split; [done|]. unfold disk_block, dblock. by rewrite D1, lookup_insert_eq. }
  destruct (IH (S t) s1) as (s' & E & Hs' & C & F & G); try done.
  - lia.
  - by rewrite (cm_log _ _ C1).
  - intros m Hm. destruct (T5 m Hm) as [_ ?]. destruct (Hmay m Hm) as [[-> Hm1]|(-> & Hm1)].
    + left. split; [done|]. rewrite R1; [done|done|lia].
    + right. destruct C1 as [_ K [P1 P2]]. split; [done|]. rewrite P1, P2. unfold lock_free. by rewrite K.
  - intros u Hu. rewrite V1', D1' by lia. by apply Hcl.
  - intros u v m Hu Hv. pose proof (lookup_lt_Some _ _ _ Hu). pose proof (lookup_lt_Some _ _ _ Hv).
    rewrite !V1' by lia. by eapply Hsame.
  - exists s'. split; [cbn [seq foreach]; by mstep E1|]. split; [done|]. split; [by eapply calm_trans|]. split.
    + intros m Hm. destruct (F m) as [F1 F2]; [intros u Hu; apply Hm; lia|].
      assert (m <> blk) by (intros ->; by apply (Hm t)). by rewrite F1, F2, V1', D1'.
    + intros u m Hu Hm. pose proof (lookup_lt_Some _ _ _ Hm) as Hlt.
      assert (m ∈ bs) as Hmin by (by eapply list_elem_of_lookup_2).
      destruct (later_dec bs (S t) m) as [(v & Hv & Hvm)|Hno].
      * destruct (G v m Hv Hvm) as [G1 G2]. pose proof (lookup_lt_Some _ _ _ Hvm).
        rewrite G1, G2, V1' by lia. rewrite (Hsame v u m Hvm Hm). done.
      * destruct (F m) as [F1 F2]; [intros v Hv Hvm; apply Hno; by exists v|].
        assert (u = t) as -> by (destruct (decide (u = t)); [done|]; exfalso; apply Hno; exists u; split; [lia|done]).
        rewrite Hblk in Hm. injection Hm as <-. by rewrite F1, F2, Vb, Db.
Qed.

(** *** The header *)

(** The header block after write_head's loop. *)
Fixpoint fill_header (t : nat) (bs : list Z) (d : list Z) : list Z :=
  match bs with
  | [] => d
  | m :: bs' => fill_header (S t) bs' (hd_set_block t m d)
  end.

Lemma length_fill_header t bs d : length (fill_header t bs d) = length d.
Proof. revert t d. induction bs as [|m bs IH]; intros t d; [done|]. cbn. rewrite IH. apply length_put32. Qed.

Lemma fill_header_n t bs d :
  length d = 1024%nat -> (t + length bs <= 90)%nat -> hd_n (fill_header t bs d) = hd_n d.
Proof.
  revert t d. induction bs as [|m bs IH]; intros t d Hd Hb; [done|]. cbn [fill_header length] in *.
  rewrite IH; [|by unfold hd_set_block; rewrite length_put32|lia].
  unfold hd_n, hd_set_block. by rewrite get32_put32_other by lia.
Qed.

Lemma fill_header_below t bs d u :
  length d = 1024%nat -> (t + length bs <= 90)%nat -> (u < t)%nat -> hd_block (fill_header t bs d) u = hd_block d u.
Proof.
  revert t d. induction bs as [|m bs IH]; intros t d Hd Hb Hu; [done|]. cbn [fill_header length] in *.
  rewrite IH; [|by unfold hd_set_block; rewrite length_put32|lia|lia].
  unfold hd_block, hd_set_block. by rewrite get32_put32_other by lia.
Qed.

Lemma fill_header_block t bs d u m :
  length d = 1024%nat -> (t + length bs <= 90)%nat -> bs !! u = Some m -> 0 <= m < 2 ^ 31 ->
  hd_block (fill_header t bs d) (t + u) = m.
Proof.
  revert t d u. induction bs as [|m' bs IH]; intros t d u Hd Hb Hu Hm; [done|]. cbn [fill_header length] in *.
  assert (length (hd_set_block t m' d) = 1024%nat) as Hd' by (by unfold hd_set_block; rewrite length_put32).
  destruct u as [|u].
  - injection Hu as ->. rewrite Nat.add_0_r, fill_header_below by (done || lia).
    unfold hd_block, hd_set_block. rewrite get32_put32 by lia. rewrite u32_small by lia. by apply s32_small; lia.
  - replace (t + S u)%nat with (S t + u)%nat by lia. by apply IH; [|lia| |].
Qed.

Lemma header_loop_ok n b st bs t s :
  inv n {[b := st]} s -> (forall u m, bs !! u = Some m -> lh_block (k_log s) !! (t + u)%nat = Some m) ->
  exists s', foreach (seq t (length bs)) (fun i =>
        let! v := block_get i in
        modify (upd_buf b (fun x => buf_data (hd_set_block i v (b_data x)) x))) s = Ok tt s' /\
    inv n {[b := st]} s' /\ calm s s' /\ k_disk s' = k_disk s /\
    (forall m, view s' m = set_view (view s) st (fill_header t bs (view s st)) m) /\
    (forall m, refs s' m = refs s m).
Proof.
  revert t s. induction bs as [|m0 bs IH]; intros t s Hs Hb.
  { exists s. split; [done|]. split; [done|]. split; [apply calm_refl|]. split; [done|]. split; [|done].
    intros m. unfold set_view. cbn. destruct (Z.eqb_spec m st) as [->|]; done. }
  pose proof (lookup_singleton_eq (M := gmap nat) b st) as Hi.
  destruct (held_view _ _ _ _ _ _ _ _ Hs Hi) as (_ & _ & _ & _ & Hlen).
  assert (length (hd_set_block t m0 (view s st)) = 1024%nat) as Hd by (unfold hd_set_block; by rewrite length_put32).
  destruct (bset_ok me p dev n _ b st _ s Hs Hi Hd) as (Hs1 & C1 & D1 & V1 & R1).
  set (s1 := upd_buf b _ s) in *.
  assert ((let! v := block_get t in
           modify (upd_buf b (fun x => buf_data (hd_set_block t v (b_data x)) x))) s = Ok tt s1) as E1.
  { unfold bind, block_get, bind, get. pose proof (Hb 0%nat m0 eq_refl) as H0. rewrite Nat.add_0_r in H0. rewrite H0.
    unfold ret, modify. f_equal. apply (upd_data_ext n {[b := st]} b st); [done|done|]. intros x Hx. by rewrite Hx. }
  destruct (IH (S t) s1 Hs1) as (s' & E & Hs' & C & D & V & R).
  { intros u m Hu. rewrite (cm_log _ _ C1). replace (S t + u)%nat with (t + S u)%nat by lia. by apply Hb. }
  exists s'. split; [cbn [length seq foreach]; by mstep E1|]. split; [done|]. split; [by eapply calm_trans|].
  split; [congruence|]. split; [|intros m; by rewrite R].
  intros m. rewrite V. unfold set_view. cbn [fill_header]. rewrite !V1, Z.eqb_refl.
  by destruct (m =? st).
Qed.

Lemma write_head_ok n l bs s :
  txn_ok l bs -> inv (S n) ∅ s -> k_log s = l ->
  let hdr := fill_header 0 bs (view s (log_start l)) in
  exists s', write_head virtio_disk_rw s = Ok tt s' /\ inv n ∅ s' /\ calm s s' /\
    k_disk s' = <[log_start l := hdr]> (k_disk s) /\
    (forall m, view s' m = set_view (view s) (log_start l) hdr m) /\
    (forall m, m <> log_start l -> refs s' m = refs s m).
Proof.
  intros [T1 T2 T3 T4 T5] Hs Hl. set (st := log_start l) in *. cbn zeta.
  destruct (bread_ok me p dev n ∅ st s Hs (no_held _) (u32_below st ltac:(lia))) as (b & s1 & E1 & _ & Hs1 & C1 & D1 & V1 & _ & _ & F1).
  rewrite (u32_small st) in * by lia.
  unfold write_head. unfold bind at 1, get at 1. rewrite Hl, T1. fold st. mstep E1.
  rewrite T2, Nat2Z.id. pose proof (lookup_singleton_eq (M := gmap nat) b st) as Hi.
  destruct (header_loop_ok n b st bs 0 s1 Hs1) as (s2 & E2 & Hs2 & C2 & D2 & V2 & R2).
  { intros u m Hu. rewrite (cm_log _ _ C1), Hl. by apply T3. }
  mstep E2. destruct (bwrite_ok me p dev n _ b st s2 Hs2 Hi ltac:(lia)) as (s3 & E3 & Hs3 & C3 & D3 & V3 & R3). mstep E3.
  assert (forall m, view s2 m = set_view (view s) st (fill_header 0 bs (view s st)) m) as V20.
  { intros m. rewrite V2. unfold set_view. rewrite !V1. done. }
  assert (view s2 st = fill_header 0 bs (view s st)) as Vst by (rewrite V20; unfold set_view; by rewrite Z.eqb_refl).
  destruct (brelse_ok me p dev n _ b st s3 Hs3 Hi) as (s4 & E4 & Hs4 & C4 & D4 & V4 & R4 & F4 & _).
  { right. rewrite V3, Vst. unfold disk_block, dblock. by rewrite D3, lookup_insert_eq. }
  rewrite delete_singleton_eq in Hs4. exists s4. split; [done|]. split; [done|].
  split; [repeat (eapply calm_trans; [eassumption|]); apply calm_refl|].
  split; [by rewrite D4, D3, Vst, D2, D1|]. split; [intros m; by rewrite V4, V3|].
  intros m Hm. by rewrite F4, R3, R2, F1.
Qed.

(** *** commit *)

Lemma disk_block_insert s s' m0 d m :
  k_disk s' = <[m0 := d]> (k_disk s) -> disk_block s' m = if m =? m0 then d else disk_block s m.
Proof.
  intros E. unfold disk_block, dblock. rewrite E. destruct (Z.eqb_spec m m0) as [->|Hne].
  - by rewrite lookup_insert_eq.
  - by rewrite lookup_insert_ne.
Qed.

(** The number of blocks set to 0. *)
Lemma inv_upd_log n H f s : inv n H s -> inv n H (upd_log f s).
Proof.
  intros [[[C1 C2 C3 C4] [l B] R] Hc]. split; [|exact Hc]. split; [by split| |by apply (bd_stable s)].
  exists l. by apply (bio_ok_same l s); [|apply (bio_ring _ _ B)|apply (bio_len _ _ B)|].
Qed.

Lemma txn_ok_empty l bs : txn_ok l bs -> txn_ok (with_n 0 l) [].
Proof.
  intros [T1 T2 T3 T4 T5]. split; cbn; [done|done|done|lia|]. intros m Hm. by apply elem_of_nil in Hm.
Qed.

Definition outside (l : log_t) (bs : list Z) (m : Z) : Prop :=
  m < log_start l \/ log_start l + Z.of_nat (length bs) < m.

Lemma commit_ok n l bs s :
  txn_ok l bs -> bs <> [] -> inv (4 * length bs + 2 + n) ∅ s -> k_log s = l ->
  (forall m, m ∈ bs -> 1 <= refs s m) ->
  exists s', commit virtio_disk_rw s = Ok tt s' /\ inv n ∅ s' /\ k_log s' = with_n 0 l /\
    k_locks s' = k_locks s /\
    (forall m, m ∈ bs -> disk_block s' m = view s m) /\
    (forall m, outside l bs m -> m ∉ bs -> disk_block s' m = disk_block s m) /\
    (forall m, outside l bs m -> view s' m = view s m) /\
    (forall u m, bs !! u = Some m -> disk_block s' (log_start l + Z.of_nat u + 1) = view s m) /\
    disk_block s' (log_start l) = fill_header 0 bs (view s (log_start l)).
Proof.
  intros T Hne Hs Hl Hr. pose proof T as [T1 T2 T3 T4 T5]. set (N := length bs) in *. set (st := log_start l) in *.
  assert (0 < N)%nat as HN by (destruct bs; [done|cbn in N; lia]).
  replace (4 * N + 2 + n)%nat with (2 * N + (2 * N + 2 + n))%nat in Hs by lia.
  destruct (write_loop_ok l bs N 0 (2 * N + 2 + n) s T eq_refl Hs Hl Hr) as (s1 & E1 & Hs1 & C1 & R1 & F1 & G1).
  assert (k_log s1 = l) as L1 by (by rewrite (cm_log _ _ C1)). fold st N in F1, G1.
  replace (2 * N + 2 + n)%nat with (S (2 * N + S n)) in Hs1 by lia.
  destruct (write_head_ok (2 * N + S n) l bs s1 T Hs1 L1) as (s2 & E2 & Hs2 & C2 & D2 & V2 & R2). fold st in D2, V2, R2.
  assert (k_log s2 = l) as L2 by (by rewrite (cm_log _ _ C2)).
  pose proof (fun m => disk_block_insert s1 s2 _ _ m D2) as D2'. unfold set_view in V2.
  assert (forall m, m <> st -> view s2 m = view s1 m /\ disk_block s2 m = disk_block s1 m) as K2.
  { intros m Hm. rewrite V2, D2', (proj2 (Z.eqb_neq m st) Hm). done. }
  assert (forall m, m ∈ bs -> m <> st) as Hst by (intros m Hm; destruct (T5 m Hm); lia).
  destruct (install_loop_ok l bs 0 N 0 (S n) s2 T eq_refl Hs2 L2) as (s3 & E3 & Hs3 & C3 & F3 & G3).
  { by left. }
  { intros m Hm. left. split; [done|]. rewrite R2 by (by apply Hst). by apply R1. }
  { intros u Hu. fold st. destruct (lookup_lt_is_Some_2 bs u Hu) as [m Hm].
    destruct (K2 (st + Z.of_nat u + 1)) as [-> ->]; [lia|]. destruct (G1 u m) as [-> ->]; [lia|done|done]. }
  { intros u v m Hu Hv. fold st. destruct (K2 (st + Z.of_nat u + 1)) as [-> _]; [lia|].
    destruct (K2 (st + Z.of_nat v + 1)) as [-> _]; [lia|].
    destruct (G1 u m) as [-> _]; [lia|done|]. by destruct (G1 v m) as [-> _]; [lia|done|]. }
  fold st in G3. assert (k_log s3 = l) as L3 by (by rewrite (cm_log _ _ C3)).
  pose proof (inv_upd_log _ _ (with_n 0) s3 Hs3) as Hs3'. set (s3' := upd_log (with_n 0) s3) in *.
  destruct (write_head_ok n (with_n 0 l) [] s3' (txn_ok_empty _ _ T) Hs3') as (s4 & E4 & Hs4 & C4 & D4 & V4 & _).
  { cbn. by rewrite L3. }
  change (log_start (with_n 0 l)) with st in *. cbn [fill_header] in *. unfold set_view in V4.
  change (view s3') with (view s3) in *.
  assert (forall m, view s4 m = view s3 m) as V4'.
  { intros m. rewrite V4. destruct (Z.eqb_spec m st) as [->|]; done. }
  pose proof (fun m => disk_block_insert s3' s4 _ _ m D4) as D4'. change (disk_block s3') with (disk_block s3) in D4'.
  assert (forall m, m ∈ bs -> disk_block s3 m = view s m /\ view s3 m = view s m) as Hinst.
  { intros m Hm. apply list_elem_of_lookup in Hm as [u Hu].
    destruct (G3 u m) as [-> ->]; [lia|done|]. destruct (K2 (st + Z.of_nat u + 1)) as [-> _]; [lia|].
    by destruct (G1 u m) as [-> _]; [lia|done|]. }
  assert (forall m, m ∉ bs -> view s3 m = view s2 m /\ disk_block s3 m = disk_block s2 m) as Hkeep.
  { intros m Hm. apply F3. intros u _ Hu. apply Hm. by eapply list_elem_of_lookup_2. }
  assert (forall u, (u < N)%nat -> (st + Z.of_nat u + 1 ∉ bs)) as Hlog.
  { intros u Hu Hin. destruct (T5 _ Hin) as [_ ?]. lia. }
  exists s4. split.
  { unfold commit. unfold bind at 1, get at 1. rewrite Hl, T2. fold N.
    rewrite (proj2 (Z.ltb_lt 0 (Z.of_nat N))) by lia.
    assert (write_log virtio_disk_rw s = Ok tt s1) as Ew.
    { unfold write_log, bind, get. rewrite Hl, T2. fold N. by rewrite Nat2Z.id. }
    assert (install_trans virtio_disk_rw 0 s2 = Ok tt s3) as Ei.
    { unfold install_trans, bind, get. rewrite L2, T2. fold N. by rewrite Nat2Z.id. }
    mstep Ew. mstep E2. mstep Ei. exact E4. }
  split; [done|]. split; [rewrite (cm_log _ _ C4); cbn; by rewrite L3|].
  split; [rewrite (cm_locks _ _ C4); transitivity (k_locks s3); [done|]; rewrite (cm_locks _ _ C3), (cm_locks _ _ C2); apply C1|].
  split; [|split; [|split; [|split]]].
  - intros m Hm. rewrite D4', (proj2 (Z.eqb_neq m st)) by (by apply Hst). by apply Hinst.
  - intros m Ho Hm. unfold outside in Ho. fold st N in Ho. rewrite D4', (proj2 (Z.eqb_neq m st)) by lia.
    destruct (Hkeep m Hm) as [_ ->]. destruct (K2 m) as [_ ->]; [lia|]. apply F1. lia.
  - intros m Ho. unfold outside in Ho. fold st N in Ho. rewrite V4'. destruct (decide (m ∈ bs)) as [Hm|Hm].
    + by apply Hinst.
    + destruct (Hkeep m Hm) as [-> _]. destruct (K2 m) as [-> _]; [lia|]. apply F1. lia.
  - intros u m Hu. pose proof (lookup_lt_Some _ _ _ Hu) as Hlt.
    rewrite D4', (proj2 (Z.eqb_neq (st + Z.of_nat u + 1) st)) by lia.
    destruct (Hkeep (st + Z.of_nat u + 1)) as [_ ->]; [by apply Hlog|]. destruct (K2 (st + Z.of_nat u + 1)) as [_ ->]; [lia|].
    by destruct (G1 u m) as [_ ->]; [lia|done|].
  - rewrite D4', Z.eqb_refl. destruct (Hkeep st) as [-> _]; [intros Hin; by apply (Hst st)|].
    rewrite V2, Z.eqb_refl. f_equal. apply F1. lia.
Qed.

(** *** Recovery *)

Definition header_blocks (d : list Z) : list Z := hd_block d <$> seq 0 (Z.to_nat (hd_n d)).

Lemma read_loop_ok d k t s :
  length (lh_block (k_log s)) = 90%nat -> (t + k <= 90)%nat ->
  exists l', foreach (seq t k) (fun i => block_set i (hd_block d i)) s = Ok tt (set_log l' s) /\
    log_start l' = log_start (k_log s) /\ log_dev l' = log_dev (k_log s) /\ lh_n l' = lh_n (k_log s) /\
    length (lh_block l') = 90%nat /\
    forall u, lh_block l' !! u = if decide (t <= u < t + k)%nat then Some (hd_block d u) else lh_block (k_log s) !! u.
Proof.
  revert t s. induction k as [|k IH]; intros t s Hlen Hk.
  { exists (k_log s). rewrite set_log_id. do 5 (split; [done|]). intros u. by rewrite decide_False by lia. }
  set (s1 := upd_log (with_block t (hd_block d t)) s).
  assert (block_set t (hd_block d t) s = Ok tt s1) as E1.
  { unfold block_set, bind, get, modify. rewrite Hlen, (proj2 (Nat.ltb_lt t 90)) by lia. done. }
  destruct (IH (S t) s1) as (l' & E & L1 & L2 & L3 & L4 & L5); [cbn; by rewrite length_insert|lia|].
  exists l'. split; [cbn [seq foreach]; mstep E1; rewrite E; done|]. do 4 (split; [done|]).
  intros u. rewrite L5. cbn. destruct (decide (u = t)) as [->|Hne].
  - rewrite decide_False, decide_True by lia. apply list_lookup_insert_eq. lia.
  - rewrite list_lookup_insert_ne by done. repeat case_decide; done || lia.
Qed.

Lemma read_head_ok n st s :
  inv (S n) ∅ s -> log_dev (k_log s) = dev -> log_start (k_log s) = st -> 0 <= st < 2 ^ 31 ->
  length (lh_block (k_log s)) = 90%nat -> view s st = disk_block s st ->
  let d := disk_block s st in 0 <= hd_n d <= 90 ->
  exists s', read_head virtio_disk_rw s = Ok tt s' /\ inv n ∅ s' /\ k_locks s' = k_locks s /\
    (k_panicked s' = k_panicked s /\ k_panicking s' = k_panicking s) /\
    k_disk s' = k_disk s /\ (forall m, view s' m = view s m) /\
    log_dev (k_log s') = dev /\ log_start (k_log s') = st /\ lh_n (k_log s') = hd_n d /\
    (forall u m, header_blocks d !! u = Some m -> lh_block (k_log s') !! u = Some m).
Proof.
  intros Hs Hdev Hst H0 Hlen Hcl d Hd.
  destruct (bread_ok me p dev n ∅ st s Hs (no_held _) (u32_below st ltac:(lia))) as (b & s1 & E1 & _ & Hs1 & C1 & D1 & V1 & _).
  rewrite (u32_small st) in Hs1 by lia.
  unfold read_head. unfold bind at 1, get at 1. rewrite Hdev, Hst. mstep E1.
  pose proof (lookup_insert_eq (M := gmap nat) ∅ b st) as Hi.
  mstep (read_data n _ b st s1 Hs1 Hi). rewrite V1, Hcl. fold d. unfold bind at 1, modify.
  destruct (read_loop_ok d (Z.to_nat (hd_n d)) 0 (upd_log (with_n (hd_n d)) s1)) as (l' & E2 & L1 & L2 & L3 & L4 & L5).
  { cbn. by rewrite (cm_log _ _ C1). } { lia. }
  mstep E2. set (s2 := set_log l' _).
  assert (inv n (<[b := st]> ∅) s2) as Hs2 by (apply (inv_upd_log _ _ (fun _ => l')), inv_upd_log, Hs1).
  destruct (brelse_ok me p dev n _ b st s2 Hs2 Hi) as (s3 & E3 & Hs3 & C3 & D3 & V3 & _).
  { right. change (view s2 st) with (view s1 st). change (disk_block s2 st) with (dblock (k_disk s1) st).
    by rewrite V1, Hcl, D1. }
  rewrite delete_insert_id in Hs3 by done. exists s3. split; [done|]. split; [done|].
  assert (k_log s3 = l') as L by apply C3. rewrite L, L1, L2, L3. cbn. rewrite (cm_log _ _ C1).
  split; [rewrite (cm_locks _ _ C3); apply C1|].
  split; [destruct C3 as [_ _ [P1 P2]], C1 as [_ _ [P3 P4]]; split; [by rewrite P1|by rewrite P2]|].
  split; [by rewrite D3|]. split; [intros m; rewrite V3; apply V1|]. do 3 (split; [done|]).
  intros u m Hu. unfold header_blocks in Hu. rewrite list_lookup_fmap in Hu.
  apply fmap_Some in Hu as (u' & Hu & ->). apply lookup_seq in Hu as [-> Hu]. rewrite L5, decide_True by lia. done.
Qed.

Lemma recover_ok n bs st s :
  let d := disk_block s st in
  inv (2 * length bs + 2 + n) ∅ s -> log_dev (k_log s) = dev -> log_start (k_log s) = st -> 0 <= st ->
  st + Z.of_nat (length bs) + 1 < 2 ^ 31 ->
  length (lh_block (k_log s)) = 90%nat -> (forall m, view s m = disk_block s m) ->
  hd_n d = Z.of_nat (length bs) -> (length bs <= 90)%nat -> header_blocks d = bs -> NoDup bs ->
  (forall m, m ∈ bs -> 0 <= m < 2 ^ 31 /\ (m < st \/ st + Z.of_nat (length bs) < m)) ->
  k_panicked s = 0 -> k_panicking s = 0 -> lock_free L_pr s ->
  exists s', recover_from_log virtio_disk_rw s = Ok tt s' /\ inv n ∅ s' /\ lh_n (k_log s') = 0 /\
    (forall u m, bs !! u = Some m -> disk_block s' m = disk_block s (st + Z.of_nat u + 1)) /\
    (forall m, m ∉ bs -> disk_block s' m = disk_block s m).
Proof.
  intros d Hs Hdev Hst H0 H1 Hlen Hcl Hn Hle Hbs Hnd Hap Hp1 Hp2 Hp3. set (N := length bs) in *.
  replace (2 * N + 2 + n)%nat with (S (2 * N + S n)) in Hs by lia.
  destruct (read_head_ok (2 * N + S n) st s Hs Hdev Hst) as
    (s1 & E1 & Hs1 & K1 & [P1 P2] & D1 & V1 & L1 & L2 & L3 & L4); [lia|done|apply Hcl|fold d; lia|].
  fold d in L3, L4. rewrite Hbs in L4. rewrite Hn in L3.
  assert (txn_ok (k_log s1) bs) as T by (split; rewrite ?L2; try done; lia).
  assert (forall m, view s1 m = disk_block s1 m) as Hcl1.
  { intros m. rewrite V1, Hcl. unfold disk_block. by rewrite D1. }
  destruct (install_loop_ok (k_log s1) bs 1 N 0 (S n) s1 T eq_refl Hs1 eq_refl) as (s2 & E2 & Hs2 & C2 & F2 & G2).
  { by right. }
  { intros m Hm. right. split; [done|]. rewrite P1, P2. unfold lock_free. by rewrite K1. }
  { intros u Hu. apply Hcl1. }
  { intros u v m Hu Hv. by rewrite (NoDup_lookup bs u v m Hnd Hu Hv). }
  rewrite L2 in G2.
  pose proof (inv_upd_log _ _ (with_n 0) s2 Hs2) as Hs2'.
  assert (k_log s2 = k_log s1) as L21 by apply C2.
  destruct (write_head_ok n (with_n 0 (k_log s1)) [] (upd_log (with_n 0) s2) (txn_ok_empty _ _ T) Hs2')
    as (s3 & E3 & Hs3 & C3 & D3 & V3 & _); [cbn; by rewrite L21|].
  change (log_start (with_n 0 (k_log s1))) with (log_start (k_log s1)) in *. rewrite L2 in D3, V3.
  cbn [fill_header] in *. change (view (upd_log (with_n 0) s2)) with (view s2) in *.
  pose proof (fun m => disk_block_insert (upd_log (with_n 0) s2) s3 _ _ m D3) as D3'.
  change (disk_block (upd_log (with_n 0) s2)) with (disk_block s2) in D3'.
  assert (st ∉ bs) as Hstb by (intros Hin; destruct (Hap st Hin); lia).
  assert (forall m, m ∉ bs -> view s2 m = disk_block s m /\ disk_block s2 m = disk_block s m) as Hkeep.
  { intros m Hm. destruct (F2 m) as [-> ->].
    - intros u _ Hu. apply Hm. by eapply list_elem_of_lookup_2.
    - rewrite Hcl1. unfold disk_block. by rewrite D1. }
  exists s3. split.
  { unfold recover_from_log. mstep E1.
    assert (install_trans virtio_disk_rw 1 s1 = Ok tt s2) as Ei.
    { unfold install_trans, bind, get. rewrite L3. fold N. by rewrite Nat2Z.id. }
    mstep Ei. exact E3. }
  split; [done|]. split; [rewrite (cm_log _ _ C3); done|]. split.
  - intros u m Hu. assert (m <> st) as Hm by (intros ->; apply Hstb; by eapply list_elem_of_lookup_2).
    rewrite D3', (proj2 (Z.eqb_neq m st) Hm). destruct (G2 u m) as [_ ->]; [lia|done|].
    rewrite Hcl1. unfold disk_block. by rewrite D1.
  - intros m Hm. rewrite D3'. destruct (Z.eqb_spec m st) as [->|]; by apply Hkeep.
Qed.

Lemma inv_initlock n H s : inv n H s -> inv n H (set_lock L_log (unlocked "log") s).
Proof.
  intros [[[C1 C2 C3 [C4 C5]] [l B] R] Hc].
  assert (forall l, l <> L_log -> lock_free l s -> lock_free l (set_lock L_log (unlocked "log") s)) as Hf.
  { intros l' Hne [nm E]. exists nm. unfold set_lock. cbn. by rewrite lookup_insert_ne. }
  split; [|exact Hc]. split.
  - split; [exact C1|exact C2|exact C3|]. split; [exact C4|]. intros i Hi. apply Hf; [done|by apply C5].
  - exists l. destruct B as [B1 B2 B3 B4 B5]. split; try done; [by apply Hf|]. intros i Hi. apply Hf; [done|by apply B5].
  - apply (bd_stable s); [|done..]. unfold set_lock. cbn. by rewrite lookup_insert_ne.
Qed.

Lemma initlog_ok n bs st s :
  let d := disk_block s st in
  inv (2 * length bs + 2 + n) ∅ s -> 0 <= st -> st + Z.of_nat (length bs) + 1 < 2 ^ 31 ->
  length (lh_block (k_log s)) = 90%nat -> (forall m, view s m = disk_block s m) ->
  hd_n d = Z.of_nat (length bs) -> (length bs <= 90)%nat -> header_blocks d = bs -> NoDup bs ->
  (forall m, m ∈ bs -> 0 <= m < 2 ^ 31 /\ (m < st \/ st + Z.of_nat (length bs) < m)) ->
  k_panicked s = 0 -> k_panicking s = 0 -> lock_free L_pr s ->
  exists s', initlog virtio_disk_rw dev st s = Ok tt s' /\ inv n ∅ s' /\ lh_n (k_log s') = 0 /\
    (forall u m, bs !! u = Some m -> disk_block s' m = disk_block s (st + Z.of_nat u + 1)) /\
    (forall m, m ∉ bs -> disk_block s' m = disk_block s m).
Proof.
  intros d Hs H0 H1 Hlen Hcl Hn Hle Hbs Hnd Hap Hp1 Hp2 Hp3.
  set (s1 := upd_log (with_place (s32 st) dev) (set_lock L_log (unlocked "log") s)).
  destruct (recover_ok n bs st s1) as (s' & E & Hrest); try done.
  - apply inv_upd_log, inv_initlock, Hs.
  - cbn. apply s32_small. lia.
  - destruct Hp3 as [nm Ep]. exists nm. unfold s1, set_lock. cbn. by rewrite lookup_insert_ne.
  - exists s'. split; [exact E|exact Hrest].
Qed.

End Commit.

(** ** The properties, over any disk that keeps its contract *)

Section Claims.
Context {virtio_disk_rw : nat -> Z -> KM unit} {dev_ok : BlockDevice virtio_disk_rw}.

(** C1: commit makes the transaction permanent. Every block of the transaction is
    on the disk afterwards with the contents it had in the cache, the header in
    memory is empty, no block outside the log area and the transaction changes
    on the disk, and what a process reads through the cache is unchanged. *)
Theorem commit_correct me p dev n bs s :
  txn_ok dev (k_log s) bs -> bs <> [] -> inv me p dev (4 * length bs + 2 + n) ∅ s ->
  (forall m, m ∈ bs -> 1 <= refs dev s m) ->
  exists s', commit virtio_disk_rw s = Ok tt s' /\ inv me p dev n ∅ s' /\ lh_n (k_log s') = 0 /\
    (forall m, m ∈ bs -> disk_block s' m = view dev s m) /\
    (forall m, outside (k_log s) bs m -> m ∉ bs -> disk_block s' m = disk_block s m) /\
    (forall m, outside (k_log s) bs m -> view dev s' m = view dev s m).
Proof.
  intros T Hne Hs Hr. destruct (commit_ok me p dev n (k_log s) bs s T Hne Hs eq_refl Hr)
    as (s' & E & Hs' & L & _ & H1 & H2 & H3 & _). exists s'. rewrite L. done.
Qed.

(** C8: recovery replays the log: when the header on the disk counts and lists
    the blocks [bs], initlog copies the log block of each to its home block,
    changes no other block, and leaves an empty transaction. *)
Theorem recovery_replays me p dev n bs st s :
  inv me p dev (2 * length bs + 2 + n) ∅ s -> 0 <= st -> st + Z.of_nat (length bs) + 1 < 2 ^ 31 ->
  length (lh_block (k_log s)) = 90%nat -> (forall m, view dev s m = disk_block s m) ->
  hd_n (disk_block s st) = Z.of_nat (length bs) -> (length bs <= 90)%nat ->
  header_blocks (disk_block s st) = bs -> NoDup bs ->
  (forall m, m ∈ bs -> 0 <= m < 2 ^ 31 /\ (m < st \/ st + Z.of_nat (length bs) < m)) ->
  k_panicked s = 0 -> k_panicking s = 0 -> lock_free L_pr s ->
  exists s', initlog virtio_disk_rw dev st s = Ok tt s' /\ lh_n (k_log s') = 0 /\
    (forall u m, bs !! u = Some m -> disk_block s' m = disk_block s (st + Z.of_nat u + 1)) /\
    (forall m, m ∉ bs -> disk_block s' m = disk_block s m).
Proof.
  intros Hs H0 H1 Hlen Hcl Hn Hle Hbs Hnd Hap Hp1 Hp2 Hp3.
  destruct (initlog_ok me p dev n bs st s Hs H0 H1 Hlen Hcl Hn Hle Hbs Hnd Hap Hp1 Hp2 Hp3)
    as (s' & E & _ & H2 & H3 & H4). exists s'. done.
Qed.

(** C35: write_head does not store the number of blocks. Up to its commit point
    (write_log and write_head) commit puts every block and its number in the log
    area, but the count in the header block stays what it was; when it was 0, as
    mkfs leaves it, a machine that stops there and boots again finds nothing to
    replay: after initlog every home block still has its old contents. *)
Theorem commit_point_not_durable me p dev n bs s r me' p' s0 :
  txn_ok dev (k_log s) bs -> bs <> [] -> (length bs <= 90)%nat -> inv me p dev (2 * length bs + 1 + n) ∅ s ->
  (forall m, m ∈ bs -> 1 <= refs dev s m) ->
  view dev s (log_start (k_log s)) = disk_block s (log_start (k_log s)) ->
  hd_n (disk_block s (log_start (k_log s))) = 0 ->
  exists s2, (do! write_log virtio_disk_rw; write_head virtio_disk_rw) s = Ok tt s2 /\
    (forall u m, bs !! u = Some m ->
       disk_block s2 (log_start (k_log s) + Z.of_nat u + 1) = view dev s m /\
       hd_block (disk_block s2 (log_start (k_log s))) u = m) /\
    hd_n (disk_block s2 (log_start (k_log s))) = 0 /\
    (k_disk s0 = k_disk s2 ->
     inv me' p' dev (2 + r) ∅ s0 -> length (lh_block (k_log s0)) = 90%nat ->
     (forall m, view dev s0 m = disk_block s0 m) ->
     k_panicked s0 = 0 -> k_panicking s0 = 0 -> lock_free L_pr s0 ->
     exists s', initlog virtio_disk_rw dev (log_start (k_log s)) s0 = Ok tt s' /\
       forall m, m ∈ bs -> disk_block s' m = disk_block s m).
Proof.
  intros T Hne Hle Hs Hr Hcl Hn0. pose proof T as [T1 T2 T3 T4 T5]. set (st := log_start (k_log s)) in *.
  set (l := k_log s) in *. set (N := length bs) in *.
  replace (2 * N + 1 + n)%nat with (2 * N + S n)%nat in Hs by lia.
  destruct (write_loop_ok me p dev l bs N 0 (S n) s T eq_refl Hs eq_refl Hr) as (s1 & E1 & Hs1 & C1 & R1 & F1 & G1).
  fold st N in F1, G1. assert (k_log s1 = l) as L1 by apply C1.
  destruct (write_head_ok me p dev n l bs s1 T Hs1 L1) as (s2 & E2 & Hs2 & C2 & D2 & V2 & _). fold st in D2, V2.
  pose proof (fun m => disk_block_insert s1 s2 _ _ m D2) as D2'.
  destruct (F1 st) as [F1v F1d]; [lia|]. rewrite F1v, Hcl in D2'.
  assert (length (disk_block s st) = 1024%nat) as Hdl by apply (ca_disk _ _ _ _ _ _ (inv_cache _ _ _ _ _ _ Hs)).
  assert (disk_block s2 st = fill_header 0 bs (disk_block s st)) as Hst by (by rewrite D2', Z.eqb_refl).
  assert (hd_n (disk_block s2 st) = 0) as Hn2 by (rewrite Hst, fill_header_n by (done || lia); done).
  exists s2. split.
  { assert (write_log virtio_disk_rw s = Ok tt s1) as Ew.
    { unfold write_log, bind, get. fold l. rewrite T2. fold N. by rewrite Nat2Z.id. }
    by mstep Ew. }
  split; [|split; [done|]].
  - intros u m Hu. pose proof (lookup_lt_Some _ _ _ Hu) as Hlt. destruct (T5 m) as [Hm _]; [by eapply list_elem_of_lookup_2|].
    split; [|rewrite Hst; by apply (fill_header_block 0 bs _ u m)].
    rewrite D2', (proj2 (Z.eqb_neq (st + Z.of_nat u + 1) st)) by lia. by destruct (G1 u m) as [_ ->]; [lia|done|].
  - intros Hd0 Hs0 Hlen0 Hcl0 Hp1 Hp2 Hp3.
    assert (forall m, disk_block s0 m = disk_block s2 m) as Hd by (intros m; unfold disk_block; by rewrite Hd0).
    destruct (initlog_ok me' p' dev r [] st s0) as (s' & E & _ & _ & _ & Hkeep); try done; rewrite ?Hd.
    + lia. + cbn [length]. lia. + done. + cbn. lia. + unfold header_blocks. by rewrite Hn2. + constructor.
    + intros m Hm. by apply elem_of_nil in Hm.
    + exists s'. split; [done|]. intros m Hm. destruct (T5 m Hm) as [_ ?].
      rewrite Hkeep by (by apply not_elem_of_nil). rewrite Hd, D2', (proj2 (Z.eqb_neq m st)) by lia. apply F1. lia.
Qed.

End Claims.
