(* ===== verification/LogWitness.v ===== *)
(** * The log's theorems at a concrete disk

    The cache as binit leaves it, over the disk that serves each request at once,
    with the log area at block 2 of device 1. *)

From S2P Require Import Prelude Mem CString State Spinlock Printf Locks Sleep Bio Bytes BlockCache Log LogProps Commit.

#[local] Opaque fresh_cache.

(** ** An empty transaction *)

Definition demo_log (n : Z) (bs : list Z) : log_t :=
  {| log_start := 2; log_outstanding := 1; log_committing := 0; log_dev := 1;
     lh_n := n; lh_block := bs ++ replicate (90 - length bs) 0 |}.

Definition with_log (l : log_t) (s : kernel) : kernel := upd_log (fun _ => l) s.

Definition fresh_log : kernel := with_log (demo_log 0 []) fresh_cache.

Lemma demo_log_wf : log_wf (demo_log 0 []).
Proof.
  split; [by vm_compute|reflexivity|]. apply Forall_forall. intros m Hm.
  apply list_elem_of_In, repeat_spec in Hm || (apply elem_of_replicate in Hm as [-> _]). lia.
Qed.

Lemma with_log_roomy l s : roomy (k_hart s) -> roomy (k_hart (with_log l s)).
Proof. done. Qed.
Lemma with_log_view l s m : view 1 (with_log l s) m = view 1 s m.
Proof. done. Qed.
Lemma with_log_free l k s : lock_free k s -> lock_free k (with_log l s).
Proof. done. Qed.

Lemma fresh_roomy l : roomy (k_hart (with_log l fresh_cache)).
Proof. apply with_log_roomy. exact (ca_hart _ _ _ (ce_caller _ _ _ fresh_cenv)). Qed.

Lemma fresh_free l k : k ∈ [L_bcache; L_log; L_pr] -> lock_free k (with_log l fresh_cache).
Proof. intros Hk. apply with_log_free, fresh_locks. set_unfold in Hk. set_unfold. tauto. Qed.

Lemma fresh_caller l : caller 0 first_process (with_log l fresh_cache).
Proof.
  destruct (ce_caller _ _ _ fresh_cenv) as [C1 C2 C3 C4].
  generalize dependent fresh_cache. intros s C1 C2 C3 C4. by split.
Qed.

Definition buf0 : buf := default buf_zero (bc_buf (k_bcache fresh_cache) !! 0%nat).

Lemma buf0_ok : bc_buf (k_bcache fresh_log) !! 0%nat = Some buf0.
Proof. vm_compute. reflexivity. Qed.

Lemma log_write_correct_witness :
  exists s', log_write 0 fresh_log = Ok tt s' /\ logged (k_log s') = [0].
Proof.
  destruct (log_write_correct 0 buf0 fresh_log) as (s' & E & _ & _ & _ & _ & _ & _ & H).
  - apply fresh_roomy.
  - apply fresh_free. right. left.
  - apply fresh_free. left.
  - apply buf0_ok.
  - vm_compute. split; congruence.
  - apply demo_log_wf.
  - reflexivity.
  - reflexivity || (vm_compute; congruence).
  - exists s'. split; [exact E|]. destruct H as [H _]; [vm_compute; intros Hc; inversion Hc|]. exact H.
Defined.

Lemma log_write_refused_witness :
  exists s', log_write 0 (with_log (demo_log 90 []) fresh_cache) = Stop (Panic "too big a transaction") s'.
Proof.
  destruct (log_write_refused 0 (with_log (demo_log 90 []) fresh_cache)) as [H _].
  - apply fresh_free. right. left.
  - apply fresh_roomy.
  - vm_compute. reflexivity.
  - apply H. vm_compute. congruence.
Defined.

Lemma begin_op_correct_witness :
  exists s', begin_op fresh_log = Ok tt s' /\ log_outstanding (k_log s') = 2.
Proof.
  pose proof (begin_op_correct 0 first_process fresh_log) as H.
  eexists. split; [apply H|reflexivity].
  - apply fresh_caller.
  - vm_compute. reflexivity.
  - apply fresh_free. right. left.
  - vm_compute. split; congruence.
  - vm_compute. split; congruence.
Defined.


(** ** A transaction of one block *)

Definition prepare : KM unit :=
  let! i := bread ideal_rw 1 40 in
  do! modify (upd_buf i (buf_data (replicate 1024 9)));
  do! bpin i;
  brelse i.

Definition staged : kernel :=
  match prepare (with_log (demo_log 1 [40]) fresh_cache) with Ok _ s => s | Stop _ s => s end.

Lemma prepare_ok n s0 :
  inv 0 first_process 1 (S (S n)) ∅ s0 ->
  exists s4, prepare s0 = Ok tt s4 /\ inv 0 first_process 1 n ∅ s4 /\ k_log s4 = k_log s0 /\
    view 1 s4 40 = replicate 1024 9 /\ 1 <= refs 1 s4 40 /\
    (forall m, m <> 40 -> view 1 s4 m = view 1 s0 m) /\ k_disk s4 = k_disk s0.
Proof.
  intros Hs0.
  destruct (bread_ok 0 first_process 1 (S n) ∅ 40 s0 Hs0 (no_held _) eq_refl) as (i & s1 & E1 & _ & Hs1 & C1 & D1 & V1 & R1 & _).
  change (u32 40) with 40 in *. pose proof (lookup_insert_eq (M := gmap nat) ∅ i 40) as Hi.
  destruct (bset_ok 0 first_process 1 (S n) _ i 40 (replicate 1024 9) s1 Hs1 Hi (length_replicate _ _))
    as (Hs2 & C2 & D2 & V2 & R2).
  unfold prepare. mstep E1. unfold bind at 1, modify.
  generalize dependent (upd_buf i (buf_data (replicate 1024 9)) s1). intros s2 Hs2 C2 D2 V2 R2.
  destruct (bpin_ok 0 first_process 1 n _ i 40 s2 Hs2 Hi) as (s3 & E3 & Hs3 & C3 & D3 & V3 & R3 & _).
  mstep E3. rewrite R2 in R3.
  destruct (brelse_ok 0 first_process 1 n _ i 40 s3 Hs3 Hi) as (s4 & E4 & Hs4 & C4 & D4 & V4 & R4 & _); [left; lia|].
  rewrite delete_insert_id in Hs4 by (apply lookup_empty). exists s4.
  split; [done|]. split; [done|]. split; [rewrite (cm_log _ _ C4), (cm_log _ _ C3), (cm_log _ _ C2); apply C1|].
  split; [by rewrite V4, V3, V2|]. split; [lia|]. split; [|congruence].
  intros m Hm. by rewrite V4, V3, V2, (proj2 (Z.eqb_neq m 40) Hm), V1.
Qed.

Lemma staged_ok n : (n <= 80)%nat ->
  inv 0 first_process 1 n ∅ staged /\ k_log staged = demo_log 1 [40] /\
  view 1 staged 40 = replicate 1024 9 /\ 1 <= refs 1 staged 40 /\
  (forall m, m <> 40 -> view 1 staged m = disk_block staged m) /\ k_disk staged = ∅.
Proof.
  intros Hn. assert (inv 0 first_process 1 (S (S n)) ∅ (with_log (demo_log 1 [40]) fresh_cache)) as Hs0.
  { apply inv_upd_log, fresh_inv. lia. }
  destruct (prepare_ok n _ Hs0) as (s4 & E & Hs4 & L & V & R & K & D).
  assert (staged = s4) as -> by (unfold staged; by rewrite E).
  assert (k_disk s4 = ∅) as Hd by (rewrite D; vm_compute; reflexivity).
  split; [exact Hs4|]. split; [rewrite L; reflexivity|]. split; [exact V|]. split; [exact R|]. split; [|exact Hd].
  intros m Hm. rewrite (K m Hm). rewrite with_log_view, fresh_view. unfold disk_block. rewrite Hd. vm_compute. reflexivity.
Qed.

#[local] Opaque staged.

Lemma staged_txn : txn_ok 1 (k_log staged) [40].
Proof.
  destruct (staged_ok 0 ltac:(lia)) as (_ & -> & _). split; [reflexivity|reflexivity| |vm_compute; split; congruence|].
  - intros [|t] m Hm; [by injection Hm as <-|done].
  - intros m Hm. apply list_elem_of_singleton in Hm as ->. cbn. lia.
Qed.

Lemma commit_correct_witness :
  exists s', commit ideal_rw staged = Ok tt s' /\ disk_block s' 40 = replicate 1024 9.
Proof.
  destruct (staged_ok 6 ltac:(lia)) as (Hs & Hl & Hv & Hr & _).
  destruct (commit_correct 0 first_process 1 0 [40] staged) as (s' & E & _ & _ & H & _).
  - apply staged_txn.
  - discriminate.
  - exact Hs.
  - intros m Hm. apply list_elem_of_singleton in Hm as ->. exact Hr.
  - exists s'. split; [exact E|]. rewrite <- Hv. apply H. left.
Defined.

(** ** The disk at the next boot *)

Definition rebooted (d : gmap Z (list Z)) : kernel := set_disk d fresh_cache.

Lemma cores_set_disk d s : cores (set_disk d s) = cores s.
Proof. done. Qed.

Lemma cenv_set_disk me p d s : cenv me p s -> cenv me p (set_disk d s).
Proof.
  intros [[C1 C2 C3 C4] [l B] R]. split; [by split| |by apply (bd_stable s)].
  exists l. by apply (bio_ok_same l s); [|apply (bio_ring _ _ B)|apply (bio_len _ _ B)|].
Qed.

Lemma rebooted_view d m : view 1 (rebooted d) m = disk_block (rebooted d) m.
Proof.
  unfold view, view_of, rebooted. rewrite cores_set_disk, fresh_cores.
  rewrite owner_none; [done|]. intros i b H. by apply lookup_replicate in H as [-> _].
Qed.

Lemma rebooted_inv d n :
  (n <= 90)%nat -> map_Forall (fun _ b => length b = 1024%nat) d -> inv 0 first_process 1 n ∅ (rebooted d).
Proof.
  intros Hn Hd. destruct (fresh_inv n Hn) as [He Hc]. split; [by apply cenv_set_disk|].
  unfold rebooted. rewrite cores_set_disk. destruct Hc as [U Hh Id Cl Ra Ro Da _]. cbn [k_disk set_disk].
  split; [done|done|done| |done|done|done|].
  - intros i b m Hi Ho. rewrite fresh_cores in Hi. apply lookup_replicate in Hi as [-> _]. done.
  - intros m. unfold dblock. destruct (d !! m) as [b|] eqn:E; [exact (Hd m b E)|]. apply length_replicate.
Qed.

Lemma set_disk_free k d s : lock_free k s -> lock_free k (set_disk d s).
Proof. done. Qed.
Lemma rebooted_free d : lock_free L_pr (rebooted d).
Proof. apply set_disk_free, fresh_locks. right. right. right. left. Qed.

(** A header that counts and lists one block. *)
Definition one_block_disk : gmap Z (list Z) :=
  {[2 := put32 (put32 (replicate 1024 0) 0 1) 4 40; 3 := replicate 1024 9]}.

Lemma recovery_replays_witness :
  exists s', initlog ideal_rw 1 2 (rebooted one_block_disk) = Ok tt s' /\ disk_block s' 40 = replicate 1024 9.
Proof.
  destruct (recovery_replays 0 first_process 1 0 [40] 2 (rebooted one_block_disk)) as (s' & E & _ & H & _).
  - apply rebooted_inv; [cbn; lia|]. refine (bool_decide_eq_true_1 _ _). vm_compute. reflexivity.
  - lia.
  - vm_compute. reflexivity.
  - vm_compute. reflexivity.
  - apply rebooted_view.
  - vm_compute. reflexivity.
  - cbn. lia.
  - vm_compute. reflexivity.
  - apply NoDup_singleton.
  - intros m Hm. apply list_elem_of_singleton in Hm as ->. cbn. lia.
  - vm_compute. reflexivity.
  - vm_compute. reflexivity.
  - apply rebooted_free.
  - exists s'. split; [exact E|]. rewrite (H 0%nat 40 eq_refl). vm_compute. reflexivity.
Defined.

Definition at_commit_point : kernel :=
  match (do! write_log ideal_rw; write_head ideal_rw) staged with Ok _ s => s | Stop _ s => s end.

Lemma commit_point_disk : map_Forall (fun _ b => length b = 1024%nat) (k_disk at_commit_point).
Proof. refine (bool_decide_eq_true_1 _ _). vm_compute. reflexivity. Qed.

Lemma commit_point_not_durable_witness :
  exists s', initlog ideal_rw 1 2 (rebooted (k_disk at_commit_point)) = Ok tt s' /\
    disk_block s' 40 = replicate 1024 0 /\ view 1 staged 40 = replicate 1024 9.
Proof.
  destruct (staged_ok 3 ltac:(lia)) as (Hs & Hl & Hv & Hr & Hcl & Hd).
  destruct (commit_point_not_durable 0 first_process 1 0 [40] staged 0 0 first_process
              (rebooted (k_disk at_commit_point))) as (s2 & E & _ & _ & H).
  - apply staged_txn.
  - discriminate.
  - cbn. lia.
  - exact Hs.
  - intros m Hm. apply list_elem_of_singleton in Hm as ->. exact Hr.
  - rewrite Hl. apply Hcl. discriminate.
  - rewrite Hl. unfold disk_block, dblock. rewrite Hd. vm_compute. reflexivity.
  - rewrite Hl in H. destruct H as (s' & E' & H').
    + unfold at_commit_point. rewrite E. reflexivity.
    + apply rebooted_inv; [lia|apply commit_point_disk].
    + vm_compute. reflexivity.
    + apply rebooted_view.
    + vm_compute. reflexivity.
    + vm_compute. reflexivity.
    + apply rebooted_free.
    + exists s'. split; [exact E'|]. split; [|exact Hv]. rewrite H' by left.
      unfold disk_block, dblock. rewrite Hd. vm_compute. reflexivity.
Defined.
