(* ===== verification/Fs.v ===== *)
(** * kernel/disk/fs.c: blocks, inodes, directories and paths

    An inode of the table is its index. The data of buffer [b] and the
    structures the code keeps on the kernel's stack have addresses chosen by the
    compiler and the linker: [buf_addr b] and [stack]. A path is the list of its
    bytes, without the null byte that ends it; a name is the array of DIRSIZ
    bytes the code passes around. *)

From S2P Require Import Prelude Mem CString State Spinlock Printf Locks PageAlloc Vm Sleep Bio Bytes Log.

(** ** include/fs.h, stat.h *)

Definition ROOTINO : Z := 1.
Definition FSMAGIC : Z := 0x10203040.
Definition IPB : Z := BSIZE / 64.
Definition IBLOCK (i : Z) (sb : superblock) : Z := u32 (i / IPB + sb_inodestart sb).
Definition BPB : Z := BSIZE * 8.
Definition BBLOCK (b : Z) (sb : superblock) : Z := u32 (Z.quot b BPB + sb_bmapstart sb).
Definition DIRSIZ : Z := 14.
Definition sizeof_dirent : Z := 16.
Definition T_DIR : Z := 1.
Definition T_FILE : Z := 2.
Definition T_DEVICE : Z := 3.

(** struct dinode in its 64 bytes. *)
Definition read_dinode (d : list Z) (o : Z) : dinode :=
  {| di_type := s16 (get16 d o); di_major := s16 (get16 d (o + 2)); di_minor := s16 (get16 d (o + 4));
     di_nlink := s16 (get16 d (o + 6)); di_size := get32 d (o + 8);
     di_addrs := (fun k => get32 d (o + 12 + 4 * Z.of_nat k)) <$> seq 0 13 |}.

Fixpoint put_words (d : list Z) (o : Z) (ws : list Z) : list Z :=
  match ws with
  | [] => d
  | w :: ws' => put_words (put32 d o w) (o + 4) ws'
  end.

Definition write_dinode (di : dinode) (o : Z) (d : list Z) : list Z :=
  let d := put16 d o (di_type di) in
  let d := put16 d (o + 2) (di_major di) in
  let d := put16 d (o + 4) (di_minor di) in
  let d := put16 d (o + 6) (di_nlink di) in
  let d := put32 d (o + 8) (di_size di) in
  put_words d (o + 12) (di_addrs di).

(** struct superblock. *)
Definition read_superblock (d : list Z) : superblock :=
  {| sb_magic := get32 d 0; sb_size := get32 d 4; sb_nblocks := get32 d 8; sb_ninodes := get32 d 12;
     sb_nlog := get32 d 16; sb_logstart := get32 d 20; sb_inodestart := get32 d 24;
     sb_bmapstart := get32 d 28 |}.

(** ** The inode table *)

Definition upd_inode (i : nat) (f : inode -> inode) (s : kernel) : kernel :=
  set_itable (alter f i (k_itable s)) s.

Definition inode_get {A} (i : nat) (f : inode -> A) : KM A :=
  get (fun s => f (default inode_zero (k_itable s !! i))).

Definition in_ref (n : Z) (x : inode) : inode :=
  {| i_dev := i_dev x; i_inum := i_inum x; i_ref := n; i_lock := i_lock x; i_valid := i_valid x; i_di := i_di x |}.
Definition in_lock (l : sleeplock) (x : inode) : inode :=
  {| i_dev := i_dev x; i_inum := i_inum x; i_ref := i_ref x; i_lock := l; i_valid := i_valid x; i_di := i_di x |}.
Definition in_valid (v : Z) (x : inode) : inode :=
  {| i_dev := i_dev x; i_inum := i_inum x; i_ref := i_ref x; i_lock := i_lock x; i_valid := v; i_di := i_di x |}.
Definition in_di (d : dinode) (x : inode) : inode :=
  {| i_dev := i_dev x; i_inum := i_inum x; i_ref := i_ref x; i_lock := i_lock x; i_valid := i_valid x; i_di := d |}.
Definition in_id (dev inum ref valid : Z) (x : inode) : inode :=
  {| i_dev := dev; i_inum := inum; i_ref := ref; i_lock := i_lock x; i_valid := valid; i_di := i_di x |}.

Definition di_set_type (v : Z) (d : dinode) : dinode :=
  {| di_type := v; di_major := di_major d; di_minor := di_minor d; di_nlink := di_nlink d;
     di_size := di_size d; di_addrs := di_addrs d |}.
Definition di_set_nlink (v : Z) (d : dinode) : dinode :=
  {| di_type := di_type d; di_major := di_major d; di_minor := di_minor d; di_nlink := v;
     di_size := di_size d; di_addrs := di_addrs d |}.
Definition di_set_dev (major minor : Z) (d : dinode) : dinode :=
  {| di_type := di_type d; di_major := major; di_minor := minor; di_nlink := di_nlink d;
     di_size := di_size d; di_addrs := di_addrs d |}.
Definition di_set_size (v : Z) (d : dinode) : dinode :=
  {| di_type := di_type d; di_major := di_major d; di_minor := di_minor d; di_nlink := di_nlink d;
     di_size := v; di_addrs := di_addrs d |}.
Definition di_set_addr (k : nat) (v : Z) (d : dinode) : dinode :=
  {| di_type := di_type d; di_major := di_major d; di_minor := di_minor d; di_nlink := di_nlink d;
     di_size := di_size d; di_addrs := <[k := v]> (di_addrs d) |}.
Definition addr_of (d : dinode) (k : nat) : Z := default 0 (di_addrs d !! k).
Definition upd_di (i : nat) (f : dinode -> dinode) : KM unit :=
  modify (upd_inode i (fun x => in_di (f (i_di x)) x)).

(** The sleep lock of inode [i]. *)
Definition inode_sl (i : nat) : slref :=
  {| sl_of := fun s => i_lock (default inode_zero (k_itable s !! i));
     sl_put := fun v => upd_inode i (in_lock v);
     sl_lk := L_inode i;
     sl_chan := Ch_inodelock i |}.

Definition iinit : KM unit :=
  do! initlock L_itable "itable";
  foreach (seq 0 (Z.to_nat NBUF)) (fun i => initsleeplock (inode_sl i)).

(** The loop of iget over the first NINODE entries: the entry of the inode, or
    the first entry without references. *)
Fixpoint iget_scan (ips : list inode) (i : nat) (dev inum : Z) (empty : option nat) : option nat * option nat :=
  match ips with
  | [] => (None, empty)
  | ip :: ips' =>
      if (0 <? i_ref ip) && (i_dev ip =? dev) && (i_inum ip =? inum) then (Some i, empty)
      else
        let empty := match empty with
                     | None => if i_ref ip =? 0 then Some i else None
                     | Some e => Some e
                     end in
        iget_scan ips' (S i) dev inum empty
  end.

Definition iget (dev inum : Z) : KM nat :=
  do! acquire L_itable;
  let! ips := get k_itable in
  match iget_scan (take (Z.to_nat NINODE) ips) 0 dev inum None with
  | (Some i, _) =>
      do! modify (upd_inode i (fun x => in_ref (s32 (i_ref x + 1)) x));
      do! release L_itable;
      ret i
  | (None, None) => panic "iget: no inodes"
  | (None, Some i) =>
      do! modify (upd_inode i (in_id dev inum 1 0));
      do! release L_itable;
      ret i
  end.

Definition idup (i : nat) : KM nat :=
  do! acquire L_itable;
  do! modify (upd_inode i (fun x => in_ref (s32 (i_ref x + 1)) x));
  do! release L_itable;
  ret i.

Definition iunlock (i : nat) : KM unit :=
  let! ref := inode_get i i_ref in
  if ref <? 1 then panic "iunlock"
  else
    let! h := holdingsleep (inode_sl i) in
    if negb (truthy h) then panic "iunlock"
    else releasesleep (inode_sl i).

(** ** Paths *)

(** The loops that step over slashes. *)
Fixpoint skip_slashes (path : list Z) : list Z :=
  match path with
  | 47 :: path' => skip_slashes path'
  | _ => path
  end.

(** The bytes up to the next slash, and the rest. *)
Fixpoint split_elem (path : list Z) : list Z * list Z :=
  match path with
  | [] => ([], [])
  | c :: path' =>
      if c =? 47 then ([], path)
      else let (s, rest) := split_elem path' in (c :: s, rest)
  end.

(** The new path and name, or [None] when no element is left. *)
Definition skipelem (path name : list Z) : option (list Z * list Z) :=
  let path := skip_slashes path in
  match path with
  | [] => None
  | _ =>
      let (s, rest) := split_elem path in
      let len := Z.of_nat (length s) in
      let name :=
        if DIRSIZ <=? len then take (Z.to_nat DIRSIZ) s
        else <[length s := 0]> (copy_bytes name s (length s)) in
      Some (skip_slashes rest, name)
  end.

(** strncmp and safestrcpy (kernel/lib/string.c) on byte arrays. *)
Fixpoint lstrncmp (n : nat) (p q : list Z) : Z :=
  match n with
  | O => 0
  | S n' =>
      let a := default 0 (head p) in
      let b := default 0 (head q) in
      if (a =? 0) || negb (a =? b) then a - b
      else lstrncmp n' (tail p) (tail q)
  end.

Fixpoint lsafestrcpy_loop (n : nat) (s t : list Z) : list Z :=
  match n with
  | O => <[O := 0]> s
  | S n' =>
      let c := default 0 (head t) in
      match s with
      | [] => []
      | _ :: s' => if c =? 0 then 0 :: <[O := 0]> s' else c :: lsafestrcpy_loop n' s' (tail t)
      end
  end.

Definition lsafestrcpy (s t : list Z) (n : Z) : list Z :=
  if n <=? 0 then s else lsafestrcpy_loop (Z.to_nat (n - 1)) s t.

(** struct dirent. *)
Definition de_inum (d : list Z) : Z := get16 d 0.
Definition de_name (d : list Z) : list Z := take (Z.to_nat DIRSIZ) (drop 2 d).

(** The entry dirlink writes over [de]. *)
Definition fill_de (de name : list Z) (inum : Z) : list Z :=
  put16 (take 2 de ++ lsafestrcpy (de_name de) name DIRSIZ) 0 inum.

Section Routines.
Context (virtio_disk_rw : nat -> Z -> KM unit) (kalloc : KM Z) (kfree : Z -> KM unit).
Context (buf_addr : nat -> Z) (stack : Z).
Abbreviation bread := (bread virtio_disk_rw).
Abbreviation either_copyout := (either_copyout kalloc kfree).
Abbreviation either_copyin := (either_copyin kalloc kfree).

Definition set_data (b : nat) (f : list Z -> list Z) : KM unit :=
  modify (upd_buf b (fun x => buf_data (f (b_data x)) x)).

(** ** Blocks *)

(** [1 << (bi % 8)] *)
Definition bit_mask (bi : Z) : Z := Z.shiftl 1 (Z.rem bi 8).

Definition bfree (dev bbnum : Z) : KM unit :=
  let! sb := get k_sb in
  let! bp := bread dev (BBLOCK bbnum sb) in
  let bi := Z.rem bbnum BPB in
  let m := bit_mask bi in
  let! d := buf_get bp b_data in
  if Z.land (byte_at d (Z.quot bi 8)) m =? 0 then panic "bfree: freeing free block"
  else
    do! set_data bp (fun d => put8 d (Z.quot bi 8) (Z.land (byte_at d (Z.quot bi 8)) (Z.lnot m)));
    do! log_write bp;
    brelse bp.

Definition bzero (dev bno : Z) : KM unit :=
  let! bp := bread dev bno in
  do! set_data bp (fun d => replicate (Z.to_nat BSIZE) 0 ++ drop (Z.to_nat BSIZE) d);
  do! log_write bp;
  brelse bp.

(** The inner loop of balloc: the first clear bit from [bi] on. *)
Fixpoint free_bit (fuel : nat) (bi b size : Z) (d : list Z) : option Z :=
  match fuel with
  | O => None
  | S f =>
      if (bi <? BPB) && (b + bi <? size) then
        if Z.land (byte_at d (Z.quot bi 8)) (bit_mask bi) =? 0 then Some bi
        else free_bit f (bi + 1) b size d
      else None
  end.

Fixpoint balloc_loop (fuel : nat) (dev b : Z) : KM Z :=
  match fuel with
  | O => halt OutOfFuel
  | S f =>
      let! sb := get k_sb in
      if b <? sb_size sb then
        let! bp := bread dev (BBLOCK b sb) in
        let! d := buf_get bp b_data in
        match free_bit (Z.to_nat BPB) 0 b (sb_size sb) d with
        | Some bi =>
            do! set_data bp (fun d => put8 d (Z.quot bi 8) (Z.lor (byte_at d (Z.quot bi 8)) (bit_mask bi)));
            do! log_write bp;
            do! brelse bp;
            do! bzero dev (b + bi);
            ret (b + bi)
        | None =>
            do! brelse bp;
            balloc_loop f dev (b + BPB)
        end
      else
        do! printf ("balloc: out of blocks" ++ nl) [];
        ret 0
  end.

(** One turn for each block of the bitmap. *)
Definition balloc (dev : Z) : KM Z :=
  let! sb := get k_sb in
  balloc_loop (S (Z.to_nat (sb_size sb / BPB + 1))) dev 0.

(** bmap takes [bp] itself for the array of addresses: the words of struct buf itself. The words not
    listed hold pointers, the inner spinlock or padding. *)
Definition buf_word (b : buf) (k : Z) : option Z :=
  if k =? 0 then Some (u32 (b_valid b))
  else if k =? 1 then Some (u32 (b_disk b))
  else if k =? 2 then Some (b_dev b)
  else if k =? 3 then Some (b_blockno b)
  else if k =? 4 then Some (sl_locked (b_lock b))
  else if k =? 14 then Some (u32 (sl_pid (b_lock b)))
  else if k =? 16 then Some (b_refcnt b)
  else if 22 <=? k then Some (get32 (b_data b) (4 * (k - 22)))
  else None.

Definition buf_set_word (k v : Z) (b : buf) : buf :=
  if k =? 0 then buf_valid (s32 v) b
  else if k =? 1 then
    {| b_valid := b_valid b; b_disk := s32 v; b_dev := b_dev b; b_blockno := b_blockno b; b_lock := b_lock b;
       b_refcnt := b_refcnt b; b_prev := b_prev b; b_next := b_next b; b_data := b_data b |}
  else if k =? 2 then buf_id (b_valid b) v (b_blockno b) (b_refcnt b) b
  else if k =? 3 then buf_id (b_valid b) (b_dev b) v (b_refcnt b) b
  else if k =? 4 then buf_lock {| sl_locked := v; sl_pid := sl_pid (b_lock b) |} b
  else if k =? 14 then buf_lock {| sl_locked := sl_locked (b_lock b); sl_pid := s32 v |} b
  else if k =? 16 then buf_refcnt v b
  else buf_data (put32 (b_data b) (4 * (k - 22)) v) b.

Definition bmap (i : nat) (bn : Z) : KM Z :=
  let! dev := inode_get i i_dev in
  if bn <? NDIRECT then
    let! di := inode_get i i_di in
    let addr := addr_of di (Z.to_nat bn) in
    if addr =? 0 then
      let! addr := balloc dev in
      if addr =? 0 then ret 0
      else do! upd_di i (di_set_addr (Z.to_nat bn) addr); ret addr
    else ret addr
  else
    let bn := bn - NDIRECT in
    if bn <? NINDIRECT then
      let! di := inode_get i i_di in
      let addr := addr_of di (Z.to_nat NDIRECT) in
      let! addr := (if addr =? 0 then
                      let! addr := balloc dev in
                      do! (when! negb (addr =? 0) then upd_di i (di_set_addr (Z.to_nat NDIRECT) addr));
                      ret addr
                    else ret addr) in
      if addr =? 0 then ret 0
      else
        let! bp := bread dev addr in
        let! b := buf_get bp id in
        match buf_word b bn with
        | None => halt (Undefined "bmap: a word of struct buf")
        | Some addr =>
            let! addr := (if addr =? 0 then
                            let! addr := balloc dev in
                            do! (when! negb (addr =? 0) then
                                   do! modify (upd_buf bp (buf_set_word bn addr));
                                   log_write bp);
                            ret addr
                          else ret addr) in
            do! brelse bp;
            ret addr
        end
    else panic "bmap: out of range".

Definition readsb (dev : Z) : KM unit :=
  let! bp := bread dev 1 in
  let! d := buf_get bp b_data in
  do! modify (set_sb (read_superblock d));
  brelse bp.

(** ** Inodes *)

Definition dinode_off (inum : Z) : Z := 64 * (inum mod IPB).

Definition ilock (i : nat) : KM unit :=
  let! ref := inode_get i i_ref in
  if ref <? 1 then panic "ilock"
  else
    do! acquiresleep (inode_sl i);
    let! v := inode_get i i_valid in
    when! v =? 0 then
      let! dev := inode_get i i_dev in
      let! inum := inode_get i i_inum in
      let! sb := get k_sb in
      let! bp := bread dev (IBLOCK inum sb) in
      let! d := buf_get bp b_data in
      do! upd_di i (fun _ => read_dinode d (dinode_off inum));
      do! brelse bp;
      do! modify (upd_inode i (in_valid 1));
      let! di := inode_get i i_di in
      when! di_type di =? 0 then panic "ilock: no type".

Definition iupdate (i : nat) : KM unit :=
  let! h := holdingsleep (inode_sl i) in
  if negb (truthy h) then panic "iupdate"
  else
    let! dev := inode_get i i_dev in
    let! inum := inode_get i i_inum in
    let! sb := get k_sb in
    let! bp := bread dev (IBLOCK inum sb) in
    let! di := inode_get i i_di in
    do! set_data bp (write_dinode di (dinode_off inum));
    do! log_write bp;
    brelse bp.

Definition itrunc (i : nat) : KM unit :=
  let! dev := inode_get i i_dev in
  do! foreach (seq 0 (Z.to_nat NDIRECT)) (fun k =>
        let! di := inode_get i i_di in
        when! negb (addr_of di k =? 0) then
          do! bfree dev (addr_of di k);
          upd_di i (di_set_addr k 0));
  let! di := inode_get i i_di in
  do! (when! negb (addr_of di (Z.to_nat NDIRECT) =? 0) then
         let! bp := bread dev (addr_of di (Z.to_nat NDIRECT)) in
         do! foreach (seq 0 (Z.to_nat NINDIRECT)) (fun j =>
               let! d := buf_get bp b_data in
               let a := get32 d (4 * Z.of_nat j) in
               when! negb (a =? 0) then bfree dev a);
         do! brelse bp;
         let! di := inode_get i i_di in
         do! bfree dev (addr_of di (Z.to_nat NDIRECT));
         upd_di i (di_set_addr (Z.to_nat NDIRECT) 0));
  do! upd_di i (di_set_size 0);
  iupdate i.

Definition iput (i : nat) : KM unit :=
  do! acquire L_itable;
  let! ref := inode_get i i_ref in
  let! di := inode_get i i_di in
  do! (when! (ref =? 1) && (di_nlink di =? 0) then
         do! acquiresleep (inode_sl i);
         do! release L_itable;
         do! itrunc i;
         do! upd_di i (di_set_type 0);
         do! iupdate i;
         do! modify (upd_inode i (in_valid 0));
         do! releasesleep (inode_sl i);
         acquire L_itable);
  do! modify (upd_inode i (fun x => in_ref (s32 (i_ref x - 1)) x));
  release L_itable.

(** ** Contents *)

(** either_copyout from the data of buffer [bp], which is at [buf_addr bp]. *)
Definition copy_from_buf (user_dst dst : Z) (bp : nat) (o m : Z) : KM Z :=
  let! d := buf_get bp b_data in
  do! modify (fun s => set_mem (wr_bytes (k_mem s) (buf_addr bp) d) s);
  either_copyout user_dst dst (buf_addr bp + o) m.

(** either_copyin into the data of buffer [bp]. *)
Definition copy_to_buf (bp : nat) (o user_src src m : Z) : KM Z :=
  let! d := buf_get bp b_data in
  do! modify (fun s => set_mem (wr_bytes (k_mem s) (buf_addr bp) d) s);
  let! r := either_copyin (buf_addr bp + o) user_src src m in
  let! d := get (fun s => rd_bytes (k_mem s) (buf_addr bp) (length d)) in
  do! set_data bp (fun _ => d);
  ret r.

Definition chunk_in_block (off tot n : Z) : Z :=
  let a := n - tot in
  let b := BSIZE - off mod BSIZE in
  if a <? b then a else b.

Fixpoint readi_loop (fuel : nat) (i : nat) (user_dst dst off tot n : Z) : KM Z :=
  match fuel with
  | O => halt OutOfFuel
  | S f =>
      if tot <? n then
        let! addr := bmap i (off / BSIZE) in
        if addr =? 0 then ret tot
        else
          let! dev := inode_get i i_dev in
          let! bp := bread dev addr in
          let m := chunk_in_block off tot n in
          let! r := copy_from_buf user_dst dst bp (off mod BSIZE) m in
          if r =? -1 then do! brelse bp; ret (-1)
          else
            do! brelse bp;
            readi_loop f i user_dst (u64 (dst + m)) (u32 (off + m)) (tot + m) n
      else ret tot
  end.

(** A turn for each block the range touches. *)
Definition block_fuel (n : Z) : nat := S (S (S (Z.to_nat (n / BSIZE)))).

Definition readi (i : nat) (user_dst dst off n : Z) : KM Z :=
  let! di := inode_get i i_di in
  let size := di_size di in
  if (size <? off) || (u32 (off + n) <? off) then ret 0
  else
    let n := if size <? u32 (off + n) then size - off else n in
    let! tot := readi_loop (block_fuel n) i user_dst dst off 0 n in
    ret (s32 tot).

(** The loop of writei leaves [tot] and [off]. *)
Fixpoint writei_loop (fuel : nat) (i : nat) (user_src src off tot n : Z) : KM (Z * Z) :=
  match fuel with
  | O => halt OutOfFuel
  | S f =>
      if tot <? n then
        let! addr := bmap i (off / BSIZE) in
        if addr =? 0 then ret (tot, off)
        else
          let! dev := inode_get i i_dev in
          let! bp := bread dev addr in
          let m := chunk_in_block off tot n in
          let! r := copy_to_buf bp (off mod BSIZE) user_src src m in
          if r =? -1 then do! brelse bp; ret (tot, off)
          else
            do! log_write bp;
            do! brelse bp;
            writei_loop f i user_src (u64 (src + m)) (u32 (off + m)) (tot + m) n
      else ret (tot, off)
  end.

Definition writei (i : nat) (user_src src off n : Z) : KM Z :=
  let! di := inode_get i i_di in
  if (di_size di <? off) || (u32 (off + n) <? off) then ret (-1)
  else if MAXFILE * BSIZE <? u32 (off + n) then ret (-1)
  else
    let! ' (tot, off) := writei_loop (block_fuel n) i user_src src off 0 n in
    let! di := inode_get i i_di in
    do! (when! di_size di <? off then upd_di i (di_set_size off));
    do! iupdate i;
    ret (s32 tot).

(** ** Directories *)

(** The struct dirent the code reads into its local variable [de]. *)
Definition read_de (i : nat) (off : Z) (msg : string) : KM (list Z) :=
  let! r := readi i 0 stack off sizeof_dirent in
  if negb (r =? sizeof_dirent) then panic msg
  else get (fun s => rd_bytes (k_mem s) stack (Z.to_nat sizeof_dirent)).

(** The inode and the offset of its entry, or [None]. *)
Fixpoint dirlookup_loop (fuel : nat) (dp : nat) (name : list Z) (off : Z) : KM (option (nat * Z)) :=
  match fuel with
  | O => halt OutOfFuel
  | S f =>
      let! di := inode_get dp i_di in
      if off <? di_size di then
        let! de := read_de dp off "dirlookup read" in
        if de_inum de =? 0 then dirlookup_loop f dp name (u32 (off + sizeof_dirent))
        else if lstrncmp (Z.to_nat DIRSIZ) name (de_name de) =? 0 then
          let! dev := inode_get dp i_dev in
          let! ip := iget dev (de_inum de) in
          ret (Some (ip, off))
        else dirlookup_loop f dp name (u32 (off + sizeof_dirent))
      else ret None
  end.

Definition dir_fuel (size : Z) : nat := S (S (Z.to_nat (size / sizeof_dirent))).

Definition dirlookup (dp : nat) (name : list Z) : KM (option (nat * Z)) :=
  let! di := inode_get dp i_di in
  if negb (di_type di =? T_DIR) then panic "dirlookup not DIR"
  else dirlookup_loop (dir_fuel (di_size di)) dp name 0.

(** The first free entry of the directory, or its end, with the last entry read. *)
Fixpoint free_entry_loop (fuel : nat) (dp : nat) (off : Z) (de : list Z) : KM (Z * list Z) :=
  match fuel with
  | O => halt OutOfFuel
  | S f =>
      let! di := inode_get dp i_di in
      if off <? di_size di then
        let! de := read_de dp off "dirlink read" in
        if de_inum de =? 0 then ret (off, de)
        else free_entry_loop f dp (off + sizeof_dirent) de
      else ret (off, de)
  end.

Definition write_de (i : nat) (off : Z) (de : list Z) : KM Z :=
  do! modify (fun s => set_mem (wr_bytes (k_mem s) stack de) s);
  writei i 0 stack off sizeof_dirent.

Definition dirlink (dp : nat) (name : list Z) (inum : Z) : KM Z :=
  let! found := dirlookup dp name in
  match found with
  | Some (ip, _) => do! iput ip; ret (-1)
  | None =>
      let! di := inode_get dp i_di in
      let! de0 := get (fun s => rd_bytes (k_mem s) stack (Z.to_nat sizeof_dirent)) in
      let! ' (off, de) := free_entry_loop (dir_fuel (di_size di)) dp 0 de0 in
      let! r := write_de dp off (fill_de de name inum) in
      if negb (r =? sizeof_dirent) then ret (-1) else ret 0
  end.

(** ** Allocation of inodes *)

Fixpoint ialloc_loop (fuel : nat) (dev type inum : Z) : KM (option nat) :=
  match fuel with
  | O => halt OutOfFuel
  | S f =>
      let! sb := get k_sb in
      if inum <? sb_ninodes sb then
        let! bp := bread dev (IBLOCK inum sb) in
        let! d := buf_get bp b_data in
        if di_type (read_dinode d (dinode_off inum)) =? 0 then
          do! set_data bp (write_dinode (di_set_type type dinode_zero) (dinode_off inum));
          do! log_write bp;
          do! brelse bp;
          let! ip := iget dev inum in
          ret (Some ip)
        else
          do! brelse bp;
          ialloc_loop f dev type (inum + 1)
      else
        do! printf ("ialloc: disk上找不到对应的inode" ++ nl) [];
        ret None
  end.

Definition ialloc (dev type : Z) : KM (option nat) :=
  let! sb := get k_sb in
  ialloc_loop (S (Z.to_nat (sb_ninodes sb))) dev type 1.

(** ** Path names *)

Fixpoint namex_loop (fuel : nat) (i : nat) (path name : list Z) (nameiparent : bool) :
    KM (option nat * list Z) :=
  match fuel with
  | O => halt OutOfFuel
  | S f =>
      match skipelem path name with
      | Some (path, name) =>
          do! ilock i;
          let! di := inode_get i i_di in
          if negb (di_type di =? T_DIR) then
            do! iunlock i;
            do! iput i;
            ret (None, name)
          else if nameiparent && bool_decide (path = []) then
            do! iunlock i;
            ret (Some i, name)
          else
            let! next := dirlookup i name in
            match next with
            | None =>
                do! iunlock i;
                do! iput i;
                ret (None, name)
            | Some (next, _) =>
                do! iunlock i;
                do! iput i;
                namex_loop f next path name nameiparent
            end
      | None =>
          if nameiparent then do! iput i; ret (None, name)
          else ret (Some i, name)
      end
  end.

Definition namex (path : list Z) (nameiparent : bool) (name : list Z) : KM (option nat * list Z) :=
  let! ip := (if default 0 (head path) =? 47 then iget ROOTDEV ROOTINO
              else
                let! p := myproc in
                let! cwd := proc_get p p_cwd in
                match cwd with
                | Some c => idup c
                | None => halt (Undefined "namex: null cwd")
                end) in
  namex_loop (S (length path)) ip path name nameiparent.

(** [char name[DIRSIZ]] starts with whatever the stack held. *)
Definition namei (path : list Z) : KM (option nat) :=
  let! junk := get (fun s => rd_bytes (k_mem s) (stack + 16) (Z.to_nat DIRSIZ)) in
  let! ' (ip, _) := namex path false junk in
  ret ip.

Definition nameiparent (path name : list Z) : KM (option nat * list Z) := namex path true name.

(** ** Start of the file system *)

Fixpoint ireclaim_loop (fuel : nat) (dev inum : Z) : KM unit :=
  match fuel with
  | O => halt OutOfFuel
  | S f =>
      let! sb := get k_sb in
      when! inum <? sb_ninodes sb then
        let! bp := bread dev (IBLOCK inum sb) in
        let! d := buf_get bp b_data in
        let dip := read_dinode d (dinode_off inum) in
        let! ip := (if negb (di_type dip =? 0) && (di_nlink dip =? 0) then
                      do! printf ("ireclaim : 一个异常文件 %d" ++ nl) [VNum inum];
                      let! ip := iget dev inum in
                      ret (Some ip)
                    else ret None) in
        do! brelse bp;
        do! (match ip with
             | None => ret tt
             | Some ip =>
                 do! begin_op;
                 do! ilock ip;
                 do! iunlock ip;
                 do! iput ip;
                 end_op virtio_disk_rw
             end);
        ireclaim_loop f dev (inum + 1)
  end.

Definition ireclaim (dev : Z) : KM unit :=
  let! sb := get k_sb in
  ireclaim_loop (S (Z.to_nat (sb_ninodes sb))) dev 1.

Definition fsinit (dev : Z) : KM unit :=
  do! readsb dev;
  let! sb := get k_sb in
  if negb (sb_magic sb =? FSMAGIC) then panic "invalid file system"
  else
    do! initlog virtio_disk_rw dev (sb_logstart sb);
    ireclaim dev.

End Routines.
