(* ===== verification/Path.v ===== *)
(** * Path names and directory entries (skipelem, namecmp and dirlink, kernel/disk/fs.c)

    The loop of namex takes the elements of a path one by one; here they are
    compared with the list of elements of the whole path. *)

From S2P Require Import Prelude Mem CString State Spinlock Printf Locks PageAlloc Vm Sleep Bio Bytes Log Fs.

(** ** The elements of a path *)

Definition flush (cur : list Z) : list (list Z) := match cur with [] => [] | _ => [cur] end.

(** The non-empty pieces between slashes; [cur] is the piece being read. *)
Fixpoint pieces (path cur : list Z) : list (list Z) :=
  match path with
  | [] => flush cur
  | c :: path' => if c =? 47 then flush cur ++ pieces path' [] else pieces path' (cur ++ [c])
  end.

Definition elements (path : list Z) : list (list Z) := pieces path [].

(** The C string in an array: the bytes before the first null byte. *)
Fixpoint cstring (bs : list Z) : list Z :=
  match bs with
  | [] => []
  | b :: bs' => if b =? 0 then [] else b :: cstring bs'
  end.

Lemma elements_skip path : elements (skip_slashes path) = elements path.
Proof.
  induction path as [|c path IH]; [done|]. unfold elements in *. cbn [skip_slashes]. destruct (decide (c = 47)) as [->|Hne].
  - rewrite IH. reflexivity.
  - assert (match c with 47 => skip_slashes path | _ => c :: path end = c :: path) as ->; [|done].
    destruct c as [|q|q]; try done. do 6 (destruct q as [q|q|]; try done).
Qed.

Lemma skip_slashes_head path c rest : skip_slashes path = c :: rest -> c <> 47.
Proof.
  revert c rest. induction path as [|b path IH]; intros c rest H; [done|]. cbn [skip_slashes] in H.
  destruct (decide (b = 47)) as [->|Hne]; [by eapply IH|].
  assert (match b with 47 => skip_slashes path | _ => b :: path end = b :: path) as Hb.
  { destruct b as [|q|q]; try done. do 6 (destruct q as [q|q|]; try done). }
  rewrite Hb in H. injection H as -> _. done.
Qed.

Lemma skip_slashes_length path : (length (skip_slashes path) <= length path)%nat.
Proof.
  induction path as [|c path IH]; [done|]. cbn [skip_slashes].
  destruct c as [|q|q]; cbn [length]; try lia. do 6 (destruct q as [q|q|]; cbn [length]; try lia).
Qed.

Lemma split_elem_pieces path cur s rest :
  split_elem path = (s, rest) -> pieces path cur = flush (cur ++ s) ++ elements rest.
Proof.
  revert cur s rest. induction path as [|c path IH]; intros cur s rest H; cbn [split_elem] in H.
  - injection H as <- <-. unfold elements. cbn. by rewrite !app_nil_r.
  - cbn [pieces]. destruct (Z.eqb_spec c 47) as [->|Hne].
    + injection H as <- <-. unfold elements. cbn. by rewrite app_nil_r.
    + destruct (split_elem path) as [s' rest'] eqn:E. injection H as <- <-.
      rewrite (IH (cur ++ [c]) s' rest') by done. by rewrite <- app_assoc.
Qed.

Lemma split_elem_app path s rest : split_elem path = (s, rest) -> path = s ++ rest.
Proof.
  revert s rest. induction path as [|c path IH]; intros s rest H; cbn [split_elem] in H.
  - by injection H as <- <-.
  - destruct (Z.eqb_spec c 47); [by injection H as <- <-|].
    destruct (split_elem path) as [s' rest']. injection H as <- <-. cbn. f_equal. by apply IH.
Qed.

Lemma skip_slashes_nil path : skip_slashes path = [] <-> elements path = [].
Proof.
  rewrite <- elements_skip. destruct (skip_slashes path) as [|c rest] eqn:E; [done|]. split; [done|]. intros H. exfalso.
  destruct (split_elem (c :: rest)) as [s r] eqn:Es. unfold elements in H. rewrite (split_elem_pieces _ _ _ _ Es) in H.
  cbn [split_elem] in Es. rewrite (proj2 (Z.eqb_neq c 47)) in Es by (by eapply skip_slashes_head).
  destruct (split_elem rest). injection Es as <- <-. done.
Qed.

Lemma cstring_app_zero s r : Forall (fun b => b <> 0) s -> cstring (s ++ 0 :: r) = s.
Proof. induction 1 as [|b s Hb Hs IH]; [done|]. cbn. rewrite (proj2 (Z.eqb_neq b 0) Hb). by rewrite IH. Qed.
Lemma cstring_all s : Forall (fun b => b <> 0) s -> cstring s = s.
Proof. induction 1 as [|b s Hb Hs IH]; [done|]. cbn. rewrite (proj2 (Z.eqb_neq b 0) Hb). by rewrite IH. Qed.

Lemma copy_zero (name s : list Z) :
  (length s < length name)%nat -> <[length s := 0]> (copy_bytes name s (length s)) = s ++ 0 :: drop (S (length s)) name.
Proof.
  intros H. unfold copy_bytes. rewrite take_ge by done. destruct (lookup_lt_is_Some_2 name (length s) H) as [b Hb].
  rewrite (drop_S name b (length s) Hb). replace (length s) with (length s + 0)%nat at 1 by lia. by rewrite insert_app_r.
Qed.

Lemma Forall_skip P path : Forall P path -> Forall P (skip_slashes path).
Proof.
  induction 1 as [|b l Hb Hl IH]; [done|]. cbn [skip_slashes].
  destruct b as [|q|q]; try (by constructor). do 6 (destruct q as [q|q|]; try (by constructor)). done.
Qed.

Lemma skipelem_ok path name :
  Forall (fun b => b <> 0) path -> length name = Z.to_nat DIRSIZ ->
  match skipelem path name with
  | None => elements path = []
  | Some (path', name') => exists e, elements path = e :: elements path' /\
      cstring name' = take (Z.to_nat DIRSIZ) e /\ length name' = Z.to_nat DIRSIZ /\
      (path' = [] <-> elements path' = []) /\ (length path' < length path)%nat
  end.
Proof.
  intros Hnz Hlen. unfold skipelem. destruct (skip_slashes path) as [|c p] eqn:E; [by apply skip_slashes_nil|].
  destruct (split_elem (c :: p)) as [s rest] eqn:Es. pose proof (split_elem_app _ _ _ Es) as Ea.
  assert (exists s', s = c :: s') as [s' ->].
  { cbn [split_elem] in Es. rewrite (proj2 (Z.eqb_neq c 47)) in Es by (by eapply skip_slashes_head).
    destruct (split_elem p). injection Es as <- <-. by eexists. }
  assert (elements path = (c :: s') :: elements rest) as Hel.
  { rewrite <- elements_skip, E. unfold elements at 1. by rewrite (split_elem_pieces _ _ _ _ Es). }
  assert (Forall (fun b => b <> 0) (c :: s')) as Hs.
  { pose proof (Forall_skip _ _ Hnz) as Hsk. rewrite E, Ea in Hsk. by apply Forall_app in Hsk as [? _]. }
  exists (c :: s'). change (Z.to_nat DIRSIZ) with 14%nat in *. rewrite elements_skip.
  split; [done|]. split; [|split; [|split]].
  - change DIRSIZ with 14. destruct (Z.leb_spec 14 (Z.of_nat (length (c :: s')))) as [H|H].
    + apply cstring_all. by apply Forall_take.
    + rewrite copy_zero by (rewrite Hlen; lia). rewrite cstring_app_zero by done. by rewrite take_ge by lia.
  - change DIRSIZ with 14. destruct (Z.leb_spec 14 (Z.of_nat (length (c :: s')))) as [H|H].
    + rewrite length_take. lia.
    + rewrite copy_zero by (rewrite Hlen; lia). rewrite length_app. cbn [length]. rewrite length_drop. cbn [length] in *. lia.
  - apply skip_slashes_nil.
  - pose proof (skip_slashes_length rest). pose proof (skip_slashes_length path) as Hp. rewrite E, Ea in Hp.
    rewrite length_app in Hp. cbn [length] in Hp. lia.
Qed.

(** Skipelem splits the first element off a path. It fails exactly on a path
    without elements; otherwise the name array holds the element, cut to DIRSIZ
    bytes, the rest of the path has the other elements, is empty exactly when
    there are none (which is how namex recognises the last one), and is shorter,
    so that the loop of namex ends. *)
Theorem skipelem_correct path name :
  Forall (fun b => b <> 0) path -> length name = Z.to_nat DIRSIZ ->
  match skipelem path name with
  | None => elements path = []
  | Some (path', name') => exists e, elements path = e :: elements path' /\
      cstring name' = take (Z.to_nat DIRSIZ) e /\ length name' = Z.to_nat DIRSIZ /\
      (path' = [] <-> elements path' = []) /\ (length path' < length path)%nat
  end.
Proof. apply skipelem_ok. Qed.

Lemma skipelem_nonzero path name path' name' :
  Forall (fun b => b <> 0) path -> skipelem path name = Some (path', name') -> Forall (fun b => b <> 0) path'.
Proof.
  intros Hnz E. unfold skipelem in E. pose proof (Forall_skip _ _ Hnz) as Hs. destruct (skip_slashes path) as [|c q]; [done|].
  destruct (split_elem (c :: q)) as [e rest] eqn:Es. injection E as <- _. rewrite (split_elem_app _ _ _ Es) in Hs.
  apply Forall_app in Hs as [_ Hs]. by apply Forall_skip.
Qed.

(** ** Names in directory entries *)

(** strncmp compares the C strings, up to [n] bytes. *)
Lemma lstrncmp_spec n p q : lstrncmp n p q = 0 <-> cstring (take n p) = cstring (take n q).
Proof.
  revert p q. induction n as [|n IH]; intros p q; [done|]. cbn [lstrncmp].
  destruct p as [|a p], q as [|b q]; cbn [head default from_option id tail take cstring].
  - done.
  - cbn [Z.eqb orb]. destruct (Z.eqb_spec b 0); split; intros; (done || lia).
  - destruct (Z.eqb_spec a 0) as [->|Ha]; cbn [orb negb]; [done|]. split; intros; (done || lia).
  - destruct (Z.eqb_spec a 0) as [->|Ha]; cbn [orb].
    + destruct (Z.eqb_spec b 0); split; intros; (done || lia).
    + destruct (Z.eqb_spec a b) as [->|Hab]; cbn [negb].
      * rewrite (proj2 (Z.eqb_neq b 0) Ha). rewrite IH. split; [by intros ->|by intros [=]].
      * destruct (Z.eqb_spec b 0); split; intros H; (done || lia || (injection H; intros; lia)).
Qed.

Lemma cstring_take_nil n t : cstring (take n t) = take n (cstring t).
Proof.
  revert t. induction n as [|n IH]; intros [|b t]; try done. cbn [take cstring]. destruct (b =? 0); [done|]. cbn [take]. by rewrite IH.
Qed.

Lemma lsafestrcpy_loop_spec n s t :
  (n < length s)%nat ->
  cstring (lsafestrcpy_loop n s t) = take n (cstring t) /\ length (lsafestrcpy_loop n s t) = length s.
Proof.
  revert s t. induction n as [|n IH]; intros s t H; cbn [lsafestrcpy_loop].
  { destruct s as [|x s]; [cbn in H; lia|]. done. }
  destruct s as [|x s]; [cbn in H; lia|]. cbn in H. destruct t as [|c t]; cbn [head default from_option id tail cstring].
  - cbn. by rewrite length_insert.
  - destruct (Z.eqb_spec c 0) as [->|Hc]; [cbn; by rewrite length_insert|]. cbn [cstring length take].
    rewrite (proj2 (Z.eqb_neq c 0) Hc). destruct (IH s t) as [H1 H2]; [lia|]. by rewrite H1, H2.
Qed.

Lemma fill_de_name de name inum :
  length de = 16%nat ->
  cstring (de_name (fill_de de name inum)) = take 13 (cstring name) /\ length (de_name (fill_de de name inum)) = 14%nat /\
  de_inum (fill_de de name inum) = u16 inum.
Proof.
  intros Hd. assert (length (de_name de) = 14%nat) as Hn.
  { unfold de_name. change (Z.to_nat DIRSIZ) with 14%nat. rewrite length_take, length_drop. lia. }
  destruct (lsafestrcpy_loop_spec 13 (de_name de) name) as [H1 H2]; [lia|].
  change (lsafestrcpy_loop 13 (de_name de) name) with (lsafestrcpy (de_name de) name DIRSIZ) in *.
  set (w := lsafestrcpy (de_name de) name DIRSIZ) in *.
  assert (exists b0 b1, take 2 de = [b0; b1]) as (b0 & b1 & E2).
  { destruct de as [|b0 [|b1 de]]; [done|done|]. by exists b0, b1. }
  assert (fill_de de name inum = u8 inum :: u8 (inum / 256) :: w) as E by (unfold fill_de; by rewrite E2).
  rewrite E. unfold de_name at 1 2. cbn [drop]. change (Z.to_nat DIRSIZ) with 14%nat. rewrite drop_0, take_ge by lia.
  split; [done|]. split; [lia|]. change (u8 inum + 256 * u8 (inum / 256) = u16 inum). ints.
Qed.

(** The entry dirlink writes is found by dirlookup when the name has at most 13
    bytes. A name that fills all DIRSIZ bytes is cut by one: the lookup of that
    name skips its own entry, so that dirlink would add it again. *)
Theorem dirlink_name de name inum :
  length de = Z.to_nat sizeof_dirent -> length name = Z.to_nat DIRSIZ ->
  de_inum (fill_de de name inum) = u16 inum /\
  ((length (cstring name) <= 13)%nat -> lstrncmp (Z.to_nat DIRSIZ) name (de_name (fill_de de name inum)) = 0) /\
  (length (cstring name) = 14%nat -> lstrncmp (Z.to_nat DIRSIZ) name (de_name (fill_de de name inum)) <> 0).
Proof.
  intros Hd Hn. destruct (fill_de_name de name inum Hd) as (H1 & H2 & H3). split; [done|].
  assert (lstrncmp (Z.to_nat DIRSIZ) name (de_name (fill_de de name inum)) = 0 <-> cstring name = take 13 (cstring name)) as Hc.
  { rewrite lstrncmp_spec, !take_ge by (rewrite ?Hn, ?H2; done). by rewrite H1. }
  rewrite Hc. split.
  - intros Hl. by rewrite take_ge.
  - intros Hl E. apply (f_equal length) in E. rewrite length_take in E. lia.
Qed.

(** ** Witnesses *)

(** "/a//bc/d" *)
Definition demo_path : list Z := [47; 97; 47; 47; 98; 99; 47; 100].

Lemma skipelem_correct_witness :
  exists path' name', skipelem demo_path (replicate 14 120) = Some (path', name') /\
    elements demo_path = [[97]; [98; 99]; [100]] /\ cstring name' = [97].
Proof.
  pose proof (skipelem_correct demo_path (replicate 14 120)) as H.
  destruct (skipelem demo_path (replicate 14 120)) as [[path' name']|] eqn:E; [|discriminate E].
  destruct H as (e & He & Hn & _).
  - repeat constructor; discriminate.
  - reflexivity.
  - exists path', name'. split; [reflexivity|]. split; [reflexivity|]. rewrite Hn.
    assert (e = [97]) as ->; [|reflexivity]. change (elements demo_path) with [[97]; [98; 99]; [100]] in He. by injection He as <- _.
Defined.

Lemma dirlink_name_witness :
  lstrncmp 14 (replicate 13 97 ++ [0]) (de_name (fill_de (replicate 16 0) (replicate 13 97 ++ [0]) 5)) = 0 /\
  lstrncmp 14 (replicate 14 97) (de_name (fill_de (replicate 16 0) (replicate 14 97) 5)) <> 0.
Proof.
  split.
  - apply (dirlink_name (replicate 16 0) (replicate 13 97 ++ [0]) 5); [reflexivity|reflexivity|]. vm_compute. lia.
  - apply (dirlink_name (replicate 16 0) (replicate 14 97) 5); reflexivity.
Defined.
