(* ===== verification/Txn.v ===== *)
(** * Blocks inside a transaction

    The file system reads a block with bread, changes its bytes, calls log_write
    and gives the buffer back with brelse, between begin_op and end_op. [txn]
    is what holds between these calls: a block of the transaction is pinned in
    the cache, any other block is the one on the disk. *)

From S2P Require Import Prelude Mem CString State Spinlock Printf Locks PageAlloc Vm Sleep Bio Bytes BlockCache Log LogProps Commit Fs.

(** What no step on blocks changes. *)
Record still (s s' : kernel) : Prop := {
  sl_locks : k_locks s' = k_locks s;
  sl_panic : k_panicked s' = k_panicked s /\ k_panicking s' = k_panicking s;
  sl_rest : rest s' = rest s
}.

#[export] Instance still_preorder : PreOrder still.
Proof.
  split; [by split|]. intros s1 s2 s3 [H1 [H2 H3] H4] [H5 [H6 H7] H8].
  split; [congruence|split; congruence|congruence].
Qed.

Lemma still_calm s s' : calm s s' -> still s s'.
Proof. by intros []. Qed.
#[export] Hint Resolve still_calm : core.

Lemma still_sb s s' : still s s' -> k_sb s' = k_sb s.
Proof. intros [_ _ H]. by injection H. Qed.
Lemma still_itable s s' : still s s' -> k_itable s' = k_itable s.
Proof. intros [_ _ H]. by injection H. Qed.
Lemma still_mem s s' : still s s' -> k_mem s' = k_mem s.
Proof. intros [_ _ H]. by injection H. Qed.
Lemma still_ftable s s' : still s s' -> k_ftable s' = k_ftable s.
Proof. intros [_ _ H]. by injection H. Qed.

Lemma still_free l s s' : still s s' -> lock_free l s -> lock_free l s'.
Proof. intros [H _ _] [nm E]. exists nm. by rewrite H. Qed.

Section Txn.
Context {virtio_disk_rw : nat -> Z -> KM unit} {dev_ok : BlockDevice virtio_disk_rw}.
Context (me : nat) (p : PCB) (dev : Z).
Abbreviation inv := (inv me p dev).
Abbreviation view := (view dev).
Abbreviation refs := (refs dev).

(** The process holds the buffers [H] and may call bread and log_write [n]
    times; the log has room for [k] more blocks. With [k] 0 the process only
    reads, and need not be in a transaction. *)
Record txn (n k : nat) (H : gmap nat Z) (s : kernel) : Prop := {
  tx_inv : inv n H s;
  tx_wf : log_wf (k_log s);
  tx_room : lh_n (k_log s) + Z.of_nat k <= 90;
  tx_open : (0 < k)%nat -> 1 <= log_outstanding (k_log s);
  tx_lock : lock_free L_log s;
  tx_pinned : forall m, m ∈ logged (k_log s) -> 1 <= refs s m /\ forall i, H !! i = Some m -> 2 <= refs s m;
  tx_clean : forall m, m ∉ logged (k_log s) -> view s m = disk_block s m
}.

Lemma cache_weaken n n' H s : (n' <= n)%nat -> inv n H s -> inv n' H s.
Proof.
  intros Hn [He [c1 c2 c3 c4 c5 c6 c7 c8]]. split; [done|]. split; try done.
  - intros j bj Hj. destruct (c5 j bj Hj). lia.
  - lia.
Qed.

Lemma txn_weaken n n' k k' H s : (n' <= n)%nat -> (k' <= k)%nat -> txn n k H s -> txn n' k' H s.
Proof. intros Hn Hk [T1 T2 T3 T4 T5 T6 T7]. split; try done; [by eapply cache_weaken|lia|intros; apply T4; lia]. Qed.

Lemma txn_emit n k H out s : txn n k H s -> txn n k H (emit out (settle s)).
Proof. intros [T1 T2 T3 T4 T5 T6 T7]. split; try done. by apply inv_emit. Qed.

Lemma still_emit out s : still s (emit out (settle s)).
Proof. split; [done|done|exact (rest_settle s)]. Qed.

Lemma txn_can_print n k H s :
  txn n k H s -> k_panicked s = 0 -> k_panicking s = 0 -> lock_free L_pr s -> can_print s.
Proof.
  intros T H1 H2 H3. destruct (ca_hart _ _ _ (ce_caller _ _ _ (inv_env _ _ _ _ _ _ (tx_inv _ _ _ _ T)))) as [Hh Hn].
  do 4 (split; [done|]). lia.
Qed.

Lemma txn_calm n k H H' n' s s' :
  txn n k H s -> inv n' H' s' -> calm s s' -> k_disk s' = k_disk s -> (forall m, view s' m = view s m) ->
  (forall m, m ∈ logged (k_log s) -> 1 <= refs s' m /\ forall i, H' !! i = Some m -> 2 <= refs s' m) ->
  txn n' k H' s'.
Proof.
  intros [T1 T2 T3 T4 T5 T6 T7] Hi C D V R. pose proof (cm_log _ _ C) as L. split; rewrite ?L; try done.
  - by apply (still_free L_log s); [apply still_calm|].
  - intros m Hm. rewrite V, T7 by done. unfold disk_block. by rewrite D.
Qed.

Lemma txn_bread n k H bn s :
  txn (S n) k H s -> 0 <= bn < 2 ^ 31 -> (forall i m, H !! i = Some m -> m <> bn) ->
  exists i s', bread virtio_disk_rw dev bn s = Ok i s' /\ H !! i = None /\ txn n k (<[i := bn]> H) s' /\
    still s s' /\ (forall m, view s' m = view s m) /\ k_log s' = k_log s.
Proof.
  intros T Hb Hne.
  destruct (bread_ok me p dev n H bn s (tx_inv _ _ _ _ T)) as (i & s' & E & Hi & Hs & C & D & V & P & R & F).
  { by rewrite u32_small by lia. } { by apply u32_below. }
  rewrite (u32_small bn) in * by lia. exists i, s'. split; [done|]. split; [done|]. split; [|split; [eauto|split; [done|apply C]]].
  apply (txn_calm (S n) k H _ _ s); [done..|]. intros m Hm. destruct (tx_pinned _ _ _ _ T m Hm) as [T1 T2].
  destruct (decide (m = bn)) as [->|Hmb].
  - assert (refs s' bn = refs s bn + 2) as -> by (apply R, refs_cached; lia). split; [lia|]. intros; lia.
  - rewrite F by done. split; [done|]. intros j Hj. destruct (decide (j = i)) as [->|].
    + rewrite lookup_insert_eq in Hj. congruence.
    + rewrite lookup_insert_ne in Hj by done. eauto.
Qed.

Lemma held_inj n k H i j m s : txn n k H s -> H !! i = Some m -> H !! j = Some m -> i = j.
Proof.
  intros T Hi Hj. destruct (tx_inv _ _ _ _ T) as [_ Hc].
  destruct (ca_held _ _ _ _ _ _ Hc i m Hi) as (b1 & E1 & O1 & _). destruct (ca_held _ _ _ _ _ _ Hc j m Hj) as (b2 & E2 & O2 & _).
  by eapply (ca_unique _ _ _ _ _ _ Hc).
Qed.

Lemma txn_brelse n k H i m s :
  txn n k H s -> H !! i = Some m ->
  exists s', brelse i s = Ok tt s' /\ txn n k (delete i H) s' /\ still s s' /\
    (forall m', view s' m' = view s m') /\ k_log s' = k_log s.
Proof.
  intros T Hi.
  destruct (brelse_ok me p dev n H i m s (tx_inv _ _ _ _ T) Hi) as (s' & E & Hs & C & D & V & R & F & _).
  { destruct (decide (m ∈ logged (k_log s))) as [Hm|Hm].
    - left. destruct (tx_pinned _ _ _ _ T m Hm) as [_ H2]. eauto.
    - right. by apply (tx_clean _ _ _ _ T). }
  exists s'. split; [done|]. split; [|split; [eauto|split; [done|apply C]]].
  apply (txn_calm n k H _ _ s); [done..|]. intros m' Hm'. destruct (tx_pinned _ _ _ _ T m' Hm') as [T1 T2].
  destruct (decide (m' = m)) as [->|Hne].
  - rewrite R. pose proof (T2 i Hi). split; [lia|]. intros j Hj. apply lookup_delete_Some in Hj as [Hij Hj].
    exfalso. apply Hij. by eapply held_inj.
  - rewrite F by done. split; [done|]. intros j Hj. apply lookup_delete_Some in Hj as [_ Hj]. eauto.
Qed.

Lemma log_write_inv n k H i m s :
  inv (S n) H s -> log_wf (k_log s) -> lh_n (k_log s) + Z.of_nat (S k) <= 90 -> 1 <= log_outstanding (k_log s) ->
  lock_free L_log s -> H !! i = Some m -> 0 <= m < 2 ^ 31 ->
  exists s', log_write i s = Ok tt s' /\ inv n H s' /\ still s s' /\ k_disk s' = k_disk s /\
    k_log s' = log_added m (k_log s) /\ (forall m', view s' m' = view s m') /\
    (forall m', refs s' m' = refs s m' + if decide (m' = m /\ m ∉ logged (k_log s)) then 1 else 0).
Proof.
  intros Hs Hw Hk Ho Hl Hi Hm. destruct (held_view _ _ _ _ _ _ _ _ Hs Hi) as (b & Hb & _ & Hbn & _).
  pose proof (inv_env _ _ _ _ _ _ Hs) as [C [l B] _].
  pose proof (log_write_ok i b s (ca_hart _ _ _ C) Hl (bio_lock _ _ B) Hb) as E. rewrite Hbn in E.
  specialize (E Hm Hw ltac:(lia) Ho). eexists. split; [exact E|]. clear E. destruct (decide (m ∈ logged (k_log s))) as [Hd|Hd].
  - assert (inv n H (settle s)) as Hs'.
    { apply (cache_weaken (S n) n); [lia|]. split; [by apply cenv_settle, Hs|apply Hs]. }
    split; [by apply inv_upd_log|]. split; [split; [done..|exact (rest_settle s)]|].
    do 3 (split; [done|]). intros m'. rewrite decide_False by tauto. rewrite Z.add_0_r. done.
  - destruct (bpin_ok me p dev n H i m s Hs Hi) as (s' & E & Hs' & Cm & D & V & R & F).
    assert (s' = upd_buf i pin (settle s)) as ->.
    { assert (Ok tt s' = Ok tt (upd_buf i pin (settle s))) as Eq; [|by injection Eq].
      rewrite <- E. unfold bpin. apply section_ok; [done|apply (bio_lock _ _ B)|apply (ca_hart _ _ _ C)]. }
    split; [by apply inv_upd_log|]. split; [split; [done..|exact (rest_settle s)]|]. split; [done|]. split; [done|].
    split; [exact V|]. intros m'. destruct (decide (m' = m /\ _)) as [[-> _]|Hn]; [exact R|].
    rewrite Z.add_0_r. apply F. intros ->. apply Hn. done.
Qed.

Lemma elem_log_added l m m' :
  log_wf l -> lh_n l < 90 -> m' ∈ logged (log_added m l) <-> m' = m \/ m' ∈ logged l.
Proof.
  intros Hw Hn. destruct (decide (m ∈ logged l)) as [Hd|Hd].
  - unfold log_added. rewrite decide_True by done. naive_solver.
  - rewrite logged_added by done. rewrite elem_of_app, list_elem_of_singleton. naive_solver.
Qed.

(** New contents for the block in hand, and log_write. *)
Lemma txn_write n k H i m f s :
  txn (S n) (S k) H s -> H !! i = Some m -> 0 <= m < 2 ^ 31 -> length (f (view s m)) = 1024%nat ->
  exists s', (forall A (c : KM A), (do! set_data i f; do! log_write i; c) s = c s') /\ txn n k H s' /\ still s s' /\
    (forall m', view s' m' = set_view (view s) m (f (view s m)) m') /\ m ∈ logged (k_log s').
Proof.
  intros T Hi Hm Hlen. pose proof (tx_inv _ _ _ _ T) as Hs.
  destruct (bset_ok me p dev (S n) H i m (f (view s m)) s Hs Hi Hlen) as (Hs1 & C1 & D1 & V1 & R1).
  assert (modify (upd_buf i (fun x => buf_data (f (b_data x)) x)) s = Ok tt (upd_buf i (buf_data (f (view s m))) s)) as E1.
  { unfold modify. f_equal. eapply upd_data_ext; [done..|]. intros b Hb. by rewrite Hb. }
  set (s1 := upd_buf i (buf_data (f (view s m))) s) in *.
  destruct (log_write_inv n k H i m s1) as (s2 & E2 & Hs2 & C2 & D2 & L2 & V2 & R2); try done;
    [apply T|apply (tx_room _ _ _ _ T)|apply (tx_open _ _ _ _ T); lia|exact (tx_lock _ _ _ _ T)|].
  change (k_log s1) with (k_log s) in *. exists s2. pose proof (tx_room _ _ _ _ T). pose proof (tx_wf _ _ _ _ T) as Hw.
  split; [intros A c; unfold set_data; mstep E1; by mstep E2|].
  assert (forall m', view s2 m' = set_view (view s) m (f (view s m)) m') as V by (intros m'; by rewrite V2, V1).
  split; [|split; [transitivity s1; [eauto|done]|split; [done|]]].
  - split; rewrite ?L2; try done.
    + apply log_added_wf; [done|lia|done].
    + unfold log_added. destruct (decide (m ∈ logged (k_log s))); cbn [lh_n with_n with_block]; lia.
    + intros _. unfold log_added. pose proof (tx_open _ _ _ _ T ltac:(lia)). by destruct (decide (m ∈ logged (k_log s))).
    + apply (still_free _ s1); [done|exact (tx_lock _ _ _ _ T)].
    + intros m' Hm'. rewrite elem_log_added in Hm' by (done || lia). rewrite R2, R1.
      destruct (decide (m' ∈ logged (k_log s))) as [Hd|Hd].
      * destruct (tx_pinned _ _ _ _ T m' Hd) as [P1 P2]. destruct (decide (m' = m /\ _)); split; try lia; intros j Hj; specialize (P2 j Hj); lia.
      * destruct Hm' as [->|?]; [|done]. rewrite decide_True by done.
        destruct (held_core me p dev _ H i m s Hs Hi) as (b & Eb & _ & Hr).
        assert (refs s m = b_refcnt b) as Er.
        { destruct Hs as [_ Hc]. destruct (ca_held _ _ _ _ _ _ Hc i m Hi) as (b' & Eb' & Ob & _). simplify_eq.
          by apply (refs_at dev _ i); [apply Hc| |]. }
        split; intros; lia.
    + intros m' Hm'. rewrite elem_log_added in Hm' by (done || lia). rewrite V. unfold set_view, disk_block.
      rewrite D2, D1. rewrite (proj2 (Z.eqb_neq m' m)) by tauto. apply (tx_clean _ _ _ _ T). tauto.
  - rewrite L2. rewrite elem_log_added by (done || lia). by left.
Qed.

(** Changes to the rest of the kernel's data. *)
Lemma inv_frame n H s s' :
  inv n H s -> k_hart s' = k_hart s \/ k_hart s' = hart_settle (k_hart s) -> k_locks s' = k_locks s ->
  k_procs s' = k_procs s -> k_bcache s' = k_bcache s -> k_disk s' = k_disk s -> k_vdisk s' = k_vdisk s -> inv n H s'.
Proof.
  intros [[[C1 C2 C3 [C4 C5]] [l B] R] Hc] Hh Hl Hp Hb Hd Hvd. split; [|by rewrite Hb, Hd].
  assert (forall l, lock_free l s -> lock_free l s') as Hf by (intros l' [nm E]; exists nm; by rewrite Hl).
  split.
  - split; [|unfold me_of|by rewrite Hp|split; [by rewrite Hp|eauto]].
    + destruct Hh as [->| ->]; [done|]. by apply (settle_roomy s).
    + destruct Hh as [->| ->]; [done|]. by rewrite hart_settle_proc.
  - exists l. by apply (bio_ok_same l s); rewrite ?Hb; [|apply (bio_ring _ _ B)|apply (bio_len _ _ B)|].
  - apply (bd_stable s); [by rewrite Hl|done..].
Qed.

Lemma txn_frame n k H s s' :
  txn n k H s -> k_hart s' = k_hart s \/ k_hart s' = hart_settle (k_hart s) -> k_locks s' = k_locks s ->
  k_procs s' = k_procs s -> k_bcache s' = k_bcache s -> k_disk s' = k_disk s -> k_vdisk s' = k_vdisk s ->
  k_log s' = k_log s -> txn n k H s'.
Proof.
  intros [T1 T2 T3 T4 T5 T6 T7] Hh Hl Hp Hb Hd Hvd Hg. split; rewrite ?Hg; try done.
  - by apply (inv_frame _ _ s).
  - destruct T5 as [nm E]. exists nm. by rewrite Hl.
  - intros m Hm. unfold BlockCache.refs. rewrite Hb. by apply T6.
  - intros m Hm. unfold BlockCache.view, disk_block. rewrite Hb, Hd. by apply T7.
Qed.

Lemma txn_wake n k H ch s : txn n k H s -> txn n k H (set_procs (wake_range ch (Some me) 0 64 (k_procs s)) s).
Proof. intros [T1 T2 T3 T4 T5 T6 T7]. split; try done. destruct T1 as [He Hc]. split; [by apply cenv_wake|done]. Qed.

Lemma txn_caller n k H s : txn n k H s -> caller me p s.
Proof. intros T. apply T. Qed.

End Txn.

(** Blocks before and after, for a routine that changes one. *)
#[export] Hint Resolve still_emit : core.
