(* ===== verification/EndOp.v ===== *)
(** * The end of a transaction (end_op, kernel/disk/log.c)

    The last system call of a group commits the group's blocks, outside the log's
    lock but with [committing] set; any other only gives its reservation back. *)

From S2P Require Import Prelude Mem CString State Spinlock Printf Locks Sleep Critical Bio Bytes BlockCache Log LogProps Commit LogWitness Fs Txn.

Section EndOp.
Context {virtio_disk_rw : nat -> Z -> KM unit} {dev_ok : BlockDevice virtio_disk_rw}.
Context (me : nat) (p : PCB) (dev : Z).
Abbreviation inv := (inv me p dev).
Abbreviation txn := (txn me p dev).
Abbreviation view := (view dev).
Abbreviation end_op := (end_op virtio_disk_rw).

Lemma inv_wake n H ch s : inv n H s -> inv n H (wake_all ch me s).
Proof.
  intros [[C [l B] R] Hc]. split; [|exact Hc]. split.
  - by apply caller_wake.
  - exists l. by apply (bio_ok_same l s); [|apply (bio_ring _ _ B)|apply (bio_len _ _ B)|].
  - by apply (bd_stable s).
Qed.

Lemma inv_settle n H s : inv n H s -> inv n H (settle s).
Proof. intros Hs. apply (inv_frame me p dev n H s); (done || by right). Qed.

(** A critical section of end_op that changes the log and wakes the processes
    that wait for it. *)
Lemma log_section f s :
  caller me p s -> lock_free L_log s ->
  (do! modify (upd_log f); do! wakeup Ch_log; release L_log) (locked L_log s) =
    Ok tt (settle (wake_all Ch_log me (upd_log f s))).
Proof.
  intros C Hl. pose proof (ca_hart _ _ _ C) as [Hh _].
  assert (caller me p (upd_log f s)) as C' by (destruct C; by split).
  rewrite (bind_ok _ _ _ _ _ (modify_locked L_log (upd_log f) s ltac:(by split))).
  rewrite (bind_ok _ _ _ _ _ (wakeup_locked Ch_log L_log me p _ C' ltac:(done))).
  rewrite private_locked by done. by apply release_locked.
Qed.

Definition op_ended (s : kernel) : kernel :=
  upd_log (fun l => with_outstanding (log_outstanding l - 1) l) s.

Lemma op_ended_locked s :
  1 <= log_outstanding (k_log s) < 2 ^ 31 ->
  modify (upd_log (fun l => with_outstanding (s32 (log_outstanding l - 1)) l)) (locked L_log s) =
    Ok tt (locked L_log (op_ended s)).
Proof.
  intros Ho. rewrite modify_locked by by split. unfold op_ended, upd_log. by rewrite s32_small by lia.
Qed.

Lemma end_op_more s :
  caller me p s -> lock_free L_log s -> 2 <= log_outstanding (k_log s) < 2 ^ 31 -> log_committing (k_log s) = 0 ->
  end_op s = Ok tt (settle (wake_all Ch_log me (op_ended s))).
Proof.
  intros C Hl Ho Hc. pose proof (ca_hart _ _ _ C) as [Hh _].
  assert (caller me p (op_ended s)) as C' by (destruct C; by split).
  unfold Log.end_op. rewrite (bind_ok _ _ _ _ _ (acquire_ok L_log s Hl Hh)).
  rewrite (bind_ok _ _ _ _ _ (op_ended_locked s ltac:(lia))).
  unfold bind at 1, get at 1. change (k_log (locked L_log (op_ended s))) with (with_outstanding (log_outstanding (k_log s) - 1) (k_log s)).
  cbn [with_outstanding log_committing log_outstanding]. rewrite Hc. cbn [truthy Z.eqb negb].
  rewrite (proj2 (Z.eqb_neq (log_outstanding (k_log s) - 1) 0)) by lia.
  rewrite (bind_ok _ _ _ _ _ (wakeup_locked Ch_log L_log me p _ C' ltac:(done))).
  rewrite private_locked by done. by rewrite (bind_ok _ _ _ _ _ (release_locked L_log (wake_all Ch_log me (op_ended s)) Hl Hh)).
Qed.

(** The state commit runs in. *)
Definition closing (s : kernel) : kernel := settle (upd_log (with_committing 1) (op_ended s)).

Lemma end_op_last s s' :
  caller me p s -> lock_free L_log s -> log_outstanding (k_log s) = 1 -> log_committing (k_log s) = 0 ->
  commit virtio_disk_rw (closing s) = Ok tt s' -> caller me p s' -> lock_free L_log s' ->
  end_op s = Ok tt (settle (wake_all Ch_log me (upd_log (with_committing 0) s'))).
Proof.
  intros C Hl Ho Hc E C' Hl'. pose proof (ca_hart _ _ _ C) as [Hh _]. pose proof (ca_hart _ _ _ C') as [Hh' _].
  unfold Log.end_op. rewrite (bind_ok _ _ _ _ _ (acquire_ok L_log s Hl Hh)).
  rewrite (bind_ok _ _ _ _ _ (op_ended_locked s ltac:(lia))).
  unfold bind at 1, get at 1. change (k_log (locked L_log (op_ended s))) with (with_outstanding (log_outstanding (k_log s) - 1) (k_log s)).
  cbn [with_outstanding log_committing log_outstanding]. rewrite Hc, Ho. change (1 - 1 =? 0) with true. cbn [truthy Z.eqb negb].
  rewrite (bind_ok _ _ _ _ _ (modify_locked L_log (upd_log (with_committing 1)) (op_ended s) ltac:(by split))).
  rewrite (bind_ok _ _ _ _ _ (release_locked L_log (upd_log (with_committing 1) (op_ended s)) Hl Hh)).
  fold (closing s). rewrite (bind_ok _ _ _ _ _ E). rewrite (bind_ok _ _ _ _ _ (acquire_ok L_log s' Hl' Hh')).
  by apply log_section.
Qed.

(** The log area is apart from the blocks of the transaction. *)
Definition log_area (l : log_t) : Prop :=
  log_dev l = dev /\ 0 <= log_start l /\ log_start l + lh_n l + 1 < 2 ^ 31 /\
  forall m, m ∈ logged l -> m < log_start l \/ log_start l + lh_n l < m.

Lemma length_logged l : log_wf l -> Z.of_nat (length (logged l)) = lh_n l.
Proof. intros [H1 H2 _]. unfold logged. rewrite length_take, H2. lia. Qed.

Lemma txn_ok_logged l : log_wf l -> log_area l -> txn_ok dev l (logged l).
Proof.
  intros W (A1 & A2 & A3 & A4). pose proof (length_logged l W) as Hl. split; [done|lia| |lia|].
  - intros t m Hm. unfold logged in Hm. by apply lookup_take_Some in Hm as [Hm _].
  - intros m Hm. split; [|specialize (A4 m Hm); lia]. destruct W as [_ _ W]. rewrite Forall_forall in W.
    apply W. unfold logged in Hm. apply elem_of_take in Hm as (t & Hm & _). by apply list_elem_of_lookup_2 in Hm.
Qed.

(** commit, whether or not the transaction has blocks. *)
Lemma commit_any n s :
  inv (4 * length (logged (k_log s)) + 2 + n) ∅ s -> log_wf (k_log s) -> log_area (k_log s) ->
  (forall m, m ∈ logged (k_log s) -> 1 <= refs dev s m) ->
  exists s', commit virtio_disk_rw s = Ok tt s' /\ inv n ∅ s' /\ k_log s' = with_n 0 (k_log s) /\ k_locks s' = k_locks s /\
    (forall m, m ∈ logged (k_log s) -> disk_block s' m = view s m) /\
    (forall m, outside (k_log s) (logged (k_log s)) m -> m ∉ logged (k_log s) -> disk_block s' m = disk_block s m) /\
    (forall m, outside (k_log s) (logged (k_log s)) m -> view s' m = view s m).
Proof.
  intros Hs W A Hr. destruct (decide (logged (k_log s) = [])) as [Hz|Hne].
  - assert (lh_n (k_log s) = 0) as Hn by (rewrite <- (length_logged _ W), Hz; done).
    exists s. unfold commit, bind, get. rewrite Hn, Hz. split; [done|]. split; [by apply (cache_weaken me p dev _ n) in Hs; [|lia]|].
    split; [destruct (k_log s); cbn in *; by subst|]. split; [done|]. split; [|done]. intros m Hm. by apply elem_of_nil in Hm.
  - destruct (commit_ok me p dev n (k_log s) (logged (k_log s)) s (txn_ok_logged _ W A) Hne Hs eq_refl Hr)
      as (s' & E & Hs' & L & Lk & H1 & H2 & H3 & _). by exists s'.
Qed.

Lemma op_ended_txn n k s :
  txn n k ∅ s -> 2 <= log_outstanding (k_log s) -> txn n k ∅ (settle (wake_all Ch_log me (op_ended s))).
Proof.
  intros [T1 T2 T3 T4 T5 T6 T7] Ho. split; try done.
  - by apply inv_settle, inv_wake, inv_upd_log.
  - by destruct T2; split.
  - intros _. change (1 <= log_outstanding (k_log s) - 1). lia.
Qed.

Lemma end_op_commits n k s :
  txn (4 * length (logged (k_log s)) + 2 + n) k ∅ s -> log_area (k_log s) ->
  log_outstanding (k_log s) = 1 -> log_committing (k_log s) = 0 ->
  exists s', end_op s = Ok tt s' /\ inv n ∅ s' /\ lock_free L_log s' /\
    lh_n (k_log s') = 0 /\ log_outstanding (k_log s') = 0 /\ log_committing (k_log s') = 0 /\
    (forall m, m ∈ logged (k_log s) -> disk_block s' m = view s m) /\
    (forall m, outside (k_log s) (logged (k_log s)) m -> m ∉ logged (k_log s) -> disk_block s' m = disk_block s m) /\
    (forall m, outside (k_log s) (logged (k_log s)) m -> view s' m = view s m).
Proof.
  intros [T1 T2 T3 T4 T5 T6 T7] A Ho Hc.
  destruct (commit_any n (closing s)) as (s' & E & Hs' & L & Lk & H1 & H2 & H3).
  - by apply inv_settle, inv_upd_log, inv_upd_log.
  - by destruct T2; split.
  - done.
  - intros m Hm. by apply T6.
  - assert (lock_free L_log s') as Hl' by (destruct T5 as [nm El]; exists nm; by rewrite Lk).
    exists (settle (wake_all Ch_log me (upd_log (with_committing 0) s'))). split; [|split; [|split; [exact Hl'|]]].
    + apply (end_op_last s s'); try done; [apply (inv_env _ _ _ _ _ _ T1)|apply (inv_env _ _ _ _ _ _ Hs')].
    + by apply inv_settle, inv_wake, inv_upd_log.
    + change (k_log (settle (wake_all Ch_log me (upd_log (with_committing 0) s')))) with (with_committing 0 (k_log s')).
      rewrite L. cbn. rewrite Ho. done.
Qed.

(** C13: end_op. When other system calls are still in the transaction, it gives the
    reservation back, wakes the processes that wait for space and touches neither the
    disk nor the transaction. The last one commits: every block of the transaction
    is on the disk with the contents the system calls left in the cache, no other
    block outside the log area changes, and the log is empty and open again. *)
Theorem end_op_correct n k s :
  txn (4 * length (logged (k_log s)) + 2 + n) k ∅ s -> log_area (k_log s) ->
  1 <= log_outstanding (k_log s) < 2 ^ 31 -> log_committing (k_log s) = 0 ->
  exists s', end_op s = Ok tt s' /\ lock_free L_log s' /\
    log_outstanding (k_log s') = log_outstanding (k_log s) - 1 /\ log_committing (k_log s') = 0 /\
    (forall m, outside (k_log s) (logged (k_log s)) m -> view s' m = view s m) /\
    if decide (log_outstanding (k_log s) = 1) then
      inv n ∅ s' /\ lh_n (k_log s') = 0 /\
      (forall m, m ∈ logged (k_log s) -> disk_block s' m = view s m) /\
      (forall m, outside (k_log s) (logged (k_log s)) m -> m ∉ logged (k_log s) -> disk_block s' m = disk_block s m)
    else
      txn (4 * length (logged (k_log s)) + 2 + n) k ∅ s' /\ logged (k_log s') = logged (k_log s) /\ k_disk s' = k_disk s /\
      (forall j q, k_procs s !! j = Some q -> j <> me -> p_state q = SLEEPING -> p_chan q = Some Ch_log ->
         exists q', k_procs s' !! j = Some q' /\ p_state q' = RUNNABLE).
Proof.
  intros T A Ho Hc. destruct (decide (log_outstanding (k_log s) = 1)) as [H1|Hne].
  - destruct (end_op_commits n k s T A H1 Hc) as (s' & E & I & L & N & O & M & D1 & D2 & V). exists s'.
    rewrite H1. split; [exact E|]. split; [exact L|]. split; [exact O|]. split; [exact M|]. split; [exact V|]. by split.
  - eexists. split; [apply end_op_more; try done; [apply (inv_env _ _ _ _ _ _ (tx_inv _ _ _ _ _ _ _ T))|apply T|lia]|].
    split; [apply T|]. split; [done|]. split; [done|]. split; [done|].
    split; [apply op_ended_txn; [done|lia]|]. split; [done|]. split; [done|]. intros j q Hj Hm Hs Hch.
    exists (with_state RUNNABLE q). split; [|done].
    change (wake_range Ch_log (Some me) 0 64 (k_procs s) !! j = Some (with_state RUNNABLE q)). rewrite lookup_wake_range, Hj.
    pose proof (ca_procs _ _ _ (ce_caller _ _ _ (inv_env _ _ _ _ _ _ (tx_inv _ _ _ _ _ _ _ T)))) as [Hlen _].
    apply lookup_lt_Some in Hj. rewrite decide_True by lia. cbn. unfold wake1, wakes.
    rewrite decide_False by congruence. by rewrite Hs, Hch, !bool_decide_true.
Qed.

End EndOp.

(** ** At the transaction of one block *)

#[local] Opaque staged fresh_cache.

Lemma staged_log_free : lock_free L_log staged.
Proof. apply (locks_free_b [L_log]); [vm_compute; reflexivity|left]. Qed.

Lemma staged_in_txn n : (n <= 80)%nat -> txn 0 first_process 1 n 0 ∅ staged.
Proof.
  intros Hn. destruct (staged_ok n Hn) as (I & L & V & R & C & D). split.
  - exact I.
  - rewrite L. split; [cbn; lia|reflexivity|]. constructor; [lia|]. apply Forall_replicate. lia.
  - rewrite L. cbn. lia.
  - lia.
  - apply staged_log_free.
  - rewrite L. intros m Hm. apply list_elem_of_singleton in Hm as ->. split; [exact R|].
    intros i Hi. rewrite lookup_empty in Hi. discriminate Hi.
  - rewrite L. intros m Hm. apply C. intros ->. apply Hm. left.
Qed.

Lemma end_op_correct_witness :
  exists s', end_op ideal_rw staged = Ok tt s' /\ disk_block s' 40 = replicate 1024 9 /\ lh_n (k_log s') = 0.
Proof.
  destruct (staged_ok 0 ltac:(lia)) as (_ & L & V & _).
  destruct (end_op_correct 0 first_process 1 0 0 staged) as (s' & E & _ & _ & _ & _ & H).
  - apply staged_in_txn. rewrite L. vm_compute. lia.
  - rewrite L. split; [done|]. split; [cbn; lia|]. split; [cbn; lia|]. intros m Hm. apply list_elem_of_singleton in Hm as ->. cbn. lia.
  - rewrite L. cbn. lia.
  - rewrite L. reflexivity.
  - exists s'. split; [exact E|]. rewrite L in H. rewrite decide_True in H by reflexivity. destruct H as (_ & N & H & _).
    split; [rewrite H; [exact V|left]|exact N].
Defined.
