(* ===== verification/Bitmap.v ===== *)
(** * balloc and bfree (kernel/disk/fs.c): the bitmap of the disk's blocks

    Bit [b] of the bitmap says whether block [b] is in use. In terms of the
    contents of blocks, balloc takes the first block that is not, and clears it;
    bfree gives a block back. *)

From S2P Require Import Prelude Mem CString State Spinlock Printf Locks PageAlloc Vm Sleep Bio Bytes BlockCache Log LogProps Commit Fs Txn.

(** ** Bits *)

Lemma mask_bit bi j : 0 <= bi -> 0 <= j -> Z.testbit (bit_mask bi) j = (j =? bi mod 8).
Proof.
  intros Hb Hj. unfold bit_mask. rewrite Z.rem_mod_nonneg by lia.
  rewrite Z.shiftl_1_l, Z.pow2_bits_eqb by (apply Z.mod_pos_bound; lia). apply Z.eqb_sym.
Qed.

Lemma mask_clear x bi : 0 <= bi -> (Z.land x (bit_mask bi) =? 0) = negb (Z.testbit x (bi mod 8)).
Proof.
  intros Hb. assert (0 <= bi mod 8) by (apply Z.mod_pos_bound; lia). destruct (Z.testbit x (bi mod 8)) eqn:E.
  - apply Z.eqb_neq. intros Hz. assert (Z.testbit (Z.land x (bit_mask bi)) (bi mod 8) = true) as Ht.
    { rewrite Z.land_spec, E, mask_bit, Z.eqb_refl by done. done. }
    by rewrite Hz, Z.bits_0 in Ht.
  - apply Z.eqb_eq, Z.bits_inj'. intros j Hj. rewrite Z.land_spec, mask_bit, Z.bits_0 by done.
    destruct (Z.eqb_spec j (bi mod 8)) as [->|]; [by rewrite E|by rewrite andb_false_r].
Qed.

(** Bit [bi] of a bitmap block. *)
Definition bit (d : list Z) (bi : Z) : bool := Z.testbit (byte_at d (bi / 8)) (bi mod 8).

Definition with_bit (bi : Z) (d : list Z) : list Z :=
  put8 d (Z.quot bi 8) (Z.lor (byte_at d (Z.quot bi 8)) (bit_mask bi)).
Definition without_bit (bi : Z) (d : list Z) : list Z :=
  put8 d (Z.quot bi 8) (Z.land (byte_at d (Z.quot bi 8)) (Z.lnot (bit_mask bi))).

Lemma bit_with bi j d :
  0 <= bi < BPB -> 0 <= j < BPB -> length d = 1024%nat -> bit (with_bit bi d) j = (j =? bi) || bit d j.
Proof.
  unfold BPB, BSIZE. intros Hb Hj Hd. unfold bit, with_bit. rewrite Z.quot_div_nonneg by lia.
  rewrite byte_at_put8 by zdm. destruct (Z.eqb_spec (j / 8) (bi / 8)) as [E|E].
  - rewrite u8_testbit, Z.lor_spec, mask_bit, orb_comm, E by zdm. f_equal.
    destruct (Z.eqb_spec (j mod 8) (bi mod 8)), (Z.eqb_spec j bi); try done; exfalso; zdm.
  - destruct (Z.eqb_spec j bi) as [->|]; done.
Qed.

Lemma bit_without bi j d :
  0 <= bi < BPB -> 0 <= j < BPB -> length d = 1024%nat -> bit (without_bit bi d) j = negb (j =? bi) && bit d j.
Proof.
  unfold BPB, BSIZE. intros Hb Hj Hd. unfold bit, without_bit. rewrite Z.quot_div_nonneg by lia.
  rewrite byte_at_put8 by zdm. destruct (Z.eqb_spec (j / 8) (bi / 8)) as [E|E].
  - rewrite u8_testbit, Z.land_spec, Z.lnot_spec, mask_bit, andb_comm, E by zdm. do 2 f_equal.
    destruct (Z.eqb_spec (j mod 8) (bi mod 8)), (Z.eqb_spec j bi); try done; exfalso; zdm.
  - destruct (Z.eqb_spec j bi) as [->|]; done.
Qed.

(** The inner loop of balloc finds the first clear bit. *)
Lemma free_bit_spec fuel bi b size d :
  0 <= bi <= BPB -> BPB - bi <= Z.of_nat fuel ->
  match free_bit fuel bi b size d with
  | Some k => bi <= k < BPB /\ b + k < size /\ bit d k = false /\ forall j, bi <= j < k -> bit d j = true
  | None => forall j, bi <= j < BPB -> b + j < size -> bit d j = true
  end.
Proof.
  revert bi. induction fuel as [|fuel IH]; intros bi Hbi Hf; cbn [free_bit].
  { intros j Hj. lia. }
  destruct (Z.ltb_spec bi BPB) as [H1|H1]; cbn [andb]; [|intros j Hj; lia].
  destruct (Z.ltb_spec (b + bi) size) as [H2|H2]; cbn [andb]; [|intros j Hj; lia].
  rewrite mask_clear by lia. rewrite Z.quot_div_nonneg by lia. fold (bit d bi).
  destruct (bit d bi) eqn:E; cbn [negb]; [|repeat split; (done || lia)].
  specialize (IH (bi + 1) ltac:(lia) ltac:(lia)). destruct (free_bit fuel (bi + 1) b size d) as [k|].
  - destruct IH as (G1 & G2 & G3 & G4). repeat split; try (done || lia). intros j Hj.
    destruct (decide (j = bi)) as [->|]; [done|]. apply G4. lia.
  - intros j Hj. destruct (decide (j = bi)) as [->|]; [done|]. apply IH. lia.
Qed.

(** ** The bitmap as a set of blocks in use *)

Definition used (v : Z -> list Z) (sb : superblock) (b : Z) : bool := bit (v (BBLOCK b sb)) (b mod BPB).

(** The superblock of a disk whose bitmap marks its own blocks as used. *)
Record bitmap_ok (v : Z -> list Z) (sb : superblock) : Prop := {
  bo_size : 0 < sb_size sb < 2 ^ 30;
  bo_start : 0 <= sb_bmapstart sb < 2 ^ 30;
  bo_used : forall b, 0 <= b < sb_size sb -> used v sb (BBLOCK b sb) = true;
  bo_inside : forall b, 0 <= b < sb_size sb -> BBLOCK b sb < sb_size sb
}.

Lemma BBLOCK_eq v sb b : bitmap_ok v sb -> 0 <= b < 2 ^ 30 -> BBLOCK b sb = sb_bmapstart sb + b / BPB.
Proof.
  intros [_ H2 _ _] Hb. unfold BBLOCK, BPB, BSIZE in *. rewrite Z.quot_div_nonneg by lia. rewrite u32_small by zdm. lia.
Qed.

Lemma BBLOCK_range v sb b : bitmap_ok v sb -> 0 <= b < 2 ^ 30 -> 0 <= BBLOCK b sb < 2 ^ 31.
Proof.
  intros Hb H. rewrite (BBLOCK_eq v) by done. destruct Hb as [_ H2 _ _]. unfold BPB, BSIZE. zdm.
Qed.

(** Changing one bit of the bitmap. *)
Lemma used_upd v v' sb b d :
  bitmap_ok v sb -> 0 <= b < sb_size sb -> (forall m, v' m = set_view v (BBLOCK b sb) d m) ->
  forall b', 0 <= b' < sb_size sb ->
    used v' sb b' = if b / BPB =? b' / BPB then bit d (b' mod BPB) else used v sb b'.
Proof.
  intros Hb Hr Hv b' Hb'. pose proof (bo_size _ _ Hb). unfold used. rewrite Hv. unfold set_view.
  rewrite !(BBLOCK_eq v sb) by (done || lia).
  destruct (Z.eqb_spec (b / BPB) (b' / BPB)) as [E|E].
  - by rewrite E, Z.eqb_refl.
  - by rewrite (proj2 (Z.eqb_neq _ _)) by lia.
Qed.

Lemma same_bit b b' : b / BPB = b' / BPB -> (b' mod BPB =? b mod BPB) = (b' =? b).
Proof. unfold BPB, BSIZE. intros E. destruct (Z.eqb_spec b' b) as [->|]; [apply Z.eqb_refl|apply Z.eqb_neq; zdm]. Qed.

Lemma used_with v v' sb b :
  bitmap_ok v sb -> 0 <= b < sb_size sb -> length (v (BBLOCK b sb)) = 1024%nat ->
  (forall m, v' m = set_view v (BBLOCK b sb) (with_bit (b mod BPB) (v (BBLOCK b sb))) m) ->
  forall b', 0 <= b' < sb_size sb -> used v' sb b' = (b' =? b) || used v sb b'.
Proof.
  intros Hb Hr Hl Hv b' Hb'. pose proof (bo_size _ _ Hb). rewrite (used_upd v v' sb b _ Hb Hr Hv b' Hb').
  destruct (Z.eqb_spec (b / BPB) (b' / BPB)) as [E|E].
  - rewrite bit_with by (try done; apply Z.mod_pos_bound; done). rewrite same_bit by done. f_equal.
    unfold used. rewrite !(BBLOCK_eq v sb) by (done || lia). by rewrite E.
  - destruct (Z.eqb_spec b' b) as [->|]; done.
Qed.

Lemma used_without v v' sb b :
  bitmap_ok v sb -> 0 <= b < sb_size sb -> length (v (BBLOCK b sb)) = 1024%nat ->
  (forall m, v' m = set_view v (BBLOCK b sb) (without_bit (b mod BPB) (v (BBLOCK b sb))) m) ->
  forall b', 0 <= b' < sb_size sb -> used v' sb b' = negb (b' =? b) && used v sb b'.
Proof.
  intros Hb Hr Hl Hv b' Hb'. pose proof (bo_size _ _ Hb). rewrite (used_upd v v' sb b _ Hb Hr Hv b' Hb').
  destruct (Z.eqb_spec (b / BPB) (b' / BPB)) as [E|E].
  - rewrite bit_without by (try done; apply Z.mod_pos_bound; done). rewrite same_bit by done. f_equal.
    unfold used. rewrite !(BBLOCK_eq v sb) by (done || lia). by rewrite E.
  - destruct (Z.eqb_spec b' b) as [->|]; done.
Qed.

Section Bitmap.
Context {virtio_disk_rw : nat -> Z -> KM unit} {dev_ok : BlockDevice virtio_disk_rw}.
Context (me : nat) (p : PCB) (dev : Z).
Abbreviation txn := (txn me p dev).
Abbreviation view := (view dev).

Definition not_held (H : gmap nat Z) (m : Z) : Prop := forall i m', H !! i = Some m' -> m' <> m.

Lemma txn_length n k H i m s : txn n k H s -> H !! i = Some m -> length (view s m) = 1024%nat.
Proof.
  intros T Hi. destruct (held_view _ _ _ _ _ _ _ _ (tx_inv _ _ _ _ _ _ _ T) Hi) as (_ & _ & _ & _ & Hlen). done.
Qed.

Lemma txn_data n k H i m s : txn n k H s -> H !! i = Some m -> buf_get i b_data s = Ok (view s m) s.
Proof. intros T Hi. apply (read_data me p dev n H); [apply T|done]. Qed.

(** Read, change, log and release one block. *)
Lemma update_ok n k H bn f s :
  txn (S (S n)) (S k) H s -> 0 <= bn < 2 ^ 31 -> not_held H bn ->
  (length (view s bn) = 1024%nat -> length (f (view s bn)) = 1024%nat) ->
  exists i s1 s', bread virtio_disk_rw dev bn s = Ok i s1 /\ buf_get i b_data s1 = Ok (view s bn) s1 /\ still s s1 /\
    (forall A (c : KM A), (do! set_data i f; do! log_write i; do! brelse i; c) s1 = c s') /\
    (do! set_data i f; do! log_write i; brelse i) s1 = Ok tt s' /\
    txn n k H s' /\ still s s' /\ length (view s bn) = 1024%nat /\
    (forall m, view s' m = set_view (view s) bn (f (view s bn)) m).
Proof.
  intros T Hb Hh Hlen.
  destruct (txn_bread me p dev (S n) (S k) H bn s T Hb Hh) as (i & s1 & E1 & Hi & T1 & S1 & V1 & L1).
  pose proof (lookup_insert_eq H i bn) as Hin. pose proof (txn_length _ _ _ _ _ _ T1 Hin) as Hl. rewrite V1 in Hl.
  destruct (txn_write me p dev n k _ i bn f s1 T1 Hin Hb) as (s2 & E2 & T2 & S2 & V2 & _); [rewrite V1; auto|].
  destruct (txn_brelse me p dev n k _ i bn s2 T2 Hin) as (s3 & E3 & T3 & S3 & V3 & _).
  rewrite delete_insert_id in T3 by done. exists i, s1, s3. split; [done|].
  split; [rewrite <- (V1 bn); by eapply txn_data|]. split; [done|].
  split; [intros A c; rewrite E2; by mstep E3|]. split; [by rewrite E2|]. split; [done|].
  split; [do 2 (etransitivity; [eassumption|]); done|]. split; [done|].
  intros m. rewrite V3, V2. unfold set_view. by rewrite !V1.
Qed.

Lemma bzero_ok n k H bn s :
  txn (S (S n)) (S k) H s -> 0 <= bn < 2 ^ 31 -> not_held H bn ->
  exists s', bzero virtio_disk_rw dev bn s = Ok tt s' /\ txn n k H s' /\ still s s' /\
    (forall m, view s' m = set_view (view s) bn (replicate 1024 0) m).
Proof.
  intros T Hb Hh. set (f := fun d : list Z => replicate (Z.to_nat BSIZE) 0 ++ drop (Z.to_nat BSIZE) d).
  assert (forall d : list Z, length d = 1024%nat -> f d = replicate 1024 0) as Hf.
  { intros d Hd. unfold f. change (Z.to_nat BSIZE) with 1024%nat. rewrite drop_ge by lia. apply app_nil_r. }
  destruct (update_ok n k H bn f s T Hb Hh) as (i & s1 & s' & E1 & _ & _ & _ & E & T' & S' & Hl & V).
  { intros Hl. rewrite Hf by done. apply length_replicate. }
  exists s'. split; [unfold bzero; by mstep E1|]. split; [done|]. split; [done|].
  intros m. rewrite V. unfold set_view. by rewrite Hf.
Qed.

(** *** bfree *)

Lemma bfree_ok n k H b s :
  let sb := k_sb s in
  txn (S (S n)) (S k) H s -> bitmap_ok (view s) sb -> 0 <= b < sb_size sb -> not_held H (BBLOCK b sb) ->
  used (view s) sb b = true ->
  exists s', bfree virtio_disk_rw dev b s = Ok tt s' /\ txn n k H s' /\ still s s' /\
    (forall b', 0 <= b' < sb_size sb -> used (view s') sb b' = negb (b' =? b) && used (view s) sb b') /\
    (forall m, m <> BBLOCK b sb -> view s' m = view s m).
Proof.
  intros sb T Hbm Hb Hh Hu. pose proof (bo_size _ _ Hbm).
  destruct (update_ok n k H (BBLOCK b sb) (without_bit (b mod BPB)) s T) as (i & s1 & s' & E1 & Ed & _ & _ & E & T' & S' & Hl & V).
  { apply (BBLOCK_range _ _ _ Hbm). lia. } { done. } { intros Hl. unfold without_bit. by rewrite length_put8. }
  exists s'. split.
  { unfold bfree. unfold bind at 1, get at 1. fold sb. mstep E1. mstep Ed. rewrite Z.rem_mod_nonneg by (unfold BPB, BSIZE; lia).
    assert (0 <= b mod BPB) by (apply Z.mod_pos_bound; done).
    rewrite mask_clear, Z.quot_div_nonneg by lia. fold (bit (view s (BBLOCK b sb)) (b mod BPB)).
    change (bit (view s (BBLOCK b sb)) (b mod BPB)) with (used (view s) sb b). rewrite Hu. cbn [negb].
    rewrite <- Z.quot_div_nonneg by lia. exact E. }
  split; [done|]. split; [done|]. split.
  - by apply used_without.
  - intros m Hm. rewrite V. unfold set_view. by rewrite (proj2 (Z.eqb_neq _ _) Hm).
Qed.

(** *** balloc *)

(** Block [b], the first that was free, is in use and zero; no other block changed
    but the bitmap's. *)
Record allocated (sb : superblock) (b : Z) (s s' : kernel) : Prop := {
  al_range : 0 <= b < sb_size sb;
  al_free : used (view s) sb b = false;
  al_first : forall b', 0 <= b' < b -> used (view s) sb b' = true;
  al_used : forall b', 0 <= b' < sb_size sb -> used (view s') sb b' = (b' =? b) || used (view s) sb b';
  al_zero : view s' b = replicate 1024 0;
  al_other : forall m, m <> b -> m <> BBLOCK b sb -> view s' m = view s m
}.

(** The buffers in hand are of blocks in use that are not part of the bitmap. *)
Definition holds_used (sb : superblock) (H : gmap nat Z) (s : kernel) : Prop :=
  forall i m, H !! i = Some m -> 0 <= m < sb_size sb /\ used (view s) sb m = true /\ forall b, 0 <= b < sb_size sb -> m <> BBLOCK b sb.

Lemma take_block n k H b s :
  let sb := k_sb s in
  txn (4 + n) (S (S k)) H s -> bitmap_ok (view s) sb -> holds_used sb H s -> 0 <= b < sb_size sb ->
  used (view s) sb b = false -> (forall b', 0 <= b' < b -> used (view s) sb b' = true) ->
  exists i s1 s', bread virtio_disk_rw dev (BBLOCK b sb) s = Ok i s1 /\
    buf_get i b_data s1 = Ok (view s (BBLOCK b sb)) s1 /\ k_sb s1 = sb /\
    (do! set_data i (with_bit (b mod BPB)); do! log_write i; do! brelse i; do! bzero virtio_disk_rw dev b; ret b) s1
      = Ok b s' /\ txn n k H s' /\ still s s' /\ allocated sb b s s'.
Proof.
  intros sb T Hbm Hh Hb Hf Hfirst. pose proof (bo_size _ _ Hbm).
  assert (b <> BBLOCK b sb) as Hne by (intros Eb; pose proof (bo_used _ _ Hbm b Hb) as Hu; rewrite <- Eb in Hu; congruence).
  destruct (update_ok (2 + n) (S k) H (BBLOCK b sb) (with_bit (b mod BPB)) s T) as (i & s1 & s2 & E1 & Ed & S1 & E & _ & T2 & S2 & Hl & V2).
  { apply (BBLOCK_range _ _ _ Hbm). lia. } { intros j m Hj. by apply (Hh j m Hj). }
  { intros Hl. unfold with_bit. by rewrite length_put8. }
  destruct (bzero_ok n k H b s2 T2) as (s3 & E3 & T3 & S3 & V3); [lia| |].
  { intros j m Hj ->. destruct (Hh j b Hj) as (_ & Hu & _). congruence. }
  exists i, s1, s3. split; [done|]. split; [done|]. split; [by apply still_sb|]. split; [rewrite E; by mstep E3|].
  split; [done|]. split; [by etransitivity|]. split; try done.
  - intros b' Hb'. rewrite <- (used_with (view s) (view s2) sb b) by done. unfold used. rewrite V3. unfold set_view.
    destruct (Z.eqb_spec (BBLOCK b' sb) b) as [Eb|]; [|done].
    pose proof (bo_used _ _ Hbm b' Hb') as Hu. rewrite Eb in Hu. congruence.
  - rewrite V3. unfold set_view. by rewrite Z.eqb_refl.
  - intros m H1 H2. rewrite V3. unfold set_view. rewrite (proj2 (Z.eqb_neq _ _) H1), V2. unfold set_view.
    by rewrite (proj2 (Z.eqb_neq _ _) H2).
Qed.

(** One block of the bitmap without a free bit. *)
Lemma skip_block n k H b s :
  txn (S n) k H s -> bitmap_ok (view s) (k_sb s) -> 0 <= b < sb_size (k_sb s) ->
  not_held H (BBLOCK b (k_sb s)) ->
  exists i s1 s', bread virtio_disk_rw dev (BBLOCK b (k_sb s)) s = Ok i s1 /\
    buf_get i b_data s1 = Ok (view s (BBLOCK b (k_sb s))) s1 /\ still s s1 /\
    brelse i s1 = Ok tt s' /\ txn n k H s' /\ still s s' /\ (forall m, view s' m = view s m).
Proof.
  intros T Hbm Hb Hh. pose proof (bo_size _ _ Hbm).
  destruct (txn_bread me p dev n k H (BBLOCK b (k_sb s)) s T) as (i & s1 & E1 & Hi & T1 & S1 & V1 & L1); [|done|].
  { apply (BBLOCK_range _ _ _ Hbm). lia. }
  pose proof (lookup_insert_eq H i (BBLOCK b (k_sb s))) as Hin.
  destruct (txn_brelse me p dev n k _ i _ s1 T1 Hin) as (s3 & E3 & T3 & S3 & V3 & _). rewrite delete_insert_id in T3 by done.
  exists i, s1, s3. split; [done|]. split; [rewrite <- V1; by eapply txn_data|]. do 3 (split; [done|]).
  split; [by etransitivity|]. intros m. by rewrite V3.
Qed.

Lemma bit_used v sb j bi :
  bitmap_ok v sb -> 0 <= j -> 0 <= bi < BPB -> BPB * j + bi < sb_size sb ->
  BBLOCK (BPB * j + bi) sb = BBLOCK (BPB * j) sb /\ (BPB * j + bi) mod BPB = bi /\
  bit (v (BBLOCK (BPB * j) sb)) bi = used v sb (BPB * j + bi).
Proof.
  intros Hbm Hj Hbi Hs. pose proof (bo_size _ _ Hbm). unfold used.
  assert (BBLOCK (BPB * j + bi) sb = BBLOCK (BPB * j) sb) as ->.
  { unfold BPB, BSIZE in *. rewrite !(BBLOCK_eq v) by (done || lia). unfold BPB, BSIZE. zdm. }
  assert ((BPB * j + bi) mod BPB = bi) as -> by (unfold BPB, BSIZE in *; zdm). done.
Qed.

Lemma bitmap_ok_ext v v' sb : (forall m, v' m = v m) -> bitmap_ok v sb -> bitmap_ok v' sb.
Proof. intros E [H1 H2 H3 H4]. split; try done. intros b Hb. unfold used. rewrite E. by apply H3. Qed.

Lemma balloc_loop_ok sb fuel n k H j s :
  k_sb s = sb -> txn (fuel + 3 + n) (S (S k)) H s -> bitmap_ok (view s) sb -> holds_used sb H s ->
  k_panicked s = 0 -> k_panicking s = 0 -> lock_free L_pr s -> 0 <= j <= sb_size sb / BPB + 1 ->
  (forall b, 0 <= b < BPB * j -> b < sb_size sb -> used (view s) sb b = true) ->
  sb_size sb / BPB + 1 - j < Z.of_nat fuel ->
  exists r s', balloc_loop virtio_disk_rw fuel dev (BPB * j) s = Ok r s' /\ txn n k H s' /\ still s s' /\
    (allocated sb r s s' \/
     r = 0 /\ (forall b, 0 <= b < sb_size sb -> used (view s) sb b = true) /\ (forall m, view s' m = view s m)).
Proof.
  revert j s. induction fuel as [|fuel IH]; intros j s Esb T Hbm Hh Hp1 Hp2 Hp3 Hj Hall Hf; [lia|].
  pose proof (bo_size _ _ Hbm). cbn [balloc_loop]. unfold bind at 1, get at 1. rewrite Esb.
  destruct (Z.ltb_spec (BPB * j) (sb_size sb)) as [Hlt|Hge].
  2:{ destruct (printf_then ("balloc: out of blocks" ++ nl) [] (fun _ => ret 0) s) as (out & E & _); [done|by eapply txn_can_print|].
      exists 0. eexists. split; [exact E|].
      split; [apply (txn_weaken me p dev (S fuel + 3 + n) n (S (S k)) k); [lia|lia|by apply txn_emit]|].
      split; [apply still_emit|]. right. split; [done|]. split; [|done]. intros b Hb. apply Hall; [|lia].
      unfold BPB, BSIZE in *. zdm. }
  assert (0 <= BPB * j) as Hpos by (unfold BPB, BSIZE; lia).
  pose proof (free_bit_spec (Z.to_nat BPB) 0 (BPB * j) (sb_size sb) (view s (BBLOCK (BPB * j) sb))) as Hfb.
  specialize (Hfb ltac:(done) ltac:(by rewrite Z2Nat.id)).
  destruct (free_bit (Z.to_nat BPB) 0 (BPB * j) (sb_size sb) (view s (BBLOCK (BPB * j) sb))) as [bi|] eqn:Ebit.
  - destruct Hfb as (F1 & F2 & F3 & F4).
    destruct (bit_used (view s) sb j bi Hbm) as (B1 & B2 & B3); [lia|lia|lia|].
    destruct (take_block (fuel + n) k H (BPB * j + bi) s) as (i & s1 & s' & E1 & Ed & Es & E & T' & S' & A);
      rewrite ?Esb; try done.
    + by replace (4 + (fuel + n))%nat with (S fuel + 3 + n)%nat by lia.
    + lia.
    + by rewrite <- B3.
    + intros b' Hb'. destruct (Z.ltb_spec b' (BPB * j)) as [Hlo|Hhi]; [apply Hall; lia|].
      replace b' with (BPB * j + (b' - BPB * j)) by lia.
      destruct (bit_used (view s) sb j (b' - BPB * j) Hbm) as (_ & _ & <-); [lia|lia|lia|]. apply F4. lia.
    + rewrite Esb in *. rewrite B1 in E1, Ed. rewrite B2 in E.
      exists (BPB * j + bi), s'. split; [mstep E1; mstep Ed; rewrite Ebit; exact E|].
      split; [apply (txn_weaken me p dev (fuel + n) n k k); [lia|lia|done]|]. split; [done|]. by left.
  - destruct (skip_block (fuel + 3 + n) (S (S k)) H (BPB * j) s) as (i & s1 & s' & E1 & Ed & S1 & E & T' & S' & V);
      rewrite ?Esb; try done.
    { intros m i' Hi'. by apply (Hh _ _ Hi'). }
    rewrite Esb in *. destruct (IH (j + 1) s') as (r & s'' & E2 & T2 & S2 & Hres).
    + by rewrite (still_sb _ _ S').
    + done.
    + by eapply bitmap_ok_ext.
    + intros i' m Hi'. unfold used. rewrite V. by apply (Hh i').
    + by rewrite (proj1 (sl_panic _ _ S')).
    + by rewrite (proj2 (sl_panic _ _ S')).
    + by apply (still_free _ s).
    + split; [lia|]. unfold BPB, BSIZE in *. zdm.
    + intros b Hb Hs. unfold used. rewrite V. fold (used (view s) sb b).
      destruct (Z.ltb_spec b (BPB * j)) as [Hlo|Hhi]; [apply Hall; lia|].
      replace b with (BPB * j + (b - BPB * j)) by lia.
      assert (0 <= b - BPB * j < BPB) by (unfold BPB, BSIZE in *; lia).
      destruct (bit_used (view s) sb j (b - BPB * j) Hbm) as (_ & _ & <-); [lia|lia|lia|]. apply Hfb; lia.
    + lia.
    + exists r, s''. split.
      { mstep E1. mstep Ed. rewrite Ebit. mstep E. replace (BPB * j + BPB) with (BPB * (j + 1)) by (unfold BPB, BSIZE; lia).
        exact E2. }
      split; [done|]. split; [by etransitivity|]. destruct Hres as [A|(-> & Hu & V2)].
      * left. destruct A as [A1 A2 A3 A4 A5 A6]. unfold used in *. split; try done; unfold used; intros.
        -- rewrite <- V. done.
        -- rewrite <- V. by apply A3.
        -- rewrite <- V. by apply A4.
        -- rewrite <- V. by apply A6.
      * right. split; [done|]. split; [|intros m; by rewrite V2]. intros b Hb. unfold used. rewrite <- V. by apply Hu.
Qed.

Lemma balloc_ok n k H s :
  let sb := k_sb s in
  txn (Z.to_nat (sb_size sb / BPB) + 5 + n) (S (S k)) H s -> bitmap_ok (view s) sb -> holds_used sb H s ->
  k_panicked s = 0 -> k_panicking s = 0 -> lock_free L_pr s ->
  exists r s', balloc virtio_disk_rw dev s = Ok r s' /\ txn n k H s' /\ still s s' /\
    (allocated sb r s s' \/
     r = 0 /\ (forall b, 0 <= b < sb_size sb -> used (view s) sb b = true) /\ (forall m, view s' m = view s m)).
Proof.
  intros sb T Hbm Hh H1 H2 H3. unfold balloc. unfold bind at 1, get at 1. fold sb.
  assert (0 <= sb_size sb / BPB) by (destruct (bo_size _ _ Hbm); unfold BPB, BSIZE; zdm).
  apply (balloc_loop_ok sb _ n k H 0 s); try done.
  - replace (S (Z.to_nat (sb_size sb / BPB + 1)) + 3 + n)%nat with (Z.to_nat (sb_size sb / BPB) + 5 + n)%nat by lia. done.
  - lia.
  - intros b Hb. lia.
  - lia.
Qed.

End Bitmap.
