(* ===== verification/Inode.v ===== *)
(** * The inode table (iget, idup and the references iput drops, kernel/disk/fs.c)

    The table is an array of entries, searched and recycled by iget; to its
    clients it is a count of references for each inode [(dev, inum)]. *)

From S2P Require Import Prelude Mem CString State Spinlock Printf Locks PageAlloc Vm Sleep Bio Bytes Log Fs.

(** ** The table as counters *)

Definition is_inode (dev inum : Z) (x : inode) : bool :=
  (0 <? i_ref x) && (i_dev x =? dev) && (i_inum x =? inum).

(** The references to an inode. *)
Fixpoint irefs (t : list inode) (dev inum : Z) : Z :=
  match t with
  | [] => 0
  | x :: t' => (if is_inode dev inum x then i_ref x else 0) + irefs t' dev inum
  end.

(** At most one entry for an inode, and room in every counter. Only the first
    NINODE entries are ever used. *)
Record table_ok (t : list inode) : Prop := {
  to_len : length t = 90%nat;
  to_unique : forall i j x y dev inum, t !! i = Some x -> t !! j = Some y ->
    is_inode dev inum x = true -> is_inode dev inum y = true -> i = j;
  to_ref : forall i x, t !! i = Some x -> 0 <= i_ref x < 2 ^ 31 - 1;
  to_spare : forall i x, t !! i = Some x -> (50 <= i)%nat -> i_ref x = 0
}.

Lemma irefs_app t1 t2 dev inum : irefs (t1 ++ t2) dev inum = irefs t1 dev inum + irefs t2 dev inum.
Proof. induction t1 as [|x t1 IH]; cbn [irefs app]; [lia|]. rewrite IH. lia. Qed.

Lemma irefs_none t dev inum :
  (forall i x, t !! i = Some x -> is_inode dev inum x = false) -> irefs t dev inum = 0.
Proof.
  induction t as [|x t IH]; intros H; [done|]. cbn [irefs]. rewrite (H 0%nat x eq_refl).
  rewrite IH; [lia|]. intros i y Hy. by apply (H (S i)).
Qed.

Lemma irefs_alter t i x f dev inum :
  t !! i = Some x ->
  irefs (alter f i t) dev inum =
    irefs t dev inum - (if is_inode dev inum x then i_ref x else 0)
    + (if is_inode dev inum (f x) then i_ref (f x) else 0).
Proof.
  revert i. induction t as [|y t IH]; intros [|i] Hi; [done|done| |].
  - cbn in Hi. injection Hi as ->. cbn. lia.
  - cbn in Hi. change (alter f (S i) (y :: t)) with (y :: alter f i t). cbn [irefs]. rewrite (IH i Hi). lia.
Qed.

(** The counter of an inode is that of its entry. *)
Lemma irefs_entry t i x dev inum :
  table_ok t -> t !! i = Some x -> is_inode dev inum x = true -> irefs t dev inum = i_ref x.
Proof.
  intros Ht Hi Hx. rewrite <- (take_drop_middle t i x Hi), irefs_app. cbn [irefs]. rewrite Hx.
  rewrite !irefs_none; [lia| |].
  - intros j y Hy. rewrite lookup_drop in Hy. destruct (is_inode dev inum y) eqn:E; [|done].
    pose proof (to_unique _ Ht _ _ _ _ _ _ Hi Hy Hx E). lia.
  - intros j y Hy. apply lookup_take_Some in Hy as [Hy Hlt]. destruct (is_inode dev inum y) eqn:E; [|done].
    pose proof (to_unique _ Ht _ _ _ _ _ _ Hi Hy Hx E). lia.
Qed.

Lemma table_alter t i x f :
  table_ok t -> t !! i = Some x -> (i < 50)%nat -> 0 <= i_ref (f x) < 2 ^ 31 - 1 ->
  (forall j y dev inum, j <> i -> t !! j = Some y -> is_inode dev inum y = true -> is_inode dev inum (f x) = false) ->
  table_ok (alter f i t).
Proof.
  intros [H1 H2 H3 H4] Hi Hlt Hr Hu.
  assert (forall j y, alter f i t !! j = Some y -> j = i /\ y = f x \/ j <> i /\ t !! j = Some y) as Hc.
  { intros j y Hy. destruct (decide (j = i)) as [->|Hne].
    - rewrite list_lookup_alter_eq, Hi in Hy. cbn in Hy. injection Hy as <-. by left.
    - rewrite list_lookup_alter_ne in Hy by done. by right. }
  split.
  - by rewrite length_alter.
  - intros j k y z dev inum Hj Hk Ey Ez. apply Hc in Hj as [[-> ->]|[Hj Ej]], Hk as [[-> ->]|[Hk Ek]]; try done.
    + rewrite (Hu k z dev inum) in Ey; done.
    + rewrite (Hu j y dev inum) in Ez; done.
    + eauto.
  - intros j y Hj. apply Hc in Hj as [[-> ->]|[Hj Ej]]; [done|eauto].
  - intros j y Hj Hge. apply Hc in Hj as [[-> ->]|[Hj Ej]]; [lia|eauto].
Qed.

(** ** The loop of iget *)

Definition first_free (t : list inode) (i : nat) : Prop :=
  (exists x, t !! i = Some x /\ i_ref x = 0) /\ forall j x, (j < i)%nat -> t !! j = Some x -> i_ref x <> 0.

Lemma iget_scan_spec t : forall pre dev inum empty,
  (forall e, empty = Some e -> first_free (pre ++ t) e) ->
  (empty = None -> forall j x, pre !! j = Some x -> i_ref x <> 0) ->
  (forall j x, pre !! j = Some x -> is_inode dev inum x = false) ->
  match iget_scan t (length pre) dev inum empty with
  | (Some i, _) => exists x, (pre ++ t) !! i = Some x /\ is_inode dev inum x = true
  | (None, Some i) => first_free (pre ++ t) i /\ forall j x, (pre ++ t) !! j = Some x -> is_inode dev inum x = false
  | (None, None) => forall j x, (pre ++ t) !! j = Some x -> i_ref x <> 0 /\ is_inode dev inum x = false
  end.
Proof.
  induction t as [|x t IH]; intros pre dev inum empty H1 H2 H3; cbn [iget_scan].
  { rewrite app_nil_r in *. destruct empty as [e|]; [by split; [apply H1|]|]. intros j y Hy. split; eauto. }
  fold (is_inode dev inum x). destruct (is_inode dev inum x) eqn:E.
  { exists x. split; [|done]. rewrite lookup_app_r by lia. by rewrite Nat.sub_diag. }
  assert ((pre ++ x :: t) = ((pre ++ [x]) ++ t)) as Ea by (by rewrite <- app_assoc).
  assert (forall j y, (pre ++ [x]) !! j = Some y -> pre !! j = Some y \/ j = length pre /\ y = x) as Hsplit.
  { intros j y Hy. apply lookup_snoc_Some in Hy. naive_solver. }
  set (empty' := match empty with None => if i_ref x =? 0 then Some (length pre) else None | Some e => Some e end).
  specialize (IH (pre ++ [x]) dev inum empty'). rewrite length_app in IH. cbn in IH.
  replace (length pre + 1)%nat with (S (length pre)) in IH by lia. rewrite <- Ea in IH. apply IH.
  - intros e He. unfold empty' in He. destruct empty as [e'|]; [by apply H1|]. destruct (Z.eqb_spec (i_ref x) 0) as [Hz|]; [|done].
    injection He as <-. split.
    + exists x. rewrite lookup_app_r by lia. by rewrite Nat.sub_diag.
    + intros j y Hj Hy. rewrite lookup_app_l in Hy by done. by eapply H2.
  - intros He j y Hy. unfold empty' in He. destruct empty as [e'|]; [done|].
    destruct (Z.eqb_spec (i_ref x) 0) as [|Hz]; [done|]. apply Hsplit in Hy as [Hy|[_ ->]]; [by eapply H2|done].
  - intros j y Hy. apply Hsplit in Hy as [Hy|[_ ->]]; [by eapply H3|done].
Qed.

Lemma upd_inode_private i f : private (upd_inode i f).
Proof. by split. Qed.
#[export] Hint Resolve upd_inode_private : core.

(** What iget returns: the entry of the inode, or a recycled one. *)
Definition iget_entry (dev inum : Z) (x : inode) : inode :=
  if is_inode dev inum x then in_ref (s32 (i_ref x + 1)) x else in_id dev inum 1 0 x.

Lemma iget_ok dev inum s :
  table_ok (k_itable s) -> lock_free L_itable s -> hart_ok (k_hart s) ->
  (exists j x, (j < 50)%nat /\ k_itable s !! j = Some x /\ (i_ref x = 0 \/ is_inode dev inum x = true)) ->
  exists i x, (i < 50)%nat /\ k_itable s !! i = Some x /\
    iget dev inum s = Ok i (upd_inode i (iget_entry dev inum) (settle s)) /\
    (is_inode dev inum x = true \/
     first_free (k_itable s) i /\ forall j y, k_itable s !! j = Some y -> is_inode dev inum y = false).
Proof.
  intros Ht Hl Hh (j0 & x0 & Hj0 & Hx0 & Hc). unfold iget. mstep (acquire_ok L_itable s Hl Hh).
  unfold bind at 1, get at 1. change (k_itable (locked L_itable s)) with (k_itable s). change (Z.to_nat NINODE) with 50%nat.
  pose proof (iget_scan_spec (take 50 (k_itable s)) [] dev inum None) as Hs. cbn [app length] in Hs.
  specialize (Hs ltac:(done) ltac:(done) ltac:(done)).
  assert (forall i x f, k_itable s !! i = Some x -> f x = iget_entry dev inum x ->
    (do! modify (upd_inode i f); do! release L_itable; ret i) (locked L_itable s) =
      Ok i (upd_inode i (iget_entry dev inum) (settle s))) as Hrun.
  { intros i x f Hi Hf. unfold bind, modify. rewrite (release_private L_itable (upd_inode i f)) by done. unfold ret. f_equal.
    unfold upd_inode. f_equal. apply list_alter_ext; [|done]. intros y Hy. cbn in Hy. congruence. }
  destruct (iget_scan (take 50 (k_itable s)) 0 dev inum None) as [[i|] [e|]].
  1,2: destruct Hs as (x & Hx & Ei); apply lookup_take_Some in Hx as [Hx Hi]; exists i, x; split; [done|]; split; [done|];
    split; [apply (Hrun i x); [done|unfold iget_entry; by rewrite Ei]|by left].
  - destruct Hs as [Hf Hno]. pose proof Hf as [(x & Hx & Hz) Hlow]. apply lookup_take_Some in Hx as [Hx He].
    assert (forall j y, k_itable s !! j = Some y -> is_inode dev inum y = false) as Hno'.
    { intros j y Hy. destruct (decide (j < 50)%nat); [apply (Hno j); by apply lookup_take_Some|].
      unfold is_inode. rewrite (to_spare _ Ht j y Hy) by lia. done. }
    exists e, x. split; [done|]. split; [done|]. split.
    + apply (Hrun e x); [done|]. unfold iget_entry. by rewrite (Hno' e x Hx).
    + right. split; [|done]. split; [by exists x|]. intros j y Hj Hy. apply (Hlow j); [done|]. apply lookup_take_Some. split; [done|lia].
  - exfalso. destruct (Hs j0 x0) as [H1 H2]; [by apply lookup_take_Some|]. destruct Hc; congruence.
Qed.

(** ** What the operations do to the counters *)

Definition bump (dev inum by_ : Z) (f : Z -> Z -> Z) (dev' inum' : Z) : Z :=
  f dev' inum' + if (dev' =? dev) && (inum' =? inum) then by_ else 0.

Lemma is_inode_id dev inum dev' inum' x :
  is_inode dev inum x = true -> is_inode dev' inum' x = (dev' =? dev) && (inum' =? inum).
Proof.
  unfold is_inode. intros H. zbool. subst. rewrite (proj2 (Z.ltb_lt 0 (i_ref x))) by lia. cbn [andb].
  by rewrite (Z.eqb_sym (i_dev x)), (Z.eqb_sym (i_inum x)).
Qed.

Lemma free_entry_is dev inum x : i_ref x = 0 -> is_inode dev inum x = false.
Proof. unfold is_inode. by intros ->. Qed.

(** Changing the counter of an entry. *)
Lemma irefs_ref t i x dev inum n dev' inum' :
  t !! i = Some x -> is_inode dev inum x = true -> 0 <= n ->
  irefs (alter (in_ref n) i t) dev' inum' = bump dev inum (n - i_ref x) (irefs t) dev' inum'.
Proof.
  intros Hi Hx Hn. rewrite (irefs_alter t i x) by done. rewrite (is_inode_id dev inum) by done. unfold bump.
  assert ((if is_inode dev' inum' (in_ref n x) then i_ref (in_ref n x) else 0) =
          if (dev' =? dev) && (inum' =? inum) then n else 0) as ->.
  { unfold is_inode in *. cbn [in_ref i_ref i_dev i_inum]. zbool. subst.
    rewrite (Z.eqb_sym dev'), (Z.eqb_sym inum'). destruct (Z.ltb_spec 0 n); cbn [andb]; [done|].
    destruct (_ && _); lia. }
  destruct (_ && _); lia.
Qed.

Lemma is_inode_true dev inum x :
  is_inode dev inum x = true <-> 0 < i_ref x /\ i_dev x = dev /\ i_inum x = inum.
Proof. unfold is_inode. rewrite !andb_true_iff, Z.ltb_lt, !Z.eqb_eq. tauto. Qed.

Lemma table_ref t i x n :
  table_ok t -> t !! i = Some x -> 0 <= n < 2 ^ 31 - 1 -> 0 < i_ref x -> table_ok (alter (in_ref n) i t).
Proof.
  intros Ht Hi Hn Hx. assert (i < 50)%nat as Hlt.
  { destruct (decide (i < 50)%nat); [done|]. rewrite (to_spare _ Ht i x Hi) in Hx by lia. lia. }
  apply (table_alter t i x); [done|done|done|exact Hn|].
  intros j y dev inum Hj Hy Ey. destruct (is_inode dev inum (in_ref n x)) eqn:E; [|done]. exfalso. apply Hj.
  symmetry. apply (to_unique _ Ht i j x y dev inum); try done. rewrite is_inode_true in *. naive_solver.
Qed.

(** The table after iget: entry [i] is the inode's, with one reference more. *)
Lemma iget_entry_ok t i x dev inum :
  table_ok t -> t !! i = Some x -> (i < 50)%nat -> irefs t dev inum < 2 ^ 31 - 2 ->
  (is_inode dev inum x = true \/ first_free t i /\ forall j y, t !! j = Some y -> is_inode dev inum y = false) ->
  is_inode dev inum (iget_entry dev inum x) = true /\ table_ok (alter (iget_entry dev inum) i t) /\
  (forall dev' inum', irefs (alter (iget_entry dev inum) i t) dev' inum' = bump dev inum 1 (irefs t) dev' inum').
Proof.
  intros Ht Hx Hi Hlt Hcase. pose proof (to_ref _ Ht i x Hx) as Hr. destruct Hcase as [Ex|[[Hz _] Hno]].
  - rewrite (irefs_entry _ i x) in Hlt by done. pose proof (proj1 (is_inode_true _ _ _) Ex) as (Hp & Hd & Hn).
    assert (iget_entry dev inum x = in_ref (i_ref x + 1) x) as Ei
      by (unfold iget_entry; rewrite Ex; by rewrite s32_small by lia).
    split; [rewrite Ei; apply is_inode_true; cbn; lia|].
    rewrite (list_alter_ext (iget_entry dev inum) (in_ref (i_ref x + 1)) t t i); [|intros y Hy; congruence|done].
    split; [apply (table_ref _ i x); (done || lia)|]. intros dev' inum'. rewrite (irefs_ref _ i x dev inum) by (done || lia).
    by replace (i_ref x + 1 - i_ref x) with 1 by lia.
  - destruct Hz as (x' & Hx2 & Hz). rewrite Hx in Hx2. injection Hx2 as <-.
    assert (iget_entry dev inum x = in_id dev inum 1 0 x) as Ei by (unfold iget_entry; by rewrite (Hno i x Hx)).
    assert (is_inode dev inum (iget_entry dev inum x) = true) as Hid by (rewrite Ei; by apply is_inode_true).
    split; [done|]. split.
    + apply (table_alter _ i x); [done..|rewrite Ei; cbn; lia|]. intros j y d n Hj Hy Ey.
      destruct (is_inode d n (iget_entry dev inum x)) eqn:Ed; [|done].
      rewrite (is_inode_id dev inum) in Ed by done. zbool. subst. by rewrite (Hno j y Hy) in Ey.
    + intros dev' inum'. rewrite (irefs_alter _ i x) by done. rewrite (free_entry_is dev' inum' x) by done.
      rewrite (is_inode_id dev inum) by done. rewrite Ei. unfold bump. cbn [in_id i_ref]. destruct (_ && _); lia.
Qed.

(** C22: iget returns an entry for the inode: the one in the table, or the first
    free one, set up for it with [valid] 0 so that ilock will read it from the
    disk. The inode's count of references goes up by one and no other inode's
    changes; the table keeps one entry per inode; the lock is free again. *)
Theorem iget_correct dev inum s :
  table_ok (k_itable s) -> lock_free L_itable s -> hart_ok (k_hart s) ->
  irefs (k_itable s) dev inum < 2 ^ 31 - 2 ->
  (exists j x, (j < 50)%nat /\ k_itable s !! j = Some x /\ (i_ref x = 0 \/ is_inode dev inum x = true)) ->
  exists i x s', iget dev inum s = Ok i s' /\ s' = set_itable (k_itable s') (settle s) /\
    table_ok (k_itable s') /\ k_itable s' !! i = Some x /\ i_dev x = dev /\ i_inum x = inum /\
    i_ref x = irefs (k_itable s') dev inum /\
    (forall dev' inum', irefs (k_itable s') dev' inum' = bump dev inum 1 (irefs (k_itable s)) dev' inum') /\
    (irefs (k_itable s) dev inum = 0 -> i_valid x = 0) /\
    (0 < irefs (k_itable s) dev inum -> exists y, k_itable s !! i = Some y /\ i_valid x = i_valid y /\ i_di x = i_di y).
Proof.
  intros Ht Hl Hh Hlt Hroom. destruct (iget_ok dev inum s Ht Hl Hh Hroom) as (i & x & Hi & Hx & E & Hcase).
  destruct (iget_entry_ok _ i x dev inum Ht Hx Hi Hlt Hcase) as (Hid & Ht' & Hcnt).
  pose proof (proj1 (is_inode_true _ _ _) Hid) as (_ & Hd & Hn).
  exists i, (iget_entry dev inum x), (upd_inode i (iget_entry dev inum) (settle s)). split; [done|]. split; [done|].
  change (k_itable (upd_inode i (iget_entry dev inum) (settle s))) with (alter (iget_entry dev inum) i (k_itable s)).
  assert (alter (iget_entry dev inum) i (k_itable s) !! i = Some (iget_entry dev inum x)) as Hx'
    by (by rewrite list_lookup_alter_eq, Hx).
  do 4 (split; [done|]). split; [symmetry; by apply (irefs_entry _ i)|]. split; [done|]. split.
  - intros Hz. destruct Hcase as [Ex|[_ Hno]].
    + rewrite (irefs_entry _ i x) in Hz by done. rewrite is_inode_true in Ex. lia.
    + unfold iget_entry. by rewrite (Hno i x Hx).
  - intros Hpos. exists x. split; [done|]. destruct Hcase as [Ex|[_ Hno]].
    + unfold iget_entry. by rewrite Ex.
    + rewrite (irefs_none _ dev inum) in Hpos by done. lia.
Qed.

Lemma inode_at {A} i x (f : inode -> A) s : k_itable s !! i = Some x -> inode_get i f s = Ok (f x) s.
Proof. intros H. unfold inode_get, get. by rewrite H. Qed.

(** A critical section on the table's lock that changes one counter. *)
Lemma ref_section {A} i (g : Z -> Z) (a : A) s :
  lock_free L_itable s -> hart_ok (k_hart s) ->
  (do! acquire L_itable;
   do! modify (upd_inode i (fun x => in_ref (s32 (g (i_ref x))) x));
   do! release L_itable; ret a) s =
  Ok a (upd_inode i (fun x => in_ref (s32 (g (i_ref x))) x) (settle s)).
Proof.
  intros Hl Hh. mstep (acquire_ok L_itable s Hl Hh). unfold bind, modify.
  by rewrite (release_private L_itable (upd_inode i (fun x => in_ref (s32 (g (i_ref x))) x))).
Qed.

Lemma ref_counts t i x g :
  table_ok t -> t !! i = Some x -> 0 < i_ref x -> 0 <= g (i_ref x) < 2 ^ 31 - 1 ->
  let t' := alter (fun x => in_ref (s32 (g (i_ref x))) x) i t in
  table_ok t' /\
  (forall d n, irefs t' d n = bump (i_dev x) (i_inum x) (g (i_ref x) - i_ref x) (irefs t) d n).
Proof.
  intros Ht Hi Hp Hg. cbn zeta.
  rewrite (list_alter_ext _ (in_ref (g (i_ref x))) t t i); [|intros y Hy|done].
  2:{ rewrite Hi in Hy. injection Hy as <-. by rewrite s32_small by lia. }
  split; [by apply (table_ref _ i x)|]. intros d n. rewrite (irefs_ref t i x (i_dev x) (i_inum x)); [done|done| |lia].
  by apply is_inode_true.
Qed.

Lemma iput_keep_ok virtio_disk_rw i x s :
  lock_free L_itable s -> hart_ok (k_hart s) -> k_itable s !! i = Some x ->
  i_ref x <> 1 \/ di_nlink (i_di x) <> 0 ->
  iput virtio_disk_rw i s = Ok tt (upd_inode i (fun x => in_ref (s32 (i_ref x - 1)) x) (settle s)).
Proof.
  intros Hl Hh Hx Hc. unfold iput. mstep (acquire_ok L_itable s Hl Hh).
  rewrite (bind_ok _ _ _ _ _ (inode_at i x i_ref (locked L_itable s) Hx)).
  rewrite (bind_ok _ _ _ _ _ (inode_at i x i_di (locked L_itable s) Hx)).
  assert ((i_ref x =? 1) && (di_nlink (i_di x) =? 0) = false) as ->.
  { destruct (Z.eqb_spec (i_ref x) 1), (Z.eqb_spec (di_nlink (i_di x)) 0); try done. destruct Hc; done. }
  unfold bind at 1, ret at 1. unfold bind, modify.
  by apply (release_private L_itable (upd_inode i (fun x => in_ref (s32 (i_ref x - 1)) x))).
Qed.

(** On the entry of an inode with at least one reference, idup adds one to the
    inode's count and returns the entry, and iput takes one away, as long as it
    is not the last reference to an inode without links; neither touches another
    inode's count, and the table keeps one entry per inode. *)
Theorem idup_iput_counts virtio_disk_rw i x s :
  table_ok (k_itable s) -> lock_free L_itable s -> hart_ok (k_hart s) ->
  k_itable s !! i = Some x -> 1 <= i_ref x < 2 ^ 31 - 2 ->
  (exists s', idup i s = Ok i s' /\ s' = set_itable (k_itable s') (settle s) /\ table_ok (k_itable s') /\
     forall d n, irefs (k_itable s') d n = bump (i_dev x) (i_inum x) 1 (irefs (k_itable s)) d n) /\
  (i_ref x <> 1 \/ di_nlink (i_di x) <> 0 ->
   exists s', iput virtio_disk_rw i s = Ok tt s' /\ s' = set_itable (k_itable s') (settle s) /\ table_ok (k_itable s') /\
     forall d n, irefs (k_itable s') d n = bump (i_dev x) (i_inum x) (-1) (irefs (k_itable s)) d n).
Proof.
  intros Ht Hl Hh Hx Hr. split.
  - eexists. split; [by apply (ref_section i (fun n => n + 1))|]. split; [done|].
    destruct (ref_counts _ i x (fun n => n + 1) Ht Hx) as [H1 H2]; [lia|lia|]. split; [exact H1|].
    intros d n. etransitivity; [exact (H2 d n)|]. f_equal. lia.
  - intros Hc. eexists. split; [by eapply iput_keep_ok|]. split; [done|].
    destruct (ref_counts _ i x (fun n => n - 1) Ht Hx) as [H1 H2]; [lia|lia|]. split; [exact H1|].
    intros d n. etransitivity; [exact (H2 d n)|]. f_equal. lia.
Qed.

(** Iget of an inode that is not in the table, when none of the first NINODE
    entries is free, panics. *)
Theorem iget_full dev inum s :
  table_ok (k_itable s) -> lock_free L_itable s -> hart_ok (k_hart s) -> k_panicked s = 0 ->
  irefs (k_itable s) dev inum = 0 ->
  (forall j x, (j < 50)%nat -> k_itable s !! j = Some x -> i_ref x <> 0) ->
  exists s', iget dev inum s = Stop (Panic "iget: no inodes") s' /\ k_itable s' = k_itable s.
Proof.
  intros Ht Hl Hh Hp Hz Hfull. unfold iget. rewrite (bind_ok _ _ _ _ _ (acquire_ok L_itable s Hl Hh)).
  unfold bind at 1, get at 1. change (k_itable (locked L_itable s)) with (k_itable s). change (Z.to_nat NINODE) with 50%nat.
  pose proof (iget_scan_spec (take 50 (k_itable s)) [] dev inum None) as Hs. cbn [app length] in Hs.
  specialize (Hs ltac:(done) ltac:(done) ltac:(done)).
  destruct (iget_scan (take 50 (k_itable s)) 0 dev inum None) as [[i|] [e|]].
  1,2: destruct Hs as (x & [Hx _]%lookup_take_Some & Ei); rewrite (irefs_entry _ i x) in Hz by done;
    rewrite is_inode_true in Ei; lia.
  - destruct Hs as [[(x & [Hx He]%lookup_take_Some & Hr) _] _]. by apply Hfull in Hx.
  - unfold panic. cbn. rewrite Hp. by eexists.
Qed.

(** ** Witnesses *)

Lemma table_ok_boot : table_ok (k_itable boot_kernel).
Proof.
  assert (forall i x, k_itable boot_kernel !! i = Some x -> x = inode_zero) as Hz.
  { intros i x H. by apply lookup_replicate in H as [-> _]. }
  split; [done|..].
  - intros i j x y dev inum Hx _ Ex. by apply Hz in Hx as ->.
  - intros i x Hx. apply Hz in Hx as ->. cbn. lia.
  - intros i x Hx _. by apply Hz in Hx as ->.
Qed.

Lemma boot_itable_lock : lock_free L_itable boot_kernel.
Proof. by exists "itable". Qed.

Lemma boot_hart : hart_ok (k_hart boot_kernel).
Proof. split; cbn; lia. Qed.

Lemma iget_correct_witness :
  exists i x s', iget 1 7 boot_kernel = Ok i s' /\ k_itable s' !! i = Some x /\ i_inum x = 7 /\
    irefs (k_itable s') 1 7 = 1.
Proof.
  destruct (iget_correct 1 7 boot_kernel) as (i & x & s' & E & _ & _ & Hx & _ & Hn & _ & Hc & _).
  - apply table_ok_boot.
  - apply boot_itable_lock.
  - apply boot_hart.
  - vm_compute. reflexivity.
  - exists 0%nat, inode_zero. split; [lia|]. split; [reflexivity|]. left. reflexivity.
  - exists i, x, s'. split; [exact E|]. split; [exact Hx|]. split; [exact Hn|]. rewrite Hc. vm_compute. reflexivity.
Defined.

(** The table with one inode in it, linked once. *)
Definition one_inode : kernel :=
  set_itable (<[0%nat := {| i_dev := 1; i_inum := 7; i_ref := 1; i_lock := {| sl_locked := 0; sl_pid := 0 |};
                            i_valid := 1; i_di := di_set_nlink 1 dinode_zero |}]> (k_itable boot_kernel)) boot_kernel.

Lemma one_inode_ok : table_ok (k_itable one_inode).
Proof.
  unfold one_inode. cbn [k_itable set_itable].
  change (table_ok (alter (fun _ => {| i_dev := 1; i_inum := 7; i_ref := 1; i_lock := {| sl_locked := 0; sl_pid := 0 |};
                            i_valid := 1; i_di := di_set_nlink 1 dinode_zero |}) 0%nat (k_itable boot_kernel))).
  apply (table_alter _ _ inode_zero); [apply table_ok_boot|done|lia|cbn; lia|].
  intros j y dev inum _ Hy Ey. by apply lookup_replicate in Hy as [-> _].
Qed.

Lemma idup_iput_counts_witness :
  exists s1 s2, idup 0 one_inode = Ok 0%nat s1 /\ irefs (k_itable s1) 1 7 = 2 /\
    iput (fun _ _ => ret tt) 0 one_inode = Ok tt s2 /\ irefs (k_itable s2) 1 7 = 0.
Proof.
  destruct (idup_iput_counts (fun _ _ => ret tt) 0 (default inode_zero (k_itable one_inode !! 0%nat)) one_inode)
    as [(s1 & E1 & _ & _ & H1) H2].
  - apply one_inode_ok.
  - apply boot_itable_lock.
  - apply boot_hart.
  - reflexivity.
  - vm_compute. split; congruence.
  - destruct H2 as (s2 & E2 & _ & _ & H2); [right; vm_compute; congruence|].
    exists s1, s2. split; [exact E1|]. split; [rewrite H1; vm_compute; reflexivity|].
    split; [exact E2|]. rewrite H2. vm_compute. reflexivity.
Defined.

(** Every entry taken, by inodes 0 to 49. *)
Definition full_table : kernel :=
  set_itable (((fun k => {| i_dev := 1; i_inum := Z.of_nat k; i_ref := 1; i_lock := {| sl_locked := 0; sl_pid := 0 |};
                           i_valid := 1; i_di := dinode_zero |}) <$> seq 0 50) ++ replicate 40 inode_zero) boot_kernel.

Lemma full_table_lookup i x :
  k_itable full_table !! i = Some x ->
  (i < 50)%nat /\ i_ref x = 1 /\ i_inum x = Z.of_nat i \/ (50 <= i)%nat /\ x = inode_zero.
Proof.
  unfold full_table. cbn [k_itable set_itable]. intros Hx. apply lookup_app_Some in Hx as [Hx|[Hi Hx]].
  - left. rewrite list_lookup_fmap in Hx. apply fmap_Some in Hx as (k & Hk & ->). apply lookup_seq in Hk as [-> Hk]. done.
  - right. apply lookup_replicate in Hx as [-> _]. split; [exact Hi|done].
Qed.

Lemma full_table_ok : table_ok (k_itable full_table).
Proof.
  split; [reflexivity|..].
  - intros i j x y dev inum Hx Hy Ex Ey. apply is_inode_true in Ex as (Ex & _ & Ix), Ey as (Ey & _ & Iy).
    apply full_table_lookup in Hx as [(_ & _ & Nx)|[_ ->]]; [|done].
    apply full_table_lookup in Hy as [(_ & _ & Ny)|[_ ->]]; [|done]. lia.
  - intros i x Hx. apply full_table_lookup in Hx as [(_ & -> & _)|[_ ->]]; cbn; lia.
  - intros i x Hx Hi. apply full_table_lookup in Hx as [(? & _)|[_ ->]]; [lia|done].
Qed.

Lemma iget_full_witness : exists s', iget 1 77 full_table = Stop (Panic "iget: no inodes") s'.
Proof.
  destruct (iget_full 1 77 full_table) as (s' & E & _).
  - apply full_table_ok.
  - apply boot_itable_lock.
  - apply boot_hart.
  - reflexivity.
  - vm_compute. reflexivity.
  - intros j x Hj Hx. apply full_table_lookup in Hx as [(_ & -> & _)|[? _]]; lia.
  - exists s'. exact E.
Defined.
