(* ===== verification/Dinode.v ===== *)
(** * struct dinode and struct superblock in a block's bytes

    iupdate writes the fields of an inode to its 64 bytes of an inode block and
    ilock reads them back. *)

From S2P Require Import Prelude Mem CString State Spinlock Printf Locks PageAlloc Vm Sleep Bio Bytes Log Fs.

(** The fields fit the types they have on the disk. *)
Record dinode_ok (di : dinode) : Prop := {
  do_type : - 2 ^ 15 <= di_type di < 2 ^ 15;
  do_major : - 2 ^ 15 <= di_major di < 2 ^ 15;
  do_minor : - 2 ^ 15 <= di_minor di < 2 ^ 15;
  do_nlink : - 2 ^ 15 <= di_nlink di < 2 ^ 15;
  do_size : 0 <= di_size di < 2 ^ 32;
  do_addrs : length (di_addrs di) = 13%nat /\ Forall (fun a => 0 <= a < 2 ^ 32) (di_addrs di)
}.

Lemma length_put_words d o ws : length (put_words d o ws) = length d.
Proof. revert d o. induction ws as [|w ws IH]; intros d o; [done|]. cbn [put_words]. by rewrite IH, length_put32. Qed.

Lemma length_write_dinode di o d : length (write_dinode di o d) = length d.
Proof. unfold write_dinode. by rewrite length_put_words, length_put32, !length_put16. Qed.

Lemma byte_at_put_words ws : forall d o x,
  0 <= o -> o + 4 * Z.of_nat (length ws) <= Z.of_nat (length d) -> 0 <= x ->
  x < o \/ o + 4 * Z.of_nat (length ws) <= x -> byte_at (put_words d o ws) x = byte_at d x.
Proof.
  induction ws as [|w ws IH]; intros d o x Ho Hl Hx Hout; [done|]. cbn [put_words length] in *.
  rewrite IH by (rewrite ?length_put32; lia). rewrite byte_at_put32 by lia. zif. done.
Qed.

Lemma get32_put_words ws : forall d o k w,
  0 <= o -> o + 4 * Z.of_nat (length ws) <= Z.of_nat (length d) -> ws !! k = Some w ->
  get32 (put_words d o ws) (o + 4 * Z.of_nat k) = u32 w.
Proof.
  induction ws as [|w' ws IH]; intros d o k w Ho Hl Hk; [done|]. cbn [put_words length] in *. destruct k as [|k].
  - cbn in Hk. injection Hk as ->. replace (o + 4 * Z.of_nat 0) with o by lia.
    rewrite (get32_ext _ (put32 d o w)); [apply get32_put32; lia|].
    intros x Hx. apply byte_at_put_words; rewrite ?length_put32; lia.
  - cbn in Hk. replace (o + 4 * Z.of_nat (S k)) with (o + 4 + 4 * Z.of_nat k) by lia.
    apply IH; rewrite ?length_put32; (lia || done).
Qed.

(** Writing a dinode touches its 64 bytes only. *)
Lemma byte_at_write_dinode di o d x :
  dinode_ok di -> 0 <= o -> o + 64 <= Z.of_nat (length d) -> 0 <= x -> x < o \/ o + 64 <= x ->
  byte_at (write_dinode di o d) x = byte_at d x.
Proof.
  intros [_ _ _ _ _ [Hlen _]] Ho Hl Hx Hout. unfold write_dinode.
  rewrite byte_at_put_words by (rewrite ?length_put32, ?length_put16; lia).
  rewrite byte_at_put32 by (rewrite ?length_put16; lia).
  rewrite !byte_at_put16 by (rewrite ?length_put16; lia). zif. done.
Qed.

Lemma s16_u16 x : - 2 ^ 15 <= x < 2 ^ 15 -> s16 (u16 x) = x.
Proof. intros. ints. Qed.

Lemma read_write_dinode di o d :
  dinode_ok di -> 0 <= o -> o + 64 <= Z.of_nat (length d) -> read_dinode (write_dinode di o d) o = di.
Proof.
  intros [H1 H2 H3 H4 H5 [Hlen Hr]] Ho Hl.
  set (d1 := put16 (put16 (put16 (put16 d o (di_type di)) (o + 2) (di_major di)) (o + 4) (di_minor di)) (o + 6) (di_nlink di)).
  assert (length d1 = length d) as Hd1 by (unfold d1; by rewrite !length_put16).
  assert (forall x, 0 <= x < o + 8 -> byte_at (write_dinode di o d) x = byte_at d1 x) as Hlow.
  { intros x Hx. unfold write_dinode. fold d1. rewrite byte_at_put_words by (rewrite ?length_put32; lia).
    rewrite byte_at_put32 by lia. zif. done. }
  assert (forall k v dd, o <= k -> k + 2 <= o + 8 -> length dd = length d ->
            (forall x, k <= x < k + 2 -> byte_at d1 x = byte_at (put16 dd k v) x) ->
            get16 (write_dinode di o d) k = u16 v) as Hg.
  { intros k v dd Hk1 Hk2 Hdd Hx. rewrite <- (get16_put16 dd k v) by lia. apply get16_ext; rewrite Hlow, Hx by lia; done. }
  unfold read_dinode. destruct di as [ty ma mi nl sz ad]. cbn [di_type di_major di_minor di_nlink di_size di_addrs] in *. f_equal.
  - rewrite (Hg o ty d); [by apply s16_u16|lia..|]. intros x Hx. unfold d1.
    rewrite !(byte_at_put16 (put16 _ _ _)) by (rewrite ?length_put16; lia). zif. done.
  - rewrite (Hg (o + 2) ma (put16 d o ty)); [by apply s16_u16|rewrite ?length_put16; lia..|]. intros x Hx. unfold d1.
    rewrite !(byte_at_put16 (put16 (put16 _ _ _) _ _)) by (rewrite ?length_put16; lia). zif. done.
  - rewrite (Hg (o + 4) mi (put16 (put16 d o ty) (o + 2) ma)); [by apply s16_u16|rewrite ?length_put16; lia..|].
    intros x Hx. unfold d1. rewrite byte_at_put16 by (rewrite ?length_put16; lia). zif. done.
  - rewrite (Hg (o + 6) nl (put16 (put16 (put16 d o ty) (o + 2) ma) (o + 4) mi)); [by apply s16_u16|rewrite ?length_put16; lia..|].
    intros x Hx. done.
  - unfold write_dinode. cbn [di_type di_major di_minor di_nlink di_size di_addrs]. fold d1. rewrite (get32_ext _ (put32 d1 (o + 8) sz)).
    + rewrite get32_put32 by lia. by apply u32_small.
    + intros x Hx. apply byte_at_put_words; rewrite ?length_put32; lia.
  - apply list_eq. intros k. rewrite list_lookup_fmap. destruct (ad !! k) as [a|] eqn:Ek.
    + pose proof (lookup_lt_Some _ _ _ Ek). rewrite lookup_seq_lt by lia. cbn [fmap option_fmap option_map]. f_equal.
      unfold write_dinode. cbn [di_type di_major di_minor di_nlink di_size di_addrs]. fold d1. rewrite Nat.add_0_l.
      rewrite (get32_put_words ad _ _ k a); [|lia|rewrite length_put32; lia|done].
      apply u32_small. rewrite Forall_lookup in Hr. eauto.
    + apply lookup_ge_None in Ek. by rewrite (proj2 (lookup_ge_None (seq 0 13) k)) by (rewrite length_seq; lia).
Qed.

(** Dinodes of a block do not overlap. *)
Lemma read_write_other di o o' d :
  dinode_ok di -> 0 <= o -> 0 <= o' -> o + 64 <= Z.of_nat (length d) -> o + 64 <= o' \/ o' + 64 <= o ->
  read_dinode (write_dinode di o d) o' = read_dinode d o'.
Proof.
  intros Hd H0 H1 H2 H3. assert (forall x, o' <= x < o' + 64 -> byte_at (write_dinode di o d) x = byte_at d x) as Hb.
  { intros x Hx. apply byte_at_write_dinode; (done || lia). }
  unfold read_dinode.
  rewrite !(get16_ext (write_dinode di o d) d) by (apply Hb; lia).
  rewrite (get32_ext (write_dinode di o d) d (o' + 8)) by (intros; apply Hb; lia). f_equal.
  apply list_fmap_ext. intros k x Hk. apply lookup_seq in Hk as [-> Hk]. apply get32_ext. intros. apply Hb. lia.
Qed.
