(* ===== verification/InodeIO.v ===== *)
(** * ilock, iunlock and iupdate (kernel/disk/fs.c): inodes on the disk

    An entry of the inode table is a copy of the 64 bytes of an inode block;
    ilock reads them, iupdate writes them through the log. *)

From S2P Require Import Prelude Mem CString State Spinlock Printf Locks PageAlloc Vm Sleep Bio Bytes BlockCache Log LogProps Commit Fs Txn Bitmap Inode Dinode.

(** The inode [inum] on the disk. *)
Definition disk_inode (v : Z -> list Z) (sb : superblock) (inum : Z) : dinode :=
  read_dinode (v (IBLOCK inum sb)) (dinode_off inum).

Definition inum_ok (sb : superblock) (inum : Z) : Prop :=
  0 <= inum < 2 ^ 30 /\ 0 <= sb_inodestart sb < 2 ^ 30.

Lemma IBLOCK_eq sb inum : inum_ok sb inum -> IBLOCK inum sb = sb_inodestart sb + inum / 16.
Proof. intros [H1 H2]. unfold IBLOCK, IPB, BSIZE. change (1024 / 64) with 16. rewrite u32_small by zdm. lia. Qed.

Lemma IBLOCK_range sb inum : inum_ok sb inum -> 0 <= IBLOCK inum sb < 2 ^ 31.
Proof. intros H. rewrite IBLOCK_eq by done. destruct H. zdm. Qed.

Lemma dinode_off_range inum : 0 <= inum -> 0 <= dinode_off inum /\ dinode_off inum + 64 <= 1024.
Proof. intros H. unfold dinode_off, IPB, BSIZE. change (1024 / 64) with 16. zdm. Qed.

(** Inodes with different numbers are in different places. *)
Lemma disk_inode_upd v v' sb inum inum' di :
  inum_ok sb inum -> inum_ok sb inum' -> dinode_ok di -> length (v (IBLOCK inum sb)) = 1024%nat ->
  (forall m, v' m = set_view v (IBLOCK inum sb) (write_dinode di (dinode_off inum) (v (IBLOCK inum sb))) m) ->
  disk_inode v' sb inum' = if inum' =? inum then di else disk_inode v sb inum'.
Proof.
  intros H1 H2 Hd Hl Hv. unfold disk_inode. rewrite Hv. unfold set_view.
  pose proof (dinode_off_range inum ltac:(apply H1)). pose proof (dinode_off_range inum' ltac:(apply H2)).
  destruct (Z.eqb_spec inum' inum) as [->|Hne].
  - rewrite Z.eqb_refl. apply read_write_dinode; (done || lia).
  - destruct (Z.eqb_spec (IBLOCK inum' sb) (IBLOCK inum sb)) as [E|]; [|done]. rewrite E.
    rewrite !IBLOCK_eq in E by done. apply read_write_other; try (done || lia).
    unfold dinode_off, IPB, BSIZE in *. change (1024 / 64) with 16 in *. destruct H1, H2. zdm.
Qed.

#[export] Instance inode_sl_laws i : SleepLockRef (inode_sl i).
Proof. by split. Qed.

Section InodeIO.
Context {virtio_disk_rw : nat -> Z -> KM unit} {dev_ok : BlockDevice virtio_disk_rw}.
Context (me : nat) (p : PCB) (dev : Z).
Abbreviation txn := (txn me p dev).
Abbreviation view := (view dev).

Lemma txn_inode n k H i f s : txn n k H s -> txn n k H (upd_inode i f s).
Proof. intros T. apply (txn_frame me p dev n k H s); (done || by left). Qed.

Lemma txn_settle n k H s : txn n k H s -> txn n k H (settle s).
Proof. intros T. apply (txn_frame me p dev n k H s); (done || by right). Qed.

Lemma still_settle s : still s (settle s).
Proof. split; [done|done|apply rest_settle]. Qed.

(** *** iupdate *)

Lemma iupdate_ok n k H i x s :
  let sb := k_sb s in
  txn (S (S n)) (S k) H s -> k_itable s !! i = Some x -> i_dev x = dev -> i_lock x = mine p ->
  lock_free (L_inode i) s -> inum_ok sb (i_inum x) -> not_held H (IBLOCK (i_inum x) sb) ->
  exists s', iupdate virtio_disk_rw i s = Ok tt s' /\ txn n k H s' /\ still s s' /\
    length (view s (IBLOCK (i_inum x) sb)) = 1024%nat /\
    (forall m, view s' m = set_view (view s) (IBLOCK (i_inum x) sb)
       (write_dinode (i_di x) (dinode_off (i_inum x)) (view s (IBLOCK (i_inum x) sb))) m).
Proof.
  intros sb T Hx Hdev Hlock Hfree Hin Hh.
  pose proof (holdingsleep_ok (inode_sl i) me p s (txn_caller _ _ _ _ _ _ _ T) Hfree) as Eh.
  assert (sl_of (inode_sl i) s = mine p) as Esl by (cbn; by rewrite Hx).
  rewrite Esl in Eh. cbn [mine sl_locked sl_pid] in Eh. rewrite Z.eqb_refl in Eh.
  destruct (update_ok me p dev n k H (IBLOCK (i_inum x) sb) (write_dinode (i_di x) (dinode_off (i_inum x))) (settle s))
    as (b & s1 & s' & E1 & _ & S1 & _ & E & T' & S' & Hl & V); [by apply txn_settle|by apply IBLOCK_range|done| |].
  { intros Hl. by rewrite length_write_dinode. }
  exists s'. assert (k_itable s1 !! i = Some x) as Hx1 by (by rewrite (still_itable _ _ S1)).
  split.
  { unfold iupdate. mstep Eh. cbn [b2z andb truthy negb Z.eqb].
    rewrite (bind_ok _ _ _ _ _ (inode_at i x i_dev (settle s) Hx)), Hdev.
    rewrite (bind_ok _ _ _ _ _ (inode_at i x i_inum (settle s) Hx)).
    unfold bind at 1, get at 1. change (k_sb (settle s)) with sb. mstep E1.
    rewrite (bind_ok _ _ _ _ _ (inode_at i x i_di s1 Hx1)). exact E. }
  split; [done|]. split; [etransitivity; [apply still_settle|done]|]. done.
Qed.

(** *** ilock *)

(** The entry ilock leaves: locked by the process, with the inode in it. *)
Definition loaded (di : dinode) (x : inode) : inode :=
  in_lock (mine p) (if i_valid x =? 0 then in_valid 1 (in_di di x) else x).

Lemma upd_inode_twice i f g s : upd_inode i f (upd_inode i g s) = upd_inode i (fun x => f (g x)) s.
Proof. unfold upd_inode. cbn. by rewrite list_alter_alter_eq. Qed.

Lemma upd_inode_ext i f g x s : k_itable s !! i = Some x -> f x = g x -> upd_inode i f s = upd_inode i g s.
Proof.
  intros Hx E. unfold upd_inode. f_equal. apply list_alter_ext; [|done]. intros y Hy. rewrite Hx in Hy. by injection Hy as <-.
Qed.

Lemma still_upd_inode i f s s' : still s s' -> still (upd_inode i f s) (upd_inode i f s').
Proof.
  intros [H1 H2 H3]. split; [done|done|]. unfold rest in *. cbn. injection H3 as -> -> -> -> -> -> -> -> ->. done.
Qed.

Lemma ilock_ok n k H i x s :
  let sb := k_sb s in
  txn (S n) k H s -> k_itable s !! i = Some x -> i_dev x = dev -> 1 <= i_ref x -> sl_locked (i_lock x) = 0 ->
  lock_free (L_inode i) s -> inum_ok sb (i_inum x) -> not_held H (IBLOCK (i_inum x) sb) ->
  (i_valid x = 0 -> di_type (disk_inode (view s) sb (i_inum x)) <> 0) ->
  exists s', ilock virtio_disk_rw i s = Ok tt s' /\ txn n k H s' /\
    still (upd_inode i (loaded (disk_inode (view s) sb (i_inum x))) s) s' /\ (forall m, view s' m = view s m).
Proof.
  intros sb T Hx Hdev Href Hun Hfree Hin Hh Hty.
  set (s1 := upd_inode i (in_lock (mine p)) (settle s)).
  assert (acquiresleep (inode_sl i) s = Ok tt s1) as E1.
  { apply (acquiresleep_ok (inode_sl i) me p s (txn_caller _ _ _ _ _ _ _ T) Hfree). cbn. by rewrite Hx. }
  assert (k_itable s1 !! i = Some (in_lock (mine p) x)) as Hx1 by (cbn; by rewrite list_lookup_alter_eq, Hx).
  assert (txn (S n) k H s1) as T1 by (by apply txn_inode, txn_settle).
  unfold ilock. rewrite (bind_ok _ _ _ _ _ (inode_at i x i_ref s Hx)). rewrite (proj2 (Z.ltb_ge (i_ref x) 1)) by lia.
  mstep E1. rewrite (bind_ok _ _ _ _ _ (inode_at i _ i_valid s1 Hx1)). cbn [in_lock i_valid].
  destruct (Z.eqb_spec (i_valid x) 0) as [Hv|Hv].
  2:{ exists s1. split; [done|]. split; [by apply (txn_weaken me p dev (S n) n k k); [lia|lia|]|]. split; [|done].
      rewrite (upd_inode_ext i _ (in_lock (mine p)) x); [by apply still_upd_inode, still_settle|done|].
      unfold loaded. by rewrite (proj2 (Z.eqb_neq _ _) Hv). }
  rewrite (bind_ok _ _ _ _ _ (inode_at i _ i_dev s1 Hx1)). rewrite (bind_ok _ _ _ _ _ (inode_at i _ i_inum s1 Hx1)).
  cbn [in_lock i_dev i_inum]. rewrite Hdev. unfold bind at 1, get at 1. change (k_sb s1) with sb.
  destruct (txn_bread me p dev n k H (IBLOCK (i_inum x) sb) s1 T1) as (b & s2 & E2 & Hb & T2 & S2 & V2 & _); [by apply IBLOCK_range|done|].
  mstep E2. pose proof (lookup_insert_eq H b (IBLOCK (i_inum x) sb)) as Hbin.
  mstep (txn_data me p dev _ _ _ _ _ _ T2 Hbin). rewrite V2. change (view s1) with (view s). fold (disk_inode (view s) sb (i_inum x)).
  set (di := disk_inode (view s) sb (i_inum x)) in *. unfold upd_di. unfold bind at 1, modify at 1.
  set (s3 := upd_inode i _ s2). assert (txn n k (<[b := IBLOCK (i_inum x) sb]> H) s3) as T3 by (by apply txn_inode).
  destruct (txn_brelse me p dev n k _ b _ s3 T3 Hbin) as (s4 & E4 & T4 & S4 & V4 & _). mstep E4.
  rewrite delete_insert_id in T4 by done. unfold bind at 1, modify at 1.
  set (s5 := upd_inode i (in_valid 1) s4).
  assert (still (upd_inode i (loaded di) s) s5) as S5.
  { unfold s5. transitivity (upd_inode i (in_valid 1) s3); [|by apply still_upd_inode]. unfold s3. rewrite upd_inode_twice.
    transitivity (upd_inode i (fun x => in_valid 1 (in_di di x)) s1); [|by apply still_upd_inode].
    unfold s1. rewrite upd_inode_twice. transitivity (upd_inode i (loaded di) (settle s)); [by apply still_upd_inode, still_settle|].
    rewrite (upd_inode_ext i (loaded di) (fun x => in_valid 1 (in_di di (in_lock (mine p) x))) x); [done|done|].
    unfold loaded. by rewrite Hv. }
  assert (k_itable s5 !! i = Some (loaded di x)) as Hx5.
  { rewrite (still_itable _ _ S5). cbn. by rewrite list_lookup_alter_eq, Hx. }
  rewrite (bind_ok _ _ _ _ _ (inode_at i _ i_di s5 Hx5)).
  assert (i_di (loaded di x) = di) as -> by (unfold loaded; by rewrite Hv).
  rewrite (proj2 (Z.eqb_neq (di_type di) 0)) by auto.
  exists s5. split; [done|]. split; [by apply txn_inode|]. split; [done|]. intros m. change (view s5 m) with (view s4 m).
  rewrite V4. change (view s3 m) with (view s2 m). by rewrite V2.
Qed.

(** *** iunlock *)

Lemma iunlock_ok n k H i x s :
  txn n k H s -> k_itable s !! i = Some x -> 1 <= i_ref x -> i_lock x = mine p -> lock_free (L_inode i) s ->
  exists s', iunlock i s = Ok tt s' /\ txn n k H s' /\ (forall m, view s' m = view s m) /\
    still (upd_inode i (in_lock {| sl_locked := 0; sl_pid := 0 |}) s) s'.
Proof.
  intros T Hx Href Hlock Hfree. pose proof (txn_caller _ _ _ _ _ _ _ T) as C.
  pose proof (holdingsleep_ok (inode_sl i) me p s C Hfree) as Eh.
  assert (sl_of (inode_sl i) s = mine p) as Esl by (cbn; by rewrite Hx).
  rewrite Esl in Eh. cbn [mine sl_locked sl_pid] in Eh. rewrite Z.eqb_refl in Eh.
  pose proof (releasesleep_ok (inode_sl i) me p (settle s) (caller_settle _ _ _ C) Hfree ltac:(done)) as Er.
  eexists. split.
  { unfold iunlock. rewrite (bind_ok _ _ _ _ _ (inode_at i x i_ref s Hx)). rewrite (proj2 (Z.ltb_ge (i_ref x) 1)) by lia.
    mstep Eh. cbn [b2z andb truthy negb Z.eqb]. exact Er. }
  split; [|split; [done|]].
  - cbn [inode_sl sl_put]. change (k_procs (settle s)) with (k_procs (upd_inode i (in_lock {| sl_locked := 0; sl_pid := 0 |}) (settle (settle s)))).
    apply txn_wake, txn_inode. by do 2 apply txn_settle.
  - split; [done|done|]. unfold rest. cbn. by rewrite !hart_settle_idem.
Qed.

End InodeIO.
