(* ===== verification/Content.v ===== *)
(** * The contents of a file (bmap, readi and writei, kernel/disk/fs.c)

    To its clients a file is a size and a byte at each offset; a block that is
    not mapped reads as zeroes. readi and writei are shown to read and write
    these bytes for the direct blocks and a buffer in the kernel's memory.
    The address of indirect blocks goes wrong, see [bmap_indirect_self]. *)

From S2P Require Import Prelude Mem CString State Spinlock Printf Locks PageAlloc Vm Sleep Bio Bytes BlockCache Log LogProps Commit Fs Txn Bitmap Inode Dinode InodeIO.

(** ** Contents *)

Definition content (v : Z -> list Z) (di : dinode) (o : Z) : Z :=
  let a := addr_of di (Z.to_nat (o / BSIZE)) in
  if a =? 0 then 0 else u8 (byte_at (v a) (o mod BSIZE)).

(** The blocks of the file are in use, its own, and neither bitmap nor held. *)
Record file_ok (v : Z -> list Z) (sb : superblock) (H : gmap nat Z) (di : dinode) : Prop := {
  fo_len : length (di_addrs di) = 13%nat;
  fo_block : forall k, (k < 12)%nat -> addr_of di k <> 0 ->
    0 <= addr_of di k < sb_size sb /\ used v sb (addr_of di k) = true /\ not_held H (addr_of di k) /\
    forall b, 0 <= b < sb_size sb -> addr_of di k <> BBLOCK b sb;
  fo_inj : forall j k, (j < 12)%nat -> (k < 12)%nat -> addr_of di j <> 0 -> addr_of di j = addr_of di k -> j = k
}.

Lemma addr_of_set di k a j :
  length (di_addrs di) = 13%nat -> (k < 13)%nat -> addr_of (di_set_addr k a di) j = if decide (j = k) then a else addr_of di j.
Proof.
  intros Hl Hk. unfold addr_of, di_set_addr. cbn [di_addrs]. case_decide as E.
  - subst. by rewrite list_lookup_insert_eq by lia.
  - by rewrite list_lookup_insert_ne.
Qed.

Lemma content_ext v v' di o :
  (forall k, (k < 12)%nat -> addr_of di k <> 0 -> v' (addr_of di k) = v (addr_of di k)) ->
  0 <= o < 12 * BSIZE -> content v' di o = content v di o.
Proof.
  intros H Ho. unfold content. destruct (Z.eqb_spec (addr_of di (Z.to_nat (o / BSIZE))) 0) as [|Hne]; [done|].
  rewrite H; [done| |done]. unfold BSIZE in *. zdm.
Qed.

(** A block allocated for a hole keeps the contents. *)
Lemma content_alloc v v' di k b o :
  length (di_addrs di) = 13%nat -> (k < 12)%nat -> addr_of di k = 0 -> b <> 0 -> v' b = replicate 1024 0 ->
  (forall j, (j < 12)%nat -> addr_of di j <> 0 -> v' (addr_of di j) = v (addr_of di j)) ->
  0 <= o < 12 * BSIZE -> content v' (di_set_addr k b di) o = content v di o.
Proof.
  intros Hl Hk Hz Hb Hv Hrest Ho. unfold content. rewrite addr_of_set by lia. case_decide as E.
  - rewrite E, Hz. rewrite (proj2 (Z.eqb_neq b 0)) by done. cbn [Z.eqb]. rewrite Hv. unfold byte_at.
    rewrite lookup_replicate_2; [done|]. unfold BSIZE in *. zdm.
  - fold (content v' di o). by rewrite (content_ext v).
Qed.

Section Content.
Context {virtio_disk_rw : nat -> Z -> KM unit} {dev_ok : BlockDevice virtio_disk_rw}.
Context (kalloc : KM Z) (kfree : Z -> KM unit) (buf_addr : nat -> Z).
Context (me : nat) (p : PCB) (dev : Z).
Abbreviation txn := (txn me p dev).
Abbreviation view := (view dev).
Abbreviation holds_used := (holds_used dev).
Abbreviation bmap := (bmap virtio_disk_rw).
Abbreviation readi := (readi virtio_disk_rw kalloc kfree buf_addr).
Abbreviation writei := (writei virtio_disk_rw kalloc kfree buf_addr).

(** *** bmap *)

Lemma bmap_mapped i x bn s :
  k_itable s !! i = Some x -> bn < NDIRECT -> addr_of (i_di x) (Z.to_nat bn) <> 0 ->
  bmap i bn s = Ok (addr_of (i_di x) (Z.to_nat bn)) s.
Proof.
  intros Hx Hb Ha. unfold Fs.bmap. rewrite (bind_ok _ _ _ _ _ (inode_at i x i_dev s Hx)).
  rewrite (proj2 (Z.ltb_lt _ _) Hb). rewrite (bind_ok _ _ _ _ _ (inode_at i x i_di s Hx)).
  by rewrite (proj2 (Z.eqb_neq _ _) Ha).
Qed.

(** The cost of balloc in buffers. *)
Definition bitmap_blocks (sb : superblock) : nat := Z.to_nat (sb_size sb / BPB).

Lemma file_ok_alloc v v' sb H di k b :
  bitmap_ok v sb -> file_ok v sb H di -> (k < 12)%nat -> addr_of di k = 0 -> b <> 0 -> 0 <= b < sb_size sb -> not_held H b ->
  used v sb b = false -> (forall b', 0 <= b' < sb_size sb -> used v' sb b' = (b' =? b) || used v sb b') ->
  file_ok v' sb H (di_set_addr k b di).
Proof.
  intros Hbm [F1 F2 F3] Hk Hz Hb0 Hb Hh Hfree Hused.
  assert (forall j, (j < 12)%nat -> addr_of di j <> 0 -> addr_of di j <> b) as Hne.
  { intros j Hj Ha E. destruct (F2 j Hj Ha) as (_ & Hu & _). rewrite E in Hu. congruence. }
  split.
  - cbn. by rewrite length_insert.
  - intros j Hj. rewrite addr_of_set by lia. case_decide as E.
    + intros _. split; [done|]. split; [rewrite Hused by done; by rewrite Z.eqb_refl|]. split; [done|].
      intros b' Hb' ->. rewrite (bo_used _ _ Hbm b' Hb') in Hfree. done.
    + intros Ha. destruct (F2 j Hj Ha) as (G1 & G2 & G3 & G4). split; [done|]. split; [|done].
      rewrite Hused by done. by rewrite G2, orb_true_r.
  - intros j j' Hj Hj'. rewrite !addr_of_set by lia. case_decide as E1; case_decide as E2; intros Ha Heq.
    + congruence.
    + exfalso. apply (Hne j'); congruence.
    + exfalso. by apply (Hne j).
    + by apply F3.
Qed.

(** What bmap promises for block [bn] of the file: its address, a fresh block where
    there was a hole; or 0 when the disk is full. *)
Lemma bmap_ok n k H i x bn s :
  let sb := k_sb s in
  txn (bitmap_blocks sb + 5 + n) (S (S k)) H s -> bitmap_ok (view s) sb -> holds_used sb H s ->
  k_panicked s = 0 -> k_panicking s = 0 -> lock_free L_pr s -> used (view s) sb 0 = true ->
  k_itable s !! i = Some x -> i_dev x = dev -> file_ok (view s) sb H (i_di x) -> 0 <= bn < NDIRECT ->
  exists a s', bmap i bn s = Ok a s' /\ txn n k H s' /\
    (a = 0 /\ still s s' /\ (forall m, view s' m = view s m) /\ (forall b, 0 <= b < sb_size sb -> used (view s) sb b = true) \/
     a <> 0 /\ exists di, still (upd_inode i (in_di di) s) s' /\ addr_of di (Z.to_nat bn) = a /\ file_ok (view s') sb H di /\
       di_size di = di_size (i_di x) /\
       (forall j, addr_of di j = addr_of (i_di x) j \/ addr_of (i_di x) j = 0 /\ used (view s) sb (addr_of di j) = false) /\
       (dinode_ok (i_di x) -> dinode_ok di) /\
       (forall o, 0 <= o < 12 * BSIZE -> content (view s') di o = content (view s) (i_di x) o) /\
       (forall b, 0 <= b < sb_size sb -> used (view s) sb b = true -> used (view s') sb b = true) /\
       (forall m, used (view s) sb m = true -> (forall b, 0 <= b < sb_size sb -> m <> BBLOCK b sb) -> view s' m = view s m)).
Proof.
  intros sb T Hbm Hh Hp1 Hp2 Hp3 H0 Hx Hdev Hf Hbn. set (kk := Z.to_nat bn).
  assert (kk < 12)%nat as Hk by (unfold kk, NDIRECT in *; lia).
  destruct (decide (addr_of (i_di x) kk = 0)) as [Hz|Hnz].
  2:{ exists (addr_of (i_di x) kk), s. split; [apply bmap_mapped; [done|apply Hbn|done]|].
      split; [by apply (txn_weaken me p dev (bitmap_blocks sb + 5 + n) n (S (S k)) k); [lia|lia|]|]. right. split; [done|].
      exists (i_di x). split; [|do 3 (split; [done|]); split; [by left|split; done]].
      assert (upd_inode i (in_di (i_di x)) s = s) as ->; [|reflexivity]. unfold upd_inode.
      rewrite (alter_id_strong _ _ i x); [by destruct s|done|by destruct x]. }
  destruct (balloc_ok me p dev n k H s T Hbm Hh Hp1 Hp2 Hp3) as (r & s1 & E & T1 & S1 & Hres). fold sb in Hres.
  assert (bmap i bn s = (if r =? 0 then ret 0 else do! upd_di i (di_set_addr kk r); ret r) s1) as Eb.
  { unfold Fs.bmap. rewrite (bind_ok _ _ _ _ _ (inode_at i x i_dev s Hx)), Hdev.
    rewrite (proj2 (Z.ltb_lt _ _) (proj2 Hbn)). rewrite (bind_ok _ _ _ _ _ (inode_at i x i_di s Hx)).
    fold kk. rewrite Hz. cbn [Z.eqb]. by mstep E. }
  rewrite Eb. assert (allocated dev sb r s s1 -> r <> 0) as Hr0 by (intros [A1 A2 _ _ _ _] ->; congruence).
  destruct Hres as [A|(-> & Hu & V)].
  2:{ exists 0, s1. split; [done|]. split; [done|]. by left. }
  specialize (Hr0 A). rewrite (proj2 (Z.eqb_neq _ _) Hr0).
  exists r. eexists. split; [done|]. split; [by apply txn_inode|]. right. split; [done|].
  exists (di_set_addr kk r (i_di x)). destruct A as [A1 A2 A3 A4 A5 A6].
  assert (forall m, used (view s) sb m = true -> (forall b, 0 <= b < sb_size sb -> m <> BBLOCK b sb) ->
            view s1 m = view s m) as Hkeep by (intros m Hm Hb; apply A6; [congruence|by apply Hb]).
  split; [|split; [|split; [|split; [done|split; [|split; [|split; [|split; [|exact Hkeep]]]]]]]].
  - rewrite (upd_inode_ext i _ (fun x0 => in_di (di_set_addr kk r (i_di x0)) x0) x) by done. by apply still_upd_inode.
  - rewrite addr_of_set by (apply Hf || lia). by rewrite decide_True.
  - change (file_ok (view s1) sb H (di_set_addr kk r (i_di x))). apply (file_ok_alloc (view s)); try done.
    intros j m Hj ->. destruct (Hh j r Hj) as (_ & Hu & _). congruence.
  - intros j. rewrite addr_of_set by (apply Hf || lia). case_decide as Ej; [right; by rewrite Ej|by left].
  - intros [D1 D2 D3 D4 D5 [D6 D7]]. split; try done. cbn [di_set_addr di_addrs]. split; [by rewrite length_insert|].
    apply Forall_insert; [done|]. destruct (bo_size _ _ Hbm). lia.
  - intros o Ho. change (content (view s1) (di_set_addr kk r (i_di x)) o = content (view s) (i_di x) o).
    apply content_alloc; try done; [apply Hf|]. intros j Hj Ha. destruct (fo_block _ _ _ _ Hf j Hj Ha) as (_ & Hu & _ & Hb).
    by apply Hkeep.
  - intros b Hb Hu. change (used (view s1) sb b = true). rewrite A4 by done. by rewrite Hu, orb_true_r.
Qed.
(** *** Copies between a buffer and the kernel's memory *)

Definition apart (a len : Z) : Prop := forall b, a + len <= buf_addr b \/ buf_addr b + 1024 <= a.

Lemma byte_total d j : 0 <= j < Z.of_nat (length d) -> d !!! Z.to_nat j = byte_at d j.
Proof.
  intros Hj. unfold byte_at. destruct (lookup_lt_is_Some_2 d (Z.to_nat j)) as [x Hx]; [lia|].
  rewrite Hx. by apply list_lookup_total_correct.
Qed.

Lemma either_kernel_out dst src len s :
  hart_ok (k_hart s) ->
  either_copyout kalloc kfree 0 dst src len s = Ok 0 (set_mem (memmove (k_mem s) dst src len) (settle s)).
Proof. intros Hh. unfold either_copyout. rewrite (bind_ok _ _ _ _ _ (myproc_ok s Hh)). done. Qed.

Lemma either_kernel_in dst src len s :
  hart_ok (k_hart s) ->
  either_copyin kalloc kfree dst 0 src len s = Ok 0 (set_mem (memmove (k_mem s) dst src len) (settle s)).
Proof. intros Hh. unfold either_copyin. rewrite (bind_ok _ _ _ _ _ (myproc_ok s Hh)). done. Qed.

Lemma txn_hart n k H s : txn n k H s -> hart_ok (k_hart s).
Proof. intros T. apply (ca_hart _ _ _ (txn_caller _ _ _ _ _ _ _ T)). Qed.

Lemma copy_from_buf_ok n k H b m o dst len s :
  txn n k H s -> H !! b = Some m -> 0 <= o -> 0 <= len -> o + len <= 1024 ->
  exists mm, copy_from_buf kalloc kfree buf_addr 0 dst b o len s = Ok 0 (set_mem mm (settle s)) /\
    (forall j, 0 <= j < len -> rd8 mm (dst + j) = u8 (byte_at (view s m) (o + j))) /\
    (forall a, a < dst \/ dst + len <= a -> apart a 1 -> rd8 mm a = rd8 (k_mem s) a).
Proof.
  intros T Hb Ho Hlen Hr. pose proof (txn_length _ _ _ _ _ _ _ _ _ T Hb) as Hl.
  unfold copy_from_buf. rewrite (bind_ok _ _ _ _ _ (txn_data me p dev _ _ _ _ _ _ T Hb)).
  unfold bind at 1, modify at 1. set (s1 := set_mem _ s).
  rewrite (either_kernel_out dst (buf_addr b + o) len s1 (txn_hart _ _ _ _ T)). eexists. split; [done|]. split.
  - intros j Hj. rewrite rd8_memmove by lia. zif. unfold s1. cbn [k_mem set_mem]. rewrite rd8_wr_bytes, Hl. zif.
    rewrite <- byte_total by lia. f_equal. f_equal. f_equal. lia.
  - intros a Ha Hap. rewrite rd8_memmove by lia. unfold s1. cbn [k_mem set_mem].
    destruct Ha, (Hap b); zif; rewrite rd8_wr_bytes, Hl; zif; done.
Qed.

(** A copy between two steps on blocks. *)
Lemma still_mem_step mm m s s1 s3 :
  still s s1 -> still (set_mem mm (settle s1)) s3 -> still (set_mem m s) (set_mem m s3).
Proof.
  intros [L1 P1 R] [L3 P3 RR]. split; cbn.
  - by rewrite L3.
  - by rewrite (proj1 P3), (proj2 P3).
  - unfold rest in *. cbn. cbn in RR. rewrite hart_settle_idem in RR. injection RR as -> ? -> -> -> -> -> -> ->.
    injection R as -> ? -> -> -> -> -> -> ->. done.
Qed.

(** *** readi *)

Lemma chunk_range off tot n :
  0 <= off -> tot < n -> 1 <= chunk_in_block off tot n <= n - tot /\ off mod BSIZE + chunk_in_block off tot n <= 1024 /\
  (chunk_in_block off tot n < n - tot -> (off + chunk_in_block off tot n) mod BSIZE = 0 /\
     off mod BSIZE + chunk_in_block off tot n = 1024).
Proof.
  intros Ho Ht. unfold chunk_in_block, BSIZE. assert (0 <= off mod 1024 < 1024) by (apply Z.mod_pos_bound; lia).
  destruct (Z.ltb_spec (n - tot) (1024 - off mod 1024)); [lia|]. split; [lia|]. split; [lia|].
  intros _. split; [zdm|lia].
Qed.

(** The bytes of a chunk are in one block. *)
Lemma chunk_block off j : 0 <= off -> 0 <= j -> off mod BSIZE + j < 1024 ->
  (off + j) / BSIZE = off / BSIZE /\ (off + j) mod BSIZE = off mod BSIZE + j.
Proof. unfold BSIZE. intros. zdm. Qed.

(** The blocks of the range are mapped. *)
Definition mapped (H : gmap nat Z) (di : dinode) (lo hi : Z) : Prop :=
  0 <= lo /\ hi <= 12 * BSIZE /\ forall o, lo <= o < hi ->
    let a := addr_of di (Z.to_nat (o / BSIZE)) in a <> 0 /\ 0 <= a < 2 ^ 31 /\ not_held H a.

(** Turns left for the bytes from [off] on. *)
Definition turns (off rest : Z) : Z := if rest =? 0 then 0 else (off mod BSIZE + rest + 1023) / BSIZE.

Lemma turns_next off tot n :
  0 <= off -> tot < n -> off + n - tot < 2 ^ 31 ->
  let m := chunk_in_block off tot n in turns (off + m) (n - (tot + m)) = turns off (n - tot) - 1.
Proof.
  intros Ho Ht Hb m. destruct (chunk_range off tot n Ho Ht) as (H1 & H2 & H3). fold m in H1, H2, H3. unfold turns.
  rewrite (proj2 (Z.eqb_neq (n - tot) 0)) by lia. assert (0 <= off mod BSIZE < 1024) by (apply Z.mod_pos_bound; done).
  unfold BSIZE in *. destruct (Z.eqb_spec (n - (tot + m)) 0) as [E|E].
  - replace (n - tot) with m by lia. zdm.
  - destruct H3 as [H3 H4]; [lia|]. rewrite H3. replace (off mod 1024 + (n - tot) + 1023) with (0 + (n - (tot + m)) + 1023 + 1 * 1024) by lia.
    rewrite Z.div_add by lia. lia.
Qed.

Lemma turns_nonneg off rest : 0 <= off -> 0 <= rest -> 0 <= turns off rest.
Proof. intros Ho Hr. unfold turns. zcases. unfold BSIZE in *. zdm. Qed.

Lemma readi_loop_ok fuel : forall r k H i x off tot n dst s,
  txn (Z.to_nat (turns off (n - tot)) + r) k H s -> k_itable s !! i = Some x -> i_dev x = dev -> 0 <= tot <= n ->
  mapped H (i_di x) off (off + (n - tot)) -> 0 <= dst -> dst + (n - tot) < 2 ^ 64 -> apart dst (n - tot) ->
  turns off (n - tot) < Z.of_nat fuel ->
  exists s', readi_loop virtio_disk_rw kalloc kfree buf_addr fuel i 0 dst off tot n s = Ok n s' /\ txn r k H s' /\
    still (set_mem (k_mem s') s) s' /\ (forall m, view s' m = view s m) /\
    (forall j, 0 <= j < n - tot -> rd8 (k_mem s') (dst + j) = content (view s) (i_di x) (off + j)) /\
    (forall a, a < dst \/ dst + (n - tot) <= a -> apart a 1 -> rd8 (k_mem s') a = rd8 (k_mem s) a).
Proof.
  induction fuel as [|fuel IH]; intros r k H i x off tot n dst s T Hx Hdev Htot Hm Hd1 Hd2 Hap Hf.
  { exfalso. destruct Hm as [? _]. pose proof (turns_nonneg off (n - tot) ltac:(lia) ltac:(lia)). lia. }
  pose proof Hm as (Ho & Hmax & Hmap). cbn [readi_loop]. destruct (Z.ltb_spec tot n) as [Hlt|Hge].
  2:{ exists s. replace tot with n by lia. split; [done|]. split; [by eapply txn_weaken; [| |exact T]; lia|].
      split; [rewrite set_mem_id; reflexivity|]. split; [done|]. split; [intros; lia|done]. }
  destruct (Hmap off) as (Ha0 & Ha & Hheld); [lia|]. set (a := addr_of (i_di x) (Z.to_nat (off / BSIZE))) in *.
  assert (off / BSIZE < NDIRECT) as Hdir by (unfold NDIRECT, BSIZE in *; zdm).
  rewrite (bind_ok _ _ _ _ _ (bmap_mapped i x (off / BSIZE) s Hx Hdir Ha0)). fold a. rewrite (proj2 (Z.eqb_neq a 0) Ha0).
  rewrite (bind_ok _ _ _ _ _ (inode_at i x i_dev s Hx)), Hdev.
  destruct (chunk_range off tot n Ho Hlt) as (Hc1 & Hc2 & Hc3).
  pose proof (turns_next off tot n Ho Hlt ltac:(unfold BSIZE in *; lia)) as Hturn. cbn zeta in Hturn.
  set (m := chunk_in_block off tot n) in *. assert (0 <= turns (off + m) (n - (tot + m))) as Hpos by (apply turns_nonneg; lia).
  replace (Z.to_nat (turns off (n - tot)) + r)%nat with (S (Z.to_nat (turns (off + m) (n - (tot + m))) + r)) in T by lia.
  destruct (txn_bread me p dev _ k H a s T Ha Hheld) as (b & s1 & E1 & Hb & T1 & S1 & V1 & _). mstep E1.
  pose proof (lookup_insert_eq H b a) as Hbin.
  assert (0 <= off mod BSIZE) by (apply Z.mod_pos_bound; done).
  destruct (copy_from_buf_ok _ _ _ b a (off mod BSIZE) dst m s1 T1 Hbin) as (mm & Ec & Mc & Mo); [lia..|]. mstep Ec. cbn [Z.eqb].
  set (s2 := set_mem mm (settle s1)).
  assert (txn (Z.to_nat (turns (off + m) (n - (tot + m))) + r) k (<[b := a]> H) s2) as T2 by (apply (txn_frame me p dev _ _ _ s1); (done || by right)).
  destruct (txn_brelse me p dev _ _ _ b a s2 T2 Hbin) as (s3 & E3 & T3 & S3 & V3 & _). mstep E3. rewrite delete_insert_id in T3 by done.
  assert (k_mem s3 = mm) as Hmem by (by rewrite (still_mem _ _ S3)).
  assert (k_itable s3 = k_itable s) as Hit by (rewrite (still_itable _ _ S3); change (k_itable s1 = k_itable s); by apply still_itable).
  rewrite u64_small, u32_small by (unfold BSIZE in *; lia).
  destruct (IH r k H i x (off + m) (tot + m) n (dst + m) s3) as (s' & E & T' & S' & V' & R1 & R2); try done; try lia.
  - by rewrite Hit.
  - split; [lia|]. split; [lia|]. intros o Hor. apply Hmap. lia.
  - intros b'. destruct (Hap b'); lia.
  - assert (forall j, view s3 j = view s j) as V30 by (intros j; rewrite V3; exact (V1 j)).
    exists s'. split; [done|]. split; [done|]. split; [|split; [intros j; by rewrite V', V30|split]].
    + transitivity (set_mem (k_mem s') s3); [|done]. by apply (still_mem_step mm _ s s1).
    + intros j Hj. destruct (Z.ltb_spec j m) as [Hjm|Hjm].
      * rewrite R2; [|lia|intros b'; destruct (Hap b'); lia]. rewrite Hmem, Mc by lia. rewrite V1. unfold content.
        destruct (chunk_block off j) as [-> ->]; [lia..|]. fold a. by rewrite (proj2 (Z.eqb_neq a 0) Ha0).
      * replace (dst + j) with (dst + m + (j - m)) by lia. rewrite R1 by lia. replace (off + m + (j - m)) with (off + j) by lia.
        unfold content. by rewrite V30.
    + intros a' Ha' Hap'. rewrite R2; [|lia|done]. rewrite Hmem, Mo; [|lia|done]. by rewrite (still_mem _ _ S1).
Qed.

Lemma turns_fuel off c : 0 <= off -> 0 <= c -> turns off c < Z.of_nat (block_fuel c).
Proof.
  intros Ho Hc. unfold turns, block_fuel, BSIZE. assert (0 <= off mod 1024 < 1024) by (apply Z.mod_pos_bound; lia). zcases.
  rewrite !Nat2Z.inj_succ, Z2Nat.id by zdm. zdm.
Qed.

(** The bytes readi transfers. *)
Definition readable (di : dinode) (off n : Z) : Z := if di_size di <? off + n then di_size di - off else n.

Lemma readi_turns_ok r k H i x dst off n s :
  let c := readable (i_di x) off n in
  txn (Z.to_nat (turns off c) + r) k H s -> k_itable s !! i = Some x -> i_dev x = dev -> 0 <= n < 2 ^ 31 ->
  0 <= off <= di_size (i_di x) -> di_size (i_di x) <= 12 * BSIZE -> mapped H (i_di x) off (off + c) ->
  0 <= dst -> dst + n < 2 ^ 64 -> apart dst c ->
  exists s', readi i 0 dst off n s = Ok c s' /\ txn r k H s' /\ still (set_mem (k_mem s') s) s' /\
    (forall m, view s' m = view s m) /\
    (forall j, 0 <= j < c -> rd8 (k_mem s') (dst + j) = content (view s) (i_di x) (off + j)) /\
    (forall a, a < dst \/ dst + c <= a -> apart a 1 -> rd8 (k_mem s') a = rd8 (k_mem s) a).
Proof.
  intros c T Hx Hdev Hn Ho Hs Hm Hd1 Hd2 Hap. assert (0 <= c <= n) as Hc by (unfold c, readable; zcases).
  assert (c < 2 ^ 30) as Hc2 by (unfold c, readable, BSIZE in *; zcases).
  destruct (readi_loop_ok (block_fuel c) r k H i x off 0 c dst s) as (s' & E & G); rewrite ?Z.sub_0_r; try done; try lia.
  - apply turns_fuel; lia.
  - exists s'. split; [|by rewrite Z.sub_0_r in G]. unfold Fs.readi. rewrite (bind_ok _ _ _ _ _ (inode_at i x i_di s Hx)).
    unfold BSIZE in *. rewrite (u32_small (off + n)) by lia.
    rewrite (proj2 (Z.ltb_ge (di_size (i_di x)) off)), (proj2 (Z.ltb_ge (off + n) off)) by lia. cbn [orb].
    fold (readable (i_di x) off n). fold c. mstep E. unfold ret. by rewrite s32_small by lia.
Qed.

Lemma readi_ok r k H i x dst off n s :
  let c := readable (i_di x) off n in
  txn (block_fuel c + r) k H s -> k_itable s !! i = Some x -> i_dev x = dev -> 0 <= n < 2 ^ 31 ->
  0 <= off <= di_size (i_di x) -> di_size (i_di x) <= 12 * BSIZE -> mapped H (i_di x) off (off + c) ->
  0 <= dst -> dst + n < 2 ^ 64 -> apart dst c ->
  exists s', readi i 0 dst off n s = Ok c s' /\ txn r k H s' /\ still (set_mem (k_mem s') s) s' /\
    (forall m, view s' m = view s m) /\
    (forall j, 0 <= j < c -> rd8 (k_mem s') (dst + j) = content (view s) (i_di x) (off + j)) /\
    (forall a, a < dst \/ dst + c <= a -> apart a 1 -> rd8 (k_mem s') a = rd8 (k_mem s) a).
Proof.
  intros c T Hx Hdev Hn Ho. intros. apply (readi_turns_ok r k H i x); try done. eapply txn_weaken; [| |exact T]; [|done].
  assert (0 <= c) by (unfold c, readable; zcases). pose proof (turns_fuel off c ltac:(lia) ltac:(done)).
  pose proof (turns_nonneg off c ltac:(lia) ltac:(done)). fold c. lia.
Qed.

(** *** writei *)

Definition bits_free (sb : superblock) (m : Z) : Prop := forall b, 0 <= b < sb_size sb -> m <> BBLOCK b sb.

(** What writei needs of the state, and keeps. *)
Record ready (n k : nat) (H : gmap nat Z) (i : nat) (x : inode) (s : kernel) : Prop := {
  rd_txn : txn n k H s;
  rd_bitmap : bitmap_ok (view s) (k_sb s);
  rd_held : holds_used (k_sb s) H s;
  rd_print : k_panicked s = 0 /\ k_panicking s = 0 /\ lock_free L_pr s;
  rd_boot : used (view s) (k_sb s) 0 = true;
  rd_entry : k_itable s !! i = Some x;
  rd_dev : i_dev x = dev;
  rd_file : file_ok (view s) (k_sb s) H (i_di x)
}.

(** What a step of writei on entry [i] may change: memory in the buffers, the
    inode's addresses, and blocks that are free, of the bitmap or the file's. *)
Record progress (i : nat) (x x' : inode) (s s' : kernel) : Prop := {
  pg_still : still (upd_inode i (fun _ => x') (set_mem (k_mem s') s)) s';
  pg_entry : x' = in_di (i_di x') x;
  pg_size : di_size (i_di x') = di_size (i_di x);
  pg_ok : dinode_ok (i_di x) -> dinode_ok (i_di x');
  pg_addr : forall k, addr_of (i_di x) k <> 0 -> addr_of (i_di x') k = addr_of (i_di x) k;
  pg_mem : forall a, apart a 1 -> rd8 (k_mem s') a = rd8 (k_mem s) a;
  pg_keep : forall m, 0 <= m < sb_size (k_sb s) -> used (view s) (k_sb s) m = true -> bits_free (k_sb s) m ->
    (forall k, (k < 12)%nat -> addr_of (i_di x) k <> m) ->
    view s' m = view s m /\ used (view s') (k_sb s) m = true /\ forall k, (k < 12)%nat -> addr_of (i_di x') k <> m;
  pg_used : forall b, 0 <= b < sb_size (k_sb s) -> used (view s) (k_sb s) b = true -> used (view s') (k_sb s) b = true
}.

Lemma progress_sb i x x' s s' : progress i x x' s s' -> k_sb s' = k_sb s.
Proof. intros P. by rewrite (still_sb _ _ (pg_still _ _ _ _ _ P)). Qed.

Lemma progress_trans i x1 x2 x3 s1 s2 s3 :
  progress i x1 x2 s1 s2 -> progress i x2 x3 s2 s3 -> progress i x1 x3 s1 s3.
Proof.
  intros P1 P2. pose proof (progress_sb _ _ _ _ _ P1) as Esb. split.
  - transitivity (upd_inode i (fun _ => x3) (set_mem (k_mem s3) s2)); [|apply P2].
    destruct (pg_still _ _ _ _ _ P1) as [L Pn R]. split; [done|done|]. unfold rest in *. cbn in *.
    injection R as -> -> -> -> -> -> -> ->. by rewrite list_alter_alter_eq.
  - rewrite (pg_entry _ _ _ _ _ P2), (pg_entry _ _ _ _ _ P1). done.
  - by rewrite (pg_size _ _ _ _ _ P2), (pg_size _ _ _ _ _ P1).
  - intros Hd. by apply (pg_ok _ _ _ _ _ P2), (pg_ok _ _ _ _ _ P1).
  - intros k Hk. pose proof (pg_addr _ _ _ _ _ P1 k Hk) as E. rewrite <- E in Hk. by rewrite (pg_addr _ _ _ _ _ P2 k Hk).
  - intros a Ha. by rewrite (pg_mem _ _ _ _ _ P2), (pg_mem _ _ _ _ _ P1).
  - intros m Hr Hu Hb Hk. destruct (pg_keep _ _ _ _ _ P1 m Hr Hu Hb Hk) as (V1 & U1 & K1).
    pose proof (pg_keep _ _ _ _ _ P2 m) as Hm. rewrite Esb in Hm. destruct (Hm Hr U1 Hb K1) as (V2 & U2 & K2). by rewrite V2.
  - intros b Hb Hu. pose proof (pg_used _ _ _ _ _ P2 b) as Hm. rewrite Esb in Hm. apply Hm; [done|]. by apply (pg_used _ _ _ _ _ P1).
Qed.

Lemma still_print s s' : still s s' -> k_panicked s = 0 /\ k_panicking s = 0 /\ lock_free L_pr s ->
  k_panicked s' = 0 /\ k_panicking s' = 0 /\ lock_free L_pr s'.
Proof. intros S (H1 & H2 & H3). destruct (sl_panic _ _ S) as [-> ->]. split; [done|]. split; [done|]. by apply (still_free _ s). Qed.

Lemma used_ext v v' sb b : v' (BBLOCK b sb) = v (BBLOCK b sb) -> used v' sb b = used v sb b.
Proof. unfold used. by intros ->. Qed.

(** A step that leaves the bitmap as it is. *)
Lemma ready_step n k n' k' H i x s s' :
  ready n k H i x s -> txn n' k' H s' -> k_itable s' = k_itable s -> k_sb s' = k_sb s ->
  (k_panicked s' = 0 /\ k_panicking s' = 0 /\ lock_free L_pr s') ->
  (forall b, 0 <= b < sb_size (k_sb s) -> view s' (BBLOCK b (k_sb s)) = view s (BBLOCK b (k_sb s))) ->
  ready n' k' H i x s'.
Proof.
  intros [R1 R2 R3 R4 R5 R6 R7 R8] T Hi Hs Hp Hv. destruct (bo_size _ _ R2) as [Hs0 Hs1].
  assert (forall b, 0 <= b < sb_size (k_sb s) -> used (view s') (k_sb s) b = used (view s) (k_sb s) b) as Hu
    by (intros b Hb; by apply used_ext, Hv).
  split; rewrite ?Hs, ?Hi; try done.
  - destruct R2 as [B1 B2 B3 B4]. split; try done. intros b Hb. rewrite Hu; [by apply B3|].
    split; [|by apply B4]. unfold BBLOCK. apply u32_range.
  - intros j m Hj. destruct (R3 j m Hj) as (H1 & H2 & H3). by rewrite Hu.
  - rewrite Hu by lia. done.
  - destruct R8 as [F1 F2 F3]. split; [done| |done]. intros j Hj Ha. destruct (F2 j Hj Ha) as (G1 & G2 & G3 & G4).
    by rewrite Hu.
Qed.

Lemma ready_alloc n k n' k' H i x s s' di :
  ready n k H i x s -> txn n' k' H s' -> still (upd_inode i (in_di di) s) s' -> file_ok (view s') (k_sb s) H di ->
  (forall b, 0 <= b < sb_size (k_sb s) -> used (view s) (k_sb s) b = true -> used (view s') (k_sb s) b = true) ->
  ready n' k' H i (in_di di x) s'.
Proof.
  intros [R1 R2 R3 R4 R5 R6 R7 R8] T S Hf Hu. pose proof (still_sb _ _ S) as Esb. change (k_sb s' = k_sb s) in Esb.
  destruct (bo_size _ _ R2) as [Hs0 Hs1]. split; rewrite ?Esb; try done.
  - destruct R2 as [B1 B2 B3 B4]. split; try done. intros b Hb. apply Hu; [|by apply B3].
    split; [|by apply B4]. unfold BBLOCK. apply u32_range.
  - intros j m Hj. destruct (R3 j m Hj) as (H1 & H2 & H3). auto.
  - apply (still_print (upd_inode i (in_di di) s)); done.
  - apply Hu; [lia|done].
  - rewrite (still_itable _ _ S). cbn. by rewrite list_lookup_alter_eq, R6.
Qed.

(** bmap inside writei. *)
Lemma bmap_ready n k H i x bn s :
  ready (bitmap_blocks (k_sb s) + 5 + n) (S (S k)) H i x s -> 0 <= bn < NDIRECT ->
  exists a s' x', bmap i bn s = Ok a s' /\ ready n k H i x' s' /\ progress i x x' s s' /\
    (a = 0 -> forall b, 0 <= b < sb_size (k_sb s) -> used (view s) (k_sb s) b = true) /\
    (a <> 0 -> addr_of (i_di x') (Z.to_nat bn) = a) /\
    (forall o, 0 <= o < 12 * BSIZE -> content (view s') (i_di x') o = content (view s) (i_di x) o) /\ k_mem s' = k_mem s.
Proof.
  intros R Hbn. pose proof R as [R1 R2 R3 (P1 & P2 & P3) R5 R6 R7 R8].
  destruct (bmap_ok n k H i x bn s R1 R2 R3 P1 P2 P3 R5 R6 R7 R8 Hbn) as (a & s' & E & T & Hc).
  destruct Hc as [(-> & S & V & Hfull)|(Ha & di & S & Hadr & Hf & Hsz & Hadr2 & Hdok & Hcont & Hu & Hkeep)].
  - exists 0, s', x. split; [done|]. split.
    { apply (ready_step _ _ _ _ _ _ _ _ _ R T); [by apply still_itable|by apply still_sb|by apply (still_print s)|intros; by rewrite V]. }
    split; [|split; [done|split; [done|split; [intros o Ho; apply content_ext; [intros; apply V|done]|by apply still_mem]]]].
    split; try done.
    + rewrite (still_mem _ _ S), set_mem_id. unfold upd_inode. rewrite (alter_id_strong _ _ i x); [|done|done].
      by assert (set_itable (k_itable s) s = s) as -> by (by destruct s).
    + by destruct x.
    + intros b _. by rewrite (still_mem _ _ S).
    + intros m Hr Hum Hb Hk. unfold used. rewrite !V. done.
    + intros b Hb Hub. unfold used. by rewrite V.
  - exists a, s', (in_di di x). split; [done|]. split; [by eapply ready_alloc|].
    pose proof (still_mem _ _ S) as Hmem. change (k_mem s' = k_mem s) in Hmem.
    split; [|split; [done|split; [done|split; [done|done]]]]. split; try done.
    + rewrite Hmem, set_mem_id. by rewrite (upd_inode_ext i _ (in_di di) x).
    + intros j Hj. cbn [in_di i_di]. destruct (Hadr2 j) as [->|[? _]]; done.
    + intros b _. by rewrite Hmem.
    + intros m Hr Hum Hb Hk. split; [by apply Hkeep|]. split; [by apply Hu|]. intros j Hj. cbn [in_di i_di].
      destruct (Hadr2 j) as [->|[_ Hfree]]; [by apply Hk|]. intros E'. congruence.
Qed.

(** Memory after [len] bytes from [src] were copied into the data [d0] of buffer [b]. *)
Definition splice (m : mem) (b : nat) (d0 : list Z) (o src len : Z) : mem :=
  memmove (wr_bytes m (buf_addr b) d0) (buf_addr b + o) src len.

Lemma splice_apart m b d0 o src len c :
  length d0 = 1024%nat -> 0 <= o -> 0 <= len -> o + len <= 1024 -> apart c 1 -> rd8 (splice m b d0 o src len) c = rd8 m c.
Proof.
  intros Hl Ho Hlen Hmax Hc. unfold splice. rewrite rd8_memmove by lia.
  destruct (Hc b); zif; rewrite rd8_wr_bytes, Hl; zif; done.
Qed.

Lemma splice_byte m b d0 o src len j :
  length d0 = 1024%nat -> 0 <= o -> 0 <= len -> o + len <= 1024 -> apart src len -> 0 <= j < 1024 ->
  u8 (byte_at (rd_bytes (splice m b d0 o src len) (buf_addr b) 1024) j) =
    if (o <=? j) && (j <? o + len) then rd8 m (src + (j - o)) else u8 (byte_at d0 j).
Proof.
  intros Hl Ho Hlen Hmax Hap Hj. unfold byte_at at 1. rewrite lookup_rd_bytes by lia. cbn [default from_option id].
  rewrite Z2Nat.id by lia. rewrite (u8_small (rd8 _ _)) by apply rd8_range. unfold splice. rewrite rd8_memmove by lia.
  assert ((buf_addr b + o <=? buf_addr b + j) && (buf_addr b + j <? buf_addr b + o + len) = (o <=? j) && (j <? o + len)) as -> by zcases.
  destruct ((o <=? j) && (j <? o + len)) eqn:Ec.
  - zbool. replace (src + (buf_addr b + j - (buf_addr b + o))) with (src + (j - o)) by lia.
    rewrite rd8_wr_bytes, Hl. destruct (Hap b); zif; done.
  - rewrite rd8_wr_bytes, Hl. zif. replace (buf_addr b + j - buf_addr b) with j by lia. by rewrite byte_total by lia.
Qed.

(** One block: read it, copy the bytes in, log it. *)
Lemma write_chunk n k H i x kk o src len s :
  let a := addr_of (i_di x) kk in
  ready (S (S n)) (S k) H i x s -> (kk < 12)%nat -> a <> 0 -> 0 <= o -> 0 <= len -> o + len <= 1024 -> apart src len ->
  exists b s1 s' d, bread virtio_disk_rw dev a s = Ok b s1 /\
    (forall c1 c2 : KM (Z * Z),
       (let! r := copy_to_buf kalloc kfree buf_addr b o 0 src len in
        if r =? -1 then c1 else do! log_write b; do! brelse b; c2) s1 = c2 s') /\
    ready n k H i x s' /\ progress i x x s s' /\ (forall m, view s' m = set_view (view s) a d m) /\
    (forall j, 0 <= j < 1024 -> u8 (byte_at d j) =
       if (o <=? j) && (j <? o + len) then rd8 (k_mem s) (src + (j - o)) else u8 (byte_at (view s a) j)).
Proof.
  intros a R Hk Ha Ho Hlen Hmax Hap. pose proof R as [T B Hh Hp _ Hx Hdev Hf]. destruct (bo_size _ _ B) as [_ Hsz].
  destruct (fo_block _ _ _ _ Hf kk Hk Ha) as (Har & Hau & Hah & Hab). fold a in Har, Hau, Hah, Hab.
  destruct (txn_bread me p dev (S n) (S k) H a s T) as (b & s1 & E1 & Hb & T1 & S1 & V1 & _); [lia|done|].
  pose proof (lookup_insert_eq H b a) as Hbin. pose proof (txn_length _ _ _ _ _ _ _ _ _ T1 Hbin) as Hl.
  set (m0 := wr_bytes (k_mem s1) (buf_addr b) (view s1 a)). set (mm := splice (k_mem s1) b (view s1 a) o src len).
  set (d := rd_bytes mm (buf_addr b) (length (view s1 a))). set (s2 := set_mem mm (settle s1)).
  assert (txn (S n) (S k) (<[b := a]> H) s2) as T2 by (apply (txn_frame me p dev _ _ _ s1); (done || by right)).
  destruct (txn_write me p dev n k _ b a (fun _ => d) s2 T2 Hbin) as (s3 & E3 & T3 & S3 & V3 & _);
    [lia|unfold d; by rewrite length_rd_bytes|].
  destruct (txn_brelse me p dev _ _ _ b a s3 T3 Hbin) as (s4 & E4 & T4 & S4 & V4 & _). rewrite delete_insert_id in T4 by done.
  assert (forall m, view s4 m = set_view (view s) a d m) as V.
  { intros m. rewrite V4, V3. unfold set_view. change (view s2 m) with (view s1 m). by rewrite V1. }
  assert (still s2 s4) as S24 by (by transitivity s3).
  assert (k_mem s4 = mm) as Hmem by (by rewrite (still_mem _ _ S24)).
  assert (still (set_mem mm s) s4) as S.
  { transitivity (set_mem mm s4); [by apply (still_mem_step mm _ s s1)|]. rewrite <- Hmem. by rewrite set_mem_id. }
  assert (forall c, apart c 1 -> rd8 mm c = rd8 (k_mem s) c) as Hmm.
  { intros c Hc. unfold mm. rewrite splice_apart by done. by rewrite (still_mem _ _ S1). }
  exists b, s1, s4, d. split; [done|]. split; [|split; [|split; [|split; [done|]]]].
  - intros c1 c2. unfold copy_to_buf. rewrite bind_assoc, (bind_ok _ _ _ _ _ (txn_data me p dev _ _ _ _ _ _ T1 Hbin)).
    rewrite bind_assoc. unfold bind at 1, modify at 1. fold m0.
    rewrite bind_assoc. rewrite (bind_ok _ _ _ _ _ (either_kernel_in (buf_addr b + o) src len (set_mem m0 s1) (txn_hart _ _ _ _ T1))).
    rewrite bind_assoc. unfold bind at 1, get at 1. cbn [k_mem set_mem]. change (memmove m0 (buf_addr b + o) src len) with mm. fold d.
    change (set_mem mm (settle (set_mem m0 s1))) with s2.
    transitivity ((do! set_data b (fun _ => d); do! log_write b; do! brelse b; c2) s2); [done|]. rewrite E3. by mstep E4.
  - apply (ready_step _ _ _ _ _ _ _ _ _ R T4); [by rewrite (still_itable _ _ S)|by rewrite (still_sb _ _ S)|by apply (still_print (set_mem mm s))|].
    intros b' Hb'. rewrite V. unfold set_view. by rewrite (proj2 (Z.eqb_neq _ _)) by (apply not_eq_sym, Hab, Hb').
  - assert (forall b', 0 <= b' < sb_size (k_sb s) -> used (view s4) (k_sb s) b' = used (view s) (k_sb s) b') as Hus.
    { intros b' Hb'. apply used_ext. rewrite V. unfold set_view. by rewrite (proj2 (Z.eqb_neq _ _)) by (apply not_eq_sym, Hab, Hb'). }
    split; try done.
    + unfold upd_inode. rewrite (alter_id_strong _ _ i x); [|done|done]. rewrite Hmem.
      by assert (set_itable (k_itable (set_mem mm s)) (set_mem mm s) = set_mem mm s) as -> by (by destruct s).
    + by destruct x.
    + intros c Hc. rewrite Hmem. by apply Hmm.
    + intros m Hr Hum Hbm Hkm. rewrite V, Hus by done. unfold set_view. rewrite (proj2 (Z.eqb_neq m a)); [done|]. intros ->. by apply (Hkm kk).
    + intros b' Hb' Hub. by rewrite Hus.
  - intros j Hj. unfold d, mm. rewrite Hl, splice_byte by done. by rewrite V1, (still_mem _ _ S1).
Qed.

Lemma content_chunk v v' sb H di off m d (f : Z -> Z) o :
  let a := addr_of di (Z.to_nat (off / BSIZE)) in
  file_ok v sb H di -> a <> 0 -> (forall m, v' m = set_view v a d m) -> 0 <= off < 12 * BSIZE -> 0 <= m ->
  off mod BSIZE + m <= 1024 ->
  (forall j, 0 <= j < 1024 -> u8 (byte_at d j) =
     if (off mod BSIZE <=? j) && (j <? off mod BSIZE + m) then f (j - off mod BSIZE) else u8 (byte_at (v a) j)) ->
  0 <= o < 12 * BSIZE ->
  content v' di o = if (off <=? o) && (o <? off + m) then f (o - off) else content v di o.
Proof.
  intros a Hf Ha Hv Hoff Hm Hmax Hd Ho. unfold content. set (a' := addr_of di (Z.to_nat (o / BSIZE))).
  assert (0 <= o mod BSIZE < 1024 /\ 0 <= off mod BSIZE < 1024) as [Hmo Hmf] by (split; apply Z.mod_pos_bound; done).
  destruct (decide (o / BSIZE = off / BSIZE)) as [E|E].
  - assert (a' = a) as -> by (unfold a', a; by rewrite E). rewrite (proj2 (Z.eqb_neq a 0) Ha), Hv. unfold set_view.
    rewrite Z.eqb_refl, Hd by done.
    assert ((off mod BSIZE <=? o mod BSIZE) && (o mod BSIZE <? off mod BSIZE + m) = (off <=? o) && (o <? off + m)) as ->.
    { unfold BSIZE in *. repeat match goal with |- context [?x <=? ?y] => destruct (Z.leb_spec x y) | |- context [?x <? ?y] => destruct (Z.ltb_spec x y) end; cbn; try done; exfalso; zdm. }
    destruct ((off <=? o) && (o <? off + m)) eqn:Ec; [|done]. f_equal. unfold BSIZE in *. zdm.
  - assert ((off <=? o) && (o <? off + m) = false) as ->.
    { unfold BSIZE in *. destruct (Z.leb_spec off o), (Z.ltb_spec o (off + m)); cbn; try done. exfalso. zdm. }
    destruct (Z.eqb_spec a' 0) as [|Ha']; [done|]. rewrite Hv. unfold set_view.
    rewrite (proj2 (Z.eqb_neq a' a)); [done|]. intros Eq. apply E.
    assert (Z.to_nat (o / BSIZE) = Z.to_nat (off / BSIZE)) as En; [|unfold BSIZE in *; zdm].
    apply (fo_inj _ _ _ _ Hf); [unfold BSIZE in *; zdm|unfold BSIZE in *; zdm|done|done].
Qed.

(** The buffers and the log blocks one turn may take. *)
Definition turn_bufs (sb : superblock) : nat := bitmap_blocks sb + 7.

Definition overwritten (old : Z -> Z) (mem_ : mem) (src off n o : Z) : Z :=
  if (off <=? o) && (o <? off + n) then rd8 mem_ (src + (o - off)) else old o.

Lemma overwritten_none old m src off o : overwritten old m src off 0 o = old o.
Proof. unfold overwritten. destruct (Z.leb_spec off o), (Z.ltb_spec o (off + 0)); (done || lia). Qed.

(** Two pieces in a row. *)
Lemma overwritten_app old m m' src off a b o :
  0 <= a -> 0 <= b -> (forall j, a <= j < a + b -> rd8 m' (src + j) = rd8 m (src + j)) ->
  overwritten (overwritten old m src off a) m' (src + a) (off + a) b o = overwritten old m src off (a + b) o.
Proof.
  intros Ha Hb Hm. unfold overwritten.
  destruct (Z.leb_spec (off + a) o) as [H1|H1], (Z.ltb_spec o (off + a + b)) as [H2|H2]; cbn [andb]; zif; try done.
  replace (src + a + (o - (off + a))) with (src + (o - off)) by lia. apply Hm. lia.
Qed.

Lemma ready_weaken n n' k k' H i x s : (n' <= n)%nat -> (k' <= k)%nat -> ready n k H i x s -> ready n' k' H i x s.
Proof. intros Hn Hk [R1 R2 R3 R4 R5 R6 R7 R8]. split; try done. by eapply txn_weaken. Qed.

Lemma progress_refl i x s : k_itable s !! i = Some x -> progress i x x s s.
Proof.
  intros Hx. split; try done; [|by destruct x]. rewrite set_mem_id. unfold upd_inode.
  rewrite (alter_id_strong _ _ i x); [|done|done]. by assert (set_itable (k_itable s) s = s) as -> by (by destruct s).
Qed.

Lemma writei_loop_ok fuel : forall r kr H i x off tot n src s,
  ready (fuel * turn_bufs (k_sb s) + r) (3 * fuel + kr) H i x s -> 0 <= tot <= n -> 0 <= off -> off + (n - tot) <= 12 * BSIZE ->
  0 <= src -> src + (n - tot) < 2 ^ 64 -> apart src (n - tot) -> turns off (n - tot) < Z.of_nat fuel ->
  exists tot' s' x', writei_loop virtio_disk_rw kalloc kfree buf_addr fuel i 0 src off tot n s = Ok (tot', off + (tot' - tot)) s' /\
    tot <= tot' <= n /\ ready r kr H i x' s' /\ progress i x x' s s' /\
    (tot' < n -> forall b, 0 <= b < sb_size (k_sb s) -> used (view s') (k_sb s) b = true) /\
    (forall o, off <= o < off + (tot' - tot) -> addr_of (i_di x') (Z.to_nat (o / BSIZE)) <> 0) /\
    (forall o, 0 <= o < 12 * BSIZE ->
       content (view s') (i_di x') o = overwritten (content (view s) (i_di x)) (k_mem s) src off (tot' - tot) o).
Proof.
  induction fuel as [|fuel IH]; intros r kr H i x off tot n src s R Htot Ho Hmax Hs1 Hs2 Hap Hf.
  { pose proof (turns_nonneg off (n - tot) Ho ltac:(lia)). lia. }
  cbn [writei_loop]. destruct (Z.ltb_spec tot n) as [Hlt|Hge].
  2:{ exists tot, s, x. rewrite Z.sub_diag, Z.add_0_r. split; [done|]. split; [lia|].
      split; [eapply ready_weaken; [..|exact R]; lia|]. split; [apply progress_refl, R|]. split; [lia|]. split; [lia|].
      intros o Hor. by rewrite overwritten_none. }
  assert (0 <= off / BSIZE < NDIRECT) as Hbn by (unfold NDIRECT, BSIZE in *; zdm).
  destruct (bmap_ready (2 + (fuel * turn_bufs (k_sb s) + r)) (S (3 * fuel + kr)) H i x (off / BSIZE) s)
    as (a & s1 & x1 & E1 & R1 & P1 & Hfull & Hadr & Hcont & Hmem1); [|done|].
  { eapply ready_weaken; [..|exact R]; unfold turn_bufs; lia. }
  mstep E1. destruct (Z.eqb_spec a 0) as [Ha0|Ha0].
  { exists tot, s1, x1. rewrite Z.sub_diag, Z.add_0_r. split; [done|]. split; [lia|].
    split; [eapply ready_weaken; [..|exact R1]; lia|]. split; [done|]. split; [intros _ b Hb; apply (pg_used _ _ _ _ _ P1); auto|].
    split; [lia|]. intros o Hor. rewrite overwritten_none. by apply Hcont. }
  specialize (Hadr Ha0). pose proof R1 as [_ _ _ _ _ Hx1 Hdev1 Hf1].
  rewrite (bind_ok _ _ _ _ _ (inode_at i x1 i_dev s1 Hx1)), Hdev1.
  destruct (chunk_range off tot n Ho Hlt) as (Hc1 & Hc2 & Hc3).
  pose proof (turns_next off tot n Ho Hlt ltac:(unfold BSIZE in *; lia)) as Hturn. cbn zeta in Hturn.
  set (m := chunk_in_block off tot n) in *. assert (0 <= off mod BSIZE) by (apply Z.mod_pos_bound; done).
  destruct (write_chunk (fuel * turn_bufs (k_sb s) + r) (3 * fuel + kr) H i x1 (Z.to_nat (off / BSIZE)) (off mod BSIZE) src m s1)
    as (b & s2 & s3 & d & E2 & E3 & R3 & P3 & V3 & Hd); rewrite ?Hadr; try done; try lia.
  { unfold NDIRECT in Hbn. lia. } { intros b. destruct (Hap b); lia. }
  rewrite Hadr in E2, V3, Hd. mstep E2. rewrite E3. rewrite u64_small, u32_small by (unfold BSIZE in *; lia).
  assert (k_sb s3 = k_sb s) as Esb by (rewrite (progress_sb _ _ _ _ _ P3); by apply (progress_sb _ _ _ _ _ P1)).
  destruct (IH r kr H i x1 (off + m) (tot + m) n (src + m) s3) as (tot' & s' & x' & E & Ht & R' & P' & Hfull' & Hadr' & Hcont');
    rewrite ?Esb; try done; try lia.
  { intros b'. destruct (Hap b'); lia. }
  exists tot', s', x'. split; [rewrite E; f_equal; f_equal; lia|]. split; [lia|]. split; [done|].
  split; [eapply progress_trans; [exact P1|]; by eapply progress_trans|]. split; [by rewrite Esb in Hfull'|].
  split.
  { intros o Hor. destruct (Z.ltb_spec o (off + m)) as [Hom|Hom]; [|apply Hadr'; lia].
    destruct (chunk_block off (o - off)) as [Eb _]; [lia..|]. replace (off + (o - off)) with o in Eb by lia.
    rewrite Eb, (pg_addr _ _ _ _ _ P'); by rewrite Hadr. }
  intros o Hor. rewrite Hcont' by done. unfold overwritten at 1.
  rewrite (content_chunk (view s1) (view s3) (k_sb s1) H (i_di x1) off m d (fun j => rd8 (k_mem s1) (src + j)) o);
    rewrite ?Hadr; try done; try (unfold BSIZE in *; lia). rewrite Hcont by done. rewrite Hmem1.
  change (overwritten (overwritten (content (view s) (i_di x)) (k_mem s) src off m) (k_mem s3) (src + m) (off + m) (tot' - (tot + m)) o =
          overwritten (content (view s) (i_di x)) (k_mem s) src off (tot' - tot) o).
  rewrite overwritten_app; [f_equal; lia|lia|lia|]. intros j Hj. rewrite <- Hmem1. apply (pg_mem _ _ _ _ _ P3).
  intros b'. destruct (Hap b'); lia.
Qed.

(** The block of the inode itself is in use and not one of the file's. *)
Record home (H : gmap nat Z) (x : inode) (s : kernel) : Prop := {
  hm_inum : inum_ok (k_sb s) (i_inum x);
  hm_used : 0 <= IBLOCK (i_inum x) (k_sb s) < sb_size (k_sb s) /\ used (view s) (k_sb s) (IBLOCK (i_inum x) (k_sb s)) = true;
  hm_bits : bits_free (k_sb s) (IBLOCK (i_inum x) (k_sb s));
  hm_file : forall k, (k < 12)%nat -> addr_of (i_di x) k <> IBLOCK (i_inum x) (k_sb s);
  hm_held : not_held H (IBLOCK (i_inum x) (k_sb s))
}.

Lemma home_progress H i x x' s s' : home H x s -> progress i x x' s s' -> home H x' s'.
Proof.
  intros [H1 [H2 H3] H4 H5 H6] P. pose proof (progress_sb _ _ _ _ _ P) as Esb.
  assert (i_inum x' = i_inum x) as Ei by (by rewrite (pg_entry _ _ _ _ _ P)).
  destruct (pg_keep _ _ _ _ _ P _ H2 H3 H4 H5) as (_ & U & K). split; rewrite ?Esb, ?Ei; done.
Qed.

(** Setting the size and writing the inode back. *)
Lemma store_size n k H i x off s :
  let x' := if di_size (i_di x) <? off then in_di (di_set_size off (i_di x)) x else x in
  ready (S (S n)) (S k) H i x s -> home H x s -> dinode_ok (i_di x) -> 0 <= off < 2 ^ 32 -> i_lock x = mine p ->
  lock_free (L_inode i) s ->
  exists s', (do! (when! di_size (i_di x) <? off then upd_di i (di_set_size off)); iupdate virtio_disk_rw i) s = Ok tt s' /\
    ready n k H i x' s' /\ k_mem s' = k_mem s /\ k_sb s' = k_sb s /\ k_locks s' = k_locks s /\
    disk_inode (view s') (k_sb s) (i_inum x) = i_di x' /\
    (forall m, m <> IBLOCK (i_inum x) (k_sb s) -> view s' m = view s m).
Proof.
  intros x' R Hm Hok Hoff Hlock Hfree. pose proof R as [T B Hh Hp Hboot Hx Hdev Hf]. pose proof Hm as [M1 [M2 M2'] M3 M4 M5].
  set (s1 := upd_inode i (fun _ => x') s).
  assert ((when! di_size (i_di x) <? off then upd_di i (di_set_size off)) s = Ok tt s1) as E1.
  { unfold s1, x'. destruct (di_size (i_di x) <? off).
    - unfold upd_di, modify. f_equal. by apply (upd_inode_ext i _ _ x).
    - unfold ret. f_equal. unfold upd_inode. rewrite (alter_id_strong _ _ i x) by done. by destruct s. }
  assert (k_itable s1 !! i = Some x') as Hx1 by (cbn; by rewrite list_lookup_alter_eq, Hx).
  assert (i_dev x' = dev /\ i_inum x' = i_inum x /\ i_lock x' = mine p /\ dinode_ok (i_di x') /\
          (forall j, addr_of (i_di x') j = addr_of (i_di x) j) /\ length (di_addrs (i_di x')) = 13%nat) as (X1 & X2 & X3 & X4 & X5 & X6).
  { unfold x'. destruct (di_size (i_di x) <? off); cbn; repeat split; try done; try apply Hok; try apply Hoff; apply Hf. }
  destruct (iupdate_ok me p dev n k H i x' s1) as (s' & E & T' & S' & Hl & V); rewrite ?X2; try done; [by apply txn_inode|].
  change (k_sb s1) with (k_sb s) in *. rewrite X2 in *. set (ib := IBLOCK (i_inum x) (k_sb s)) in *.
  assert (forall m, m <> ib -> view s' m = view s m) as Hv.
  { intros m Hne. rewrite V. unfold set_view. by rewrite (proj2 (Z.eqb_neq _ _) Hne). }
  assert (ready (S (S n)) (S k) H i x' s1) as R1.
  { split; try done; [by apply txn_inode|]. destruct Hf as [F1 F2 F3]. split; [done| |].
    - intros j Hj. rewrite !X5. by apply F2.
    - intros j j' Hj Hj'. rewrite !X5. by apply F3. }
  exists s'. split; [by mstep E1|]. split.
  { apply (ready_step _ _ _ _ _ _ _ _ _ R1 T'); [by apply still_itable|by apply still_sb|by apply (still_print s1)|].
    intros b Hb. apply Hv. intros Eq. by apply (M3 b). }
  split; [by apply still_mem in S'|]. split; [by apply still_sb in S'|]. split; [apply S'|]. split; [|done].
  rewrite (disk_inode_upd (view s1) (view s') (k_sb s) (i_inum x) (i_inum x) (i_di x')) by done. by rewrite Z.eqb_refl.
Qed.

Lemma writei_ok r kr H i x off n src s :
  ready (block_fuel n * turn_bufs (k_sb s) + (2 + r)) (3 * block_fuel n + S kr) H i x s -> home H x s -> dinode_ok (i_di x) ->
  i_lock x = mine p -> lock_free (L_inode i) s -> 0 <= n -> 0 <= off <= di_size (i_di x) -> off + n <= 12 * BSIZE ->
  0 <= src -> src + n < 2 ^ 64 -> apart src n ->
  exists tot s' x', writei i 0 src off n s = Ok tot s' /\ 0 <= tot <= n /\ ready r kr H i x' s' /\ k_sb s' = k_sb s /\
    k_locks s' = k_locks s /\
    (tot < n -> forall b, 0 <= b < sb_size (k_sb s) -> used (view s') (k_sb s) b = true) /\
    di_size (i_di x') = Z.max (di_size (i_di x)) (off + tot) /\
    (forall o, off <= o < off + tot -> addr_of (i_di x') (Z.to_nat (o / BSIZE)) <> 0) /\
    (forall o, 0 <= o < 12 * BSIZE ->
       content (view s') (i_di x') o = overwritten (content (view s) (i_di x)) (k_mem s) src off tot o) /\
    disk_inode (view s') (k_sb s) (i_inum x) = i_di x' /\
    (forall a, apart a 1 -> rd8 (k_mem s') a = rd8 (k_mem s) a).
Proof.
  intros R Hm Hok Hlock Hfree Hn Hoff Hmax Hs1 Hs2 Hap. pose proof (do_size _ Hok) as Hsz.
  destruct (writei_loop_ok (block_fuel n) (2 + r) (S kr) H i x off 0 n src s) as (tot & s1 & x1 & E1 & Ht & R1 & P1 & Hfull & Hadr & Hcont);
    rewrite ?Z.sub_0_r in *; try done; try lia.
  { unfold turns, block_fuel, BSIZE in *. assert (0 <= off mod 1024 < 1024) by (apply Z.mod_pos_bound; lia). zcases.
    rewrite !Nat2Z.inj_succ, Z2Nat.id by zdm. zdm. }
  pose proof (home_progress _ _ _ _ _ _ Hm P1) as Hm1. pose proof (progress_sb _ _ _ _ _ P1) as Esb.
  pose proof (pg_entry _ _ _ _ _ P1) as Ex1. pose proof (pg_size _ _ _ _ _ P1) as Esz.
  assert (i_inum x1 = i_inum x) as En by (by rewrite Ex1).
  destruct (store_size r kr H i x1 (off + tot) s1) as (s2 & E2 & R2 & Hmem & Esb2 & Hlk & Hdisk & Hv); try done.
  { by apply (pg_ok _ _ _ _ _ P1). } { unfold BSIZE in *. lia. } { by rewrite Ex1. }
  { apply (still_free _ _ _ (pg_still _ _ _ _ _ P1)). done. }
  set (x2 := if di_size (i_di x1) <? off + tot then in_di (di_set_size (off + tot) (i_di x1)) x1 else x1) in *.
  assert (forall j, addr_of (i_di x2) j = addr_of (i_di x1) j) as Hax by (intros j; unfold x2; by destruct (_ <? _)).
  exists tot, s2, x2. split.
  { unfold Fs.writei. rewrite (bind_ok _ _ _ _ _ (inode_at i x i_di s (rd_entry _ _ _ _ _ _ R))).
    unfold BSIZE in *. rewrite (u32_small (off + n)) by lia.
    rewrite (proj2 (Z.ltb_ge (di_size (i_di x)) off)), (proj2 (Z.ltb_ge (off + n) off)) by lia. cbn [orb].
    change (MAXFILE * 1024) with 274432. rewrite (proj2 (Z.ltb_ge 274432 (off + n))) by lia.
    mstep E1. rewrite (bind_ok _ _ _ _ _ (inode_at i x1 i_di s1 (rd_entry _ _ _ _ _ _ R1))).
    apply bind_inv in E2 as (u & s1' & Ea & Eb). mstep Ea. mstep Eb. unfold ret. by rewrite s32_small by lia. }
  split; [done|]. split; [done|]. split; [congruence|]. split.
  { rewrite Hlk. by rewrite (sl_locks _ _ (pg_still _ _ _ _ _ P1)). }
  split. { intros Hlt b Hb. rewrite <- (Hfull Hlt b Hb). apply used_ext, Hv. intros Eq.
    apply (hm_bits _ _ _ Hm1 b); rewrite Esb in *; done. }
  split. { unfold x2. rewrite Esz. destruct (Z.ltb_spec (di_size (i_di x)) (off + tot)); cbn; lia. }
  split. { intros o Ho. rewrite Hax. by apply Hadr. }
  split. { intros o Ho. rewrite <- Hcont by done. unfold content at 1. rewrite !Hax. fold (content (view s2) (i_di x1) o).
    apply content_ext; [|done]. intros k Hk _. apply Hv. by apply (hm_file _ _ _ Hm1). }
  split. { rewrite <- Hdisk. by rewrite Esb, En. }
  intros a Ha. rewrite Hmem. by apply (pg_mem _ _ _ _ _ P1).
Qed.

End Content.
