(* ===== verification/FsProps.v ===== *)
(** * The file system's theorems (kernel/disk/fs.c)

    What balloc, bfree, ilock, iupdate, bmap, readi and writei promise, over any
    disk driver that keeps the contract [BlockDevice], and the theorems at a
    small concrete disk. *)

From S2P Require Import Prelude Mem CString State Spinlock Printf Locks PageAlloc Vm Sleep Bio Bytes BlockCache Log LogProps Commit LogWitness Fs Txn Bitmap Inode Dinode InodeIO Content.

Section Claims.
Context {virtio_disk_rw : nat -> Z -> KM unit} {dev_ok : BlockDevice virtio_disk_rw}.

(** C11: balloc takes the first block the bitmap has free: afterwards the bitmap has
    that block in use and is otherwise the same, the block is zero, and every
    other block but the bitmap's is as before. When no block is free, and only
    then, it returns 0 and changes nothing. The transaction stays consistent. *)
Theorem balloc_correct me p dev n k s :
  let sb := k_sb s in
  txn me p dev (bitmap_blocks sb + 5 + n) (S (S k)) ∅ s -> bitmap_ok (view dev s) sb ->
  k_panicked s = 0 -> k_panicking s = 0 -> lock_free L_pr s ->
  exists r s', balloc virtio_disk_rw dev s = Ok r s' /\ txn me p dev n k ∅ s' /\ still s s' /\
    (0 <= r < sb_size sb /\ used (view dev s) sb r = false /\
     (forall b, 0 <= b < r -> used (view dev s) sb b = true) /\
     (forall b, 0 <= b < sb_size sb -> used (view dev s') sb b = (b =? r) || used (view dev s) sb b) /\
     view dev s' r = replicate 1024 0 /\
     (forall m, m <> r -> m <> BBLOCK r sb -> view dev s' m = view dev s m) \/
     r = 0 /\ (forall b, 0 <= b < sb_size sb -> used (view dev s) sb b = true) /\
     (forall m, view dev s' m = view dev s m)).
Proof.
  intros sb T B H1 H2 H3. destruct (balloc_ok me p dev n k ∅ s T B) as (r & s' & E & T' & S' & Hc); try done.
  exists r, s'. do 3 (split; [done|]). destruct Hc as [[A1 A2 A3 A4 A5 A6]|Hc]; [left|by right]. by repeat (split; [done|]).
Qed.

(** Bfree of a block in use clears its bit and changes no other bit and no
    other block; after balloc it restores the bitmap balloc started from. *)
Theorem bfree_after_balloc me p dev n k s :
  let sb := k_sb s in
  txn me p dev (bitmap_blocks sb + 7 + n) (S (S (S k))) ∅ s -> bitmap_ok (view dev s) sb ->
  k_panicked s = 0 -> k_panicking s = 0 -> lock_free L_pr s ->
  (exists b, 0 <= b < sb_size sb /\ used (view dev s) sb b = false) ->
  exists s', (let! b := balloc virtio_disk_rw dev in bfree virtio_disk_rw dev b) s = Ok tt s' /\
    txn me p dev n k ∅ s' /\ still s s' /\
    (forall b, 0 <= b < sb_size sb -> used (view dev s') sb b = used (view dev s) sb b).
Proof.
  intros sb T B H1 H2 H3 (b0 & Hb0 & Hf0).
  destruct (balloc_ok me p dev (S (S n)) (S k) ∅ s) as (r & s1 & E & T1 & S1 & Hc); try done.
  { apply (txn_weaken me p dev (bitmap_blocks sb + 7 + n) _ (S (S (S k))) _); [unfold bitmap_blocks, sb; lia|lia|exact T]. }
  destruct Hc as [A|(_ & Hall & _)]; [|rewrite Hall in Hf0; done]. pose proof A as [A1 A2 A3 A4 A5 A6].
  pose proof (still_sb _ _ S1) as Esb. fold sb in A1, A2, A3, A4, A6.
  assert (forall b, 0 <= b < sb_size sb -> 0 <= BBLOCK b sb < sb_size sb) as Hin.
  { intros b Hb. split; [unfold BBLOCK; apply u32_range|by apply (bo_inside _ _ B)]. }
  assert (bitmap_ok (view dev s1) sb) as B1.
  { destruct B as [B1 B2 B3 B4]. split; try done. intros b Hb. rewrite A4 by auto. rewrite B3 by done. apply orb_true_r. }
  destruct (bfree_ok me p dev n k ∅ r s1) as (s2 & E2 & T2 & S2 & U2 & V2); rewrite ?Esb; try done.
  { fold sb. rewrite A4 by done. by rewrite Z.eqb_refl. }
  exists s2. split; [by mstep E|]. split; [done|]. split; [by transitivity s1|].
  rewrite Esb in U2. fold sb in U2. intros b Hb. rewrite U2, A4 by done.
  destruct (Z.eqb_spec b r) as [->|]; [by rewrite A2|done].
Qed.

(** C18: iupdate followed by ilock is a round trip through the inode's 64 bytes: after
    iupdate the disk has the inode, every other inode and every other block is
    as before, and ilock of an entry for the same inode that has not been read
    yet loads exactly the fields iupdate stored, and locks the entry. *)
Theorem inode_roundtrip me p dev n k i x s :
  let sb := k_sb s in
  txn me p dev (S (S n)) (S k) ∅ s -> k_itable s !! i = Some x -> i_dev x = dev -> i_lock x = mine p ->
  lock_free (L_inode i) s -> inum_ok sb (i_inum x) -> dinode_ok (i_di x) -> di_type (i_di x) <> 0 ->
  exists s1, iupdate virtio_disk_rw i s = Ok tt s1 /\ txn me p dev n k ∅ s1 /\ still s s1 /\
    disk_inode (view dev s1) sb (i_inum x) = i_di x /\
    (forall inum, inum_ok sb inum -> inum <> i_inum x -> disk_inode (view dev s1) sb inum = disk_inode (view dev s) sb inum) /\
    (forall m, m <> IBLOCK (i_inum x) sb -> view dev s1 m = view dev s m) /\
    forall n' k' j y s2, txn me p dev (S n') k' ∅ s2 -> (forall m, view dev s2 m = view dev s1 m) -> k_sb s2 = sb ->
      k_itable s2 !! j = Some y -> i_dev y = dev -> i_inum y = i_inum x -> i_valid y = 0 -> 1 <= i_ref y ->
      sl_locked (i_lock y) = 0 -> lock_free (L_inode j) s2 ->
      exists s3 y', ilock virtio_disk_rw j s2 = Ok tt s3 /\ k_itable s3 !! j = Some y' /\
        i_di y' = i_di x /\ i_valid y' = 1 /\ i_lock y' = mine p /\ i_ref y' = i_ref y.
Proof.
  intros sb T Hx Hdev Hlock Hfree Hin Hok Hty.
  destruct (iupdate_ok me p dev n k ∅ i x s) as (s1 & E1 & T1 & S1 & Hl & V1); try done. fold sb in Hl, V1.
  assert (forall inum, inum_ok sb inum -> disk_inode (view dev s1) sb inum =
            if inum =? i_inum x then i_di x else disk_inode (view dev s) sb inum) as Hd
    by (intros inum Hi; by apply (disk_inode_upd (view dev s))).
  exists s1. split; [done|]. split; [done|]. split; [done|]. split; [rewrite Hd by done; by rewrite Z.eqb_refl|].
  split; [intros inum Hi Hne; rewrite Hd by done; by rewrite (proj2 (Z.eqb_neq _ _) Hne)|].
  split; [intros m Hne; rewrite V1; unfold set_view; by rewrite (proj2 (Z.eqb_neq _ _) Hne)|].
  intros n' k' j y s2 T2 V2 Esb Hy Yd Yi Yv Yr Yl Yf.
  assert (disk_inode (view dev s2) sb (i_inum y) = i_di x) as Hdy.
  { unfold disk_inode. rewrite V2, Yi. fold (disk_inode (view dev s1) sb (i_inum x)). rewrite Hd by done. by rewrite Z.eqb_refl. }
  destruct (ilock_ok me p dev n' k' ∅ j y s2) as (s3 & E3 & T3 & S3 & V3); rewrite ?Esb, ?Yi, ?Hdy; try done.
  { rewrite <- Yi, Hdy. done. }
  exists s3, (loaded p (i_di x) y). split; [done|]. split.
  { rewrite (still_itable _ _ S3). cbn. rewrite list_lookup_alter_eq, Hy. cbn. by rewrite Esb, Hdy. }
  unfold loaded. rewrite Yv. done.
Qed.

(** Bmap takes the address of an indirect block from the words of the buffer
    structure instead of its data (the [->data] ended up in a comment): block
    15 of a file that has an indirect block is mapped to the indirect block
    itself, whatever addresses the indirect block holds. *)
Theorem bmap_indirect_self me p dev n k i x s :
  let a := addr_of (i_di x) 12 in
  txn me p dev (S n) k ∅ s -> k_itable s !! i = Some x -> i_dev x = dev -> a <> 0 -> 0 <= a < 2 ^ 31 ->
  exists s', bmap virtio_disk_rw i 15 s = Ok a s' /\ still s s' /\ (forall m, view dev s' m = view dev s m).
Proof.
  intros a T Hx Hdev Ha Hr. destruct (txn_bread me p dev n k ∅ a s T Hr) as (b & s1 & E1 & Hb & T1 & S1 & V1 & _); [done|].
  pose proof (lookup_insert_eq ∅ b a) as Hin. destruct (held_view _ _ _ _ _ _ _ _ (tx_inv _ _ _ _ _ _ _ T1) Hin) as (bb & Hbb & _ & Hbn & _).
  destruct (txn_brelse me p dev n k _ b a s1 T1 Hin) as (s2 & E2 & _ & S2 & V2 & _).
  exists s2. split; [|split; [by transitivity s1|intros m; by rewrite V2]].
  unfold bmap. rewrite (bind_ok _ _ _ _ _ (inode_at i x i_dev s Hx)), Hdev. change (15 <? NDIRECT) with false.
  change (15 - NDIRECT <? NINDIRECT) with true. change (Z.to_nat NDIRECT) with 12%nat. cbn [negb].
  rewrite (bind_ok _ _ _ _ _ (inode_at i x i_di s Hx)). fold a. rewrite (proj2 (Z.eqb_neq a 0) Ha).
  unfold bind at 1, ret at 1. rewrite (proj2 (Z.eqb_neq a 0) Ha). mstep E1.
  unfold bind at 1, buf_get, get at 1. rewrite Hbb. cbn [default from_option id]. change (15 - NDIRECT) with 3.
  change (buf_word bb 3) with (Some (b_blockno bb)). rewrite Hbn. cbn beta iota. rewrite (proj2 (Z.eqb_neq a 0) Ha).
  unfold bind at 1, ret at 1. by mstep E2.
Qed.

Section Contents.
Context (kalloc : KM Z) (kfree : Z -> KM unit) (buf_addr : nat -> Z).

(** Readi from a file whose blocks are mapped, into the kernel's memory: it
    returns the number of bytes up to the end of the file, at most those asked
    for, the destination holds the file's bytes from the offset on, and no
    memory changes but the destination and the buffers' own. *)
Theorem readi_correct me p dev r k i x dst off n s :
  let c := readable (i_di x) off n in
  txn me p dev (block_fuel c + r) k ∅ s -> k_itable s !! i = Some x -> i_dev x = dev -> 0 <= n < 2 ^ 31 ->
  0 <= off <= di_size (i_di x) -> di_size (i_di x) <= NDIRECT * BSIZE -> mapped ∅ (i_di x) off (off + c) ->
  0 <= dst -> dst + n < 2 ^ 64 -> apart buf_addr dst c ->
  exists s', readi virtio_disk_rw kalloc kfree buf_addr i 0 dst off n s = Ok c s' /\ txn me p dev r k ∅ s' /\
    c = Z.min n (di_size (i_di x) - off) /\ (forall m, view dev s' m = view dev s m) /\
    rd_bytes (k_mem s') dst (Z.to_nat c) = (fun j => content (view dev s) (i_di x) (off + Z.of_nat j)) <$> seq 0 (Z.to_nat c) /\
    (forall a, a < dst \/ dst + c <= a -> apart buf_addr a 1 -> rd8 (k_mem s') a = rd8 (k_mem s) a).
Proof.
  intros c T Hx Hdev Hn Ho Hs Hm Hd1 Hd2 Hap.
  destruct (readi_ok kalloc kfree buf_addr me p dev r k ∅ i x dst off n s) as (s' & E & T' & S' & V & R1 & R2); try done.
  exists s'. split; [done|]. split; [done|]. split; [unfold c, readable; zcases|]. split; [done|]. split; [|done].
  apply list_fmap_ext. intros j y Hj. apply lookup_seq in Hj as [-> Hj]. apply R1. fold c. lia.
Qed.

(** C9: writei of [n] bytes from the kernel's memory, within the direct blocks: it
    writes a prefix of the bytes and returns its length, all of them unless the
    disk has no free block left. The file's contents are the old ones with the
    prefix at the offset, blocks being allocated where there were none; its size
    is the larger of the old size and the end of the write; the inode is on the
    disk; the bitmap, the inode's block and the file's blocks stay apart. *)
Theorem writei_correct me p dev r kr i x off n src s :
  ready me p dev (block_fuel n * turn_bufs (k_sb s) + (2 + r)) (3 * block_fuel n + S kr) ∅ i x s -> home dev ∅ x s ->
  dinode_ok (i_di x) -> i_lock x = mine p -> lock_free (L_inode i) s -> 0 <= n -> 0 <= off <= di_size (i_di x) ->
  off + n <= NDIRECT * BSIZE -> 0 <= src -> src + n < 2 ^ 64 -> apart buf_addr src n ->
  exists tot s' x', writei virtio_disk_rw kalloc kfree buf_addr i 0 src off n s = Ok tot s' /\ 0 <= tot <= n /\
    (tot < n -> forall b, 0 <= b < sb_size (k_sb s) -> used (view dev s') (k_sb s) b = true) /\
    k_itable s' !! i = Some x' /\ ready me p dev r kr ∅ i x' s' /\ k_locks s' = k_locks s /\
    di_size (i_di x') = Z.max (di_size (i_di x)) (off + tot) /\
    (forall o, 0 <= o < NDIRECT * BSIZE -> content (view dev s') (i_di x') o =
       if (off <=? o) && (o <? off + tot) then rd8 (k_mem s) (src + (o - off)) else content (view dev s) (i_di x) o) /\
    disk_inode (view dev s') (k_sb s) (i_inum x) = i_di x'.
Proof.
  intros R Hm Hok Hlock Hfree Hn Ho Hmax Hs1 Hs2 Hap.
  destruct (writei_ok kalloc kfree buf_addr me p dev r kr ∅ i x off n src s)
    as (tot & s' & x' & E & Ht & R' & Esb & Hlk & Hfull & Hsz & Hadr & Hcont & Hdisk & Hmem); try done.
  exists tot, s', x'. do 3 (split; [done|]). split; [apply R'|]. by repeat (split; [done|]).
Qed.


End Contents.
End Claims.

(** ** A small disk

    A hundred blocks on device 1: the log at block 2, inodes from block 32 on, the
    bitmap in block 45, which has the first 47 blocks in use; inode 7 is an empty
    file, in entry 0 of the table and locked by the process. *)

#[local] Opaque fresh_cache.

Definition small_sb : superblock :=
  {| sb_magic := FSMAGIC; sb_size := 100; sb_nblocks := 53; sb_ninodes := 200; sb_nlog := 30; sb_logstart := 2;
     sb_inodestart := 32; sb_bmapstart := 45 |}.

Definition small_bitmap : list Z := [255; 255; 255; 255; 255; 127] ++ replicate 1018 0.

Definition small_disk : gmap Z (list Z) := {[45 := small_bitmap]}.

Definition empty_file : dinode := di_set_type T_FILE (di_set_nlink 1 dinode_zero).

Definition file7 (di : dinode) : inode :=
  {| i_dev := 1; i_inum := 7; i_ref := 1; i_lock := {| sl_locked := 1; sl_pid := 1 |}; i_valid := 1; i_di := di |}.

Definition mounted_at (sb : superblock) (t : list inode) (m : mem) (s : kernel) : kernel :=
  set_mem m (set_itable t (set_sb sb (with_log (demo_log 0 []) s))).

Definition mounted_on (t : list inode) (m : mem) (s : kernel) : kernel := mounted_at small_sb t m s.

Definition mounted (t : list inode) (m : mem) : kernel := mounted_on t m (rebooted small_disk).

Lemma mounted_at_txn sb d n k t m :
  (n <= 90)%nat -> (k <= 90)%nat -> map_Forall (fun _ b => length b = 1024%nat) d -> txn 0 first_process 1 n k ∅ (mounted_at sb t m (rebooted d)).
Proof.
  intros Hn Hk Hd. assert (inv 0 first_process 1 n ∅ (rebooted d)) as Hs by (by apply rebooted_inv).
  assert (lock_free L_log (rebooted d)) as Hl by (apply set_disk_free, fresh_locks; right; right; left).
  pose proof (rebooted_view d) as Hv. generalize dependent (rebooted d). intros s Hs Hl Hv.
  split.
  - apply (inv_frame 0 first_process 1 n ∅ (with_log (demo_log 0 []) s)); [by apply inv_upd_log|by left|done..].
  - apply demo_log_wf.
  - cbn. lia.
  - cbn. lia.
  - exact Hl.
  - intros m' Hm. by apply elem_of_nil in Hm.
  - intros m' _. exact (Hv m').
Qed.

Lemma mounted_txn n k t m : (n <= 90)%nat -> (k <= 90)%nat -> txn 0 first_process 1 n k ∅ (mounted t m).
Proof. intros Hn Hk. refine (mounted_at_txn small_sb small_disk n k t m Hn Hk _). refine (bool_decide_eq_true_1 _ _). vm_compute. reflexivity. Qed.

Lemma mounted_on_view t m s m' : view 1 (mounted_on t m s) m' = view 1 s m'.
Proof. done. Qed.

Lemma mounted_view t m m' : view 1 (mounted t m) m' = dblock small_disk m'.
Proof. unfold mounted. by rewrite mounted_on_view, rebooted_view. Qed.

Lemma small_BBLOCK b : 0 <= b < 100 -> BBLOCK b small_sb = 45.
Proof. intros Hb. unfold BBLOCK, BPB, BSIZE. rewrite Z.quot_div_nonneg by lia. rewrite Z.div_small by lia. reflexivity. Qed.

Lemma small_used t m b : 0 <= b < 100 -> used (view 1 (mounted t m)) small_sb b = (b <? 47).
Proof.
  intros Hb. unfold used. rewrite small_BBLOCK, mounted_view by done.
  assert (forallb (fun b => Bool.eqb (bit (dblock small_disk 45) (b mod BPB)) (b <? 47)) (Z.of_nat <$> seq 0 100) = true) as H
    by (vm_compute; reflexivity).
  rewrite forallb_forall in H. apply Bool.eqb_prop, H. apply list_elem_of_In, list_elem_of_fmap. exists (Z.to_nat b).
  split; [lia|]. apply elem_of_seq. lia.
Qed.

Lemma mounted_bitmap t m : bitmap_ok (view 1 (mounted t m)) (k_sb (mounted t m)).
Proof.
  change (k_sb (mounted t m)) with small_sb. split; [cbn; lia|cbn; lia|..]; intros b Hb; change (sb_size small_sb) with 100 in *.
  - rewrite small_BBLOCK by done. by rewrite small_used by lia.
  - by rewrite small_BBLOCK.
Qed.

Lemma mounted_free t m l :
  l ∈ L_bcache :: L_vdisk :: L_log :: L_pr :: (L_proc <$> seq 0 64) ++ (L_buf <$> seq 0 90) -> lock_free l (mounted t m).
Proof. intros Hl. apply fresh_locks in Hl. unfold mounted, rebooted. generalize dependent fresh_cache. intros s Hl. exact Hl. Qed.

Lemma mounted_pr t m : lock_free L_pr (mounted t m).
Proof. apply mounted_free. do 3 right. left. Qed.

Lemma mounted_panic t m : k_panicked (mounted t m) = 0 /\ k_panicking (mounted t m) = 0.
Proof. split; vm_compute; reflexivity. Qed.

Lemma mounted_inode_lock t m : lock_free (L_inode 0) (mounted t m).
Proof.
  assert (lock_free (L_inode 0) fresh_cache) as Hl.
  { apply (locks_free_b [L_inode 0] fresh_cache); [vm_compute; reflexivity|left]. }
  unfold mounted, rebooted. generalize dependent fresh_cache. intros s Hl. exact Hl.
Qed.

Lemma balloc_correct_witness :
  exists s', balloc ideal_rw 1 (mounted [] ∅) = Ok 47 s' /\ used (view 1 s') small_sb 47 = true.
Proof.
  destruct (balloc_correct 0 first_process 1 0 0 (mounted [] ∅)) as (r & s' & E & _ & _ & Hc).
  - apply mounted_txn; vm_compute; lia.
  - apply mounted_bitmap.
  - apply mounted_panic.
  - apply mounted_panic.
  - apply mounted_pr.
  - change (k_sb (mounted [] ∅)) with small_sb in Hc. change (sb_size small_sb) with 100 in Hc.
    destruct Hc as [(Hr & Hf & Hlow & Hu & _)|(_ & Hall & _)].
    + assert (r = 47) as ->.
      { rewrite small_used in Hf by done. zbool. destruct (Z.eqb_spec r 47) as [|Hne]; [done|].
        specialize (Hlow 47 ltac:(lia)). by rewrite small_used in Hlow by lia. }
      exists s'. split; [exact E|]. by rewrite Hu by lia.
    + specialize (Hall 50 ltac:(lia)). by rewrite small_used in Hall by lia.
Defined.

Lemma bfree_after_balloc_witness :
  exists s', (let! b := balloc ideal_rw 1 in bfree ideal_rw 1 b) (mounted [] ∅) = Ok tt s' /\
    used (view 1 s') small_sb 47 = false.
Proof.
  destruct (bfree_after_balloc 0 first_process 1 0 0 (mounted [] ∅)) as (s' & E & _ & _ & Hu).
  - apply mounted_txn; vm_compute; lia.
  - apply mounted_bitmap.
  - apply mounted_panic.
  - apply mounted_panic.
  - apply mounted_pr.
  - exists 47. split; [split; [discriminate|reflexivity]|]. apply (small_used [] ∅ 47). lia.
  - exists s'. split; [exact E|]. change (k_sb (mounted [] ∅)) with small_sb in Hu. rewrite Hu by (cbn; lia).
    apply (small_used [] ∅ 47). lia.
Defined.

Lemma empty_file_ok : dinode_ok empty_file.
Proof.
  split; try (split; [discriminate|reflexivity]). split; [reflexivity|]. apply Forall_forall. intros a Ha. apply elem_of_replicate in Ha as [-> _]. lia.
Qed.

Lemma inode_roundtrip_witness :
  exists s1, iupdate ideal_rw 0 (mounted [file7 empty_file] ∅) = Ok tt s1 /\
    disk_inode (view 1 s1) small_sb 7 = empty_file.
Proof.
  destruct (inode_roundtrip 0 first_process 1 0 0 0 (file7 empty_file) (mounted [file7 empty_file] ∅))
    as (s1 & E & _ & _ & Hd & _).
  - apply mounted_txn; lia.
  - reflexivity.
  - reflexivity.
  - reflexivity.
  - apply mounted_inode_lock.
  - split; cbn; lia.
  - apply empty_file_ok.
  - discriminate.
  - exists s1. split; [exact E|exact Hd].
Defined.

(** The same file with an indirect block. *)
Definition indirect_file : dinode := di_set_addr 12 60 empty_file.

Lemma bmap_indirect_self_witness :
  exists s', bmap ideal_rw 0 15 (mounted [file7 indirect_file] ∅) = Ok 60 s'.
Proof.
  destruct (bmap_indirect_self 0 first_process 1 0 0 0 (file7 indirect_file) (mounted [file7 indirect_file] ∅)) as (s' & E & _).
  - apply mounted_txn; lia.
  - reflexivity.
  - reflexivity.
  - discriminate.
  - cbn. lia.
  - exists s'. exact E.
Defined.

(** Five bytes at address 0; the buffers' data from 1 MB on. *)
Definition demo_buf_addr (b : nat) : Z := 1048576 + 2048 * Z.of_nat b.
Definition five_bytes : mem := wr_bytes ∅ 0 [104; 101; 108; 108; 111].

Lemma demo_apart a len : a + len <= 1048576 -> apart demo_buf_addr a len.
Proof. intros H b. left. unfold demo_buf_addr. lia. Qed.

Abbreviation demo := (mounted [file7 empty_file] five_bytes).

Lemma demo_file_ok v : file_ok v small_sb ∅ empty_file.
Proof.
  assert (forall k, addr_of empty_file k = 0) as Hz.
  { intros k. unfold addr_of. cbn [empty_file di_set_type di_set_nlink di_addrs dinode_zero].
    destruct (replicate 13 0 !! k) as [a|] eqn:E; [|reflexivity]. by apply lookup_replicate in E as [-> _]. }
  split; [reflexivity|..].
  - intros k Hk Ha. by rewrite Hz in Ha.
  - intros j k _ _ Ha. by rewrite Hz in Ha.
Qed.

Lemma file_demo_ready n k : (n <= 90)%nat -> (k <= 90)%nat -> ready 0 first_process 1 n k ∅ 0 (file7 empty_file) demo.
Proof.
  intros Hn Hk. split.
  - by apply mounted_txn.
  - apply mounted_bitmap.
  - intros i m Hi. by rewrite lookup_empty in Hi.
  - split; [apply mounted_panic|]. split; [apply mounted_panic|apply mounted_pr].
  - apply (small_used _ _ 0). lia.
  - reflexivity.
  - reflexivity.
  - apply demo_file_ok.
Qed.

Lemma file_demo_home : home 1 ∅ (file7 empty_file) demo.
Proof.
  change (i_inum (file7 empty_file)) with 7. split; change (k_sb demo) with small_sb.
  - split; cbn; lia.
  - change (IBLOCK 7 small_sb) with 32. split; [split; [discriminate|reflexivity]|]. apply (small_used _ _ 32). lia.
  - intros b Hb. rewrite small_BBLOCK by exact Hb. discriminate.
  - intros k Hk. do 12 (destruct k as [|k]; [discriminate|]). lia.
  - by intros ???.
Qed.

Abbreviation no_alloc := (ret 0 : KM Z).
Abbreviation no_free := (fun _ : Z => ret tt : KM unit).

Lemma writei_correct_witness :
  exists tot s', writei ideal_rw no_alloc no_free demo_buf_addr 0 0 0 0 5 demo = Ok tot s' /\ 0 <= tot <= 5.
Proof.
  destruct (writei_correct no_alloc no_free demo_buf_addr 0 first_process 1 0 0 0 (file7 empty_file) 0 5 0 demo)
    as (tot & s' & x' & E & Ht & _).
  - apply file_demo_ready; vm_compute; lia.
  - apply file_demo_home.
  - apply empty_file_ok.
  - reflexivity.
  - apply mounted_inode_lock.
  - lia.
  - cbn. lia.
  - vm_compute. congruence.
  - lia.
  - lia.
  - apply demo_apart. lia.
  - exists tot, s'. split; [exact E|exact Ht].
Defined.


(** A file of one block, block 60. *)
Definition short_file : dinode := di_set_size 3 (di_set_addr 0 60 empty_file).

Lemma readi_correct_witness :
  exists s', readi ideal_rw no_alloc no_free demo_buf_addr 0 0 100 0 16 (mounted [file7 short_file] ∅) = Ok 3 s' /\
    rd_bytes (k_mem s') 100 3 = [0; 0; 0].
Proof.
  destruct (readi_correct no_alloc no_free demo_buf_addr 0 first_process 1 0 0 0 (file7 short_file) 100 0 16
              (mounted [file7 short_file] ∅)) as (s' & E & _ & _ & _ & Hb & _).
  - apply mounted_txn; vm_compute; lia.
  - reflexivity.
  - reflexivity.
  - lia.
  - cbn. lia.
  - vm_compute. congruence.
  - split; [lia|]. split; [vm_compute; congruence|]. intros o Ho. change (readable (i_di (file7 short_file)) 0 16) with 3 in Ho.
    assert (o / BSIZE = 0) as -> by (unfold BSIZE; zdm). split; [discriminate|].
    split; [split; [discriminate|reflexivity]|by intros ???].
  - lia.
  - lia.
  - apply demo_apart. vm_compute. congruence.
  - exists s'. split; [exact E|]. etransitivity; [exact Hb|]. vm_compute. reflexivity.
Defined.
