(* ===== verification/Directory.v ===== *)
(** * Directories (dirlookup, ialloc and namex, kernel/disk/fs.c)

    A directory is a file of entries of 16 bytes. dirlookup is compared with the search of the
    first entry that has the name; ialloc with the search of the first free inode. *)

From S2P Require Import Prelude Mem CString State Spinlock Printf Locks PageAlloc Vm Sleep Bio Bytes BlockCache Log LogProps Commit Fs Path Txn Bitmap Inode Dinode InodeIO Content.

(** Entry [j] of a directory, as the kernel reads it. *)
Definition dirent (v : Z -> list Z) (di : dinode) (j : nat) : list Z := content v di <$> seqZ (16 * Z.of_nat j) 16.

(** The entry is in use and has the name. *)
Definition names (name de : list Z) : bool := negb (de_inum de =? 0) && (lstrncmp (Z.to_nat DIRSIZ) name (de_name de) =? 0).

Definition entries (di : dinode) : nat := Z.to_nat (di_size di / 16).

(** A directory whose blocks are all there. *)
Record dir_ok (H : gmap nat Z) (di : dinode) : Prop := {
  dk_type : di_type di = T_DIR;
  dk_size : 0 <= di_size di <= 12 * BSIZE /\ di_size di mod 16 = 0;
  dk_mapped : mapped H di 0 (di_size di)
}.

Lemma entry_turns j : turns (16 * Z.of_nat j) 16 = 1.
Proof. unfold turns, BSIZE. change (16 =? 0) with false. cbn match. zdm. Qed.

Lemma still_set_mem m m' s s' : still (set_mem m s) s' -> still (set_mem m' s) (set_mem m' s').
Proof.
  intros [L P R]. split; [done|done|]. unfold rest in *. cbn in *. injection R as -> ? -> -> -> -> -> -> ->. done.
Qed.

Section Directory.
Context {virtio_disk_rw : nat -> Z -> KM unit} {dev_ok : BlockDevice virtio_disk_rw}.
Context (kalloc : KM Z) (kfree : Z -> KM unit) (buf_addr : nat -> Z) (stack : Z).
Context (me : nat) (p : PCB) (dev : Z).
Abbreviation txn := (txn me p dev).
Abbreviation view := (view dev).
Abbreviation read_de := (read_de virtio_disk_rw kalloc kfree buf_addr stack).
Abbreviation dirlookup_loop := (dirlookup_loop virtio_disk_rw kalloc kfree buf_addr stack).
Abbreviation dirlookup := (dirlookup virtio_disk_rw kalloc kfree buf_addr stack).

(** Only the struct dirent on the stack and the buffers' own memory change. *)
Record scanned (s s' : kernel) : Prop := {
  sc_still : still (set_mem (k_mem s') s) s';
  sc_view : forall m, view s' m = view s m;
  sc_mem : forall a, a < stack \/ stack + 16 <= a -> apart buf_addr a 1 -> rd8 (k_mem s') a = rd8 (k_mem s) a
}.

Lemma scanned_refl s : scanned s s.
Proof. split; [rewrite set_mem_id; reflexivity|done|done]. Qed.

Lemma scanned_trans s s1 s2 : scanned s s1 -> scanned s1 s2 -> scanned s s2.
Proof.
  intros [A1 A2 A3] [B1 B2 B3]. split.
  - transitivity (set_mem (k_mem s2) s1); [|done]. by eapply still_set_mem.
  - intros m. by rewrite B2.
  - intros a H1 H2. by rewrite B3, A3.
Qed.

(** The local variable of the code. *)
Definition stack_ok : Prop := 0 <= stack /\ stack + 16 < 2 ^ 64 /\ apart buf_addr stack 16.

Lemma read_de_ok r k H i x j msg s :
  txn (S r) k H s -> k_itable s !! i = Some x -> i_dev x = dev -> dir_ok H (i_di x) -> (j < entries (i_di x))%nat -> stack_ok ->
  exists s', read_de i (16 * Z.of_nat j) msg s = Ok (dirent (view s) (i_di x) j) s' /\ txn r k H s' /\ scanned s s'.
Proof.
  intros T Hx Hdev [_ [[D1 D2] D3] Dm] Hj (S1 & S2 & S3). unfold entries in Hj. unfold BSIZE in D2.
  assert (16 * Z.of_nat j + 16 <= di_size (i_di x)) as Hend by zdm.
  assert (readable (i_di x) (16 * Z.of_nat j) 16 = 16) as Hc by (unfold readable; zcases).
  destruct (readi_turns_ok kalloc kfree buf_addr me p dev r k H i x stack (16 * Z.of_nat j) 16 s) as (s' & E & T' & St & V & R1 & R2);
    rewrite ?Hc; try done; try (unfold BSIZE; lia).
  - by rewrite entry_turns.
  - destruct Dm as (_ & M2 & M3). split; [lia|]. split; [unfold BSIZE; lia|]. intros o Ho. apply M3. lia.
  - exists s'. rewrite Hc in E, R1, R2. split; [|split; [done|split; [done|done|exact R2]]].
    unfold Fs.read_de. change sizeof_dirent with 16. mstep E. change (negb (16 =? 16)) with false. cbn match. unfold get. f_equal.
    apply list_eq. intros n. destruct (decide (n < 16)%nat) as [Hn|Hn].
    + rewrite lookup_rd_bytes by (cbn; lia). unfold dirent. rewrite list_lookup_fmap, lookup_seqZ_lt by lia. cbn. by rewrite R1 by lia.
    + rewrite !lookup_ge_None_2; [done|unfold dirent; rewrite length_fmap, length_seqZ; lia|rewrite length_rd_bytes; cbn; lia].
Qed.

Lemma scanned_itable s s' : scanned s s' -> k_itable s' = k_itable s.
Proof. intros [S _ _]. by rewrite (still_itable _ _ S). Qed.
Lemma scanned_free l s s' : scanned s s' -> lock_free l s -> lock_free l s'.
Proof. intros [S _ _] Hl. by apply (still_free l _ _ S). Qed.

Lemma dirent_ext v v' di j : (forall m, v' m = v m) -> dirent v' di j = dirent v di j.
Proof. intros Hv. unfold dirent, content. apply list_fmap_ext. intros n o _. by rewrite Hv. Qed.

(** The loop passes over the entries that do not have the name. *)
Lemma dirlookup_skip name d : forall fuel r k H i x j s,
  txn (d + r) k H s -> k_itable s !! i = Some x -> i_dev x = dev -> dir_ok H (i_di x) -> (j + d <= entries (i_di x))%nat -> stack_ok ->
  (forall e, (j <= e < j + d)%nat -> names name (dirent (view s) (i_di x) e) = false) ->
  exists s', dirlookup_loop (d + fuel) i name (16 * Z.of_nat j) s = dirlookup_loop fuel i name (16 * Z.of_nat (j + d)) s' /\
    txn r k H s' /\ scanned s s'.
Proof.
  induction d as [|d IH]; intros fuel r k H i x j s T Hx Hdev Hdir Hj Hst Hno.
  { exists s. rewrite Nat.add_0_r. split; [done|]. split; [done|apply scanned_refl]. }
  destruct (read_de_ok (d + r) k H i x j "dirlookup read" s T Hx Hdev Hdir ltac:(lia) Hst) as (s1 & E1 & T1 & S1).
  pose proof (Hno j ltac:(lia)) as Hj0. pose proof (dk_size _ _ Hdir) as [[D1 D2] D3]. unfold BSIZE, entries in *.
  assert (0 <= 16 * Z.of_nat j < di_size (i_di x)) as Hlt by zdm.
  assert (k_itable s1 !! i = Some x) as Hx1 by (by rewrite (scanned_itable _ _ S1)).
  destruct (IH fuel r k H i x (S j) s1) as (s2 & E2 & T2 & S2); try done; [lia| |].
  { intros e He. rewrite (dirent_ext (view s)); [apply Hno; lia|apply (sc_view _ _ S1)]. }
  exists s2. split; [|split; [done|by eapply scanned_trans]].
  replace (j + S d)%nat with (S j + d)%nat by lia. rewrite <- E2. cbn [Nat.add Fs.dirlookup_loop].
  rewrite (bind_ok _ _ _ _ _ (inode_at i x i_di s Hx)). rewrite (proj2 (Z.ltb_lt _ _)) by lia. mstep E1.
  change sizeof_dirent with 16. rewrite u32_small by lia. replace (16 * Z.of_nat j + 16) with (16 * Z.of_nat (S j)) by lia.
  unfold names in Hj0. destruct (de_inum _ =? 0); [done|]. cbn [negb andb] in Hj0. by rewrite Hj0.
Qed.

Lemma dir_fuel_enough di d : 0 <= di_size di -> (d <= entries di)%nat -> exists f, dir_fuel (di_size di) = (d + S f)%nat.
Proof. intros H0 Hd. exists (S (entries di) - d)%nat. unfold dir_fuel, entries in *. change sizeof_dirent with 16. lia. Qed.

(** No entry has the name. *)
Lemma dirlookup_absent name r k H i x s :
  txn (entries (i_di x) + r) k H s -> k_itable s !! i = Some x -> i_dev x = dev -> dir_ok H (i_di x) -> stack_ok ->
  (forall e, (e < entries (i_di x))%nat -> names name (dirent (view s) (i_di x) e) = false) ->
  exists s', dirlookup i name s = Ok None s' /\ txn r k H s' /\ scanned s s'.
Proof.
  intros T Hx Hdev Hdir Hst Hno. pose proof (dk_size _ _ Hdir) as [[D1 D2] D3].
  destruct (dir_fuel_enough (i_di x) (entries (i_di x)) D1 ltac:(lia)) as [f Ef].
  destruct (dirlookup_skip name (entries (i_di x)) (S f) r k H i x 0 s) as (s1 & E1 & T1 & S1); try done; [intros e He; apply Hno; lia|].
  exists s1. split; [|done]. unfold Fs.dirlookup. rewrite (bind_ok _ _ _ _ _ (inode_at i x i_di s Hx)), (dk_type _ _ Hdir).
  change (negb (T_DIR =? T_DIR)) with false. cbn match. rewrite Ef. etransitivity; [exact E1|]. cbn [Fs.dirlookup_loop Nat.add].
  assert (k_itable s1 !! i = Some x) as Hx1 by (by rewrite (scanned_itable _ _ S1)).
  rewrite (bind_ok _ _ _ _ _ (inode_at i x i_di s1 Hx1)). rewrite (proj2 (Z.ltb_ge _ _)); [done|]. unfold entries, BSIZE in *. zdm.
Qed.

(** Entry [d] is the first that has the name: dirlookup goes on to iget its inode. *)
Lemma dirlookup_found name d r k H i x s :
  txn (S d + r) k H s -> k_itable s !! i = Some x -> i_dev x = dev -> dir_ok H (i_di x) -> stack_ok ->
  (d < entries (i_di x))%nat -> names name (dirent (view s) (i_di x) d) = true ->
  (forall e, (e < d)%nat -> names name (dirent (view s) (i_di x) e) = false) ->
  exists s1, txn r k H s1 /\ scanned s s1 /\
    dirlookup i name s = (let! ip := iget dev (de_inum (dirent (view s) (i_di x) d)) in ret (Some (ip, 16 * Z.of_nat d))) s1.
Proof.
  intros T Hx Hdev Hdir Hst Hd Hy Hno. pose proof (dk_size _ _ Hdir) as [[D1 D2] D3].
  destruct (dir_fuel_enough (i_di x) d D1 ltac:(lia)) as [f Ef]. replace (S d + r)%nat with (d + S r)%nat in T by lia.
  destruct (dirlookup_skip name d (S f) (S r) k H i x 0 s) as (s1 & E1 & T1 & S1); try done; [lia|intros e He; apply Hno; lia|].
  assert (k_itable s1 !! i = Some x) as Hx1 by (by rewrite (scanned_itable _ _ S1)).
  destruct (read_de_ok r k H i x d "dirlookup read" s1 T1 Hx1 Hdev Hdir Hd Hst) as (s2 & E2 & T2 & S2).
  assert (k_itable s2 !! i = Some x) as Hx2 by (by rewrite (scanned_itable _ _ S2)).
  exists s2. split; [done|]. split; [by eapply scanned_trans|].
  unfold Fs.dirlookup. rewrite (bind_ok _ _ _ _ _ (inode_at i x i_di s Hx)), (dk_type _ _ Hdir).
  change (negb (T_DIR =? T_DIR)) with false. cbn match. rewrite Ef. etransitivity; [exact E1|]. cbn [Fs.dirlookup_loop Nat.add].
  rewrite (bind_ok _ _ _ _ _ (inode_at i x i_di s1 Hx1)). rewrite (proj2 (Z.ltb_lt _ _)) by (unfold entries, BSIZE in *; zdm).
  mstep E2. rewrite (dirent_ext (view s) (view s1)) by apply (sc_view _ _ S1). unfold names in Hy. apply andb_true_iff in Hy as [Hz Hn].
  destruct (de_inum _ =? 0); [done|]. rewrite Hn. rewrite (bind_ok _ _ _ _ _ (inode_at i x i_dev s2 Hx2)). by rewrite Hdev.
Qed.

(** *** ialloc *)

Abbreviation ialloc_loop := (ialloc_loop virtio_disk_rw).

(** The loop passes over the inodes in use. *)
Lemma ialloc_skip type d : forall fuel r k j s,
  let sb := k_sb s in
  txn (d + r) k ∅ s -> 0 <= j -> j + Z.of_nat d <= sb_ninodes sb -> sb_ninodes sb < 2 ^ 30 -> 0 <= sb_inodestart sb < 2 ^ 30 ->
  (forall e, j <= e < j + Z.of_nat d -> di_type (disk_inode (view s) sb e) <> 0) ->
  exists s', ialloc_loop (d + fuel) dev type j s = ialloc_loop fuel dev type (j + Z.of_nat d) s' /\ txn r k ∅ s' /\ still s s' /\
    (forall m, view s' m = view s m).
Proof.
  induction d as [|d IH]; intros fuel r k j s sb T Hj Hd Hn Hs Hu.
  { exists s. rewrite Z.add_0_r. done. }
  destruct (txn_bread me p dev (d + r) k ∅ (IBLOCK j sb) s T) as (b & s1 & E1 & Hb & T1 & S1 & V1 & _); [apply IBLOCK_range; split; lia|done|].
  pose proof (lookup_insert_eq ∅ b (IBLOCK j sb)) as Hin.
  destruct (txn_brelse me p dev _ _ _ b _ s1 T1 Hin) as (s2 & E2 & T2 & S2 & V2 & _). rewrite delete_insert_id in T2 by done.
  assert (k_sb s2 = sb) as Esb by (rewrite (still_sb _ _ S2); by apply still_sb). assert (forall m, view s2 m = view s m) as V12 by (intros m; by rewrite V2).
  destruct (IH fuel r k (j + 1) s2) as (s3 & E3 & T3 & S3 & V3); rewrite ?Esb; try done; try lia.
  { intros e He. unfold disk_inode. rewrite V12. apply Hu. lia. }
  exists s3. split; [|split; [done|split; [by do 2 (etransitivity; [eassumption|])|intros m; by rewrite V3]]].
  replace (j + Z.of_nat (S d)) with (j + 1 + Z.of_nat d) by lia. rewrite <- E3. cbn [Nat.add Fs.ialloc_loop].
  unfold bind at 1, get at 1. fold sb. rewrite (proj2 (Z.ltb_lt _ _)) by lia. mstep E1.
  mstep (txn_data me p dev _ _ _ _ _ _ T1 Hin). rewrite V1. fold (disk_inode (view s) sb j).
  rewrite (proj2 (Z.eqb_neq _ 0)) by (apply Hu; lia). by mstep E2.
Qed.

Lemma new_dinode_fits type : 0 <= type < 2 ^ 15 -> dinode_ok (di_set_type type dinode_zero).
Proof. intros Ht. split; cbn [di_set_type di_type di_major di_minor di_nlink di_size di_addrs dinode_zero]; try lia. split; [reflexivity|]. apply Forall_replicate. lia. Qed.

(** Inode [d] is the first free one: ialloc writes its type and goes on to iget it. *)
Lemma ialloc_first type (d : nat) r k s :
  let sb := k_sb s in
  txn (S (d + r)) (S k) ∅ s -> (1 <= d)%nat -> Z.of_nat d < sb_ninodes sb -> sb_ninodes sb < 2 ^ 30 -> 0 <= sb_inodestart sb < 2 ^ 30 ->
  0 <= type < 2 ^ 15 -> di_type (disk_inode (view s) sb (Z.of_nat d)) = 0 ->
  (forall e, 1 <= e < Z.of_nat d -> di_type (disk_inode (view s) sb e) <> 0) ->
  exists s1, ialloc virtio_disk_rw dev type s = (let! ip := iget dev (Z.of_nat d) in ret (Some ip)) s1 /\ txn r k ∅ s1 /\ still s s1 /\
    (forall m, m <> IBLOCK (Z.of_nat d) sb -> view s1 m = view s m) /\
    (forall e, 0 <= e < 2 ^ 30 -> disk_inode (view s1) sb e = if e =? Z.of_nat d then di_set_type type dinode_zero else disk_inode (view s) sb e).
Proof.
  intros sb T Hd Hlt Hn Hs Ht Hz Hu.
  destruct (ialloc_skip type (d - 1) (S (S (Z.to_nat (sb_ninodes sb)) - d)) (S (S r)) (S k) 1 s) as (s1 & E1 & T1 & S1 & V1); fold sb; try done; try lia.
  { by replace (d - 1 + S (S r))%nat with (S (d + r)) by lia. } { intros e He. apply Hu. lia. }
  replace (1 + Z.of_nat (d - 1)) with (Z.of_nat d) in E1 by lia. assert (k_sb s1 = sb) as Esb by (by apply still_sb).
  set (f := write_dinode (di_set_type type dinode_zero) (dinode_off (Z.of_nat d))). assert (inum_ok sb (Z.of_nat d)) as Hin by (split; lia).
  destruct (update_ok me p dev r k ∅ (IBLOCK (Z.of_nat d) sb) f s1 T1) as (b & s2 & s3 & E2 & E2d & _ & E3 & _ & T3 & S3 & Hl & V3); [by apply IBLOCK_range|done| |].
  { intros Hl. unfold f. by rewrite length_write_dinode. }
  exists s3. split; [|split; [done|split; [by etransitivity|split]]].
  - unfold ialloc. unfold bind at 1, get at 1. fold sb.
    replace (S (Z.to_nat (sb_ninodes sb)))%nat with (d - 1 + (S (S (Z.to_nat (sb_ninodes sb)) - d)))%nat by lia. etransitivity; [exact E1|].
    cbn [Fs.ialloc_loop]. unfold bind at 1, get at 1. rewrite Esb. rewrite (proj2 (Z.ltb_lt _ _)) by lia. mstep E2. mstep E2d.
    rewrite V1. fold (disk_inode (view s) sb (Z.of_nat d)). rewrite Hz. cbn [Z.eqb]. apply E3.
  - intros m Hm. rewrite V3. unfold set_view. rewrite (proj2 (Z.eqb_neq _ _)) by done. apply V1.
  - intros e He. rewrite (disk_inode_upd (view s1) (view s3) sb (Z.of_nat d) e (di_set_type type dinode_zero)); [|done|by split|by apply new_dinode_fits|done|done].
    unfold disk_inode. by rewrite V1.
Qed.

End Directory.
