(* ===== verification/Namei.v ===== *)
(** * Path names (namex and namei, kernel/disk/fs.c)

    The files a path leads through are those of the inodes on the disk: [leads] follows the
    elements of a path from directory to directory. namei is shown to reach the same inode, to
    leave one reference to it in the inode table, and to drop every other it took. *)

From S2P Require Import Prelude Mem CString State Spinlock Printf Locks PageAlloc Vm Sleep Bio Bytes BlockCache Log LogProps Commit Fs Path Txn Bitmap Inode Dinode InodeIO Content Directory.

Definition idle_lock : sleeplock := {| sl_locked := 0; sl_pid := 0 |}.

(** The entries of the inode table that are free. *)
Definition spare (t : list inode) : nat := length (filter (fun x => i_ref x = 0) (take 50 t)).

Lemma spare_alter t i f : (spare t <= S (spare (alter f i t)))%nat.
Proof.
  unfold spare. revert i. generalize 50%nat. intros n. revert n. induction t as [|x t IH]; intros [|n] [|i]; cbn [alter list_alter take]; try (cbn; lia).
  - rewrite !filter_cons. destruct (decide (i_ref x = 0)), (decide (i_ref (f x) = 0)); cbn [length]; lia.
  - change (list_alter f i t) with (alter f i t). rewrite !filter_cons. destruct (decide (i_ref x = 0)); cbn [length]; specialize (IH n i); lia.
Qed.

Lemma spare_alter_keep t i f :
  (forall x, t !! i = Some x -> i_ref x = 0 -> i_ref (f x) = 0) -> (spare t <= spare (alter f i t))%nat.
Proof.
  unfold spare. revert i. generalize 50%nat. intros n. revert n. induction t as [|x t IH]; intros [|n] [|i] H; cbn [alter list_alter take]; try (cbn; lia).
  - rewrite !filter_cons. specialize (H x eq_refl). destruct (decide (i_ref x = 0)), (decide (i_ref (f x) = 0)); cbn [length]; (lia || tauto).
  - change (list_alter f i t) with (alter f i t). rewrite !filter_cons. destruct (decide (i_ref x = 0)); cbn [length]; specialize (IH n i H); lia.
Qed.

Lemma spare_free t : (0 < spare t)%nat -> exists j x, (j < 50)%nat /\ t !! j = Some x /\ i_ref x = 0.
Proof.
  unfold spare. destruct (filter _ (take 50 t)) as [|x l] eqn:E; [cbn; lia|]. intros _.
  assert (x ∈ filter (fun x => i_ref x = 0) (take 50 t)) as Hin by (rewrite E; set_solver).
  apply list_elem_of_filter in Hin as [Hz Hin]. apply list_elem_of_lookup_1 in Hin as [j Hj]. apply lookup_take_Some in Hj as [Hj Hlt].
  by exists j, x.
Qed.

Lemma first_match (P : nat -> bool) n :
  (forall e, (e < n)%nat -> P e = false) \/ exists d, (d < n)%nat /\ P d = true /\ forall e, (e < d)%nat -> P e = false.
Proof.
  induction n as [|n [IH|(d & Hd & Hy & Hno)]]; [left; lia| |right; exists d; split; [lia|done]].
  destruct (P n) eqn:E; [right; exists n; split; [lia|done]|]. left. intros e He. destruct (decide (e = n)) as [-> |]; [done|apply IH; lia].
Qed.

Section Namei.
Context {virtio_disk_rw : nat -> Z -> KM unit} {dev_ok : BlockDevice virtio_disk_rw}.
Context (kalloc : KM Z) (kfree : Z -> KM unit) (buf_addr : nat -> Z) (stack : Z).
Context (me : nat) (p : PCB) (dev : Z) (k : nat).
Abbreviation txn := (txn me p dev).
Abbreviation view := (view dev).

(** The table: the locks are free but that of [L], and what is in a valid entry is the inode on
    the disk. *)
Record itab (v : Z -> list Z) (sb : superblock) (L : option nat) (t : list inode) : Prop := {
  it_table : table_ok t;
  it_lock : forall j y, t !! j = Some y -> i_lock y = if decide (L = Some j) then mine p else idle_lock;
  it_data : forall j y, t !! j = Some y -> 0 < i_ref y -> i_dev y = dev -> i_valid y <> 0 -> i_di y = disk_inode v sb (i_inum y)
}.

Lemma itab_alter v sb L L' t i x f :
  itab v sb L t -> t !! i = Some x -> table_ok (alter f i t) -> (forall j, j <> i -> L' = Some j <-> L = Some j) ->
  i_lock (f x) = (if decide (L' = Some i) then mine p else idle_lock) ->
  (0 < i_ref (f x) -> i_dev (f x) = dev -> i_valid (f x) <> 0 -> i_di (f x) = disk_inode v sb (i_inum (f x))) ->
  itab v sb L' (alter f i t).
Proof.
  intros [I1 I2 I3] Hi Ht HL Hl Hd. split; [done| |].
  - intros j y Hy. destruct (decide (j = i)) as [-> |Hne].
    + rewrite list_lookup_alter_eq, Hi in Hy. injection Hy as <-. exact Hl.
    + rewrite list_lookup_alter_ne in Hy by done. rewrite (I2 j y Hy). specialize (HL j Hne). destruct (decide (L = Some j)), (decide (L' = Some j)); (done || naive_solver).
  - intros j y Hy. destruct (decide (j = i)) as [-> |Hne].
    + rewrite list_lookup_alter_eq, Hi in Hy. injection Hy as <-. exact Hd.
    + rewrite list_lookup_alter_ne in Hy by done. by apply (I3 j y).
Qed.

(** The file system between two steps: [refs] are the references to the inodes. *)
Record fsys (b : nat) (L : option nat) (refs : Z -> Z -> Z) (s : kernel) : Prop := {
  ns_txn : txn b k ∅ s;
  ns_tab : itab (view s) (k_sb s) L (k_itable s);
  ns_refs : forall d n, irefs (k_itable s) d n = refs d n;
  ns_bound : forall d n, refs d n + Z.of_nat b < 2 ^ 31 - 2;
  ns_itable : lock_free L_itable s;
  ns_inode : forall i, (i < 50)%nat -> lock_free (L_inode i) s
}.

(** The disk is as before. *)
Definition same_fs (s s' : kernel) : Prop := (forall m, view s' m = view s m) /\ k_sb s' = k_sb s.

Lemma same_refl s : same_fs s s.
Proof. done. Qed.
Lemma same_trans s1 s2 s3 : same_fs s1 s2 -> same_fs s2 s3 -> same_fs s1 s3.
Proof. intros [A1 A2] [B1 B2]. split; [intros m; by rewrite B1|congruence]. Qed.

Lemma itab_ext v v' sb L t : (forall m, v' m = v m) -> itab v sb L t -> itab v' sb L t.
Proof. intros Hv [I1 I2 I3]. split; [done|done|]. intros j y Hy H1 H2 H3. unfold disk_inode. rewrite Hv. by apply (I3 j y). Qed.

(** *** iget *)

Lemma iget_step b L refs inum m s :
  fsys (S b) L refs s -> (S m <= spare (k_itable s))%nat ->
  exists i y s', iget dev inum s = Ok i s' /\ fsys b L (bump dev inum 1 refs) s' /\ same_fs s s' /\ (m <= spare (k_itable s'))%nat /\
    (i < 50)%nat /\ k_itable s' !! i = Some y /\ is_inode dev inum y = true /\
    (forall j z d n, k_itable s !! j = Some z -> is_inode d n z = true ->
       exists z', k_itable s' !! j = Some z' /\ is_inode d n z' = true /\ i_valid z' = i_valid z /\ i_di z' = i_di z).
Proof.
  intros [T I R B Li Ln] Hsp. destruct (spare_free (k_itable s)) as (j0 & x0 & Hj0 & Hx0 & Hz0); [lia|].
  pose proof (it_table _ _ _ _ I) as Ht.
  destruct (iget_ok dev inum s Ht Li (txn_hart me p dev _ _ _ _ T)) as (i & x & Hi & Hx & E & Hcase); [by exists j0, x0; auto|].
  destruct (iget_entry_ok (k_itable s) i x dev inum Ht Hx Hi) as (Hid & Ht' & Hcnt); [rewrite R; specialize (B dev inum); lia|done|].
  exists i, (iget_entry dev inum x), (upd_inode i (iget_entry dev inum) (settle s)). split; [exact E|].
  assert (k_itable (upd_inode i (iget_entry dev inum) (settle s)) = alter (iget_entry dev inum) i (k_itable s)) as Et by done.
  split; [|split; [done|split; [|split; [done|split; [|split; [done|]]]]]].
  - split; rewrite ?Et; [|apply (itab_alter _ _ L L _ i x)|..]; try done.
    + apply txn_inode, txn_settle. eapply txn_weaken; [| |exact T]; lia.
    + rewrite <- (it_lock _ _ _ _ I i x Hx). unfold iget_entry. by destruct (is_inode dev inum x).
    + unfold iget_entry. destruct (is_inode dev inum x) eqn:Ex; [|done]. cbn. intros _. apply (it_data _ _ _ _ I i x Hx). apply is_inode_true in Ex. lia.
    + intros d n. rewrite Hcnt. unfold bump. by rewrite R.
    + intros d n. specialize (B d n). unfold bump. destruct (_ && _); lia.
  - rewrite Et. pose proof (spare_alter (k_itable s) i (iget_entry dev inum)). lia.
  - rewrite Et, list_lookup_alter_eq, Hx. done.
  - intros j z d n Hz Ez. rewrite Et. destruct (decide (j = i)) as [-> |Hne]; [|rewrite list_lookup_alter_ne by done; by exists z].
    rewrite list_lookup_alter_eq, Hz. eexists. split; [reflexivity|]. assert (z = x) as -> by congruence.
    assert (is_inode dev inum x = true) as Ex.
    { destruct Hcase as [Ex|[[(x' & Hx' & H0) _] _]]; [done|]. rewrite Hx in Hx'. injection Hx' as <-. apply is_inode_true in Ez. lia. }
    pose proof (proj1 (is_inode_true _ _ _) Ez) as (Z1 & Z2 & Z3). unfold iget_entry. rewrite Ex. split; [|done].
    pose proof (to_ref _ Ht i x Hx). apply is_inode_true. cbn. rewrite s32_small; [lia|].
    pose proof (irefs_entry _ i x dev inum Ht Hx Ex) as Er. rewrite R in Er. specialize (B dev inum). lia.
Qed.

(** *** ilock *)

Lemma ilock_step b refs i x inum m s :
  fsys (S b) None refs s -> (i < 50)%nat -> k_itable s !! i = Some x -> is_inode dev inum x = true -> inum_ok (k_sb s) inum ->
  di_type (disk_inode (view s) (k_sb s) inum) <> 0 -> (m <= spare (k_itable s))%nat ->
  exists y s', ilock virtio_disk_rw i s = Ok tt s' /\ fsys b (Some i) refs s' /\ same_fs s s' /\ (m <= spare (k_itable s'))%nat /\
    k_itable s' !! i = Some y /\ is_inode dev inum y = true /\ i_valid y <> 0 /\ i_di y = disk_inode (view s) (k_sb s) inum.
Proof.
  intros [T I R B Li Ln] Hi Hx Ex Hin Hty Hsp. pose proof (proj1 (is_inode_true _ _ _) Ex) as (X1 & X2 & X3).
  pose proof (it_lock _ _ _ _ I i x Hx) as Hlk. cbn in Hlk.
  set (di := disk_inode (view s) (k_sb s) inum) in *. pose proof (it_table _ _ _ _ I) as Ht.
  destruct (ilock_ok me p dev b k ∅ i x s T Hx X2 ltac:(lia)) as (s' & E & T' & S' & V'); rewrite ?X3, ?Hlk; try done; [by apply Ln|].
  rewrite X3 in S'. fold di in S'. set (y := loaded p di x) in *.
  assert (k_itable s' = alter (loaded p di) i (k_itable s)) as Et by (by rewrite (still_itable _ _ S')).
  assert (i_di y = di) as Hdi.
  { unfold y, loaded. destruct (Z.eqb_spec (i_valid x) 0) as [|Hv]; [done|]. unfold di. rewrite <- X3. by apply (it_data _ _ _ _ I i x). }
  assert (i_valid y <> 0) as Hv by (unfold y, loaded; by destruct (Z.eqb_spec (i_valid x) 0)).
  assert (i_ref y = i_ref x /\ i_dev y = i_dev x /\ i_inum y = i_inum x) as (Y1 & Y2 & Y3) by (unfold y, loaded; by destruct (i_valid x =? 0)).
  assert (forall d n, is_inode d n y = is_inode d n x) as Hy by (intros d n; unfold is_inode; by rewrite Y1, Y2, Y3).
  assert (k_sb s' = k_sb s) as Esb by (by rewrite (still_sb _ _ S')).
  exists y, s'. split; [exact E|]. split; [|split; [done|split; [|split; [|split; [by rewrite Hy|done]]]]].
  - split; rewrite ?Et, ?Esb; [done| | | | |].
    + apply (itab_ext (view s)); [done|]. apply (itab_alter _ _ None (Some i) _ i x); try done.
      * apply (table_alter _ i x); [done|done|done|change (loaded p di x) with y; rewrite Y1; by apply (to_ref _ Ht i x)|].
        intros j z d n Hj Hz Ez. change (loaded p di x) with y. rewrite Hy. destruct (is_inode d n x) eqn:E0; [|done]. exfalso. apply Hj.
        by apply (to_unique _ Ht j i z x d n).
      * intros j Hj. split; [intros [= ->]|]; done.
      * rewrite decide_True by done. unfold loaded. done.
      * intros _ _ _. change (loaded p di x) with y. rewrite Hdi, Y3, X3. done.
    + intros d n. rewrite (irefs_alter _ i x) by done. change (loaded p di x) with y. rewrite Hy, Y1, R. lia.
    + intros d n. specialize (B d n). lia.
    + apply (still_free L_itable _ _ S'). exact Li.
    + intros j Hj. apply (still_free (L_inode j) _ _ S'). by apply Ln.
  - rewrite Et. etransitivity; [exact Hsp|]. apply spare_alter_keep. intros z Hz. rewrite Hx in Hz. injection Hz as <-. change (loaded p di x) with y. by rewrite Y1.
  - rewrite Et, list_lookup_alter_eq, Hx. done.
Qed.

(** *** iunlock and iput *)

Lemma iunlock_step b refs i x inum m s :
  fsys b (Some i) refs s -> (i < 50)%nat -> k_itable s !! i = Some x -> is_inode dev inum x = true -> (m <= spare (k_itable s))%nat ->
  exists y s', iunlock i s = Ok tt s' /\ fsys b None refs s' /\ same_fs s s' /\ (m <= spare (k_itable s'))%nat /\
    k_itable s' = alter (in_lock idle_lock) i (k_itable s) /\
    k_itable s' !! i = Some y /\ is_inode dev inum y = true /\ i_di y = i_di x.
Proof.
  intros [T I R B Li Ln] Hi Hx Ex Hsp. pose proof (proj1 (is_inode_true _ _ _) Ex) as (X1 & X2 & X3).
  pose proof (it_lock _ _ _ _ I i x Hx) as Hlk. rewrite decide_True in Hlk by done. pose proof (it_table _ _ _ _ I) as Ht.
  destruct (iunlock_ok me p dev b k ∅ i x s T Hx ltac:(lia) Hlk (Ln i Hi)) as (s' & E & T' & V' & S').
  assert (k_itable s' = alter (in_lock idle_lock) i (k_itable s)) as Et by (by rewrite (still_itable _ _ S')).
  assert (k_sb s' = k_sb s) as Esb by (by rewrite (still_sb _ _ S')).
  exists (in_lock idle_lock x), s'. split; [exact E|]. split; [|split; [done|split; [|split; [done|split; [|done]]]]].
  - split; rewrite ?Et, ?Esb; [done| | |done| |].
    + apply (itab_ext (view s)); [done|]. apply (itab_alter _ _ (Some i) None _ i x); try done.
      * apply (table_alter _ i x); [done|done|done|by apply (to_ref _ Ht i x)|].
        intros j z d n Hj Hz Ez. change (is_inode d n (in_lock idle_lock x)) with (is_inode d n x). destruct (is_inode d n x) eqn:E0; [|done]. exfalso. apply Hj.
        by apply (to_unique _ Ht j i z x d n).
      * intros j Hj. split; [done|intros [= ->]; done].
      * exact (it_data _ _ _ _ I i x Hx).
    + intros d n. rewrite (irefs_alter _ i x) by done. change (is_inode d n (in_lock idle_lock x)) with (is_inode d n x). cbn. rewrite R. lia.
    + apply (still_free L_itable _ _ S'). exact Li.
    + intros j Hj. apply (still_free (L_inode j) _ _ S'). by apply Ln.
  - rewrite Et. etransitivity; [exact Hsp|]. by apply spare_alter_keep.
  - rewrite Et, list_lookup_alter_eq, Hx. done.
Qed.

Lemma iput_step b refs i x inum m s :
  fsys b None refs s -> k_itable s !! i = Some x -> is_inode dev inum x = true ->
  i_ref x <> 1 \/ di_nlink (i_di x) <> 0 -> (m <= spare (k_itable s))%nat ->
  exists s', iput virtio_disk_rw i s = Ok tt s' /\ fsys b None (bump dev inum (-1) refs) s' /\ same_fs s s' /\ (m <= spare (k_itable s'))%nat /\
    (forall j z d n, k_itable s !! j = Some z -> is_inode d n z = true -> 0 < bump dev inum (-1) refs d n ->
       exists z', k_itable s' !! j = Some z' /\ is_inode d n z' = true).
Proof.
  intros [T I R B Li Ln] Hx Ex Hl Hsp. pose proof (proj1 (is_inode_true _ _ _) Ex) as (X1 & X2 & X3). pose proof (it_table _ _ _ _ I) as Ht.
  pose proof (to_ref _ Ht i x Hx) as Hr. pose proof (irefs_entry _ i x dev inum Ht Hx Ex) as Er.
  pose proof (iput_keep_ok virtio_disk_rw i x s Li (txn_hart me p dev _ _ _ _ T) Hx Hl) as E.
  destruct (ref_counts _ i x (fun n => n - 1) Ht Hx ltac:(lia) ltac:(lia)) as [Ht' Hcnt]. cbn zeta in *.
  set (f := fun x => in_ref (s32 (i_ref x - 1)) x) in *. set (s' := upd_inode i f (settle s)) in *.
  assert (k_itable s' = alter f i (k_itable s)) as Et by done.
  assert (f x = in_ref (i_ref x - 1) x) as Ef by (unfold f; by rewrite s32_small by lia).
  exists s'. split; [exact E|]. split; [|split; [done|split]].
  - split; rewrite ?Et; [by apply txn_inode, txn_settle|apply (itab_alter _ _ None None _ i x)|..]; try done.
    + rewrite Ef. exact (it_lock _ _ _ _ I i x Hx).
    + rewrite Ef. cbn. intros _. by apply (it_data _ _ _ _ I i x Hx).
    + intros d n. rewrite Hcnt, X2, X3. unfold bump. rewrite R. destruct (_ && _); lia.
    + intros d n. specialize (B d n). unfold bump. destruct (_ && _); lia.
  - rewrite Et. etransitivity; [exact Hsp|]. apply spare_alter_keep. intros z Hz. rewrite Hx in Hz. injection Hz as <-. lia.
  - intros j z d n Hz Ez Hpos. rewrite Et. destruct (decide (j = i)) as [-> |Hne]; [|rewrite list_lookup_alter_ne by done; by exists z].
    rewrite list_lookup_alter_eq, Hz. assert (z = x) as -> by congruence. exists (f x). split; [done|].
    rewrite (is_inode_id dev inum) in Ez by done. zbool. subst d n. rewrite Ef. apply is_inode_true. cbn.
    unfold bump in Hpos. rewrite !Z.eqb_refl in Hpos. cbn [andb] in Hpos. rewrite <- R, Er in Hpos. lia.
Qed.

(** *** Following a path on the disk *)

(** The entry is in use and has the name, of which DIRSIZ bytes count. *)
Definition is_named (e de : list Z) : bool := negb (de_inum de =? 0) && bool_decide (cstring (de_name de) = take (Z.to_nat DIRSIZ) e).

Lemma length_dirent v di j : length (dirent v di j) = 16%nat.
Proof. unfold dirent. by rewrite length_fmap, length_seqZ. Qed.

Lemma names_is_named name e de :
  length name = Z.to_nat DIRSIZ -> cstring name = take (Z.to_nat DIRSIZ) e -> length de = 16%nat -> names name de = is_named e de.
Proof.
  intros Hl Hc Hd. unfold names, is_named. f_equal. apply Bool.eq_iff_eq_true. rewrite Z.eqb_eq, bool_decide_eq_true, lstrncmp_spec.
  assert (length (de_name de) = 14%nat) as Hn by (unfold de_name; rewrite length_take, length_drop, Hd; done).
  rewrite !take_ge by (rewrite ?Hl, ?Hn; done). rewrite Hc. split; congruence.
Qed.

Record there (v : Z -> list Z) (sb : superblock) (inum : Z) : Prop := {
  th_inum : inum_ok sb inum;
  th_type : di_type (disk_inode v sb inum) <> 0;
  th_nlink : di_nlink (disk_inode v sb inum) <> 0
}.

(** From inode [inum] the elements lead to the result, [None] when one of them is not there or
    comes after a file; [b] counts the blocks looked at. *)
Inductive leads (v : Z -> list Z) (sb : superblock) : Z -> list (list Z) -> nat -> option Z -> Prop :=
  | leads_end inum : leads v sb inum [] 0 (Some inum)
  | leads_file inum e es :
      there v sb inum -> di_type (disk_inode v sb inum) <> T_DIR -> leads v sb inum (e :: es) 1 None
  | leads_absent inum e es :
      let di := disk_inode v sb inum in
      there v sb inum -> dir_ok ∅ di -> (forall j, (j < entries di)%nat -> is_named e (dirent v di j) = false) ->
      leads v sb inum (e :: es) (S (entries di)) None
  | leads_next inum e es d b r :
      let di := disk_inode v sb inum in
      there v sb inum -> dir_ok ∅ di -> (d < entries di)%nat -> is_named e (dirent v di d) = true ->
      (forall j, (j < d)%nat -> is_named e (dirent v di j) = false) ->
      leads v sb (de_inum (dirent v di d)) es b r -> leads v sb inum (e :: es) (S (S d + S b)) r.

Lemma leads_ext v v' sb inum es b r : (forall m, v' m = v m) -> leads v sb inum es b r -> leads v' sb inum es b r.
Proof.
  intros Hv. assert (forall n, disk_inode v' sb n = disk_inode v sb n) as Hd by (intros n; unfold disk_inode; by rewrite Hv).
  assert (forall n, there v sb n -> there v' sb n) as Ht by (intros n [T1 T2 T3]; split; by rewrite ?Hd).
  induction 1 as [inum|inum e es Th Hf|inum e es di Th Hk Hno|inum e es d b r di Th Hk Hlt Hy Hno W IH].
  - constructor.
  - constructor; [by apply Ht|by rewrite Hd].
  - unfold di in *. rewrite <- Hd in *. apply leads_absent; [by apply Ht|done|]. intros j Hj. rewrite (dirent_ext v v') by done. by apply Hno.
  - unfold di in *. rewrite <- Hd in *. rewrite <- (dirent_ext v v') in * by done.
    apply (leads_next v' sb inum e es d b r); try done; [by apply Ht|]. intros j Hj. rewrite (dirent_ext v v') by done. by apply Hno.
Qed.

Lemma fsys_scanned b b' L refs s s' :
  fsys b L refs s -> txn b' k ∅ s' -> (b' <= b)%nat -> scanned buf_addr stack dev s s' ->
  fsys b' L refs s' /\ same_fs s s' /\ k_itable s' = k_itable s.
Proof.
  intros [T I R B Li Ln] T' Hb S. pose proof (scanned_itable _ _ _ _ _ S) as Et. destruct S as [S V M].
  assert (k_sb s' = k_sb s) as Esb by (by rewrite (still_sb _ _ S)).
  split; [|done]. split; rewrite ?Et, ?Esb; try done.
  - by apply (itab_ext (view s)).
  - intros d n. specialize (B d n). lia.
  - by apply (still_free L_itable _ _ S).
  - intros i Hi. apply (still_free (L_inode i) _ _ S). by apply Ln.
Qed.

Lemma fsys_refs b L refs refs' s : (forall d n, refs' d n = refs d n) -> fsys b L refs s -> fsys b L refs' s.
Proof. intros He [T I R B Li Ln]. split; try done; intros d n; by rewrite He. Qed.

Lemma fsys_weaken b b' L refs s : (b' <= b)%nat -> fsys b L refs s -> fsys b' L refs s.
Proof. intros Hb [T I R B Li Ln]. split; try done; [eapply txn_weaken; [| |exact T]; lia|intros d n; specialize (B d n); lia]. Qed.

Lemma bump_twice d0 n0 a c f d n : bump d0 n0 a (bump d0 n0 c f) d n = bump d0 n0 (a + c) f d n.
Proof. unfold bump. destruct (_ && _); lia. Qed.

Abbreviation namex_loop := (namex_loop virtio_disk_rw kalloc kfree buf_addr stack).
Abbreviation namei := (namei virtio_disk_rw kalloc kfree buf_addr stack).

(** Leaving a directory: iunlock and iput. *)
Lemma leave_step b refs i x inum m s :
  fsys b (Some i) refs s -> (i < 50)%nat -> k_itable s !! i = Some x -> is_inode dev inum x = true ->
  di_nlink (i_di x) <> 0 -> (m <= spare (k_itable s))%nat ->
  exists s', (forall A (c : KM A), (do! iunlock i; do! iput virtio_disk_rw i; c) s = c s') /\
    fsys b None (bump dev inum (-1) refs) s' /\ same_fs s s' /\ (m <= spare (k_itable s'))%nat /\
    (forall j z d n, k_itable s !! j = Some z -> is_inode d n z = true -> 0 < bump dev inum (-1) refs d n ->
       exists z', k_itable s' !! j = Some z' /\ is_inode d n z' = true).
Proof.
  intros F Hi Hx Ex Hl Hsp. destruct (iunlock_step b refs i x inum m s F Hi Hx Ex Hsp) as (y & s1 & E1 & F1 & D1 & P1 & T1 & Hy & Ey & Dy).
  destruct (iput_step b refs i y inum m s1 F1 Hy Ey) as (s2 & E2 & F2 & D2 & P2 & K2); [right; by rewrite Dy|done|].
  exists s2. split; [intros A c; mstep E1; by mstep E2|]. split; [done|]. split; [by eapply same_trans|]. split; [done|].
  intros j z d n Hz Ez Hpos. destruct (decide (j = i)) as [-> |Hne].
  - apply (K2 i (in_lock idle_lock z) d n); [by rewrite T1, list_lookup_alter_eq, Hz|done|done].
  - apply (K2 j z d n); [by rewrite T1, list_lookup_alter_ne|done|done].
Qed.

(** What the walk found: an entry with one more reference, or nothing. *)
Definition reached_end (n : nat) (refs : Z -> Z -> Z) (r : option Z) (res : option nat) (s' : kernel) : Prop :=
  match r with
  | Some inum => exists i y, res = Some i /\ k_itable s' !! i = Some y /\ is_inode dev inum y = true /\ fsys n None (bump dev inum 1 refs) s'
  | None => res = None /\ fsys n None refs s'
  end.

Section Steps.
Context (v : Z -> list Z) (sb : superblock) (stk : stack_ok buf_addr stack).

(** The entry of the inode is locked and holds the inode on the disk. *)
Lemma enter_step b refs i x inum m s :
  (forall a, view s a = v a) -> k_sb s = sb -> there v sb inum ->
  fsys (S b) None refs s -> (i < 50)%nat -> k_itable s !! i = Some x -> is_inode dev inum x = true -> (m <= spare (k_itable s))%nat ->
  exists y s', ilock virtio_disk_rw i s = Ok tt s' /\ fsys b (Some i) refs s' /\ same_fs s s' /\ (m <= spare (k_itable s'))%nat /\
    k_itable s' !! i = Some y /\ is_inode dev inum y = true /\ i_di y = disk_inode v sb inum.
Proof.
  intros Hv Hsb [Th1 Th2 Th3] F Hi Hx Ex Hsp. assert (disk_inode (view s) (k_sb s) inum = disk_inode v sb inum) as Ed by (unfold disk_inode; by rewrite Hv, Hsb).
  destruct (ilock_step b refs i x inum m s) as (y & s' & E & F' & D & P & Hy & Ey & _ & Dy); rewrite ?Ed, ?Hsb; try done.
  exists y, s'. rewrite Ed in Dy. done.
Qed.

Lemma namex_loop_ok inum es b r : leads v sb inum es b r -> forall fuel path name i x m refs n s,
  elements path = es -> (length path < fuel)%nat -> Forall (fun c => c <> 0) path -> length name = Z.to_nat DIRSIZ ->
  (forall a, view s a = v a) -> k_sb s = sb -> (forall d n, 0 <= refs d n) ->
  fsys (b + n) None (bump dev inum 1 refs) s -> (i < 50)%nat -> k_itable s !! i = Some x -> is_inode dev inum x = true ->
  (length es + m <= spare (k_itable s))%nat ->
  exists res name' s', namex_loop fuel i path name false s = Ok (res, name') s' /\ same_fs s s' /\ reached_end n refs r res s'.
Proof.
  induction 1 as [inum|inum e es Th Hf|inum e es di Th Hd Hno|inum e es d b r di Th Hd Hlt Hy Hno W IH];
    intros [|fuel] path name i x m refs n s Hel Hfu Hnz Hnm Hv Hsb Href F Hi Hx Ex Hsp; try lia;
    pose proof (skipelem_ok path name Hnz Hnm) as Hskip; cbn [Fs.namex_loop].
  all: destruct (skipelem path name) as [[path' name']|] eqn:Esk; [destruct Hskip as (e' & He & Hc & Hl & _ & Hshort)|]; try congruence.
  1: exists (Some i), name, s; split; [done|]; split; [apply same_refl|]; by exists i, x.
  all: rewrite Hel in He; injection He as <- Hes; cbn [length] in Hsp.
  - destruct (enter_step (0 + n) _ i x inum m s Hv Hsb Th F Hi Hx Ex ltac:(lia)) as (y & s1 & E1 & F1 & D1 & P1 & Hy & Ey & Dy). mstep E1.
    rewrite (bind_ok _ _ _ _ _ (inode_at i y i_di s1 Hy)), Dy. rewrite (proj2 (Z.eqb_neq _ T_DIR)) by done. cbn [negb].
    destruct (leave_step _ _ i y inum m s1 F1 Hi Hy Ey) as (s2 & E2 & F2 & D2 & _); [by rewrite Dy; apply Th|done|].
    exists None, name', s2. split; [apply E2|]. split; [by eapply same_trans|]. split; [done|].
    apply (fsys_refs _ _ (bump dev inum (-1) (bump dev inum 1 refs))); [|done]. intros d0 n0. rewrite bump_twice. unfold bump. destruct (_ && _); lia.
  - destruct (enter_step (entries di + n) _ i x inum m s Hv Hsb Th F Hi Hx Ex ltac:(lia)) as (y & s1 & E1 & F1 & D1 & P1 & Hy & Ey & Dy). mstep E1.
    rewrite (bind_ok _ _ _ _ _ (inode_at i y i_di s1 Hy)), Dy. fold di. rewrite (dk_type _ _ Hd). cbn [negb Z.eqb T_DIR Pos.eqb andb].
    assert (forall a, view s1 a = v a) as Hv1 by (intros a; by rewrite (proj1 D1)).
    destruct (dirlookup_absent kalloc kfree buf_addr stack me p dev name' n k ∅ i y s1) as (s2 & E2 & T2 & S2); rewrite ?Dy; try done.
    { apply F1. } { by apply is_inode_true in Ey as (_ & ? & _). }
    { intros j Hj. fold di. rewrite (names_is_named _ e) by (done || apply length_dirent). rewrite (dirent_ext v) by done. by apply Hno. }
    mstep E2. destruct (fsys_scanned _ n _ _ _ _ F1 T2 ltac:(lia) S2) as (F2 & D2 & Et2).
    destruct (leave_step _ _ i y inum m s2 F2 Hi) as (s3 & E3 & F3 & D3 & _); rewrite ?Et2; try done; [by rewrite Dy; apply Th|].
    exists None, name', s3. split; [apply E3|]. split; [by do 2 (eapply same_trans; [eassumption|])|]. split; [done|].
    apply (fsys_refs _ _ (bump dev inum (-1) (bump dev inum 1 refs))); [|done]. intros d0 n0. rewrite bump_twice. unfold bump. destruct (_ && _); lia.
  - destruct (enter_step (S d + S b + n) _ i x inum (S (length es + m)) s Hv Hsb Th F Hi Hx Ex ltac:(lia)) as (y & s1 & E1 & F1 & D1 & P1 & Hy1 & Ey & Dy). mstep E1.
    rewrite (bind_ok _ _ _ _ _ (inode_at i y i_di s1 Hy1)), Dy. fold di. rewrite (dk_type _ _ Hd). cbn [negb Z.eqb T_DIR Pos.eqb andb].
    assert (forall a, view s1 a = v a) as Hv1 by (intros a; by rewrite (proj1 D1)).
    assert (forall j, names name' (dirent (view s1) di j) = is_named e (dirent v di j)) as Hnn.
    { intros j. rewrite (names_is_named _ e) by (done || apply length_dirent). by rewrite (dirent_ext v) by done. }
    destruct (dirlookup_found kalloc kfree buf_addr stack me p dev name' d (S (b + n)) k ∅ i y s1) as (s2 & T2 & S2 & E2); rewrite ?Dy; try done.
    { replace (S d + S (b + n))%nat with (S d + S b + n)%nat by lia. apply F1. } { by apply is_inode_true in Ey as (_ & ? & _). }
    { fold di. by rewrite Hnn. } { intros j Hj. fold di. rewrite Hnn. by apply Hno. }
    unfold bind at 1. rewrite E2, Dy. fold di. rewrite (dirent_ext v) by done. set (next := de_inum (dirent v di d)) in *.
    destruct (fsys_scanned _ (S (b + n)) _ _ _ _ F1 T2 ltac:(lia) S2) as (F2 & D2 & Et2).
    destruct (iget_step (b + n) _ _ next (length es + m) s2 F2 ltac:(rewrite Et2; lia)) as (j & z & s3 & E3 & F3 & D3 & P3 & Hj & Hz & Ez & K3).
    unfold bind at 1. rewrite E3. unfold ret at 1. cbn beta iota.
    destruct (K3 i y dev inum) as (y3 & Hy3 & Ey3 & _ & Dy3); [by rewrite Et2|done|].
    destruct (leave_step _ _ i y3 inum (length es + m) s3 F3 Hi Hy3 Ey3) as (s4 & E4 & F4 & D4 & P4 & K4); [by rewrite Dy3, Dy; apply Th|done|].
    rewrite E4. assert (same_fs s s4) as Hs4 by (by do 3 (eapply same_trans; [eassumption|])).
    assert (forall d0 n0, bump dev inum (-1) (bump dev next 1 (bump dev inum 1 refs)) d0 n0 = bump dev next 1 refs d0 n0) as Hb.
    { intros d0 n0. unfold bump. destruct ((d0 =? dev) && (n0 =? inum)), ((d0 =? dev) && (n0 =? next)); lia. }
    destruct (K4 j z dev next Hz Ez) as (z4 & Hz4 & Ez4). { rewrite Hb. unfold bump. rewrite !Z.eqb_refl. cbn [andb]. specialize (Href dev next). lia. }
    destruct (IH fuel path' name' j z4 m refs n s4) as (res & nm & s5 & E5 & D5 & A5); try done.
    + lia.
    + by eapply skipelem_nonzero.
    + intros a. by rewrite (proj1 Hs4).
    + by rewrite (proj2 Hs4).
    + by apply (fsys_refs _ _ _ _ _ (fun d0 n0 => eq_sym (Hb d0 n0))).
    + exists res, nm, s5. split; [done|]. split; [by eapply same_trans|done].
Qed.

End Steps.

Lemma irefs_nonneg t d n : table_ok t -> 0 <= irefs t d n.
Proof.
  intros Ht. assert (forall i x, t !! i = Some x -> 0 <= i_ref x) as Hr by (intros i x Hx; by destruct (to_ref _ Ht i x Hx)). clear Ht.
  induction t as [|x t IH]; [done|]. cbn [irefs]. pose proof (Hr 0%nat x eq_refl). specialize (IH (fun i => Hr (S i))). destruct (is_inode d n x); lia.
Qed.

Lemma namei_ok path b r n refs s :
  dev = ROOTDEV -> head path = Some 47 -> Forall (fun c => c <> 0) path -> stack_ok buf_addr stack ->
  leads (view s) (k_sb s) ROOTINO (elements path) b r -> fsys (S (b + n)) None refs s ->
  (length (elements path) < spare (k_itable s))%nat ->
  exists res s', namei path s = Ok res s' /\ same_fs s s' /\ reached_end n refs r res s'.
Proof.
  intros Hdev Hh Hnz Hstk W F Hsp.
  assert (forall d n, 0 <= refs d n) as Hpos by (intros d n0; rewrite <- (ns_refs _ _ _ _ F); apply irefs_nonneg, F).
  unfold Fs.namei. unfold bind at 1, get at 1. set (junk := rd_bytes _ _ _).
  destruct (iget_step (b + n) None refs ROOTINO (length (elements path)) s F ltac:(lia)) as (i & x & s1 & E1 & F1 & D1 & P1 & Hi & Hx & Ex & _).
  destruct (namex_loop_ok (view s) (k_sb s) Hstk _ _ _ _ W (S (length path)) path junk i x 0 refs n s1) as (res & nm & s2 & E2 & D2 & A2); try done; try lia.
  - apply D1.
  - apply D1.
  - exists res, s2. split; [|split; [by eapply same_trans|done]]. unfold namex. rewrite Hh. cbn [default from_option id Z.eqb Pos.eqb].
    rewrite bind_assoc. rewrite Hdev in E1. mstep E1. by mstep E2.
Qed.

End Namei.

Section Claims.
Context {virtio_disk_rw : nat -> Z -> KM unit} {dev_ok : BlockDevice virtio_disk_rw}.
Context (kalloc : KM Z) (kfree : Z -> KM unit) (buf_addr : nat -> Z) (stack : Z).

(** C7: namei of an absolute path goes where the path leads on the disk: it returns an entry of the
    inode table for the inode at its end, or nothing when an element is missing or follows a
    file. The table has exactly one reference more, to that inode, or none; every directory on
    the way has been idle_lock and its reference dropped; the disk and the superblock are as
    before. *)
Theorem namei_correct me p k path b r n refs s :
  head path = Some 47 -> Forall (fun c => c <> 0) path -> stack_ok buf_addr stack ->
  leads (view ROOTDEV s) (k_sb s) ROOTINO (elements path) b r -> fsys me p ROOTDEV k (S (b + n)) None refs s ->
  (length (elements path) < spare (k_itable s))%nat ->
  exists res s', namei virtio_disk_rw kalloc kfree buf_addr stack path s = Ok res s' /\ same_fs ROOTDEV s s' /\
    match r with
    | Some inum => exists i y, res = Some i /\ k_itable s' !! i = Some y /\ is_inode ROOTDEV inum y = true /\
        fsys me p ROOTDEV k n None (bump ROOTDEV inum 1 refs) s'
    | None => res = None /\ fsys me p ROOTDEV k n None refs s'
    end.
Proof. intros. by eapply (namei_ok kalloc kfree buf_addr stack me p ROOTDEV k). Qed.

(** C21: dirlookup returns the inode of the first entry that is in use and has the name, with its
    offset and one reference more in the table, and nothing when no entry has it; the directory
    and the disk are as before. *)
Theorem dirlookup_correct me p dev k name i x n refs L s :
  fsys me p dev k (S (entries (i_di x)) + n) L refs s -> k_itable s !! i = Some x -> i_dev x = dev -> dir_ok ∅ (i_di x) ->
  stack_ok buf_addr stack -> (0 < spare (k_itable s))%nat ->
  exists res s', dirlookup virtio_disk_rw kalloc kfree buf_addr stack i name s = Ok res s' /\ same_fs dev s s' /\
    match res with
    | Some (ip, off) => exists d y, off = 16 * Z.of_nat d /\ (d < entries (i_di x))%nat /\
        let de := dirent (view dev s) (i_di x) in
        names name (de d) = true /\ (forall e, (e < d)%nat -> names name (de e) = false) /\
        k_itable s' !! ip = Some y /\ is_inode dev (de_inum (de d)) y = true /\ fsys me p dev k n L (bump dev (de_inum (de d)) 1 refs) s'
    | None => (forall e, (e < entries (i_di x))%nat -> names name (dirent (view dev s) (i_di x) e) = false) /\ fsys me p dev k n L refs s'
    end.
Proof.
  intros F Hx Hdev Hdir Hst Hsp. destruct (first_match (fun e => names name (dirent (view dev s) (i_di x) e)) (entries (i_di x))) as [Hno|(d & Hd & Hy & Hno)].
  - destruct (dirlookup_absent kalloc kfree buf_addr stack me p dev name (S n) k ∅ i x s) as (s' & E & T & Sc); try done.
    { replace (entries (i_di x) + S n)%nat with (S (entries (i_di x)) + n)%nat by lia. apply F. }
    destruct (fsys_scanned buf_addr stack me p dev k _ n _ _ s s' F) as (F' & D & _); [by eapply txn_weaken; [| |exact T]; lia|lia|done|].
    exists None, s'. done.
  - destruct (dirlookup_found kalloc kfree buf_addr stack me p dev name d (S n) k ∅ i x s) as (s1 & T & Sc & E); try done.
    { eapply txn_weaken; [| |apply F]; lia. }
    destruct (fsys_scanned buf_addr stack me p dev k _ (S n) _ _ s s1 F) as (F1 & D1 & Et); [done|lia|done|].
    set (inum := de_inum _) in E.
    destruct (iget_step me p dev k n _ _ inum 0 s1 F1 ltac:(rewrite Et; lia)) as (ip & y & s2 & E2 & F2 & D2 & _ & _ & Hy2 & Ey & _).
    exists (Some (ip, 16 * Z.of_nat d)), s2. split; [rewrite E; by mstep E2|]. split; [by eapply same_trans|].
    exists d, y. done.
Qed.

(** C19: ialloc takes the first inode that is free on the disk: it is on the disk with the type and
    nothing else, every other inode is as before, and the table has an entry for it with one
    reference more. *)
Theorem ialloc_correct me p dev k r type (d : nat) s :
  let sb := k_sb s in
  txn me p dev (S (d + r)) (S k) ∅ s -> table_ok (k_itable s) -> lock_free L_itable s -> irefs (k_itable s) dev (Z.of_nat d) < 2 ^ 31 - 2 ->
  (0 < spare (k_itable s))%nat -> (1 <= d)%nat -> Z.of_nat d < sb_ninodes sb -> sb_ninodes sb < 2 ^ 30 -> 0 <= sb_inodestart sb < 2 ^ 30 ->
  0 <= type < 2 ^ 15 -> di_type (disk_inode (view dev s) sb (Z.of_nat d)) = 0 ->
  (forall e, 1 <= e < Z.of_nat d -> di_type (disk_inode (view dev s) sb e) <> 0) ->
  exists ip y s', ialloc virtio_disk_rw dev type s = Ok (Some ip) s' /\ txn me p dev r k ∅ s' /\
    k_itable s' !! ip = Some y /\ is_inode dev (Z.of_nat d) y = true /\ table_ok (k_itable s') /\
    (forall d' n', irefs (k_itable s') d' n' = bump dev (Z.of_nat d) 1 (irefs (k_itable s)) d' n') /\
    (forall m, m <> IBLOCK (Z.of_nat d) sb -> view dev s' m = view dev s m) /\
    (forall e, 0 <= e < 2 ^ 30 ->
       disk_inode (view dev s') sb e = if e =? Z.of_nat d then di_set_type type dinode_zero else disk_inode (view dev s) sb e).
Proof.
  intros sb T Ht Hl Hr Hsp Hd Hlt Hn Hs Hty Hz Hu.
  destruct (ialloc_first me p dev type d r k s) as (s1 & E1 & T1 & S1 & V1 & D1); try done.
  pose proof (still_itable _ _ S1) as Et. destruct (spare_free _ Hsp) as (j0 & x0 & Hj0 & Hx0 & Hz0).
  destruct (iget_ok dev (Z.of_nat d) s1) as (i & x & Hi & Hx & E2 & Hcase); rewrite ?Et; try done; [by apply (still_free L_itable _ _ S1)| |by exists j0, x0; auto|].
  { by eapply txn_hart. }
  rewrite Et in Hx. destruct (iget_entry_ok (k_itable s) i x dev (Z.of_nat d) Ht Hx Hi Hr) as (Hid & Ht' & Hcnt); [by rewrite <- Et|].
  eexists i, _, _. split; [rewrite E1; by mstep E2|]. split; [by apply txn_inode, txn_settle|].
  assert (k_itable (upd_inode i (iget_entry dev (Z.of_nat d)) (settle s1)) = alter (iget_entry dev (Z.of_nat d)) i (k_itable s)) as -> by (by rewrite <- Et).
  split; [by rewrite list_lookup_alter_eq, Hx|]. done.
Qed.

End Claims.
