(* ===== verification/Fsinit.v ===== *)
(** * Mounting the file system (fsinit, initlog and ireclaim, kernel/disk/fs.c and log.c)

    At boot nothing is in the cache. fsinit reads the superblock, recovers the log and looks at
    every inode for one that has no name; on a disk whose log is empty and whose inodes all have
    names it changes nothing. *)

From S2P Require Import Prelude Mem CString State Spinlock Printf Locks PageAlloc Vm Sleep Bio Bytes BlockCache Log LogProps Commit Fs Path Txn Bitmap Inode Dinode InodeIO Content Directory Namei.

Section Fsinit.
Context {virtio_disk_rw : nat -> Z -> KM unit} {dev_ok : BlockDevice virtio_disk_rw}.
Context (me : nat) (p : PCB) (dev : Z).
Abbreviation inv := (inv me p dev).
Abbreviation view := (view dev).
Abbreviation refs := (refs dev).
Abbreviation cached := (cached dev).
Abbreviation bread := (bread virtio_disk_rw).

Definition clean (s : kernel) : Prop := forall m, view s m = disk_block s m.

(** What looking at block [bn] changes: nothing but the references to it. *)
Record peeked (bn : Z) (s s' : kernel) : Prop := {
  pk_calm : calm s s';
  pk_disk : k_disk s' = k_disk s;
  pk_view : forall m, view s' m = view s m;
  pk_refs : forall m, m <> bn -> refs s' m = refs s m;
  pk_cached : cached s' bn;
  pk_more : cached s bn -> refs s' bn = refs s bn + 1;
  pk_bound : refs s' bn <= refs s bn + 1
}.

Lemma peeked_clean bn s s' : peeked bn s s' -> clean s -> clean s'.
Proof. intros [_ D V _ _ _ _] Hc m. rewrite V, Hc. unfold disk_block. by rewrite D. Qed.

(** bread, and brelse after the data has been looked at. *)
Lemma peek n bn s :
  inv (S n) ∅ s -> clean s -> 0 <= bn < 2 ^ 31 ->
  exists b s1 s2, bread dev bn s = Ok b s1 /\ buf_get b b_data s1 = Ok (view s bn) s1 /\ brelse b s1 = Ok tt s2 /\ inv n ∅ s2 /\ peeked bn s s2 /\ calm s s1.
Proof.
  intros Hs Hc Hb. destruct (bread_bound me p dev n ∅ bn s Hs (no_held _) (u32_below bn ltac:(lia))) as (b & s1 & E1 & _ & Hs1 & C1 & D1 & V1 & R1 & R2 & R3).
  rewrite (u32_small bn) in * by lia. pose proof (lookup_insert_eq (M := gmap nat) ∅ b bn) as Hi.
  destruct (brelse_ok me p dev n _ b bn s1 Hs1 Hi) as (s2 & E2 & Hs2 & C2 & D2 & V2 & Q1 & Q2 & Q3).
  { right. rewrite V1, Hc. unfold disk_block. by rewrite D1. }
  rewrite delete_insert_id in Hs2 by done. exists b, s1, s2. split; [exact E1|].
  split; [rewrite (read_data me p dev n _ b bn s1 Hs1 Hi); by rewrite V1|]. split; [exact E2|]. split; [exact Hs2|]. split; [|exact C1]. split.
  - by eapply calm_trans.
  - by rewrite D2.
  - intros m. by rewrite V2.
  - intros m Hm. by rewrite Q2, R3.
  - done.
  - intros Hca. rewrite Q1, (R2 Hca). lia.
  - lia.
Qed.

(** A block that is referenced uses no further buffer. *)
Lemma peek_again n bn s :
  inv (S n) ∅ s -> clean s -> 0 <= bn < 2 ^ 31 -> 1 <= refs s bn -> refs s bn + 2 + 2 * Z.of_nat (S n) < 2 ^ 32 ->
  exists b s1 s2, bread dev bn s = Ok b s1 /\ buf_get b b_data s1 = Ok (view s bn) s1 /\ brelse b s1 = Ok tt s2 /\ inv (S n) ∅ s2 /\ peeked bn s s2 /\ calm s s1.
Proof.
  intros Hs Hc Hb Hr Hmax. pose proof (u32_small bn ltac:(lia)) as Eu.
  destruct (bread_again me p dev n ∅ bn s Hs (no_held _) (u32_below bn ltac:(lia))) as (b & s1 & E1 & _ & Hs1 & C1 & D1 & V1 & R2 & R3); rewrite ?Eu; try done.
  rewrite Eu in *. pose proof (lookup_insert_eq (M := gmap nat) ∅ b bn) as Hi.
  destruct (brelse_ok me p dev (S n) _ b bn s1 Hs1 Hi) as (s2 & E2 & Hs2 & C2 & D2 & V2 & Q1 & Q2 & Q3); [left; lia|].
  rewrite delete_insert_id in Hs2 by done. exists b, s1, s2. split; [exact E1|].
  split; [rewrite (read_data me p dev _ _ b bn s1 Hs1 Hi); by rewrite V1|]. split; [exact E2|]. split; [exact Hs2|]. split; [|exact C1]. split.
  - by eapply calm_trans.
  - by rewrite D2.
  - intros m. by rewrite V2.
  - intros m Hm. by rewrite Q2, R3.
  - done.
  - intros _. lia.
  - lia.
Qed.

(** ** The log *)

(** A step that changes nothing but log, superblock and the references to block [bn]. *)
Record quiet (bn : Z) (s s' : kernel) : Prop := {
  qt_disk : forall m, disk_block s' m = disk_block s m;
  qt_view : forall m, view s' m = view s m;
  qt_refs : forall m, m <> bn -> refs s' m = refs s m;
  qt_panic : k_panicked s' = k_panicked s /\ k_panicking s' = k_panicking s
}.

Lemma initlog_empty n st s :
  inv (S (S n)) ∅ s -> clean s -> 0 <= st -> st + 1 < 2 ^ 31 -> hd_n (disk_block s st) = 0 ->
  exists s', initlog virtio_disk_rw dev st s = Ok tt s' /\ inv n ∅ s' /\ quiet st s s' /\ rest s' = rest s /\
    k_log s' = with_n 0 (with_place st dev (k_log s)) /\ k_locks s' = <[L_log := unlocked "log"]> (k_locks s).
Proof.
  intros Hs Hc H0 H1 Hn. set (s0 := upd_log (with_place (s32 st) dev) (set_lock L_log (unlocked "log") s)).
  assert (inv (S (S n)) ∅ s0) as Hs0 by apply inv_upd_log, inv_initlock, Hs. assert (s32 st = st) as E32 by (apply s32_small; lia).
  destruct (bread_ok me p dev (S n) ∅ st s0 Hs0 (no_held _) (u32_below st ltac:(lia))) as (b & s1 & E1 & _ & Hs1 & C1 & D1 & V1 & _ & _ & R1).
  rewrite (u32_small st) in * by lia. pose proof (lookup_insert_eq (M := gmap nat) ∅ b st) as Hi.
  pose proof (read_data me p dev _ _ b st s1 Hs1 Hi) as Ed. rewrite V1 in Ed. change (view s0 st) with (view s st) in Ed. rewrite Hc in Ed.
  destruct (brelse_ok me p dev (S n) _ b st (upd_log (with_n 0) s1) (inv_upd_log me p dev _ _ _ _ Hs1) Hi) as (s2 & E2 & Hs2 & C2 & D2 & V2 & _ & R2 & _).
  { right. change (view s1 st = disk_block s1 st). rewrite V1. unfold disk_block. rewrite D1. apply Hc. }
  rewrite delete_insert_id in Hs2 by done. set (l := with_n 0 (with_place st dev (k_log s))).
  assert (k_log s2 = l) as L2. { rewrite (cm_log _ _ C2). cbn [upd_log set_log k_log]. rewrite (cm_log _ _ C1). unfold s0, l. cbn [upd_log set_log k_log set_lock set_locks]. by rewrite E32. }
  assert (log_start l = st) as Ls by done.
  assert (txn_ok dev l []) as T by (split; cbn; [done|done|done|lia|]; intros m Hm; by apply elem_of_nil in Hm).
  destruct (write_head_ok me p dev n l [] (upd_log (with_n 0) s2) T (inv_upd_log me p dev _ _ _ _ Hs2)) as (s3 & E3 & Hs3 & C3 & D3 & V3 & R3).
  { cbn [upd_log set_log k_log]. by rewrite L2. }
  rewrite Ls in *. cbn [fill_header] in *. change (view (upd_log (with_n 0) s2)) with (view s2) in *.
  assert (forall m, view s2 m = view s m) as V by (intros m; rewrite V2; change (view s1 m = view s m); by rewrite V1).
  assert (forall m, disk_block s2 m = disk_block s m) as D by (intros m; unfold disk_block; rewrite D2; change (k_disk (upd_log (with_n 0) s1)) with (k_disk s1); by rewrite D1).
  exists s3. split.
  { unfold initlog. change (BSIZE <=? sizeof_logheader) with false. cbn match.
    transitivity (recover_from_log virtio_disk_rw s0); [reflexivity|]. unfold recover_from_log, read_head. rewrite !bind_assoc.
    unfold bind at 1, get at 1. change (log_dev (k_log s0)) with dev. change (log_start (k_log s0)) with (s32 st). rewrite E32, !bind_assoc. mstep E1.
    assert (forall (f : nat -> KM unit) A (k : KM A) s, (do! foreach (seq 0 (Z.to_nat 0)) f; k) s = k s) as Hnil by reflexivity.
    rewrite !bind_assoc. mstep Ed. rewrite Hn. rewrite !bind_assoc. unfold bind at 1, modify at 1. cbn beta iota. rewrite bind_assoc, Hnil.
    mstep E2. unfold install_trans. rewrite bind_assoc. unfold bind at 1, get at 1. rewrite L2. change (lh_n l) with 0. rewrite Hnil.
    unfold bind at 1, modify at 1. exact E3. }
  split; [exact Hs3|]. split; [split|split; [|split]].
  - intros m. unfold disk_block. rewrite D3. unfold dblock. destruct (decide (m = st)) as [-> |Hne].
    + rewrite lookup_insert_eq. cbn. rewrite V. apply Hc.
    + rewrite lookup_insert_ne by done. apply D.
  - intros m. rewrite V3. unfold set_view. destruct (Z.eqb_spec m st) as [-> |]; apply V.
  - intros m Hm. rewrite R3 by done. change (refs s2 m = refs s m). rewrite R2 by done. change (refs s1 m = refs s m). by rewrite R1.
  - destruct (cm_panic _ _ C1), (cm_panic _ _ C2), (cm_panic _ _ C3). split; etransitivity; try eassumption; etransitivity; try eassumption; done.
  - rewrite (cm_rest _ _ C3). change (rest s2 = rest s). rewrite (cm_rest _ _ C2). change (rest s1 = rest s). by rewrite (cm_rest _ _ C1).
  - rewrite (cm_log _ _ C3). cbn [upd_log set_log k_log]. rewrite L2. done.
  - rewrite (cm_locks _ _ C3). change (k_locks s2 = <[L_log := unlocked "log"]> (k_locks s)). rewrite (cm_locks _ _ C2).
    change (k_locks s1 = <[L_log := unlocked "log"]> (k_locks s)). by rewrite (cm_locks _ _ C1).
Qed.

(** ** The inodes *)

Lemma refs_nonneg n H s m : inv n H s -> 0 <= refs s m.
Proof.
  intros [_ Hc]. unfold BlockCache.refs, refs_of. destruct (owner dev (cores s) m) as [b|] eqn:E; [|done]. unfold owner in E.
  apply fmap_Some in E as ([i b'] & E & ->). apply list_find_Some in E as (Hi & _). by apply (ca_range _ _ _ _ _ _ Hc i b').
Qed.

(** The first and the second inode of a block that the loop comes to: the first read brings the
    block to the cache, the second keeps a reference for ever, the others use no buffer. *)
Definition first_in (e : Z) : bool := (e mod 16 =? 0) || (e =? 1).
Definition second_in (e : Z) : bool := (e mod 16 =? 1) || (e =? 2).
Definition price (e : Z) : nat := if first_in e || second_in e then 1 else 0.
Fixpoint prices (k : nat) (e : Z) : nat := match k with O => 0 | S k' => price e + prices k' (e + 1) end.

(** The block of inode [e] in the cache, and those that come after it. *)
Record scanning (sb : superblock) (e : Z) (s : kernel) : Prop := {
  sn_clean : clean s;
  sn_sb : k_sb s = sb;
  sn_few : refs s (IBLOCK e sb) <= e mod 16;
  sn_cached : first_in e = false -> cached s (IBLOCK e sb);
  sn_kept : first_in e = false -> second_in e = false -> 1 <= refs s (IBLOCK e sb);
  sn_later : forall m, IBLOCK e sb < m -> refs s m = 0
}.

Lemma scan_next sb e s s' :
  0 <= sb_inodestart sb < 2 ^ 30 -> 1 <= e < 2 ^ 30 - 1 -> scanning sb e s -> 0 <= refs s (IBLOCK e sb) -> peeked (IBLOCK e sb) s s' -> scanning sb (e + 1) s'.
Proof.
  intros Hs He [S1 S2 S3 S4 S5 S6] H0 P. pose proof P as [C D V R Ca Mo Bo].
  pose proof (IBLOCK_eq sb e ltac:(split; lia)) as E1. pose proof (IBLOCK_eq sb (e + 1) ltac:(split; lia)) as E2.
  assert (k_sb s' = sb) as Esb by (rewrite <- S2; apply still_sb; by apply still_calm).
  unfold first_in, second_in in *. destruct (decide ((e + 1) mod 16 = 0)) as [Hz|Hz].
  - assert (IBLOCK (e + 1) sb = IBLOCK e sb + 1) as E by (rewrite E1, E2; zdm). split; [by eapply peeked_clean|done|..].
    + rewrite R, S6 by lia. lia.
    + intros Hf. unfold first_in in Hf. rewrite Hz in Hf. done.
    + intros Hf. unfold first_in in Hf. rewrite Hz in Hf. done.
    + intros m Hm. rewrite R by lia. apply S6. lia.
  - assert (IBLOCK (e + 1) sb = IBLOCK e sb) as E by (rewrite E1, E2; zdm). rewrite <- E in *. assert ((e + 1) mod 16 = e mod 16 + 1) as Em by zdm.
    split; [by eapply peeked_clean|done|lia|done| |].
    + intros _ Hs2. apply orb_false_iff in Hs2 as [Hs2 Hs3]. rewrite Mo; [lia|]. apply S4. apply orb_false_iff. split; apply Z.eqb_neq; zbool; lia.
    + intros m Hm. rewrite R by lia. by apply S6.
Qed.

Lemma ireclaim_scan sb k : forall fuel e n s,
  0 <= sb_inodestart sb < 2 ^ 30 -> 1 <= e -> e + Z.of_nat k = sb_ninodes sb -> sb_ninodes sb < 2 ^ 30 -> (k < fuel)%nat ->
  inv (prices k e + S n) ∅ s -> Z.of_nat (prices k e + S n) < 2 ^ 20 -> scanning sb e s ->
  (forall i, e <= i < sb_ninodes sb -> let di := disk_inode (view s) sb i in di_type di = 0 \/ di_nlink di <> 0) ->
  exists s', ireclaim_loop virtio_disk_rw fuel dev e s = Ok tt s' /\ inv (S n) ∅ s' /\ calm s s' /\ k_disk s' = k_disk s /\ (forall m, view s' m = view s m).
Proof.
  induction k as [|k IH]; intros [|fuel] e n s Hs He Hk Hn Hf Hi Hb Sc Hok; try lia; cbn [Fs.ireclaim_loop]; unfold bind at 1, get at 1; rewrite (sn_sb _ _ _ Sc).
  { exists s. rewrite (proj2 (Z.ltb_ge e _)) by lia. split; [done|]. split; [done|]. split; [apply calm_refl|]. done. }
  rewrite (proj2 (Z.ltb_lt e _)) by lia. cbn [prices] in *. pose proof (IBLOCK_eq sb e ltac:(split; lia)) as Eb.
  assert (0 <= IBLOCK e sb < 2 ^ 31) as Hr by (rewrite Eb; zdm). pose proof (refs_nonneg _ _ _ (IBLOCK e sb) Hi) as Hnn.
  assert (exists b s1 s2, bread dev (IBLOCK e sb) s = Ok b s1 /\ buf_get b b_data s1 = Ok (view s (IBLOCK e sb)) s1 /\ brelse b s1 = Ok tt s2 /\
    inv (prices k (e + 1) + S n) ∅ s2 /\ peeked (IBLOCK e sb) s s2 /\ calm s s1) as (b & s1 & s2 & E1 & E2 & E3 & I2 & P2 & C1).
  { unfold price in *. destruct (first_in e || second_in e) eqn:Ep.
    - apply peek; [exact Hi|apply Sc|done].
    - apply orb_false_iff in Ep as [Ep1 Ep2]. rewrite Nat.add_0_l, Nat.add_succ_r in *. pose proof (sn_few _ _ _ Sc) as Hfew. assert (e mod 16 < 16) by (apply Z.mod_pos_bound; lia).
      apply peek_again; [exact Hi|apply Sc|done|by apply Sc|lia]. }
  destruct (IH fuel (e + 1) n s2 Hs ltac:(lia) ltac:(lia) Hn ltac:(lia) I2 ltac:(lia)) as (s3 & E4 & I3 & C3 & D3 & V3).
  - eapply scan_next; [exact Hs|lia|exact Sc|exact Hnn|exact P2].
  - intros i Hi'. unfold disk_inode. rewrite (pk_view _ _ _ P2). apply Hok. lia.
  - exists s3. split; [|split; [done|split; [by eapply calm_trans; [apply P2|]|split; [by rewrite D3, (pk_disk _ _ _ P2)|intros m; by rewrite V3, (pk_view _ _ _ P2)]]]].
    mstep E1. mstep E2. fold (disk_inode (view s) sb e). specialize (Hok e ltac:(lia)). cbn zeta in Hok.
    assert (negb (di_type (disk_inode (view s) sb e) =? 0) && (di_nlink (disk_inode (view s) sb e) =? 0) = false) as ->.
    { destruct Hok as [-> |Hl]; [done|]. rewrite (proj2 (Z.eqb_neq _ 0) Hl). by rewrite andb_false_r. }
    unfold bind at 1, ret at 1. cbn beta iota. mstep E3. exact E4.
Qed.

(** ** fsinit *)

Lemma readsb_ok n s :
  inv (S n) ∅ s -> clean s -> exists s', readsb virtio_disk_rw dev s = Ok tt s' /\ inv n ∅ s' /\ clean s' /\
    (forall m, view s' m = view s m) /\ (forall m, disk_block s' m = disk_block s m) /\ (forall m, m <> 1 -> refs s' m = refs s m) /\
    calm (set_sb (read_superblock (view s 1)) s) s'.
Proof.
  intros Hs Hc. destruct (bread_ok me p dev n ∅ 1 s Hs (no_held _) (u32_below 1 ltac:(lia))) as (b & s1 & E1 & _ & Hs1 & C1 & D1 & V1 & _ & _ & R1).
  rewrite (u32_small 1) in * by lia. pose proof (lookup_insert_eq (M := gmap nat) ∅ b 1) as Hi.
  pose proof (read_data me p dev _ _ b 1 s1 Hs1 Hi) as Ed. rewrite V1 in Ed. set (sb := read_superblock (view s 1)).
  assert (inv n (<[b := 1]> ∅) (set_sb sb s1)) as Hs1' by (apply (inv_frame me p dev n _ s1); [exact Hs1|by left|done..]).
  destruct (brelse_ok me p dev n _ b 1 (set_sb sb s1) Hs1' Hi) as (s2 & E2 & Hs2 & C2 & D2 & V2 & _ & R2 & _).
  { right. change (view s1 1 = disk_block s1 1). rewrite V1, Hc. unfold disk_block. by rewrite D1. }
  rewrite delete_insert_id in Hs2 by done.
  assert (forall m, view s2 m = view s m) as V by (intros m; rewrite V2; exact (V1 m)).
  assert (forall m, disk_block s2 m = disk_block s m) as D by (intros m; unfold disk_block; rewrite D2; change (k_disk (set_sb sb s1)) with (k_disk s1); by rewrite D1).
  exists s2. split; [unfold readsb; mstep E1; mstep Ed; exact E2|]. split; [exact Hs2|]. split; [intros m; by rewrite V, D|]. split; [exact V|]. split; [exact D|]. split.
  - intros m Hm. rewrite R2 by done. change (refs s1 m = refs s m). by apply R1.
  - destruct C1 as [L1 K1 P1 T1], C2 as [L2 K2 P2 T2]. split; [by rewrite L2|by rewrite K2|destruct P1, P2; split; etransitivity; eassumption|].
    rewrite T2. unfold rest in *. cbn. injection T1 as -> -> _ -> -> -> -> -> ->. done.
Qed.

(** A file system that needs no repair: the log is empty and every inode in use has a name. *)
Record sound (v : Z -> list Z) (sb : superblock) : Prop := {
  so_sb : read_superblock (v 1) = sb;
  so_magic : sb_magic sb = FSMAGIC;
  so_log : 1 < sb_logstart sb < sb_inodestart sb;
  so_inodes : sb_inodestart sb < 2 ^ 30 /\ 1 <= sb_ninodes sb < 2 ^ 30;
  so_empty : hd_n (v (sb_logstart sb)) = 0;
  so_named : forall i, 1 <= i < sb_ninodes sb -> let di := disk_inode v sb i in di_type di = 0 \/ di_nlink di <> 0
}.

(** A kernel that has read nothing yet, with [n] buffers. *)
Record fresh (n : nat) (s : kernel) : Prop := {
  fr_inv : inv n ∅ s;
  fr_clean : clean s;
  fr_refs : forall m, refs s m = 0;
  fr_log : log_wf (k_log s)
}.

(** fsinit takes a buffer for the superblock, two for the log header and two for each block of inodes. *)
Definition fsinit_cost (sb : superblock) : nat := 3 + prices (Z.to_nat (sb_ninodes sb) - 1) 1.

Lemma fsinit_ok sb n s :
  sound (view s) sb -> Z.of_nat (fsinit_cost sb + S n) < 2 ^ 20 -> fresh (fsinit_cost sb + S n) s ->
  exists s', fsinit virtio_disk_rw dev s = Ok tt s' /\ txn me p dev (S n) 0 ∅ s' /\ (forall m, view s' m = view s m) /\
    (forall m, disk_block s' m = disk_block s m) /\ k_sb s' = sb /\ k_itable s' = k_itable s /\ k_mem s' = k_mem s /\ logged (k_log s') = [] /\
    (forall l, l <> L_log -> k_locks s' !! l = k_locks s !! l).
Proof.
  intros [Ssb Sm Sl [Si1 Si2] Se Sn] Hb [Hs Hc Hr Hl]. unfold fsinit_cost in *. set (k := (Z.to_nat (sb_ninodes sb) - 1)%nat) in *.
  destruct (readsb_ok _ s Hs Hc) as (s1 & E1 & I1 & C1 & V1 & D1 & R1 & K1). rewrite Ssb in K1.
  assert (k_sb s1 = sb) as Esb by exact (still_sb _ _ (still_calm _ _ K1)).
  destruct (initlog_empty (prices k 1 + S n) (sb_logstart sb) s1 I1 C1) as (s2 & E2 & I2 & [D2 V2 R2 _] & T2 & L2 & K2); [lia|lia|by rewrite <- C1, V1|].
  assert (k_sb s2 = sb) as Esb2 by (rewrite <- Esb; by injection T2).
  assert (forall m, view s2 m = view s m) as V by (intros m; by rewrite V2, V1). assert (forall m, disk_block s2 m = disk_block s m) as D by (intros m; by rewrite D2, D1).
  assert (forall m, sb_inodestart sb <= m -> refs s2 m = 0) as R by (intros m Hm; rewrite R2, R1 by lia; apply Hr).
  assert (IBLOCK 1 sb = sb_inodestart sb) as Eb by (rewrite IBLOCK_eq by (split; lia); change (1 / 16) with 0; lia).
  destruct (ireclaim_scan sb k (S (Z.to_nat (sb_ninodes sb))) 1 n s2) as (s3 & E3 & I3 & C3 & D3 & V3); [lia|lia|lia|lia|lia|exact I2|lia| | |].
  - split; [intros m; by rewrite V, D|done|rewrite Eb, R by lia; done|done|done|intros m Hm; apply R; lia].
  - intros i Hi. unfold disk_inode. rewrite V. by apply Sn.
  - assert (k_log s3 = with_n 0 (with_place (sb_logstart sb) dev (k_log s))) as L3.
    { rewrite (cm_log _ _ C3), L2, (cm_log _ _ K1). done. }
    assert (forall m, disk_block s3 m = disk_block s m) as D' by (intros m; unfold disk_block; rewrite D3; apply D).
    exists s3. split; [unfold fsinit; mstep E1; unfold bind at 1, get at 1; rewrite Esb, Sm, Z.eqb_refl; cbn [negb]; mstep E2; unfold ireclaim, bind at 1, get at 1; rewrite Esb2; exact E3|].
    split; [split|].
    + exact I3.
    + rewrite L3. destruct Hl as [_ ? ?]. by split.
    + by rewrite L3.
    + lia.
    + exists "log"%string. rewrite (cm_locks _ _ C3), K2. apply lookup_insert_eq.
    + intros m Hm. rewrite L3 in Hm. by apply elem_of_nil in Hm.
    + intros m _. by rewrite V3, V, D'.
    + pose proof (still_calm _ _ C3) as St. split; [intros m; by rewrite V3|]. split; [exact D'|]. split; [by rewrite (still_sb _ _ St)|].
      split; [|split; [|split; [by rewrite L3|]]].
      * rewrite (still_itable _ _ St). transitivity (k_itable s1); [by injection T2|]. by rewrite (still_itable _ _ (still_calm _ _ K1)).
      * rewrite (still_mem _ _ St). transitivity (k_mem s1); [by injection T2|]. by rewrite (still_mem _ _ (still_calm _ _ K1)).
      * intros l Hne. rewrite (cm_locks _ _ C3), K2, lookup_insert_ne by done. by rewrite (cm_locks _ _ K1).
Qed.

End Fsinit.
