(* ===== verification/Mkfs.v ===== *)
(** * mkfs/mkfs.c: the program that makes the disk image

    mkfs runs on the host and writes the file fs.img, which the kernel mounts. Its state is
    the image, as a map from sector numbers to their bytes, and its global variables. What it
    prints is left out; die and a failed assert end the program and are a [Stop] with the
    message. The host is little-endian, as the struct assignments of the code require. *)

From S2P Require Import Prelude Mem CString State Spinlock Printf Bio Bytes Fs.

Definition NINODES : Z := 200.
Definition nbitmap : Z := Z.quot FSSIZE BPB + 1.
Definition ninodeblocks : Z := Z.quot NINODES IPB + 1.
Definition nlog : Z := LOGBLOCKS + 1.

(** The image and the variables sb, freeinode and freeblock. *)
Record image := { im_disk : gmap Z (list Z); im_sb : superblock; im_freeinode : Z; im_freeblock : Z }.

Definition im_set_disk (d : gmap Z (list Z)) (im : image) : image :=
  {| im_disk := d; im_sb := im_sb im; im_freeinode := im_freeinode im; im_freeblock := im_freeblock im |}.

Abbreviation MK := (M image).

(** The bytes stored one by one, read as an integer of the host. *)
Definition xshort (x : Z) : Z := u8 x + 256 * u8 (Z.shiftr x 8).
Definition xint (x : Z) : Z :=
  u8 x + 256 * u8 (Z.shiftr x 8) + 65536 * u8 (Z.shiftr x 16) + 16777216 * u8 (Z.shiftr x 24).

(** The sector that starts at the position lseek is asked for, a uint. *)
Definition sector (sec : Z) : Z := u32 (sec * BSIZE) / BSIZE.

Definition wsect (sec : Z) (buf : list Z) : MK unit :=
  modify (fun im => im_set_disk (<[sector sec := buf]> (im_disk im)) im).

(** A read past the end of the file is short. *)
Definition rsect (sec : Z) : MK (list Z) :=
  let! d := get (fun im => im_disk im !! sector sec) in
  match d with Some buf => ret buf | None => halt (Panic "read") end.

Definition winode (inum : Z) (ip : dinode) : MK unit :=
  let! bn := get (fun im => IBLOCK inum (im_sb im)) in
  let! buf := rsect bn in
  wsect bn (write_dinode ip (64 * (inum mod IPB)) buf).

Definition rinode (inum : Z) : MK dinode :=
  let! bn := get (fun im => IBLOCK inum (im_sb im)) in
  let! buf := rsect bn in
  ret (read_dinode buf (64 * (inum mod IPB))).

Definition mkfs_ialloc (type : Z) : MK Z :=
  let! inum := get im_freeinode in
  do! modify (fun im => {| im_disk := im_disk im; im_sb := im_sb im; im_freeinode := u32 (inum + 1); im_freeblock := im_freeblock im |});
  do! winode inum {| di_type := s16 (xshort type); di_major := 0; di_minor := 0; di_nlink := s16 (xshort 1); di_size := xint 0;
                     di_addrs := replicate 13 0 |};
  ret inum.

(** [buf[i/8] = buf[i/8] | (0x1 << (i%8))] *)
Definition set_used (buf : list Z) (i : nat) : list Z :=
  put8 buf (Z.of_nat i / 8) (Z.lor (byte_at buf (Z.of_nat i / 8)) (Z.shiftl 1 (Z.of_nat i mod 8))).

Definition mkfs_balloc (used : Z) : MK unit :=
  if negb (used <? BPB) then halt (Panic "assert: used < BPB")
  else
    let! bm := get (fun im => sb_bmapstart (im_sb im)) in
    wsect bm (foldl set_used (replicate (Z.to_nat BSIZE) 0) (seq 0 (Z.to_nat used))).

(** freeblock++ *)
Definition new_block : MK Z :=
  let! b := get im_freeblock in
  do! modify (fun im => {| im_disk := im_disk im; im_sb := im_sb im; im_freeinode := im_freeinode im; im_freeblock := u32 (b + 1) |});
  ret b.

(** An entry of din.addrs, filled if it is 0. *)
Definition fill_addr (k : nat) (din : dinode) : MK dinode :=
  if xint (addr_of din k) =? 0 then let! b := new_block in ret (di_set_addr k (xint b) din) else ret din.

(** The block that holds block [fbn] of the file. *)
Definition iappend_block (fbn : Z) (din : dinode) : MK (dinode * Z) :=
  if fbn <? NDIRECT then
    let! din := fill_addr (Z.to_nat fbn) din in
    ret (din, xint (addr_of din (Z.to_nat fbn)))
  else
    let! din := fill_addr (Z.to_nat NDIRECT) din in
    let a := xint (addr_of din (Z.to_nat NDIRECT)) in
    let! indirect := rsect a in
    let! indirect :=
      (if get32 indirect (4 * (fbn - NDIRECT)) =? 0 then
         let! b := new_block in
         let indirect := put32 indirect (4 * (fbn - NDIRECT)) (xint b) in
         do! wsect a indirect;
         ret indirect
       else ret indirect) in
    ret (din, xint (get32 indirect (4 * (fbn - NDIRECT)))).

(** [p] holds the [n] bytes still to be appended. *)
Fixpoint iappend_loop (fuel : nat) (din : dinode) (off : Z) (p : list Z) : MK (dinode * Z) :=
  match p with
  | [] => ret (din, off)
  | _ =>
      match fuel with
      | O => halt OutOfFuel
      | S f =>
          let fbn := off / BSIZE in
          if negb (fbn <? MAXFILE) then halt (Panic "assert: fbn < MAXFILE")
          else
            let! ' (din, x) := iappend_block fbn din in
            let n1 := Z.min (Z.of_nat (length p)) ((fbn + 1) * BSIZE - off) in
            let o := off - fbn * BSIZE in
            let! buf := rsect x in
            do! wsect x (take (Z.to_nat o) buf ++ take (Z.to_nat n1) p ++ drop (Z.to_nat (o + n1)) buf);
            iappend_loop f din (u32 (off + n1)) (drop (Z.to_nat n1) p)
      end
  end.

Definition iappend (inum : Z) (p : list Z) : MK unit :=
  let! din := rinode inum in
  let off := xint (di_size din) in
  let! ' (din, off) := iappend_loop (S (length p)) din off p in
  winode inum {| di_type := di_type din; di_major := di_major din; di_minor := di_minor din; di_nlink := di_nlink din;
                 di_size := xint off; di_addrs := di_addrs din |}.

(** struct dirent, cleared and filled with strcpy or strncpy. *)
Definition mk_de (inum : Z) (name : list Z) : list Z :=
  put16 (replicate 2 0 ++ take (Z.to_nat DIRSIZ) (name ++ replicate (Z.to_nat DIRSIZ) 0)) 0 (xshort inum).

(** [while((cc = read(fd, buf, sizeof(buf))) > 0) iappend(inum, buf, cc)] *)
Fixpoint append_file (fuel : nat) (inum : Z) (contents : list Z) : MK unit :=
  match contents with
  | [] => ret tt
  | _ =>
      match fuel with
      | O => halt OutOfFuel
      | S f =>
          do! iappend inum (take (Z.to_nat BSIZE) contents);
          append_file f inum (drop (Z.to_nat BSIZE) contents)
      end
  end.

(** Without the leading "user/". *)
Definition shortname (arg : list Z) : list Z := if bool_decide (take 5 arg = bytes_of "user/") then drop 5 arg else arg.

(** [if(shortname[0] == '_') shortname += 1] *)
Definition skip_underscore (short : list Z) : list Z := match short with 95 :: rest => rest | _ => short end.

(** One file of the command line: its name, and its contents if it can be opened. *)
Definition add_file (rootino : Z) (file : list Z * option (list Z)) : MK unit :=
  let short := shortname file.1 in
  if negb (bool_decide (47 ∉ short)) then halt (Panic "assert: index(shortname, '/') == 0")
  else
    match file.2 with
    | None => halt (Panic "open")
    | Some contents =>
        let short := skip_underscore short in
        if negb (Z.of_nat (length short) <=? DIRSIZ) then halt (Panic "assert: strlen(shortname) <= DIRSIZ")
        else
          let! inum := mkfs_ialloc T_FILE in
          do! iappend rootino (mk_de inum short);
          append_file (S (length contents)) inum contents
    end.

(** struct superblock in a block. *)
Definition superblock_block (sb : superblock) : list Z :=
  put_words (replicate (Z.to_nat BSIZE) 0) 0
    [sb_magic sb; sb_size sb; sb_nblocks sb; sb_ninodes sb; sb_nlog sb; sb_logstart sb; sb_inodestart sb; sb_bmapstart sb].

(** main from the opening of the image on. *)
Definition mkfs_main (files : list (list Z * option (list Z))) : MK unit :=
  let nmeta := 2 + nlog + ninodeblocks + nbitmap in
  let nblocks := FSSIZE - nmeta in
  let sb := {| sb_magic := FSMAGIC; sb_size := xint FSSIZE; sb_nblocks := xint nblocks; sb_ninodes := xint NINODES;
               sb_nlog := xint nlog; sb_logstart := xint 2; sb_inodestart := xint (2 + nlog);
               sb_bmapstart := xint (2 + nlog + ninodeblocks) |} in
  do! modify (fun im => {| im_disk := im_disk im; im_sb := sb; im_freeinode := im_freeinode im; im_freeblock := nmeta |});
  do! foreach (seqZ 0 FSSIZE) (fun i => wsect i (replicate (Z.to_nat BSIZE) 0));
  do! wsect 1 (superblock_block sb);
  let! rootino := mkfs_ialloc T_DIR in
  if negb (rootino =? ROOTINO) then halt (Panic "assert: rootino == ROOTINO")
  else
    do! iappend rootino (mk_de rootino [46]);
    do! iappend rootino (mk_de rootino [46; 46]);
    do! foreach files (add_file rootino);
    let! din := rinode rootino in
    let off := xint (di_size din) in
    let off := u32 ((off / BSIZE + 1) * BSIZE) in
    do! winode rootino {| di_type := di_type din; di_major := di_major din; di_minor := di_minor din; di_nlink := di_nlink din;
                          di_size := xint off; di_addrs := di_addrs din |};
    let! freeblock := get im_freeblock in
    mkfs_balloc freeblock.

(** The image file is empty when it has been opened. *)
Definition empty_image : image :=
  {| im_disk := ∅; im_sb := sb_zero; im_freeinode := 1; im_freeblock := 0 |}.
