(* ===== verification/MkfsProps.v ===== *)
(** * The image mkfs makes

    The image holds_file the superblock the kernel reads, an inode for each file with its bytes,
    blocks that no two files share, a bitmap that marks the blocks in use, and a root
    directory with an entry for each file. *)

From S2P Require Import Prelude Mem CString State Spinlock Printf Bio Bytes BlockCache Fs Bitmap Dinode Content Mkfs.

(** ** Integers and sectors *)

Lemma xint_small x : 0 <= x < 2 ^ 32 -> xint x = x.
Proof. intros Hx. unfold xint. rewrite !Z.shiftr_div_pow2 by lia. ints. Qed.

Lemma xshort_small x : 0 <= x < 2 ^ 16 -> xshort x = x.
Proof. intros Hx. unfold xshort. rewrite !Z.shiftr_div_pow2 by lia. ints. Qed.

Lemma sector_small b : 0 <= b < 2 ^ 20 -> sector b = b.
Proof. intros Hb. unfold sector, BSIZE. rewrite u32_small by lia. zdm. Qed.

Definition zero_block : list Z := replicate 1024 0.
Definition blk (im : image) (b : Z) : list Z := default zero_block (im_disk im !! b).

Lemma byte_zeros o : byte_at zero_block o = 0.
Proof. unfold byte_at, zero_block. destruct (replicate 1024 0 !! Z.to_nat o) eqn:E; [|done]. by apply lookup_replicate in E as [-> _]. Qed.

Lemma get32_zeros o : get32 zero_block o = 0.
Proof. unfold get32. by rewrite !byte_zeros. Qed.

Lemma rsect_ok b d im : 0 <= b < 2 ^ 20 -> im_disk im !! b = Some d -> rsect b im = Ok d im.
Proof. intros Hb Hd. unfold rsect. unfold bind, get. by rewrite sector_small, Hd. Qed.

Lemma wsect_ok b d im : 0 <= b < 2 ^ 20 -> wsect b d im = Ok tt (im_set_disk (<[b := d]> (im_disk im)) im).
Proof. intros Hb. unfold wsect, modify. by rewrite sector_small. Qed.

Lemma blk_set b d im x : blk (im_set_disk (<[b := d]> (im_disk im)) im) x = if decide (x = b) then d else blk im x.
Proof.
  unfold blk. cbn. case_decide as E; [subst; by rewrite lookup_insert_eq|by rewrite lookup_insert_ne].
Qed.

(** ** The blocks of a file

    Slots 0 to 11 are the direct blocks, slot 12 is the indirect block, and the slots from 13 on
    are the blocks it names. mkfs fills them in this order. *)

Definition saddr (v : Z -> list Z) (di : dinode) (k : nat) : Z :=
  if (k <=? 12)%nat then addr_of di k
  else if addr_of di 12 =? 0 then 0 else get32 (v (addr_of di 12)) (4 * (Z.of_nat k - 13)).

(** The slot of block [j] of the file. *)
Definition dslot (j : nat) : nat := if (j <? 12)%nat then j else S j.

(** A file: its inode, the number of slots filled, and its bytes. *)
Record mfile := { f_di : dinode; f_m : nat; f_bs : list Z }.

Record holds_file (v : Z -> list Z) (f : mfile) : Prop := {
  ho_len : length (di_addrs (f_di f)) = 13%nat;
  ho_max : (f_m f <= 269)%nat;
  ho_slots : forall k, (k < 269)%nat -> saddr v (f_di f) k = 0 <-> (f_m f <= k)%nat;
  ho_bytes : forall j o, (dslot j < f_m f)%nat -> 0 <= o < 1024 ->
    byte_at (v (saddr v (f_di f) (dslot j))) o = default 0 (f_bs f !! (1024 * j + Z.to_nat o)%nat);
  ho_fit : forall j, (1024 * j < length (f_bs f))%nat -> (dslot j < f_m f)%nat
}.

Definition mkfs_sb : superblock :=
  {| sb_magic := FSMAGIC; sb_size := 2000; sb_nblocks := 1893; sb_ninodes := 200; sb_nlog := 91; sb_logstart := 2;
     sb_inodestart := 93; sb_bmapstart := 106 |}.

(** The blocks of the image, all of BSIZE bytes. *)
Definition blocks_ok (d : gmap Z (list Z)) : Prop := forall b, match d !! b with Some x => length x = 1024%nat | None => ~ 0 <= b < 2000 end.

Lemma blocks_at d b : blocks_ok d -> 0 <= b < 2000 -> exists x, d !! b = Some x /\ length x = 1024%nat.
Proof. intros H Hb. specialize (H b). destruct (d !! b) as [x|]; [by exists x|done]. Qed.

Lemma blocks_insert d b x : blocks_ok d -> length x = 1024%nat -> blocks_ok (<[b := x]> d).
Proof. intros H Hx b'. destruct (decide (b' = b)) as [-> |]; [by rewrite lookup_insert_eq|rewrite lookup_insert_ne by done; apply H]. Qed.

(** The data blocks of the image: file [i] is inode [i + 1]. *)
Record data_ok (fs : list mfile) (im : image) : Prop := {
  da_sb : im_sb im = mkfs_sb;
  da_blocks : blocks_ok (im_disk im);
  da_free : 107 <= im_freeblock im <= 2000;
  da_fresh : forall b, im_freeblock im <= b < 2000 -> blk im b = zero_block;
  da_files : forall i f, fs !! i = Some f -> holds_file (blk im) f;
  da_own : forall i f k, fs !! i = Some f -> (k < f_m f)%nat -> 107 <= saddr (blk im) (f_di f) k < im_freeblock im;
  da_inj : forall i j f g k l, fs !! i = Some f -> fs !! j = Some g -> (k < f_m f)%nat -> (l < f_m g)%nat ->
    saddr (blk im) (f_di f) k = saddr (blk im) (f_di g) l -> i = j /\ k = l
}.

Lemma saddr_ext v v' di k :
  (addr_of di 12 <> 0 -> v' (addr_of di 12) = v (addr_of di 12)) -> saddr v' di k = saddr v di k.
Proof. intros H. unfold saddr. destruct (k <=? 12)%nat; [done|]. destruct (Z.eqb_spec (addr_of di 12) 0); [done|]. by rewrite H. Qed.

Lemma saddr_set v di a k j :
  length (di_addrs di) = 13%nat -> (k <= 12)%nat -> (j <= 12)%nat ->
  saddr v (di_set_addr k a di) j = if decide (j = k) then a else saddr v di j.
Proof. intros Hl Hk Hj. unfold saddr. rewrite (proj2 (Nat.leb_le j 12)) by lia. by rewrite addr_of_set by lia. Qed.

Lemma dslot_inj j j' : dslot j = dslot j' -> j = j'.
Proof. unfold dslot. destruct (Nat.ltb_spec j 12), (Nat.ltb_spec j' 12); lia. Qed.

Lemma dslot_not_12 j : dslot j <> 12%nat.
Proof. unfold dslot. destruct (Nat.ltb_spec j 12); lia. Qed.

Lemma slot_12 v f : holds_file v f -> addr_of (f_di f) 12 <> 0 <-> (12 < f_m f)%nat.
Proof.
  intros [_ _ H _ _]. specialize (H 12%nat ltac:(lia)). unfold saddr in H. cbn [Nat.leb] in H. lia.
Qed.

(** A file of the list keeps its slots and their bytes when no block of it changes but the
    indirect one of file [i], which keeps its entries. *)
Lemma slot_apart fs im i f j g l :
  data_ok fs im -> fs !! i = Some f -> fs !! j = Some g -> (12 < f_m f)%nat -> (l < f_m g)%nat -> (i, 12%nat) <> (j, l) ->
  saddr (blk im) (f_di g) l <> addr_of (f_di f) 12.
Proof.
  intros D Hf Hg H12 Hl Hne E. destruct (da_inj _ _ D i j f g 12 l Hf Hg H12 Hl) as [-> <-]; [by rewrite E|]. done.
Qed.

(** Filling slot [k] of file [i] with the first free block. *)
Lemma grow_ok fs im im' i f f' :
  data_ok fs im -> fs !! i = Some f -> (f_m f < 269)%nat -> im_freeblock im < 2000 ->
  im_sb im' = im_sb im -> im_freeblock im' = im_freeblock im + 1 ->
  blocks_ok (im_disk im') ->
  (forall b, ((12 < f_m f)%nat -> b <> addr_of (f_di f) 12) -> blk im' b = blk im b) ->
  f_m f' = S (f_m f) -> f_bs f' = f_bs f -> length (di_addrs (f_di f')) = 13%nat ->
  (forall k, (k < 269)%nat -> saddr (blk im') (f_di f') k = if decide (k = f_m f) then im_freeblock im else saddr (blk im) (f_di f) k) ->
  data_ok (<[i := f']> fs) im'.
Proof.
  intros D Hf Hk Hfb Hsb Hfb' Hblk Hsame Hm Hbs Hlen Hsa. pose proof D as [D1 D2 D3 D4 D5 D6 D7]. pose proof (D5 i f Hf) as HF.
  assert (forall j g l, fs !! j = Some g -> j <> i -> saddr (blk im') (f_di g) l = saddr (blk im) (f_di g) l) as Hother.
  { intros j g l Hg Hj. apply saddr_ext. intros Hz. apply Hsame. intros H12. pose proof (proj1 (slot_12 _ _ (D5 j g Hg)) Hz) as Hg12.
    exact (slot_apart fs im i f j g 12 D Hf Hg H12 Hg12 ltac:(congruence)). }
  assert (forall j g l, fs !! j = Some g -> (l < f_m g)%nat -> (i, 12%nat) <> (j, l) ->
            blk im' (saddr (blk im) (f_di g) l) = blk im (saddr (blk im) (f_di g) l)) as Hdata.
  { intros j g l Hg Hl Hne. apply Hsame. intros H12. by apply (slot_apart fs im i f j g l D Hf Hg). }
  assert (blk im' (im_freeblock im) = zero_block) as Hz.
  { rewrite Hsame; [apply D4; lia|]. intros H12 E. pose proof (D6 i f 12%nat Hf H12) as Hr. change (saddr (blk im) (f_di f) 12) with (addr_of (f_di f) 12) in Hr. lia. }
  assert (forall j g, <[i := f']> fs !! j = Some g -> j = i /\ g = f' \/ j <> i /\ fs !! j = Some g) as Hl.
  { intros j g. destruct (decide (j = i)) as [-> |Hne].
    - rewrite list_lookup_insert_eq by (by eapply lookup_lt_Some). intros [= <-]. by left.
    - rewrite list_lookup_insert_ne by done. by right. }
  split.
  - congruence.
  - exact Hblk.
  - lia.
  - intros b Hb. rewrite Hsame; [apply D4; lia|]. intros H12 ->. pose proof (D6 i f 12%nat Hf H12) as Hr.
    change (saddr (blk im) (f_di f) 12) with (addr_of (f_di f) 12) in Hr. lia.
  - intros j g [[-> ->]|[Hne Hg]]%Hl.
    + destruct HF as [H1 H2 H3 H4 H5]. split; [done|rewrite Hm; lia| | |].
      * intros k Hk'. rewrite Hsa, Hm by done. case_decide as E; [subst; lia|]. rewrite H3 by done. lia.
      * intros j o Hj Ho. rewrite Hm, Hbs in *. assert (dslot j < 269)%nat by lia. rewrite Hsa by done. case_decide as E.
        -- rewrite Hz, byte_zeros. rewrite lookup_ge_None_2; [done|].
           destruct (decide (1024 * j < length (f_bs f))%nat) as [Hlt|]; [|lia]. specialize (H5 j Hlt). lia.
        -- rewrite (Hdata i f) by (done || lia || (pose proof (dslot_not_12 j); congruence)). apply H4; [lia|done].
      * intros j Hj. rewrite Hm, Hbs in *. specialize (H5 j Hj). lia.
    + destruct (D5 j g Hg) as [H1 H2 H3 H4 H5]. split; [done|done| | |done].
      * intros k Hk'. rewrite (Hother j g) by done. by apply H3.
      * intros j' o Hj' Ho. rewrite (Hother j g), (Hdata j g) by (done || congruence). by apply H4.
  - intros j g k [[-> ->]|[Hne Hg]]%Hl Hk'.
    + rewrite Hm in Hk'. rewrite Hsa by lia. case_decide; [lia|]. pose proof (D6 i f k Hf ltac:(lia)). lia.
    + rewrite (Hother j g) by done. pose proof (D6 j g k Hg Hk'). lia.
  - intros j j' g g' k l Hg Hg' Hk' Hl'. destruct (Hl j g Hg) as [[-> ->]|[Hne Hgj]], (Hl j' g' Hg') as [[-> ->]|[Hne' Hgj']].
    + rewrite Hm in *. rewrite !Hsa by lia. case_decide; case_decide; intros E; [lia| | |].
      * pose proof (D6 i f l Hf ltac:(lia)). lia.
      * pose proof (D6 i f k Hf ltac:(lia)). lia.
      * apply (D7 i i f f); (done || lia).
    + rewrite Hm in *. rewrite Hsa, (Hother j' g') by (done || lia). case_decide; intros E.
      * pose proof (D6 j' g' l Hgj' Hl'). lia.
      * apply (D7 i j' f g'); (done || lia).
    + rewrite Hm in *. rewrite Hsa, (Hother j g) by (done || lia). case_decide; intros E.
      * pose proof (D6 j g k Hgj Hk'). lia.
      * apply (D7 j i g f); (done || lia).
    + rewrite (Hother j g), (Hother j' g') by done. by apply (D7 j j' g g').
Qed.

Lemma dslot_le j j' : (j <= j')%nat -> (dslot j <= dslot j')%nat.
Proof. unfold dslot. destruct (Nat.ltb_spec j 12), (Nat.ltb_spec j' 12); lia. Qed.

(** A block with a chunk of bytes at offset [o]. *)
Definition patch (d : list Z) (o : nat) (chunk : list Z) : list Z := take o d ++ chunk ++ drop (o + length chunk) d.

Lemma length_patch d o chunk : (o + length chunk <= length d)%nat -> length (patch d o chunk) = length d.
Proof. intros H. unfold patch. rewrite !length_app, length_take, length_drop. lia. Qed.

Lemma byte_patch d o chunk x :
  length d = 1024%nat -> (o + length chunk <= 1024)%nat -> 0 <= x < 1024 ->
  byte_at (patch d o chunk) x =
    if (Z.to_nat x <? o)%nat then byte_at d x else if (Z.to_nat x <? o + length chunk)%nat then default 0 (chunk !! (Z.to_nat x - o)%nat) else byte_at d x.
Proof.
  intros Hd Ho Hx. unfold byte_at, patch. destruct (Nat.ltb_spec (Z.to_nat x) o) as [H1|H1].
  - rewrite lookup_app_l by (rewrite length_take; lia). by rewrite lookup_take_lt by lia.
  - rewrite lookup_app_r by (rewrite length_take; lia). rewrite length_take, Nat.min_l by lia. destruct (Nat.ltb_spec (Z.to_nat x) (o + length chunk)).
    + by rewrite lookup_app_l by lia.
    + rewrite lookup_app_r by lia. rewrite lookup_drop. do 2 f_equal. lia.
Qed.

(** The bytes of a file with a chunk appended. *)
Lemma append_bytes v d bs chunk j o x :
  length d = 1024%nat -> (1024 * j + o = length bs)%nat -> (o + length chunk <= 1024)%nat -> 0 <= x < 1024 -> v = d ->
  byte_at v x = default 0 (bs !! (1024 * j + Z.to_nat x)%nat) ->
  byte_at (patch v o chunk) x = default 0 ((bs ++ chunk) !! (1024 * j + Z.to_nat x)%nat).
Proof.
  intros Hd Ho Hc Hx -> Hb. rewrite byte_patch by done. destruct (Nat.ltb_spec (Z.to_nat x) o) as [H1|H1].
  - rewrite Hb, lookup_app_l by lia. done.
  - rewrite lookup_app_r by lia. destruct (Nat.ltb_spec (Z.to_nat x) (o + length chunk)).
    + do 2 f_equal. lia.
    + rewrite Hb. rewrite (lookup_ge_None_2 bs), (lookup_ge_None_2 chunk) by lia. done.
Qed.

(** Appending a chunk to the last block of file [i]. *)
Lemma write_ok fs im i f j o chunk :
  data_ok fs im -> fs !! i = Some f -> (1024 * j + o = length (f_bs f))%nat -> (o + length chunk <= 1024)%nat -> (dslot j < f_m f)%nat ->
  let x := saddr (blk im) (f_di f) (dslot j) in
  data_ok (<[i := {| f_di := f_di f; f_m := f_m f; f_bs := f_bs f ++ chunk |}]> fs) (im_set_disk (<[x := patch (blk im x) o chunk]> (im_disk im)) im).
Proof.
  intros D Hf Ho Hc Hj x. pose proof D as [D1 D2 D3 D4 D5 D6 D7]. set (im' := im_set_disk _ im).
  pose proof (D6 i f _ Hf Hj) as Hx. fold x in Hx.
  assert (length (blk im x) = 1024%nat) as Hlen.
  { destruct (blocks_at _ x D2 ltac:(lia)) as (d & Hd & Hl). unfold blk. by rewrite Hd. }
  assert (forall b, blk im' b = if decide (b = x) then patch (blk im x) o chunk else blk im b) as Hb by (intros b; apply blk_set).
  assert (forall j' g l, fs !! j' = Some g -> saddr (blk im') (f_di g) l = saddr (blk im) (f_di g) l) as Hsa.
  { intros j' g l Hg. apply saddr_ext. intros Hz. rewrite Hb. rewrite decide_False; [done|]. intros E.
    pose proof (proj1 (slot_12 _ _ (D5 j' g Hg)) Hz) as Hg12.
    destruct (D7 j' i g f 12%nat (dslot j) Hg Hf Hg12 Hj E) as [_ E']. by apply (dslot_not_12 j). }
  assert (forall j' g, <[i := {| f_di := f_di f; f_m := f_m f; f_bs := f_bs f ++ chunk |}]> fs !! j' = Some g ->
            j' = i /\ g = {| f_di := f_di f; f_m := f_m f; f_bs := f_bs f ++ chunk |} \/ j' <> i /\ fs !! j' = Some g) as Hl.
  { intros j' g. destruct (decide (j' = i)) as [-> |Hne].
    - rewrite list_lookup_insert_eq by (by eapply lookup_lt_Some). intros [= <-]. by left.
    - rewrite list_lookup_insert_ne by done. by right. }
  split; [done| |done| | | |].
  - apply blocks_insert; [done|]. by rewrite length_patch by lia.
  - intros b Hr. change (im_freeblock im') with (im_freeblock im) in Hr. rewrite Hb, decide_False by lia. by apply D4.
  - intros j' g [[-> ->]|[Hne Hg]]%Hl.
    + destruct (D5 i f Hf) as [H1 H2 H3 H4 H5]. split; cbn [f_di f_m f_bs]; [done|done| | |].
      * intros k Hk. rewrite (Hsa i f) by done. by apply H3.
      * intros j' y Hj' Hy. rewrite (Hsa i f), Hb by done. destruct (decide (j' = j)) as [-> |Hne].
        -- rewrite decide_True by done. apply (append_bytes _ (blk im x)); try done. by apply H4.
        -- rewrite decide_False by (intros E; destruct (D7 i i f f _ _ Hf Hf Hj' Hj E) as [_ E']; by apply Hne, dslot_inj).
           rewrite H4 by done. destruct (decide (j' < j)%nat).
           ++ by rewrite lookup_app_l by lia.
           ++ by rewrite !lookup_ge_None_2 by (rewrite ?length_app; lia).
      * intros j' Hj'. rewrite length_app in Hj'. pose proof (dslot_le j' j ltac:(lia)). lia.
    + destruct (D5 j' g Hg) as [H1 H2 H3 H4 H5]. split; [done|done| | |done].
      * intros k Hk. rewrite (Hsa j' g) by done. by apply H3.
      * intros l y Hl' Hy. rewrite (Hsa j' g), Hb by done. rewrite decide_False; [by apply H4|].
        intros E. destruct (D7 j' i g f _ _ Hg Hf Hl' Hj E) as [E' _]. done.
  - intros j' g k [[-> ->]|[Hne Hg]]%Hl Hk; cbn [f_di f_m] in *; rewrite ?(Hsa i f), ?(Hsa j' g) by done; [by apply (D6 i f)|by apply (D6 j' g)].
  - intros j1 j2 g1 g2 k l Hg1 Hg2.
    destruct (Hl j1 g1 Hg1) as [[-> ->]|[Hne1 G1]], (Hl j2 g2 Hg2) as [[-> ->]|[Hne2 G2]]; cbn [f_di f_m];
      rewrite ?(Hsa i f), ?(Hsa j1 g1), ?(Hsa j2 g2) by done; intros Hk Hl'.
    + by apply (D7 i i f f).
    + by apply (D7 i j2 f g2).
    + by apply (D7 j1 i g1 f).
    + by apply (D7 j1 j2 g1 g2).
Qed.

(** ** Allocation *)

(** The boot block, the superblock, the log, the inodes and the bitmap are as they were. *)
Record meta_same (im im' : image) : Prop := {
  ms_disk : forall b, b < 107 -> im_disk im' !! b = im_disk im !! b;
  ms_sb : im_sb im' = im_sb im;
  ms_freeinode : im_freeinode im' = im_freeinode im
}.

Lemma meta_refl im : meta_same im im.
Proof. by split. Qed.

Lemma meta_trans im1 im2 im3 : meta_same im1 im2 -> meta_same im2 im3 -> meta_same im1 im3.
Proof. intros [A1 A2 A3] [B1 B2 B3]. split; [|congruence..]. intros b Hb. by rewrite B1, A1. Qed.

Lemma meta_write im b d : 107 <= b -> meta_same im (im_set_disk (<[b := d]> (im_disk im)) im).
Proof. intros Hb. split; [|done..]. intros b' Hb'. cbn. by rewrite lookup_insert_ne by lia. Qed.

(** Only the addresses of the blocks may differ. *)
Definition same_head (di di' : dinode) : Prop :=
  di_type di' = di_type di /\ di_major di' = di_major di /\ di_minor di' = di_minor di /\ di_nlink di' = di_nlink di /\ di_size di' = di_size di.

(** The file [f] has become [f'], with slot [k] filled. *)
Record slot_filled (fs : list mfile) (i : nat) (f : mfile) (k : nat) (f' : mfile) (im im' : image) : Prop := {
  fi_data : data_ok (<[i := f']> fs) im';
  fi_m : f_m f' = Nat.max (f_m f) (S k);
  fi_bs : f_bs f' = f_bs f;
  fi_head : same_head (f_di f) (f_di f');
  fi_free : im_freeblock im' = im_freeblock im + Z.of_nat (f_m f' - f_m f);
  fi_meta : meta_same im im'
}.

Definition im_set_free (b : Z) (im : image) : image :=
  {| im_disk := im_disk im; im_sb := im_sb im; im_freeinode := im_freeinode im; im_freeblock := b |}.

Lemma new_block_ok im : 0 <= im_freeblock im < 2000 -> new_block im = Ok (im_freeblock im) (im_set_free (im_freeblock im + 1) im).
Proof. intros H. unfold new_block, bind, get, modify, ret. by rewrite u32_small by lia. Qed.

Lemma own_range fs im i f k : data_ok fs im -> fs !! i = Some f -> (k < f_m f)%nat -> 107 <= saddr (blk im) (f_di f) k < 2000.
Proof. intros D Hf Hk. pose proof (da_own _ _ D i f k Hf Hk). pose proof (da_free _ _ D). lia. Qed.

Lemma fill_ok fs im i f k :
  data_ok fs im -> fs !! i = Some f -> (k <= 12)%nat -> (k <= f_m f)%nat -> (f_m f = k -> im_freeblock im < 2000) ->
  exists f' im', fill_addr k (f_di f) im = Ok (f_di f') im' /\ slot_filled fs i f k f' im im'.
Proof.
  intros D Hf Hk Hm Hroom. pose proof (da_files _ _ D i f Hf) as HF. pose proof (da_free _ _ D) as Hfb.
  assert (addr_of (f_di f) k = saddr (blk im) (f_di f) k) as Ea by (unfold saddr; by rewrite (proj2 (Nat.leb_le k 12))).
  unfold fill_addr. destruct (decide (f_m f = k)) as [E|E].
  - rewrite Ea, (proj2 (ho_slots _ _ HF k ltac:(lia))) by lia. change (xint 0 =? 0) with true. cbn match.
    rewrite (bind_ok _ _ _ _ _ (new_block_ok im ltac:(specialize (Hroom E); lia))). rewrite xint_small by (specialize (Hroom E); lia).
    exists {| f_di := di_set_addr k (im_freeblock im) (f_di f); f_m := S k; f_bs := f_bs f |}. eexists. split; [reflexivity|].
    split; cbn [f_m f_bs f_di]; [|lia|done|done|change (im_freeblock im + 1 = im_freeblock im + Z.of_nat (S k - f_m f)); lia|by split].
    apply (grow_ok fs im _ i f); cbn [f_m f_bs f_di]; try done; [lia|by apply Hroom|by apply D|by rewrite E|cbn; rewrite length_insert; apply HF|].
    intros k' Hk'. rewrite E. unfold saddr. rewrite !addr_of_set by (apply HF || lia). destruct (Nat.leb_spec k' 12) as [H1|H1]; [done|].
    rewrite (decide_False (P := k' = k)) by lia. pose proof (slot_12 _ _ HF) as H12. destruct (decide (12%nat = k)) as [<- |Hne].
    + rewrite (proj2 (Z.eqb_neq (im_freeblock im) 0)) by lia. change (blk (im_set_free (im_freeblock im + 1) im)) with (blk im).
      rewrite (da_fresh _ _ D) by (specialize (Hroom E); lia). rewrite get32_zeros. destruct (Z.eqb_spec (addr_of (f_di f) 12) 0); [done|]. lia.
    + destruct (Z.eqb_spec (addr_of (f_di f) 12) 0); [done|]. lia.
  - assert (saddr (blk im) (f_di f) k <> 0) as Hz by (intros Hz; apply (ho_slots _ _ HF k) in Hz; lia).
    pose proof (own_range _ _ _ _ k D Hf ltac:(lia)) as Hr. rewrite Ea, xint_small by lia. rewrite (proj2 (Z.eqb_neq _ _) Hz).
    exists f, im. split; [done|]. split; try done; [by rewrite list_insert_id|lia|lia].
Qed.

(** The entry of the indirect block for block [12 + e] of the file. *)
Lemma indirect_ok fs im i f e :
  data_ok fs im -> fs !! i = Some f -> (e < 256)%nat -> (13 + e <= f_m f)%nat -> (f_m f = (13 + e)%nat -> im_freeblock im < 2000) ->
  exists f' im',
    (let a := xint (addr_of (f_di f) 12) in
     let! indirect := rsect a in
     let! indirect :=
       (if get32 indirect (4 * Z.of_nat e) =? 0 then
          let! b := new_block in
          let indirect := put32 indirect (4 * Z.of_nat e) (xint b) in
          do! wsect a indirect;
          ret indirect
        else ret indirect) in
     ret (f_di f, xint (get32 indirect (4 * Z.of_nat e)))) im = Ok (f_di f', saddr (blk im') (f_di f') (13 + e)) im' /\
    slot_filled fs i f (13 + e) f' im im' /\ f_di f' = f_di f.
Proof.
  intros D Hf He Hm Hroom. pose proof (da_files _ _ D i f Hf) as HF. pose proof (da_free _ _ D) as Hfb.
  pose proof (own_range _ _ _ _ 12 D Hf ltac:(lia)) as Ha. change (saddr (blk im) (f_di f) 12) with (addr_of (f_di f) 12) in Ha.
  set (a := addr_of (f_di f) 12) in *. cbn zeta. rewrite (xint_small a) by lia.
  destruct (blocks_at _ a (da_blocks _ _ D) ltac:(lia)) as (d & Hd & Hl). assert (blk im a = d) as Hblk by (unfold blk; by rewrite Hd).
  rewrite (bind_ok _ _ _ _ _ (rsect_ok a d im ltac:(lia) Hd)).
  assert (forall v di' k, addr_of di' 12 = a -> (13 <= k)%nat -> saddr v di' k = get32 (v a) (4 * (Z.of_nat k - 13))) as Hs.
  { intros v di' k E Hk. unfold saddr. rewrite (proj2 (Nat.leb_gt k 12)) by lia. rewrite E. by rewrite (proj2 (Z.eqb_neq a 0)) by lia. }
  assert (saddr (blk im) (f_di f) (13 + e) = get32 d (4 * Z.of_nat e)) as Es.
  { rewrite Hs, Hblk by (done || lia). f_equal. lia. }
  destruct (decide (f_m f = 13 + e)%nat) as [E|E].
  - rewrite <- Es, (proj2 (ho_slots _ _ HF (13 + e)%nat ltac:(lia))) by lia. cbn [Z.eqb]. rewrite bind_assoc.
    rewrite (bind_ok _ _ _ _ _ (new_block_ok im ltac:(specialize (Hroom E); lia))). rewrite (xint_small (im_freeblock im)) by (specialize (Hroom E); lia).
    set (b := im_freeblock im) in *. set (d' := put32 d (4 * Z.of_nat e) b). cbn zeta. rewrite bind_assoc.
    rewrite (bind_ok _ _ _ _ _ (wsect_ok a d' (im_set_free (b + 1) im) ltac:(lia))).
    set (im' := im_set_disk _ _). unfold bind at 1, ret at 1. fold d'.
    assert (get32 d' (4 * Z.of_nat e) = b) as Eg by (unfold d'; rewrite get32_put32 by lia; apply u32_small; specialize (Hroom E); lia).
    assert (blk im' a = d') as Hb' by (unfold im'; rewrite blk_set; by rewrite decide_True).
    exists {| f_di := f_di f; f_m := S (13 + e); f_bs := f_bs f |}, im'. cbn [f_di]. split; [|split; [|done]].
    { unfold ret. do 2 f_equal. rewrite Eg, xint_small by (specialize (Hroom E); lia). rewrite Hs, Hb' by (done || lia).
      replace (4 * (Z.of_nat (13 + e) - 13)) with (4 * Z.of_nat e) by lia. by rewrite Eg. }
    split; cbn [f_m f_bs f_di]; [|lia|done|done|change (b + 1 = b + Z.of_nat (S (13 + e) - f_m f)); lia|split; [|done..]].
    + apply (grow_ok fs im im' i f); cbn [f_m f_bs f_di]; try done; [lia|by apply Hroom| | |by rewrite E|by apply HF|].
      * apply blocks_insert; [apply D|]. unfold d'. by rewrite length_put32.
      * intros x Hx. specialize (Hx ltac:(lia)). unfold im'. rewrite blk_set. by rewrite decide_False.
      * intros k Hk. rewrite E. destruct (decide (k < 13)%nat) as [Hk13|Hk13].
        -- rewrite decide_False by lia. unfold saddr. by rewrite (proj2 (Nat.leb_le k 12)) by lia.
        -- rewrite !Hs, Hb', Hblk by (done || lia). case_decide as Ek.
           ++ subst k. replace (4 * (Z.of_nat (13 + e) - 13)) with (4 * Z.of_nat e) by lia. done.
           ++ unfold d'. apply get32_put32_other; lia.
    + intros x Hx. unfold im'. cbn. by rewrite lookup_insert_ne by lia.
  - assert (saddr (blk im) (f_di f) (13 + e) <> 0) as Hz by (intros Hz; apply (ho_slots _ _ HF (13 + e)%nat) in Hz; lia).
    pose proof (own_range _ _ _ _ (13 + e)%nat D Hf ltac:(lia)) as Hr. rewrite <- Es, (proj2 (Z.eqb_neq _ _) Hz).
    unfold bind at 1, ret at 1. rewrite <- Es, xint_small by lia.
    exists f, im. split; [done|]. split; [|done]. split; try done; [by rewrite list_insert_id|lia|lia].
Qed.

(** The slots of a file of [n] blocks. *)
Definition need (n : nat) : nat := if (n <=? 12)%nat then n else S n.

Lemma need_S j : need (S j) = S (dslot j).
Proof. unfold need, dslot. destruct (Nat.leb_spec (S j) 12), (Nat.ltb_spec j 12); lia. Qed.

Lemma block_ok fs im i f j :
  data_ok fs im -> fs !! i = Some f -> (j < 268)%nat -> (need j <= f_m f)%nat ->
  im_freeblock im + Z.of_nat (need (S j) - f_m f) <= 2000 ->
  exists f' im', iappend_block (Z.of_nat j) (f_di f) im = Ok (f_di f', saddr (blk im') (f_di f') (dslot j)) im' /\
    slot_filled fs i f (dslot j) f' im im'.
Proof.
  intros D Hf Hj Hm Hroom. rewrite need_S in Hroom. unfold iappend_block, dslot, need in *. change NDIRECT with 12.
  destruct (Nat.ltb_spec j 12) as [Hlt|Hge].
  - rewrite (proj2 (Z.ltb_lt (Z.of_nat j) 12)) by lia. rewrite Nat2Z.id.
    destruct (fill_ok fs im i f j D Hf) as (f' & im' & E & F); [lia|destruct (Nat.leb_spec j 12); lia|lia|].
    rewrite (bind_ok _ _ _ _ _ E). exists f', im'. split; [|done]. unfold ret. do 2 f_equal.
    assert (<[i := f']> fs !! i = Some f') as Hf' by (apply list_lookup_insert_eq; by eapply lookup_lt_Some).
    pose proof (own_range _ _ _ _ j (fi_data _ _ _ _ _ _ _ F) Hf' ltac:(rewrite (fi_m _ _ _ _ _ _ _ F); lia)) as Hr.
    unfold saddr in *. rewrite (proj2 (Nat.leb_le j 12)) in * by lia. by rewrite xint_small by lia.
  - rewrite (proj2 (Z.ltb_ge (Z.of_nat j) 12)) by lia. change (Z.to_nat 12) with 12%nat.
    destruct (fill_ok fs im i f 12 D Hf) as (f1 & im1 & E1 & [F1 F2 F3 F4 F5 F6]); [lia|destruct (Nat.leb_spec j 12); lia|lia|].
    rewrite (bind_ok _ _ _ _ _ E1). assert (<[i := f1]> fs !! i = Some f1) as Hf1 by (apply list_lookup_insert_eq; by eapply lookup_lt_Some).
    destruct (indirect_ok (<[i := f1]> fs) im1 i f1 (j - 12) F1 Hf1) as (f2 & im2 & E2 & [G1 G2 G3 G4 G5 G6] & Hdi);
      [lia|destruct (Nat.leb_spec j 12); lia|intros Hx; lia|].
    exists f2, im2. replace (13 + (j - 12))%nat with (S j) in * by lia. replace (Z.of_nat j - 12) with (Z.of_nat (j - 12)) by lia. split; [exact E2|].
    split; [by rewrite list_insert_insert_eq in G1|lia|congruence| |lia|by eapply meta_trans].
    destruct F4 as (A1 & A2 & A3 & A4 & A5), G4 as (B1 & B2 & B3 & B4 & B5). unfold same_head. by rewrite B1, B2, B3, B4, B5.
Qed.

(** ** Appending *)

(** The blocks of a file of [n] bytes, and the slots they fill. *)
Definition nblocks (n : nat) : nat := Z.to_nat ((Z.of_nat n + 1023) / 1024).
Definition slots (n : nat) : nat := need (nblocks n).

Lemma need_le n m : (n <= m)%nat -> (need n <= need m)%nat.
Proof. unfold need. destruct (Nat.leb_spec n 12), (Nat.leb_spec m 12); lia. Qed.

Lemma slots_le n m : (n <= m)%nat -> (slots n <= slots m)%nat.
Proof. intros H. apply need_le. unfold nblocks. zdm. Qed.

Lemma slots_turn j o n : (o < 1024)%nat -> (0 < n)%nat -> (o + n <= 1024)%nat ->
  slots (1024 * j + o + n) = need (S j) /\ (need j <= slots (1024 * j + o) <= need (S j))%nat.
Proof.
  intros H1 H2 H3. unfold slots. assert (nblocks (1024 * j + o + n) = S j) as -> by (unfold nblocks; zdm).
  split; [done|]. split; apply need_le; unfold nblocks; zdm.
Qed.

(** File [i] has become [f'], with the bytes [p] appended. *)
Record appended (fs : list mfile) (i : nat) (f : mfile) (p : list Z) (f' : mfile) (im im' : image) : Prop := {
  ap_data : data_ok (<[i := f']> fs) im';
  ap_m : f_m f' = slots (length (f_bs f'));
  ap_bs : f_bs f' = f_bs f ++ p;
  ap_head : same_head (f_di f) (f_di f');
  ap_free : im_freeblock im' = im_freeblock im + Z.of_nat (f_m f' - f_m f);
  ap_meta : meta_same im im'
}.

Lemma head_trans d1 d2 d3 : same_head d1 d2 -> same_head d2 d3 -> same_head d1 d3.
Proof. intros (A1 & A2 & A3 & A4 & A5) (B1 & B2 & B3 & B4 & B5). unfold same_head. by rewrite B1, B2, B3, B4, B5. Qed.

Lemma iappend_loop_ok fuel : forall fs im i f p,
  data_ok fs im -> fs !! i = Some f -> f_m f = slots (length (f_bs f)) ->
  (length (f_bs f) + length p <= 268 * 1024)%nat -> (length p <= fuel)%nat ->
  im_freeblock im + Z.of_nat (slots (length (f_bs f) + length p) - f_m f) <= 2000 ->
  exists f' im', iappend_loop fuel (f_di f) (Z.of_nat (length (f_bs f))) p im = Ok (f_di f', Z.of_nat (length (f_bs f'))) im' /\
    appended fs i f p f' im im'.
Proof.
  induction fuel as [|fuel IH]; intros fs im i f p D Hf Hm Hmax Hfuel Hroom.
  { destruct p as [|x p]; [|cbn in Hfuel; lia]. exists f, im. split; [done|]. split; try done; [by rewrite list_insert_id|by rewrite app_nil_r|lia]. }
  destruct (decide (p = [])) as [-> |Hp].
  { exists f, im. split; [done|]. split; try done; [by rewrite list_insert_id|by rewrite app_nil_r|lia]. }
  set (off := length (f_bs f)) in *. set (j := (off / 1024)%nat). set (o := (off mod 1024)%nat).
  assert (off = (1024 * j + o)%nat /\ (o < 1024)%nat) as [Eo Ho] by (split; [apply Nat.div_mod; done|by apply Nat.mod_upper_bound]).
  set (n1 := Nat.min (length p) (1024 - o)).
  assert (0 < length p)%nat as Hp0 by (destruct p; [done|cbn; lia]).
  assert (0 < n1 /\ n1 <= length p /\ o + n1 <= 1024)%nat as (N1 & N2 & N3) by (unfold n1; lia).
  destruct (slots_turn j o n1 Ho N1 N3) as (T1 & T2 & T3). rewrite <- Eo in T1, T2, T3.
  pose proof (slots_le (off + n1) (off + length p) ltac:(lia)) as T4.
  destruct (block_ok fs im i f j D Hf ltac:(lia) ltac:(lia) ltac:(lia)) as (f1 & im1 & E1 & [F1 F2 F3 F4 F5 F6]).
  assert (<[i := f1]> fs !! i = Some f1) as Hf1 by (apply list_lookup_insert_eq; by eapply lookup_lt_Some).
  set (chunk := take n1 p). assert (length chunk = n1) as Hc by (unfold chunk; rewrite length_take; lia).
  assert (f_m f1 = need (S j)) as Em1 by (rewrite need_S in *; lia).
  set (x := saddr (blk im1) (f_di f1) (dslot j)) in *.
  pose proof (write_ok (<[i := f1]> fs) im1 i f1 j o chunk F1 Hf1 ltac:(rewrite F3; fold off; lia) ltac:(lia) ltac:(rewrite need_S in *; lia)) as W. fold x in W. cbn zeta in W.
  pose proof (own_range _ _ _ _ (dslot j) F1 Hf1 ltac:(rewrite need_S in *; lia)) as Hx. fold x in Hx.
  destruct (blocks_at _ x (da_blocks _ _ F1) ltac:(lia)) as (d & Hd & Hl). assert (blk im1 x = d) as Hblk by (unfold blk; by rewrite Hd). rewrite Hblk in W.
  set (f2 := {| f_di := f_di f1; f_m := f_m f1; f_bs := f_bs f1 ++ chunk |}) in *. set (im2 := im_set_disk _ im1) in W.
  rewrite list_insert_insert_eq in W. assert (<[i := f2]> fs !! i = Some f2) as Hf2 by (apply list_lookup_insert_eq; by eapply lookup_lt_Some).
  assert (length (f_bs f2) = (off + n1)%nat) as Hl2 by (cbn; rewrite F3, length_app, Hc; done).
  destruct (IH (<[i := f2]> fs) im2 i f2 (drop n1 p) W Hf2) as (f3 & im3 & E3 & [G1 G2 G3 G4 G5 G6]).
  { rewrite Hl2. cbn [f_m f2]. congruence. }
  { rewrite Hl2, length_drop. lia. }
  { rewrite length_drop. lia. }
  { rewrite Hl2, length_drop. replace (off + n1 + (length p - n1))%nat with (off + length p)%nat by lia. cbn [f_m f2].
    change (im_freeblock im2) with (im_freeblock im1). lia. }
  exists f3, im3. split.
  - destruct p as [|p0 p']; [done|]. cbn [iappend_loop]. change BSIZE with 1024.
    assert (Z.of_nat off / 1024 = Z.of_nat j) as -> by (unfold j; by rewrite Nat2Z.inj_div).
    change MAXFILE with 268. rewrite (proj2 (Z.ltb_lt _ _)) by lia. cbn [negb]. rewrite (bind_ok _ _ _ _ _ E1). cbn beta iota.
    rewrite (bind_ok _ _ _ _ _ (rsect_ok x d im1 ltac:(lia) Hd)).
    replace (Z.min (Z.of_nat (length (p0 :: p'))) ((Z.of_nat j + 1) * 1024 - Z.of_nat off)) with (Z.of_nat n1) by (unfold n1; lia).
    replace (Z.to_nat (Z.of_nat off - Z.of_nat j * 1024)) with o by lia.
    replace (Z.to_nat (Z.of_nat off - Z.of_nat j * 1024 + Z.of_nat n1)) with (o + length chunk)%nat by lia. rewrite Nat2Z.id.
    fold chunk. fold (patch d o chunk). rewrite (bind_ok _ _ _ _ _ (wsect_ok x _ im1 ltac:(lia))).
    rewrite u32_small by lia. replace (Z.of_nat off + Z.of_nat n1) with (Z.of_nat (length (f_bs f2))) by lia. exact E3.
  - rewrite list_insert_insert_eq in G1. assert (f_bs f3 = f_bs f ++ p) as Ebs.
    { rewrite G3. cbn [f_bs f2]. rewrite F3, <- app_assoc. f_equal. apply take_drop. }
    pose proof (slots_le (off + n1) (length (f_bs f3)) ltac:(rewrite Ebs, length_app; fold off; lia)) as T5.
    split; [done|done|done|exact (head_trans _ _ _ F4 G4)| |].
    + rewrite G5. change (im_freeblock im2) with (im_freeblock im1). change (f_m f2) with (f_m f1). lia.
    + eapply meta_trans; [exact F6|]. eapply meta_trans; [|exact G6]. apply meta_write. lia.
Qed.

(** ** Inodes *)

(** Inode [n] is in block [iblk n] at offset [ioff n]. *)
Definition iblk (n : nat) : Z := 93 + Z.of_nat n / 16.
Definition ioff (n : nat) : Z := 64 * (Z.of_nat n mod 16).
Definition mk_inode (im : image) (n : nat) : dinode := read_dinode (blk im (iblk n)) (ioff n).

Lemma iblk_range n : (n < 208)%nat -> 93 <= iblk n < 106 /\ 0 <= ioff n /\ ioff n + 64 <= 1024.
Proof. intros H. unfold iblk, ioff. zdm. Qed.

Lemma mkfs_IBLOCK n : (n < 208)%nat -> IBLOCK (Z.of_nat n) mkfs_sb = iblk n.
Proof. intros H. unfold IBLOCK, iblk. change IPB with 16. cbn [sb_inodestart mkfs_sb]. rewrite u32_small by zdm. lia. Qed.

(** A block of the inodes is written: the data stays. *)
Lemma data_meta fs im b d :
  data_ok fs im -> 0 <= b < 107 -> length d = 1024%nat -> data_ok fs (im_set_disk (<[b := d]> (im_disk im)) im).
Proof.
  intros D Hb Hd. pose proof D as [D1 D2 D3 D4 D5 D6 D7]. set (im' := im_set_disk _ im).
  assert (forall x, 107 <= x -> blk im' x = blk im x) as Hx by (intros x Hx; unfold im'; rewrite blk_set; by rewrite decide_False by lia).
  assert (forall i f k, fs !! i = Some f -> saddr (blk im') (f_di f) k = saddr (blk im) (f_di f) k) as Hs.
  { intros i f k Hf. apply saddr_ext. intros Hz. apply Hx. pose proof (proj1 (slot_12 _ _ (D5 i f Hf)) Hz) as H12.
    pose proof (D6 i f 12%nat Hf H12) as Hr. change (saddr (blk im) (f_di f) 12) with (addr_of (f_di f) 12) in Hr. lia. }
  split; [done| |done| | | |].
  - by apply blocks_insert.
  - intros x Hr. change (im_freeblock im') with (im_freeblock im) in Hr. rewrite Hx by lia. by apply D4.
  - intros i f Hf. destruct (D5 i f Hf) as [H1 H2 H3 H4 H5]. split; try done.
    + intros k Hk. rewrite (Hs i) by done. by apply H3.
    + intros j o Hj Ho. rewrite (Hs i) by done. pose proof (D6 i f _ Hf Hj). rewrite Hx by lia. by apply H4.
  - intros i f k Hf Hk. rewrite (Hs i) by done. by apply (D6 i f).
  - intros i j f g k l Hf Hg Hk Hl. rewrite (Hs i), (Hs j) by done. by apply (D7 i j f g).
Qed.

(** Only the addresses of an inode matter to the data. *)
Lemma data_head fs im i f di :
  data_ok fs im -> fs !! i = Some f -> di_addrs di = di_addrs (f_di f) -> data_ok (<[i := {| f_di := di; f_m := f_m f; f_bs := f_bs f |}]> fs) im.
Proof.
  intros D Hf Ha. pose proof D as [D1 D2 D3 D4 D5 D6 D7].
  assert (forall k, saddr (blk im) di k = saddr (blk im) (f_di f) k) as Hs by (intros k; unfold saddr, addr_of; by rewrite Ha).
  assert (forall j g, <[i := {| f_di := di; f_m := f_m f; f_bs := f_bs f |}]> fs !! j = Some g ->
    exists g', fs !! j = Some g' /\ f_m g = f_m g' /\ f_bs g = f_bs g' /\ (forall k, saddr (blk im) (f_di g) k = saddr (blk im) (f_di g') k) /\
      length (di_addrs (f_di g)) = length (di_addrs (f_di g'))) as Hl.
  { intros j g. destruct (decide (j = i)) as [-> |Hne].
    - rewrite list_lookup_insert_eq by (by eapply lookup_lt_Some). intros [= <-]. exists f. by rewrite <- Ha.
    - rewrite list_lookup_insert_ne by done. intros Hg. by exists g. }
  split; try done.
  - intros j g (g' & Hg & Em & Eb & Es & El)%Hl. destruct (D5 j g' Hg) as [H1 H2 H3 H4 H5].
    split; rewrite ?Em, ?Eb, ?El; try done.
    + intros k Hk. rewrite Es. by apply H3.
    + intros j' o Hj Ho. rewrite Es. by apply H4.
  - intros j g k (g' & Hg & Em & Eb & Es & El)%Hl. rewrite Em, Es. by apply (D6 j).
  - intros j1 j2 g1 g2 k l (g1' & G1 & M1 & _ & S1 & _)%Hl (g2' & G2 & M2 & _ & S2 & _)%Hl. rewrite M1, M2, S1, S2. by apply (D7 j1 j2).
Qed.

(** A new, empty file. *)
Lemma data_new fs im f :
  data_ok fs im -> f_m f = 0%nat -> f_bs f = [] -> f_di f = {| di_type := di_type (f_di f); di_major := 0; di_minor := 0; di_nlink := 1; di_size := 0; di_addrs := replicate 13 0 |} ->
  data_ok (fs ++ [f]) im.
Proof.
  intros [D1 D2 D3 D4 D5 D6 D7] Hm Hb Hd.
  assert (forall k, addr_of (f_di f) k = 0) as Ha.
  { intros k. rewrite Hd. unfold addr_of. cbn [di_addrs]. destruct (replicate 13 0 !! k) as [x|] eqn:E; [|done]. by apply lookup_replicate in E as [-> _]. }
  assert (forall i g, (fs ++ [f]) !! i = Some g -> fs !! i = Some g \/ g = f /\ f_m g = 0%nat) as Hl.
  { intros i g [H|[_ H]]%lookup_app_Some; [by left|]. right. apply list_lookup_singleton_Some in H as [_ <-]. done. }
  split; try done.
  - intros i g [Hg|[-> _]]%Hl; [by eapply D5|]. split; rewrite ?Hm, ?Hb; try done.
    + by rewrite Hd.
    + lia.
    + intros k Hk. split; [lia|]. intros _. unfold saddr. rewrite !Ha. by destruct (k <=? 12)%nat.
    + lia.
    + cbn. lia.
  - intros i g k [Hg|[-> E]]%Hl Hk; [by apply (D6 i)|lia].
  - intros i j g h k l [Hg|[-> E]]%Hl [Hh|[-> E']]%Hl Hk Hl'; [by apply (D7 i j g h)|lia..].
Qed.

(** The whole image, before the bitmap is written. *)
Record image_ok (fs : list mfile) (im : image) : Prop := {
  io_data : data_ok fs im;
  io_count : im_freeinode im = Z.of_nat (S (length fs)) /\ (length fs < 200)%nat;
  io_files : forall i f, fs !! i = Some f ->
    f_m f = slots (length (f_bs f)) /\ mk_inode im (S i) = f_di f /\ dinode_ok (f_di f) /\
    di_size (f_di f) = Z.of_nat (length (f_bs f)) /\ di_nlink (f_di f) = 1 /\ (length (f_bs f) <= 268 * 1024)%nat;
  io_unused : forall n, (n = 0%nat \/ length fs < n)%nat -> (n < 208)%nat -> di_type (mk_inode im n) = 0;
  io_total : im_freeblock im = 107 + Z.of_nat (sum_list (f_m <$> fs));
  io_sb : blk im 1 = superblock_block mkfs_sb;
  io_log : forall b, b = 0 \/ 2 <= b < 93 \/ b = 106 -> blk im b = zero_block
}.

(** Writing inode [n]. *)
Lemma winode_ok fs im n di :
  data_ok fs im -> (n < 208)%nat -> dinode_ok di ->
  let im' := im_set_disk (<[iblk n := write_dinode di (ioff n) (blk im (iblk n))]> (im_disk im)) im in
  winode (Z.of_nat n) di im = Ok tt im' /\ data_ok fs im' /\
  (forall n', (n' < 208)%nat -> mk_inode im' n' = if decide (n' = n) then di else mk_inode im n') /\
  (forall b, ~ 93 <= b < 106 -> blk im' b = blk im b).
Proof.
  intros D Hn Hdi im'. destruct (iblk_range n Hn) as (R1 & R2 & R3). destruct (blocks_at _ (iblk n) (da_blocks _ _ D) ltac:(lia)) as (d & Hd & Hl).
  assert (blk im (iblk n) = d) as Hb by (unfold blk; by rewrite Hd).
  split; [|split; [|split]].
  - unfold winode. unfold bind at 1, get at 1. rewrite (da_sb _ _ D), mkfs_IBLOCK by done.
    rewrite (bind_ok _ _ _ _ _ (rsect_ok (iblk n) d im ltac:(lia) Hd)). change (64 * (Z.of_nat n mod IPB)) with (ioff n).
    rewrite wsect_ok by lia. unfold im'. by rewrite Hb.
  - apply data_meta; [done|lia|]. rewrite length_write_dinode, Hb. done.
  - intros n' Hn'. unfold mk_inode, im'. rewrite blk_set. destruct (decide (iblk n' = iblk n)) as [E|E].
    + rewrite E, Hb. case_decide as En.
      * subst n'. apply read_write_dinode; lia || done.
      * assert (ioff n' + 64 <= ioff n \/ ioff n + 64 <= ioff n') as Hap by (unfold iblk, ioff in *; zdm).
        destruct (iblk_range n' Hn') as (_ & Q2 & Q3). apply read_write_other; lia || done.
    + rewrite decide_False by congruence. done.
  - intros b Hb'. unfold im'. rewrite blk_set. by rewrite decide_False by lia.
Qed.

Lemma data_freeinode fs im n :
  data_ok fs im -> data_ok fs {| im_disk := im_disk im; im_sb := im_sb im; im_freeinode := n; im_freeblock := im_freeblock im |}.
Proof. intros [D1 D2 D3 D4 D5 D6 D7]. by split. Qed.

Definition new_file (type : Z) : mfile :=
  {| f_di := {| di_type := type; di_major := 0; di_minor := 0; di_nlink := 1; di_size := 0; di_addrs := replicate 13 0 |}; f_m := 0; f_bs := [] |}.

Lemma new_dinode_ok type : 0 <= type < 2 ^ 15 -> dinode_ok (f_di (new_file type)).
Proof.
  intros Ht. split; cbn [f_di new_file di_type di_major di_minor di_nlink di_size di_addrs]; try lia.
  split; [reflexivity|]. apply Forall_replicate. lia.
Qed.

Lemma ialloc_ok fs im type :
  image_ok fs im -> 0 <= type < 2 ^ 15 -> (S (length fs) < 200)%nat ->
  exists im', mkfs_ialloc type im = Ok (Z.of_nat (S (length fs))) im' /\ image_ok (fs ++ [new_file type]) im' /\ im_freeblock im' = im_freeblock im.
Proof.
  intros [I1 [I2 I2'] I3 I4 I5 I6 I7] Ht Hn. unfold mkfs_ialloc. unfold bind at 1, get at 1. rewrite I2. unfold bind at 1, modify at 1.
  set (n := S (length fs)) in *. rewrite u32_small by lia. set (im1 := {| im_disk := _ |}).
  assert (data_ok fs im1) as D1 by (by apply data_freeinode).
  replace (s16 (xshort type)) with type by (rewrite xshort_small by lia; ints).
  change (s16 (xshort 1)) with 1. change (xint 0) with 0. change {| di_type := type; di_major := 0; di_minor := 0; di_nlink := 1; di_size := 0; di_addrs := replicate 13 0 |} with (f_di (new_file type)).
  destruct (winode_ok fs im1 n (f_di (new_file type)) D1 ltac:(lia) (new_dinode_ok type Ht)) as (E & D2 & Hi & Hb). rewrite (bind_ok _ _ _ _ _ E).
  eexists. split; [reflexivity|]. split; [|done]. set (im2 := im_set_disk _ im1) in *.
  change (blk im1) with (blk im) in Hb. change (mk_inode im1) with (mk_inode im) in Hi.
  assert (forall i g, (fs ++ [new_file type]) !! i = Some g -> fs !! i = Some g /\ (i < length fs)%nat \/ i = length fs /\ g = new_file type) as Hl.
  { intros i g [H|[Hle H]]%lookup_app_Some; [left; split; [done|by eapply lookup_lt_Some]|right]. apply list_lookup_singleton_Some in H as [H <-]. split; [lia|done]. }
  split.
  - by apply data_new.
  - rewrite length_app. cbn [length]. split; [|lia]. cbn. unfold n. lia.
  - intros i g [[Hg Hlt]|[-> ->]]%Hl.
    + rewrite Hi, decide_False by lia. by apply I3.
    + rewrite Hi, decide_True by (done || lia). split; [done|]. split; [done|]. split; [by apply new_dinode_ok|]. cbn [new_file f_di f_bs di_size di_nlink length]. lia.
  - intros k Hk Hk'. rewrite length_app in Hk. cbn [length] in Hk. rewrite Hi, decide_False by lia. apply I4; lia.
  - change (im_freeblock im = 107 + Z.of_nat (sum_list (f_m <$> fs ++ [new_file type]))). rewrite fmap_app, sum_list_with_app. cbn. lia.
  - rewrite Hb by lia. done.
  - intros b Hr. rewrite Hb by lia. by apply I7.
Qed.

Lemma sum_insert (l : list nat) : forall i x y, l !! i = Some x -> (sum_list (<[i := y]> l) + x = sum_list l + y)%nat.
Proof.
  induction l as [|z l IH]; intros [|i] x y H; try done.
  - injection H as ->. change (y + sum_list l + x = x + sum_list l + y)%nat. lia.
  - specialize (IH i x y H). change (z + sum_list (<[i := y]> l) + x = z + sum_list l + y)%nat. lia.
Qed.

Lemma file_addrs_ok fs im i f : data_ok fs im -> fs !! i = Some f -> Forall (fun a => 0 <= a < 2 ^ 32) (di_addrs (f_di f)).
Proof.
  intros D Hf. pose proof (da_files _ _ D i f Hf) as [H1 H2 H3 _ _]. apply Forall_lookup. intros k a Ha.
  pose proof (lookup_lt_Some _ _ _ Ha) as Hk. assert (saddr (blk im) (f_di f) k = a) as Es.
  { unfold saddr, addr_of. rewrite (proj2 (Nat.leb_le k 12)) by lia. by rewrite Ha. }
  destruct (decide (k < f_m f)%nat).
  - pose proof (own_range _ _ _ _ k D Hf ltac:(lia)). lia.
  - rewrite (proj2 (H3 k ltac:(lia))) in Es by lia. lia.
Qed.

Lemma rinode_ok fs im n : data_ok fs im -> (n < 208)%nat -> rinode (Z.of_nat n) im = Ok (mk_inode im n) im.
Proof.
  intros D Hn. destruct (iblk_range n Hn) as (R1 & R2 & R3). destruct (blocks_at _ (iblk n) (da_blocks _ _ D) ltac:(lia)) as (d & Hd & _).
  unfold rinode. unfold bind at 1, get at 1. rewrite (da_sb _ _ D), mkfs_IBLOCK by done.
  rewrite (bind_ok _ _ _ _ _ (rsect_ok (iblk n) d im ltac:(lia) Hd)). unfold ret, mk_inode, blk. by rewrite Hd.
Qed.

Lemma iappend_ok fs im i f p :
  image_ok fs im -> fs !! i = Some f -> (length (f_bs f) + length p <= 268 * 1024)%nat ->
  im_freeblock im + Z.of_nat (slots (length (f_bs f) + length p) - f_m f) <= 2000 ->
  exists f' im', iappend (Z.of_nat (S i)) p im = Ok tt im' /\ image_ok (<[i := f']> fs) im' /\ f_bs f' = f_bs f ++ p /\
    di_type (f_di f') = di_type (f_di f).
Proof.
  intros [I1 [I2 I2'] I3 I4 I5 I6 I7] Hf Hmax Hroom. destruct (I3 i f Hf) as (Hm & Hino & Hok & Hsz & Hnl & _).
  pose proof (lookup_lt_Some _ _ _ Hf) as Hlt.
  unfold iappend. rewrite (bind_ok _ _ _ _ _ (rinode_ok fs im (S i) I1 ltac:(lia))), Hino.
  cbn zeta. rewrite Hsz, xint_small by lia.
  destruct (iappend_loop_ok (S (length p)) fs im i f p I1 Hf Hm Hmax ltac:(lia) Hroom) as (f1 & im1 & E1 & [A1 A2 A3 A4 A5 A6]).
  rewrite (bind_ok _ _ _ _ _ E1). cbn beta iota. destruct A4 as (B1 & B2 & B3 & B4 & B5).
  assert (length (f_bs f1) = length (f_bs f) + length p)%nat as Hl1 by (rewrite A3, length_app; done).
  rewrite xint_small by lia. rewrite B1, B2, B3, B4.
  set (di2 := {| di_type := _ |}). assert (<[i := f1]> fs !! i = Some f1) as Hf1 by (by apply list_lookup_insert_eq).
  assert (dinode_ok di2) as Hok2.
  { destruct Hok as [K1 K2 K3 K4 K5 [K6 K6']]. split; cbn; try done; [lia|]. split; [apply (da_files _ _ A1 i f1 Hf1)|by apply (file_addrs_ok (<[i := f1]> fs) im1 i)]. }
  destruct (winode_ok _ im1 (S i) di2 A1 ltac:(lia) Hok2) as (E2 & D2 & Hi & Hb). rewrite E2.
  pose proof (data_head _ _ i f1 di2 D2 Hf1 eq_refl) as D3. rewrite list_insert_insert_eq in D3.
  set (f2 := {| f_di := di2; f_m := f_m f1; f_bs := f_bs f1 |}) in *. set (im2 := im_set_disk _ im1) in *.
  assert (forall b, b < 107 -> blk im1 b = blk im b) as Hmeta by (intros b Hb'; unfold blk; by rewrite (ms_disk _ _ A6)).
  assert (forall n, (n < 208)%nat -> mk_inode im1 n = mk_inode im n) as Hin.
  { intros n Hn. unfold mk_inode. rewrite Hmeta; [done|]. pose proof (iblk_range n Hn). lia. }
  exists f2, im2. split; [done|]. split; [|split; [done|done]]. split.
  - exact D3.
  - rewrite length_insert. split; [|done]. change (im_freeinode im1 = Z.of_nat (S (length fs))). by rewrite (ms_freeinode _ _ A6).
  - intros j g Hg. destruct (decide (j = i)) as [-> |Hne].
    + rewrite list_lookup_insert_eq in Hg by done. injection Hg as <-. rewrite Hi, decide_True by (done || lia). cbn [f2 f_m f_bs f_di di2 di_size di_nlink].
      split; [done|]. split; [done|]. split; [done|]. split; [done|]. split; [done|lia].
    + rewrite list_lookup_insert_ne in Hg by done. pose proof (lookup_lt_Some _ _ _ Hg). rewrite Hi, decide_False, Hin by lia. by apply I3.
  - intros n Hn Hn'. rewrite length_insert in Hn. rewrite Hi, decide_False, Hin by lia. by apply I4.
  - change (im_freeblock im2) with (im_freeblock im1). rewrite A5, I5, list_fmap_insert.
    pose proof (sum_insert (f_m <$> fs) i (f_m f) (f_m f2) ltac:(by rewrite list_lookup_fmap, Hf)) as Hs. cbn [f2 f_m] in *.
    assert (f_m f <= f_m f1)%nat; [|lia]. rewrite Hm, A2. apply slots_le. lia.
  - rewrite Hb, Hmeta by lia. done.
  - intros b Hr. rewrite Hb, Hmeta by lia. by apply I7.
Qed.
