(* ===== verification/MkfsImage.v ===== *)
(** * The image of mkfs, file by file

    The loop of main over the files of the command line, the bitmap, and what the kernel finds
    on the image. *)

From S2P Require Import Prelude Mem CString State Spinlock Printf Bio Bytes BlockCache Fs Path Txn Bitmap Inode Dinode InodeIO Content Directory Mkfs MkfsProps.

(** ** Files *)

Lemma image_total fs im i f f' im' :
  image_ok fs im -> fs !! i = Some f -> image_ok (<[i := f']> fs) im' -> (f_m f <= f_m f')%nat ->
  im_freeblock im' = im_freeblock im + Z.of_nat (f_m f' - f_m f).
Proof.
  intros I Hf I' Hle. rewrite (io_total _ _ I), (io_total _ _ I'), list_fmap_insert.
  pose proof (sum_insert (f_m <$> fs) i (f_m f) (f_m f') ltac:(by rewrite list_lookup_fmap, Hf)). lia.
Qed.

Lemma append_file_ok fuel : forall fs im i f c,
  image_ok fs im -> fs !! i = Some f -> (length (f_bs f) + length c <= 268 * 1024)%nat -> (length c <= fuel)%nat ->
  im_freeblock im + Z.of_nat (slots (length (f_bs f) + length c) - f_m f) <= 2000 ->
  exists f' im', append_file fuel (Z.of_nat (S i)) c im = Ok tt im' /\ image_ok (<[i := f']> fs) im' /\ f_bs f' = f_bs f ++ c /\
    di_type (f_di f') = di_type (f_di f).
Proof.
  induction fuel as [|fuel IH]; intros fs im i f c I Hf Hmax Hfuel Hroom.
  { destruct c; [|cbn in Hfuel; lia]. exists f, im. split; [done|]. rewrite list_insert_id, app_nil_r by done. done. }
  destruct (decide (c = [])) as [-> |Hc].
  { exists f, im. split; [done|]. rewrite list_insert_id, app_nil_r by done. done. }
  change (Z.to_nat BSIZE) with 1024%nat in *. set (c1 := take 1024 c). set (c2 := drop 1024 c).
  assert (length c = length c1 + length c2)%nat as Hl by (unfold c1, c2; rewrite length_take, length_drop; lia).
  assert (0 < length c)%nat by (destruct c; [done|cbn; lia]). assert (0 < length c1)%nat as Hc1 by (unfold c1; rewrite length_take; lia).
  pose proof (slots_le (length (f_bs f) + length c1) (length (f_bs f) + length c) ltac:(lia)) as S1.
  destruct (iappend_ok fs im i f c1 I Hf ltac:(lia) ltac:(lia)) as (f1 & im1 & E1 & I1 & B1 & T1).
  assert (<[i := f1]> fs !! i = Some f1) as Hf1 by (apply list_lookup_insert_eq; by eapply lookup_lt_Some).
  destruct (io_files _ _ I1 i f1 Hf1) as (M1 & _). destruct (io_files _ _ I i f Hf) as (M0 & _).
  assert (length (f_bs f1) = length (f_bs f) + length c1)%nat as L1 by (by rewrite B1, length_app).
  pose proof (slots_le (length (f_bs f)) (length (f_bs f1)) ltac:(lia)) as S2.
  pose proof (image_total fs im i f f1 im1 I Hf I1 ltac:(lia)) as Ht.
  destruct (IH (<[i := f1]> fs) im1 i f1 c2 I1 Hf1) as (f2 & im2 & E2 & I2 & B2 & T2).
  { lia. } { lia. }
  { rewrite L1. replace (length (f_bs f) + length c1 + length c2)%nat with (length (f_bs f) + length c)%nat by lia. rewrite M1, L1 in *. lia. }
  exists f2, im2. rewrite list_insert_insert_eq in I2. split; [|split; [done|split; [|congruence]]].
  - destruct c as [|c0 c']; [done|]. cbn [append_file]. change (Z.to_nat BSIZE) with 1024%nat. fold c1 c2. by rewrite (bind_ok _ _ _ _ _ E1).
  - rewrite B2, B1, <- app_assoc. f_equal. apply take_drop.
Qed.

(** The entries of the root directory for the files from inode [n] on. *)
Fixpoint dir_bytes (n : nat) (fl : list (list Z * list Z)) : list Z :=
  match fl with
  | [] => []
  | (name, _) :: fl' => mk_de (Z.of_nat n) name ++ dir_bytes (S n) fl'
  end.

Definition root_bytes (fl : list (list Z * list Z)) : list Z := mk_de 1 [46] ++ mk_de 1 [46; 46] ++ dir_bytes 2 fl.

Lemma length_mk_de n name : length (mk_de n name) = 16%nat.
Proof.
  unfold mk_de. rewrite length_put16, length_app, length_replicate, length_take, length_app, length_replicate. change (Z.to_nat DIRSIZ) with 14%nat. lia.
Qed.

Lemma dir_bytes_app n fl name c : dir_bytes n (fl ++ [(name, c)]) = dir_bytes n fl ++ mk_de (Z.of_nat (n + length fl)) name.
Proof.
  revert n. induction fl as [|[nm c'] fl IH]; intros n; cbn [dir_bytes app length].
  - rewrite app_nil_r. do 2 f_equal. lia.
  - rewrite IH, app_assoc. do 3 f_equal. lia.
Qed.

Lemma root_bytes_snoc fl name c : root_bytes (fl ++ [(name, c)]) = root_bytes fl ++ mk_de (Z.of_nat (2 + length fl)) name.
Proof. unfold root_bytes. by rewrite dir_bytes_app, !app_assoc. Qed.

Lemma length_dir_bytes fl : forall n, length (dir_bytes n fl) = (16 * length fl)%nat.
Proof. induction fl as [|[nm c] fl IH]; intros n; cbn [dir_bytes]; [done|]. rewrite length_app, length_mk_de, IH. cbn. lia. Qed.

Lemma length_root_bytes fl : length (root_bytes fl) = (32 + 16 * length fl)%nat.
Proof. unfold root_bytes. rewrite !length_app, !length_mk_de, length_dir_bytes. lia. Qed.

(** The blocks the image needs. *)
Definition cost (fl : list (list Z * list Z)) : nat := slots (length (root_bytes fl)) + sum_list ((fun x => slots (length x.2)) <$> fl).

(** The image holds the root directory and the files [fl], and nothing else. *)
Definition stage (fl : list (list Z * list Z)) (im : image) : Prop :=
  exists r rest, image_ok (r :: rest) im /\ di_type (f_di r) = T_DIR /\ f_bs r = root_bytes fl /\
    Forall2 (fun x f => di_type (f_di f) = T_FILE /\ f_bs f = x.2) fl rest.

(** A file of the command line: the name without its prefixes, and its contents. *)
Definition entry_name (arg : list Z) : list Z := skip_underscore (shortname arg).

Definition good_file (file : list Z * option (list Z)) (x : list Z * list Z) : Prop :=
  (47 ∉ shortname file.1) /\ file.2 = Some x.2 /\ x.1 = entry_name file.1 /\ (length x.1 <= 14)%nat /\ (length x.2 <= 268 * 1024)%nat.

Lemma stage_sum fl r rest im :
  image_ok (r :: rest) im -> f_bs r = root_bytes fl -> Forall2 (fun x f => di_type (f_di f) = T_FILE /\ f_bs f = x.2) fl rest ->
  im_freeblock im = 107 + Z.of_nat (cost fl).
Proof.
  intros I Hr HF. rewrite (io_total _ _ I). unfold cost. destruct (io_files _ _ I 0%nat r eq_refl) as (Mr & _). rewrite Hr in Mr.
  cbn [fmap list_fmap]. change (sum_list (f_m r :: (f_m <$> rest))) with (f_m r + sum_list (f_m <$> rest))%nat. rewrite Mr.
  do 3 f_equal. assert (forall i f, rest !! i = Some f -> f_m f = slots (length (f_bs f))) as Hm by (intros i f Hf; by destruct (io_files _ _ I (S i) f Hf)).
  clear -HF Hm. induction HF as [|x f fl rest [_ Hx] HF IH]; [done|]. cbn [fmap list_fmap].
  change (f_m f + sum_list (f_m <$> rest) = slots (length x.2) + sum_list ((fun x => slots (length x.2)) <$> fl))%nat.
  rewrite (Hm 0%nat f eq_refl), Hx, IH; [done|]. intros i g Hg. by apply (Hm (S i)).
Qed.

Lemma cost_snoc fl name c : cost (fl ++ [(name, c)]) = (slots (48 + 16 * length fl) + sum_list ((fun x => slots (length x.2)) <$> fl) + slots (length c))%nat.
Proof.
  unfold cost. rewrite length_root_bytes, length_app. cbn [length]. replace (32 + 16 * (length fl + 1))%nat with (48 + 16 * length fl)%nat by lia.
  rewrite fmap_app, sum_list_with_app. cbn. lia.
Qed.

(** One turn of the loop over the files. *)
Lemma add_file_ok fl im file name c :
  stage fl im -> good_file file (name, c) -> (2 + length fl < 200)%nat -> (cost (fl ++ [(name, c)]) <= 1893)%nat ->
  exists im', add_file 1 file im = Ok tt im' /\ stage (fl ++ [(name, c)]) im'.
Proof.
  intros (r & rest & I & Tr & Br & HF) (G1 & G2 & G3 & G4 & G5) Hn Hcost. cbn [fst snd] in *.
  pose proof (Forall2_length _ _ _ HF) as Hlen. pose proof (stage_sum _ _ _ _ I Br HF) as Hfree.
  assert (length (f_bs r) = 32 + 16 * length fl)%nat as Lr by (rewrite Br; apply length_root_bytes).
  destruct (io_files _ _ I 0%nat r eq_refl) as (Mr & _). rewrite cost_snoc in Hcost. unfold cost in Hfree. rewrite length_root_bytes in Hfree.
  unfold add_file. rewrite bool_decide_true by done. cbn [negb]. rewrite G2. cbn beta iota. fold (entry_name file.1). rewrite <- G3.
  change DIRSIZ with 14. rewrite (proj2 (Z.leb_le _ 14)) by lia. cbn [negb].
  destruct (ialloc_ok _ im T_FILE I ltac:(unfold T_FILE; lia) ltac:(cbn; lia)) as (im1 & E1 & I1 & F1). rewrite (bind_ok _ _ _ _ _ E1).
  set (fs1 := (r :: rest) ++ [new_file T_FILE]) in *.
  assert (Z.of_nat (S (length (r :: rest))) = Z.of_nat (2 + length fl)) as -> by (cbn; lia).
  change 1 with (Z.of_nat 1) at 1.
  assert (slots (32 + 16 * length fl) <= slots (48 + 16 * length fl))%nat as Hs by (apply slots_le; lia).
  destruct (iappend_ok fs1 im1 0 r (mk_de (Z.of_nat (2 + length fl)) name) I1 eq_refl) as (r' & im2 & E2 & I2 & B2 & T2).
  { rewrite length_mk_de, Lr. lia. }
  { rewrite length_mk_de, Lr, F1, Hfree, Mr, Lr. replace (32 + 16 * length fl + 16)%nat with (48 + 16 * length fl)%nat by lia. lia. }
  rewrite (bind_ok _ _ _ _ _ E2). cbn [app insert list_insert] in I2.
  assert ((r' :: rest ++ [new_file T_FILE]) !! (S (length fl)) = Some (new_file T_FILE)) as Hnew.
  { change ((rest ++ [new_file T_FILE]) !! length fl = Some (new_file T_FILE)). rewrite lookup_app_r by lia. by rewrite Hlen, Nat.sub_diag. }
  destruct (io_files _ _ I2 0%nat r' eq_refl) as (Mr' & _).
  pose proof (image_total fs1 im1 0 r r' im2 I1 eq_refl I2) as Ht. rewrite Mr', Mr, B2, length_app, length_mk_de, Lr in Ht.
  replace (32 + 16 * length fl + 16)%nat with (48 + 16 * length fl)%nat in Ht by lia. specialize (Ht Hs).
  destruct (append_file_ok (S (length c)) _ im2 (S (length fl)) (new_file T_FILE) c I2 Hnew) as (f' & im3 & E3 & I3 & B3 & T3).
  { change (length (f_bs (new_file T_FILE))) with 0%nat. lia. } { lia. }
  { change (length (f_bs (new_file T_FILE))) with 0%nat. change (f_m (new_file T_FILE)) with 0%nat. rewrite Nat.add_0_l, Ht, F1, Hfree. lia. }
  exists im3. split; [exact E3|]. exists r', (rest ++ [f']). split; [|split; [congruence|split]].
  - assert (<[S (length fl) := f']> (r' :: rest ++ [new_file T_FILE]) = r' :: (rest ++ [f'])) as <-; [|exact I3].
    change (r' :: <[length fl := f']> (rest ++ [new_file T_FILE]) = r' :: rest ++ [f']). f_equal. rewrite insert_app_r_alt by lia. by rewrite Hlen, Nat.sub_diag.
  - rewrite B2, Br. by rewrite root_bytes_snoc.
  - apply Forall2_app; [done|]. constructor; [|constructor]. split; [by rewrite T3|by rewrite B3].
Qed.

Lemma add_files_ok files : forall fl done im,
  stage done im -> Forall2 good_file files fl -> (2 + length (done ++ fl) <= 200)%nat -> (cost (done ++ fl) <= 1893)%nat ->
  exists im', foreach files (add_file 1) im = Ok tt im' /\ stage (done ++ fl) im'.
Proof.
  induction files as [|file files IH]; intros fl dn im St HF Hn Hc.
  { apply Forall2_nil_inv_l in HF as ->. exists im. by rewrite app_nil_r. }
  apply Forall2_cons_inv_l in HF as ([name c] & fl' & Hg & HF & ->).
  replace (dn ++ (name, c) :: fl') with ((dn ++ [(name, c)]) ++ fl') in * by (by rewrite <- app_assoc).
  assert (cost (dn ++ [(name, c)]) <= cost ((dn ++ [(name, c)]) ++ fl'))%nat as Hle.
  { unfold cost. rewrite !length_root_bytes, (length_app _ fl'). rewrite (fmap_app _ _ fl'), sum_list_with_app.
    pose proof (slots_le (32 + 16 * length (dn ++ [(name, c)])) (32 + 16 * (length (dn ++ [(name, c)]) + length fl'))%nat ltac:(lia)). lia. }
  rewrite length_app, (length_app dn) in Hn. cbn [length] in Hn.
  destruct (add_file_ok dn im file name c St Hg ltac:(lia) ltac:(lia)) as (im1 & E1 & St1). cbn [foreach]. rewrite (bind_ok _ _ _ _ _ E1).
  apply IH; [done|done| |done]. rewrite length_app, (length_app dn). cbn [length]. lia.
Qed.

(** ** The empty image *)

Lemma zero_loop l : forall im, Forall (fun b => 0 <= b < 2 ^ 20) l ->
  exists d, foreach l (fun i => wsect i zero_block) im = Ok tt (im_set_disk d im) /\
    forall b, d !! b = if decide (b ∈ l) then Some zero_block else im_disk im !! b.
Proof.
  induction l as [|x l IH]; intros im Hl; cbn [foreach].
  - exists (im_disk im). split; [by destruct im|]. intros b. rewrite decide_False; [done|]. by intros H%elem_of_nil.
  - apply Forall_cons in Hl as [Hx Hl]. rewrite (bind_ok _ _ _ _ _ (wsect_ok x zero_block im Hx)).
    destruct (IH (im_set_disk (<[x := zero_block]> (im_disk im)) im) Hl) as (d & E & Hd). exists d. split; [exact E|].
    intros b. rewrite Hd. cbn [im_disk im_set_disk]. destruct (decide (b = x)) as [-> |Hne].
    + rewrite (decide_True (P := x ∈ x :: l)) by apply list_elem_of_here. case_decide; [done|]. by rewrite lookup_insert_eq.
    + rewrite lookup_insert_ne by done. destruct (decide (b ∈ l)) as [Hin|Hin].
      * rewrite decide_True; [done|]. by apply elem_of_cons; right.
      * rewrite decide_False; [done|]. rewrite elem_of_cons. tauto.
Qed.

Lemma zero_inode n im : blk im (iblk n) = zero_block -> di_type (mk_inode im n) = 0.
Proof. intros E. unfold mk_inode, read_dinode. cbn [di_type]. rewrite E. unfold get16. rewrite !byte_zeros. reflexivity. Qed.

(** Before the first inode. *)
Lemma first_image :
  exists im, image_ok [new_file T_DIR] im /\ forall X (cont : Z -> MK X),
    (do! modify (fun im => {| im_disk := im_disk im; im_sb := mkfs_sb; im_freeinode := im_freeinode im; im_freeblock := 107 |});
     do! foreach (seqZ 0 FSSIZE) (fun i => wsect i zero_block);
     do! wsect 1 (superblock_block mkfs_sb);
     let! rootino := mkfs_ialloc T_DIR in cont rootino) empty_image = cont 1 im.
Proof.
  set (im0 := {| im_disk := ∅; im_sb := mkfs_sb; im_freeinode := 1; im_freeblock := 107 |}).
  destruct (zero_loop (seqZ 0 FSSIZE) im0) as (d & E & Hd).
  { apply Forall_forall. intros b Hb%elem_of_seqZ. unfold FSSIZE in Hb. lia. }
  set (im1 := im_set_disk d im0) in *. set (im2 := im_set_disk (<[1 := superblock_block mkfs_sb]> (im_disk im1)) im1).
  assert (forall b, 0 <= b < 2000 -> im_disk im2 !! b = Some (if decide (b = 1) then superblock_block mkfs_sb else zero_block)) as H2.
  { intros b Hb. unfold im2, im1. cbn [im_disk im_set_disk]. destruct (decide (b = 1)) as [-> |]; [by rewrite lookup_insert_eq|].
    rewrite lookup_insert_ne, Hd by done. rewrite decide_True; [done|]. apply elem_of_seqZ. unfold FSSIZE. lia. }
  assert (forall b, 0 <= b < 2000 -> b <> 1 -> blk im2 b = zero_block) as Hz by (intros b Hb Hne; unfold blk; rewrite H2 by done; by rewrite decide_False).
  assert (image_ok [] im2) as I.
  { split.
    - split; [done| |cbn; lia| | | |].
      + apply blocks_insert; [|unfold superblock_block; by rewrite length_put_words]. intros b. unfold im1. cbn [im_disk im_set_disk].
        rewrite Hd. case_decide as Hin; [done|]. change (im_disk im0 !! b) with (None : option (list Z)). intros Hb. apply Hin, elem_of_seqZ. unfold FSSIZE. lia.
      + intros b Hb. change (im_freeblock im2) with 107 in Hb. apply Hz; lia.
      + intros i f Hf. by rewrite lookup_nil in Hf.
      + intros i f k Hf. by rewrite lookup_nil in Hf.
      + intros i j f g k l Hf. by rewrite lookup_nil in Hf.
    - split; [done|cbn; lia].
    - intros i f Hf. by rewrite lookup_nil in Hf.
    - intros n Hn Hn'. apply zero_inode. apply Hz; pose proof (iblk_range n Hn'); lia.
    - done.
    - unfold blk. rewrite H2 by lia. by rewrite decide_True.
    - intros b Hb. apply Hz; lia. }
  destruct (ialloc_ok [] im2 T_DIR I ltac:(unfold T_DIR; lia) ltac:(cbn; lia)) as (im3 & E3 & I3 & _).
  exists im3. split; [exact I3|]. intros X cont.
  etransitivity; [exact (bind_ok _ _ empty_image tt im0 eq_refl)|]. rewrite (bind_ok _ _ _ _ _ E).
  rewrite (bind_ok _ _ _ _ _ (wsect_ok 1 (superblock_block mkfs_sb) im1 ltac:(lia))). exact (bind_ok _ _ _ _ _ E3).
Qed.

(** ** The bitmap *)

Lemma bitmap_bits used : Z.of_nat used <= 8192 ->
  let d := foldl set_used zero_block (seq 0 used) in
  length d = 1024%nat /\ forall b, 0 <= b < 8192 -> bit d b = (b <? Z.of_nat used).
Proof.
  induction used as [|n IH]; intros Hn; cbn zeta.
  - split; [done|]. intros b Hb. unfold bit. cbn [seq foldl]. rewrite byte_zeros, Z.testbit_0_l. symmetry. apply Z.ltb_ge. lia.
  - rewrite seq_S, foldl_app. cbn [foldl]. destruct (IH ltac:(lia)) as [Hl Hb]. set (d := foldl set_used zero_block (seq 0 n)) in *.
    assert (set_used d (0 + n) = with_bit (Z.of_nat n) d) as ->.
    { unfold set_used, with_bit, bit_mask. cbn [Nat.add]. rewrite Z.quot_div_nonneg, Z.rem_mod_nonneg by lia. done. }
    split; [unfold with_bit; by rewrite length_put8|]. intros b Hr. rewrite bit_with by (done || (unfold BPB, BSIZE; lia)). rewrite Hb by done.
    destruct (Z.eqb_spec b (Z.of_nat n)), (Z.ltb_spec b (Z.of_nat n)), (Z.ltb_spec b (Z.of_nat (S n))); (done || lia).
Qed.

Lemma BBLOCK_mkfs b : 0 <= b < 2000 -> BBLOCK b mkfs_sb = 106 /\ b mod BPB = b.
Proof. intros Hb. unfold BBLOCK, BPB, BSIZE. cbn [sb_bmapstart mkfs_sb]. rewrite Z.quot_div_nonneg by lia. rewrite Z.div_small, Z.mod_small by lia. done. Qed.

(** ** What the kernel finds *)

(** The kernel reads the bytes of a file in its direct blocks. *)
Lemma content_holds v f o : holds_file v f -> 0 <= o < 12 * BSIZE -> content v (f_di f) o = u8 (default 0 (f_bs f !! Z.to_nat o)).
Proof.
  intros [H1 H2 H3 H4 H5] Ho. unfold content, BSIZE in *. set (j := Z.to_nat (o / 1024)). assert (j < 12)%nat as Hj by (unfold j; zdm).
  assert (dslot j = j) as Ed by (unfold dslot; by rewrite (proj2 (Nat.ltb_lt j 12))).
  assert (addr_of (f_di f) j = saddr v (f_di f) j) as -> by (unfold saddr; by rewrite (proj2 (Nat.leb_le j 12)) by lia).
  assert (Z.to_nat o = 1024 * j + Z.to_nat (o mod 1024))%nat as Eo by (unfold j; zdm).
  destruct (Z.eqb_spec (saddr v (f_di f) j) 0) as [Hz|Hz].
  - rewrite lookup_ge_None_2; [done|]. apply H3 in Hz; [|lia]. destruct (decide (1024 * j < length (f_bs f))%nat) as [Hlt|]; [|lia].
    specialize (H5 j Hlt). lia.
  - rewrite Eo. specialize (H4 j (o mod 1024)). rewrite Ed in H4. f_equal. apply H4; [|apply Z.mod_pos_bound; lia].
    destruct (decide (j < f_m f)%nat); [done|]. exfalso. apply Hz. apply H3; lia.
Qed.

Lemma data_file_ok fs im i f :
  data_ok fs im -> fs !! i = Some f -> (forall b, 0 <= b < 2000 -> used (blk im) mkfs_sb b = (b <? im_freeblock im)) ->
  file_ok (blk im) mkfs_sb ∅ (f_di f).
Proof.
  intros D Hf Hu. pose proof (da_files _ _ D i f Hf) as [H1 H2 H3 _ _]. pose proof (da_free _ _ D) as Hfr.
  assert (forall k, (k < 12)%nat -> addr_of (f_di f) k = saddr (blk im) (f_di f) k) as Ea by (intros k Hk; unfold saddr; by rewrite (proj2 (Nat.leb_le k 12)) by lia).
  assert (forall k, (k < 12)%nat -> addr_of (f_di f) k <> 0 -> (k < f_m f)%nat) as Hm.
  { intros k Hk Hz. rewrite Ea in Hz by done. destruct (decide (k < f_m f)%nat); [done|]. exfalso. apply Hz, H3; lia. }
  split; [done| |].
  - intros k Hk Hz. rewrite Ea by done. pose proof (da_own _ _ D i f k Hf (Hm k Hk Hz)) as Hr. cbn [sb_size mkfs_sb].
    split; [lia|]. split; [rewrite Hu by lia; apply Z.ltb_lt; lia|]. split; [intros j m Hj; by rewrite lookup_empty in Hj|].
    intros b Hb. destruct (BBLOCK_mkfs b Hb) as [-> _]. lia.
  - intros j k Hj Hk Hz E. rewrite !Ea in E by done. assert (addr_of (f_di f) k <> 0) as Hz' by (rewrite !Ea in * by done; congruence).
    by destruct (da_inj _ _ D i i f f j k Hf Hf (Hm j Hj Hz) (Hm k Hk Hz') E).
Qed.

Lemma mk_de_eq n name : 0 <= n < 2 ^ 16 -> mk_de n name = u8 n :: u8 (n / 256) :: take 14 (name ++ replicate 14 0).
Proof. intros Hn. unfold mk_de. by rewrite xshort_small. Qed.

Lemma dir_bytes_slice fl : forall n k name c, fl !! k = Some (name, c) -> take 16 (drop (16 * k) (dir_bytes n fl)) = mk_de (Z.of_nat (n + k)) name.
Proof.
  induction fl as [|[nm c'] fl IH]; intros n k name c Hk; [done|]. cbn [dir_bytes]. destruct k as [|k].
  - injection Hk as -> ->. rewrite Nat.mul_0_r, Nat.add_0_r. rewrite drop_0. by rewrite take_app_length' by (symmetry; apply length_mk_de).
  - replace (16 * S k)%nat with (length (mk_de (Z.of_nat n) nm) + 16 * k)%nat by (rewrite length_mk_de; lia).
    rewrite drop_app_add. rewrite (IH (S n) k name c Hk). do 2 f_equal. lia.
Qed.

Lemma root_bytes_slice fl k name c : fl !! k = Some (name, c) -> take 16 (drop (32 + 16 * k) (root_bytes fl)) = mk_de (Z.of_nat (2 + k)) name.
Proof.
  intros Hk. unfold root_bytes. rewrite app_assoc. set (dots := mk_de 1 [46] ++ mk_de 1 [46; 46]).
  replace (32 + 16 * k)%nat with (length dots + 16 * k)%nat by (unfold dots; rewrite length_app, !length_mk_de; lia).
  rewrite drop_app_add. by eapply dir_bytes_slice.
Qed.

(** Inode [n] as the kernel reads it. *)
Definition inode_at (v : Z -> list Z) (n : nat) : dinode :=
  read_dinode (v (IBLOCK (Z.of_nat n) mkfs_sb)) (dinode_off (Z.of_nat n)).

(** Inode [n] is a file with the bytes [bs]; what follows them in its blocks is zero. *)
Record file_at (v : Z -> list Z) (n : nat) (type size : Z) (bs : list Z) : Prop := {
  fa_head : di_type (inode_at v n) = type /\ di_nlink (inode_at v n) = 1 /\ di_size (inode_at v n) = size;
  fa_bytes : forall j o, (1024 * j < length bs)%nat -> 0 <= o < 1024 ->
    byte_at (v (saddr v (inode_at v n) (dslot j))) o = default 0 (bs !! (1024 * j + Z.to_nat o)%nat);
  fa_mapped : forall j, (1024 * j < length bs)%nat -> saddr v (inode_at v n) (dslot j) <> 0;
  fa_content : forall o, 0 <= o < 12 * BSIZE -> content v (inode_at v n) o = u8 (default 0 (bs !! Z.to_nat o));
  fa_ok : file_ok v mkfs_sb ∅ (inode_at v n)
}.

(** What the kernel makes of an entry that mkfs wrote. *)
Lemma de_mk_de n name : 0 <= n < 2 ^ 16 -> (length name <= 14)%nat ->
  de_inum (u8 <$> mk_de n name) = n /\ de_name (u8 <$> mk_de n name) = (u8 <$> name) ++ replicate (14 - length name) 0.
Proof.
  intros Hr Hn. rewrite mk_de_eq by done. split.
  - change (u8 (u8 n) + 256 * u8 (u8 (n / 256)) = n). ints.
  - unfold de_name. cbn [fmap list_fmap drop]. change (Z.to_nat DIRSIZ) with 14%nat. rewrite take_app_ge by done.
    rewrite take_replicate, Nat.min_l by lia. rewrite fmap_app, fmap_replicate, drop_0. rewrite take_ge; [done|]. rewrite length_app, length_fmap, length_replicate. lia.
Qed.

Lemma root_dirent v size fl j :
  file_at v 1 T_DIR size (root_bytes fl) -> (length fl < 200)%nat -> (j < 2 + length fl)%nat ->
  dirent v (inode_at v 1) j = u8 <$> take 16 (drop (16 * j) (root_bytes fl)).
Proof.
  intros F Hf Hj. apply list_eq. intros i. unfold dirent. rewrite !list_lookup_fmap. destruct (decide (i < 16)%nat) as [Hi|Hi].
  - rewrite lookup_seqZ_lt by lia. cbn [fmap option_fmap option_map]. rewrite (fa_content _ _ _ _ _ F) by (unfold BSIZE; lia).
    rewrite lookup_take_lt, lookup_drop by lia. replace (Z.to_nat (16 * Z.of_nat j + Z.of_nat i)) with (16 * j + i)%nat by lia.
    destruct (lookup_lt_is_Some_2 (root_bytes fl) (16 * j + i)) as [b ->]; [rewrite length_root_bytes; lia|done].
  - rewrite lookup_seqZ_ge, lookup_take_ge by lia. done.
Qed.

(** The entries of the root directory name the inodes of the files. *)
Lemma root_entry v size fl k name c :
  file_at v 1 T_DIR size (root_bytes fl) -> fl !! k = Some (name, c) -> (length name <= 14)%nat -> (length fl < 200)%nat ->
  let de := dirent v (inode_at v 1) (2 + k) in
  de_inum de = Z.of_nat (2 + k) /\ de_name de = (u8 <$> name) ++ replicate (14 - length name) 0.
Proof.
  intros F Hk Hn Hf. pose proof (lookup_lt_Some _ _ _ Hk) as Hlt. cbn zeta. rewrite (root_dirent v size fl) by (done || lia).
  replace (16 * (2 + k))%nat with (32 + 16 * k)%nat by lia. rewrite (root_bytes_slice fl k name c Hk). apply de_mk_de; [lia|done].
Qed.

(** The file system of the image, read through [v]. *)
Record file_system (fl : list (list Z * list Z)) (v : Z -> list Z) : Prop := {
  fs_sb : read_superblock (v 1) = mkfs_sb;
  fs_boot_log : forall b, b = 0 \/ 2 <= b < 93 -> v b = zero_block;
  fs_bitmap : bitmap_ok v mkfs_sb;
  fs_used : forall b, 0 <= b < 2000 -> used v mkfs_sb b = (b <? 107 + Z.of_nat (cost fl));
  fs_root : file_at v 1 T_DIR (1024 * (Z.of_nat (length (root_bytes fl)) / 1024 + 1)) (root_bytes fl);
  fs_entry : forall k name c, fl !! k = Some (name, c) ->
    let de := dirent v (inode_at v 1) (2 + k) in
    de_inum de = Z.of_nat (2 + k) /\ de_name de = (u8 <$> name) ++ replicate (14 - length name) 0;
  fs_file : forall k name c, fl !! k = Some (name, c) -> file_at v (2 + k) T_FILE (Z.of_nat (length c)) c;
  fs_none : forall n, (n = 0 \/ 2 + length fl <= n)%nat -> (n < 208)%nat -> di_type (inode_at v n) = 0;
  fs_apart : forall n m k l, (1 <= n <= S (length fl))%nat -> (1 <= m <= S (length fl))%nat -> (k < 269)%nat -> (l < 269)%nat ->
    saddr v (inode_at v n) k <> 0 -> saddr v (inode_at v n) k = saddr v (inode_at v m) l -> n = m /\ k = l
}.

Lemma inode_at_eq im n : (n < 208)%nat -> inode_at (blk im) n = mk_inode im n.
Proof. intros H. unfold inode_at, mk_inode. by rewrite mkfs_IBLOCK. Qed.

(** The last two steps of main, on an image whose files are all there. *)
Record im_finished (fl : list (list Z * list Z)) (fs : list mfile) (im : image) : Prop := {
  fn_data : data_ok fs im;
  fn_free : im_freeblock im = 107 + Z.of_nat (cost fl);
  fn_inode : forall i f, fs !! i = Some f -> mk_inode im (S i) = f_di f /\ di_nlink (f_di f) = 1;
  fn_none : forall n, (n = 0 \/ length fs < n)%nat -> (n < 208)%nat -> di_type (mk_inode im n) = 0;
  fn_root : exists r rest, fs = r :: rest /\ di_type (f_di r) = T_DIR /\ f_bs r = root_bytes fl /\
    di_size (f_di r) = 1024 * (Z.of_nat (length (root_bytes fl)) / 1024 + 1) /\
    Forall2 (fun x f => di_type (f_di f) = T_FILE /\ f_bs f = x.2 /\ di_size (f_di f) = Z.of_nat (length x.2)) fl rest;
  fn_sb : blk im 1 = superblock_block mkfs_sb;
  fn_log : forall b, b = 0 \/ 2 <= b < 93 -> blk im b = zero_block;
  fn_used : forall b, 0 <= b < 2000 -> used (blk im) mkfs_sb b = (b <? im_freeblock im)
}.

Lemma finished_file fl fs im i f :
  im_finished fl fs im -> (length fs < 200)%nat -> fs !! i = Some f ->
  file_at (blk im) (S i) (di_type (f_di f)) (di_size (f_di f)) (f_bs f).
Proof.
  intros F Hn Hf. pose proof (lookup_lt_Some _ _ _ Hf) as Hlt. destruct (fn_inode _ _ _ F i f Hf) as [Ei En].
  pose proof (da_files _ _ (fn_data _ _ _ F) i f Hf) as HF.
  split; rewrite ?inode_at_eq, ?Ei by lia; [done| | | |].
  - intros j o Hj Ho. apply HF; [by apply HF|done].
  - intros j Hj Hz. pose proof (ho_fit _ _ HF j Hj) as Hs. pose proof (ho_max _ _ HF) as Hm.
    apply (ho_slots _ _ HF (dslot j) ltac:(lia)) in Hz. lia.
  - intros o Ho. by apply content_holds.
  - apply (data_file_ok fs _ i); [apply F|done|apply F].
Qed.

Lemma finished_system fl fs im : im_finished fl fs im -> (length fs < 200)%nat -> Forall (fun x => length x.1 <= 14)%nat fl -> file_system fl (blk im).
Proof.
  intros F Hn Hnames. destruct (fn_root _ _ _ F) as (r & rest & Efs & Tr & Br & Sr & HF). pose proof (Forall2_length _ _ _ HF) as Hlen.
  assert (length fs = S (length fl)) as Hl by (rewrite Efs; cbn; lia). pose proof (da_free _ _ (fn_data _ _ _ F)) as Hfree.
  assert (forall n, (1 <= n <= S (length fl))%nat -> exists f, fs !! (n - 1)%nat = Some f /\ inode_at (blk im) n = f_di f) as Hf.
  { intros n Hr. destruct (lookup_lt_is_Some_2 fs (n - 1) ltac:(lia)) as [f Hf]. exists f. split; [done|].
    rewrite inode_at_eq by lia. destruct (fn_inode _ _ _ F _ f Hf) as [<- _]. f_equal. lia. }
  assert (file_at (blk im) 1 T_DIR (1024 * (Z.of_nat (length (root_bytes fl)) / 1024 + 1)) (root_bytes fl)) as Hroot.
  { rewrite <- Tr, <- Sr, <- Br. apply (finished_file fl fs im 0 r F Hn). by rewrite Efs. }
  split.
  - rewrite (fn_sb _ _ _ F). by vm_compute.
  - apply F.
  - split; [by cbn|by cbn| |].
    + intros b Hb. cbn [sb_size mkfs_sb] in Hb. destruct (BBLOCK_mkfs b Hb) as [-> _]. rewrite (fn_used _ _ _ F) by lia. apply Z.ltb_lt. lia.
    + intros b Hb. cbn [sb_size mkfs_sb] in *. destruct (BBLOCK_mkfs b Hb) as [-> _]. lia.
  - intros b Hb. rewrite (fn_used _ _ _ F) by done. by rewrite (fn_free _ _ _ F).
  - exact Hroot.
  - intros k name c Hk. apply (root_entry _ _ fl k name c Hroot Hk); [exact (Forall_lookup_1 _ _ _ _ Hnames Hk)|lia].
  - intros k name c Hk. destruct (Forall2_lookup_l _ _ _ _ _ HF Hk) as (f & Hf' & T & B & Sz). cbn [snd] in *.
    rewrite <- T, <- Sz, <- B. apply (finished_file fl fs im (S k) f F Hn). by rewrite Efs.
  - intros n Hr Hr'. rewrite inode_at_eq by done. apply F; [lia|done].
  - intros n m k l Rn Rm Hk Hl' Hz E. destruct (Hf n Rn) as (f & Ff & Ef), (Hf m Rm) as (g & Fg & Eg). rewrite Ef, Eg in *.
    pose proof (ho_slots _ _ (da_files _ _ (fn_data _ _ _ F) _ f Ff) k Hk) as Sf. pose proof (ho_slots _ _ (da_files _ _ (fn_data _ _ _ F) _ g Fg) l Hl') as Sg.
    assert (saddr (blk im) (f_di g) l <> 0) by congruence.
    destruct (da_inj _ _ (fn_data _ _ _ F) _ _ f g k l Ff Fg ltac:(lia) ltac:(lia) E) as [? ->]. split; [lia|done].
Qed.

Lemma mkfs_balloc_ok fs im :
  data_ok fs im ->
  exists d, let im' := im_set_disk (<[106 := d]> (im_disk im)) im in
    mkfs_balloc (im_freeblock im) im = Ok tt im' /\ data_ok fs im' /\
    forall b, 0 <= b < 2000 -> used (blk im') mkfs_sb b = (b <? im_freeblock im).
Proof.
  intros D. pose proof (da_free _ _ D) as Hf. exists (foldl set_used zero_block (seq 0 (Z.to_nat (im_freeblock im)))).
  destruct (bitmap_bits (Z.to_nat (im_freeblock im)) ltac:(lia)) as [Hl Hb]. rewrite Z2Nat.id in Hb by lia. cbn zeta. split; [|split].
  - unfold mkfs_balloc. change BPB with 8192. rewrite (proj2 (Z.ltb_lt _ 8192)) by lia. cbn [negb]. unfold bind at 1, get at 1.
    rewrite (da_sb _ _ D). cbn [sb_bmapstart mkfs_sb]. by rewrite wsect_ok by lia.
  - apply data_meta; [done|lia|done].
  - intros b Hr. unfold used. destruct (BBLOCK_mkfs b Hr) as [-> ->]. rewrite blk_set, decide_True by done. apply Hb. lia.
Qed.

(** The size of the root directory and the bitmap. *)
Lemma finish_ok fl im :
  stage fl im -> (2 + length fl <= 200)%nat ->
  exists im' fs,
    (let! din := rinode 1 in
     let off := xint (di_size din) in
     let off := u32 ((off / BSIZE + 1) * BSIZE) in
     do! winode 1 {| di_type := di_type din; di_major := di_major din; di_minor := di_minor din; di_nlink := di_nlink din;
                     di_size := xint off; di_addrs := di_addrs din |};
     let! freeblock := get im_freeblock in
     mkfs_balloc freeblock) im = Ok tt im' /\ im_finished fl fs im' /\ (length fs < 200)%nat.
Proof.
  intros (r & rest & I & Tr & Br & HF) Hn. pose proof (stage_sum _ _ _ _ I Br HF) as Hfree.
  destruct (io_files _ _ I 0%nat r eq_refl) as (Mr & Ir & Okr & Sr & Nr & Lr). rewrite Br in Sr. pose proof (io_data _ _ I) as D.
  pose proof (length_root_bytes fl) as Hlen. pose proof (Forall2_length _ _ _ HF) as Hl.
  change 1 with (Z.of_nat 1) at 1. rewrite (bind_ok _ _ _ _ _ (rinode_ok _ im 1 D ltac:(lia))), Ir. cbn zeta. rewrite Sr, (xint_small (Z.of_nat _)) by lia.
  set (len := Z.of_nat (length (root_bytes fl))) in *. assert (0 <= len < 2 ^ 13) as Rl by (unfold len; lia). unfold BSIZE.
  assert (0 <= len / 1024 < 8) as Rq by (clear -Rl; zdm).
  assert (u32 ((len / 1024 + 1) * 1024) = 1024 * (len / 1024 + 1)) as -> by (rewrite u32_small; lia). rewrite xint_small by lia.
  set (di := {| di_type := _ |}). assert (dinode_ok di) as Hok by (destruct Okr as [K1 K2 K3 K4 K5 K6]; split; try done; cbn; lia).
  change (winode 1 di) with (winode (Z.of_nat 1) di).
  destruct (winode_ok _ im 1 di D ltac:(lia) Hok) as (E & D1 & Hi & Hb). rewrite (bind_ok _ _ _ _ _ E).
  set (im1 := im_set_disk _ im) in *. change (get im_freeblock im1) with (Ok (im_freeblock im) im1). unfold bind at 1. change (get im_freeblock im1) with (Ok (im_freeblock im) im1).
  cbn beta iota.
  destruct (mkfs_balloc_ok _ im1 (data_head _ _ 0 r di D1 eq_refl eq_refl)) as (d & E2 & D2 & Hu).
  change (im_freeblock im1) with (im_freeblock im) in *. cbn [insert list_insert] in D2.
  set (im2 := im_set_disk (<[106 := d]> (im_disk im1)) im1) in *. set (r' := {| f_di := di; f_m := f_m r; f_bs := f_bs r |}) in *.
  assert (forall b, b <> 106 -> blk im2 b = blk im1 b) as Hb2 by (intros b Hne; unfold im2; rewrite blk_set; by rewrite decide_False).
  assert (forall n, (n < 208)%nat -> mk_inode im2 n = if decide (n = 1%nat) then di else mk_inode im n) as Hi2.
  { intros n Hr. rewrite <- Hi by done. unfold mk_inode. pose proof (iblk_range n Hr). by rewrite Hb2 by lia. }
  exists im2, (r' :: rest). split; [exact E2|]. split; [|exact (proj2 (io_count _ _ I))]. split.
  - exact D2.
  - exact Hfree.
  - intros [|i] f Hf; [injection Hf as <-; by rewrite Hi2 by lia|]. pose proof (lookup_lt_Some _ _ _ Hf) as Hlt. cbn in Hlt.
    rewrite Hi2, decide_False by lia. by destruct (io_files _ _ I (S i) f Hf) as (_ & ? & _ & _ & ? & _).
  - intros n Hr Hr'. cbn [length] in Hr. rewrite Hi2, decide_False by lia. by apply (io_unused _ _ I).
  - exists r', rest. split; [done|]. split; [done|]. split; [done|]. split; [done|].
    apply Forall2_same_length_lookup_2; [done|]. intros i x f Hx Hf. destruct (Forall2_lookup_lr _ _ _ _ _ _ HF Hx Hf) as [T B].
    destruct (io_files _ _ I (S i) f Hf) as (_ & _ & _ & Sz & _). by rewrite Sz, B.
  - rewrite Hb2, Hb by lia. apply I.
  - intros b Hr. rewrite Hb2, Hb by lia. apply (io_log _ _ I). lia.
  - exact Hu.
Qed.

(** The root directory with its first two entries. *)
Lemma first_stage im : image_ok [new_file T_DIR] im ->
  exists im', (do! iappend 1 (mk_de 1 [46]); iappend 1 (mk_de 1 [46; 46])) im = Ok tt im' /\ stage [] im'.
Proof.
  intros I. pose proof (io_total _ _ I) as H0. change (sum_list (f_m <$> [new_file T_DIR])) with 0%nat in H0.
  destruct (iappend_ok _ im 0 (new_file T_DIR) (mk_de 1 [46]) I eq_refl) as (f1 & im1 & E1 & I1 & B1 & T1).
  { rewrite length_mk_de. change (length (f_bs (new_file T_DIR))) with 0%nat. lia. } { rewrite length_mk_de, H0. by vm_compute. }
  destruct (io_files _ _ I1 0%nat f1 eq_refl) as (M1 & _). cbn [insert list_insert] in *.
  pose proof (image_total _ im 0 (new_file T_DIR) f1 im1 I eq_refl I1 ltac:(cbn; lia)) as H1.
  rewrite M1, B1 in H1. change (Z.of_nat (slots (length (f_bs (new_file T_DIR) ++ mk_de 1 [46])) - f_m (new_file T_DIR))) with 1 in H1.
  destruct (iappend_ok _ im1 0 f1 (mk_de 1 [46; 46]) I1 eq_refl) as (f2 & im2 & E2 & I2 & B2 & T2).
  { rewrite B1, length_app, !length_mk_de. change (length (f_bs (new_file T_DIR))) with 0%nat. lia. }
  { rewrite M1, B1, H1, H0. by vm_compute. }
  exists im2. change 1 with (Z.of_nat 1) at 1. rewrite (bind_ok _ _ _ _ _ E1). split; [exact E2|].
  exists f2, []. split; [exact I2|]. split; [by rewrite T2, T1|]. split; [|constructor]. by rewrite B2, B1.
Qed.

Lemma mkfs_ok files fl :
  Forall2 good_file files fl -> (2 + length fl <= 200)%nat -> (cost fl <= 1893)%nat ->
  exists im, mkfs_main files empty_image = Ok tt im /\ file_system fl (blk im) /\ blocks_ok (im_disk im).
Proof.
  intros HF Hn Hc. destruct first_image as (im0 & I0 & E0). destruct (first_stage im0 I0) as (im1 & E1 & St1).
  destruct (add_files_ok files fl [] im1 St1 HF Hn Hc) as (im2 & E2 & St2).
  destruct (finish_ok fl im2 St2 Hn) as (im3 & fs & E3 & F3 & L3).
  exists im3. split; [|split; [eapply finished_system; [done|done|]|apply F3]].
  2: { apply Forall_lookup. intros k x Hk. destruct (Forall2_lookup_r _ _ _ _ _ HF Hk) as (file & _ & _ & _ & _ & Hx & _). exact Hx. }
  unfold mkfs_main. etransitivity; [apply E0|]. change (negb (1 =? ROOTINO)) with false. cbn match.
  rewrite <- bind_assoc, (bind_ok _ _ _ _ _ E1), (bind_ok _ _ _ _ _ E2). exact E3.
Qed.

(** C4: mkfs makes a file system that the kernel can mount: with at most 198 files of at most 268
    blocks each, whose names have no slash and at most 14 characters after the prefixes, and
    which fit the data blocks, it ends without a failed assertion. The superblock is the one the
    kernel reads, the log is empty, the bitmap marks the blocks in use and no others, the root
    directory is inode 1 and has the entries ".", ".." and one for each file, with its name and
    the number of its inode; the files are the inodes from 2 on with their bytes, no two slots
    of inodes name the same block, and the other inodes are free. *)
Theorem mkfs_correct files fl :
  Forall2 good_file files fl -> (2 + length fl <= 200)%nat -> (cost fl <= 1893)%nat ->
  exists im, mkfs_main files empty_image = Ok tt im /\ file_system fl (blk im).
Proof. intros HF Hn Hc. destruct (mkfs_ok files fl HF Hn Hc) as (im & E & F & _). exists im. split; [exact E|exact F]. Qed.

(** Two files: one with a prefix and an underscore, and one of 13 blocks, whose last block is in
    the indirect block. *)
Lemma mkfs_correct_witness :
  let readme := replicate (13 * 1000) 7 in
  exists im, mkfs_main [(bytes_of "user/_init", Some [127; 69; 76; 70]); (bytes_of "README", Some readme)] empty_image = Ok tt im /\
    file_system [(bytes_of "init", [127; 69; 76; 70]); (bytes_of "README", readme)] (blk im).
Proof.
  intros readme. assert (length readme = 13 * 1000)%nat as Hl by apply length_replicate. apply mkfs_correct.
  - assert (forall short : list Z, bool_decide (47 ∉ short) = true -> 47 ∉ short) as Hs by (intros short; apply bool_decide_eq_true).
    clearbody readme. constructor; [|constructor; [|constructor]]; unfold good_file; cbn [fst snd]; split_and!;
      [apply Hs; by vm_compute|done|by vm_compute|apply Nat.leb_le; by vm_compute|cbn [length]; lia
      |apply Hs; by vm_compute|done|by vm_compute|apply Nat.leb_le; by vm_compute|lia].
  - cbn [length]. lia.
  - unfold cost. rewrite length_root_bytes. clearbody readme. cbn [fmap list_fmap snd length sum_list sum_list_with]. rewrite Hl.
    apply Nat.leb_le. by vm_compute.
Defined.
