(* ===== verification/Mount.v ===== *)
(** * The kernel on the image of mkfs

    mkfs writes the disk that the kernel mounts. The walk of namei on the image, and the way of a
    file from the command line of mkfs to the memory of its reader. *)

From S2P Require Import Prelude Mem CString State Spinlock Printf Locks PageAlloc Vm Sleep Bio Bytes BlockCache Log LogProps Commit LogWitness Fs Path Txn Bitmap Inode Dinode InodeIO Content FsProps Directory Namei Fsinit Mkfs MkfsProps MkfsImage.

(** ** Names *)

(** A name of one element that is none of the directory's own. *)
Definition clean_name (name : list Z) : Prop :=
  Forall (fun c => 0 < c < 256 /\ c <> 47) name /\ (0 < length name <= 14)%nat /\ name <> [46] /\ name <> [46; 46].

Lemma clean_u8 name : clean_name name -> u8 <$> name = name.
Proof.
  intros [H _]. induction H as [|c name Hc Hn IH]; [done|]. cbn [fmap list_fmap]. f_equal; [ints|exact IH].
Qed.

Lemma pieces_clean name cur : Forall (fun c => c <> 47) name -> pieces name cur = flush (cur ++ name).
Proof.
  intros H. revert cur. induction H as [|c name Hc Hn IH]; intros cur; cbn [pieces]; [by rewrite app_nil_r|].
  rewrite (proj2 (Z.eqb_neq c 47)) by done. by rewrite IH, <- app_assoc.
Qed.

Lemma elements_clean name : clean_name name -> elements (47 :: name) = [name].
Proof.
  intros (H & Hl & _). unfold elements. cbn [pieces Z.eqb Pos.eqb flush app]. rewrite pieces_clean by (eapply Forall_impl; [exact H|naive_solver]).
  by destruct name; [cbn in Hl; lia|].
Qed.

Lemma cstring_padded name : clean_name name -> cstring ((u8 <$> name) ++ replicate (14 - length name) 0) = name.
Proof.
  intros Hc. rewrite (clean_u8 _ Hc). destruct Hc as (H & Hl & _).
  assert (Forall (fun b => b <> 0) name) as Hz by (eapply Forall_impl; [exact H|cbn; lia]).
  destruct (14 - length name)%nat; cbn [replicate]; [rewrite app_nil_r; by apply cstring_all|by apply cstring_app_zero].
Qed.

(** ** The root directory *)

Section Root.
Context (fl : list (list Z * list Z)) (v : Z -> list Z) (fs : file_system fl v).
Context (few : (length fl <= 198)%nat) (clean : Forall clean_name fl.*1) (distinct : NoDup fl.*1).

(** mkfs rounds the size of the root directory up to a block more than it has when its entries
    end with a block, which 62 files, or 126, or 190, make it do. *)
Context (odd : (length fl mod 64)%nat <> 62%nat).

Abbreviation root := (inode_at v 1).

Lemma root_size : di_size root = 1024 * (Z.of_nat (length (root_bytes fl)) / 1024 + 1).
Proof. by destruct (fs_root _ _ fs) as [(_ & _ & ?) _ _ _ _]. Qed.

Lemma root_room : (2 + length fl <= entries root)%nat.
Proof. unfold entries. rewrite root_size, length_root_bytes. zdm. Qed.

Lemma root_dir_ok : dir_ok ∅ root.
Proof.
  pose proof (fs_root _ _ fs) as [(Ht & _ & Hs) _ Hm _ [_ Ho _]]. pose proof (length_root_bytes fl) as Hl.
  set (len := Z.of_nat (length (root_bytes fl))) in *.
  assert (len = 32 + 16 * Z.of_nat (length fl)) as El by (unfold len; lia).
  assert (len mod 1024 <> 0) as Hodd.
  { intros E. apply odd. pose proof (Nat2Z.inj_mod (length fl) 64) as Em. change (Z.of_nat 64) with 64 in Em. apply Nat2Z.inj. rewrite Em. change (Z.of_nat 62) with 62. zdm. }
  assert (0 <= len / 1024 < 8) as Hq by zdm.
  split; [exact Ht|rewrite Hs; unfold BSIZE; zdm|]. split; [lia|]. split; [rewrite Hs; unfold BSIZE; lia|]. rewrite Hs. intros o Hr. cbn zeta.
  set (b := Z.to_nat (o / BSIZE)). assert (b < 12)%nat as Hb by (unfold b, BSIZE; zdm).
  assert (addr_of root b <> 0) as Ha.
  { specialize (Hm b). assert (dslot b = b) as Ed by (unfold dslot; by rewrite (proj2 (Nat.ltb_lt b 12))). rewrite Ed in Hm.
    unfold saddr in Hm. rewrite (proj2 (Nat.leb_le b 12)) in Hm by lia. apply Hm. unfold b, BSIZE, len in *. zdm. }
  destruct (Ho b Hb Ha) as (H1 & _ & H3 & _). cbn [sb_size mkfs_sb] in H1. split; [done|]. split; [lia|done].
Qed.

Lemma root_there : there v mkfs_sb ROOTINO.
Proof. destruct (fs_root _ _ fs) as [(Ht & Hn & _) _ _ _ _]. split; [by split|by change (di_type root <> 0); rewrite Ht|by change (di_nlink root <> 0); rewrite Hn]. Qed.

Lemma dots_slice d : (d < 2)%nat -> take 16 (drop (16 * d) (root_bytes fl)) = mk_de 1 (replicate (S d) 46).
Proof.
  intros Hd. unfold root_bytes. destruct d as [|[|d]]; [| |lia].
  - by rewrite drop_0, take_app_length' by (symmetry; apply length_mk_de).
  - rewrite drop_app_length' by (symmetry; apply length_mk_de). by rewrite take_app_length' by (symmetry; apply length_mk_de).
Qed.

Lemma named_entry k name c e :
  fl !! k = Some (name, c) -> (length e <= 14)%nat -> is_named e (dirent v root (2 + k)) = bool_decide (name = e).
Proof.
  intros Hk He. destruct (fs_entry _ _ fs k name c Hk) as [Ei En]. cbn zeta in *. unfold is_named. rewrite Ei, En.
  rewrite (proj2 (Z.eqb_neq _ 0)) by lia. cbn [negb andb]. rewrite (take_ge e) by done. rewrite cstring_padded; [done|].
  eapply Forall_lookup_1; [exact clean|]. rewrite list_lookup_fmap, Hk. done.
Qed.

Lemma named_dots d e : (d < 2)%nat -> clean_name e -> is_named e (dirent v root d) = false.
Proof.
  intros Hd (_ & [_ He] & H1 & H2). rewrite (root_dirent v _ fl d (fs_root _ _ fs)) by lia. rewrite dots_slice by done.
  unfold is_named. change (Z.to_nat DIRSIZ) with 14%nat. rewrite (take_ge e) by done. apply andb_false_iff. right. apply bool_decide_eq_false.
  destruct d as [|[|d]]; [| |lia]; by vm_compute (cstring _).
Qed.

(** The path leads to the inode of the file. *)
Lemma root_walk k name c : fl !! k = Some (name, c) -> leads v mkfs_sb ROOTINO (elements (47 :: name)) (5 + k) (Some (Z.of_nat (2 + k))).
Proof.
  intros Hk. pose proof (lookup_lt_Some _ _ _ Hk) as Hlt. assert (fl.*1 !! k = Some name) as Hk1 by (by rewrite list_lookup_fmap, Hk).
  pose proof (Forall_lookup_1 _ _ _ _ clean Hk1) as Hc. pose proof Hc as (_ & [_ Hlen] & _). rewrite (elements_clean name Hc).
  destruct (fs_entry _ _ fs k name c Hk) as [Ei _]. cbn zeta in Ei. pose proof root_room as Hroom.
  replace (5 + k)%nat with (S (S (2 + k) + 1)) by lia. rewrite <- Ei. change root with (disk_inode v mkfs_sb ROOTINO).
  apply leads_next; [apply root_there|apply root_dir_ok|change (2 + k < entries root)%nat; lia| | |apply leads_end].
  - change (is_named name (dirent v root (2 + k)) = true). rewrite (named_entry k name c) by done. by apply bool_decide_eq_true.
  - intros d Hd. change (is_named name (dirent v root d) = false). destruct (decide (d < 2)%nat) as [Hd2|Hd2]; [by apply named_dots|].
    destruct (lookup_lt_is_Some_2 fl (d - 2) ltac:(lia)) as [[nm c'] Hx]. replace d with (2 + (d - 2))%nat by lia.
    rewrite (named_entry (d - 2) nm c') by done. apply bool_decide_eq_false. intros ->.
    assert (d - 2 = k)%nat; [|lia]. eapply NoDup_lookup; [exact distinct| |exact Hk1]. by rewrite list_lookup_fmap, Hx.
Qed.

End Root.

(** ** From the command line of mkfs to a reader's memory *)

Section Claim.
Context {virtio_disk_rw : nat -> Z -> KM unit} {dev_ok : BlockDevice virtio_disk_rw}.
Context (kalloc : KM Z) (kfree : Z -> KM unit) (buf_addr : nat -> Z) (stack : Z).
Abbreviation namei := (namei virtio_disk_rw kalloc kfree buf_addr stack).
Abbreviation ilock := (ilock virtio_disk_rw).
Abbreviation readi := (readi virtio_disk_rw kalloc kfree buf_addr).

(** The state of a kernel that has mounted the image: nothing of the disk is changed yet. *)
Record mounts (im : image) (s : kernel) : Prop := {
  mt_view : forall m, view ROOTDEV s m = blk im m;
  mt_sb : k_sb s = read_superblock (blk im 1)
}.

Lemma blocks_of_file v n c o :
  file_at v n T_FILE (Z.of_nat (length c)) c -> (length c <= 12 * 1024)%nat -> 0 <= o < Z.of_nat (length c) ->
  let a := addr_of (inode_at v n) (Z.to_nat (o / BSIZE)) in a <> 0 /\ 0 <= a < 2 ^ 31 /\ not_held ∅ a.
Proof.
  intros [_ _ Hm _ [_ Ho _]] Hc Hr. cbn zeta. set (b := Z.to_nat (o / BSIZE)). assert (b < 12)%nat as Hb by (unfold b, BSIZE; zdm).
  assert (addr_of (inode_at v n) b <> 0) as Ha.
  { specialize (Hm b). assert (dslot b = b) as Ed by (unfold dslot; by rewrite (proj2 (Nat.ltb_lt b 12))). rewrite Ed in Hm.
    unfold saddr in Hm. rewrite (proj2 (Nat.leb_le b 12)) in Hm by lia. apply Hm. unfold b, BSIZE in *. zdm. }
  destruct (Ho b Hb Ha) as (H1 & _ & H3 & _). cbn [sb_size mkfs_sb] in H1. split; [done|]. split; [lia|done].
Qed.

(** ilock and readi of the whole file, once namei has found it. *)
Lemma read_file me p k n refs dst im i y fl j name c s :
  mounts im s -> file_system fl (blk im) -> fl !! j = Some (name, c) -> (length fl <= 198)%nat -> (length c <= 12 * 1024)%nat ->
  fsys me p ROOTDEV k (S (Z.to_nat (turns 0 (Z.of_nat (length c))) + n)) None refs s -> (i < 50)%nat ->
  k_itable s !! i = Some y -> is_inode ROOTDEV (Z.of_nat (2 + j)) y = true ->
  0 <= dst -> dst + Z.of_nat (length c) < 2 ^ 64 -> apart buf_addr dst (Z.of_nat (length c)) ->
  exists s1 s2, ilock i s = Ok tt s1 /\ readi i 0 dst 0 (Z.of_nat (length c)) s1 = Ok (Z.of_nat (length c)) s2 /\
    same_fs ROOTDEV s s2 /\ fsys me p ROOTDEV k n (Some i) refs s2 /\
    (forall o b, c !! o = Some b -> rd8 (k_mem s2) (dst + Z.of_nat o) = u8 b).
Proof.
  intros [Mv Msb] Fs Hj Hfl Hc F Hi Hy Ey D1 D2 Hap. pose proof (lookup_lt_Some _ _ _ Hj) as Hlt. pose proof (fs_file _ _ Fs j name c Hj) as Fa.
  rewrite (fs_sb _ _ Fs) in Msb. pose proof Fa as [(Ht & Hn & Hs) _ _ Hb _]. set (len := Z.of_nat (length c)) in *.
  assert (disk_inode (view ROOTDEV s) (k_sb s) (Z.of_nat (2 + j)) = inode_at (blk im) (2 + j)) as Ed by (unfold disk_inode; by rewrite Mv, Msb).
  destruct (ilock_step me p ROOTDEV k _ refs i y (Z.of_nat (2 + j)) 0 s F Hi Hy Ey) as (y1 & s1 & E1 & F1 & S1 & _ & Hy1 & Ey1 & _ & Dy1); rewrite ?Ed, ?Ht; try done; [|lia|].
  { rewrite Msb. split; cbn [sb_inodestart mkfs_sb]; lia. }
  rewrite Ed in Dy1. assert (readable (i_di y1) 0 len = len) as Er by (unfold readable; rewrite Dy1, Hs; zcases).
  destruct (readi_turns_ok kalloc kfree buf_addr me p ROOTDEV n k ∅ i y1 dst 0 len s1) as (s2 & E2 & T2 & St2 & V2 & R2 & _); rewrite ?Er, ?Dy1, ?Hs; try done.
  - by destruct F1.
  - by apply is_inode_true in Ey1 as (_ & ? & _).
  - unfold len. lia.
  - unfold len. lia.
  - unfold len, BSIZE. lia.
  - split; [done|]. split; [unfold len, BSIZE; lia|]. intros o Ho. apply (blocks_of_file _ _ c); [done|done|fold len; lia].
  - rewrite Er, Dy1 in R2. rewrite Er in E2. exists s1, s2. split; [exact E1|]. split; [exact E2|].
    assert (k_sb s2 = k_sb s1 /\ k_itable s2 = k_itable s1) as [Esb Et] by (by rewrite (still_sb _ _ St2), (still_itable _ _ St2)).
    assert (same_fs ROOTDEV s1 s2) as S2 by done. split; [by eapply same_trans|]. split.
    + destruct F1 as [T1 I1 R1 B1 Li Ln]. split; rewrite ?Et, ?Esb; try done.
      * by apply (itab_ext p ROOTDEV (view ROOTDEV s1)).
      * intros d m. specialize (B1 d m). lia.
      * by apply (still_free L_itable _ _ St2).
      * intros b Hb'. apply (still_free (L_inode b) _ _ St2). by apply Ln.
    + intros o b Hob. pose proof (lookup_lt_Some _ _ _ Hob). rewrite R2 by (unfold len; lia).
      assert (content (view ROOTDEV s1) (inode_at (blk im) (2 + j)) (0 + Z.of_nat o) = content (blk im) (inode_at (blk im) (2 + j)) (Z.of_nat o)) as ->.
      { rewrite Z.add_0_l. unfold content. rewrite (proj1 S1), Mv. done. }
      rewrite Hb by (unfold BSIZE; lia). by rewrite Nat2Z.id, Hob.
Qed.

(** namei, ilock and readi on a kernel that has mounted the image. *)
Lemma mounted_read_back me p k n refs dst im fl j name c s :
  file_system fl (blk im) -> (length fl <= 198)%nat -> (length fl mod 64)%nat <> 62%nat ->
  Forall clean_name fl.*1 -> NoDup fl.*1 -> fl !! j = Some (name, c) -> (length c <= 12 * 1024)%nat -> let len := Z.of_nat (length c) in
  mounts im s -> fsys me p ROOTDEV k (7 + j + Z.to_nat (turns 0 len) + n) None refs s -> (1 < spare (k_itable s))%nat ->
  stack_ok buf_addr stack -> 0 <= dst -> dst + len < 2 ^ 64 -> apart buf_addr dst len ->
  exists i s1 s2 s3, namei (47 :: name) s = Ok (Some i) s1 /\ ilock i s1 = Ok tt s2 /\ readi i 0 dst 0 len s2 = Ok len s3 /\
    (forall o b, c !! o = Some b -> rd8 (k_mem s3) (dst + Z.of_nat o) = u8 b) /\
    mounts im s3 /\ fsys me p ROOTDEV k n (Some i) (bump ROOTDEV (Z.of_nat (2 + j)) 1 refs) s3.
Proof.
  intros Fs Hfl Hodd Hcl Hnd Hj Hc len M F Hsp Hst D1 D2 Hap.
  pose proof (root_walk fl _ Fs Hfl Hcl Hnd Hodd j name c Hj) as W.
  assert (clean_name name) as Hnm by (eapply Forall_lookup_1; [exact Hcl|]; rewrite list_lookup_fmap, Hj; done).
  destruct M as [Mv Msb]. pose proof (elements_clean _ Hnm) as Hel.
  destruct (namei_ok kalloc kfree buf_addr stack me p ROOTDEV k (47 :: name) (5 + j) (Some (Z.of_nat (2 + j))) (S (Z.to_nat (turns 0 len) + n)) refs s)
    as (res & s1 & E1 & S1 & i & y & -> & Hy & Ey & F1).
  - reflexivity.
  - reflexivity.
  - constructor; [lia|]. eapply Forall_impl; [apply Hnm|]. cbn. lia.
  - exact Hst.
  - rewrite Msb, (fs_sb _ _ Fs). by apply (leads_ext (blk im)).
  - replace (S (5 + j + S (Z.to_nat (turns 0 len) + n)))%nat with (7 + j + Z.to_nat (turns 0 len) + n)%nat by lia. exact F.
  - rewrite Hel. exact Hsp.
  - assert (mounts im s1) as M1 by (split; [intros m; by rewrite (proj1 S1)|by rewrite (proj2 S1)]).
    destruct (read_file me p k n _ dst im i y fl j name c s1 M1 Fs Hj Hfl Hc F1) as (s2 & s3 & E2 & E3 & S3 & F3 & R3); [|exact Hy|exact Ey|exact D1|exact D2|exact Hap|].
    { pose proof (to_spare _ (it_table _ _ _ _ _ _ (ns_tab _ _ _ _ _ _ _ _ F1)) i y Hy). apply is_inode_true in Ey. lia. }
    exists i, s1, s2, s3. split; [exact E1|]. split; [exact E2|]. split; [exact E3|]. split; [exact R3|]. split; [|exact F3].
    split; [intros m; rewrite (proj1 S3); apply M1|rewrite (proj2 S3); apply M1].
Qed.

(** ** Mounting the image *)

(** A kernel that has booted on the disk of [im] with [n] buffers and has read nothing of it. *)
Record boots (me : nat) (p : PCB) (n : nat) (im : image) (s : kernel) : Prop := {
  bo_fresh : fresh me p ROOTDEV n s;
  bo_disk : forall m, disk_block s m = blk im m;
  bo_table : k_itable s = k_itable boot_kernel;
  bo_locks : forall l, l ∈ L_itable :: (L_inode <$> seq 0 50) -> lock_free l s
}.

Lemma itab_boot p dv v sb : itab p dv v sb None (k_itable boot_kernel).
Proof.
  split; [apply table_ok_boot| |].
  - intros j y H. by apply lookup_replicate in H as [-> _].
  - intros j y H Hr. apply lookup_replicate in H as [-> _]. cbn in Hr. lia.
Qed.

Lemma irefs_boot e n : irefs (k_itable boot_kernel) e n = 0.
Proof. unfold boot_kernel. cbn [k_itable]. generalize 90%nat. intros c. induction c as [|m IH]; [reflexivity|]. cbn [replicate irefs]. exact IH. Qed.

(** mkfs leaves nothing to repair. *)
Lemma sound_image fl v : file_system fl v -> (length fl <= 198)%nat -> sound v mkfs_sb.
Proof.
  intros Fs Hfl. split; [apply Fs|reflexivity|cbn; lia|cbn; lia| |].
  - cbn [sb_logstart mkfs_sb]. rewrite (fs_boot_log _ _ Fs) by lia. reflexivity.
  - intros i Hi. cbn [sb_ninodes mkfs_sb] in Hi. cbn zeta.
    assert (disk_inode v mkfs_sb i = inode_at v (Z.to_nat i)) as -> by (unfold inode_at; by rewrite Z2Nat.id by lia).
    destruct (decide (2 + length fl <= Z.to_nat i)%nat) as [Hn|Hn]; [left; apply (fs_none _ _ Fs); lia|right].
    destruct (decide (Z.to_nat i = 1%nat)) as [-> |H1]; [by destruct (fs_root _ _ Fs) as [(_ & -> & _) _ _ _ _]|].
    destruct (lookup_lt_is_Some_2 fl (Z.to_nat i - 2) ltac:(lia)) as [[nm c] Hx]. replace (Z.to_nat i) with (2 + (Z.to_nat i - 2))%nat by lia.
    by destruct (fs_file _ _ Fs _ nm c Hx) as [(_ & -> & _) _ _ _ _].
Qed.

Lemma fsinit_mounts me p n im fl s :
  file_system fl (blk im) -> (length fl <= 198)%nat -> Z.of_nat (30 + n) < 2 ^ 20 -> boots me p (30 + n) im s ->
  exists s', fsinit virtio_disk_rw ROOTDEV s = Ok tt s' /\ mounts im s' /\ fsys me p ROOTDEV 0 (S n) None (fun _ _ => 0) s' /\ k_itable s' = k_itable boot_kernel.
Proof.
  intros Fs Hfl Hn [[B1 B2 B3 B4] Bd Bt Bl]. assert (forall m, view ROOTDEV s m = blk im m) as Hv by (intros m; by rewrite B2).
  assert (fsinit_cost mkfs_sb = 29%nat) as Ec by reflexivity. destruct (sound_image _ _ Fs Hfl) as [Ss Sm Sl Si Se Sn].
  destruct (fsinit_ok me p ROOTDEV mkfs_sb n s) as (s' & E & T & V & D & Sb & It & _ & _ & Lk).
  - split; [by rewrite Hv|done|done|done|by rewrite Hv|]. intros i Hi. unfold disk_inode. rewrite Hv. by apply Sn.
  - rewrite Ec. lia.
  - rewrite Ec. replace (29 + S n)%nat with (30 + n)%nat by lia. by split.
  - rewrite Bt in It. assert (forall l, l ∈ L_itable :: (L_inode <$> seq 0 50) -> lock_free l s') as Hfree.
    { intros l Hl. destruct (Bl l Hl) as [nm El]. exists nm. rewrite Lk; [exact El|]. intros ->. apply elem_of_cons in Hl as [Hl|Hl]; [done|]. by apply list_elem_of_fmap in Hl as (? & ? & _). }
    exists s'. split; [exact E|]. split; [split; [intros m; by rewrite V|by rewrite Sb, (fs_sb _ _ Fs)]|]. split; [|exact It].
    split; [exact T|rewrite It; apply itab_boot|rewrite It; exact irefs_boot|intros; lia|apply Hfree; left|].
    intros i Hi. apply Hfree. right. apply list_elem_of_fmap_2, elem_of_seq. lia.
Qed.


End Claim.

(** ** Witnesses *)

#[local] Opaque fresh_cache.

(** A kernel that has mounted the disk [d], with the inode table [t]. *)
Abbreviation booted sb d t := (mounted_at sb t ∅ (rebooted d)).

Lemma started_view sb d t m : view 1 (booted sb d t) m = dblock d m.
Proof. exact (rebooted_view d m). Qed.

Lemma started_free sb d t l : l ∈ L_itable :: (L_inode <$> seq 0 50) -> lock_free l (booted sb d t).
Proof.
  intros Hl. assert (lock_free l fresh_cache) as Hf by (apply (locks_free_b (L_itable :: (L_inode <$> seq 0 50)) fresh_cache); [vm_compute; reflexivity|exact Hl]).
  unfold rebooted. generalize dependent fresh_cache. intros s Hf. exact Hf.
Qed.

Lemma started_fsys sb d t b k refs :
  (b <= 90)%nat -> (k <= 90)%nat -> map_Forall (fun _ x => length x = 1024%nat) d -> itab first_process 1 (dblock d) sb None t ->
  (forall e n, irefs t e n = refs e n) -> (forall e n, refs e n <= 1) -> fsys 0 first_process 1 k b None refs (booted sb d t).
Proof.
  intros Hb Hk Hd I R Hr. split.
  - by apply mounted_at_txn.
  - apply (itab_ext _ _ (dblock d)); [apply started_view|exact I].
  - exact R.
  - intros e n. specialize (Hr e n). lia.
  - apply started_free. left.
  - intros i Hi. apply started_free. right. apply list_elem_of_fmap_2, elem_of_seq. lia.
Qed.

Lemma fresh_boot : lh_n (k_log fresh_cache) = 0 /\ lh_block (k_log fresh_cache) = replicate 90 0 /\ k_itable fresh_cache = replicate 90 inode_zero.
Proof. vm_compute. by split. Qed.

Lemma set_disk_kept d s : k_log (set_disk d s) = k_log s /\ k_itable (set_disk d s) = k_itable s.
Proof. done. Qed.

Lemma rebooted_boot d : log_wf (k_log (rebooted d)) /\ k_itable (rebooted d) = replicate 90 inode_zero.
Proof.
  destruct (set_disk_kept d fresh_cache) as [H1 H2], fresh_boot as (E1 & E2 & E3), demo_log_wf as [_ W2 W3].
  unfold rebooted. rewrite H1, H2. split; [|exact E3]. split; rewrite ?E1, ?E2; [lia|exact W2|exact W3].
Qed.

Lemma rebooted_refs d m : refs 1 (rebooted d) m = 0.
Proof.
  unfold refs, refs_of, rebooted. rewrite cores_set_disk, fresh_cores. rewrite owner_none; [done|].
  intros i b H. by apply lookup_replicate in H as [-> _].
Qed.

Lemma rebooted_disk d m : disk_block (rebooted d) m = dblock d m.
Proof. reflexivity. Qed.

Lemma rebooted_boots n im : (n <= 90)%nat -> map_Forall (fun _ x => length x = 1024%nat) (im_disk im) -> boots 0 first_process n im (rebooted (im_disk im)).
Proof.
  intros Hn Hd. destruct (rebooted_boot (im_disk im)) as [E1 E3]. split.
  - split; [by apply rebooted_inv|intros m; apply rebooted_view|apply rebooted_refs|exact E1].
  - intros m. exact (rebooted_disk (im_disk im) m).
  - exact E3.
  - intros l. exact (started_free mkfs_sb (im_disk im) [] l).
Qed.

Lemma demo_stack : stack_ok demo_buf_addr 4096.
Proof. split; [lia|]. split; [lia|]. apply demo_apart. lia. Qed.


(** A disk with a root directory of two entries. *)
Definition dir_inode : dinode := di_set_addr 0 60 (di_set_size 32 (di_set_nlink 1 (di_set_type T_DIR dinode_zero))).
Definition dir_block : list Z := mk_de 1 [46] ++ mk_de 7 (bytes_of "init") ++ replicate 992 0.
Definition dir_disk : gmap Z (list Z) := <[32 := write_dinode dir_inode (dinode_off 1) (replicate 1024 0)]> {[60 := dir_block]}.

Lemma dir_disk_blocks : map_Forall (fun _ x => length x = 1024%nat) dir_disk.
Proof. refine (bool_decide_eq_true_1 _ _). vm_compute. reflexivity. Qed.

Lemma dir_disk_inode : disk_inode (dblock dir_disk) small_sb 1 = dir_inode.
Proof. vm_compute. reflexivity. Qed.

Lemma dir_inode_ok : dir_ok ∅ dir_inode.
Proof.
  split; [reflexivity|split; [vm_compute; split; discriminate|reflexivity]|]. split; [lia|]. split; [vm_compute; discriminate|].
  intros o Ho. change (di_size dir_inode) with 32 in Ho. unfold BSIZE. rewrite Z.div_small by lia. change (addr_of dir_inode (Z.to_nat 0)) with 60.
  split; [lia|]. split; [lia|]. by intros j m Hj.
Qed.

Lemma dir_disk_walk : leads (dblock dir_disk) small_sb 1 [bytes_of "init"] 4 (Some 7).
Proof.
  apply (leads_next (dblock dir_disk) small_sb 1 (bytes_of "init") [] 1 0 (Some 7)).
  - split; [split; cbn; lia|by rewrite dir_disk_inode..].
  - rewrite dir_disk_inode. apply dir_inode_ok.
  - rewrite dir_disk_inode. by vm_compute; lia.
  - by vm_compute.
  - intros [|j] Hj; [by vm_compute|lia].
  - assert (de_inum (dirent (dblock dir_disk) (disk_inode (dblock dir_disk) small_sb 1) 1) = 7) as -> by (vm_compute; reflexivity). apply leads_end.
Qed.

Lemma namei_correct_witness :
  exists i y s', namei ideal_rw no_alloc no_free demo_buf_addr 4096 (bytes_of "/init") (booted small_sb dir_disk (k_itable boot_kernel)) = Ok (Some i) s' /\
    k_itable s' !! i = Some y /\ is_inode 1 7 y = true.
Proof.
  destruct (namei_correct no_alloc no_free demo_buf_addr 4096 0 first_process 0 (bytes_of "/init") 4 (Some 7) 0 (fun _ _ => 0)
    (booted small_sb dir_disk (k_itable boot_kernel))) as (res & s' & E & _ & i & y & -> & Hy & Ey & _).
  - reflexivity.
  - vm_compute. repeat constructor; discriminate.
  - apply demo_stack.
  - apply (leads_ext (dblock dir_disk)); [apply started_view|]. exact dir_disk_walk.
  - apply started_fsys; [lia|lia|apply dir_disk_blocks|apply itab_boot|apply irefs_boot|lia].
  - vm_compute. lia.
  - exists i, y, s'. split; [exact E|]. split; [exact Hy|exact Ey].
Defined.

(** The root directory in the first entry of the table. *)
Definition root_slot : inode := {| i_dev := 1; i_inum := 1; i_ref := 1; i_lock := idle_lock; i_valid := 1; i_di := dir_inode |}.
Definition dir_table : list inode := alter (fun _ => root_slot) 0%nat (k_itable boot_kernel).

Lemma dir_table_itab : itab first_process 1 (dblock dir_disk) small_sb None dir_table.
Proof.
  apply (itab_alter _ _ _ _ None None _ 0 inode_zero); [apply itab_boot|reflexivity| |done|reflexivity|].
  - apply (table_alter _ _ inode_zero); [apply table_ok_boot|reflexivity|lia|cbn; lia|]. intros j y e n _ Hy Ey. by apply lookup_replicate in Hy as [-> _].
  - intros _ _ _. symmetry. apply dir_disk_inode.
Qed.

Lemma dirlookup_correct_witness :
  exists ip y s', dirlookup ideal_rw no_alloc no_free demo_buf_addr 4096 0 (bytes_of "init" ++ replicate 10 0) (booted small_sb dir_disk dir_table) = Ok (Some (ip, 16)) s' /\
    k_itable s' !! ip = Some y /\ is_inode 1 7 y = true.
Proof.
  assert (forall e, (e < 2)%nat -> names (bytes_of "init" ++ replicate 10 0) (dirent (view 1 (booted small_sb dir_disk dir_table)) dir_inode e) = (e =? 1)%nat) as Hn.
  { intros e He. rewrite (dirent_ext (dblock dir_disk)) by apply started_view. destruct e as [|[|e]]; [by vm_compute|by vm_compute|lia]. }
  destruct (dirlookup_correct no_alloc no_free demo_buf_addr 4096 0 first_process 1 0 (bytes_of "init" ++ replicate 10 0) 0 root_slot 0 (irefs dir_table) None
    (booted small_sb dir_disk dir_table)) as (res & s' & E & _ & H).
  - apply started_fsys; [vm_compute; lia|lia|apply dir_disk_blocks|apply dir_table_itab|done|].
    intros e n. unfold dir_table. rewrite (irefs_alter _ 0 inode_zero), irefs_boot by reflexivity. destruct (is_inode e n inode_zero), (is_inode e n root_slot); cbn; lia.
  - reflexivity.
  - reflexivity.
  - apply dir_inode_ok.
  - apply demo_stack.
  - vm_compute. lia.
  - change (i_di root_slot) with dir_inode in H. change (entries dir_inode) with 2%nat in H. destruct res as [[ip off]|].
    + destruct H as (d & y & -> & Hd & Hy & _ & Ht & Ey & _). rewrite Hn in Hy by exact Hd. apply Nat.eqb_eq in Hy as ->.
      exists ip, y, s'. split; [exact E|]. split; [exact Ht|]. rewrite (dirent_ext (dblock dir_disk)) in Ey by apply started_view.
      assert (de_inum (dirent (dblock dir_disk) dir_inode 1) = 7) as Hi by (vm_compute; reflexivity). rewrite Hi in Ey. exact Ey.
    + destruct H as [H _]. specialize (H 1%nat ltac:(lia)). rewrite Hn in H by lia. discriminate.
Defined.

Lemma ialloc_correct_witness :
  exists ip y s', ialloc ideal_rw 1 T_FILE (booted small_sb dir_disk (k_itable boot_kernel)) = Ok (Some ip) s' /\
    k_itable s' !! ip = Some y /\ is_inode 1 2 y = true /\ di_type (disk_inode (view 1 s') small_sb 2) = T_FILE.
Proof.
  assert (forall n, disk_inode (view 1 (booted small_sb dir_disk (k_itable boot_kernel))) small_sb n = disk_inode (dblock dir_disk) small_sb n) as Hd
    by (intros n; unfold disk_inode; by rewrite started_view).
  destruct (ialloc_correct 0 first_process 1 0 0 T_FILE 2 (booted small_sb dir_disk (k_itable boot_kernel)))
    as (ip & y & s' & E & _ & Hy & Ey & _ & _ & _ & Hv).
  - apply mounted_at_txn; [lia|lia|apply dir_disk_blocks].
  - apply table_ok_boot.
  - apply started_free. left.
  - rewrite irefs_boot. lia.
  - vm_compute. lia.
  - lia.
  - cbn. lia.
  - cbn. lia.
  - cbn. lia.
  - unfold T_FILE. lia.
  - change (k_sb _) with small_sb. rewrite Hd. vm_compute. reflexivity.
  - intros e He. change (k_sb _) with small_sb. assert (e = 1) as -> by lia. rewrite Hd, dir_disk_inode. discriminate.
  - exists ip, y, s'. split; [exact E|]. split; [exact Hy|]. split; [exact Ey|]. change (k_sb _) with small_sb in Hv. rewrite Hv by lia. reflexivity.
Defined.
