(* ===== verification/File.v ===== *)
(** * kernel/disk/file.c: open files, with consolewrite of kernel/driver/console.c

    A struct file of the table is its index. The device switch is what
    consoleinit leaves: only the console has an entry, and only for writing. *)

From S2P Require Import Prelude Mem CString State Spinlock Printf Locks PageAlloc Vm Sleep Bio Bytes Log Fs.

Definition upd_file (i : nat) (f : file -> file) (s : kernel) : kernel :=
  set_ftable (alter f i (k_ftable s)) s.

Definition file_get {A} (i : nat) (f : file -> A) : KM A :=
  get (fun s => f (default file_zero (k_ftable s !! i))).

Definition fl_ref (n : Z) (x : file) : file :=
  {| f_type := f_type x; f_ref := n; f_readable := f_readable x; f_writable := f_writable x;
     f_ip := f_ip x; f_off := f_off x; f_major := f_major x |}.
Definition fl_none (x : file) : file :=
  {| f_type := FD_NONE; f_ref := 0; f_readable := f_readable x; f_writable := f_writable x;
     f_ip := f_ip x; f_off := f_off x; f_major := f_major x |}.
Definition fl_off (o : Z) (x : file) : file :=
  {| f_type := f_type x; f_ref := f_ref x; f_readable := f_readable x; f_writable := f_writable x;
     f_ip := f_ip x; f_off := o; f_major := f_major x |}.

Definition fileinit : KM unit := initlock L_ftable "ftable".

(** [for(f = ftable.file; f < ftable.file + NFILE; f++) if(f->ref == 0)] *)
Fixpoint unused_file (fs : list file) (i : nat) : option nat :=
  match fs with
  | [] => None
  | f :: fs' => if f_ref f =? 0 then Some i else unused_file fs' (S i)
  end.

Definition filealloc : KM (option nat) :=
  do! acquire L_ftable;
  let! fs := get k_ftable in
  match unused_file fs 0 with
  | Some i =>
      do! modify (upd_file i (fl_ref 1));
      do! release L_ftable;
      ret (Some i)
  | None =>
      do! release L_ftable;
      ret None
  end.

Definition filedup (i : nat) : KM nat :=
  do! acquire L_ftable;
  let! ref := file_get i f_ref in
  if ref <? 1 then panic "filedup"
  else
    do! modify (upd_file i (fl_ref (s32 (ref + 1))));
    do! release L_ftable;
    ret i.

(** The inode of an open file; the code uses the pointer unchecked. *)
Definition file_ip (ip : option nat) : KM nat :=
  match ip with Some i => ret i | None => halt (Undefined "null inode") end.

Definition CONSOLE : Z := 1.
Definition console_buf_size : Z := 32.

Section Routines.
Context (virtio_disk_rw : nat -> Z -> KM unit) (kalloc : KM Z) (kfree : Z -> KM unit).
Context (buf_addr : nat -> Z) (stack : Z).
Abbreviation ilock := (ilock virtio_disk_rw).
Abbreviation iput := (iput virtio_disk_rw).
Abbreviation readi := (readi virtio_disk_rw kalloc kfree buf_addr).
Abbreviation writei := (writei virtio_disk_rw kalloc kfree buf_addr).
Abbreviation end_op := (end_op virtio_disk_rw).

Definition fileclose (i : nat) : KM unit :=
  do! acquire L_ftable;
  let! ref := file_get i f_ref in
  if ref <? 1 then panic "fileclose"
  else
    do! modify (upd_file i (fl_ref (ref - 1)));
    if 0 <? ref - 1 then release L_ftable
    else
      let! ff := file_get i id in
      do! modify (upd_file i fl_none);
      do! release L_ftable;
      match f_type ff with
      | FD_INODE | FD_DEVICE =>
          do! begin_op;
          let! ip := file_ip (f_ip ff) in
          do! iput ip;
          end_op
      | FD_PIPE | FD_NONE => ret tt
      end.

(** ** The console as a device *)

Fixpoint consolewrite_loop (fuel : nat) (user_src src i n : Z) : KM Z :=
  match fuel with
  | O => halt OutOfFuel
  | S f =>
      if i <? n then
        let nn := if n - i <? console_buf_size then n - i else console_buf_size in
        let! r := either_copyin kalloc kfree stack user_src (u64 (src + i)) nn in
        if r =? -1 then ret i
        else
          let! bs := get (fun s => rd_bytes (k_mem s) stack (Z.to_nat nn)) in
          do! foreach bs uartputc_sync;
          consolewrite_loop f user_src src (i + nn) n
      else ret i
  end.

Definition consolewrite (user_src src n : Z) : KM Z :=
  consolewrite_loop (S (S (Z.to_nat (n / console_buf_size)))) user_src src 0 n.

(** devsw[major].read and devsw[major].write. *)
Definition devsw_read (major : Z) : option (Z -> Z -> Z -> KM Z) := None.
Definition devsw_write (major : Z) : option (Z -> Z -> Z -> KM Z) :=
  if major =? CONSOLE then Some consolewrite else None.

Definition fileread (i : nat) (addr n : Z) : KM Z :=
  let! f := file_get i id in
  if f_readable f =? 0 then ret (-1)
  else
    match f_type f with
    | FD_PIPE => ret 0
    | FD_DEVICE =>
        if (f_major f <? 0) || (NDEV <=? f_major f) then ret (-1)
        else
          match devsw_read (f_major f) with
          | None => ret (-1)
          | Some read => read 1 addr n
          end
    | FD_INODE =>
        let! ip := file_ip (f_ip f) in
        do! ilock ip;
        let! r := readi ip 1 addr (f_off f) (u32 n) in
        do! (when! 0 <? r then modify (upd_file i (fun x => fl_off (u32 (f_off x + r)) x)));
        do! iunlock ip;
        ret r
    | FD_NONE => panic "fileread"
    end.

(** [((MAXOPBLOCKS-1-1-2) / 2) * BSIZE] *)
Definition max_write : Z := (MAXOPBLOCKS - 1 - 1 - 2) / 2 * BSIZE.

Fixpoint filewrite_loop (fuel : nat) (i ip : nat) (addr k n : Z) : KM Z :=
  match fuel with
  | O => halt OutOfFuel
  | S f =>
      if k <? n then
        let n1 := if max_write <? n - k then max_write else n - k in
        do! begin_op;
        do! ilock ip;
        let! off := file_get i f_off in
        let! r := writei ip 1 (u64 (addr + k)) off n1 in
        do! (when! 0 <? r then modify (upd_file i (fun x => fl_off (u32 (f_off x + r)) x)));
        do! iunlock ip;
        do! end_op;
        if negb (r =? n1) then ret k
        else filewrite_loop f i ip addr (k + r) n
      else ret k
  end.

Definition filewrite (i : nat) (addr n : Z) : KM Z :=
  let! f := file_get i id in
  if f_writable f =? 0 then ret (-1)
  else
    match f_type f with
    | FD_PIPE => ret 0
    | FD_DEVICE =>
        if (f_major f <? 0) || (NDEV <=? f_major f) then ret (-1)
        else
          match devsw_write (f_major f) with
          | None => ret (-1)
          | Some write => write 1 addr n
          end
    | FD_INODE =>
        let! ip := file_ip (f_ip f) in
        let! k := filewrite_loop (S (S (Z.to_nat (n / max_write)))) i ip addr 0 n in
        ret (if k =? n then n else -1)
    | FD_NONE => panic "filewrite"
    end.

End Routines.
