(* ===== verification/FileProps.v ===== *)
(** * Properties of the table of open files (kernel/disk/file.c)

    An entry of the table counts the descriptors that refer to it; fileclose of
    the last one gives the entry's inode back, in a transaction of its own. *)

From S2P Require Import Prelude Mem CString State Spinlock Printf Locks PageAlloc Vm Sleep Critical Bio Bytes BlockCache Log LogProps Commit LogWitness Fs Txn Inode EndOp File.

Lemma upd_file_private i f : private (upd_file i f).
Proof. by split. Qed.
#[export] Hint Resolve upd_file_private : core.

Lemma file_at {A} i x (f : file -> A) s : k_ftable s !! i = Some x -> file_get i f s = Ok (f x) s.
Proof. intros H. unfold file_get, get. by rewrite H. Qed.

Lemma unused_file_spec t : forall k,
  match unused_file t k with
  | Some i => exists x, (k <= i)%nat /\ t !! (i - k)%nat = Some x /\ f_ref x = 0 /\
      forall j y, (j < i - k)%nat -> t !! j = Some y -> f_ref y <> 0
  | None => Forall (fun y => f_ref y <> 0) t
  end.
Proof.
  induction t as [|y t IH]; intros k; cbn [unused_file]; [done|].
  destruct (Z.eqb_spec (f_ref y) 0) as [Hz|Hz].
  - exists y. rewrite Nat.sub_diag. split; [lia|]. split; [done|]. split; [done|]. intros; lia.
  - specialize (IH (S k)). destruct (unused_file t (S k)) as [i|].
    + destruct IH as (x & Hk & Hx & Hr & Hlow). exists x. split; [lia|].
      replace (i - k)%nat with (S (i - S k)) by lia. split; [done|]. split; [done|].
      intros [|j] z Hj Hz'; [by injection Hz' as <-|]. apply (Hlow j); [lia|done].
    + by constructor.
Qed.

Lemma filealloc_ok s :
  lock_free L_ftable s -> hart_ok (k_hart s) ->
  filealloc s = match unused_file (k_ftable s) 0 with
                | Some i => Ok (Some i) (upd_file i (fl_ref 1) (settle s))
                | None => Ok None (settle s)
                end.
Proof.
  intros Hl Hh. unfold filealloc. rewrite (bind_ok _ _ _ _ _ (acquire_ok L_ftable s Hl Hh)).
  unfold bind at 1, get at 1. change (k_ftable (locked L_ftable s)) with (k_ftable s).
  destruct (unused_file (k_ftable s) 0) as [i|]; [|by rewrite (bind_ok _ _ _ _ _ (release_locked L_ftable s Hl Hh))].
  unfold bind, modify. by rewrite (release_private L_ftable (upd_file i (fl_ref 1))).
Qed.

(** Filealloc takes the first entry nobody refers to and gives it one reference;
    when every entry is referred to it returns 0 and the table is as before. The
    table's lock is free again in both cases. *)
Theorem filealloc_correct s :
  lock_free L_ftable s -> hart_ok (k_hart s) ->
  (exists i x, k_ftable s !! i = Some x /\ f_ref x = 0 /\
     (forall j y, (j < i)%nat -> k_ftable s !! j = Some y -> f_ref y <> 0) /\
     filealloc s = Ok (Some i) (upd_file i (fl_ref 1) (settle s))) \/
  Forall (fun y => f_ref y <> 0) (k_ftable s) /\ filealloc s = Ok None (settle s).
Proof.
  intros Hl Hh. rewrite (filealloc_ok s Hl Hh).
  pose proof (unused_file_spec (k_ftable s) 0) as H. destruct (unused_file (k_ftable s) 0) as [i|]; [left|by right].
  destruct H as (x & _ & Hx & Hr & Hlow). rewrite Nat.sub_0_r in *. by exists i, x.
Qed.

(** ** Closing *)

Section Close.
Context {virtio_disk_rw : nat -> Z -> KM unit}.
Abbreviation fileclose := (fileclose virtio_disk_rw).

Lemma filedup_ok i x s :
  lock_free L_ftable s -> hart_ok (k_hart s) -> k_ftable s !! i = Some x -> 1 <= f_ref x < 2 ^ 31 - 1 ->
  filedup i s = Ok i (upd_file i (fl_ref (f_ref x + 1)) (settle s)).
Proof.
  intros Hl Hh Hx Hr. unfold filedup. rewrite (bind_ok _ _ _ _ _ (acquire_ok L_ftable s Hl Hh)).
  rewrite (bind_ok _ _ _ _ _ (file_at i x f_ref (locked L_ftable s) Hx)).
  rewrite (proj2 (Z.ltb_ge (f_ref x) 1)) by lia. rewrite s32_small by lia.
  unfold bind, modify. by rewrite (release_private L_ftable (upd_file i (fl_ref (f_ref x + 1)))).
Qed.

Lemma fileclose_more i x s :
  lock_free L_ftable s -> hart_ok (k_hart s) -> k_ftable s !! i = Some x -> 2 <= f_ref x ->
  fileclose i s = Ok tt (upd_file i (fl_ref (f_ref x - 1)) (settle s)).
Proof.
  intros Hl Hh Hx Hr. unfold File.fileclose. rewrite (bind_ok _ _ _ _ _ (acquire_ok L_ftable s Hl Hh)).
  rewrite (bind_ok _ _ _ _ _ (file_at i x f_ref (locked L_ftable s) Hx)).
  rewrite (proj2 (Z.ltb_ge (f_ref x) 1)), (proj2 (Z.ltb_lt 0 (f_ref x - 1))) by lia.
  unfold bind, modify. by apply release_private.
Qed.

Lemma upd_file_idle i f s : (forall x, k_ftable s !! i = Some x -> f x = x) -> upd_file i f s = s.
Proof.
  intros Hf. unfold upd_file. assert (alter f i (k_ftable s) = k_ftable s) as ->; [|by destruct s].
  rewrite (list_alter_ext f id (k_ftable s) (k_ftable s) i); [by apply list_alter_id|done|done].
Qed.

Lemma upd_file_twice i f g s : upd_file i f (upd_file i g s) = upd_file i (f ∘ g) s.
Proof. unfold upd_file. cbn. by rewrite list_alter_alter_eq. Qed.

(** Fileclose undoes filedup: a descriptor duplicated and closed again leaves
    the table as it was, and neither touches the inode or the log. *)
Theorem filedup_fileclose i x s :
  lock_free L_ftable s -> hart_ok (k_hart s) -> k_ftable s !! i = Some x -> 1 <= f_ref x < 2 ^ 31 - 1 ->
  (let! j := filedup i in fileclose j) s = Ok tt (settle s).
Proof.
  intros Hl Hh Hx Hr. rewrite (bind_ok _ _ _ _ _ (filedup_ok i x s Hl Hh Hx Hr)).
  assert (k_ftable (upd_file i (fl_ref (f_ref x + 1)) (settle s)) !! i = Some (fl_ref (f_ref x + 1) x)) as Hx'
    by (cbn; by rewrite list_lookup_alter_eq, Hx).
  rewrite (fileclose_more i _ (upd_file i (fl_ref (f_ref x + 1)) (settle s)) Hl (hart_settle_ok _ Hh) Hx') by (cbn; lia). f_equal.
  change (settle (upd_file i (fl_ref (f_ref x + 1)) (settle s))) with (upd_file i (fl_ref (f_ref x + 1)) (settle (settle s))).
  rewrite settle_idem. rewrite upd_file_twice. apply upd_file_idle. intros y Hy. change (k_ftable (settle s)) with (k_ftable s) in Hy.
  rewrite Hx in Hy. injection Hy as <-. change (fl_ref (f_ref x + 1 - 1) x = x).
  replace (f_ref x + 1 - 1) with (f_ref x) by lia. by destruct x.
Qed.

(** The last reference: the entry is free, and the transaction drops the inode. *)
Lemma fileclose_last i x ip s :
  lock_free L_ftable s -> hart_ok (k_hart s) -> k_ftable s !! i = Some x -> f_ref x = 1 ->
  f_type x = FD_INODE \/ f_type x = FD_DEVICE -> f_ip x = Some ip ->
  fileclose i s =
    (do! begin_op; do! iput virtio_disk_rw ip; end_op virtio_disk_rw) (upd_file i fl_none (settle s)).
Proof.
  intros Hl Hh Hx Hr Ht Hip. unfold File.fileclose. rewrite (bind_ok _ _ _ _ _ (acquire_ok L_ftable s Hl Hh)).
  rewrite (bind_ok _ _ _ _ _ (file_at i x f_ref (locked L_ftable s) Hx)). rewrite Hr.
  change (1 <? 1) with false. change (1 - 1) with 0. change (0 <? 0) with false. cbn match.
  rewrite (bind_ok _ _ _ _ _ (modify_locked L_ftable (upd_file i (fl_ref 0)) s ltac:(done))).
  assert (k_ftable (upd_file i (fl_ref 0) s) !! i = Some (fl_ref 0 x)) as Hx' by (cbn; by rewrite list_lookup_alter_eq, Hx).
  rewrite (bind_ok _ _ _ _ _ (file_at i _ id (locked L_ftable (upd_file i (fl_ref 0) s)) Hx')).
  rewrite (bind_ok _ _ _ _ _ (modify_locked L_ftable (upd_file i fl_none) _ ltac:(done))). rewrite upd_file_twice.
  change (fl_none ∘ fl_ref 0) with fl_none.
  rewrite (bind_ok _ _ _ _ _ (release_locked L_ftable (upd_file i fl_none s) Hl Hh)).
  change (settle (upd_file i fl_none s)) with (upd_file i fl_none (settle s)).
  cbn [id fl_ref f_type f_ip]. rewrite Hip. by destruct Ht as [-> | ->].
Qed.

(** end_op when nothing was written. *)
Lemma idle_end_op me p s :
  caller me p s -> lock_free L_log s -> 1 <= log_outstanding (k_log s) < 2 ^ 31 -> log_committing (k_log s) = 0 ->
  (log_outstanding (k_log s) = 1 -> lh_n (k_log s) = 0) ->
  exists s', end_op virtio_disk_rw s = Ok tt s' /\ k_log s' = with_outstanding (log_outstanding (k_log s) - 1) (k_log s) /\
    k_itable s' = k_itable s /\ k_ftable s' = k_ftable s /\ k_disk s' = k_disk s /\ k_locks s' = k_locks s.
Proof.
  intros C Hl Ho Hc Hz. destruct (decide (log_outstanding (k_log s) = 1)) as [H1|Hne].
  - assert (commit virtio_disk_rw (closing s) = Ok tt (closing s)) as E.
    { unfold commit, bind, get. change (lh_n (k_log (closing s))) with (lh_n (k_log s)). by rewrite Hz. }
    eexists. split; [apply (end_op_last me p s (closing s)); try done; apply caller_settle; destruct C; by split|].
    split; [|done]. cbn. rewrite H1. destruct (k_log s); cbn in *. by subst.
  - eexists. split; [apply (end_op_more me p s); try done; lia|]. done.
Qed.

(** Fileclose of the last descriptor of an inode or a device frees the entry
    and, in a transaction of its own, takes one reference from the inode and from no
    other; when the inode stays referred to or linked nothing is written, and the
    log, the disk and the locks are as before. *)
Theorem fileclose_drops_inode me p i x ip y s :
  caller me p s -> c_noff (h_cpu (k_hart s)) = 0 ->
  lock_free L_ftable s -> lock_free L_log s -> lock_free L_itable s ->
  k_ftable s !! i = Some x -> f_ref x = 1 -> f_type x = FD_INODE \/ f_type x = FD_DEVICE -> f_ip x = Some ip ->
  table_ok (k_itable s) -> k_itable s !! ip = Some y -> 1 <= i_ref y -> i_ref y <> 1 \/ di_nlink (i_di y) <> 0 ->
  log_committing (k_log s) = 0 -> 0 <= lh_n (k_log s) -> 0 <= log_outstanding (k_log s) ->
  lh_n (k_log s) + (log_outstanding (k_log s) + 1) * MAXOPBLOCKS <= LOGBLOCKS ->
  (log_outstanding (k_log s) = 0 -> lh_n (k_log s) = 0) ->
  exists s', fileclose i s = Ok tt s' /\ k_ftable s' = alter fl_none i (k_ftable s) /\ table_ok (k_itable s') /\
    (forall d n, irefs (k_itable s') d n = bump (i_dev y) (i_inum y) (-1) (irefs (k_itable s)) d n) /\
    k_log s' = k_log s /\ k_disk s' = k_disk s /\ k_locks s' = k_locks s.
Proof.
  intros C Hz Hfl Hll Hil Hx Hr Ht Hip Hok Hy Hir Hkeep Hc Hn Ho Hroom Hempty. pose proof (ca_hart _ _ _ C) as [Hh _].
  rewrite (fileclose_last i x ip s Hfl Hh Hx Hr Ht Hip). set (s0 := upd_file i fl_none (settle s)).
  assert (caller me p s0) as C0 by (apply (caller_settle me p) in C; destruct C; by split).
  pose proof (begin_op_correct me p s0 C0) as E. change MAXOPBLOCKS with 30 in *. change LOGBLOCKS with 90 in *.
  change (k_log s0) with (k_log s) in E. rewrite bool_decide_true in E by done.
  rewrite (bind_ok _ _ _ _ _ (E ltac:(change (k_hart s0) with (hart_settle (k_hart s)); by rewrite hart_settle_noff) Hll ltac:(lia) ltac:(lia))).
  clear E. set (s1 := upd_log _ (settle s0)). pose proof (ca_hart _ _ _ C0) as [Hh0 _].
  rewrite (bind_ok _ _ _ _ _ (iput_keep_ok virtio_disk_rw ip y s1 Hil (hart_settle_ok _ Hh0) Hy Hkeep)).
  set (s2 := upd_inode ip _ (settle s1)).
  destruct (idle_end_op me p s2) as (s' & E & L & I & F & D & K).
  - apply (caller_settle me p) in C0. assert (caller me p s1) as C1 by (destruct C0; by split).
    apply (caller_settle me p) in C1. destruct C1; by split.
  - exact Hll.
  - change (1 <= log_outstanding (k_log s) + 1 < 2 ^ 31). lia.
  - exact Hc.
  - intros H1. apply Hempty. change (log_outstanding (k_log s) + 1 = 1) in H1. lia.
  - exists s'. split; [exact E|]. split; [by rewrite F|]. rewrite I, D, K, L.
    pose proof (to_ref _ Hok ip y Hy).
    destruct (ref_counts (k_itable s) ip y (fun n => n - 1) Hok Hy ltac:(lia) ltac:(lia)) as [H1 H2].
    split; [exact H1|]. split; [|split; [|done]].
    + intros d n. etransitivity; [exact (H2 d n)|]. f_equal. lia.
    + change (with_outstanding (log_outstanding (k_log s) + 1 - 1) (k_log s) = k_log s).
      replace (log_outstanding (k_log s) + 1 - 1) with (log_outstanding (k_log s)) by lia. by destruct (k_log s).
Qed.

End Close.

(** ** A concrete table *)

#[local] Opaque fresh_cache.

(** Descriptor table entry 0 is open on inode 3, in entry 0 of the inode table. *)
Definition open_file : file :=
  {| f_type := FD_INODE; f_ref := 1; f_readable := 1; f_writable := 0; f_ip := Some 0%nat; f_off := 0; f_major := 0 |}.
Definition linked_inode : inode :=
  in_id 1 3 1 1 (in_di {| di_type := 2; di_major := 0; di_minor := 0; di_nlink := 1; di_size := 0; di_addrs := replicate 13 0 |} inode_zero).

Definition opened (s : kernel) : kernel :=
  set_ftable (<[0%nat := open_file]> (k_ftable s))
    (set_itable (linked_inode :: replicate 89 inode_zero) (with_log (with_outstanding 0 (demo_log 0 [])) s)).

Lemma opened_caller me p s : caller me p s -> caller me p (opened s).
Proof. intros [H1 H2 H3 [H4 H5]]. split; [exact H1|exact H2|exact H3|split; [exact H4|exact H5]]. Qed.

Lemma opened_table s : table_ok (k_itable (opened s)).
Proof.
  assert (forall i x, (linked_inode :: replicate 89 inode_zero) !! i = Some x ->
            i = 0%nat /\ x = linked_inode \/ x = inode_zero) as Hc.
  { intros [|i] x Hx; [injection Hx as <-; by left|]. apply lookup_replicate in Hx as [-> _]. by right. }
  split; cbn [k_itable opened set_ftable set_itable].
  - reflexivity.
  - intros i j x y dev inum Hi Hj Ex Ey. apply Hc in Hi as [[-> ->]| ->], Hj as [[-> ->]| ->]; done.
  - intros i x Hi. apply Hc in Hi as [[-> ->]| ->]; cbn; lia.
  - intros i x Hi Hge. apply Hc in Hi as [[-> ->]| ->]; [lia|done].
Qed.

Lemma fresh_file_locks : forall l, l ∈ [L_ftable; L_log; L_itable] -> lock_free l (opened fresh_cache).
Proof. apply locks_free_b. vm_compute. reflexivity. Qed.

Lemma fileclose_drops_inode_witness :
  exists s', fileclose ideal_rw 0 (opened fresh_cache) = Ok tt s' /\ irefs (k_itable s') 1 3 = 0 /\
    f_ref (default file_zero (k_ftable s' !! 0%nat)) = 0.
Proof.
  destruct (fileclose_drops_inode (virtio_disk_rw := ideal_rw) 0 first_process 0 open_file 0 linked_inode (opened fresh_cache))
    as (s' & E & F & _ & R & _).
  - apply opened_caller, fresh_cenv.
  - vm_compute. reflexivity.
  - apply fresh_file_locks. left.
  - apply fresh_file_locks. right. left.
  - apply fresh_file_locks. right. right. left.
  - vm_compute. reflexivity.
  - reflexivity.
  - by left.
  - reflexivity.
  - apply opened_table.
  - reflexivity.
  - cbn. lia.
  - right. cbn. lia.
  - vm_compute. reflexivity.
  - vm_compute. congruence.
  - vm_compute. congruence.
  - vm_compute. congruence.
  - intros _. vm_compute. reflexivity.
  - exists s'. split; [exact E|]. split; [rewrite R; vm_compute; reflexivity|]. rewrite F. vm_compute. reflexivity.
Defined.

Lemma filedup_fileclose_witness :
  (let! j := filedup 0 in fileclose ideal_rw j) (opened fresh_cache) = Ok tt (settle (opened fresh_cache)).
Proof.
  apply (filedup_fileclose 0 open_file).
  - apply fresh_file_locks. left.
  - apply (ca_hart 0 first_process). apply opened_caller, fresh_cenv.
  - vm_compute. reflexivity.
  - cbn. lia.
Defined.

Lemma filealloc_correct_witness : exists s', filealloc (opened fresh_cache) = Ok (Some 1%nat) s'.
Proof.
  destruct (filealloc_correct (opened fresh_cache)) as [(i & x & Hi & Hr & Hlow & E)|[Hall _]].
  - apply fresh_file_locks. left.
  - apply (ca_hart 0 first_process). apply opened_caller, fresh_cenv.
  - assert (i = 1%nat) as Ei; [|rewrite Ei in E; by eexists].
    assert (k_ftable (opened fresh_cache) !! 0%nat = Some open_file) as H0 by (vm_compute; reflexivity).
    assert (k_ftable (opened fresh_cache) !! 1%nat = Some file_zero) as H1 by (vm_compute; reflexivity).
    destruct i as [|[|i]]; [|done|].
    + rewrite H0 in Hi. injection Hi as <-. discriminate Hr.
    + exfalso. apply (Hlow 1%nat file_zero); [lia|exact H1|reflexivity].
  - exfalso. rewrite Forall_lookup in Hall. apply (Hall 1%nat file_zero); [vm_compute; reflexivity|reflexivity].
Defined.
