(* ===== verification/Proc.v ===== *)
(** * kernel/proc/proc.c: the life of a process

    Allocation, fork, exit, wait, kill and one turn of the scheduler. A process
    is its index in the table; swtch ends a definition, and what runs when it
    comes back is a definition of its own. *)

From S2P Require Import Prelude Mem CString State Spinlock Printf Locks PageAlloc Vm Sleep Bio Bytes Log Fs File.

(** ** Fields of struct PCB *)

Definition with_pid (v : Z) (p : PCB) : PCB :=
  {| p_state := p_state p; p_pid := v; p_pagetable := p_pagetable p; p_context := p_context p;
     p_kstack := p_kstack p; p_trapframe := p_trapframe p; p_name := p_name p; p_killed := p_killed p;
     p_parent := p_parent p; p_chan := p_chan p; p_xstate := p_xstate p; p_sz := p_sz p;
     p_ofile := p_ofile p; p_cwd := p_cwd p |}.
Definition with_killed (v : Z) (p : PCB) : PCB :=
  {| p_state := p_state p; p_pid := p_pid p; p_pagetable := p_pagetable p; p_context := p_context p;
     p_kstack := p_kstack p; p_trapframe := p_trapframe p; p_name := p_name p; p_killed := v;
     p_parent := p_parent p; p_chan := p_chan p; p_xstate := p_xstate p; p_sz := p_sz p;
     p_ofile := p_ofile p; p_cwd := p_cwd p |}.
Definition with_trapframe (v : Z) (p : PCB) : PCB :=
  {| p_state := p_state p; p_pid := p_pid p; p_pagetable := p_pagetable p; p_context := p_context p;
     p_kstack := p_kstack p; p_trapframe := v; p_name := p_name p; p_killed := p_killed p;
     p_parent := p_parent p; p_chan := p_chan p; p_xstate := p_xstate p; p_sz := p_sz p;
     p_ofile := p_ofile p; p_cwd := p_cwd p |}.
Definition with_pagetable (v : Z) (p : PCB) : PCB :=
  {| p_state := p_state p; p_pid := p_pid p; p_pagetable := v; p_context := p_context p;
     p_kstack := p_kstack p; p_trapframe := p_trapframe p; p_name := p_name p; p_killed := p_killed p;
     p_parent := p_parent p; p_chan := p_chan p; p_xstate := p_xstate p; p_sz := p_sz p;
     p_ofile := p_ofile p; p_cwd := p_cwd p |}.
Definition with_context (v : context) (p : PCB) : PCB :=
  {| p_state := p_state p; p_pid := p_pid p; p_pagetable := p_pagetable p; p_context := v;
     p_kstack := p_kstack p; p_trapframe := p_trapframe p; p_name := p_name p; p_killed := p_killed p;
     p_parent := p_parent p; p_chan := p_chan p; p_xstate := p_xstate p; p_sz := p_sz p;
     p_ofile := p_ofile p; p_cwd := p_cwd p |}.
Definition with_kstack (v : Z) (p : PCB) : PCB :=
  {| p_state := p_state p; p_pid := p_pid p; p_pagetable := p_pagetable p; p_context := p_context p;
     p_kstack := v; p_trapframe := p_trapframe p; p_name := p_name p; p_killed := p_killed p;
     p_parent := p_parent p; p_chan := p_chan p; p_xstate := p_xstate p; p_sz := p_sz p;
     p_ofile := p_ofile p; p_cwd := p_cwd p |}.
Definition with_name (v : list Z) (p : PCB) : PCB :=
  {| p_state := p_state p; p_pid := p_pid p; p_pagetable := p_pagetable p; p_context := p_context p;
     p_kstack := p_kstack p; p_trapframe := p_trapframe p; p_name := v; p_killed := p_killed p;
     p_parent := p_parent p; p_chan := p_chan p; p_xstate := p_xstate p; p_sz := p_sz p;
     p_ofile := p_ofile p; p_cwd := p_cwd p |}.
Definition with_parent (v : option nat) (p : PCB) : PCB :=
  {| p_state := p_state p; p_pid := p_pid p; p_pagetable := p_pagetable p; p_context := p_context p;
     p_kstack := p_kstack p; p_trapframe := p_trapframe p; p_name := p_name p; p_killed := p_killed p;
     p_parent := v; p_chan := p_chan p; p_xstate := p_xstate p; p_sz := p_sz p;
     p_ofile := p_ofile p; p_cwd := p_cwd p |}.
Definition with_xstate (v : Z) (p : PCB) : PCB :=
  {| p_state := p_state p; p_pid := p_pid p; p_pagetable := p_pagetable p; p_context := p_context p;
     p_kstack := p_kstack p; p_trapframe := p_trapframe p; p_name := p_name p; p_killed := p_killed p;
     p_parent := p_parent p; p_chan := p_chan p; p_xstate := v; p_sz := p_sz p;
     p_ofile := p_ofile p; p_cwd := p_cwd p |}.
Definition with_sz (v : Z) (p : PCB) : PCB :=
  {| p_state := p_state p; p_pid := p_pid p; p_pagetable := p_pagetable p; p_context := p_context p;
     p_kstack := p_kstack p; p_trapframe := p_trapframe p; p_name := p_name p; p_killed := p_killed p;
     p_parent := p_parent p; p_chan := p_chan p; p_xstate := p_xstate p; p_sz := v;
     p_ofile := p_ofile p; p_cwd := p_cwd p |}.
Definition with_ofile (fd : nat) (v : option nat) (p : PCB) : PCB :=
  {| p_state := p_state p; p_pid := p_pid p; p_pagetable := p_pagetable p; p_context := p_context p;
     p_kstack := p_kstack p; p_trapframe := p_trapframe p; p_name := p_name p; p_killed := p_killed p;
     p_parent := p_parent p; p_chan := p_chan p; p_xstate := p_xstate p; p_sz := p_sz p;
     p_ofile := <[fd := v]> (p_ofile p); p_cwd := p_cwd p |}.
Definition with_cwd (v : option nat) (p : PCB) : PCB :=
  {| p_state := p_state p; p_pid := p_pid p; p_pagetable := p_pagetable p; p_context := p_context p;
     p_kstack := p_kstack p; p_trapframe := p_trapframe p; p_name := p_name p; p_killed := p_killed p;
     p_parent := p_parent p; p_chan := p_chan p; p_xstate := p_xstate p; p_sz := p_sz p;
     p_ofile := p_ofile p; p_cwd := v |}.

Definition set_proc (i : nat) (f : PCB -> PCB) : KM unit := modify (upd_proc i f).
Definition pget {A} (i : nat) (f : PCB -> A) : KM A := proc_get (Some i) f.

(** Offsets in struct trapframe. *)
Definition TF_epc : Z := 24.
Definition TF_sp : Z := 48.
Definition TF_a0 : Z := 112.
Definition sizeof_trapframe : Z := 288.

(** ** Killing *)

Definition setkilled (i : nat) : KM unit :=
  do! acquire (L_proc i);
  do! set_proc i (with_killed 1);
  release (L_proc i).

Definition killed (i : nat) : KM Z :=
  do! acquire (L_proc i);
  let! k := pget i p_killed in
  do! release (L_proc i);
  ret k.

Fixpoint kkill_loop (procs : list nat) (pid : Z) : KM Z :=
  match procs with
  | [] => ret (-1)
  | i :: procs' =>
      do! acquire (L_proc i);
      let! q := pget i p_pid in
      if q =? pid then
        do! set_proc i (with_killed 1);
        let! st := pget i p_state in
        do! (when! bool_decide (st = SLEEPING) then set_proc i (with_state RUNNABLE));
        do! release (L_proc i);
        ret 0
      else
        do! release (L_proc i);
        kkill_loop procs' pid
  end.

Definition kkill (pid : Z) : KM Z := kkill_loop (seq 0 (Z.to_nat NPROC)) pid.

(** ** The table *)

Definition procinit : KM unit :=
  do! initlock L_pid "nextpid";
  do! initlock L_wait "wait_lock";
  foreach (seq 0 (Z.to_nat NPROC)) (fun i =>
    do! initlock (L_proc i) "proc";
    do! set_proc i (with_state UNUSED);
    set_proc i (with_kstack (KSTACK (Z.of_nat i)))).

Definition allocpid : KM Z :=
  do! acquire L_pid;
  let! pid := get k_nextpid in
  do! modify (set_nextpid (s32 (pid + 1)));
  do! release L_pid;
  ret pid.

(** The body of the scheduler's inner loop up to the switch to process [i], which
    runs holding [i]'s lock; [false] when there is nothing to run. *)
Definition scheduler_try (i : nat) : KM bool :=
  do! acquire (L_proc i);
  let! st := pget i p_state in
  if decide (st = RUNNABLE) then
    do! set_proc i (with_state RUNNING);
    let! c := mycpu in
    do! modify (set_cpu {| c_proc := Some i; c_noff := c_noff c; c_intena := c_intena c |});
    ret true
  else
    do! release (L_proc i);
    ret false.

(** The rest of the body, when the process has switched back. *)
Definition scheduler_back (i : nat) : KM unit :=
  let! c := mycpu in
  do! modify (set_cpu {| c_proc := None; c_noff := c_noff c; c_intena := c_intena c |});
  release (L_proc i).

(** wakeup with a null channel. *)
Definition wakeup_null : KM unit :=
  foreach (seq 0 (Z.to_nat NPROC)) (fun i =>
    let! me := myproc in
    if decide (me = Some i) then ret tt
    else
      do! acquire (L_proc i);
      let! st := pget i p_state in
      let! c := pget i p_chan in
      do! (when! bool_decide (st = SLEEPING) && bool_decide (c = None) then
             set_proc i (with_state RUNNABLE));
      release (L_proc i)).

Definition wakeup_proc (p : option nat) : KM unit :=
  match p with Some i => wakeup (Ch_proc i) | None => wakeup_null end.

Section Routines.
Context `{Layout}.
Context (virtio_disk_rw : nat -> Z -> KM unit) (kalloc : KM Z) (kfree : Z -> KM unit).
Context (buf_addr : nat -> Z) (stack : Z).
(** The addresses of forkret and of the [xstate] of each process. *)
Context (forkret_addr : Z) (xstate_addr : nat -> Z).
Abbreviation iput := (iput virtio_disk_rw).
Abbreviation namei := (namei virtio_disk_rw kalloc kfree buf_addr stack).
Abbreviation end_op := (end_op virtio_disk_rw).
Abbreviation fileclose := (fileclose virtio_disk_rw).
Abbreviation procPagetable := (procPagetable kalloc kfree).
Abbreviation uFreeUserVM := (uFreeUserVM kalloc kfree).
Abbreviation copyout := (copyout kalloc kfree).
Abbreviation uvmcopy := (uvmcopy kalloc kfree).

Definition uFreeProc (i : nat) : KM unit :=
  let! tf := pget i p_trapframe in
  do! (when! negb (tf =? 0) then kfree tf);
  do! set_proc i (with_trapframe 0);
  let! t := pget i p_pagetable in
  let! sz := pget i p_sz in
  do! (when! negb (t =? 0) then uFreeUserVM t sz);
  do! set_proc i (with_pagetable 0);
  do! set_proc i (with_sz 0);
  do! set_proc i (with_pid 0);
  do! set_proc i (with_parent None);
  do! set_proc i (fun p => with_name (<[O := 0]> (p_name p)) p);
  do! set_proc i (with_killed 0);
  do! set_proc i (with_xstate 0);
  do! set_proc i (with_chan None);
  set_proc i (with_state UNUSED).

(** The first loop of allocproc: the process found, with its lock held. *)
Fixpoint find_unused (procs : list nat) : KM (option nat) :=
  match procs with
  | [] => ret None
  | i :: procs' =>
      do! acquire (L_proc i);
      let! st := pget i p_state in
      if decide (st = UNUSED) then ret (Some i)
      else
        do! release (L_proc i);
        find_unused procs'
  end.

Definition alloc_failed (i : nat) : KM (option nat) :=
  do! uFreeProc i;
  do! release (L_proc i);
  ret None.

Definition allocproc : KM (option nat) :=
  let! found := find_unused (seq 0 (Z.to_nat NPROC)) in
  match found with
  | None => ret None
  | Some i =>
      let! pid := allocpid in
      do! set_proc i (with_pid pid);
      do! set_proc i (with_state USED);
      let! tf := kalloc in
      do! set_proc i (with_trapframe tf);
      if tf =? 0 then alloc_failed i
      else
        let! t := procPagetable tf in
        do! set_proc i (with_pagetable t);
        if t =? 0 then alloc_failed i
        else
          let! ks := pget i p_kstack in
          do! set_proc i (with_context {| ctx_ra := forkret_addr; ctx_sp := u64 (ks + PGSIZE);
                                          ctx_s := replicate 12 0 |});
          ret (Some i)
  end.

Definition userinit : KM unit :=
  let! p := allocproc in
  do! modify (set_initproc p);
  let! i := the_proc p in
  let! cwd := namei [47] in
  do! set_proc i (with_cwd cwd);
  do! set_proc i (with_state RUNNABLE);
  release (L_proc i).

(** ** exit and wait *)

Definition reparent (i : nat) : KM unit :=
  foreach (seq 0 (Z.to_nat NPROC)) (fun q =>
    let! par := pget q p_parent in
    if decide (par = Some i) then
      let! ip := get k_initproc in
      do! set_proc q (with_parent ip);
      wakeup_proc ip
    else ret tt).

Definition kexit (status : Z) : KM unit :=
  let! me := myproc in
  let! p := the_proc me in
  do! foreach (seq 0 (Z.to_nat NOFILE)) (fun fd =>
        let! files := pget p p_ofile in
        match default None (files !! fd) with
        | Some f =>
            do! fileclose f;
            set_proc p (with_ofile fd None)
        | None => ret tt
        end);
  do! begin_op;
  let! cwd := pget p p_cwd in
  let! ip := file_ip cwd in
  do! iput ip;
  do! end_op;
  do! set_proc p (with_cwd None);
  do! acquire L_wait;
  do! reparent p;
  let! par := pget p p_parent in
  do! wakeup_proc par;
  do! acquire (L_proc p);
  do! set_proc p (with_xstate status);
  do! set_proc p (with_state ZOMBIE);
  do! release L_wait;
  do! sched;
  panic "kexit 不可能出错的出错".

(** The inner loop of kwait: a result to return, or whether there are children. *)
Fixpoint kwait_scan (procs : list nat) (p : nat) (addr : Z) (havekids : bool) : KM (Z + bool) :=
  match procs with
  | [] => ret (inr havekids)
  | q :: procs' =>
      let! par := pget q p_parent in
      if decide (par = Some p) then
        do! acquire (L_proc q);
        let! st := pget q p_state in
        if decide (st = ZOMBIE) then
          let! pid := pget q p_pid in
          let! r := (if addr =? 0 then ret 0
                     else
                       let! t := pget p p_pagetable in
                       let! x := pget q p_xstate in
                       do! modify (fun s => set_mem (store32 (k_mem s) (xstate_addr q) x) s);
                       copyout t addr (xstate_addr q) 4) in
          if r <? 0 then
            do! release (L_proc q);
            do! release L_wait;
            ret (inl (-1))
          else
            do! uFreeProc q;
            do! release (L_proc q);
            do! release L_wait;
            ret (inl pid)
        else
          do! release (L_proc q);
          kwait_scan procs' p addr true
      else kwait_scan procs' p addr havekids
  end.

(** One turn of kwait's outer loop; a parent that sleeps takes it again. *)
Definition kwait_turn (p : nat) (addr : Z) : KM Z :=
  let! r := kwait_scan (seq 0 (Z.to_nat NPROC)) p addr false in
  match r with
  | inl pid => ret pid
  | inr havekids =>
      let! k := (if havekids then killed p else ret 1) in
      if truthy k then
        do! release L_wait;
        ret (-1)
      else
        do! sleep (Ch_proc p) L_wait;
        ret 0
  end.

Definition kwait (addr : Z) : KM Z :=
  let! me := myproc in
  let! p := the_proc me in
  do! acquire L_wait;
  kwait_turn p addr.

(** ** fork *)

Definition my_get {A} (f : PCB -> A) : KM A :=
  let! me := myproc in
  let! p := the_proc me in
  pget p f.

Definition kfork : KM Z :=
  let! np := allocproc in
  match np with
  | None => ret (-1)
  | Some np =>
      let! old := my_get p_pagetable in
      let! new := pget np p_pagetable in
      let! sz := my_get p_sz in
      let! r := uvmcopy old new sz in
      if r <? 0 then
        do! uFreeProc np;
        do! release (L_proc np);
        ret (-1)
      else
        let! sz := my_get p_sz in
        do! set_proc np (with_sz sz);
        let! tf := my_get p_trapframe in
        let! ntf := pget np p_trapframe in
        do! kmemmove ntf tf sizeof_trapframe;
        do! st64 (ntf + TF_a0) 0;
        do! foreach (seq 0 (Z.to_nat NOFILE)) (fun fd =>
              let! files := my_get p_ofile in
              match default None (files !! fd) with
              | Some f =>
                  let! f := filedup f in
                  set_proc np (with_ofile fd (Some f))
              | None => ret tt
              end);
        let! cwd := my_get p_cwd in
        let! c := file_ip cwd in
        let! c := idup c in
        do! set_proc np (with_cwd (Some c));
        let! nm := my_get p_name in
        do! set_proc np (fun q => with_name (lsafestrcpy (p_name q) nm 16) q);
        let! pid := pget np p_pid in
        do! release (L_proc np);
        do! acquire L_wait;
        let! me := myproc in
        do! set_proc np (with_parent me);
        do! release L_wait;
        do! acquire (L_proc np);
        do! set_proc np (with_state RUNNABLE);
        do! release (L_proc np);
        ret pid
  end.

End Routines.
