(* ===== verification/Schedule.v ===== *)
(** * Several harts scheduling the processes (kernel/proc/proc.c)

    Every hart runs scheduler; a process it picked runs on it until it calls
    yield, sleep or exit. Each step of the machine is one critical section on the
    lock of a process, by one hart; the harts take their steps in any order. A hart
    that finds the lock taken spins, which is no step. *)

From S2P Require Import Prelude Mem CString State Spinlock Printf Locks PageAlloc Vm Sleep Critical Bio Bytes Log Fs File Proc.

(** The kernel's data, shared, and the state of each hart. *)
Record smp := { sh : kernel; hs : nat -> hart }.

(** What hart [h] sees, and the machine after it ran to the state [s]. *)
Definition on (h : nat) (m : smp) : kernel := set_hart (hs m h) (sh m).
Definition ran (h : nat) (s : kernel) (m : smp) : smp :=
  {| sh := s; hs := fun k => if decide (k = h) then k_hart s else hs m k |}.

(** The process of a hart, and the state of a process. *)
Definition runs (m : smp) (h : nat) : option nat := c_proc (h_cpu (hs m h)).
Definition state (m : smp) (i : nat) : procstate := p_state (default PCB_zero (k_procs (sh m) !! i)).
Definition noff (m : smp) (h : nat) : Z := c_noff (h_cpu (hs m h)).
Definition free (m : smp) (i : nat) : Prop := lock_free (L_proc i) (sh m).
Definition holds (m : smp) (h i : nat) : Prop := held_by (Z.of_nat h) (L_proc i) (sh m).

(** The rest of yield, when the process runs again. *)
Definition yield_resume (i : nat) (intena : Z) : KM unit :=
  do! sched_resume intena;
  release (L_proc i).

(** sleep_resume up to taking the caller's lock again. *)
Definition sleep_wakes (i : nat) (intena : Z) : KM unit :=
  do! sched_resume intena;
  do! modify (upd_proc i (with_chan None));
  release (L_proc i).

(** The end of kexit, with wait_lock taken. *)
Definition kexit_switch (i : nat) (status : Z) : KM unit :=
  do! acquire L_wait;
  do! acquire (L_proc i);
  do! set_proc i (with_xstate status);
  do! set_proc i (with_state ZOMBIE);
  do! release L_wait;
  sched.

Inductive turn : smp -> smp -> Prop :=
  | T_try m h i b s' : runs m h = None -> (i < 64)%nat -> free m i ->
      scheduler_try i (on h m) = Ok b s' -> turn m (ran h s' m)
  | T_back m h i s' : runs m h = Some i -> holds m h i -> state m i <> RUNNING ->
      scheduler_back i (on h m) = Ok tt s' -> turn m (ran h s' m)
  | T_yield_resume m h i e s' : runs m h = Some i -> holds m h i -> state m i = RUNNING ->
      yield_resume i e (on h m) = Ok tt s' -> turn m (ran h s' m)
  | T_sleep_wakes m h i e s' : runs m h = Some i -> holds m h i -> state m i = RUNNING ->
      sleep_wakes i e (on h m) = Ok tt s' -> turn m (ran h s' m)
  | T_yield m h i s' : runs m h = Some i -> free m i ->
      yield (on h m) = Stop Switch s' -> turn m (ran h s' m)
  | T_sleep m h i ch lk s' : runs m h = Some i -> free m i -> lock_free lk (sh m) -> (forall j, lk <> L_proc j) ->
      (do! acquire lk; sleep ch lk) (on h m) = Stop Switch s' -> turn m (ran h s' m)
  | T_exit m h i status s' : runs m h = Some i -> free m i -> lock_free L_wait (sh m) ->
      kexit_switch i status (on h m) = Stop Switch s' -> turn m (ran h s' m)
  | T_wakeup m h i ch j s' : runs m h = Some i -> free m i -> (j < 64)%nat -> free m j ->
      wake_body ch j (on h m) = Ok tt s' -> turn m (ran h s' m)
  | T_kill m h i pid j r s' : runs m h = Some i -> free m i -> (j < 64)%nat -> free m j ->
      kkill_loop [j] pid (on h m) = Ok r s' -> turn m (ran h s' m).

(** ** The invariant *)

Record inv (m : smp) : Prop := {
  iv_len : length (k_procs (sh m)) = 64%nat;
  iv_tp : forall h, h_tp (hs m h) = Z.of_nat h;
  iv_idle : forall h, runs m h = None -> noff m h = 0;
  iv_busy : forall h i, runs m h = Some i -> (i < 64)%nat /\
    (free m i /\ state m i = RUNNING /\ noff m h = 0 \/ holds m h i /\ noff m h = 1 /\ hart_intr_get (hs m h) = 0);
  iv_lock : forall i, (i < 64)%nat -> free m i \/ exists h, holds m h i /\ runs m h = Some i;
  iv_one : forall h h' i, runs m h = Some i -> runs m h' = Some i -> h = h';
  iv_runs : forall i, (i < 64)%nat -> state m i = RUNNING -> exists h, runs m h = Some i
}.

Lemma free_not_held m h i : free m i -> ~ holds m h i.
Proof. intros [nm E] [nm' E']. congruence. Qed.

Lemma inv_hart_ok m h : inv m -> hart_ok (hs m h).
Proof.
  intros I. unfold hart_ok. destruct (runs m h) as [i|] eqn:E.
  - destruct (iv_busy m I h i E) as [_ [(_ & _ & Hn)|(_ & Hn & Hi)]]; unfold noff in Hn; rewrite Hn; lia.
  - pose proof (iv_idle m I h E) as Hn. unfold noff in Hn. rewrite Hn. lia.
Qed.

Lemma runs_ran h s m k : runs (ran h s m) k = if decide (k = h) then c_proc (h_cpu (k_hart s)) else runs m k.
Proof. unfold runs, ran. cbn. by destruct (decide (k = h)). Qed.
Lemma noff_ran h s m k : noff (ran h s m) k = if decide (k = h) then c_noff (h_cpu (k_hart s)) else noff m k.
Proof. unfold noff, ran. cbn. by destruct (decide (k = h)). Qed.

(** What a step on process [i] leaves alone. *)
Record only (i : nat) (m : smp) (s : kernel) : Prop := {
  on_len : length (k_procs s) = length (k_procs (sh m));
  on_procs : forall j, j <> i -> k_procs s !! j = k_procs (sh m) !! j;
  on_locks : forall j, j <> i -> k_locks s !! L_proc j = k_locks (sh m) !! L_proc j
}.

Lemma only_free i m s h j : only i m s -> j <> i -> free (ran h s m) j <-> free m j.
Proof. intros O Hj. unfold free, lock_free, ran. cbn. by rewrite (on_locks _ _ _ O). Qed.
Lemma only_holds i m s h k j : only i m s -> j <> i -> holds (ran h s m) k j <-> holds m k j.
Proof. intros O Hj. unfold holds, held_by, ran. cbn. by rewrite (on_locks _ _ _ O). Qed.
Lemma only_state i m s h j : only i m s -> j <> i -> state (ran h s m) j = state m j.
Proof. intros O Hj. unfold state, ran. cbn. by rewrite (on_procs _ _ _ O). Qed.

(** A step of hart [h] on the process [i], which no other hart runs. *)
Lemma inv_own m h i s :
  inv m -> (i < 64)%nat -> runs m h = None \/ runs m h = Some i -> (forall k, runs m k = Some i -> k = h) ->
  only i m s -> h_tp (k_hart s) = Z.of_nat h ->
  (c_proc (h_cpu (k_hart s)) = None /\ c_noff (h_cpu (k_hart s)) = 0 /\ free (ran h s m) i /\ state (ran h s m) i <> RUNNING \/
   c_proc (h_cpu (k_hart s)) = Some i /\
     (free (ran h s m) i /\ state (ran h s m) i = RUNNING /\ c_noff (h_cpu (k_hart s)) = 0 \/
      holds (ran h s m) h i /\ c_noff (h_cpu (k_hart s)) = 1 /\ hart_intr_get (k_hart s) = 0)) ->
  inv (ran h s m).
Proof.
  intros [V1 V2 V3 V4 V5 V6 V7] Hi Hme Hone O Htp New.
  assert (forall k j, k <> h -> runs m k = Some j -> j <> i) as Hother by (intros k j Hk E ->; by apply Hk, Hone).
  assert (forall j, runs m h = Some j -> j = i) as Hmine by (intros j E; destruct Hme; congruence).
  assert (hs (ran h s m) h = k_hart s) as Eh by (unfold ran; cbn; by rewrite decide_True).
  split.
  - unfold ran. cbn. by rewrite (on_len _ _ _ O).
  - intros k. unfold ran. cbn. by destruct (decide (k = h)) as [->|].
  - intros k. rewrite runs_ran, noff_ran. destruct (decide (k = h)) as [->|]; [|apply V3].
    intros E. destruct New as [(_ & Hn & _)|[E' _]]; [done|congruence].
  - intros k j. rewrite runs_ran, noff_ran. destruct (decide (k = h)) as [->|Hk].
    + intros E. rewrite Eh. destruct New as [[E' _]|[E' N]]; [congruence|]. rewrite E in E'. injection E' as ->. done.
    + intros E. pose proof (Hother k j Hk E) as Hj. rewrite (only_free i), (only_holds i), (only_state i) by done.
      unfold ran. cbn. rewrite (decide_False (P := k = h)) by done. by apply V4.
  - intros j Hj. destruct (decide (j = i)) as [->|Hne].
    + destruct New as [(_ & _ & F & _)|[E [[F _]|[Hh _]]]]; [by left..|]. right. exists h.
      rewrite runs_ran, decide_True by done. done.
    + rewrite (only_free i) by done. destruct (V5 j Hj) as [F|(k & Hk & E)]; [by left|]. right. exists k.
      rewrite (only_holds i), runs_ran by done. rewrite decide_False; [done|]. intros ->. by apply Hne, Hmine.
  - intros k k' j. rewrite !runs_ran. destruct (decide (k = h)) as [->|Hk], (decide (k' = h)) as [->|Hk']; try done.
    + intros E E'. destruct New as [[N _]|[N _]]; [congruence|]. rewrite N in E. injection E as <-. symmetry. by apply Hone.
    + intros E E'. destruct New as [[N _]|[N _]]; [congruence|]. rewrite N in E'. injection E' as <-. by apply Hone.
    + apply V6.
  - intros j Hj. destruct (decide (j = i)) as [->|Hne].
    + intros E. destruct New as [(_ & _ & _ & N)|[N _]]; [done|]. exists h. by rewrite runs_ran, decide_True.
    + rewrite (only_state i) by done. intros E. destruct (V7 j Hj E) as [k Ek]. exists k. rewrite runs_ran, decide_False; [done|].
      intros ->. by apply Hne, Hmine.
Qed.

(** A step of hart [h] that changes data of process [j], but not whether it runs. *)
Lemma inv_touch m h j s :
  inv m -> (j < 64)%nat -> only j m s -> k_locks s !! L_proc j = k_locks (sh m) !! L_proc j -> noff m h = 0 ->
  (state (ran h s m) j = RUNNING <-> state m j = RUNNING) -> h_tp (k_hart s) = Z.of_nat h ->
  c_proc (h_cpu (k_hart s)) = runs m h -> c_noff (h_cpu (k_hart s)) = 0 -> inv (ran h s m).
Proof.
  intros [V1 V2 V3 V4 V5 V6 V7] Hj O Hl H0 Hst Htp Hp Hn.
  assert (forall k, runs (ran h s m) k = runs m k) as Hr by (intros k; rewrite runs_ran; by destruct (decide (k = h)) as [->|]).
  assert (forall k, noff (ran h s m) k = noff m k) as Hno
    by (intros k; rewrite noff_ran; destruct (decide (k = h)) as [->|]; [by rewrite H0|done]).
  assert (forall i, free (ran h s m) i <-> free m i) as Hf.
  { intros i. destruct (decide (i = j)) as [->|Hne]; [|by apply (only_free j)]. unfold free, lock_free, ran. cbn. by rewrite Hl. }
  assert (forall k i, holds (ran h s m) k i <-> holds m k i) as Hh.
  { intros k i. destruct (decide (i = j)) as [->|Hne]; [|by apply (only_holds j)]. unfold holds, held_by, ran. cbn. by rewrite Hl. }
  assert (forall i, state (ran h s m) i = RUNNING <-> state m i = RUNNING) as Hs.
  { intros i. destruct (decide (i = j)) as [->|Hne]; [done|]. by rewrite (only_state j). }
  split.
  - unfold ran. cbn. by rewrite (on_len _ _ _ O).
  - intros k. unfold ran. cbn. by destruct (decide (k = h)) as [->|].
  - intros k. rewrite Hr, Hno. apply V3.
  - intros k i. rewrite Hr, Hno, Hf, Hh, Hs. intros E. destruct (V4 k i E) as [V8 V9]. split; [done|].
    destruct V9 as [?|(? & V10 & V11)]; [by left|]. right. split; [done|]. split; [done|].
    unfold ran. cbn. destruct (decide (k = h)) as [->|]; [|done]. lia.
  - intros i Hi. rewrite Hf. destruct (V5 i Hi) as [?|(k & ? & ?)]; [by left|]. right. exists k. by rewrite Hh, Hr.
  - intros k k' i. rewrite !Hr. apply V6.
  - intros i Hi. rewrite Hs. intros E. destruct (V7 i Hi E) as [k ?]. exists k. by rewrite Hr.
Qed.

(** ** What the steps do *)

(** release of a lock held at depth 1. *)
Lemma release_held l nm s :
  k_locks s !! l = Some {| lk_locked := 1; lk_name := nm; lk_cpu := Some (h_tp (k_hart s)) |} ->
  c_noff (h_cpu (k_hart s)) = 1 -> hart_intr_get (k_hart s) = 0 ->
  exists h', release l s = Ok tt (set_lock l (unlocked nm) (set_hart h' s)) /\
    h_tp h' = h_tp (k_hart s) /\ c_proc (h_cpu h') = c_proc (h_cpu (k_hart s)) /\ c_noff (h_cpu h') = 0.
Proof.
  intros Hl Hn Hi.
  assert (lock_of s l = {| lk_locked := 1; lk_name := nm; lk_cpu := Some (h_tp (k_hart s)) |}) as Hs
    by (unfold lock_of; by rewrite Hl).
  unfold release, release_core, bind, holding, get, is_held, modify. rewrite Hs. cbn.
  rewrite bool_decide_true by done. cbn. rewrite lock_of_set_lock, set_lock_set_lock. cbn.
  unfold pop_off, bind, intr_get, mycpu, get, modify. cbn. rewrite Hi. cbn. rewrite Hn, Hs. change (s32 (1 - 1)) with 0. cbn.
  destruct (truthy (c_intena (h_cpu (k_hart s)))); cbn.
  - eexists. split; [reflexivity|]. done.
  - eexists. split; [reflexivity|]. done.
Qed.

Lemma pget_ok {A} i p (f : PCB -> A) s : k_procs s !! i = Some p -> pget i f s = Ok (f p) s.
Proof. intros Hp. unfold pget, proc_get, bind, get. by rewrite Hp. Qed.

(** The process [i] picked: its lock stays held. *)
Definition dispatched (i : nat) (s : kernel) : kernel :=
  set_cpu {| c_proc := Some i; c_noff := c_noff (h_cpu (hart_push (k_hart s))); c_intena := c_intena (h_cpu (hart_push (k_hart s))) |}
    (upd_proc i (with_state RUNNING) (locked (L_proc i) s)).

Lemma scheduler_try_ok i p s :
  hart_ok (k_hart s) -> lock_free (L_proc i) s -> k_procs s !! i = Some p ->
  scheduler_try i s = if decide (p_state p = RUNNABLE) then Ok true (dispatched i s) else Ok false (settle s).
Proof.
  intros Hh Hl Hp. unfold scheduler_try. rewrite (bind_ok _ _ _ _ _ (acquire_ok (L_proc i) s Hl Hh)).
  rewrite (bind_ok _ _ _ _ _ (pget_ok i p p_state (locked (L_proc i) s) Hp)).
  destruct (decide (p_state p = RUNNABLE)); [done|]. by rewrite (bind_ok _ _ _ _ _ (release_locked (L_proc i) s Hl Hh)).
Qed.

Lemma yield_ok i p s :
  hart_ok (k_hart s) -> me_of s = Some i -> k_procs s !! i = Some p -> lock_free (L_proc i) s ->
  c_noff (h_cpu (k_hart s)) = 0 -> yield s = Stop Switch (upd_proc i (with_state RUNNABLE) (locked (L_proc i) s)).
Proof.
  intros Hh Hme Hp Hl Hz. unfold yield. unfold bind at 1, mycpu, get at 1.
  replace (c_proc (h_cpu (k_hart s))) with (Some i) by (symmetry; exact Hme). unfold the_proc. unfold bind at 1, ret at 1.
  rewrite (bind_ok _ _ _ _ _ (acquire_ok (L_proc i) s Hl Hh)). unfold bind, modify.
  apply (sched_switches i (with_state RUNNABLE p)); [done| | | | |done].
  - destruct (held_locked (L_proc i) s) as [nm E]. by exists nm.
  - cbn. by rewrite Hz.
  - apply hart_push_intr.
  - cbn. by rewrite list_lookup_alter_eq, Hp.
Qed.

Definition exited (status : Z) (p : PCB) : PCB := with_state ZOMBIE (with_xstate status p).

Lemma kexit_switch_ok i p status s :
  hart_ok (k_hart s) -> me_of s = Some i -> k_procs s !! i = Some p -> lock_free (L_proc i) s -> lock_free L_wait s ->
  c_noff (h_cpu (k_hart s)) = 0 ->
  kexit_switch i status s = Stop Switch (upd_proc i (exited status) (locked (L_proc i) s)).
Proof.
  intros Hh Hme Hp Hl Hw Hz. unfold kexit_switch. rewrite (bind_ok _ _ _ _ _ (acquire_ok L_wait s Hw Hh)).
  assert (hart_ok (k_hart (locked (L_proc i) s))) as Hh1 by (apply hart_push_ok; [done|lia]).
  assert (hart_ok (k_hart (locked L_wait s))) as Hh2 by (apply hart_push_ok; [done|lia]).
  rewrite (bind_ok _ _ _ _ _ (acquire_ok (L_proc i) (locked L_wait s) (free_locked (L_proc i) L_wait s ltac:(done) Hl) Hh2)).
  rewrite locked_comm by done. unfold set_proc. unfold bind at 1, modify at 1. unfold bind at 1, modify at 1.
  assert (upd_proc i (with_state ZOMBIE) (upd_proc i (with_xstate status) (locked L_wait (locked (L_proc i) s))) =
          upd_proc i (exited status) (locked L_wait (locked (L_proc i) s))) as ->
    by (unfold upd_proc; cbn; by rewrite list_alter_alter_eq).
  rewrite (bind_ok _ _ _ _ _ (release_private L_wait (upd_proc i (exited status)) (locked (L_proc i) s) ltac:(by split)
             (free_locked L_wait (L_proc i) s ltac:(done) Hw) Hh1)).
  rewrite settle_locked by done. apply (sched_switches i (exited status p)); [done| | | | |done].
  - destruct (held_locked (L_proc i) s) as [nm E]. by exists nm.
  - cbn. by rewrite Hz.
  - apply hart_push_intr.
  - cbn. by rewrite list_lookup_alter_eq, Hp.
Qed.

Definition kill1 (p : PCB) : PCB :=
  if decide (p_state p = SLEEPING) then with_state RUNNABLE (with_killed 1 p) else with_killed 1 p.

Lemma kkill_step j p pid procs s :
  hart_ok (k_hart s) -> k_procs s !! j = Some p -> lock_free (L_proc j) s ->
  kkill_loop (j :: procs) pid s =
    if p_pid p =? pid then Ok 0 (upd_proc j kill1 (settle s)) else kkill_loop procs pid (settle s).
Proof.
  intros Hh Hp Hl. cbn [kkill_loop]. rewrite (bind_ok _ _ _ _ _ (acquire_ok (L_proc j) s Hl Hh)).
  rewrite (bind_ok _ _ _ _ _ (pget_ok j p p_pid (locked (L_proc j) s) Hp)).
  destruct (p_pid p =? pid); [|by rewrite (bind_ok _ _ _ _ _ (release_locked (L_proc j) s Hl Hh))].
  unfold set_proc. rewrite (bind_ok _ _ _ _ _ (modify_locked (L_proc j) (upd_proc j (with_killed 1)) s ltac:(by split))).
  assert (k_procs (upd_proc j (with_killed 1) s) !! j = Some (with_killed 1 p)) as Hp1 by (cbn; by rewrite list_lookup_alter_eq, Hp).
  rewrite (bind_ok _ _ _ _ _ (pget_ok j _ p_state (locked (L_proc j) (upd_proc j (with_killed 1) s)) Hp1)).
  cbn [with_killed p_state].
  assert (forall f, f p = kill1 p -> upd_proc j f (settle s) = upd_proc j kill1 (settle s)) as Hext
    by (intros f Hf; by apply (upd_proc_ext j _ _ _ p)).
  destruct (decide (p_state p = SLEEPING)) as [E|E].
  - rewrite bool_decide_true by done.
    rewrite (bind_ok _ _ _ _ _ (modify_locked (L_proc j) (upd_proc j (with_state RUNNABLE)) _ ltac:(by split))).
    rewrite (bind_ok _ _ _ _ _ (release_locked (L_proc j) (upd_proc j (with_state RUNNABLE) (upd_proc j (with_killed 1) s)) Hl Hh)).
    unfold ret. f_equal. rewrite <- (Hext (with_state RUNNABLE ∘ with_killed 1)) by (unfold kill1; by rewrite decide_True).
    unfold settle, upd_proc. cbn. by rewrite list_alter_alter_eq.
  - rewrite bool_decide_false by done. unfold bind at 1, ret at 1.
    rewrite (bind_ok _ _ _ _ _ (release_locked (L_proc j) (upd_proc j (with_killed 1) s) Hl Hh)).
    unfold ret. f_equal. rewrite <- (Hext (with_killed 1)) by (unfold kill1; by rewrite decide_False). done.
Qed.

(** ** Every step keeps the invariant *)

Lemma proc_at m i : inv m -> (i < 64)%nat -> exists p, k_procs (sh m) !! i = Some p /\ state m i = p_state p.
Proof.
  intros I Hi. destruct (lookup_lt_is_Some_2 (k_procs (sh m)) i) as [p Hp]; [rewrite (iv_len m I); lia|].
  exists p. unfold state. by rewrite Hp.
Qed.

Lemma busy_free m h i : inv m -> runs m h = Some i -> free m i -> state m i = RUNNING /\ noff m h = 0 /\ (i < 64)%nat.
Proof.
  intros I E F. destruct (iv_busy m I h i E) as [Hi [(_ & S & N)|(Hh & _)]]; [done|]. by apply free_not_held in Hh.
Qed.

Lemma busy_held m h i :
  inv m -> runs m h = Some i -> holds m h i -> noff m h = 1 /\ hart_intr_get (hs m h) = 0 /\ (i < 64)%nat.
Proof.
  intros I E F. destruct (iv_busy m I h i E) as [Hi [(Hf & _)|(_ & N & G)]]; [|done]. by apply (free_not_held m h i) in Hf.
Qed.

(** Taking the lock of process [i] and keeping it. *)
Lemma inv_take m h i f p c :
  inv m -> k_procs (sh m) !! i = Some p -> (i < 64)%nat -> runs m h = None \/ runs m h = Some i ->
  (forall k, runs m k = Some i -> k = h) -> noff m h = 0 ->
  c_proc c = Some i -> c_noff c = 1 ->
  inv (ran h (set_cpu c (upd_proc i f (locked (L_proc i) (on h m)))) m).
Proof.
  intros I Hp Hi Hme Hone Hn Hc1 Hc2. apply (inv_own m h i); try done.
  - split; [cbn; by rewrite length_alter|intros j Hj; cbn; by rewrite list_lookup_alter_ne|].
    intros j Hj. unfold locked, set_lock. cbn. by rewrite lookup_insert_ne by congruence.
  - exact (iv_tp m I h).
  - right. split; [done|]. right. split; [|split; [done|]].
    + eexists. unfold locked, set_lock. cbn. rewrite lookup_insert_eq, (iv_tp m I h). reflexivity.
    + change (hart_intr_get (hart_push (hs m h)) = 0). apply hart_push_intr.
Qed.

(** Giving the lock back, by the hart that holds it. *)
Lemma inv_give m h i s f c s' :
  inv m -> runs m h = Some i -> holds m h i ->
  s = set_cpu c (upd_proc i f (on h m)) -> c_noff c = noff m h -> release (L_proc i) s = Ok tt s' ->
  (c_proc c = None /\ p_state (f (default PCB_zero (k_procs (sh m) !! i))) <> RUNNING \/
   c_proc c = Some i /\ p_state (f (default PCB_zero (k_procs (sh m) !! i))) = RUNNING) ->
  inv (ran h s' m).
Proof.
  intros I E Hh -> Hc Er New. destruct (busy_held m h i I E Hh) as (N & G & Hi).
  destruct (proc_at m i I Hi) as (p & Hp & _). rewrite Hp in New. cbn in New.
  destruct Hh as [nm Hl]. pose proof (iv_tp m I h) as Htp.
  destruct (release_held (L_proc i) nm (set_cpu c (upd_proc i f (on h m)))) as (h' & Er' & R1 & R2 & R3);
    [cbn; by rewrite Htp|cbn; by rewrite Hc|exact G|].
  rewrite Er in Er'. injection Er' as ->. cbn in R1, R2.
  assert (free (ran h (set_lock (L_proc i) (unlocked nm) (set_hart h' (set_cpu c (upd_proc i f (on h m))))) m) i) as Hf
    by (exists nm; unfold set_lock; cbn; by rewrite lookup_insert_eq).
  apply (inv_own m h i); try done; [by right|intros k Ek; by apply (iv_one m I k h i)| | |].
  - split; [cbn; by rewrite length_alter|intros j Hj; cbn; by rewrite list_lookup_alter_ne|].
    intros j Hj. unfold set_lock. cbn. by rewrite lookup_insert_ne by congruence.
  - cbn. by rewrite R1, Htp.
  - assert (state (ran h (set_lock (L_proc i) (unlocked nm) (set_hart h' (set_cpu c (upd_proc i f (on h m))))) m) i = p_state (f p)) as ->
      by (unfold state; cbn; by rewrite list_lookup_alter_eq, Hp).
    cbn [k_hart set_lock set_locks set_hart h_cpu]. rewrite R2, R3. destruct New as [[Q1 Q2]|[Q1 Q2]]; [left|right]; [done|].
    split; [done|]. by left.
Qed.

Lemma set_cpu_id s : set_cpu (h_cpu (k_hart s)) s = s.
Proof. by destruct s as [[]]. Qed.

Lemma upd_proc_self i s : upd_proc i (fun p => p) s = s.
Proof. unfold upd_proc. rewrite list_alter_id by done. by destruct s. Qed.

(** A process that leaves its hart. *)
Lemma inv_leave m h i p f :
  inv m -> runs m h = Some i -> free m i -> k_procs (sh m) !! i = Some p ->
  inv (ran h (upd_proc i f (locked (L_proc i) (on h m))) m).
Proof.
  intros I E F Hp. destruct (busy_free m h i I E F) as (_ & N & Hi).
  rewrite <- (set_cpu_id (upd_proc i f (locked (L_proc i) (on h m)))). apply (inv_take m h i f p); try done; [by right|intros k Ek; by apply (iv_one m I k h i)|].
  cbn. unfold noff in N. by rewrite N.
Qed.

(** A step that changes the process [j] in a balanced section. *)
Lemma inv_section m h j p f :
  inv m -> (j < 64)%nat -> noff m h = 0 -> k_procs (sh m) !! j = Some p ->
  (p_state (f p) = RUNNING <-> p_state p = RUNNING) -> inv (ran h (upd_proc j f (settle (on h m))) m).
Proof.
  intros I Hj N Hp Hst. unfold noff in N. apply (inv_touch m h j); try done.
  - split; [cbn; by rewrite length_alter|intros k Hk; cbn; by rewrite list_lookup_alter_ne|done].
  - unfold state. cbn. by rewrite list_lookup_alter_eq, Hp.
  - cbn. unfold hart_settle. rewrite N. exact (iv_tp m I h).
  - cbn. by rewrite hart_settle_proc.
  - cbn. by rewrite hart_settle_noff.
Qed.

Lemma kill1_state p : p_state (kill1 p) = RUNNING <-> p_state p = RUNNING.
Proof. unfold kill1. destruct (decide (p_state p = SLEEPING)) as [->|]; done. Qed.

Lemma wake1_state ch me j p : p_state (wake1 ch me j p) = RUNNING <-> p_state p = RUNNING.
Proof.
  unfold wake1. destruct (decide (me = Some j)); [done|]. destruct (wakes ch p) eqn:E; [|done].
  unfold wakes in E. apply andb_true_iff in E as [E _]. apply bool_decide_eq_true in E. by rewrite E.
Qed.

Lemma inv_settled m h j : inv m -> (j < 64)%nat -> noff m h = 0 -> inv (ran h (settle (on h m)) m).
Proof.
  intros I Hj N. destruct (proc_at m j I Hj) as (p & Hp & _).
  rewrite <- (upd_proc_self j (settle (on h m))). by apply (inv_section m h j p).
Qed.

Lemma inv_turn m m' : inv m -> turn m m' -> inv m'.
Proof.
  intros I T. destruct T as [m h i b s' E Hi F Er|m h i s' E Hh St Er|m h i e s' E Hh St Er|m h i e s' E Hh St Er|
    m h i s' E F Er|m h i ch lk s' E F Fl Hlk Er|m h i st s' E F Fw Er|m h i ch j s' E F Hj Fj Er|m h i pid j r s' E F Hj Fj Er];
    pose proof (inv_hart_ok m h I) as Hok.
  - destruct (proc_at m i I Hi) as (p & Hp & St). pose proof (iv_idle m I h E) as N.
    rewrite (scheduler_try_ok i p (on h m) Hok F Hp) in Er. destruct (decide (p_state p = RUNNABLE)) as [Hr|Hr]; injection Er as <- <-.
    + apply (inv_take m h i _ p); try done; [by left| |cbn; unfold noff in N; by rewrite N].
      intros k Ek. destruct (busy_free m k i I Ek F) as (Hrun & _). rewrite St, Hr in Hrun. done.
    + by apply (inv_settled m h i).
  - unfold scheduler_back, bind, mycpu, get, modify in Er.
    apply (inv_give m h i _ (fun p => p) {| c_proc := None; c_noff := noff m h; c_intena := c_intena (h_cpu (hs m h)) |} s' I E Hh) in Er;
      [done|by rewrite upd_proc_self|done|]. left. by split.
  - unfold yield_resume, sched_resume, bind, modify in Er.
    apply (inv_give m h i _ (fun p => p) {| c_proc := runs m h; c_noff := noff m h; c_intena := e |} s' I E Hh) in Er;
      [done|by rewrite upd_proc_self|done|]. right. by split.
  - unfold sleep_wakes, sched_resume, bind, modify in Er.
    apply (inv_give m h i _ (with_chan None) {| c_proc := runs m h; c_noff := noff m h; c_intena := e |} s' I E Hh) in Er; [done|done|done|].
    right. by split.
  - destruct (busy_free m h i I E F) as (_ & N & Hi). destruct (proc_at m i I Hi) as (p & Hp & _).
    rewrite (yield_ok i p (on h m) Hok E Hp F N) in Er. injection Er as <-. by apply (inv_leave m h i p).
  - destruct (busy_free m h i I E F) as (_ & N & Hi). destruct (proc_at m i I Hi) as (p & Hp & _).
    rewrite (bind_ok _ _ _ _ _ (acquire_ok lk (on h m) Fl Hok)) in Er.
    rewrite (sleep_switches ch lk i p (on h m)) in Er; try done.
    + injection Er as <-. by apply (inv_leave m h i p).
    + split; [exact Hok|]. change (noff m h < 2 ^ 30 - 16). rewrite N. lia.
  - destruct (busy_free m h i I E F) as (_ & N & Hi). destruct (proc_at m i I Hi) as (p & Hp & _).
    rewrite (kexit_switch_ok i p st (on h m) Hok E Hp F Fw N) in Er. injection Er as <-. by apply (inv_leave m h i p).
  - destruct (busy_free m h i I E F) as (_ & N & _). destruct (proc_at m j I Hj) as (p & Hp & _).
    rewrite (wake_body_ok ch j (on h m) p Hok Fj Hp) in Er. injection Er as <-. apply (inv_section m h j p); try done. apply wake1_state.
  - destruct (busy_free m h i I E F) as (_ & N & _). destruct (proc_at m j I Hj) as (p & Hp & _).
    rewrite (kkill_step j p pid [] (on h m) Hok Hp Fj) in Er. destruct (p_pid p =? pid).
    + injection Er as <- <-. apply (inv_section m h j p); try done. apply kill1_state.
    + injection Er as <- <-. by apply (inv_settled m h j).
Qed.

(** ** A hart can always get back to the scheduler *)

Definition same_at (j : nat) (m m' : smp) : Prop :=
  state m' j = state m j /\ (free m j -> free m' j).

Lemma same_at_only i m s h j : only i m s -> j <> i -> same_at j m (ran h s m).
Proof. intros O Hj. split; [by apply (only_state i)|by apply (only_free i)]. Qed.

Lemma back_enabled m h i :
  inv m -> runs m h = Some i -> holds m h i -> state m i <> RUNNING ->
  exists m', turn m m' /\ runs m' h = None /\ free m' i /\ state m' i = state m i /\ forall j, j <> i -> same_at j m m'.
Proof.
  intros I E Hh Hs. destruct (busy_held m h i I E Hh) as (N & G & Hi). pose proof Hh as [nm Hl]. pose proof (iv_tp m I h) as Htp.
  destruct (release_held (L_proc i) nm (set_cpu {| c_proc := None; c_noff := noff m h; c_intena := c_intena (h_cpu (hs m h)) |} (on h m)))
    as (h' & Er & R1 & R2 & R3); [cbn; by rewrite Htp|done|exact G|].
  eexists. split; [eapply (T_back m h i); done|]. split; [rewrite runs_ran, decide_True by done; cbn; by rewrite R2|].
  split; [exists nm; unfold set_lock; cbn; by rewrite lookup_insert_eq|]. split; [done|].
  intros j Hj. apply (same_at_only i); [|done]. split; [done|done|]. intros k Hk. unfold set_lock. cbn.
  by rewrite lookup_insert_ne by congruence.
Qed.

Lemma yield_enabled m h i :
  inv m -> runs m h = Some i -> free m i ->
  exists m', turn m m' /\ runs m' h = Some i /\ holds m' h i /\ state m' i = RUNNABLE /\ forall j, j <> i -> same_at j m m'.
Proof.
  intros I E F. destruct (busy_free m h i I E F) as (_ & N & Hi). destruct (proc_at m i I Hi) as (p & Hp & _).
  eexists. split; [eapply (T_yield m h i); [done|done|]; by apply (yield_ok i p (on h m) (inv_hart_ok m h I))|].
  split; [by rewrite runs_ran, decide_True|]. split; [|split].
  - eexists. unfold locked, set_lock. cbn. rewrite lookup_insert_eq, (iv_tp m I h). reflexivity.
  - unfold state. cbn. by rewrite list_lookup_alter_eq, Hp.
  - intros j Hj. apply (same_at_only i); [|done].
    split; [cbn; by rewrite length_alter|intros k Hk; cbn; by rewrite list_lookup_alter_ne|].
    intros k Hk. unfold locked, set_lock. cbn. by rewrite lookup_insert_ne by congruence.
Qed.

Lemma resume_enabled m h i :
  inv m -> runs m h = Some i -> holds m h i -> state m i = RUNNING ->
  exists m', turn m m' /\ runs m' h = Some i /\ free m' i /\ forall j, j <> i -> same_at j m m'.
Proof.
  intros I E Hh Hs. destruct (busy_held m h i I E Hh) as (N & G & Hi). pose proof Hh as [nm Hl]. pose proof (iv_tp m I h) as Htp.
  destruct (release_held (L_proc i) nm (set_intena 0 (on h m))) as (h' & Er & R1 & R2 & R3); [cbn; by rewrite Htp|done|exact G|].
  eexists. split; [eapply (T_yield_resume m h i 0); done|].
  split; [rewrite runs_ran, decide_True by done; cbn; by rewrite R2|].
  split; [exists nm; unfold set_lock; cbn; by rewrite lookup_insert_eq|].
  intros j Hj. apply (same_at_only i); [|done]. split; [done|done|]. intros k Hk. unfold set_lock. cbn.
  by rewrite lookup_insert_ne by congruence.
Qed.

Lemma same_at_trans j m1 m2 m3 : same_at j m1 m2 -> same_at j m2 m3 -> same_at j m1 m3.
Proof. intros [H1 H2] [H3 H4]. split; [congruence|auto]. Qed.

(** From where its process runs with its lock free. *)
Lemma vacate_free m h i :
  inv m -> runs m h = Some i -> free m i ->
  exists m', rtc turn m m' /\ runs m' h = None /\ forall j, j <> i -> same_at j m m'.
Proof.
  intros I E F. destruct (yield_enabled m h i I E F) as (m1 & T1 & E1 & H1 & S1 & A1).
  destruct (back_enabled m1 h i (inv_turn _ _ I T1) E1 H1 ltac:(by rewrite S1)) as (m2 & T2 & E2 & _ & _ & A2).
  exists m2. split; [by eapply rtc_l; [|eapply rtc_once]|]. split; [done|]. intros j Hj. eapply same_at_trans; eauto.
Qed.

Lemma vacate m h :
  inv m -> exists m', rtc turn m m' /\ runs m' h = None /\ forall j, runs m h <> Some j -> same_at j m m'.
Proof.
  intros I. destruct (runs m h) as [i|] eqn:E; [|by exists m].
  destruct (iv_busy m I h i E) as [Hi [(F & _)|(Hh & _)]].
  - destruct (vacate_free m h i I E F) as (m' & T & E' & A). exists m'. split; [done|]. split; [done|].
    intros j Hj. apply A. congruence.
  - destruct (decide (state m i = RUNNING)) as [Hs|Hs].
    + destruct (resume_enabled m h i I E Hh Hs) as (m1 & T1 & E1 & F1 & A1).
      destruct (vacate_free m1 h i (inv_turn _ _ I T1) E1 F1) as (m2 & T2 & E2 & A2).
      exists m2. split; [by eapply rtc_l|]. split; [done|]. intros j Hj. eapply same_at_trans; [apply A1|apply A2]; congruence.
    + destruct (back_enabled m h i I E Hh Hs) as (m1 & T1 & E1 & _ & _ & A1). exists m1.
      split; [by apply rtc_once|]. split; [done|]. intros j Hj. apply A1. congruence.
Qed.

Lemma inv_rtc m m' : inv m -> rtc turn m m' -> inv m'.
Proof. intros I T. induction T as [|m1 m2 m3 T1 _ IH]; [done|]. apply IH. by eapply inv_turn. Qed.

(** The machine when the harts enter scheduler. *)
Record quiet (m : smp) : Prop := {
  q_len : length (k_procs (sh m)) = 64%nat;
  q_free : forall i, (i < 64)%nat -> free m i;
  q_state : forall i, (i < 64)%nat -> state m i <> RUNNING;
  q_hart : forall h, h_tp (hs m h) = Z.of_nat h /\ runs m h = None /\ noff m h = 0
}.

Lemma quiet_inv m : quiet m -> inv m.
Proof.
  intros [Q1 Q2 Q3 Q4]. split; [done| | | | | |].
  - intros h. apply Q4.
  - intros h _. apply Q4.
  - intros h i E. destruct (Q4 h) as (_ & E' & _). congruence.
  - intros i Hi. left. by apply Q2.
  - intros h h' i E. destruct (Q4 h) as (_ & E' & _). congruence.
  - intros i Hi E. by destruct (Q3 i Hi).
Qed.

(** C14: however the harts interleave, a process runs on at most one hart; a process
    marked RUNNING is the process of some hart; and a hart's process whose lock is
    free is marked RUNNING. *)
Theorem one_hart_per_process m0 m :
  quiet m0 -> rtc turn m0 m ->
  (forall h h' i, runs m h = Some i -> runs m h' = Some i -> h = h') /\
  (forall i, (i < 64)%nat -> state m i = RUNNING -> exists h, runs m h = Some i) /\
  (forall h i, runs m h = Some i -> free m i -> state m i = RUNNING).
Proof.
  intros Q T. apply quiet_inv in Q. apply (inv_rtc _ _ Q) in T as I. split; [apply (iv_one m I)|].
  split; [apply (iv_runs m I)|]. intros h i E F. by apply (busy_free m h i).
Qed.


(** ** kkill *)

Lemma kkill_loop_ok pid procs : forall s,
  hart_ok (k_hart s) -> (forall j, j ∈ procs -> lock_free (L_proc j) s /\ is_Some (k_procs s !! j)) -> procs <> [] ->
  (exists j p, j ∈ procs /\ k_procs s !! j = Some p /\ p_pid p = pid /\ kkill_loop procs pid s = Ok 0 (upd_proc j kill1 (settle s))) \/
  (forall j p, j ∈ procs -> k_procs s !! j = Some p -> p_pid p <> pid) /\ kkill_loop procs pid s = Ok (-1) (settle s).
Proof.
  induction procs as [|j procs IH]; intros s Hh Hl Hne; [done|]. destruct (Hl j) as [Fj [p Hp]]; [left|].
  rewrite (kkill_step j p pid procs s Hh Hp Fj). destruct (Z.eqb_spec (p_pid p) pid) as [E|E].
  - left. exists j, p. split; [left|]. done.
  - destruct procs as [|j' procs].
    + right. split; [|done]. intros k q Hk Hq. apply list_elem_of_singleton in Hk as ->. congruence.
    + destruct (IH (settle s)) as [(k & q & Hk & Hq & Ek & Er)|[Hno Er]]; [by apply hart_settle_ok|intros k Hk; apply Hl; by right|done| |].
      * left. exists k, q. split; [by right|]. split; [done|]. split; [done|]. by rewrite Er, settle_idem.
      * right. split; [|by rewrite Er, settle_idem]. intros k q Hk Hq. apply elem_of_cons in Hk as [->|Hk]; [congruence|eauto].
Qed.

(** Kkill marks a process that has the pid as killed, makes it runnable when it
    sleeps, so that it will see the mark, and returns 0; no other process changes.
    When no process has the pid it returns -1 and changes nothing. *)
Theorem kkill_correct pid s :
  hart_ok (k_hart s) -> procs_ready s ->
  exists r s', kkill pid s = Ok r s' /\ k_locks s' = k_locks s /\ s' = set_procs (k_procs s') (settle s) /\
    (r = 0 /\ (exists j p p', k_procs s !! j = Some p /\ p_pid p = pid /\ k_procs s' !! j = Some p' /\
        p_killed p' = 1 /\ p_state p' = (if decide (p_state p = SLEEPING) then RUNNABLE else p_state p) /\
        forall k, k <> j -> k_procs s' !! k = k_procs s !! k) \/
     r = -1 /\ (forall j p, k_procs s !! j = Some p -> p_pid p <> pid) /\ k_procs s' = k_procs s).
Proof.
  intros Hh [Hlen Hl]. unfold kkill. change (Z.to_nat NPROC) with 64%nat.
  destruct (kkill_loop_ok pid (seq 0 64) s Hh) as [(j & p & _ & Hp & Ep & Er)|[Hno Er]]; [|done| |].
  - intros j Hj. apply elem_of_seq in Hj. split; [apply Hl; lia|]. apply lookup_lt_is_Some_2. lia.
  - eexists _, _. split; [exact Er|]. split; [done|]. split; [done|]. left. split; [done|].
    exists j, p, (kill1 p). split; [done|]. split; [done|]. split; [cbn; by rewrite list_lookup_alter_eq, Hp|].
    unfold kill1. split; [by destruct (decide _)|]. split; [by destruct (decide _)|].
    intros k Hk. cbn. by rewrite list_lookup_alter_ne.
  - eexists _, _. split; [exact Er|]. split; [done|]. split; [by destruct s|]. right. split; [done|]. split; [|done].
    intros j p Hp. apply (Hno j); [|done]. apply elem_of_seq. apply lookup_lt_Some in Hp. lia.
Qed.

(** ** A machine with one process to run *)

Definition one_ready : smp :=
  {| sh := upd_proc 3 (with_state RUNNABLE) boot_kernel;
     hs := fun h => {| h_tp := Z.of_nat h; h_cpu := {| c_proc := None; c_noff := 0; c_intena := 0 |}; h_sstatus := 0 |} |}.

Lemma boot_procs : k_procs boot_kernel = replicate 64 PCB_zero.
Proof. vm_compute. reflexivity. Qed.

#[local] Opaque boot_kernel.

Lemma one_ready_state i : (i < 64)%nat -> state one_ready i = if decide (i = 3%nat) then RUNNABLE else UNUSED.
Proof.
  intros Hi. unfold state, one_ready, upd_proc. cbn [sh k_procs set_procs]. rewrite boot_procs, list_lookup_alter.
  destruct (decide (i = 3%nat)) as [->|Hne]; [reflexivity|]. rewrite decide_False by congruence.
  by rewrite lookup_replicate_2.
Qed.

Lemma one_ready_quiet : quiet one_ready.
Proof.
  split.
  - unfold one_ready, upd_proc. cbn [sh k_procs set_procs]. by rewrite length_alter, boot_procs.
  - exact boot_proc_locks.
  - intros i Hi. rewrite one_ready_state by done. by destruct (decide _).
  - intros h. done.
Qed.


Lemma one_ready_turn : turn one_ready (ran 1 (dispatched 3 (on 1 one_ready)) one_ready).
Proof.
  apply (T_try one_ready 1 3 true); [done|lia|apply (q_free _ one_ready_quiet); lia|].
  rewrite (scheduler_try_ok 3 (with_state RUNNABLE PCB_zero)); [by rewrite decide_True|split; [cbn; lia|done]| |].
  - apply (q_free _ one_ready_quiet). lia.
  - unfold on, one_ready, upd_proc. cbn [set_hart sh k_procs set_procs]. by rewrite boot_procs.
Qed.

Lemma one_hart_per_process_witness :
  let m := ran 1 (dispatched 3 (on 1 one_ready)) one_ready in
  runs m 1 = Some 3%nat /\ forall h, runs m h = Some 3%nat -> h = 1%nat.
Proof.
  intros m. destruct (one_hart_per_process one_ready m one_ready_quiet) as [H _].
  - apply rtc_once, one_ready_turn.
  - assert (runs m 1 = Some 3%nat) as E by (unfold m; by rewrite runs_ran, decide_True).
    split; [exact E|]. intros h Eh. exact (H h 1%nat 3%nat Eh E).
Defined.

Lemma kkill_correct_witness : exists s', kkill 0 boot_kernel = Ok 0 s'.
Proof.
  destruct (kkill_correct 0 boot_kernel) as (r & s' & E & _ & _ & [[-> _]|(_ & H & _)]).
  - vm_compute. by split.
  - split; [by rewrite boot_procs|exact boot_proc_locks].
  - by exists s'.
  - exfalso. apply (H 0%nat PCB_zero); [by rewrite boot_procs|reflexivity].
Defined.
