(* ===== verification/ProcAlloc.v ===== *)
(** * Allocating and freeing a process (kernel/proc/proc.c)

    allocproc takes an unused entry of the table, with its lock, a page for the trap
    frame and a page table; uFreeProc gives all of it back. Over any page
    allocator. *)

From S2P Require Import Prelude Mem CString State Spinlock Printf Locks PageAlloc Kalloc Vm PageTable VmMap VmFree AddressSpace Sv39 VmProps Sleep Critical Bio Bytes Log Fs File Proc Schedule.

Lemma hart_push_settle h : hart_push (hart_settle h) = hart_push h.
Proof. unfold hart_settle. destruct (Z.eqb_spec (c_noff (h_cpu h)) 0) as [E|E]; [|done]. unfold hart_push. cbn. by rewrite E. Qed.

Lemma locked_settle l s : locked l (settle s) = locked l s.
Proof.
  unfold locked. change (lock_of (settle s) l) with (lock_of s l). unfold settle, set_lock, set_hart, set_locks. cbn.
  rewrite hart_push_settle. f_equal. f_equal. unfold hart_settle. by destruct (_ =? 0).
Qed.

(** Inside a critical section the allocator changes only memory and its own data. *)
Lemma mem_step_inside s s' :
  0 < c_noff (h_cpu (k_hart s)) -> mem_step s s' -> s' = set_mem (k_mem s') (set_kmem (k_kmem s') s).
Proof.
  unfold mem_step, settle. intros Hn E. rewrite (hart_settle_deep (k_hart s)) in E by done.
  assert (hart_settle (k_hart s') = k_hart s) as Eh by (apply (f_equal k_hart) in E; exact E).
  assert (k_hart s' = k_hart s) as Eh'.
  { rewrite hart_settle_deep in Eh; [done|]. rewrite <- hart_settle_noff, Eh. done. }
  rewrite Eh, set_hart_id in E. rewrite <- E at 1. rewrite <- Eh'. by rewrite set_hart_id.
Qed.

Section Process.
Context `{Layout} (kalloc : KM Z) (kfree : Z -> KM unit) `{!PageAllocator kalloc kfree}.
Context (forkret_addr : Z).
Abbreviation allocproc := (allocproc kalloc kfree forkret_addr).
Abbreviation uFreeProc := (uFreeProc kalloc kfree).

Lemma find_unused_ok procs : forall s i pre post,
  hart_ok (k_hart s) -> procs = pre ++ i :: post ->
  (forall j, j ∈ procs -> lock_free (L_proc j) s /\ is_Some (k_procs s !! j)) ->
  (forall j p, j ∈ pre -> k_procs s !! j = Some p -> p_state p <> UNUSED) ->
  (forall p, k_procs s !! i = Some p -> p_state p = UNUSED) ->
  find_unused procs s = Ok (Some i) (locked (L_proc i) s).
Proof.
  induction procs as [|k procs IH]; intros s i pre post Hh Hp Hl Hpre Hi; [by destruct pre|].
  cbn [find_unused]. destruct (Hl k) as [Fk [p Hk]]; [left|].
  rewrite (bind_ok _ _ _ _ _ (acquire_ok (L_proc k) s Fk Hh)).
  rewrite (bind_ok _ _ _ _ _ (pget_ok k p p_state (locked (L_proc k) s) Hk)).
  destruct pre as [|k' pre]; cbn in Hp; injection Hp as <- Hp.
  - rewrite decide_True by eauto. done.
  - rewrite decide_False by (apply (Hpre k); [left|done]).
    rewrite (bind_ok _ _ _ _ _ (release_locked (L_proc k) s Fk Hh)).
    rewrite (IH (settle s) i pre post); [by rewrite locked_settle|by apply hart_settle_ok|done| | |done].
    + intros j Hj. apply Hl. by right.
    + intros j q Hj. apply Hpre. by right.
Qed.

Lemma allocpid_ok s :
  lock_free L_pid s -> hart_ok (k_hart s) -> 0 <= k_nextpid s < 2 ^ 31 - 1 ->
  allocpid s = Ok (k_nextpid s) (set_nextpid (k_nextpid s + 1) (settle s)).
Proof.
  intros Hl Hh Hn. unfold allocpid. rewrite (bind_ok _ _ _ _ _ (acquire_ok L_pid s Hl Hh)).
  unfold bind at 1, get at 1. change (k_nextpid (locked L_pid s)) with (k_nextpid s). rewrite s32_small by lia.
  unfold bind, modify. by rewrite (release_private L_pid (set_nextpid (k_nextpid s + 1))).
Qed.

Lemma vm_ok_frame base F root T s s' :
  vm_ok base F root T s -> k_mem s' = k_mem s -> k_kmem s' = k_kmem s ->
  k_locks s' !! L_kmem = k_locks s !! L_kmem -> hart_ok (k_hart s') -> vm_ok base F root T s'.
Proof. intros [V1 V2 V3] Hm Hk Hl Hh. split; [by eapply pa_frame|by rewrite Hm|done]. Qed.

(** The entry of the process as allocproc leaves it. *)
Definition fresh_pcb (pid tf root : Z) (p : PCB) : PCB :=
  with_context {| ctx_ra := forkret_addr; ctx_sp := u64 (p_kstack p + PGSIZE); ctx_s := replicate 12 0 |}
    (with_pagetable root (with_trapframe tf (with_state USED (with_pid pid p)))).

Lemma set_proc_ok i f s : set_proc i f s = Ok tt (upd_proc i f s).
Proof. done. Qed.

Lemma upd_proc_twice i f g s : upd_proc i f (upd_proc i g s) = upd_proc i (f ∘ g) s.
Proof. unfold upd_proc. cbn. by rewrite list_alter_alter_eq. Qed.

(** The entry taken, with its pid. *)
Definition taken (i : nat) (s : kernel) : kernel :=
  upd_proc i (with_state USED ∘ with_pid (k_nextpid s)) (set_nextpid (k_nextpid s + 1) (locked (L_proc i) s)).

(** What the table is before allocproc: entry [i] is the first that is unused. *)
Record allocatable (i : nat) (p : PCB) (s : kernel) : Prop := {
  al_hart : roomy (k_hart s);
  al_ready : procs_ready s;
  al_entry : k_procs s !! i = Some p;
  al_unused : p_state p = UNUSED;
  al_first : forall j q, (j < i)%nat -> k_procs s !! j = Some q -> p_state q <> UNUSED;
  al_pid : lock_free L_pid s /\ 0 <= k_nextpid s < 2 ^ 31 - 1
}.

Lemma allocproc_takes i p s :
  allocatable i p s ->
  allocproc s = (let! tf := kalloc in
                 do! set_proc i (with_trapframe tf);
                 if tf =? 0 then alloc_failed kalloc kfree i
                 else
                   let! t := procPagetable kalloc kfree tf in
                   do! set_proc i (with_pagetable t);
                   if t =? 0 then alloc_failed kalloc kfree i
                   else
                     let! ks := pget i p_kstack in
                     do! set_proc i (with_context {| ctx_ra := forkret_addr; ctx_sp := u64 (ks + PGSIZE);
                                                     ctx_s := replicate 12 0 |});
                     ret (Some i)) (taken i s).
Proof.
  intros [[Hh Hr] [Hlen Hl] Hp Hu Hf [Hpl Hn]]. unfold Proc.allocproc. change (Z.to_nat NPROC) with 64%nat.
  assert (i < 64)%nat as Hi by (rewrite <- Hlen; by eapply lookup_lt_Some).
  assert (seq 0 64 = seq 0 i ++ i :: seq (S i) (63 - i)) as Es.
  { change (i :: seq (S i) (63 - i)) with (seq i (S (63 - i))). rewrite <- seq_app. f_equal. lia. }
  rewrite (bind_ok _ _ _ _ _ (find_unused_ok (seq 0 64) s i _ _ Hh Es
    ltac:(intros j Hj; apply elem_of_seq in Hj; split; [apply Hl; lia|apply lookup_lt_is_Some_2; lia])
    ltac:(intros j q Hj; apply elem_of_seq in Hj; apply Hf; lia) ltac:(intros q Hq; congruence))).
  assert (hart_ok (k_hart (locked (L_proc i) s))) as Hh1 by (apply hart_push_ok; [done|lia]).
  rewrite (bind_ok _ _ _ _ _ (allocpid_ok (locked (L_proc i) s) (free_locked L_pid (L_proc i) s ltac:(done) Hpl) Hh1 Hn)).
  rewrite settle_locked by done.
  rewrite (bind_ok _ _ _ _ _ (set_proc_ok i _ _)), (bind_ok _ _ _ _ _ (set_proc_ok i _ _)), upd_proc_twice. done.
Qed.

(** ** The pages *)

Lemma pool_frame base p : KERNBASE <= base -> pool_page base p -> good_frames 1 p /\ p <> 0.
Proof.
  unfold pool_page, good_frames. change KERNBASE with 2147483648. change PHYSTOP with 2281701376. unfold PGSIZE.
  intros Hb (H1 & H2 & H3). lia.
Qed.

(** A state that differs from [s] in memory, the allocator's data and the entry [i]
    only. *)
Definition grown (m : mem) (k : kmem_t) (i : nat) (f : PCB -> PCB) (s : kernel) : kernel :=
  set_mem m (set_kmem k (upd_proc i f s)).

Lemma grown_inside i f s s' :
  0 < c_noff (h_cpu (k_hart s)) -> mem_step (upd_proc i f s) s' -> s' = grown (k_mem s') (k_kmem s') i f s.
Proof. intros Hn St. by apply mem_step_inside in St. Qed.

Lemma upd_grown m k i f g s : upd_proc i g (grown m k i f s) = grown m k i (g ∘ f) s.
Proof. unfold grown. rewrite <- upd_proc_twice. done. Qed.

Lemma grown_ext m k i f g s p : k_procs s !! i = Some p -> f p = g p -> grown m k i f s = grown m k i g s.
Proof. intros Hp E. unfold grown. by rewrite (upd_proc_ext i f g s p). Qed.

Lemma allocproc_ok base F i p s :
  allocatable i p s -> pa_inv base F s -> (4 <= size F)%nat ->
  exists tf root F' T' m k, allocproc s = Ok (Some i) (grown m k i (fresh_pcb (k_nextpid s) tf root)
      (set_nextpid (k_nextpid s + 1) (locked (L_proc i) s))) /\
    pool_page base tf /\ F = {[tf]} ∪ foot F' T' /\ (tf ∉ foot F' T') /\
    vm_ok base F' root T' (grown m k i (fresh_pcb (k_nextpid s) tf root) (set_nextpid (k_nextpid s + 1) (locked (L_proc i) s))) /\
    leaves T' = <[path TRAPFRAME := mk_pte tf (Z.lor PTE_R PTE_W)]>
                 {[path TRAMPOLINE := mk_pte trampoline (Z.lor PTE_R PTE_X)]} /\
    frame base F (k_mem s) m.
Proof.
  intros A Hpa Hsz. rewrite (allocproc_takes i p s A). destruct A as [[Hh Hr] _ Hp _ _ _]. unfold taken.
  set (s0 := set_nextpid (k_nextpid s + 1) (locked (L_proc i) s)). set (pid := k_nextpid s).
  assert (hart_ok (k_hart s0)) as Hh0 by (apply hart_push_ok; [done|lia]).
  assert (0 < c_noff (h_cpu (k_hart s0))) as Hn0 by (destruct Hh; cbn; lia).
  assert (k_locks s0 !! L_kmem = k_locks s !! L_kmem) as Hlk
    by (unfold s0, locked, set_lock; cbn; by rewrite lookup_insert_ne).
  assert (pa_inv base F (upd_proc i (with_state USED ∘ with_pid pid) s0)) as Hpa1 by (by apply (pa_frame base F s)).
  destruct (pa_alloc base F _ Hpa1) as (tf & s2 & E2 & Htf & Hpa2 & St2 & Fr2); [intros ->; by rewrite size_empty in Hsz; lia|].
  rewrite (bind_ok _ _ _ _ _ E2). apply (grown_inside i _ s0 s2 Hn0) in St2.
  destruct (pool_frame base tf (pa_base _ _ _ Hpa) (pa_pool _ _ _ _ Hpa Htf)) as [Hgf Hz].
  rewrite (bind_ok _ _ _ _ _ (set_proc_ok i _ _)). rewrite (proj2 (Z.eqb_neq tf 0) Hz).
  destruct (procPagetable_ok base (F ∖ {[tf]}) (upd_proc i (with_trapframe tf) s2) tf) as (root & F' & T' & s4 & E4 & Hok & Hf & [St4 Fr4] & HL).
  { apply (pa_frame base _ s2); try done. rewrite St2. done. }
  { rewrite size_difference, size_singleton by set_solver. lia. }
  { done. }
  rewrite (bind_ok _ _ _ _ _ E4). rewrite St2 in St4. rewrite upd_grown in St4.
  change (grown (k_mem s2) (k_kmem s2) i (with_trapframe tf ∘ (with_state USED ∘ with_pid pid)) s0) with
    (upd_proc i (with_trapframe tf ∘ (with_state USED ∘ with_pid pid)) (set_mem (k_mem s2) (set_kmem (k_kmem s2) s0))) in St4.
  apply (grown_inside i) in St4; [|done].
  assert (root <> 0) as Hrz.
  { apply (pool_frame base); [apply (pa_base _ _ _ Hpa)|]. apply (pt_page _ _ _ _ (vm_wf _ _ _ _ _ Hok) [] root), (pt_root _ _ _ _ (vm_wf _ _ _ _ _ Hok)). }
  rewrite (bind_ok _ _ _ _ _ (set_proc_ok i _ _)). rewrite (proj2 (Z.eqb_neq root 0) Hrz).
  change (grown (k_mem s4) (k_kmem s4) i (with_trapframe tf ∘ (with_state USED ∘ with_pid pid)) (set_mem (k_mem s2) (set_kmem (k_kmem s2) s0)))
    with (grown (k_mem s4) (k_kmem s4) i (with_trapframe tf ∘ (with_state USED ∘ with_pid pid)) s0) in St4.
  assert (upd_proc i (with_pagetable root) s4 =
    grown (k_mem s4) (k_kmem s4) i (with_pagetable root ∘ (with_trapframe tf ∘ (with_state USED ∘ with_pid pid))) s0) as ->
    by (rewrite St4 at 1; apply upd_grown).
  set (g := with_pagetable root ∘ _).
  assert (k_procs (grown (k_mem s4) (k_kmem s4) i g s0) !! i = Some (g p)) as Hg
    by (change (alter g i (k_procs s) !! i = Some (g p)); by rewrite list_lookup_alter_eq, Hp).
  rewrite (bind_ok _ _ _ _ _ (pget_ok i _ p_kstack _ Hg)), (bind_ok _ _ _ _ _ (set_proc_ok i _ _)), upd_grown.
  rewrite (grown_ext (k_mem s4) (k_kmem s4) i (with_context {| ctx_ra := forkret_addr; ctx_sp := u64 (p_kstack (g p) + PGSIZE);
    ctx_s := replicate 12 0 |} ∘ g) (fresh_pcb pid tf root) s0 p Hp eq_refl).
  exists tf, root, F', T', (k_mem s4), (k_kmem s4). split; [done|]. split; [by apply (pa_pool _ _ _ _ Hpa)|].
  split; [rewrite Hf; apply set_eq; intros x; destruct (decide (x = tf)); set_solver|]. split; [set_solver|]. split; [|split; [done|]].
  { apply (vm_ok_frame base F' root T' s4); try done. by rewrite St4. }
  intros a Ha Hn. rewrite (Fr4 a Ha) by (intros q Hq; apply Hn; set_solver). apply Fr2; [done|]. by apply Hn.
Qed.

(** The entry as uFreeProc leaves it. *)
Definition cleared (p : PCB) : PCB :=
  with_state UNUSED (with_chan None (with_xstate 0 (with_killed 0
    (with_name (<[O := 0]> (p_name p)) (with_parent None (with_pid 0 (with_sz 0
      (with_pagetable 0 (with_trapframe 0 p))))))))).

(** What the process [p] owns: the page of its trap frame, and the page table [T] with
    the [n] pages of its memory. *)
Record owns_memory (base : Z) (F : gset Z) (T : pt) (n : nat) (p : PCB) (s : kernel) : Prop := {
  om_vm : vm_ok base F (p_pagetable p) T s;
  om_size : 0 <= p_sz p /\ PGROUNDUP (p_sz p) / PGSIZE = Z.of_nat n /\ (p_sz p = 0 -> n = 0%nat) /\
    Z.of_nat n * PGSIZE <= TRAPFRAME;
  om_leaves : user_leaves (Z.of_nat n * PGSIZE) T;
  om_tf : pool_page base (p_trapframe p) /\ (p_trapframe p ∉ F) /\ (p_trapframe p ∉ tables T);
  om_pages : range_owned base ({[p_trapframe p]} ∪ F) T n 0
}.

Lemma uFreeProc_ok base F T n i p s :
  k_procs s !! i = Some p -> 0 < c_noff (h_cpu (k_hart s)) -> owns_memory base F T n p s ->
  exists m k, uFreeProc i s = Ok tt (grown m k i cleared s) /\
    pa_inv base (tables T ∪ (range_pages n 0 (leaves T) ∪ ({[p_trapframe p]} ∪ F))) (grown m k i cleared s).
Proof.
  intros Hp Hn [V (Z1 & Z2 & Z3 & Z4) Hle (P1 & P2 & P3) Hr]. pose proof (pa_base _ _ _ (vm_alloc _ _ _ _ _ V)) as Hb.
  destruct (free_page base F _ T s _ V P1 P2 P3) as (s1 & E1 & V1 & [St1 _]).
  apply mem_step_inside in St1; [|done]. unfold Proc.uFreeProc. rewrite (bind_ok _ _ _ _ _ (pget_ok i p p_trapframe s Hp)).
  destruct (pool_frame base _ Hb P1) as [_ Hz]. rewrite (proj2 (Z.eqb_neq _ 0) Hz). cbn [negb]. rewrite (bind_ok _ _ _ _ _ E1).
  rewrite (bind_ok _ _ _ _ _ (set_proc_ok i _ _)).
  set (s2 := upd_proc i (with_trapframe 0) s1).
  assert (s2 = grown (k_mem s1) (k_kmem s1) i (with_trapframe 0) s) as Es2 by (unfold s2; by rewrite St1 at 1).
  assert (k_procs s2 !! i = Some (with_trapframe 0 p)) as Hp2
    by (rewrite Es2; change (alter (with_trapframe 0) i (k_procs s) !! i = Some (with_trapframe 0 p)); by rewrite list_lookup_alter_eq, Hp).
  rewrite (bind_ok _ _ _ _ _ (pget_ok i _ p_pagetable s2 Hp2)), (bind_ok _ _ _ _ _ (pget_ok i _ p_sz s2 Hp2)).
  cbn [with_trapframe p_pagetable p_sz].
  assert (p_pagetable p <> 0) as Hrz.
  { apply (pool_frame base); [done|]. apply (pt_page _ _ _ _ (vm_wf _ _ _ _ _ V) [] _), (pt_root _ _ _ _ (vm_wf _ _ _ _ _ V)). }
  rewrite (proj2 (Z.eqb_neq _ 0) Hrz). cbn [negb].
  destruct (uFreeUserVM_ok n base ({[p_trapframe p]} ∪ F) (p_pagetable p) T s2 (p_sz p)) as (s3 & E3 & Hpa3 & [St3 _]); try done.
  { apply (vm_ok_frame base _ _ _ s1); try done. apply (pa_hart _ _ _ (vm_alloc _ _ _ _ _ V1)). }
  rewrite (bind_ok _ _ _ _ _ E3). rewrite Es2 in St3.
  change (grown (k_mem s1) (k_kmem s1) i (with_trapframe 0) s) with
    (upd_proc i (with_trapframe 0) (set_mem (k_mem s1) (set_kmem (k_kmem s1) s))) in St3.
  apply (grown_inside i) in St3; [|done].
  change (grown (k_mem s3) (k_kmem s3) i (with_trapframe 0) (set_mem (k_mem s1) (set_kmem (k_kmem s1) s))) with
    (grown (k_mem s3) (k_kmem s3) i (with_trapframe 0) s) in St3.
  exists (k_mem s3), (k_kmem s3). split.
  - rewrite St3 at 1. repeat (rewrite (bind_ok _ _ _ _ _ (set_proc_ok i _ _)), upd_grown).
    by rewrite set_proc_ok, upd_grown.
  - apply (pa_frame base _ s3); [exact Hpa3|done|done|by rewrite St3|apply (pa_hart _ _ _ (vm_alloc _ _ _ _ _ V))].
Qed.

Lemma owns_frame base F T n p s s' :
  owns_memory base F T n p s -> k_mem s' = k_mem s -> k_kmem s' = k_kmem s ->
  k_locks s' !! L_kmem = k_locks s !! L_kmem -> hart_ok (k_hart s') -> owns_memory base F T n p s'.
Proof. intros [V1 V2 V3 V4 V5] Hm Hk Hl Hh. split; try done. by apply (vm_ok_frame base F _ T s). Qed.

Lemma grown_private m k i f : private (grown m k i f).
Proof. by split. Qed.
#[local] Hint Resolve grown_private : core.

Lemma private_id : private (fun s => s).
Proof. by split. Qed.

(** Locks taken one inside the other. *)
Lemma release_inner l l' F s :
  private F -> l <> l' -> lock_free l s -> hart_ok (k_hart s) -> c_noff (h_cpu (k_hart s)) < 2 ^ 30 - 1 ->
  release l (F (locked l (locked l' s))) = Ok tt (F (locked l' s)).
Proof.
  intros HF Hne Hl Hh Hn.
  rewrite (release_private l F (locked l' s) HF (free_locked l l' s Hne Hl)) by (by apply hart_push_ok).
  by rewrite settle_locked.
Qed.

(** ** kwait *)

Definition child_of (me : nat) (q : PCB) : bool := bool_decide (p_parent q = Some me).

(** The children in the table among [procs]. *)
Definition has_child (me : nat) (procs : list nat) (s : kernel) : bool :=
  existsb (fun j => match k_procs s !! j with Some q => child_of me q | None => false end) procs.

Section Wait.
Context (xstate_addr : nat -> Z) (me : nat) (s : kernel).
Context (Hh : roomy (k_hart s)) (Hready : procs_ready s).
Abbreviation kwait_scan := (kwait_scan kalloc kfree xstate_addr).

Lemma scan_live procs post hk :
  (forall j, j ∈ procs -> (j < 64)%nat) ->
  (forall j q, j ∈ procs -> k_procs s !! j = Some q -> p_parent q = Some me -> p_state q <> ZOMBIE) ->
  kwait_scan (procs ++ post) me 0 hk (locked L_wait s) =
    kwait_scan post me 0 (hk || has_child me procs s) (locked L_wait s).
Proof.
  destruct Hh as [Hok Hr], Hready as [Hlen Hl]. revert hk.
  induction procs as [|j procs IH]; intros hk Hlt Hz; [by rewrite orb_false_r|]. cbn [app Proc.kwait_scan has_child existsb].
  assert (j < 64)%nat as Hj by (apply Hlt; left).
  destruct (lookup_lt_is_Some_2 (k_procs s) j) as [q Hq]; [lia|]. rewrite Hq.
  rewrite (bind_ok _ _ _ _ _ (pget_ok j q p_parent (locked L_wait s) Hq)). unfold child_of at 1.
  assert (forall hk, kwait_scan (procs ++ post) me 0 hk (locked L_wait s) =
            kwait_scan post me 0 (hk || has_child me procs s) (locked L_wait s)) as IH'
    by (intros b; apply IH; [intros k Hk; apply Hlt; by right|intros k q' Hk; apply Hz; by right]).
  destruct (decide (p_parent q = Some me)) as [Hc|Hc].
  - rewrite (bool_decide_true _ Hc). assert (hart_ok (k_hart (locked L_wait s))) as Hok1 by (apply hart_push_ok; [done|lia]).
    rewrite (bind_ok _ _ _ _ _ (acquire_ok (L_proc j) (locked L_wait s) (free_locked (L_proc j) L_wait s ltac:(done) (Hl j Hj)) Hok1)).
    rewrite (bind_ok _ _ _ _ _ (pget_ok j q p_state (locked (L_proc j) (locked L_wait s)) Hq)).
    rewrite decide_False by (apply (Hz j); [left|done|done]).
    rewrite (bind_ok _ _ _ _ _ (release_inner (L_proc j) L_wait (fun x => x) s private_id ltac:(done) (Hl j Hj) Hok ltac:(lia))).
    rewrite IH'. by rewrite orb_true_r.
  - rewrite (bool_decide_false _ Hc). apply IH'.
Qed.

Lemma scan_zombie base F T n j q post hk :
  (j < 64)%nat -> k_procs s !! j = Some q -> p_parent q = Some me -> p_state q = ZOMBIE ->
  owns_memory base F T n q s -> lock_free L_wait s ->
  exists m k, kwait_scan (j :: post) me 0 hk (locked L_wait s) = Ok (inl (p_pid q)) (grown m k j cleared (settle s)) /\
    pa_inv base (tables T ∪ (range_pages n 0 (leaves T) ∪ ({[p_trapframe q]} ∪ F))) (grown m k j cleared (settle s)).
Proof.
  destruct Hh as [Hok Hr], Hready as [Hlen Hl]. intros Hj Hq Hc Hz Hown Hw. cbn [Proc.kwait_scan].
  rewrite (bind_ok _ _ _ _ _ (pget_ok j q p_parent (locked L_wait s) Hq)). rewrite decide_True by done.
  assert (hart_ok (k_hart (locked L_wait s))) as Hok1 by (apply hart_push_ok; [done|lia]).
  rewrite (bind_ok _ _ _ _ _ (acquire_ok (L_proc j) (locked L_wait s) (free_locked (L_proc j) L_wait s ltac:(done) (Hl j Hj)) Hok1)).
  set (s1 := locked (L_proc j) (locked L_wait s)).
  assert (k_locks s1 !! L_kmem = k_locks s !! L_kmem) as Hk
    by (unfold s1, locked, set_lock; cbn; by rewrite !lookup_insert_ne).
  rewrite (bind_ok _ _ _ _ _ (pget_ok j q p_state s1 Hq)). rewrite decide_True by done.
  rewrite (bind_ok _ _ _ _ _ (pget_ok j q p_pid s1 Hq)). cbn [Z.eqb]. unfold bind at 1, ret at 1. cbn [Z.ltb Z.compare].
  destruct (uFreeProc_ok base F T n j q s1 Hq) as (m & k & E & Hpa).
  { destruct Hok. cbn. lia. }
  { apply (owns_frame base F T n q s); try done.
    apply hart_push_ok; [done|]. cbn. lia. }
  exists m, k. rewrite (bind_ok _ _ _ _ _ E).
  rewrite (bind_ok _ _ _ _ _ (release_inner (L_proc j) L_wait (grown m k j cleared) s ltac:(done) ltac:(done) (Hl j Hj) Hok ltac:(lia))).
  rewrite (bind_ok _ _ _ _ _ (release_private L_wait (grown m k j cleared) s ltac:(done) Hw Hok)). split; [done|].
  apply (pa_frame base _ _ (grown m k j cleared (settle s)) Hpa); try done.
  by apply hart_settle_ok.
Qed.
End Wait.

(** ** The properties *)

Lemma alter_insert_at (f : PCB -> PCB) (i : nat) p (ps : list PCB) : ps !! i = Some p -> alter f i ps = <[i := f p]> ps.
Proof. intros Hp. rewrite list_insert_alter. apply list_alter_ext; [|done]. intros x Hx. congruence. Qed.

Lemma new_owns base F T p s tf :
  vm_ok base F (p_pagetable p) T s -> p_sz p = 0 -> p_trapframe p = tf -> pool_page base tf -> (tf ∉ foot F T) ->
  leaves T = <[path TRAPFRAME := mk_pte tf (Z.lor PTE_R PTE_W)]>
              {[path TRAMPOLINE := mk_pte trampoline (Z.lor PTE_R PTE_X)]} ->
  owns_memory base F T 0 p s.
Proof.
  intros V Hz <- P1 P2 HL. split; [done|rewrite Hz; by vm_compute| |unfold foot in P2; set_solver|].
  - intros π e. rewrite HL, lookup_insert_Some, lookup_singleton_Some. intros [[<- _]|[_ [<- _]]].
    + exists TRAPFRAME. split; [done|split; [done|by right; left]].
    + exists TRAMPOLINE. split; [done|split; [done|by right; right]].
  - split; intros; exfalso; lia.
Qed.

(** C29: allocproc takes the first unused entry of the table, gives it the next pid,
    a page for its trap frame and a page table that maps the trampoline and the trap
    frame, and returns it marked USED with its lock held; uFreeProc and release after
    that leave every page free again, the entry unused and its lock free. *)
Theorem allocproc_roundtrip base F i p s :
  allocatable i p s -> p_sz p = 0 -> pa_inv base F s -> (4 <= size F)%nat ->
  exists s1 s2 q, allocproc s = Ok (Some i) s1 /\ k_procs s1 !! i = Some q /\ p_state q = USED /\
    p_pid q = k_nextpid s /\ k_nextpid s1 = k_nextpid s + 1 /\ p_trapframe q ∈ F /\ p_pagetable q ∈ F /\
    (forall a user acc, 0 <= a < MAXVA ->
       sv39_translate (k_mem s1) (p_pagetable q) a user acc =
         if (TRAMPOLINE <=? a) && grants (Z.lor PTE_R PTE_X) user acc
         then Some (trampoline + (a - TRAMPOLINE))
         else if (TRAPFRAME <=? a) && (a <? TRAMPOLINE) && grants (Z.lor PTE_R PTE_W) user acc
         then Some (p_trapframe q + (a - TRAPFRAME)) else None) /\
    held_by (h_tp (k_hart s)) (L_proc i) s1 /\
    (do! uFreeProc i; release (L_proc i)) s1 = Ok tt s2 /\ pa_inv base F s2 /\ k_locks s2 = k_locks s /\
    k_procs s2 = <[i := cleared q]> (k_procs s).
Proof.
  intros A Hsz Hpa HF. destruct (allocproc_ok base F i p s A Hpa HF) as (tf & root & F' & T' & m & k & E & P1 & P2 & P3 & V & HL & _).
  destruct A as [[Hh Hr] [Hlen Hl] Hp _ _ _]. set (q := fresh_pcb (k_nextpid s) tf root p).
  set (s0 := set_nextpid (k_nextpid s + 1) (locked (L_proc i) s)) in *.
  set (s1 := grown m k i (fresh_pcb (k_nextpid s) tf root) s0) in *.
  assert (k_procs s1 = <[i := q]> (k_procs s)) as Hps.
  { change (k_procs s1) with (alter (fresh_pcb (k_nextpid s) tf root) i (k_procs s)). apply alter_insert_at, Hp. }
  assert (i < 64)%nat as Hi by (rewrite <- Hlen; by eapply lookup_lt_Some).
  assert (k_procs s1 !! i = Some q) as Hq by (rewrite Hps; apply list_lookup_insert_eq; lia).
  assert (k_hart s1 = hart_push (k_hart s)) as Eh by done.
  destruct (uFreeProc_ok base F' T' 0 i q s1 Hq) as (m' & k' & E2 & Hpa2).
  { rewrite Eh. destruct Hh. cbn. lia. }
  { by apply (new_owns base F' T' q s1 tf). }
  set (s2 := grown m' k' i cleared (grown m k i (fresh_pcb (k_nextpid s) tf root) (set_nextpid (k_nextpid s + 1) (settle s)))).
  assert (release (L_proc i) (grown m' k' i cleared s1) = Ok tt s2) as E3.
  { apply (release_private (L_proc i) (fun s' => grown m' k' i cleared (grown m k i (fresh_pcb (k_nextpid s) tf root) (set_nextpid (k_nextpid s + 1) s'))));
      [by split|by apply Hl|done]. }
  assert (F = tables T' ∪ (∅ ∪ ({[tf]} ∪ F'))) as HF' by (rewrite P2; unfold foot; set_solver).
  assert (root ∈ tables T') as Hroot by (apply elem_of_tables; exists []; apply (pt_root _ _ _ _ (vm_wf _ _ _ _ _ V))).
  exists s1, s2, q. split; [exact E|]. split; [exact Hq|]. do 3 (split; [done|]).
  split; [rewrite P2; cbn; set_solver|]. split; [rewrite P2; unfold foot; cbn; set_solver|].
  split; [|split; [|split; [|split; [|split]]]].
  - apply (fixed_translate base root T'); [apply (pa_base _ _ _ Hpa)|apply V| |done].
    apply (pool_frame base tf (pa_base _ _ _ Hpa) P1).
  - destruct (held_locked (L_proc i) s) as [nm El]. by exists nm.
  - rewrite (bind_ok _ _ _ _ _ E2). exact E3.
  - rewrite HF'. apply (pa_frame base _ _ s2 Hpa2); try done; [|by apply hart_settle_ok].
    change (k_locks s !! L_kmem = k_locks (locked (L_proc i) s) !! L_kmem). unfold locked, set_lock. cbn. by rewrite lookup_insert_ne.
  - done.
  - change (k_procs s2) with (alter cleared i (k_procs s1)). rewrite (alter_insert_at _ i q) by done. rewrite Hps. apply list_insert_insert_eq.
Qed.

Section Waiting.
Context (xstate_addr : nat -> Z) (me : nat) (p : PCB) (s : kernel).
Context (C : caller me p s) (Hw : lock_free L_wait s).
Abbreviation kwait := (kwait kalloc kfree xstate_addr).

Lemma kwait_starts : kwait 0 s = kwait_turn kalloc kfree xstate_addr me 0 (locked L_wait s).
Proof.
  destruct C as [[Hh _] Hme _ _]. unfold Proc.kwait. rewrite (bind_ok _ _ _ _ _ (myproc_ok s Hh)). fold (me_of s). rewrite Hme.
  unfold the_proc. unfold bind at 1, ret at 1.
  rewrite (bind_ok _ _ _ _ _ (acquire_ok L_wait (settle s) Hw (hart_settle_ok _ Hh))). by rewrite locked_settle.
Qed.


(** When no child is a zombie, kwait returns -1 at once if there is no child or
    the caller was killed, with nothing changed; otherwise the caller sleeps on its own
    entry, with wait_lock free, so that the exit of a child wakes it. *)
Theorem kwait_waits :
  c_noff (h_cpu (k_hart s)) = 0 ->
  (forall k c, k_procs s !! k = Some c -> p_parent c = Some me -> p_state c <> ZOMBIE) ->
  if has_child me (seq 0 64) s && (p_killed p =? 0) then
    exists s', kwait 0 s = Stop Switch s' /\ lock_free L_wait s' /\ k_procs s' = <[me := asleep (Ch_proc me) p]> (k_procs s)
  else kwait 0 s = Ok (-1) (settle s).
Proof.
  intros Hz Hno. pose proof C as [[Hh Hr] Hme Hp [Hlen Hl]].
  assert (me < 64)%nat as Hi by (rewrite <- Hlen; by eapply lookup_lt_Some).
  assert (kwait_scan kalloc kfree xstate_addr (seq 0 64 ++ []) me 0 false (locked L_wait s) =
          Ok (inr (has_child me (seq 0 64) s)) (locked L_wait s)) as E.
  { rewrite (scan_live xstate_addr me s (ca_hart _ _ _ C) (ca_procs _ _ _ C)); [done| |].
    - intros k Hk. apply elem_of_seq in Hk. lia.
    - intros k c _. apply Hno. }
  rewrite app_nil_r in E.
  rewrite kwait_starts. unfold kwait_turn. change (Z.to_nat NPROC) with 64%nat.
  rewrite (bind_ok _ _ _ _ _ E). destruct (has_child me (seq 0 64) s); cbn [andb].
  - assert (killed me (locked L_wait s) = Ok (p_killed p) (locked L_wait s)) as Ek.
    { unfold killed. assert (hart_ok (k_hart (locked L_wait s))) as Hok1 by (apply hart_push_ok; [done|lia]).
      rewrite (bind_ok _ _ _ _ _ (acquire_ok (L_proc me) (locked L_wait s) (free_locked (L_proc me) L_wait s ltac:(done) (Hl me Hi)) Hok1)).
      rewrite (bind_ok _ _ _ _ _ (pget_ok me p p_killed (locked (L_proc me) (locked L_wait s)) Hp)).
      by rewrite (bind_ok _ _ _ _ _ (release_inner (L_proc me) L_wait (fun x => x) s private_id ltac:(done) (Hl me Hi) Hh ltac:(lia))). }
    rewrite (bind_ok _ _ _ _ _ Ek). unfold truthy. destruct (p_killed p =? 0); cbn [negb].
    + eexists. split; [unfold bind; by rewrite (sleep_ok (Ch_proc me) L_wait me p s)|]. split; [|by apply alter_insert_at].
      by apply (free_locked L_wait (L_proc me)).
    + by rewrite (bind_ok _ _ _ _ _ (release_locked L_wait s Hw Hh)).
  - unfold bind at 1, ret at 1. change (truthy 1) with true. cbn match. by rewrite (bind_ok _ _ _ _ _ (release_locked L_wait s Hw Hh)).
Qed.
End Waiting.

End Process.

(** ** A concrete machine *)

#[local] Existing Instance demo_layout.
#[local] Existing Instance kalloc_allocator.
#[local] Opaque boot_kernel.

(** The kernel [t] with the memory and the allocator of [s]. *)
Definition graft (s t : kernel) : kernel :=
  set_mem (k_mem s) (set_kmem (k_kmem s)
    (set_locks (partial_alter (fun _ => k_locks s !! L_kmem) L_kmem (k_locks t)) t)).

Lemma graft_pa base F s t : pa_inv base F s -> hart_ok (k_hart t) -> pa_inv base F (graft s t).
Proof. intros Hpa Hh. apply (pa_frame base F s); try done. exact (lookup_partial_alter_eq _ _ _). Qed.

Lemma graft_free l s t : l <> L_kmem -> lock_free l t -> lock_free l (graft s t).
Proof. intros Hne [nm E]. exists nm. etransitivity; [by apply lookup_partial_alter_ne|exact E]. Qed.

Lemma boot_roomy : roomy (k_hart boot_kernel).
Proof. vm_compute. repeat split; congruence || (intros; discriminate). Qed.

Lemma graft_ready s t : procs_ready t -> procs_ready (graft s t).
Proof. intros [H1 H2]. split; [done|]. intros i Hi. by apply graft_free; [|apply H2]. Qed.

Lemma boot_ready : procs_ready boot_kernel.
Proof. split; [by rewrite boot_procs|exact boot_proc_locks]. Qed.

Lemma boot_free : forall l, l ∈ [L_pid; L_wait] -> lock_free l boot_kernel.
Proof.
  intros l Hl. apply elem_of_cons in Hl as [->|Hl]; [by exists "nextpid"|]. apply list_elem_of_singleton in Hl as ->.
  by exists "wait_lock".
Qed.

Lemma allocproc_roundtrip_witness :
  exists s s1 s2, allocproc kalloc kfree 0 s = Ok (Some 0%nat) s1 /\
    (do! uFreeProc kalloc kfree 0; release (L_proc 0)) s1 = Ok tt s2.
Proof.
  destruct demo_plenty as (F & s & Hpa & _ & Hsz).
  destruct (allocproc_roundtrip kalloc kfree 0 demo_base F 0 PCB_zero (graft s boot_kernel))
    as (s1 & s2 & q & E1 & _ & _ & _ & _ & _ & _ & _ & _ & E2 & _).
  - split.
    + exact boot_roomy.
    + apply graft_ready, boot_ready.
    + change (k_procs boot_kernel !! 0%nat = Some PCB_zero). by rewrite boot_procs.
    + reflexivity.
    + intros j q Hj. lia.
    + split; [apply graft_free; [done|apply boot_free; left]|]. change (k_nextpid (graft s boot_kernel)) with (k_nextpid boot_kernel).
      vm_compute. split; congruence.
  - reflexivity.
  - apply graft_pa; [exact Hpa|apply boot_roomy].
  - lia.
  - exists (graft s boot_kernel), s1, s2. split; [exact E1|exact E2].
Defined.

(** Process 0 runs, and process 5 is its child. *)
Definition family (child : PCB) : kernel :=
  set_procs (<[5%nat := child]> (k_procs boot_kernel))
    (set_cpu {| c_proc := Some 0%nat; c_noff := 0; c_intena := 0 |} boot_kernel).

Definition a_child (st : procstate) (tf root : Z) : PCB :=
  with_parent (Some 0%nat) (with_pid 7 (with_pagetable root (with_trapframe tf (with_state st PCB_zero)))).

Lemma family_proc child s j : k_procs (graft s (family child)) !! j = if decide (j = 5%nat) then Some child else replicate 64 PCB_zero !! j.
Proof.
  change (k_procs (graft s (family child))) with (<[5%nat := child]> (k_procs boot_kernel)). rewrite boot_procs.
  destruct (decide (j = 5%nat)) as [->|Hne]; [by rewrite list_lookup_insert_eq by (rewrite length_replicate; lia)|by rewrite list_lookup_insert_ne].
Qed.

Lemma family_caller child s : caller 0 PCB_zero (graft s (family child)).
Proof.
  split.
  - vm_compute. repeat split; congruence || (intros; discriminate).
  - reflexivity.
  - by rewrite family_proc.
  - apply graft_ready. split; [cbn; by rewrite length_insert, boot_procs|exact boot_proc_locks].
Qed.

Lemma family_wait child s : lock_free L_wait (graft s (family child)).
Proof. apply graft_free; [done|]. apply (boot_free L_wait). right. left. Qed.


Lemma kwait_waits_witness :
  exists s s', kwait kalloc kfree (fun _ => 0) 0 s = Stop Switch s' /\ lock_free L_wait s'.
Proof.
  pose proof (kwait_waits kalloc kfree (fun _ => 0) 0 PCB_zero (graft boot_kernel (family (a_child RUNNABLE 0 0)))
    (family_caller _ boot_kernel) (family_wait _ boot_kernel)) as H.
  assert (has_child 0 (seq 0 64) (graft boot_kernel (family (a_child RUNNABLE 0 0))) = true) as Hc by (vm_compute; reflexivity).
  rewrite Hc in H. destruct H as (s' & E & Hw & _).
  - reflexivity.
  - intros k c Hk. rewrite family_proc in Hk. destruct (decide (k = 5%nat)); [by injection Hk as <-|].
    by apply lookup_replicate in Hk as [-> _].
  - eexists _, s'. split; [exact E|exact Hw].
Defined.
