(* ===== verification/Exec.v ===== *)
(** * kernel/lib/exec.c: loading a program

    kexec replaces the memory of the process by that of an ELF file and puts the
    arguments on the new stack. The local structures of the code are on the kernel's
    stack, at addresses the compiler chooses: [elf], [ph] and [ustack]. *)

From S2P Require Import Prelude Mem CString State Spinlock Printf Locks PageAlloc Vm Sleep Bio Bytes Log Fs File Proc.

(** ** include/elf.h *)

Definition ELF_MAGIC : Z := 0x464C457F.
Definition ELF_PROG_LOAD : Z := 1.
Definition sizeof_elfhdr : Z := 64.
Definition sizeof_proghdr : Z := 56.

Record elfhdr := { eh_magic : Z; eh_entry : Z; eh_phoff : Z; eh_phnum : Z }.
Record proghdr := { ph_type : Z; ph_flags : Z; ph_off : Z; ph_vaddr : Z; ph_filesz : Z; ph_memsz : Z }.

(** The fields the code uses, at their offsets. *)
Definition load_elfhdr (m : mem) (a : Z) : elfhdr :=
  {| eh_magic := load32 m a; eh_entry := load64 m (a + 24); eh_phoff := load64 m (a + 32);
     eh_phnum := le_load 2 m (a + 56) |}.
Definition load_proghdr (m : mem) (a : Z) : proghdr :=
  {| ph_type := load32 m a; ph_flags := load32 m (a + 4); ph_off := load64 m (a + 8); ph_vaddr := load64 m (a + 16);
     ph_filesz := load64 m (a + 32); ph_memsz := load64 m (a + 40) |}.

Definition flags2perm (flags : Z) : Z :=
  let perm := if truthy (Z.land flags 0x1) then PTE_X else 0 in
  if truthy (Z.land flags 0x2) then Z.lor perm PTE_W else perm.

Definition TF_a1 : Z := 120.

(** The part of the path after its last slash. *)
Fixpoint last_elem (path last : list Z) : list Z :=
  match path with
  | [] => last
  | c :: path' => last_elem path' (if c =? 47 then path' else last)
  end.

Section Routines.
Context `{Layout}.
Context (virtio_disk_rw : nat -> Z -> KM unit) (kalloc : KM Z) (kfree : Z -> KM unit).
Context (buf_addr : nat -> Z) (stack elf ph ustack : Z).
Abbreviation iput := (iput virtio_disk_rw).
Abbreviation ilock := (ilock virtio_disk_rw).
Abbreviation readi := (readi virtio_disk_rw kalloc kfree buf_addr).
Abbreviation namei := (namei virtio_disk_rw kalloc kfree buf_addr stack).
Abbreviation end_op := (end_op virtio_disk_rw).
Abbreviation procPagetable := (procPagetable kalloc kfree).
Abbreviation uFreeUserVM := (uFreeUserVM kalloc kfree).
Abbreviation uVmAlloc := (uVmAlloc kalloc kfree).
Abbreviation copyout := (copyout kalloc kfree).
Abbreviation uVA2PA := (uVA2PA kalloc).
Abbreviation uvmclear := (uvmclear kalloc).

(** One turn for each page of the segment. *)
Fixpoint loadseg_loop (fuel : nat) (pagetable va : Z) (ip : nat) (offset sz i : Z) : KM Z :=
  match fuel with
  | O => halt OutOfFuel
  | S f =>
      if i <? sz then
        let! pa := uVA2PA pagetable (u64 (va + i)) in
        if pa =? 0 then panic "loadseg: address should exist"
        else
          let n := if sz - i <? PGSIZE then sz - i else PGSIZE in
          let! r := readi ip 0 pa (u32 (offset + i)) n in
          if negb (u32 r =? n) then ret (-1)
          else loadseg_loop f pagetable va ip offset sz (u32 (i + PGSIZE))
      else ret 0
  end.

Definition loadseg (pagetable va : Z) (ip : nat) (offset sz : Z) : KM Z :=
  loadseg_loop (S (S (Z.to_nat (sz / PGSIZE)))) pagetable va ip offset sz 0.

(** The loop over the program headers: the size of the memory, and whether every
    segment was loaded. *)
Fixpoint load_loop (k : nat) (pagetable : Z) (ip : nat) (off sz : Z) : KM (bool * Z) :=
  match k with
  | O => ret (true, sz)
  | S k' =>
      let! r := readi ip 0 ph (u32 off) sizeof_proghdr in
      if negb (r =? sizeof_proghdr) then ret (false, sz)
      else
        let! h := get (fun s => load_proghdr (k_mem s) ph) in
        let next sz := load_loop k' pagetable ip (s32 (off + sizeof_proghdr)) sz in
        if negb (ph_type h =? ELF_PROG_LOAD) then next sz
        else if ph_memsz h <? ph_filesz h then ret (false, sz)
        else if u64 (ph_vaddr h + ph_memsz h) <? ph_vaddr h then ret (false, sz)
        else if negb (ph_vaddr h mod PGSIZE =? 0) then ret (false, sz)
        else
          let! sz1 := uVmAlloc pagetable sz (u64 (ph_vaddr h + ph_memsz h)) (flags2perm (ph_flags h)) in
          if sz1 =? 0 then ret (false, sz)
          else
            let! r := loadseg pagetable (ph_vaddr h) ip (u32 (ph_off h)) (u32 (ph_filesz h)) in
            if r <? 0 then ret (false, sz1) else next sz1
  end.

(** The label bad. *)
Definition exec_bad (pagetable sz : Z) (ip : option nat) : KM Z :=
  do! (when! negb (pagetable =? 0) then uFreeUserVM pagetable sz);
  do! (match ip with
       | Some i =>
           do! iunlock i;
           do! iput i;
           end_op
       | None => ret tt
       end);
  ret (-1).

Definition str_len (a : Z) : KM Z :=
  let! n := get (fun s => strlen (Z.to_nat PGSIZE) (k_mem s) a) in
  match n with Some n => ret n | None => halt (Undefined "strlen") end.

(** The loop that pushes the arguments: argc and sp, or [None] when they do not
    fit. [fuel] is what is left of argv. *)
Fixpoint push_args (fuel : nat) (pagetable stackbase : Z) (argv : list Z) (argc : nat) (sp : Z) : KM (option (nat * Z)) :=
  match fuel, argv !! argc with
  | S f, Some arg =>
      if arg =? 0 then ret (Some (argc, sp))
      else if MAXARG <=? Z.of_nat argc then ret None
      else
        let! n := str_len arg in
        let sp := u64 (sp - (n + 1)) in
        let sp := sp - sp mod 16 in
        if sp <? stackbase then ret None
        else
          let! r := copyout pagetable sp arg (n + 1) in
          if r <? 0 then ret None
          else
            do! st64 (ustack + 8 * Z.of_nat argc) sp;
            push_args f pagetable stackbase argv (S argc) sp
  | _, _ => halt (Undefined "argv")
  end.

(** kexec from the new stack on, with the program loaded. *)
Definition exec_commit (p : nat) (path argv : list Z) (pagetable sz entry : Z) : KM Z :=
  let! oldsz := pget p p_sz in
  let sz := PGROUNDUP sz in
  let! sz1 := uVmAlloc pagetable sz (u64 (sz + (USERSTACK + 1) * PGSIZE)) PTE_W in
  if sz1 =? 0 then exec_bad pagetable sz None
  else
    let sz := sz1 in
    do! uvmclear pagetable (u64 (sz - (USERSTACK + 1) * PGSIZE));
    let stackbase := u64 (sz - USERSTACK * PGSIZE) in
    let! r := push_args (S (length argv)) pagetable stackbase argv 0 sz in
    match r with
    | None => exec_bad pagetable sz None
    | Some (argc, sp) =>
        do! st64 (ustack + 8 * Z.of_nat argc) 0;
        let sp := u64 (sp - (Z.of_nat argc + 1) * 8) in
        let sp := sp - sp mod 16 in
        if sp <? stackbase then exec_bad pagetable sz None
        else
          let! r := copyout pagetable sp ustack ((Z.of_nat argc + 1) * 8) in
          if r <? 0 then exec_bad pagetable sz None
          else
            let! tf := pget p p_trapframe in
            do! st64 (tf + TF_a1) sp;
            do! set_proc p (fun q => with_name (lsafestrcpy (p_name q) (last_elem path path) 16) q);
            let! oldpagetable := pget p p_pagetable in
            do! set_proc p (with_pagetable pagetable);
            do! set_proc p (with_sz sz);
            do! st64 (tf + TF_epc) entry;
            do! st64 (tf + TF_sp) sp;
            do! uFreeUserVM oldpagetable oldsz;
            ret (Z.of_nat argc)
    end.

Definition kexec (path argv : list Z) : KM Z :=
  let! me := myproc in
  let! p := the_proc me in
  do! begin_op;
  let! ip := namei path in
  match ip with
  | None => do! end_op; ret (-1)
  | Some ip =>
      do! ilock ip;
      let! r := readi ip 0 elf 0 sizeof_elfhdr in
      if negb (r =? sizeof_elfhdr) then exec_bad 0 0 (Some ip)
      else
        let! h := get (fun s => load_elfhdr (k_mem s) elf) in
        if negb (eh_magic h =? ELF_MAGIC) then exec_bad 0 0 (Some ip)
        else
          let! tf := pget p p_trapframe in
          let! pagetable := procPagetable tf in
          if pagetable =? 0 then exec_bad 0 0 (Some ip)
          else
            let! ' (ok, sz) := load_loop (Z.to_nat (eh_phnum h)) pagetable ip (s32 (eh_phoff h)) 0 in
            if negb (ok : bool) then exec_bad pagetable sz (Some ip)
            else
              do! iunlock ip;
              do! iput ip;
              do! end_op;
              let! me := myproc in
              let! p := the_proc me in
              exec_commit p path argv pagetable sz (eh_entry h)
  end.

End Routines.
