(* ===== verification/Syscall.v ===== *)
(** * System calls: kernel/lib/syscall.c, kernel/proc/sysproc.c and kernel/disk/sysfile.c

    A system call finds its arguments in the registers the trap saved in the
    trapframe. The handlers' results are C values of type uint64; here they are the
    integers before the conversion, which [syscall] does when it stores a0. The local
    buffers are at the addresses [path_buf] and [uarg]. *)

From S2P Require Import Prelude Mem CString State Spinlock Printf Locks PageAlloc Vm Sleep Bio Bytes Log Fs File Proc Exec.

(** ** include/syscall.h, include/fcntl.h *)

Definition SYS_hello : Z := 1.
Definition SYS_exit : Z := 2.
Definition SYS_wait : Z := 3.
Definition SYS_fork : Z := 4.
Definition SYS_exec : Z := 5.
Definition SYS_open : Z := 6.
Definition SYS_dup : Z := 7.
Definition SYS_mknod : Z := 8.
Definition SYS_write : Z := 9.
Definition SYS_read : Z := 10.
Definition SYS_close : Z := 11.
Definition SYS_getpid : Z := 12.
Definition SYS_unlink : Z := 13.
Definition SYS_uptime : Z := 14.
Definition O_RDONLY : Z := 0x000.
Definition O_WRONLY : Z := 0x001.
Definition O_RDWR : Z := 0x002.
Definition O_CREATE : Z := 0x200.
Definition O_TRUNC : Z := 0x400.
Definition TF_a7 : Z := 168.

(** [myproc()->f] *)
Definition me_get {A} (f : PCB -> A) : KM A :=
  let! p := myproc in
  proc_get p f.

(** ** Arguments *)

Definition argraw (n : Z) : KM Z :=
  let! tf := me_get p_trapframe in
  ld64 (tf + TF_a0 + (if (1 <=? n) && (n <=? 5) then 8 * n else 0)).

Definition argint (n : Z) : KM Z := let! v := argraw n in ret (s32 v).
Definition argaddr (n : Z) : KM Z := argraw n.

(** The descriptor in argument [n] and its file, or [None]. *)
Definition argfd (n : Z) : KM (option (nat * nat)) :=
  let! fd := argint n in
  if (fd <? 0) || (NOFILE <=? fd) then ret None
  else
    let! files := me_get p_ofile in
    match default None (files !! Z.to_nat fd) with
    | Some f => ret (Some (Z.to_nat fd, f))
    | None => ret None
    end.

Fixpoint first_null (fs : list (option nat)) (fd : nat) : option nat :=
  match fs with
  | [] => None
  | None :: _ => Some fd
  | Some _ :: fs' => first_null fs' (S fd)
  end.

Definition fdalloc (f : nat) : KM Z :=
  let! me := myproc in
  let! p := the_proc me in
  let! files := pget p p_ofile in
  match first_null (take (Z.to_nat NOFILE) files) 0 with
  | Some fd => do! set_proc p (with_ofile fd (Some f)); ret (Z.of_nat fd)
  | None => ret (-1)
  end.

Definition sys_hello : KM Z := do! printf ("Hello, world!" ++ nl) []; ret 0.

Definition sys_getpid : KM Z := me_get p_pid.

Definition sys_uptime : KM Z :=
  do! acquire L_ticks;
  let! x := get k_ticks in
  do! release L_ticks;
  ret x.

Definition sys_dup : KM Z :=
  let! r := argfd 0 in
  match r with
  | None => ret (-1)
  | Some (_, f) =>
      let! fd := fdalloc f in
      if fd <? 0 then ret (-1)
      else
        let! _ := filedup f in
        ret fd
  end.

Section Routines.
Context `{Layout}.
Context (virtio_disk_rw : nat -> Z -> KM unit) (kalloc : KM Z) (kfree : Z -> KM unit).
Context (buf_addr : nat -> Z) (stack elf ph ustack path_buf uarg : Z).
Context (forkret_addr : Z) (xstate_addr : nat -> Z).
Abbreviation iput := (iput virtio_disk_rw).
Abbreviation ilock := (ilock virtio_disk_rw).
Abbreviation iupdate := (iupdate virtio_disk_rw).
Abbreviation itrunc := (itrunc virtio_disk_rw).
Abbreviation ialloc := (ialloc virtio_disk_rw).
Abbreviation writei := (writei virtio_disk_rw kalloc kfree buf_addr).
Abbreviation readi := (readi virtio_disk_rw kalloc kfree buf_addr).
Abbreviation dirlookup := (dirlookup virtio_disk_rw kalloc kfree buf_addr stack).
Abbreviation dirlink := (dirlink virtio_disk_rw kalloc kfree buf_addr stack).
Abbreviation namei := (namei virtio_disk_rw kalloc kfree buf_addr stack).
Abbreviation nameiparent := (nameiparent virtio_disk_rw kalloc kfree buf_addr stack).
Abbreviation end_op := (end_op virtio_disk_rw).
Abbreviation fileclose := (fileclose virtio_disk_rw).
Abbreviation fileread := (fileread virtio_disk_rw kalloc kfree buf_addr).
Abbreviation filewrite := (filewrite virtio_disk_rw kalloc kfree buf_addr stack).
Abbreviation copyin := (copyin kalloc kfree).
Abbreviation copyinstr := (copyinstr kalloc).
Abbreviation kexec := (kexec virtio_disk_rw kalloc kfree buf_addr stack elf ph ustack).

(** ** Memory arguments *)

(** The word is left at [uarg]. *)
Definition fetchaddr (addr : Z) : KM Z :=
  let! sz := me_get p_sz in
  if (sz <=? addr) || (sz <? u64 (addr + 8)) then ret (-1)
  else
    let! t := me_get p_pagetable in
    let! r := copyin t uarg addr 8 in
    if negb (r =? 0) then ret (-1) else ret 0.

Definition fetchstr (addr buf max : Z) : KM Z :=
  let! t := me_get p_pagetable in
  let! r := copyinstr t buf addr max in
  if r <? 0 then ret (-1)
  else
    let! n := get (fun s => strlen (Z.to_nat max) (k_mem s) buf) in
    match n with Some n => ret n | None => halt (Undefined "strlen") end.

Definition argstr (n buf max : Z) : KM Z :=
  let! addr := argaddr n in
  fetchstr addr buf max.

(** The path in argument 0, or [None]. *)
Definition argpath : KM (option (list Z)) :=
  let! n := argstr 0 path_buf MAXPATH in
  if n <? 0 then ret None
  else
    let! path := get (fun s => rd_bytes (k_mem s) path_buf (Z.to_nat n)) in
    ret (Some path).

(** ** kernel/disk/sysfile.c *)

Definition iunlockput (ip : nat) : KM unit :=
  do! iunlock ip;
  iput ip.

(** [char name[DIRSIZ]] starts with whatever the stack held. *)
Definition stack_name : KM (list Z) :=
  get (fun s => rd_bytes (k_mem s) (stack + 16) (Z.to_nat DIRSIZ)).

Definition dot : list Z := [46; 0].
Definition dotdot : list Z := [46; 46; 0].

(** The label fail of create. *)
Definition create_fail (ip dp : nat) : KM (option nat) :=
  do! upd_di ip (di_set_nlink 0);
  do! iupdate ip;
  do! iunlockput ip;
  do! iunlockput dp;
  ret None.

Definition create (path : list Z) (type major minor : Z) : KM (option nat) :=
  let! junk := stack_name in
  let! ' (dp, name) := nameiparent path junk in
  match dp with
  | None => ret None
  | Some dp =>
      do! ilock dp;
      let! found := dirlookup dp name in
      match found with
      | Some (ip, _) =>
          do! iunlock dp;
          do! iput dp;
          do! ilock ip;
          let! di := inode_get ip i_di in
          if (type =? T_FILE) && ((di_type di =? T_FILE) || (di_type di =? T_DEVICE)) then ret (Some ip)
          else do! iunlockput ip; ret None
      | None =>
          let! dev := inode_get dp i_dev in
          let! ip := ialloc dev type in
          match ip with
          | None => do! iunlockput dp; ret None
          | Some ip =>
              do! ilock ip;
              do! upd_di ip (di_set_dev (s16 major) (s16 minor));
              do! upd_di ip (di_set_nlink 1);
              do! iupdate ip;
              let! inum := inode_get ip i_inum in
              let! dinum := inode_get dp i_inum in
              let! r := (if type =? T_DIR then
                           let! r := dirlink ip dot inum in
                           if r <? 0 then ret r else dirlink ip dotdot dinum
                         else ret 0) in
              if r <? 0 then create_fail ip dp
              else
                let! r := dirlink dp name inum in
                if r <? 0 then create_fail ip dp
                else
                  do! (when! type =? T_DIR then
                         do! upd_di dp (fun d => di_set_nlink (s16 (di_nlink d + 1)) d);
                         iupdate dp);
                  do! iunlockput dp;
                  ret (Some ip)
          end
      end
  end.

Definition sys_mknod : KM Z :=
  do! begin_op;
  let! major := argint 1 in
  let! minor := argint 2 in
  let! path := argpath in
  let! ip := (match path with
              | None => ret None
              | Some path => create path T_DEVICE major minor
              end) in
  match ip with
  | None => do! end_op; ret (-1)
  | Some ip =>
      do! iunlockput ip;
      do! end_op;
      ret 0
  end.

(** The fields sys_open sets. *)
Definition opened_file (ip : nat) (di : dinode) (omode : Z) (f : file) : file :=
  let device := di_type di =? T_DEVICE in
  {| f_type := if device then FD_DEVICE else FD_INODE; f_ref := f_ref f;
     f_readable := b2z (negb (truthy (Z.land omode O_WRONLY)));
     f_writable := b2z (truthy (Z.land omode O_WRONLY) || truthy (Z.land omode O_RDWR));
     f_ip := Some ip; f_off := if device then f_off f else 0; f_major := if device then di_major di else f_major f |}.

(** sys_open from the inode on. *)
Definition open_inode (ip : nat) (omode : Z) : KM Z :=
  let! di := inode_get ip i_di in
  if (di_type di =? T_DEVICE) && ((di_major di <? 0) || (NDEV <=? di_major di)) then
    do! iunlockput ip;
    do! end_op;
    ret (-1)
  else
    let! f := filealloc in
    let! fd := (match f with None => ret (-1) | Some f => fdalloc f end) in
    match f with
    | Some f =>
        if fd <? 0 then
          do! fileclose f;
          do! iunlockput ip;
          do! end_op;
          ret (-1)
        else
          do! modify (upd_file f (opened_file ip di omode));
          do! (when! truthy (Z.land omode O_TRUNC) && (di_type di =? T_FILE) then itrunc ip);
          do! iunlock ip;
          do! end_op;
          ret fd
    | None =>
        do! iunlockput ip;
        do! end_op;
        ret (-1)
    end.

Definition sys_open : KM Z :=
  let! omode := argint 1 in
  let! path := argpath in
  match path with
  | None => ret (-1)
  | Some path =>
      do! begin_op;
      if truthy (Z.land omode O_CREATE) then
        let! ip := create path T_FILE 0 0 in
        match ip with
        | None => do! end_op; ret (-1)
        | Some ip => open_inode ip omode
        end
      else
        let! ip := namei path in
        match ip with
        | None => do! end_op; ret (-1)
        | Some ip =>
            do! ilock ip;
            let! di := inode_get ip i_di in
            if (di_type di =? T_DIR) && negb (omode =? O_RDONLY) then
              do! iunlock ip;
              do! iput ip;
              do! end_op;
              ret (-1)
            else open_inode ip omode
        end
  end.

Definition sys_write : KM Z :=
  let! p := argaddr 1 in
  let! n := argint 2 in
  let! r := argfd 0 in
  match r with
  | None => ret (-1)
  | Some (_, f) => if p <=? 0 then ret (-1) else filewrite f p n
  end.

(** argfd's result is not looked at: without a file [f] is not initialised. *)
Definition sys_read : KM Z :=
  let! r := argfd 0 in
  let! p := argaddr 1 in
  let! n := argint 2 in
  match r with
  | None => halt (Undefined "sys_read: f")
  | Some (_, f) => fileread f p n
  end.

Definition sys_close : KM Z :=
  let! r := argfd 0 in
  match r with
  | None => ret (-1)
  | Some (fd, f) =>
      let! me := myproc in
      let! p := the_proc me in
      do! set_proc p (with_ofile fd None);
      do! fileclose f;
      ret 0
  end.

Definition namecmp (s t : list Z) : Z := lstrncmp (Z.to_nat DIRSIZ) s t.

Fixpoint isdirempty_loop (fuel : nat) (dp : nat) (off : Z) : KM Z :=
  match fuel with
  | O => halt OutOfFuel
  | S f =>
      let! di := inode_get dp i_di in
      if u32 off <? di_size di then
        let! r := readi dp 0 stack (u32 off) sizeof_dirent in
        if negb (r =? sizeof_dirent) then panic "isdirempty: readi"
        else
          let! de := get (fun s => rd_bytes (k_mem s) stack (Z.to_nat sizeof_dirent)) in
          if negb (de_inum de =? 0) then ret 0 else isdirempty_loop f dp (s32 (off + sizeof_dirent))
      else ret 1
  end.

Definition isdirempty (dp : nat) : KM Z :=
  let! di := inode_get dp i_di in
  isdirempty_loop (dir_fuel (di_size di)) dp (2 * sizeof_dirent).

(** The label bad of sys_unlink. *)
Definition unlink_bad (dp : nat) : KM Z :=
  do! iunlockput dp;
  do! end_op;
  ret (-1).

Definition sys_unlink : KM Z :=
  let! path := argpath in
  match path with
  | None => ret (-1)
  | Some path =>
      do! begin_op;
      let! junk := stack_name in
      let! ' (dp, name) := nameiparent path junk in
      match dp with
      | None => do! end_op; ret (-1)
      | Some dp =>
          do! ilock dp;
          if (namecmp name dot =? 0) || (namecmp name dotdot =? 0) then unlink_bad dp
          else
            let! found := dirlookup dp name in
            match found with
            | None => unlink_bad dp
            | Some (ip, off) =>
                do! ilock ip;
                let! di := inode_get ip i_di in
                if di_nlink di <? 1 then panic "unlink: nlink < 1"
                else
                  let! full := (if di_type di =? T_DIR then let! e := isdirempty ip in ret (e =? 0) else ret false) in
                  if full : bool then
                    do! iunlockput ip;
                    unlink_bad dp
                  else
                    do! kmemset stack 0 sizeof_dirent;
                    let! r := writei dp 0 stack off sizeof_dirent in
                    if negb (r =? sizeof_dirent) then panic "unlink: writei"
                    else
                      do! (when! di_type di =? T_DIR then
                             do! upd_di dp (fun d => di_set_nlink (s16 (di_nlink d - 1)) d);
                             iupdate dp);
                      do! iunlockput dp;
                      do! upd_di ip (fun d => di_set_nlink (s16 (di_nlink d - 1)) d);
                      do! iupdate ip;
                      do! iunlockput ip;
                      do! end_op;
                      ret 0
            end
      end
  end.

(** ** kernel/proc/sysproc.c *)

Definition sys_exit : KM Z :=
  let! n := argint 0 in
  do! kexit virtio_disk_rw n;
  ret 0.

Definition sys_wait : KM Z :=
  let! p := argaddr 0 in
  kwait kalloc kfree xstate_addr p.

Definition sys_fork : KM Z := kfork kalloc kfree forkret_addr.

(** The loop of sys_exec: the pages with the arguments, and whether all were
    fetched. *)
Fixpoint exec_args (fuel : nat) (uargv : Z) (argv : list Z) : KM (bool * list Z) :=
  match fuel with
  | O => halt OutOfFuel
  | S f =>
      let i := Z.of_nat (length argv) in
      if MAXARG <=? i then ret (false, argv)
      else
        let! r := fetchaddr (u64 (uargv + 8 * i)) in
        if r <? 0 then ret (false, argv)
        else
          let! arg := ld64 uarg in
          if arg =? 0 then ret (true, argv)
          else
            let! page := kalloc in
            if page =? 0 then ret (false, argv)
            else
              let! r := fetchstr arg page PGSIZE in
              if r <? 0 then ret (false, argv ++ [page]) else exec_args f uargv (argv ++ [page])
  end.

Definition sys_exec : KM Z :=
  let! uargv := argaddr 1 in
  let! path := argpath in
  match path with
  | None => ret (-1)
  | Some path =>
      let! ' (ok, argv) := exec_args (S (S (Z.to_nat MAXARG))) uargv [] in
      if ok : bool then
        let! r := kexec path (argv ++ replicate (Z.to_nat MAXARG - length argv) 0) in
        do! foreach argv kfree;
        ret r
      else
        do! printf ("exec bad" ++ nl) [];
        do! foreach argv kfree;
        ret (-1)
  end.

(** ** kernel/lib/syscall.c *)

(** syscalls[num]; SYS_getpid has no entry. *)
Definition syscalls (num : Z) : option (KM Z) :=
  if num =? SYS_hello then Some sys_hello
  else if num =? SYS_exit then Some sys_exit
  else if num =? SYS_wait then Some sys_wait
  else if num =? SYS_fork then Some sys_fork
  else if num =? SYS_exec then Some sys_exec
  else if num =? SYS_open then Some sys_open
  else if num =? SYS_dup then Some sys_dup
  else if num =? SYS_mknod then Some sys_mknod
  else if num =? SYS_write then Some sys_write
  else if num =? SYS_read then Some sys_read
  else if num =? SYS_unlink then Some sys_unlink
  else if num =? SYS_close then Some sys_close
  else if num =? SYS_uptime then Some sys_uptime
  else None.

Definition syscall : KM unit :=
  let! me := myproc in
  let! p := the_proc me in
  let! tf := pget p p_trapframe in
  let! a7 := ld64 (tf + TF_a7) in
  let num := s32 a7 in
  match syscalls num with
  | Some handler =>
      let! r := handler in
      let! tf := pget p p_trapframe in
      st64 (tf + TF_a0) (u64 r)
  | None =>
      let! pid := pget p p_pid in
      let! tp := get (fun s => h_tp (k_hart s)) in
      do! printf ("%d %d: unknown sys call %d" ++ nl) [VNum pid; VNum tp; VNum num];
      let! tf := pget p p_trapframe in
      st64 (tf + TF_a0) (u64 (-1))
  end.

End Routines.
