(* ===== verification/SyscallProps.v ===== *)
(** * Descriptors and the files they refer to

    The system calls on descriptors keep the count in each entry of the file table
    equal to the number of descriptors, of all processes, that refer to it. *)

From S2P Require Import Prelude Mem CString State Spinlock Printf Locks PageAlloc Kalloc Vm Sleep Critical Bio Bytes BlockCache Log Fs File FileProps Proc Schedule Exec Syscall.

(** ** Counting descriptors *)

Definition refers (i : nat) (o : option nat) : Z := if decide (o = Some i) then 1 else 0.

Fixpoint uses (i : nat) (fs : list (option nat)) : Z :=
  match fs with [] => 0 | o :: fs' => refers i o + uses i fs' end.

Fixpoint descriptors (i : nat) (ps : list PCB) : Z :=
  match ps with [] => 0 | p :: ps' => uses i (p_ofile p) + descriptors i ps' end.

(** Each count is right. *)
Definition counted (s : kernel) : Prop :=
  forall i x, k_ftable s !! i = Some x -> f_ref x = descriptors i (k_procs s).

Lemma uses_insert i fs fd o v :
  fs !! fd = Some o -> uses i (<[fd := v]> fs) = uses i fs - refers i o + refers i v.
Proof.
  revert fd. induction fs as [|o' fs IH]; intros [|fd] Hfd; [done..| |].
  - cbn in Hfd. injection Hfd as ->. cbn [uses]. change (<[0%nat := v]> (o :: fs)) with (v :: fs). cbn [uses]. lia.
  - cbn in Hfd. change (<[S fd := v]> (o' :: fs)) with (o' :: <[fd := v]> fs). cbn [uses]. rewrite (IH fd Hfd). lia.
Qed.

Lemma uses_nonneg i fs : 0 <= uses i fs.
Proof. induction fs as [|o fs IH]; cbn [uses]; [lia|]. unfold refers. destruct (decide _); lia. Qed.

Lemma uses_member i fs fd : fs !! fd = Some (Some i) -> 1 <= uses i fs.
Proof.
  intros Hfd. pose proof (uses_nonneg i (<[fd := None]> fs)) as Hn. rewrite (uses_insert i fs fd (Some i) None Hfd) in Hn.
  unfold refers in Hn. rewrite decide_True, decide_False in Hn by done. lia.
Qed.

Lemma descriptors_nonneg i ps : 0 <= descriptors i ps.
Proof. induction ps as [|p ps IH]; cbn [descriptors]; [lia|]. pose proof (uses_nonneg i (p_ofile p)). lia. Qed.

Lemma descriptors_alter i ps k p f :
  ps !! k = Some p -> descriptors i (alter f k ps) = descriptors i ps - uses i (p_ofile p) + uses i (p_ofile (f p)).
Proof.
  revert k. induction ps as [|q ps IH]; intros [|k] Hk; [done..| |].
  - cbn in Hk. injection Hk as ->. cbn. lia.
  - cbn in Hk. change (alter f (S k) (q :: ps)) with (q :: alter f k ps). cbn [descriptors]. rewrite (IH k Hk). lia.
Qed.

Lemma descriptors_least i ps k p : ps !! k = Some p -> uses i (p_ofile p) <= descriptors i ps.
Proof.
  revert k. induction ps as [|q ps IH]; intros [|k] Hk; [done..| |].
  - cbn in Hk. injection Hk as ->. cbn. pose proof (descriptors_nonneg i ps). lia.
  - cbn in Hk. cbn. pose proof (uses_nonneg i (p_ofile q)). pose proof (IH k Hk). lia.
Qed.

(** ** The lowest free descriptor *)

Lemma first_null_spec fs : forall k,
  match first_null fs k with
  | Some fd => (k <= fd)%nat /\ fs !! (fd - k)%nat = Some None /\ forall j o, (j < fd - k)%nat -> fs !! j = Some o -> o <> None
  | None => forall j o, fs !! j = Some o -> o <> None
  end.
Proof.
  induction fs as [|[f|] fs IH]; intros k; cbn [first_null]; [done| |].
  - specialize (IH (S k)). destruct (first_null fs (S k)) as [fd|].
    + destruct IH as (Hk & Hfd & Hlow). split; [lia|]. replace (fd - k)%nat with (S (fd - S k)) by lia. split; [done|].
      intros [|j] o Hj Ho; [by injection Ho as <-|]. apply (Hlow j); [lia|done].
    + intros [|j] o Ho; [by injection Ho as <-|]. by apply (IH j).
  - split; [lia|]. rewrite Nat.sub_diag. split; [done|]. intros; lia.
Qed.

(** ** Arguments *)

Definition a0_of (p : PCB) (s : kernel) : Z := load64 (k_mem s) (p_trapframe p + TF_a0).

Section Args.
Context (me : nat) (p : PCB) (s : kernel) (C : caller me p s).

Lemma me_get_ok {A} (f : PCB -> A) : me_get f s = Ok (f p) (settle s).
Proof.
  destruct C as [[Hh _] Hme Hp _]. unfold me_get. rewrite (bind_ok _ _ _ _ _ (myproc_ok s Hh)). fold (me_of s). rewrite Hme.
  unfold proc_get, bind, get. change (k_procs (settle s)) with (k_procs s). by rewrite Hp.
Qed.

Lemma argint0_ok : argint 0 s = Ok (s32 (a0_of p s)) (settle s).
Proof.
  unfold argint, argraw. rewrite bind_assoc, (bind_ok _ _ _ _ _ (me_get_ok p_trapframe)). cbn [Z.leb Z.compare andb].
  unfold ld64, bind, get, ret. by rewrite Z.add_0_r.
Qed.
End Args.

(** The descriptor of argument 0, and its file. *)
Definition file_arg (p : PCB) (s : kernel) : option (nat * nat) :=
  let fd := s32 (a0_of p s) in
  if (0 <=? fd) && (fd <? NOFILE)
  then match p_ofile p !! Z.to_nat fd with Some (Some f) => Some (Z.to_nat fd, f) | _ => None end
  else None.

Lemma argfd_ok me p s : caller me p s -> argfd 0 s = Ok (file_arg p s) (settle s).
Proof.
  intros C. unfold argfd. rewrite (bind_ok _ _ _ _ _ (argint0_ok me p s C)). unfold file_arg.
  set (fd := s32 (a0_of p s)). destruct (Z.ltb_spec fd 0) as [H1|H1].
  - rewrite (proj2 (Z.leb_gt 0 fd) H1). done.
  - rewrite (proj2 (Z.leb_le 0 fd) H1). destruct (Z.leb_spec NOFILE fd) as [H2|H2].
    + rewrite (proj2 (Z.ltb_ge fd NOFILE) H2). done.
    + rewrite (proj2 (Z.ltb_lt fd NOFILE) H2). cbn [orb andb].
      rewrite (bind_ok _ _ _ _ _ (me_get_ok me p (settle s) (caller_settle _ _ _ C) p_ofile)), settle_idem.
      by destruct (p_ofile p !! Z.to_nat fd) as [[f|]|].
Qed.

Lemma fdalloc_ok me p f s :
  caller me p s -> length (p_ofile p) = 16%nat ->
  fdalloc f s = match first_null (p_ofile p) 0 with
                | Some fd => Ok (Z.of_nat fd) (upd_proc me (with_ofile fd (Some f)) (settle s))
                | None => Ok (-1) (settle s)
                end.
Proof.
  intros C Hlen. pose proof C as [[Hh _] Hme Hp _]. unfold fdalloc. rewrite (bind_ok _ _ _ _ _ (myproc_ok s Hh)). fold (me_of s). rewrite Hme.
  unfold the_proc. unfold bind at 1, ret at 1. rewrite (bind_ok _ _ _ _ _ (pget_ok me p p_ofile (settle s) Hp)).
  rewrite take_ge by (rewrite Hlen; vm_compute; lia). by destruct (first_null (p_ofile p) 0).
Qed.

Lemma counted_dup s me p fd f x :
  counted s -> k_procs s !! me = Some p -> p_ofile p !! fd = Some None -> k_ftable s !! f = Some x ->
  counted (upd_file f (fl_ref (f_ref x + 1)) (upd_proc me (with_ofile fd (Some f)) s)).
Proof.
  intros Hc Hp Hfd Hx i y. cbn [upd_file set_ftable upd_proc set_procs k_ftable k_procs].
  rewrite (descriptors_alter i _ me p) by done. cbn [with_ofile p_ofile]. rewrite (uses_insert i _ fd None) by done.
  unfold refers at 1. rewrite decide_False by done. rewrite list_lookup_alter. unfold refers.
  destruct (decide (f = i)) as [->|Hne].
  - rewrite Hx. intros E. injection E as <-. cbn [fl_ref f_ref]. rewrite decide_True by done. rewrite (Hc i x Hx). lia.
  - intros E. rewrite decide_False by congruence. rewrite (Hc i y E). lia.
Qed.

(** Sys_dup. When argument 0 is an open descriptor and there is a free one, the
    lowest free descriptor refers to the same file afterwards and is the result; when
    either is missing the result is -1 and nothing changes. The counts of the file
    table stay right. *)
Theorem sys_dup_correct me p s :
  caller me p s -> counted s -> length (p_ofile p) = 16%nat -> lock_free L_ftable s ->
  (forall fd f, file_arg p s = Some (fd, f) -> exists x, k_ftable s !! f = Some x /\ f_ref x < 2 ^ 31 - 1) ->
  match file_arg p s, first_null (p_ofile p) 0 with
  | Some (_, f), Some fd =>
      exists s', sys_dup s = Ok (Z.of_nat fd) s' /\ counted s' /\
        p_ofile p !! fd = Some None /\ (forall j o, (j < fd)%nat -> p_ofile p !! j = Some o -> o <> None) /\
        k_procs s' = alter (with_ofile fd (Some f)) me (k_procs s) /\
        k_ftable s' = alter (fun x => fl_ref (f_ref x + 1) x) f (k_ftable s) /\ k_locks s' = k_locks s
  | _, _ => sys_dup s = Ok (-1) (settle s)
  end.
Proof.
  intros C Hc Hlen Hl Hfile. pose proof C as [[Hh _] _ Hp _]. unfold sys_dup.
  pose proof (argfd_ok me p s C) as Ea. destruct (file_arg p s) as [[fd0 f]|] eqn:Ef; rewrite ?(bind_ok _ _ _ _ _ Ea); [|done].
  pose proof (fdalloc_ok me p f (settle s) (caller_settle _ _ _ C) Hlen) as Eb. rewrite settle_idem in Eb.
  pose proof (first_null_spec (p_ofile p) 0) as Hn.
  destruct (first_null (p_ofile p) 0) as [fd|]; rewrite (bind_ok _ _ _ _ _ Eb); [|done].
  rewrite Nat.sub_0_r in Hn. destruct Hn as (_ & Hfd & Hlow). rewrite (proj2 (Z.ltb_ge (Z.of_nat fd) 0)) by lia.
  destruct (Hfile fd0 f eq_refl) as (x & Hx & Hr).
  assert (1 <= f_ref x) as Hpos.
  { rewrite (Hc f x Hx). pose proof (descriptors_least f _ me p Hp) as Hle.
    assert (p_ofile p !! fd0 = Some (Some f)) as Hm.
    { unfold file_arg in Ef. destruct (_ && _); [|done]. destruct (p_ofile p !! _) as [[g|]|] eqn:Eg; [|done..].
      injection Ef as <- <-. exact Eg. }
    pose proof (uses_member f _ _ Hm). lia. }
  set (s1 := upd_proc me (with_ofile fd (Some f)) (settle s)).
  rewrite (bind_ok _ _ _ _ _ (filedup_ok f x s1 Hl (hart_settle_ok _ Hh) Hx ltac:(lia))).
  eexists. split; [reflexivity|]. split; [|split; [done|split; [done|split; [done|split; [|done]]]]].
  - exact (counted_dup s me p fd f x Hc Hp Hfd Hx).
  - cbn. apply list_alter_ext; [|done]. intros y Hy. congruence.
Qed.

(** ** Closing *)

Lemma counted_close s me p fd f x :
  counted s -> k_procs s !! me = Some p -> p_ofile p !! fd = Some (Some f) -> k_ftable s !! f = Some x ->
  counted (upd_file f (fl_ref (f_ref x - 1)) (upd_proc me (with_ofile fd None) s)).
Proof.
  intros Hc Hp Hfd Hx i y. cbn [upd_file set_ftable upd_proc set_procs k_ftable k_procs].
  rewrite (descriptors_alter i _ me p) by done. cbn [with_ofile p_ofile]. rewrite (uses_insert i _ fd (Some f)) by done.
  rewrite list_lookup_alter. unfold refers. rewrite (decide_False (P := None = Some i)) by done.
  destruct (decide (f = i)) as [->|Hne].
  - rewrite Hx. intros E. injection E as <-. cbn [fl_ref f_ref]. rewrite decide_True by done. rewrite (Hc i x Hx). lia.
  - intros E. rewrite decide_False by congruence. rewrite (Hc i y E). lia.
Qed.

(** Sys_close of a descriptor whose file other descriptors refer to clears the
    descriptor and takes one from the file's count, which stays the number of
    descriptors; with no open descriptor in argument 0 it returns -1 and nothing
    changes. *)
Theorem sys_close_correct virtio_disk_rw me p s :
  caller me p s -> counted s -> lock_free L_ftable s ->
  (forall fd f, file_arg p s = Some (fd, f) -> exists x, k_ftable s !! f = Some x /\ 2 <= f_ref x) ->
  match file_arg p s with
  | Some (fd, f) =>
      exists s', sys_close virtio_disk_rw s = Ok 0 s' /\ counted s' /\
        k_procs s' = alter (with_ofile fd None) me (k_procs s) /\
        k_ftable s' = alter (fun x => fl_ref (f_ref x - 1) x) f (k_ftable s) /\ k_locks s' = k_locks s
  | None => sys_close virtio_disk_rw s = Ok (-1) (settle s)
  end.
Proof.
  intros C Hc Hl Hfile. pose proof C as [[Hh _] Hme Hp _]. unfold sys_close.
  pose proof (argfd_ok me p s C) as Ea. destruct (file_arg p s) as [[fd f]|] eqn:Ef; rewrite (bind_ok _ _ _ _ _ Ea); [|done].
  rewrite (bind_ok _ _ _ _ _ (myproc_ok (settle s) (hart_settle_ok _ Hh))).
  assert (c_proc (h_cpu (k_hart (settle s))) = Some me) as -> by (rewrite <- Hme; apply hart_settle_proc).
  unfold the_proc. unfold bind at 1, ret at 1. rewrite settle_idem. unfold set_proc. unfold bind at 1, modify at 1.
  destruct (Hfile fd f eq_refl) as (x & Hx & Hr).
  assert (p_ofile p !! fd = Some (Some f)) as Hm.
  { unfold file_arg in Ef. destruct (_ && _); [|done]. destruct (p_ofile p !! _) as [[g|]|] eqn:Eg; [|done..].
    injection Ef as <- <-. exact Eg. }
  rewrite (bind_ok _ _ _ _ _ (fileclose_more f x (upd_proc me (with_ofile fd None) (settle s)) Hl (hart_settle_ok _ Hh) Hx Hr)).
  eexists. split; [reflexivity|]. split; [|split; [done|split; [|done]]].
  - exact (counted_close s me p fd f x Hc Hp Hm Hx).
  - cbn. apply list_alter_ext; [|done]. intros y Hy. congruence.
Qed.

(** ** Dispatch *)

Section Dispatch.
Context {L : Layout} (virtio_disk_rw : nat -> Z -> KM unit) (kalloc : KM Z) (kfree : Z -> KM unit).
Context (buf_addr : nat -> Z) (stack elf ph ustack path_buf uarg forkret_addr : Z) (xstate_addr : nat -> Z).
Abbreviation syscalls := (syscalls virtio_disk_rw kalloc kfree buf_addr stack elf ph ustack path_buf uarg forkret_addr xstate_addr).
Abbreviation syscall := (syscall virtio_disk_rw kalloc kfree buf_addr stack elf ph ustack path_buf uarg forkret_addr xstate_addr).

Lemma syscalls_none num : syscalls num = None <-> num < 1 \/ 14 < num \/ num = SYS_getpid.
Proof.
  unfold Syscall.syscalls, SYS_hello, SYS_exit, SYS_wait, SYS_fork, SYS_exec, SYS_open, SYS_dup, SYS_mknod, SYS_write, SYS_read,
    SYS_unlink, SYS_close, SYS_uptime, SYS_getpid.
  repeat match goal with |- context [?a =? ?b] => destruct (Z.eqb_spec a b) end; split; intros; try discriminate; try done; lia.
Qed.

(** The numbers without a system call are those below 1 and above 14 and
    SYS_getpid. A process that asks for one of them gets -1 in a0, and nothing else of
    it or of another process changes. *)
Theorem syscall_unknown me p s num :
  caller me p s -> can_print s -> s32 (load64 (k_mem s) (p_trapframe p + TF_a7)) = num ->
  (syscalls num = None <-> num < 1 \/ 14 < num \/ num = SYS_getpid) /\
  (num < 1 \/ 14 < num \/ num = SYS_getpid ->
   exists s', syscall s = Ok tt s' /\ load64 (k_mem s') (p_trapframe p + TF_a0) = 2 ^ 64 - 1 /\
     (forall a, a < p_trapframe p + TF_a0 \/ p_trapframe p + TF_a0 + 8 <= a -> rd8 (k_mem s') a = rd8 (k_mem s) a) /\
     k_procs s' = k_procs s /\ k_locks s' = k_locks s).
Proof.
  intros C Hpr Hn. split; [apply syscalls_none|]. intros Hu. apply syscalls_none in Hu.
  pose proof C as [[Hh _] Hme Hp _]. unfold Syscall.syscall. rewrite (bind_ok _ _ _ _ _ (myproc_ok s Hh)). fold (me_of s). rewrite Hme.
  unfold the_proc. unfold bind at 1, ret at 1. rewrite (bind_ok _ _ _ _ _ (pget_ok me p p_trapframe (settle s) Hp)).
  unfold bind at 1, ld64, get at 1. change (k_mem (settle s)) with (k_mem s). rewrite Hn, Hu.
  rewrite (bind_ok _ _ _ _ _ (pget_ok me p p_pid (settle s) Hp)). unfold bind at 1, get at 1.
  destruct (printf_ok ("%d %d: unknown sys call %d" ++ nl) [VNum (p_pid p); VNum (h_tp (k_hart (settle s))); VNum num] (settle s))
    as [out E]; [reflexivity|destruct Hpr as (H1 & H2 & H3 & H4 & H5); repeat split; try done; [apply hart_settle_ok, H4..|]|].
  { cbn. by rewrite hart_settle_noff. }
  rewrite (bind_ok _ _ _ _ _ E). rewrite (bind_ok _ _ _ _ _ (pget_ok me p p_trapframe (emit out (settle (settle s))) Hp)).
  eexists. split; [reflexivity|]. split; [|split; [|done]].
  - cbn [k_mem set_mem]. rewrite load64_store64. reflexivity.
  - intros a Ha. cbn [k_mem set_mem]. by rewrite rd8_store64_ne.
Qed.
End Dispatch.

(** ** A process with two descriptors *)

#[local] Opaque boot_kernel.

(** Descriptors 0 and 2 of process 0 refer to file 0. *)
Definition shell : PCB := with_ofile 0 (Some 0%nat) (with_ofile 2 (Some 0%nat) (with_trapframe 4096 PCB_zero)).
Definition shared_file : file :=
  {| f_type := FD_DEVICE; f_ref := 2; f_readable := 1; f_writable := 1; f_ip := Some 0%nat; f_off := 0; f_major := 1 |}.

Definition two_open (a7 : Z) : kernel :=
  set_mem (store64 ∅ (4096 + TF_a7) a7)
    (set_procs (<[0%nat := shell]> (k_procs boot_kernel))
      (set_ftable (<[0%nat := shared_file]> (k_ftable boot_kernel))
        (set_cpu {| c_proc := Some 0%nat; c_noff := 0; c_intena := 0 |} boot_kernel))).

Lemma two_open_caller a7 : caller 0 shell (two_open a7).
Proof.
  split.
  - vm_compute. repeat split; congruence || (intros; discriminate).
  - reflexivity.
  - change (<[0%nat := shell]> (k_procs boot_kernel) !! 0%nat = Some shell). by rewrite boot_procs.
  - split; [change (length (<[0%nat := shell]> (k_procs boot_kernel)) = 64%nat); by rewrite length_insert, boot_procs|].
    exact boot_proc_locks.
Qed.

Lemma boot_files : k_ftable boot_kernel = replicate 100 file_zero.
Proof. vm_compute. reflexivity. Qed.

Lemma boot_ftable_free : lock_free L_ftable boot_kernel.
Proof. eexists. vm_compute. reflexivity. Qed.

Lemma idle_descriptors i n : descriptors i (replicate n PCB_zero) = 0.
Proof.
  induction n as [|n IH]; cbn [replicate descriptors]; [done|]. rewrite IH.
  cbn [PCB_zero p_ofile]. change (replicate 16 None) with (replicate (A := option nat) 16 None).
  assert (forall k, uses i (replicate k None) = 0) as H; [|rewrite H; lia].
  induction k as [|k IHk]; cbn [replicate uses]; [done|]. unfold refers. by rewrite decide_False, IHk.
Qed.

Lemma two_open_counted a7 : counted (two_open a7).
Proof.
  intros i x. change (k_ftable (two_open a7)) with (<[0%nat := shared_file]> (k_ftable boot_kernel)).
  change (k_procs (two_open a7)) with (<[0%nat := shell]> (k_procs boot_kernel)). rewrite boot_files, boot_procs.
  change (<[0%nat := shell]> (replicate 64 PCB_zero)) with (shell :: replicate 63 PCB_zero). cbn [descriptors].
  rewrite idle_descriptors. destruct i as [|i]; intros E.
  - injection E as <-. reflexivity.
  - change (replicate 99 file_zero !! i = Some x) in E. apply lookup_replicate in E as [-> _]. reflexivity.
Qed.

Lemma two_open_arg fd f a7 : file_arg shell (two_open a7) = Some (fd, f) -> f = 0%nat.
Proof.
  unfold file_arg. destruct (_ && _); [|done]. cbn [shell with_ofile p_ofile with_trapframe PCB_zero].
  destruct (Z.to_nat _) as [|[|[|k]]]; cbn; try done; try (intros E; by injection E as _ <-).
  do 14 (destruct k as [|k]; [done|]). done.
Qed.

Lemma sys_dup_correct_witness : exists s', sys_dup (two_open SYS_dup) = Ok 1 s'.
Proof.
  pose proof (sys_dup_correct 0 shell (two_open SYS_dup)) as H. destruct H as (s' & E & _).
  - apply two_open_caller.
  - apply two_open_counted.
  - reflexivity.
  - exact boot_ftable_free.
  - intros fd f E. apply two_open_arg in E as ->. exists shared_file. split; [|cbn; lia].
    change (<[0%nat := shared_file]> (k_ftable boot_kernel) !! 0%nat = Some shared_file). by rewrite boot_files.
  - exists s'. exact E.
Defined.

Lemma sys_close_correct_witness : exists s', sys_close (fun _ _ => ret tt) (two_open SYS_close) = Ok 0 s'.
Proof.
  pose proof (sys_close_correct (fun _ _ => ret tt) 0 shell (two_open SYS_close)) as H. destruct H as (s' & E & _).
  - apply two_open_caller.
  - apply two_open_counted.
  - exact boot_ftable_free.
  - intros fd f E. apply two_open_arg in E as ->. exists shared_file. split; [|cbn; lia].
    change (<[0%nat := shared_file]> (k_ftable boot_kernel) !! 0%nat = Some shared_file). by rewrite boot_files.
  - exists s'. exact E.
Defined.

Lemma two_open_prints a7 : can_print (two_open a7).
Proof.
  split; [vm_compute; reflexivity|]. split; [vm_compute; reflexivity|]. split; [eexists; vm_compute; reflexivity|].
  split; [apply (ca_hart _ _ _ (two_open_caller a7))|]. vm_compute. reflexivity.
Qed.

#[local] Existing Instance demo_layout.

Lemma syscall_unknown_witness :
  exists s', syscall (fun _ _ => ret tt) (ret 0) (fun _ => ret tt) (fun _ => 0) 0 0 0 0 0 0 0 (fun _ => 0) (two_open SYS_getpid) = Ok tt s' /\
    load64 (k_mem s') (4096 + TF_a0) = 2 ^ 64 - 1.
Proof.
  destruct (syscall_unknown (fun _ _ => ret tt) (ret 0) (fun _ => ret tt) (fun _ => 0) 0 0 0 0 0 0 0 (fun _ => 0)
              0 shell (two_open SYS_getpid) SYS_getpid) as [_ H].
  - apply two_open_caller.
  - apply two_open_prints.
  - vm_compute. reflexivity.
  - destruct H as (s' & E & V & _); [by right; right|]. exists s'. split; [exact E|exact V].
Defined.
