(* ===== verification/Programs.v ===== *)
(** * The user programs (user/waiter.c, test.c, usertest.c and filetest.c)

    A program is the tree of the system calls it makes: a call, and what the program does with
    each answer. printf is its write calls, one for each character. What the calls do is the
    specification [post] of what the kernel promises a process; the checks that the test
    programs make are shown to succeed under it. *)

From S2P Require Import Prelude Mem CString State Spinlock Printf User Path File Syscall.

(** ** Programs *)

(** A buffer: an array of the program, or just an address. *)
Inductive ubuf := Bytes (bs : list Z) | Addr (a : Z).

Inductive call :=
  | Hello | Fork | Wait | Uptime | Getpid
  | Exec (path : list Z) (argv : list (list Z))
  | Open (path : list Z) (mode : Z)
  | Mknod (path : list Z) (major minor : Z)
  | Unlink (path : list Z)
  | Dup (fd : Z) | Close (fd : Z)
  | Write (fd : Z) (b : ubuf) (n : Z)
  | Read (fd n : Z).

(** The result, with the bytes read or the status waited for. *)
Record answer := { a_ret : Z; a_data : list Z }.

(** [Exit] is the call of exit; a loop without end is cut off at [More]. *)
Inductive prog (A : Type) :=
  | Ret (a : A)
  | Exit (status : Z)
  | More
  | Do (c : call) (k : answer -> prog A).
Arguments Ret {A} a.
Arguments Exit {A} status.
Arguments More {A}.
Arguments Do {A} c k.

Fixpoint pbind {A B} (p : prog A) (f : A -> prog B) : prog B :=
  match p with
  | Ret a => f a
  | Exit st => Exit st
  | More => More
  | Do c k => Do c (fun a => pbind (k a) f)
  end.

Definition sys (c : call) : prog Z := Do c (fun a => Ret (a_ret a)).

Declare Scope prog_scope.
Notation "'ask!' x := p 'in' q" := (pbind p (fun x => q)) (at level 10, x name, p at level 100, q at level 200) : prog_scope.
Notation "'run!' p ; q" := (pbind p (fun _ => q)) (at level 10, p at level 100, q at level 200) : prog_scope.
#[local] Open Scope prog_scope.

(** The text that printf writes (Uprintf.uprintf): the characters go to descriptor 1. *)
Definition text (fmt : list Z) (ap : list varg) : list Z :=
  match Uprintf.uprintf fmt ap [] with Ok _ out => out.*2 | Stop _ out => out.*2 end.

Fixpoint say (cs : list Z) : prog unit :=
  match cs with
  | [] => Ret tt
  | c :: cs' => Do (Write 1 (Bytes [c]) 1) (fun _ => say cs')
  end.

Definition print (fmt : string) (ap : list varg) : prog unit := say (text (bytes_of fmt) ap).

(** start of ulib.c. *)
Definition run_main (main : prog Z) : prog unit := ask! r := main in Exit r.

(** ** waiter.c, the first process *)

Module Waiter.

Definition console : list Z := bytes_of "console".
Definition filetest : list Z := bytes_of "filetest".

(** The loop goes on until a wait fails. *)
Fixpoint foreverwait (fuel : nat) : prog unit :=
  match fuel with
  | O => More
  | S f =>
      ask! wpid := sys Wait in
      if wpid <? 0 then Exit 1 else foreverwait f
  end.

Definition fdinit : prog unit :=
  ask! fd := sys (Open console O_RDWR) in
  run! (if fd <? 0 then
          run! sys (Mknod console CONSOLE 0);
          run! sys (Open console O_RDWR);
          Ret tt
        else Ret tt);
  run! sys (Dup 0);
  run! sys (Dup 0);
  Ret tt.

Definition waiter_main (fuel : nat) : prog Z :=
  run! fdinit;
  ask! pid := sys Fork in
  run! (if pid =? 0 then
          run! sys (Exec filetest [filetest]);
          Exit 1
        else Ret tt);
  run! foreverwait fuel;
  Ret 0.

End Waiter.

(** ** test.c *)

Definition test_main : prog Z := run! sys Hello; Ret 0.

(** ** usertest.c *)

Module Usertest.

Definition NPROCS : Z := 60.
Definition test : list Z := bytes_of "test".

(** [for(int i = 0; i < NPROCS; i++)]: the number of children. *)
Fixpoint fork_loop (n : nat) (i count : Z) : prog Z :=
  match n with
  | O => Ret count
  | S n' =>
      ask! pid := sys Fork in
      if pid <? 0 then run! print ("Fork失败 at %d" ++ nl) [VNum i]; Ret count
      else
        run! (if pid =? 0 then
                run! sys (Exec test [test; bytes_of "arg1"; bytes_of "arg2"]);
                Exit 0
              else Ret tt);
        fork_loop n' (i + 1) (s32 (count + 1))
  end.

(** [for(i = 0; i < count; i++)]: the value of i after the loop. *)
Fixpoint wait_loop (n : nat) (i : Z) : prog Z :=
  match n with
  | O => Ret i
  | S n' =>
      Do Wait (fun a =>
        if a_ret a <? 0 then run! print ("等待子进程失败" ++ nl) []; Ret i
        else
          run! print ("子进程 %d 已退出，状态 %d" ++ nl) [VNum (a_ret a); VNum (nth 0 (a_data a) 0)];
          wait_loop n' (i + 1))
  end.

Definition test_processing : prog unit :=
  run! print "Fork测试" [];
  ask! count := fork_loop (Z.to_nat NPROCS) 0 0 in
  run! print ("创建了 %d 个子进程" ++ nl) [VNum count];
  run! print ("清理测试" ++ nl) [];
  ask! i := wait_loop (Z.to_nat count) 0 in
  if count =? i then print ("所有的子进程全部退出" ++ nl) []
  else print ("所有子进程已清理完毕" ++ nl) [].

(** One of the four checks of test_write_and_ptr. *)
Definition check (c : call) (ok : Z -> bool) (pass fail : string) : prog unit :=
  ask! res := sys c in
  if ok res then print (pass ++ nl) []
  else run! print (fail ++ nl) []; print ("错误码: %d" ++ nl) [VNum res].

(** [char buffer[20]] *)
Definition buffer : list Z := bytes_of "Hello, RISC-V!" ++ replicate 6 0.

Definition test_write_and_ptr : prog unit :=
  run! check (Write 1 (Addr 0x1000000000) 10) (fun r => r =? 0) "写入无效指针测试通过" "写入无效指针测试失败";
  run! check (Write (-1) (Bytes buffer) 20) (fun r => r =? -1) "写入无效文件描述符测试通过" "写入无效文件描述符测试失败";
  run! check (Write 1 (Addr 0) 10) (fun r => r =? -1) "写入空指针测试通过" "写入空指针测试失败";
  check (Write 1 (Bytes buffer) (-5)) (fun r => r <=? 0) "写入负长度测试通过" "写入负长度测试失败".

Definition usertest_main : prog Z :=
  run! test_processing;
  run! test_write_and_ptr;
  Ret 0.

End Usertest.

(** ** filetest.c *)

Module Filetest.

Definition testfile : list Z := bytes_of "testfile".
(** [char data[] = "Hello, RISC-V File System!"], with its null byte. *)
Definition data : list Z := bytes_of "Hello, RISC-V File System!" ++ [0].
Definition sizeof_data : Z := Z.of_nat (length data).

Section Filetest.
(** What is in the local arrays buffer and large_buffer before they are written. *)
Context (buffer large_buffer : list Z).

Definition test_read_and_write : prog unit :=
  run! print ("创建测试文件" ++ nl) [];
  ask! fd := sys (Open testfile (Z.lor O_CREATE O_RDWR)) in
  if fd <? 0 then print ("创建文件失败" ++ nl) []
  else
    run! print ("创建文件成功，文件描述符： %d" ++ nl) [VNum fd];
    run! print ("写入测试数据到文件" ++ nl) [];
    ask! write_bytes := sys (Write fd (Bytes data) sizeof_data) in
    if negb (write_bytes =? sizeof_data) then
      run! print ("写入文件失败" ++ nl) [];
      run! sys (Close fd);
      Ret tt
    else
      run! print ("写入文件成功，写入字节数： %d" ++ nl) [VNum write_bytes];
      run! print ("重新打开文件测试" ++ nl) [];
      ask! fd := sys (Open testfile O_RDWR) in
      if fd <? 0 then print ("重新打开文件失败" ++ nl) []
      else
        run! print ("重新打开文件成功，文件描述符： %d" ++ nl) [VNum fd];
        run! print ("读取文件内容进行验证" ++ nl) [];
        Do (Read fd sizeof_data) (fun a =>
          let buffer := a_data a ++ drop (length (a_data a)) buffer in
          let read_bytes := a_ret a in
          run! print ("读取到的数据: %s" ++ nl) [VStr (Some (cstring buffer))];
          if negb (read_bytes =? sizeof_data) then
            run! print ("读取文件失败" ++ nl) [];
            run! sys (Close fd);
            Ret tt
          else
            run! print ("读取文件成功，读取字节数： %d" ++ nl) [VNum read_bytes];
            run! print ("测试删除文件" ++ nl) [];
            ask! r := sys (Unlink testfile) in
            if r <? 0 then print ("删除文件失败" ++ nl) []
            else print ("删除文件成功" ++ nl) []).

(** The files of the children. *)
Definition filenames : list (list Z) :=
  bytes_of <$> ["test_0"; "test_1"; "test_2"; "test_3"; "test_4"; "test_5"; "test_6"; "test_7"; "test_8"; "test_9"].

(** The four bytes of an int. *)
Definition int_bytes (j : Z) : list Z := [u8 j; u8 (j / 2 ^ 8); u8 (j / 2 ^ 16); u8 (j / 2 ^ 24)].

(** [for (j = 0; j < 100; j++)] *)
Fixpoint child_loop (n : nat) (j : Z) (filename : list Z) : prog unit :=
  match n with
  | O => Ret tt
  | S n' =>
      ask! fd := sys (Open filename (Z.lor O_CREATE O_RDWR)) in
      if 0 <=? fd then
        ask! w := sys (Write fd (Bytes (int_bytes j)) 4) in
        if negb (w =? 4) then
          run! print ("write to %s failed" ++ nl) [VStr (Some filename)];
          Exit 1
        else
          run! sys (Close fd);
          run! sys (Unlink filename);
          child_loop n' (j + 1) filename
      else
        run! print ("open %s failed" ++ nl) [VStr (Some filename)];
        Exit 1
  end.

(** The branch [pid == 0]. *)
Definition child (filename : list Z) : prog unit :=
  run! child_loop 100 0 filename;
  run! print ("Child process for file %s finished." ++ nl) [VStr (Some filename)];
  Exit 0.

Fixpoint spawn_loop (files : list (list Z)) : prog unit :=
  match files with
  | [] => Ret tt
  | filename :: files' =>
      ask! pid := sys Fork in
      if pid <? 0 then run! print ("fork failed" ++ nl) []; Exit 1
      else
        run! (if pid =? 0 then child filename else Ret tt);
        spawn_loop files'
  end.

Fixpoint reap_loop (n : nat) : prog unit :=
  match n with
  | O => Ret tt
  | S n' =>
      ask! wpid := sys Wait in
      if wpid <? 0 then run! print ("wait failed" ++ nl) []; Exit 1
      else reap_loop n'
  end.

Definition test_concurrent_access_with_array : prog unit :=
  run! print ("开始filesystem并发访问测试" ++ nl) [];
  run! spawn_loop filenames;
  run! reap_loop 10;
  print ("并发测试结束，所有子进程已完成。" ++ nl) [].

(** The name that strcpy and itoa make in the array filename. *)
Definition small_file (i : Z) : list Z :=
  match Ulib.small_name 32 (wr_bytes (∅ : mem) 100 (bytes_of "small_")) 0 100 i with
  | Some m => cstring (rd_bytes m 0 32)
  | None => []
  end.

(** [for (i = 0; i < 50; i++)] *)
Fixpoint small_loop (n : nat) (i : Z) : prog unit :=
  match n with
  | O => Ret tt
  | S n' =>
      ask! fd := sys (Open (small_file i) (Z.lor O_CREATE O_WRONLY)) in
      if fd <? 0 then run! print ("performance test: open small file failed" ++ nl) []; Exit 1
      else
        ask! w := sys (Write fd (Bytes (bytes_of "test")) 4) in
        if negb (w =? 4) then run! print ("performance test: write small file failed" ++ nl) []; Exit 1
        else
          run! sys (Close fd);
          small_loop n' (i + 1)
  end.

(** [for (i = 0; i < 10; i++)] *)
Fixpoint large_loop (n : nat) (fd : Z) : prog unit :=
  match n with
  | O => Ret tt
  | S n' =>
      ask! w := sys (Write fd (Bytes large_buffer) 1024) in
      if negb (w =? 1024) then run! print ("performance test: write large file failed" ++ nl) []; Exit 1
      else large_loop n' fd
  end.

Definition large_file : list Z := bytes_of "large_file".

Definition test_filesystem_performance : prog unit :=
  run! print ("文件IO性能测试" ++ nl) [];
  run! print ("开始小文件测试 (50 个文件)..." ++ nl) [];
  ask! start_time := sys Uptime in
  run! small_loop 50 0;
  ask! now := sys Uptime in
  let small_files_time := u32 (now - u32 start_time) in
  run! print ("开始大文件测试 (1 个 10KB 文件)..." ++ nl) [];
  ask! start_time := sys Uptime in
  ask! fd := sys (Open large_file (Z.lor O_CREATE O_WRONLY)) in
  if fd <? 0 then run! print ("performance test: open large file failed" ++ nl) []; Exit 1
  else
    run! large_loop 10 fd;
    run! sys (Close fd);
    ask! now := sys Uptime in
    let large_file_time := u32 (now - u32 start_time) in
    run! print (nl ++ " 性能测试结果 " ++ nl) [];
    run! print ("小文件 (50x4B) 耗时: %d ticks" ++ nl) [VNum small_files_time];
    run! print ("大文件 (1x10KB) 耗时:    %d ticks" ++ nl) [VNum large_file_time];
    run! sys (Unlink large_file);
    print ("测试 3 成功完成。" ++ nl) [].

Definition filetest_main : prog Z :=
  run! test_read_and_write;
  run! test_concurrent_access_with_array;
  run! test_filesystem_performance;
  Ret 0.

End Filetest.

End Filetest.
