(* ===== verification/ProgramProps.v ===== *)
(** * What the user programs do

    [post] is what the kernel promises a process: its descriptors, the files it uses, and its
    children. [wp] is the weakest precondition of a program under it. *)

From S2P Require Import Prelude Mem CString State Spinlock Printf User Path File Syscall Programs.

(** ** The kernel's promise *)

Inductive desc := Tty | File (path : list Z) (off : nat) (mode : Z).

(** What a process sees: the files it uses, its descriptors, the children it has not waited for
    and what it wrote to the console. *)
Record uview := { files : gmap (list Z) (list Z); fds : gmap Z desc; live : nat; said : list Z }.

Definition set_files (v : gmap (list Z) (list Z)) (s : uview) : uview := {| files := v; fds := fds s; live := live s; said := said s |}.
Definition set_fds (v : gmap Z desc) (s : uview) : uview := {| files := files s; fds := v; live := live s; said := said s |}.
Definition set_live (v : nat) (s : uview) : uview := {| files := files s; fds := fds s; live := v; said := said s |}.
Definition add_said (v : list Z) (s : uview) : uview := {| files := files s; fds := fds s; live := live s; said := said s ++ v |}.

Definition ans (r : Z) : answer := {| a_ret := r; a_data := [] |}.

(** The lowest descriptor that is free. *)
Definition free_fd (f : gmap Z desc) : option Z := snd <$> list_find (fun n => f !! n = None) (seqZ 0 NOFILE).

(** A descriptor for the file. *)
Definition open_fd (path : list Z) (mode : Z) (s : uview) (P : answer -> uview -> Prop) : Prop :=
  match free_fd (fds s) with
  | None => P (ans (-1)) s
  | Some fd => P (ans fd) (set_fds (<[fd := File path 0 mode]> (fds s)) s)
  end.

(** The bytes of a file after a write at an offset. *)
Definition overwrite (off : nat) (bs c : list Z) : list Z := take off c ++ bs ++ drop (off + length bs) c.

(** Every answer the kernel may give, with what the process sees then, is one of [P]. Of a write
    from a bad address or to a file without a name nothing is promised. *)
Definition post (c : call) (s : uview) (P : answer -> uview -> Prop) : Prop :=
  match c with
  | Hello | Uptime | Getpid | Mknod _ _ _ => forall r, P (ans r) s
  | Fork => P (ans (-1)) s /\ forall pid, 0 < pid -> P (ans pid) (set_live (S (live s)) s)
  | Wait =>
      match live s with
      | O => P (ans (-1)) s
      | S n => forall pid st, 0 < pid -> P {| a_ret := pid; a_data := [st] |} (set_live n s)
      end
  | Exec _ _ => P (ans (-1)) s
  | Open path mode =>
      match files s !! path with
      | Some _ => open_fd path mode s P
      | None => if Z.land mode O_CREATE =? 0 then P (ans (-1)) s else open_fd path mode (set_files (<[path := []]> (files s)) s) P
      end
  | Unlink path => match files s !! path with Some _ => P (ans 0) (set_files (delete path (files s)) s) | None => P (ans (-1)) s end
  | Dup fd =>
      match fds s !! fd, free_fd (fds s) with
      | Some d, Some fd' => P (ans fd') (set_fds (<[fd' := d]> (fds s)) s)
      | _, _ => P (ans (-1)) s
      end
  | Close fd => match fds s !! fd with Some _ => P (ans 0) (set_fds (delete fd (fds s)) s) | None => P (ans (-1)) s end
  | Write fd b n =>
      match fds s !! fd, b with
      | None, _ => P (ans (-1)) s
      | Some Tty, Bytes bs => if (0 <=? n) && (n <=? Z.of_nat (length bs)) then P (ans n) (add_said (take (Z.to_nat n) bs) s) else forall r, P (ans r) s
      | Some (File path off mode), Bytes bs =>
          match files s !! path with
          | Some c =>
              if (0 <=? n) && (n <=? Z.of_nat (length bs)) && negb (Z.land mode (Z.lor O_WRONLY O_RDWR) =? 0) && (off + Z.to_nat n <=? 12 * 1024)%nat then
                P (ans n) (set_fds (<[fd := File path (off + Z.to_nat n) mode]> (fds s))
                             (set_files (<[path := overwrite off (take (Z.to_nat n) bs) c]> (files s)) s))
              else forall r, P (ans r) s
          | None => forall r, P (ans r) s
          end
      | Some _, Addr _ => forall r, P (ans r) s
      end
  | Read fd n =>
      match fds s !! fd with
      | None => P (ans (-1)) s
      | Some Tty => forall r, P r s
      | Some (File path off mode) =>
          match files s !! path with
          | Some c =>
              let bs := take (Z.to_nat n) (drop off c) in
              if (0 <=? n) && (Z.land mode O_WRONLY =? 0) then
                P {| a_ret := Z.of_nat (length bs); a_data := bs |} (set_fds (<[fd := File path (off + length bs) mode]> (fds s)) s)
              else P (ans (-1)) s
          | None => forall r, P r s
          end
      end
  end.

(** ** Weakest preconditions *)

(** The outcome: a value, or the status of exit. *)
Fixpoint wp {A} (p : prog A) (Q : A + Z -> uview -> Prop) (s : uview) : Prop :=
  match p with
  | Ret a => Q (inl a) s
  | Exit st => Q (inr st) s
  | More => False
  | Do c k => post c s (fun a s' => wp (k a) Q s')
  end.

Lemma open_fd_mono path mode s (P P' : answer -> uview -> Prop) : (forall a s', P a s' -> P' a s') -> open_fd path mode s P -> open_fd path mode s P'.
Proof. unfold open_fd. destruct (free_fd (fds s)); auto. Qed.

Lemma post_mono c s (P P' : answer -> uview -> Prop) : (forall a s', P a s' -> P' a s') -> post c s P -> post c s P'.
Proof.
  intros H. destruct c; cbn [post]; auto.
  - intros [H1 H2]. auto.
  - destruct (live s); auto.
  - destruct (files s !! path); [by apply open_fd_mono|]. destruct (_ =? 0); [auto|by apply open_fd_mono].
  - destruct (files s !! path); auto.
  - destruct (fds s !! fd), (free_fd (fds s)); auto.
  - destruct (fds s !! fd); auto.
  - destruct (fds s !! fd) as [[|path off mode]|], b; auto; [destruct (_ && _); auto|]. destruct (files s !! path); [|auto]. destruct (_ && _); auto.
  - destruct (fds s !! fd) as [[|path off mode]|]; auto. destruct (files s !! path); [|auto]. cbn zeta. destruct (_ && _); auto.
Qed.

Lemma wp_mono {A} (p : prog A) (Q Q' : A + Z -> uview -> Prop) : (forall r s, Q r s -> Q' r s) -> forall s, wp p Q s -> wp p Q' s.
Proof. intros H. induction p as [a|st| |c k IH]; intros s; cbn [wp]; auto. apply post_mono. intros a s'. apply IH. Qed.

(** What follows, when the outcome is a value. *)
Definition next {A B} (f : A -> prog B) (Q : B + Z -> uview -> Prop) (r : A + Z) (s : uview) : Prop :=
  match r with inl a => wp (f a) Q s | inr st => Q (inr st) s end.

Lemma wp_bind {A B} (p : prog A) (f : A -> prog B) Q s : wp p (next f Q) s -> wp (pbind p f) Q s.
Proof. revert s. induction p as [a|st| |c k IH]; intros s; cbn [wp pbind]; auto. apply post_mono. intros a s'. apply IH. Qed.

Lemma wp_sys {B} c (f : Z -> prog B) Q s : post c s (fun a s' => wp (f (a_ret a)) Q s') -> wp (pbind (sys c) f) Q s.
Proof. exact id. Qed.

Lemma wp_say {B} cs : forall (f : unit -> prog B) Q s, fds s !! 1 = Some Tty -> wp (f tt) Q (add_said cs s) -> wp (pbind (say cs) f) Q s.
Proof.
  induction cs as [|c cs IH]; intros f Q s Ht H; cbn [say pbind wp post].
  - assert (add_said [] s = s) as E by (unfold add_said; rewrite app_nil_r; by destruct s). by rewrite E in H.
  - rewrite Ht. cbn [length]. change ((0 <=? 1) && (1 <=? Z.of_nat 1)) with true. cbn match. change (take (Z.to_nat 1) [c]) with [c]. apply IH; [done|].
    assert (add_said cs (add_said [c] s) = add_said (c :: cs) s) as -> by (unfold add_said; cbn; by rewrite <- app_assoc). exact H.
Qed.

Lemma wp_printf {B} fmt ap (f : unit -> prog B) Q s :
  fds s !! 1 = Some Tty -> wp (f tt) Q (add_said (text (bytes_of fmt) ap) s) -> wp (pbind (print fmt ap) f) Q s.
Proof. apply wp_say. Qed.

Lemma pbind_ret {A} (p : prog A) Q s : wp (pbind p Ret) Q s -> wp p Q s.
Proof. revert s. induction p as [a|st| |c k IH]; intros s; cbn [wp pbind]; auto. apply post_mono. intros a s'. apply IH. Qed.

Lemma wp_printf_end fmt ap (Q : unit + Z -> uview -> Prop) s :
  fds s !! 1 = Some Tty -> Q (inl tt) (add_said (text (bytes_of fmt) ap) s) -> wp (print fmt ap) Q s.
Proof. intros Ht H. apply pbind_ret. by apply wp_printf. Qed.

#[local] Opaque text.

(** ** Descriptors *)

Lemma free_fd_ext f g : (forall n, f !! n = None <-> g !! n = None) -> free_fd f = free_fd g.
Proof. intros H. unfold free_fd. by rewrite (list_find_ext _ (fun n => g !! n = None)) by done. Qed.

Lemma free_fd_some f fd : free_fd f = Some fd -> f !! fd = None /\ 0 <= fd < NOFILE.
Proof.
  unfold free_fd. intros H. apply fmap_Some in H as ([i n] & H & ->). apply list_find_Some in H as (H1 & H2 & _). cbn [snd] in *.
  apply lookup_seqZ in H1 as [-> H1]. split; [done|lia].
Qed.

Lemma free_fd_insert f a d d' : free_fd (<[a := d]> f) = free_fd (<[a := d']> f).
Proof. apply free_fd_ext. intros n. rewrite !lookup_insert_None. tauto. Qed.

(** ** filetest *)

Section Filetest.
Import Filetest.

Definition says (ms : list (string * list varg)) : list Z := concat ((fun m => text (bytes_of m.1) m.2) <$> ms).

(** What the first test says when it goes well. *)
Definition rw_messages (a b : Z) : list (string * list varg) :=
  [("创建测试文件" ++ nl, []); ("创建文件成功，文件描述符： %d" ++ nl, [VNum a]); ("写入测试数据到文件" ++ nl, []);
   ("写入文件成功，写入字节数： %d" ++ nl, [VNum 27]); ("重新打开文件测试" ++ nl, []); ("重新打开文件成功，文件描述符： %d" ++ nl, [VNum b]);
   ("读取文件内容进行验证" ++ nl, []); ("读取到的数据: %s" ++ nl, [VStr (Some (bytes_of "Hello, RISC-V File System!"))]);
   ("读取文件成功，读取字节数： %d" ++ nl, [VNum 27]); ("测试删除文件" ++ nl, []); ("删除文件成功" ++ nl, [])]%string.

Lemma open_ok {B} path mode (f : Z -> prog B) Q s a :
  free_fd (fds s) = Some a -> is_Some (files s !! path) \/ Z.land mode O_CREATE <> 0 ->
  wp (f a) Q (set_fds (<[a := File path 0 mode]> (fds s)) (set_files (<[path := default [] (files s !! path)]> (files s)) s)) ->
  wp (pbind (sys (Open path mode)) f) Q s.
Proof.
  intros Ha Hc H. apply wp_sys. cbn [post]. destruct (files s !! path) as [c|] eqn:E.
  - unfold open_fd. rewrite Ha. cbn [from_option id] in H. assert (set_files (<[path := c]> (files s)) s = s) as Es by (unfold set_files; rewrite insert_id by done; by destruct s).
    by rewrite Es in H.
  - destruct Hc as [[? ?]|Hc]; [done|]. rewrite (proj2 (Z.eqb_neq _ 0) Hc). unfold open_fd. cbn [fds set_files]. by rewrite Ha.
Qed.

Lemma file_write_ok {B} fd path off mode bs c (f : Z -> prog B) Q s :
  fds s !! fd = Some (File path off mode) -> files s !! path = Some c -> Z.land mode (Z.lor O_WRONLY O_RDWR) <> 0 -> (off + length bs <= 12 * 1024)%nat ->
  wp (f (Z.of_nat (length bs))) Q (set_fds (<[fd := File path (off + length bs) mode]> (fds s)) (set_files (<[path := overwrite off bs c]> (files s)) s)) ->
  wp (pbind (sys (Write fd (Bytes bs) (Z.of_nat (length bs)))) f) Q s.
Proof.
  intros Hf Hc Hm Hb H. apply wp_sys. cbn [post]. rewrite Hf, Hc. rewrite (proj2 (Z.leb_le 0 _)), Z.leb_refl, (proj2 (Z.eqb_neq _ 0) Hm) by lia.
  rewrite Nat2Z.id. rewrite (proj2 (Nat.leb_le _ _) Hb). cbn [andb negb]. by rewrite take_ge.
Qed.

Lemma close_ok {B} fd d (f : Z -> prog B) Q s : fds s !! fd = Some d -> wp (f 0) Q (set_fds (delete fd (fds s)) s) -> wp (pbind (sys (Close fd)) f) Q s.
Proof. intros Hf H. apply wp_sys. cbn [post]. by rewrite Hf. Qed.

Lemma unlink_ok {B} path c (f : Z -> prog B) Q s : files s !! path = Some c -> wp (f 0) Q (set_files (delete path (files s)) s) -> wp (pbind (sys (Unlink path)) f) Q s.
Proof. intros Hf H. apply wp_sys. cbn [post]. by rewrite Hf. Qed.

Ltac tty := cbn [fds add_said set_fds set_files set_live]; rewrite ?lookup_insert_ne by done; done.

Lemma read_write_ok buffer s a b :
  fds s !! 1 = Some Tty -> free_fd (fds s) = Some a -> free_fd (<[a := Tty]> (fds s)) = Some b ->
  wp (test_read_and_write buffer) (fun r s' => r = inl tt /\ files s' = delete testfile (files s) /\ live s' = live s /\
    (exists da db, fds s' = <[b := db]> (<[a := da]> (fds s))) /\ said s' = said s ++ says (rw_messages a b)) s.
Proof.
  intros Ht Ha Hb. destruct (free_fd_some _ _ Ha) as [Na Ra]. destruct (free_fd_some _ _ Hb) as [Nb Rb].
  apply lookup_insert_None in Nb as [Nb Hab]. assert (a <> 1) by congruence. assert (b <> 1) by congruence.
  unfold test_read_and_write. apply wp_printf; [done|]. apply (open_ok _ _ _ _ _ a); [done|right; done|].
  rewrite (proj2 (Z.ltb_ge a 0)) by lia. do 2 (apply wp_printf; [tty|]). change sizeof_data with (Z.of_nat (length data)) at 1.
  cbn [files fds live said add_said set_fds set_files]. set (c := default [] (files s !! testfile)).
  eapply file_write_ok.
  { cbn [fds add_said set_fds]. apply lookup_insert_eq. } { cbn [files add_said set_fds set_files]. apply lookup_insert_eq. } { done. } { cbn; lia. }
  change (Z.of_nat (length data) =? sizeof_data) with true. cbn [negb]. do 2 (apply wp_printf; [tty|]).
  cbn [files fds live said add_said set_fds set_files]. rewrite !insert_insert_eq. set (c1 := overwrite 0 data c).
  apply (open_ok _ _ _ _ _ b); [cbn [fds add_said set_fds set_files]; by rewrite (free_fd_insert _ a _ Tty)|left; eexists; apply lookup_insert_eq|].
  rewrite (proj2 (Z.ltb_ge b 0)) by lia. do 2 (apply wp_printf; [tty|]).
  cbn [files fds live said add_said set_fds set_files]. rewrite lookup_insert_eq. cbn [default from_option id]. rewrite insert_insert_eq.
  cbn [wp post fds files add_said set_fds set_files]. rewrite lookup_insert_eq, lookup_insert_eq.
  assert (take (Z.to_nat sizeof_data) (drop 0 c1) = data) as -> by (unfold c1, overwrite; rewrite take_0, drop_0; exact (take_app_length' data _ _ eq_refl)).
  cbn [a_data a_ret]. change ((0 <=? sizeof_data) && (Z.land O_RDWR O_WRONLY =? 0)) with true. cbn match. cbn [a_data a_ret].
  assert (cstring (data ++ drop (length data) buffer) = bytes_of "Hello, RISC-V File System!") as ->.
  { unfold data. rewrite <- app_assoc. apply cstring_app_zero. by repeat constructor. }
  apply wp_printf; [tty|]. change (Z.of_nat (length data) =? sizeof_data) with true. cbn [negb]. do 2 (apply wp_printf; [tty|]).
  eapply unlink_ok; [cbn [files add_said set_fds set_files]; apply lookup_insert_eq|]. change (0 <? 0) with false. cbn match.
  apply wp_printf_end; [tty|]. cbn [files fds live said add_said set_fds set_files].
  split; [done|]. split; [by rewrite delete_insert_eq|]. split; [done|]. split; [|].
  - rewrite insert_insert_eq. by eexists _, _.
  - unfold says. cbn [rw_messages fmap list_fmap concat fst snd]. by rewrite app_nil_r, <- !app_assoc.
Qed.

(** *** The children of the second test *)

Lemma overwrite_nil bs : overwrite 0 bs [] = bs.
Proof. unfold overwrite. by rewrite take_nil, drop_nil, app_nil_r. Qed.

Lemma uview_same s f g : f = files s -> g = fds s -> {| files := f; fds := g; live := live s; said := said s |} = s.
Proof. intros -> ->. by destruct s. Qed.

Lemma child_loop_ok name a n : forall j s,
  free_fd (fds s) = Some a -> files s !! name = None -> wp (child_loop n j name) (fun r s' => r = inl tt /\ s' = s) s.
Proof.
  induction n as [|n IH]; intros j s Ha Hn; cbn [child_loop]; [done|]. destruct (free_fd_some _ _ Ha) as [Na Ra].
  apply (open_ok _ _ _ _ _ a); [done|by right|]. rewrite (proj2 (Z.leb_le 0 a)) by lia. rewrite Hn. cbn [from_option id].
  change 4 with (Z.of_nat (length (int_bytes j))) at 1.
  eapply file_write_ok; [apply lookup_insert_eq|apply lookup_insert_eq|done|cbn; lia|]. change (Z.of_nat (length (int_bytes j)) =? 4) with true. cbn [negb].
  cbn [files fds live said set_fds set_files]. rewrite !insert_insert_eq.
  eapply close_ok; [apply lookup_insert_eq|]. eapply unlink_ok; [apply lookup_insert_eq|]. cbn [files fds live said set_fds set_files].
  unfold set_files, set_fds. cbn [files fds live said]. rewrite !delete_insert_id by done. rewrite uview_same by done. by apply IH.
Qed.

Lemma child_ok name a s :
  fds s !! 1 = Some Tty -> free_fd (fds s) = Some a -> files s !! name = None ->
  wp (child name) (fun r s' => r = inr 0 /\ files s' = files s /\ fds s' = fds s) s.
Proof.
  intros Ht Ha Hn. unfold child. apply wp_bind. eapply wp_mono; [|by eapply child_loop_ok]. intros r s' [-> ->]. cbn [next].
  by apply wp_printf.
Qed.

(** *** The second test *)

Definition fork_failed (r : unit + Z) (s : uview) : Prop := r = inr 1 /\ exists t, said s = t ++ text (bytes_of ("fork failed" ++ nl)) [].

Lemma spawn_ok l : forall s, fds s !! 1 = Some Tty ->
  wp (spawn_loop l) (fun r s' => fork_failed r s' \/ r = inl tt /\ s' = set_live (live s + length l) s) s.
Proof.
  induction l as [|name l IH]; intros s Ht; cbn [spawn_loop].
  - right. split; [done|]. cbn. rewrite Nat.add_0_r. by destruct s.
  - apply wp_sys. cbn [post a_ret ans]. split.
    + change (-1 <? 0) with true. cbn match. apply wp_printf; [done|]. left. split; [done|]. by eexists.
    + intros pid Hp. rewrite (proj2 (Z.ltb_ge pid 0)), (proj2 (Z.eqb_neq pid 0)) by lia. cbn [pbind].
      eapply wp_mono; [|apply IH; exact Ht]. intros r s' [H|[-> ->]]; [by left|right]. split; [done|]. unfold set_live. cbn [files fds live said length]. f_equal. lia.
Qed.

Lemma reap_ok n : forall s, (n <= live s)%nat -> wp (reap_loop n) (fun r s' => r = inl tt /\ s' = set_live (live s - n) s) s.
Proof.
  induction n as [|n IH]; intros s Hn; cbn [reap_loop].
  - split; [done|]. rewrite Nat.sub_0_r. by destruct s.
  - apply wp_sys. cbn [post]. destruct (live s) as [|k] eqn:E; [lia|]. intros pid st Hp. cbn [a_ret]. rewrite (proj2 (Z.ltb_ge pid 0)) by lia.
    eapply wp_mono; [|apply IH; cbn; lia]. intros r s' [-> ->]. split; [done|]. reflexivity.
Qed.

Lemma concurrent_ok s : fds s !! 1 = Some Tty ->
  wp test_concurrent_access_with_array (fun r s' => fork_failed r s' \/ r = inl tt /\ exists t, s' = add_said t s) s.
Proof.
  intros Ht. unfold test_concurrent_access_with_array. apply wp_printf; [done|]. apply wp_bind. eapply wp_mono; [|by apply spawn_ok].
  intros r s1 [[-> H]|[-> ->]]; cbn [next]; [by left|]. apply wp_bind. eapply wp_mono; [|apply reap_ok; cbn; lia]. intros r s2 [-> ->]. cbn [next].
  apply wp_printf_end; [done|]. right. split; [done|]. eexists. unfold add_said, set_live. cbn [files fds live said]. rewrite <- app_assoc. change (length filenames) with 10%nat. f_equal. lia.
Qed.

(** *** The third test *)

Lemma small_files_distinct : NoDup (small_file <$> seqZ 0 50).
Proof. apply (bool_decide_eq_true_1 _). vm_compute. reflexivity. Qed.

Lemma small_file_inj i j : 0 <= i < 50 -> 0 <= j < 50 -> small_file i = small_file j -> i = j.
Proof.
  intros Hi Hj E. assert (forall k, 0 <= k < 50 -> (small_file <$> seqZ 0 50) !! Z.to_nat k = Some (small_file k)) as H.
  { intros k Hk. rewrite list_lookup_fmap, lookup_seqZ_lt by lia. cbn. do 2 f_equal. lia. }
  pose proof (NoDup_lookup _ _ _ _ small_files_distinct (H i Hi) ltac:(rewrite (H j Hj); by rewrite E)). lia.
Qed.

(** The small files from the [i]th on. *)
Fixpoint with_small (n : nat) (i : Z) (f : gmap (list Z) (list Z)) : gmap (list Z) (list Z) :=
  match n with O => f | S n' => with_small n' (i + 1) (<[small_file i := bytes_of "test"]> f) end.

Lemma small_loop_ok a n : forall i s,
  free_fd (fds s) = Some a -> 0 <= i -> i + Z.of_nat n <= 50 -> (forall j, i <= j < 50 -> files s !! small_file j = None) ->
  wp (small_loop n i) (fun r s' => r = inl tt /\ s' = set_files (with_small n i (files s)) s) s.
Proof.
  induction n as [|n IH]; intros i s Ha Hi Hn Hno; cbn [small_loop with_small].
  { split; [done|]. by destruct s. }
  destruct (free_fd_some _ _ Ha) as [Na Ra]. apply (open_ok _ _ _ _ _ a); [done|by right|]. rewrite (proj2 (Z.ltb_ge a 0)) by lia.
  rewrite Hno by lia. cbn [from_option id]. change 4 with (Z.of_nat (length (bytes_of "test"))) at 1.
  eapply file_write_ok; [apply lookup_insert_eq|apply lookup_insert_eq|done|cbn; lia|]. change (Z.of_nat (length (bytes_of "test")) =? 4) with true. cbn [negb].
  eapply close_ok; [apply lookup_insert_eq|]. cbn [files fds live said set_fds set_files]. rewrite !insert_insert_eq, overwrite_nil.
  unfold set_files, set_fds. cbn [files fds live said]. rewrite delete_insert_id by done.
  eapply wp_mono; [|apply IH; cbn [files fds]; try done; try lia].
  - intros r s' [-> ->]. done.
  - intros j Hj. rewrite lookup_insert_ne; [apply Hno; lia|]. intros E. apply small_file_inj in E; lia.
Qed.

Lemma large_loop_ok large path fd n : length large = 1024%nat -> forall off c s,
  fds s !! fd = Some (File path off (Z.lor O_CREATE O_WRONLY)) -> files s !! path = Some c -> (off + 1024 * n <= 12 * 1024)%nat ->
  wp (large_loop large n fd) (fun r s' => r = inl tt /\ exists c', s' =
    set_fds (<[fd := File path (off + 1024 * n) (Z.lor O_CREATE O_WRONLY)]> (fds s)) (set_files (<[path := c']> (files s)) s)) s.
Proof.
  intros Hl. induction n as [|n IH]; intros off c s Hf Hc Hb; cbn [large_loop].
  - split; [done|]. exists c. unfold set_fds, set_files. cbn [files fds live said]. rewrite Nat.mul_0_r, Nat.add_0_r. rewrite !insert_id by done. by destruct s.
  - assert (1024 = Z.of_nat (length large)) as E by lia. rewrite E at 1. eapply file_write_ok; [done|done|done|lia|]. rewrite <- E. cbn [negb Z.eqb Pos.eqb].
    eapply wp_mono; [|eapply (IH (off + length large)%nat); [apply lookup_insert_eq|apply lookup_insert_eq|lia]].
    intros r s' [-> [c' ->]]. split; [done|]. exists c'. unfold set_fds, set_files. cbn [files fds live said]. rewrite !insert_insert_eq. do 3 f_equal. lia.
Qed.

(** What was said before is a prefix. *)
Lemma said_last (o x m : list Z) : (exists t, x = o ++ t) -> exists t, x ++ m = o ++ t ++ m.
Proof. intros [t ->]. exists t. by rewrite app_assoc. Qed.
Lemma said_more (o x m : list Z) : (exists t, x = o ++ t) -> exists t, x ++ m = o ++ t.
Proof. intros [t ->]. exists (t ++ m). by rewrite app_assoc. Qed.
Lemma said_none (o : list Z) : exists t, o = o ++ t.
Proof. exists []. by rewrite app_nil_r. Qed.

Lemma performance_ok large a s :
  length large = 1024%nat -> fds s !! 1 = Some Tty -> free_fd (fds s) = Some a -> (forall j, 0 <= j < 50 -> files s !! small_file j = None) ->
  wp (test_filesystem_performance large) (fun r s' => r = inl tt /\ files s' = delete large_file (with_small 50 0 (files s)) /\ fds s' = fds s /\
    live s' = live s /\ exists t, said s' = said s ++ t ++ text (bytes_of ("测试 3 成功完成。" ++ nl)) []) s.
Proof.
  intros Hl Ht Ha Hno. destruct (free_fd_some _ _ Ha) as [Na Ra]. assert (a <> 1) by congruence. unfold test_filesystem_performance.
  do 2 (apply wp_printf; [exact Ht|]). apply wp_sys. intros t0. cbn [a_ret ans]. apply wp_bind. eapply wp_mono; [|by apply (small_loop_ok a)].
  intros r s1 [-> ->]. cbn [next]. apply wp_sys. intros t1. cbn [a_ret ans]. cbn zeta. apply wp_printf; [exact Ht|]. apply wp_sys. intros t2. cbn [a_ret ans].
  apply (open_ok _ _ _ _ _ a); [exact Ha|by right|]. rewrite (proj2 (Z.ltb_ge a 0)) by lia.
  cbn [files fds live said add_said set_fds set_files]. set (fl := with_small 50 0 (files s)). set (c0 := default [] (fl !! large_file)).
  apply wp_bind. eapply wp_mono; [|eapply (large_loop_ok large large_file a 10 Hl 0%nat); [apply lookup_insert_eq|apply lookup_insert_eq|lia]].
  intros r s2 [-> [c' ->]]. cbn [next]. eapply close_ok; [apply lookup_insert_eq|]. apply wp_sys. intros t3. cbn [a_ret ans]. cbn zeta.
  cbn [files fds live said add_said set_fds set_files]. rewrite !insert_insert_eq.
  unfold set_files, set_fds, add_said. cbn [files fds live said]. rewrite delete_insert_id by done.
  do 3 (apply wp_printf; [exact Ht|]). eapply unlink_ok; [apply lookup_insert_eq|]. apply wp_printf_end; [exact Ht|].
  unfold set_files, add_said. cbn [files fds live said]. split; [done|]. split; [by rewrite delete_insert_eq|]. split; [done|]. split; [done|].
  apply said_last. repeat apply said_more. apply said_none.
Qed.

End Filetest.

(** ** usertest *)

Section Usertest.
Import Usertest.

Lemma fork_loop_ok n : forall i count s,
  fds s !! 1 = Some Tty -> 0 <= count -> count + Z.of_nat n < 2 ^ 31 ->
  wp (fork_loop n i count) (fun r s' => exists k t, (k <= n)%nat /\ r = inl (count + Z.of_nat k) /\ s' = add_said t (set_live (live s + k) s)) s.
Proof.
  assert (forall s, add_said [] (set_live (live s + 0) s) = s) as H0 by (intros s; unfold add_said, set_live; cbn; rewrite app_nil_r, Nat.add_0_r; by destruct s).
  induction n as [|n IH]; intros i count s Ht Hc Hb; cbn [fork_loop].
  - exists 0%nat, []. split; [done|]. rewrite Z.add_0_r, H0. done.
  - apply wp_sys. cbn [post a_ret ans]. split.
    + change (-1 <? 0) with true. cbn match. apply wp_printf; [done|]. eexists 0%nat, _. split; [lia|]. rewrite Z.add_0_r. split; [done|].
      unfold set_live. cbn [live files fds said]. rewrite Nat.add_0_r. reflexivity.
    + intros pid Hp. rewrite (proj2 (Z.ltb_ge pid 0)), (proj2 (Z.eqb_neq pid 0)) by lia. cbn [pbind]. rewrite s32_small by lia.
      eapply wp_mono; [|apply IH; [exact Ht|lia|lia]]. intros r s' (k & t & Hk & -> & ->). exists (S k), t. split; [lia|]. split; [f_equal; lia|].
      unfold add_said, set_live. cbn [live files fds said]. f_equal. lia.
Qed.

Lemma wait_loop_ok n : forall i s,
  fds s !! 1 = Some Tty -> (n <= live s)%nat ->
  wp (wait_loop n i) (fun r s' => r = inl (i + Z.of_nat n) /\ exists t, s' = add_said t (set_live (live s - n) s)) s.
Proof.
  induction n as [|n IH]; intros i s Ht Hn; cbn [wait_loop wp].
  - rewrite Z.add_0_r. split; [done|]. exists []. unfold add_said, set_live. cbn [live files fds said]. rewrite app_nil_r, Nat.sub_0_r. by destruct s.
  - cbn [post]. destruct (live s) as [|k] eqn:E; [lia|]. intros pid st Hp. cbn [a_ret a_data]. rewrite (proj2 (Z.ltb_ge pid 0)) by lia.
    apply wp_printf; [exact Ht|]. eapply wp_mono; [|apply IH; [exact Ht|cbn; lia]]. intros r s' [-> [t ->]]. split; [f_equal; lia|].
    eexists. unfold add_said, set_live. cbn [live files fds said]. rewrite <- app_assoc. reflexivity.
Qed.

Lemma processing_ok s :
  fds s !! 1 = Some Tty -> live s = 0%nat ->
  wp test_processing (fun r s' => r = inl tt /\ files s' = files s /\ fds s' = fds s /\ live s' = 0%nat /\
    exists t, said s' = said s ++ t ++ text (bytes_of ("所有的子进程全部退出" ++ nl)) []) s.
Proof.
  intros Ht Hl. unfold test_processing. apply wp_printf; [exact Ht|]. apply wp_bind.
  eapply wp_mono; [|apply fork_loop_ok; [exact Ht|lia|vm_compute; reflexivity]]. intros r s1 (k & t & Hk & -> & ->). cbn [next].
  do 2 (apply wp_printf; [exact Ht|]). apply wp_bind. eapply wp_mono; [|apply wait_loop_ok; [exact Ht|cbn; lia]].
  intros r s2 [-> [t' ->]]. cbn [next]. rewrite Z.add_0_l, Z2Nat.id, Z.eqb_refl by lia. apply wp_printf_end; [exact Ht|].
  unfold add_said, set_live. cbn [live files fds said]. split; [done|]. split; [done|]. split; [done|]. split; [rewrite Hl; lia|].
  apply said_last. repeat apply said_more. apply said_none.
Qed.

End Usertest.

(** ** waiter *)

(** The calls a program makes when it gets the answers, and what is left of it. *)
Fixpoint follow {A} (p : prog A) (l : list Z) : list call * prog A :=
  match p, l with
  | Do c k, r :: l' => let '(cs, p') := follow (k (ans r)) l' in (c :: cs, p')
  | _, _ => ([], p)
  end.

Section Waiter.
Import Waiter.

Lemma follow_wait {B} (f : unit -> prog B) ws : forall w fuel,
  Forall (fun r => 0 <= r) ws -> w < 0 -> (length ws < fuel)%nat ->
  follow (pbind (foreverwait fuel) f) (ws ++ [w]) = (replicate (S (length ws)) Wait, Exit 1).
Proof.
  induction ws as [|r ws IH]; intros w [|fuel] Hws Hw Hf; cbn [length] in Hf; try lia; cbn [foreverwait app].
  - cbn. by rewrite (proj2 (Z.ltb_lt w 0)).
  - apply Forall_cons in Hws as [Hr Hws]. cbn [sys pbind follow a_ret ans]. rewrite (proj2 (Z.ltb_ge r 0)) by lia.
    by rewrite (IH w fuel Hws Hw ltac:(lia)).
Qed.

(** The answers and calls of fdinit. *)
Definition fdinit_answers (fd mk fd2 d1 d2 : Z) : list Z := if fd <? 0 then [fd; mk; fd2; d1; d2] else [fd; d1; d2].
Definition fdinit_calls (fd : Z) : list call :=
  Open console O_RDWR :: (if fd <? 0 then [Mknod console CONSOLE 0; Open console O_RDWR] else []) ++ [Dup 0; Dup 0].

Lemma follow_fdinit {B} (f : unit -> prog B) fd mk fd2 d1 d2 l :
  follow (pbind fdinit f) (fdinit_answers fd mk fd2 d1 d2 ++ l) = (fdinit_calls fd ++ (follow (f tt) l).1, (follow (f tt) l).2).
Proof.
  unfold fdinit_answers, fdinit_calls. destruct (fd <? 0) eqn:E.
  - change ((Open console O_RDWR :: [Mknod console CONSOLE 0; Open console O_RDWR] ++ [Dup 0; Dup 0]) ++ (follow (f tt) l).1)
      with (Open console O_RDWR :: Mknod console CONSOLE 0 :: Open console O_RDWR :: Dup 0 :: Dup 0 :: (follow (f tt) l).1).
    unfold fdinit, sys. cbn [app pbind follow a_ret ans]. rewrite E. cbn [app pbind follow a_ret ans]. by destruct (follow (f tt) l).
  - change ((Open console O_RDWR :: [] ++ [Dup 0; Dup 0]) ++ (follow (f tt) l).1) with (Open console O_RDWR :: Dup 0 :: Dup 0 :: (follow (f tt) l).1).
    unfold fdinit, sys. cbn [app pbind follow a_ret ans]. rewrite E. cbn [app pbind follow a_ret ans]. by destruct (follow (f tt) l).
Qed.

End Waiter.

(** ** Claims *)

(** The first process opens the console, or makes it first, and duplicates it for its output.
    Then it forks: the child becomes filetest or exits with 1, and the parent waits for one
    process after the other, its own children and those that lost their parents, until a wait
    fails; then it exits. *)
Theorem waiter_correct fuel fd mk fd2 d1 d2 pid ws w :
  pid <> 0 -> Forall (fun r => 0 <= r) ws -> w < 0 -> (length ws < fuel)%nat ->
  let start := fdinit_answers fd mk fd2 d1 d2 in
  follow (Waiter.waiter_main fuel) (start ++ pid :: ws ++ [w]) = (fdinit_calls fd ++ Fork :: replicate (S (length ws)) Wait, Exit 1) /\
  follow (Waiter.waiter_main fuel) (start ++ [0; -1]) = (fdinit_calls fd ++ [Fork; Exec Waiter.filetest [Waiter.filetest]], Exit 1).
Proof.
  intros Hp Hws Hw Hf start. unfold Waiter.waiter_main. split; unfold start; rewrite follow_fdinit.
  - cbn [sys pbind follow a_ret ans]. rewrite (proj2 (Z.eqb_neq pid 0)) by done. cbn [pbind]. by rewrite follow_wait.
  - reflexivity.
Qed.

(** usertest leaves no child behind: whatever the forks return, it waits as many times as it
    forked, no wait fails, and it says that all its children have gone. *)
Theorem usertest_reaps s :
  fds s !! 1 = Some Tty -> live s = 0%nat ->
  wp Usertest.test_processing (fun r s' => r = inl tt /\ files s' = files s /\ fds s' = fds s /\ live s' = 0%nat /\
    exists t, said s' = said s ++ t ++ text (bytes_of ("所有的子进程全部退出" ++ nl)) []) s.
Proof. apply processing_ok. Qed.


(** ** Witnesses *)

Definition first_view : uview := {| files := ∅; fds := {[0 := Tty; 1 := Tty; 2 := Tty]}; live := 0; said := [] |}.

Lemma waiter_correct_witness :
  follow (Waiter.waiter_main 5) ([3; 4; 5] ++ 7 :: [8; 9] ++ [-1]) = (fdinit_calls 3 ++ [Fork; Wait; Wait; Wait], Exit 1).
Proof. apply (waiter_correct 5 3 0 0 4 5 7 [8; 9] (-1)); [lia|repeat constructor; lia|lia|cbn; lia]. Defined.

Lemma usertest_reaps_witness :
  wp Usertest.test_processing (fun r s' => r = inl tt /\ files s' = ∅ /\ fds s' = fds first_view /\ live s' = 0%nat /\
    exists t, said s' = [] ++ t ++ text (bytes_of ("所有的子进程全部退出" ++ nl)) []) first_view.
Proof. apply (usertest_reaps first_view); reflexivity. Defined.

