(* ===== verification/Virtio.v ===== *)
(** * kernel/driver/virtio_disk.c: the disk driver

    The driver shares three structures with the device: the descriptors, the ring
    of requests it makes available and the ring of requests the device has used.
    The device's side of the registers is given by [reg], what a read of a
    register returns. *)

From S2P Require Import Prelude Mem CString State Spinlock Printf Locks PageAlloc Sleep Bio.

(** ** include/virtio.h *)

Definition VIRTIO_MMIO_MAGIC_VALUE : Z := 0x000.
Definition VIRTIO_MMIO_VERSION : Z := 0x004.
Definition VIRTIO_MMIO_DEVICE_ID : Z := 0x008.
Definition VIRTIO_MMIO_VENDOR_ID : Z := 0x00c.
Definition VIRTIO_MMIO_DEVICE_FEATURES : Z := 0x010.
Definition VIRTIO_MMIO_DRIVER_FEATURES : Z := 0x020.
Definition VIRTIO_MMIO_QUEUE_SEL : Z := 0x030.
Definition VIRTIO_MMIO_QUEUE_NUM_MAX : Z := 0x034.
Definition VIRTIO_MMIO_QUEUE_NUM : Z := 0x038.
Definition VIRTIO_MMIO_QUEUE_READY : Z := 0x044.
Definition VIRTIO_MMIO_QUEUE_NOTIFY : Z := 0x050.
Definition VIRTIO_MMIO_INTERRUPT_STATUS : Z := 0x060.
Definition VIRTIO_MMIO_INTERRUPT_ACK : Z := 0x064.
Definition VIRTIO_MMIO_STATUS : Z := 0x070.
Definition VIRTIO_MMIO_QUEUE_DESC_LOW : Z := 0x080.
Definition VIRTIO_MMIO_QUEUE_DESC_HIGH : Z := 0x084.
Definition VIRTIO_MMIO_DRIVER_DESC_LOW : Z := 0x090.
Definition VIRTIO_MMIO_DRIVER_DESC_HIGH : Z := 0x094.
Definition VIRTIO_MMIO_DEVICE_DESC_LOW : Z := 0x0a0.
Definition VIRTIO_MMIO_DEVICE_DESC_HIGH : Z := 0x0a4.
Definition VIRTIO_CONFIG_S_ACKNOWLEDGE : Z := 1.
Definition VIRTIO_CONFIG_S_DRIVER : Z := 2.
Definition VIRTIO_CONFIG_S_DRIVER_OK : Z := 4.
Definition VIRTIO_CONFIG_S_FEATURES_OK : Z := 8.
Definition VIRTIO_BLK_F_RO : Z := 5.
Definition VIRTIO_BLK_F_SCSI : Z := 7.
Definition VIRTIO_BLK_F_CONFIG_WCE : Z := 11.
Definition VIRTIO_BLK_F_MQ : Z := 12.
Definition VIRTIO_F_ANY_LAYOUT : Z := 27.
Definition VIRTIO_RING_F_INDIRECT_DESC : Z := 28.
Definition VIRTIO_RING_F_EVENT_IDX : Z := 29.
Definition NUM : Z := 8.
Definition VRING_DESC_F_NEXT : Z := 1.
Definition VRING_DESC_F_WRITE : Z := 2.
Definition VIRTIO_BLK_T_IN : Z := 0.
Definition VIRTIO_BLK_T_OUT : Z := 1.
Definition sizeof_blk_req : Z := 16.

(** ** The driver's structures *)

Definition upd_vdisk (f : vdisk_t -> vdisk_t) (s : kernel) : kernel := set_vdisk (f (k_vdisk s)) s.
Definition vget {A} (f : vdisk_t -> A) : KM A := get (fun s => f (k_vdisk s)).

Definition v_set_desc (i : nat) (d : virtq_desc) (v : vdisk_t) : vdisk_t :=
  {| v_desc := <[i := d]> (v_desc v); v_avail := v_avail v; v_avail_idx := v_avail_idx v; v_used := v_used v;
     v_used_idx := v_used_idx v; v_free := v_free v; v_seen := v_seen v; v_info := v_info v; v_ops := v_ops v |}.
Definition v_set_avail (k : nat) (h : Z) (v : vdisk_t) : vdisk_t :=
  {| v_desc := v_desc v; v_avail := <[k := h]> (v_avail v); v_avail_idx := v_avail_idx v; v_used := v_used v;
     v_used_idx := v_used_idx v; v_free := v_free v; v_seen := v_seen v; v_info := v_info v; v_ops := v_ops v |}.
Definition v_set_avail_idx (n : Z) (v : vdisk_t) : vdisk_t :=
  {| v_desc := v_desc v; v_avail := v_avail v; v_avail_idx := n; v_used := v_used v;
     v_used_idx := v_used_idx v; v_free := v_free v; v_seen := v_seen v; v_info := v_info v; v_ops := v_ops v |}.
Definition v_set_free (i : nat) (x : Z) (v : vdisk_t) : vdisk_t :=
  {| v_desc := v_desc v; v_avail := v_avail v; v_avail_idx := v_avail_idx v; v_used := v_used v;
     v_used_idx := v_used_idx v; v_free := <[i := x]> (v_free v); v_seen := v_seen v; v_info := v_info v; v_ops := v_ops v |}.
Definition v_set_seen (n : Z) (v : vdisk_t) : vdisk_t :=
  {| v_desc := v_desc v; v_avail := v_avail v; v_avail_idx := v_avail_idx v; v_used := v_used v;
     v_used_idx := v_used_idx v; v_free := v_free v; v_seen := n; v_info := v_info v; v_ops := v_ops v |}.
Definition v_set_info (i : nat) (x : option nat * Z) (v : vdisk_t) : vdisk_t :=
  {| v_desc := v_desc v; v_avail := v_avail v; v_avail_idx := v_avail_idx v; v_used := v_used v;
     v_used_idx := v_used_idx v; v_free := v_free v; v_seen := v_seen v; v_info := <[i := x]> (v_info v); v_ops := v_ops v |}.
Definition v_set_op (i : nat) (x : blk_req) (v : vdisk_t) : vdisk_t :=
  {| v_desc := v_desc v; v_avail := v_avail v; v_avail_idx := v_avail_idx v; v_used := v_used v;
     v_used_idx := v_used_idx v; v_free := v_free v; v_seen := v_seen v; v_info := v_info v; v_ops := <[i := x]> (v_ops v) |}.

Definition desc_at (v : vdisk_t) (i : nat) : virtq_desc := default desc_zero (v_desc v !! i).
Definition free_at (v : vdisk_t) (i : nat) : Z := default 0 (v_free v !! i).
Definition info_at (v : vdisk_t) (i : nat) : option nat * Z := default (None, 0) (v_info v !! i).

(** [b->disk = n] *)
Definition buf_disk (n : Z) (b : buf) : buf :=
  {| b_valid := b_valid b; b_disk := n; b_dev := b_dev b; b_blockno := b_blockno b; b_lock := b_lock b;
     b_refcnt := b_refcnt b; b_prev := b_prev b; b_next := b_next b; b_data := b_data b |}.

(** The register at offset [r]. *)
Definition put_reg (r v : Z) : KM unit := modify (fun s => set_mmio (<[VIRTIO0 + r := u32 v]> (k_mmio s)) s).

(** ** Descriptors *)

(** The index of the first free descriptor, or -1. *)
Fixpoint first_free_desc (fr : list Z) (i : Z) : Z :=
  match fr with
  | [] => -1
  | x :: fr' => if truthy x then i else first_free_desc fr' (i + 1)
  end.

Definition alloc_desc : KM Z :=
  let! fr := vget v_free in
  let i := first_free_desc fr 0 in
  do! (when! 0 <=? i then modify (upd_vdisk (v_set_free (Z.to_nat i) 0)));
  ret i.

Definition free_desc (i : Z) : KM unit :=
  if NUM <=? i then panic "free_desc 1"
  else
    let! fr := vget (fun v => free_at v (Z.to_nat i)) in
    if truthy fr then panic "free_desc 2"
    else
      do! modify (upd_vdisk (v_set_desc (Z.to_nat i) desc_zero));
      do! modify (upd_vdisk (v_set_free (Z.to_nat i) 1));
      wakeup Ch_disk_free.

(** A chain of more than NUM descriptors visits one twice and stops in free_desc. *)
Fixpoint free_chain_loop (fuel : nat) (i : Z) : KM unit :=
  match fuel with
  | O => halt OutOfFuel
  | S f =>
      let! d := vget (fun v => desc_at v (Z.to_nat i)) in
      do! free_desc i;
      if truthy (Z.land (d_flags d) VRING_DESC_F_NEXT) then free_chain_loop f (d_next d) else ret tt
  end.

Definition free_chain (i : Z) : KM unit := free_chain_loop (S (Z.to_nat NUM)) i.

(** The three indices, or [None] with nothing taken. *)
Fixpoint alloc3_loop (k : nat) (idx : list Z) : KM (option (list Z)) :=
  match k with
  | O => ret (Some idx)
  | S k' =>
      let! i := alloc_desc in
      if i <? 0 then do! foreach idx free_desc; ret None
      else alloc3_loop k' (idx ++ [i])
  end.

Definition alloc3_desc : KM (option (list Z)) := alloc3_loop 3 [].

(** ** A request *)

(** The three descriptors and the header, with the lock held. *)
Definition format_request (b : nat) (write : Z) (i0 i1 i2 : Z) : KM unit :=
  let! blockno := buf_get b b_blockno in
  let sector := u32 (blockno * (BSIZE / 512)) in
  let set_desc i d := modify (upd_vdisk (v_set_desc (Z.to_nat i) d)) in
  do! modify (upd_vdisk (v_set_op (Z.to_nat i0)
        {| rq_type := if truthy write then VIRTIO_BLK_T_OUT else VIRTIO_BLK_T_IN; rq_reserved := 0; rq_sector := sector |}));
  do! set_desc i0 {| d_addr := D_op (Z.to_nat i0); d_len := sizeof_blk_req; d_flags := VRING_DESC_F_NEXT; d_next := i1 |};
  do! set_desc i1 {| d_addr := D_data b; d_len := BSIZE;
                     d_flags := Z.lor (if truthy write then 0 else VRING_DESC_F_WRITE) VRING_DESC_F_NEXT; d_next := i2 |};
  let! info := vget (fun v => info_at v (Z.to_nat i0)) in
  do! modify (upd_vdisk (v_set_info (Z.to_nat i0) (fst info, 0xff)));
  set_desc i2 {| d_addr := D_status (Z.to_nat i0); d_len := 1; d_flags := VRING_DESC_F_WRITE; d_next := 0 |}.

(** virtio_disk_rw up to the wait for the device: the head of the chain. A process
    that finds no descriptors sleeps, and starts over. *)
Definition virtio_submit (b : nat) (write : Z) : KM Z :=
  do! acquire L_vdisk;
  let! idx := alloc3_desc in
  match idx with
  | Some [i0; i1; i2] =>
      do! format_request b write i0 i1 i2;
      do! modify (upd_buf b (buf_disk 1));
      let! info := vget (fun v => info_at v (Z.to_nat i0)) in
      do! modify (upd_vdisk (v_set_info (Z.to_nat i0) (Some b, snd info)));
      let! n := vget v_avail_idx in
      do! modify (upd_vdisk (v_set_avail (Z.to_nat (n mod NUM)) i0));
      do! modify (upd_vdisk (v_set_avail_idx (u16 (n + 1))));
      do! put_reg VIRTIO_MMIO_QUEUE_NOTIFY 0;
      ret i0
  | _ => do! sleep Ch_disk_free L_vdisk; halt Switch
  end.

(** The rest of virtio_disk_rw, when the request has been served. *)
Definition virtio_finish (i0 : Z) : KM unit :=
  let! info := vget (fun v => info_at v (Z.to_nat i0)) in
  do! modify (upd_vdisk (v_set_info (Z.to_nat i0) (None, snd info)));
  do! free_chain i0;
  release L_vdisk.

(** The loop that waits for b->disk to change, for a process that finds it still
    1: it sleeps, and looks again when it is woken. *)
Definition await_served (b : nat) : KM unit :=
  let! d := buf_get b b_disk in
  when! d =? 1 then sleep (Ch_buf b) L_vdisk.

Definition virtio_disk_rw (b : nat) (write : Z) : KM unit :=
  let! i0 := virtio_submit b write in
  do! await_served b;
  virtio_finish i0.

(** ** The interrupt *)

Section Interrupt.
Context (reg : Z -> kernel -> Z).

Definition get_reg (r : Z) : KM Z := get (reg r).

(** One turn for each entry the device has added. *)
Fixpoint used_loop (fuel : nat) : KM unit :=
  match fuel with
  | O => halt OutOfFuel
  | S f =>
      let! v := get k_vdisk in
      if negb (v_seen v =? v_used_idx v) then
        let id := Z.to_nat (default 0 (v_used v !! Z.to_nat (v_seen v mod NUM))) in
        if negb (snd (info_at v id) =? 0) then panic "virtio_disk_intr status"
        else
          match fst (info_at v id) with
          | None => halt (Undefined "virtio_disk_intr: null buf")
          | Some b =>
              do! modify (upd_buf b (buf_disk 0));
              do! wakeup (Ch_buf b);
              do! modify (upd_vdisk (v_set_seen (u16 (v_seen v + 1))));
              used_loop f
          end
      else ret tt
  end.

Definition virtio_disk_intr : KM unit :=
  do! acquire L_vdisk;
  let! st := get_reg VIRTIO_MMIO_INTERRUPT_STATUS in
  do! put_reg VIRTIO_MMIO_INTERRUPT_ACK (Z.land st 0x3);
  let! v := get k_vdisk in
  do! used_loop (S (Z.to_nat (u16 (v_used_idx v - v_seen v))));
  release L_vdisk.

(** ** Initialisation *)

Context (kalloc : KM Z).

Definition clear_feature (f : Z) (features : Z) : Z := Z.land features (Z.lnot (Z.shiftl 1 f)).

Definition virtio_disk_init : KM unit :=
  do! initlock L_vdisk "virtio_disk";
  let! magic := get_reg VIRTIO_MMIO_MAGIC_VALUE in
  let! version := get_reg VIRTIO_MMIO_VERSION in
  let! device := get_reg VIRTIO_MMIO_DEVICE_ID in
  let! vendor := get_reg VIRTIO_MMIO_VENDOR_ID in
  if negb (magic =? 0x74726976) || negb (version =? 2) || negb (device =? 2) || negb (vendor =? 0x554d4551)
  then panic "could not find virtio disk"
  else
    do! put_reg VIRTIO_MMIO_STATUS 0;
    let status := Z.lor 0 VIRTIO_CONFIG_S_ACKNOWLEDGE in
    do! put_reg VIRTIO_MMIO_STATUS status;
    let status := Z.lor status VIRTIO_CONFIG_S_DRIVER in
    do! put_reg VIRTIO_MMIO_STATUS status;
    let! features := get_reg VIRTIO_MMIO_DEVICE_FEATURES in
    let features :=
      foldl (fun fs f => clear_feature f fs) features
        [VIRTIO_BLK_F_RO; VIRTIO_BLK_F_SCSI; VIRTIO_BLK_F_CONFIG_WCE; VIRTIO_BLK_F_MQ; VIRTIO_F_ANY_LAYOUT;
         VIRTIO_RING_F_EVENT_IDX; VIRTIO_RING_F_INDIRECT_DESC] in
    do! put_reg VIRTIO_MMIO_DRIVER_FEATURES features;
    let status := Z.lor status VIRTIO_CONFIG_S_FEATURES_OK in
    do! put_reg VIRTIO_MMIO_STATUS status;
    let! status := get_reg VIRTIO_MMIO_STATUS in
    if negb (truthy (Z.land status VIRTIO_CONFIG_S_FEATURES_OK)) then panic "virtio disk FEATURES_OK unset"
    else
      do! put_reg VIRTIO_MMIO_QUEUE_SEL 0;
      let! rdy := get_reg VIRTIO_MMIO_QUEUE_READY in
      if truthy rdy then panic "virtio disk should not be ready"
      else
        let! max := get_reg VIRTIO_MMIO_QUEUE_NUM_MAX in
        if max =? 0 then panic "virtio disk has no queue 0"
        else if max <? NUM then panic "virtio disk max queue too short"
        else
          let! desc := kalloc in
          let! avail := kalloc in
          let! used := kalloc in
          if (desc =? 0) || (avail =? 0) || (used =? 0) then panic "virtio disk kalloc"
          else
            do! kmemset desc 0 PGSIZE;
            do! kmemset avail 0 PGSIZE;
            do! kmemset used 0 PGSIZE;
            do! modify (upd_vdisk (fun v =>
                  {| v_desc := replicate 8 desc_zero; v_avail := replicate 8 0; v_avail_idx := 0;
                     v_used := replicate 8 0; v_used_idx := 0; v_free := v_free v; v_seen := v_seen v;
                     v_info := v_info v; v_ops := v_ops v |}));
            do! put_reg VIRTIO_MMIO_QUEUE_NUM NUM;
            do! put_reg VIRTIO_MMIO_QUEUE_DESC_LOW desc;
            do! put_reg VIRTIO_MMIO_QUEUE_DESC_HIGH (Z.shiftr desc 32);
            do! put_reg VIRTIO_MMIO_DRIVER_DESC_LOW avail;
            do! put_reg VIRTIO_MMIO_DRIVER_DESC_HIGH (Z.shiftr avail 32);
            do! put_reg VIRTIO_MMIO_DEVICE_DESC_LOW used;
            do! put_reg VIRTIO_MMIO_DEVICE_DESC_HIGH (Z.shiftr used 32);
            do! put_reg VIRTIO_MMIO_QUEUE_READY 1;
            do! foreach (seq 0 (Z.to_nat NUM)) (fun i => modify (upd_vdisk (v_set_free i 1)));
            put_reg VIRTIO_MMIO_STATUS (Z.lor status VIRTIO_CONFIG_S_DRIVER_OK).
End Interrupt.
