(* ===== verification/VirtioProps.v ===== *)
(** * The disk driver keeps the contract of the buffer cache

    virtio_disk_rw, the device and virtio_disk_intr together transfer one block:
    the driver with a device that serves requests as the virtio specification
    says is a [BlockDevice]. *)

From S2P Require Import Prelude Mem CString State Spinlock Printf Locks PageAlloc Sleep Critical Bio BlockCache Virtio.

(** ** The device *)

(** A well-formed request in the available ring, the only one not served: the
    header, the data of buffer [b], and the status. *)
Record request (s : kernel) (h b : nat) (op : blk_req) : Prop := {
  rq_avail : v_avail_idx (k_vdisk s) = u16 (v_used_idx (k_vdisk s) + 1) /\
    v_avail (k_vdisk s) !! Z.to_nat (v_used_idx (k_vdisk s) mod NUM) = Some (Z.of_nat h);
  rq_op : v_ops (k_vdisk s) !! h = Some op;
  rq_even : rq_sector op mod 2 = 0;
  rq_chain : exists i1 i2 fl,
    v_desc (k_vdisk s) !! h = Some {| d_addr := D_op h; d_len := sizeof_blk_req; d_flags := VRING_DESC_F_NEXT; d_next := Z.of_nat i1 |} /\
    v_desc (k_vdisk s) !! i1 = Some {| d_addr := D_data b; d_len := BSIZE; d_flags := fl; d_next := Z.of_nat i2 |} /\
    fl = Z.lor (if rq_type op =? VIRTIO_BLK_T_IN then VRING_DESC_F_WRITE else 0) VRING_DESC_F_NEXT /\
    v_desc (k_vdisk s) !! i2 = Some {| d_addr := D_status h; d_len := 1; d_flags := VRING_DESC_F_WRITE; d_next := 0 |}
}.

(** The request served: the two sectors of the block copied in or out, the status 0,
    and the head of the chain in the used ring. *)
Definition used_by_device (h : nat) (v : vdisk_t) : vdisk_t :=
  {| v_desc := v_desc v; v_avail := v_avail v; v_avail_idx := v_avail_idx v;
     v_used := <[Z.to_nat (v_used_idx v mod NUM) := Z.of_nat h]> (v_used v); v_used_idx := u16 (v_used_idx v + 1);
     v_free := v_free v; v_seen := v_seen v; v_info := <[h := (fst (info_at v h), 0)]> (v_info v); v_ops := v_ops v |}.

Definition completed (h b : nat) (op : blk_req) (s : kernel) : kernel :=
  let blk := rq_sector op / 2 in
  upd_vdisk (used_by_device h)
    (if rq_type op =? VIRTIO_BLK_T_IN then upd_buf b (buf_data (disk_block s blk)) s
     else set_disk (<[blk := b_data (default buf_zero (bc_buf (k_bcache s) !! b))]> (k_disk s)) s).

Class VirtioDevice (device : KM unit) :=
  device_serves : forall s h b op, request s h b op -> device s = Ok tt (completed h b op s).

(** ** The driver's structures between requests *)

Record vdisk_ok (v : vdisk_t) : Prop := {
  vo_free : v_free v = replicate 8 1;
  vo_desc : length (v_desc v) = 8%nat;
  vo_avail : length (v_avail v) = 8%nat;
  vo_used : length (v_used v) = 8%nat;
  vo_info : length (v_info v) = 8%nat;
  vo_ops : length (v_ops v) = 8%nat;
  vo_idx : v_avail_idx v = v_used_idx v /\ v_seen v = v_used_idx v;
  vo_range : 0 <= v_used_idx v < 2 ^ 16
}.

Lemma upd_vdisk_private f : private (upd_vdisk f).
Proof. by split. Qed.
Lemma set_mmio_private f : private (fun s => set_mmio (f (k_mmio s)) s).
Proof. by split. Qed.
#[export] Hint Resolve upd_vdisk_private set_mmio_private : core.

(** ** Submitting a request *)

Definition take3 (v : vdisk_t) : vdisk_t := v_set_free 2 0 (v_set_free 1 0 (v_set_free 0 0 v)).

Lemma alloc_desc_ok i s :
  first_free_desc (v_free (k_vdisk s)) 0 = i -> 0 <= i -> alloc_desc s = Ok i (upd_vdisk (v_set_free (Z.to_nat i) 0) s).
Proof.
  intros Hi Hp. unfold alloc_desc, vget. unfold bind at 1, get at 1. rewrite Hi. by rewrite (proj2 (Z.leb_le 0 i) Hp).
Qed.

Lemma alloc3_ok s :
  v_free (k_vdisk s) = replicate 8 1 -> alloc3_desc s = Ok (Some [0; 1; 2]) (upd_vdisk take3 s).
Proof.
  intros Hf. unfold alloc3_desc. cbn [alloc3_loop app].
  rewrite (bind_ok _ _ _ _ _ (alloc_desc_ok 0 s ltac:(by rewrite Hf) ltac:(lia))). cbn [Z.ltb Z.compare].
  rewrite (bind_ok _ _ _ _ _ (alloc_desc_ok 1 (upd_vdisk (v_set_free 0 0) s) ltac:(cbn; by rewrite Hf) ltac:(lia))). cbn [Z.ltb Z.compare].
  rewrite (bind_ok _ _ _ _ _ (alloc_desc_ok 2 (upd_vdisk (v_set_free 1 0) (upd_vdisk (v_set_free 0 0) s))
             ltac:(cbn; by rewrite Hf) ltac:(lia))). done.
Qed.

Definition request_op (blockno write : Z) : blk_req :=
  {| rq_type := if truthy write then VIRTIO_BLK_T_OUT else VIRTIO_BLK_T_IN; rq_reserved := 0;
     rq_sector := u32 (blockno * (BSIZE / 512)) |}.

(** The structures after the request was submitted. *)
Definition submitted (b : nat) (op : blk_req) (write : Z) (v : vdisk_t) : vdisk_t :=
  {| v_desc := <[2%nat := {| d_addr := D_status 0; d_len := 1; d_flags := VRING_DESC_F_WRITE; d_next := 0 |}]>
       (<[1%nat := {| d_addr := D_data b; d_len := BSIZE;
                  d_flags := Z.lor (if truthy write then 0 else VRING_DESC_F_WRITE) VRING_DESC_F_NEXT; d_next := 2 |}]>
       (<[0%nat := {| d_addr := D_op 0; d_len := sizeof_blk_req; d_flags := VRING_DESC_F_NEXT; d_next := 1 |}]> (v_desc v)));
     v_avail := <[Z.to_nat (v_avail_idx v mod NUM) := 0]> (v_avail v); v_avail_idx := u16 (v_avail_idx v + 1);
     v_used := v_used v; v_used_idx := v_used_idx v; v_free := [0; 0; 0; 1; 1; 1; 1; 1]; v_seen := v_seen v;
     v_info := <[0%nat := (Some b, 255)]> (v_info v); v_ops := <[0%nat := op]> (v_ops v) |}.

Definition submit (b : nat) (op : blk_req) (write : Z) (s : kernel) : kernel :=
  set_mmio (<[VIRTIO0 + VIRTIO_MMIO_QUEUE_NOTIFY := 0]> (k_mmio s))
    (upd_vdisk (submitted b op write) (upd_buf b (buf_disk 1) s)).

Lemma submit_private b op w : private (submit b op w).
Proof. by split. Qed.
#[export] Hint Resolve submit_private : core.

Lemma virtio_submit_ok b x write s :
  lock_free L_vdisk s -> hart_ok (k_hart s) -> vdisk_ok (k_vdisk s) -> bc_buf (k_bcache s) !! b = Some x ->
  virtio_submit b write s = Ok 0 (locked L_vdisk (submit b (request_op (b_blockno x) write) write s)).
Proof.
  intros Hl Hh Hv Hb. rewrite <- private_locked by done.
  unfold virtio_submit. mstep (acquire_ok L_vdisk s Hl Hh).
  mstep (alloc3_ok (locked L_vdisk s) (vo_free _ Hv)).
  unfold format_request, put_reg, vget, buf_get, bind, get, modify, ret.
  cbn [upd_vdisk k_bcache set_vdisk]. change (k_bcache (locked L_vdisk s)) with (k_bcache s). rewrite Hb. cbn [default from_option id].
  f_equal. unfold submit. destruct (locked L_vdisk s) as [h lk m u pk pd km kp ps ip np tk bc lg dk sb it ft vd bd fi cs mm] eqn:Et.
  assert (vd = k_vdisk s) as -> by (change (k_vdisk s) with (k_vdisk (locked L_vdisk s)); by rewrite Et).
  destruct Hv as [Hf _ _ _ Hi _ _ _]. destruct (k_vdisk s) as [ds av ai us ui fr se inf ops]. cbn in Hf, Hi. subst fr.
  destruct inf as [|i0 inf]; [done|]. reflexivity.
Qed.

Lemma request_submitted b blockno write s :
  vdisk_ok (k_vdisk s) -> 0 <= blockno < 2 ^ 31 ->
  request (submit b (request_op blockno write) write s) 0 b (request_op blockno write).
Proof.
  intros [_ Hd Ha _ _ Ho [Hi _] Hr] Hb. split; cbn [submit set_mmio k_vdisk upd_vdisk set_vdisk submitted v_avail_idx v_used_idx v_avail v_ops v_desc upd_buf set_bcache].
  - split; [by rewrite Hi|]. rewrite <- Hi. rewrite list_lookup_insert_eq; [done|]. unfold NUM. rewrite Ha, Hi. zdm.
  - by rewrite list_lookup_insert_eq by lia.
  - cbn. change (BSIZE / 512) with 2. rewrite u32_small by lia. apply Z.mod_mul. lia.
  - exists 1%nat, 2%nat. eexists.
    split; [do 2 rewrite list_lookup_insert_ne by done; by rewrite list_lookup_insert_eq by lia|].
    split; [rewrite list_lookup_insert_ne by done; by rewrite list_lookup_insert_eq by (rewrite length_insert; lia)|].
    split; [|by rewrite list_lookup_insert_eq by (rewrite !length_insert; lia)]. cbn. by destruct (truthy write).
Qed.

(** ** The interrupt *)

Section Driver.
Context (reg : Z -> kernel -> Z).

Definition interrupted (b me : nat) (st : Z) (s : kernel) : kernel :=
  upd_vdisk (fun v => v_set_seen (v_used_idx v) v) (wake_all (Ch_buf b) me (upd_buf b (buf_disk 0)
    (set_mmio (<[VIRTIO0 + VIRTIO_MMIO_INTERRUPT_ACK := u32 (Z.land st 3)]> (k_mmio s)) s))).

Lemma virtio_disk_intr_ok me p b s :
  let v := k_vdisk s in
  caller me p s -> lock_free L_vdisk s -> 0 <= v_seen v < 2 ^ 16 -> v_used_idx v = u16 (v_seen v + 1) ->
  v_used v !! Z.to_nat (v_seen v mod NUM) = Some 0 -> v_info v !! 0%nat = Some (Some b, 0) ->
  exists st, virtio_disk_intr reg s = Ok tt (settle (interrupted b me st s)).
Proof.
  intros v C Hl Hn Hu Hid Hinf. pose proof (ca_hart _ _ _ C) as [Hh Hroom].
  unfold virtio_disk_intr. rewrite (bind_ok _ _ _ _ _ (acquire_ok L_vdisk s Hl Hh)).
  unfold bind at 1, get_reg, get at 1. set (st := reg _ _). exists st. unfold put_reg.
  rewrite (bind_ok _ _ _ _ _ (modify_locked L_vdisk _ s (set_mmio_private (fun m => <[VIRTIO0 + VIRTIO_MMIO_INTERRUPT_ACK := u32 (Z.land st 3)]> m)))).
  set (s1 := set_mmio _ s). unfold bind at 1, get at 1. change (k_vdisk (locked L_vdisk s1)) with v. rewrite Hu.
  assert (u16 (u16 (v_seen v + 1) - v_seen v) = 1) as -> by (unfold u16 in *; change (2 ^ 16) with 65536 in *; zdm).
  change (S (Z.to_nat 1)) with 2%nat. cbn [used_loop]. rewrite bind_assoc. unfold bind at 1, get at 1.
  change (k_vdisk (locked L_vdisk s1)) with v. rewrite Hu.
  assert ((v_seen v =? u16 (v_seen v + 1)) = false) as -> by (apply Z.eqb_neq; unfold u16; change (2 ^ 16) with 65536 in *; zdm).
  cbn [negb]. rewrite Hid. cbn [default from_option id]. change (Z.to_nat 0) with 0%nat. unfold info_at. rewrite Hinf. cbn [default from_option id fst snd Z.eqb negb].
  rewrite bind_assoc, (bind_ok _ _ _ _ _ (modify_locked L_vdisk _ s1 (upd_buf_private b (buf_disk 0)))).
  set (s2 := upd_buf b (buf_disk 0) s1).
  assert (caller me p s2) as C2 by (apply caller_private; [done|done|]; destruct C; by split).
  rewrite bind_assoc, (bind_ok _ _ _ _ _ (wakeup_locked (Ch_buf b) L_vdisk me p s2 C2 ltac:(done))).
  rewrite private_locked by done.
  rewrite bind_assoc, (bind_ok _ _ _ _ _ (modify_locked L_vdisk _ (wake_all (Ch_buf b) me s2) (upd_vdisk_private _))).
  set (s3 := upd_vdisk _ (wake_all (Ch_buf b) me s2)).
  rewrite bind_assoc. unfold bind at 1, get at 1. change (k_vdisk (locked L_vdisk s3)) with (v_set_seen (u16 (v_seen v + 1)) v).
  cbn beta. cbn [v_set_seen v_seen v_used_idx]. rewrite Hu, Z.eqb_refl. cbn [negb]. unfold bind, ret.
  rewrite (release_locked L_vdisk s3) by done. f_equal. f_equal. unfold s3, interrupted, upd_vdisk. f_equal.
  change (v_set_seen (u16 (v_seen v + 1)) v = v_set_seen (v_used_idx v) v). by rewrite Hu.
Qed.

Lemma interrupted_caller b me st p s : caller me p s -> caller me p (interrupted b me st s).
Proof.
  intros C. assert (caller me p (wake_all (Ch_buf b) me s)) as [H1 H2 H3 [H4 H5]] by by apply caller_wake.
  split; [exact H1|exact H2|exact H3|split; [exact H4|exact H5]].
Qed.

(** ** Giving the descriptors back *)

Definition freed (i : nat) (me : nat) (s : kernel) : kernel :=
  wake_all Ch_disk_free me (upd_vdisk (v_set_free i 1) (upd_vdisk (v_set_desc i desc_zero) s)).

Lemma freed_private i me : private (freed i me).
Proof. by split. Qed.

Lemma caller_freed i me p s : caller me p s -> caller me p (freed i me s).
Proof. intros C. apply caller_wake. destruct C. by split. Qed.

Lemma free_desc_ok i me p s :
  caller me p s -> (i < 8)%nat -> free_at (k_vdisk s) i = 0 ->
  free_desc (Z.of_nat i) (locked L_vdisk s) = Ok tt (locked L_vdisk (freed i me s)).
Proof.
  intros C Hi Hf. unfold free_desc. unfold NUM. rewrite (proj2 (Z.leb_gt 8 (Z.of_nat i))) by lia. rewrite Nat2Z.id.
  unfold bind at 1, vget, get. change (k_vdisk (locked L_vdisk s)) with (k_vdisk s). rewrite Hf. cbn [truthy Z.eqb negb].
  rewrite (bind_ok _ _ _ _ _ (modify_locked L_vdisk _ s (upd_vdisk_private (v_set_desc i desc_zero)))).
  rewrite (bind_ok _ _ _ _ _ (modify_locked L_vdisk _ _ (upd_vdisk_private (v_set_free i 1)))).
  rewrite (wakeup_locked Ch_disk_free L_vdisk me p) by (try done; destruct C; by split).
  by rewrite private_locked.
Qed.

Definition finished (me : nat) (s : kernel) : kernel :=
  freed 2 me (freed 1 me (freed 0 me (upd_vdisk (fun v => v_set_info 0 (None, snd (info_at v 0)) v) s))).

Lemma chain_step f i d me p s :
  caller me p s -> (i < 8)%nat -> free_at (k_vdisk s) i = 0 -> v_desc (k_vdisk s) !! i = Some d ->
  free_chain_loop (S f) (Z.of_nat i) (locked L_vdisk s) =
    (if truthy (Z.land (d_flags d) VRING_DESC_F_NEXT) then free_chain_loop f (d_next d) else ret tt)
      (locked L_vdisk (freed i me s)).
Proof.
  intros C Hi Hf Hd. cbn [free_chain_loop]. unfold bind at 1, vget, get. change (k_vdisk (locked L_vdisk s)) with (k_vdisk s).
  unfold desc_at. rewrite Nat2Z.id, Hd. cbn [default from_option id].
  by rewrite (bind_ok _ _ _ _ _ (free_desc_ok i me p s C Hi Hf)).
Qed.

Lemma virtio_finish_ok me p d0 d1 d2 s :
  caller me p s -> lock_free L_vdisk s -> v_free (k_vdisk s) = [0; 0; 0; 1; 1; 1; 1; 1] ->
  v_desc (k_vdisk s) !! 0%nat = Some d0 -> v_desc (k_vdisk s) !! 1%nat = Some d1 -> v_desc (k_vdisk s) !! 2%nat = Some d2 ->
  truthy (Z.land (d_flags d0) VRING_DESC_F_NEXT) = true -> d_next d0 = 1 ->
  truthy (Z.land (d_flags d1) VRING_DESC_F_NEXT) = true -> d_next d1 = 2 ->
  truthy (Z.land (d_flags d2) VRING_DESC_F_NEXT) = false ->
  virtio_finish 0 (locked L_vdisk s) = Ok tt (settle (finished me s)).
Proof.
  intros C Hl Hf H0 H1 H2 F0 N0 F1 N1 F2. unfold virtio_finish. change (Z.to_nat 0) with 0%nat.
  unfold bind at 1, vget, get. change (k_vdisk (locked L_vdisk s)) with (k_vdisk s).
  rewrite (bind_ok _ _ _ _ _ (modify_locked L_vdisk _ s (upd_vdisk_private _))).
  set (s0 := upd_vdisk _ s). assert (caller me p s0) as C0 by (destruct C; by split).
  assert (free_chain 0 (locked L_vdisk s0) = Ok tt (locked L_vdisk (freed 2 me (freed 1 me (freed 0 me s0))))) as E.
  { unfold free_chain. change (S (Z.to_nat NUM)) with (S (S (S 6))). change 0 with (Z.of_nat 0).
    rewrite (chain_step _ 0 d0 me p s0); [|done|lia|unfold free_at; cbn; by rewrite Hf|done]. rewrite F0, N0. change 1 with (Z.of_nat 1).
    rewrite (chain_step _ 1 d1 me p (freed 0 me s0)); [|by apply caller_freed|lia|unfold free_at; cbn; by rewrite Hf|].
    2:{ cbn. rewrite list_lookup_insert_ne by done. done. }
    rewrite F1, N1. change 2 with (Z.of_nat 2).
    rewrite (chain_step _ 2 d2 me p (freed 1 me (freed 0 me s0))); [|by do 2 apply caller_freed|lia|unfold free_at; cbn; by rewrite Hf|].
    2:{ cbn. do 2 rewrite list_lookup_insert_ne by done. done. }
    by rewrite F2. }
  rewrite (bind_ok _ _ _ _ _ E). rewrite (release_locked L_vdisk (freed 2 me (freed 1 me (freed 0 me s0)))); [done|done|].
  apply (ca_hart _ _ _ C).
Qed.

(** ** A whole transfer *)

Context (device : KM unit) {VD : VirtioDevice device}.

(** virtio_disk_rw, with what happens while the process sleeps in its second loop
    put in place of the sleep: the lock is free, the device serves the request, the
    interrupt handler runs, and the process takes the lock again and finds b->disk
    changed. *)
Definition virtio_cycle (b : nat) (write : Z) : KM unit :=
  let! i0 := virtio_submit b write in
  do! release L_vdisk;
  do! device;
  do! virtio_disk_intr reg;
  do! acquire L_vdisk;
  do! await_served b;
  virtio_finish i0.

Definition disk_ready (s : kernel) : Prop := lock_free L_vdisk s /\ vdisk_ok (k_vdisk s).

(** The driver's structures at the end. *)
Definition cycled (b : nat) (op : blk_req) (write : Z) (v : vdisk_t) : vdisk_t :=
  let v := used_by_device 0 (submitted b op write v) in
  let v := v_set_seen (v_used_idx v) v in
  let v := v_set_info 0 (None, snd (info_at v 0)) v in
  let clear i v := v_set_free i 1 (v_set_desc i desc_zero v) in
  clear 2%nat (clear 1%nat (clear 0%nat v)).

Lemma cycled_ok b op write v : vdisk_ok v -> vdisk_ok (cycled b op write v).
Proof.
  intros [H1 H2 H3 H4 H5 H6 [H7 H8] H9].
  split; cbn; rewrite ?length_insert; try done; rewrite ?H7; unfold u16; change (2 ^ 16) with 65536; zdm.
Qed.

Lemma completed_caller h b op me p s : caller me p s -> caller me p (completed h b op s).
Proof.
  intros [H1 H2 H3 [H4 H5]]. unfold completed.
  destruct (rq_type op =? VIRTIO_BLK_T_IN); (split; [exact H1|exact H2|exact H3|split; [exact H4|exact H5]]).
Qed.

(** The state when the interrupt has been handled. *)
Definition arrived (b me : nat) (op : blk_req) (write st : Z) (s : kernel) : kernel :=
  settle (interrupted b me st (completed 0 b op (settle (submit b op write s)))).

Lemma cycle_arrives me p b x write s :
  caller me p s -> disk_ready s -> bc_buf (k_bcache s) !! b = Some x -> 0 <= b_blockno x < 2 ^ 31 ->
  exists st, virtio_cycle b write s =
    (do! acquire L_vdisk; do! await_served b; virtio_finish 0) (arrived b me (request_op (b_blockno x) write) write st s).
Proof.
  intros C [Hl Hv] Hb Hbn. pose proof (ca_hart _ _ _ C) as [Hh Hroom]. set (op := request_op (b_blockno x) write).
  set (s1 := settle (submit b op write s)).
  assert (request s1 0 b op) as R by (destruct (request_submitted b (b_blockno x) write s Hv Hbn); by split).
  assert (caller me p s1) as C1 by (apply caller_settle; destruct C; by split).
  pose proof (completed_caller 0 b op me p s1 C1) as C2.
  assert (k_vdisk (completed 0 b op s1) = used_by_device 0 (submitted b op write (k_vdisk s))) as Ev
    by (unfold completed; by destruct (rq_type op =? _)).
  assert (lock_free L_vdisk (completed 0 b op s1)) as Hl2 by (unfold completed; by destruct (rq_type op =? _)).
  destruct Hv as [H1 H2 H3 H4 H5 H6 [H7 H8] H9].
  destruct (virtio_disk_intr_ok me p b (completed 0 b op s1) C2 Hl2) as [st E];
    [rewrite Ev; cbn; by rewrite H8|rewrite Ev; cbn; by rewrite H8| | |].
  { rewrite Ev. cbn. rewrite H8. apply list_lookup_insert_eq. unfold NUM. rewrite H4. zdm. }
  { rewrite Ev. cbn. unfold info_at. cbn. rewrite list_lookup_insert_eq by (rewrite length_insert; lia).
    by rewrite list_lookup_insert_eq by lia. }
  exists st. unfold virtio_cycle.
  rewrite (bind_ok _ _ _ _ _ (virtio_submit_ok b x write s Hl Hh (Build_vdisk_ok _ H1 H2 H3 H4 H5 H6 (conj H7 H8) H9) Hb)).
  rewrite (bind_ok _ _ _ _ _ (release_locked L_vdisk (submit b op write s) Hl Hh)).
  rewrite (bind_ok _ _ _ _ _ (device_serves s1 0%nat b op R)). by rewrite (bind_ok _ _ _ _ _ E).
Qed.

(** The state afterwards. *)
Definition final (b me : nat) (op : blk_req) (write st : Z) (s : kernel) : kernel :=
  settle (finished me (arrived b me op write st s)).

(** What the buffer [b] holds. *)
Definition moved (op : blk_req) (b : nat) (s : kernel) : list Z :=
  if rq_type op =? VIRTIO_BLK_T_IN then disk_block s (rq_sector op / 2)
  else b_data (default buf_zero (bc_buf (k_bcache s) !! b)).

Lemma arrived_bcache b me op write st x s :
  bc_buf (k_bcache s) !! b = Some x ->
  k_bcache (arrived b me op write st s) = k_bcache (upd_buf b (served (moved op b s)) s).
Proof.
  intros Hb. unfold moved. cbn. rewrite Hb. cbn.
  destruct (rq_type op =? VIRTIO_BLK_T_IN); cbn; f_equal;
    [rewrite !list_alter_alter_eq; by apply list_alter_ext|].
  rewrite list_alter_alter_eq. apply list_alter_ext; [|done]. intros y Hy. rewrite Hb in Hy. injection Hy as <-. by destruct x.
Qed.

Lemma arrived_disk b me op write st x s :
  bc_buf (k_bcache s) !! b = Some x ->
  k_disk (arrived b me op write st s) =
    if rq_type op =? VIRTIO_BLK_T_IN then k_disk s else <[rq_sector op / 2 := b_data x]> (k_disk s).
Proof.
  intros Hb. cbn. destruct (rq_type op =? VIRTIO_BLK_T_IN); [done|]. cbn. rewrite list_lookup_alter_eq, Hb. done.
Qed.

Lemma arrived_locks b me op write st s : k_locks (arrived b me op write st s) = k_locks s.
Proof. cbn. by destruct (rq_type op =? VIRTIO_BLK_T_IN). Qed.

Lemma arrived_vdisk b me op write st s :
  k_vdisk (arrived b me op write st s) =
    let v := used_by_device 0 (submitted b op write (k_vdisk s)) in v_set_seen (v_used_idx v) v.
Proof. cbn. by destruct (rq_type op =? VIRTIO_BLK_T_IN). Qed.

Lemma await_served_ok b x s : bc_buf (k_bcache s) !! b = Some x -> b_disk x = 0 -> await_served b s = Ok tt s.
Proof. intros Hb Hx. unfold await_served, buf_get, bind, get. by rewrite Hb; cbn; rewrite Hx. Qed.

Lemma cycle_ends me p b x op write v s :
  caller me p s -> lock_free L_vdisk s -> bc_buf (k_bcache s) !! b = Some x -> b_disk x = 0 ->
  length (v_desc v) = 8%nat ->
  k_vdisk s = (let v := used_by_device 0 (submitted b op write v) in v_set_seen (v_used_idx v) v) ->
  (do! acquire L_vdisk; do! await_served b; virtio_finish 0) s = Ok tt (settle (finished me s)).
Proof.
  intros C Hl Hb Hx H2 Ev. pose proof (ca_hart _ _ _ C) as [Hh _].
  rewrite (bind_ok _ _ _ _ _ (acquire_ok L_vdisk s Hl Hh)).
  rewrite (bind_ok _ _ _ _ _ (await_served_ok b x (locked L_vdisk s) Hb Hx)).
  eapply (virtio_finish_ok me p); [exact C|exact Hl| | | | | | | | |]; rewrite ?Ev; cbn; try done.
  - do 2 rewrite list_lookup_insert_ne by done. by rewrite list_lookup_insert_eq by lia.
  - rewrite list_lookup_insert_ne by done. by rewrite list_lookup_insert_eq by (rewrite length_insert; lia).
  - by rewrite list_lookup_insert_eq by (rewrite !length_insert; lia).
  - done.
  - done.
  - by destruct (truthy write).
  - done.
  - done.
Qed.

Lemma arrived_caller b me op write st p s : caller me p s -> caller me p (arrived b me op write st s).
Proof.
  intros C. apply caller_settle, interrupted_caller, completed_caller, caller_settle. destruct C; by split.
Qed.

Lemma virtio_cycle_ok me p b x write s :
  caller me p s -> disk_ready s -> bc_buf (k_bcache s) !! b = Some x -> 0 <= b_blockno x < 2 ^ 31 ->
  exists st, virtio_cycle b write s = Ok tt (final b me (request_op (b_blockno x) write) write st s).
Proof.
  intros C D Hb Hbn. destruct (cycle_arrives me p b x write s C D Hb Hbn) as [st ->]. exists st.
  generalize (request_op (b_blockno x) write) as op. intros op. destruct D as [Hl Hv].
  apply (cycle_ends me p b (served (moved op b s) x) op write (k_vdisk s)).
  - by apply arrived_caller.
  - unfold lock_free. by rewrite arrived_locks.
  - rewrite (arrived_bcache b me op write st x s Hb). cbn [upd_buf k_bcache set_bcache bc_buf].
    by rewrite list_lookup_alter_eq, Hb.
  - done.
  - apply (vo_desc _ Hv).
  - apply arrived_vdisk.
Qed.

Lemma finished_caller me p s : caller me p s -> caller me p (finished me s).
Proof. intros C. unfold finished. apply (caller_freed 2), (caller_freed 1), (caller_freed 0). destruct C; by split. Qed.

Lemma final_caller b me op write st p s : caller me p s -> caller me p (final b me op write st s).
Proof.
  intros C. by apply caller_settle, finished_caller, arrived_caller.
Qed.

Lemma final_rest b me op write st s :
  k_hart (final b me op write st s) = hart_settle (k_hart s) /\ k_log (final b me op write st s) = k_log s /\
  k_panicked (final b me op write st s) = k_panicked s /\ k_panicking (final b me op write st s) = k_panicking s /\
  rest (final b me op write st s) = rest s.
Proof.
  unfold rest. cbn. destruct (rq_type op =? VIRTIO_BLK_T_IN); cbn; by rewrite !hart_settle_idem.
Qed.

Lemma finished_locks me s : k_locks (settle (finished me s)) = k_locks s.
Proof. done. Qed.
Lemma finished_bcache me s : k_bcache (settle (finished me s)) = k_bcache s.
Proof. done. Qed.
Lemma finished_disk me s : k_disk (settle (finished me s)) = k_disk s.
Proof. done. Qed.
Lemma finished_vdisk me s :
  k_vdisk (settle (finished me s)) =
    let clear i v := v_set_free i 1 (v_set_desc i desc_zero v) in
    clear 2%nat (clear 1%nat (clear 0%nat (v_set_info 0 (None, snd (info_at (k_vdisk s) 0)) (k_vdisk s)))).
Proof. done. Qed.

Lemma final_ready b me op write st s : disk_ready s -> disk_ready (final b me op write st s).
Proof.
  intros [Hl Hv]. split.
  - unfold lock_free, final. by rewrite finished_locks, arrived_locks.
  - assert (k_vdisk (final b me op write st s) = cycled b op write (k_vdisk s)) as ->; [|by apply cycled_ok].
    unfold final. by rewrite finished_vdisk, arrived_vdisk.
Qed.

Lemma final_transfer me p b x bn write st s :
  caller me p s -> bc_buf (k_bcache s) !! b = Some x -> 0 <= bn < 2 ^ 31 ->
  transfer b (served (if truthy write then b_data x else disk_block s bn))
    (if truthy write then <[bn := b_data x]> (k_disk s) else k_disk s) s (final b me (request_op bn write) write st s).
Proof.
  intros C Hb Hbn. set (op := request_op bn write).
  destruct (final_rest b me op write st s) as (R1 & R2 & R3 & R4 & R5).
  assert (rq_sector op / 2 = bn) as Es by (cbn; change (BSIZE / 512) with 2; rewrite u32_small by lia; apply Z.div_mul; lia).
  assert ((rq_type op =? VIRTIO_BLK_T_IN) = negb (truthy write)) as Et by (cbn; by destruct (truthy write)).
  pose proof (final_caller b me op write st p s C) as C'. split.
  - unfold final. rewrite finished_bcache, (arrived_bcache b me op write st x s Hb). unfold moved. rewrite Et, Es, Hb. by destruct (truthy write).
  - unfold final. rewrite finished_disk, (arrived_disk b me op write st x s Hb), Et, Es. by destruct (truthy write).
  - unfold final. by rewrite finished_locks, arrived_locks.
  - exact R1.
  - destruct C as [_ M E [L _]], C' as [_ M' E' [L' _]]. split; [congruence|]. intros me' Hm. congruence.
  - exact R2.
  - done.
  - exact R5.
Qed.

(** The driver is a block device for the buffer cache. *)
#[export] Instance virtio_device : BlockDevice virtio_cycle.
Proof.
  refine {| bd_ready := disk_ready |}.
  - intros s s' Hl Hv [H1 H2]. split; [unfold lock_free; by rewrite Hl|by rewrite Hv].
  - intros me p i b s C D Hb Hbn. destruct (virtio_cycle_ok me p i b 0 s C D Hb Hbn) as [st E].
    eexists. split; [exact E|]. split; [by apply final_ready|]. by apply (final_transfer me p i b _ 0).
  - intros me p i b s C D Hb Hbn. destruct (virtio_cycle_ok me p i b 1 s C D Hb Hbn) as [st E].
    eexists. split; [exact E|]. split; [by apply final_ready|]. by apply (final_transfer me p i b _ 1).
Qed.

End Driver.

(** ** A device that reads the rings *)

(** The device takes the next entry of the available ring, follows its chain, and
    serves it; it ignores a chain of another shape. *)
Definition ring_device : KM unit := fun s =>
  let v := k_vdisk s in
  if v_avail_idx v =? v_used_idx v then Ok tt s
  else
    let h := Z.to_nat (default 0 (v_avail v !! Z.to_nat (v_used_idx v mod NUM))) in
    let data := desc_at v (Z.to_nat (d_next (desc_at v h))) in
    match v_ops v !! h, d_addr data with
    | Some op, D_data b => Ok tt (completed h b op s)
    | _, _ => Ok tt s
    end.

#[export] Instance ring_device_serves : VirtioDevice ring_device.
Proof.
  intros s h b op [[R1 R2] R3 R4 (i1 & i2 & fl & R5 & R6 & _)]. unfold ring_device.
  destruct (v_avail_idx (k_vdisk s) =? v_used_idx (k_vdisk s)) eqn:E.
  - apply Z.eqb_eq in E. rewrite E in R1. exfalso. unfold u16 in R1. change (2 ^ 16) with 65536 in R1. zdm.
  - rewrite R2. cbn [default from_option id]. rewrite Nat2Z.id, R3. unfold desc_at. rewrite R5.
    cbn [default from_option id d_next]. rewrite Nat2Z.id, R6. done.
Qed.


(** The driver's structures after virtio_disk_init. *)
Definition started (s : kernel) : kernel := upd_vdisk (fun v => foldr (fun i => v_set_free i 1) v (seq 0 8)) s.

Lemma started_caller me p s : caller me p s -> caller me p (started s).
Proof. intros [H1 H2 H3 [H4 H5]]. split; [exact H1|exact H2|exact H3|split; [exact H4|exact H5]]. Qed.

Lemma started_ready s : lock_free L_vdisk s -> k_vdisk s = vdisk_zero -> disk_ready (started s).
Proof. intros Hl Hv. split; [exact Hl|]. cbn. rewrite Hv. by repeat split. Qed.

Definition no_regs (r : Z) (s : kernel) : Z := 0.

