(* ===== verification/Trap.v ===== *)
(** * kernel/trap/trap.c: traps from user and kernel mode

    The assembly saves the registers and calls usertrap or kernelTrap; the hart has then
    cleared SIE, and sepc, scause and stval describe the trap. The addresses of the
    assembly entry points are link-time constants. A trap handler that yields stops at the
    context switch; what it does when the process runs again is a definition of its own. *)

From S2P Require Import Prelude Mem CString State Spinlock Printf Locks PageAlloc Vm Sleep Bio Bytes Log Fs File Proc Schedule Exec Syscall Virtio Devices.

(** ** The supervisor registers (include/riscv.h) *)

Definition w_sepc (v : Z) : KM unit :=
  upd_csr (fun c => {| r_stvec := r_stvec c; r_sepc := v; r_scause := r_scause c; r_stval := r_stval c;
                       r_satp := r_satp c; r_stimecmp := r_stimecmp c; r_time := r_time c |}).
Definition w_stvec (v : Z) : KM unit :=
  upd_csr (fun c => {| r_stvec := v; r_sepc := r_sepc c; r_scause := r_scause c; r_stval := r_stval c;
                       r_satp := r_satp c; r_stimecmp := r_stimecmp c; r_time := r_time c |}).
Definition w_stimecmp (v : Z) : KM unit :=
  upd_csr (fun c => {| r_stvec := r_stvec c; r_sepc := r_sepc c; r_scause := r_scause c; r_stval := r_stval c;
                       r_satp := r_satp c; r_stimecmp := v; r_time := r_time c |}).
Definition r_sstatus : KM Z := get (fun s => h_sstatus (k_hart s)).
Definition set_sstatus (v : Z) (s : kernel) : kernel :=
  set_hart {| h_tp := h_tp (k_hart s); h_cpu := h_cpu (k_hart s); h_sstatus := v |} s.
Definition w_sstatus (v : Z) : KM unit := modify (set_sstatus v).

(** ** struct trapframe (include/proc.h) *)

Definition TF_kernel_satp : Z := 0.
Definition TF_kernel_sp : Z := 8.
Definition TF_kernel_trap : Z := 16.
Definition TF_kernel_hartid : Z := 32.

(** [scause] of a supervisor external and a supervisor timer interrupt. *)
Definition EXTERNAL : Z := 0x8000000000000009.
Definition TIMER : Z := 0x8000000000000005.

Section Trap.
Context `{Layout}.
(** kernelVec, uservec and userret of the assembly files, and usertrap. *)
Context (kernelVec uservec userret usertrap_addr : Z).
(** The registers of the disk and of the interrupt controller. *)
Context (reg claim_reg : Z -> kernel -> Z).
Context (virtio_disk_rw : nat -> Z -> KM unit) (kalloc : KM Z) (kfree : Z -> KM unit).
Context (buf_addr : nat -> Z) (stack elf ph ustack path_buf uarg waiter_str : Z).
Context (forkret_addr : Z) (xstate_addr : nat -> Z).
Abbreviation syscall := (syscall virtio_disk_rw kalloc kfree buf_addr stack elf ph ustack path_buf uarg forkret_addr xstate_addr).
Abbreviation kexec := (kexec virtio_disk_rw kalloc kfree buf_addr stack elf ph ustack).

Definition trapInit : KM unit := initlock L_ticks "time".
Definition trapInitHart : KM unit := w_stvec kernelVec.

Definition prepare_return : KM unit :=
  let! me := myproc in
  let! p := the_proc me in
  do! intr_off;
  do! w_stvec (u64 (TRAMPOLINE + (uservec - trampoline)));
  let! tf := pget p p_trapframe in
  let! satp := rcsr r_satp in
  do! st64 (tf + TF_kernel_satp) satp;
  let! kstack := pget p p_kstack in
  do! st64 (tf + TF_kernel_sp) (kstack + PGSIZE);
  do! st64 (tf + TF_kernel_trap) usertrap_addr;
  let! tp := get (fun s => h_tp (k_hart s)) in
  do! st64 (tf + TF_kernel_hartid) tp;
  let! x := r_sstatus in
  let x := Z.land x (Z.lnot SSTATUS_SPP) in
  let x := Z.lor x SSTATUS_SPIE in
  do! w_sstatus x;
  let! epc := ld64 (tf + TF_epc) in
  w_sepc epc.

Definition clockIntr : KM unit :=
  let! id := cpuid in
  do! (when! id =? 0 then
         do! acquire L_ticks;
         do! modify (fun s => set_ticks (s32 (k_ticks s + 1)) s);
         do! wakeup Ch_ticks;
         release L_ticks);
  let! t := rcsr r_time in
  w_stimecmp (u64 (t + 1000000)).

Definition devIntr : KM Z :=
  let! scause := rcsr r_scause in
  if scause =? EXTERNAL then
    let! irq := plicClaim claim_reg in
    do! (if irq =? UART0_IRQ then printf ("串口中断" ++ nl) []
         else if irq =? VIRTIO0_IRQ then virtio_disk_intr reg
         else when! truthy irq then printf ("未知中断号 irq=%d" ++ nl) [VNum irq]);
    do! (when! truthy irq then plicComplete irq);
    ret 1
  else if scause =? TIMER then do! clockIntr; ret 2
  else ret 0.

(** The end of kernelTrap, with the values its local variables keep. *)
Definition kernelTrap_end (sepc sstatus : Z) : KM unit :=
  do! w_sepc sepc;
  w_sstatus sstatus.

Definition kernelTrap : KM unit :=
  let! sepc := rcsr r_sepc in
  let! sstatus := r_sstatus in
  let! scause := rcsr r_scause in
  if Z.land sstatus SSTATUS_SPP =? 0 then panic "kerneltrap: not from supervisor mode"
  else
    let! ie := intr_get in
    if truthy ie then panic "kerneltrap: interrupts enabled"
    else
      let! which_dev := devIntr in
      if which_dev =? 0 then
        do! printf ("scause %p" ++ nl) [VNum scause];
        let! sepc' := rcsr r_sepc in
        let! stval := rcsr r_stval in
        do! printf ("sepc=%p stval=%p" ++ nl) [VNum sepc'; VNum stval];
        panic "PLIC传递未知中断号引起错误"
      else
        let! c := mycpu in
        do! (when! (which_dev =? 2) && bool_decide (c_proc c <> None) then yield);
        kernelTrap_end sepc sstatus.

(** kernelTrap after its call of yield, when process [i] runs again. *)
Definition kernelTrap_resume (i : nat) (intena sepc sstatus : Z) : KM unit :=
  do! yield_resume i intena;
  kernelTrap_end sepc sstatus.

(** The end of usertrap: the page table to switch to. *)
Definition usertrap_return (p : nat) : KM Z :=
  do! prepare_return;
  let! pt := pget p p_pagetable in
  ret (MAKE_SATP pt).

Definition usertrap : KM Z :=
  let! st := r_sstatus in
  if negb (Z.land st SSTATUS_SPP =? 0) then panic "usertrap: not from user mode"
  else
    do! w_stvec kernelVec;
    let! me := myproc in
    let! p := the_proc me in
    let! tf := pget p p_trapframe in
    let! sepc := rcsr r_sepc in
    do! st64 (tf + TF_epc) sepc;
    let! scause := rcsr r_scause in
    let! which_dev :=
      (if scause =? 8 then
         let! epc := ld64 (tf + TF_epc) in
         do! st64 (tf + TF_epc) (u64 (epc + 4));
         do! intr_on;
         do! syscall;
         ret 0
       else
         let! which_dev := devIntr in
         if negb (which_dev =? 0) then ret which_dev
         else
           let! scause := rcsr r_scause in
           let! stval := rcsr r_stval in
           let! pa :=
             (if (scause =? 15) || (scause =? 13)
              then let! pt := pget p p_pagetable in vmfault kalloc kfree pt stval (b2z (scause =? 13))
              else ret 0) in
           if negb (pa =? 0) then do! printf ("处理缺页异常成功" ++ nl) []; ret 0
           else
             let! pid := pget p p_pid in
             do! printf ("usertrap(): unexpected scause 0x%lx pid=%d" ++ nl) [VNum scause; VNum pid];
             let! sepc := rcsr r_sepc in
             do! printf ("            sepc=0x%lx stval=0x%lx" ++ nl) [VNum sepc; VNum stval];
             do! setkilled p;
             ret 0) in
    let! k := killed p in
    do! (when! truthy k then kexit virtio_disk_rw (-1));
    do! (when! which_dev =? 2 then yield);
    usertrap_return p.

(** usertrap after its call of yield, when process [p] runs again. *)
Definition usertrap_resume (p : nat) (intena : Z) : KM Z :=
  do! yield_resume p intena;
  usertrap_return p.

(** forkret of kernel/proc/proc.c: where a new process starts. It jumps to userret in the
    trampoline with the page table to switch to: the address and the argument. *)
Definition forkret : KM (Z * Z) :=
  let! me := myproc in
  let! p := the_proc me in
  do! release (L_proc p);
  let! first := get k_first in
  do! (when! truthy first then
         do! fsinit virtio_disk_rw ROOTDEV;
         do! modify (set_first 0);
         let! r := kexec (bytes_of "/waiter" ++ [0]) [waiter_str; 0] in
         let! tf := pget p p_trapframe in
         do! st64 (tf + TF_a0) (u64 r);
         when! u64 r =? u64 (-1) then panic "exec");
  do! prepare_return;
  let! pt := pget p p_pagetable in
  ret (u64 (TRAMPOLINE + (userret - trampoline)), MAKE_SATP pt).
End Trap.
