(* ===== verification/TrapProps.v ===== *)
(** * Traps: preemption by the clock, system calls and faults *)

From S2P Require Import Prelude Mem CString State Spinlock Printf Locks PageAlloc Kalloc Vm Sleep Critical Bio Bytes BlockCache Log Fs File FileProps Proc Schedule ProcAlloc Exec Syscall SyscallProps Virtio Devices Trap.

(** ** The clock *)

(** The processes asleep on the ticks are runnable. *)
Definition woken (s : kernel) : kernel :=
  set_procs (wake_range Ch_ticks (me_of s) 0 64 (k_procs s)) s.

(** Hart 0 counts the tick and wakes the sleepers. *)
Definition tick (s : kernel) : kernel :=
  if h_tp (k_hart s) =? 0 then woken (set_ticks (s32 (k_ticks s + 1)) s) else s.

Definition with_stimecmp (v : Z) (c : csrs) : csrs :=
  {| r_stvec := r_stvec c; r_sepc := r_sepc c; r_scause := r_scause c; r_stval := r_stval c;
     r_satp := r_satp c; r_stimecmp := v; r_time := r_time c |}.

(** The state of a hart that took a trap: its number, and interrupts off. *)
Record trapped (s : kernel) : Prop := {
  tr_hart : hart_ok (k_hart s);
  tr_noff : c_noff (h_cpu (k_hart s)) = 0;
  tr_off : hart_intr_get (k_hart s) = 0;
  tr_tp : 0 <= h_tp (k_hart s) < NCPU;
  tr_procs : procs_ready s;
  tr_ticks : lock_free L_ticks s
}.

Definition timer_set (s : kernel) : kernel := set_csr (with_stimecmp (u64 (r_time (k_csr s) + 1000000)) (k_csr s)) s.

Lemma clockIntr_ok s :
  trapped s -> exists s', clockIntr s = Ok tt s' /\ settle s' = timer_set (tick (settle s)) /\ hart_ok (k_hart s').
Proof.
  intros [Hh Hn Hi Ht [Hlen Hpl] Hl]. unfold clockIntr, cpuid. unfold bind at 1, get at 1.
  rewrite s32_small by (unfold NCPU in Ht; lia). unfold tick. change (h_tp (k_hart (settle s))) with (h_tp (hart_settle (k_hart s))).
  assert (h_tp (hart_settle (k_hart s)) = h_tp (k_hart s)) as Etp by (unfold hart_settle; by destruct (_ =? 0)). rewrite Etp.
  destruct (Z.eqb_spec (h_tp (k_hart s)) 0) as [E0|E0].
  - set (f := fun s => set_ticks (s32 (k_ticks s + 1)) s). assert (private f) as Hf by (by split).
    rewrite !bind_assoc. mstep (acquire_ok L_ticks s Hl Hh). rewrite !bind_assoc. fold f. mstep (modify_locked L_ticks f s Hf).
    rewrite !bind_assoc.
    assert (wakeup Ch_ticks (locked L_ticks (f s)) = Ok tt (woken (locked L_ticks (f s)))) as Ew.
    { rewrite wakeup_ok; [by rewrite settle_locked|apply hart_push_ok; [done|cbn; lia]|].
      split; [done|]. intros i Hin. apply free_locked; [done|by apply Hpl]. }
    mstep Ew.
    change (woken (locked L_ticks (f s))) with (set_procs (wake_range Ch_ticks (me_of s) 0 64 (k_procs s)) (locked L_ticks (f s))).
    assert (private (set_procs (wake_range Ch_ticks (me_of s) 0 64 (k_procs s)))) as Hg by (by split).
    mstep (release_private L_ticks _ (f s) Hg Hl Hh).
    eexists. split; [reflexivity|]. split; [|by apply hart_settle_ok]. unfold woken, me_of, timer_set, settle, f. cbn -[hart_settle]. by rewrite hart_settle_idem, hart_settle_proc.
  - unfold bind at 1, ret at 1. eexists. split; [reflexivity|]. by split.
Qed.

Lemma tick_settle s : tick (settle s) = settle (tick s).
Proof.
  unfold tick. assert (h_tp (k_hart (settle s)) = h_tp (k_hart s)) as -> by (cbn; unfold hart_settle; by destruct (_ =? 0)).
  destruct (_ =? 0); [|done]. unfold woken, me_of, settle. cbn -[hart_settle wake_range]. by rewrite hart_settle_proc.
Qed.

Lemma tick_frame s : k_hart (tick s) = k_hart s /\ k_locks (tick s) = k_locks s /\ k_csr (tick s) = k_csr s /\ k_mem (tick s) = k_mem s.
Proof. unfold tick. by destruct (_ =? 0). Qed.

(** The running process itself is not asleep. *)
Lemma tick_me s i p : me_of s = Some i -> k_procs s !! i = Some p -> k_procs (tick s) !! i = Some p.
Proof.
  intros Hme Hp. unfold tick. destruct (_ =? 0); [|done]. cbn [woken k_procs set_procs]. rewrite lookup_wake_range. cbn. rewrite Hp.
  destruct (decide _); [|done]. cbn. unfold wake1, me_of. cbn. by rewrite decide_True.
Qed.

Section KernelTraps.
Context (reg claim_reg : Z -> kernel -> Z).
Abbreviation kernelTrap := (kernelTrap reg claim_reg).
Abbreviation devIntr := (devIntr reg claim_reg).

Lemma devIntr_timer s :
  trapped s -> r_scause (k_csr s) = TIMER ->
  exists s', devIntr s = Ok 2 s' /\ settle s' = settle (timer_set (tick s)) /\ hart_ok (k_hart s').
Proof.
  intros Ht Hc. destruct (clockIntr_ok s Ht) as (s' & E & Es & Hh). exists s'. split; [|split; [|done]].
  - unfold Trap.devIntr, rcsr. unfold bind at 1, get at 1. rewrite Hc. cbn [Z.eqb Pos.eqb TIMER EXTERNAL]. by mstep E.
  - rewrite Es, tick_settle. done.
Qed.

(** What two states that differ in the scratch field of the nesting share. *)
Lemma settled_same s t : settle s = settle t ->
  c_noff (h_cpu (k_hart s)) = c_noff (h_cpu (k_hart t)) /\ me_of s = me_of t /\ h_sstatus (k_hart s) = h_sstatus (k_hart t) /\
  k_procs s = k_procs t /\ k_locks s = k_locks t /\ k_csr s = k_csr t.
Proof.
  intros E.
  assert (forall h, h_sstatus (hart_settle h) = h_sstatus h) as Hs by (intros h; unfold hart_settle; by destruct (_ =? 0)).
  split; [|split; [|split; [|split; [|split]]]].
  - by rewrite <- (hart_settle_noff (k_hart s)), <- (hart_settle_noff (k_hart t)), (f_equal k_hart E : hart_settle _ = hart_settle _).
  - unfold me_of. by rewrite <- (hart_settle_proc (k_hart s)), <- (hart_settle_proc (k_hart t)), (f_equal k_hart E : hart_settle _ = hart_settle _).
  - by rewrite <- (Hs (k_hart s)), <- (Hs (k_hart t)), (f_equal k_hart E : hart_settle _ = hart_settle _).
  - exact (f_equal k_procs E).
  - exact (f_equal k_locks E).
  - exact (f_equal k_csr E).
Qed.

Lemma kernelTrap_end_ok sepc sstatus s :
  exists s', kernelTrap_end sepc sstatus s = Ok tt s' /\ r_sepc (k_csr s') = sepc /\ h_sstatus (k_hart s') = sstatus /\
    k_procs s' = k_procs s /\ k_locks s' = k_locks s.
Proof. eexists. split; [reflexivity|]. done. Qed.

Lemma kernelTrap_end_same s : kernelTrap_end (r_sepc (k_csr s)) (h_sstatus (k_hart s)) s = Ok tt s.
Proof. destruct s as [[? ? ?] ? ? ? ? ? ? ? ? ? ? ? ? ? ? ? ? ? ? ? ? [] ?]. reflexivity. Qed.

(** The first part of kernelTrap, for the timer. *)
Lemma kernelTrap_timer_starts s :
  trapped s -> Z.land (h_sstatus (k_hart s)) SSTATUS_SPP <> 0 -> r_scause (k_csr s) = TIMER ->
  exists s', settle s' = settle (timer_set (tick s)) /\ hart_ok (k_hart s') /\
    kernelTrap s = (do! (when! bool_decide (me_of s' <> None) then yield); kernelTrap_end (r_sepc (k_csr s)) (h_sstatus (k_hart s))) s'.
Proof.
  intros Ht Hspp Hc. destruct (devIntr_timer s Ht Hc) as (s' & E & Es & Hh). exists s'. split; [done|]. split; [done|].
  unfold Trap.kernelTrap, rcsr, r_sstatus. unfold bind at 1, get at 1. unfold bind at 1, get at 1. unfold bind at 1, get at 1.
  rewrite (proj2 (Z.eqb_neq _ _) Hspp). unfold bind at 1, intr_get, get at 1. rewrite (tr_off s Ht). cbn [truthy Z.eqb negb].
  mstep E. cbn [Z.eqb Pos.eqb]. unfold bind at 1, mycpu, get at 1. done.
Qed.

(** C26: a timer interrupt in the kernel. Hart 0 counts it and makes the processes that sleep on
    the clock runnable; the next one is asked for. On a hart that runs no process the kernel
    goes on where it was interrupted, with sepc and sstatus as they were. On a hart that
    runs process [i] the process becomes runnable and the hart switches to the scheduler
    with the process's lock held; when the process runs again it too goes on where it was
    interrupted, with sepc and sstatus as they were. *)
Theorem kernelTrap_timer s :
  trapped s -> Z.land (h_sstatus (k_hart s)) SSTATUS_SPP <> 0 -> r_scause (k_csr s) = TIMER ->
  match me_of s with
  | None => exists s', kernelTrap s = Ok tt s' /\ settle s' = settle (timer_set (tick s))
  | Some i => forall p, k_procs s !! i = Some p -> (i < 64)%nat ->
      kernelTrap s = Stop Switch (upd_proc i (with_state RUNNABLE) (locked (L_proc i) (timer_set (tick s)))) /\
      forall t ie, held_by (h_tp (k_hart t)) (L_proc i) t -> c_noff (h_cpu (k_hart t)) = 1 -> hart_intr_get (k_hart t) = 0 ->
        exists t', kernelTrap_resume i ie (r_sepc (k_csr s)) (h_sstatus (k_hart s)) t = Ok tt t' /\
          r_sepc (k_csr t') = r_sepc (k_csr s) /\ h_sstatus (k_hart t') = h_sstatus (k_hart s)
  end.
Proof.
  intros Ht Hspp Hc. destruct (kernelTrap_timer_starts s Ht Hspp Hc) as (s' & Es & Hh & E).
  destruct (settled_same _ _ Es) as (S1 & S2 & S3 & S4 & S5 & S6). destruct (tick_frame s) as (T1 & T2 & T3 & T4).
  assert (me_of s' = me_of s) as Hme by (rewrite S2; unfold me_of; cbn; by rewrite T1).
  rewrite Hme in E. destruct (me_of s) as [i|] eqn:Em.
  - intros p Hp Hi. split.
    + rewrite E. rewrite bool_decide_true by done.
      assert (yield s' = Stop Switch (upd_proc i (with_state RUNNABLE) (locked (L_proc i) s'))) as Ey.
      { apply (yield_ok i p); [done|done| | |].
        - rewrite S4. cbn. by apply tick_me.
        - destruct (proj2 (tr_procs s Ht) i Hi) as [nm El]. exists nm. rewrite S5. cbn. by rewrite T2.
        - rewrite S1. cbn. rewrite T1. apply (tr_noff s Ht). }
      rewrite (bind_stop _ _ _ _ _ Ey). do 2 f_equal. by rewrite <- (locked_settle _ s'), Es, locked_settle.
    + intros t ie [nm Hl] Hn Hie. unfold kernelTrap_resume, yield_resume, sched_resume. rewrite bind_assoc. unfold bind at 1, modify at 1.
      destruct (release_held (L_proc i) nm (set_intena ie t) Hl Hn Hie) as (h' & Er & _). mstep Er.
      destruct (kernelTrap_end_ok (r_sepc (k_csr s)) (h_sstatus (k_hart s)) (set_lock (L_proc i) (unlocked nm) (set_hart h' (set_intena ie t))))
        as (t' & Ee & H1 & H2 & _). by exists t'.
  - exists s'. split; [|done]. rewrite E, bool_decide_false by tauto. unfold bind, ret.
    replace (r_sepc (k_csr s)) with (r_sepc (k_csr s')) by (rewrite S6; cbn; by rewrite T3).
    replace (h_sstatus (k_hart s)) with (h_sstatus (k_hart s')) by (rewrite S3; cbn; by rewrite T1). apply kernelTrap_end_same.
Qed.

End KernelTraps.

(** ** The return to user mode *)

Section Traps.
Context `{L : Layout} (kernelVec uservec userret usertrap_addr : Z) (reg claim_reg : Z -> kernel -> Z).
Context (virtio_disk_rw : nat -> Z -> KM unit) (kalloc : KM Z) (kfree : Z -> KM unit).
Context (buf_addr : nat -> Z) (stack elf ph ustack path_buf uarg forkret_addr : Z) (xstate_addr : nat -> Z).
Abbreviation devIntr := (devIntr reg claim_reg).
Abbreviation prepare_return := (prepare_return uservec usertrap_addr).
Abbreviation usertrap_return := (usertrap_return uservec usertrap_addr).
Abbreviation syscall := (syscall virtio_disk_rw kalloc kfree buf_addr stack elf ph ustack path_buf uarg forkret_addr xstate_addr).
Abbreviation usertrap := (usertrap kernelVec uservec usertrap_addr reg claim_reg virtio_disk_rw kalloc kfree buf_addr stack elf ph ustack path_buf uarg forkret_addr xstate_addr).

(** The hart is set up for the return of process [p]: sret goes to the saved program counter
    in user mode and enables interrupts there, the next trap enters at uservec, which finds
    the kernel's page table, the process's kernel stack, usertrap and the hart's number in
    the trapframe. *)
Record user_ready (p : PCB) (s s' : kernel) : Prop := {
  ur_sepc : r_sepc (k_csr s') = load64 (k_mem s) (p_trapframe p + TF_epc);
  ur_stvec : r_stvec (k_csr s') = u64 (TRAMPOLINE + (uservec - trampoline));
  ur_mode : Z.land (h_sstatus (k_hart s')) SSTATUS_SPP = 0;
  ur_intr : Z.land (h_sstatus (k_hart s')) SSTATUS_SPIE <> 0;
  ur_off : hart_intr_get (k_hart s') = 0;
  ur_satp : load64 (k_mem s') (p_trapframe p + TF_kernel_satp) = u64 (r_satp (k_csr s));
  ur_sp : load64 (k_mem s') (p_trapframe p + TF_kernel_sp) = u64 (p_kstack p + PGSIZE);
  ur_trap : load64 (k_mem s') (p_trapframe p + TF_kernel_trap) = u64 usertrap_addr;
  ur_hartid : load64 (k_mem s') (p_trapframe p + TF_kernel_hartid) = u64 (h_tp (k_hart s));
  ur_mem : forall a, a < p_trapframe p \/ p_trapframe p + 24 <= a < p_trapframe p + 32 \/ p_trapframe p + 40 <= a ->
    rd8 (k_mem s') a = rd8 (k_mem s) a;
  ur_procs : k_procs s' = k_procs s;
  ur_locks : k_locks s' = k_locks s
}.

(** The three bits of sstatus. *)
Lemma return_status x :
  let y := Z.lor (Z.land (Z.land x (Z.lnot SSTATUS_SIE)) (Z.lnot SSTATUS_SPP)) SSTATUS_SPIE in
  Z.land y SSTATUS_SPP = 0 /\ Z.land y SSTATUS_SPIE <> 0 /\ Z.land y SSTATUS_SIE = 0.
Proof.
  assert (forall k n, 0 <= k -> Z.testbit (Z.shiftl 1 k) n = (k =? n)) as Hb by (intros; by rewrite Z.shiftl_1_l, Z.pow2_bits_eqb).
  cbn zeta. unfold SSTATUS_SPP, SSTATUS_SPIE, SSTATUS_SIE. split; [|split].
  - apply Z.bits_inj'. intros n Hn. rewrite Z.land_spec, Z.lor_spec, !Z.land_spec, !Z.lnot_spec, !Hb, Z.bits_0 by lia.
    destruct (Z.testbit x n), (Z.eqb_spec 1 n), (Z.eqb_spec 8 n), (Z.eqb_spec 5 n); cbn; done || lia.
  - intros E. apply (f_equal (fun z => Z.testbit z 5)) in E. rewrite Z.land_spec, Z.lor_spec, !Hb, Z.bits_0 in E by lia.
    by rewrite orb_true_r in E.
  - apply Z.bits_inj'. intros n Hn. rewrite Z.land_spec, Z.lor_spec, !Z.land_spec, !Z.lnot_spec, !Hb, Z.bits_0 by lia.
    destruct (Z.testbit x n), (Z.eqb_spec 1 n), (Z.eqb_spec 8 n), (Z.eqb_spec 5 n); cbn; done || lia.
Qed.

(** The state prepare_return leaves. *)
Definition returning (p : PCB) (s : kernel) : kernel :=
  let tf := p_trapframe p in
  let m := store64 (store64 (store64 (store64 (k_mem s) (tf + TF_kernel_satp) (r_satp (k_csr s)))
             (tf + TF_kernel_sp) (p_kstack p + PGSIZE)) (tf + TF_kernel_trap) usertrap_addr) (tf + TF_kernel_hartid) (h_tp (k_hart s)) in
  set_csr {| r_stvec := u64 (TRAMPOLINE + (uservec - trampoline)); r_sepc := load64 m (tf + TF_epc); r_scause := r_scause (k_csr s);
             r_stval := r_stval (k_csr s); r_satp := r_satp (k_csr s); r_stimecmp := r_stimecmp (k_csr s); r_time := r_time (k_csr s) |}
    (set_mem m (set_hart {| h_tp := h_tp (k_hart s); h_cpu := h_cpu (hart_settle (k_hart s));
       h_sstatus := Z.lor (Z.land (Z.land (h_sstatus (k_hart s)) (Z.lnot SSTATUS_SIE)) (Z.lnot SSTATUS_SPP)) SSTATUS_SPIE |} s)).

Lemma hart_settle_regs h : h_sstatus (hart_settle h) = h_sstatus h /\ h_tp (hart_settle h) = h_tp h.
Proof. unfold hart_settle. by destruct (_ =? 0). Qed.

Lemma prepare_return_runs me p s : caller me p s -> prepare_return s = Ok tt (returning p s).
Proof.
  intros C. pose proof C as [[Hh _] Hme Hp _]. unfold Trap.prepare_return. mstep (myproc_ok s Hh). fold (me_of s). rewrite Hme.
  unfold the_proc. unfold bind at 1, ret at 1. unfold bind at 1, intr_off, modify at 1. set (s1 := set_hart _ (settle s)).
  unfold bind at 1, w_stvec, upd_csr, modify at 1. set (s2 := set_csr _ s1).
  mstep (pget_ok me p p_trapframe s2 Hp). unfold bind at 1, rcsr, get at 1. unfold bind at 1, st64, modify at 1. set (s3 := set_mem _ s2).
  mstep (pget_ok me p p_kstack s3 Hp). unfold returning.
  destruct (hart_settle_regs (k_hart s)) as [<- <-]. reflexivity.
Qed.

Lemma returning_ready p s : user_ready p s (returning p s).
Proof.
  destruct (return_status (h_sstatus (k_hart s))) as (R1 & R2 & R3). unfold returning.
  split; unfold hart_intr_get, set_csr, set_mem, set_hart;
    cbn [k_hart k_mem k_csr k_procs k_locks h_sstatus h_tp h_cpu r_sepc r_stvec r_satp];
    unfold TF_kernel_satp, TF_kernel_sp, TF_kernel_trap, TF_kernel_hartid, TF_epc; rewrite ?R3; try done.
  - by rewrite !load64_store64_ne by lia.
  - rewrite !load64_store64_ne by lia. apply load64_store64.
  - rewrite !load64_store64_ne by lia. apply load64_store64.
  - rewrite !load64_store64_ne by lia. apply load64_store64.
  - apply load64_store64.
  - intros a Ha. by rewrite !rd8_store64_ne by lia.
Qed.

(** ** System calls and faults *)

Lemma killed_ok me p s : caller me p s -> killed me s = Ok (p_killed p) (settle s).
Proof.
  intros [[Hh _] Hme Hp [Hlen Hpl]]. unfold killed.
  assert (lock_free (L_proc me) s) as Hl by (apply Hpl; apply lookup_lt_Some in Hp; lia).
  mstep (acquire_ok (L_proc me) s Hl Hh). mstep (pget_ok me p p_killed (locked (L_proc me) s) Hp). by mstep (release_locked (L_proc me) s Hl Hh).
Qed.

Lemma setkilled_ok me p s : caller me p s -> setkilled me s = Ok tt (upd_proc me (with_killed 1) (settle s)).
Proof.
  intros [[Hh _] Hme Hp [Hlen Hpl]]. apply (proc_section me _ s p); [done| |done]. apply Hpl. apply lookup_lt_Some in Hp. lia.
Qed.

Lemma user_ready_settle p s s' : user_ready p (settle s) s' -> user_ready p s s'.
Proof. intros []. destruct (hart_settle_regs (k_hart s)) as [_ E]. split; try done. rewrite <- E. done. Qed.

Lemma usertrap_return_ok me p s :
  caller me p s -> exists s', usertrap_return me s = Ok (MAKE_SATP (p_pagetable p)) s' /\ user_ready p s s'.
Proof.
  intros C. unfold Trap.usertrap_return. mstep (prepare_return_runs me p s C). exists (returning p s).
  split; [|apply returning_ready]. by mstep (pget_ok me p p_pagetable (returning p s) (ca_proc _ _ _ C)).
Qed.

(** The state after the first lines of usertrap, and that in which the system call runs. *)
Definition trap_entry (p : PCB) (s : kernel) : kernel :=
  set_mem (store64 (k_mem s) (p_trapframe p + TF_epc) (r_sepc (k_csr s)))
    (settle (set_csr {| r_stvec := kernelVec; r_sepc := r_sepc (k_csr s); r_scause := r_scause (k_csr s); r_stval := r_stval (k_csr s);
                        r_satp := r_satp (k_csr s); r_stimecmp := r_stimecmp (k_csr s); r_time := r_time (k_csr s) |} s)).
Definition syscall_entry (p : PCB) (s : kernel) : kernel :=
  let s1 := trap_entry p s in
  set_hart (hart_intr_on (k_hart s1))
    (set_mem (store64 (k_mem s1) (p_trapframe p + TF_epc) (u64 (load64 (k_mem s1) (p_trapframe p + TF_epc) + 4))) s1).

Lemma syscall_entry_mem p s :
  k_mem (syscall_entry p s) = store64 (k_mem (trap_entry p s)) (p_trapframe p + TF_epc) (u64 (load64 (k_mem (trap_entry p s)) (p_trapframe p + TF_epc) + 4)).
Proof. reflexivity. Qed.

(** The part of usertrap after the handling of the cause. *)
Definition trap_tail (p : nat) (which_dev : Z) : KM Z :=
  let! k := killed p in
  do! (when! truthy k then kexit virtio_disk_rw (-1));
  do! (when! which_dev =? 2 then yield);
  usertrap_return p.

Lemma trap_tail_ok me p s :
  caller me p s -> p_killed p = 0 -> exists s', trap_tail me 0 s = Ok (MAKE_SATP (p_pagetable p)) s' /\ user_ready p s s'.
Proof.
  intros C Hk. destruct (usertrap_return_ok me p (settle s) (caller_settle _ _ _ C)) as (s' & E & U). exists s'.
  split; [|by apply user_ready_settle]. unfold trap_tail. mstep (killed_ok me p s C). rewrite Hk. exact E.
Qed.

(** C16: a system call that returns, of a process that has not been killed. usertrap returns the
    page table of the process, and the hart is ready to go on in user mode where the
    trapframe says. Before the call that is the instruction after the ecall, so that this is
    where the process goes on if the call leaves it there. *)
Theorem usertrap_syscall me p s s2 p2 :
  caller me p s -> Z.land (h_sstatus (k_hart s)) SSTATUS_SPP = 0 -> r_scause (k_csr s) = 8 ->
  syscall (syscall_entry p s) = Ok tt s2 -> caller me p2 s2 -> p_killed p2 = 0 ->
  exists s3, usertrap s = Ok (MAKE_SATP (p_pagetable p2)) s3 /\ user_ready p2 s2 s3 /\
    load64 (k_mem (syscall_entry p s)) (p_trapframe p + TF_epc) = u64 (r_sepc (k_csr s) + 4) /\
    hart_intr_get (k_hart (syscall_entry p s)) = 1.
Proof.
  intros C Hspp Hc Es C2 Hk. destruct (trap_tail_ok me p2 s2 C2 Hk) as (s3 & E3 & U). exists s3.
  split; [|split; [done|split]].
  - pose proof C as [[Hh _] Hme Hp _]. unfold Trap.usertrap, r_sstatus. unfold bind at 1, get at 1. rewrite Hspp. cbn [Z.eqb negb].
    unfold bind at 1, w_stvec, upd_csr, modify at 1. set (s1 := set_csr _ s).
    mstep (myproc_ok s1 Hh). change (c_proc (h_cpu (k_hart s1))) with (me_of s). rewrite Hme. unfold the_proc. unfold bind at 1, ret at 1.
    mstep (pget_ok me p p_trapframe (settle s1) Hp). unfold bind at 1, rcsr, get at 1. unfold bind at 1, st64, modify at 1.
    unfold bind at 1, get at 1. change (r_scause (k_csr (set_mem _ (settle s1)))) with (r_scause (k_csr s)). rewrite Hc. cbn [Z.eqb Pos.eqb].
    rewrite !bind_assoc. unfold bind at 1, ld64, get at 1. rewrite !bind_assoc. unfold bind at 1, modify at 1.
    rewrite !bind_assoc. unfold bind at 1, intr_on, modify at 1. change (set_hart _ (set_mem _ (set_mem _ (settle s1)))) with (syscall_entry p s).
    rewrite !bind_assoc. mstep Es. exact E3.
  - rewrite syscall_entry_mem. change (k_mem (trap_entry p s)) with (store64 (k_mem s) (p_trapframe p + TF_epc) (r_sepc (k_csr s))).
    rewrite !load64_store64. by rewrite u64_idem, u64_add_l.
  - unfold hart_intr_get, syscall_entry, hart_intr_on. cbn [k_hart set_hart h_sstatus]. rewrite Z.land_lor_distr_l.
    assert (Z.lor (Z.land (h_sstatus (k_hart (trap_entry p s))) SSTATUS_SIE) (Z.land SSTATUS_SIE SSTATUS_SIE) <> 0) as Hne; [|by rewrite (proj2 (Z.eqb_neq _ _) Hne)].
    intros E. apply (f_equal (fun z => Z.testbit z 1)) in E. rewrite Z.lor_spec in E. change (Z.testbit (Z.land SSTATUS_SIE SSTATUS_SIE) 1) with true in E.
    by rewrite orb_true_r in E.
Qed.

End Traps.

(** ** Examples *)

#[local] Opaque boot_kernel two_open.
#[local] Existing Instance demo_layout.

Definition cause (c : Z) (s : kernel) : kernel :=
  set_csr {| r_stvec := 0; r_sepc := 100; r_scause := c; r_stval := 0; r_satp := 0; r_stimecmp := 0; r_time := 0 |} s.

Lemma cause_keeps c me p s : caller me p s -> caller me p (cause c s).
Proof. intros []. by split. Qed.
Lemma cause_prints c s : can_print s -> can_print (cause c s).
Proof. done. Qed.

Lemma cause_caller c a7 : caller 0 shell (cause c (two_open a7)).
Proof. apply cause_keeps, two_open_caller. Qed.

(** Process 0 in the kernel, interrupted by the clock. *)
Definition in_kernel : kernel := set_sstatus SSTATUS_SPP (cause TIMER (two_open 0)).

Lemma in_kernel_trapped : trapped in_kernel.
Proof.
  assert (k_hart in_kernel = {| h_tp := 0; h_cpu := {| c_proc := Some 0%nat; c_noff := 0; c_intena := 0 |}; h_sstatus := SSTATUS_SPP |}) as E
    by (vm_compute; reflexivity).
  split; rewrite ?E; cbn [h_tp h_cpu h_sstatus c_noff].
  - split; [cbn; lia|reflexivity].
  - done.
  - reflexivity.
  - unfold NCPU. lia.
  - destruct (ca_procs _ _ _ (two_open_caller 0)) as [H1 H2]. by split.
  - eexists. vm_compute. reflexivity.
Qed.

Lemma kernelTrap_timer_witness : exists s', kernelTrap (fun _ _ => 0) (fun _ _ => 0) in_kernel = Stop Switch s'.
Proof.
  pose proof (kernelTrap_timer (fun _ _ => 0) (fun _ _ => 0) in_kernel in_kernel_trapped) as H.
  assert (me_of in_kernel = Some 0%nat) as Hme by (vm_compute; reflexivity). rewrite Hme in H.
  destruct (H ltac:(vm_compute; congruence) ltac:(vm_compute; reflexivity) shell (ca_proc _ _ _ (two_open_caller 0)) ltac:(lia)) as [E _].
  eexists. exact E.
Defined.

Lemma usertrap_syscall_witness :
  exists r s3, usertrap 0 0 0 (fun _ _ => 0) (fun _ _ => 0) (fun _ _ => ret tt) (ret 0) (fun _ => ret tt) (fun _ => 0) 0 0 0 0 0 0 0 (fun _ => 0)
    (cause 8 (two_open SYS_uptime)) = Ok r s3.
Proof.
  set (sys := syscall (fun _ _ => ret tt) (ret 0) (fun _ => ret tt) (fun _ => 0) 0 0 0 0 0 0 0 (fun _ => 0)).
  pose proof (usertrap_syscall 0 0 0 (fun _ _ => 0) (fun _ _ => 0) (fun _ _ => ret tt) (ret 0) (fun _ => ret tt) (fun _ => 0) 0 0 0 0 0 0 0 (fun _ => 0)
    0 shell (cause 8 (two_open SYS_uptime)) (res_state (sys (syscall_entry 0 shell (cause 8 (two_open SYS_uptime))))) shell) as H.
  destruct H as (s3 & E & _).
  - apply cause_caller.
  - vm_compute. reflexivity.
  - reflexivity.
  - fold sys. assert (is_ok (sys (syscall_entry 0 shell (cause 8 (two_open SYS_uptime)))) = true) as Hok by (vm_compute; reflexivity).
    destruct (sys _) as [[] s'|e s']; [reflexivity|discriminate Hok].
  - split.
    + vm_compute. repeat split; congruence || (intros; discriminate).
    + vm_compute. reflexivity.
    + vm_compute. reflexivity.
    + split; [vm_compute; reflexivity|]. intros i Hi. destruct (proj2 (ca_procs _ _ _ (two_open_caller 0)) i Hi) as [nm E].
      exists "proc"%string. do 64 (destruct i as [|i]; [vm_compute; reflexivity|]). lia.
  - reflexivity.
  - eexists _, s3. exact E.
Defined.

