(* ===== verification/Asm.v ===== *)
(** * The assembly of the kernel (swtch.S, trampoline.S, kernelVec.S, entry.S)

    A block of assembly is the list of its instructions up to the one that leaves it. They run
    on the registers of the hart and on physical memory through the page table that satp points
    to, as the hardware translates in supervisor mode; an access that does not translate, or is
    not aligned, is a fault. *)

From S2P Require Import Prelude Mem CString State Spinlock Printf Locks PageAlloc Kalloc Vm PageTable VmMap VmFree AddressSpace Sv39 VmProps Devices KernelVm.

(** ** Registers and instructions *)

Inductive reg :=
  | RA | SP | GP | TP | T0 | T1 | T2 | S0 | S1 | A0 | A1 | A2 | A3 | A4 | A5 | A6 | A7
  | S2 | S3 | S4 | S5 | S6 | S7 | S8 | S9 | S10 | S11 | T3 | T4 | T5 | T6.

#[export] Instance reg_eq_dec : EqDecision reg.
Proof. solve_decision. Defined.

Inductive csreg := SSCRATCH | SATP.

Inductive instr :=
  | SD (rs : reg) (off : Z) (base : reg)
  | LD (rd : reg) (off : Z) (base : reg)
  | LI (rd : reg) (imm : Z)
  | ADD (rd rs1 rs2 : reg)
  | ADDI (rd rs : reg) (imm : Z)
  | SB (rs : reg) (off : Z) (base : reg)
  | CSRW (c : csreg) (rs : reg)
  | CSRR (rd : reg) (c : csreg)
  | SFENCE_VMA.

Record machine := { x : reg -> Z; sscratch : Z; satp : Z; ram : mem }.

Definition set_reg (r : reg) (v : Z) (m : machine) : machine :=
  {| x := fun r' => if decide (r' = r) then u64 v else x m r'; sscratch := sscratch m; satp := satp m; ram := ram m |}.
Definition set_ram (h : mem) (m : machine) : machine := {| x := x m; sscratch := sscratch m; satp := satp m; ram := h |}.

(** The physical address of an access of [w] bytes: aligned, and in the half of the address space
    that the kernel uses. *)
Definition phys (m : machine) (w a : Z) (acc : access) : option Z :=
  if negb (a mod w =? 0) then None
  else if (Z.shiftr (satp m) 60 =? 8) && negb ((0 <=? a) && (a <? MAXVA)) then None
  else satp_translate (satp m) (ram m) a false acc.

Definition step (i : instr) (m : machine) : option machine :=
  match i with
  | SD rs off base =>
      match phys m 8 (u64 (x m base + off)) Store with
      | Some p => Some (set_ram (store64 (ram m) p (x m rs)) m)
      | None => None
      end
  | LD rd off base =>
      match phys m 8 (u64 (x m base + off)) Load with
      | Some p => Some (set_reg rd (load64 (ram m) p) m)
      | None => None
      end
  | LI rd imm => Some (set_reg rd imm m)
  | ADD rd rs1 rs2 => Some (set_reg rd (x m rs1 + x m rs2) m)
  | ADDI rd rs imm => Some (set_reg rd (x m rs + imm) m)
  | SB rs off base =>
      match phys m 1 (u64 (x m base + off)) Store with
      | Some p => Some (set_ram (wr8 (ram m) p (x m rs)) m)
      | None => None
      end
  | CSRW SSCRATCH rs => Some {| x := x m; sscratch := x m rs; satp := satp m; ram := ram m |}
  | CSRW SATP rs => Some {| x := x m; sscratch := sscratch m; satp := x m rs; ram := ram m |}
  | CSRR rd SSCRATCH => Some (set_reg rd (sscratch m) m)
  | CSRR rd SATP => Some (set_reg rd (satp m) m)
  | SFENCE_VMA => Some m
  end.

Fixpoint run (l : list instr) (m : machine) : option machine :=
  match l with
  | [] => Some m
  | i :: l' => match step i m with Some m' => run l' m' | None => None end
  end.

(** jalr and call: the address of the next instruction goes to ra. *)
Definition link (next : Z) (m : machine) : machine := set_reg RA next m.

(** ** The code *)

(** swtch, up to ret, which goes to the address in ra. *)
Definition swtch_code : list instr :=
  [ SD RA 0 A0; SD SP 8 A0; SD S0 16 A0; SD S1 24 A0; SD S2 32 A0; SD S3 40 A0; SD S4 48 A0; SD S5 56 A0;
    SD S6 64 A0; SD S7 72 A0; SD S8 80 A0; SD S9 88 A0; SD S10 96 A0; SD S11 104 A0;
    LD RA 0 A1; LD SP 8 A1; LD S0 16 A1; LD S1 24 A1; LD S2 32 A1; LD S3 40 A1; LD S4 48 A1; LD S5 56 A1;
    LD S6 64 A1; LD S7 72 A1; LD S8 80 A1; LD S9 88 A1; LD S10 96 A1; LD S11 104 A1 ].

(** uservec, up to jalr t0. *)
Definition uservec_code : list instr :=
  [ CSRW SSCRATCH A0;
    LI A0 TRAPFRAME;
    SD RA 40 A0; SD SP 48 A0; SD GP 56 A0; SD TP 64 A0; SD T0 72 A0; SD T1 80 A0; SD T2 88 A0; SD S0 96 A0;
    SD S1 104 A0; SD A1 120 A0; SD A2 128 A0; SD A3 136 A0; SD A4 144 A0; SD A5 152 A0; SD A6 160 A0;
    SD A7 168 A0; SD S2 176 A0; SD S3 184 A0; SD S4 192 A0; SD S5 200 A0; SD S6 208 A0; SD S7 216 A0;
    SD S8 224 A0; SD S9 232 A0; SD S10 240 A0; SD S11 248 A0; SD T3 256 A0; SD T4 264 A0; SD T5 272 A0; SD T6 280 A0;
    CSRR T0 SSCRATCH;
    SD T0 112 A0;
    LD SP 8 A0;
    LD TP 32 A0;
    LD T0 16 A0;
    LD T1 0 A0;
    SFENCE_VMA;
    CSRW SATP T1;
    SFENCE_VMA ].

(** userret, up to sret. *)
Definition userret_code : list instr :=
  [ SFENCE_VMA;
    CSRW SATP A0;
    SFENCE_VMA;
    LI A0 TRAPFRAME;
    LD RA 40 A0; LD SP 48 A0; LD GP 56 A0; LD TP 64 A0; LD T0 72 A0; LD T1 80 A0; LD T2 88 A0; LD S0 96 A0;
    LD S1 104 A0; LD A1 120 A0; LD A2 128 A0; LD A3 136 A0; LD A4 144 A0; LD A5 152 A0; LD A6 160 A0;
    LD A7 168 A0; LD S2 176 A0; LD S3 184 A0; LD S4 192 A0; LD S5 200 A0; LD S6 208 A0; LD S7 216 A0;
    LD S8 224 A0; LD S9 232 A0; LD S10 240 A0; LD S11 248 A0; LD T3 256 A0; LD T4 264 A0; LD T5 272 A0; LD T6 280 A0;
    LD A0 112 A0 ].

(** kernelVec, up to the call of kernelTrap and from there up to sret. *)
Definition kernelVec_save : list instr :=
  [ ADDI SP SP (-256);
    SD RA 0 SP; SD GP 16 SP; SD TP 24 SP; SD T0 32 SP; SD T1 40 SP; SD T2 48 SP; SD A0 72 SP; SD A1 80 SP; SD A2 88 SP;
    SD A3 96 SP; SD A4 104 SP; SD A5 112 SP; SD A6 120 SP; SD A7 128 SP; SD T3 216 SP; SD T4 224 SP; SD T5 232 SP; SD T6 240 SP ].

Definition kernelVec_restore : list instr :=
  [ LD RA 0 SP; LD GP 16 SP; LD TP 24 SP; LD T0 32 SP; LD T1 40 SP; LD T2 48 SP; LD A0 72 SP; LD A1 80 SP; LD A2 88 SP;
    LD A3 96 SP; LD A4 104 SP; LD A5 112 SP; LD A6 120 SP; LD A7 128 SP; LD T3 216 SP; LD T4 224 SP; LD T5 232 SP; LD T6 240 SP;
    ADDI SP SP 256 ].

(** The whole handler around the C function; [next] is the address after the call. *)
Definition kernelVec_code (kernelTrap : machine -> machine) (next : Z) (m : machine) : option machine :=
  match run kernelVec_save m with
  | Some m1 => run kernelVec_restore (kernelTrap (link next m1))
  | None => None
  end.

(** _entry, up to the call of start; stack0 is the array of start.c. *)
Definition entry_code (stack0 : Z) : list instr := [ LI SP stack0; LI A0 (1024 * 8); ADD SP SP A0 ].

(** test of entry.S: the letter S to the transmit register of the UART, up to ret. *)
Definition test_code : list instr := [ LI T0 0x10000000; LI T1 83; SB T1 0 T0 ].

(** ** Saving and restoring *)

Definition save (base : reg) (l : list (reg * Z)) : list instr := (fun p => SD p.1 p.2 base) <$> l.
Definition restore (base : reg) (l : list (reg * Z)) : list instr := (fun p => LD p.1 p.2 base) <$> l.

Lemma run_app l l' m : run (l ++ l') m = match run l m with Some m' => run l' m' | None => None end.
Proof. revert m. induction l as [|i l IH]; intros m; [done|]. cbn [run app]. by destruct (step i m). Qed.

(** From [va] on, [len] bytes are those of physical memory from [pa] on, whatever is written to
    the bytes of [W]. *)
Definition window (m : machine) (W : Z -> Prop) (va pa len : Z) (acc : access) : Prop :=
  va mod 8 = 0 /\ 0 <= va /\ va + len <= 2 ^ 64 /\
  forall h, (forall a, ~ W a -> rd8 h a = rd8 (ram m) a) -> forall o, 0 <= o < len -> o mod 8 = 0 -> phys (set_ram h m) 8 (va + o) acc = Some (pa + o).

Lemma window_same m m' W va pa len acc :
  satp m' = satp m -> (forall a, ~ W a -> rd8 (ram m') a = rd8 (ram m) a) -> window m W va pa len acc -> window m' W va pa len acc.
Proof.
  intros Es Hr (W1 & W2 & W3 & W4). split; [done|]. split; [done|]. split; [done|]. intros h Hh o Ho Ha.
  rewrite <- (W4 h) by (done || (intros a Hw; by rewrite Hh, Hr by done)). unfold phys. cbn [satp ram set_ram]. by rewrite Es.
Qed.

Definition between (lo hi a : Z) : Prop := lo <= a < hi.

(** The slots are words of the frame and no two of them meet. *)
Definition slots_ok (len : Z) (l : list (reg * Z)) : Prop :=
  Forall (fun p => 0 <= p.2 /\ p.2 + 8 <= len /\ p.2 mod 8 = 0) l /\ NoDup l.*2.

Lemma window_at m W va pa len acc o :
  window m W va pa len acc -> 0 <= o -> o + 8 <= len -> o mod 8 = 0 -> u64 (va + o) = va + o /\ phys m 8 (va + o) acc = Some (pa + o).
Proof.
  intros (W1 & W2 & W3 & W4) Ho Hl Ha. split; [apply u64_small; lia|].
  specialize (W4 (ram m) ltac:(done) o ltac:(lia) Ha). by destruct m.
Qed.

Lemma run_save base va pa len : forall l m,
  x m base = va -> window m (between pa (pa + len)) va pa len Store -> slots_ok len l ->
  exists h, run (save base l) m = Some (set_ram h m) /\
    (forall r o, (r, o) ∈ l -> load64 h (pa + o) = u64 (x m r)) /\
    (forall a, (forall r o, (r, o) ∈ l -> ~ between (pa + o) (pa + o + 8) a) -> rd8 h a = rd8 (ram m) a).
Proof.
  induction l as [|[r o] l IH]; intros m Hb Hw [Hf Hn].
  { exists (ram m). split; [by destruct m|]. split; [intros r o H; by apply elem_of_nil in H|done]. }
  apply Forall_cons in Hf as [(O1 & O2 & O3) Hf]. cbn [fmap list_fmap] in Hn. apply NoDup_cons in Hn as [Hno Hn]. cbn [fst snd] in *.
  destruct (window_at _ _ _ _ _ _ o Hw O1 O2 O3) as [Ea Ep]. set (m1 := set_ram (store64 (ram m) (pa + o) (x m r)) m).
  assert (window m1 (between pa (pa + len)) va pa len Store) as Hw1.
  { apply (window_same m); [done| |done]. intros a Ha. cbn [ram m1 set_ram]. apply rd8_store64_ne. unfold between in Ha. lia. }
  destruct (IH m1 Hb Hw1 (conj Hf Hn)) as (h & E & Hs & Hk). exists h. split; [|split].
  - cbn [save fmap list_fmap run step fst snd]. rewrite Hb, Ea, Ep. exact E.
  - intros r' o' [[= -> ->]|Hin]%elem_of_cons; [|by apply Hs].
    transitivity (load64 (ram m1) (pa + o)); [|apply load64_store64]. apply load64_ext. intros a Ha. apply Hk. intros r' o' Hin Hbt. unfold between in Hbt.
    apply Hno. assert (o' = o) as <-; [|by apply (list_elem_of_fmap_2 snd _ _ Hin)].
    rewrite Forall_forall in Hf. destruct (Hf _ Hin) as (_ & _ & Hm). cbn [snd] in Hm. zdm.
  - intros a Ha. rewrite Hk by (intros r' o' Hin; apply (Ha r' o'); by right). cbn [ram m1 set_ram]. apply rd8_store64_ne.
    specialize (Ha r o ltac:(left)). unfold between in Ha. lia.
Qed.

Definition others_same (m m' : machine) : Prop := ram m' = ram m /\ satp m' = satp m /\ sscratch m' = sscratch m.

Lemma run_restore base va pa len W : forall l m,
  x m base = va -> window m W va pa len Load -> slots_ok len l -> NoDup l.*1 -> base ∉ l.*1 ->
  exists m', run (restore base l) m = Some m' /\ others_same m m' /\
    (forall r o, (r, o) ∈ l -> x m' r = load64 (ram m) (pa + o)) /\ (forall r, r ∉ l.*1 -> x m' r = x m r).
Proof.
  induction l as [|[r o] l IH]; intros m Hb Hw [Hf Hn] Hd Hne.
  { exists m. split; [done|]. split; [done|]. split; [intros r o H; by apply elem_of_nil in H|done]. }
  apply Forall_cons in Hf as [(O1 & O2 & O3) Hf]. cbn [fmap list_fmap] in *. apply NoDup_cons in Hn as [Hno Hn]. apply NoDup_cons in Hd as [Hdo Hd].
  apply not_elem_of_cons in Hne as [Hbr Hne]. cbn [fst snd] in *.
  destruct (window_at _ _ _ _ _ _ o Hw O1 O2 O3) as [Ea Ep]. set (m1 := set_reg r (load64 (ram m) (pa + o)) m).
  assert (x m1 base = va) as Hb1 by (cbn [x m1 set_reg]; by rewrite decide_False).
  destruct (IH m1 Hb1 (window_same m m1 _ _ _ _ _ eq_refl ltac:(done) Hw) (conj Hf Hn) Hd Hne) as (m2 & E & (R1 & R2 & R3) & Hs & Hk).
  exists m2. split; [|split; [done|split]].
  - cbn [restore fmap list_fmap run step fst snd]. rewrite Hb, Ea, Ep. exact E.
  - intros r' o' [[= -> ->]|Hin]%elem_of_cons; [|by rewrite (Hs r' o' Hin)].
    rewrite Hk by done. cbn [x m1 set_reg]. rewrite decide_True by done. apply u64_small. pose proof (load64_range (ram m) (pa + o)). lia.
  - intros r' [H1 H2]%not_elem_of_cons. rewrite Hk by done. cbn [x m1 set_reg]. by rewrite decide_False.
Qed.

(** A register has a slot. *)
Ltac slot := repeat (first [apply list_elem_of_here | apply list_elem_of_further]).
Ltac no_slot := apply (bool_decide_eq_true_1 _); vm_compute; reflexivity.

(** ** swtch *)

Definition context_slots : list (reg * Z) :=
  [(RA, 0); (SP, 8); (S0, 16); (S1, 24); (S2, 32); (S3, 40); (S4, 48); (S5, 56); (S6, 64); (S7, 72); (S8, 80); (S9, 88); (S10, 96); (S11, 104)].
Definition context_size : Z := 112.

(** struct context in memory and in the registers. *)
Definition context_at (h : mem) (a : Z) : context :=
  {| ctx_ra := load64 h a; ctx_sp := load64 h (a + 8); ctx_s := (fun i => load64 h (a + 16 + 8 * i)) <$> seqZ 0 12 |}.
Definition context_of (m : machine) : context :=
  {| ctx_ra := x m RA; ctx_sp := x m SP; ctx_s := x m <$> [S0; S1; S2; S3; S4; S5; S6; S7; S8; S9; S10; S11] |}.

Lemma context_slots_ok : slots_ok context_size context_slots /\ NoDup context_slots.*1.
Proof. split; [split|]; no_slot. Qed.

Lemma context_eq h a m : (forall r o, (r, o) ∈ context_slots -> x m r = load64 h (a + o)) -> context_of m = context_at h a.
Proof.
  intros H. unfold context_of, context_at. f_equal.
  - rewrite <- (Z.add_0_r a). apply H. unfold context_slots. slot.
  - apply H. unfold context_slots. slot.
  - change (seqZ 0 12) with [0; 1; 2; 3; 4; 5; 6; 7; 8; 9; 10; 11]. cbn [fmap list_fmap].
    repeat (f_equal; try (rewrite <- Z.add_assoc; apply H; unfold context_slots; slot)).
Qed.

Lemma context_at_ext h h' a : (forall b, a <= b < a + context_size -> rd8 h' b = rd8 h b) -> context_at h' a = context_at h a.
Proof.
  unfold context_size. intros H. assert (forall o, 0 <= o -> o + 8 <= 112 -> load64 h' (a + o) = load64 h (a + o)) as Hl by (intros o H0 H1; apply load64_ext; intros; apply H; lia).
  unfold context_at. f_equal.
  - rewrite <- (Z.add_0_r a). apply Hl; lia.
  - apply Hl; lia.
  - apply list_fmap_ext. intros i o Ho. apply lookup_seqZ in Ho as [-> Ho]. rewrite <- !Z.add_assoc. apply Hl; lia.
Qed.

Definition regs_ok (m : machine) : Prop := forall r, 0 <= x m r < 2 ^ 64.

Lemma swtch_ok old new m :
  x m A0 = old -> x m A1 = new -> regs_ok m -> (new + context_size <= old \/ old + context_size <= new) ->
  window m (between old (old + context_size)) old old context_size Store ->
  window m (between old (old + context_size)) new new context_size Load ->
  exists m', run swtch_code m = Some m' /\ context_at (ram m') old = context_of m /\ context_of m' = context_at (ram m) new /\
    satp m' = satp m /\ sscratch m' = sscratch m /\ (forall r, r ∉ context_slots.*1 -> x m' r = x m r) /\
    (forall a, ~ between old (old + context_size) a -> rd8 (ram m') a = rd8 (ram m) a).
Proof.
  intros H0 H1 Hr Hd Ws Wl. destruct context_slots_ok as [Hso Hnd].
  destruct (run_save A0 old old context_size context_slots m H0 Ws Hso) as (h & E1 & S1 & K1).
  assert (forall a, ~ between old (old + context_size) a -> rd8 h a = rd8 (ram m) a) as K.
  { intros a Ha. apply K1. intros r o Hin Hb. apply Ha. destruct Hso as [Hf _]. rewrite Forall_forall in Hf. specialize (Hf _ Hin). cbn [snd] in Hf. unfold between in *. lia. }
  destruct (run_restore A1 new new context_size _ context_slots (set_ram h m) H1 (window_same m (set_ram h m) _ _ _ _ _ eq_refl K Wl) Hso Hnd) as (m' & E2 & (R1 & R2 & R3) & S2 & K2); [no_slot|].
  cbn [ram satp sscratch set_ram] in *.
  exists m'. split; [|split; [|split; [|split; [done|split; [done|split; [done|by rewrite R1]]]]]].
  - change swtch_code with (save A0 context_slots ++ restore A1 context_slots). by rewrite run_app, E1.
  - symmetry. rewrite R1. apply context_eq. intros r o Hin. rewrite (S1 r o Hin). symmetry. by apply u64_small.
  - rewrite <- (context_at_ext (ram m) h new) by (intros b Hb; apply K; unfold between, context_size in *; lia). by apply context_eq.
Qed.

(** ** Translation *)

(** Without paging. *)
Lemma window_bare m W va len acc : Z.shiftr (satp m) 60 <> 8 -> va mod 8 = 0 -> 0 <= va -> va + len <= 2 ^ 64 -> window m W va va len acc.
Proof.
  intros Hs H1 H2 H3. split; [done|]. split; [done|]. split; [done|]. intros h _ o Ho Ha. unfold phys, satp_translate. cbn [satp set_ram].
  rewrite (proj2 (Z.eqb_neq _ 8)) by done. cbn [andb]. by rewrite (proj2 (Z.eqb_eq ((va + o) mod 8) 0)) by zdm.
Qed.

(** A page that the page table maps, when nothing is written to the table. *)
Lemma window_table base root T m W va pa perm acc :
  satp m = MAKE_SATP root -> KERNBASE <= base -> pt_wf base root T (ram m) -> leaves T !! path va = Some (mk_pte pa perm) ->
  page_addr pa -> 0 <= perm < 1024 -> va mod PGSIZE = 0 -> 0 <= va -> va + PGSIZE <= MAXVA -> grants perm false acc = true ->
  (forall p a, p ∈ tables T -> in_page p a -> ~ W a) -> window m W va pa PGSIZE acc.
Proof.
  intros Hs Hb Hw Hl Hpa Hp Hm H0 Hmax Hg Hout. change MAXVA with (2 ^ 38) in *. unfold PGSIZE in *.
  split; [zdm|]. split; [done|]. split; [lia|]. intros h Hh o Ho Ha.
  assert (pt_wf base root T h) as Hw' by (apply (pt_wf_mem base root T (ram m)); [done|]; intros p a Hp' Ha'; by apply Hh, (Hout p)).
  pose proof (pool_page_addr base root Hb (pt_page _ _ _ _ Hw [] root (pt_root _ _ _ _ Hw))) as [R1 R2].
  unfold phys. cbn [satp ram set_ram]. rewrite (proj2 (Z.eqb_eq ((va + o) mod 8) 0)) by zdm. cbn [negb].
  rewrite (proj2 (Z.leb_le 0 (va + o))), (proj2 (Z.ltb_lt (va + o) MAXVA)) by (change MAXVA with (2 ^ 38); lia). cbn [andb negb]. rewrite andb_false_r.
  rewrite Hs, satp_make, (sv39_tree base root T) by (done || lia).
  rewrite <- (path_page (va + o)). unfold PGSIZE. replace (va + o - (va + o) mod 4096) with va by zdm. rewrite Hl.
  rewrite leaf_translate_mk by done. rewrite Hg. f_equal. unfold PGSIZE. f_equal. zdm.
Qed.

Lemma window_shorter m W va pa len len' acc : len' <= len -> window m W va pa len acc -> window m W va pa len' acc.
Proof. intros Hl (W1 & W2 & W3 & W4). split; [done|]. split; [done|]. split; [lia|]. intros h Hh o Ho. apply W4; [done|lia]. Qed.

(** ** uservec and userret *)

(** The registers but a0, which holds the address, in the order of the code. *)
Definition user_slots : list (reg * Z) :=
  [(RA, 40); (SP, 48); (GP, 56); (TP, 64); (T0, 72); (T1, 80); (T2, 88); (S0, 96); (S1, 104); (A1, 120); (A2, 128); (A3, 136); (A4, 144);
   (A5, 152); (A6, 160); (A7, 168); (S2, 176); (S3, 184); (S4, 192); (S5, 200); (S6, 208); (S7, 216); (S8, 224); (S9, 232); (S10, 240);
   (S11, 248); (T3, 256); (T4, 264); (T5, 272); (T6, 280)].
Definition trapframe_slots : list (reg * Z) := user_slots ++ [(A0, 112)].
Definition trapframe_size : Z := 288.

Lemma user_slots_ok : slots_ok trapframe_size user_slots /\ NoDup user_slots.*1.
Proof. split; [split|]; no_slot. Qed.

(** Every register has one slot, above the words that the kernel keeps for itself. *)
Lemma all_registers r : exists o, (r, o) ∈ trapframe_slots /\ 40 <= o /\ o + 8 <= trapframe_size.
Proof. destruct r; eexists; (split; [unfold trapframe_slots, user_slots; cbn [app]; slot|unfold trapframe_size; lia]). Qed.

Abbreviation in_frame tf := (between tf (tf + trapframe_size)).

Lemma uservec_ok tf m :
  regs_ok m -> window m (in_frame tf) TRAPFRAME tf trapframe_size Store -> window m (in_frame tf) TRAPFRAME tf trapframe_size Load ->
  exists m1, run uservec_code m = Some m1 /\ (forall r o, (r, o) ∈ trapframe_slots -> load64 (ram m1) (tf + o) = x m r) /\
    x m1 SP = load64 (ram m) (tf + 8) /\ x m1 TP = load64 (ram m) (tf + 32) /\ x m1 T0 = load64 (ram m) (tf + 16) /\
    satp m1 = load64 (ram m) (tf + 0) /\ (forall a, ~ between (tf + 40) (tf + trapframe_size) a -> rd8 (ram m1) a = rd8 (ram m) a).
Proof.
  intros Hr Ws Wl. destruct user_slots_ok as [Hso Hnd].
  set (m0 := set_reg A0 TRAPFRAME {| x := x m; sscratch := x m A0; satp := satp m; ram := ram m |}).
  destruct (run_save A0 TRAPFRAME tf trapframe_size user_slots m0 eq_refl (window_same m m0 _ _ _ _ _ eq_refl ltac:(done) Ws) Hso) as (h1 & E1 & S1 & K1).
  assert (forall a, ~ between (tf + 40) (tf + trapframe_size) a -> rd8 h1 a = rd8 (ram m) a) as K1'.
  { intros a Ha. apply K1. intros r o Hin Hb. assert (40 <= o /\ o + 8 <= trapframe_size) as Ho; [|unfold between in *; lia].
    assert (Forall (fun p => 40 <= p.2 /\ p.2 + 8 <= trapframe_size) user_slots) as Hf by no_slot. rewrite Forall_forall in Hf. apply (Hf _ Hin). }
  set (m1 := set_reg T0 (x m A0) (set_ram h1 m0)).
  assert (forall a, ~ in_frame tf a -> rd8 h1 a = rd8 (ram m) a) as Kf by (intros a Ha; apply K1'; unfold between in *; lia).
  destruct (run_save A0 TRAPFRAME tf trapframe_size [(T0, 112)] m1 eq_refl (window_same m m1 _ _ _ _ _ eq_refl Kf Ws)) as (h2 & E2 & S2 & K2); [split; no_slot|].
  assert (forall a, ~ between (tf + 40) (tf + trapframe_size) a -> rd8 h2 a = rd8 (ram m) a) as K.
  { intros a Ha. rewrite K2; [by apply K1'|]. intros r o [= -> ->]%list_elem_of_singleton. unfold between, trapframe_size in *. lia. }
  set (m2 := set_ram h2 m1).
  destruct (run_restore A0 TRAPFRAME tf trapframe_size (in_frame tf) [(SP, 8); (TP, 32); (T0, 16); (T1, 0)] m2 eq_refl) as (m3 & E3 & (R1 & R2 & R3) & S3 & K3).
  { apply (window_same m); [done| |done]. intros a Ha. apply K. unfold between in *. lia. }
  { split; no_slot. } { no_slot. } { no_slot. }
  assert (forall o, 0 <= o -> o + 8 <= 40 -> load64 h2 (tf + o) = load64 (ram m) (tf + o)) as Hk by (intros o H0 H1; apply load64_ext; intros a Ha; apply K; unfold between; lia).
  exists {| x := x m3; sscratch := sscratch m3; satp := x m3 T1; ram := ram m3 |}. cbn [x satp ram].
  split; [|split; [|split; [|split; [|split; [|split; [|by rewrite R1]]]]]].
  - change uservec_code with ([CSRW SSCRATCH A0; LI A0 TRAPFRAME] ++ save A0 user_slots ++ [CSRR T0 SSCRATCH] ++ save A0 [(T0, 112)] ++
      restore A0 [(SP, 8); (TP, 32); (T0, 16); (T1, 0)] ++ [SFENCE_VMA; CSRW SATP T1; SFENCE_VMA]).
    rewrite run_app. change (run [CSRW SSCRATCH A0; LI A0 TRAPFRAME] m) with (Some m0). cbn match. rewrite run_app, E1. rewrite run_app.
    change (run [CSRR T0 SSCRATCH] (set_ram h1 m0)) with (Some m1). cbn match. rewrite run_app, E2. fold m2. by rewrite run_app, E3.
  - rewrite R1. change (ram m2) with h2. intros r o Hin. apply elem_of_app in Hin as [Hin|Hin].
    + transitivity (load64 h1 (tf + o)).
      * apply load64_ext. intros a Ha. apply K2. intros r' o' [= -> ->]%list_elem_of_singleton Hb.
        assert (Forall (fun p => p.2 + 8 <= 112 \/ 120 <= p.2) user_slots) as Hf by no_slot. rewrite Forall_forall in Hf. specialize (Hf _ Hin). cbn [snd] in Hf. unfold between in Hb. lia.
      * rewrite (S1 r o Hin). cbn [x m0 set_reg]. rewrite decide_False; [by apply u64_small|]. intros ->.
        assert (A0 ∉ user_slots.*1) as Hn by no_slot. by apply Hn, (list_elem_of_fmap_2 fst _ _ Hin).
    + apply list_elem_of_singleton in Hin as [= -> ->]. rewrite (S2 T0 112) by left. cbn [x m1 set_reg]. rewrite decide_True by done. change (u64 (u64 (x m A0)) = x m A0). rewrite (u64_small (x m A0)) by apply Hr. by apply u64_small.
  - rewrite (S3 SP 8) by slot. apply Hk; lia.
  - rewrite (S3 TP 32) by slot. apply Hk; lia.
  - rewrite (S3 T0 16) by slot. apply Hk; lia.
  - rewrite (S3 T1 0) by slot. apply Hk; lia.
Qed.

Lemma userret_ok tf m :
  window {| x := x m; sscratch := sscratch m; satp := x m A0; ram := ram m |} (fun _ => False) TRAPFRAME tf trapframe_size Load ->
  exists m', run userret_code m = Some m' /\ satp m' = x m A0 /\ ram m' = ram m /\
    forall r o, (r, o) ∈ trapframe_slots -> x m' r = load64 (ram m) (tf + o).
Proof.
  intros Wl. destruct user_slots_ok as [Hso Hnd].
  set (m0 := set_reg A0 TRAPFRAME {| x := x m; sscratch := sscratch m; satp := x m A0; ram := ram m |}).
  assert (window m0 (fun _ => False) TRAPFRAME tf trapframe_size Load) as W0 by (by apply (window_same {| x := x m; sscratch := sscratch m; satp := x m A0; ram := ram m |})).
  destruct (run_restore A0 TRAPFRAME tf trapframe_size _ user_slots m0 eq_refl W0 Hso Hnd) as (m1 & E1 & (R1 & R2 & R3) & S1 & K1); [no_slot|].
  assert (x m1 A0 = TRAPFRAME) as Ha by (rewrite K1 by no_slot; reflexivity).
  destruct (window_at m1 (fun _ => False) TRAPFRAME tf trapframe_size Load 112) as [Eu Ep]; [apply (window_same m0); [done|by rewrite R1|done]|lia|unfold trapframe_size; lia|done|].
  exists (set_reg A0 (load64 (ram m1) (tf + 112)) m1). split; [|split; [done|split; [done|]]].
  - change userret_code with ([SFENCE_VMA; CSRW SATP A0; SFENCE_VMA; LI A0 TRAPFRAME] ++ restore A0 user_slots ++ [LD A0 112 A0]).
    rewrite run_app. change (run [SFENCE_VMA; CSRW SATP A0; SFENCE_VMA; LI A0 TRAPFRAME] m) with (Some m0). cbn match. rewrite run_app, E1.
    cbn [run step]. by rewrite Ha, Eu, Ep.
  - intros r o Hin. cbn [x set_reg]. apply elem_of_app in Hin as [Hin|Hin].
    + rewrite decide_False; [apply (S1 r o Hin)|]. intros ->. assert (A0 ∉ user_slots.*1) as Hn by no_slot. by apply Hn, (list_elem_of_fmap_2 fst _ _ Hin).
    + apply list_elem_of_singleton in Hin as [= -> ->]. rewrite decide_True by done. rewrite R1. apply u64_small. pose proof (load64_range (ram m0) (tf + 112)). done.
Qed.

(** ** kernelVec *)

Definition kernel_slots : list (reg * Z) :=
  [(RA, 0); (GP, 16); (TP, 24); (T0, 32); (T1, 40); (T2, 48); (A0, 72); (A1, 80); (A2, 88); (A3, 96); (A4, 104); (A5, 112); (A6, 120);
   (A7, 128); (T3, 216); (T4, 224); (T5, 232); (T6, 240)].
Definition callee_saved : list reg := [S0; S1; S2; S3; S4; S5; S6; S7; S8; S9; S10; S11].

(** What the calling convention asks of a C function: the stack pointer and the callee-saved
    registers are as before when it returns, and so is the frame of its caller. *)
Class CallConv (f : machine -> machine) : Prop := {
  cc_sp : forall m, x (f m) SP = x m SP;
  cc_saved : forall m r, r ∈ callee_saved -> x (f m) r = x m r;
  cc_frame : forall m pa len, window m (fun _ => False) (x m SP) pa len Load ->
    window (f m) (fun _ => False) (x m SP) pa len Load /\ forall a, between pa (pa + len) a -> rd8 (ram (f m)) a = rd8 (ram m) a
}.

Lemma window_still m W va pa len acc : window m W va pa len acc -> window m (fun _ => False) va pa len acc.
Proof. intros (W1 & W2 & W3 & W4). split; [done|]. split; [done|]. split; [done|]. intros h Hh. apply W4. intros a _. apply Hh. tauto. Qed.

Lemma kernelVec_ok f `{!CallConv f} pa next m :
  regs_ok m -> 256 <= x m SP ->
  window m (between pa (pa + 256)) (x m SP - 256) pa 256 Store -> window m (between pa (pa + 256)) (x m SP - 256) pa 256 Load ->
  exists m1 m', run kernelVec_save m = Some m1 /\ (forall a, ~ between pa (pa + 256) a -> rd8 (ram m1) a = rd8 (ram m) a) /\
    kernelVec_code f next m = Some m' /\ (forall r, x m' r = x m r) /\
    ram m' = ram (f (link next m1)) /\ satp m' = satp (f (link next m1)).
Proof.
  intros Hr Hsp Ws Wl. assert (slots_ok 256 kernel_slots) as Hso by (split; no_slot). assert (NoDup kernel_slots.*1) as Hnd by no_slot.
  set (va := x m SP - 256) in *. set (m0 := set_reg SP (x m SP + -256) m).
  assert (x m0 SP = va) as H0 by (cbn [x m0 set_reg]; rewrite decide_True by done; unfold va; apply u64_small; specialize (Hr SP); lia).
  destruct (run_save SP va pa 256 kernel_slots m0 H0 (window_same m m0 _ _ _ _ _ eq_refl ltac:(done) Ws) Hso) as (h & E1 & S1 & K1).
  assert (forall a, ~ between pa (pa + 256) a -> rd8 h a = rd8 (ram m) a) as K.
  { intros a Ha. apply K1. intros r o Hin Hb. apply Ha. destruct Hso as [Hf _]. rewrite Forall_forall in Hf. specialize (Hf _ Hin). cbn [snd] in Hf. unfold between in *. lia. }
  set (m1 := set_ram h m0) in *. set (m2 := link next m1). assert (x m2 SP = va) as H2 by done.
  destruct (cc_frame m2 pa 256) as [Wf Hfr]; [rewrite H2; apply (window_still _ (between pa (pa + 256))), (window_same m); done|]. rewrite H2 in Wf.
  destruct (run_restore SP va pa 256 (fun _ => False) kernel_slots (f m2)) as (m3 & E3 & (R1 & R2 & R3) & S3 & K3); [by rewrite cc_sp|exact Wf|done|done|no_slot|].
  assert (run kernelVec_save m = Some m1) as E by exact E1.
  exists m1, (set_reg SP (x m3 SP + 256) m3). split; [exact E|]. split; [exact K|]. split; [|split; [|split; [exact R1|exact R2]]].
  - unfold kernelVec_code. rewrite E. fold m2. change kernelVec_restore with (restore SP kernel_slots ++ [ADDI SP SP 256]). by rewrite run_app, E3.
  - intros r. cbn [x set_reg]. destruct (decide (r = SP)) as [-> |Hne].
    { rewrite K3 by no_slot. rewrite cc_sp, H2. unfold va. rewrite u64_small; [lia|]. specialize (Hr SP). lia. }
    assert (r ∈ callee_saved \/ exists o, (r, o) ∈ kernel_slots) as [Hc|[o Hin]].
    { destruct r; try done; ((left; unfold callee_saved; slot; fail) || (right; eexists; unfold kernel_slots; slot)). }
    + rewrite K3; [rewrite cc_saved by done; cbn [x m2 link m1 set_ram m0 set_reg]|].
      * rewrite !decide_False; [done|done|]. intros ->. assert (RA ∉ callee_saved) as Hn by no_slot. done.
      * intros Hk. assert (Forall (fun r => r ∉ kernel_slots.*1) callee_saved) as Hf by no_slot. rewrite Forall_forall in Hf. by apply (Hf r Hc).
    + rewrite (S3 r o Hin). assert (load64 (ram (f m2)) (pa + o) = load64 h (pa + o)) as ->.
      { apply load64_ext. intros a Ha. apply Hfr. destruct Hso as [Hf _]. rewrite Forall_forall in Hf. specialize (Hf _ Hin). cbn [snd] in Hf. unfold between. lia. }
      rewrite (S1 r o Hin). cbn [x m0 set_reg]. rewrite decide_False by done. by apply u64_small.
Qed.
