(* ===== verification/TrapAsm.v ===== *)
(** * The assembly and the C code around it

    swtch seen from both of its callers, and the way of a process between user mode and the
    kernel through the trampoline. *)

From S2P Require Import Prelude Mem CString State Spinlock Printf Locks PageAlloc Kalloc Vm PageTable VmMap VmFree AddressSpace Sv39 VmProps Devices KernelVm Sleep Critical Proc Schedule ProcAlloc VmWitness Syscall SyscallProps Trap TrapProps Asm.

(** ** The trapframe page *)

(** The page table [root] of a process maps its trapframe, as procPagetable made it. *)
Record trap_page (base root : Z) (T : pt) (tf : Z) (h : mem) : Prop := {
  tp_base : KERNBASE <= base;
  tp_table : pt_wf base root T h;
  tp_leaf : leaves T !! path TRAPFRAME = Some (mk_pte tf (Z.lor PTE_R PTE_W));
  tp_page : pool_page base tf;
  tp_apart : tf ∉ tables T
}.

Lemma frame_in_page tf a : in_frame tf a -> in_page tf a.
Proof. unfold between, in_page, trapframe_size, PGSIZE. lia. Qed.

Lemma trap_page_out base root T tf h p a : trap_page base root T tf h -> p ∈ tables T -> in_page p a -> ~ in_frame tf a.
Proof.
  intros [H1 H2 H3 H4 H5] Hp Ha Hf%frame_in_page. apply elem_of_tables in Hp as Hp'. destruct Hp' as [π Hp'].
  assert (p <> tf) as Hne by set_solver. pose proof (pool_pages_disjoint base p tf a (pt_page _ _ _ _ H2 _ _ Hp') H4 Hne Ha). unfold in_page in *. lia.
Qed.

Lemma trap_page_same base root T tf h h' :
  trap_page base root T tf h -> (forall a, ~ in_frame tf a -> rd8 h' a = rd8 h a) -> trap_page base root T tf h'.
Proof.
  intros P Hh. pose proof P as [H1 H2 H3 H4 H5]. split; try done. apply (pt_wf_mem base root T h); [done|].
  intros p a Hp Ha. apply Hh. by eapply trap_page_out.
Qed.

Lemma trap_window base root T tf m acc :
  trap_page base root T tf (ram m) -> satp m = MAKE_SATP root -> acc = Load \/ acc = Store ->
  window m (in_frame tf) TRAPFRAME tf trapframe_size acc.
Proof.
  intros P Hs Hacc. pose proof P as [H1 H2 H3 H4 H5]. apply (window_shorter _ _ _ _ PGSIZE); [done|].
  apply (window_table base root T m _ TRAPFRAME tf (Z.lor PTE_R PTE_W) acc); try done.
  - by apply (pool_page_addr base).
  - by destruct Hacc as [-> | ->].
  - intros p a Hp Ha. by eapply trap_page_out.
Qed.

Lemma userret_frame base root T tf m :
  trap_page base root T tf (ram m) -> x m A0 = MAKE_SATP root ->
  exists m', run userret_code m = Some m' /\ satp m' = MAKE_SATP root /\ ram m' = ram m /\
    forall r o, (r, o) ∈ trapframe_slots -> x m' r = load64 (ram m) (tf + o).
Proof.
  intros P Ha. destruct (userret_ok tf m) as (m' & E & H1 & H2 & H3).
  - apply (window_still _ (in_frame tf)). by eapply trap_window; [| |left].
  - exists m'. rewrite Ha in H1. done.
Qed.

(** ** System call stubs (user/usys.S) *)

(** A stub, up to ecall; ret comes after the kernel's return. *)
Definition usys_stub (num : Z) : list instr := [LI A7 num].

Definition usys : list (string * Z) :=
  [("hello", SYS_hello); ("exit", SYS_exit); ("fork", SYS_fork); ("wait", SYS_wait); ("exec", SYS_exec); ("dup", SYS_dup); ("open", SYS_open);
   ("mknod", SYS_mknod); ("write", SYS_write); ("read", SYS_read); ("close", SYS_close); ("getpid", SYS_getpid); ("unlink", SYS_unlink);
   ("uptime", SYS_uptime)]%string.

(** The registers of the arguments. *)
Definition arg_regs : list reg := [A0; A1; A2; A3; A4; A5].

(** ** Claims *)

(** A system call from user code: the stub puts the number in a7, uservec saves the registers,
    and the kernel finds the number in the trapframe where syscall reads it, and the arguments
    where argraw does. *)
Theorem stub_arguments name num base root T tf m :
  (name, num) ∈ usys -> trap_page base root T tf (ram m) -> satp m = MAKE_SATP root -> regs_ok m ->
  exists m1 m2, run (usys_stub num) m = Some m1 /\ run uservec_code m1 = Some m2 /\
    forall me p s, k_mem s = ram m2 -> caller me p s -> p_trapframe p = tf ->
      ld64 (tf + TF_a7) s = Ok num s /\
      forall i r, arg_regs !! i = Some r -> argraw (Z.of_nat i) s = Ok (x m r) (settle s).
Proof.
  intros Hin P Hs Hr. set (m1 := set_reg A7 num m).
  assert (0 <= num < 2 ^ 64) as Hn.
  { assert (Forall (fun q => 0 <= q.2 < 2 ^ 64) usys) as Hf by no_slot. rewrite Forall_forall in Hf. apply (Hf _ Hin). }
  assert (regs_ok m1) as Hr1 by (intros r; cbn [x m1 set_reg]; case_decide; [apply u64_range|apply Hr]).
  destruct (uservec_ok tf m1 Hr1) as (m2 & E & Sl & _); [by eapply trap_window; [exact P| |right]|by eapply trap_window; [exact P| |left]|].
  exists m1, m2. split; [reflexivity|]. split; [exact E|]. intros me p s Hm C Htf.
  assert (forall r o, (r, o) ∈ trapframe_slots -> ld64 (tf + o) s = Ok (x m1 r) s) as Hl
    by (intros r o Ho; unfold ld64, get; by rewrite Hm, (Sl r o Ho)).
  split.
  - change TF_a7 with 168. rewrite (Hl A7 168) by (unfold trapframe_slots, user_slots; cbn [app]; slot). cbn [x m1 set_reg]. rewrite decide_True by done. by rewrite u64_small.
  - intros i r Hi. unfold argraw. mstep (me_get_ok me p s C p_trapframe). rewrite Htf.
    assert (forall o, (r, o) ∈ trapframe_slots -> ld64 (tf + o) (settle s) = Ok (x m r) (settle s)) as Ha.
    { intros o Ho. unfold ld64, get. change (k_mem (settle s)) with (k_mem s). rewrite Hm, (Sl r o Ho). cbn [x m1 set_reg]. rewrite decide_False; [done|].
      intros ->. assert (A7 ∉ arg_regs) as Hn7 by no_slot. by apply list_elem_of_lookup_2 in Hi. }
    rewrite <- Z.add_assoc. apply Ha. unfold TF_a0, trapframe_slots, user_slots. cbn [app].
    do 6 (destruct i as [|i]; [injection Hi as <-; slot|]). done.
Qed.

(** C20: swtch saves the callee-saved registers, ra and sp in the context of its caller and loads
    those of the other; nothing else changes but the memory of the context. When another swtch
    comes back to the context, with its memory as it was left, the registers are those of the
    first caller, who goes on after its call. *)
Theorem swtch_correct old new m :
  x m A0 = old -> x m A1 = new -> regs_ok m -> (new + context_size <= old \/ old + context_size <= new) ->
  window m (between old (old + context_size)) old old context_size Store ->
  window m (between old (old + context_size)) new new context_size Load ->
  exists m1, run swtch_code m = Some m1 /\ context_of m1 = context_at (ram m) new /\ context_at (ram m1) old = context_of m /\
    (forall r, r ∉ context_slots.*1 -> x m1 r = x m r) /\ (forall a, ~ between old (old + context_size) a -> rd8 (ram m1) a = rd8 (ram m) a) /\
    forall other m2, x m2 A0 = other -> x m2 A1 = old -> regs_ok m2 -> (old + context_size <= other \/ other + context_size <= old) ->
      window m2 (between other (other + context_size)) other other context_size Store ->
      window m2 (between other (other + context_size)) old old context_size Load ->
      (forall a, between old (old + context_size) a -> rd8 (ram m2) a = rd8 (ram m1) a) ->
      exists m3, run swtch_code m2 = Some m3 /\ context_of m3 = context_of m.
Proof.
  intros H0 H1 Hr Hd Ws Wl. destruct (swtch_ok old new m H0 H1 Hr Hd Ws Wl) as (m1 & E & C1 & C2 & _ & _ & K & R).
  exists m1. split; [exact E|]. split; [exact C2|]. split; [exact C1|]. split; [exact K|]. split; [exact R|].
  intros other m2 G0 G1 Gr Gd Us Ul Hsame. destruct (swtch_ok other old m2 G0 G1 Gr Gd Us Ul) as (m3 & E3 & _ & C3 & _).
  exists m3. split; [exact E3|]. rewrite C3, <- C1. apply context_at_ext. intros b Hb. by apply Hsame.
Qed.

(** A trap from user mode and back: uservec saves the 31 registers in the trapframe of the
    process, which its page table maps, and leaves for usertrap with the kernel's stack pointer,
    hart number and page table from the trapframe; userret loads the registers from the
    trapframe, so that each has the value it had at the trap unless the kernel changed its
    slot. *)
Theorem user_trap_roundtrip base root T tf m :
  trap_page base root T tf (ram m) -> satp m = MAKE_SATP root -> regs_ok m ->
  exists m1, run uservec_code m = Some m1 /\
    x m1 SP = load64 (ram m) (tf + 8) /\ x m1 TP = load64 (ram m) (tf + 32) /\ x m1 T0 = load64 (ram m) (tf + 16) /\ satp m1 = load64 (ram m) (tf + 0) /\
    (forall a, ~ between (tf + 40) (tf + trapframe_size) a -> rd8 (ram m1) a = rd8 (ram m) a) /\
    forall m2, trap_page base root T tf (ram m2) -> x m2 A0 = MAKE_SATP root ->
      exists m3, run userret_code m2 = Some m3 /\ satp m3 = satp m /\ ram m3 = ram m2 /\
        forall r, exists o, (r, o) ∈ trapframe_slots /\ x m3 r = load64 (ram m2) (tf + o) /\
          (load64 (ram m2) (tf + o) = load64 (ram m1) (tf + o) -> x m3 r = x m r).
Proof.
  intros P Hs Hr. destruct (uservec_ok tf m Hr) as (m1 & E & Sl & H1 & H2 & H3 & H4 & K).
  - by eapply trap_window; [| |right].
  - by eapply trap_window; [| |left].
  - exists m1. do 6 (split; [done|]). intros m2 P2 Ha. destruct (userret_frame base root T tf m2 P2 Ha) as (m3 & E3 & S3 & R3 & L3).
    exists m3. split; [exact E3|]. split; [congruence|]. split; [exact R3|]. intros r. destruct (all_registers r) as (o & Ho & _).
    exists o. split; [exact Ho|]. split; [by apply L3|]. intros Hk. rewrite (L3 r o Ho), Hk. by apply Sl.
Qed.


Section Cycle.
Context `{L : Layout} (uservec usertrap_addr : Z).

(** C6: between two traps: when usertrap is done with process [p], userret starts it with the
    registers of its trapframe under its page table; at the next trap uservec comes to usertrap
    on the kernel stack of the process, with the kernel's page table and the number of the
    hart, and the registers of the process are in the trapframe. *)
Theorem user_mode_cycle me p s base T :
  caller me p s -> trap_page base (p_pagetable p) T (p_trapframe p) (k_mem s) -> let tf := p_trapframe p in
  exists s', usertrap_return uservec usertrap_addr me s = Ok (MAKE_SATP (p_pagetable p)) s' /\
    r_sepc (k_csr s') = load64 (k_mem s) (tf + TF_epc) /\
    (forall m, ram m = k_mem s' -> x m A0 = MAKE_SATP (p_pagetable p) ->
       exists m', run userret_code m = Some m' /\ satp m' = MAKE_SATP (p_pagetable p) /\ ram m' = ram m /\
         forall r, exists o, (r, o) ∈ trapframe_slots /\ x m' r = load64 (k_mem s) (tf + o)) /\
    (forall m, satp m = MAKE_SATP (p_pagetable p) -> regs_ok m -> trap_page base (p_pagetable p) T tf (ram m) ->
       (forall a, between tf (tf + 40) a -> rd8 (ram m) a = rd8 (k_mem s') a) ->
       exists m', run uservec_code m = Some m' /\ x m' SP = u64 (p_kstack p + PGSIZE) /\ x m' TP = u64 (h_tp (k_hart s)) /\
         x m' T0 = u64 usertrap_addr /\ satp m' = u64 (r_satp (k_csr s)) /\
         forall r, exists o, (r, o) ∈ trapframe_slots /\ load64 (ram m') (tf + o) = x m r).
Proof.
  intros C P tf. destruct (usertrap_return_ok uservec usertrap_addr me p s C) as (s' & E & U). exists s'. split; [exact E|].
  destruct U as [U1 _ _ _ _ U6 U7 U8 U9 U10 _ _]. fold tf in U1, U6, U7, U8, U9, U10. split; [exact U1|]. split.
  - intros m Hm Ha. destruct (userret_frame base (p_pagetable p) T tf m) as (m' & E' & H1 & H2 & H3); [|done|].
    { rewrite Hm. apply (trap_page_same _ _ _ _ _ _ P). intros a Hf. apply U10. unfold between, trapframe_size in Hf. lia. }
    exists m'. do 3 (split; [done|]). intros r. destruct (all_registers r) as (o & Ho & Hb). exists o. split; [exact Ho|].
    rewrite (H3 r o Ho), Hm. apply load64_ext. intros a Hr. apply U10. lia.
  - intros m Hs Hr Pm Hk. destruct (uservec_ok tf m Hr) as (m' & E' & Sl & H1 & H2 & H3 & H4 & _); [by eapply trap_window; [| |right]|by eapply trap_window; [| |left]|].
    assert (forall o, 0 <= o -> o + 8 <= 40 -> load64 (ram m) (tf + o) = load64 (k_mem s') (tf + o)) as Hl
      by (intros o Ho Ho'; apply load64_ext; intros a Hra; apply Hk; unfold between; lia).
    rewrite Hl in H1, H2, H3, H4 by lia. exists m'. split; [exact E'|]. split; [by rewrite H1|]. split; [by rewrite H2|]. split; [by rewrite H3|]. split; [by rewrite H4|].
    intros r. destruct (all_registers r) as (o & Ho & _). exists o. split; [exact Ho|by apply Sl].
Qed.

End Cycle.

(** entry.S calls start on the stack that start.c reserves: the stack pointer is 8192 bytes into
    the 12288 of stack0, aligned as stack0 is. *)
Theorem entry_stack stack0 m :
  0 <= stack0 -> stack0 + 4096 * 3 <= 2 ^ 64 -> stack0 mod 16 = 0 ->
  exists m', run (entry_code stack0) m = Some m' /\ x m' SP = stack0 + 8192 /\ x m' SP mod 16 = 0 /\
    stack0 <= x m' SP <= stack0 + 4096 * 3 /\ ram m' = ram m.
Proof.
  intros H0 H1 H2. eexists. split; [reflexivity|]. cbn [x set_reg ram]. rewrite !decide_True by done. rewrite !decide_False by done.
  rewrite !decide_True by done. change (u64 (1024 * 8)) with 8192. rewrite (u64_small stack0) by lia. rewrite u64_small by lia.
  split; [done|]. split; [zdm|]. split; [lia|done].
Qed.

(** ** Witnesses *)

#[local] Existing Instance demo_layout.
#[local] Existing Instance kalloc_allocator.
#[local] Opaque boot_kernel.

(** A hart without paging that has small numbers in its registers. *)
Definition bare (a0 a1 sp0 : Z) : machine :=
  {| x := fun r => match r with A0 => a0 | A1 => a1 | SP => sp0 | _ => 7 end; sscratch := 0; satp := 0; ram := ∅ |}.

Lemma bare_regs a0 a1 sp0 : 0 <= a0 < 2 ^ 64 -> 0 <= a1 < 2 ^ 64 -> 0 <= sp0 < 2 ^ 64 -> regs_ok (bare a0 a1 sp0).
Proof. intros H0 H1 H2 r. destruct r; cbn; lia. Qed.

Lemma swtch_correct_witness :
  exists m1 m3, run swtch_code (bare 4096 8192 100) = Some m1 /\ x m1 RA = 0 /\ x m1 SP = 0 /\
    run swtch_code (set_ram (ram m1) (bare 8192 4096 0)) = Some m3 /\ x m3 RA = 7 /\ x m3 SP = 100.
Proof.
  destruct (swtch_correct 4096 8192 (bare 4096 8192 100)) as (m1 & E1 & C1 & _ & _ & _ & H).
  - reflexivity.
  - reflexivity.
  - apply bare_regs; lia.
  - right. unfold context_size. lia.
  - apply window_bare; vm_compute; congruence.
  - apply window_bare; vm_compute; congruence.
  - destruct (H 8192 (set_ram (ram m1) (bare 8192 4096 0))) as (m3 & E3 & C3).
    + reflexivity.
    + reflexivity.
    + apply (bare_regs 8192 4096 0); lia.
    + left. unfold context_size. lia.
    + apply window_bare; vm_compute; congruence.
    + apply window_bare; vm_compute; congruence.
    + intros a _. reflexivity.
    + exists m1, m3. split; [exact E1|]. split; [exact (f_equal ctx_ra C1)|]. split; [exact (f_equal ctx_sp C1)|].
      split; [exact E3|]. split; [exact (f_equal ctx_ra C3)|exact (f_equal ctx_sp C3)].
Defined.

(** A page table that procPagetable made, in memory. *)
Lemma demo_trap_page : exists root T tf h, trap_page demo_base root T tf h.
Proof.
  destruct demo_plenty as (F & s & Hpa & _ & Hsz).
  change (pa_inv (alloc := kalloc) (free := kfree) demo_base F s) in Hpa.
  destruct (pa_alloc demo_base F s Hpa) as (tf & s1 & _ & Htf & Hpa1 & _ & _); [intros ->; by rewrite size_empty in Hsz; lia|].
  destruct (pool_frame demo_base tf (pa_base _ _ _ Hpa) (pa_pool _ _ _ _ Hpa Htf)) as [Hgf _].
  destruct (procPagetable_ok demo_base (F ∖ {[tf]}) s1 tf Hpa1) as (root & F' & T' & s4 & _ & V & Hf & _ & HL); [|done|].
  { rewrite size_difference, size_singleton by set_solver. lia. }
  exists root, T', tf, (k_mem s4). split.
  - apply (pa_base _ _ _ Hpa).
  - apply V.
  - by rewrite HL, lookup_insert_eq.
  - by apply (pa_pool _ _ _ _ Hpa).
  - unfold foot in Hf. set_solver.
Qed.

(** User code on the page table [root]. *)
Definition user_machine (root : Z) (h : mem) : machine := {| x := fun _ => 5; sscratch := 0; satp := MAKE_SATP root; ram := h |}.

Lemma user_trap_roundtrip_witness :
  exists root h m1 m3, run uservec_code (user_machine root h) = Some m1 /\
    run userret_code {| x := fun _ => MAKE_SATP root; sscratch := 0; satp := 0; ram := ram m1 |} = Some m3 /\ x m3 S5 = 5 /\ x m3 A0 = 5.
Proof.
  destruct demo_trap_page as (root & T & tf & h & P).
  destruct (user_trap_roundtrip demo_base root T tf (user_machine root h)) as (m1 & E1 & _ & _ & _ & _ & K & H).
  - exact P.
  - reflexivity.
  - intros r. cbn. lia.
  - destruct (H {| x := fun _ => MAKE_SATP root; sscratch := 0; satp := 0; ram := ram m1 |}) as (m3 & E3 & _ & _ & R).
    + apply (trap_page_same _ _ _ _ _ _ P). intros a Ha. apply K. unfold between, trapframe_size in *. lia.
    + reflexivity.
    + exists root, h, m1, m3. split; [exact E1|]. split; [exact E3|].
      split; [destruct (R S5) as (o & _ & _ & Hr)|destruct (R A0) as (o & _ & _ & Hr)]; exact (Hr eq_refl).
Defined.

(** A C function that leaves numbers in the registers it may change. *)
Definition clobber (m : machine) : machine := set_reg A0 1 (set_reg T0 2 (set_reg TP 3 m)).

#[local] Instance clobber_cc : CallConv clobber.
Proof.
  split; [done| |].
  - intros m r Hr. unfold callee_saved in Hr. repeat (apply elem_of_cons in Hr as [-> |Hr]; [done|]). by apply elem_of_nil in Hr.
  - intros m pa len W. split; [|done]. exact (window_same m (clobber m) _ _ _ _ _ eq_refl (fun a _ => eq_refl) W).
Qed.


(** A process that runs on the memory [h]. *)
Definition running_on (p : PCB) (h : mem) : kernel :=
  set_mem h (set_procs (<[0%nat := p]> (k_procs boot_kernel)) (set_cpu {| c_proc := Some 0%nat; c_noff := 0; c_intena := 0 |} boot_kernel)).

Lemma running_caller p h : caller 0 p (running_on p h).
Proof.
  split.
  - vm_compute. repeat split; congruence || (intros; discriminate).
  - reflexivity.
  - change (<[0%nat := p]> (k_procs boot_kernel) !! 0%nat = Some p). by rewrite boot_procs.
  - split; [change (length (<[0%nat := p]> (k_procs boot_kernel)) = 64%nat); by rewrite length_insert, boot_procs|]. exact boot_proc_locks.
Qed.

Lemma user_mode_cycle_witness :
  exists root tf h s' m1 m2, let p := with_pagetable root (with_trapframe tf PCB_zero) in
    usertrap_return 0 64 0 (running_on p h) = Ok (MAKE_SATP root) s' /\
    run userret_code {| x := fun _ => MAKE_SATP root; sscratch := 0; satp := 0; ram := k_mem s' |} = Some m1 /\
    run uservec_code m1 = Some m2 /\ x m2 T0 = 64 /\ x m2 SP = 4096.
Proof.
  destruct demo_trap_page as (root & T & tf & h & P). set (p := with_pagetable root (with_trapframe tf PCB_zero)).
  destruct (user_mode_cycle 0 64 0 p (running_on p h) demo_base T) as (s' & E & _ & H1 & H2).
  - apply running_caller.
  - exact P.
  - destruct (H1 {| x := fun _ => MAKE_SATP root; sscratch := 0; satp := 0; ram := k_mem s' |} eq_refl eq_refl) as (m1 & E1 & S1 & R1 & X1).
    destruct (H2 m1 S1) as (m2 & E2 & Xsp & _ & Xt & _).
    + intros r. destruct (X1 r) as (o & _ & ->). apply load64_range.
    + rewrite R1. apply (trap_page_same _ _ _ _ _ _ P). intros a Ha.
      destruct (usertrap_return_ok 0 64 0 p (running_on p h) (running_caller p h)) as (s2 & E2 & U). rewrite E in E2. injection E2 as <-.
      apply (ur_mem _ _ _ _ _ U). change (p_trapframe p) with tf. unfold between, trapframe_size in Ha. lia.
    + intros a _. by rewrite R1.
    + exists root, tf, h, s', m1, m2. split; [exact E|]. split; [exact E1|]. split; [exact E2|]. split; [exact Xt|exact Xsp].
Defined.

Lemma stub_arguments_witness :
  exists root h m1 m2, run (usys_stub SYS_write) (user_machine root h) = Some m1 /\ run uservec_code m1 = Some m2.
Proof.
  destruct demo_trap_page as (root & T & tf & h & P).
  destruct (stub_arguments "write" SYS_write demo_base root T tf (user_machine root h)) as (m1 & m2 & E1 & E2 & _).
  - unfold usys. slot.
  - exact P.
  - reflexivity.
  - intros r. cbn. lia.
  - exists root, h, m1, m2. split; [exact E1|exact E2].
Defined.

Lemma entry_stack_witness : exists m', run (entry_code 0x80008000) (bare 0 0 0) = Some m' /\ x m' SP = 0x8000A000.
Proof.
  destruct (entry_stack 0x80008000 (bare 0 0 0)) as (m' & E & S & _).
  - lia.
  - lia.
  - reflexivity.
  - exists m'. split; [exact E|exact S].
Defined.
