(* ===== verification/Main.v ===== *)
(** * kernel/boot/main.c: the first hart brings the kernel up

    main on hart 0 runs the initialisation of every component in turn; the other harts wait
    for it. The lemmas say what each step of the sequence does to the parts of the state
    that the components own. *)

From S2P Require Import Prelude Mem CString State Spinlock Printf Locks PageAlloc Kalloc Vm PageTable VmMap VmProps Devices KernelVm Sleep Bio Fs Inode File Proc Schedule ProcAlloc Exec Syscall Virtio Trap.

Section Main.
Context `{Layout} (kernelVec : Z) (reg : Z -> kernel -> Z) (virtio_disk_rw : nat -> Z -> KM unit).
Context (buf_addr : nat -> Z) (stack forkret_addr : Z).

(** The branch of hart 0 up to [started = 1]. *)
Definition main_init : KM unit :=
  do! consoleinit;
  do! printfinit;
  do! printf nl [];
  do! printf ("Hello World" ++ nl) [];
  do! kinit;
  do! kVmInit kalloc;
  do! kVmInitHart;
  do! procinit;
  do! trapInit;
  do! trapInitHart kernelVec;
  do! plicInit;
  do! plicInitHart;
  do! binit;
  do! iinit;
  do! fileinit;
  do! virtio_disk_init reg kalloc;
  userinit virtio_disk_rw kalloc kfree buf_addr stack forkret_addr.

(** main up to the call of scheduler: the value of [started] it leaves, from the value it
    finds. *)
Definition main (started : Z) : KM Z :=
  let! id := cpuid in
  if id =? 0 then do! main_init; ret 1
  else if started =? 0 then halt (Spin "started")
  else ret started.
End Main.

(** ** Steps *)

Lemma foreach_inv (body : nat -> KM unit) (I : nat -> kernel -> Prop) n : forall k s,
  (forall j s, (k <= j < k + n)%nat -> I j s -> exists s', body j s = Ok tt s' /\ I (S j) s') -> I k s ->
  exists s', foreach (seq k n) body s = Ok tt s' /\ I (k + n)%nat s'.
Proof.
  induction n as [|n IH]; intros k s Hb Hk; cbn [seq foreach].
  - exists s. split; [done|]. by rewrite Nat.add_0_r.
  - destruct (Hb k s ltac:(lia) Hk) as (s1 & E1 & H1). rewrite (bind_ok _ _ _ _ _ E1).
    destruct (IH (S k) s1) as (s2 & E2 & H2); [|done|].
    { intros j t Hj Ht. apply Hb; [lia|done]. }
    exists s2. split; [done|]. by rewrite Nat.add_succ_r.
Qed.

(** No step takes a lock for good. *)
Definition locks_grow (s s' : kernel) : Prop := forall l, lock_free l s -> lock_free l s'.

Lemma grow_refl s : locks_grow s s.
Proof. by intros l. Qed.

Lemma grow_trans s1 s2 s3 : locks_grow s1 s2 -> locks_grow s2 s3 -> locks_grow s1 s3.
Proof. intros H1 H2 l Hl. by apply H2, H1. Qed.

Lemma grow_same s s' : k_locks s' = k_locks s -> locks_grow s s'.
Proof. intros E l. unfold lock_free. by rewrite E. Qed.

Lemma free_new l nm s : lock_free l (set_lock l (unlocked nm) s).
Proof. exists nm. unfold set_lock. cbn. apply lookup_insert_eq. Qed.

Lemma grow_set l nm s : locks_grow s (set_lock l (unlocked nm) s).
Proof.
  intros k [x Hk]. destruct (decide (k = l)) as [-> |Hne]; [apply free_new|].
  exists x. unfold set_lock. cbn. by rewrite lookup_insert_ne.
Qed.
#[local] Hint Resolve grow_refl grow_set free_new : core.

(** A hart that runs no process and holds no lock. *)
Definition idle (h : hart) : Prop := h_tp h = 0 /\ c_noff (h_cpu h) = 0 /\ c_proc (h_cpu h) = None.

Lemma idle_ok h : idle h -> hart_ok h.
Proof. intros (_ & E & _). split; [lia|]. lia. Qed.

Lemma idle_settle h : idle (hart_settle h) <-> idle h.
Proof. unfold idle, hart_settle. destruct (Z.eqb_spec (c_noff (h_cpu h)) 0); cbn; [|done]. intuition lia. Qed.

(** What a step of the allocator leaves alone. *)
Lemma mem_step_rest s s' :
  mem_step s s' -> s' = set_hart (k_hart s') (set_mem (k_mem s') (set_kmem (k_kmem s') s)) /\
    hart_settle (k_hart s') = hart_settle (k_hart s).
Proof.
  unfold mem_step, settle. intros E. split; [|by apply (f_equal k_hart) in E].
  destruct s, s'. unfold set_hart, set_mem, set_kmem in *. cbn in *. injection E. intros. by subst.
Qed.

(** ** The tables before they are filled *)

Record early (s : kernel) : Prop := {
  e_idle : idle (k_hart s);
  e_procs : k_procs s = replicate 64 PCB_zero;
  e_nextpid : k_nextpid s = 1;
  e_bcache : length (bc_buf (k_bcache s)) = 90%nat;
  e_itable : k_itable s = replicate 90 inode_zero;
  e_vdisk : k_vdisk s = vdisk_zero
}.

Lemma early_ext s s' :
  early s -> hart_settle (k_hart s') = hart_settle (k_hart s) -> k_procs s' = k_procs s -> k_nextpid s' = k_nextpid s ->
  k_bcache s' = k_bcache s -> k_itable s' = k_itable s -> k_vdisk s' = k_vdisk s -> early s'.
Proof.
  intros [E1 E2 E3 E4 E5 E6] H1 H2 H3 H4 H5 H6. split; [|congruence..].
  rewrite <- idle_settle, H1. by rewrite idle_settle.
Qed.

Lemma early_mem s s' : mem_step s s' -> early s -> early s'.
Proof. intros [E Eh]%mem_step_rest H. apply (early_ext s); [done|done|by rewrite E..]. Qed.

(** ** Console and page allocator *)

(** Where the device registers were written: outside the registers of the disk. *)
Definition disk_quiet (s : kernel) : Prop := forall r, 0 <= r < 0x1000 -> k_mmio s !! (VIRTIO0 + r) = None.

Lemma quiet_write a v s : ~ VIRTIO0 <= a < VIRTIO0 + 0x1000 -> disk_quiet s -> disk_quiet (set_mmio (<[a := v]> (k_mmio s)) s).
Proof. intros Ha Hq r Hr. cbn. rewrite lookup_insert_ne by lia. by apply Hq. Qed.

Lemma settle_hart_emit out s : hart_settle (k_hart (emit out (settle s))) = hart_settle (k_hart s).
Proof. apply hart_settle_idem. Qed.

Lemma uartinit_ok s :
  disk_quiet s -> exists m, uartinit s = Ok tt (set_mmio m s) /\ disk_quiet (set_mmio m s).
Proof.
  intros Hq. unfold uartinit, WriteReg, mmio_wr, bind, modify. eexists. split; [reflexivity|]. cbn [k_mmio set_mmio].
  intros r Hr. cbn [k_mmio set_mmio]. rewrite !lookup_insert_ne; [by apply Hq|..]; unfold VIRTIO0, UART0, IER, LCR, FCR; lia.
Qed.

Lemma console_ok s :
  early s -> k_panicked s = 0 -> k_panicking s = 0 -> disk_quiet s ->
  exists s', (forall X (cont : KM X), (do! consoleinit; do! printfinit; do! printf nl []; do! printf ("Hello World" ++ nl) []; cont) s = cont s') /\
    early s' /\ can_print s' /\ disk_quiet s' /\ k_kmem s' = k_kmem s /\
    k_csr s' = k_csr s /\ locks_grow s s' /\ lock_free L_cons s'.
Proof.
  intros He Hp1 Hp2 Hq. set (s1 := set_lock L_cons (unlocked "cons") s). destruct (uartinit_ok s1 Hq) as (m & E & Hq2).
  set (s2 := set_lock L_pr (unlocked "pr") (set_mmio m s1)).
  assert (can_print s2) as Hc.
  { split; [done|]. split; [done|]. split; [apply free_new|]. destruct He as [(I1 & I2 & I3) _ _ _ _ _]. split; [by apply idle_ok|]. cbn. lia. }
  destruct (printf_ok nl [] s2 eq_refl Hc) as (o1 & E1). pose proof (can_print_emit o1 s2 Hc) as Hc2.
  destruct (printf_ok ("Hello World" ++ nl) [] _ eq_refl Hc2) as (o2 & E2).
  exists (emit o2 (settle (emit o1 (settle s2)))). split; [|split; [|split; [by apply can_print_emit|]]].
  { intros X cont. assert (consoleinit s = Ok tt (set_mmio m s1)) as E0 by exact E. rewrite (bind_ok _ _ _ _ _ E0).
    assert (printfinit (set_mmio m s1) = Ok tt s2) as E0' by done. rewrite (bind_ok _ _ _ _ _ E0'), (bind_ok _ _ _ _ _ E1), (bind_ok _ _ _ _ _ E2). done. }
  { apply (early_ext s); try done. by rewrite !settle_hart_emit. }
  split; [exact Hq2|]. split; [done|]. split; [done|].
  assert (locks_grow s2 (emit o2 (settle (emit o1 (settle s2))))) as Hg by (by apply grow_same).
  assert (locks_grow s1 s2) as Hg1 by (eapply grow_trans; [|apply grow_set]; by apply grow_same).
  split; [|apply Hg, Hg1, free_new]. eapply grow_trans; [apply grow_set|]. eapply grow_trans; [exact Hg1|exact Hg].
Qed.

Lemma pool_size `{Layout} n base (F : gset Z) :
  (forall p, p ∈ F <-> pool_page base p) -> base + PGSIZE * (1 + Z.of_nat n) <= PHYSTOP -> (n <= size F)%nat.
Proof.
  intros HF Hb. set (l := (fun i => PHYSTOP - PGSIZE * (1 + Z.of_nat i)) <$> seq 0 n).
  assert (size (list_to_set l : gset Z) = n) as Hn.
  { rewrite size_list_to_set; [unfold l; by rewrite length_fmap, length_seq|]. apply NoDup_fmap_2; [|apply NoDup_seq].
    intros x y. unfold PGSIZE. lia. }
  transitivity (size (list_to_set l : gset Z)); [lia|]. apply subseteq_size. intros p. rewrite elem_of_list_to_set. intros (i & -> & Hi)%list_elem_of_fmap. apply elem_of_seq in Hi.
  apply HF. unfold pool_page, PHYSTOP, KERNBASE, PGSIZE in *. zdm.
Qed.

Lemma kinit_up `{Layout} s :
  early s -> can_print s -> disk_quiet s -> km_freelist (k_kmem s) = 0 ->
  exists F s', kinit s = Ok tt s' /\ early s' /\ disk_quiet s' /\ kmem_ready (PGROUNDUP end_) F s' /\
    (forall p, p ∈ F <-> pool_page (PGROUNDUP end_) p) /\ k_csr s' = k_csr s /\ locks_grow s s' /\ lock_free L_kmem s'.
Proof.
  intros He Hc Hq Hf. destruct (kinit_step s Hc Hf) as (F & s' & out & E & Hr & HF & Hms).
  set (s1 := emit out (settle (set_lock L_kmem (unlocked "kmem") s))) in *.
  assert (early s1) as He1 by (apply (early_ext s); try done; exact (settle_hart_emit _ _)).
  destruct (mem_step_rest _ _ Hms) as [Es _].
  assert (k_locks s' = k_locks s1) as El by (by rewrite Es).
  exists F, s'. split; [done|]. split; [by apply (early_mem s1)|].
  split; [intros r Hr'; rewrite Es; by apply Hq|]. split; [done|]. split; [done|]. split; [by rewrite Es|].
  assert (locks_grow s1 s') as Hg by (by apply grow_same).
  assert (locks_grow (set_lock L_kmem (unlocked "kmem") s) s') as Hg' by (eapply grow_trans; [|exact Hg]; by apply grow_same).
  split; [eapply grow_trans; [apply grow_set|exact Hg']|]. apply Hg', free_new.
Qed.

(** ** Paging *)

(** The hart runs on the kernel's page table; its pages are not free. *)
Record mapped `{Layout} (base : Z) (F : gset Z) (root : Z) (T : pt) (qs : list Z) (s : kernel) : Prop := {
  mp_vm : vm_ok (PA := kalloc_allocator) base F root T s;
  mp_leaves : seg_leaves (kernel_segments qs) T;
  mp_segs : Forall seg_ok (kernel_segments qs);
  mp_satp : r_satp (k_csr s) = MAKE_SATP root;
  mp_stacks : length qs = 64%nat /\ NoDup qs /\ forall q, q ∈ qs -> pool_page base q /\ q ∉ F
}.

Lemma mapped_mmu `{Layout} base F root T qs s a user acc :
  mapped base F root T qs s -> 0 <= a < MAXVA ->
  satp_translate (r_satp (k_csr s)) (k_mem s) a user acc = seg_translate (kernel_segments qs) a user acc.
Proof.
  intros [V L G -> _] Ha. pose proof (pa_base _ _ _ (vm_alloc _ _ _ _ _ V)) as Hb. pose proof (vm_wf _ _ _ _ _ V) as Hw.
  destruct (pool_page_addr base root Hb (pt_page _ _ _ _ Hw _ _ (pt_root _ _ _ _ Hw))) as [P1 P2].
  rewrite satp_make; [|done|destruct P2; split; [by apply Z.lt_le_incl|done]]. by apply (seg_sv39 base root T).
Qed.

(** Fewer free pages, other memory outside the tables. *)
Lemma mapped_ext `{Layout} base F F' root T qs s s' :
  mapped base F root T qs s -> F' ⊆ F -> kmem_ready base F' s' ->
  frame base F (k_mem s) (k_mem s') -> r_satp (k_csr s') = r_satp (k_csr s) -> mapped base F' root T qs s'.
Proof.
  intros [V L G S (N1 & N2 & N3)] HF Hr Hfr Hc. split; [|done|done|by rewrite Hc|].
  - split; [done| |].
    + apply (pt_wf_mem _ _ _ (k_mem s)); [apply V|]. intros p a Hp Ha. destruct (vm_table_pool _ _ _ _ _ _ V Hp) as [P1 P2].
      apply Hfr; [by eapply pool_not_base|]. intros q Hq. apply (pool_not_in base p q); [done| |by intros ->|done].
      exact (pa_pool base F s q (vm_alloc _ _ _ _ _ V) Hq).
    + intros x Hx. by apply (vm_own _ _ _ _ _ V), HF.
  - split; [done|]. split; [done|]. intros q Hq. destruct (N3 q Hq) as [Q1 Q2]. split; [done|]. intros Hc'. by apply Q2, HF.
Qed.

Lemma paged_rest root c s s0 :
  s0 = set_hart (k_hart s0) (set_mem (k_mem s0) (set_kmem (k_kmem s0) s)) ->
  set_csr c (set_kpgtbl root s0) =
    set_hart (k_hart s0) (set_csr c (set_kpgtbl root (set_mem (k_mem s0) (set_kmem (k_kmem s0) s)))).
Proof. intros E. rewrite E at 1. reflexivity. Qed.

Lemma paging_up `{Layout} e base F s :
  kmem_ready base F s -> (166 + e <= size F)%nat ->
  exists root T qs F' s1 s', kVmInit kalloc s = Ok tt s1 /\ kVmInitHart s1 = Ok tt s' /\
    mapped base F' root T qs s' /\ (e <= size F')%nat /\ F' ⊆ F /\
    s' = set_hart (k_hart s') (set_csr (k_csr s') (set_kpgtbl root (set_mem (k_mem s') (set_kmem (k_kmem s') s)))) /\
    hart_settle (k_hart s') = hart_settle (k_hart s).
Proof.
  intros Hr Hsz. destruct (kVmMake_ok (PA := kalloc_allocator) base e F s Hr Hsz) as (root & qs & F' & T & s0 & E & Hlen & B).
  destruct B as [B1 B2 B3 B4 B5 [B6 B6'] [B7 _]]. rewrite app_nil_r in *. destruct (mem_step_rest _ _ B7) as [Es Eh].
  pose proof (vm_alloc _ _ _ _ _ B1) as Hpa. assert (forall q, q ∈ foot F' T ∪ list_to_set (rev qs) -> pool_page base q) as HF
    by (intros q Hq; rewrite B5 in Hq; by apply (pa_pool (PageAllocator := kalloc_allocator) base F s)).
  exists root, T, qs, F', (set_kpgtbl root s0). eexists. split; [exact (bind_ok _ _ _ root s0 E)|]. split; [reflexivity|].
  split; [|split; [|split; [|split; [|exact Eh]]]].
  - split; [|done|done|reflexivity|].
    + destruct B1 as [_ W O]. split; [|exact W|exact O].
      apply (pa_frame (PageAllocator := kalloc_allocator) base F' s0); [exact Hpa|reflexivity..|exact (pa_hart _ _ _ Hpa)].
    + split; [done|]. split; [by rewrite (Permutation_rev qs)|]. intros q Hq. rewrite (Permutation_rev qs) in Hq. split.
      * apply HF, elem_of_union. right. by apply elem_of_list_to_set.
      * intros Hc. apply (B6' q Hq). unfold foot. apply elem_of_union. by left.
  - unfold room in B4. lia.
  - intros x Hx. rewrite <- B5. unfold foot. apply elem_of_union. left. apply elem_of_union. by left.
  - exact (paged_rest root _ s s0 Es).
Qed.

(** ** Tables *)

(** The entry of a process after procinit. *)
Definition boot_pcb (i : nat) : PCB := with_kstack (KSTACK (Z.of_nat i)) (with_state UNUSED PCB_zero).

(** procinit after [k] turns. *)
Record procs_up (s : kernel) (k : nat) (s' : kernel) : Prop := {
  pu_rest : s' = set_locks (k_locks s') (set_procs (k_procs s') s);
  pu_grow : locks_grow s s';
  pu_locks : lock_free L_pid s' /\ lock_free L_wait s' /\ forall i, (i < k)%nat -> lock_free (L_proc i) s';
  pu_len : length (k_procs s') = 64%nat;
  pu_procs : forall i, (i < 64)%nat -> k_procs s' !! i = Some (if (i <? k)%nat then boot_pcb i else PCB_zero)
}.

Lemma procinit_ok s : k_procs s = replicate 64 PCB_zero -> exists s', procinit s = Ok tt s' /\ procs_up s 64 s'.
Proof.
  intros Hp. unfold procinit, initlock. unfold bind at 1, modify at 1. unfold bind at 1, modify at 1.
  fold (unlocked "nextpid"). fold (unlocked "wait_lock").
  set (s1 := set_lock L_wait _ _). change (Z.to_nat NPROC) with 64%nat.
  destruct (foreach_inv (fun i =>
    do! initlock (L_proc i) "proc"; do! set_proc i (with_state UNUSED); set_proc i (with_kstack (KSTACK (Z.of_nat i)))) (procs_up s) 64 0 s1) as (s' & E & Hs').
  - intros j t Hj [R G (L1 & L2 & L3) N P]. eexists. split; [reflexivity|].
    set (t1 := set_lock (L_proc j) (unlocked "proc") t). assert (locks_grow t t1) as Hg by apply grow_set.
    split.
    + rewrite R at 1. reflexivity.
    + eapply grow_trans; [exact G|exact Hg].
    + split; [by apply Hg|]. split; [by apply Hg|]. intros i Hi. destruct (decide (i = j)) as [-> |]; [apply free_new|]. apply Hg, L3. lia.
    + unfold upd_proc. cbn [k_procs set_procs]. rewrite !length_alter. exact N.
    + intros i Hi. unfold upd_proc. cbn [k_procs set_procs set_lock set_locks]. rewrite list_alter_alter_eq. specialize (P i Hi).
      destruct (decide (i = j)) as [-> |Hne].
      * rewrite list_lookup_alter_eq, P, Nat.ltb_irrefl, (proj2 (Nat.ltb_lt j (S j))) by lia. reflexivity.
      * rewrite list_lookup_alter_ne by done. rewrite P. f_equal.
        destruct (Nat.ltb_spec i j), (Nat.ltb_spec i (S j)); (done || lia).
  - split.
    + reflexivity.
    + eapply grow_trans; [apply grow_set|apply grow_set].
    + split; [apply grow_set, free_new|]. split; [apply free_new|]. lia.
    + change (length (k_procs s) = 64%nat). by rewrite Hp.
    + intros i Hi. change (k_procs s !! i = Some PCB_zero). rewrite Hp. by apply lookup_replicate_2.
  - exists s'. split; [exact E|exact Hs'].
Qed.

(** binit after [k] turns: the frame that goes with [Bio.binit_ring]. *)
Record bufs_up (s : kernel) (k : nat) (s' : kernel) : Prop := {
  bu_rest : s' = set_locks (k_locks s') (set_bcache (k_bcache s') s);
  bu_grow : locks_grow s s';
  bu_locks : lock_free L_bcache s' /\ forall i, (i < k)%nat -> lock_free (L_buf i) s'
}.

Lemma binit_ok s :
  length (bc_buf (k_bcache s)) = 90%nat ->
  exists s', binit s = Ok tt s' /\ bufs_up s 90 s' /\ ring (k_bcache s') (initial_lru 90) /\ length (bc_buf (k_bcache s')) = 90%nat.
Proof.
  intros Hlen. destruct (binit_ring s Hlen) as (s' & E & Hr). exists s'. split; [done|]. split; [|done].
  revert E. unfold binit, initlock, mod_bcache at 1. unfold bind at 1, modify at 1. unfold bind at 1, modify at 1. fold (unlocked "bcache").
  set (s1 := set_lock L_bcache _ _). change (Z.to_nat NBUF) with 90%nat. intros E.
  destruct (foreach_inv (fun i => do! initsleeplock (buf_sl i); mod_bcache (insert_front i)) (bufs_up s) 90 0 s1) as (s2 & E2 & Hs2).
  - intros j t Hj [R G [L1 L2]]. set (t1 := set_lock (L_buf j) (unlocked "sleep lock") t).
    assert (locks_grow t t1) as Hg by apply grow_set.
    exists (set_bcache (insert_front j (k_bcache (upd_buf j (buf_lock {| sl_locked := 0; sl_pid := 0 |}) t1))) t1).
    split; [reflexivity|]. generalize (insert_front j (k_bcache (upd_buf j (buf_lock {| sl_locked := 0; sl_pid := 0 |}) t1))). intros c. split.
    + change (set_bcache c t1 = set_locks (k_locks t1) (set_bcache c s)). unfold t1 at 1. rewrite R at 1. reflexivity.
    + eapply grow_trans; [exact G|exact Hg].
    + split; [by apply Hg|]. intros i Hi. destruct (decide (i = j)) as [-> |]; [exact (free_new (L_buf j) "sleep lock" t)|]. apply Hg, L2. lia.
  - split; [reflexivity|apply (grow_set L_bcache "bcache")|]. split; [apply (free_new L_bcache "bcache")|lia].
  - rewrite E in E2. injection E2 as ->. exact Hs2.
Qed.

(** iinit after [k] turns. *)
Record inodes_up (s : kernel) (k : nat) (s' : kernel) : Prop := {
  iu_rest : s' = set_locks (k_locks s') s;
  iu_grow : locks_grow s s';
  iu_locks : lock_free L_itable s' /\ forall i, (i < k)%nat -> lock_free (L_inode i) s'
}.

Lemma inode_zero_lock i s :
  k_itable s = replicate 90 inode_zero -> upd_inode i (in_lock {| sl_locked := 0; sl_pid := 0 |}) s = s.
Proof.
  intros Hi. unfold upd_inode. replace (alter _ i (k_itable s)) with (k_itable s); [by destruct s|].
  rewrite Hi. generalize 90%nat. intros n. apply list_eq. intros j. destruct (decide (j = i)) as [-> |].
  - rewrite list_lookup_alter_eq. destruct (replicate n inode_zero !! i) as [x|] eqn:E; [|done]. by apply lookup_replicate in E as [-> _].
  - by rewrite list_lookup_alter_ne.
Qed.

Lemma iinit_ok s : k_itable s = replicate 90 inode_zero -> exists s', iinit s = Ok tt s' /\ inodes_up s 90 s'.
Proof.
  intros Hi. unfold iinit, initlock. unfold bind at 1, modify at 1. fold (unlocked "itable"). set (s1 := set_lock L_itable _ _).
  change (Z.to_nat NBUF) with 90%nat.
  destruct (foreach_inv (fun i => initsleeplock (inode_sl i)) (inodes_up s) 90 0 s1) as (s' & E & Hs').
  - intros j t Hj [R G [L1 L2]]. set (t1 := set_lock (L_inode j) (unlocked "sleep lock") t).
    assert (locks_grow t t1) as Hg by apply grow_set. exists t1. split.
    { transitivity (Ok tt (upd_inode j (in_lock {| sl_locked := 0; sl_pid := 0 |}) t1)); [reflexivity|]. rewrite inode_zero_lock; [done|].
      change (k_itable t = replicate 90 inode_zero). rewrite R. exact Hi. }
    split.
    + unfold t1. rewrite R at 1. reflexivity.
    + eapply grow_trans; [exact G|exact Hg].
    + split; [by apply Hg|]. intros i Hi'. destruct (decide (i = j)) as [-> |]; [apply free_new|]. apply Hg, L2. lia.
  - split; [reflexivity|apply grow_set|]. split; [apply free_new|lia].
  - exists s'. split; [exact E|exact Hs'].
Qed.

(** ** The disk *)

(** A page for the driver, still to be wiped. *)
Lemma alloc_mapped `{Layout} base F root T qs s :
  mapped base F root T qs s -> F <> ∅ ->
  exists q s', kalloc s = Ok q s' /\ q ∈ F /\ pool_page base q /\ (q ∉ tables T) /\ (q =? 0) = false /\
    mapped base (F ∖ {[q]}) root T qs s' /\ mem_step s s'.
Proof.
  intros M HF. pose proof M as [V _ _ _ _]. destruct (alloc_page (PA := kalloc_allocator) base F root T s V HF) as (q & s' & E & Hq & Hp & Hz & V' & [St Fr]).
  exists q, s'. split; [done|]. split; [done|]. split; [done|]. split; [intros Hc; exact (vm_own _ _ _ _ _ V q Hq Hc)|]. split; [done|]. split; [|done].
  apply (mapped_ext base F _ root T qs s s' M); [set_solver|exact (vm_alloc _ _ _ _ _ V')|done|].
  destruct (mem_step_rest _ _ St) as [-> _]. done.
Qed.

Lemma wipe_mapped `{Layout} base F root T qs s q :
  mapped base F root T qs s -> pool_page base q -> q ∉ F -> q ∉ tables T ->
  mapped base F root T qs (set_mem (memset (k_mem s) q 0 PGSIZE) s).
Proof.
  intros [[A W O] L G S N] Hp HF HT. split; try done. split; [by apply (pa_memset (PA := kalloc_allocator))| |done].
  apply (pt_wf_mem _ _ _ (k_mem s)); [done|]. intros p a Hpt Ha. change (rd8 (memset (k_mem s) q 0 PGSIZE) a = rd8 (k_mem s) a). rewrite rd8_memset by done.
  assert (~ in_page q a) as Hn; [|unfold in_page in Hn; zcases].
  apply elem_of_tables in Hpt as Hpt'. destruct Hpt' as [π Hπ]. pose proof (pt_page _ _ _ _ W _ _ Hπ) as Hpp.
  apply (pool_not_in base p q); [done|done|by intros ->|done].
Qed.

(** What the virtio specification and QEMU say of the registers: the identification of a
    block device, the status reads as written, the queue is not in use before the driver
    says so, and it has room for 8 descriptors. *)
Record disk_present (reg : Z -> kernel -> Z) : Prop := {
  dp_magic : forall s, reg VIRTIO_MMIO_MAGIC_VALUE s = 0x74726976;
  dp_version : forall s, reg VIRTIO_MMIO_VERSION s = 2;
  dp_device : forall s, reg VIRTIO_MMIO_DEVICE_ID s = 2;
  dp_vendor : forall s, reg VIRTIO_MMIO_VENDOR_ID s = 0x554d4551;
  dp_status : forall s v, k_mmio s !! (VIRTIO0 + VIRTIO_MMIO_STATUS) = Some v -> reg VIRTIO_MMIO_STATUS s = v;
  dp_ready : forall s, k_mmio s !! (VIRTIO0 + VIRTIO_MMIO_QUEUE_READY) = None -> reg VIRTIO_MMIO_QUEUE_READY s = 0;
  dp_num : forall s, 8 <= reg VIRTIO_MMIO_QUEUE_NUM_MAX s
}.

(** Another device register, lock or queue. *)
Lemma mapped_driver `{Layout} base F root T qs s m v :
  mapped base F root T qs s -> mapped base F root T qs (set_vdisk v (set_mmio m s)).
Proof.
  intros M. apply (mapped_ext base F F root T qs s); try done. destruct M as [V _ _ _ _]. pose proof (vm_alloc _ _ _ _ _ V) as Hpa.
  apply (pa_frame (PageAllocator := kalloc_allocator) base F s); [exact Hpa|reflexivity..|exact (pa_hart _ _ _ Hpa)].
Qed.

Lemma mapped_lock `{Layout} base F root T qs s l nm :
  mapped base F root T qs s -> l <> L_kmem -> mapped base F root T qs (set_lock l (unlocked nm) s).
Proof.
  intros M Hl. apply (mapped_ext base F F root T qs s); try done. destruct M as [V _ _ _ _]. pose proof (vm_alloc _ _ _ _ _ V) as Hpa.
  apply (pa_frame (PageAllocator := kalloc_allocator) base F s); [exact Hpa|reflexivity..| |exact (pa_hart _ _ _ Hpa)].
  unfold set_lock. cbn. by rewrite lookup_insert_ne.
Qed.

Lemma free_all n : forall k v s, (k + n <= length (v_free v))%nat ->
  exists v', foreach (seq k n) (fun i => modify (upd_vdisk (v_set_free i 1))) (set_vdisk v s) = Ok tt (set_vdisk v' s) /\
    length (v_free v') = length (v_free v) /\
    forall i, (i < length (v_free v))%nat -> v_free v' !! i = if (k <=? i)%nat && (i <? k + n)%nat then Some 1 else v_free v !! i.
Proof.
  induction n as [|n IH]; intros k v s Hk; cbn [seq foreach].
  - exists v. split; [done|]. split; [done|]. intros i Hi. destruct (Nat.leb_spec k i), (Nat.ltb_spec i (k + 0)); (done || lia).
  - destruct (IH (S k) (v_set_free k 1 v) s) as (v' & E & Hl & Hf); [cbn; rewrite length_insert; lia|].
    assert (length (v_free (v_set_free k 1 v)) = length (v_free v)) as El by apply length_insert.
    exists v'. split; [exact E|]. split; [by rewrite Hl|]. intros i Hi. rewrite Hf by lia. cbn [v_set_free v_free].
    destruct (decide (i = k)) as [-> |Hne].
    + rewrite list_lookup_insert_eq by lia. destruct (Nat.leb_spec (S k) k), (Nat.leb_spec k k), (Nat.ltb_spec k (k + S n)); (done || lia).
    + rewrite list_lookup_insert_ne by done. destruct (Nat.leb_spec (S k) i), (Nat.leb_spec k i), (Nat.ltb_spec i (k + S n)), (Nat.ltb_spec i (S k + n)); (done || lia).
Qed.

Lemma get_reg_is {B} reg r v s (k : Z -> KM B) : reg r s = v -> bind (get_reg reg r) k s = k v s.
Proof. intros <-. done. Qed.

Lemma put_reg_is {B} r v m s (k : unit -> KM B) :
  bind (put_reg r v) k (set_mmio m s) = k tt (set_mmio (<[VIRTIO0 + r := u32 v]> m) s).
Proof. done. Qed.

Lemma kmemset_is {B} p c n s (k : unit -> KM B) : bind (kmemset p c n) k s = k tt (set_mem (memset (k_mem s) p c n) s).
Proof. done. Qed.

Lemma modify_is {B} f s (k : unit -> KM B) : bind (modify f) k s = k tt (f s).
Proof. done. Qed.

(** Registers of the disk only. *)
Definition disk_only (m m' : gmap Z Z) : Prop := forall a, ~ VIRTIO0 <= a < VIRTIO0 + 0x1000 -> m' !! a = m !! a.

Lemma disk_only_write m m' r v : 0 <= r < 0x1000 -> disk_only m m' -> disk_only m (<[VIRTIO0 + r := v]> m').
Proof. intros Hr Hm a Ha. rewrite lookup_insert_ne by lia. by apply Hm. Qed.

Lemma virtio_probe reg s :
  disk_present reg -> disk_quiet s ->
  exists m status, disk_only (k_mmio s) m /\
    virtio_disk_init reg kalloc s =
    (let! desc := kalloc in
     let! avail := kalloc in
     let! used := kalloc in
     if (desc =? 0) || (avail =? 0) || (used =? 0) then panic "virtio disk kalloc"
     else
       do! kmemset desc 0 PGSIZE;
       do! kmemset avail 0 PGSIZE;
       do! kmemset used 0 PGSIZE;
       do! modify (upd_vdisk (fun v =>
             {| v_desc := replicate 8 desc_zero; v_avail := replicate 8 0; v_avail_idx := 0;
                v_used := replicate 8 0; v_used_idx := 0; v_free := v_free v; v_seen := v_seen v;
                v_info := v_info v; v_ops := v_ops v |}));
       do! put_reg VIRTIO_MMIO_QUEUE_NUM NUM;
       do! put_reg VIRTIO_MMIO_QUEUE_DESC_LOW desc;
       do! put_reg VIRTIO_MMIO_QUEUE_DESC_HIGH (Z.shiftr desc 32);
       do! put_reg VIRTIO_MMIO_DRIVER_DESC_LOW avail;
       do! put_reg VIRTIO_MMIO_DRIVER_DESC_HIGH (Z.shiftr avail 32);
       do! put_reg VIRTIO_MMIO_DEVICE_DESC_LOW used;
       do! put_reg VIRTIO_MMIO_DEVICE_DESC_HIGH (Z.shiftr used 32);
       do! put_reg VIRTIO_MMIO_QUEUE_READY 1;
       do! foreach (seq 0 8) (fun i => modify (upd_vdisk (v_set_free i 1)));
       put_reg VIRTIO_MMIO_STATUS (Z.lor status VIRTIO_CONFIG_S_DRIVER_OK)) (set_mmio m (set_lock L_vdisk (unlocked "virtio_disk") s)).
Proof.
  intros D Hq. unfold virtio_disk_init, initlock. unfold bind at 1, modify at 1. fold (unlocked "virtio_disk").
  set (s1 := set_lock L_vdisk _ s). assert (s1 = set_mmio (k_mmio s) s1) as Es by (by destruct s). clearbody s1.
  rewrite (get_reg_is _ _ _ _ _ (dp_magic _ D s1)), (get_reg_is _ _ _ _ _ (dp_version _ D s1)),
    (get_reg_is _ _ _ _ _ (dp_device _ D s1)), (get_reg_is _ _ _ _ _ (dp_vendor _ D s1)). rewrite !Z.eqb_refl. cbn [negb orb].
  eexists _, _. split; cycle 1.
  { rewrite Es at 1. rewrite !put_reg_is. rewrite (get_reg_is _ _ _ _ _ eq_refl), !put_reg_is. cbn zeta.
  set (m1 := <[VIRTIO0 + VIRTIO_MMIO_STATUS := _]> _).
  rewrite (get_reg_is _ _ _ _ _ (dp_status _ D (set_mmio m1 s1) _ (lookup_insert_eq _ _ _))).
  change (truthy (Z.land (u32 (Z.lor (Z.lor (Z.lor 0 VIRTIO_CONFIG_S_ACKNOWLEDGE) VIRTIO_CONFIG_S_DRIVER) VIRTIO_CONFIG_S_FEATURES_OK)) VIRTIO_CONFIG_S_FEATURES_OK)) with true.
  cbn [negb]. rewrite put_reg_is. set (m2 := <[VIRTIO0 + VIRTIO_MMIO_QUEUE_SEL := _]> m1).
  assert (m2 !! (VIRTIO0 + VIRTIO_MMIO_QUEUE_READY) = None) as Hn.
  { unfold m2, m1. rewrite !lookup_insert_ne by (unfold VIRTIO_MMIO_STATUS, VIRTIO_MMIO_QUEUE_SEL, VIRTIO_MMIO_DRIVER_FEATURES, VIRTIO_MMIO_QUEUE_READY; lia).
    apply Hq. unfold VIRTIO_MMIO_QUEUE_READY. lia. }
  rewrite (get_reg_is _ _ _ _ _ (dp_ready _ D (set_mmio m2 s1) Hn)). cbn [truthy Z.eqb negb].
  rewrite (get_reg_is _ _ _ _ _ eq_refl). pose proof (dp_num _ D (set_mmio m2 s1)) as Hmax.
  rewrite (proj2 (Z.eqb_neq _ 0)) by lia. rewrite (proj2 (Z.ltb_ge _ NUM)) by (unfold NUM; lia).
  reflexivity. }
  repeat (apply disk_only_write; [unfold VIRTIO_MMIO_STATUS, VIRTIO_MMIO_QUEUE_SEL, VIRTIO_MMIO_DRIVER_FEATURES; lia|]). by intros a Ha.
Qed.

(** The registers of the queue. *)
Definition queue_regs (desc avail used : Z) (m : gmap Z Z) : gmap Z Z :=
  <[VIRTIO0 + VIRTIO_MMIO_QUEUE_READY := u32 1]> (<[VIRTIO0 + VIRTIO_MMIO_DEVICE_DESC_HIGH := u32 (Z.shiftr used 32)]>
    (<[VIRTIO0 + VIRTIO_MMIO_DEVICE_DESC_LOW := u32 used]> (<[VIRTIO0 + VIRTIO_MMIO_DRIVER_DESC_HIGH := u32 (Z.shiftr avail 32)]>
      (<[VIRTIO0 + VIRTIO_MMIO_DRIVER_DESC_LOW := u32 avail]> (<[VIRTIO0 + VIRTIO_MMIO_QUEUE_DESC_HIGH := u32 (Z.shiftr desc 32)]>
        (<[VIRTIO0 + VIRTIO_MMIO_QUEUE_DESC_LOW := u32 desc]> (<[VIRTIO0 + VIRTIO_MMIO_QUEUE_NUM := u32 NUM]> m))))))).

Lemma virtio_up `{Layout} reg base F root T qs s :
  disk_present reg -> disk_quiet s -> mapped base F root T qs s -> k_vdisk s = vdisk_zero -> (3 <= size F)%nat ->
  exists F' s' m, virtio_disk_init reg kalloc s = Ok tt s' /\ mapped base F' root T qs s' /\ size F = (size F' + 3)%nat /\
    F' ⊆ F /\ v_free (k_vdisk s') = replicate 8 1 /\ disk_only (k_mmio s) m /\
    s' = set_hart (k_hart s') (set_mem (k_mem s') (set_kmem (k_kmem s') (set_vdisk (k_vdisk s') (set_mmio m
           (set_lock L_vdisk (unlocked "virtio_disk") s))))) /\
    hart_settle (k_hart s') = hart_settle (k_hart s).
Proof.
  intros D Hq M Hv Hsz. destruct (virtio_probe reg s D Hq) as (m & status & Hm & ->).
  set (s1 := set_mmio m (set_lock L_vdisk (unlocked "virtio_disk") s)).
  assert (mapped base F root T qs s1) as M1.
  { unfold s1. assert (set_mmio m (set_lock L_vdisk (unlocked "virtio_disk") s) =
      set_vdisk (k_vdisk s) (set_mmio m (set_lock L_vdisk (unlocked "virtio_disk") s))) as -> by (by destruct s).
    apply mapped_driver, mapped_lock; done. }
  destruct (alloc_mapped _ _ _ _ _ _ M1) as (d & s2 & E2 & D1 & D2 & D3 & D4 & M2 & St2); [intros ->; rewrite size_empty in Hsz; lia|].
  assert (size (F ∖ {[d]}) = size F - 1)%nat as Z2 by (rewrite size_difference, size_singleton by set_solver; lia).
  destruct (alloc_mapped _ _ _ _ _ _ M2) as (a & s3 & E3 & A1 & A2 & A3 & A4 & M3 & St3); [intros Hc; rewrite Hc, size_empty in Z2; lia|].
  assert (size (F ∖ {[d]} ∖ {[a]}) = size F - 2)%nat as Z3 by (rewrite size_difference, size_singleton by set_solver; lia).
  destruct (alloc_mapped _ _ _ _ _ _ M3) as (u & s4 & E4 & U1 & U2 & U3 & U4 & M4 & St4); [intros Hc; rewrite Hc, size_empty in Z3; lia|].
  assert (size (F ∖ {[d]} ∖ {[a]} ∖ {[u]}) = size F - 3)%nat as Z4 by (rewrite size_difference, size_singleton by set_solver; lia).
  set (F' := F ∖ {[d]} ∖ {[a]} ∖ {[u]}) in *.
  assert ((d ∉ F') /\ (a ∉ F') /\ (u ∉ F')) as (X1 & X2 & X3) by (unfold F'; set_solver).
  apply (wipe_mapped _ _ _ _ _ _ d) in M4; [|done..]. apply (wipe_mapped _ _ _ _ _ _ a) in M4; [|done..]. apply (wipe_mapped _ _ _ _ _ _ u) in M4; [|done..].
  destruct (mem_step_rest _ _ (mem_step_trans _ _ _ (mem_step_trans _ _ _ St2 St3) St4)) as [Es Eh].
  rewrite (bind_ok _ _ _ _ _ E2), (bind_ok _ _ _ _ _ E3), (bind_ok _ _ _ _ _ E4). rewrite D4, A4, U4. cbn [orb].
  set (mm := memset (memset (memset (k_mem s4) d 0 PGSIZE) a 0 PGSIZE) u 0 PGSIZE).
  change (set_mem (memset (k_mem (set_mem (memset (k_mem (set_mem (memset (k_mem s4) d 0 PGSIZE) s4)) a 0 PGSIZE) (set_mem (memset (k_mem s4) d 0 PGSIZE) s4))) u 0 PGSIZE) _)
    with (set_mem mm s4) in M4.
  set (v1 := {| v_desc := replicate 8 desc_zero; v_avail := replicate 8 0; v_avail_idx := 0;
                v_used := replicate 8 0; v_used_idx := 0; v_free := v_free (k_vdisk s4); v_seen := v_seen (k_vdisk s4);
                v_info := v_info (k_vdisk s4); v_ops := v_ops (k_vdisk s4) |}).
  assert (k_mmio s4 = m /\ k_vdisk s4 = vdisk_zero) as [Em Ev] by (rewrite Es; split; [done|exact Hv]).
  destruct (free_all 8 0 v1 (set_mmio (queue_regs d a u m) (set_mem mm s4))) as (v2 & E5 & L5 & H5); [unfold v1; cbn [v_free]; by rewrite Ev|].
  set (ms := <[VIRTIO0 + VIRTIO_MMIO_STATUS := u32 (Z.lor status VIRTIO_CONFIG_S_DRIVER_OK)]> (queue_regs d a u m)).
  exists F', (set_vdisk v2 (set_mmio ms (set_mem mm s4))), ms. split.
  { rewrite !kmemset_is, modify_is.
    change (upd_vdisk _ _) with (set_vdisk v1 (set_mem mm s4)).
    assert (set_vdisk v1 (set_mem mm s4) = set_mmio m (set_vdisk v1 (set_mem mm s4))) as -> by (rewrite <- Em; reflexivity).
    rewrite !put_reg_is. fold (queue_regs d a u m).
    change (set_mmio (queue_regs d a u m) (set_vdisk v1 (set_mem mm s4))) with (set_vdisk v1 (set_mmio (queue_regs d a u m) (set_mem mm s4))).
    rewrite (bind_ok _ _ _ _ _ E5). reflexivity. }
  split; [by apply mapped_driver|]. split; [lia|]. split; [intros x Hx; unfold F' in Hx; rewrite !elem_of_difference in Hx; tauto|]. split.
  { clear -H5 L5 Ev. unfold v1 in *. cbn [v_free] in *. rewrite Ev in *. change (length (v_free vdisk_zero)) with 8%nat in *.
    apply list_eq. intros i. change (k_vdisk _) with v2. destruct (decide (i < 8)%nat) as [Hi|Hi].
    - rewrite H5 by done. rewrite (lookup_replicate_2 8 1 i Hi). destruct (Nat.leb_spec 0 i), (Nat.ltb_spec i (0 + 8)); (done || lia).
    - rewrite !lookup_ge_None_2; [done|rewrite length_replicate; lia|lia]. }
  split.
  { unfold ms, queue_regs. repeat (apply disk_only_write; [vm_compute; split; congruence|]). exact Hm. }
  split; [|exact Eh]. rewrite Es at 1. reflexivity.
Qed.

(** ** The first process *)

Lemma zero_table : table_ok (replicate 90 inode_zero).
Proof.
  split; [reflexivity| | |]; intros i.
  - intros j x y dev inum [-> _]%lookup_replicate _ Hx. unfold is_inode in Hx. discriminate Hx.
  - intros x [-> _]%lookup_replicate. cbn. lia.
  - intros x [-> _]%lookup_replicate. done.
Qed.

(** The state userinit starts from. *)
Record ready `{Layout} (base : Z) (F : gset Z) (root : Z) (T : pt) (qs : list Z) (s : kernel) : Prop := {
  rd_idle : idle (k_hart s);
  rd_mapped : mapped base F root T qs s;
  rd_len : length (k_procs s) = 64%nat;
  rd_procs : forall i, (i < 64)%nat -> k_procs s !! i = Some (boot_pcb i);
  rd_nextpid : k_nextpid s = 1;
  rd_itable : k_itable s = replicate 90 inode_zero;
  rd_locks : lock_free L_pid s /\ lock_free L_itable s /\ forall i, (i < 64)%nat -> lock_free (L_proc i) s
}.

(** iget on the empty table takes entry 0. *)
Lemma iget_first dev inum s :
  k_itable s = replicate 90 inode_zero -> lock_free L_itable s -> hart_ok (k_hart s) ->
  iget dev inum s = Ok 0%nat (upd_inode 0 (in_id dev inum 1 0) (settle s)).
Proof.
  intros Hi Hl Hh. unfold iget. rewrite (bind_ok _ _ _ _ _ (acquire_ok L_itable s Hl Hh)). unfold bind at 1, get at 1.
  change (k_itable (locked L_itable s)) with (k_itable s). rewrite Hi. change (Z.to_nat NINODE) with 50%nat.
  assert (iget_scan (take 50 (replicate 90 inode_zero)) 0 dev inum None = (None, Some 0%nat)) as -> by (by vm_compute).
  rewrite modify_is. rewrite (bind_ok _ _ _ _ _ (release_private L_itable (upd_inode 0 (in_id dev inum 1 0)) s ltac:(by split) Hl Hh)). done.
Qed.

Lemma namei_root virtio_disk_rw kalloc kfree buf_addr stack s :
  k_itable s = replicate 90 inode_zero -> lock_free L_itable s -> hart_ok (k_hart s) ->
  namei virtio_disk_rw kalloc kfree buf_addr stack [47] s = Ok (Some 0%nat) (upd_inode 0 (in_id ROOTDEV ROOTINO 1 0) (settle s)).
Proof.
  intros Hi Hl Hh. unfold namei. unfold bind at 1, get at 1. unfold namex. cbn [head default from_option]. change (47 =? 47) with true. cbn match.
  rewrite bind_assoc. rewrite (bind_ok _ _ _ _ _ (iget_first ROOTDEV ROOTINO s Hi Hl Hh)). reflexivity.
Qed.

Lemma ready_allocatable `{Layout} base F root T qs s : ready base F root T qs s -> allocatable 0 (boot_pcb 0) s.
Proof.
  intros [R1 _ R3 R4 R5 _ (L1 & _ & L3)]. pose proof R1 as (_ & N & _). split; [|done|by apply R4; lia|done|lia|].
  - split; [by apply idle_ok|lia].
  - split; [done|]. rewrite R5. lia.
Qed.

(** The entry of the first process. *)
Definition first_pcb (forkret_addr tf root : Z) : PCB :=
  with_state RUNNABLE (with_cwd (Some 0%nat) (fresh_pcb forkret_addr 1 tf root (boot_pcb 0))).

(** The root directory in the inode table. *)
Definition root_table : list inode := alter (in_id ROOTDEV ROOTINO 1 0) 0%nat (replicate 90 inode_zero).

Lemma userinit_ok `{Layout} virtio_disk_rw buf_addr stack forkret_addr base F root T qs s :
  ready base F root T qs s -> (4 <= size F)%nat ->
  exists tf pt0 F' T' s', userinit virtio_disk_rw kalloc kfree buf_addr stack forkret_addr s = Ok tt s' /\
    mapped base F' root T qs s' /\ F' ⊆ F /\ vm_ok (PA := kalloc_allocator) base F' pt0 T' s' /\
    leaves T' = <[path TRAPFRAME := mk_pte tf (Z.lor PTE_R PTE_W)]> {[path TRAMPOLINE := mk_pte trampoline (Z.lor PTE_R PTE_X)]} /\
    k_procs s' = <[0%nat := first_pcb forkret_addr tf pt0]> (k_procs s) /\ k_itable s' = root_table /\
    s' = set_mem (k_mem s') (set_kmem (k_kmem s') (set_procs (k_procs s') (set_nextpid 2
           (set_initproc (Some 0%nat) (set_itable root_table (settle s)))))).
Proof.
  intros R Hsz. pose proof (ready_allocatable _ _ _ _ _ _ R) as A. destruct R as [R1 R2 R3 R4 R5 R6 (L1 & L2 & L3)].
  pose proof (idle_ok _ R1) as Hh. pose proof R2 as [V _ _ _ _].
  destruct (allocproc_ok (PageAllocator0 := kalloc_allocator) kalloc kfree forkret_addr base F 0 (boot_pcb 0) s A (vm_alloc _ _ _ _ _ V) Hsz)
    as (tf & pt0 & F' & T' & m & k & E & P1 & P2 & P3 & V' & HL & Fr).
  rewrite R5 in E, V'. change (1 + 1) with 2 in E, V'. set (f := fresh_pcb forkret_addr 1 tf pt0) in *.
  unfold userinit. rewrite (bind_ok _ _ _ _ _ E), modify_is.
  set (s2 := set_initproc (Some 0%nat) (grown m k 0 f (set_nextpid 2 (locked (L_proc 0) s)))).
  rewrite (bind_ok (the_proc (Some 0%nat)) _ s2 0%nat s2 eq_refl).
  assert (hart_ok (k_hart (locked (L_proc 0) s))) as Hh1 by (apply hart_push_ok; [done|]; destruct R1 as (_ & -> & _); lia).
  rewrite (bind_ok _ _ _ _ _ (namei_root virtio_disk_rw kalloc kfree buf_addr stack s2 R6 ltac:(apply (free_locked L_itable (L_proc 0) s); done) Hh1)).
  rewrite (bind_ok _ _ _ _ _ (set_proc_ok 0 _ _)), (bind_ok _ _ _ _ _ (set_proc_ok 0 _ _)), upd_proc_twice.
  set (g := with_state RUNNABLE ∘ with_cwd (Some 0%nat)).
  set (all := fun t => upd_proc 0 g (upd_inode 0 (in_id ROOTDEV ROOTINO 1 0) (set_initproc (Some 0%nat) (grown m k 0 f (set_nextpid 2 t))))).
  assert (private all) as Hall by (by split).
  assert (settle s2 = s2) as -> by (apply (f_equal (fun t => set_initproc (Some 0%nat) (grown m k 0 f (set_nextpid 2 t))) (settle_locked (L_proc 0) s Hh))).
  change (upd_proc 0 g (upd_inode 0 (in_id ROOTDEV ROOTINO 1 0) s2)) with (all (locked (L_proc 0) s)).
  rewrite (release_private (L_proc 0) all s Hall (L3 0%nat ltac:(lia)) Hh).
  exists tf, pt0, F', T', (all (settle s)). split; [done|].
  assert (kmem_ready base F' (all (settle s))) as Hpa.
  { apply (pa_frame (PageAllocator := kalloc_allocator) base F' _ _ (vm_alloc _ _ _ _ _ V')); [done|done| |by apply hart_settle_ok].
    change (k_locks s !! L_kmem = k_locks (locked (L_proc 0) s) !! L_kmem). unfold locked, set_lock. cbn. by rewrite lookup_insert_ne. }
  assert (F' ⊆ F) as Hsub by (rewrite P2; unfold foot; intros x Hx; apply elem_of_union; right; apply elem_of_union; by left).
  split; [by apply (mapped_ext base F F' root T qs s)|]. split; [done|]. split; [destruct V' as [_ W O]; split; [exact Hpa|exact W|exact O]|].
  split; [exact HL|]. split; [|split; [|]].
  - change (alter g 0%nat (alter f 0%nat (k_procs s)) = <[0%nat := first_pcb forkret_addr tf pt0]> (k_procs s)).
    rewrite list_alter_alter_eq. exact (alter_insert_at (g ∘ f) 0 (boot_pcb 0) _ (R4 0%nat ltac:(lia))).
  - change (alter (in_id ROOTDEV ROOTINO 1 0) 0%nat (k_itable s) = root_table). by rewrite R6.
  - unfold root_table. rewrite <- R6. reflexivity.
Qed.
