(* ===== verification/Boot.v ===== *)
(** * The kernel is ready when main reaches the scheduler

    The steps of [Main] composed: what holds of the whole state when hart 0 enters
    scheduler, and what the scheduler does next. *)

From S2P Require Import Prelude Mem CString State Spinlock Printf Locks PageAlloc Kalloc Vm PageTable VmMap Sv39 VmProps Devices KernelVm Sleep Bio Fs Inode File Proc Schedule ProcAlloc Exec Syscall Virtio Trap Main.

Section Boot.
Context `{Layout} (kernelVec : Z) (reg : Z -> kernel -> Z) (virtio_disk_rw : nat -> Z -> KM unit).
Context (buf_addr : nat -> Z) (stack forkret_addr : Z).
Abbreviation main := (main kernelVec reg virtio_disk_rw buf_addr stack forkret_addr).

(** A state with the same memory, page table and allocator. *)
Lemma mapped_keep base F root T qs s s' :
  mapped base F root T qs s -> k_mem s' = k_mem s -> k_kmem s' = k_kmem s -> r_satp (k_csr s') = r_satp (k_csr s) ->
  hart_ok (k_hart s') -> locks_grow s s' -> mapped base F root T qs s'.
Proof.
  intros M Em Ek Es Hh Hg. apply (mapped_ext base F F root T qs s); try done; [|rewrite Em; apply frame_refl].
  destruct M as [V _ _ _ _]. pose proof (vm_alloc _ _ _ _ _ V) as (B & [I1 I2 I3 I4 I5 I6 I7] & L & _).
  split; [by rewrite Ek|]. split; [|split; [by apply Hg|done]]. split; rewrite ?Ek, ?Em; done.
Qed.

(** procinit to fileinit. *)
Record tables_up (s s' : kernel) : Prop := {
  tu_same : k_hart s' = k_hart s /\ k_mem s' = k_mem s /\ k_kmem s' = k_kmem s /\ k_nextpid s' = k_nextpid s /\
    k_itable s' = k_itable s /\ k_vdisk s' = k_vdisk s /\ r_satp (k_csr s') = r_satp (k_csr s);
  tu_stvec : r_stvec (k_csr s') = kernelVec;
  tu_grow : locks_grow s s';
  tu_locks : (forall l, l ∈ [L_pid; L_wait; L_ticks; L_bcache; L_itable; L_ftable] -> lock_free l s') /\
    (forall i, (i < 64)%nat -> lock_free (L_proc i) s') /\
    (forall i, (i < 90)%nat -> lock_free (L_buf i) s' /\ lock_free (L_inode i) s');
  tu_procs : length (k_procs s') = 64%nat /\ forall i, (i < 64)%nat -> k_procs s' !! i = Some (boot_pcb i);
  tu_bcache : ring (k_bcache s') (initial_lru 90) /\ length (bc_buf (k_bcache s')) = 90%nat;
  tu_plic : priority s' VIRTIO0_IRQ = 1 /\ k_mmio s' !! PLIC_SPRIORITY 0 = Some 0 /\ enabled s' 0 VIRTIO0_IRQ = true;
  tu_disk : disk_quiet s -> disk_quiet s'
}.

Lemma plic_quiet s s' : h_tp (k_hart s) = 0 -> bind plicInit (fun _ => plicInitHart) s = Ok tt s' -> disk_quiet s -> disk_quiet s'.
Proof.
  intros Hh E Hq. unfold plicInit, registerDev, plicInitHart, enableDev, cpuid, mmio_rd, mmio_wr, bind, get, modify in E.
  cbn [k_hart set_mmio k_mmio] in E. rewrite Hh in E. change (s32 0) with 0 in E. injection E as <-.
  intros r Hr. cbn [k_mmio set_mmio]. rewrite !lookup_insert_ne; [by apply Hq|..]; unfold VIRTIO0, PLIC_SPRIORITY, PLIC_SENABLE, PLIC, VIRTIO0_IRQ; lia.
Qed.

Lemma tables_ok s :
  early s ->
  exists s', tables_up s s' /\ forall X (cont : KM X),
    (do! procinit; do! trapInit; do! trapInitHart kernelVec; do! plicInit; do! plicInitHart; do! binit; do! iinit; do! fileinit; cont) s =
    cont s'.
Proof.
  intros [(H1 & H2 & H3) Hp Hn Hb Hi Hv].
  destruct (procinit_ok s Hp) as (s1 & E1 & [P1 P2 P3 P4 P5]).
  set (s2 := set_lock L_ticks (unlocked "time") s1).
  set (c := {| r_stvec := kernelVec; r_sepc := r_sepc (k_csr s2); r_scause := r_scause (k_csr s2); r_stval := r_stval (k_csr s2);
                        r_satp := r_satp (k_csr s2); r_stimecmp := r_stimecmp (k_csr s2); r_time := r_time (k_csr s2) |}).
  set (s3 := set_csr c s2). assert (trapInitHart kernelVec s2 = Ok tt s3) as E3 by done.
  assert (r_satp c = r_satp (k_csr s1) /\ r_stvec c = kernelVec) as [C1 C2] by done. clearbody c.
  assert (k_hart s3 = k_hart s) as Eh3 by (change (k_hart s1 = k_hart s); by rewrite P1).
  destruct (plic_ready s3) as (s4 & E4 & Q1 & Q2 & Q3 & Q4); [rewrite Eh3, H1; unfold plic_hart, NCPU; lia|].
  assert (k_bcache s4 = k_bcache s) as Eb4 by (rewrite Q4; change (k_bcache s1 = k_bcache s); by rewrite P1).
  destruct (binit_ok s4) as (s5 & E5 & [B1 B2 [B3 B4]] & B5 & B6); [by rewrite Eb4|].
  assert (k_itable s5 = k_itable s) as Ei5 by (rewrite B1, Q4; change (k_itable s1 = k_itable s); by rewrite P1).
  destruct (iinit_ok s5) as (s6 & E6 & [I1 I2 [I3 I4]]); [by rewrite Ei5|].
  set (s7 := set_lock L_ftable (unlocked "ftable") s6).
  assert (locks_grow s1 s4) as G14 by (eapply grow_trans; [apply (grow_set L_ticks "time")|]; apply grow_same; by rewrite Q4).
  assert (locks_grow s6 s7) as G67 by apply grow_set.
  assert (locks_grow s4 s7) as G47 by (eapply grow_trans; [exact B2|]; eapply grow_trans; [exact I2|exact G67]).
  assert (locks_grow s1 s7) as G17 by (eapply grow_trans; [exact G14|exact G47]).
  assert (k_mmio s7 = k_mmio s4) as Em by (change (k_mmio s6 = k_mmio s4); rewrite I1; by rewrite B1).
  exists s7. split.
  - split.
    + assert (s6 = set_locks (k_locks s6) (set_bcache (k_bcache s5) (set_mmio (k_mmio s4) (set_csr c (set_procs (k_procs s1) s))))) as E.
      { rewrite I1 at 1. rewrite B1 at 1. rewrite Q4 at 1. unfold s3, s2. rewrite P1 at 1. reflexivity. }
      change (k_hart s6 = k_hart s /\ k_mem s6 = k_mem s /\ k_kmem s6 = k_kmem s /\ k_nextpid s6 = k_nextpid s /\ k_itable s6 = k_itable s /\
        k_vdisk s6 = k_vdisk s /\ r_satp (k_csr s6) = r_satp (k_csr s)).
      rewrite E. repeat (split; [reflexivity|]). change (r_satp c = r_satp (k_csr s)). rewrite C1. by rewrite P1.
    + change (r_stvec (k_csr s6) = kernelVec). rewrite I1, B1, Q4. exact C2.
    + eapply grow_trans; [exact P2|exact G17].
    + destruct P3 as (F1 & F2 & F3). split; [|split].
      * intros l Hl. repeat (apply elem_of_cons in Hl as [-> |Hl]); [by apply G17|by apply G17| | | |apply free_new|by apply elem_of_nil in Hl].
        -- apply G47. apply (grow_same s2 s4); [by rewrite Q4|apply free_new].
        -- by apply G67, I2.
        -- by apply G67.
      * intros i Hl. by apply G17, F3.
      * intros i Hl. split; [by apply G67, I2, B4|by apply G67, I4].
    + assert (k_procs s7 = k_procs s1) as -> by (change (k_procs s6 = k_procs s1); by rewrite I1, B1, Q4).
      split; [exact P4|]. intros i Hl. rewrite P5 by done. by rewrite (proj2 (Nat.ltb_lt i 64)).
    + assert (k_bcache s7 = k_bcache s5) as -> by (change (k_bcache s6 = k_bcache s5); by rewrite I1). done.
    + unfold priority, enabled in *. rewrite Em. rewrite Eh3, H1 in *. split; [exact Q1|]. split; [exact Q2|].
      rewrite Q3; [by rewrite orb_true_r|unfold plic_hart, NCPU; lia|unfold VIRTIO0_IRQ; lia].
    + intros Hq r Hr. rewrite Em. apply (plic_quiet s3 s4); [by rewrite Eh3|exact E4| |exact Hr].
      intros r' Hr'. change (k_mmio s1 !! (VIRTIO0 + r') = None). rewrite P1. by apply Hq.
  - intros X cont. rewrite (bind_ok _ _ _ _ _ E1). rewrite (bind_ok trapInit _ s1 tt s2 eq_refl), (bind_ok _ _ _ _ _ E3).
    rewrite <- bind_assoc, (bind_ok _ _ _ _ _ E4), (bind_ok _ _ _ _ _ E5), (bind_ok _ _ _ _ _ E6). reflexivity.
Qed.

(** ** The claims *)

(** The state in which start leaves the first hart: zeroed tables, no process, no lock held,
    nothing printed and no register of the disk written. *)
Record powered_on (s : kernel) : Prop := {
  po_early : early s;
  po_panic : k_panicked s = 0 /\ k_panicking s = 0;
  po_disk : disk_quiet s;
  po_free : km_freelist (k_kmem s) = 0
}.

(** The state in which hart 0 enters scheduler: [qs] are the pages of the kernel stacks, [F]
    the free pages, [tf] and [pt0] the trap frame and the page table of the first process. *)
Record booted (base : Z) (F : gset Z) (qs : list Z) (tf pt0 : Z) (s : kernel) : Prop := {
  bo_hart : idle (k_hart s) /\ r_stvec (k_csr s) = kernelVec;
  bo_pages : kmem_ready base F s;
  bo_stacks : length qs = 64%nat /\ NoDup qs /\ forall q, q ∈ qs -> pool_page base q /\ q ∉ F;
  bo_mmu : forall a user acc, 0 <= a < MAXVA ->
    satp_translate (r_satp (k_csr s)) (k_mem s) a user acc = seg_translate (kernel_segments qs) a user acc;
  bo_plic : priority s VIRTIO0_IRQ = 1 /\ k_mmio s !! PLIC_SPRIORITY 0 = Some 0 /\ enabled s 0 VIRTIO0_IRQ = true;
  bo_locks : (forall l, l ∈ [L_cons; L_pr; L_kmem; L_pid; L_wait; L_ticks; L_bcache; L_itable; L_ftable; L_vdisk] -> lock_free l s) /\
    (forall i, (i < 64)%nat -> lock_free (L_proc i) s) /\
    (forall i, (i < 90)%nat -> lock_free (L_buf i) s /\ lock_free (L_inode i) s);
  bo_bcache : ring (k_bcache s) (initial_lru 90) /\ length (bc_buf (k_bcache s)) = 90%nat;
  bo_disk : v_free (k_vdisk s) = replicate 8 1;
  bo_itable : k_itable s = root_table /\ table_ok (k_itable s);
  bo_procs : length (k_procs s) = 64%nat /\ k_procs s !! 0%nat = Some (first_pcb forkret_addr tf pt0) /\
    forall i, (0 < i < 64)%nat -> k_procs s !! i = Some (boot_pcb i);
  bo_first : k_initproc s = Some 0%nat /\ k_nextpid s = 2
}.

Lemma root_table_ok : table_ok root_table.
Proof.
  assert (replicate 90 inode_zero !! 0%nat = Some inode_zero) as Hx by done.
  assert (irefs (replicate 90 inode_zero) ROOTDEV ROOTINO < 2 ^ 31 - 2) as Hz by (by vm_compute).
  destruct (iget_entry_ok (replicate 90 inode_zero) 0 inode_zero ROOTDEV ROOTINO zero_table Hx ltac:(lia) Hz) as (_ & Ht & _).
  - right. split.
    + split; [by exists inode_zero|]. lia.
    + intros j y [-> _]%lookup_replicate. done.
  - unfold root_table. replace (alter (in_id ROOTDEV ROOTINO 1 0) 0%nat (replicate 90 inode_zero))
      with (alter (iget_entry ROOTDEV ROOTINO) 0%nat (replicate 90 inode_zero)) by reflexivity. exact Ht.
Qed.

(** The state before userinit. *)
Lemma ready_ok base F F' root T qs s s1 s2 m :
  early s -> tables_up s s1 -> mapped base F' root T qs s2 ->
  s2 = set_hart (k_hart s2) (set_mem (k_mem s2) (set_kmem (k_kmem s2) (set_vdisk (k_vdisk s2) (set_mmio m
         (set_lock L_vdisk (unlocked "virtio_disk") s1))))) ->
  hart_settle (k_hart s2) = hart_settle (k_hart s1) -> mapped base F root T qs s1 ->
  ready base F' root T qs s2 /\ locks_grow s1 s2 /\ lock_free L_vdisk s2.
Proof.
  intros [E1 E2 E3 E4 E5 E6] [(S1 & S2 & S3 & S4 & S5 & S6 & S7) _ G (L1 & L2 & L3) (P1 & P2) _ _ _] M Es Eh _.
  set (t := set_lock L_vdisk (unlocked "virtio_disk") s1) in *.
  assert (k_locks s2 = k_locks t) as El by (by rewrite Es).
  assert (locks_grow t s2) as Gt by (by apply grow_same). assert (locks_grow s1 s2) as G2 by (eapply grow_trans; [apply grow_set|exact Gt]).
  assert (k_procs s2 = k_procs s1) as Ep by (by rewrite Es).
  split; [|split; [done|apply Gt, free_new]]. split; [|done|by rewrite Ep|by rewrite Ep| | |].
  - rewrite <- idle_settle, Eh, idle_settle, S1. done.
  - transitivity (k_nextpid s1); [by rewrite Es|congruence].
  - transitivity (k_itable s1); [by rewrite Es|congruence].
  - split; [apply G2, L1; set_solver|]. split; [apply G2, L1; set_solver|]. intros i Hi. by apply G2, L2.
Qed.

Lemma main_ok started s :
  powered_on s -> disk_present reg -> end_ + 175 * PGSIZE <= PHYSTOP ->
  exists F qs tf pt0 s', main started s = Ok 1 s' /\ booted (PGROUNDUP end_) F qs tf pt0 s'.
Proof.
  intros [He [Hp1 Hp2] Hq Hf] D Hend. set (base := PGROUNDUP end_).
  destruct (console_ok s He Hp1 Hp2 Hq) as (s1 & E1 & He1 & Hc1 & Hq1 & Ek1 & _ & G1 & Lc).
  destruct (kinit_up s1 He1 Hc1 Hq1) as (F2 & s2 & E2 & He2 & Hq2 & Hr2 & HF2 & _ & G2 & Lk); [by rewrite Ek1|].
  assert (173 <= size F2)%nat as Z2.
  { apply (pool_size 173 base F2 HF2). pose proof base_spec as (_ & B2 & B3 & _). pose proof end_phystop.
    destruct (PGROUNDUP_spec end_) as [_ B]; [pose proof (layout_base end_ (Z.le_refl _)); unfold PHYSTOP, KERNBASE, PGSIZE in *; lia|].
    unfold base, PGSIZE in *. lia. }
  destruct (paging_up 7 base F2 s2 Hr2 ltac:(lia)) as (root & T & qs & F3 & t3 & s3 & E3 & E3' & M3 & Z3 & _ & Es3 & Eh3).
  assert (early s3) as He3 by (apply (early_ext s2); [done|done|by rewrite Es3..]).
  assert (disk_quiet s3) as Hq3 by (intros r Hr; rewrite Es3; by apply Hq2).
  assert (locks_grow s2 s3) as G3 by (apply grow_same; by rewrite Es3).
  destruct (tables_ok s3 He3) as (s4 & U & E4). pose proof U as [(S1 & S2 & S3 & S4 & S5 & S6 & S7) St G4 (L1 & L2 & L3) P B I Q].
  assert (mapped base F3 root T qs s4) as M4 by (apply (mapped_keep base F3 root T qs s3); try done; rewrite S1; apply idle_ok, He3).
  assert (k_vdisk s4 = vdisk_zero) as Ev4 by (rewrite S6; apply He3).
  destruct (virtio_up reg base F3 root T qs s4 D (Q Hq3) M4 Ev4 ltac:(lia)) as (F5 & s5 & m5 & E5 & M5 & Z5 & _ & V5 & Hm5 & Es5 & Eh5).
  destruct (ready_ok base F3 F5 root T qs s3 s4 s5 m5 He3 U M5 Es5 Eh5 M4) as (R5 & G5 & Lv).
  destruct (userinit_ok virtio_disk_rw buf_addr stack forkret_addr base F5 root T qs s5 R5 ltac:(lia))
    as (tf & pt0 & F6 & T6 & s6 & E6 & M6 & _ & _ & _ & Ep6 & Ei6 & Es6).
  exists F6, qs, tf, pt0, s6. destruct R5 as [R1 _ R3 R4 _ _ _]. split.
  { assert (main_init kernelVec reg virtio_disk_rw buf_addr stack forkret_addr s = Ok tt s6) as E.
    { unfold main_init. rewrite E1, (bind_ok _ _ _ _ _ E2), (bind_ok _ _ _ _ _ E3), (bind_ok _ _ _ _ _ E3'), E4, (bind_ok _ _ _ _ _ E5). exact E6. }
    unfold main, Main.main, cpuid. unfold bind at 1, get at 1. destruct He as [(-> & _ & _) _ _ _ _ _]. change (s32 0 =? 0) with true. cbn match.
    by rewrite (bind_ok _ _ _ _ _ E). }
  assert (locks_grow s5 s6) as G6 by (apply grow_same; by rewrite Es6).
  assert (locks_grow s4 s6) as G46 by (eapply grow_trans; [exact G5|exact G6]).
  assert (locks_grow s2 s6) as G26 by (eapply grow_trans; [exact G3|]; eapply grow_trans; [exact G4|exact G46]).
  assert (k_mmio s6 = m5) as Em6 by (rewrite Es6; change (k_mmio s5 = m5); by rewrite Es5).
  assert (k_bcache s6 = k_bcache s4) as Eb6 by (rewrite Es6; change (k_bcache s5 = k_bcache s4); by rewrite Es5).
  assert (k_csr s6 = k_csr s4) as Ec6 by (rewrite Es6; change (k_csr s5 = k_csr s4); by rewrite Es5).
  split.
  - split; [|by rewrite Ec6]. rewrite Es6. change (idle (hart_settle (k_hart s5))). by apply idle_settle.
  - exact (vm_alloc _ _ _ _ _ (mp_vm _ _ _ _ _ _ M6)).
  - exact (mp_stacks _ _ _ _ _ _ M6).
  - intros a user acc Ha. by apply (mapped_mmu base F6 root T qs s6).
  - unfold priority, enabled in *. rewrite Em6. rewrite !Hm5; [exact I|..]; unfold VIRTIO0, PLIC_SPRIORITY, PLIC_SENABLE, PLIC, VIRTIO0_IRQ; lia.
  - split; [|split].
    + intros l Hl. rewrite !elem_of_cons in Hl. destruct Hl as [-> |[-> |[-> |Hl]]].
      * by apply G26, G2.
      * apply G26, G2. by destruct Hc1 as (_ & _ & Hl & _).
      * by apply G26.
      * destruct (decide (l = L_vdisk)) as [-> |Hne]; [by apply G6|]. apply G46, L1. rewrite !elem_of_cons. tauto.
    + intros i Hi. by apply G46, L2.
    + intros i Hi. destruct (L3 i Hi). split; by apply G46.
  - by rewrite Eb6.
  - rewrite Es6. exact V5.
  - rewrite Ei6. split; [done|apply root_table_ok].
  - rewrite Ep6, length_insert. split; [done|]. split; [apply list_lookup_insert_eq; lia|]. intros i Hi. rewrite list_lookup_insert_ne by lia. apply R4. lia.
  - rewrite Es6. done.
Qed.

(** C3: started on a powered-on machine with the disk of QEMU and at least 175 pages above the
    kernel, main on hart 0 runs every initialisation without a panic and sets [started]; the
    state it hands to the scheduler has: a hart that runs no process, holds no lock and traps to
    kernelVec; the allocator's invariant for the free pages; the MMU translating by the kernel's
    segments; the disk's interrupts delivered to the hart; every lock of the kernel free; the
    ring of all buffers; all the disk's descriptors free; a valid inode table with one reference
    to the root directory; and the process table with exactly one entry in use, the runnable
    first process with pid 1 in the root directory, whose context returns to forkret on its own
    kernel stack. *)
Theorem main_boots started s :
  powered_on s -> disk_present reg -> end_ + 175 * PGSIZE <= PHYSTOP ->
  exists F qs tf pt0 s', main started s = Ok 1 s' /\ booted (PGROUNDUP end_) F qs tf pt0 s'.
Proof. apply main_ok. Qed.

Lemma dispatched_entry i p s : k_procs s !! i = Some p -> k_procs (dispatched i s) !! i = Some (with_state RUNNING p).
Proof. intros Hp. change (alter (with_state RUNNING) i (k_procs s) !! i = Some (with_state RUNNING p)). by rewrite list_lookup_alter_eq, Hp. Qed.

(** C25: from the state main leaves, the turn of scheduler for entry 0 switches to the first
    process: it is RUNNING on this hart, its lock is held, its context returns to forkret, and
    the word below its stack pointer is writable and is the last word of the first stack page.
    The turns for the other entries find nothing to run. *)
Theorem first_process_runs base F qs tf pt0 s :
  booted base F qs tf pt0 s ->
  exists s' p q, scheduler_try 0 s = Ok true s' /\ c_proc (h_cpu (k_hart s')) = Some 0%nat /\
    held_by (h_tp (k_hart s')) (L_proc 0) s' /\
    k_procs s' !! 0%nat = Some p /\ p_state p = RUNNING /\ p_pid p = 1 /\ p_cwd p = Some 0%nat /\
    ctx_ra (p_context p) = forkret_addr /\ qs !! 0%nat = Some q /\
    satp_translate (r_satp (k_csr s')) (k_mem s') (ctx_sp (p_context p) - 8) false Store = Some (q + PGSIZE - 8) /\
    forall i, (0 < i < 64)%nat -> scheduler_try i s = Ok false (settle s).
Proof.
  intros [[Hi _] _ (Hlen & _) Hmmu _ (_ & Hl & _) _ _ _ (_ & P0 & P1) _]. pose proof (idle_ok _ Hi) as Hh.
  destruct (lookup_lt_is_Some_2 qs 0 ltac:(lia)) as [q Hq].
  exists (dispatched 0 s), (with_state RUNNING (first_pcb forkret_addr tf pt0)), q.
  split; [by rewrite (scheduler_try_ok 0 _ s Hh (Hl 0%nat ltac:(lia)) P0)|]. split; [done|].
  split; [exists (lk_name (lock_of s (L_proc 0))); apply lookup_insert_eq|].
  split; [exact (dispatched_entry 0 _ s P0)|].
  do 4 (split; [reflexivity|]). split; [exact Hq|]. split.
  - change (r_satp (k_csr (dispatched 0 s))) with (r_satp (k_csr s)). change (k_mem (dispatched 0 s)) with (k_mem s).
    assert (ctx_sp (p_context (with_state RUNNING (first_pcb forkret_addr tf pt0))) = KSTACK 0 + PGSIZE) as -> by (by vm_compute).
    rewrite Hmmu by (by vm_compute). rewrite (stack_translate qs 0 q _ Hq); [f_equal; change (Z.of_nat 0) with 0; lia|].
    change (Z.of_nat 0) with 0. unfold PGSIZE. lia.
  - intros i Hi'. by rewrite (scheduler_try_ok i _ s Hh (Hl i ltac:(lia)) (P1 i Hi')).
Qed.

(** A hart other than 0 waits while [started] is 0 and then enters scheduler in the state
    it was in: main turns on no paging for it, sets no trap vector and enables none of its
    interrupts. *)
Theorem main_secondary started s :
  s32 (h_tp (k_hart s)) <> 0 ->
  main started s = if started =? 0 then Stop (Spin "started") s else Ok started s.
Proof.
  intros Hh. unfold Main.main, cpuid. unfold bind at 1, get at 1. rewrite (proj2 (Z.eqb_neq _ _) Hh). by destruct (started =? 0).
Qed.
End Boot.

(** ** Witnesses *)

(** The registers of the disk of QEMU. *)
Definition demo_reg (r : Z) (s : kernel) : Z :=
  if r =? VIRTIO_MMIO_MAGIC_VALUE then 0x74726976
  else if (r =? VIRTIO_MMIO_VERSION) || (r =? VIRTIO_MMIO_DEVICE_ID) then 2
  else if r =? VIRTIO_MMIO_VENDOR_ID then 0x554d4551
  else if r =? VIRTIO_MMIO_QUEUE_NUM_MAX then 1024
  else default 0 (k_mmio s !! (VIRTIO0 + r)).

Lemma demo_present : disk_present demo_reg.
Proof.
  split; try (intros s; reflexivity).
  - intros s v Hv. change (default 0 (k_mmio s !! (VIRTIO0 + VIRTIO_MMIO_STATUS)) = v). by rewrite Hv.
  - intros s Hv. change (default 0 (k_mmio s !! (VIRTIO0 + VIRTIO_MMIO_QUEUE_READY)) = 0). by rewrite Hv.
  - intros s. change (8 <= 1024). lia.
Qed.

Lemma boot_powered : powered_on boot_kernel.
Proof. split; [split; [by split|reflexivity..]|by split| |reflexivity]. intros r Hr. apply lookup_empty. Qed.

#[local] Existing Instance wide_layout.

Lemma main_boots_witness :
  exists F qs tf pt0 s', Main.main 0x80001000 demo_reg (fun _ _ => ret tt) (fun _ => 0) 0 0x80002000 0 boot_kernel = Ok 1 s' /\
    booted 0x80001000 0x80002000 (PGROUNDUP end_) F qs tf pt0 s'.
Proof.
  apply (main_boots 0x80001000 demo_reg (fun _ _ => ret tt) (fun _ => 0) 0 0x80002000 0 boot_kernel boot_powered demo_present).
  by vm_compute.
Defined.

Lemma first_process_runs_witness :
  exists s s' p, scheduler_try 0 s = Ok true s' /\ k_procs s' !! 0%nat = Some p /\ ctx_ra (p_context p) = 0x80002000.
Proof.
  destruct (main_ok 0x80001000 demo_reg (fun _ _ => ret tt) (fun _ => 0) 0 0x80002000 0 boot_kernel boot_powered demo_present) as (F & qs & tf & pt0 & s & _ & B).
  { by vm_compute. }
  destruct (first_process_runs 0x80001000 0x80002000 (PGROUNDUP end_) F qs tf pt0 s B) as (s' & p & q & E & _ & _ & Hp & _ & _ & _ & Hra & _).
  exists s, s', p. split; [exact E|]. split; [exact Hp|exact Hra].
Defined.

(** Hart 1. *)
Definition second_hart : kernel :=
  set_hart {| h_tp := 1; h_cpu := h_cpu (k_hart boot_kernel); h_sstatus := 0 |} boot_kernel.

Lemma main_secondary_witness :
  Main.main 0x80001000 demo_reg (fun _ _ => ret tt) (fun _ => 0) 0 0x80002000 1 second_hart = Ok 1 second_hart.
Proof. apply (main_secondary 0x80001000 demo_reg (fun _ _ => ret tt) (fun _ => 0) 0 0x80002000 1 second_hart). by vm_compute. Defined.
